(* ===== verification/_CoqProject ===== *)
-Q . S2P
Prelude.v
Graph.v
Enums.v
StateMachine.v
Models.v
Demo.v
Store.v
Shared.v
FormValidation.v
Conditions.v
Delegation.v
PassRule.v
NodeConfig.v
FormStorage.v
FormTables.v
RecordKeys.v
Binding.v
BindingProps.v
FlowDefinition.v
Processors.v
Engine.v
Tenancy.v
TaskService.v
Queue.v
NodeService.v
Commands.v
Timeout.v
FlowCommands.v
FlowManagement.v
Views.v
Lists.v
Discipline.v
EngineInv.v
Traversal.v
ServiceInv.v
CommandInv.v
LifecycleInv.v
TimeoutInv.v
Rows.v
System.v
Walk.v
Projections.v
TimeoutProps.v
Access.v
NodeProps.v
Findings.v
Invariants.v
CommandProps.v
Deployment.v
Charts.v
ViewProps.v
Offers.v
Story.v
Catalogue.v
Cache.v
Eviction.v
CacheProps.v
Sequence.v
SequenceProps.v
