(* ===== verification/Prelude.v ===== *)
(** * Verification of the approval workflow, the cache and the serial numbers of
      vef-framework-go

    The framework is a collection of Go packages.  The one with most rules of its own
    is the approval workflow: [src/approval] (the public data model) and
    [src/internal/approval] (the engine and its commands).  A flow is designed as
    a graph of nodes and edges, deployed as a version, and published.  Starting an
    instance of it walks the graph: passive nodes are passed at once, approval and
    handle nodes open a visit and ask people by creating tasks, a condition node
    chooses a branch, an end node completes the instance.  People answer with
    commands (approve, reject, transfer, roll back, add and remove assignees,
    withdraw, resubmit, ...); each command is one database transaction.  When the
    pass rule of a node is decided, the node is settled and the walk goes on.
    Scheduled jobs act beside the commands: a scanner deals with tasks past their
    deadline and warns of deadlines, and a worker brings the tables of the host up
    to date with the instances bound to them.

    Two smaller packages stand beside it.  [src/cache] keeps values in memory under
    a policy that chooses what to evict, and loads what is missing.  [src/sequence] with
    [src/internal/sequence] hands out serial numbers from counters kept in memory, in a
    table or in Redis, which start anew with the calendar or at a ceiling.

    ** How the code is modelled

    The database is a record of tables, each a list of rows in insertion order
    ([Models.St]); a handler is a function in the monad [M]: state passing over
    the store with errors, [St -> result Error (A * St)].  A failing handler
    leaves no store, and [runInTx] restores the old one: that is the rollback of
    the surrounding transaction.  Rows, configuration structs and events are
    records with the source's field names ([Struct_Field]), enumerations are
    inductive types with a constructor for unknown strings where the source can
    meet one.  Go integers are [Z], [float64] is IEEE binary64 of [SpecFloat],
    decimals are scaled integers, strings are byte strings.

    Everything the code reaches through an interface is a field of the class
    [Models.Host], an argument of the definitions: clock steps, id generation, the
    organisation service, lifecycle hooks, whether the database accepts a statement
    on a generated form table or a business table and what its catalogue says, how
    a reference names a business record, the hash of a record, the text of floats and
    times, retention windows, the expression engine, host aggregators, regular
    expressions, templates and JSON.  They take no store, so they cannot write
    approval tables.
    Theorems hold for every host; where one needs ids to be fresh it says so.

    ** The files

    - [Prelude] (this file): results, the monad, list lemmas, tactics, hints.
    - [Graph]: [detectCycle] and [collectReachable] of [service/flow_definition.go]
      and that they decide cycles and reachability.
    - [Enums], [StateMachine], [Models], [Demo], [Store]: [approval/enums.go],
      [engine/state_machine.go], [approval/models.go] and the structs and events
      beside it, one concrete host for the examples, and the primitives that read
      and write tables.
    - [Shared]: [internal/approval/shared].
    - [FormValidation], [Conditions], [Delegation], [PassRule]: the pure parts of
      [service/validation.go], [strategy/condition.go] with [aggregator.go],
      [engine/helpers.go] with [strategy/assignee.go] and [cc.go], and
      [strategy/pass_rule.go].
    - [NodeConfig], [FlowDefinition]: what deployment checks, of
      [service/node_config_validation.go], [form_fields_validation.go],
      [condition_aggregates.go], [field_permissions.go], [flow_definition.go].
    - [FormStorage], [FormTables]: [internal/approval/storage], the tables generated
      for a form, and that accepted forms can be provisioned.
    - [RecordKeys], [Binding], [BindingProps]: [internal/approval/binding], how the
      key of a business record is stored ([record_key.go]), what ties a flow to a
      host table ([config_validator.go]), the claim on a record and its wanted state
      ([projector.go]), the write ([writer.go]) and the worker ([worker.go]); then
      what they promise one by one.
    - [Processors], [Engine]: the node processors, visits, transitions and the
      traversal of [internal/approval/engine].
    - [Tenancy], [TaskService], [NodeService]: [approval/tenancy.go] and
      [service/task.go], [instance.go], [node.go]; [Queue] holds the theorems on
      the sequential queue.
    - [Commands], [FlowCommands], [FlowManagement]: the handlers of
      [internal/approval/command], those on running instances first, then starting,
      publishing and activating, then creating, changing and deploying flows.
    - [Timeout]: [timeout/scanner.go].
    - [Views], [Lists]: [internal/approval/query], what is shown of an instance (the
      detail of a viewer and of an administrator, the timeline, the diagram, the
      actions offered) and the lists with their paging ([page/page.go]).
    - [Discipline], [EngineInv], [Traversal], [ServiceInv], [CommandInv],
      [LifecycleInv], [TimeoutInv], [Rows], [System]: the main invariant, layer by
      layer up to all commands and jobs, with the rows a deployment inserts, and the
      transition system they make ([exec], [runJob], [reachable]).
    - [Walk]: what it takes for a relation between stores to be kept by every command
      and job; [Projections], [TimeoutProps] use it for the bound records and for
      the scanner.
    - [Access], [NodeProps], [Findings], [Invariants], [CommandProps], [Deployment]:
      theorems on whole commands and on reachable stores.
    - [Cache], [Eviction], [CacheProps]: [cache/eviction.go], [memory.go],
      [singleflight_mixin.go], [invalidating.go] and [key_builder.go]; what each
      policy promises ([Eviction.EvictionLaws]); what the cache promises on any of them.
    - [Sequence], [SequenceProps]: [sequence/policy.go], [rule.go], [format.go], the
      three stores, [internal/sequence/engine.go] and the calendar of [timex]; the
      contract of the stores ([SequenceProps.StoreLaws]) and what it gives.
    - [Charts], [ViewProps], [Offers], [Story], [Catalogue]: versions keep the drawing
      they were deployed from, and what the queries show in reachable stores agrees
      with what the commands do.

    ** What the theorems show

    - Over every sequence of commands and jobs: a running instance has exactly one active
      visit, at its current node, and asks people only there; any other instance
      asks nobody; final statuses stay final and rows keep their identity; a
      command touches one instance; nobody is copied twice at a visit; a flow has
      at most one published version, and codes and version numbers name one thing.
    - Business records: no two unconcluded instances own one record, no wanted state
      is lost, a write reaches exactly the bound row and only while it belongs to
      the owner expected, outdated claims do nothing, keys survive storage.
    - Deadlines: overdue tasks are dealt with as the node says, warnings are sent
      once, and the scheduled scans consist of steps of the system.
    - Deciding a node: the pass rule decides as early as possible and never gets
      stuck, the node is settled as it says, the sequential queue and added
      assignees are served in order.
    - Access: only the assignee decides, tenants are separated.
    - Views: a viewer sees and edits the fields some context grants; whatever succeeds
      was offered, the rollback targets offered are exactly those accepted, the task
      card is accurate; the timeline and the diagram agree; the work list is complete
      and agrees with the badge; the flows listed are those whose start form loads.
    - Deployment: accepted definitions are exactly the well-formed workflows, and
      their nodes are executable; a deployed version compiles and leads on from every
      node; an accepted form can be provisioned in every dialect.
    - Data: form validation, merging, conditions, aggregates, delegation,
      normalisation and truncation do what their comments say.
    - Cache: after any history the policies evict what their names say; map, counter
      and policy stay in step whatever the threads do; storing evicts one entry at most
      and only when full; invalidated keys are loaded again.
    - Serial numbers: the three stores answer alike; counters start anew exactly when the
      calendar period changes; in between the numbers have no gaps and the serials no
      repetitions; a Redis reservation that is retried is still atomic.
    - Departures of the code from its intent are proved in [Findings], [PassRule],
      [FormTables], [Deployment], [CacheProps] and [SequenceProps].

    ** Fuel

    [ProcessNode] recurses with the source's own bound [maxNodeDepth] (100) and
    fails like it.  The delegation chain has the source's bound of ten.  The
    sequential queue runs with one more than the number of waiting tasks and is
    proved to stop before.  The graph searches run with the number of nodes (or
    edges) and are proved never to run out.  The scans for overdue tasks and for
    warnings read batches until one comes back short; their models take the number
    of rounds allowed and say whether the scan ended, and the theorems on them hold
    for every number.  The loop that makes room in the cache runs with one more round
    than there are entries ([roomFuel]) and is proved to end.  The retries of a Redis
    reservation follow the list of clashing writes.  Replacing date placeholders takes
    at most a round per character and one more.

    ** Abstractions and what is not modelled

    - A [SELECT] without [ORDER BY] returns rows in insertion order, and rows that tie
      under an [ORDER BY] keep one order from page to page, which the database only
      promises where the query adds the id.  Iteration over
      a Go map, whose order is unspecified, follows [map_to_list].
    - [FlowCache] returns what compiling the version gives: published versions do
      not change.
    - Failures of the database itself, locks and concurrent transactions: handlers
      take row locks and run one after the other here.
    - The time stamp an event carries, error messages, logging and metrics.
    - The libraries [go-streams] and [go-collections] appear as the list and set
      operations they are documented to be.
    - A job works on rows it read earlier: [enabled] allows any row that was once
      scanned, so commands may come between.
    - The rows of business tables are cells by column; whether a query is accepted
      and which values a column deems equal is up to the host.
    - Positions in the diagram, JSON encoding of what is shown, and a database's own
      limits on [OFFSET].
    - A section the cache runs under its mutex is one step; what a reader does after
      looking outside the mutex is a later step on a map that may have changed.
      Concurrent callers of [GetOrLoad] that share one load are not modelled.
    - A time of the serial numbers is the local wall clock in seconds, which is what
      Redis keeps of it; [time.Format] and the text of a time are parameters.
    - HTTP resources and generated SQL.  The rest of the framework (orm, crud,
      security, storage, cron, events, ...) is outside. *)
From stdpp Require Export base tactics option list list_numbers strings gmap sets relations sorting.
From Stdlib Require Export ZArith Lia.

#[global] Set Default Goal Selector "!".
Declare Scope vef_scope.
Delimit Scope vef_scope with vef.
Open Scope vef_scope.

(** ** Outcomes *)

(** The outcome of a Go function with results [(T, error)]. *)
Inductive result (E A : Type) : Type :=
  | Ok (a : A)
  | Err (e : E).
Arguments Ok {E A} a.
Arguments Err {E A} e.

#[export] Instance result_ret {E} : MRet (result E) := λ A a, Ok a.
#[export] Instance result_bind {E} : MBind (result E) :=
  λ A B f r, match r with Ok a => f a | Err e => Err e end.
#[export] Instance result_fmap {E} : FMap (result E) :=
  λ A B f r, match r with Ok a => Ok (f a) | Err e => Err e end.

Definition isOk {E A} (r : result E A) : bool :=
  match r with Ok _ => true | Err _ => false end.

(** A nil-error guard: [if cond { return err }]. *)
Definition failIf {E} (b : bool) (e : E) : result E unit :=
  if b then Err e else Ok tt.
(** [for _, x := range l { if err := check(x); err != nil { return err } }] *)
Fixpoint checkAll {E A} (check : A → result E unit) (l : list A) : result E unit :=
  match l with
  | [] => Ok tt
  | x :: l' => check x ≫= λ _, checkAll check l'
  end.
Definition is_Some_b {A} (o : option A) : bool := match o with Some _ => true | None => false end.

Lemma failIf_Ok {E} b (e : E) : failIf b e = Ok tt ↔ b = false.
Proof. unfold failIf. destruct b; naive_solver. Qed.
Lemma result_bind_Ok {E A B} (r : result E A) (k : A → result E B) y :
  r ≫= k = Ok y ↔ ∃ x, r = Ok x ∧ k x = Ok y.
Proof. destruct r; cbn; naive_solver. Qed.
Lemma result_seq_Ok {E B} (r : result E unit) (k : result E B) y :
  (r ≫= λ _, k) = Ok y ↔ r = Ok tt ∧ k = Ok y.
Proof. destruct r as [[]|]; cbn; naive_solver. Qed.
Lemma checkAll_Ok {E A} (check : A → result E unit) l :
  checkAll check l = Ok tt ↔ ∀ x, x ∈ l → check x = Ok tt.
Proof.
  induction l as [|x l IH]; cbn; [split; [intros _ x Hx; by apply elem_of_nil in Hx|done]|].
  rewrite result_seq_Ok, IH. split.
  - intros [Hx Hl] y [->|Hy]%elem_of_cons; auto.
  - intros Ha. split; [apply Ha, list_elem_of_here|]. intros y Hy. by apply Ha, list_elem_of_further.
Qed.
Lemma Forall_iff_impl {A} (P Q : A → Prop) (l : list A) :
  (∀ x, x ∈ l → P x ↔ Q x) → (∀ x, x ∈ l → P x) ↔ (∀ x, x ∈ l → Q x).
Proof. firstorder. Qed.

(** ** The transaction monad

    A command handler of the program runs inside one database transaction: it
    reads and writes the store and may return an error, in which case every
    write is rolled back.  [SE St E A] is that computation: the store is threaded
    through explicitly and dropped when an error is returned. *)
Section transaction_monad.
Context {St E : Type}.

Definition SE (A : Type) : Type := St → result E (A * St).

#[export] Instance SE_ret : MRet SE := λ A a s, Ok (a, s).
#[export] Instance SE_bind : MBind SE := λ A B f m s,
  match m s with
  | Ok (a, s') => f a s'
  | Err e => Err e
  end.

Definition throw {A} (e : E) : SE A := λ _, Err e.
Definition gets {A} (f : St → A) : SE A := λ s, Ok (f s, s).
Definition modify (f : St → St) : SE unit := λ s, Ok (tt, f s).
Definition liftR {A} (r : result E A) : SE A := λ s,
  match r with Ok a => Ok (a, s) | Err e => Err e end.

(** [if err := guard(); err != nil { return err }] *)
Definition throwIf (b : bool) (e : E) : SE unit := if b then throw e else mret tt.

(** Rewriting the error of a failed call: [if errors.Is(err, x) { return y }]. *)
Definition mapErr {A} (f : E → E) (m : SE A) : SE A := λ s,
  match m s with Ok r => Ok r | Err e => Err (f e) end.

(** A dropped result: [m ;; k]. *)
Definition andThen {A B} (m : SE A) (k : SE B) : SE B := mbind (λ _, k) m.

(** [for _, x := range l { acc = f(acc, x) }] with early return on error. *)
Fixpoint foldM {A B} (f : B → A → SE B) (b : B) (l : list A) : SE B :=
  match l with
  | [] => mret b
  | x :: l' => mbind (λ b', foldM f b' l') (f b x)
  end.

(** The transaction boundary: an error restores the store the handler began with. *)
Definition runInTx {A} (m : SE A) (s : St) : result E A * St :=
  match m s with
  | Ok (a, s') => (Ok a, s')
  | Err e => (Err e, s)
  end.

(** *** Relational and Hoare-style reasoning *)

(** Every successful run relates the store before to the store after. *)
Definition keeps (R : relation St) {A} (m : SE A) : Prop :=
  ∀ s a s', m s = Ok (a, s') → R s s'.

(** Partial correctness of a successful run. *)
Definition triple (P : St → Prop) {A} (m : SE A) (Q : A → St → Prop) : Prop :=
  ∀ s a s', P s → m s = Ok (a, s') → Q a s'.

Lemma bind_Ok {A B} (f : A → SE B) (m : SE A) s b s' :
  mbind f m s = Ok (b, s') → ∃ a s1, m s = Ok (a, s1) ∧ f a s1 = Ok (b, s').
Proof. unfold mbind, SE_bind. destruct (m s) as [[a s1]|]; naive_solver. Qed.

Lemma throwIf_Ok b e s a s' :
  throwIf b e s = Ok (a, s') → b = false ∧ s' = s.
Proof. unfold throwIf, throw, mret, SE_ret. destruct b; naive_solver. Qed.

Lemma liftR_Ok {A} (r : result E A) s a s' : liftR r s = Ok (a, s') → r = Ok a ∧ s' = s.
Proof. unfold liftR. destruct r; naive_solver. Qed.
Lemma mapErr_Ok {A} f (m : SE A) s a s' : mapErr f m s = Ok (a, s') → m s = Ok (a, s').
Proof. unfold mapErr. by destruct (m s). Qed.

Section keeps.
Context (R : relation St) `{!PreOrder R}.

Lemma keeps_mapErr {A} f (m : SE A) : keeps R m → keeps R (mapErr f m).
Proof. intros Hm s a s' ?%mapErr_Ok. by eapply Hm. Qed.

Lemma keeps_ret {A} (a : A) : keeps R (mret a).
Proof. intros s b s' [=]; subst; reflexivity. Qed.
Lemma keeps_throw {A} (e : E) : keeps R (throw (A := A) e).
Proof. intros s b s' [=]. Qed.
Lemma keeps_gets {A} (f : St → A) : keeps R (gets f).
Proof. intros s b s' [=]; subst; reflexivity. Qed.
Lemma keeps_liftR {A} (r : result E A) : keeps R (liftR r).
Proof. intros s b s'. unfold liftR. destruct r; intros [=]; subst; reflexivity. Qed.
Lemma keeps_throwIf b (e : E) : keeps R (throwIf b e).
Proof. destruct b; [apply keeps_throw|apply keeps_ret]. Qed.
Lemma keeps_bind {A B} (f : A → SE B) (m : SE A) :
  keeps R m → (∀ a, keeps R (f a)) → keeps R (mbind f m).
Proof.
  intros Hm Hf s b s' (a & s1 & ?%Hm & ?%Hf)%bind_Ok. by etrans.
Qed.
Lemma keeps_andThen {A B} (m : SE A) (k : SE B) :
  keeps R m → keeps R k → keeps R (andThen m k).
Proof. intros. by apply keeps_bind. Qed.
Lemma keeps_modify f : (∀ s, R s (f s)) → keeps R (modify f).
Proof. intros Hf s a s' [=]; subst. apply Hf. Qed.
Lemma keeps_foldM {A B} (f : B → A → SE B) l :
  (∀ b x, keeps R (f b x)) → ∀ b, keeps R (foldM f b l).
Proof.
  intros Hf. induction l as [|x l IH]; intros b; cbn.
  - apply keeps_ret.
  - by apply keeps_bind.
Qed.
Lemma keeps_foldM_in {A B} (f : B → A → SE B) l :
  (∀ b x, x ∈ l → keeps R (f b x)) → ∀ b, keeps R (foldM f b l).
Proof.
  intros Hf. induction l as [|x l IH]; intros b; cbn.
  - apply keeps_ret.
  - apply keeps_bind; [apply Hf; set_solver|]. intros b'. apply IH.
    intros b'' y ?. apply Hf. set_solver.
Qed.
Lemma keeps_weaken (R' : relation St) {A} (m : SE A) :
  (∀ s s', R' s s' → R s s') → keeps R' m → keeps R m.
Proof. intros HR Hm s a s' ?%Hm. by apply HR. Qed.
End keeps.

Lemma triple_ret {A} (a : A) (Q : A → St → Prop) : triple (Q a) (mret a) Q.
Proof. intros s b s' HQ [=]; by subst. Qed.
Lemma triple_bind {A B} (f : A → SE B) (m : SE A) P Q S :
  triple P m Q → (∀ a, triple (Q a) (f a) S) → triple P (mbind f m) S.
Proof.
  intros Hm Hf s b s' HP (a & s1 & H1 & H2)%bind_Ok.
  eapply Hf; [|exact H2]. by eapply Hm.
Qed.
Lemma triple_conseq {A} (m : SE A) (P P' : St → Prop) (Q Q' : A → St → Prop) :
  triple P' m Q' → (∀ s, P s → P' s) → (∀ a s, Q' a s → Q a s) → triple P m Q.
Proof. intros Hm HP HQ s a s' ?%HP ?. by eapply HQ, Hm. Qed.
(** A relation kept by [m] carries a predicate it preserves across [m]. *)
Lemma triple_keeps (R : relation St) {A} (m : SE A) (P : St → Prop) :
  keeps R m → (∀ s s', R s s' → P s → P s') → triple P m (λ _, P).
Proof. intros Hm HR s a s' HP ?%Hm. by eapply HR. Qed.

(** A failed transaction leaves no trace. *)
Lemma runInTx_error {A} (m : SE A) s e s' : runInTx m s = (Err e, s') → s' = s.
Proof. unfold runInTx. destruct (m s) as [[]|]; naive_solver. Qed.
Lemma runInTx_keeps R `{!Reflexive R} {A} (m : SE A) s r s' :
  keeps R m → runInTx m s = (r, s') → R s s'.
Proof.
  unfold runInTx. intros Hm. destruct (m s) as [[]|] eqn:?; intros [=]; subst; eauto.
Qed.
End transaction_monad.
Arguments SE : clear implicits.
#[global] Typeclasses Opaque keeps triple.

Notation "m ;; k" := (andThen m k)
  (at level 100, k at level 200, right associativity) : vef_scope.

Create HintDb keeps discriminated.
#[export] Hint Resolve keeps_ret keeps_throw keeps_gets keeps_liftR keeps_throwIf : keeps.

(** [keeps_tac] walks the syntax of a transaction: sequencing, loops and case
    analysis are decomposed, leaves are closed by the [keeps] hints. *)
Ltac keeps_step :=
  match goal with
  | |- keeps _ (mbind _ _) => apply keeps_bind; [apply _| |intros ?]
  | |- keeps _ (andThen _ _) => apply keeps_andThen; [apply _| |]
  | |- keeps _ (foldM _ _ _) => apply keeps_foldM; [apply _|intros ? ?]
  | |- keeps _ (mapErr _ _) => apply keeps_mapErr
  | |- keeps _ (let _ := _ in _) => cbv zeta
  | |- keeps _ (match ?x with _ => _ end) => destruct x eqn:?
  | |- keeps _ _ => solve [eauto with keeps typeclass_instances]
  end.
Ltac keeps_tac := repeat keeps_step.

(** Inversion of a successful run into its steps. *)
Ltac inv_Ok :=
  repeat match goal with
  | H : mbind _ _ _ = Ok (_, _) |- _ =>
      let a := fresh "a" in let s := fresh "s" in
      apply bind_Ok in H as (a & s & ? & ?)
  | H : andThen _ _ _ = Ok (_, _) |- _ => unfold andThen in H
  | H : throwIf _ _ _ = Ok (_, _) |- _ => apply throwIf_Ok in H as [? ->]
  | H : mret _ _ = Ok (_, _) |- _ => injection H as ?; subst
  | H : gets _ _ = Ok (_, _) |- _ => injection H as ?; subst
  | H : modify _ _ = Ok (_, _) |- _ => injection H as ?; subst
  | H : throw _ _ = Ok (_, _) |- _ => discriminate H
  end.

(** One step of a run: [H : (x ← m; k) s = Ok _] becomes the run [E] of [m]
    and the rest of [H]. *)
Tactic Notation "step" hyp(H) "as" simple_intropattern(x) simple_intropattern(s)
    simple_intropattern(E) :=
  try unfold andThen at 1 in H; apply bind_Ok in H as (x & s & E & H).

(** Membership in a literal list, case by case. *)
Ltac enum_in :=
  repeat match goal with
  | H : _ ∈ [] |- _ => by apply elem_of_nil in H
  | H : _ ∈ _ :: _ |- _ => apply elem_of_cons in H as [H|H]
  end; subst.

(** ** Tables

    A database table is the list of its rows in insertion order: [INSERT]
    appends, [UPDATE ... WHERE p] rewrites the matching rows in place, [SELECT]
    filters.  Rows are never deleted by the modelled code. *)
Section table.
Context {Row : Type}.
Implicit Types (t : list Row) (p : Row → bool) (f : Row → Row).

Definition tselect p t : list Row := List.filter p t.
Definition texists p t : bool := existsb p t.
Definition tcount p t : nat := length (tselect p t).
Definition tfirst p t : option Row := List.find p t.
Definition tupdate p f t : list Row := map (λ r, if p r then f r else r) t.

(** Lists that correspond element by element. *)
Lemma Forall2_elem_l {A B} (R : A → B → Prop) l k x : Forall2 R l k → x ∈ l → ∃ y, y ∈ k ∧ R x y.
Proof.
  induction 1 as [|a b l k Hab _ IH]; [by intros ?%elem_of_nil|].
  intros [->|Hx]%elem_of_cons; [exists b; set_solver|]. destruct (IH Hx) as (y & ? & ?). exists y. set_solver.
Qed.
Lemma Forall2_elem_r {A B} (R : A → B → Prop) l k y : Forall2 R l k → y ∈ k → ∃ x, x ∈ l ∧ R x y.
Proof. intros Hr Hy. apply Forall2_flip in Hr. by eapply (Forall2_elem_l (flip R)). Qed.

(** [t'] is [t] with every row moved along [R], followed by new rows. *)
Definition table_evolves (R : relation Row) : relation (list Row) := λ t t',
  ∃ old new, t' = old ++ new ∧ Forall2 R t old.

#[export] Instance table_evolves_preorder R `{!PreOrder R} : PreOrder (table_evolves R).
Proof.
  split.
  - intros t. exists t, []. rewrite app_nil_r. split; [done|].
    by apply (reflexivity (R := Forall2 R)).
  - intros t1 t2 t3 (o1 & n1 & -> & H1) (o2 & n2 & -> & H2).
    apply Forall2_app_inv_l in H2 as (k1 & k2 & Hk1 & Hk2 & ->).
    exists k1, (k2 ++ n2). rewrite app_assoc. split; [done|].
    by apply (transitivity (R := Forall2 R) (y := o1)).
Qed.

Lemma tupdate_evolves R `{!Reflexive R} p f t :
  (∀ r, p r = true → R r (f r)) → table_evolves R t (tupdate p f t).
Proof.
  intros Hf. exists (tupdate p f t), []. rewrite app_nil_r. split; [done|].
  unfold tupdate. induction t as [|r t IH]; cbn; constructor; [|done].
  destruct (p r) eqn:?; [by apply Hf|reflexivity].
Qed.
Lemma tappend_evolves R `{!Reflexive R} t new : table_evolves R t (t ++ new).
Proof.
  exists t, new. split; [done|]. induction t; constructor; done.
Qed.
Lemma table_evolves_weaken (R R' : relation Row) t t' :
  (∀ r r', R r r' → R' r r') → table_evolves R t t' → table_evolves R' t t'.
Proof.
  intros HR (o & n & -> & H). exists o, n. split; [done|]. by eapply Forall2_impl.
Qed.
(** Every old row has a successor. *)
Lemma table_evolves_elem R t t' r :
  table_evolves R t t' → r ∈ t → ∃ r', r' ∈ t' ∧ R r r'.
Proof.
  intros (o & n & -> & H) Hr. apply list_elem_of_lookup in Hr as [i Hi].
  destruct (Forall2_lookup_l _ _ _ _ _ H Hi) as (r' & Hr' & HR).
  exists r'. split; [|done]. apply elem_of_app. left. by eapply list_elem_of_lookup_2.
Qed.
Lemma table_evolves_lookup R t t' i r :
  table_evolves R t t' → t !! i = Some r → ∃ r', t' !! i = Some r' ∧ R r r'.
Proof.
  intros (o & n & -> & H) Hi.
  destruct (Forall2_lookup_l _ _ _ _ _ H Hi) as (r' & Hr' & HR).
  exists r'. split; [|done]. by apply lookup_app_l_Some.
Qed.

Lemma tupdate_length p f t : length (tupdate p f t) = length t.
Proof. unfold tupdate. by rewrite length_map. Qed.
Lemma elem_of_tselect p t r : r ∈ tselect p t ↔ p r = true ∧ r ∈ t.
Proof. unfold tselect. rewrite !list_elem_of_In, List.filter_In. tauto. Qed.
Lemma elem_of_tupdate p f t r :
  r ∈ tupdate p f t ↔ ∃ r0, r0 ∈ t ∧ r = if p r0 then f r0 else r0.
Proof. unfold tupdate. rewrite list_elem_of_fmap. naive_solver. Qed.
Lemma texists_true p t : texists p t = true ↔ ∃ r, r ∈ t ∧ p r = true.
Proof. unfold texists. rewrite existsb_exists. by setoid_rewrite list_elem_of_In. Qed.
Lemma texists_false p t : texists p t = false ↔ ∀ r, r ∈ t → p r = false.
Proof.
  rewrite <-not_true_iff_false, texists_true. split.
  - intros H r Hr. apply not_true_is_false. naive_solver.
  - intros H (r & Hr & Hp). by rewrite (H r Hr) in Hp.
Qed.
Lemma tselect_app p t1 t2 : tselect p (t1 ++ t2) = tselect p t1 ++ tselect p t2.
Proof. apply List.filter_app. Qed.
Lemma tselect_nil p t : tselect p t = [] ↔ ∀ r, r ∈ t → p r = false.
Proof.
  induction t as [|x t IH]; cbn; [set_solver|].
  destruct (p x) eqn:Hx; split.
  - done.
  - intros H. rewrite (H x) in Hx; [done|set_solver].
  - intros H r [->|]%elem_of_cons; [done|]. by apply IH.
  - intros H. apply IH. set_solver.
Qed.
Lemma tcount_0 p t : tcount p t = 0 ↔ ∀ r, r ∈ t → p r = false.
Proof. unfold tcount. by rewrite length_zero_iff_nil, tselect_nil. Qed.
Lemma tupdate_none p f t : (∀ r, r ∈ t → p r = false) → tupdate p f t = t.
Proof.
  intros H. unfold tupdate. induction t as [|x t IH]; cbn; [done|].
  rewrite H by set_solver. f_equal. apply IH. set_solver.
Qed.
Lemma tfirst_Some p t r : tfirst p t = Some r → r ∈ t ∧ p r = true.
Proof. intros H%List.find_some. by rewrite list_elem_of_In. Qed.
Lemma tfirst_None p t : tfirst p t = None ↔ ∀ r, r ∈ t → p r = false.
Proof.
  split.
  - intros H r Hr. by apply (List.find_none _ _ H), list_elem_of_In.
  - intros H. destruct (tfirst p t) eqn:Hr; [|done].
    apply tfirst_Some in Hr as [Hr Hp]. by rewrite H in Hp.
Qed.
End table.
#[global] Arguments tselect : simpl never.
#[global] Arguments texists : simpl never.
#[global] Arguments tcount : simpl never.
#[global] Arguments tfirst : simpl never.
#[global] Arguments tupdate : simpl never.


(** ** Ordering

    [ORDER BY key]: a stable insertion sort.  [ORDER BY key DESC] sorts by the
    negated key. *)
Section orderBy.
Context {A : Type} (key : A → Z).

Fixpoint insertBy (x : A) (l : list A) : list A :=
  match l with
  | [] => [x]
  | y :: l' => if (key x <=? key y)%Z then x :: l else y :: insertBy x l'
  end.
Definition orderBy (l : list A) : list A := foldr insertBy [] l.

Definition key_le (x y : A) : Prop := (key x ≤ key y)%Z.

Lemma insertBy_Permutation x l : insertBy x l ≡ₚ x :: l.
Proof.
  induction l as [|y l IH]; cbn; [done|]. destruct (_ <=? _)%Z; [done|].
  rewrite IH. constructor.
Qed.
Lemma orderBy_Permutation l : orderBy l ≡ₚ l.
Proof. induction l as [|x l IH]; cbn; [done|]. by rewrite insertBy_Permutation, IH. Qed.
Lemma elem_of_orderBy x l : x ∈ orderBy l ↔ x ∈ l.
Proof. by rewrite orderBy_Permutation. Qed.
Lemma insertBy_sorted x l : StronglySorted key_le l → StronglySorted key_le (insertBy x l).
Proof.
  induction 1 as [|y l Hs IH Hy]; cbn; [repeat constructor|].
  destruct (Z.leb_spec (key x) (key y)).
  - constructor; [by constructor|]. constructor; [done|].
    eapply Forall_impl; [exact Hy|]. unfold key_le. intros; lia.
  - constructor; [done|]. rewrite insertBy_Permutation. constructor; [|done].
    unfold key_le. lia.
Qed.
Lemma orderBy_sorted l : StronglySorted key_le (orderBy l).
Proof. induction l; cbn; [constructor|]. by apply insertBy_sorted. Qed.
(** Rows already in order stay where they are. *)
Lemma orderBy_id l : StronglySorted key_le l → orderBy l = l.
Proof.
  induction 1 as [|x l _ IH Hx]; cbn; [done|]. fold (orderBy l). rewrite IH.
  destruct Hx as [|y l Hy _]; cbn; [done|].
  unfold key_le in Hy. by rewrite (proj2 (Z.leb_le _ _) Hy).
Qed.
(** [LIMIT 1] after [ORDER BY key]: a row of least key. *)
Lemma orderBy_head x l : head (orderBy l) = Some x → x ∈ l ∧ ∀ y, y ∈ l → (key x ≤ key y)%Z.
Proof.
  pose proof (orderBy_sorted l) as Hs. destruct (orderBy l) as [|z k] eqn:Hk; [done|].
  intros [=]; subst z. split.
  - apply elem_of_orderBy. rewrite Hk. set_solver.
  - intros y Hy%elem_of_orderBy. rewrite Hk in Hy. inversion_clear Hs as [|? ? _ Hf].
    rewrite Forall_forall in Hf. apply elem_of_cons in Hy as [->|Hy]; [lia|]. by apply Hf.
Qed.
Lemma orderBy_head_None l : head (orderBy l) = None ↔ l = [].
Proof.
  split; [|by intros ->]. intros Hh. pose proof (orderBy_Permutation l) as Hp.
  destruct (orderBy l); [|done]. by apply Permutation_nil_l in Hp.
Qed.
End orderBy.
