(* ===== verification/Graph.v ===== *)
(** * Graph algorithms of flow validation

    [detectCycle] and [collectReachable] of
    [internal/approval/service/flow_definition.go]: the colouring depth-first
    search and the breadth-first search over an adjacency map.  Both are shown to
    end with the fuel they are given and to decide exactly what their names say:
    the existence of a cycle and reachability along edges. *)
From S2P Require Import Prelude.

(** An adjacency map and its edges; indexing a Go map at a missing key yields nil. *)
Notation Adjacency := (gmap string (list string)).
Definition successors (adj : Adjacency) (x : string) : list string := default [] (adj !! x).
Definition edge (adj : Adjacency) (x y : string) : Prop := y ∈ successors adj x.

(** ** Depth-first search with colours *)

Inductive Color := White | Gray | Black.
#[export] Instance Color_eq_dec : EqDecision Color.
Proof. solve_decision. Defined.
Notation Colors := (gmap string Color).
Definition colorOf (color : Colors) (x : string) : Color := default White (color !! x).

(** The closure [visit]; [None] when the fuel is used up.  The inner loop walks
    the successors, threading the colours the recursive calls leave behind. *)
Fixpoint scan (visit : Colors → string → option (bool * Colors)) (nexts : list string)
    (color : Colors) : option (bool * Colors) :=
  match nexts with
  | [] => Some (false, color)
  | next :: rest =>
      match colorOf color next with
      | Gray => Some (true, color)
      | White =>
          match visit color next with
          | Some (false, color') => scan visit rest color'
          | r => r
          end
      | Black => scan visit rest color
      end
  end.
Fixpoint visit (adj : Adjacency) (fuel : nat) (color : Colors) (node : string)
    : option (bool * Colors) :=
  match fuel with
  | 0 => None
  | S fuel' =>
      match scan (visit adj fuel') (successors adj node) (<[node := Gray]> color) with
      | Some (false, color') => Some (false, <[node := Black]> color')
      | r => r
      end
  end.

(** The loop over all nodes. *)
Fixpoint detectFrom (adj : Adjacency) (fuel : nat) (nodes : list string) (color : Colors)
    : option bool :=
  match nodes with
  | [] => Some false
  | node :: rest =>
      match colorOf color node with
      | White =>
          match visit adj fuel color node with
          | Some (true, _) => Some true
          | Some (false, color') => detectFrom adj fuel rest color'
          | None => None
          end
      | _ => detectFrom adj fuel rest color
      end
  end.
(** Each nested call colours one more node, so their number bounds the depth. *)
Definition detectCycle (nodes : list string) (adj : Adjacency) : bool :=
  default true (detectFrom adj (S (length nodes)) nodes ∅).

(** ** Breadth-first search *)

(** One turn's loop over the successors of the dequeued node. *)
Definition enqueueNew (nexts : list string) (visited : gset string) (queue : list string)
    : gset string * list string :=
  foldl (λ '(visited, queue) next,
    if bool_decide (next ∈ visited) then (visited, queue)
    else ({[next]} ∪ visited, queue ++ [next])) (visited, queue) nexts.
Fixpoint bfs (adj : Adjacency) (fuel : nat) (visited : gset string) (queue : list string)
    : gset string :=
  match fuel, queue with
  | S fuel', current :: rest =>
      let '(visited, queue) := enqueueNew (successors adj current) visited rest in
      bfs adj fuel' visited queue
  | _, _ => visited
  end.
Definition targets (adj : Adjacency) : gset string :=
  list_to_set (concat (map_to_list adj).*2).
(** Every start is dequeued once, every other node at most once, and only targets
    of edges are added. *)
Definition collectReachable (adj : Adjacency) (starts : list string) : gset string :=
  bfs adj (length starts + size (targets adj)) (list_to_set starts) starts.

(** ** Correctness of the depth-first search *)

Lemma colorOf_insert (color : Colors) x y c :
  colorOf (<[x := c]> color) y = if bool_decide (x = y) then c else colorOf color y.
Proof.
  unfold colorOf. case_bool_decide as Heq; [subst; by rewrite lookup_insert_eq|by rewrite lookup_insert_ne].
Qed.

Section depth_first.
Context (adj : Adjacency).
(** The predecessor order: accessible means that no infinite path leaves. *)
Definition below (y x : string) : Prop := edge adj x y.
Definition finished (color : Colors) : Prop := ∀ x, colorOf color x = Black → Acc below x.

(** What a search that found no cycle did to the colours. *)
Record settles (color color' : Colors) : Prop := {
  settles_gray x : colorOf color' x = Gray ↔ colorOf color x = Gray;
  settles_black x : colorOf color x = Black → colorOf color' x = Black;
  settles_finished : finished color → finished color';
}.
#[local] Instance settles_preorder : PreOrder settles.
Proof.
  split; [by split|]. intros a b c [g1 b1 f1] [g2 b2 f2].
  split; [intros x; by rewrite g2, g1|by auto|by auto].
Qed.

Definition visits (v : Colors → string → option (bool * Colors)) : Prop :=
  ∀ color node color', v color node = Some (false, color') → colorOf color node = White →
    settles color color' ∧ colorOf color' node = Black.
Lemma scan_settles v nexts color color' :
  visits v → scan v nexts color = Some (false, color') →
  settles color color' ∧ ∀ n, n ∈ nexts → colorOf color' n = Black.
Proof.
  intros Hv. revert color. induction nexts as [|n nexts IH]; intros color; cbn.
  { intros [= ->]. split; [reflexivity|]. intros n Hn. by apply elem_of_nil in Hn. }
  destruct (colorOf color n) eqn:Hc; [|done|].
  - destruct (v color n) as [[[] c1]|] eqn:Hr; [done| |done]. intros Hs.
    destruct (Hv _ _ _ Hr Hc) as [H1 Hn]. destruct (IH _ Hs) as [H2 Hns].
    split; [by transitivity c1|]. intros m [->|Hm]%elem_of_cons; [|by apply Hns].
    by apply (settles_black _ _ H2).
  - intros Hs. destruct (IH _ Hs) as [H2 Hns]. split; [done|].
    intros m [->|Hm]%elem_of_cons; [by apply (settles_black _ _ H2)|by apply Hns].
Qed.
Lemma visit_settles fuel : visits (visit adj fuel).
Proof.
  induction fuel as [|fuel IH]; [done|]. intros color node color'. cbn.
  destruct (scan _ _ _) as [[[] c2]|] eqn:Hs; [done| |done]. intros [= <-] Hw.
  apply (scan_settles _ _ _ _ IH) in Hs as [[Hg Hb Hf] Hn]. split.
  - split; intros x.
    + rewrite colorOf_insert. specialize (Hg x). rewrite colorOf_insert in Hg.
      case_bool_decide; subst; [by rewrite Hw|done].
    + intros Hx. rewrite colorOf_insert. case_bool_decide; [done|]. apply Hb. rewrite colorOf_insert.
      by case_bool_decide.
    + rename x into Hfin. assert (finished c2) as Hc2.
      { apply Hf. intros y. rewrite colorOf_insert. case_bool_decide; [done|]. apply Hfin. }
      intros x. rewrite colorOf_insert. case_bool_decide as Heq; [|apply Hc2].
      intros _. rewrite <- Heq. constructor. intros y Hy. by apply Hc2, Hn.
  - rewrite colorOf_insert. by case_bool_decide.
Qed.

(** A grey successor closes a cycle, since the grey nodes lead to the one at hand. *)
Definition onPath (color : Colors) (node : string) : Prop :=
  ∀ g, colorOf color g = Gray → rtc (edge adj) g node.
Definition cyclic : Prop := ∃ x, tc (edge adj) x x.
Lemma scan_true v node nexts color c :
  visits v → (∀ color n c, v color n = Some (true, c) → onPath color n → cyclic) →
  (∀ n, n ∈ nexts → edge adj node n) → onPath color node →
  scan v nexts color = Some (true, c) → cyclic.
Proof.
  intros Hv Ht. revert color. induction nexts as [|n nexts IH]; intros color Hn Hp; cbn; [done|].
  assert (edge adj node n) as He by (apply Hn; by apply list_elem_of_here).
  assert (∀ m, m ∈ nexts → edge adj node m) as Hns by (intros m ?; apply Hn; by apply list_elem_of_further).
  destruct (colorOf color n) eqn:Hc.
  - destruct (v color n) as [[[] c1]|] eqn:Hr; intros Hs; [|by eapply IH, Hs; [done|intros g Hg; apply Hp, (settles_gray _ _ (proj1 (Hv _ _ _ Hr Hc)))]|done].
    eapply Ht; [exact Hr|]. intros g Hg. eapply rtc_r; [by apply Hp|done].
  - intros _. exists node. eapply tc_rtc_r; [by apply tc_once|by apply Hp].
  - by apply IH.
Qed.
Lemma visit_true fuel color node c :
  visit adj fuel color node = Some (true, c) → onPath color node → cyclic.
Proof.
  revert color node c. induction fuel as [|fuel IH]; intros color node c; cbn; [done|].
  destruct (scan _ _ _) as [[[] c2]|] eqn:Hs; [|done|done]. intros _ Hp.
  eapply (scan_true _ node); [apply visit_settles|exact IH| | |exact Hs]; [done|].
  intros g. rewrite colorOf_insert. case_bool_decide; [subst; done|apply Hp].
Qed.

(** ** Fuel *)
Context (nodes : list string).
Hypothesis closed : ∀ x y, edge adj x y → y ∈ nodes.
Definition whites (color : Colors) : nat := length (filter (λ x, colorOf color x = White) nodes).
Definition darkens (color color' : Colors) : Prop := ∀ x, colorOf color' x = White → colorOf color x = White.
Lemma whites_darkens color color' : darkens color color' → whites color' ≤ whites color.
Proof.
  clear closed. intros Hd. unfold whites. induction nodes as [|x l IH]; [done|]. rewrite !filter_cons.
  specialize (Hd x). repeat case_decide; cbn; [lia|by exfalso; auto|lia|done].
Qed.
Lemma whites_gray color node :
  node ∈ nodes → colorOf color node = White → whites (<[node := Gray]> color) < whites color.
Proof.
  intros Hin Hw. unfold whites. apply list_elem_of_split in Hin as (l1 & l2 & ->).
  rewrite !filter_app, !length_app, !filter_cons, colorOf_insert, bool_decide_true by done.
  rewrite (decide_False (P := Gray = White)), (decide_True (P := colorOf color node = White)) by done. cbn.
  assert (∀ l, length (filter (λ x, colorOf (<[node:=Gray]> color) x = White) l) ≤
               length (filter (λ x, colorOf color x = White) l)) as Hle.
  { induction l as [|x l IH]; [done|]. rewrite !filter_cons, colorOf_insert.
    case_bool_decide; repeat case_decide; cbn; try done; lia. }
  pose proof (Hle l1). pose proof (Hle l2). lia.
Qed.

Definition returns (v : Colors → string → option (bool * Colors)) (bound : nat) : Prop :=
  ∀ color node, node ∈ nodes → colorOf color node = White → whites color < bound →
    ∃ b color', v color node = Some (b, color') ∧ darkens color color'.
Lemma scan_returns v bound nexts color :
  returns v bound → (∀ n, n ∈ nexts → n ∈ nodes) → whites color < bound →
  ∃ b color', scan v nexts color = Some (b, color') ∧ darkens color color'.
Proof.
  intros Hv. revert color. induction nexts as [|n nexts IH]; intros color Hn Hb; cbn.
  { eexists _, _. split; [done|by intros x]. }
  assert (n ∈ nodes) as Hin by (apply Hn; by apply list_elem_of_here).
  assert (∀ m, m ∈ nexts → m ∈ nodes) as Hns by (intros m ?; apply Hn; by apply list_elem_of_further).
  destruct (colorOf color n) eqn:Hc; [|by eexists _, _; split; [|by intros x]|by apply IH].
  destruct (Hv color n Hin Hc Hb) as ([] & c1 & -> & Hd); [by eexists _, _|].
  destruct (IH c1 Hns) as (b & c2 & -> & Hd2); [pose proof (whites_darkens _ _ Hd); lia|].
  eexists _, _. split; [done|]. intros x Hx. by apply Hd, Hd2.
Qed.
Lemma visit_returns fuel : returns (visit adj fuel) fuel.
Proof.
  induction fuel as [|fuel IH]; intros color node Hin Hw Hb; [lia|]. cbn.
  destruct (scan_returns (visit adj fuel) fuel (successors adj node) (<[node := Gray]> color))
    as (b & c & -> & Hd); [done|by intros n Hn; eapply closed|pose proof (whites_gray _ _ Hin Hw); lia|].
  assert (darkens color c) as Hd'.
  { intros x Hx%Hd. rewrite colorOf_insert in Hx. by case_bool_decide. }
  destruct b; [by eexists _, _|]. eexists _, _. split; [done|].
  intros x. rewrite colorOf_insert. case_bool_decide; [done|apply Hd'].
Qed.

(** Every node of the list is accessible when no search found a cycle. *)
Lemma detectFrom_spec fuel todo color :
  finished color → (∀ x, colorOf color x ≠ Gray) → whites color < fuel →
  (∀ x, x ∈ todo → x ∈ nodes) →
  ∃ b, detectFrom adj fuel todo color = Some b ∧
    (b = true → cyclic) ∧
    (b = false → ∃ color', settles color color' ∧ ∀ x, x ∈ todo → colorOf color' x = Black).
Proof.
  revert color. induction todo as [|n todo IH]; intros color Hf Hg Hb Hin; cbn.
  { exists false. split_and!; [done|done|]. intros _. exists color. split; [reflexivity|].
    intros x Hx. by apply elem_of_nil in Hx. }
  assert (∀ x, x ∈ todo → x ∈ nodes) as Hin' by (intros m ?; apply Hin; by apply list_elem_of_further).
  destruct (colorOf color n) eqn:Hc; [|by destruct (Hg n)|].
  - destruct (visit_returns fuel color n) as ([] & c1 & Hv & Hd); [apply Hin, list_elem_of_here|done|done| |]; rewrite Hv.
    + exists true. split_and!; [done| |done]. intros _. eapply visit_true; [exact Hv|]. by intros g Hg1%Hg.
    + destruct (visit_settles _ _ _ _ Hv Hc) as [H1 Hn].
      destruct (IH c1) as (b & -> & Ht & Hfa); [by apply (settles_finished _ _ H1)| | |done|].
      { intros x Hx%(settles_gray _ _ H1). by apply (Hg x). }
      { pose proof (whites_darkens _ _ Hd). lia. }
      exists b. split_and!; [done|done|]. intros Hb2. destruct (Hfa Hb2) as (c2 & H2 & Hall). exists c2.
      split; [by transitivity c1|]. intros x [->|Hx]%elem_of_cons; [by apply (settles_black _ _ H2)|by apply Hall].
  - destruct (IH color) as (b & -> & Ht & Hfa); [done..|].
    exists b. split_and!; [done|done|]. intros Hb2. destruct (Hfa Hb2) as (c2 & H2 & Hall). exists c2.
    split; [done|]. intros x [->|Hx]%elem_of_cons; [by apply (settles_black _ _ H2)|by apply Hall].
Qed.
End depth_first.

Lemma Acc_not_cyclic adj : (∀ x, Acc (below adj) x) → ¬ cyclic adj.
Proof.
  intros Hacc [x Hx]. revert Hx. induction (Hacc x) as [x _ IH]. intros Hx.
  assert (∃ y, edge adj x y ∧ rtc (edge adj) y x) as (y & Hxy & Hyx).
  { inversion Hx as [|? y ? Hxy Hyx]; subst; [by exists x|]. exists y. split; [done|by apply tc_rtc]. }
  apply (IH y Hxy). eapply tc_rtc_l; [exact Hyx|by apply tc_once].
Qed.
(** The colouring search decides the existence of a cycle. *)
Lemma detectCycle_false adj nodes :
  (∀ x y, edge adj x y → y ∈ nodes) → detectCycle nodes adj = false → ∀ x, Acc (below adj) x.
Proof.
  intros Hcl. unfold detectCycle.
  destruct (detectFrom_spec adj nodes Hcl (S (length nodes)) nodes ∅) as (b & -> & _ & Hf);
    [done|done|unfold whites; pose proof (length_filter (λ x, colorOf ∅ x = White) nodes); lia|done|].
  cbn. intros ->. destruct Hf as (c & Hs & Hall); [done|]. intros x. constructor. intros y Hy.
  apply (settles_finished _ _ _ Hs); [done|]. by eapply Hall, Hcl.
Qed.
Lemma detectCycle_true adj nodes :
  (∀ x y, edge adj x y → y ∈ nodes) → detectCycle nodes adj = true → cyclic adj.
Proof.
  intros Hcl. unfold detectCycle.
  destruct (detectFrom_spec adj nodes Hcl (S (length nodes)) nodes ∅) as (b & -> & Ht & _);
    [done|done|unfold whites; pose proof (length_filter (λ x, colorOf ∅ x = White) nodes); lia|done|].
  exact Ht.
Qed.

(** ** Correctness of the breadth-first search *)

Lemma enqueueNew_spec nexts visited queue visited' queue' :
  enqueueNew nexts visited queue = (visited', queue') →
  ∃ new, queue' = queue ++ new ∧ visited' = list_to_set new ∪ visited ∧ NoDup new ∧
    (∀ x, x ∈ new ↔ x ∈ nexts ∧ x ∉ visited).
Proof.
  revert visited queue. induction nexts as [|n nexts IH]; intros visited queue; cbn.
  { intros [= <- <-]. exists []. rewrite app_nil_r. split_and!; [done|set_solver|constructor|set_solver]. }
  unfold enqueueNew in IH. case_bool_decide as Hin; intros (new & -> & -> & Hnd & Hnew)%IH.
  - exists new. split_and!; [done|done|done|set_solver].
  - exists (n :: new). rewrite <- app_assoc. split_and!; [done|set_solver|constructor; [set_solver|done]|].
    intros x. rewrite !elem_of_cons, Hnew. destruct (decide (x = n)); set_solver.
Qed.

Section breadth_first.
Context (adj : Adjacency).
Lemma edge_target x y : edge adj x y → y ∈ targets adj.
Proof.
  unfold edge, successors, targets. destruct (adj !! x) as [l|] eqn:Hx; cbn; [|by intros ?%elem_of_nil].
  intros Hy. apply elem_of_list_to_set, list_elem_of_In, in_concat. exists l.
  split; [|by apply list_elem_of_In]. apply list_elem_of_In, list_elem_of_fmap. exists (x, l).
  split; [done|]. by apply elem_of_map_to_list.
Qed.
(** The search so far: what was seen is reachable, and the successors of whatever
    has left the queue were seen too. *)
Record searching (starts : list string) (visited : gset string) (queue : list string) : Prop := {
  search_sound x : x ∈ visited → ∃ s, s ∈ starts ∧ rtc (edge adj) s x;
  search_starts x : x ∈ starts → x ∈ visited;
  search_queue x : x ∈ queue → x ∈ visited;
  search_closed x y : x ∈ visited → edge adj x y → x ∈ queue ∨ y ∈ visited;
}.
Lemma bfs_spec starts fuel visited queue :
  searching starts visited queue → length queue + size (targets adj ∖ visited) ≤ fuel →
  searching starts (bfs adj fuel visited queue) [].
Proof.
  revert visited queue. induction fuel as [|fuel IH]; intros visited [|x queue] Hs Hfuel; cbn in *; [done|lia|done|].
  destruct (enqueueNew _ _ _) as [visited' queue'] eqn:He.
  apply enqueueNew_spec in He as (new & -> & -> & Hnd & Hnew). destruct Hs as [Hso Hst Hq Hc]. apply IH.
  - split.
    + intros y [Hy%elem_of_list_to_set|Hy]%elem_of_union; [|by apply Hso]. apply Hnew in Hy as [Hy _].
      destruct (Hso x) as (s & Hs & Hx); [apply Hq, list_elem_of_here|]. exists s. split; [done|by eapply rtc_r].
    + set_solver.
    + set_solver.
    + intros y z Hy Hz. destruct (decide (y = x)) as [->|Hne].
      { right. destruct (decide (z ∈ visited)); [set_solver|]. set_solver. }
      apply elem_of_union in Hy as [Hy|Hy]; [set_solver|]. destruct (Hc y z Hy Hz); set_solver.
  - rewrite length_app.
    assert (size (targets adj ∖ (list_to_set new ∪ visited)) + length new ≤ size (targets adj ∖ visited)); [|lia].
    rewrite <- (size_list_to_set (C := gset string) new) by done. rewrite <- size_union by set_solver.
    apply subseteq_size. intros y [Hy|Hy]%elem_of_union; [set_solver|].
    apply elem_of_list_to_set, Hnew in Hy as [Hy Hv]. apply elem_of_difference. split; [by eapply edge_target|done].
Qed.
(** The breadth-first search yields exactly the nodes reachable from the starts. *)
Lemma elem_of_collectReachable starts x :
  x ∈ collectReachable adj starts ↔ ∃ s, s ∈ starts ∧ rtc (edge adj) s x.
Proof.
  destruct (bfs_spec starts (length starts + size (targets adj)) (list_to_set starts) starts) as [Hso Hst _ Hc].
  - split; [|set_solver|set_solver|set_solver]. intros y Hy%elem_of_list_to_set. by exists y.
  - pose proof (subseteq_size (targets adj ∖ list_to_set starts) (targets adj)). set_solver by lia.
  - split; [apply Hso|]. intros (s & Hs & Hr). apply Hst in Hs. unfold collectReachable.
    induction Hr as [|x' y z Hxy Hyz IH]; [done|]. apply IH. by destruct (Hc _ _ Hs Hxy) as [?%elem_of_nil|].
Qed.
End breadth_first.
