(* ===== verification/Enums.v ===== *)
(** * Enumerations of the approval module

    The string enumerations of [approval/enums.go] (and the result and reason
    enumerations declared beside the structs that use them).  A Go enumeration
    is an open string type with named constants.  Where the code has a branch
    for a value outside the constants, the type carries an [...Other]
    constructor holding the unrecognised string; the three status types, whose
    columns only the engine writes, are closed. *)
From S2P Require Import Prelude.

(** ** Definition-side enumerations *)

Inductive BindingMode :=
  | BindingStandalone | BindingBusiness | BindingModeOther (s : string).
#[export] Instance BindingMode_eq_dec : EqDecision BindingMode.
Proof. solve_decision. Defined.
Definition BindingMode_IsValid (m : BindingMode) : bool :=
  bool_decide (m = BindingStandalone) || bool_decide (m = BindingBusiness).

Inductive VersionStatus := VersionDraft | VersionPublished | VersionArchived.
#[export] Instance VersionStatus_eq_dec : EqDecision VersionStatus.
Proof. solve_decision. Defined.

Inductive StorageMode := StorageJSON | StorageTable | StorageModeOther (s : string).
#[export] Instance StorageMode_eq_dec : EqDecision StorageMode.
Proof. solve_decision. Defined.
Definition StorageMode_IsValid (m : StorageMode) : bool :=
  bool_decide (m = StorageJSON) || bool_decide (m = StorageTable).

Inductive NodeKind :=
  | NodeStart | NodeApproval | NodeHandle | NodeCondition | NodeEnd | NodeCC
  | NodeKindOther (s : string).
#[export] Instance NodeKind_eq_dec : EqDecision NodeKind.
Proof. solve_decision. Defined.

Inductive ExecutionType :=
  | ExecutionManual | ExecutionAutoPass | ExecutionAutoReject
  | ExecutionTypeOther (s : string).
#[export] Instance ExecutionType_eq_dec : EqDecision ExecutionType.
Proof. solve_decision. Defined.
Definition ExecutionType_IsValid (t : ExecutionType) : bool :=
  bool_decide (t = ExecutionManual) || bool_decide (t = ExecutionAutoPass)
  || bool_decide (t = ExecutionAutoReject).

Inductive ApprovalMethod :=
  | ApprovalSequential | ApprovalParallel | ApprovalMethodOther (s : string).
#[export] Instance ApprovalMethod_eq_dec : EqDecision ApprovalMethod.
Proof. solve_decision. Defined.
Definition ApprovalMethod_IsValid (m : ApprovalMethod) : bool :=
  bool_decide (m = ApprovalSequential) || bool_decide (m = ApprovalParallel).

Inductive PassRule :=
  | PassAll | PassAny | PassRatio | PassFixedCount | PassRuleOther (s : string).
#[export] Instance PassRule_eq_dec : EqDecision PassRule.
Proof. solve_decision. Defined.
Definition PassRule_IsValid (r : PassRule) : bool :=
  bool_decide (r = PassAll) || bool_decide (r = PassAny)
  || bool_decide (r = PassRatio) || bool_decide (r = PassFixedCount).

Inductive EmptyAssigneeAction :=
  | EmptyAssigneeAutoPass | EmptyAssigneeTransferAdmin | EmptyAssigneeTransferSuperior
  | EmptyAssigneeTransferApplicant | EmptyAssigneeTransferSpecified
  | EmptyAssigneeActionOther (s : string).
#[export] Instance EmptyAssigneeAction_eq_dec : EqDecision EmptyAssigneeAction.
Proof. solve_decision. Defined.
Definition EmptyAssigneeAction_IsValid (a : EmptyAssigneeAction) : bool :=
  match a with EmptyAssigneeActionOther _ => false | _ => true end.

Inductive SameApplicantAction :=
  | SameApplicantAutoPass | SameApplicantSelfApprove
  | SameApplicantTransferSuperior | SameApplicantExclude
  | SameApplicantActionOther (s : string).
#[export] Instance SameApplicantAction_eq_dec : EqDecision SameApplicantAction.
Proof. solve_decision. Defined.
Definition SameApplicantAction_IsValid (a : SameApplicantAction) : bool :=
  match a with SameApplicantActionOther _ => false | _ => true end.

Inductive RollbackType :=
  | RollbackNone | RollbackPrevious | RollbackStart | RollbackAny | RollbackSpecified
  | RollbackTypeOther (s : string).
#[export] Instance RollbackType_eq_dec : EqDecision RollbackType.
Proof. solve_decision. Defined.
Definition RollbackType_IsValid (t : RollbackType) : bool :=
  match t with RollbackTypeOther _ => false | _ => true end.

Inductive RollbackDataStrategy :=
  | RollbackDataClear | RollbackDataKeep | RollbackDataStrategyOther (s : string).
#[export] Instance RollbackDataStrategy_eq_dec : EqDecision RollbackDataStrategy.
Proof. solve_decision. Defined.
Definition RollbackDataStrategy_IsValid (s : RollbackDataStrategy) : bool :=
  bool_decide (s = RollbackDataClear) || bool_decide (s = RollbackDataKeep).

Inductive AddAssigneeType :=
  | AddAssigneeBefore | AddAssigneeAfter | AddAssigneeParallel
  | AddAssigneeTypeOther (s : string).
#[export] Instance AddAssigneeType_eq_dec : EqDecision AddAssigneeType.
Proof. solve_decision. Defined.
Definition AddAssigneeType_IsValid (t : AddAssigneeType) : bool :=
  bool_decide (t = AddAssigneeBefore) || bool_decide (t = AddAssigneeAfter)
  || bool_decide (t = AddAssigneeParallel).

Inductive ConsecutiveApproverAction :=
  | ConsecutiveApproverNone | ConsecutiveApproverAutoPass
  | ConsecutiveApproverActionOther (s : string).
#[export] Instance ConsecutiveApproverAction_eq_dec : EqDecision ConsecutiveApproverAction.
Proof. solve_decision. Defined.
Definition ConsecutiveApproverAction_IsValid (a : ConsecutiveApproverAction) : bool :=
  bool_decide (a = ConsecutiveApproverNone) || bool_decide (a = ConsecutiveApproverAutoPass).

Inductive OptionSourceKind := OptionSourceRemote | OptionSourceCodeSet | OptionSourceKindOther (s : string).
#[export] Instance OptionSourceKind_eq_dec : EqDecision OptionSourceKind.
Proof. solve_decision. Defined.

(** [approval/kind_descriptor.go]: what a designer supplies alongside a kind. *)
Inductive SelectionMode :=
  | SelectionNone | SelectionUser | SelectionRole | SelectionDepartment | SelectionFormField
  | SelectionCustom | SelectionModeOther (s : string).
#[export] Instance SelectionMode_eq_dec : EqDecision SelectionMode.
Proof. solve_decision. Defined.
Definition RequiresIDs (m : SelectionMode) : bool :=
  match m with
  | SelectionUser | SelectionRole | SelectionDepartment | SelectionCustom => true
  | _ => false
  end.
Definition RequiresFormField (m : SelectionMode) : bool := bool_decide (m = SelectionFormField).

(** The principal kinds are open vocabularies: the deployable kinds are those
    with a registered resolver, so they stay strings. *)
Definition AssigneeKind := string.
Definition AssigneeUser : AssigneeKind := "user".
Definition AssigneeRole : AssigneeKind := "role".
Definition AssigneeDepartment : AssigneeKind := "department".
Definition AssigneeSelf : AssigneeKind := "self".
Definition AssigneeSuperior : AssigneeKind := "superior".
Definition AssigneeDepartmentLeader : AssigneeKind := "department_leader".
Definition AssigneeFormField : AssigneeKind := "form_field".

Definition CCKind := string.
Definition CCUser : CCKind := "user".
Definition CCRole : CCKind := "role".
Definition CCDepartment : CCKind := "department".
Definition CCFormField : CCKind := "form_field".

Inductive CCTiming :=
  | CCTimingAlways | CCTimingOnApprove | CCTimingOnReject | CCTimingOther (s : string).
#[export] Instance CCTiming_eq_dec : EqDecision CCTiming.
Proof. solve_decision. Defined.
Definition CCTiming_IsValid (t : CCTiming) : bool :=
  bool_decide (t = CCTimingAlways) || bool_decide (t = CCTimingOnApprove)
  || bool_decide (t = CCTimingOnReject).

Inductive TimeoutAction :=
  | TimeoutActionNone | TimeoutActionAutoPass | TimeoutActionAutoReject
  | TimeoutActionNotify | TimeoutActionTransferAdmin | TimeoutActionOther (s : string).
#[export] Instance TimeoutAction_eq_dec : EqDecision TimeoutAction.
Proof. solve_decision. Defined.
Definition TimeoutAction_IsValid (a : TimeoutAction) : bool :=
  match a with TimeoutActionOther _ => false | _ => true end.

Inductive Permission :=
  | PermissionVisible | PermissionEditable | PermissionHidden | PermissionRequired
  | PermissionOther (s : string).
#[export] Instance Permission_eq_dec : EqDecision Permission.
Proof. solve_decision. Defined.
Definition Permission_IsValid (p : Permission) : bool :=
  bool_decide (p = PermissionVisible) || bool_decide (p = PermissionEditable)
  || bool_decide (p = PermissionHidden) || bool_decide (p = PermissionRequired).

Inductive ConditionKind :=
  | ConditionField | ConditionExpression | ConditionKindOther (s : string).
#[export] Instance ConditionKind_eq_dec : EqDecision ConditionKind.
Proof. solve_decision. Defined.

(** [ConditionOperator] and [AggregateKind] of [approval/condition.go]. *)
Inductive ConditionOperator :=
  | OperatorEquals | OperatorNotEquals | OperatorGreater | OperatorGreaterOrEq
  | OperatorLess | OperatorLessOrEq | OperatorIn | OperatorNotIn | OperatorContains
  | OperatorNotContains | OperatorStartsWith | OperatorEndsWith | OperatorIsEmpty
  | OperatorIsNotEmpty | ConditionOperatorOther (s : string).
#[export] Instance ConditionOperator_eq_dec : EqDecision ConditionOperator.
Proof. solve_decision. Defined.
Definition ConditionOperator_IsValid (o : ConditionOperator) : bool :=
  match o with ConditionOperatorOther _ => false | _ => true end.

Inductive AggregateKind :=
  | AggregateNone | AggregateSum | AggregateCount | AggregateAvg | AggregateOther (s : string).
#[export] Instance AggregateKind_eq_dec : EqDecision AggregateKind.
Proof. solve_decision. Defined.

Inductive FieldKind :=
  | FieldInput | FieldTextarea | FieldSelect | FieldNumber | FieldDate | FieldUpload
  | FieldTable | FieldKindOther (s : string).
#[export] Instance FieldKind_eq_dec : EqDecision FieldKind.
Proof. solve_decision. Defined.
Definition FieldKind_IsValid (k : FieldKind) : bool :=
  match k with FieldKindOther _ => false | _ => true end.

Inductive ColumnDataType :=
  | ColumnUnset | ColumnString | ColumnText | ColumnInteger | ColumnDecimal | ColumnBoolean
  | ColumnDate | ColumnDatetime | ColumnJSON | ColumnDataTypeOther (s : string).
#[export] Instance ColumnDataType_eq_dec : EqDecision ColumnDataType.
Proof. solve_decision. Defined.
Definition ColumnDataType_IsValid (c : ColumnDataType) : bool :=
  match c with ColumnUnset | ColumnDataTypeOther _ => false | _ => true end.

(** [config.DBKind] *)
Inductive DBKind := Oracle | SQLServer | Postgres | MySQL | SQLite | DBKindOther (s : string).
#[export] Instance DBKind_eq_dec : EqDecision DBKind.
Proof. solve_decision. Defined.

(** [config.ApprovalBindingConsistency], [BindingProjectionStatus], [BindingTrigger] *)
Inductive BindingConsistency :=
  | ApprovalBindingSynchronous | ApprovalBindingEventual | BindingConsistencyOther (s : string).
#[export] Instance BindingConsistency_eq_dec : EqDecision BindingConsistency.
Proof. solve_decision. Defined.
Inductive BindingProjectionStatus :=
  | BindingProjectionPending | BindingProjectionProcessing | BindingProjectionApplied
  | BindingProjectionFailed.
#[export] Instance BindingProjectionStatus_eq_dec : EqDecision BindingProjectionStatus.
Proof. solve_decision. Defined.
Inductive BindingTrigger :=
  | BindingTriggerStarted | BindingTriggerCompleted | BindingTriggerReturned
  | BindingTriggerWithdrawn | BindingTriggerResubmitted.

(** ** Runtime statuses *)

Inductive InstanceStatus :=
  | InstanceRunning | InstanceApproved | InstanceRejected
  | InstanceWithdrawn | InstanceReturned | InstanceTerminated.
#[export] Instance InstanceStatus_eq_dec : EqDecision InstanceStatus.
Proof. solve_decision. Defined.
Definition InstanceStatus_String (s : InstanceStatus) : string :=
  match s with
  | InstanceRunning => "running" | InstanceApproved => "approved"
  | InstanceRejected => "rejected" | InstanceWithdrawn => "withdrawn"
  | InstanceReturned => "returned" | InstanceTerminated => "terminated"
  end.
Definition InstanceStatus_IsFinal (s : InstanceStatus) : bool :=
  bool_decide (s = InstanceApproved) || bool_decide (s = InstanceRejected)
  || bool_decide (s = InstanceTerminated).

Inductive TaskStatus :=
  | TaskWaiting | TaskPending | TaskApproved | TaskRejected | TaskHandled
  | TaskTransferred | TaskRolledBack | TaskCanceled | TaskRemoved | TaskSkipped.
#[export] Instance TaskStatus_eq_dec : EqDecision TaskStatus.
Proof. solve_decision. Defined.
Definition TaskStatus_String (s : TaskStatus) : string :=
  match s with
  | TaskWaiting => "waiting" | TaskPending => "pending" | TaskApproved => "approved"
  | TaskRejected => "rejected" | TaskHandled => "handled"
  | TaskTransferred => "transferred" | TaskRolledBack => "rolled_back"
  | TaskCanceled => "canceled" | TaskRemoved => "removed" | TaskSkipped => "skipped"
  end.
Definition TaskStatus_IsFinal (s : TaskStatus) : bool :=
  bool_decide (s = TaskApproved) || bool_decide (s = TaskRejected)
  || bool_decide (s = TaskHandled) || bool_decide (s = TaskTransferred)
  || bool_decide (s = TaskRolledBack) || bool_decide (s = TaskCanceled)
  || bool_decide (s = TaskRemoved) || bool_decide (s = TaskSkipped).

Inductive NodeVisitStatus :=
  | NodeVisitActive | NodeVisitPassed | NodeVisitRejected
  | NodeVisitReturned | NodeVisitCanceled.
#[export] Instance NodeVisitStatus_eq_dec : EqDecision NodeVisitStatus.
Proof. solve_decision. Defined.

Inductive ActionType :=
  | ActionSubmit | ActionApprove | ActionHandle | ActionReject | ActionTransfer
  | ActionWithdraw | ActionCancel | ActionRollback | ActionAddAssignee
  | ActionRemoveAssignee | ActionExecute | ActionResubmit | ActionReassign
  | ActionTerminate | ActionAddCC.
#[export] Instance ActionType_eq_dec : EqDecision ActionType.
Proof. solve_decision. Defined.

(** [PassRuleResult] of [approval/condition.go]. *)
Inductive PassRuleResult := PassRulePending | PassRulePassed | PassRuleRejected.
#[export] Instance PassRuleResult_eq_dec : EqDecision PassRuleResult.
Proof. solve_decision. Defined.

(** [TaskActivationReason] of [approval/events_task.go]. *)
Inductive TaskActivationReason :=
  | TaskActivationAssigned | TaskActivationQueueAdvanced
  | TaskActivationTransferred | TaskActivationReassigned.

(** The status types are countable through their string form, the form the
    program stores them in; this makes them usable as map keys. *)
Definition all_InstanceStatus : list InstanceStatus :=
  [InstanceRunning; InstanceApproved; InstanceRejected;
   InstanceWithdrawn; InstanceReturned; InstanceTerminated].
Definition all_TaskStatus : list TaskStatus :=
  [TaskWaiting; TaskPending; TaskApproved; TaskRejected; TaskHandled;
   TaskTransferred; TaskRolledBack; TaskCanceled; TaskRemoved; TaskSkipped].

Definition parseStatus {S} (str : S → string) (all : list S) (x : string) : option S :=
  List.find (λ s, bool_decide (str s = x)) all.

#[export] Instance InstanceStatus_countable : Countable InstanceStatus.
Proof.
  apply (inj_countable InstanceStatus_String
           (parseStatus InstanceStatus_String all_InstanceStatus)).
  by intros [].
Defined.
#[export] Instance TaskStatus_countable : Countable TaskStatus.
Proof.
  apply (inj_countable TaskStatus_String (parseStatus TaskStatus_String all_TaskStatus)).
  by intros [].
Defined.
