(* ===== verification/StateMachine.v ===== *)
(** * State machines of instances and tasks

    [internal/approval/engine/state_machine.go]: a state machine is a table of
    declared transitions.  The two machines the engine builds are related here
    to transition relations, and the [IsFinal] predicates of the statuses are
    shown to be exactly the states with no way out. *)
From S2P Require Import Prelude Enums.

(** The [State] constraint: a comparable type with a name and a terminal test. *)
Class State (S : Type) := {
  State_String : S → string;
  State_IsFinal : S → bool;
}.
#[export] Instance InstanceStatus_State : State InstanceStatus :=
  {| State_String := InstanceStatus_String; State_IsFinal := InstanceStatus_IsFinal |}.
#[export] Instance TaskStatus_State : State TaskStatus :=
  {| State_String := TaskStatus_String; State_IsFinal := TaskStatus_IsFinal |}.

Section machine.
Context {S : Type} `{Countable S}.

(** [StateMachine]: [transitions : map[S]map[S]struct{}]. *)
Record StateMachine := {
  sm_name : string;
  sm_transitions : gmap S (gset S);
}.

Definition NewStateMachine (name : string) : StateMachine :=
  {| sm_name := name; sm_transitions := ∅ |}.

Definition AddTransition (sm : StateMachine) (from to : S) : StateMachine :=
  let targets := default ∅ (sm_transitions sm !! from) in
  {| sm_name := sm_name sm;
     sm_transitions := <[from := {[to]} ∪ targets]> (sm_transitions sm) |}.

Definition CanTransition (sm : StateMachine) (from to : S) : bool :=
  match sm_transitions sm !! from with
  | None => false
  | Some targets => bool_decide (to ∈ targets)
  end.

Lemma CanTransition_new name from to : CanTransition (NewStateMachine name) from to = false.
Proof. unfold CanTransition, NewStateMachine; cbn. by rewrite lookup_empty. Qed.

(** Adding a transition permits that pair and nothing else. *)
Lemma CanTransition_add sm f t from to :
  CanTransition (AddTransition sm f t) from to = true ↔
  (from = f ∧ to = t) ∨ CanTransition sm from to = true.
Proof.
  unfold CanTransition, AddTransition; cbn.
  destruct (decide (from = f)) as [->|Hne].
  - rewrite lookup_insert_eq. destruct (sm_transitions sm !! f) as [ts|]; cbn;
      rewrite ?bool_decide_eq_true; set_solver.
  - rewrite lookup_insert_ne by done. naive_solver.
Qed.
End machine.
Arguments StateMachine S {_ _}.

Definition buildInstanceStateMachine : StateMachine InstanceStatus :=
  let sm := NewStateMachine "instance" in
  let sm := AddTransition sm InstanceRunning InstanceApproved in
  let sm := AddTransition sm InstanceRunning InstanceRejected in
  let sm := AddTransition sm InstanceRunning InstanceWithdrawn in
  let sm := AddTransition sm InstanceRunning InstanceTerminated in
  let sm := AddTransition sm InstanceRunning InstanceReturned in
  let sm := AddTransition sm InstanceReturned InstanceRunning in
  let sm := AddTransition sm InstanceWithdrawn InstanceRunning in
  let sm := AddTransition sm InstanceReturned InstanceWithdrawn in
  let sm := AddTransition sm InstanceReturned InstanceTerminated in
  let sm := AddTransition sm InstanceWithdrawn InstanceTerminated in
  sm.
Definition InstanceStateMachine := buildInstanceStateMachine.

Definition buildTaskStateMachine : StateMachine TaskStatus :=
  let sm := NewStateMachine "task" in
  let sm := AddTransition sm TaskWaiting TaskPending in
  let sm := AddTransition sm TaskWaiting TaskCanceled in
  let sm := AddTransition sm TaskWaiting TaskSkipped in
  let sm := AddTransition sm TaskWaiting TaskRemoved in
  let sm := AddTransition sm TaskPending TaskApproved in
  let sm := AddTransition sm TaskPending TaskHandled in
  let sm := AddTransition sm TaskPending TaskRejected in
  let sm := AddTransition sm TaskPending TaskTransferred in
  let sm := AddTransition sm TaskPending TaskRolledBack in
  let sm := AddTransition sm TaskPending TaskCanceled in
  let sm := AddTransition sm TaskPending TaskWaiting in
  let sm := AddTransition sm TaskPending TaskRemoved in
  sm.
Definition TaskStateMachine := buildTaskStateMachine.

(** ** Reachability *)

(** One declared step of an instance, respectively of a task. *)
Definition instance_step (s t : InstanceStatus) : Prop :=
  CanTransition InstanceStateMachine s t = true.
Definition task_step (s t : TaskStatus) : Prop :=
  CanTransition TaskStateMachine s t = true.

#[export] Instance instance_step_dec s t : Decision (instance_step s t).
Proof. unfold instance_step. apply _. Defined.
#[export] Instance task_step_dec s t : Decision (task_step s t).
Proof. unfold task_step. apply _. Defined.

Lemma instance_final_no_step s t :
  InstanceStatus_IsFinal s = true → CanTransition InstanceStateMachine s t = false.
Proof. by destruct s, t. Qed.
Lemma task_final_no_step s t :
  TaskStatus_IsFinal s = true → CanTransition TaskStateMachine s t = false.
Proof. by destruct s, t. Qed.

(** A run of declared steps from a final status goes nowhere. *)
Lemma instance_final_rtc s t :
  InstanceStatus_IsFinal s = true → rtc instance_step s t → t = s.
Proof.
  intros Hs. destruct 1 as [|s u t Hsu _]; [done|].
  unfold instance_step in Hsu. by rewrite instance_final_no_step in Hsu.
Qed.
Lemma task_final_rtc s t : TaskStatus_IsFinal s = true → rtc task_step s t → t = s.
Proof.
  intros Hs. destruct 1 as [|s u t Hsu _]; [done|].
  unfold task_step in Hsu. by rewrite task_final_no_step in Hsu.
Qed.
#[export] Hint Resolve rtc_once rtc_refl : keeps.

(**  The terminal statuses of instances are exactly the statuses the
    instance state machine has no transition out of, and every other status can
    still be closed: a terminated status is one declared step away. *)
Theorem instance_final_iff_no_exit (s : InstanceStatus) :
  (InstanceStatus_IsFinal s = true ↔
     ∀ t, CanTransition InstanceStateMachine s t = false) ∧
  (InstanceStatus_IsFinal s = false →
     CanTransition InstanceStateMachine s InstanceTerminated = true).
Proof.
  split; [split|].
  - intros Hs t. by apply instance_final_no_step.
  - intros H. specialize (H InstanceTerminated) as H1. specialize (H InstanceRunning) as H2.
    by destruct s.
  - by destruct s.
Qed.

(**  The terminal statuses of tasks are exactly the statuses the task state
    machine has no transition out of. *)
Theorem task_final_iff_no_exit (s : TaskStatus) :
  TaskStatus_IsFinal s = true ↔ ∀ t, CanTransition TaskStateMachine s t = false.
Proof.
  split.
  - intros Hs t. by apply task_final_no_step.
  - intros H. specialize (H TaskCanceled). by destruct s.
Qed.
