(* ===== verification/Models.v ===== *)
(** * Data model and store of the approval module

    [approval/models.go] and the value types beside it, the domain events of
    [approval/events_*.go], the errors, and the store the engine runs on: the
    database tables, the request-scoped event and action-log collectors, the
    clock and the id generator.  Every struct is a record with the source's
    fields; of the embedded audit models only the columns some query reads (id
    and [created_at]) are kept.  A pointer field is an [option], [timex.DateTime]
    is a [Z] (seconds), a Go [int] is a [Z], [float64] is the IEEE-754 binary64
    format of the Standard Library's [SpecFloat]. *)
From Stdlib Require Export SpecFloat.
From stdpp Require Export pretty.
From S2P Require Export Prelude Enums StateMachine.

(** Boolean equality test on any type with decidable equality: Go's [==]. *)
Notation "x ==? y" := (bool_decide (x = y)) (at level 70, no associativity) : vef_scope.

Definition DateTime := Z.
Bind Scope Z_scope with DateTime.
Definition float64 := spec_float.
Definition prec64 : Z := 53.
Definition emax64 : Z := 1024.
(** Go's [float64(n)] of an integer: correctly rounded conversion. *)
Definition float64_of_Z (n : Z) : float64 := binary_normalize prec64 emax64 n 0 false.
Definition fdiv : float64 → float64 → float64 := SFdiv prec64 emax64.
Definition fmul : float64 → float64 → float64 := SFmul prec64 emax64.
Definition fadd : float64 → float64 → float64 := SFadd prec64 emax64.

(** A decoded JSON value: Go's [any] as the approval module sees it. *)
Inductive Value :=
  | VNil
  | VBool (b : bool)
  | VNumber (x : float64)
  | VString (s : string)
  | VStrings (l : list string)
  | VList (l : list Value)
  | VMap (m : gmap string Value).

(** [decimal.Decimal]: an arbitrary-precision decimal [coefficient * 10^exponent]. *)
Record Decimal := { Decimal_coef : Z; Decimal_exp : Z }.

(** ** Persons *)

(** [UserInfo]: the uniform person reference. *)
Record UserInfo := {
  UserInfo_ID : string;
  UserInfo_Name : string;
  UserInfo_DepartmentID : option string;
  UserInfo_DepartmentName : option string;
}.
Definition set_UserInfo_ID (v : string) (r : UserInfo) : UserInfo :=
  let 'Build_UserInfo _ x1 x2 x3 := r in Build_UserInfo v x1 x2 x3.
(** The zero [UserInfo], what indexing a map at a missing id yields. *)
Definition UserInfo_zero : UserInfo := Build_UserInfo "" "" None None.

(** [ResolvedAssignee]: who receives the task, and the delegator it came through. *)
Record ResolvedAssignee := {
  ResolvedAssignee_User : UserInfo;
  ResolvedAssignee_Delegator : option UserInfo;
}.

(** ** Flow definition *)

(** [BusinessBindingConfig]: the business row a flow writes back to. *)
Record BusinessBindingConfig := {
  BusinessBindingConfig_TableName : string;
  BusinessBindingConfig_KeyColumns : list string;
  BusinessBindingConfig_StatusColumn : string;
  BusinessBindingConfig_InstanceIDColumn : option string;
  BusinessBindingConfig_StartedAtColumn : option string;
  BusinessBindingConfig_FinishedAtColumn : option string;
  BusinessBindingConfig_StatusMapping : option (gmap string string);
}.
Definition set_BusinessBindingConfig_StatusMapping (v : option (gmap string string)) (r : BusinessBindingConfig) : BusinessBindingConfig :=
  let 'Build_BusinessBindingConfig x0 x1 x2 x3 x4 x5 _ := r in Build_BusinessBindingConfig x0
  x1 x2 x3 x4 x5 v.
#[export] Instance BusinessBindingConfig_eq_dec : EqDecision BusinessBindingConfig.
Proof. solve_decision. Defined.
(** [FlowCategory]; the columns that are read. *)
Record FlowCategory := {
  FlowCategory_ID : string;
  FlowCategory_TenantID : string;
  FlowCategory_Name : string;
}.
(** [Flow]. *)
Record Flow := {
  Flow_ID : string;
  Flow_TenantID : string;
  Flow_IsShared : bool;
  Flow_CategoryID : string;
  Flow_Code : string;
  Flow_Name : string;
  Flow_Icon : option string;
  Flow_Description : option string;
  Flow_Labels : gmap string string;
  Flow_BindingMode : BindingMode;
  Flow_BusinessBinding : option BusinessBindingConfig;
  Flow_AdminUserIDs : list string;
  Flow_IsAllInitiationAllowed : bool;
  Flow_InstanceTitleTemplate : string;
  Flow_IsActive : bool;
  Flow_CurrentVersion : Z;
}.
Definition set_Flow_ID (v : string) (r : Flow) : Flow :=
  let 'Build_Flow _ x1 x2 x3 x4 x5 x6 x7 x8 x9 x10 x11 x12 x13 x14 x15 := r in Build_Flow v x1
  x2 x3 x4 x5 x6 x7 x8 x9 x10 x11 x12 x13 x14 x15.
Definition set_Flow_BindingMode (v : BindingMode) (r : Flow) : Flow :=
  let 'Build_Flow x0 x1 x2 x3 x4 x5 x6 x7 x8 _ x10 x11 x12 x13 x14 x15 := r in Build_Flow x0
  x1 x2 x3 x4 x5 x6 x7 x8 v x10 x11 x12 x13 x14 x15.
Definition set_Flow_BusinessBinding (v : option BusinessBindingConfig) (r : Flow) : Flow :=
  let 'Build_Flow x0 x1 x2 x3 x4 x5 x6 x7 x8 x9 _ x11 x12 x13 x14 x15 := r in Build_Flow x0 x1
  x2 x3 x4 x5 x6 x7 x8 x9 v x11 x12 x13 x14 x15.
Definition set_Flow_IsActive (v : bool) (r : Flow) : Flow :=
  let 'Build_Flow x0 x1 x2 x3 x4 x5 x6 x7 x8 x9 x10 x11 x12 x13 _ x15 := r in Build_Flow x0 x1
  x2 x3 x4 x5 x6 x7 x8 x9 x10 x11 x12 x13 v x15.
Definition set_Flow_CurrentVersion (v : Z) (r : Flow) : Flow :=
  let 'Build_Flow x0 x1 x2 x3 x4 x5 x6 x7 x8 x9 x10 x11 x12 x13 x14 _ := r in Build_Flow x0 x1
  x2 x3 x4 x5 x6 x7 x8 x9 x10 x11 x12 x13 x14 v.
(** [FieldOption]. *)
Record FieldOption := {
  FieldOption_Label : string;
  FieldOption_Value : Value;
}.
(** [ValidationRule]. *)
Record ValidationRule := {
  ValidationRule_MinLength : option Z;
  ValidationRule_MaxLength : option Z;
  ValidationRule_Min : option float64;
  ValidationRule_Max : option float64;
  ValidationRule_Pattern : string;
  ValidationRule_Message : string;
}.
(** [RemoteOptionRequest]. *)
Record RemoteOptionRequest := {
  RemoteOptionRequest_Resource : string;
  RemoteOptionRequest_Action : string;
}.
(** [FieldOptionSource]. *)
Record FieldOptionSource := {
  FieldOptionSource_Kind : OptionSourceKind;
  FieldOptionSource_Request : option RemoteOptionRequest;
  FieldOptionSource_CodeSet : string;
}.

(** [FormFieldDefinition]: one form field.  A table field's [Columns] are
    themselves field definitions.  The designer-only members ([Placeholder],
    [DefaultValue], [Props], [SortOrder]; the version, parameters and
    mapping of a remote option source) are not read by the modelled code. *)
Inductive FormFieldDefinition := FormField {
  FormField_Key : string;
  FormField_Kind : FieldKind;
  FormField_Label : string;
  FormField_IsRequired : bool;
  FormField_Options : list FieldOption;
  FormField_OptionSource : option FieldOptionSource;
  FormField_Validation : option ValidationRule;
  FormField_ColumnType : ColumnDataType;
  FormField_Scale : option Z;
  FormField_Columns : list FormFieldDefinition;
}.
(** The data dictionary of a field, when its options come from one. *)
Definition FormField_CodeSet (f : FormFieldDefinition) : option string :=
  match FormField_OptionSource f with
  | Some source =>
      if bool_decide (FieldOptionSource_Kind source = OptionSourceCodeSet)
      then Some (FieldOptionSource_CodeSet source) else None
  | None => None
  end.

(** [Condition]: one branch condition. *)
Record Condition := {
  Condition_Kind : ConditionKind;
  Condition_Subject : string;
  Condition_Aggregate : AggregateKind;
  Condition_Column : string;
  Condition_Operator : ConditionOperator;
  Condition_Value : Value;
  Condition_Expression : string;
}.
(** [ConditionGroup]: conditions joined by AND. *)
Record ConditionGroup := {
  ConditionGroup_Conditions : list Condition;
}.
(** [ConditionBranch]: groups joined by OR, linked to an edge by the branch id. *)
Record ConditionBranch := {
  ConditionBranch_ID : string;
  ConditionBranch_Label : string;
  ConditionBranch_ConditionGroups : list ConditionGroup;
  ConditionBranch_IsDefault : bool;
  ConditionBranch_Priority : Z;
}.
(** [AssigneeDefinition]: one assignee rule of a node. *)
Record AssigneeDefinition := {
  AssigneeDefinition_Kind : AssigneeKind;
  AssigneeDefinition_IDs : list string;
  AssigneeDefinition_FormField : option string;
  AssigneeDefinition_SortOrder : Z;
}.
(** [CCDefinition]: one copy rule of a node. *)
Record CCDefinition := {
  CCDefinition_Kind : CCKind;
  CCDefinition_IDs : list string;
  CCDefinition_FormField : option string;
  CCDefinition_Timing : CCTiming;
}.

(** ** The designer's document

    [approval/flow_definition.go] and [approval/node_data.go].  A zero enumeration is
    the empty string; the canvas [Position] of a node and the [Data] of an edge are
    not read. *)

(** [BaseNodeData]. *)
Record BaseNodeData := {
  BaseNodeData_Name : string;
  BaseNodeData_Description : option string;
}.
(** [TaskNodeData]: what approval and handle nodes share. *)
Record TaskNodeData := {
  TaskNodeData_Assignees : list AssigneeDefinition;
  TaskNodeData_ExecutionType : ExecutionType;
  TaskNodeData_EmptyAssigneeAction : EmptyAssigneeAction;
  TaskNodeData_FallbackUserIDs : list string;
  TaskNodeData_AdminUserIDs : list string;
  TaskNodeData_IsTransferAllowed : option bool;
  TaskNodeData_IsOpinionRequired : bool;
  TaskNodeData_TimeoutHours : Z;
  TaskNodeData_TimeoutAction : TimeoutAction;
  TaskNodeData_TimeoutNotifyBeforeHours : Z;
  TaskNodeData_UrgeCooldownMinutes : Z;
  TaskNodeData_CCs : list CCDefinition;
  TaskNodeData_FieldPermissions : gmap string Permission;
}.
(** [ApprovalNodeData]. *)
Record ApprovalNodeData := {
  ApprovalNodeData_Base : BaseNodeData;
  ApprovalNodeData_Task : TaskNodeData;
  ApprovalNodeData_ApprovalMethod : ApprovalMethod;
  ApprovalNodeData_PassRule : PassRule;
  ApprovalNodeData_PassRatio : Decimal;
  ApprovalNodeData_PassCount : Z;
  ApprovalNodeData_SameApplicantAction : SameApplicantAction;
  ApprovalNodeData_ConsecutiveApproverAction : ConsecutiveApproverAction;
  ApprovalNodeData_RollbackType : RollbackType;
  ApprovalNodeData_RollbackDataStrategy : RollbackDataStrategy;
  ApprovalNodeData_RollbackTargetKeys : list string;
  ApprovalNodeData_IsRollbackAllowed : option bool;
  ApprovalNodeData_IsAddAssigneeAllowed : option bool;
  ApprovalNodeData_AddAssigneeTypes : list AddAssigneeType;
  ApprovalNodeData_IsRemoveAssigneeAllowed : option bool;
  ApprovalNodeData_IsManualCCAllowed : option bool;
}.
(** [HandleNodeData]. *)
Record HandleNodeData := {
  HandleNodeData_Base : BaseNodeData;
  HandleNodeData_Task : TaskNodeData;
}.
(** [CCNodeData]. *)
Record CCNodeData := {
  CCNodeData_Base : BaseNodeData;
  CCNodeData_CCs : list CCDefinition;
  CCNodeData_IsReadConfirmRequired : bool;
  CCNodeData_FieldPermissions : gmap string Permission;
}.
(** [ConditionNodeData]. *)
Record ConditionNodeData := {
  ConditionNodeData_Base : BaseNodeData;
  ConditionNodeData_Branches : list ConditionBranch;
}.
(** [NodeData]: the types that implement the interface. *)
Inductive NodeData :=
  | StartNodeData (d : BaseNodeData)
  | EndNodeData (d : BaseNodeData)
  | NodeDataApproval (d : ApprovalNodeData)
  | NodeDataHandle (d : HandleNodeData)
  | NodeDataCC (d : CCNodeData)
  | NodeDataCondition (d : ConditionNodeData).

(** [NodeDefinition]; [Data] is the raw JSON, empty when omitted. *)
Record NodeDefinition := {
  NodeDefinition_ID : string;
  NodeDefinition_Kind : NodeKind;
  NodeDefinition_Data : string;
}.
(** [EdgeDefinition]. *)
Record EdgeDefinition := {
  EdgeDefinition_ID : string;
  EdgeDefinition_Source : string;
  EdgeDefinition_Target : string;
  EdgeDefinition_SourceHandle : option string;
}.
(** [FlowDefinition]. *)
Record FlowDefinition := {
  FlowDefinition_Nodes : list NodeDefinition;
  FlowDefinition_Edges : list EdgeDefinition;
}.
(** [FlowVersion]; the form designer document ([FormSchema]) is opaque. *)
Record FlowVersion := {
  FlowVersion_ID : string;
  FlowVersion_FlowID : string;
  FlowVersion_Version : Z;
  FlowVersion_Status : VersionStatus;
  FlowVersion_Description : option string;
  FlowVersion_StorageMode : StorageMode;
  FlowVersion_FlowSchema : option FlowDefinition;
  FlowVersion_FormSchema : option string;
  FlowVersion_FormFields : list FormFieldDefinition;
  FlowVersion_PublishedAt : option DateTime;
  FlowVersion_PublishedBy : option string;
  FlowVersion_BusinessBinding : option BusinessBindingConfig;
}.
Definition set_FlowVersion_ID (v : string) (r : FlowVersion) : FlowVersion :=
  let 'Build_FlowVersion _ x1 x2 x3 x4 x5 x6 x7 x8 x9 x10 x11 := r in Build_FlowVersion v x1
  x2 x3 x4 x5 x6 x7 x8 x9 x10 x11.
Definition set_FlowVersion_Status (v : VersionStatus) (r : FlowVersion) : FlowVersion :=
  let 'Build_FlowVersion x0 x1 x2 _ x4 x5 x6 x7 x8 x9 x10 x11 := r in Build_FlowVersion x0 x1
  x2 v x4 x5 x6 x7 x8 x9 x10 x11.
Definition set_FlowVersion_PublishedAt (v : option DateTime) (r : FlowVersion) : FlowVersion :=
  let 'Build_FlowVersion x0 x1 x2 x3 x4 x5 x6 x7 x8 _ x10 x11 := r in Build_FlowVersion x0 x1
  x2 x3 x4 x5 x6 x7 x8 v x10 x11.
Definition set_FlowVersion_PublishedBy (v : option string) (r : FlowVersion) : FlowVersion :=
  let 'Build_FlowVersion x0 x1 x2 x3 x4 x5 x6 x7 x8 x9 _ x11 := r in Build_FlowVersion x0 x1
  x2 x3 x4 x5 x6 x7 x8 x9 v x11.
(** [FlowNode]. *)
Record FlowNode := {
  FlowNode_ID : string;
  FlowNode_FlowVersionID : string;
  FlowNode_Key : string;
  FlowNode_Kind : NodeKind;
  FlowNode_Name : string;
  FlowNode_Description : option string;
  FlowNode_ExecutionType : ExecutionType;
  FlowNode_ApprovalMethod : ApprovalMethod;
  FlowNode_PassRule : PassRule;
  FlowNode_PassRatio : Decimal;
  FlowNode_PassCount : Z;
  FlowNode_EmptyAssigneeAction : EmptyAssigneeAction;
  FlowNode_FallbackUserIDs : list string;
  FlowNode_AdminUserIDs : list string;
  FlowNode_SameApplicantAction : SameApplicantAction;
  FlowNode_IsRollbackAllowed : bool;
  FlowNode_RollbackType : RollbackType;
  FlowNode_RollbackDataStrategy : RollbackDataStrategy;
  FlowNode_RollbackTargetKeys : list string;
  FlowNode_IsAddAssigneeAllowed : bool;
  FlowNode_AddAssigneeTypes : list AddAssigneeType;
  FlowNode_IsRemoveAssigneeAllowed : bool;
  FlowNode_FieldPermissions : gmap string Permission;
  FlowNode_IsManualCCAllowed : bool;
  FlowNode_IsTransferAllowed : bool;
  FlowNode_IsOpinionRequired : bool;
  FlowNode_TimeoutHours : Z;
  FlowNode_TimeoutAction : TimeoutAction;
  FlowNode_TimeoutNotifyBeforeHours : Z;
  FlowNode_UrgeCooldownMinutes : Z;
  FlowNode_ConsecutiveApproverAction : ConsecutiveApproverAction;
  FlowNode_IsReadConfirmRequired : bool;
  FlowNode_Branches : list ConditionBranch;
}.
Definition set_FlowNode_ID (v : string) (r : FlowNode) : FlowNode :=
  let 'Build_FlowNode _ x1 x2 x3 x4 x5 x6 x7 x8 x9 x10 x11 x12 x13 x14 x15 x16 x17 x18 x19 x20
  x21 x22 x23 x24 x25 x26 x27 x28 x29 x30 x31 x32 := r in Build_FlowNode v x1 x2 x3 x4 x5 x6
  x7 x8 x9 x10 x11 x12 x13 x14 x15 x16 x17 x18 x19 x20 x21 x22 x23 x24 x25 x26 x27 x28 x29 x30
  x31 x32.
Definition set_FlowNode_SameApplicantAction (v : SameApplicantAction) (r : FlowNode) : FlowNode :=
  let 'Build_FlowNode x0 x1 x2 x3 x4 x5 x6 x7 x8 x9 x10 x11 x12 x13 _ x15 x16 x17 x18 x19 x20
  x21 x22 x23 x24 x25 x26 x27 x28 x29 x30 x31 x32 := r in Build_FlowNode x0 x1 x2 x3 x4 x5 x6
  x7 x8 x9 x10 x11 x12 x13 v x15 x16 x17 x18 x19 x20 x21 x22 x23 x24 x25 x26 x27 x28 x29 x30
  x31 x32.
Definition set_FlowNode_Branches (v : list ConditionBranch) (r : FlowNode) : FlowNode :=
  let 'Build_FlowNode x0 x1 x2 x3 x4 x5 x6 x7 x8 x9 x10 x11 x12 x13 x14 x15 x16 x17 x18 x19
  x20 x21 x22 x23 x24 x25 x26 x27 x28 x29 x30 x31 _ := r in Build_FlowNode x0 x1 x2 x3 x4 x5
  x6 x7 x8 x9 x10 x11 x12 x13 x14 x15 x16 x17 x18 x19 x20 x21 x22 x23 x24 x25 x26 x27 x28 x29
  x30 x31 v.
Definition set_FlowNode_AdminUserIDs (v : list string) (r : FlowNode) : FlowNode :=
  let 'Build_FlowNode x0 x1 x2 x3 x4 x5 x6 x7 x8 x9 x10 x11 x12 _ x14 x15 x16 x17 x18 x19 x20
  x21 x22 x23 x24 x25 x26 x27 x28 x29 x30 x31 x32 := r in Build_FlowNode x0 x1 x2 x3 x4 x5 x6
  x7 x8 x9 x10 x11 x12 v x14 x15 x16 x17 x18 x19 x20 x21 x22 x23 x24 x25 x26 x27 x28 x29 x30
  x31 x32.
Definition set_FlowNode_TimeoutHours (v : Z) (r : FlowNode) : FlowNode :=
  let 'Build_FlowNode x0 x1 x2 x3 x4 x5 x6 x7 x8 x9 x10 x11 x12 x13 x14 x15 x16 x17 x18 x19
  x20 x21 x22 x23 x24 x25 _ x27 x28 x29 x30 x31 x32 := r in Build_FlowNode x0 x1 x2 x3 x4 x5
  x6 x7 x8 x9 x10 x11 x12 x13 x14 x15 x16 x17 x18 x19 x20 x21 x22 x23 x24 x25 v x27 x28 x29
  x30 x31 x32.
Definition set_FlowNode_TimeoutAction (v : TimeoutAction) (r : FlowNode) : FlowNode :=
  let 'Build_FlowNode x0 x1 x2 x3 x4 x5 x6 x7 x8 x9 x10 x11 x12 x13 x14 x15 x16 x17 x18 x19
  x20 x21 x22 x23 x24 x25 x26 _ x28 x29 x30 x31 x32 := r in Build_FlowNode x0 x1 x2 x3 x4 x5
  x6 x7 x8 x9 x10 x11 x12 x13 x14 x15 x16 x17 x18 x19 x20 x21 x22 x23 x24 x25 x26 v x28 x29
  x30 x31 x32.
Definition set_FlowNode_TimeoutNotifyBeforeHours (v : Z) (r : FlowNode) : FlowNode :=
  let 'Build_FlowNode x0 x1 x2 x3 x4 x5 x6 x7 x8 x9 x10 x11 x12 x13 x14 x15 x16 x17 x18 x19
  x20 x21 x22 x23 x24 x25 x26 x27 _ x29 x30 x31 x32 := r in Build_FlowNode x0 x1 x2 x3 x4 x5
  x6 x7 x8 x9 x10 x11 x12 x13 x14 x15 x16 x17 x18 x19 x20 x21 x22 x23 x24 x25 x26 x27 v x29
  x30 x31 x32.
Definition set_FlowNode_FieldPermissions (v : gmap string Permission) (r : FlowNode) : FlowNode :=
  let 'Build_FlowNode x0 x1 x2 x3 x4 x5 x6 x7 x8 x9 x10 x11 x12 x13 x14 x15 x16 x17 x18 x19
  x20 x21 _ x23 x24 x25 x26 x27 x28 x29 x30 x31 x32 := r in Build_FlowNode x0 x1 x2 x3 x4 x5
  x6 x7 x8 x9 x10 x11 x12 x13 x14 x15 x16 x17 x18 x19 x20 x21 v x23 x24 x25 x26 x27 x28 x29
  x30 x31 x32.
(** [FlowEdge]. *)
Record FlowEdge := {
  FlowEdge_ID : string;
  FlowEdge_FlowVersionID : string;
  FlowEdge_Key : string;
  FlowEdge_SourceNodeID : string;
  FlowEdge_SourceNodeKey : string;
  FlowEdge_TargetNodeID : string;
  FlowEdge_TargetNodeKey : string;
  FlowEdge_SourceHandle : option string;
}.
Definition set_FlowEdge_ID (v : string) (r : FlowEdge) : FlowEdge :=
  let 'Build_FlowEdge _ x1 x2 x3 x4 x5 x6 x7 := r in Build_FlowEdge v x1 x2 x3 x4 x5 x6 x7.
(** [FormTable]: the generated table of a version, or of one detail field of it. *)
Record FormTable := {
  FormTable_ID : string;
  FormTable_FlowID : string;
  FormTable_VersionID : string;
  FormTable_PhysicalTableName : string;
  FormTable_SourceFieldKey : string;
}.
Definition set_FormTable_ID (v : string) (r : FormTable) : FormTable :=
  let 'Build_FormTable _ x1 x2 x3 x4 := r in Build_FormTable v x1 x2 x3 x4.
(** [FormTableColumn]: one generated column. *)
Record FormTableColumn := {
  FormTableColumn_ID : string;
  FormTableColumn_FormTableID : string;
  FormTableColumn_ColumnName : string;
  FormTableColumn_ColumnType : string;
  FormTableColumn_IsNullable : bool;
  FormTableColumn_SourceFieldKey : option string;
  FormTableColumn_SortOrder : Z;
}.
Definition set_FormTableColumn_ID (v : string) (r : FormTableColumn) : FormTableColumn :=
  let 'Build_FormTableColumn _ x1 x2 x3 x4 x5 x6 := r in Build_FormTableColumn v x1 x2 x3 x4
  x5 x6.
(** An argument bound to a placeholder of a raw statement: a decoded JSON value
    or a Go integer. *)
Inductive BindArg := BindValue (v : Value) | BindInt (n : Z).

(** ** Business projections *)

#[export] Instance float64_eq_dec : EqDecision float64.
Proof. unfold float64. solve_decision. Defined.
#[export] Instance DateTime_eq_dec : EqDecision DateTime := Z.eq_dec.
(** [driver.Value], nil apart. *)
Inductive DriverValue :=
  | DString (s : string) | DInt64 (n : Z) | DFloat64 (x : float64) | DBool (b : bool)
  | DBytes (b : string) | DTime (t : DateTime).
#[export] Instance DriverValue_eq_dec : EqDecision DriverValue.
Proof. solve_decision. Defined.
(** A value of a [BusinessRecordKey], as the default parameter converter sees it. *)
Inductive KeyValue := KeyNil | KeyValueOf (v : DriverValue) | KeyUnsupported.

(** [storedRecordKeyPart]: one column of a stored key. *)
Record storedRecordKeyPart := {
  storedRecordKeyPart_Column : string;
  storedRecordKeyPart_Kind : string;
  storedRecordKeyPart_Value : string;
}.
#[export] Instance storedRecordKeyPart_eq_dec : EqDecision storedRecordKeyPart.
Proof. solve_decision. Defined.
(** [BusinessProjection]: the desired state of one business record.  The key column is JSON; its parts are kept. *)
Record BusinessProjection := {
  BusinessProjection_ID : string;
  BusinessProjection_CreatedAt : DateTime;
  BusinessProjection_UpdatedAt : DateTime;
  BusinessProjection_TenantID : string;
  BusinessProjection_FlowID : string;
  BusinessProjection_FlowVersionID : string;
  BusinessProjection_OwnerInstanceID : string;
  BusinessProjection_AppliedOwnerInstanceID : option string;
  BusinessProjection_TargetHash : string;
  BusinessProjection_Consistency : BindingConsistency;
  BusinessProjection_Binding : option BusinessBindingConfig;
  BusinessProjection_RecordKey : list storedRecordKeyPart;
  BusinessProjection_DesiredStatus : InstanceStatus;
  BusinessProjection_DesiredStartedAt : DateTime;
  BusinessProjection_DesiredFinishedAt : option DateTime;
  BusinessProjection_DesiredRevision : Z;
  BusinessProjection_AppliedRevision : Z;
  BusinessProjection_Status : BindingProjectionStatus;
  BusinessProjection_AttemptCount : Z;
  BusinessProjection_NextAttemptAt : option DateTime;
  BusinessProjection_LeaseUntil : option DateTime;
  BusinessProjection_LastError : option string;
  BusinessProjection_AppliedAt : option DateTime;
}.
Definition set_BusinessProjection_ID (v : string) (r : BusinessProjection) : BusinessProjection :=
  let 'Build_BusinessProjection _ x1 x2 x3 x4 x5 x6 x7 x8 x9 x10 x11 x12 x13 x14 x15 x16 x17
  x18 x19 x20 x21 x22 := r in Build_BusinessProjection v x1 x2 x3 x4 x5 x6 x7 x8 x9 x10 x11
  x12 x13 x14 x15 x16 x17 x18 x19 x20 x21 x22.
Definition set_BusinessProjection_CreatedAt (v : DateTime) (r : BusinessProjection) : BusinessProjection :=
  let 'Build_BusinessProjection x0 _ x2 x3 x4 x5 x6 x7 x8 x9 x10 x11 x12 x13 x14 x15 x16 x17
  x18 x19 x20 x21 x22 := r in Build_BusinessProjection x0 v x2 x3 x4 x5 x6 x7 x8 x9 x10 x11
  x12 x13 x14 x15 x16 x17 x18 x19 x20 x21 x22.
Definition set_BusinessProjection_UpdatedAt (v : DateTime) (r : BusinessProjection) : BusinessProjection :=
  let 'Build_BusinessProjection x0 x1 _ x3 x4 x5 x6 x7 x8 x9 x10 x11 x12 x13 x14 x15 x16 x17
  x18 x19 x20 x21 x22 := r in Build_BusinessProjection x0 x1 v x3 x4 x5 x6 x7 x8 x9 x10 x11
  x12 x13 x14 x15 x16 x17 x18 x19 x20 x21 x22.
Definition set_BusinessProjection_Status (v : BindingProjectionStatus) (r : BusinessProjection) : BusinessProjection :=
  let 'Build_BusinessProjection x0 x1 x2 x3 x4 x5 x6 x7 x8 x9 x10 x11 x12 x13 x14 x15 x16 _
  x18 x19 x20 x21 x22 := r in Build_BusinessProjection x0 x1 x2 x3 x4 x5 x6 x7 x8 x9 x10 x11
  x12 x13 x14 x15 x16 v x18 x19 x20 x21 x22.
Definition set_BusinessProjection_NextAttemptAt (v : option DateTime) (r : BusinessProjection) : BusinessProjection :=
  let 'Build_BusinessProjection x0 x1 x2 x3 x4 x5 x6 x7 x8 x9 x10 x11 x12 x13 x14 x15 x16 x17
  x18 _ x20 x21 x22 := r in Build_BusinessProjection x0 x1 x2 x3 x4 x5 x6 x7 x8 x9 x10 x11 x12
  x13 x14 x15 x16 x17 x18 v x20 x21 x22.
Definition set_BusinessProjection_LeaseUntil (v : option DateTime) (r : BusinessProjection) : BusinessProjection :=
  let 'Build_BusinessProjection x0 x1 x2 x3 x4 x5 x6 x7 x8 x9 x10 x11 x12 x13 x14 x15 x16 x17
  x18 x19 _ x21 x22 := r in Build_BusinessProjection x0 x1 x2 x3 x4 x5 x6 x7 x8 x9 x10 x11 x12
  x13 x14 x15 x16 x17 x18 x19 v x21 x22.
(** A row of a host table; a missing cell is null. *)
Record BusinessRow := {
  BusinessRow_Table : string;
  BusinessRow_Cells : gmap string DriverValue;
}.

(** [FlowNodeAssignee]. *)
Record FlowNodeAssignee := {
  FlowNodeAssignee_ID : string;
  FlowNodeAssignee_NodeID : string;
  FlowNodeAssignee_Kind : AssigneeKind;
  FlowNodeAssignee_IDs : list string;
  FlowNodeAssignee_FormField : option string;
  FlowNodeAssignee_SortOrder : Z;
}.
Definition set_FlowNodeAssignee_ID (v : string) (r : FlowNodeAssignee) : FlowNodeAssignee :=
  let 'Build_FlowNodeAssignee _ x1 x2 x3 x4 x5 := r in Build_FlowNodeAssignee v x1 x2 x3 x4
  x5.
(** [FlowNodeCC]. *)
Record FlowNodeCC := {
  FlowNodeCC_ID : string;
  FlowNodeCC_NodeID : string;
  FlowNodeCC_Kind : CCKind;
  FlowNodeCC_IDs : list string;
  FlowNodeCC_FormField : option string;
  FlowNodeCC_Timing : CCTiming;
}.
Definition set_FlowNodeCC_ID (v : string) (r : FlowNodeCC) : FlowNodeCC :=
  let 'Build_FlowNodeCC _ x1 x2 x3 x4 x5 := r in Build_FlowNodeCC v x1 x2 x3 x4 x5.
(** [FlowInitiator]. *)
Record FlowInitiator := {
  FlowInitiator_ID : string;
  FlowInitiator_FlowID : string;
  FlowInitiator_Kind : string;
  FlowInitiator_IDs : list string;
}.
Definition set_FlowInitiator_ID (v : string) (r : FlowInitiator) : FlowInitiator :=
  let 'Build_FlowInitiator _ x1 x2 x3 := r in Build_FlowInitiator v x1 x2 x3.

(** ** Instances, tasks, visits *)

(** [Instance]. *)
Record Instance := {
  Instance_ID : string;
  Instance_CreatedAt : DateTime;
  Instance_TenantID : string;
  Instance_FlowID : string;
  Instance_FlowCode : string;
  Instance_FlowVersionID : string;
  Instance_Title : string;
  Instance_InstanceNo : string;
  Instance_ApplicantID : string;
  Instance_ApplicantName : string;
  Instance_ApplicantDepartmentID : option string;
  Instance_ApplicantDepartmentName : option string;
  Instance_Status : InstanceStatus;
  Instance_CurrentNodeID : option string;
  Instance_FinishedAt : option DateTime;
  Instance_BusinessRef : option string;
  Instance_FormData : option (gmap string Value);
  Instance_Globals : option (gmap string Value);
  Instance_BusinessProjectionID : option string;
}.
Definition set_Instance_ID (v : string) (r : Instance) : Instance :=
  let 'Build_Instance _ x1 x2 x3 x4 x5 x6 x7 x8 x9 x10 x11 x12 x13 x14 x15 x16 x17 x18 := r in
  Build_Instance v x1 x2 x3 x4 x5 x6 x7 x8 x9 x10 x11 x12 x13 x14 x15 x16 x17 x18.
Definition set_Instance_CreatedAt (v : DateTime) (r : Instance) : Instance :=
  let 'Build_Instance x0 _ x2 x3 x4 x5 x6 x7 x8 x9 x10 x11 x12 x13 x14 x15 x16 x17 x18 := r in
  Build_Instance x0 v x2 x3 x4 x5 x6 x7 x8 x9 x10 x11 x12 x13 x14 x15 x16 x17 x18.
Definition set_Instance_Status (v : InstanceStatus) (r : Instance) : Instance :=
  let 'Build_Instance x0 x1 x2 x3 x4 x5 x6 x7 x8 x9 x10 x11 _ x13 x14 x15 x16 x17 x18 := r in
  Build_Instance x0 x1 x2 x3 x4 x5 x6 x7 x8 x9 x10 x11 v x13 x14 x15 x16 x17 x18.
Definition set_Instance_CurrentNodeID (v : option string) (r : Instance) : Instance :=
  let 'Build_Instance x0 x1 x2 x3 x4 x5 x6 x7 x8 x9 x10 x11 x12 _ x14 x15 x16 x17 x18 := r in
  Build_Instance x0 x1 x2 x3 x4 x5 x6 x7 x8 x9 x10 x11 x12 v x14 x15 x16 x17 x18.
Definition set_Instance_FinishedAt (v : option DateTime) (r : Instance) : Instance :=
  let 'Build_Instance x0 x1 x2 x3 x4 x5 x6 x7 x8 x9 x10 x11 x12 x13 _ x15 x16 x17 x18 := r in
  Build_Instance x0 x1 x2 x3 x4 x5 x6 x7 x8 x9 x10 x11 x12 x13 v x15 x16 x17 x18.
Definition set_Instance_BusinessRef (v : option string) (r : Instance) : Instance :=
  let 'Build_Instance x0 x1 x2 x3 x4 x5 x6 x7 x8 x9 x10 x11 x12 x13 x14 _ x16 x17 x18 := r in
  Build_Instance x0 x1 x2 x3 x4 x5 x6 x7 x8 x9 x10 x11 x12 x13 x14 v x16 x17 x18.
Definition set_Instance_FormData (v : option (gmap string Value)) (r : Instance) : Instance :=
  let 'Build_Instance x0 x1 x2 x3 x4 x5 x6 x7 x8 x9 x10 x11 x12 x13 x14 x15 _ x17 x18 := r in
  Build_Instance x0 x1 x2 x3 x4 x5 x6 x7 x8 x9 x10 x11 x12 x13 x14 x15 v x17 x18.
Definition set_Instance_BusinessProjectionID (v : option string) (r : Instance) : Instance :=
  let 'Build_Instance x0 x1 x2 x3 x4 x5 x6 x7 x8 x9 x10 x11 x12 x13 x14 x15 x16 x17 _ := r in
  Build_Instance x0 x1 x2 x3 x4 x5 x6 x7 x8 x9 x10 x11 x12 x13 x14 x15 x16 x17 v.
(** [Instance.Applicant] *)
Definition Applicant (i : Instance) : UserInfo :=
  Build_UserInfo (Instance_ApplicantID i) (Instance_ApplicantName i)
    (Instance_ApplicantDepartmentID i) (Instance_ApplicantDepartmentName i).

(** [Task]. *)
Record Task := {
  Task_ID : string;
  Task_CreatedAt : DateTime;
  Task_TenantID : string;
  Task_InstanceID : string;
  Task_NodeID : string;
  Task_VisitID : string;
  Task_AssigneeID : string;
  Task_AssigneeName : string;
  Task_AssigneeDepartmentID : option string;
  Task_AssigneeDepartmentName : option string;
  Task_DelegatorID : option string;
  Task_DelegatorName : option string;
  Task_DelegatorDepartmentID : option string;
  Task_DelegatorDepartmentName : option string;
  Task_SortOrder : Z;
  Task_Status : TaskStatus;
  Task_ReadAt : option DateTime;
  Task_ParentTaskID : option string;
  Task_AddAssigneeType : option AddAssigneeType;
  Task_Deadline : option DateTime;
  Task_IsTimeout : bool;
  Task_IsPreWarningSent : bool;
  Task_FinishedAt : option DateTime;
}.
Definition set_Task_ID (v : string) (r : Task) : Task :=
  let 'Build_Task _ x1 x2 x3 x4 x5 x6 x7 x8 x9 x10 x11 x12 x13 x14 x15 x16 x17 x18 x19 x20 x21
  x22 := r in Build_Task v x1 x2 x3 x4 x5 x6 x7 x8 x9 x10 x11 x12 x13 x14 x15 x16 x17 x18 x19
  x20 x21 x22.
Definition set_Task_CreatedAt (v : DateTime) (r : Task) : Task :=
  let 'Build_Task x0 _ x2 x3 x4 x5 x6 x7 x8 x9 x10 x11 x12 x13 x14 x15 x16 x17 x18 x19 x20 x21
  x22 := r in Build_Task x0 v x2 x3 x4 x5 x6 x7 x8 x9 x10 x11 x12 x13 x14 x15 x16 x17 x18 x19
  x20 x21 x22.
Definition set_Task_SortOrder (v : Z) (r : Task) : Task :=
  let 'Build_Task x0 x1 x2 x3 x4 x5 x6 x7 x8 x9 x10 x11 x12 x13 _ x15 x16 x17 x18 x19 x20 x21
  x22 := r in Build_Task x0 x1 x2 x3 x4 x5 x6 x7 x8 x9 x10 x11 x12 x13 v x15 x16 x17 x18 x19
  x20 x21 x22.
Definition set_Task_Status (v : TaskStatus) (r : Task) : Task :=
  let 'Build_Task x0 x1 x2 x3 x4 x5 x6 x7 x8 x9 x10 x11 x12 x13 x14 _ x16 x17 x18 x19 x20 x21
  x22 := r in Build_Task x0 x1 x2 x3 x4 x5 x6 x7 x8 x9 x10 x11 x12 x13 x14 v x16 x17 x18 x19
  x20 x21 x22.
Definition set_Task_ReadAt (v : option DateTime) (r : Task) : Task :=
  let 'Build_Task x0 x1 x2 x3 x4 x5 x6 x7 x8 x9 x10 x11 x12 x13 x14 x15 _ x17 x18 x19 x20 x21
  x22 := r in Build_Task x0 x1 x2 x3 x4 x5 x6 x7 x8 x9 x10 x11 x12 x13 x14 x15 v x17 x18 x19
  x20 x21 x22.
Definition set_Task_ParentTaskID (v : option string) (r : Task) : Task :=
  let 'Build_Task x0 x1 x2 x3 x4 x5 x6 x7 x8 x9 x10 x11 x12 x13 x14 x15 x16 _ x18 x19 x20 x21
  x22 := r in Build_Task x0 x1 x2 x3 x4 x5 x6 x7 x8 x9 x10 x11 x12 x13 x14 x15 x16 v x18 x19
  x20 x21 x22.
Definition set_Task_AddAssigneeType (v : option AddAssigneeType) (r : Task) : Task :=
  let 'Build_Task x0 x1 x2 x3 x4 x5 x6 x7 x8 x9 x10 x11 x12 x13 x14 x15 x16 x17 _ x19 x20 x21
  x22 := r in Build_Task x0 x1 x2 x3 x4 x5 x6 x7 x8 x9 x10 x11 x12 x13 x14 x15 x16 x17 v x19
  x20 x21 x22.
Definition set_Task_Deadline (v : option DateTime) (r : Task) : Task :=
  let 'Build_Task x0 x1 x2 x3 x4 x5 x6 x7 x8 x9 x10 x11 x12 x13 x14 x15 x16 x17 x18 _ x20 x21
  x22 := r in Build_Task x0 x1 x2 x3 x4 x5 x6 x7 x8 x9 x10 x11 x12 x13 x14 x15 x16 x17 x18 v
  x20 x21 x22.
Definition set_Task_IsTimeout (v : bool) (r : Task) : Task :=
  let 'Build_Task x0 x1 x2 x3 x4 x5 x6 x7 x8 x9 x10 x11 x12 x13 x14 x15 x16 x17 x18 x19 _ x21
  x22 := r in Build_Task x0 x1 x2 x3 x4 x5 x6 x7 x8 x9 x10 x11 x12 x13 x14 x15 x16 x17 x18 x19
  v x21 x22.
Definition set_Task_IsPreWarningSent (v : bool) (r : Task) : Task :=
  let 'Build_Task x0 x1 x2 x3 x4 x5 x6 x7 x8 x9 x10 x11 x12 x13 x14 x15 x16 x17 x18 x19 x20 _
  x22 := r in Build_Task x0 x1 x2 x3 x4 x5 x6 x7 x8 x9 x10 x11 x12 x13 x14 x15 x16 x17 x18 x19
  x20 v x22.
Definition set_Task_FinishedAt (v : option DateTime) (r : Task) : Task :=
  let 'Build_Task x0 x1 x2 x3 x4 x5 x6 x7 x8 x9 x10 x11 x12 x13 x14 x15 x16 x17 x18 x19 x20
  x21 _ := r in Build_Task x0 x1 x2 x3 x4 x5 x6 x7 x8 x9 x10 x11 x12 x13 x14 x15 x16 x17 x18
  x19 x20 x21 v.
(** The assignee columns, written together by a reassignment. *)
Definition set_Task_Assignee (u : UserInfo) (r : Task) : Task :=
  let 'Build_Task x0 x1 x2 x3 x4 x5 _ _ _ _ x10 x11 x12 x13 x14 x15 x16 x17 x18 x19 x20 x21
    x22 := r in
  Build_Task x0 x1 x2 x3 x4 x5 (UserInfo_ID u) (UserInfo_Name u) (UserInfo_DepartmentID u)
    (UserInfo_DepartmentName u) x10 x11 x12 x13 x14 x15 x16 x17 x18 x19 x20 x21 x22.
(** The delegator columns. *)
Definition set_Task_Delegator (d : option UserInfo) (r : Task) : Task :=
  let 'Build_Task x0 x1 x2 x3 x4 x5 x6 x7 x8 x9 _ _ _ _ x14 x15 x16 x17 x18 x19 x20 x21 x22 :=
    r in
  Build_Task x0 x1 x2 x3 x4 x5 x6 x7 x8 x9 (UserInfo_ID <$> d) (UserInfo_Name <$> d)
    (d ≫= UserInfo_DepartmentID) (d ≫= UserInfo_DepartmentName)
    x14 x15 x16 x17 x18 x19 x20 x21 x22.

(** [Task.Assignee] *)
Definition Assignee (t : Task) : UserInfo :=
  Build_UserInfo (Task_AssigneeID t) (Task_AssigneeName t)
    (Task_AssigneeDepartmentID t) (Task_AssigneeDepartmentName t).
(** [Task.Delegator] *)
Definition Delegator (t : Task) : option UserInfo :=
  match Task_DelegatorID t with
  | None => None
  | Some id => Some (Build_UserInfo id (default "" (Task_DelegatorName t))
                       (Task_DelegatorDepartmentID t) (Task_DelegatorDepartmentName t))
  end.

(** [NodeVisit]: one traversal of a node by an instance. *)
Record NodeVisit := {
  NodeVisit_ID : string;
  NodeVisit_CreatedAt : DateTime;
  NodeVisit_TenantID : string;
  NodeVisit_InstanceID : string;
  NodeVisit_NodeID : string;
  NodeVisit_Sequence : Z;
  NodeVisit_Status : NodeVisitStatus;
  NodeVisit_FinishedAt : option DateTime;
}.
Definition set_NodeVisit_ID (v : string) (r : NodeVisit) : NodeVisit :=
  let 'Build_NodeVisit _ x1 x2 x3 x4 x5 x6 x7 := r in Build_NodeVisit v x1 x2 x3 x4 x5 x6 x7.
Definition set_NodeVisit_CreatedAt (v : DateTime) (r : NodeVisit) : NodeVisit :=
  let 'Build_NodeVisit x0 _ x2 x3 x4 x5 x6 x7 := r in Build_NodeVisit x0 v x2 x3 x4 x5 x6 x7.
Definition set_NodeVisit_Status (v : NodeVisitStatus) (r : NodeVisit) : NodeVisit :=
  let 'Build_NodeVisit x0 x1 x2 x3 x4 x5 _ x7 := r in Build_NodeVisit x0 x1 x2 x3 x4 x5 v x7.
Definition set_NodeVisit_FinishedAt (v : option DateTime) (r : NodeVisit) : NodeVisit :=
  let 'Build_NodeVisit x0 x1 x2 x3 x4 x5 x6 _ := r in Build_NodeVisit x0 x1 x2 x3 x4 x5 x6 v.
(** [FormSnapshot]. *)
Record FormSnapshot := {
  FormSnapshot_ID : string;
  FormSnapshot_CreatedAt : DateTime;
  FormSnapshot_InstanceID : string;
  FormSnapshot_NodeID : string;
  FormSnapshot_FormData : option (gmap string Value);
}.
Definition set_FormSnapshot_ID (v : string) (r : FormSnapshot) : FormSnapshot :=
  let 'Build_FormSnapshot _ x1 x2 x3 x4 := r in Build_FormSnapshot v x1 x2 x3 x4.
Definition set_FormSnapshot_CreatedAt (v : DateTime) (r : FormSnapshot) : FormSnapshot :=
  let 'Build_FormSnapshot x0 _ x2 x3 x4 := r in Build_FormSnapshot x0 v x2 x3 x4.

(** ** Records and logs *)

(** [ActionLog]. *)
Record ActionLog := {
  ActionLog_ID : string;
  ActionLog_CreatedAt : DateTime;
  ActionLog_InstanceID : string;
  ActionLog_NodeID : option string;
  ActionLog_TaskID : option string;
  ActionLog_Action : ActionType;
  ActionLog_OperatorID : string;
  ActionLog_OperatorName : string;
  ActionLog_OperatorDepartmentID : option string;
  ActionLog_OperatorDepartmentName : option string;
  ActionLog_IPAddress : option string;
  ActionLog_UserAgent : option string;
  ActionLog_Opinion : option string;
  ActionLog_TransferToID : option string;
  ActionLog_TransferToName : option string;
  ActionLog_TransferToDepartmentID : option string;
  ActionLog_TransferToDepartmentName : option string;
  ActionLog_RollbackToNodeID : option string;
  ActionLog_AddAssigneeType : option AddAssigneeType;
  ActionLog_AddedAssignees : list UserInfo;
  ActionLog_RemovedAssignees : list UserInfo;
  ActionLog_CCUsers : list UserInfo;
  ActionLog_Attachments : list string;
  ActionLog_Meta : option (gmap string Value);
}.
Definition set_ActionLog_NodeID (v : option string) (r : ActionLog) : ActionLog :=
  let 'Build_ActionLog x0 x1 x2 _ x4 x5 x6 x7 x8 x9 x10 x11 x12 x13 x14 x15 x16 x17 x18 x19
  x20 x21 x22 x23 := r in Build_ActionLog x0 x1 x2 v x4 x5 x6 x7 x8 x9 x10 x11 x12 x13 x14 x15
  x16 x17 x18 x19 x20 x21 x22 x23.
Definition set_ActionLog_TaskID (v : option string) (r : ActionLog) : ActionLog :=
  let 'Build_ActionLog x0 x1 x2 x3 _ x5 x6 x7 x8 x9 x10 x11 x12 x13 x14 x15 x16 x17 x18 x19
  x20 x21 x22 x23 := r in Build_ActionLog x0 x1 x2 x3 v x5 x6 x7 x8 x9 x10 x11 x12 x13 x14 x15
  x16 x17 x18 x19 x20 x21 x22 x23.
Definition set_ActionLog_Opinion (v : option string) (r : ActionLog) : ActionLog :=
  let 'Build_ActionLog x0 x1 x2 x3 x4 x5 x6 x7 x8 x9 x10 x11 _ x13 x14 x15 x16 x17 x18 x19 x20
  x21 x22 x23 := r in Build_ActionLog x0 x1 x2 x3 x4 x5 x6 x7 x8 x9 x10 x11 v x13 x14 x15 x16
  x17 x18 x19 x20 x21 x22 x23.
Definition set_ActionLog_RollbackToNodeID (v : option string) (r : ActionLog) : ActionLog :=
  let 'Build_ActionLog x0 x1 x2 x3 x4 x5 x6 x7 x8 x9 x10 x11 x12 x13 x14 x15 x16 _ x18 x19 x20
  x21 x22 x23 := r in Build_ActionLog x0 x1 x2 x3 x4 x5 x6 x7 x8 x9 x10 x11 x12 x13 x14 x15
  x16 v x18 x19 x20 x21 x22 x23.
Definition set_ActionLog_AddAssigneeType (v : option AddAssigneeType) (r : ActionLog) : ActionLog :=
  let 'Build_ActionLog x0 x1 x2 x3 x4 x5 x6 x7 x8 x9 x10 x11 x12 x13 x14 x15 x16 x17 _ x19 x20
  x21 x22 x23 := r in Build_ActionLog x0 x1 x2 x3 x4 x5 x6 x7 x8 x9 x10 x11 x12 x13 x14 x15
  x16 x17 v x19 x20 x21 x22 x23.
Definition set_ActionLog_AddedAssignees (v : list UserInfo) (r : ActionLog) : ActionLog :=
  let 'Build_ActionLog x0 x1 x2 x3 x4 x5 x6 x7 x8 x9 x10 x11 x12 x13 x14 x15 x16 x17 x18 _ x20
  x21 x22 x23 := r in Build_ActionLog x0 x1 x2 x3 x4 x5 x6 x7 x8 x9 x10 x11 x12 x13 x14 x15
  x16 x17 x18 v x20 x21 x22 x23.
Definition set_ActionLog_RemovedAssignees (v : list UserInfo) (r : ActionLog) : ActionLog :=
  let 'Build_ActionLog x0 x1 x2 x3 x4 x5 x6 x7 x8 x9 x10 x11 x12 x13 x14 x15 x16 x17 x18 x19 _
  x21 x22 x23 := r in Build_ActionLog x0 x1 x2 x3 x4 x5 x6 x7 x8 x9 x10 x11 x12 x13 x14 x15
  x16 x17 x18 x19 v x21 x22 x23.
Definition set_ActionLog_CCUsers (v : list UserInfo) (r : ActionLog) : ActionLog :=
  let 'Build_ActionLog x0 x1 x2 x3 x4 x5 x6 x7 x8 x9 x10 x11 x12 x13 x14 x15 x16 x17 x18 x19
  x20 _ x22 x23 := r in Build_ActionLog x0 x1 x2 x3 x4 x5 x6 x7 x8 x9 x10 x11 x12 x13 x14 x15
  x16 x17 x18 x19 x20 v x22 x23.
Definition set_ActionLog_Attachments (v : list string) (r : ActionLog) : ActionLog :=
  let 'Build_ActionLog x0 x1 x2 x3 x4 x5 x6 x7 x8 x9 x10 x11 x12 x13 x14 x15 x16 x17 x18 x19
  x20 x21 _ x23 := r in Build_ActionLog x0 x1 x2 x3 x4 x5 x6 x7 x8 x9 x10 x11 x12 x13 x14 x15
  x16 x17 x18 x19 x20 x21 v x23.
(** The transfer-recipient columns. *)
Definition set_ActionLog_TransferTo (u : UserInfo) (r : ActionLog) : ActionLog :=
  let 'Build_ActionLog x0 x1 x2 x3 x4 x5 x6 x7 x8 x9 x10 x11 x12 _ _ _ _ x17 x18 x19 x20 x21
    x22 x23 := r in
  Build_ActionLog x0 x1 x2 x3 x4 x5 x6 x7 x8 x9 x10 x11 x12 (Some (UserInfo_ID u))
    (Some (UserInfo_Name u)) (UserInfo_DepartmentID u) (UserInfo_DepartmentName u)
    x17 x18 x19 x20 x21 x22 x23.
(** [UserInfo.NewActionLog]; id and [created_at] are stamped by the batch insert. *)
Definition NewActionLog (u : UserInfo) (instanceID : string) (action : ActionType) : ActionLog :=
  Build_ActionLog "" 0 instanceID None None action (UserInfo_ID u) (UserInfo_Name u)
    (UserInfo_DepartmentID u) (UserInfo_DepartmentName u) None None None None None None None
    None None [] [] [] [] None.

(** [CCRecord]. *)
Record CCRecord := {
  CCRecord_ID : string;
  CCRecord_CreatedAt : DateTime;
  CCRecord_InstanceID : string;
  CCRecord_NodeID : option string;
  CCRecord_VisitID : option string;
  CCRecord_TaskID : option string;
  CCRecord_CCUserID : string;
  CCRecord_CCUserName : string;
  CCRecord_CCUserDepartmentID : option string;
  CCRecord_CCUserDepartmentName : option string;
  CCRecord_IsManual : bool;
  CCRecord_ReadAt : option DateTime;
}.
Definition set_CCRecord_ID (v : string) (r : CCRecord) : CCRecord :=
  let 'Build_CCRecord _ x1 x2 x3 x4 x5 x6 x7 x8 x9 x10 x11 := r in Build_CCRecord v x1 x2 x3
  x4 x5 x6 x7 x8 x9 x10 x11.
Definition set_CCRecord_CreatedAt (v : DateTime) (r : CCRecord) : CCRecord :=
  let 'Build_CCRecord x0 _ x2 x3 x4 x5 x6 x7 x8 x9 x10 x11 := r in Build_CCRecord x0 v x2 x3
  x4 x5 x6 x7 x8 x9 x10 x11.
Definition set_CCRecord_ReadAt (v : option DateTime) (r : CCRecord) : CCRecord :=
  let 'Build_CCRecord x0 x1 x2 x3 x4 x5 x6 x7 x8 x9 x10 _ := r in Build_CCRecord x0 x1 x2 x3
  x4 x5 x6 x7 x8 x9 x10 v.
(** [Delegation]; a zero [StartsAt] or [EndsAt] is the zero time. *)
Record Delegation := {
  Delegation_ID : string;
  Delegation_CreatedAt : DateTime;
  Delegation_DelegatorID : string;
  Delegation_DelegateeID : string;
  Delegation_FlowCategoryID : option string;
  Delegation_FlowID : option string;
  Delegation_StartsAt : option DateTime;
  Delegation_EndsAt : option DateTime;
  Delegation_IsActive : bool;
  Delegation_Reason : option string;
}.
(** [UrgeRecord]. *)
Record UrgeRecord := {
  UrgeRecord_ID : string;
  UrgeRecord_CreatedAt : DateTime;
  UrgeRecord_InstanceID : string;
  UrgeRecord_NodeID : string;
  UrgeRecord_TaskID : option string;
  UrgeRecord_UrgerID : string;
  UrgeRecord_UrgerName : string;
  UrgeRecord_UrgerDepartmentID : option string;
  UrgeRecord_UrgerDepartmentName : option string;
  UrgeRecord_TargetUserID : string;
  UrgeRecord_TargetUserName : string;
  UrgeRecord_TargetUserDepartmentID : option string;
  UrgeRecord_TargetUserDepartmentName : option string;
  UrgeRecord_Message : string;
}.
Definition set_UrgeRecord_ID (v : string) (r : UrgeRecord) : UrgeRecord :=
  let 'Build_UrgeRecord _ x1 x2 x3 x4 x5 x6 x7 x8 x9 x10 x11 x12 x13 := r in Build_UrgeRecord
  v x1 x2 x3 x4 x5 x6 x7 x8 x9 x10 x11 x12 x13.
Definition set_UrgeRecord_CreatedAt (v : DateTime) (r : UrgeRecord) : UrgeRecord :=
  let 'Build_UrgeRecord x0 _ x2 x3 x4 x5 x6 x7 x8 x9 x10 x11 x12 x13 := r in Build_UrgeRecord
  x0 v x2 x3 x4 x5 x6 x7 x8 x9 x10 x11 x12 x13.

(** ** Domain events

    The event payloads of [approval/events_*.go].  [OccurredTime], a clock
    reading taken when the event value is built, is not modelled. *)

(** [InstanceEventBase]. *)
Record InstanceEventBase := {
  InstanceEventBase_InstanceID : string;
  InstanceEventBase_InstanceNo : string;
  InstanceEventBase_TenantID : string;
  InstanceEventBase_Title : string;
  InstanceEventBase_FlowID : string;
  InstanceEventBase_FlowCode : string;
  InstanceEventBase_BusinessRef : option string;
  InstanceEventBase_Applicant : UserInfo;
}.
Definition NewInstanceEventBase (i : Instance) : InstanceEventBase :=
  Build_InstanceEventBase (Instance_ID i) (Instance_InstanceNo i) (Instance_TenantID i)
    (Instance_Title i) (Instance_FlowID i) (Instance_FlowCode i) (Instance_BusinessRef i)
    (Applicant i).

(** [TaskEventBase]. *)
Record TaskEventBase := {
  TaskEventBase_Base : InstanceEventBase;
  TaskEventBase_TaskID : string;
  TaskEventBase_NodeID : string;
  TaskEventBase_NodeName : string;
}.
Definition NewTaskEventBase (i : Instance) (t : Task) (n : FlowNode) : TaskEventBase :=
  Build_TaskEventBase (NewInstanceEventBase i) (Task_ID t) (FlowNode_ID n) (FlowNode_Name n).

(** [FlowEventBase]. *)
Record FlowEventBase := {
  FlowEventBase_FlowID : string;
  FlowEventBase_TenantID : string;
  FlowEventBase_Code : string;
  FlowEventBase_Name : string;
}.
Definition NewFlowEventBase (f : Flow) : FlowEventBase :=
  Build_FlowEventBase (Flow_ID f) (Flow_TenantID f) (Flow_Code f) (Flow_Name f).

Inductive DomainEvent :=
  (* task events *)
  | TaskCreatedEvent (b : TaskEventBase) (assignee : UserInfo) (deadline : option DateTime)
      (status : TaskStatus)
  | TaskActivatedEvent (b : TaskEventBase) (assignee : UserInfo) (deadline : option DateTime)
      (reason : TaskActivationReason)
  | TaskApprovedEvent (b : TaskEventBase) (operator : UserInfo) (opinion : option string)
  | TaskHandledEvent (b : TaskEventBase) (operator : UserInfo) (opinion : option string)
  | TaskRejectedEvent (b : TaskEventBase) (operator : UserInfo) (opinion : option string)
  | TaskCanceledEvent (b : TaskEventBase) (assignee : UserInfo) (reason : string)
  | TaskTransferredEvent (b : TaskEventBase) (from to : UserInfo) (reason : option string)
  | TaskReassignedEvent (b : TaskEventBase) (from to : UserInfo) (reason : option string)
  | TaskTimedOutEvent (b : TaskEventBase) (assignee : UserInfo) (deadline : option DateTime)
  | AssigneesAddedEvent (b : TaskEventBase) (addType : AddAssigneeType) (assignees : list UserInfo)
  | AssigneesRemovedEvent (b : TaskEventBase) (assignees : list UserInfo)
  | TaskDeadlineWarningEvent (b : TaskEventBase) (assignee : UserInfo)
      (deadline : option DateTime) (hoursLeft : Z)
  | TaskUrgedEvent (b : TaskEventBase) (urger target : UserInfo) (message : option string)
  (* instance events *)
  | InstanceCreatedEvent (b : InstanceEventBase)
  | InstanceCompletedEvent (b : InstanceEventBase) (finalStatus : InstanceStatus)
      (finishedAt : DateTime) (reason : option string)
  | InstanceWithdrawnEvent (b : InstanceEventBase) (operator : UserInfo) (reason : option string)
  | InstanceRolledBackEvent (b : InstanceEventBase) (fromNodeID fromNodeName toNodeID toNodeName : string)
      (operator : UserInfo) (opinion : option string)
  | InstanceReturnedEvent (b : InstanceEventBase) (fromNodeID fromNodeName toNodeID toNodeName : string)
      (operator : UserInfo) (opinion : option string)
  | InstanceResubmittedEvent (b : InstanceEventBase) (operator : UserInfo)
  | InstanceBindingFailedEvent (b : InstanceEventBase) (trigger : BindingTrigger)
      (status : InstanceStatus) (businessTable errorMessage : string)
  (* node, cc and flow events *)
  | NodeAutoPassedEvent (b : InstanceEventBase) (nodeID nodeName reason : string)
  | CCNotifiedEvent (b : InstanceEventBase) (nodeID nodeName : string) (recipients : list UserInfo)
      (isManual : bool)
  | FlowCreatedEvent (b : FlowEventBase) (categoryID : string)
  | FlowUpdatedEvent (b : FlowEventBase)
  | FlowDeployedEvent (b : FlowEventBase) (versionID : string) (version : Z)
  | FlowToggledEvent (b : FlowEventBase) (isActive : bool)
  | FlowPublishedEvent (b : FlowEventBase) (versionID : string).

(** [stringPtrOrNil] *)
Definition stringPtrOrNil (s : string) : option string := if s ==? "" then None else Some s.

Definition NewTaskCreatedEvent (i : Instance) (t : Task) (n : FlowNode) : DomainEvent :=
  TaskCreatedEvent (NewTaskEventBase i t n) (Assignee t) (Task_Deadline t) (Task_Status t).
Definition NewTaskActivatedEvent (i : Instance) (t : Task) (n : FlowNode)
    (r : TaskActivationReason) : DomainEvent :=
  TaskActivatedEvent (NewTaskEventBase i t n) (Assignee t) (Task_Deadline t) r.
Definition NewTaskApprovedEvent (i : Instance) (t : Task) (n : FlowNode) (op : UserInfo)
    (opinion : string) : DomainEvent :=
  TaskApprovedEvent (NewTaskEventBase i t n) op (stringPtrOrNil opinion).
Definition NewTaskHandledEvent (i : Instance) (t : Task) (n : FlowNode) (op : UserInfo)
    (opinion : string) : DomainEvent :=
  TaskHandledEvent (NewTaskEventBase i t n) op (stringPtrOrNil opinion).
Definition NewTaskRejectedEvent (i : Instance) (t : Task) (n : FlowNode) (op : UserInfo)
    (opinion : string) : DomainEvent :=
  TaskRejectedEvent (NewTaskEventBase i t n) op (stringPtrOrNil opinion).
Definition NewTaskCanceledEvent (i : Instance) (t : Task) (n : FlowNode) (reason : string)
    : DomainEvent :=
  TaskCanceledEvent (NewTaskEventBase i t n) (Assignee t) reason.
Definition NewTaskTransferredEvent (i : Instance) (t : Task) (n : FlowNode) (from to : UserInfo)
    (reason : string) : DomainEvent :=
  TaskTransferredEvent (NewTaskEventBase i t n) from to (stringPtrOrNil reason).
Definition NewTaskReassignedEvent (i : Instance) (t : Task) (n : FlowNode) (from to : UserInfo)
    (reason : string) : DomainEvent :=
  TaskReassignedEvent (NewTaskEventBase i t n) from to (stringPtrOrNil reason).
Definition NewAssigneesAddedEvent (i : Instance) (t : Task) (n : FlowNode)
    (addType : AddAssigneeType) (us : list UserInfo) : DomainEvent :=
  AssigneesAddedEvent (NewTaskEventBase i t n) addType us.
Definition NewAssigneesRemovedEvent (i : Instance) (t : Task) (n : FlowNode)
    (us : list UserInfo) : DomainEvent :=
  AssigneesRemovedEvent (NewTaskEventBase i t n) us.
Definition NewTaskTimedOutEvent (i : Instance) (t : Task) (n : FlowNode) : DomainEvent :=
  TaskTimedOutEvent (NewTaskEventBase i t n) (Assignee t) (Task_Deadline t).
Definition NewTaskDeadlineWarningEvent (i : Instance) (t : Task) (n : FlowNode) (hoursLeft : Z)
    : DomainEvent :=
  TaskDeadlineWarningEvent (NewTaskEventBase i t n) (Assignee t) (Task_Deadline t) hoursLeft.
Definition NewTaskUrgedEvent (i : Instance) (t : Task) (n : FlowNode) (urger : UserInfo)
    (message : string) : DomainEvent :=
  TaskUrgedEvent (NewTaskEventBase i t n) urger (Assignee t) (stringPtrOrNil message).
Definition NewInstanceCreatedEvent (i : Instance) : DomainEvent :=
  InstanceCreatedEvent (NewInstanceEventBase i).
Definition NewInstanceWithdrawnEvent (i : Instance) (op : UserInfo) (reason : option string)
    : DomainEvent :=
  InstanceWithdrawnEvent (NewInstanceEventBase i) op reason.
Definition NewInstanceBindingFailedEvent (i : Instance) (trigger : BindingTrigger)
    (status : InstanceStatus) (businessTable errorMessage : string) : DomainEvent :=
  InstanceBindingFailedEvent (NewInstanceEventBase i) trigger status businessTable errorMessage.
Definition NewInstanceRolledBackEvent (i : Instance) (from to : FlowNode) (op : UserInfo)
    (opinion : option string) : DomainEvent :=
  InstanceRolledBackEvent (NewInstanceEventBase i) (FlowNode_ID from) (FlowNode_Name from)
    (FlowNode_ID to) (FlowNode_Name to) op opinion.
Definition NewInstanceReturnedEvent (i : Instance) (from to : FlowNode) (op : UserInfo)
    (opinion : option string) : DomainEvent :=
  InstanceReturnedEvent (NewInstanceEventBase i) (FlowNode_ID from) (FlowNode_Name from)
    (FlowNode_ID to) (FlowNode_Name to) op opinion.
Definition NewInstanceResubmittedEvent (i : Instance) (op : UserInfo) : DomainEvent :=
  InstanceResubmittedEvent (NewInstanceEventBase i) op.
Definition NewNodeAutoPassedEvent (i : Instance) (n : FlowNode) (reason : string) : DomainEvent :=
  NodeAutoPassedEvent (NewInstanceEventBase i) (FlowNode_ID n) (FlowNode_Name n) reason.
Definition NewCCNotifiedEvent (i : Instance) (n : FlowNode) (recipients : list UserInfo)
    (isManual : bool) : DomainEvent :=
  CCNotifiedEvent (NewInstanceEventBase i) (FlowNode_ID n) (FlowNode_Name n) recipients isManual.
(** ** Errors

    The sentinel errors the modelled code returns; wrapping with context is
    dropped.  [ErrHost] stands for an error of host-supplied code,
    [ErrRecordNotFound] for a query by primary key that found no row where the
    source has no sentinel of its own. *)
Inductive Error :=
  (* engine/errors.go *)
  | ErrNoMatchingEdge | ErrProcessorNotFound | ErrMaxNodeDepth | ErrActiveVisitNotFound
  | ErrAssigneeServiceNotConfigured | ErrNoBranches | ErrNoMatchingBranch | ErrInvalidTransition
  | ErrFlowMissingStartNode | ErrFlowMissingTargetNode | ErrFlowNoNodes | errAmbiguousEdges
  (* strategy/errors.go *)
  | ErrAssigneeServiceNil | ErrApplicantIDEmpty | ErrAssigneeResolverNotFound
  | ErrCCResolverNotFound | ErrInitiatorResolverNotFound | ErrPassRuleNotFound
  | ErrConditionEvaluatorNotFound | ErrAggregatorNotFound | ErrUnsupportedOperator
  | ErrIncomparableValues | ErrExpressionReturnedNonBool
  (* approval/errors.go, approval/api_errors.go *)
  | ErrFormFieldNameEmpty | ErrUnsupportedFieldValueType
  | ErrFlowNotFound | ErrFlowNotActive | ErrNoPublishedVersion | ErrVersionNotDraft
  | ErrVersionNotFound | ErrInstanceNotFound | ErrInstanceCompleted | ErrNotAllowedInitiate
  | ErrWithdrawNotAllowed | ErrResubmitNotAllowed | ErrInvalidInstanceTransition
  | ErrTaskNotFound | ErrTaskNotPending | ErrNotAssignee | ErrInvalidTaskTransition
  | ErrRollbackNotAllowed | ErrAddAssigneeNotAllowed | ErrTransferNotAllowed | ErrOpinionRequired
  | ErrManualCcNotAllowed | ErrRemoveAssigneeNotAllowed | ErrInvalidAddAssigneeType
  | ErrNotApplicant | ErrInvalidRollbackTarget | ErrLastAssigneeRemoval
  | ErrInvalidTransferTarget | ErrNoUsersSpecified | ErrNoAssignee | ErrAssigneeResolveFailed
  | ErrFormValidationFailed | ErrFormDataTooLarge | ErrUrgeCooldown | ErrAccessDenied
  | ErrTerminateNotAllowed | ErrCrossTenantAccess
  | ErrInvalidFlowDesign | ErrInvalidFormDesign | ErrInvalidStorageMode | ErrFlowCodeExists
  | ErrSharedFlowCodeExists | ErrCategoryNotFound | ErrInvalidBindingMode | ErrInitiatorsNotAllowed
  | ErrInitiatorsRequired | ErrInvalidInitiatorKind | ErrInvalidFlowLabel | ErrInvalidTitleTemplate
  | ErrBindingUnexpected | ErrBindingIncomplete | ErrBindingStatusMappingInvalid
  | ErrBindingColumnsConflict | ErrInvalidBusinessIdentifier
  | ErrBindingTableMissing | ErrBindingColumnMissing | ErrBindingKeyNotUnique
  (* storage/errors.go *)
  | ErrInvalidDetailValue | ErrUnsupportedDialect | ErrInvalidGeneratedIdentifier
  | ErrReservedColumnName | ErrDuplicateColumnName | ErrFormTableMetadataMissing
  | ErrInvalidColumnType
  | ErrBusinessRefRequired | ErrInvalidBusinessRef | ErrBindingTargetBusy
  | ErrBindingProjectionNotFound
  (* binding/errors.go; its invalid reference is told from the one above *)
  | ErrBindingMisconfigured | ErrBindingInvalidBusinessRef | ErrBindingTargetMissing
  | ErrBindingTargetNotUnique | ErrBindingOwnershipConflict | ErrProjectionStateInvalid
  (* schema/errors.go *)
  | ErrTableMissing
  | ErrRecordNotFound | ErrHost (code : string).
#[export] Instance Error_eq_dec : EqDecision Error.
Proof. solve_decision. Defined.

(** ** The store

    The tables of the approval schema, the request-scoped collectors of domain
    events and action logs (in the order they were added), whether the code runs
    inside the command pipeline (which installs the collectors), the number of
    clock readings taken and of row ids issued so far, and the metadata of the
    generated form tables.  Those tables themselves belong to the forms: what the
    module does to them is the sequence of raw statements it has sent.  Last the
    business projections and the host's business tables. *)
Record St := {
  db_categories : list FlowCategory;
  db_flows : list Flow;
  db_versions : list FlowVersion;
  db_nodes : list FlowNode;
  db_edges : list FlowEdge;
  db_node_assignees : list FlowNodeAssignee;
  db_node_ccs : list FlowNodeCC;
  db_initiators : list FlowInitiator;
  db_delegations : list Delegation;
  db_instances : list Instance;
  db_tasks : list Task;
  db_visits : list NodeVisit;
  db_snapshots : list FormSnapshot;
  db_cc_records : list CCRecord;
  db_urges : list UrgeRecord;
  db_events : list DomainEvent;
  db_logs : list ActionLog;
  db_pipeline : bool;
  db_clock : nat;
  db_next_id : nat;
  db_form_tables : list FormTable;
  db_form_columns : list FormTableColumn;
  db_statements : list (string * list BindArg);
  db_projections : list BusinessProjection;
  db_business : list BusinessRow;
}.
Definition set_flows (v : list Flow) (s : St) : St :=
  let 'Build_St x0 _ x2 x3 x4 x5 x6 x7 x8 x9 x10 x11 x12 x13 x14 x15 x16 x17 x18 x19 x20 x21
  x22 x23 x24 := s in Build_St x0 v x2 x3 x4 x5 x6 x7 x8 x9 x10 x11 x12 x13 x14 x15 x16 x17
  x18 x19 x20 x21 x22 x23 x24.
Definition set_versions (v : list FlowVersion) (s : St) : St :=
  let 'Build_St x0 x1 _ x3 x4 x5 x6 x7 x8 x9 x10 x11 x12 x13 x14 x15 x16 x17 x18 x19 x20 x21
  x22 x23 x24 := s in Build_St x0 x1 v x3 x4 x5 x6 x7 x8 x9 x10 x11 x12 x13 x14 x15 x16 x17
  x18 x19 x20 x21 x22 x23 x24.
Definition set_nodes (v : list FlowNode) (s : St) : St :=
  let 'Build_St x0 x1 x2 _ x4 x5 x6 x7 x8 x9 x10 x11 x12 x13 x14 x15 x16 x17 x18 x19 x20 x21
  x22 x23 x24 := s in Build_St x0 x1 x2 v x4 x5 x6 x7 x8 x9 x10 x11 x12 x13 x14 x15 x16 x17
  x18 x19 x20 x21 x22 x23 x24.
Definition set_edges (v : list FlowEdge) (s : St) : St :=
  let 'Build_St x0 x1 x2 x3 _ x5 x6 x7 x8 x9 x10 x11 x12 x13 x14 x15 x16 x17 x18 x19 x20 x21
  x22 x23 x24 := s in Build_St x0 x1 x2 x3 v x5 x6 x7 x8 x9 x10 x11 x12 x13 x14 x15 x16 x17
  x18 x19 x20 x21 x22 x23 x24.
Definition set_node_assignees (v : list FlowNodeAssignee) (s : St) : St :=
  let 'Build_St x0 x1 x2 x3 x4 _ x6 x7 x8 x9 x10 x11 x12 x13 x14 x15 x16 x17 x18 x19 x20 x21
  x22 x23 x24 := s in Build_St x0 x1 x2 x3 x4 v x6 x7 x8 x9 x10 x11 x12 x13 x14 x15 x16 x17
  x18 x19 x20 x21 x22 x23 x24.
Definition set_node_ccs (v : list FlowNodeCC) (s : St) : St :=
  let 'Build_St x0 x1 x2 x3 x4 x5 _ x7 x8 x9 x10 x11 x12 x13 x14 x15 x16 x17 x18 x19 x20 x21
  x22 x23 x24 := s in Build_St x0 x1 x2 x3 x4 x5 v x7 x8 x9 x10 x11 x12 x13 x14 x15 x16 x17
  x18 x19 x20 x21 x22 x23 x24.
Definition set_initiators (v : list FlowInitiator) (s : St) : St :=
  let 'Build_St x0 x1 x2 x3 x4 x5 x6 _ x8 x9 x10 x11 x12 x13 x14 x15 x16 x17 x18 x19 x20 x21
  x22 x23 x24 := s in Build_St x0 x1 x2 x3 x4 x5 x6 v x8 x9 x10 x11 x12 x13 x14 x15 x16 x17
  x18 x19 x20 x21 x22 x23 x24.
Definition set_instances (v : list Instance) (s : St) : St :=
  let 'Build_St x0 x1 x2 x3 x4 x5 x6 x7 x8 _ x10 x11 x12 x13 x14 x15 x16 x17 x18 x19 x20 x21
  x22 x23 x24 := s in Build_St x0 x1 x2 x3 x4 x5 x6 x7 x8 v x10 x11 x12 x13 x14 x15 x16 x17
  x18 x19 x20 x21 x22 x23 x24.
Definition set_tasks (v : list Task) (s : St) : St :=
  let 'Build_St x0 x1 x2 x3 x4 x5 x6 x7 x8 x9 _ x11 x12 x13 x14 x15 x16 x17 x18 x19 x20 x21
  x22 x23 x24 := s in Build_St x0 x1 x2 x3 x4 x5 x6 x7 x8 x9 v x11 x12 x13 x14 x15 x16 x17 x18
  x19 x20 x21 x22 x23 x24.
Definition set_visits (v : list NodeVisit) (s : St) : St :=
  let 'Build_St x0 x1 x2 x3 x4 x5 x6 x7 x8 x9 x10 _ x12 x13 x14 x15 x16 x17 x18 x19 x20 x21
  x22 x23 x24 := s in Build_St x0 x1 x2 x3 x4 x5 x6 x7 x8 x9 x10 v x12 x13 x14 x15 x16 x17 x18
  x19 x20 x21 x22 x23 x24.
Definition set_snapshots (v : list FormSnapshot) (s : St) : St :=
  let 'Build_St x0 x1 x2 x3 x4 x5 x6 x7 x8 x9 x10 x11 _ x13 x14 x15 x16 x17 x18 x19 x20 x21
  x22 x23 x24 := s in Build_St x0 x1 x2 x3 x4 x5 x6 x7 x8 x9 x10 x11 v x13 x14 x15 x16 x17 x18
  x19 x20 x21 x22 x23 x24.
Definition set_cc_records (v : list CCRecord) (s : St) : St :=
  let 'Build_St x0 x1 x2 x3 x4 x5 x6 x7 x8 x9 x10 x11 x12 _ x14 x15 x16 x17 x18 x19 x20 x21
  x22 x23 x24 := s in Build_St x0 x1 x2 x3 x4 x5 x6 x7 x8 x9 x10 x11 x12 v x14 x15 x16 x17 x18
  x19 x20 x21 x22 x23 x24.
Definition set_urges (v : list UrgeRecord) (s : St) : St :=
  let 'Build_St x0 x1 x2 x3 x4 x5 x6 x7 x8 x9 x10 x11 x12 x13 _ x15 x16 x17 x18 x19 x20 x21
  x22 x23 x24 := s in Build_St x0 x1 x2 x3 x4 x5 x6 x7 x8 x9 x10 x11 x12 x13 v x15 x16 x17 x18
  x19 x20 x21 x22 x23 x24.
Definition set_events (v : list DomainEvent) (s : St) : St :=
  let 'Build_St x0 x1 x2 x3 x4 x5 x6 x7 x8 x9 x10 x11 x12 x13 x14 _ x16 x17 x18 x19 x20 x21
  x22 x23 x24 := s in Build_St x0 x1 x2 x3 x4 x5 x6 x7 x8 x9 x10 x11 x12 x13 x14 v x16 x17 x18
  x19 x20 x21 x22 x23 x24.
Definition set_logs (v : list ActionLog) (s : St) : St :=
  let 'Build_St x0 x1 x2 x3 x4 x5 x6 x7 x8 x9 x10 x11 x12 x13 x14 x15 _ x17 x18 x19 x20 x21
  x22 x23 x24 := s in Build_St x0 x1 x2 x3 x4 x5 x6 x7 x8 x9 x10 x11 x12 x13 x14 x15 v x17 x18
  x19 x20 x21 x22 x23 x24.
Definition set_pipeline (v : bool) (s : St) : St :=
  let 'Build_St x0 x1 x2 x3 x4 x5 x6 x7 x8 x9 x10 x11 x12 x13 x14 x15 x16 _ x18 x19 x20 x21
  x22 x23 x24 := s in Build_St x0 x1 x2 x3 x4 x5 x6 x7 x8 x9 x10 x11 x12 x13 x14 x15 x16 v x18
  x19 x20 x21 x22 x23 x24.
Definition set_clock (v : nat) (s : St) : St :=
  let 'Build_St x0 x1 x2 x3 x4 x5 x6 x7 x8 x9 x10 x11 x12 x13 x14 x15 x16 x17 _ x19 x20 x21
  x22 x23 x24 := s in Build_St x0 x1 x2 x3 x4 x5 x6 x7 x8 x9 x10 x11 x12 x13 x14 x15 x16 x17 v
  x19 x20 x21 x22 x23 x24.
Definition set_next_id (v : nat) (s : St) : St :=
  let 'Build_St x0 x1 x2 x3 x4 x5 x6 x7 x8 x9 x10 x11 x12 x13 x14 x15 x16 x17 x18 _ x20 x21
  x22 x23 x24 := s in Build_St x0 x1 x2 x3 x4 x5 x6 x7 x8 x9 x10 x11 x12 x13 x14 x15 x16 x17
  x18 v x20 x21 x22 x23 x24.
Definition set_form_tables (v : list FormTable) (s : St) : St :=
  let 'Build_St x0 x1 x2 x3 x4 x5 x6 x7 x8 x9 x10 x11 x12 x13 x14 x15 x16 x17 x18 x19 _ x21
  x22 x23 x24 := s in Build_St x0 x1 x2 x3 x4 x5 x6 x7 x8 x9 x10 x11 x12 x13 x14 x15 x16 x17
  x18 x19 v x21 x22 x23 x24.
Definition set_form_columns (v : list FormTableColumn) (s : St) : St :=
  let 'Build_St x0 x1 x2 x3 x4 x5 x6 x7 x8 x9 x10 x11 x12 x13 x14 x15 x16 x17 x18 x19 x20 _
  x22 x23 x24 := s in Build_St x0 x1 x2 x3 x4 x5 x6 x7 x8 x9 x10 x11 x12 x13 x14 x15 x16 x17
  x18 x19 x20 v x22 x23 x24.
Definition set_statements (v : list (string * list BindArg)) (s : St) : St :=
  let 'Build_St x0 x1 x2 x3 x4 x5 x6 x7 x8 x9 x10 x11 x12 x13 x14 x15 x16 x17 x18 x19 x20 x21
  _ x23 x24 := s in Build_St x0 x1 x2 x3 x4 x5 x6 x7 x8 x9 x10 x11 x12 x13 x14 x15 x16 x17 x18
  x19 x20 x21 v x23 x24.
Definition set_projections (v : list BusinessProjection) (s : St) : St :=
  let 'Build_St x0 x1 x2 x3 x4 x5 x6 x7 x8 x9 x10 x11 x12 x13 x14 x15 x16 x17 x18 x19 x20 x21
  x22 _ x24 := s in Build_St x0 x1 x2 x3 x4 x5 x6 x7 x8 x9 x10 x11 x12 x13 x14 x15 x16 x17 x18
  x19 x20 x21 x22 v x24.
Definition set_business (v : list BusinessRow) (s : St) : St :=
  let 'Build_St x0 x1 x2 x3 x4 x5 x6 x7 x8 x9 x10 x11 x12 x13 x14 x15 x16 x17 x18 x19 x20 x21
  x22 x23 _ := s in Build_St x0 x1 x2 x3 x4 x5 x6 x7 x8 x9 x10 x11 x12 x13 x14 x15 x16 x17 x18
  x19 x20 x21 x22 x23 v.

Definition upd_instances f (s : St) : St := set_instances (f (db_instances s)) s.
Definition upd_tasks f (s : St) : St := set_tasks (f (db_tasks s)) s.
Definition upd_visits f (s : St) : St := set_visits (f (db_visits s)) s.
Definition upd_cc_records f (s : St) : St := set_cc_records (f (db_cc_records s)) s.
Definition upd_flows f (s : St) : St := set_flows (f (db_flows s)) s.
Definition upd_nodes f (s : St) : St := set_nodes (f (db_nodes s)) s.
Definition upd_edges f (s : St) : St := set_edges (f (db_edges s)) s.
Definition upd_node_assignees f (s : St) : St := set_node_assignees (f (db_node_assignees s)) s.
Definition upd_node_ccs f (s : St) : St := set_node_ccs (f (db_node_ccs s)) s.
Definition upd_initiators f (s : St) : St := set_initiators (f (db_initiators s)) s.
Definition upd_form_tables f (s : St) : St := set_form_tables (f (db_form_tables s)) s.
Definition upd_form_columns f (s : St) : St := set_form_columns (f (db_form_columns s)) s.
Definition upd_statements f (s : St) : St := set_statements (f (db_statements s)) s.
Definition upd_projections f (s : St) : St := set_projections (f (db_projections s)) s.
Definition upd_business f (s : St) : St := set_business (f (db_business s)) s.
Definition upd_versions f (s : St) : St := set_versions (f (db_versions s)) s.

(** Transactions over the store. *)
Notation M := (SE St Error).
Notation res := (result Error).

(** ** The host

    What the approval module calls but the repository does not contain or the
    development does not model: the clock, the id generator, the organisation
    services the application implements, the expression engine, the lifecycle
    extension points, and the library functions on strings, decimals and JSON. *)

(** [AssigneeService] *)
Record AssigneeService := {
  GetSuperior : string → res (option UserInfo);
  GetDepartmentLeaders : string → res (list UserInfo);
  GetRoleUsers : string → res (list UserInfo);
}.

(** [EvaluationContext] *)
Record EvaluationContext := {
  EvaluationContext_FormData : gmap string Value;
  EvaluationContext_ApplicantID : string;
  EvaluationContext_ApplicantDepartmentID : option string;
  EvaluationContext_Globals : option (gmap string Value);
}.

(** [NodeResolveContext], with the rule being resolved ([AssigneeResolveContext],
    [CCResolveContext]). *)
Record NodeResolveContext := {
  NodeResolveContext_Instance : Instance;
  NodeResolveContext_Node : FlowNode;
  NodeResolveContext_FormData : gmap string Value;
}.
Record RuleResolveContext := {
  RuleResolveContext_base : NodeResolveContext;
  RuleResolveContext_Kind : string;
  RuleResolveContext_IDs : list string;
  RuleResolveContext_FormField : option string;
}.

(** [InstanceLifecycleHook]: host extensions that may veto; what they write is
    outside the approval tables. *)
Record LifecycleHook := {
  OnInstanceCreated : Instance → res unit;
  OnInstanceTransition : Instance → InstanceStatus → InstanceStatus → res unit;
}.

(** [InitiatorResolveContext] *)
Record InitiatorResolveContext := {
  InitiatorResolveContext_FlowID : string;
  InitiatorResolveContext_TenantID : string;
  InitiatorResolveContext_Applicant : UserInfo;
  InitiatorResolveContext_Kind : string;
  InitiatorResolveContext_IDs : list string;
}.

(** [schema.TableSchema], as far as bindings read it *)
Record SchemaColumn := { SchemaColumn_Name : string; SchemaColumn_Nullable : bool }.
Record SchemaUniqueKey := {
  SchemaUniqueKey_Columns : list string;
  SchemaUniqueKey_Predicate : string;
  SchemaUniqueKey_HasExpressions : bool;
}.
Record TableSchema := {
  TableSchema_Columns : list SchemaColumn;
  TableSchema_PrimaryKey : option (list string);
  TableSchema_UniqueKeys : list SchemaUniqueKey;
}.

Class Host := {
  (** [timex.Now]: the n-th reading of the clock. *)
  clock_reading : nat → DateTime;
  (** the id generator of the orm's insert hook: ids never repeat and are not empty. *)
  gen_id : nat → string;
  gen_id_inj : Inj (=) (=) gen_id;
  gen_id_nonempty k : gen_id k ≠ "";
  (** [UserInfoResolver.ResolveUsers], when the host supplies one. *)
  userResolver : option (list string → res (gmap string UserInfo));
  assigneeService : option AssigneeService;
  (** host-registered resolvers, overlaid on the built-in kinds. *)
  hostAssigneeResolvers : gmap string (RuleResolveContext → res (list ResolvedAssignee));
  hostCCResolvers : gmap string (RuleResolveContext → res (list string));
  (** host-registered [Aggregator]s of kinds other than the built-in ones, and the
      evaluation of a source text by the expression engine *)
  hostAggregators : string → option (list float64 → nat → float64 * bool);
  evaluateExpression : string → gmap string Value → res Value;
  (** the host lifecycle hooks. *)
  lifecycleHooks : list LifecycleHook;
  (** the dialect of the primary data source, and whether it accepts a raw statement
      on the generated form tables *)
  dbKind : DBKind;
  execRaw : string → list BindArg → res unit;
  (** [json.Marshal] of a decoded value; the implementation-defined result of
      converting a [float64] to [int64] when it is out of range *)
  jsonMarshal : Value → res string;
  int64Overflow : float64 → Z;
  (** [RoleMembershipChecker], when the assignee service implements it *)
  roleMembershipChecker : option (string → string → res bool);
  hostInitiatorResolvers : gmap string (InitiatorResolveContext → res bool);
  (** [InstanceNoGenerator.Generate] *)
  generateInstanceNo : string → string → res string;
  (** parsing and executing a [text/template] title *)
  executeTitleTemplate : string → Flow → string → option (gmap string Value) → UserInfo → res string;
  (** [BusinessRefProvider.OnInstanceCreated] and [BusinessRefResolver] *)
  refProvider : Flow → Instance → res string;
  ResolveRecordKey : Flow → Instance → res (gmap string KeyValue);
  (** [vef.approval.business_binding]: consistency, seconds between scans, batch size *)
  bindingConsistency : BindingConsistency;
  bindingScanInterval : Z;
  bindingBatchSize : Z;
  (** [hashx.SHA256] of a table name and an encoded key; the text of a key value of
      Go's library: [strconv] on floats, base64, and times *)
  targetHashOf : string → list storedRecordKeyPart → string;
  formatFloat : float64 → string;
  parseFloat : string → option float64;
  marshalTime : DateTime → option string;
  unmarshalTime : string → option DateTime;
  (** the database on a business table: whether it can be queried, whether a cell
      equals a value, and whether it accepts an update *)
  queryBusiness : string → res unit;
  sqlEquals : DriverValue → DriverValue → bool;
  acceptUpdate : string → list (string * option DriverValue) → res unit;
  (** [error.Error] *)
  errorText : Error → string;
  (** [vef.approval] retention windows, in seconds *)
  formSnapshotRetention : Z;
  urgeRecordRetention : Z;
  ccRecordRetention : Z;
  (** [FormGlobalsExposer.FormGlobalKeys], none when the host does not implement it;
      the database's substring search on a text column *)
  formGlobalKeys : string → list string;
  sqlContains : string → string → bool;

  (** [Decimal.InexactFloat64] *)
  InexactFloat64 : Decimal → float64;
  (** [cast.ToString] and [fmt.Sprint] on a JSON value *)
  castToString : Value → string;
  fmtSprint : Value → string;
  (** [regexp.MatchString]; [None] for a pattern that does not compile. *)
  regexpMatchString : string → string → option bool;
  (** the length of [json.Marshal] of a non-nil map *)
  jsonSize : gmap string Value → res Z;
  (** [vef.approval.form_data_max_bytes] as resolved, and the host's dictionaries *)
  formDataMaxBytes : Z;
  codeSetLoader : option (string → res (gmap string string));

  (** [json.Unmarshal] of a node's raw data into the typed payload of its kind *)
  decodeBaseNodeData : string → option BaseNodeData;
  decodeApprovalNodeData : string → option ApprovalNodeData;
  decodeHandleNodeData : string → option HandleNodeData;
  decodeCCNodeData : string → option CCNodeData;
  decodeConditionNodeData : string → option ConditionNodeData;
  (** [FormSchemaParser.ParseFormFields]; an error that is not a [result.Error] is
      reported as an invalid form design *)
  parseFormFields : option string → res (list FormFieldDefinition);
  (** the designer input that host-registered kinds ask for *)
  hostAssigneeSelections : gmap string SelectionMode;
  hostCCSelections : gmap string SelectionMode;
  hostInitiatorSelections : gmap string SelectionMode;
  (** whether a [text/template] title parses; [schema.Service.GetTableSchema] on the
      host's database *)
  titleTemplateParses : string → bool;
  GetTableSchema : string → res TableSchema;
}.
