(* ===== verification/Demo.v ===== *)
(** * A concrete host and concrete rows

    A small application: a deterministic clock and id generator, a user resolver
    that knows everybody, no organisation service and no extensions.  The
    theorems that quantify over hosts and stores are exercised on it. *)
From S2P Require Import Prelude Enums StateMachine Models.

Definition demoUsers (ids : list string) : res (gmap string UserInfo) :=
  Ok (list_to_map (map (λ id, (id, Build_UserInfo id ("user " +:+ id) None None)) ids)).

(** Nearest binary64 of a decimal with a non-positive exponent: one correctly
    rounded division of two exactly represented integers. *)
Definition demoInexactFloat64 (d : Decimal) : float64 :=
  fdiv (float64_of_Z (Decimal_coef d)) (float64_of_Z (10 ^ (- Decimal_exp d))).

#[export] Instance pretty_nat_inj : Inj (=) (=) (pretty : nat → string).
Proof. apply _. Qed.

(** Numerals do not begin with a letter, so they differ from the row ids below. *)
Definition headLetter (s : string) : bool :=
  match s with String a _ => (97 <=? Ascii.nat_of_ascii a)%nat | EmptyString => false end.
Lemma headLetter_pretty (n : nat) : headLetter (pretty n) = false.
Proof.
  assert (∀ x s, headLetter s = false → headLetter (pretty_N_go x s) = false) as Hgo.
  { intros x. induction (N.lt_wf_0 x) as [x _ IH]. intros s Hs.
    assert (x = 0 ∨ 0 < x)%N as [->|Hx] by lia; [by rewrite pretty_N_go_0|].
    rewrite pretty_N_go_step by done. apply IH; [by apply N.div_lt|].
    unfold pretty_N_char. by repeat case_match. }
  unfold pretty, pretty_nat, pretty, pretty_N. case_decide; [done|]. by apply Hgo.
Qed.

Lemma pretty_nonempty (n : nat) : pretty n ≠ "".
Proof.
  assert (∀ x s, s ≠ "" → pretty_N_go x s ≠ "") as Hgo.
  { intros x. induction (N.lt_wf_0 x) as [x _ IH]. intros s Hs.
    assert (x = 0 ∨ 0 < x)%N as [->|Hx] by lia; [by rewrite pretty_N_go_0|].
    rewrite pretty_N_go_step by done. apply IH; [by apply N.div_lt|done]. }
  unfold pretty, pretty_nat, pretty, pretty_N. case_decide; [done|].
  rewrite pretty_N_go_step by lia. by apply Hgo.
Qed.

(** The payload of an approval node by [approver], everything else left to the defaults. *)
Definition demoApprovalData (approver : string) : ApprovalNodeData :=
  Build_ApprovalNodeData (Build_BaseNodeData "review" None)
    (Build_TaskNodeData [Build_AssigneeDefinition AssigneeUser [approver] None 0]
       (ExecutionTypeOther "") (EmptyAssigneeActionOther "") [] [] None false 0 (TimeoutActionOther "")
       0 0 [] ∅)
    (ApprovalMethodOther "") (PassRuleOther "") {| Decimal_coef := 0; Decimal_exp := 0 |} 0
    (SameApplicantActionOther "") (ConsecutiveApproverActionOther "") (RollbackTypeOther "")
    (RollbackDataStrategyOther "") [] None None [] None None.
Definition demoHost : Host := {|
  clock_reading := Z.of_nat;
  gen_id := pretty;
  gen_id_inj := pretty_nat_inj;
  gen_id_nonempty := pretty_nonempty;
  userResolver := Some demoUsers;
  assigneeService := None;
  hostAssigneeResolvers := ∅;
  hostCCResolvers := ∅;
  hostAggregators := λ _, None;
  evaluateExpression := λ _ _, Ok (VBool true);
  lifecycleHooks := [];
  dbKind := Postgres;
  execRaw := λ _ _, Ok tt;
  jsonMarshal := λ _, Ok "{}";
  int64Overflow := λ _, (-9223372036854775808)%Z;
  roleMembershipChecker := None;
  hostInitiatorResolvers := ∅;
  generateInstanceNo := λ tenant code, Ok (tenant +:+ code);
  executeTitleTemplate := λ t _ _ _ _, Ok t;
  refProvider := λ _ _, Ok "";
  ResolveRecordKey := λ f i, match Instance_BusinessRef i, Flow_BusinessBinding f with
    | Some ref, Some b => Ok (list_to_map (map (λ c, (c, KeyValueOf (DString ref))) (BusinessBindingConfig_KeyColumns b)))
    | _, _ => Err ErrBindingInvalidBusinessRef
    end;
  bindingConsistency := ApprovalBindingSynchronous;
  bindingScanInterval := 0;
  bindingBatchSize := 0;
  targetHashOf := λ table key, foldl (λ h p, h +:+ "|" +:+ storedRecordKeyPart_Column p +:+ "=" +:+ storedRecordKeyPart_Value p) table key;
  formatFloat := λ _, "0";
  parseFloat := λ _, None;
  marshalTime := λ _, None;
  unmarshalTime := λ _, None;
  queryBusiness := λ _, Ok tt;
  sqlEquals := λ a b, a ==? b;
  acceptUpdate := λ _ _, Ok tt;
  errorText := λ _, "error";
  formSnapshotRetention := 7776000;
  urgeRecordRetention := 2592000;
  ccRecordRetention := 7776000;
  formGlobalKeys := λ _, [];
  sqlContains := λ _ _, true;
  InexactFloat64 := demoInexactFloat64;
  castToString := λ v, match v with VString s => s | _ => "" end;
  fmtSprint := λ v, match v with VString s => s | _ => "" end;
  regexpMatchString := λ _ _, Some true;
  jsonSize := λ m, Ok (Z.of_nat (size m));
  formDataMaxBytes := 65536;
  codeSetLoader := None;
  decodeBaseNodeData := λ name, Some (Build_BaseNodeData name None);
  decodeApprovalNodeData := λ name, Some (demoApprovalData name);
  decodeHandleNodeData := λ _, None;
  decodeCCNodeData := λ _, None;
  decodeConditionNodeData := λ _, None;
  parseFormFields := λ _, Ok [];
  hostAssigneeSelections := ∅;
  hostCCSelections := ∅;
  hostInitiatorSelections := ∅;
  titleTemplateParses := λ _, true;
  GetTableSchema := λ _, Err ErrTableMissing;
|}.

(** A node of the given kind, pass rule and method; every optional feature off. *)
Definition demoNode (id : string) (k : NodeKind) (m : ApprovalMethod) (r : PassRule)
    (pct cnt : Z) : FlowNode := {|
  FlowNode_ID := id; FlowNode_FlowVersionID := "v1"; FlowNode_Key := id; FlowNode_Kind := k;
  FlowNode_Name := id; FlowNode_Description := None; FlowNode_ExecutionType := ExecutionManual;
  FlowNode_ApprovalMethod := m; FlowNode_PassRule := r;
  FlowNode_PassRatio := {| Decimal_coef := pct; Decimal_exp := 0 |}; FlowNode_PassCount := cnt;
  FlowNode_EmptyAssigneeAction := EmptyAssigneeAutoPass; FlowNode_FallbackUserIDs := [];
  FlowNode_AdminUserIDs := []; FlowNode_SameApplicantAction := SameApplicantSelfApprove;
  FlowNode_IsRollbackAllowed := true; FlowNode_RollbackType := RollbackAny;
  FlowNode_RollbackDataStrategy := RollbackDataKeep; FlowNode_RollbackTargetKeys := [];
  FlowNode_IsAddAssigneeAllowed := true;
  FlowNode_AddAssigneeTypes := [AddAssigneeBefore; AddAssigneeAfter; AddAssigneeParallel];
  FlowNode_IsRemoveAssigneeAllowed := true; FlowNode_FieldPermissions := ∅;
  FlowNode_IsManualCCAllowed := true; FlowNode_IsTransferAllowed := true;
  FlowNode_IsOpinionRequired := false; FlowNode_TimeoutHours := 0;
  FlowNode_TimeoutAction := TimeoutActionNone; FlowNode_TimeoutNotifyBeforeHours := 0;
  FlowNode_UrgeCooldownMinutes := 0; FlowNode_ConsecutiveApproverAction := ConsecutiveApproverNone;
  FlowNode_IsReadConfirmRequired := false; FlowNode_Branches := [];
|}.

(** A task of [assignee] with the given status, on visit ["w"] of node ["n"]. *)
Definition demoTask (id assignee : string) (st : TaskStatus) : Task :=
  Build_Task id 0 "t" "i" "n" "w" assignee assignee None None None None None None 0 st None None
    None None false false None.

(** ** A small flow

    Version ["v1"] of flow ["leave"]: a start node, an approval by [approvers]
    under the given method and pass rule, and an end node.  No instance exists. *)
Definition demoFlow : Flow :=
  Build_Flow "leave" "acme" false "hr" "leave" "Leave" None None ∅ BindingStandalone None ["admin"]
    true "" true 1.
Definition demoVersion : FlowVersion :=
  Build_FlowVersion "v1" "leave" 1 VersionPublished None StorageJSON None None [] None None None.
Definition demoEdge (id src dst : string) : FlowEdge :=
  Build_FlowEdge id "v1" id src src dst dst None.
Definition demoStoreAt (review : FlowNode) (approvers : list string) : St := {|
  db_categories := [Build_FlowCategory "hr" "acme" "HR"];
  db_flows := [demoFlow];
  db_versions := [demoVersion];
  db_nodes := [demoNode "start" NodeStart ApprovalParallel PassAll 0 0;
               review;
               demoNode "end" NodeEnd ApprovalParallel PassAll 0 0];
  db_edges := [demoEdge "e1" "start" "review"; demoEdge "e2" "review" "end"];
  db_node_assignees := [Build_FlowNodeAssignee "x1" "review" AssigneeUser approvers None 0];
  db_node_ccs := []; db_initiators := []; db_delegations := [];
  db_instances := []; db_tasks := []; db_visits := []; db_snapshots := []; db_cc_records := [];
  db_urges := []; db_events := []; db_logs := []; db_pipeline := true; db_clock := 0; db_next_id := 0;
  db_form_tables := []; db_form_columns := []; db_statements := []; db_projections := []; db_business := [];
|}.
Definition demoStore (m : ApprovalMethod) (r : PassRule) (approvers : list string) : St :=
  demoStoreAt (demoNode "review" NodeApproval m r 50 2) approvers.
Definition demoUser (id : string) : UserInfo := Build_UserInfo id id None None.
