(* ===== verification/Store.v ===== *)
(** * Store primitives

    The database and context operations the handlers are built from: reading the
    clock, inserting a row (the orm's hook stamps id and [created_at]), the
    compare-and-set [UPDATE ... WHERE], emitting events
    ([behavior.EmitEvents]) and recording action logs
    ([behavior.TryActionLogCollectorFromContext]).

    The second half states how these primitives move the store: [wf] (row ids
    were issued by the generator and do not repeat) and [evolves] (rows are never
    removed, identity columns never change, and statuses move only along the
    state machines). *)
From S2P Require Import Prelude Enums StateMachine Models.

Section store.
Context `{!Host}.

(** [timex.Now] *)
Definition Now : M DateTime := λ s,
  Ok (clock_reading (db_clock s), set_clock (S (db_clock s)) s).
Definition freshID : M string := λ s,
  Ok (gen_id (db_next_id s), set_next_id (S (db_next_id s)) s).

(** ** Inserts: the row comes back with the stamped columns. *)
Definition insertTask (t : Task) : M Task :=
  id ← freshID; now ← Now;
  let t := set_Task_CreatedAt now (set_Task_ID id t) in
  modify (upd_tasks (λ l, l ++ [t]));; mret t.
Definition insertTasks (ts : list Task) : M (list Task) :=
  foldM (λ acc t, t' ← insertTask t; mret (acc ++ [t'])) [] ts.
Definition insertVisit (v : NodeVisit) : M NodeVisit :=
  id ← freshID; now ← Now;
  let v := set_NodeVisit_CreatedAt now (set_NodeVisit_ID id v) in
  modify (upd_visits (λ l, l ++ [v]));; mret v.
Definition insertInstance (i : Instance) : M Instance :=
  id ← freshID; now ← Now;
  let i := set_Instance_CreatedAt now (set_Instance_ID id i) in
  modify (upd_instances (λ l, l ++ [i]));; mret i.
Definition insertSnapshot (f : FormSnapshot) : M unit :=
  id ← freshID; now ← Now;
  let f := set_FormSnapshot_CreatedAt now (set_FormSnapshot_ID id f) in
  modify (λ s, set_snapshots (db_snapshots s ++ [f]) s).
Definition insertCCRecord (r : CCRecord) : M unit :=
  id ← freshID; now ← Now;
  let r := set_CCRecord_CreatedAt now (set_CCRecord_ID id r) in
  modify (upd_cc_records (λ l, l ++ [r])).
Definition insertUrge (r : UrgeRecord) : M unit :=
  id ← freshID; now ← Now;
  let r := set_UrgeRecord_CreatedAt now (set_UrgeRecord_ID id r) in
  modify (λ s, set_urges (db_urges s ++ [r]) s).

(** ** Updates: the number of matching rows comes back ([RowsAffected]). *)
Definition updateTasks (p : Task → bool) (f : Task → Task) : M nat := λ s,
  Ok (tcount p (db_tasks s), upd_tasks (tupdate p f) s).
Definition updateVisits (p : NodeVisit → bool) (f : NodeVisit → NodeVisit) : M nat := λ s,
  Ok (tcount p (db_visits s), upd_visits (tupdate p f) s).
Definition updateInstances (p : Instance → bool) (f : Instance → Instance) : M nat := λ s,
  Ok (tcount p (db_instances s), upd_instances (tupdate p f) s).
Definition updateCCRecords (p : CCRecord → bool) (f : CCRecord → CCRecord) : M nat := λ s,
  Ok (tcount p (db_cc_records s), upd_cc_records (tupdate p f) s).

(** ** Primary-key lookups *)
Definition findTask (id : string) : M (option Task) :=
  gets (λ s, tfirst (λ t, Task_ID t ==? id) (db_tasks s)).
Definition findInstance (id : string) : M (option Instance) :=
  gets (λ s, tfirst (λ i, Instance_ID i ==? id) (db_instances s)).
Definition findNode (id : string) : M (option FlowNode) :=
  gets (λ s, tfirst (λ n, FlowNode_ID n ==? id) (db_nodes s)).
Definition findFlow (id : string) : M (option Flow) :=
  gets (λ s, tfirst (λ f, Flow_ID f ==? id) (db_flows s)).
Definition findVersion (id : string) : M (option FlowVersion) :=
  gets (λ s, tfirst (λ v, FlowVersion_ID v ==? id) (db_versions s)).

(** [if err != nil { return err }] after a lookup. *)
Definition orThrow {A} (e : Error) (m : M (option A)) : M A :=
  o ← m; match o with Some a => mret a | None => throw e end.

(** ** Events and action logs *)
Definition EmitEvents (evs : list DomainEvent) : M unit :=
  modify (λ s, set_events (db_events s ++ evs) s).
(** [ActionLogCollector.Add]: outside the pipeline there is no collector. *)
Definition addActionLog (l : ActionLog) : M unit :=
  modify (λ s, if db_pipeline s then set_logs (db_logs s ++ [l]) s else s).
End store.

(** ** Well-formed stores *)

(** [l] lists distinct ids, all issued before the [n]-th. *)
Definition ids_ok `{!Host} (n : nat) (l : list string) : Prop :=
  NoDup l ∧ Forall (λ x, ∃ k, k < n ∧ x = gen_id k) l.

Record wf `{!Host} (s : St) : Prop := {
  wf_instances : ids_ok (db_next_id s) (Instance_ID <$> db_instances s);
  wf_tasks : ids_ok (db_next_id s) (Task_ID <$> db_tasks s);
  wf_visits : ids_ok (db_next_id s) (NodeVisit_ID <$> db_visits s);
}.

Lemma ids_ok_mono `{!Host} n m l : ids_ok n l → n ≤ m → ids_ok m l.
Proof.
  intros [Hd Hf] ?. split; [done|]. eapply Forall_impl; [exact Hf|].
  cbn. intros x (k & ? & ->). exists k. split; [lia|done].
Qed.
Lemma ids_ok_fresh `{!Host} n l : ids_ok n l → gen_id n ∉ l.
Proof.
  intros [_ Hf] Hin. rewrite Forall_forall in Hf.
  destruct (Hf _ Hin) as (k & Hk & Heq). apply gen_id_inj in Heq. lia.
Qed.
Lemma ids_ok_snoc `{!Host} n l : ids_ok n l → ids_ok (S n) (l ++ [gen_id n]).
Proof.
  intros Hl. pose proof (ids_ok_fresh _ _ Hl) as Hn.
  destruct (ids_ok_mono _ (S n) _ Hl) as [Hd Hf]; [lia|].
  split.
  - apply NoDup_app. split; [done|]. split; [set_solver|]. apply NoDup_singleton.
  - apply Forall_app. split; [done|]. constructor; [|constructor]. exists n. split; [lia|done].
Qed.

(** ** Evolution of rows *)

(** A task keeps its identity columns and its status follows the task machine. *)
Definition task_evolves (t t' : Task) : Prop :=
  Task_ID t' = Task_ID t ∧ Task_InstanceID t' = Task_InstanceID t ∧
  Task_NodeID t' = Task_NodeID t ∧ Task_VisitID t' = Task_VisitID t ∧
  Task_TenantID t' = Task_TenantID t ∧ rtc task_step (Task_Status t) (Task_Status t').
Definition instance_evolves (i i' : Instance) : Prop :=
  Instance_ID i' = Instance_ID i ∧ Instance_TenantID i' = Instance_TenantID i ∧
  Instance_FlowID i' = Instance_FlowID i ∧ Instance_FlowVersionID i' = Instance_FlowVersionID i ∧
  Instance_ApplicantID i' = Instance_ApplicantID i ∧
  rtc instance_step (Instance_Status i) (Instance_Status i').
(** A concluded visit is never reopened or restamped. *)
Definition visit_evolves (v v' : NodeVisit) : Prop :=
  NodeVisit_ID v' = NodeVisit_ID v ∧ NodeVisit_InstanceID v' = NodeVisit_InstanceID v ∧
  NodeVisit_NodeID v' = NodeVisit_NodeID v ∧ NodeVisit_Sequence v' = NodeVisit_Sequence v ∧
  (NodeVisit_Status v = NodeVisitActive ∨
   NodeVisit_Status v' = NodeVisit_Status v ∧ NodeVisit_FinishedAt v' = NodeVisit_FinishedAt v).

#[export] Instance task_evolves_preorder : PreOrder task_evolves.
Proof.
  split.
  - intros t. repeat split; reflexivity.
  - intros x y z (?&?&?&?&?&?) (?&?&?&?&?&?). repeat split; try congruence. by etrans.
Qed.
#[export] Instance instance_evolves_preorder : PreOrder instance_evolves.
Proof.
  split.
  - intros t. repeat split; reflexivity.
  - intros x y z (?&?&?&?&?&?) (?&?&?&?&?&?). repeat split; try congruence. by etrans.
Qed.
#[export] Instance visit_evolves_preorder : PreOrder visit_evolves.
Proof.
  split.
  - intros t. repeat split; auto.
  - intros x y z (?&?&?&?&HL) (?&?&?&?&HR). repeat split; try congruence.
    destruct HL as [|[<- <-]]; [by left|]. tauto.
Qed.

(** The store moves on: rows evolve, nothing is lost, definitions stay put. *)
Record evolves (s s' : St) : Prop := {
  ev_tasks : table_evolves task_evolves (db_tasks s) (db_tasks s');
  ev_instances : table_evolves instance_evolves (db_instances s) (db_instances s');
  ev_visits : table_evolves visit_evolves (db_visits s) (db_visits s');
  ev_events : db_events s `prefix_of` db_events s';
  ev_logs : db_logs s `prefix_of` db_logs s';
  ev_nodes : db_nodes s' = db_nodes s;
  ev_edges : db_edges s' = db_edges s;
  ev_next_id : db_next_id s ≤ db_next_id s';
}.
#[export] Instance evolves_preorder : PreOrder evolves.
Proof.
  split.
  - intros s. constructor; reflexivity.
  - intros x y z [] []. constructor; try (by etrans); lia.
Qed.

(** ** Safe transactions

    [safe] is the relation every handler keeps: from a well-formed store it
    reaches a well-formed store the former evolves to. *)
Definition safe `{!Host} (s s' : St) : Prop := wf s → evolves s s' ∧ wf s'.
#[export] Instance safe_preorder `{!Host} : PreOrder safe.
Proof.
  split.
  - intros s ?. split; [reflexivity|done].
  - intros x y z Hxy Hyz Hx. destruct (Hxy Hx) as [? Hy]. destruct (Hyz Hy). split; [by etrans|done].
Qed.

Section safe_primitives.
Context `{!Host}.

(** Destruct the stores so that the setters compute. *)
Ltac crush_safe :=
  intros [Hi Ht Hv]; split; [constructor|constructor]; cbn in *; try reflexivity;
  try (by eexists); try lia.

Lemma fmap_ids_tupdate {Row} (key : Row → string) p f (t : list Row) :
  (∀ r, p r = true → key (f r) = key r) → key <$> tupdate p f t = key <$> t.
Proof.
  intros Hk. unfold tupdate. induction t as [|r t IH]; cbn; [done|].
  rewrite IH. f_equal. destruct (p r) eqn:?; auto.
Qed.

Lemma safe_Now : keeps safe Now.
Proof. intros [] a s' [=]; subst. crush_safe; done. Qed.
Lemma safe_freshID : keeps safe freshID.
Proof.
  intros [] a s' [=]; subst. crush_safe; eapply ids_ok_mono; eauto.
Qed.
Lemma safe_EmitEvents evs : keeps safe (EmitEvents evs).
Proof. intros [] a s' [=]; subst. crush_safe; done. Qed.
Lemma safe_addActionLog l : keeps safe (addActionLog l).
Proof.
  intros [? ? ? ? ? ? ? ? ? ? ? ? ? ? ? ? ? [] ? ? ? ? ? ? ?] a s' [=]; subst; crush_safe; done.
Qed.

Lemma safe_insertTask t : keeps safe (insertTask t).
Proof.
  intros [] a s' [=]; subst. crush_safe.
  - by apply tappend_evolves, _.
  - eapply ids_ok_mono; eauto.
  - rewrite fmap_app; cbn. destruct t; cbn. by apply ids_ok_snoc.
  - eapply ids_ok_mono; eauto.
Qed.
Lemma safe_insertVisit v : keeps safe (insertVisit v).
Proof.
  intros [] a s' [=]; subst. crush_safe.
  - by apply tappend_evolves, _.
  - eapply ids_ok_mono; eauto.
  - eapply ids_ok_mono; eauto.
  - rewrite fmap_app; cbn. destruct v; cbn. by apply ids_ok_snoc.
Qed.
Lemma safe_insertInstance i : keeps safe (insertInstance i).
Proof.
  intros [] a s' [=]; subst. crush_safe.
  - by apply tappend_evolves, _.
  - rewrite fmap_app; cbn. destruct i; cbn. by apply ids_ok_snoc.
  - eapply ids_ok_mono; eauto.
  - eapply ids_ok_mono; eauto.
Qed.
Lemma safe_insertSnapshot f : keeps safe (insertSnapshot f).
Proof. intros [] a s' [=]; subst. crush_safe; eapply ids_ok_mono; eauto. Qed.
Lemma safe_insertCCRecord r : keeps safe (insertCCRecord r).
Proof. intros [] a s' [=]; subst. crush_safe; eapply ids_ok_mono; eauto. Qed.
Lemma safe_insertUrge r : keeps safe (insertUrge r).
Proof. intros [] a s' [=]; subst. crush_safe; eapply ids_ok_mono; eauto. Qed.

Lemma safe_updateTasks p f :
  (∀ t, p t = true → task_evolves t (f t)) → keeps safe (updateTasks p f).
Proof.
  intros Hf [] a s' [=]; subst. crush_safe.
  - by apply tupdate_evolves; [apply _|].
  - done.
  - rewrite fmap_ids_tupdate; [done|]. by intros r ?%Hf%proj1.
  - done.
Qed.
Lemma safe_updateVisits p f :
  (∀ t, p t = true → visit_evolves t (f t)) → keeps safe (updateVisits p f).
Proof.
  intros Hf [] a s' [=]; subst. crush_safe; try done.
  - by apply tupdate_evolves; [apply _|].
  - rewrite fmap_ids_tupdate; [done|]. by intros r ?%Hf%proj1.
Qed.
Lemma safe_updateInstances p f :
  (∀ t, p t = true → instance_evolves t (f t)) → keeps safe (updateInstances p f).
Proof.
  intros Hf [] a s' [=]; subst. crush_safe; try done.
  - by apply tupdate_evolves; [apply _|].
  - rewrite fmap_ids_tupdate; [done|]. by intros r ?%Hf%proj1.
Qed.
Lemma safe_updateCCRecords p f : keeps safe (updateCCRecords p f).
Proof. intros [] a s' [=]; subst. crush_safe; done. Qed.
End safe_primitives.
#[export] Hint Resolve safe_Now safe_freshID safe_EmitEvents safe_addActionLog
  safe_insertTask safe_insertVisit safe_insertInstance safe_insertSnapshot
  safe_insertCCRecord safe_insertUrge safe_updateCCRecords : keeps.
