(* ===== verification/Shared.v ===== *)
(** * Shared helpers of the approval module

    [internal/approval/shared]: id normalisation ([normalize.go],
    [ordered_unique.go]), user lookup ([user_resolve.go]), deadlines
    ([deadline.go]), CC records ([cc.go]), and the [strings.TrimSpace] they rely
    on.  [NormalizeUniqueIDs] is shown to be what its comment says and idempotent. *)
From Stdlib Require Import Ascii.
From S2P Require Import Prelude Enums StateMachine Models Store Demo.

(** ** [strings.TrimSpace] *)
Section trim.
(** The UTF-8 encodings of the Unicode white-space characters. *)
Definition wsRunes : list (list ascii) :=
  map (map ascii_of_nat)
    ([[9]; [10]; [11]; [12]; [13]; [32]; [194; 133]; [194; 160]; [225; 154; 128];
      [226; 128; 168]; [226; 128; 169]; [226; 128; 175]; [226; 129; 159]; [227; 128; 128]]
     ++ map (λ n, [226; 128; 128 + n]) (seq 0 11)).

(** Drop one leading rune of [ws], if there is one. *)
Fixpoint stripPrefix (w l : list ascii) : option (list ascii) :=
  match w, l with
  | [], _ => Some l
  | a :: w', b :: l' => if Ascii.eqb a b then stripPrefix w' l' else None
  | _ :: _, [] => None
  end.
Fixpoint dropRune (ws : list (list ascii)) (l : list ascii) : option (list ascii) :=
  match ws with
  | [] => None
  | w :: ws' => match stripPrefix w l with Some l' => Some l' | None => dropRune ws' l end
  end.
Fixpoint trimFuel (n : nat) (ws : list (list ascii)) (l : list ascii) : list ascii :=
  match n with
  | 0 => l
  | S n' => match dropRune ws l with Some l' => trimFuel n' ws l' | None => l end
  end.
Definition trimLeft (l : list ascii) : list ascii := trimFuel (length l) wsRunes l.
Definition trimRight (l : list ascii) : list ascii :=
  reverse (trimFuel (length l) (map reverse wsRunes) (reverse l)).
Definition TrimSpace (s : string) : string :=
  String.string_of_list_ascii (trimRight (trimLeft (String.list_ascii_of_string s))).

Lemma stripPrefix_Some w l l' : stripPrefix w l = Some l' ↔ l = w ++ l'.
Proof.
  revert l. induction w as [|a w IH]; intros l; cbn; [naive_solver|].
  destruct l as [|b l]; [naive_solver|].
  destruct (Ascii.eqb_spec a b) as [->|]; [rewrite IH|]; naive_solver.
Qed.
Lemma dropRune_Some ws l l' : dropRune ws l = Some l' → ∃ w, w ∈ ws ∧ l = w ++ l'.
Proof.
  induction ws as [|w ws IH]; cbn; [done|]. destruct (stripPrefix w l) as [k|] eqn:Hw.
  - intros [=<-]. apply stripPrefix_Some in Hw. exists w. split; [set_solver|done].
  - intros (w' & ? & ?)%IH. exists w'. split; [set_solver|done].
Qed.
Lemma dropRune_None ws l : dropRune ws l = None ↔ ∀ w l', w ∈ ws → l ≠ w ++ l'.
Proof.
  induction ws as [|w ws IH]; cbn; [set_solver|]. destruct (stripPrefix w l) as [k|] eqn:Hw.
  - apply stripPrefix_Some in Hw. split; [done|]. intros Hn. exfalso. apply (Hn w k); [set_solver|done].
  - rewrite IH. split; [|set_solver]. intros Hn w' l' [->|?]%elem_of_cons; [|by apply Hn].
    intros Hl%stripPrefix_Some. by rewrite Hl in Hw.
Qed.
(** Enough fuel: nothing is left to drop. *)
Lemma trimFuel_done n ws l :
  (∀ w, w ∈ ws → w ≠ []) → length l ≤ n → dropRune ws (trimFuel n ws l) = None.
Proof.
  intros Hws. revert l. induction n as [|n IH]; intros l Hl; cbn.
  - destruct l; [|cbn in Hl; lia]. apply dropRune_None. intros w l' Hw Heq.
    symmetry in Heq. apply app_nil in Heq as [? _]. by apply (Hws w).
  - destruct (dropRune ws l) as [l'|] eqn:Hd; [|done]. apply IH.
    apply dropRune_Some in Hd as (w & Hw & ->). specialize (Hws w Hw).
    rewrite length_app in Hl. destruct w; [done|]. cbn in Hl. lia.
Qed.
Lemma trimFuel_suffix n ws l : ∃ k, l = k ++ trimFuel n ws l.
Proof.
  revert l. induction n as [|n IH]; intros l; cbn; [by exists []|].
  destruct (dropRune ws l) as [l'|] eqn:Hd; [|by exists []].
  apply dropRune_Some in Hd as (w & _ & ->). destruct (IH l') as [k Hk].
  exists (w ++ k). by rewrite <-app_assoc, <-Hk.
Qed.
Lemma trimFuel_stable n ws l : dropRune ws l = None → trimFuel n ws l = l.
Proof. intros Hd. destruct n; cbn; [done|]. by rewrite Hd. Qed.

Lemma wsRunes_nonempty w : w ∈ wsRunes → w ≠ [].
Proof.
  assert (Forall (λ w, w ≠ []) wsRunes) as Hf by (repeat constructor; done).
  rewrite Forall_forall in Hf. apply Hf.
Qed.
Lemma wsRunes_reverse_nonempty w : w ∈ map reverse wsRunes → w ≠ [].
Proof.
  intros (w0 & -> & Hw%wsRunes_nonempty)%list_elem_of_fmap Heq. apply Hw.
  by rewrite <-(reverse_involutive w0), Heq.
Qed.

(** Trimming twice is trimming once. *)
Lemma TrimSpace_idemp s : TrimSpace (TrimSpace s) = TrimSpace s.
Proof.
  unfold TrimSpace. rewrite String.list_ascii_of_string_of_list_ascii. f_equal.
  set (l := String.list_ascii_of_string s). set (y := trimRight (trimLeft l)).
  assert (dropRune wsRunes y = None) as Hl.
  { apply dropRune_None. intros w k Hw Hy.
    destruct (trimFuel_suffix (length (trimLeft l)) (map reverse wsRunes)
                (reverse (trimLeft l))) as [r Hr].
    assert (trimLeft l = w ++ (k ++ reverse r)) as Heq.
    { rewrite app_assoc, <-Hy. unfold y, trimRight.
      rewrite <-(reverse_involutive (trimLeft l)) at 1. rewrite Hr at 1.
      by rewrite reverse_app. }
    assert (dropRune wsRunes (trimLeft l) = None) as Hn.
    { apply trimFuel_done; [apply wsRunes_nonempty|done]. }
    rewrite dropRune_None in Hn. by eapply Hn. }
  unfold trimLeft at 1. rewrite (trimFuel_stable _ _ _ Hl).
  unfold trimRight at 1. rewrite trimFuel_stable; [by rewrite reverse_involutive|].
  unfold y, trimRight. rewrite reverse_involutive.
  apply trimFuel_done; [apply wsRunes_reverse_nonempty|]. by rewrite length_reverse.
Qed.
End trim.

(** ** [OrderedUnique] *)
Section ordered_unique.
Context {T : Type} `{Countable T}.

Record OrderedUnique := { ou_seen : gset T; ou_items : list T }.
Definition NewOrderedUnique : OrderedUnique := {| ou_seen := ∅; ou_items := [] |}.
Definition OrderedUnique_Add (o : OrderedUnique) (x : T) : OrderedUnique * bool :=
  if bool_decide (x ∈ ou_seen o) then (o, false)
  else ({| ou_seen := {[x]} ∪ ou_seen o; ou_items := ou_items o ++ [x] |}, true).
Definition OrderedUnique_AddAll (o : OrderedUnique) (xs : list T) : OrderedUnique * nat :=
  foldl (λ acc x, let '(o', b) := OrderedUnique_Add acc.1 x in
                  (o', if b then S acc.2 else acc.2)) (o, 0) xs.
Definition OrderedUnique_ToSlice (o : OrderedUnique) : list T := ou_items o.
Definition OrderedUnique_Len (o : OrderedUnique) : nat := length (ou_items o).
Definition OrderedUnique_Contains (o : OrderedUnique) (x : T) : bool :=
  bool_decide (x ∈ ou_seen o).

(** The set and the slice hold the same values, each once. *)
Definition ou_wf (o : OrderedUnique) : Prop :=
  NoDup (ou_items o) ∧ ∀ x, x ∈ ou_seen o ↔ x ∈ ou_items o.

Lemma NewOrderedUnique_wf : ou_wf NewOrderedUnique.
Proof. split; [constructor|set_solver]. Qed.
Lemma OrderedUnique_Add_wf o x :
  ou_wf o → ou_wf (OrderedUnique_Add o x).1 ∧
  (∀ y, y ∈ ou_items (OrderedUnique_Add o x).1 ↔ y = x ∨ y ∈ ou_items o).
Proof.
  intros [Hd Hs]. unfold OrderedUnique_Add. case_bool_decide as Hx; cbn.
  - split; [done|]. apply Hs in Hx. naive_solver.
  - rewrite Hs in Hx. split; [|set_solver]. split; [|set_solver].
    apply NoDup_app. split; [done|]. split; [set_solver|apply NoDup_singleton].
Qed.
End ordered_unique.
Arguments OrderedUnique T {_ _}.

(** [NormalizeUniqueIDs]; the nil and the empty slice are both the empty list. *)
Definition addNormalized (unique : OrderedUnique string) (rawID : string) : OrderedUnique string :=
  let id := TrimSpace rawID in
  if id ==? "" then unique else (OrderedUnique_Add unique id).1.
Definition NormalizeUniqueIDs (ids : list string) : list string :=
  OrderedUnique_ToSlice (foldl addNormalized NewOrderedUnique ids).

Section normalize.
Implicit Types ids : list string.

Lemma foldl_addNormalized ids o :
  ou_wf o →
  let o' := foldl addNormalized o ids in
  ou_wf o' ∧
  (∀ x, x ∈ ou_items o' ↔ x ∈ ou_items o ∨ x ≠ "" ∧ ∃ raw, raw ∈ ids ∧ x = TrimSpace raw) ∧
  (∃ k, ou_items o' = ou_items o ++ k ∧ k `sublist_of` (TrimSpace <$> ids)).
Proof.
  revert o. induction ids as [|raw ids IH]; intros o Ho o'; unfold o'; cbn [foldl]; clear o'.
  { split; [done|]. split; [set_solver|]. exists []. by rewrite app_nil_r. }
  assert (ou_wf (addNormalized o raw) ∧
    (∀ y, y ∈ ou_items (addNormalized o raw) ↔
       y ∈ ou_items o ∨ y ≠ "" ∧ y = TrimSpace raw) ∧
    ∃ k, ou_items (addNormalized o raw) = ou_items o ++ k ∧ k `sublist_of` [TrimSpace raw])
    as (Hw & Hin & k1 & Hk1 & Hs1).
  { unfold addNormalized. case_bool_decide as He.
    - split; [done|]. split; [naive_solver|]. exists []. rewrite app_nil_r.
      split; [done|apply sublist_nil_l].
    - destruct (OrderedUnique_Add_wf o (TrimSpace raw) Ho) as [Hw Hin]. split; [done|].
      split; [intros y; rewrite Hin; naive_solver|].
      unfold OrderedUnique_Add. case_bool_decide; cbn.
      + exists []. rewrite app_nil_r. split; [done|apply sublist_nil_l].
      + by exists [TrimSpace raw]. }
  destruct (IH _ Hw) as (Hw' & Hin' & k2 & Hk2 & Hs2). split; [done|]. split.
  - intros x. rewrite Hin', Hin. set_solver.
  - exists (k1 ++ k2). rewrite Hk2, Hk1, app_assoc. split; [done|].
    change (TrimSpace <$> raw :: ids) with ([TrimSpace raw] ++ (TrimSpace <$> ids)).
    by apply sublist_app.
Qed.

Lemma elem_of_NormalizeUniqueIDs ids x :
  x ∈ NormalizeUniqueIDs ids ↔ x ≠ "" ∧ ∃ raw, raw ∈ ids ∧ x = TrimSpace raw.
Proof.
  destruct (foldl_addNormalized ids _ NewOrderedUnique_wf) as (_ & Hin & _).
  unfold NormalizeUniqueIDs, OrderedUnique_ToSlice. rewrite Hin. cbn. set_solver.
Qed.
Lemma NoDup_NormalizeUniqueIDs ids : NoDup (NormalizeUniqueIDs ids).
Proof. by destruct (foldl_addNormalized ids _ NewOrderedUnique_wf) as ([Hd _] & _). Qed.
Lemma NormalizeUniqueIDs_sublist ids : NormalizeUniqueIDs ids `sublist_of` (TrimSpace <$> ids).
Proof.
  destruct (foldl_addNormalized ids _ NewOrderedUnique_wf) as (_ & _ & k & Hk & Hs).
  unfold NormalizeUniqueIDs, OrderedUnique_ToSlice. by rewrite Hk.
Qed.

(** A normalised list is a fixed point. *)
Lemma foldl_addNormalized_id k ids :
  NoDup (k ++ ids) → Forall (λ x, x ≠ "" ∧ TrimSpace x = x) ids →
  ou_items (foldl addNormalized {| ou_seen := list_to_set k; ou_items := k |} ids) = k ++ ids.
Proof.
  revert k. induction ids as [|x ids IH]; intros k Hd Hf; cbn; [by rewrite app_nil_r|].
  inversion_clear Hf as [|? ? [Hne Ht] Hf'].
  assert (addNormalized {| ou_seen := list_to_set k; ou_items := k |} x
          = {| ou_seen := list_to_set (k ++ [x]); ou_items := k ++ [x] |}) as ->.
  { unfold addNormalized. rewrite Ht, bool_decide_eq_false_2 by done.
    unfold OrderedUnique_Add. rewrite bool_decide_eq_false_2; cbn.
    - f_equal. set_solver.
    - apply NoDup_app in Hd as (_ & Hd & _). set_solver. }
  rewrite (cons_middle x k ids), app_assoc in Hd. rewrite (cons_middle x k ids), app_assoc.
  by apply IH.
Qed.
End normalize.

(** [NormalizeUniqueIDs] trims, drops blanks and duplicates and keeps the
    first-seen order: the result has no repetition, holds exactly the non-blank
    trimmed inputs, is a subsequence of them, and normalising again changes
    nothing. *)
Theorem NormalizeUniqueIDs_spec ids :
  NoDup (NormalizeUniqueIDs ids) ∧
  (∀ x, x ∈ NormalizeUniqueIDs ids ↔ x ≠ "" ∧ ∃ raw, raw ∈ ids ∧ x = TrimSpace raw) ∧
  NormalizeUniqueIDs ids `sublist_of` (TrimSpace <$> ids) ∧
  NormalizeUniqueIDs (NormalizeUniqueIDs ids) = NormalizeUniqueIDs ids.
Proof.
  split; [apply NoDup_NormalizeUniqueIDs|]. split; [apply elem_of_NormalizeUniqueIDs|].
  split; [apply NormalizeUniqueIDs_sublist|].
  apply (foldl_addNormalized_id []); [apply NoDup_NormalizeUniqueIDs|].
  apply Forall_forall. intros x (Hne & raw & _ & ->)%elem_of_NormalizeUniqueIDs.
  split; [done|]. apply TrimSpace_idemp.
Qed.

(** ** Numbers *)

(** [ToFloat64]: a decoded JSON number is a [float64]. *)
Definition ToFloat64 (v : Value) : option float64 :=
  match v with VNumber x => Some x | _ => None end.

(** ** Users, deadlines, CC records *)
Section shared.
Context `{!Host}.

(** [ResolveUserInfoMap] *)
Definition ResolveUserInfoMap (ids : list string) : res (gmap string UserInfo) :=
  match userResolver, ids with
  | None, _ | _, [] => Ok ∅
  | Some ResolveUsers, _ =>
      resolved ← ResolveUsers ids;
      Ok (foldl (λ infos id, match resolved !! id with
                             | Some info => <[id := info]> infos
                             | None => infos
                             end) ∅ ids)
  end.
Definition ResolveUserInfoMapSilent (ids : list string) : gmap string UserInfo :=
  match ResolveUserInfoMap ids with Ok infos => infos | Err _ => ∅ end.
(** [info := infos[id]; info.ID = id] *)
Definition infoWithID (infos : gmap string UserInfo) (id : string) : UserInfo :=
  set_UserInfo_ID id (default UserInfo_zero (infos !! id)).
Definition ResolveUserInfo (userID : string) : UserInfo :=
  if userID ==? "" then UserInfo_zero
  else infoWithID (ResolveUserInfoMapSilent [userID]) userID.
Definition UserInfos (ids : list string) (infos : gmap string UserInfo) : list UserInfo :=
  map (infoWithID infos) ids.

(** [ComputeTaskDeadline]; [AddHours] adds hours of 3600 seconds. *)
Definition ComputeTaskDeadline (timeoutHours : Z) : M (option DateTime) :=
  if (timeoutHours <=? 0)%Z then mret None
  else now ← Now; mret (Some (now + 3600 * timeoutHours)%Z).

(** [SystemOperator] *)
Definition SystemOperator : UserInfo := Build_UserInfo "system" "系统" None None.

(** [InsertCCRecords] *)
Definition InsertCCRecords (instanceID : string) (nodeID visitID : option string)
    (userIDs : list string) (userInfos : gmap string UserInfo) (isManual : bool)
    : M (list string) :=
  let normalizedUserIDs := NormalizeUniqueIDs userIDs in
  if (length normalizedUserIDs =? 0)%nat then mret []
  else
    existing ← gets (λ s, tselect (λ r,
      (CCRecord_InstanceID r ==? instanceID) && bool_decide (CCRecord_CCUserID r ∈ normalizedUserIDs)
      && match nodeID with
         | None => CCRecord_NodeID r ==? None
         | Some _ => (CCRecord_NodeID r ==? nodeID) && (CCRecord_VisitID r ==? visitID)
         end) (db_cc_records s));
    let insertedUserIDs :=
      List.filter (λ u, bool_decide (u ∉ CCRecord_CCUserID <$> existing)) normalizedUserIDs in
    if (length insertedUserIDs =? 0)%nat then mret []
    else
      foldM (λ _ userID,
        let info := default UserInfo_zero (userInfos !! userID) in
        insertCCRecord (Build_CCRecord "" 0 instanceID nodeID visitID None userID
          (UserInfo_Name info) (UserInfo_DepartmentID info) (UserInfo_DepartmentName info)
          isManual None)) tt insertedUserIDs;;
      mret insertedUserIDs.
Definition InsertAutoCCRecords instanceID nodeID visitID userIDs userInfos : M (list string) :=
  InsertCCRecords instanceID (Some nodeID) (Some visitID) userIDs userInfos false.
Definition InsertManualCCRecords instanceID nodeID visitID userIDs userInfos : M (list string) :=
  InsertCCRecords instanceID (Some nodeID) (Some visitID) userIDs userInfos true.

(** [HasUnreadCCRecords] *)
Definition HasUnreadCCRecords (instanceID nodeID visitID : string) : M bool :=
  gets (λ s, texists (λ r,
    (CCRecord_InstanceID r ==? instanceID) && (CCRecord_NodeID r ==? Some nodeID)
    && (CCRecord_VisitID r ==? Some visitID) && (CCRecord_ReadAt r ==? None)) (db_cc_records s)).
End shared.
