(* ===== verification/FormValidation.v ===== *)
(** * Form data: validation, permissions, merging

    [internal/approval/service/validation.go] and [code_set_validation.go]: the
    checks on submitted form data and the merge of an approver's edits.  All
    failures carry the code of [ErrFormValidationFailed]; the message is not
    modelled.  Go ranges over a map in no particular order; the model walks
    [map_to_list], which can only change which of several failures is reported
    first. *)
From S2P Require Import Prelude Enums StateMachine Models Demo Store Shared.

(** ** Library functions *)

(** [utf8.RuneCountInString] of valid UTF-8 (what decoding JSON yields): bytes
    that do not continue a character. *)
Fixpoint RuneCountInString (s : string) : Z :=
  match s with
  | EmptyString => 0
  | String a s' =>
      (if (128 <=? Ascii.nat_of_ascii a)%nat && (Ascii.nat_of_ascii a <? 192)%nat then 0 else 1)
      + RuneCountInString s'
  end.

(** [value == math.Trunc(value)] *)
Definition isIntegral (x : float64) : bool :=
  match x with
  | S754_zero _ | S754_infinity _ => true
  | S754_nan => false
  | S754_finite _ m e => (0 <=? e)%Z || (Z.pos m mod 2 ^ (- e) =? 0)%Z
  end.

Definition isEmptyFormValue (v : Value) : bool :=
  match v with
  | VNil => true
  | VString s => TrimSpace s ==? ""
  | VStrings l => (length l =? 0)%nat
  | VList l => (length l =? 0)%nat
  | _ => false
  end.

Notation formError := (Err ErrFormValidationFailed).

Section form.
Context `{!Host}.
Implicit Types field : FormFieldDefinition.

(** ** Rules of one field *)
Definition validateStringRule field (value : string) : res unit :=
  match FormField_Validation field with
  | None => Ok tt
  | Some v =>
      let length := RuneCountInString value in
      failIf (match ValidationRule_MinLength v with Some m => (length <? m)%Z | None => false end)
        ErrFormValidationFailed ≫= λ _,
      failIf (match ValidationRule_MaxLength v with Some m => (m <? length)%Z | None => false end)
        ErrFormValidationFailed ≫= λ _,
      if ValidationRule_Pattern v ==? "" then Ok tt
      else match regexpMatchString (ValidationRule_Pattern v) value with
           | None => formError
           | Some matched => failIf (negb matched) ErrFormValidationFailed
           end
  end.

Definition validateNumberRule field (value : float64) : res unit :=
  failIf ((FormField_ColumnType field ==? ColumnInteger) && negb (isIntegral value))
    ErrFormValidationFailed ≫= λ _,
  match FormField_Validation field with
  | None => Ok tt
  | Some v =>
      failIf (match ValidationRule_Min v with Some m => SFltb value m | None => false end)
        ErrFormValidationFailed ≫= λ _,
      failIf (match ValidationRule_Max v with Some m => SFltb m value | None => false end)
        ErrFormValidationFailed
  end.

Definition validateUploadField (value : Value) : res unit :=
  match value with
  | VString files => failIf (TrimSpace files ==? "") ErrFormValidationFailed
  | VStrings files => failIf (length files =? 0)%nat ErrFormValidationFailed
  | VList files =>
      failIf (length files =? 0)%nat ErrFormValidationFailed ≫= λ _,
      failIf (negb (forallb (λ item, match item with
                                     | VString text => negb (TrimSpace text ==? "")
                                     | _ => false
                                     end) files)) ErrFormValidationFailed
  | _ => formError
  end.

(** [selectItems] *)
Definition selectItems (value : Value) : list Value :=
  match value with
  | VList items => items
  | VStrings items => map VString items
  | v => [v]
  end.
Definition validateSelectField field (value : Value) : res unit :=
  let allowedValues := map (λ o, fmtSprint (FieldOption_Value o)) (FormField_Options field) in
  failIf (negb (forallb (λ item, (length allowedValues =? 0)%nat
                                 || bool_decide (fmtSprint item ∈ allowedValues))
                  (selectItems value))) ErrFormValidationFailed.

(** [validateTableRow], given the check of one cell. *)
Definition rowKeysDefined (columns : list FormFieldDefinition) (row : gmap string Value) : bool :=
  forallb (λ kv, bool_decide (kv.1 ∈ FormField_Key <$> columns)) (map_to_list row).
Definition checkCell (validate : Value → res unit) (column : FormFieldDefinition)
    (row : gmap string Value) : res unit :=
  match row !! FormField_Key column with
  | None => failIf (FormField_IsRequired column) ErrFormValidationFailed
  | Some cell =>
      if isEmptyFormValue cell then failIf (FormField_IsRequired column) ErrFormValidationFailed
      else match validate cell with Ok _ => Ok tt | Err _ => formError end
  end.

(** [validateFormField], with [validateTableField] and [validateTableRow] inside. *)
Fixpoint validateFormField (field : FormFieldDefinition) (value : Value) {struct field} : res unit :=
  match field with
  | FormField key kind label req opts cs validation ct scale columns =>
      match kind with
      | FieldInput | FieldTextarea | FieldDate =>
          match value with
          | VString text => validateStringRule field text
          | _ => formError
          end
      | FieldUpload => validateUploadField value
      | FieldNumber =>
          match ToFloat64 value with
          | Some number => validateNumberRule field number
          | None => formError
          end
      | FieldSelect => validateSelectField field value
      | FieldTable =>
          match value with
          | VList rows =>
              failIf (match validation ≫= ValidationRule_MinLength with
                      | Some m => (Z.of_nat (length rows) <? m)%Z | None => false end)
                ErrFormValidationFailed ≫= λ _,
              failIf (match validation ≫= ValidationRule_MaxLength with
                      | Some m => (m <? Z.of_nat (length rows))%Z | None => false end)
                ErrFormValidationFailed ≫= λ _,
              (fix checkRows (rows : list Value) : res unit :=
                 match rows with
                 | [] => Ok tt
                 | VMap row :: rows' =>
                     failIf (negb (rowKeysDefined columns row)) ErrFormValidationFailed ≫= λ _,
                     ((fix checkColumns (cols : list FormFieldDefinition) : res unit :=
                         match cols with
                         | [] => Ok tt
                         | column :: cols' =>
                             checkCell (validateFormField column) column row ≫= λ _,
                             checkColumns cols'
                         end) columns) ≫= λ _,
                     checkRows rows'
                 | _ => formError
                 end) rows
          | _ => formError
          end
      | FieldKindOther _ => Ok tt
      end
  end.

(** ** Code sets ([code_set_validation.go]) *)

(** [codeSetChecker.check]; the per-call cache of dictionaries is transparent. *)
Definition checkCodeSet (load : string → res (gmap string string)) field (value : Value) : res bool :=
  match FormField_Kind field, FormField_CodeSet field with
  | FieldSelect, Some codeSet =>
      codes ← load codeSet;
      Ok (forallb (λ item, bool_decide (is_Some (codes !! fmtSprint item))) (selectItems value))
  | _, _ => Ok true
  end.
Fixpoint checkCodeSetRow (load : string → res (gmap string string))
    (columns : list FormFieldDefinition) (row : gmap string Value) : res unit :=
  match columns with
  | [] => Ok tt
  | column :: columns' =>
      (match row !! FormField_Key column with
       | None => Ok tt
       | Some cell =>
           if isEmptyFormValue cell then Ok tt
           else valid ← checkCodeSet load column cell; failIf (negb valid) ErrFormValidationFailed
       end) ≫= λ _,
      checkCodeSetRow load columns' row
  end.
Fixpoint checkCodeSetRows (load : string → res (gmap string string))
    (columns : list FormFieldDefinition) (rows : list Value) : res unit :=
  match rows with
  | [] => Ok tt
  | raw :: rows' =>
      checkCodeSetRow load columns (match raw with VMap row => row | _ => ∅ end) ≫= λ _,
      checkCodeSetRows load columns rows'
  end.
Fixpoint validateCodeSetFields (load : string → res (gmap string string))
    (fields : list FormFieldDefinition) (formData : gmap string Value) : res unit :=
  match fields with
  | [] => Ok tt
  | field :: fields' =>
      (match formData !! FormField_Key field with
       | None => Ok tt
       | Some value =>
           if isEmptyFormValue value then Ok tt
           else if FormField_Kind field ==? FieldTable then
             checkCodeSetRows load (FormField_Columns field)
               (match value with VList rows => rows | _ => [] end)
           else valid ← checkCodeSet load field value; failIf (negb valid) ErrFormValidationFailed
       end) ≫= λ _,
      validateCodeSetFields load fields' formData
  end.
Definition validateCodeSetValues (fields : list FormFieldDefinition) (formData : gmap string Value)
    : res unit :=
  match codeSetLoader with
  | None => Ok tt
  | Some load => validateCodeSetFields load fields formData
  end.

(** ** Whole payloads *)
Definition encodedFormDataSize (formData : option (gmap string Value)) : res Z :=
  match formData with None => Ok 0%Z | Some m => jsonSize m end.
Definition validateFormDataSize (formData : option (gmap string Value)) (maxBytes : Z) : res unit :=
  size ← encodedFormDataSize formData;
  failIf (maxBytes <? size)%Z ErrFormDataTooLarge.

Fixpoint validateFields (fields : list FormFieldDefinition) (formData : gmap string Value)
    : res unit :=
  match fields with
  | [] => Ok tt
  | field :: fields' =>
      (match formData !! FormField_Key field with
       | None => failIf (FormField_IsRequired field) ErrFormValidationFailed
       | Some value =>
           if isEmptyFormValue value then failIf (FormField_IsRequired field) ErrFormValidationFailed
           else validateFormField field value
       end) ≫= λ _,
      validateFields fields' formData
  end.
Definition ValidateFormData (fields : list FormFieldDefinition)
    (formData : option (gmap string Value)) : res unit :=
  validateFormDataSize formData formDataMaxBytes ≫= λ _,
  if (length fields =? 0)%nat then Ok tt
  else
    let data := default ∅ formData in
    failIf (negb (rowKeysDefined fields data)) ErrFormValidationFailed ≫= λ _,
    validateFields fields data ≫= λ _,
    validateCodeSetValues fields data.

(** [ValidateRequiredPermissionFields] *)
Definition ValidateRequiredPermissionFields (fields : list FormFieldDefinition)
    (permissions : gmap string Permission) (formData : option (gmap string Value)) : res unit :=
  failIf (negb (forallb (λ field,
    negb (permissions !! FormField_Key field ==? Some PermissionRequired)
    || match default ∅ formData !! FormField_Key field with
       | None => false
       | Some value => negb (isEmptyFormValue value)
       end) fields)) ErrFormValidationFailed.

(** [ValidateOpinion] *)
Definition ValidateOpinion (node : FlowNode) (opinion : string) : res unit :=
  failIf (FlowNode_IsOpinionRequired node && (TrimSpace opinion ==? "")) ErrOpinionRequired.

(** ** Edits of an approver *)

(** [FilterEditableFormData] *)
Definition isEditable (permissions : gmap string Permission) (k : string) : bool :=
  match permissions !! k with
  | Some PermissionEditable | Some PermissionRequired => true
  | _ => false
  end.
Definition FilterEditableFormData (formData : option (gmap string Value))
    (permissions : gmap string Permission) : gmap string Value :=
  filter (λ kv, isEditable permissions kv.1 = true) (default ∅ formData).

(** [MergeFormData]: the instance's form data afterwards. *)
Definition MergeFormData (instance : Instance) (formData : option (gmap string Value))
    (permissions : gmap string Permission) : Instance :=
  let editableData := FilterEditableFormData formData permissions in
  if bool_decide (editableData = ∅) then instance
  else set_Instance_FormData
         (Some (editableData ∪ default ∅ (Instance_FormData instance))) instance.

(** [validateEditableFormData] *)
Definition validateEditableFormData (fields : list FormFieldDefinition)
    (formData : option (gmap string Value)) (permissions : gmap string Permission) : res unit :=
  foldr (λ kv acc,
    (match List.find (λ f, FormField_Key f ==? kv.1) (reverse fields) with
     | None => formError
     | Some field => if isEmptyFormValue kv.2 then Ok tt else validateFormField field kv.2
     end) ≫= λ _, acc) (Ok tt) (map_to_list (FilterEditableFormData formData permissions)).
End form.

(** ** What the checks accept *)
Section acceptance.
Context `{!Host}.
Implicit Types (field column : FormFieldDefinition) (row data : gmap string Value).

(** The optional bounds of a rule. *)
Definition atLeast (o : option Z) (n : Z) : Prop := ∀ m, o = Some m → (m ≤ n)%Z.
Definition atMost (o : option Z) (n : Z) : Prop := ∀ m, o = Some m → (n ≤ m)%Z.
Definition ruleOf {A} (proj : ValidationRule → option A) field : option A :=
  FormField_Validation field ≫= proj.
Definition patternOf field : string :=
  match FormField_Validation field with Some v => ValidationRule_Pattern v | None => "" end.

Definition textAccepted field (text : string) : Prop :=
  atLeast (ruleOf ValidationRule_MinLength field) (RuneCountInString text) ∧
  atMost (ruleOf ValidationRule_MaxLength field) (RuneCountInString text) ∧
  (patternOf field = "" ∨ regexpMatchString (patternOf field) text = Some true).
Definition numberAccepted field (x : float64) : Prop :=
  (FormField_ColumnType field = ColumnInteger → isIntegral x = true) ∧
  (∀ m, ruleOf ValidationRule_Min field = Some m → SFltb x m = false) ∧
  (∀ m, ruleOf ValidationRule_Max field = Some m → SFltb m x = false).
Definition fileName (v : Value) : Prop := ∃ text, v = VString text ∧ TrimSpace text ≠ "".
Definition uploadAccepted (v : Value) : Prop :=
  fileName v ∨ (∃ l, v = VStrings l ∧ l ≠ []) ∨ (∃ l, v = VList l ∧ l ≠ [] ∧ Forall fileName l).
Definition selectAccepted field (v : Value) : Prop :=
  FormField_Options field = [] ∨
  ∀ item, item ∈ selectItems v →
    ∃ o, o ∈ FormField_Options field ∧ fmtSprint item = fmtSprint (FieldOption_Value o).
Definition declared (fields : list FormFieldDefinition) data : Prop :=
  ∀ k, is_Some (data !! k) → ∃ f, f ∈ fields ∧ FormField_Key f = k.

(** A required field is filled; a filled field satisfies [ok]. *)
Definition filled (ok : Value → Prop) field data : Prop :=
  (FormField_IsRequired field = true →
     ∃ v, data !! FormField_Key field = Some v ∧ isEmptyFormValue v = false) ∧
  (∀ v, data !! FormField_Key field = Some v → isEmptyFormValue v = false → ok v).

(** The declarative reading of the field kinds. *)
Inductive accepts : FormFieldDefinition → Value → Prop :=
  | accepts_text field text :
      FormField_Kind field ∈ [FieldInput; FieldTextarea; FieldDate] →
      textAccepted field text → accepts field (VString text)
  | accepts_number field x :
      FormField_Kind field = FieldNumber → numberAccepted field x → accepts field (VNumber x)
  | accepts_upload field v :
      FormField_Kind field = FieldUpload → uploadAccepted v → accepts field v
  | accepts_select field v :
      FormField_Kind field = FieldSelect → selectAccepted field v → accepts field v
  | accepts_table field rows :
      FormField_Kind field = FieldTable →
      atLeast (ruleOf ValidationRule_MinLength field) (Z.of_nat (length rows)) →
      atMost (ruleOf ValidationRule_MaxLength field) (Z.of_nat (length rows)) →
      (∀ raw, raw ∈ rows → ∃ row, raw = VMap row ∧ declared (FormField_Columns field) row ∧
         ∀ column, column ∈ FormField_Columns field → filled (accepts column) column row) →
      accepts field (VList rows)
  | accepts_unknown field kind v :
      FormField_Kind field = FieldKindOther kind → accepts field v.

Lemma below_min o n : (match o with Some m => (n <? m)%Z | None => false end) = false ↔ atLeast o n.
Proof. unfold atLeast. destruct o; [rewrite Z.ltb_ge|]; naive_solver. Qed.
Lemma above_max o n : (match o with Some m => (m <? n)%Z | None => false end) = false ↔ atMost o n.
Proof. unfold atMost. destruct o; [rewrite Z.ltb_ge|]; naive_solver. Qed.
Lemma rowKeysDefined_true fields data : rowKeysDefined fields data = true ↔ declared fields data.
Proof.
  unfold rowKeysDefined, declared. rewrite forallb_forall. split.
  - intros Ha k [v Hk]. specialize (Ha (k, v)). cbn in Ha. rewrite bool_decide_eq_true in Ha.
    apply elem_of_map_to_list, list_elem_of_In, Ha, list_elem_of_fmap in Hk as (f & -> & ?). eauto.
  - intros Ha [k v] Hk%list_elem_of_In%elem_of_map_to_list. cbn. apply bool_decide_eq_true.
    destruct (Ha k) as (f & ? & <-); [by eexists|]. by apply list_elem_of_fmap_2.
Qed.

Lemma validateStringRule_Ok field text : validateStringRule field text = Ok tt ↔ textAccepted field text.
Proof.
  unfold validateStringRule, textAccepted, ruleOf, patternOf.
  destruct (FormField_Validation field) as [v|]; cbn.
  - rewrite !result_seq_Ok, !failIf_Ok, below_min, above_max. repeat (apply and_iff_compat_l).
    case_bool_decide; [naive_solver|].
    destruct (regexpMatchString _ _) as [[]|]; rewrite ?failIf_Ok; naive_solver.
  - unfold atLeast, atMost. naive_solver.
Qed.
Lemma validateNumberRule_Ok field x : validateNumberRule field x = Ok tt ↔ numberAccepted field x.
Proof.
  unfold validateNumberRule, numberAccepted, ruleOf. rewrite result_seq_Ok, failIf_Ok, andb_false_iff,
    negb_false_iff, bool_decide_eq_false.
  assert ((FormField_ColumnType field ≠ ColumnInteger ∨ isIntegral x = true) ↔
          (FormField_ColumnType field = ColumnInteger → isIntegral x = true)) as ->.
  { destruct (decide (FormField_ColumnType field = ColumnInteger)); tauto. }
  apply and_iff_compat_l. destruct (FormField_Validation field) as [v|]; cbn; [|naive_solver].
  rewrite result_seq_Ok, !failIf_Ok. destruct (ValidationRule_Min v), (ValidationRule_Max v); naive_solver.
Qed.
Lemma validateUploadField_Ok v : validateUploadField v = Ok tt ↔ uploadAccepted v.
Proof.
  unfold uploadAccepted, fileName. destruct v; cbn; try naive_solver.
  - rewrite failIf_Ok, bool_decide_eq_false. naive_solver.
  - rewrite failIf_Ok, Nat.eqb_neq, length_zero_iff_nil. naive_solver.
  - rewrite result_seq_Ok, !failIf_Ok, Nat.eqb_neq, length_zero_iff_nil, negb_false_iff, forallb_forall.
    setoid_rewrite <-list_elem_of_In. rewrite <-Forall_forall.
    assert (∀ l', Forall (λ item, match item with VString text => negb (TrimSpace text ==? "")
              | _ => false end = true) l' ↔ Forall fileName l') as Ha; [|rewrite Ha; naive_solver].
    intros l'. apply Forall_iff. intros []; unfold fileName; rewrite ?negb_true_iff, ?bool_decide_eq_false;
      naive_solver.
Qed.
Lemma validateSelectField_Ok field v : validateSelectField field v = Ok tt ↔ selectAccepted field v.
Proof.
  unfold validateSelectField, selectAccepted. rewrite failIf_Ok, negb_false_iff, forallb_forall.
  generalize (FormField_Options field). intros os. split.
  - intros Ha. destruct os as [|o os]; [by left|]. right. intros item Hi%list_elem_of_In%Ha.
    cbn [length Nat.eqb map orb] in Hi. apply bool_decide_eq_true in Hi.
    change (fmtSprint item ∈ (λ o, fmtSprint (FieldOption_Value o)) <$> o :: os) in Hi.
    apply list_elem_of_fmap in Hi as (o' & ? & ?). by exists o'.
  - intros [->|Ha] item Hi; [done|]. apply orb_true_iff. right. apply bool_decide_eq_true.
    apply list_elem_of_In, Ha in Hi as (o & Ho & ->).
    by apply (list_elem_of_fmap_2 (λ o, fmtSprint (FieldOption_Value o))).
Qed.

(** The loops of the table check. *)
Definition checkColumns row (columns : list FormFieldDefinition) : res unit :=
  foldr (λ column acc, checkCell (validateFormField column) column row ≫= λ _, acc) (Ok tt) columns.
Definition checkRow (columns : list FormFieldDefinition) (raw : Value) : res unit :=
  match raw with
  | VMap row => failIf (negb (rowKeysDefined columns row)) ErrFormValidationFailed ≫= λ _,
                checkColumns row columns
  | _ => formError
  end.
Lemma validateFormField_table field rows :
  FormField_Kind field = FieldTable →
  validateFormField field (VList rows) = Ok tt ↔
  atLeast (ruleOf ValidationRule_MinLength field) (Z.of_nat (length rows)) ∧
  atMost (ruleOf ValidationRule_MaxLength field) (Z.of_nat (length rows)) ∧
  ∀ raw, raw ∈ rows → checkRow (FormField_Columns field) raw = Ok tt.
Proof.
  destruct field as [key kind label req opts cs validation ct scale columns]. intros Hk.
  cbn [FormField_Kind] in Hk. subst kind. cbn [validateFormField]. unfold ruleOf. cbn [FormField_Validation FormField_Columns].
  rewrite !result_seq_Ok, !failIf_Ok, below_min, above_max. do 2 apply and_iff_compat_l.
  assert (∀ row cols, (fix checkColumns (cols : list FormFieldDefinition) : res unit :=
    match cols with
    | [] => Ok tt
    | column :: cols' => checkCell (validateFormField column) column row ≫= λ _, checkColumns cols'
    end) cols = checkColumns row cols) as Hcols.
  { intros row cols. induction cols as [|c cols IH]; [done|]. by rewrite IH. }
  induction rows as [|raw rows IH]; [split; [set_solver|done]|].
  destruct raw as [| | | | | |row]; try (split; [done|]; intros Ha; exact (Ha _ (list_elem_of_here _ _))).
  rewrite Hcols, !result_seq_Ok, IH. setoid_rewrite elem_of_cons. cbn [checkRow].
  split; [intros (? & ? & ?) raw [->|?]; [|auto]; cbn; by rewrite result_seq_Ok|].
  intros Ha. split; [|split]; [| |auto]; specialize (Ha (VMap row) (or_introl eq_refl));
    cbn in Ha; by rewrite result_seq_Ok in Ha; destruct Ha.
Qed.

Lemma checkCell_Ok (validate : Value → res unit) (ok : Value → Prop) field data :
  (∀ v, validate v = Ok tt ↔ ok v) →
  checkCell validate field data = Ok tt ↔ filled ok field data.
Proof.
  intros Ha. unfold checkCell, filled.
  destruct (data !! FormField_Key field) as [v|]; [destruct (isEmptyFormValue v) eqn:He|].
  - rewrite failIf_Ok. destruct (FormField_IsRequired field); [|naive_solver congruence].
    split; [done|]. intros [Hreq _]. destruct (Hreq eq_refl) as (w & [= <-] & ?). congruence.
  - assert ((match validate v with Ok _ => Ok tt | Err _ => formError end) = Ok tt ↔ ok v) as ->.
    { rewrite <-Ha. by destruct (validate v) as [[]|]. }
    split; [|naive_solver]. intros Hv. split; [by exists v|]. by intros ? [= <-].
  - rewrite failIf_Ok. destruct (FormField_IsRequired field); [|naive_solver].
    split; [done|]. intros [Hreq _]. by destruct (Hreq eq_refl) as (w & ? & _).
Qed.
Lemma foldr_seq_Ok {A} (f : A → res unit) (l : list A) :
  foldr (λ x acc, f x ≫= λ _, acc) (Ok tt) l = Ok tt ↔ ∀ x, x ∈ l → f x = Ok tt.
Proof.
  induction l as [|x l IH]; cbn [foldr]; [set_solver|].
  rewrite result_seq_Ok, IH. setoid_rewrite elem_of_cons. naive_solver.
Qed.

(** Induction on fields through the columns of tables. *)
Lemma FormField_nested_ind (P : FormFieldDefinition → Prop) :
  (∀ field, (∀ column, column ∈ FormField_Columns field → P column) → P field) → ∀ field, P field.
Proof.
  intros Hstep. fix go 1. intros [key kind label req opts cs validation ct scale columns].
  apply Hstep. cbn. apply Forall_forall.
  induction columns as [|c columns IH]; constructor; [apply go|exact IH].
Qed.

Lemma validateFormField_Ok field : ∀ v, validateFormField field v = Ok tt ↔ accepts field v.
Proof.
  induction field as [field IH] using FormField_nested_ind. intros v.
  destruct (decide (FormField_Kind field = FieldTable)) as [Hk|Hk].
  - assert (∀ raw, checkRow (FormField_Columns field) raw = Ok tt ↔
      ∃ row, raw = VMap row ∧ declared (FormField_Columns field) row ∧
        ∀ column, column ∈ FormField_Columns field → filled (accepts column) column row) as Hrow.
    { intros raw. destruct raw; try (split; [done|by intros (? & ? & _)]). cbn [checkRow].
      rewrite result_seq_Ok, failIf_Ok, negb_false_iff, rowKeysDefined_true.
      unfold checkColumns. rewrite foldr_seq_Ok. split.
      - intros [Hd Hc]. eexists. split; [done|]. split; [done|].
        intros column Hin. eapply checkCell_Ok; [by apply IH|]. by apply Hc.
      - intros (row & [= ->] & Hd & Hc). split; [done|].
        intros column Hin. eapply checkCell_Ok; [by apply IH|]. by apply Hc. }
    split.
    + intros Hv. destruct v; try (by destruct field; cbn in *; subst).
      rewrite validateFormField_table in Hv by done. destruct Hv as (? & ? & Hv).
      constructor; [done..|]. intros raw Hin. by apply Hrow, Hv.
    + inversion 1; subst; rewrite ?Hk in *; try set_solver.
      rewrite validateFormField_table by done. split; [done|]. split; [done|].
      intros raw Hin. apply Hrow. auto.
  - split.
    + intros Hv. destruct field as [key kind label req opts cs validation ct scale columns]. cbn in Hk.
      destruct kind; cbn in Hv; try done.
      * destruct v; try done. apply accepts_text; [set_solver|by apply validateStringRule_Ok].
      * destruct v; try done. apply accepts_text; [set_solver|by apply validateStringRule_Ok].
      * apply accepts_select; [done|by apply validateSelectField_Ok].
      * destruct v; try done. apply accepts_number; [done|by apply validateNumberRule_Ok].
      * destruct v; try done. apply accepts_text; [set_solver|by apply validateStringRule_Ok].
      * apply accepts_upload; [done|by apply validateUploadField_Ok].
      * by eapply accepts_unknown.
    + destruct 1 as [field text Hkind Ha|field x Hkind Ha|field v Hkind Ha|field v Hkind Ha|field rows Hkind|field kind v Hkind];
        [| | | |done|]; destruct field; cbn in *; try subst; try done;
        [|by apply validateNumberRule_Ok|by apply validateUploadField_Ok|by apply validateSelectField_Ok].
      rewrite !elem_of_cons in Hkind.
      destruct Hkind as [->|[->|[->|Hkind]]]; [by apply validateStringRule_Ok..|by apply elem_of_nil in Hkind].
Qed.

Lemma validateFields_Ok fields data :
  validateFields fields data = Ok tt ↔
  ∀ field, field ∈ fields → filled (accepts field) field data.
Proof.
  induction fields as [|field fields IH]; cbn [validateFields]; [set_solver|].
  rewrite result_seq_Ok, IH. setoid_rewrite elem_of_cons.
  assert ((match data !! FormField_Key field with
           | None => failIf (FormField_IsRequired field) ErrFormValidationFailed
           | Some value => if isEmptyFormValue value
               then failIf (FormField_IsRequired field) ErrFormValidationFailed
               else validateFormField field value
           end) = Ok tt ↔ filled (accepts field) field data) as ->; [|naive_solver].
  rewrite <-(checkCell_Ok (validateFormField field)) by apply validateFormField_Ok.
  unfold checkCell. destruct (data !! FormField_Key field) as [v|]; [|done].
  destruct (isEmptyFormValue v); [done|]. by destruct (validateFormField field v) as [[]|].
Qed.
End acceptance.


(** An approver's edits reach only what the node lets them reach: after
    [MergeFormData] a field holds the submitted value exactly when the node marks
    it editable or required and the approver submitted it; every other field, and
    every other column of the instance, is what it was. *)
Theorem MergeFormData_only_editable instance formData permissions :
  (∀ k, default ∅ (Instance_FormData (MergeFormData instance formData permissions)) !! k =
        match default ∅ formData !! k with
        | Some v => if isEditable permissions k then Some v
                    else default ∅ (Instance_FormData instance) !! k
        | None => default ∅ (Instance_FormData instance) !! k
        end) ∧
  ∃ d, MergeFormData instance formData permissions = set_Instance_FormData d instance.
Proof.
  unfold MergeFormData. set (e := FilterEditableFormData formData permissions).
  assert (∀ k, e !! k = match default ∅ formData !! k with
    | Some v => if isEditable permissions k then Some v else None | None => None end) as He.
  { intros k. unfold e, FilterEditableFormData. rewrite map_lookup_filter.
    destruct (default ∅ formData !! k); cbn; [|done].
    case_guard as Hg; cbn in Hg; destruct (isEditable permissions k); naive_solver. }
  case_bool_decide as Hempty.
  - split; [|exists (Instance_FormData instance); by destruct instance].
    intros k. specialize (He k). rewrite Hempty, lookup_empty in He. by repeat case_match.
  - split; [|by eexists]. intros k. destruct instance; cbn. rewrite lookup_union, He.
    destruct (default ∅ formData !! k); [destruct (isEditable permissions k)|]; cbn;
      by destruct (_ !! k).
Qed.
