(* ===== verification/Conditions.v ===== *)
(** * Branch conditions

    [strategy/condition.go] and [strategy/aggregator.go]: the evaluator of
    structured field conditions (subjects, operators, detail-table aggregates)
    and the evaluator of expression conditions over the expression engine.

    Each operator is shown to mean what its name says, negated operators to be
    the exact complement of their positive form (errors included). *)
From S2P Require Import Prelude Enums StateMachine Models Demo Store Shared.

(** ** Library functions on strings *)

(** [strings.HasSuffix], [strings.Contains]; [strings.HasPrefix] is [String.prefix]. *)
Definition HasPrefix (s p : string) : bool := String.prefix p s.
Fixpoint HasSuffix (s p : string) : bool :=
  (s ==? p) || match s with String _ s' => HasSuffix s' p | EmptyString => false end.
Fixpoint strContains (s p : string) : bool :=
  String.prefix p s || match s with String _ s' => strContains s' p | EmptyString => false end.

(** ** Aggregators ([aggregator.go]) *)
Definition FoldsColumn (a : AggregateKind) : bool := negb (a ==? AggregateCount).

Definition SumAggregator_Fold (values : list float64) (rowCount : nat) : float64 * bool :=
  (foldl fadd (float64_of_Z 0) values, true).
Definition CountAggregator_Fold (values : list float64) (rowCount : nat) : float64 * bool :=
  (float64_of_Z (Z.of_nat rowCount), true).
Definition AvgAggregator_Fold (values : list float64) (rowCount : nat) : float64 * bool :=
  if (length values =? 0)%nat then (float64_of_Z 0, false)
  else (fdiv (foldl fadd (float64_of_Z 0) values) (float64_of_Z (Z.of_nat (length values))), true).

Definition subjectApplicantID : string := "applicantId".
Definition subjectApplicantDepartmentID : string := "applicantDepartmentId".

Section conditions.
Context `{!Host}.
Implicit Types (ec : EvaluationContext) (cond : Condition) (subject expected : Value).

(** ** Values *)
Definition toAnySlice (value : Value) : res (list Value) :=
  match value with
  | VList l => Ok l
  | VStrings l => Ok (map VString l)
  | _ => Err ErrIncomparableValues
  end.
(** [a == nil] *)
Definition isNil (v : Value) : bool := match v with VNil => true | _ => false end.

Definition valuesEqual (a b : Value) : bool :=
  match ToFloat64 a, ToFloat64 b with
  | Some x, Some y => SFeqb x y
  | _, _ => if isNil a || isNil b then isNil a && isNil b
            else fmtSprint a ==? fmtSprint b
  end.

Definition orderedResult (operator : ConditionOperator) (greater equal : bool) : bool :=
  match operator with
  | OperatorGreater => greater
  | OperatorGreaterOrEq => greater || equal
  | OperatorLess => negb greater && negb equal
  | OperatorLessOrEq => negb greater
  | _ => false
  end.
Definition compareOrdered (operator : ConditionOperator) subject expected : res bool :=
  match ToFloat64 subject with
  | Some x =>
      match ToFloat64 expected with
      | None => Err ErrIncomparableValues
      | Some y => Ok (orderedResult operator (SFltb y x) (SFeqb x y))
      end
  | None =>
      match subject, expected with
      | VString a, VString b => Ok (orderedResult operator (String.ltb b a) (a ==? b))
      | _, _ => Err ErrIncomparableValues
      end
  end.

Definition valueInList subject expected : res bool :=
  list ← toAnySlice expected;
  Ok (existsb (valuesEqual subject) list).

Definition subjectContains subject expected : res bool :=
  match subject with
  | VNil => Ok false
  | VString text =>
      match expected with
      | VString p => Ok (strContains text p)
      | _ => Err ErrIncomparableValues
      end
  | _ =>
      list ← toAnySlice subject;
      Ok (existsb (λ item, valuesEqual item expected) list)
  end.

Definition compareStringPair subject expected (predicate : string → string → bool) : res bool :=
  match subject, expected with
  | VString a, VString b => Ok (predicate a b)
  | _, _ => Err ErrIncomparableValues
  end.

Definition isEmptyValue (value : Value) : bool :=
  match value with
  | VNil => true
  | VString s => TrimSpace s ==? ""
  | VList l => (length l =? 0)%nat
  | VStrings l => (length l =? 0)%nat
  | VMap m => bool_decide (m = ∅)
  | _ => false
  end.

Definition compareCondition (operator : ConditionOperator) subject expected : res bool :=
  match operator with
  | OperatorEquals => Ok (valuesEqual subject expected)
  | OperatorNotEquals => Ok (negb (valuesEqual subject expected))
  | OperatorGreater | OperatorGreaterOrEq | OperatorLess | OperatorLessOrEq =>
      compareOrdered operator subject expected
  | OperatorIn => valueInList subject expected
  | OperatorNotIn => contains ← valueInList subject expected; Ok (negb contains)
  | OperatorContains => subjectContains subject expected
  | OperatorNotContains => contains ← subjectContains subject expected; Ok (negb contains)
  | OperatorStartsWith => compareStringPair subject expected HasPrefix
  | OperatorEndsWith => compareStringPair subject expected HasSuffix
  | OperatorIsEmpty => Ok (isEmptyValue subject)
  | OperatorIsNotEmpty => Ok (negb (isEmptyValue subject))
  | ConditionOperatorOther _ => Err ErrUnsupportedOperator
  end.

(** ** Detail tables *)
Fixpoint asRows (items : list Value) : res (list (gmap string Value)) :=
  match items with
  | [] => Ok []
  | VMap row :: rest => rows ← asRows rest; Ok (row :: rows)
  | _ :: _ => Err ErrIncomparableValues
  end.
Definition tableRows (value : Value) : res (list (gmap string Value)) :=
  if isNil value then Ok [] else list ← toAnySlice value; asRows list.

Fixpoint extractNumericColumn (rows : list (gmap string Value)) (column : string)
    : res (list float64) :=
  match rows with
  | [] => Ok []
  | row :: rest =>
      match row !! column with
      | None | Some VNil => extractNumericColumn rest column
      | Some cell =>
          match ToFloat64 cell with
          | None => Err ErrIncomparableValues
          | Some number => values ← extractNumericColumn rest column; Ok (number :: values)
          end
      end
  end.

(** The aggregators indexed by kind. *)
Definition aggregator (kind : AggregateKind) : option (list float64 → nat → float64 * bool) :=
  match kind with
  | AggregateNone => None
  | AggregateSum => Some SumAggregator_Fold
  | AggregateCount => Some CountAggregator_Fold
  | AggregateAvg => Some AvgAggregator_Fold
  | AggregateOther k => hostAggregators k
  end.

(** [FormData.Get]: an absent key reads as nil. *)
Definition formGet ec (key : string) : Value := default VNil (EvaluationContext_FormData ec !! key).

Definition evaluateAggregate cond ec : res bool :=
  match aggregator (Condition_Aggregate cond) with
  | None => Err ErrAggregatorNotFound
  | Some fold =>
      rows ← tableRows (formGet ec (Condition_Subject cond));
      values ← (if FoldsColumn (Condition_Aggregate cond)
                then extractNumericColumn rows (Condition_Column cond) else Ok []);
      let '(result, matchable) := fold values (length rows) in
      if matchable : bool
      then compareCondition (Condition_Operator cond) (VNumber result) (Condition_Value cond)
      else Ok false
  end.

Definition resolveSubjectValue (subject : string) ec : Value :=
  if subject ==? subjectApplicantID then VString (EvaluationContext_ApplicantID ec)
  else if subject ==? subjectApplicantDepartmentID then
    match EvaluationContext_ApplicantDepartmentID ec with Some d => VString d | None => VNil end
  else match default ∅ (EvaluationContext_Globals ec) !! subject with
       | Some value => value
       | None => formGet ec subject
       end.

(** ** The evaluators *)
Definition FieldConditionEvaluator_Evaluate cond ec : res bool :=
  if negb (Condition_Aggregate cond ==? AggregateNone) then evaluateAggregate cond ec
  else compareCondition (Condition_Operator cond)
         (resolveSubjectValue (Condition_Subject cond) ec) (Condition_Value cond).

(** The environment: built-ins win over globals of the same name. *)
Definition expressionEnv ec : gmap string Value :=
  <["applicantDepartmentId" := VString (default "" (EvaluationContext_ApplicantDepartmentID ec))]>
  (<["applicantId" := VString (EvaluationContext_ApplicantID ec)]>
  (<["formData" := VMap (EvaluationContext_FormData ec)]>
   (default ∅ (EvaluationContext_Globals ec)))).
Definition ExpressionConditionEvaluator_Evaluate cond ec : res bool :=
  value ← evaluateExpression (Condition_Expression cond) (expressionEnv ec);
  match value with
  | VBool b => Ok b
  | _ => Err ErrExpressionReturnedNonBool
  end.

(** [GetConditionEvaluator] over the registered evaluators. *)
Definition conditionEvaluators (kind : ConditionKind)
    : option (Condition → EvaluationContext → res bool) :=
  match kind with
  | ConditionField => Some FieldConditionEvaluator_Evaluate
  | ConditionExpression => Some ExpressionConditionEvaluator_Evaluate
  | ConditionKindOther _ => None
  end.
End conditions.

(** The operators come in exact complements: whenever an operator answers, its
    counterpart answers the opposite, and whenever it fails, its counterpart fails
    with the same error.  In particular no pair of values satisfies both an
    operator and its counterpart, or neither. *)
Theorem operators_are_complementary `{!Host} subject expected :
  compareCondition OperatorNotEquals subject expected
    = negb <$> compareCondition OperatorEquals subject expected ∧
  compareCondition OperatorNotIn subject expected
    = negb <$> compareCondition OperatorIn subject expected ∧
  compareCondition OperatorNotContains subject expected
    = negb <$> compareCondition OperatorContains subject expected ∧
  compareCondition OperatorIsNotEmpty subject expected
    = negb <$> compareCondition OperatorIsEmpty subject expected ∧
  compareCondition OperatorLessOrEq subject expected
    = negb <$> compareCondition OperatorGreater subject expected ∧
  compareCondition OperatorLess subject expected
    = negb <$> compareCondition OperatorGreaterOrEq subject expected.
Proof.
  repeat split; cbn [compareCondition]; try done.
  - unfold compareOrdered. destruct (ToFloat64 subject); [by destruct (ToFloat64 expected)|].
    by destruct subject, expected.
  - unfold compareOrdered. destruct (ToFloat64 subject).
    + destruct (ToFloat64 expected); [|done]. cbn. by rewrite negb_orb.
    + destruct subject, expected; try done. cbn. by rewrite negb_orb.
Qed.

Section aggregates.
Context `{!Host}.

Lemma asRows_map rows : asRows (map VMap rows) = Ok rows.
Proof. induction rows as [|row rows IH]; cbn; [done|]. by rewrite IH. Qed.
Lemma tableRows_rows rows : tableRows (VList (map VMap rows)) = Ok rows.
Proof. cbn. apply asRows_map. Qed.
(** Absent and nil cells are skipped, as SQL skips NULLs. *)
Lemma extractNumericColumn_skips rows column :
  (∀ row, row ∈ rows → row !! column = None ∨ row !! column = Some VNil) →
  extractNumericColumn rows column = Ok [].
Proof.
  induction rows as [|row rows IH]; cbn; intros Ha; [done|].
  destruct (Ha row) as [->| ->]; [set_solver|apply IH; set_solver..].
Qed.
End aggregates.

(** Aggregates over a detail table follow the SQL conventions: when no row has
    a value in the column (in particular for an absent or empty table), the sum
    compares as zero, the average matches no comparison whatever the operator,
    and the count compares as the number of rows, cells or no cells. *)
Theorem aggregates_without_values `{!Host} cond ec rows :
  formGet ec (Condition_Subject cond) = VList (map VMap rows) ∨
    (formGet ec (Condition_Subject cond) = VNil ∧ rows = []) →
  (∀ row, row ∈ rows → row !! Condition_Column cond = None ∨ row !! Condition_Column cond = Some VNil) →
  let compare x := compareCondition (Condition_Operator cond) (VNumber x) (Condition_Value cond) in
  evaluateAggregate cond ec =
    match Condition_Aggregate cond with
    | AggregateNone => Err ErrAggregatorNotFound
    | AggregateSum => compare (float64_of_Z 0)
    | AggregateCount => compare (float64_of_Z (Z.of_nat (length rows)))
    | AggregateAvg => Ok false
    | AggregateOther k =>
        match hostAggregators k with
        | None => Err ErrAggregatorNotFound
        | Some fold => let '(x, matchable) := fold [] (length rows) in
                       if matchable : bool then compare x else Ok false
        end
    end.
Proof.
  intros Ht Hskip compare.
  assert (tableRows (formGet ec (Condition_Subject cond)) = Ok rows) as Hrows.
  { destruct Ht as [->|[-> ->]]; [apply tableRows_rows|done]. }
  pose proof (extractNumericColumn_skips _ _ Hskip) as Hcol. unfold evaluateAggregate, FoldsColumn.
  destruct (Condition_Aggregate cond); cbn [aggregator]; try done;
    [| | |destruct (hostAggregators s); [|done]]; rewrite Hrows; cbn; by rewrite ?Hcol.
Qed.
Definition demoSumCondition (a : AggregateKind) : Condition :=
  Build_Condition ConditionField "items" a "price" OperatorGreater (VNumber (float64_of_Z 10)) "".
Lemma aggregates_without_values_witness :
  @evaluateAggregate demoHost (demoSumCondition AggregateAvg)
    (Build_EvaluationContext {["items" := VList [VMap ∅]]} "alice" None None) = Ok false.
Proof.
  refine (@aggregates_without_values demoHost (demoSumCondition AggregateAvg)
    (Build_EvaluationContext {["items" := VList [VMap ∅]]} "alice" None None) [∅] _ _).
  - left. reflexivity.
  - intros row ->%list_elem_of_singleton. by left.
Defined.
