(* ===== verification/Delegation.v ===== *)
(** * Assignee resolution and delegation

    [internal/approval/engine/helpers.go]: [deduplicateAssignees],
    [matchDelegation], [resolveDelegationChain], [applyDelegation], and the
    resolvers of [internal/approval/strategy/assignee.go] and [strategy/cc.go]
    behind them.  A delegation chain is shown to be a path of matching
    delegations that visits nobody twice and takes at most ten steps; the
    resolved seats of a node never name one person twice. *)
From S2P Require Import Prelude Enums StateMachine Models Demo Store Shared.

(** ** Built-in assignee and CC resolvers *)

Section resolvers.
Context `{!Host}.

(** [FormFieldIDs] of [approval/form_data.go]. *)
Definition FormFieldIDs (formData : gmap string Value) (field : option string) : res (list string) :=
  match field with
  | None => Err ErrFormFieldNameEmpty
  | Some f =>
      if TrimSpace f ==? "" then Err ErrFormFieldNameEmpty
      else
        let clean (raw : list string) :=
          List.filter (λ id, negb (id ==? "")) (map TrimSpace raw) in
        match formData !! TrimSpace f with
        | None | Some VNil => Ok []
        | Some (VString v) => Ok (clean [v])
        | Some (VStrings v) => Ok (clean v)
        | Some (VList v) => Ok (clean (map castToString v))
        | Some _ => Err ErrUnsupportedFieldValueType
        end
  end.

(** [FlatMapErr] collected: the first error stops the traversal. *)
Fixpoint flatMapErr {A B} (f : A → res (list B)) (l : list A) : res (list B) :=
  match l with
  | [] => Ok []
  | x :: l' => ys ← f x; zs ← flatMapErr f l'; Ok (ys ++ zs)
  end.

Definition userInfoToResolvedAssignee (info : UserInfo) : ResolvedAssignee :=
  Build_ResolvedAssignee info None.

(** [normalizeIDs] *)
Definition normalizeIDs (raw : list string) : list string :=
  List.filter (λ id, negb (id ==? "")) (map TrimSpace raw).

(** [resolveAssigneesByIDs] *)
Definition resolveAssigneesByIDs (ids : list string) : res (list ResolvedAssignee) :=
  infos ← ResolveUserInfoMap ids;
  Ok (map (λ userID, userInfoToResolvedAssignee (infoWithID infos userID)) ids).

Definition rcApplicant (rc : RuleResolveContext) : UserInfo :=
  Applicant (NodeResolveContext_Instance (RuleResolveContext_base rc)).

(** *** The [Resolve] methods of the built-in resolvers *)
Definition UserAssigneeResolver_Resolve (rc : RuleResolveContext) : res (list ResolvedAssignee) :=
  let ids := normalizeIDs (RuleResolveContext_IDs rc) in
  if (length ids =? 0)%nat then Ok [] else resolveAssigneesByIDs ids.

Definition RoleAssigneeResolver_Resolve (rc : RuleResolveContext) : res (list ResolvedAssignee) :=
  match assigneeService with
  | None => Err ErrAssigneeServiceNil
  | Some svc => flatMapErr (λ roleID,
      users ← GetRoleUsers svc roleID; Ok (map userInfoToResolvedAssignee users))
      (RuleResolveContext_IDs rc)
  end.

Definition DepartmentAssigneeResolver_Resolve (rc : RuleResolveContext)
    : res (list ResolvedAssignee) :=
  match assigneeService with
  | None => Err ErrAssigneeServiceNil
  | Some svc => flatMapErr (λ departmentID,
      leaders ← GetDepartmentLeaders svc departmentID;
      Ok (map userInfoToResolvedAssignee leaders)) (RuleResolveContext_IDs rc)
  end.

Definition SelfAssigneeResolver_Resolve (rc : RuleResolveContext) : res (list ResolvedAssignee) :=
  let applicant := rcApplicant rc in
  if UserInfo_ID applicant ==? "" then Err ErrApplicantIDEmpty
  else Ok [userInfoToResolvedAssignee applicant].

Definition SuperiorAssigneeResolver_Resolve (rc : RuleResolveContext)
    : res (list ResolvedAssignee) :=
  match assigneeService with
  | None => Err ErrAssigneeServiceNil
  | Some svc =>
      info ← GetSuperior svc (UserInfo_ID (rcApplicant rc));
      match info with
      | None => Ok []
      | Some info => if UserInfo_ID info ==? "" then Ok []
                     else Ok [userInfoToResolvedAssignee info]
      end
  end.

Definition DepartmentLeaderAssigneeResolver_Resolve (rc : RuleResolveContext)
    : res (list ResolvedAssignee) :=
  match assigneeService with
  | None => Err ErrAssigneeServiceNil
  | Some svc =>
      match UserInfo_DepartmentID (rcApplicant rc) with
      | None => Ok []
      | Some d => if d ==? "" then Ok []
                  else leaders ← GetDepartmentLeaders svc d;
                       Ok (map userInfoToResolvedAssignee leaders)
      end
  end.

Definition FormFieldAssigneeResolver_Resolve (rc : RuleResolveContext)
    : res (list ResolvedAssignee) :=
  ids ← FormFieldIDs (NodeResolveContext_FormData (RuleResolveContext_base rc))
          (RuleResolveContext_FormField rc);
  if (length ids =? 0)%nat then Ok []
  else
    assignees ← resolveAssigneesByIDs ids;
    if existsb (λ a, TrimSpace (UserInfo_Name (ResolvedAssignee_User a)) ==? "") assignees
    then Err ErrAssigneeResolveFailed
    else Ok assignees.

Definition builtinAssigneeResolver (kind : string)
    : option (RuleResolveContext → res (list ResolvedAssignee)) :=
  if kind ==? AssigneeUser then Some UserAssigneeResolver_Resolve
  else if kind ==? AssigneeRole then Some RoleAssigneeResolver_Resolve
  else if kind ==? AssigneeDepartment then Some DepartmentAssigneeResolver_Resolve
  else if kind ==? AssigneeSelf then Some SelfAssigneeResolver_Resolve
  else if kind ==? AssigneeSuperior then Some SuperiorAssigneeResolver_Resolve
  else if kind ==? AssigneeDepartmentLeader then Some DepartmentLeaderAssigneeResolver_Resolve
  else if kind ==? AssigneeFormField then Some FormFieldAssigneeResolver_Resolve
  else None.

(** The composite's index: a host resolver replaces the built-in of its kind. *)
Definition assigneeResolver (kind : string)
    : option (RuleResolveContext → res (list ResolvedAssignee)) :=
  match hostAssigneeResolvers !! kind with
  | Some r => Some r
  | None => builtinAssigneeResolver kind
  end.

(** [CompositeAssigneeResolver.ResolveAll] *)
Definition ResolveAll (assignees : list FlowNodeAssignee) (base : NodeResolveContext)
    : res (list ResolvedAssignee) :=
  flatMapErr (λ a,
    match assigneeResolver (FlowNodeAssignee_Kind a) with
    | None => Err ErrAssigneeResolverNotFound
    | Some resolve => resolve (Build_RuleResolveContext base (FlowNodeAssignee_Kind a)
                                 (FlowNodeAssignee_IDs a) (FlowNodeAssignee_FormField a))
    end) assignees.

(** *** CC resolvers *)

(** [collectOrgUserIDs] *)
Fixpoint collectOrgLoop (lookup : string → res (list UserInfo)) (ids : list string)
    (out : OrderedUnique string) : res (OrderedUnique string) :=
  match ids with
  | [] => Ok out
  | id :: ids' =>
      match lookup id with
      | Err e => Err e
      | Ok users =>
          collectOrgLoop lookup ids'
            (foldl (λ o u, if UserInfo_ID u ==? "" then o
                           else (OrderedUnique_Add o (UserInfo_ID u)).1) out users)
      end
  end.
Definition collectOrgUserIDs (lookup : string → res (list UserInfo)) (ids : list string)
    : res (list string) :=
  OrderedUnique_ToSlice <$> collectOrgLoop lookup (NormalizeUniqueIDs ids) NewOrderedUnique.

Definition UserCCResolver_Resolve (rc : RuleResolveContext) : res (list string) :=
  Ok (NormalizeUniqueIDs (RuleResolveContext_IDs rc)).
Definition RoleCCResolver_Resolve (rc : RuleResolveContext) : res (list string) :=
  match assigneeService with
  | None => Err ErrAssigneeServiceNil
  | Some svc => collectOrgUserIDs (GetRoleUsers svc) (RuleResolveContext_IDs rc)
  end.
Definition DepartmentCCResolver_Resolve (rc : RuleResolveContext) : res (list string) :=
  match assigneeService with
  | None => Err ErrAssigneeServiceNil
  | Some svc => collectOrgUserIDs (GetDepartmentLeaders svc) (RuleResolveContext_IDs rc)
  end.
Definition FormFieldCCResolver_Resolve (rc : RuleResolveContext) : res (list string) :=
  ids ← FormFieldIDs (NodeResolveContext_FormData (RuleResolveContext_base rc))
          (RuleResolveContext_FormField rc);
  Ok (NormalizeUniqueIDs ids).

Definition builtinCCResolver (kind : string) : option (RuleResolveContext → res (list string)) :=
  if kind ==? CCUser then Some UserCCResolver_Resolve
  else if kind ==? CCRole then Some RoleCCResolver_Resolve
  else if kind ==? CCDepartment then Some DepartmentCCResolver_Resolve
  else if kind ==? CCFormField then Some FormFieldCCResolver_Resolve
  else None.
Definition ccResolver (kind : string) : option (RuleResolveContext → res (list string)) :=
  match hostCCResolvers !! kind with
  | Some r => Some r
  | None => builtinCCResolver kind
  end.

(** [CompositeCCResolver.Resolve] *)
Definition CompositeCCResolver_Resolve (cfg : FlowNodeCC) (base : NodeResolveContext)
    : res (list string) :=
  match ccResolver (FlowNodeCC_Kind cfg) with
  | None => Err ErrCCResolverNotFound
  | Some resolve => resolve (Build_RuleResolveContext base (FlowNodeCC_Kind cfg)
                               (FlowNodeCC_IDs cfg) (FlowNodeCC_FormField cfg))
  end.

(** [CompositeCCResolver.CollectUserIDs]: best effort, failing rules are skipped. *)
Definition CollectUserIDs (configs : list FlowNodeCC) (base : NodeResolveContext)
    (selector : FlowNodeCC → bool) : list string :=
  OrderedUnique_ToSlice
    (foldl (λ userIDs cfg,
       if selector cfg then
         match CompositeCCResolver_Resolve cfg base with
         | Ok resolved => (OrderedUnique_AddAll userIDs resolved).1
         | Err _ => userIDs
         end
       else userIDs) NewOrderedUnique configs).
End resolvers.

(** ** Seats *)

(** [deduplicateAssignees] *)
Definition addSeat (acc : gset string * list ResolvedAssignee) (a : ResolvedAssignee)
    : gset string * list ResolvedAssignee :=
  let id := UserInfo_ID (ResolvedAssignee_User a) in
  if id ==? "" then acc
  else if bool_decide (id ∈ acc.1) then acc
  else ({[id]} ∪ acc.1, acc.2 ++ [a]).
Definition deduplicateAssignees (assignees : list ResolvedAssignee) : list ResolvedAssignee :=
  (foldl addSeat (∅, []) assignees).2.

Definition seatID (a : ResolvedAssignee) : string := UserInfo_ID (ResolvedAssignee_User a).

(** ** Delegation *)

(** [matchDelegation]: the loop keeps the first category and global matches and
    returns at the first flow-specific one. *)
Definition delegationApplies (d : Delegation) (now : DateTime) (flowID flowCategoryID : string)
    : bool :=
  negb (match Delegation_StartsAt d with Some t => (now <? t)%Z | None => false end) &&
  negb (match Delegation_EndsAt d with Some t => (t <? now)%Z | None => false end) &&
  match Delegation_FlowCategoryID d with Some c => c ==? flowCategoryID | None => true end &&
  match Delegation_FlowID d with Some f => f ==? flowID | None => true end.
Fixpoint matchDelegationLoop (ds : list Delegation) (now : DateTime) (flowID flowCategoryID : string)
    (categoryMatch globalMatch : option Delegation) : option Delegation :=
  match ds with
  | [] => match categoryMatch with Some d => Some d | None => globalMatch end
  | d :: ds' =>
      if negb (delegationApplies d now flowID flowCategoryID) then
        matchDelegationLoop ds' now flowID flowCategoryID categoryMatch globalMatch
      else match Delegation_FlowID d with
      | Some _ => Some d
      | None =>
          let categoryMatch' :=
            match Delegation_FlowCategoryID d, categoryMatch with
            | Some _, None => Some d | _, _ => categoryMatch end in
          let globalMatch' :=
            match Delegation_FlowCategoryID d, globalMatch with
            | None, None => Some d | _, _ => globalMatch end in
          matchDelegationLoop ds' now flowID flowCategoryID categoryMatch' globalMatch'
      end
  end.
Definition matchDelegation (ds : list Delegation) (now : DateTime) (flowID flowCategoryID : string)
    : option Delegation :=
  matchDelegationLoop ds now flowID flowCategoryID None None.

(** The active delegations of a person, newest first, at most a hundred. *)
Definition loadDelegations (s : St) (currentID : string) : list Delegation :=
  take 100 (orderBy (λ d, - Delegation_CreatedAt d)%Z
    (tselect (λ d, (Delegation_DelegatorID d ==? currentID) && Delegation_IsActive d)
       (db_delegations s))).

Section delegation.
Context `{!Host}.

(** The loop of [resolveDelegationChain]: at most [fuel] further steps. *)
Fixpoint delegationLoop (fuel : nat) (s : St) (now : DateTime) (flowID flowCategoryID : string)
    (visited : gset string) (currentID : string) : string :=
  match fuel with
  | 0 => currentID
  | S fuel' =>
      match matchDelegation (loadDelegations s currentID) now flowID flowCategoryID with
      | None => currentID
      | Some matched =>
          let nextID := Delegation_DelegateeID matched in
          if bool_decide (nextID ∈ visited) then currentID
          else delegationLoop fuel' s now flowID flowCategoryID ({[nextID]} ∪ visited) nextID
      end
  end.

(** [resolveDelegationChain]; [maxDepth] is 10. *)
Definition resolveDelegationChain (userID flowID flowCategoryID : string) : M (string * string) :=
  now ← Now;
  currentID ← gets (λ s, delegationLoop 10 s now flowID flowCategoryID {[userID]} userID);
  if currentID ==? userID then mret (currentID, "") else mret (currentID, userID).

(** [loadFlowCategoryID] *)
Definition loadFlowCategoryID (flowID : string) : M string :=
  flow ← orThrow ErrRecordNotFound (findFlow flowID);
  mret (Flow_CategoryID flow).

(** [applyDelegation] *)
Definition applyDelegation (flowID : string) (assignees : list ResolvedAssignee)
    : M (list ResolvedAssignee) :=
  categoryID ← loadFlowCategoryID flowID;
  delegateeByIndex ← foldM (λ acc a,
    r ← resolveDelegationChain (seatID a) flowID categoryID; mret (acc ++ [r.1])) [] assignees;
  let pairs := zip assignees delegateeByIndex in
  let delegateeIDs :=
    (List.filter (λ p, negb (p.2 ==? seatID p.1)) pairs).*2 in
  delegateeInfos ← liftR (ResolveUserInfoMap delegateeIDs);
  mret (map (λ p,
    if p.2 ==? seatID p.1 then p.1
    else Build_ResolvedAssignee (infoWithID delegateeInfos p.2)
           (Some (ResolvedAssignee_User p.1))) pairs).
End delegation.

(** ** Facts about seats *)

Lemma foldl_addSeat l acc :
  NoDup (seatID <$> acc.2) → (∀ x, x ∈ acc.1 ↔ x ∈ seatID <$> acc.2) → "" ∉ seatID <$> acc.2 →
  let r := foldl addSeat acc l in
  NoDup (seatID <$> r.2) ∧ ("" ∉ seatID <$> r.2) ∧
  ∀ x, x ∈ seatID <$> r.2 ↔ x ∈ seatID <$> acc.2 ∨ x ≠ "" ∧ x ∈ seatID <$> l.
Proof.
  revert acc. induction l as [|a l IH]; intros [seen out] Hd Hs He r; unfold r; cbn in *; clear r.
  { split; [done|]. split; [done|]. set_solver. }
  unfold addSeat at 2 4 6; cbn. fold (seatID a).
  case_bool_decide as Ha; [|case_bool_decide as Hin].
  - destruct (IH (seen, out)) as (? & ? & Hx); cbn in *; auto.
    split; [done|]. split; [done|]. intros x. rewrite Hx. set_solver.
  - destruct (IH (seen, out)) as (? & ? & Hx); cbn in *; auto.
    split; [done|]. split; [done|]. intros x. rewrite Hx, elem_of_cons. apply Hs in Hin. naive_solver.
  - destruct (IH ({[seatID a]} ∪ seen, out ++ [a])) as (? & ? & Hx); cbn.
    + rewrite fmap_app. apply NoDup_app. rewrite Hs in Hin.
      split; [done|]. split; [set_solver|apply NoDup_singleton].
    + intros x. rewrite fmap_app. set_solver.
    + rewrite fmap_app. set_solver.
    + split; [done|]. split; [done|]. intros x. rewrite Hx. cbn. rewrite fmap_app. set_solver.
Qed.
Lemma deduplicateAssignees_NoDup l : NoDup (seatID <$> deduplicateAssignees l).
Proof. apply (foldl_addSeat l (∅, [])); cbn; [constructor|set_solver|set_solver]. Qed.
Lemma elem_of_deduplicateAssignees l x :
  x ∈ seatID <$> deduplicateAssignees l ↔ x ≠ "" ∧ x ∈ seatID <$> l.
Proof.
  unfold deduplicateAssignees.
  destruct (foldl_addSeat l (∅, [])) as (_ & _ & Hx); cbn; [constructor|set_solver|set_solver|].
  rewrite Hx. cbn. set_solver.
Qed.

(** ** Matching a delegation *)
Section matching.
Context (now : DateTime) (flowID flowCategoryID : string).

(** Scope of a delegation: one flow, one category, or everything. *)
Definition flowScoped (d : Delegation) : bool :=
  delegationApplies d now flowID flowCategoryID &&
  match Delegation_FlowID d with Some _ => true | None => false end.
Definition categoryScoped (d : Delegation) : bool :=
  delegationApplies d now flowID flowCategoryID &&
  match Delegation_FlowID d, Delegation_FlowCategoryID d with None, Some _ => true | _, _ => false end.
Definition globalScoped (d : Delegation) : bool :=
  delegationApplies d now flowID flowCategoryID &&
  match Delegation_FlowID d, Delegation_FlowCategoryID d with None, None => true | _, _ => false end.

(** [o1], or failing that [o2]. *)
Definition orElse {A} (o1 o2 : option A) : option A :=
  match o1 with Some a => Some a | None => o2 end.

Lemma matchDelegationLoop_spec ds cm gm :
  matchDelegationLoop ds now flowID flowCategoryID cm gm =
  orElse (tfirst flowScoped ds)
    (orElse (orElse cm (tfirst categoryScoped ds)) (orElse gm (tfirst globalScoped ds))).
Proof.
  revert cm gm. induction ds as [|d ds IH]; intros cm gm; cbn.
  { by destruct cm, gm. }
  unfold tfirst, flowScoped, categoryScoped, globalScoped in *; cbn.
  destruct (delegationApplies d now flowID flowCategoryID); cbn; [|apply IH].
  destruct (Delegation_FlowID d); cbn; [done|].
  rewrite IH. by destruct (Delegation_FlowCategoryID d), cm, gm.
Qed.
End matching.

(** The one-pass [matchDelegation] implements the documented priority: it
    returns the first applicable flow-specific delegation of the list, else the
    first applicable category-specific one, else the first applicable global
    one, and nothing when none applies. *)
Theorem matchDelegation_priority ds now flowID flowCategoryID :
  matchDelegation ds now flowID flowCategoryID =
  orElse (tfirst (flowScoped now flowID flowCategoryID) ds)
    (orElse (tfirst (categoryScoped now flowID flowCategoryID) ds)
       (tfirst (globalScoped now flowID flowCategoryID) ds)).
Proof. apply matchDelegationLoop_spec. Qed.

(** ** Delegation chains *)
Section chains.
Context `{!Host} (s : St) (now : DateTime) (flowID flowCategoryID : string).

(** One hop: the delegation matched for [a] hands over to [b]. *)
Definition delegatesTo (a b : string) : Prop :=
  ∃ d, matchDelegation (loadDelegations s a) now flowID flowCategoryID = Some d ∧
       b = Delegation_DelegateeID d.

(** A path of hops from [a] through [path]. *)
Fixpoint hops (a : string) (path : list string) : Prop :=
  match path with
  | [] => True
  | b :: path' => delegatesTo a b ∧ hops b path'
  end.

(** Why the walk stops at [z] after [path]. *)
Definition chainStops (fuel : nat) (seen : gset string) (path : list string) (z : string) : Prop :=
  length path = fuel ∨ (∀ b, ¬ delegatesTo z b) ∨
  (∃ b, delegatesTo z b ∧ (b ∈ seen ∨ b ∈ path)).

Lemma delegationLoop_path fuel seen a :
  a ∈ seen →
  ∃ path, hops a path ∧ NoDup path ∧ (∀ b, b ∈ path → b ∉ seen) ∧ length path ≤ fuel ∧
    delegationLoop fuel s now flowID flowCategoryID seen a = List.last path a ∧
    chainStops fuel seen path (List.last path a).
Proof.
  revert seen a. induction fuel as [|fuel IH]; intros seen a Ha; cbn.
  { exists []. split; [done|]. split; [constructor|]. split; [set_solver|].
    split; [done|]. split; [done|]. by left. }
  destruct (matchDelegation _ _ _ _) as [d|] eqn:Hm.
  - case_bool_decide as Hb.
    + exists []. split; [done|]. split; [constructor|]. split; [set_solver|].
      split; [cbn; lia|]. split; [done|]. right; right. exists (Delegation_DelegateeID d).
      split; [by exists d|by left].
    + destruct (IH ({[Delegation_DelegateeID d]} ∪ seen) (Delegation_DelegateeID d))
        as (path & Hh & Hd & Hs & Hl & Hr & Hstop); [set_solver|].
      exists (Delegation_DelegateeID d :: path).
      assert (List.last (Delegation_DelegateeID d :: path) a
              = List.last path (Delegation_DelegateeID d)) as Hlast.
      { clear. destruct path as [|x path]; [done|]. cbn.
        revert x. induction path as [|y path IHp]; intros x; [done|]. cbn in *. apply IHp. }
      split; [by split; [exists d|]|]. split; [constructor; set_solver|].
      split; [set_solver|]. split; [cbn; lia|]. split; [by rewrite Hlast|].
      rewrite Hlast. destruct Hstop as [Hstop|[Hstop|(b & Hb1 & Hb2)]].
      * left. cbn. lia.
      * by right; left.
      * right; right. exists b. split; [done|]. set_solver.
  - exists []. split; [done|]. split; [constructor|]. split; [set_solver|].
    split; [cbn; lia|]. split; [done|]. right; left. intros b (d & Hd & _). cbn in Hd. by rewrite Hm in Hd.
Qed.
End chains.

(** C37. [resolveDelegationChain] always returns, and what it returns is the end
    of a chain of matching delegations from the given person in which nobody
    occurs twice and which has at most ten hops; it ends there because ten hops
    were taken, nobody is delegated to any more, or the next delegation would
    close a cycle.  The original person is reported exactly when the chain is
    not empty-handed. *)
Theorem resolveDelegationChain_spec `{!Host} userID flowID flowCategoryID s :
  ∃ path z s',
    resolveDelegationChain userID flowID flowCategoryID s
      = Ok ((z, (if z ==? userID then "" else userID)), s') ∧
    z = List.last path userID ∧
    hops s' (clock_reading (db_clock s)) flowID flowCategoryID userID path ∧
    NoDup (userID :: path) ∧ length path ≤ 10 ∧
    chainStops s' (clock_reading (db_clock s)) flowID flowCategoryID 10 {[userID]} path z.
Proof.
  destruct (delegationLoop_path (set_clock (S (db_clock s)) s) (clock_reading (db_clock s))
    flowID flowCategoryID 10 {[userID]} userID) as (path & Hh & Hd & Hs & Hl & Hr & Hstop);
    [set_solver|].
  exists path, (List.last path userID), (set_clock (S (db_clock s)) s).
  split; [|repeat split; auto; constructor; set_solver].
  unfold resolveDelegationChain, mbind, SE_bind, Now, gets. rewrite Hr.
  by case_bool_decide.
Qed.
