(* ===== verification/PassRule.v ===== *)
(** * Pass rules

    [internal/approval/strategy/pass_rule.go] (the four strategies),
    [strategy/registry.go] ([GetPassRuleStrategy]) and the evaluation entry of
    [internal/approval/engine/engine.go] ([buildPassRuleContext],
    [evaluatePassRule] with its deadlock guard).

    The theorems: no combination of finished tasks leaves a node undecided; the
    early decision is exact (a node is decided exactly when the open votes can no
    longer change the outcome); the ratio rule's float arithmetic agrees with the
    exact fraction for small panels and departs from it at fifty. *)
From S2P Require Import Prelude Enums StateMachine Models Demo.

(** [PassRuleContext] of [approval/condition.go]. *)
Record PassRuleContext := {
  ApprovedCount : Z;
  RejectedCount : Z;
  TotalCount : Z;
  PassRatioThreshold : float64;
  PassCountThreshold : Z;
}.

Section strategies.
Implicit Types c : PassRuleContext.
Local Open Scope Z_scope.

Definition AllPassStrategy_Evaluate c : PassRuleResult :=
  if 0 <? RejectedCount c then PassRuleRejected
  else if (ApprovedCount c =? TotalCount c) && (0 <? TotalCount c) then PassRulePassed
  else PassRulePending.

Definition AnyPassStrategy_Evaluate c : PassRuleResult :=
  if 0 <? ApprovedCount c then PassRulePassed
  else if (RejectedCount c =? TotalCount c) && (0 <? TotalCount c) then PassRuleRejected
  else PassRulePending.

(** [float64(n) / float64(total) * 100.0] *)
Definition ratioOf (n total : Z) : float64 :=
  fmul (fdiv (float64_of_Z n) (float64_of_Z total)) (float64_of_Z 100).

Definition RatioPassStrategy_Evaluate c : PassRuleResult :=
  if TotalCount c =? 0 then PassRulePending
  else
    let ratio := ratioOf (ApprovedCount c) (TotalCount c) in
    if SFleb (PassRatioThreshold c) ratio then PassRulePassed
    else
      let maxRatio := ratioOf (TotalCount c - RejectedCount c) (TotalCount c) in
      if SFltb maxRatio (PassRatioThreshold c) then PassRuleRejected
      else PassRulePending.

Definition FixedCountPassStrategy_Evaluate c : PassRuleResult :=
  if TotalCount c =? 0 then PassRulePending
  else
    let required := Z.min (PassCountThreshold c) (TotalCount c) in
    if required <=? ApprovedCount c then PassRulePassed
    else if TotalCount c - RejectedCount c <? required then PassRuleRejected
    else PassRulePending.
End strategies.

(** [StrategyRegistry.GetPassRuleStrategy] over the built-in registrations. *)
Definition GetPassRuleStrategy (rule : PassRule) : res (PassRuleContext → PassRuleResult) :=
  match rule with
  | PassAll => Ok AllPassStrategy_Evaluate
  | PassAny => Ok AnyPassStrategy_Evaluate
  | PassRatio => Ok RatioPassStrategy_Evaluate
  | PassFixedCount => Ok FixedCountPassStrategy_Evaluate
  | PassRuleOther _ => Err ErrPassRuleNotFound
  end.

(** The statuses [buildPassRuleContext] skips. *)
Definition nonParticipating (st : TaskStatus) : bool :=
  match st with
  | TaskTransferred | TaskCanceled | TaskRemoved | TaskSkipped | TaskRolledBack => true
  | _ => false
  end.

(** One iteration of the counting loop. *)
Definition countTask (c : PassRuleContext) (t : Task) : PassRuleContext :=
  if nonParticipating (Task_Status t) then c
  else
    let c := {| ApprovedCount := ApprovedCount c; RejectedCount := RejectedCount c;
                TotalCount := TotalCount c + 1; PassRatioThreshold := PassRatioThreshold c;
                PassCountThreshold := PassCountThreshold c |} in
    match Task_Status t with
    | TaskApproved | TaskHandled =>
        {| ApprovedCount := ApprovedCount c + 1; RejectedCount := RejectedCount c;
           TotalCount := TotalCount c; PassRatioThreshold := PassRatioThreshold c;
           PassCountThreshold := PassCountThreshold c |}
    | TaskRejected =>
        {| ApprovedCount := ApprovedCount c; RejectedCount := RejectedCount c + 1;
           TotalCount := TotalCount c; PassRatioThreshold := PassRatioThreshold c;
           PassCountThreshold := PassCountThreshold c |}
    | _ => c
    end.

Section evaluate.
Context `{!Host}.

Definition buildPassRuleContext (node : FlowNode) (tasks : list Task) : PassRuleContext :=
  foldl countTask
    {| ApprovedCount := 0; RejectedCount := 0; TotalCount := 0;
       PassRatioThreshold := InexactFloat64 (FlowNode_PassRatio node);
       PassCountThreshold := FlowNode_PassCount node |} tasks.

Definition evaluatePassRule (node : FlowNode) (tasks : list Task) : res PassRuleResult :=
  passStrategy ← GetPassRuleStrategy (FlowNode_PassRule node);
  let prc := buildPassRuleContext node tasks in
  if negb (length tasks =? 0)%nat && (TotalCount prc =? 0)%Z then Ok PassRulePassed
  else Ok (passStrategy prc).
End evaluate.

(** ** Counting *)

(** The task votes for, votes against, or is still open. *)
Definition votesFor (t : Task) : bool :=
  match Task_Status t with TaskApproved | TaskHandled => true | _ => false end.
Definition votesAgainst (t : Task) : bool :=
  match Task_Status t with TaskRejected => true | _ => false end.
Definition isOpen (t : Task) : bool :=
  match Task_Status t with TaskPending | TaskWaiting => true | _ => false end.
Definition participates (t : Task) : bool := negb (nonParticipating (Task_Status t)).

Definition zcount (p : Task → bool) (tasks : list Task) : Z := Z.of_nat (tcount p tasks).

Section counting.
Context `{!Host}.
Local Open Scope Z_scope.

Lemma foldl_countTask tasks c :
  let c' := foldl countTask c tasks in
  ApprovedCount c' = ApprovedCount c + zcount votesFor tasks ∧
  RejectedCount c' = RejectedCount c + zcount votesAgainst tasks ∧
  TotalCount c' = TotalCount c + zcount participates tasks ∧
  PassRatioThreshold c' = PassRatioThreshold c ∧
  PassCountThreshold c' = PassCountThreshold c.
Proof.
  revert c. induction tasks as [|t ts IH]; intros c c'.
  { unfold c', zcount, tcount, tselect; cbn. repeat split; lia. }
  unfold c'; cbn [foldl]. clear c'.
  destruct (IH (countTask c t)) as (Ha & Hr & Hn & Hp & Hq). clear IH.
  rewrite Ha, Hr, Hn, Hp, Hq. clear Ha Hr Hn Hp Hq.
  unfold zcount, tcount, tselect, countTask, votesFor, votesAgainst, participates; cbn -[Z.of_nat Z.add].
  destruct (Task_Status t); cbn -[Z.of_nat Z.add]; repeat split; lia.
Qed.

Lemma zcount_nonneg p ts : 0 <= zcount p ts.
Proof. unfold zcount. lia. Qed.

(** Every participating task is a vote for, a vote against or open. *)
Lemma zcount_partition ts :
  zcount participates ts = zcount votesFor ts + zcount votesAgainst ts + zcount isOpen ts.
Proof.
  unfold zcount, tcount, tselect, participates, votesFor, votesAgainst, isOpen.
  induction ts as [|t ts IH]; [done|]. cbn -[Z.of_nat Z.add].
  destruct (Task_Status t); cbn -[Z.of_nat Z.add]; lia.
Qed.

(** The strategy's verdict as a function of the three tallies. *)
Definition verdict (node : FlowNode) (a r n : Z) : res PassRuleResult :=
  passStrategy ← GetPassRuleStrategy (FlowNode_PassRule node);
  Ok (passStrategy {| ApprovedCount := a; RejectedCount := r; TotalCount := n;
                      PassRatioThreshold := InexactFloat64 (FlowNode_PassRatio node);
                      PassCountThreshold := FlowNode_PassCount node |}).

Lemma buildPassRuleContext_counts node tasks :
  buildPassRuleContext node tasks =
  {| ApprovedCount := zcount votesFor tasks; RejectedCount := zcount votesAgainst tasks;
     TotalCount := zcount participates tasks;
     PassRatioThreshold := InexactFloat64 (FlowNode_PassRatio node);
     PassCountThreshold := FlowNode_PassCount node |}.
Proof.
  unfold buildPassRuleContext.
  match goal with |- foldl _ ?c0 _ = _ =>
    pose proof (foldl_countTask tasks c0) as Hc; destruct (foldl countTask c0 tasks) end.
  cbn in Hc. destruct Hc as (-> & -> & -> & -> & ->). done.
Qed.

Lemma evaluatePassRule_counts node tasks :
  evaluatePassRule node tasks =
  if negb (length tasks =? 0)%nat && (zcount participates tasks =? 0)
  then (GetPassRuleStrategy (FlowNode_PassRule node) ≫= λ _, Ok PassRulePassed)
  else verdict node (zcount votesFor tasks) (zcount votesAgainst tasks)
         (zcount participates tasks).
Proof.
  unfold evaluatePassRule, verdict. rewrite buildPassRuleContext_counts; cbn.
  destruct (GetPassRuleStrategy _); cbn; [|by destruct (_ && _)].
  by destruct (_ && _).
Qed.
End counting.

(** ** The ratio never is NaN *)
Section floats.
Definition not_nan (x : float64) : Prop := x ≠ S754_nan.

Lemma shr_1_nonneg r : (0 ≤ shr_m r → 0 ≤ shr_m (shr_1 r))%Z.
Proof. destruct r as [[|[]|[]] ? ?]; cbn; lia. Qed.
Lemma iter_shr_1_nonneg n r : (0 ≤ shr_m r → 0 ≤ shr_m (SpecFloat.iter_pos shr_1 n r))%Z.
Proof.
  revert r. induction n as [n IH|n IH|]; intros r Hr; cbn; auto using shr_1_nonneg.
Qed.
Lemma shr_fexp_nonneg m e l : (0 ≤ m → 0 ≤ shr_m (shr_fexp prec64 emax64 m e l).1)%Z.
Proof.
  intros Hm. unfold shr_fexp, shr. destruct (_ - _)%Z as [|p|p]; cbn.
  - by destruct l as [|[]].
  - apply iter_shr_1_nonneg. by destruct l as [|[]].
  - by destruct l as [|[]].
Qed.
Lemma binary_round_aux_not_nan sx mx ex lx :
  (0 ≤ mx)%Z → not_nan (binary_round_aux prec64 emax64 sx mx ex lx).
Proof.
  intros Hm. unfold binary_round_aux, not_nan.
  pose proof (shr_fexp_nonneg mx ex lx Hm) as H1.
  destruct (shr_fexp _ _ mx ex lx) as [r1 e1]; cbn in H1.
  assert (0 ≤ round_nearest_even (shr_m r1) (loc_of_shr_record r1))%Z as H2.
  { unfold round_nearest_even. repeat case_match; lia. }
  pose proof (shr_fexp_nonneg _ e1 loc_Exact H2) as H3.
  destruct (shr_fexp _ _ _ e1 loc_Exact) as [r2 e2]; cbn in H3.
  destruct (shr_m r2); [done|by case_match|lia].
Qed.
Lemma float64_of_Z_not_nan n : not_nan (float64_of_Z n).
Proof.
  unfold float64_of_Z, binary_normalize, binary_round. destruct n; [done| |].
  all: destruct (shl_align _ _ _); by apply binary_round_aux_not_nan.
Qed.
Lemma fdiv_not_nan x sy my ey : not_nan x → not_nan (fdiv x (S754_finite sy my ey)).
Proof.
  unfold fdiv, SFdiv. destruct x as [| | |sx mx ex]; try done. intros _.
  unfold SFdiv_core_binary.
  match goal with |- context [Z.div_eucl ?m' ?d] =>
    assert (0 ≤ m')%Z as Hm by
      (destruct (_ - _ - _)%Z; try done; rewrite Z.shiftl_nonneg; done);
    pose proof (Z.div_pos m' d Hm (eq_refl : (0 < d)%Z)) as Hq; unfold Z.div in Hq;
    destruct (Z.div_eucl m' d) end.
  by apply binary_round_aux_not_nan.
Qed.
Lemma fmul_not_nan x sy my ey : not_nan x → not_nan (fmul x (S754_finite sy my ey)).
Proof.
  unfold fmul, SFmul. destruct x; try done. intros _. by apply binary_round_aux_not_nan.
Qed.

Lemma digits2_pos_size p : digits2_pos p = Pos.size p.
Proof. induction p; cbn; by f_equal. Qed.
Lemma digits2_iter_xO p k : digits2_pos (Pos.iter xO p k) = (digits2_pos p + k)%positive.
Proof.
  induction k as [|k IH] using Pos.peano_ind; cbn; [lia|].
  rewrite Pos.iter_succ; cbn. rewrite IH. lia.
Qed.

(** Rounding a 53-digit mantissa at a small exponent is exact. *)
Lemma binary_round_aux_exact m e :
  Zpos (digits2_pos m) = 53%Z → (-1000 ≤ e ≤ 0)%Z →
  binary_round_aux prec64 emax64 false (Zpos m) e loc_Exact = S754_finite false m e.
Proof.
  intros Hd He. unfold binary_round_aux.
  assert (shr_fexp prec64 emax64 (Zpos m) e loc_Exact = (Build_shr_record (Zpos m) false false, e)) as Hs.
  { unfold shr_fexp, shr; cbn [Zdigits2]. rewrite Hd.
    replace (fexp prec64 emax64 (53 + e) - e)%Z with 0%Z; [done|].
    unfold fexp, emin, prec64, emax64. lia. }
  rewrite Hs; cbn. rewrite Hs; cbn. case_match; [done|]. unfold prec64, emax64 in *. lia.
Qed.
(** A positive [int] below [2^53] converts to a proper positive float. *)
Lemma float64_of_Z_finite n :
  (0 < n < 2 ^ 53)%Z → ∃ m e, float64_of_Z n = S754_finite false m e.
Proof.
  intros Hn. destruct n as [|p|p]; [lia| |lia].
  unfold float64_of_Z, binary_normalize, binary_round.
  assert (Zpos (digits2_pos p) ≤ 53)%Z as Hd.
  { rewrite digits2_pos_size. pose proof (Pos.size_le p) as Hs.
    destruct (Z.le_gt_cases (Zpos (Pos.size p)) 53) as [|Hgt]; [done|].
    assert (2 ^ 54 ≤ 2 ^ Zpos (Pos.size p))%Z by (apply Z.pow_le_mono_r; lia).
    assert (Zpos (2 ^ Pos.size p) ≤ Zpos p~0)%Z as Hz by exact Hs.
    rewrite Pos2Z.inj_pow in Hz. lia. }
  unfold shl_align, fexp, emin, prec64, emax64 in *.
  replace (Z.max (Zpos (digits2_pos p) + 0 - 53) (3 - 1024 - 53) - 0)%Z
    with (Zpos (digits2_pos p) - 53)%Z by lia.
  destruct (Zpos (digits2_pos p) - 53)%Z as [|k|k] eqn:Hk; [|lia|].
  - eexists _, _. apply binary_round_aux_exact; lia.
  - eexists _, _. apply binary_round_aux_exact; [rewrite digits2_iter_xO|]; lia.
Qed.

Lemma ratioOf_not_nan n total : (0 < total < 2 ^ 53)%Z → not_nan (ratioOf n total).
Proof.
  intros (m & e & Ht)%float64_of_Z_finite. unfold ratioOf. rewrite Ht.
  apply fmul_not_nan, fdiv_not_nan, float64_of_Z_not_nan.
Qed.

(** Comparison of two proper floats is total. *)
Lemma SFcompare_antisym p r : SFcompare r p = CompOpp <$> SFcompare p r.
Proof.
  destruct p as [[]|[]| |[] mp ep], r as [[]|[]| |[] mr er]; try done; cbn.
  all: change (Pos.compare_cont Eq mr mp) with (Pos.compare mr mp).
  all: change (Pos.compare_cont Eq mp mr) with (Pos.compare mp mr).
  all: rewrite (Z.compare_antisym ep er), (Pos.compare_antisym mp mr).
  all: destruct (ep ?= er)%Z; cbn; by rewrite ?CompOpp_involutive.
Qed.
Lemma SFcompare_total p r : not_nan p → not_nan r → is_Some (SFcompare p r).
Proof. unfold not_nan. destruct p, r; cbn; eauto; done. Qed.
Lemma SFleb_or_SFltb p r : not_nan p → not_nan r → SFleb p r = true ∨ SFltb r p = true.
Proof.
  intros Hp Hr. destruct (SFcompare_total p r Hp Hr) as [c Hc].
  unfold SFleb, SFltb. rewrite (SFcompare_antisym p r), Hc. destruct c; auto.
Qed.
End floats.

(** ** Theorems *)

Section theorems.
Context `{!Host}.
Local Open Scope Z_scope.

Lemma zcount_0 p ts : zcount p ts = 0 → ∀ t, t ∈ ts → p t = false.
Proof. unfold zcount. intros Hz. apply tcount_0. lia. Qed.
Lemma zcount_le_length p ts : zcount p ts <= Z.of_nat (length ts).
Proof. unfold zcount, tcount, tselect. pose proof (List.filter_length_le p ts). lia. Qed.

(** All open tasks resolved with one and the same vote. *)
Definition resolveOpen (st : TaskStatus) (ts : list Task) : list Task :=
  tupdate isOpen (set_Task_Status st) ts.

(** Approving or rejecting every open task moves the open tally to that side. *)
Lemma resolveOpen_approved ts :
  zcount votesFor (resolveOpen TaskApproved ts) = zcount votesFor ts + zcount isOpen ts ∧
  zcount votesAgainst (resolveOpen TaskApproved ts) = zcount votesAgainst ts ∧
  zcount participates (resolveOpen TaskApproved ts) = zcount participates ts.
Proof.
  unfold zcount, tcount, tselect, resolveOpen, tupdate, participates, votesFor, votesAgainst, isOpen.
  induction ts as [|t ts IH]; [done|]. destruct t as [? ? ? ? ? ? ? ? ? ? ? ? ? ? ? [] ? ? ? ? ? ? ?].
  all: cbn -[Z.of_nat Z.add] in *; lia.
Qed.
Lemma resolveOpen_rejected ts :
  zcount votesFor (resolveOpen TaskRejected ts) = zcount votesFor ts ∧
  zcount votesAgainst (resolveOpen TaskRejected ts) = zcount votesAgainst ts + zcount isOpen ts ∧
  zcount participates (resolveOpen TaskRejected ts) = zcount participates ts.
Proof.
  unfold zcount, tcount, tselect, resolveOpen, tupdate, participates, votesFor, votesAgainst, isOpen.
  induction ts as [|t ts IH]; [done|]. destruct t as [? ? ? ? ? ? ? ? ? ? ? ? ? ? ? [] ? ? ? ? ? ? ?].
  all: cbn -[Z.of_nat Z.add] in *; lia.
Qed.
Lemma resolveOpen_length st ts : length (resolveOpen st ts) = length ts.
Proof. apply tupdate_length. Qed.

(** The verdict on a node without open tasks. *)
Lemma verdict_closed node a r :
  PassRule_IsValid (FlowNode_PassRule node) = true →
  not_nan (InexactFloat64 (FlowNode_PassRatio node)) →
  0 <= a → 0 <= r → 0 < a + r < 2 ^ 53 →
  verdict node a r (a + r) = Ok PassRulePassed ∨ verdict node a r (a + r) = Ok PassRuleRejected.
Proof.
  intros Hv Hp Ha Hr Hn. unfold verdict. destruct (FlowNode_PassRule node); cbn; [| | | |done].
  - unfold AllPassStrategy_Evaluate; cbn. destruct (Z.ltb_spec 0 r); [auto|].
    rewrite (proj2 (Z.eqb_eq _ _)) by lia. rewrite (proj2 (Z.ltb_lt _ _)) by lia. auto.
  - unfold AnyPassStrategy_Evaluate; cbn. destruct (Z.ltb_spec 0 a); [auto|].
    rewrite (proj2 (Z.eqb_eq _ _)) by lia. rewrite (proj2 (Z.ltb_lt _ _)) by lia. auto.
  - unfold RatioPassStrategy_Evaluate; cbn. rewrite (proj2 (Z.eqb_neq _ _)) by lia.
    replace (a + r - r) with a by lia.
    destruct (SFleb_or_SFltb (InexactFloat64 (FlowNode_PassRatio node)) (ratioOf a (a + r)))
      as [-> | ->]; [done|by apply ratioOf_not_nan|auto|case_match; auto].
  - unfold FixedCountPassStrategy_Evaluate; cbn. rewrite (proj2 (Z.eqb_neq _ _)) by lia.
    destruct (Z.leb_spec (Z.min (FlowNode_PassCount node) (a + r)) a); [auto|].
    rewrite (proj2 (Z.ltb_lt _ _)) by lia. auto.
Qed.

(** A node is never left undecided: once every task of a visit is in a
    final status (and there was at least one), the pass rule, whichever it is,
    passes or rejects the node; it cannot stay pending. *)
Theorem finished_tasks_decide_node node tasks :
  PassRule_IsValid (FlowNode_PassRule node) = true →
  not_nan (InexactFloat64 (FlowNode_PassRatio node)) →
  tasks ≠ [] → Z.of_nat (length tasks) < 2 ^ 53 →
  Forall (λ t, TaskStatus_IsFinal (Task_Status t) = true) tasks →
  evaluatePassRule node tasks = Ok PassRulePassed ∨
  evaluatePassRule node tasks = Ok PassRuleRejected.
Proof.
  intros Hv Hp Hne Hlen Hfin. rewrite evaluatePassRule_counts.
  assert (zcount isOpen tasks = 0) as Hopen.
  { unfold zcount. rewrite (proj2 (tcount_0 isOpen tasks)); [done|]. intros t Ht.
    rewrite Forall_forall in Hfin. specialize (Hfin t Ht). unfold isOpen.
    by destruct (Task_Status t). }
  pose proof (zcount_partition tasks) as Hpart.
  pose proof (zcount_le_length participates tasks) as Hle.
  pose proof (zcount_nonneg votesFor tasks). pose proof (zcount_nonneg votesAgainst tasks).
  destruct (Z.eqb_spec (zcount participates tasks) 0) as [Hz|Hz].
  - destruct tasks as [|t ts]; [done|]. cbn -[zcount].
    destruct (FlowNode_PassRule node); try done; auto.
  - rewrite andb_false_r, Hpart, Hopen, Z.add_0_r. apply verdict_closed; auto; lia.
Qed.

(** *** Early decisions *)

Lemma SFleb_trans x y z : SFleb x y = true → SFleb y z = true → SFleb x z = true.
Proof.
  unfold SFleb.
  destruct x as [[]|[]| |[] mx ex], y as [[]|[]| |[] my ey], z as [[]|[]| |[] mz ez];
    try done; cbn.
  all: change (Pos.compare_cont Eq mx my) with (Pos.compare mx my).
  all: change (Pos.compare_cont Eq my mz) with (Pos.compare my mz).
  all: change (Pos.compare_cont Eq mx mz) with (Pos.compare mx mz).
  all: destruct (Z.compare_spec ex ey), (Z.compare_spec ey ez), (Z.compare_spec ex ez);
    try lia; try done; cbn.
  all: destruct (Pos.compare_spec mx my), (Pos.compare_spec my mz), (Pos.compare_spec mx mz);
    try lia; try done.
Qed.
Lemma SFltb_not_SFleb p r : SFltb r p = true → SFleb p r = false.
Proof.
  unfold SFleb, SFltb. rewrite (SFcompare_antisym p r). by destruct (SFcompare p r) as [[]|].
Qed.

(** The ratio is monotone in the count, for panels of at most a hundred. *)
Definition ratioMonotoneAt (total : nat) : bool :=
  forallb (λ n, SFleb (ratioOf (Z.of_nat n) (Z.of_nat total))
                      (ratioOf (Z.of_nat (S n)) (Z.of_nat total))) (seq 0 total).
Lemma ratioMonotone_100 : forallb ratioMonotoneAt (seq 1 100) = true.
Proof. vm_compute. reflexivity. Qed.
Lemma ratioOf_mono a b total :
  (0 < total ≤ 100)%nat → (a ≤ b ≤ total)%nat →
  SFleb (ratioOf (Z.of_nat a) (Z.of_nat total)) (ratioOf (Z.of_nat b) (Z.of_nat total)) = true.
Proof.
  intros Ht [Hab Hb]. induction Hab as [|b Hab IH].
  - destruct (SFleb_or_SFltb (ratioOf (Z.of_nat a) (Z.of_nat total))
                (ratioOf (Z.of_nat a) (Z.of_nat total))) as [|Hlt]; auto;
      try (apply ratioOf_not_nan; lia).
    pose proof Hlt as Hle%SFltb_not_SFleb. revert Hlt Hle. unfold SFltb, SFleb.
    by destruct (SFcompare _ _) as [[]|].
  - eapply SFleb_trans; [apply IH; lia|].
    pose proof ratioMonotone_100 as Hall. rewrite forallb_forall in Hall.
    specialize (Hall total). unfold ratioMonotoneAt in Hall. rewrite forallb_forall in Hall.
    apply Hall; apply in_seq; lia.
Qed.

Lemma verdict_worst_case node a r u :
  0 <= a → 0 <= r → 0 <= u →
  verdict node a r (a + r + u) = Ok PassRulePassed ↔
  verdict node a (r + u) (a + r + u) = Ok PassRulePassed.
Proof.
  intros Ha Hr Hu. unfold verdict. destruct (FlowNode_PassRule node); cbn; [| | | |done].
  - unfold AllPassStrategy_Evaluate; cbn.
    destruct (Z.ltb_spec 0 r), (Z.ltb_spec 0 (r + u)), (Z.eqb_spec a (a + r + u)),
      (Z.ltb_spec 0 (a + r + u)); cbn; try done; try lia.
  - unfold AnyPassStrategy_Evaluate; cbn.
    destruct (Z.ltb_spec 0 a); [done|]. split; repeat case_match; done.
  - unfold RatioPassStrategy_Evaluate; cbn.
    destruct (a + r + u =? 0); [done|].
    destruct (SFleb _ (ratioOf a (a + r + u))); [done|]. split; case_match; done.
  - unfold FixedCountPassStrategy_Evaluate; cbn.
    destruct (a + r + u =? 0); [done|].
    destruct (_ <=? a); [done|]. split; case_match; done.
Qed.

Lemma verdict_best_case node a r u :
  0 <= a → 0 <= r → 0 <= u →
  (FlowNode_PassRule node = PassRatio → a + r + u <= 100) →
  verdict node a r (a + r + u) = Ok PassRuleRejected ↔
  verdict node (a + u) r (a + r + u) = Ok PassRuleRejected.
Proof.
  intros Ha Hr Hu Hbound. unfold verdict. destruct (FlowNode_PassRule node); cbn; [| | | |done].
  - unfold AllPassStrategy_Evaluate; cbn.
    destruct (Z.ltb_spec 0 r); [done|]. split; repeat case_match; done.
  - unfold AnyPassStrategy_Evaluate; cbn.
    destruct (Z.ltb_spec 0 a), (Z.ltb_spec 0 (a + u)), (Z.eqb_spec r (a + r + u)),
      (Z.ltb_spec 0 (a + r + u)); cbn; try done; try lia.
  - unfold RatioPassStrategy_Evaluate; cbn. specialize (Hbound eq_refl).
    destruct (Z.eqb_spec (a + r + u) 0) as [|Hn]; [done|].
    replace (a + r + u - r) with (a + u) by lia.
    destruct (SFltb (ratioOf (a + u) (a + r + u)) _) eqn:Hlt; [|split; by case_match].
    rewrite (SFltb_not_SFleb _ _ Hlt).
    destruct (SFleb _ (ratioOf a (a + r + u))) eqn:Hle; [|done].
    pose proof (ratioOf_mono (Z.to_nat a) (Z.to_nat (a + u)) (Z.to_nat (a + r + u))) as Hmono.
    rewrite !Z2Nat.id in Hmono by lia.
    apply SFltb_not_SFleb in Hlt. rewrite (SFleb_trans _ _ _ Hle) in Hlt; [done|].
    apply Hmono; lia.
  - unfold FixedCountPassStrategy_Evaluate; cbn.
    replace (a + r + u - r) with (a + u) by lia.
    destruct (Z.eqb_spec (a + r + u) 0); [done|].
    destruct (Z.leb_spec (Z.min (FlowNode_PassCount node) (a + r + u)) a),
      (Z.leb_spec (Z.min (FlowNode_PassCount node) (a + r + u)) (a + u)),
      (Z.ltb_spec (a + u) (Z.min (FlowNode_PassCount node) (a + r + u))); try done; lia.
Qed.


(** *** The ratio rule against the exact fraction *)

(** What the ratio rule means, in integers: pass when
    [approved/total >= pct/100], reject when it can no longer be reached. *)
Definition exactRatio (pct a r n : Z) : PassRuleResult :=
  if pct * n <=? 100 * a then PassRulePassed
  else if 100 * (n - r) <? pct * n then PassRuleRejected
  else PassRulePending.

Definition percents : list (Z * float64) :=
  Eval vm_compute in map (λ p, (p, float64_of_Z p)) (seqZ 1 100).
(** On count [n] of [total] the two float comparisons agree with the integers. *)
Definition ratioExactAt (total : Z) : bool :=
  forallb (λ n, let r := ratioOf n total in
    forallb (λ pf, Bool.eqb (SFleb pf.2 r) (pf.1 * total <=? 100 * n)
                   && Bool.eqb (SFltb r pf.2) (100 * n <? pf.1 * total)) percents)
    (seqZ 0 (total + 1)).
Lemma ratioExact_below_50 : forallb ratioExactAt (seqZ 1 49) = true.
Proof. vm_compute. reflexivity. Qed.
Lemma percents_spec pct : 1 <= pct <= 100 → (pct, float64_of_Z pct) ∈ percents.
Proof.
  intros Hp. change percents with (map (λ p, (p, float64_of_Z p)) (seqZ 1 100)).
  apply list_elem_of_fmap. exists pct. split; [done|]. apply elem_of_seqZ. lia.
Qed.
Lemma ratio_comparisons n total pct :
  1 <= pct <= 100 → 0 < total < 50 → 0 <= n <= total →
  SFleb (float64_of_Z pct) (ratioOf n total) = (pct * total <=? 100 * n) ∧
  SFltb (ratioOf n total) (float64_of_Z pct) = (100 * n <? pct * total).
Proof.
  intros Hp Ht Hn. pose proof ratioExact_below_50 as Hall. rewrite forallb_forall in Hall.
  assert (In total (seqZ 1 49)) as Hin by (apply list_elem_of_In, elem_of_seqZ; lia).
  specialize (Hall total Hin). unfold ratioExactAt in Hall. rewrite forallb_forall in Hall.
  assert (In n (seqZ 0 (total + 1))) as Hin' by (apply list_elem_of_In, elem_of_seqZ; lia).
  specialize (Hall n Hin'). cbv zeta in Hall. rewrite forallb_forall in Hall.
  specialize (Hall _ (proj1 (list_elem_of_In _ _) (percents_spec pct Hp))). cbn in Hall.
  apply andb_true_iff in Hall as [H1%eqb_prop H2%eqb_prop]. done.
Qed.

(** On every panel of fewer than fifty participants and every whole
    percentage threshold, the float64 ratio rule decides exactly as the
    fraction approved/total does. *)
Theorem ratio_rule_exact_below_50 node tasks pct :
  FlowNode_PassRule node = PassRatio →
  InexactFloat64 (FlowNode_PassRatio node) = float64_of_Z pct →
  1 <= pct <= 100 → 0 < zcount participates tasks < 50 →
  evaluatePassRule node tasks =
  Ok (exactRatio pct (zcount votesFor tasks) (zcount votesAgainst tasks)
        (zcount participates tasks)).
Proof.
  intros Hr Hf Hp Hn. rewrite evaluatePassRule_counts.
  rewrite (proj2 (Z.eqb_neq (zcount participates tasks) 0)) by lia.
  rewrite andb_false_r. unfold verdict. rewrite Hr; cbn. f_equal.
  unfold RatioPassStrategy_Evaluate, exactRatio; cbn. rewrite Hf.
  rewrite (proj2 (Z.eqb_neq _ _)) by lia.
  pose proof (zcount_partition tasks).
  pose proof (zcount_nonneg votesFor tasks). pose proof (zcount_nonneg votesAgainst tasks).
  pose proof (zcount_nonneg isOpen tasks).
  destruct (ratio_comparisons (zcount votesFor tasks) (zcount participates tasks) pct)
    as [-> _]; [lia..|].
  destruct (ratio_comparisons (zcount participates tasks - zcount votesAgainst tasks)
    (zcount participates tasks) pct) as [_ ->]; [lia..|done].
Qed.

(** C39. From fifty participants on it does not: with the threshold at 58
    percent, 29 approvals out of 50 are exactly 58 percent, yet the rule does
    not pass the node; with 21 rejections it even rejects it. *)
Theorem ratio_rule_rounds_at_50 node tasks :
  FlowNode_PassRule node = PassRatio →
  InexactFloat64 (FlowNode_PassRatio node) = float64_of_Z 58 →
  zcount participates tasks = 50 → zcount votesFor tasks = 29 → zcount votesAgainst tasks = 21 →
  exactRatio 58 29 21 50 = PassRulePassed ∧
  evaluatePassRule node tasks = Ok PassRuleRejected.
Proof.
  intros Hr Hf Hn Ha Hj. split; [done|]. rewrite evaluatePassRule_counts, Hn, Ha, Hj.
  cbn [Z.eqb]. rewrite andb_false_r. unfold verdict. rewrite Hr, Hf; cbn -[float64_of_Z].
  unfold RatioPassStrategy_Evaluate. vm_compute. reflexivity.
Qed.
End theorems.

(** ** Witnesses *)

Lemma finished_tasks_decide_node_witness :
  let tasks := [demoTask "1" "a" TaskApproved; demoTask "2" "b" TaskCanceled] in
  let node := demoNode "n" NodeApproval ApprovalParallel PassRatio 60 0 in
  @evaluatePassRule demoHost node tasks = Ok PassRulePassed ∨
  @evaluatePassRule demoHost node tasks = Ok PassRuleRejected.
Proof.
  apply (@finished_tasks_decide_node demoHost).
  - reflexivity.
  - by vm_compute.
  - done.
  - done.
  - repeat constructor.
Defined.


Lemma ratio_rule_exact_below_50_witness :
  @evaluatePassRule demoHost (demoNode "n" NodeApproval ApprovalParallel PassRatio 58 0)
    [demoTask "1" "a" TaskApproved; demoTask "2" "b" TaskPending]
  = Ok (exactRatio 58 1 0 2).
Proof.
  apply (@ratio_rule_exact_below_50 demoHost
    (demoNode "n" NodeApproval ApprovalParallel PassRatio 58 0)
    [demoTask "1" "a" TaskApproved; demoTask "2" "b" TaskPending] 58); by vm_compute.
Defined.

Lemma ratio_rule_rounds_at_50_witness :
  exactRatio 58 29 21 50 = PassRulePassed ∧
  @evaluatePassRule demoHost (demoNode "n" NodeApproval ApprovalParallel PassRatio 58 0)
    (replicate 29 (demoTask "1" "a" TaskApproved) ++ replicate 21 (demoTask "2" "b" TaskRejected))
  = Ok PassRuleRejected.
Proof.
  apply (@ratio_rule_rounds_at_50 demoHost); by vm_compute.
Defined.
