(* ===== verification/NodeConfig.v ===== *)
(** * Node data and its validation

    [approval/flow_definition.go] and [approval/node_data.go] (parsing a node's
    payload and applying it to the row that is stored), [shared/kind_rule.go], and
    the deploy-time checks of [service/node_config_validation.go],
    [service/condition_aggregates.go], [service/field_permissions.go] and
    [service/form_fields_validation.go].

    Messages are dropped from errors.  Go ranges over a map in no particular
    order; the model walks [map_to_list], which can only change which of several
    faults is reported.

    A payload that passes [validateNodeConfig] yields, after [ApplyTo], a row the
    engine can execute: every enumeration is one it knows, the pass rule has its
    threshold, and the companions of the chosen actions are there. *)
From S2P Require Import Prelude Enums StateMachine Models Demo Store Shared Conditions PassRule.

(** The sentinels of [service/errors.go] and the two of [flow_definition.go]. *)
Inductive DesignError :=
  | ErrUnknownNodeKind | ErrNodeDataUnmarshal
  | errEmptyNodeID | errDuplicateNodeID | errInvalidNodeKind | errStartNodeCount | errEndNodeCount
  | errEmptyEdgeID | errDuplicateEdgeID | errUnknownSourceNode | errUnknownTargetNode
  | errStartIncoming | errStartOutgoing | errEndOutgoing | errEndIncoming | errNodeOutgoingCount
  | errNodeSourceHandle | errGraphCycle | errNodeUnreachable | errNodeCannotReachEnd | errNoNodes
  | errCondMinBranches | errCondEmptyBranchID | errCondDupBranchID | errCondDefaultCount
  | errCondMissingHandle | errCondUnknownHandle | errCondDupHandle | errCondBranchNoEdge
  | errUnexpectedCondData | errInvalidCCKind
  | errInvalidExecutionType | errInvalidApprovalMethod | errInvalidPassRule | errPassRatioOutOfRange
  | errPassCountOutOfRange | errInvalidEmptyAssigneeAction | errInvalidSameApplicantAction
  | errInvalidConsecutiveAction | errInvalidRollbackType | errInvalidRollbackStrategy
  | errRollbackTargetsRequired | errInvalidTimeoutAction | errInvalidAssigneeKind
  | errAssigneeIDsRequired | errAssigneeFormFieldRequired | errInvalidCCTiming | errCCIDsRequired
  | errCCFormFieldRequired | errFallbackUsersRequired | errAdminUsersRequired
  | errTimeoutAdminUsersRequired | errInvalidConditionKind | errInvalidConditionOperator
  | errConditionSubjectRequired | errConditionExprRequired | errDuplicateBranchPriority
  | errHandleExecutionAutoReject | errHandleTimeoutAutoReject | errRollbackTargetUnknown
  | errRollbackTargetSelf | errInvalidAddAssigneeType | errSequentialParallelAdd
  | errBranchConditionsRequired | errConditionGroupEmpty | errUnregisteredAggregate
  | errAggregateOnExpression | errAggregateOperator | errAggregateColumnRequired
  | errAggregateColumnForbidden | errAggregateSubjectNotTable | errAggregateColumnUnknown
  | errAggregateColumnNotNumeric
  | errFormFieldKeyEmpty | errDuplicateFormFieldKey | errInvalidFormFieldKind | errInvalidFormPattern
  | errInvalidFormLengthRange | errInvalidFormValueRange | errTableColumnsRequired
  | errNestedTableColumn | errColumnsOnScalarField | errInvalidOptionSourceKind
  | errRemoteOptionRequestIncomplete | errCodeSetOptionSourceIncomplete
  | errInvalidFieldPermission | errFieldPermissionKeyUnknown | errCCFieldPermissionNotAllowed
  | errRequiredPermissionAutoPass.
Notation des := (result DesignError).

(** [cmp.Or]: the value unless it is the zero of its type. *)
Definition cmpOr {A} `{EqDecision A} (zero x d : A) : A := if decide (x = zero) then d else x.

(** ** Payloads *)

Definition zeroBase : BaseNodeData := Build_BaseNodeData "" None.
Definition zeroTask : TaskNodeData :=
  Build_TaskNodeData [] (ExecutionTypeOther "") (EmptyAssigneeActionOther "") [] [] None false 0
    (TimeoutActionOther "") 0 0 [] ∅.
Definition zeroApproval : ApprovalNodeData :=
  Build_ApprovalNodeData zeroBase zeroTask (ApprovalMethodOther "") (PassRuleOther "")
    {| Decimal_coef := 0; Decimal_exp := 0 |} 0 (SameApplicantActionOther "")
    (ConsecutiveApproverActionOther "") (RollbackTypeOther "") (RollbackDataStrategyOther "") []
    None None [] None None.
Definition zeroHandle : HandleNodeData := Build_HandleNodeData zeroBase zeroTask.
Definition zeroCC : CCNodeData := Build_CCNodeData zeroBase [] false ∅.
Definition zeroCondition : ConditionNodeData := Build_ConditionNodeData zeroBase [].

Definition NodeData_Kind (data : NodeData) : NodeKind :=
  match data with
  | StartNodeData _ => NodeStart
  | EndNodeData _ => NodeEnd
  | NodeDataApproval _ => NodeApproval
  | NodeDataHandle _ => NodeHandle
  | NodeDataCC _ => NodeCC
  | NodeDataCondition _ => NodeCondition
  end.

(** [json.Unmarshal] into a zero target, skipped when there is no data. *)
Definition decodeInto {A} (decode : string → option A) (zero : A) (data : string) : des A :=
  if data ==? "" then Ok zero
  else match decode data with Some d => Ok d | None => Err ErrNodeDataUnmarshal end.
Definition ParseData `{!Host} (nd : NodeDefinition) : des NodeData :=
  let data := NodeDefinition_Data nd in
  match NodeDefinition_Kind nd with
  | NodeStart => StartNodeData <$> decodeInto decodeBaseNodeData zeroBase data
  | NodeEnd => EndNodeData <$> decodeInto decodeBaseNodeData zeroBase data
  | NodeApproval => NodeDataApproval <$> decodeInto decodeApprovalNodeData zeroApproval data
  | NodeHandle => NodeDataHandle <$> decodeInto decodeHandleNodeData zeroHandle data
  | NodeCC => NodeDataCC <$> decodeInto decodeCCNodeData zeroCC data
  | NodeCondition => NodeDataCondition <$> decodeInto decodeConditionNodeData zeroCondition data
  | NodeKindOther _ => Err ErrUnknownNodeKind
  end.

(** *** [ApplyTo] *)

Definition orTrue (value : option bool) : bool := default true value.

(** The node each payload makes of a fresh one ([versionID], [key], [kind] set). *)
Definition applyApproval (versionID key : string) (kind : NodeKind) (d : ApprovalNodeData) : FlowNode :=
  let b := ApprovalNodeData_Base d in
  let t := ApprovalNodeData_Task d in
  Build_FlowNode "" versionID key kind (BaseNodeData_Name b) (BaseNodeData_Description b)
    (cmpOr (ExecutionTypeOther "") (TaskNodeData_ExecutionType t) ExecutionManual)
    (cmpOr (ApprovalMethodOther "") (ApprovalNodeData_ApprovalMethod d) ApprovalParallel)
    (cmpOr (PassRuleOther "") (ApprovalNodeData_PassRule d) PassAll)
    (ApprovalNodeData_PassRatio d) (ApprovalNodeData_PassCount d)
    (cmpOr (EmptyAssigneeActionOther "") (TaskNodeData_EmptyAssigneeAction t) EmptyAssigneeAutoPass)
    (TaskNodeData_FallbackUserIDs t) (TaskNodeData_AdminUserIDs t)
    (cmpOr (SameApplicantActionOther "") (ApprovalNodeData_SameApplicantAction d) SameApplicantSelfApprove)
    (orTrue (ApprovalNodeData_IsRollbackAllowed d))
    (cmpOr (RollbackTypeOther "") (ApprovalNodeData_RollbackType d) RollbackPrevious)
    (cmpOr (RollbackDataStrategyOther "") (ApprovalNodeData_RollbackDataStrategy d) RollbackDataKeep)
    (ApprovalNodeData_RollbackTargetKeys d) (orTrue (ApprovalNodeData_IsAddAssigneeAllowed d))
    (ApprovalNodeData_AddAssigneeTypes d) (orTrue (ApprovalNodeData_IsRemoveAssigneeAllowed d))
    (TaskNodeData_FieldPermissions t) (orTrue (ApprovalNodeData_IsManualCCAllowed d))
    (orTrue (TaskNodeData_IsTransferAllowed t)) (TaskNodeData_IsOpinionRequired t)
    (TaskNodeData_TimeoutHours t)
    (cmpOr (TimeoutActionOther "") (TaskNodeData_TimeoutAction t) TimeoutActionNone)
    (TaskNodeData_TimeoutNotifyBeforeHours t) (TaskNodeData_UrgeCooldownMinutes t)
    (cmpOr (ConsecutiveApproverActionOther "") (ApprovalNodeData_ConsecutiveApproverAction d)
       ConsecutiveApproverNone)
    false [].
Definition applyHandle (versionID key : string) (kind : NodeKind) (d : HandleNodeData) : FlowNode :=
  let b := HandleNodeData_Base d in
  let t := HandleNodeData_Task d in
  Build_FlowNode "" versionID key kind (BaseNodeData_Name b) (BaseNodeData_Description b)
    (cmpOr (ExecutionTypeOther "") (TaskNodeData_ExecutionType t) ExecutionManual)
    ApprovalSequential PassAny {| Decimal_coef := 0; Decimal_exp := 0 |} 0
    (cmpOr (EmptyAssigneeActionOther "") (TaskNodeData_EmptyAssigneeAction t) EmptyAssigneeAutoPass)
    (TaskNodeData_FallbackUserIDs t) (TaskNodeData_AdminUserIDs t)
    (SameApplicantActionOther "") false (RollbackTypeOther "") (RollbackDataStrategyOther "") []
    false [] false (TaskNodeData_FieldPermissions t) false
    (orTrue (TaskNodeData_IsTransferAllowed t)) (TaskNodeData_IsOpinionRequired t)
    (TaskNodeData_TimeoutHours t)
    (cmpOr (TimeoutActionOther "") (TaskNodeData_TimeoutAction t) TimeoutActionNone)
    (TaskNodeData_TimeoutNotifyBeforeHours t) (TaskNodeData_UrgeCooldownMinutes t)
    (ConsecutiveApproverActionOther "") false [].
(** A node that only carries a name, permissions, the read-confirm flag and branches. *)
Definition applyPassive (versionID key : string) (kind : NodeKind) (b : BaseNodeData)
    (permissions : gmap string Permission) (readConfirm : bool) (branches : list ConditionBranch)
    : FlowNode :=
  Build_FlowNode "" versionID key kind (BaseNodeData_Name b) (BaseNodeData_Description b)
    (ExecutionTypeOther "") (ApprovalMethodOther "") (PassRuleOther "")
    {| Decimal_coef := 0; Decimal_exp := 0 |} 0 (EmptyAssigneeActionOther "") [] []
    (SameApplicantActionOther "") false (RollbackTypeOther "") (RollbackDataStrategyOther "") [] false
    [] false permissions false false false 0 (TimeoutActionOther "") 0 0
    (ConsecutiveApproverActionOther "") readConfirm branches.
Definition ApplyTo (data : NodeData) (versionID key : string) (kind : NodeKind) : FlowNode :=
  match data with
  | StartNodeData b | EndNodeData b => applyPassive versionID key kind b ∅ false []
  | NodeDataApproval d => applyApproval versionID key kind d
  | NodeDataHandle d => applyHandle versionID key kind d
  | NodeDataCC d => applyPassive versionID key kind (CCNodeData_Base d) (CCNodeData_FieldPermissions d)
                      (CCNodeData_IsReadConfirmRequired d) []
  | NodeDataCondition d => applyPassive versionID key kind (ConditionNodeData_Base d) ∅ false
                             (ConditionNodeData_Branches d)
  end.

Definition GetAssignees (data : NodeData) : list AssigneeDefinition :=
  match data with
  | NodeDataApproval d => TaskNodeData_Assignees (ApprovalNodeData_Task d)
  | NodeDataHandle d => TaskNodeData_Assignees (HandleNodeData_Task d)
  | _ => []
  end.
Definition GetCCs (data : NodeData) : list CCDefinition :=
  match data with
  | NodeDataApproval d => TaskNodeData_CCs (ApprovalNodeData_Task d)
  | NodeDataHandle d => TaskNodeData_CCs (HandleNodeData_Task d)
  | NodeDataCC d => CCNodeData_CCs d
  | _ => []
  end.

(** ** Kind rules ([shared/kind_rule.go]) *)

Inductive KindRuleFault :=
  | KindRuleOK | KindRuleUnknownKind | KindRuleIDsRequired | KindRuleFormFieldRequired.
Definition HasText (s : option string) : bool :=
  match s with Some t => negb (TrimSpace t ==? "") | None => false end.
Definition CheckKindRule (kind : string) (ids : list string) (formField : option string)
    (selections : gmap string SelectionMode) : KindRuleFault :=
  match selections !! kind with
  | None => KindRuleUnknownKind
  | Some selection =>
      if RequiresIDs selection && (length (NormalizeUniqueIDs ids) =? 0)%nat then KindRuleIDsRequired
      else if RequiresFormField selection && negb (HasText formField) then KindRuleFormFieldRequired
      else KindRuleOK
  end.
(** The built-in kinds with the input they ask for; a host registration of the same
    kind takes precedence. *)
Definition builtinAssigneeSelections : gmap string SelectionMode :=
  list_to_map [(AssigneeUser, SelectionUser); (AssigneeRole, SelectionRole);
    (AssigneeDepartment, SelectionDepartment); (AssigneeSelf, SelectionNone);
    (AssigneeSuperior, SelectionNone); (AssigneeDepartmentLeader, SelectionNone);
    (AssigneeFormField, SelectionFormField)].
Definition builtinCCSelections : gmap string SelectionMode :=
  list_to_map [(CCUser, SelectionUser); (CCRole, SelectionRole); (CCDepartment, SelectionDepartment);
    (CCFormField, SelectionFormField)].

(** ** Node configuration ([service/node_config_validation.go]) *)

Section node_config.
Context `{!Host}.

Definition assigneeKinds : gmap string SelectionMode := hostAssigneeSelections ∪ builtinAssigneeSelections.
Definition ccKinds : gmap string SelectionMode := hostCCSelections ∪ builtinCCSelections.

Definition validateAssigneeDefinition (a : AssigneeDefinition) : des unit :=
  match CheckKindRule (AssigneeDefinition_Kind a) (AssigneeDefinition_IDs a)
          (AssigneeDefinition_FormField a) assigneeKinds with
  | KindRuleUnknownKind => Err errInvalidAssigneeKind
  | KindRuleIDsRequired => Err errAssigneeIDsRequired
  | KindRuleFormFieldRequired => Err errAssigneeFormFieldRequired
  | KindRuleOK => Ok tt
  end.
Definition validateAssigneeDefinitions : list AssigneeDefinition → des unit :=
  checkAll validateAssigneeDefinition.
Definition validateCCDefinition (c : CCDefinition) : des unit :=
  (match CheckKindRule (CCDefinition_Kind c) (CCDefinition_IDs c) (CCDefinition_FormField c) ccKinds with
   | KindRuleUnknownKind => Err errInvalidCCKind
   | KindRuleIDsRequired => Err errCCIDsRequired
   | KindRuleFormFieldRequired => Err errCCFormFieldRequired
   | KindRuleOK => Ok tt
   end) ≫= λ _,
  failIf (negb (CCDefinition_Timing c ==? CCTimingOther "") && negb (CCTiming_IsValid (CCDefinition_Timing c)))
    errInvalidCCTiming.
Definition validateCCDefinitions : list CCDefinition → des unit := checkAll validateCCDefinition.

Definition validateTaskNodeData (d : TaskNodeData) : des unit :=
  failIf (negb (TaskNodeData_ExecutionType d ==? ExecutionTypeOther "")
          && negb (ExecutionType_IsValid (TaskNodeData_ExecutionType d))) errInvalidExecutionType ≫= λ _,
  failIf (negb (TaskNodeData_EmptyAssigneeAction d ==? EmptyAssigneeActionOther "")
          && negb (EmptyAssigneeAction_IsValid (TaskNodeData_EmptyAssigneeAction d)))
    errInvalidEmptyAssigneeAction ≫= λ _,
  failIf ((TaskNodeData_EmptyAssigneeAction d ==? EmptyAssigneeTransferSpecified)
          && (length (TaskNodeData_FallbackUserIDs d) =? 0)%nat) errFallbackUsersRequired ≫= λ _,
  failIf ((TaskNodeData_EmptyAssigneeAction d ==? EmptyAssigneeTransferAdmin)
          && (length (TaskNodeData_AdminUserIDs d) =? 0)%nat) errAdminUsersRequired ≫= λ _,
  failIf (negb (TaskNodeData_TimeoutAction d ==? TimeoutActionOther "")
          && negb (TimeoutAction_IsValid (TaskNodeData_TimeoutAction d))) errInvalidTimeoutAction ≫= λ _,
  failIf ((0 <? TaskNodeData_TimeoutHours d)%Z
          && (TaskNodeData_TimeoutAction d ==? TimeoutActionTransferAdmin)
          && (length (TaskNodeData_AdminUserIDs d) =? 0)%nat) errTimeoutAdminUsersRequired ≫= λ _,
  validateAssigneeDefinitions (TaskNodeData_Assignees d) ≫= λ _,
  validateCCDefinitions (TaskNodeData_CCs d).

Definition validatePassThreshold (d : ApprovalNodeData) : des unit :=
  match ApprovalNodeData_PassRule d with
  | PassRatio =>
      let ratio := InexactFloat64 (ApprovalNodeData_PassRatio d) in
      failIf (SFleb ratio (float64_of_Z 0) || SFltb (float64_of_Z 100) ratio) errPassRatioOutOfRange
  | PassFixedCount => failIf (ApprovalNodeData_PassCount d <=? 0)%Z errPassCountOutOfRange
  | _ => Ok tt
  end.

Definition validateApprovalNodeData (d : ApprovalNodeData) : des unit :=
  validateTaskNodeData (ApprovalNodeData_Task d) ≫= λ _,
  failIf (negb (ApprovalNodeData_ApprovalMethod d ==? ApprovalMethodOther "")
          && negb (ApprovalMethod_IsValid (ApprovalNodeData_ApprovalMethod d))) errInvalidApprovalMethod ≫= λ _,
  failIf (negb (ApprovalNodeData_PassRule d ==? PassRuleOther "")
          && negb (PassRule_IsValid (ApprovalNodeData_PassRule d))) errInvalidPassRule ≫= λ _,
  validatePassThreshold d ≫= λ _,
  failIf (negb (ApprovalNodeData_SameApplicantAction d ==? SameApplicantActionOther "")
          && negb (SameApplicantAction_IsValid (ApprovalNodeData_SameApplicantAction d)))
    errInvalidSameApplicantAction ≫= λ _,
  failIf (negb (ApprovalNodeData_ConsecutiveApproverAction d ==? ConsecutiveApproverActionOther "")
          && negb (ConsecutiveApproverAction_IsValid (ApprovalNodeData_ConsecutiveApproverAction d)))
    errInvalidConsecutiveAction ≫= λ _,
  failIf (negb (ApprovalNodeData_RollbackType d ==? RollbackTypeOther "")
          && negb (RollbackType_IsValid (ApprovalNodeData_RollbackType d))) errInvalidRollbackType ≫= λ _,
  failIf ((ApprovalNodeData_RollbackType d ==? RollbackSpecified)
          && (length (ApprovalNodeData_RollbackTargetKeys d) =? 0)%nat) errRollbackTargetsRequired ≫= λ _,
  failIf (negb (ApprovalNodeData_RollbackDataStrategy d ==? RollbackDataStrategyOther "")
          && negb (RollbackDataStrategy_IsValid (ApprovalNodeData_RollbackDataStrategy d)))
    errInvalidRollbackStrategy ≫= λ _,
  checkAll (λ t, failIf (negb (AddAssigneeType_IsValid t)) errInvalidAddAssigneeType)
    (ApprovalNodeData_AddAssigneeTypes d) ≫= λ _,
  failIf ((cmpOr (ApprovalMethodOther "") (ApprovalNodeData_ApprovalMethod d) ApprovalParallel
             ==? ApprovalSequential)
          && bool_decide (AddAssigneeParallel ∈ ApprovalNodeData_AddAssigneeTypes d))
    errSequentialParallelAdd.

Definition validateHandleNodeData (d : HandleNodeData) : des unit :=
  validateTaskNodeData (HandleNodeData_Task d) ≫= λ _,
  failIf (TaskNodeData_ExecutionType (HandleNodeData_Task d) ==? ExecutionAutoReject)
    errHandleExecutionAutoReject ≫= λ _,
  failIf (TaskNodeData_TimeoutAction (HandleNodeData_Task d) ==? TimeoutActionAutoReject)
    errHandleTimeoutAutoReject.

Definition validateConditionAggregateShape (cond : Condition) : des unit :=
  if Condition_Aggregate cond ==? AggregateNone then Ok tt
  else
    (match Condition_Operator cond with
     | OperatorEquals | OperatorNotEquals | OperatorGreater | OperatorGreaterOrEq | OperatorLess
     | OperatorLessOrEq => Ok tt
     | _ => Err errAggregateOperator
     end) ≫= λ _,
    if negb (FoldsColumn (Condition_Aggregate cond))
    then failIf (negb (Condition_Column cond ==? "")) errAggregateColumnForbidden
    else failIf (Condition_Column cond ==? "") errAggregateColumnRequired.
Definition validateCondition (cond : Condition) : des unit :=
  match Condition_Kind cond with
  | ConditionField =>
      failIf (Condition_Subject cond ==? "") errConditionSubjectRequired ≫= λ _,
      failIf (negb (ConditionOperator_IsValid (Condition_Operator cond))) errInvalidConditionOperator ≫= λ _,
      validateConditionAggregateShape cond
  | ConditionExpression =>
      failIf (negb (Condition_Aggregate cond ==? AggregateNone)) errAggregateOnExpression ≫= λ _,
      failIf (TrimSpace (Condition_Expression cond) ==? "") errConditionExprRequired
  | ConditionKindOther _ => Err errInvalidConditionKind
  end.
Definition validateConditionGroup (group : ConditionGroup) : des unit :=
  failIf (length (ConditionGroup_Conditions group) =? 0)%nat errConditionGroupEmpty ≫= λ _,
  checkAll validateCondition (ConditionGroup_Conditions group).
(** The loop of [validateConditionBranches], with the priorities seen so far. *)
Fixpoint validateBranchesFrom (seen : gset Z) (branches : list ConditionBranch) : des unit :=
  match branches with
  | [] => Ok tt
  | branch :: rest =>
      (if ConditionBranch_IsDefault branch then Ok seen
       else
         failIf (bool_decide (ConditionBranch_Priority branch ∈ seen)) errDuplicateBranchPriority ≫= λ _,
         failIf (length (ConditionBranch_ConditionGroups branch) =? 0)%nat errBranchConditionsRequired ≫= λ _,
         Ok ({[ConditionBranch_Priority branch]} ∪ seen)) ≫= λ seen,
      checkAll validateConditionGroup (ConditionBranch_ConditionGroups branch) ≫= λ _,
      validateBranchesFrom seen rest
  end.
Definition validateConditionBranches : list ConditionBranch → des unit := validateBranchesFrom ∅.

Definition validateNodeConfig (data : NodeData) : des unit :=
  match data with
  | NodeDataApproval d => validateApprovalNodeData d
  | NodeDataHandle d => validateHandleNodeData d
  | NodeDataCC d => validateCCDefinitions (CCNodeData_CCs d)
  | NodeDataCondition d => validateConditionBranches (ConditionNodeData_Branches d)
  | StartNodeData _ | EndNodeData _ => Ok tt
  end.

(** ** The form's fields ([service/form_fields_validation.go]) *)

Definition validateFieldValidationRule (field : FormFieldDefinition) : des unit :=
  match FormField_Validation field with
  | None => Ok tt
  | Some rule =>
      failIf (negb (ValidationRule_Pattern rule ==? "")
              && negb (is_Some_b (regexpMatchString (ValidationRule_Pattern rule) "")))
        errInvalidFormPattern ≫= λ _,
      failIf (match ValidationRule_MinLength rule, ValidationRule_MaxLength rule with
              | Some lo, Some hi => (hi <? lo)%Z
              | _, _ => false
              end) errInvalidFormLengthRange ≫= λ _,
      failIf (match ValidationRule_Min rule, ValidationRule_Max rule with
              | Some lo, Some hi => SFltb hi lo
              | _, _ => false
              end) errInvalidFormValueRange
  end.
Definition validateOptionSource (field : FormFieldDefinition) : des unit :=
  match FormField_OptionSource field with
  | None => Ok tt
  | Some source =>
      match FieldOptionSource_Kind source with
      | OptionSourceRemote =>
          failIf (match FieldOptionSource_Request source with
                  | None => true
                  | Some request => (TrimSpace (RemoteOptionRequest_Resource request) ==? "")
                                    || (TrimSpace (RemoteOptionRequest_Action request) ==? "")
                  end) errRemoteOptionRequestIncomplete
      | OptionSourceCodeSet =>
          failIf (TrimSpace (FieldOptionSource_CodeSet source) ==? "") errCodeSetOptionSourceIncomplete
      | OptionSourceKindOther _ => Err errInvalidOptionSourceKind
      end
  end.
(** The loop over the columns of a table, with the keys seen so far. *)
Fixpoint validateColumnsFrom (keys : gset string) (columns : list FormFieldDefinition) : des unit :=
  match columns with
  | [] => Ok tt
  | column :: rest =>
      failIf (TrimSpace (FormField_Key column) ==? "") errFormFieldKeyEmpty ≫= λ _,
      failIf (bool_decide (FormField_Key column ∈ keys)) errDuplicateFormFieldKey ≫= λ _,
      failIf (FormField_Kind column ==? FieldTable) errNestedTableColumn ≫= λ _,
      failIf (negb (FieldKind_IsValid (FormField_Kind column))) errInvalidFormFieldKind ≫= λ _,
      validateFieldValidationRule column ≫= λ _,
      validateOptionSource column ≫= λ _,
      validateColumnsFrom ({[FormField_Key column]} ∪ keys) rest
  end.
Definition validateTableColumns (field : FormFieldDefinition) : des unit :=
  if negb (FormField_Kind field ==? FieldTable)
  then failIf (0 <? length (FormField_Columns field))%nat errColumnsOnScalarField
  else
    failIf (length (FormField_Columns field) =? 0)%nat errTableColumnsRequired ≫= λ _,
    validateColumnsFrom ∅ (FormField_Columns field).
Fixpoint validateFormFieldsFrom (keys : gset string) (fields : list FormFieldDefinition) : des unit :=
  match fields with
  | [] => Ok tt
  | field :: rest =>
      failIf (TrimSpace (FormField_Key field) ==? "") errFormFieldKeyEmpty ≫= λ _,
      failIf (bool_decide (FormField_Key field ∈ keys)) errDuplicateFormFieldKey ≫= λ _,
      failIf (negb (FieldKind_IsValid (FormField_Kind field))) errInvalidFormFieldKind ≫= λ _,
      validateFieldValidationRule field ≫= λ _,
      validateOptionSource field ≫= λ _,
      validateTableColumns field ≫= λ _,
      validateFormFieldsFrom ({[FormField_Key field]} ∪ keys) rest
  end.
Definition ValidateFormFields : list FormFieldDefinition → des unit := validateFormFieldsFrom ∅.

(** ** Where the flow and the form meet *)

(** [service/condition_aggregates.go]; a later definition of a key replaces an earlier one. *)
Definition tableFieldIndex (fields : list FormFieldDefinition)
    : gmap string (gmap string FormFieldDefinition) :=
  foldl (λ tables field,
    if negb (FormField_Kind field ==? FieldTable) then tables
    else <[FormField_Key field :=
             foldl (λ columns column, <[FormField_Key column := column]> columns) ∅
               (FormField_Columns field)]> tables) ∅ fields.
Definition aggregateRegistered (kind : AggregateKind) : bool :=
  match kind with
  | AggregateNone => false
  | AggregateSum | AggregateCount | AggregateAvg => true
  | AggregateOther k => is_Some_b (hostAggregators k)
  end.
Definition validateAggregateReference (tables : gmap string (gmap string FormFieldDefinition))
    (cond : Condition) : des unit :=
  failIf (negb (aggregateRegistered (Condition_Aggregate cond))) errUnregisteredAggregate ≫= λ _,
  match tables !! Condition_Subject cond with
  | None => Err errAggregateSubjectNotTable
  | Some columns =>
      if negb (FoldsColumn (Condition_Aggregate cond)) then Ok tt
      else
        match columns !! Condition_Column cond with
        | None => Err errAggregateColumnUnknown
        | Some column => failIf (negb (FormField_Kind column ==? FieldNumber)) errAggregateColumnNotNumeric
        end
  end.
Definition nodeConditions (data : NodeData) : list Condition :=
  match data with
  | NodeDataCondition d =>
      branch ← ConditionNodeData_Branches d;
      group ← ConditionBranch_ConditionGroups branch;
      ConditionGroup_Conditions group
  | _ => []
  end.
Definition ValidateConditionAggregates (nodeData : gmap string NodeData)
    (fields : list FormFieldDefinition) : des unit :=
  let tables := tableFieldIndex fields in
  checkAll (λ data : string * NodeData,
    checkAll (λ cond,
      if negb (Condition_Kind cond ==? ConditionField) || (Condition_Aggregate cond ==? AggregateNone)
      then Ok tt else validateAggregateReference tables cond)
      (nodeConditions data.2)) (map_to_list nodeData).

(** [service/field_permissions.go] *)
Definition fieldPermissionsOf (data : NodeData) : gmap string Permission * bool :=
  match data with
  | NodeDataApproval d => (TaskNodeData_FieldPermissions (ApprovalNodeData_Task d), false)
  | NodeDataHandle d => (TaskNodeData_FieldPermissions (HandleNodeData_Task d), false)
  | NodeDataCC d => (CCNodeData_FieldPermissions d, true)
  | _ => (∅, false)
  end.
Definition resolvedTimeoutAction (data : NodeData) : TimeoutAction :=
  match data with
  | NodeDataApproval d =>
      cmpOr (TimeoutActionOther "") (TaskNodeData_TimeoutAction (ApprovalNodeData_Task d)) TimeoutActionNone
  | NodeDataHandle d =>
      cmpOr (TimeoutActionOther "") (TaskNodeData_TimeoutAction (HandleNodeData_Task d)) TimeoutActionNone
  | _ => TimeoutActionOther ""
  end.
Definition formFieldKeySet (fields : list FormFieldDefinition) : gset string :=
  list_to_set (FormField_Key <$> fields).
Definition validateFieldPermissionEntry (isCC : bool) (fieldKeys : gset string)
    (entry : string * Permission) : des unit :=
  let '(key, perm) := entry in
  failIf (negb (Permission_IsValid perm)) errInvalidFieldPermission ≫= λ _,
  failIf (negb (bool_decide (key ∈ fieldKeys))) errFieldPermissionKeyUnknown ≫= λ _,
  failIf (isCC && negb (perm ==? PermissionVisible) && negb (perm ==? PermissionHidden))
    errCCFieldPermissionNotAllowed.
Definition validateNodePermissions (fieldKeys : gset string) (data : NodeData) : des unit :=
  let '(permissions, isCC) := fieldPermissionsOf data in
  checkAll (validateFieldPermissionEntry isCC fieldKeys) (map_to_list permissions) ≫= λ _,
  failIf (existsb (λ entry, entry.2 ==? PermissionRequired) (map_to_list permissions)
          && (resolvedTimeoutAction data ==? TimeoutActionAutoPass)) errRequiredPermissionAutoPass.
Definition ValidateFieldPermissions (nodeData : gmap string NodeData)
    (fields : list FormFieldDefinition) : des unit :=
  checkAll (λ data : string * NodeData, validateNodePermissions (formFieldKeySet fields) data.2)
    (map_to_list nodeData).
End node_config.

(** ** What a valid payload makes of a node *)

(** A task node the engine can run: its enumerations are known and whatever its
    choices depend on is there. *)
Record executable `{!Host} (n : FlowNode) : Prop := {
  ex_execution : ExecutionType_IsValid (FlowNode_ExecutionType n) = true;
  ex_method : ApprovalMethod_IsValid (FlowNode_ApprovalMethod n) = true;
  ex_rule : PassRule_IsValid (FlowNode_PassRule n) = true;
  ex_ratio : FlowNode_PassRule n = PassRatio →
    SFleb (InexactFloat64 (FlowNode_PassRatio n)) (float64_of_Z 0) = false ∧
    SFltb (float64_of_Z 100) (InexactFloat64 (FlowNode_PassRatio n)) = false;
  ex_count : FlowNode_PassRule n = PassFixedCount → (0 < FlowNode_PassCount n)%Z;
  ex_empty : EmptyAssigneeAction_IsValid (FlowNode_EmptyAssigneeAction n) = true;
  ex_fallback : FlowNode_EmptyAssigneeAction n = EmptyAssigneeTransferSpecified → FlowNode_FallbackUserIDs n ≠ [];
  ex_admins : FlowNode_EmptyAssigneeAction n = EmptyAssigneeTransferAdmin → FlowNode_AdminUserIDs n ≠ [];
  ex_timeout : TimeoutAction_IsValid (FlowNode_TimeoutAction n) = true;
  ex_escalation : FlowNode_TimeoutAction n = TimeoutActionTransferAdmin → (0 < FlowNode_TimeoutHours n)%Z →
    FlowNode_AdminUserIDs n ≠ [];
}.
(** What only an approval node has. *)
Record decidable (n : FlowNode) : Prop := {
  dc_applicant : SameApplicantAction_IsValid (FlowNode_SameApplicantAction n) = true;
  dc_consecutive : ConsecutiveApproverAction_IsValid (FlowNode_ConsecutiveApproverAction n) = true;
  dc_rollback : RollbackType_IsValid (FlowNode_RollbackType n) = true;
  dc_strategy : RollbackDataStrategy_IsValid (FlowNode_RollbackDataStrategy n) = true;
  dc_targets : FlowNode_RollbackType n = RollbackSpecified → FlowNode_RollbackTargetKeys n ≠ [];
  dc_added : ∀ t, t ∈ FlowNode_AddAssigneeTypes n → AddAssigneeType_IsValid t = true;
  dc_sequential : FlowNode_ApprovalMethod n = ApprovalSequential →
    AddAssigneeParallel ∉ FlowNode_AddAssigneeTypes n;
}.

(** An omitted enumeration becomes its default, any other passed its check. *)
Lemma cmpOr_valid {A} `{EqDecision A} (valid : A → bool) (zero x d : A) :
  valid d = true → negb (bool_decide (x = zero)) && negb (valid x) = false → valid (cmpOr zero x d) = true.
Proof.
  intros Hd. unfold cmpOr. destruct (decide (x = zero)) as [->|Hne]; [done|].
  rewrite bool_decide_false by done. cbn. by rewrite negb_false_iff.
Qed.
(** A choice other than the default was made explicitly. *)
Lemma cmpOr_chosen {A} `{EqDecision A} (zero x d y : A) : cmpOr zero x d = y → y ≠ d → x = y.
Proof. unfold cmpOr. case_decide; naive_solver. Qed.
Lemma nonempty_check {A} (b : bool) (l : list A) : b && (length l =? 0)%nat = false → b = true → l ≠ [].
Proof. intros Hc -> ->. done. Qed.

Section executable.
Context `{!Host}.
(** Splits a chain of checks into its parts. *)
Ltac checks H := repeat match type of H with
  | (_ ≫= _) = Ok _ => let Hc := fresh "Hc" in apply result_seq_Ok in H as [Hc H]
  end; repeat match goal with Hc : failIf _ _ = Ok tt |- _ => apply failIf_Ok in Hc end.

(** The part approval and handle nodes share. *)
Record taskReady (t : TaskNodeData) : Prop := {
  tr_execution : ExecutionType_IsValid
    (cmpOr (ExecutionTypeOther "") (TaskNodeData_ExecutionType t) ExecutionManual) = true;
  tr_empty : EmptyAssigneeAction_IsValid
    (cmpOr (EmptyAssigneeActionOther "") (TaskNodeData_EmptyAssigneeAction t) EmptyAssigneeAutoPass) = true;
  tr_fallback : TaskNodeData_EmptyAssigneeAction t = EmptyAssigneeTransferSpecified → TaskNodeData_FallbackUserIDs t ≠ [];
  tr_admins : TaskNodeData_EmptyAssigneeAction t = EmptyAssigneeTransferAdmin → TaskNodeData_AdminUserIDs t ≠ [];
  tr_timeout : TimeoutAction_IsValid
    (cmpOr (TimeoutActionOther "") (TaskNodeData_TimeoutAction t) TimeoutActionNone) = true;
  tr_escalation : TaskNodeData_TimeoutAction t = TimeoutActionTransferAdmin → (0 < TaskNodeData_TimeoutHours t)%Z →
    TaskNodeData_AdminUserIDs t ≠ [];
}.
Lemma validateTaskNodeData_Ok t : validateTaskNodeData t = Ok tt → taskReady t.
Proof.
  intros Hv. unfold validateTaskNodeData in Hv. checks Hv. split.
  - by apply cmpOr_valid.
  - by apply cmpOr_valid.
  - intros He. apply (nonempty_check (TaskNodeData_EmptyAssigneeAction t ==? EmptyAssigneeTransferSpecified)); [done|].
    by apply bool_decide_eq_true.
  - intros He. apply (nonempty_check (TaskNodeData_EmptyAssigneeAction t ==? EmptyAssigneeTransferAdmin)); [done|].
    by apply bool_decide_eq_true.
  - by apply cmpOr_valid.
  - intros He Hh. apply (nonempty_check ((0 <? TaskNodeData_TimeoutHours t)%Z
      && (TaskNodeData_TimeoutAction t ==? TimeoutActionTransferAdmin))); [done|].
    by rewrite andb_true_iff, Z.ltb_lt, bool_decide_eq_true.
Qed.
Lemma taskReady_executable t n :
  taskReady t →
  FlowNode_ExecutionType n = cmpOr (ExecutionTypeOther "") (TaskNodeData_ExecutionType t) ExecutionManual →
  FlowNode_EmptyAssigneeAction n =
    cmpOr (EmptyAssigneeActionOther "") (TaskNodeData_EmptyAssigneeAction t) EmptyAssigneeAutoPass →
  FlowNode_TimeoutAction n = cmpOr (TimeoutActionOther "") (TaskNodeData_TimeoutAction t) TimeoutActionNone →
  FlowNode_FallbackUserIDs n = TaskNodeData_FallbackUserIDs t →
  FlowNode_AdminUserIDs n = TaskNodeData_AdminUserIDs t →
  FlowNode_TimeoutHours n = TaskNodeData_TimeoutHours t →
  ApprovalMethod_IsValid (FlowNode_ApprovalMethod n) = true → PassRule_IsValid (FlowNode_PassRule n) = true →
  (FlowNode_PassRule n = PassRatio →
    SFleb (InexactFloat64 (FlowNode_PassRatio n)) (float64_of_Z 0) = false ∧
    SFltb (float64_of_Z 100) (InexactFloat64 (FlowNode_PassRatio n)) = false) →
  (FlowNode_PassRule n = PassFixedCount → (0 < FlowNode_PassCount n)%Z) →
  executable n.
Proof.
  intros [] He Hem Hto Hfb Had Hh Hm Hr Hratio Hcount.
  split; rewrite ?He, ?Hem, ?Hto, ?Hfb, ?Had, ?Hh; auto;
    (intros Hx%cmpOr_chosen; [auto|done]).
Qed.
Lemma validatePassThreshold_Ok d :
  validatePassThreshold d = Ok tt →
  let rule := cmpOr (PassRuleOther "") (ApprovalNodeData_PassRule d) PassAll in
  (rule = PassRatio →
    SFleb (InexactFloat64 (ApprovalNodeData_PassRatio d)) (float64_of_Z 0) = false ∧
    SFltb (float64_of_Z 100) (InexactFloat64 (ApprovalNodeData_PassRatio d)) = false) ∧
  (rule = PassFixedCount → (0 < ApprovalNodeData_PassCount d)%Z).
Proof.
  unfold validatePassThreshold. intros Hv. split; intros Hr%cmpOr_chosen; try done; rewrite Hr in Hv;
    apply failIf_Ok in Hv; [by apply orb_false_iff in Hv|by apply Z.leb_gt].
Qed.
Lemma validateApprovalNodeData_Ok versionID key kind d :
  validateApprovalNodeData d = Ok tt →
  executable (applyApproval versionID key kind d) ∧ decidable (applyApproval versionID key kind d).
Proof.
  intros Hv. unfold validateApprovalNodeData in Hv. checks Hv.
  apply validateTaskNodeData_Ok in Hc as Ht.
  match goal with Hp : validatePassThreshold _ = _ |- _ => apply validatePassThreshold_Ok in Hp as [Hratio Hcount] end.
  match goal with Hp : checkAll _ _ = Ok tt |- _ => rewrite checkAll_Ok in Hp; rename Hp into Hadd end.
  split.
  - apply (taskReady_executable _ _ Ht); try done; by apply cmpOr_valid.
  - split; cbn; try (by apply cmpOr_valid).
    + intros Hx%cmpOr_chosen; [|done]. apply (nonempty_check (ApprovalNodeData_RollbackType d ==? RollbackSpecified)); [done|].
      by apply bool_decide_eq_true.
    + intros t Hin. specialize (Hadd t Hin). by rewrite failIf_Ok, negb_false_iff in Hadd.
    + intros Hs Hin. rewrite Hs, (bool_decide_true _ Hin) in Hv. done.
Qed.
Lemma validateHandleNodeData_Ok versionID key kind d :
  validateHandleNodeData d = Ok tt →
  let n := applyHandle versionID key kind d in
  executable n ∧ FlowNode_ExecutionType n ≠ ExecutionAutoReject ∧ FlowNode_TimeoutAction n ≠ TimeoutActionAutoReject.
Proof.
  intros Hv. unfold validateHandleNodeData in Hv. checks Hv. apply validateTaskNodeData_Ok in Hc as Ht.
  apply bool_decide_eq_false in Hv, Hc0. cbn. split_and!.
  - by apply (taskReady_executable _ _ Ht).
  - by intros Hx%cmpOr_chosen.
  - by intros Hx%cmpOr_chosen.
Qed.

End executable.

