(* ===== verification/FormStorage.v ===== *)
(** * Form storage

    [internal/approval/storage]: how the fields of a form become physical tables
    ([ddl.go], [types.go]), and how the form data of an instance is written to
    them ([table.go], [json.go], dispatched by [storage.go]).  Also
    [ValidateBusinessIdentifier] of [approval/binding.go].

    The generated tables are known to the model by the statements sent for them.
    What deployment accepts for table storage, publishing can provision: every
    generated name is a plain SQL identifier, and columns and tables do not
    collide. *)
From Stdlib Require Import Ascii.
From S2P Require Import Prelude Enums StateMachine Models Demo Store Shared FormValidation.

(** ** Identifiers *)

Notation bytes := String.list_ascii_of_string.
Definition byteOf (a : ascii) : nat := nat_of_ascii a.
Definition inRange (lo hi : nat) (a : ascii) : bool := (lo <=? byteOf a)%nat && (byteOf a <=? hi)%nat.
Definition isLower : ascii → bool := inRange 97 122.
Definition isUpper : ascii → bool := inRange 65 90.
Definition isDigit : ascii → bool := inRange 48 57.
Definition isUnderscore : ascii → bool := inRange 95 95.

(** [^[A-Za-z_][A-Za-z0-9_]{0,62}$] *)
Definition identStart (a : ascii) : bool := isLower a || isUpper a || isUnderscore a.
Definition identPart (a : ascii) : bool := identStart a || isDigit a.
Definition businessIdentifierPattern (s : string) : bool :=
  match bytes s with
  | [] => false
  | a :: rest => identStart a && forallb identPart rest && (length rest <=? 62)%nat
  end.
Definition ValidateBusinessIdentifier (id : string) : res unit :=
  let trimmed := TrimSpace id in
  if trimmed ==? "" then Ok tt
  else failIf (negb (businessIdentifierPattern trimmed)) ErrInvalidBusinessIdentifier.
(** Where the failure is wrapped in [ErrInvalidGeneratedIdentifier]. *)
Definition requireIdentifier (id : string) : res unit :=
  match ValidateBusinessIdentifier id with
  | Ok _ => Ok tt
  | Err _ => Err ErrInvalidGeneratedIdentifier
  end.

(** [strings.ToLower], byte by byte: beside the Latin capitals only the dotted
    capital I (U+0130) and the Kelvin sign (U+212A) have an ASCII lower case; any
    other letter outside ASCII stays outside and is left as it is, which is all
    the replacement below can tell. *)
Definition lowerASCII (a : ascii) : ascii := if isUpper a then ascii_of_nat (byteOf a + 32) else a.
Fixpoint lowerBytes (l : list ascii) : list ascii :=
  match l with
  | [] => []
  | a :: l1 =>
      match l1 with
      | [] => [lowerASCII a]
      | b :: l2 =>
          if (byteOf a =? 196)%nat && (byteOf b =? 176)%nat then ascii_of_nat 105 :: lowerBytes l2
          else
            match l2 with
            | c :: l3 =>
                if (byteOf a =? 226)%nat && (byteOf b =? 132)%nat && (byteOf c =? 170)%nat
                then ascii_of_nat 107 :: lowerBytes l3
                else lowerASCII a :: lowerBytes l1
            | [] => lowerASCII a :: lowerBytes l1
            end
      end
  end.
(** [nonIdentifierRune.ReplaceAllString(..., "_")]: a run becomes one underscore. *)
Definition identRune (a : ascii) : bool := isLower a || isDigit a || isUnderscore a.
Fixpoint replaceRuns (inRun : bool) (l : list ascii) : list ascii :=
  match l with
  | [] => []
  | a :: l =>
      if identRune a then a :: replaceRuns false l
      else if inRun then replaceRuns true l
      else ascii_of_nat 95 :: replaceRuns true l
  end.
Definition sanitizeForIdentifier (s : string) : string :=
  String.string_of_list_ascii (replaceRuns false (lowerBytes (bytes (TrimSpace s)))).

(** [strings.TrimRight(s, "_")] and [s[:n]] *)
Fixpoint dropUnderscores (l : list ascii) : list ascii :=
  match l with
  | a :: l' => if isUnderscore a then dropUnderscores l' else l
  | [] => []
  end.
Definition trimRightUnderscore (s : string) : string :=
  String.string_of_list_ascii (reverse (dropUnderscores (reverse (bytes s)))).
Definition takeBytes (n : nat) (s : string) : string := String.string_of_list_ascii (take n (bytes s)).

Definition identifierMaxLen : Z := 63.
Definition physicalTablePrefix : string := "apv_form_".
Definition reservedColumns : list string := ["id"; "instance_id"; "row_index"; "created_at"].

Definition buildPhysicalTableName (flowCode versionID : string) : res string :=
  let name := sanitizeForIdentifier flowCode in
  let codeBudget := (identifierMaxLen - Z.of_nat (String.length physicalTablePrefix)
                     - Z.of_nat (String.length versionID) - 1)%Z in
  let name := if (0 <? codeBudget)%Z && (codeBudget <? Z.of_nat (String.length name))%Z
              then takeBytes (Z.to_nat codeBudget) name else name in
  let name := trimRightUnderscore name in
  let table := if (0 <? codeBudget)%Z && negb (name ==? "")
               then physicalTablePrefix +:+ name +:+ "_" +:+ versionID
               else physicalTablePrefix +:+ versionID in
  requireIdentifier table ≫= λ _, Ok table.

Definition childSuffixBudget : nat := 32.
Definition childTableSuffix (fieldKey : string) : string :=
  let suffix := sanitizeForIdentifier fieldKey in
  if (childSuffixBudget <? String.length suffix)%nat
  then trimRightUnderscore (takeBytes childSuffixBudget suffix) else suffix.
Definition buildChildTableName (versionID fieldKey : string) : res string :=
  let name := physicalTablePrefix +:+ versionID +:+ "__" +:+ childTableSuffix fieldKey in
  requireIdentifier name ≫= λ _, Ok name.
Definition childIndexName (tableName : string) : string :=
  let base := "idx_" +:+ tableName in
  let suffix := "__instance_id" in
  let base := if (identifierMaxLen <? Z.of_nat (String.length base + String.length suffix))%Z
              then trimRightUnderscore (takeBytes (63 - String.length suffix) base) else base in
  base +:+ suffix.

(** ** The deploy-time check *)

Definition validateColumnField (field : FormFieldDefinition) (seen : gset string) : res (gset string) :=
  failIf (negb (FormField_ColumnType field ==? ColumnUnset)
          && negb (ColumnDataType_IsValid (FormField_ColumnType field))) ErrInvalidColumnType ≫= λ _,
  let column := sanitizeForIdentifier (FormField_Key field) in
  requireIdentifier column ≫= λ _,
  failIf (bool_decide (column ∈ reservedColumns)) ErrReservedColumnName ≫= λ _,
  failIf (bool_decide (column ∈ seen)) ErrDuplicateColumnName ≫= λ _,
  Ok ({[column]} ∪ seen).
Definition reservedColumnPool : gset string := list_to_set reservedColumns.
Fixpoint validateColumnFields (fields : list FormFieldDefinition) (pool : gset string) : res unit :=
  match fields with
  | [] => Ok tt
  | field :: rest => validateColumnField field pool ≫= λ pool, validateColumnFields rest pool
  end.
Definition validateChildTableSchema (field : FormFieldDefinition) (childNames : gset string)
    : res (gset string) :=
  let suffix := childTableSuffix (FormField_Key field) in
  requireIdentifier suffix ≫= λ _,
  failIf (bool_decide (suffix ∈ childNames)) ErrDuplicateColumnName ≫= λ _,
  validateColumnFields (FormField_Columns field) reservedColumnPool ≫= λ _,
  Ok ({[suffix]} ∪ childNames).
Fixpoint validateTableFields (fields : list FormFieldDefinition) (seen childNames : gset string) : res unit :=
  match fields with
  | [] => Ok tt
  | field :: rest =>
      if FormField_Kind field ==? FieldTable
      then validateChildTableSchema field childNames ≫= λ childNames, validateTableFields rest seen childNames
      else validateColumnField field seen ≫= λ seen, validateTableFields rest seen childNames
  end.
Definition ValidateTableFormSchema (fields : list FormFieldDefinition) : res unit :=
  validateTableFields fields reservedColumnPool ∅.

(** ** Column types *)

Record sqlTypes := {
  ty_pk : string; ty_id : string; ty_text : string; ty_number : string; ty_integer : string;
  ty_boolean : string; ty_date : string; ty_datetime : string; ty_json : string;
  ty_timestamp : string; ty_now : string;
}.
Definition postgresTypes : sqlTypes :=
  Build_sqlTypes "VARCHAR(32)" "VARCHAR(32)" "TEXT" "NUMERIC" "BIGINT" "BOOLEAN" "DATE" "TIMESTAMP"
    "JSONB" "TIMESTAMP" "LOCALTIMESTAMP".
Definition mysqlTypes : sqlTypes :=
  Build_sqlTypes "VARCHAR(32)" "VARCHAR(32)" "TEXT" "DECIMAL(38,10)" "BIGINT" "BOOLEAN" "DATE" "DATETIME"
    "JSON" "DATETIME" "CURRENT_TIMESTAMP".
Definition sqliteTypes : sqlTypes :=
  Build_sqlTypes "TEXT" "TEXT" "TEXT" "NUMERIC" "INTEGER" "INTEGER" "TEXT" "TEXT" "TEXT" "TIMESTAMP"
    "(datetime('now', 'localtime'))".
Definition typesFor (kind : DBKind) : option sqlTypes :=
  match kind with
  | Postgres => Some postgresTypes
  | MySQL => Some mysqlTypes
  | SQLite => Some sqliteTypes
  | _ => None
  end.
Definition pkConstraint (kind : DBKind) (tableName : string) : string :=
  if kind ==? Postgres then "CONSTRAINT pk_" +:+ tableName +:+ " PRIMARY KEY" else "PRIMARY KEY".

Definition maxMySQLVarcharChars : Z := 16383.
Definition maxPostgresVarcharChars : Z := 10485760.
Definition varcharType (kind : DBKind) (length : Z) : string :=
  if kind ==? SQLite then "TEXT"
  else
    let ceiling := if kind ==? MySQL then maxMySQLVarcharChars else maxPostgresVarcharChars in
    if (ceiling <? length)%Z then "TEXT" else "VARCHAR(" +:+ pretty length +:+ ")".
Definition maxDecimalScale : Z := 30.
Definition decimalType (kind : DBKind) (scale : Z) : string :=
  let scale := if (maxDecimalScale <? scale)%Z then maxDecimalScale else scale in
  match kind with
  | SQLite => "NUMERIC"
  | MySQL => "DECIMAL(38," +:+ pretty scale +:+ ")"
  | _ => "NUMERIC(38," +:+ pretty scale +:+ ")"
  end.
Definition sqlTypeForKind (t : sqlTypes) (kind : FieldKind) : string :=
  if kind ==? FieldNumber then ty_number t else ty_text t.
Definition columnTypeFor (kind : DBKind) (t : sqlTypes) (field : FormFieldDefinition) : string :=
  match FormField_ColumnType field with
  | ColumnUnset => sqlTypeForKind t (FormField_Kind field)
  | ColumnString =>
      match FormField_Validation field ≫= ValidationRule_MaxLength with
      | Some n => if (0 <? n)%Z then varcharType kind n else ty_text t
      | None => ty_text t
      end
  | ColumnInteger => ty_integer t
  | ColumnDecimal =>
      decimalType kind (match FormField_Scale field with
                        | Some n => if (0 <? n)%Z then n else 0%Z
                        | None => 0%Z
                        end)
  | ColumnBoolean => ty_boolean t
  | ColumnDate => ty_date t
  | ColumnDatetime => ty_datetime t
  | ColumnJSON => ty_json t
  | ColumnText | ColumnDataTypeOther _ => ty_text t
  end.

(** ** Table specifications *)

Record columnSpec := {
  col_Name : string; col_Type : string; col_IsNullable : bool;
  col_SourceFieldKey : option string; col_SortOrder : Z;
}.
Record tableSpec := { tbl_Name : string; tbl_SourceFieldKey : string; tbl_Columns : list columnSpec }.
Definition IsChild (t : tableSpec) : bool := negb (tbl_SourceFieldKey t ==? "").

(** The columns of the given scalar fields, numbered from [sortOrder]. *)
Definition fieldColumns (kind : DBKind) (t : sqlTypes) (sortOrder : Z) (fields : list FormFieldDefinition)
    : list columnSpec :=
  imap (λ i field,
    Build_columnSpec (sanitizeForIdentifier (FormField_Key field)) (columnTypeFor kind t field)
      (negb (FormField_IsRequired field)) (Some (FormField_Key field)) (sortOrder + Z.of_nat i)) fields.
Definition createdAt (t : sqlTypes) (sortOrder : Z) : columnSpec :=
  Build_columnSpec "created_at" (ty_timestamp t) false None sortOrder.

Definition buildChildTableSpec (kind : DBKind) (t : sqlTypes) (versionID : string)
    (field : FormFieldDefinition) : res tableSpec :=
  buildChildTableName versionID (FormField_Key field) ≫= λ name,
  let columns := FormField_Columns field in
  Ok (Build_tableSpec name (FormField_Key field)
    ([Build_columnSpec "id" (ty_pk t) false None 0; Build_columnSpec "instance_id" (ty_id t) false None 1;
      Build_columnSpec "row_index" (ty_integer t) false None 2]
     ++ fieldColumns kind t 3 columns ++ [createdAt t (3 + Z.of_nat (length columns))])).
Fixpoint buildChildren (kind : DBKind) (t : sqlTypes) (versionID : string) (fields : list FormFieldDefinition)
    : res (list tableSpec) :=
  match fields with
  | [] => Ok []
  | field :: rest =>
      if FormField_Kind field ==? FieldTable then
        buildChildTableSpec kind t versionID field ≫= λ child,
        buildChildren kind t versionID rest ≫= λ children,
        Ok (child :: children)
      else buildChildren kind t versionID rest
  end.
Definition scalarFields (fields : list FormFieldDefinition) : list FormFieldDefinition :=
  List.filter (λ f, negb (FormField_Kind f ==? FieldTable)) fields.
Definition buildTableSpecs (kind : DBKind) (flowCode versionID : string)
    (fields : list FormFieldDefinition) : res (list tableSpec) :=
  match typesFor kind with
  | None => Err ErrUnsupportedDialect
  | Some t =>
      ValidateTableFormSchema fields ≫= λ _,
      buildPhysicalTableName flowCode versionID ≫= λ mainName,
      buildChildren kind t versionID fields ≫= λ children,
      let scalars := scalarFields fields in
      Ok (Build_tableSpec mainName ""
        ([Build_columnSpec "id" (ty_pk t) false None 0; Build_columnSpec "instance_id" (ty_id t) false None 1]
         ++ fieldColumns kind t 2 scalars ++ [createdAt t (2 + Z.of_nat (length scalars))]) :: children)
  end.

(** ** Statements *)

(** [strings.Join] *)
Fixpoint joinStrings (sep : string) (l : list string) : string :=
  match l with
  | [] => ""
  | [x] => x
  | x :: l => x +:+ sep +:+ joinStrings sep l
  end.
Definition newline : string := String (ascii_of_nat 10) "".
Definition renderColumn (kind : DBKind) (t : sqlTypes) (table : tableSpec) (spec : columnSpec) : res string :=
  requireIdentifier (col_Name spec) ≫= λ _,
  Ok ("    " +:+ col_Name spec +:+ " " +:+ col_Type spec +:+
      (if col_Name spec ==? "id" then " " +:+ pkConstraint kind (tbl_Name table)
       else if col_Name spec ==? "instance_id" then
         if IsChild table then " NOT NULL" else " NOT NULL UNIQUE"
       else if col_Name spec ==? "created_at" then " NOT NULL DEFAULT " +:+ ty_now t
       else if col_IsNullable spec then "" else " NOT NULL")).
Fixpoint renderColumns (kind : DBKind) (t : sqlTypes) (table : tableSpec) (specs : list columnSpec)
    : res (list string) :=
  match specs with
  | [] => Ok []
  | spec :: rest =>
      renderColumn kind t table spec ≫= λ line, renderColumns kind t table rest ≫= λ lines,
      Ok (line :: lines)
  end.
Definition renderCreateTable (kind : DBKind) (table : tableSpec) : res string :=
  requireIdentifier (tbl_Name table) ≫= λ _,
  match typesFor kind with
  | None => Err ErrUnsupportedDialect
  | Some t =>
      renderColumns kind t table (tbl_Columns table) ≫= λ lines,
      let lines := if IsChild table && (kind ==? MySQL)
                   then lines ++ ["    INDEX idx_instance_id (instance_id)"] else lines in
      Ok ("CREATE TABLE IF NOT EXISTS " +:+ tbl_Name table +:+ " (" +:+ newline +:+
          joinStrings ("," +:+ newline) lines +:+ newline +:+ ")")
  end.
Definition renderTableStatements (kind : DBKind) (table : tableSpec) : res (list string) :=
  renderCreateTable kind table ≫= λ createSQL,
  Ok (createSQL ::
      (if IsChild table && negb (kind ==? MySQL) then
         ["CREATE INDEX IF NOT EXISTS " +:+ childIndexName (tbl_Name table) +:+ " ON " +:+ tbl_Name table
          +:+ "(instance_id)"]
       else [])).

(** ** Writing form data *)

(** [ORDER BY] a text column, in byte order *)
Definition text_le {A} (key : A → string) (a b : A) : Prop := String.leb (key a) (key b) = true.
#[export] Instance text_le_dec {A} (key : A → string) a b : Decision (text_le key a b).
Proof. unfold text_le. apply _. Defined.
Definition orderByString {A} (key : A → string) : list A → list A := merge_sort (text_le key).

(** [strings.ToUpper] and [strings.HasPrefix] on the generated type names *)
Definition upperASCII (a : ascii) : ascii := if isLower a then ascii_of_nat (byteOf a - 32) else a.
Definition hasPrefixUpper (prefix s : string) : bool :=
  String.prefix prefix (String.string_of_list_ascii (upperASCII <$> bytes s)).
Definition isTextColumnType (columnType : string) : bool :=
  hasPrefixUpper "TEXT" columnType || hasPrefixUpper "VARCHAR" columnType || hasPrefixUpper "CHAR" columnType.
Definition isIntegerColumnType (columnType : string) : bool :=
  hasPrefixUpper "BIGINT" columnType || hasPrefixUpper "INTEGER" columnType.

(** [int64(f)]: truncation towards zero within range. *)
Definition truncateFloat (x : float64) : option Z :=
  match x with
  | S754_zero _ => Some 0%Z
  | S754_finite s m e =>
      let n := if (0 <=? e)%Z then (Z.pos m * 2 ^ e)%Z else (Z.pos m / 2 ^ (- e))%Z in
      Some (if s then (- n)%Z else n)
  | _ => None
  end.
Definition isInt64 (n : Z) : bool := (- 2 ^ 63 <=? n)%Z && (n <? 2 ^ 63)%Z.
Definition wrapInt64 (n : Z) : Z := ((n + 2 ^ 63) mod 2 ^ 64 - 2 ^ 63)%Z.
Lemma wrapInt64_range n : isInt64 (wrapInt64 n) = true.
Proof.
  unfold isInt64, wrapInt64. pose proof (Z.mod_pos_bound (n + 2 ^ 63) (2 ^ 64) ltac:(lia)).
  rewrite andb_true_iff, Z.leb_le, Z.ltb_lt. lia.
Qed.
Lemma wrapInt64_small n : (- 2 ^ 63 ≤ n < 2 ^ 63)%Z → wrapInt64 n = n.
Proof. intros Hn. unfold wrapInt64. rewrite Z.mod_small by lia. lia. Qed.

Section write.
Context `{!Host}.

Definition int64OfFloat (x : float64) : Z :=
  match truncateFloat x with
  | Some n => if isInt64 n then n else wrapInt64 (int64Overflow x)
  | None => wrapInt64 (int64Overflow x)
  end.

Definition coerceValue (raw : Value) : res Value :=
  match raw with
  | VNil | VString _ | VBool _ | VNumber _ => Ok raw
  | VStrings _ | VList _ | VMap _ => jsonMarshal raw ≫= λ encoded, Ok (VString encoded)
  end.
Definition nullEmptyForNonText (value : Value) (columnType : string) : Value :=
  match value with
  | VString s =>
      if negb (s ==? "") then value
      else if (columnType ==? "") || isTextColumnType columnType then value
      else VNil
  | _ => value
  end.
Definition coerceTextColumnValue (value : Value) (columnType : string) : Value :=
  match value with
  | VNil => value
  | _ =>
      if negb (isTextColumnType columnType) then value
      else match value with VString _ => value | _ => VString (fmtSprint value) end
  end.
Definition coerceIntegerColumnValue (value : Value) (columnType : string) : BindArg :=
  if negb (isIntegerColumnType columnType) then BindValue value
  else match value with VNumber x => BindInt (int64OfFloat x) | _ => BindValue value end.

(** One bound value of a row: [rowValues]' switch. *)
Definition columnValue (column : FormTableColumn) (instanceID : string) (rowIndex : nat)
    (data : gmap string Value) : M BindArg :=
  let name := FormTableColumn_ColumnName column in
  if name ==? "id" then id ← freshID; mret (BindValue (VString id))
  else if name ==? "instance_id" then mret (BindValue (VString instanceID))
  else match FormTableColumn_SourceFieldKey column with
       | None => mret (if name ==? "row_index" then BindInt (Z.of_nat rowIndex) else BindValue VNil)
       | Some key =>
           match data !! key with
           | None => mret (BindValue VNil)
           | Some raw =>
               coerced ← liftR (coerceValue raw);
               let columnType := FormTableColumn_ColumnType column in
               mret (coerceIntegerColumnValue
                 (coerceTextColumnValue (nullEmptyForNonText coerced columnType) columnType) columnType)
           end
       end.
Definition isWritten (column : FormTableColumn) : bool :=
  negb (FormTableColumn_ColumnName column ==? "created_at").
Definition rowValues (columns : list FormTableColumn) (instanceID : string) (rowIndex : nat)
    (data : gmap string Value) : M (list BindArg) :=
  foldM (λ acc column, value ← columnValue column instanceID rowIndex data; mret (acc ++ [value]))
    [] (List.filter isWritten columns).

Definition buildDelete (tableName : string) : res string :=
  requireIdentifier tableName ≫= λ _, Ok ("DELETE FROM " +:+ tableName +:+ " WHERE instance_id = ?").
(** [strings.TrimSuffix(strings.Repeat("?, ", n), ", ")] in parentheses *)
Definition rowPlaceholders (n : nat) : string := "(" +:+ joinStrings ", " (replicate n "?") +:+ ")".
Fixpoint insertArgs (columns : list FormTableColumn) (instanceID : string) (rowIndex : nat)
    (rows : list (gmap string Value)) : M (list BindArg) :=
  match rows with
  | [] => mret []
  | row :: rest =>
      args ← rowValues columns instanceID rowIndex row;
      more ← insertArgs columns instanceID (S rowIndex) rest;
      mret (args ++ more)
  end.
Definition buildInsert (tableName instanceID : string) (columns : list FormTableColumn)
    (rows : list (gmap string Value)) : M (string * list BindArg) :=
  liftR (requireIdentifier tableName);;
  let names := FormTableColumn_ColumnName <$> List.filter isWritten columns in
  liftR (checkAll requireIdentifier names);;
  args ← insertArgs columns instanceID 0 rows;
  mret ("INSERT INTO " +:+ tableName +:+ " (" +:+ joinStrings ", " names +:+ ") VALUES " +:+
        joinStrings ", " (replicate (length rows) (rowPlaceholders (length names))), args).

Fixpoint detailRows (items : list Value) : res (list (gmap string Value)) :=
  match items with
  | [] => Ok []
  | VMap row :: rest => detailRows rest ≫= λ rows, Ok (row :: rows)
  | _ => Err ErrInvalidDetailValue
  end.
(** A nil [FormData] reads like an empty map. *)
Definition projectionRows (formTable : FormTable) (formData : option (gmap string Value))
    : res (list (gmap string Value)) :=
  let data := default ∅ formData in
  if FormTable_SourceFieldKey formTable ==? "" then Ok [data]
  else match data !! FormTable_SourceFieldKey formTable with
       | None | Some VNil => Ok []
       | Some (VList items) => detailRows items
       | Some _ => Err ErrInvalidDetailValue
       end.

(** [db.NewRaw(statement, args...).Exec]: the statement is sent. *)
Definition execStatement (statement : string) (args : list BindArg) : M unit :=
  liftR (execRaw statement args);;
  modify (upd_statements (λ l, l ++ [(statement, args)])).

Definition writeProjection (formTable : FormTable) (instanceID : string)
    (formData : option (gmap string Value)) : M unit :=
  columns ← gets (λ s, orderBy FormTableColumn_SortOrder
    (tselect (λ c, FormTableColumn_FormTableID c ==? FormTable_ID formTable) (db_form_columns s)));
  deleteSQL ← liftR (buildDelete (FormTable_PhysicalTableName formTable));
  execStatement deleteSQL [BindValue (VString instanceID)];;
  rows ← liftR (projectionRows formTable formData);
  if (length rows =? 0)%nat then mret tt
  else
    insert ← buildInsert (FormTable_PhysicalTableName formTable) instanceID columns rows;
    execStatement insert.1 insert.2.

(** [TableStorage] *)
Definition TableStorage_Write (version : FlowVersion) (instanceID : string)
    (formData : option (gmap string Value)) : M unit :=
  formTables ← gets (λ s, orderByString FormTable_SourceFieldKey
    (tselect (λ t, FormTable_VersionID t ==? FlowVersion_ID version) (db_form_tables s)));
  throwIf (length formTables =? 0)%nat ErrFormTableMetadataMissing;;
  foldM (λ _ t, writeProjection t instanceID formData) tt formTables.
End write.

(** ** Publishing *)
Section provision.
Context `{!Host}.

Definition insertFormTable (t : FormTable) : M FormTable :=
  id ← freshID;
  let t := set_FormTable_ID id t in
  modify (upd_form_tables (λ l, l ++ [t]));; mret t.
Definition insertFormColumn (c : FormTableColumn) : M unit :=
  id ← freshID; modify (upd_form_columns (λ l, l ++ [set_FormTableColumn_ID id c])).

(** [ProvisionTable] runs on its own connection, before the transaction commits;
    the statements are idempotent. *)
Definition TableStorage_ProvisionTable (flow : Flow) (version : FlowVersion) : M unit :=
  tables ← liftR (buildTableSpecs dbKind (Flow_Code flow) (FlowVersion_ID version)
                    (FlowVersion_FormFields version));
  foldM (λ _ table,
    statements ← liftR (renderTableStatements dbKind table);
    foldM (λ _ statement, execStatement statement []) tt statements) tt tables.

Definition recordTable (version : FlowVersion) (table : tableSpec) : M unit :=
  formTable ← insertFormTable (Build_FormTable "" (FlowVersion_FlowID version) (FlowVersion_ID version)
    (tbl_Name table) (tbl_SourceFieldKey table));
  foldM (λ _ spec, insertFormColumn (Build_FormTableColumn "" (FormTable_ID formTable) (col_Name spec)
    (col_Type spec) (col_IsNullable spec) (col_SourceFieldKey spec) (col_SortOrder spec)))
    tt (tbl_Columns table).
Definition TableStorage_RecordMetadata (flow : Flow) (version : FlowVersion) : M unit :=
  exists_ ← gets (λ s, texists (λ t, FormTable_VersionID t ==? FlowVersion_ID version) (db_form_tables s));
  if exists_ : bool then mret tt
  else
    tables ← liftR (buildTableSpecs dbKind (Flow_Code flow) (FlowVersion_ID version)
                      (FlowVersion_FormFields version));
    foldM (λ _ table, recordTable version table) tt tables.

(** [Dispatcher]: an unknown storage mode behaves like JSON, which does nothing. *)
Definition isTableMode (mode : StorageMode) : bool := mode ==? StorageTable.
Definition ProvisionTable (flow : Flow) (version : FlowVersion) : M unit :=
  if isTableMode (FlowVersion_StorageMode version) then TableStorage_ProvisionTable flow version else mret tt.
Definition RecordMetadata (flow : Flow) (version : FlowVersion) : M unit :=
  if isTableMode (FlowVersion_StorageMode version) then TableStorage_RecordMetadata flow version else mret tt.
Definition SyncInstanceProjection (instance : Instance) : M unit :=
  version ← orThrow ErrRecordNotFound (findVersion (Instance_FlowVersionID instance));
  if isTableMode (FlowVersion_StorageMode version)
  then TableStorage_Write version (Instance_ID instance) (Instance_FormData instance) else mret tt.
End provision.

(** ** What form storage writes

    Row ids, metadata rows and statements: any relation that these leave alone is
    kept. *)
Section frame.
Context `{!Host} (R : relation St) `{!PreOrder R}.
Context (keeps_freshID : keeps R freshID).
Context (keeps_statements : ∀ f, keeps R (modify (E := Error) (upd_statements f))).
Context (keeps_tables : ∀ f, keeps R (modify (E := Error) (upd_form_tables f))).
Context (keeps_columns : ∀ f, keeps R (modify (E := Error) (upd_form_columns f))).
#[local] Hint Resolve keeps_freshID keeps_statements keeps_tables keeps_columns : keeps.

Lemma keeps_execStatement st args : keeps R (execStatement st args).
Proof. unfold execStatement. keeps_tac. Qed.
Lemma keeps_columnValue c i n data : keeps R (columnValue c i n data).
Proof. unfold columnValue. keeps_tac. Qed.
#[local] Hint Resolve keeps_execStatement keeps_columnValue : keeps.
Lemma keeps_insertArgs cs i rows : ∀ n, keeps R (insertArgs cs i n rows).
Proof. induction rows; intros n; cbn [insertArgs]; unfold rowValues; keeps_tac; auto. Qed.
#[local] Hint Resolve keeps_insertArgs : keeps.
Lemma keeps_TableStorage_Write v i data : keeps R (TableStorage_Write v i data).
Proof. unfold TableStorage_Write, writeProjection, buildInsert. keeps_tac. Qed.
#[local] Hint Resolve keeps_TableStorage_Write : keeps.
Lemma keeps_SyncInstanceProjection i : keeps R (SyncInstanceProjection i).
Proof. unfold SyncInstanceProjection, orThrow, findVersion. keeps_tac. Qed.
Lemma keeps_ProvisionTable f v : keeps R (ProvisionTable f v).
Proof. unfold ProvisionTable, TableStorage_ProvisionTable. keeps_tac. Qed.
Lemma keeps_RecordMetadata f v : keeps R (RecordMetadata f v).
Proof.
  unfold RecordMetadata, TableStorage_RecordMetadata, recordTable, insertFormTable, insertFormColumn.
  keeps_tac.
Qed.
End frame.

(** ** Generated names *)
Section names.

Notation ident := (λ a, identRune a = true).
Lemma bytes_of l : bytes (String.string_of_list_ascii l) = l.
Proof. apply String.list_ascii_of_string_of_list_ascii. Qed.
Lemma bytes_app s t : bytes (s +:+ t) = bytes s ++ bytes t.
Proof. induction s as [|a s IH]; [done|]. exact (f_equal (cons a) IH). Qed.
Lemma length_bytes s : length (bytes s) = String.length s.
Proof. induction s as [|a s IH]; cbn; [done|]. by rewrite IH. Qed.
Lemma bytes_inj s t : bytes s = bytes t → s = t.
Proof. intros Heq. by rewrite <-(String.string_of_list_ascii_of_string s), Heq, String.string_of_list_ascii_of_string. Qed.

Lemma replaceRuns_ident b l : Forall ident (replaceRuns b l).
Proof.
  revert b. induction l as [|a l IH]; intros b; cbn; [constructor|].
  destruct (identRune a) eqn:Ha; [by constructor|]. destruct b; [done|]. by constructor.
Qed.
Lemma sanitize_ident s : Forall ident (bytes (sanitizeForIdentifier s)).
Proof. unfold sanitizeForIdentifier. rewrite bytes_of. apply replaceRuns_ident. Qed.
Lemma replaceRuns_nil l : replaceRuns false l = [] → l = [].
Proof. destruct l as [|a l]; [done|]. cbn. by destruct (identRune a). Qed.
Lemma lowerBytes_nil l : lowerBytes l = [] → l = [].
Proof.
  destruct l as [|a [|b [|c l]]]; cbn [lowerBytes]; try done.
  - by destruct (_ && _).
  - destruct (_ && _); [done|]. by destruct (_ && _ && _).
Qed.
Lemma sanitize_nonempty s : TrimSpace s ≠ "" → sanitizeForIdentifier s ≠ "".
Proof.
  intros Ht Hs. apply Ht. apply (f_equal bytes) in Hs. unfold sanitizeForIdentifier in Hs. rewrite bytes_of in Hs.
  by apply bytes_inj, lowerBytes_nil, replaceRuns_nil.
Qed.

Lemma identRune_part a : identRune a = true → identPart a = true.
Proof. unfold identRune, identPart, identStart. destruct (isLower a), (isDigit a), (isUnderscore a), (isUpper a); done. Qed.
(** Identifier characters are not white space. *)
Lemma TrimSpace_part s : Forall (λ a, identPart a = true) (bytes s) → TrimSpace s = s.
Proof.
  intros Hs. unfold TrimSpace, trimLeft, trimRight.
  assert (∀ ws l, forallb (λ w, match w with a :: _ => negb (identPart a) | [] => false end) ws = true →
    Forall (λ a, identPart a = true) l → dropRune ws l = None) as Hdrop.
  { intros ws l Hws Hl. apply dropRune_None. intros w l' Hw ->. rewrite forallb_forall in Hws.
    specialize (Hws w (proj1 (list_elem_of_In _ _) Hw)). destruct w as [|a w]; cbn in Hws; [done|].
    apply Forall_cons in Hl as [Ha _]. by rewrite Ha in Hws. }
  rewrite (trimFuel_stable (length (bytes s)) wsRunes) by (apply Hdrop; [vm_compute; reflexivity|done]).
  rewrite trimFuel_stable; [by rewrite reverse_involutive, String.string_of_list_ascii_of_string|].
  apply Hdrop; [vm_compute; reflexivity|by apply Forall_reverse].
Qed.
Lemma TrimSpace_ident s : Forall ident (bytes s) → TrimSpace s = s.
Proof. intros Hs. apply TrimSpace_part. eapply Forall_impl; [exact Hs|apply identRune_part]. Qed.
Lemma businessIdentifier_required s : businessIdentifierPattern s = true → requireIdentifier s = Ok tt.
Proof.
  intros Hs. unfold requireIdentifier, ValidateBusinessIdentifier. rewrite TrimSpace_part.
  - rewrite Hs. cbn. by destruct (s ==? "").
  - unfold businessIdentifierPattern in Hs. destruct (bytes s) as [|a l]; [done|].
    apply andb_true_iff in Hs as [[Ha Hl]%andb_true_iff _]. constructor; [unfold identPart; by rewrite Ha|].
    apply Forall_forall. intros b Hb. rewrite forallb_forall in Hl. by apply Hl, list_elem_of_In.
Qed.
(** A name of identifier characters that does not start with a digit and fits. *)
Lemma identifier_safe a l s :
  bytes s = a :: l → Forall ident (a :: l) → isDigit a = false → length l ≤ 62 →
  businessIdentifierPattern s = true.
Proof.
  intros Hs Hl Hd Hlen. unfold businessIdentifierPattern. rewrite Hs. apply Forall_cons in Hl as [Ha Hl].
  rewrite !andb_true_iff. split_and!; [| |by apply Nat.leb_le].
  - unfold identRune in Ha. unfold identStart. rewrite Hd in Ha. destruct (isLower a), (isUnderscore a), (isUpper a); done.
  - apply forallb_forall. intros x Hx%list_elem_of_In. rewrite Forall_forall in Hl. by apply identRune_part, Hl.
Qed.
Lemma requireIdentifier_safe s :
  Forall ident (bytes s) → s ≠ "" → requireIdentifier s = Ok tt ↔ businessIdentifierPattern s = true.
Proof.
  intros Hs Hne. unfold requireIdentifier, ValidateBusinessIdentifier. rewrite TrimSpace_ident by done.
  rewrite bool_decide_eq_false_2 by done. by destruct (businessIdentifierPattern s).
Qed.
(** What the trimming and the cutting leave. *)
Lemma takeBytes_ident n s : Forall ident (bytes s) → Forall ident (bytes (takeBytes n s)).
Proof. intros Hs. unfold takeBytes. rewrite bytes_of. by apply Forall_take. Qed.
Lemma length_takeBytes n s : String.length (takeBytes n s) ≤ n.
Proof. unfold takeBytes. rewrite <-length_bytes, bytes_of, length_take. lia. Qed.
Lemma dropUnderscores_suffix l : dropUnderscores l `suffix_of` l.
Proof.
  induction l as [|a l IH]; cbn; [done|]. destruct (isUnderscore a); [|done]. by apply suffix_cons_r.
Qed.
Lemma trimRight_prefix s : bytes (trimRightUnderscore s) `prefix_of` bytes s.
Proof.
  unfold trimRightUnderscore. rewrite bytes_of. destruct (dropUnderscores_suffix (reverse (bytes s))) as [k Hk].
  exists (reverse k). rewrite <-reverse_app, <-Hk. by rewrite reverse_involutive.
Qed.
Lemma trimRight_ident s : Forall ident (bytes s) → Forall ident (bytes (trimRightUnderscore s)).
Proof. destruct (trimRight_prefix s) as [k Hk]. rewrite Hk at 1. by intros [? _]%Forall_app. Qed.
Lemma length_trimRight s : String.length (trimRightUnderscore s) ≤ String.length s.
Proof. rewrite <-!length_bytes. apply prefix_length, trimRight_prefix. Qed.

Lemma childTableSuffix_ident k : Forall ident (bytes (childTableSuffix k)).
Proof.
  unfold childTableSuffix. case_match; [|apply sanitize_ident].
  apply trimRight_ident, takeBytes_ident, sanitize_ident.
Qed.
Lemma length_childTableSuffix k : String.length (childTableSuffix k) ≤ 32.
Proof.
  unfold childTableSuffix. case_match eqn:Hl.
  - etrans; [apply length_trimRight|apply length_takeBytes].
  - apply Nat.ltb_ge in Hl. done.
Qed.

(** A generated id: twenty characters of [0-9a-v]. *)
Definition xidRune (a : ascii) : bool := isDigit a || inRange 97 118 a.
Definition isXID (id : string) : bool := (String.length id =? 20)%nat && forallb xidRune (bytes id).
Lemma isXID_spec id : isXID id = true → String.length id = 20 ∧ Forall (λ a, xidRune a = true) (bytes id).
Proof.
  unfold isXID. rewrite andb_true_iff, Nat.eqb_eq, forallb_forall. intros [? Hf]. split; [done|].
  apply Forall_forall. intros a Ha. by apply Hf, list_elem_of_In.
Qed.
Lemma xidRune_ident a : xidRune a = true → identRune a = true.
Proof.
  unfold xidRune, identRune, isLower, inRange. rewrite !orb_true_iff, !andb_true_iff, !Nat.leb_le. intros [->|?]; [auto|].
  left. left. lia.
Qed.
Lemma isXID_ident id : isXID id = true → Forall ident (bytes id).
Proof. intros [_ Hf]%isXID_spec. eapply Forall_impl; [exact Hf|apply xidRune_ident]. Qed.

(** Names that start with the common prefix. *)
Lemma prefixed_safe s :
  Forall ident (bytes s) → String.length s ≤ 54 →
  requireIdentifier (physicalTablePrefix +:+ s) = Ok tt ∧
  businessIdentifierPattern (physicalTablePrefix +:+ s) = true.
Proof.
  intros Hs Hl.
  assert (businessIdentifierPattern (physicalTablePrefix +:+ s) = true) as Hp.
  { eapply (identifier_safe _ (bytes "pv_form_" ++ bytes s)).
    - unfold physicalTablePrefix. by rewrite bytes_app.
    - constructor; [done|]. apply Forall_app. split; [repeat constructor|done].
    - done.
    - rewrite length_app, !length_bytes. cbn. lia. }
  split; [|done]. apply requireIdentifier_safe; [|done|done]. rewrite bytes_app. apply Forall_app.
  split; [repeat constructor|done].
Qed.
Lemma buildPhysicalTableName_Ok flowCode id :
  isXID id = true → ∃ name, buildPhysicalTableName flowCode id = Ok name ∧
    businessIdentifierPattern name = true ∧
    ∃ base, name = physicalTablePrefix +:+ base ∧
      (base = id ∨ ∃ readable, base = readable +:+ "_" +:+ id ∧
         bytes readable `prefix_of` bytes (sanitizeForIdentifier flowCode)).
Proof.
  intros Hx. pose proof (isXID_spec _ Hx) as [Hlen _]. pose proof (isXID_ident _ Hx) as Hid.
  unfold buildPhysicalTableName. rewrite Hlen. change (identifierMaxLen - _ - _ - 1)%Z with 33%Z. cbn [Z.ltb andb].
  change (0 <? 33)%Z with true. cbn [andb].
  set (cut := if (33 <? _)%Z then _ else _).
  assert (bytes cut `prefix_of` bytes (sanitizeForIdentifier flowCode) ∧ String.length cut ≤ 33) as [Hpre Hcut].
  { unfold cut. case_match eqn:Hc.
    - split; [|apply length_takeBytes]. unfold takeBytes. rewrite bytes_of. apply prefix_take.
    - split; [done|]. apply Z.ltb_ge in Hc. lia. }
  pose proof (trimRight_prefix cut) as Htp. pose proof (length_trimRight cut) as Htl.
  assert (bytes (trimRightUnderscore cut) `prefix_of` bytes (sanitizeForIdentifier flowCode)) as Hpre' by (by etrans).
  destruct (negb (trimRightUnderscore cut ==? "")).
  - destruct (prefixed_safe (trimRightUnderscore cut +:+ "_" +:+ id)) as [Hr Hp].
    { rewrite !bytes_app. apply Forall_app. split.
      - destruct Hpre' as [k Hk]. pose proof (sanitize_ident flowCode) as Hs. rewrite Hk in Hs.
        by apply Forall_app in Hs as [? _].
      - apply Forall_app. split; [repeat constructor|done]. }
    { rewrite <-length_bytes, !bytes_app, !length_app, !length_bytes, Hlen. cbn. lia. }
    rewrite Hr. cbn. eexists. split; [done|]. split; [done|]. eexists. split; [done|]. right. by eexists.
  - destruct (prefixed_safe id) as [Hr Hp]; [done|lia|]. rewrite Hr. cbn.
    eexists. split; [done|]. split; [done|]. eexists. split; [done|]. by left.
Qed.
Lemma buildChildTableName_Ok id key :
  isXID id = true →
  let name := physicalTablePrefix +:+ (id +:+ "__" +:+ childTableSuffix key) in
  buildChildTableName id key = Ok name ∧ businessIdentifierPattern name = true.
Proof.
  intros Hx name. pose proof (isXID_spec _ Hx) as [Hlen _].
  destruct (prefixed_safe (id +:+ "__" +:+ childTableSuffix key)) as [Hr Hp].
  { rewrite !bytes_app. apply Forall_app. split; [by apply isXID_ident|].
    apply Forall_app. split; [repeat constructor|apply childTableSuffix_ident]. }
  { pose proof (length_childTableSuffix key). rewrite <-length_bytes, !bytes_app, !length_app, !length_bytes, Hlen. cbn. lia. }
  split; [|done]. unfold buildChildTableName. by rewrite Hr.
Qed.
End names.
