(* ===== verification/FormTables.v ===== *)
(** * Accepted forms can be provisioned

    The deploy-time checks on a form in table mode ([ValidateFormFields] and
    [ValidateTableFormSchema]) are enough for publishing: the tables
    [buildTableSpecs] derives have plain SQL identifiers for names, no column and
    no table is generated twice, every field has its place, and rendering the
    statements never fails.  Two gaps are recorded: the indexes of two detail tables
    can get the same name, and an integral number beyond 64 bits is not stored. *)
From Stdlib Require Import Ascii.
From S2P Require Import Prelude Enums StateMachine Models Demo Store Shared FormValidation NodeConfig FormStorage.

Section tables.
Context `{!Host}.
Implicit Types fields : list FormFieldDefinition.

Definition columnName (f : FormFieldDefinition) : string := sanitizeForIdentifier (FormField_Key f).
Definition named (f : FormFieldDefinition) : Prop := TrimSpace (FormField_Key f) ≠ "".
Definition safe_name (s : string) : Prop := businessIdentifierPattern s = true.
Definition isTable (f : FormFieldDefinition) : bool := FormField_Kind f ==? FieldTable.

(** ** What the checks say *)
Lemma validateColumnField_Ok f seen seen' :
  validateColumnField f seen = Ok seen' →
  requireIdentifier (columnName f) = Ok tt ∧ (columnName f ∉ seen) ∧ seen' = {[columnName f]} ∪ seen.
Proof.
  unfold validateColumnField. rewrite !result_seq_Ok, !failIf_Ok, !bool_decide_eq_false.
  intros (_ & ? & _ & ? & [= <-]). done.
Qed.
Lemma columnName_safe f : named f → requireIdentifier (columnName f) = Ok tt → safe_name (columnName f).
Proof.
  intros Hn Hr. apply requireIdentifier_safe; [apply sanitize_ident| |done].
  by apply sanitize_nonempty.
Qed.
(** Distinct safe names outside the pool. *)
Definition goodColumns (pool : gset string) fields : Prop :=
  NoDup (columnName <$> fields) ∧
  ∀ f, f ∈ fields → requireIdentifier (columnName f) = Ok tt ∧ columnName f ∉ pool.
Lemma goodColumns_cons pool f fields :
  requireIdentifier (columnName f) = Ok tt → columnName f ∉ pool →
  goodColumns ({[columnName f]} ∪ pool) fields → goodColumns pool (f :: fields).
Proof.
  intros Hr Hp [Hnd Hall]. split.
  - cbn. apply NoDup_cons. split; [|done]. intros (g & Heq & Hg)%list_elem_of_fmap.
    destruct (Hall g Hg) as [_ Hng]. apply Hng. rewrite <-Heq. set_solver.
  - intros g [->|Hg]%elem_of_cons; [done|]. destruct (Hall g Hg) as [? Hng]. split; [done|]. set_solver.
Qed.
Lemma goodColumns_nil pool : goodColumns pool [].
Proof. split; [constructor|]. by intros f ?%elem_of_nil. Qed.
Lemma validateColumnFields_Ok fields pool : validateColumnFields fields pool = Ok tt → goodColumns pool fields.
Proof.
  revert pool. induction fields as [|f fields IH]; intros pool; cbn [validateColumnFields]; [intros; apply goodColumns_nil|].
  rewrite result_bind_Ok. intros (seen & (? & ? & ->)%validateColumnField_Ok & Hrest). by apply goodColumns_cons; [| |apply IH].
Qed.
Lemma validateTableFields_Ok fields seen childNames :
  validateTableFields fields seen childNames = Ok tt →
  goodColumns seen (scalarFields fields) ∧
  NoDup ((childTableSuffix ∘ FormField_Key) <$> List.filter isTable fields) ∧
  (∀ f, f ∈ fields → isTable f = true →
     (childTableSuffix (FormField_Key f) ∉ childNames) ∧ goodColumns reservedColumnPool (FormField_Columns f)).
Proof.
  revert seen childNames. induction fields as [|f fields IH]; intros seen childNames; cbn [validateTableFields].
  { intros _. split; [apply goodColumns_nil|]. split; [constructor|]. by intros f ?%elem_of_nil. }
  unfold scalarFields. cbn [List.filter]. unfold isTable at 1. destruct (FormField_Kind f ==? FieldTable) eqn:Hk; cbn [negb].
  - rewrite result_bind_Ok. intros (names & Hchild & Hrest). unfold validateChildTableSchema in Hchild.
    apply result_seq_Ok in Hchild as [_ Hchild]. apply result_seq_Ok in Hchild as [Hnew Hchild].
    apply result_seq_Ok in Hchild as [Hcols [= <-]]. apply failIf_Ok, bool_decide_eq_false in Hnew.
    destruct (IH _ _ Hrest) as (Hgood & Hnd & Hall). split; [done|]. split.
    + cbn. apply NoDup_cons. split; [|done]. intros (g & Heq & Hg)%list_elem_of_fmap.
      apply list_elem_of_In, filter_In in Hg as [Hg%list_elem_of_In Htab].
      destruct (Hall g Hg Htab) as [Hng _]. apply Hng. cbn in Heq. rewrite <-Heq. set_solver.
    + intros g [->|Hg]%elem_of_cons Htab; [split; [done|by apply validateColumnFields_Ok]|].
      destruct (Hall g Hg Htab) as [? ?]. split; [set_solver|done].
  - rewrite result_bind_Ok. intros (seen' & (? & ? & ->)%validateColumnField_Ok & Hrest).
    destruct (IH _ _ Hrest) as (Hgood & Hnd & Hall). split; [by apply goodColumns_cons|]. split; [done|].
    intros g [->|Hg]%elem_of_cons Htab; [unfold isTable in Htab; congruence|by apply Hall].
Qed.
(** Keys that survived [ValidateFormFields] are not blank, in detail tables neither. *)
Lemma validateColumnsFrom_named keys cols c : validateColumnsFrom keys cols = Ok tt → c ∈ cols → named c.
Proof.
  revert keys. induction cols as [|d cols IH]; intros keys; [by intros _ ?%elem_of_nil|]. cbn [validateColumnsFrom].
  intros Hv [->|Hc]%elem_of_cons.
  - apply result_seq_Ok in Hv as [Hb _]. by apply failIf_Ok, bool_decide_eq_false in Hb.
  - do 6 (apply result_seq_Ok in Hv as [_ Hv]). by eapply IH.
Qed.
Lemma validateFormFieldsFrom_named keys fields f :
  validateFormFieldsFrom keys fields = Ok tt → f ∈ fields →
  named f ∧ (isTable f = true → ∀ c, c ∈ FormField_Columns f → named c).
Proof.
  revert keys. induction fields as [|g fields IH]; intros keys; [by intros _ ?%elem_of_nil|]. cbn [validateFormFieldsFrom].
  intros Hv [->|Hc]%elem_of_cons.
  - apply result_seq_Ok in Hv as [Hb Hv]. apply failIf_Ok, bool_decide_eq_false in Hb. split; [done|].
    do 4 (apply result_seq_Ok in Hv as [_ Hv]). apply result_seq_Ok in Hv as [Ht _].
    intros Htab c Hc. unfold validateTableColumns in Ht. unfold isTable in Htab. rewrite Htab in Ht. cbn in Ht.
    apply result_seq_Ok in Ht as [_ Ht]. by eapply validateColumnsFrom_named.
  - do 6 (apply result_seq_Ok in Hv as [_ Hv]). by eapply IH.
Qed.

(** ** The tables *)
Definition columnsGood (columns : list columnSpec) : Prop :=
  NoDup (col_Name <$> columns) ∧ ∀ c, c ∈ columns → safe_name (col_Name c).
Lemma fieldColumns_names kind t n fields : col_Name <$> fieldColumns kind t n fields = columnName <$> fields.
Proof. unfold fieldColumns. rewrite fmap_imap. apply imap_const. Qed.
Lemma fieldColumns_source kind t n fields f :
  f ∈ fields → ∃ c, c ∈ fieldColumns kind t n fields ∧ col_SourceFieldKey c = Some (FormField_Key f).
Proof.
  intros [i Hi]%list_elem_of_lookup. unfold fieldColumns. eexists. split; [|].
  - apply elem_of_lookup_imap. by exists i, f.
  - done.
Qed.
(** Built-in columns around the columns of accepted fields. *)
Lemma framed_columns kind t n fields (pre : list columnSpec) last :
  goodColumns reservedColumnPool fields → (∀ f, f ∈ fields → named f) →
  col_Name last = "created_at" → NoDup (col_Name <$> pre) →
  (∀ c, c ∈ pre → col_Name c ∈ ["id"; "instance_id"; "row_index"]) →
  columnsGood (pre ++ fieldColumns kind t n fields ++ [last]).
Proof.
  intros [Hnd Hgood] Hnamed Hlast Hpre Hbuiltin.
  assert (∀ f, f ∈ fields → columnName f ∉ reservedColumns) as Hres.
  { intros f [_ Hf]%Hgood Hin. apply Hf. by apply elem_of_list_to_set. }
  split.
  - rewrite !fmap_app, fieldColumns_names. cbn. rewrite Hlast. apply NoDup_app. split; [done|]. split.
    + intros x (c & -> & Hc%Hbuiltin)%list_elem_of_fmap [(f & Heq & Hf%Hres)%list_elem_of_fmap|Hx]%elem_of_app.
      * apply Hf. rewrite <-Heq. unfold reservedColumns. set_solver.
      * apply list_elem_of_singleton in Hx. rewrite Hx in Hc. set_solver.
    + apply NoDup_app. split; [done|]. split; [|apply NoDup_singleton].
      intros x (f & -> & Hf%Hres)%list_elem_of_fmap Hx%list_elem_of_singleton. apply Hf. rewrite Hx.
      unfold reservedColumns. set_solver.
  - intros c [Hc%Hbuiltin|[Hc|Hc%list_elem_of_singleton]%elem_of_app]%elem_of_app.
    + rewrite !elem_of_cons in Hc. destruct Hc as [->|[->|[->|[]%elem_of_nil]]]; done.
    + apply (list_elem_of_fmap_2 col_Name) in Hc. rewrite fieldColumns_names in Hc.
      apply list_elem_of_fmap in Hc as (f & -> & Hf). apply columnName_safe; [by apply Hnamed|by apply Hgood].
    + by rewrite Hc, Hlast.
Qed.

(** Safe names pass the checks of the render step. *)
Lemma render_safe kind table :
  typesFor kind ≠ None → safe_name (tbl_Name table) → columnsGood (tbl_Columns table) →
  ∃ statements, renderTableStatements kind table = Ok statements.
Proof.
  intros Ht Hn [_ Hcols]. unfold renderTableStatements, renderCreateTable.
  rewrite (businessIdentifier_required _ Hn). cbn [mbind result_bind]. destruct (typesFor kind) as [t|]; [|done].
  assert (∃ lines, renderColumns kind t table (tbl_Columns table) = Ok lines) as [lines ->]; [|by eexists].
  induction (tbl_Columns table) as [|c cs IH]; cbn [renderColumns]; [by eexists|]. unfold renderColumn at 1.
  rewrite (businessIdentifier_required _ (Hcols c ltac:(left))). cbn.
  destruct IH as [lines ->]; [|by eexists]. intros d Hd. apply Hcols. by right.
Qed.

Definition childTable (kind : DBKind) (t : sqlTypes) (vid : string) (f : FormFieldDefinition) (table : tableSpec) : Prop :=
  tbl_Name table = physicalTablePrefix +:+ (vid +:+ "__" +:+ childTableSuffix (FormField_Key f)) ∧
  tbl_SourceFieldKey table = FormField_Key f ∧ safe_name (tbl_Name table) ∧
  columnsGood (tbl_Columns table) ∧
  ∀ c, c ∈ FormField_Columns f →
    ∃ col, col ∈ tbl_Columns table ∧ col_SourceFieldKey col = Some (FormField_Key c).
Lemma buildChildTableSpec_Ok kind t vid f :
  isXID vid = true → goodColumns reservedColumnPool (FormField_Columns f) →
  (∀ c, c ∈ FormField_Columns f → named c) →
  ∃ table, buildChildTableSpec kind t vid f = Ok table ∧ childTable kind t vid f table.
Proof.
  intros Hx Hgood Hnamed. destruct (buildChildTableName_Ok vid (FormField_Key f) Hx) as [Hname Hsafe].
  unfold buildChildTableSpec. rewrite Hname. cbn [mbind result_bind]. eexists. split; [done|].
  split; [done|]. split; [done|]. split; [done|]. split.
  - apply framed_columns; try done; [apply (bool_decide_unpack _); by vm_compute|].
    intros c Hc. rewrite !elem_of_cons in Hc. destruct Hc as [->|[->|[->|[]%elem_of_nil]]]; cbn; set_solver.
  - intros c (col & Hcol & Hsrc)%(fieldColumns_source kind t 3). exists col. split; [|done].
    cbn [tbl_Columns]. rewrite !elem_of_app. auto.
Qed.
Lemma buildChildren_Ok kind t vid fields :
  isXID vid = true →
  (∀ f, f ∈ fields → isTable f = true →
     goodColumns reservedColumnPool (FormField_Columns f) ∧ ∀ c, c ∈ FormField_Columns f → named c) →
  ∃ children, buildChildren kind t vid fields = Ok children ∧
    Forall2 (childTable kind t vid) (List.filter isTable fields) children.
Proof.
  intros Hx. induction fields as [|f fields IH]; intros Hall; cbn [buildChildren List.filter]; [by eexists|].
  destruct IH as (children & Hcs & Hf2); [intros g Hg; apply Hall; by right|].
  unfold isTable at 1. destruct (FormField_Kind f ==? FieldTable) eqn:Hk; [|by eexists].
  destruct (Hall f ltac:(left) Hk) as [Hgood Hnamed].
  destruct (buildChildTableSpec_Ok kind t vid f Hx Hgood Hnamed) as (child & Hc & Hct).
  rewrite Hc. cbn. rewrite Hcs. cbn. eexists. split; [done|]. by constructor.
Qed.

(** No table is named twice. *)
Lemma append_inj_l s t u : s +:+ t = s +:+ u → t = u.
Proof. intros Heq%(f_equal bytes). rewrite !bytes_app in Heq. by apply bytes_inj, (app_inv_head (bytes s)). Qed.
Lemma childTable_names kind t vid fields children :
  Forall2 (childTable kind t vid) fields children →
  NoDup ((childTableSuffix ∘ FormField_Key) <$> fields) → NoDup (tbl_Name <$> children).
Proof.
  intros Hf2 Hnd. assert (tbl_Name <$> children = (λ x, physicalTablePrefix +:+ (vid +:+ "__" +:+ x)) <$>
    ((childTableSuffix ∘ FormField_Key) <$> fields)) as ->.
  { clear Hnd. induction Hf2 as [|f c fs cs (Hn & _) _ IH]; cbn; [done|]. by rewrite Hn, IH. }
  apply NoDup_fmap; [|done]. intros x y Heq. do 2 apply append_inj_l in Heq. by apply (append_inj_l "__").
Qed.
Lemma main_not_child code vid name key :
  isXID vid = true → buildPhysicalTableName code vid = Ok name →
  ¬ bytes vid `prefix_of` bytes (sanitizeForIdentifier code) →
  name ≠ physicalTablePrefix +:+ (vid +:+ "__" +:+ childTableSuffix key).
Proof.
  intros Hx Hname Hpre Heq. pose proof (isXID_spec _ Hx) as [Hlen Hrunes].
  destruct (buildPhysicalTableName_Ok code vid Hx) as (? & Hb & _ & base & -> & Hbase).
  rewrite Hb in Hname. injection Hname as <-. apply append_inj_l in Heq. apply (f_equal bytes) in Heq.
  rewrite !bytes_app in Heq. destruct Hbase as [->|(readable & -> & Hread)].
  - apply (f_equal length) in Heq. rewrite !length_app in Heq. cbn in Heq. lia.
  - rewrite !bytes_app in Heq. apply app_eq_inv in Heq as [(k & Hk & _)|(k & Hk & Hrest)].
    + apply Hpre. etrans; [|exact Hread]. rewrite Hk. by apply prefix_app_r.
    + rewrite Hk in Hrunes. apply Forall_app in Hrunes as [_ Hrunes]. destruct k as [|a k].
      * apply Hpre. rewrite Hk, app_nil_r. exact Hread.
      * cbn in Hrest. injection Hrest as <- _. apply Forall_cons in Hrunes as [Ha _]. by vm_compute in Ha.
Qed.

(** The place of a field: a table for a detail table, a column otherwise. *)
Definition placed (main : tableSpec) (children : list tableSpec) (f : FormFieldDefinition) : Prop :=
  if isTable f then
    ∃ table, table ∈ children ∧ tbl_SourceFieldKey table = FormField_Key f ∧
      ∀ c, c ∈ FormField_Columns f →
        ∃ col, col ∈ tbl_Columns table ∧ col_SourceFieldKey col = Some (FormField_Key c)
  else ∃ col, col ∈ tbl_Columns main ∧ col_SourceFieldKey col = Some (FormField_Key f).
Lemma child_of_field kind t vid fields children f :
  Forall2 (childTable kind t vid) (List.filter isTable fields) children → f ∈ fields → isTable f = true →
  ∃ table, table ∈ children ∧ childTable kind t vid f table.
Proof.
  intros Hf2 Hf Ht. assert (f ∈ List.filter isTable fields) as [i Hi]%list_elem_of_lookup.
  { apply list_elem_of_In, filter_In. split; [by apply list_elem_of_In|done]. }
  destruct (Forall2_lookup_l _ _ _ _ _ Hf2 Hi) as (table & Hl & Hct). exists table.
  split; [by eapply list_elem_of_lookup_2|done].
Qed.
Lemma field_of_child kind t vid fields children table :
  Forall2 (childTable kind t vid) fields children → table ∈ children →
  ∃ f, childTable kind t vid f table.
Proof.
  intros Hf2 [i Hi]%list_elem_of_lookup. destruct (Forall2_lookup_r _ _ _ _ _ Hf2 Hi) as (f & _ & Hct). by exists f.
Qed.
Lemma scalarFields_elem fields f : f ∈ scalarFields fields ↔ f ∈ fields ∧ isTable f = false.
Proof.
  unfold scalarFields, isTable. rewrite list_elem_of_In, filter_In, <-list_elem_of_In.
  destruct (FormField_Kind f ==? FieldTable); split; intros [? ?]; done.
Qed.


(** ** Two gaps *)

(** The name of a detail table's index keeps fifteen characters of the key. *)
Lemma childIndexName_cut vid key :
  isXID vid = true → 15 < String.length (childTableSuffix key) →
  childIndexName (physicalTablePrefix +:+ (vid +:+ "__" +:+ childTableSuffix key)) =
  trimRightUnderscore ("idx_" +:+ physicalTablePrefix +:+ vid +:+ "__" +:+ takeBytes 15 (childTableSuffix key))
    +:+ "__instance_id".
Proof.
  intros [Hlen _]%isXID_spec Hlong. unfold childIndexName.
  set (base := "idx_" +:+ _). assert (String.length base = 35 + String.length (childTableSuffix key)) as Hb.
  { unfold base. rewrite <-!length_bytes, !bytes_app, !length_app, !length_bytes. cbn. lia. }
  assert ((identifierMaxLen <? Z.of_nat (String.length base + String.length "__instance_id"))%Z = true) as ->.
  { apply Z.ltb_lt. rewrite Hb. unfold identifierMaxLen. cbn [String.length]. lia. }
  f_equal. f_equal. apply bytes_inj. unfold takeBytes, base. rewrite !bytes_app, !bytes_of.
  change (63 - String.length "__instance_id") with (length (bytes "idx_") + (length (bytes physicalTablePrefix) + 37)).
  rewrite <-length_bytes in Hlen.
  replace 37 with (length (bytes vid) + (length (bytes "__") + 15)) by (rewrite Hlen; done).
  by rewrite !take_app_add.
Qed.

(** Two detail tables of one form whose keys agree on their first fifteen
    characters get different tables but the same index name, so that the second
    [CREATE INDEX IF NOT EXISTS] creates nothing and its table stays without the
    index on [instance_id]. *)
Theorem long_detail_keys_share_an_index vid k1 k2 :
  isXID vid = true →
  15 < String.length (childTableSuffix k1) → 15 < String.length (childTableSuffix k2) →
  takeBytes 15 (childTableSuffix k1) = takeBytes 15 (childTableSuffix k2) →
  childTableSuffix k1 ≠ childTableSuffix k2 →
  ∃ n1 n2, buildChildTableName vid k1 = Ok n1 ∧ buildChildTableName vid k2 = Ok n2 ∧
    n1 ≠ n2 ∧ childIndexName n1 = childIndexName n2.
Proof.
  intros Hx H1 H2 Hcut Hne. destruct (buildChildTableName_Ok vid k1 Hx) as [Hn1 _].
  destruct (buildChildTableName_Ok vid k2 Hx) as [Hn2 _]. eexists _, _. split; [exact Hn1|]. split; [exact Hn2|].
  split.
  - intros Heq. do 2 apply append_inj_l in Heq. by apply (append_inj_l "__") in Heq.
  - by rewrite !childIndexName_cut, Hcut.
Qed.

(** The integer a number is, if it is one. *)
Definition isValue (x : float64) (n : Z) : Prop :=
  match x with
  | S754_zero _ => n = 0%Z
  | S754_finite s m e =>
      let m := if s then Z.neg m else Z.pos m in
      if (0 <=? e)%Z then n = (m * 2 ^ e)%Z else (n * 2 ^ (- e))%Z = m
  | _ => False
  end.
Lemma truncateFloat_exact x n : isIntegral x = true → truncateFloat x = Some n → isValue x n.
Proof.
  destruct x as [s|s| |s m e]; cbn; try done; [by intros _ [= <-]|].
  destruct (0 <=? e)%Z eqn:He; cbn [orb]; intros Hm [= <-]; [destruct s; lia|].
  apply Z.eqb_eq in Hm. apply Z.leb_gt in He. assert (0 < 2 ^ (- e))%Z by (apply Z.pow_pos_nonneg; lia).
  pose proof (Z.div_mod (Z.pos m) (2 ^ (- e)) ltac:(lia)). destruct s; nia.
Qed.

(** A number accepted for an integer column is bound to it as a 64-bit
    integer: as the very number when it fits, and as another one when it does
    not, which no check on the way excludes. *)
Theorem integer_columns_bind_int64 kind t field x n :
  typesFor kind = Some t → FormField_ColumnType field = ColumnInteger →
  validateNumberRule field x = Ok tt → truncateFloat x = Some n →
  ∃ m, coerceIntegerColumnValue (VNumber x) (columnTypeFor kind t field) = BindInt m ∧
    isInt64 m = true ∧ isValue x n ∧ (isInt64 n = true ↔ m = n).
Proof.
  intros Ht Hc Hv Hn. unfold columnTypeFor. rewrite Hc. exists (int64OfFloat x).
  assert (isIntegerColumnType (ty_integer t) = true) as Hint by (destruct kind; try done; by injection Ht as <-).
  unfold coerceIntegerColumnValue. rewrite Hint. cbn [negb]. split; [done|].
  unfold int64OfFloat. rewrite Hn. split; [|split].
  - destruct (isInt64 n) eqn:Hi; [done|apply wrapInt64_range].
  - apply truncateFloat_exact; [|done]. unfold validateNumberRule in Hv. rewrite Hc in Hv. cbn in Hv.
    destruct (isIntegral x); [done|]. by cbn in Hv.
  - destruct (isInt64 n) eqn:Hi; [done|]. split; [done|]. intros Heq. by rewrite <-Heq, wrapInt64_range in Hi.
Qed.
End tables.

(** ** On a concrete form *)
Definition demoField (key : string) (kind : FieldKind) (type : ColumnDataType) (columns : list FormFieldDefinition)
    : FormFieldDefinition := FormField key kind key false [] None None type None columns.
Definition orderForm : list FormFieldDefinition :=
  [demoField "Amount" FieldNumber ColumnInteger [];
   demoField "line_items_of_order_a" FieldTable ColumnUnset [demoField "sku" FieldInput ColumnUnset []];
   demoField "remark" FieldTextarea ColumnText [];
   demoField "line_items_of_order_b" FieldTable ColumnUnset [demoField "sku" FieldInput ColumnUnset []]].
Definition demoXID : string := "c0ffee00c0ffee00c0ff".

Lemma long_detail_keys_share_an_index_witness :
  ValidateTableFormSchema orderForm = Ok tt ∧
  ∃ n1 n2, buildChildTableName demoXID "line_items_of_order_a" = Ok n1 ∧
    buildChildTableName demoXID "line_items_of_order_b" = Ok n2 ∧ n1 ≠ n2 ∧ childIndexName n1 = childIndexName n2.
Proof.
  split; [by vm_compute|].
  apply long_detail_keys_share_an_index; [by vm_compute|apply (bool_decide_unpack _); by vm_compute
    |apply (bool_decide_unpack _); by vm_compute|by vm_compute|by vm_compute].
Defined.
(** 10^30, which no 64-bit integer is. *)
Definition hugeNumber : float64 := float64_of_Z (10 ^ 30).
Lemma integer_columns_bind_int64_witness :
  ∃ m, @coerceIntegerColumnValue demoHost (VNumber hugeNumber) "BIGINT" = BindInt m ∧ isInt64 m = true ∧ ¬ isValue hugeNumber m.
Proof.
  destruct (@integer_columns_bind_int64 demoHost Postgres postgresTypes
    (demoField "Amount" FieldNumber ColumnInteger []) hugeNumber 1000000000000000019884624838656)
    as (m & Hm & Hr & Hv & _); [done|done|by vm_compute|by vm_compute|].
  exists m. split; [exact Hm|]. split; [exact Hr|]. intros Heq. vm_compute in Heq. rewrite Heq in Hr. clear Hm Hv Heq. vm_compute in Hr. discriminate Hr.
Defined.
