(* ===== verification/RecordKeys.v ===== *)
(** * Record keys

    [internal/approval/binding/record_key.go]: the key of a business record as a
    list of typed, textual parts.  The column is JSON, whose strings are valid
    UTF-8; the parts are kept as JSON gives them back. *)
From Stdlib Require Import Ascii ZifyNat.
From S2P Require Import Prelude Enums StateMachine Models Demo Store Shared FormValidation FormStorage.

(** ** Text *)

(** The characters of a text, with [bad] for every byte that belongs to none.  The
    second byte of a character is restricted after E0, ED, F0 and F4. *)
Definition continuation : ascii → bool := inRange 128 191.
Definition secondByte (a b : ascii) : bool :=
  if (byteOf a =? 224)%nat then inRange 160 191 b
  else if (byteOf a =? 237)%nat then inRange 128 159 b
  else if (byteOf a =? 240)%nat then inRange 144 191 b
  else if (byteOf a =? 244)%nat then inRange 128 143 b
  else continuation b.
Fixpoint scrubUTF8 (bad l : list ascii) : list ascii :=
  match l with
  | [] => []
  | a :: l1 =>
      if (byteOf a <? 128)%nat then a :: scrubUTF8 bad l1
      else
        match l1 with
        | [] => bad
        | b :: l2 =>
            if inRange 194 223 a && continuation b then a :: b :: scrubUTF8 bad l2
            else
              match l2 with
              | [] => bad ++ scrubUTF8 bad l1
              | c :: l3 =>
                  if inRange 224 239 a && secondByte a b && continuation c then a :: b :: c :: scrubUTF8 bad l3
                  else
                    match l3 with
                    | [] => bad ++ scrubUTF8 bad l1
                    | d :: l4 =>
                        if inRange 240 244 a && secondByte a b && continuation c && continuation d
                        then a :: b :: c :: d :: scrubUTF8 bad l4
                        else bad ++ scrubUTF8 bad l1
                    end
              end
        end
  end.
Definition isUTF8 (s : string) : bool := scrubUTF8 [] (bytes s) ==? bytes s.
(** What [json.Marshal] and [json.Unmarshal] make of a string: U+FFFD for every
    byte that is not part of a character. *)
Definition replacement : list ascii := ascii_of_nat <$> [239; 191; 189].
Definition jsonString (s : string) : string := String.string_of_list_ascii (scrubUTF8 replacement (bytes s)).

(** [base64.StdEncoding]: the digit of a six-bit value and back. *)
Definition sextetChar (n : nat) : ascii :=
  ascii_of_nat (if n <? 26 then 65 + n else if n <? 52 then 71 + n else if n <? 62 then n - 4
                else if n =? 62 then 43 else 47)%nat.
Definition charSextet (a : ascii) : option nat :=
  if isUpper a then Some (byteOf a - 65)
  else if isLower a then Some (byteOf a - 71)
  else if isDigit a then Some (byteOf a + 4)
  else if (byteOf a =? 43)%nat then Some 62
  else if (byteOf a =? 47)%nat then Some 63
  else None.
Definition padding : ascii := ascii_of_nat 61.
Definition isPadding : ascii → bool := inRange 61 61.
Fixpoint encodeBytes (l : list ascii) : list ascii :=
  match l with
  | [] => []
  | [a] => let x := byteOf a in [sextetChar (x / 4); sextetChar (x mod 4 * 16); padding; padding]
  | [a; b] =>
      let x := byteOf a in let y := byteOf b in
      [sextetChar (x / 4); sextetChar (x mod 4 * 16 + y / 16); sextetChar (y mod 16 * 4); padding]
  | a :: b :: c :: l =>
      let x := byteOf a in let y := byteOf b in let z := byteOf c in
      sextetChar (x / 4) :: sextetChar (x mod 4 * 16 + y / 16) :: sextetChar (y mod 16 * 4 + z / 64)
        :: sextetChar (z mod 64) :: encodeBytes l
  end.
(** Line breaks are skipped; padding ends the text; bits beyond the last byte are
    not looked at. *)
Fixpoint decodeQuads (l : list ascii) : option (list ascii) :=
  match l with
  | [] => Some []
  | a :: b :: c :: d :: l =>
      x ← charSextet a; y ← charSextet b;
      let first := ascii_of_nat (x * 4 + y / 16) in
      if isPadding c then
        if isPadding d && (length l =? 0)%nat then Some [first] else None
      else
        z ← charSextet c;
        let second := ascii_of_nat (y mod 16 * 16 + z / 4) in
        if isPadding d then if (length l =? 0)%nat then Some [first; second] else None
        else
          w ← charSextet d;
          rest ← decodeQuads l;
          Some (first :: second :: ascii_of_nat (z mod 4 * 64 + w) :: rest)
  | _ => None
  end.
Definition isLineBreak (a : ascii) : bool := inRange 10 10 a || inRange 13 13 a.
Definition encodeBase64 (s : string) : string := String.string_of_list_ascii (encodeBytes (bytes s)).
Definition decodeBase64 (s : string) : option string :=
  String.string_of_list_ascii <$> decodeQuads (List.filter (λ a, negb (isLineBreak a)) (bytes s)).

(** [strconv.ParseInt(s, 10, 64)] and [strconv.ParseBool] *)
Fixpoint digitsValue (acc : Z) (l : list ascii) : option Z :=
  match l with
  | [] => Some acc
  | a :: l => if isDigit a then digitsValue (10 * acc + Z.of_nat (byteOf a - 48)) l else None
  end.
Definition parseDigits (l : list ascii) : option Z :=
  match l with [] => None | _ => digitsValue 0 l end.
Definition parseInt64 (s : string) : option Z :=
  n ← match bytes s with
      | a :: l =>
          if inRange 45 45 a then Z.opp <$> parseDigits l
          else if inRange 43 43 a then parseDigits l
          else parseDigits (a :: l)
      | [] => None
      end;
  if isInt64 n then Some n else None.
Definition parseBool (s : string) : option bool :=
  if bool_decide (s ∈ ["1"; "t"; "T"; "TRUE"; "true"; "True"]) then Some true
  else if bool_decide (s ∈ ["0"; "f"; "F"; "FALSE"; "false"; "False"]) then Some false
  else None.

Definition recordKeysEqual (left right : list storedRecordKeyPart) : bool := left ==? right.

Section keys.
Context `{!Host}.

Definition encodeRecordKeyPart (column : string) (value : DriverValue) : res storedRecordKeyPart :=
  let part := Build_storedRecordKeyPart column in
  match value with
  | DString s => Ok (part "string" s)
  | DInt64 n => Ok (part "int64" (pretty n))
  | DFloat64 x => Ok (part "float64" (formatFloat x))
  | DBool b => Ok (part "bool" (if b then "true" else "false"))
  | DBytes b => Ok (part "bytes" (encodeBase64 b))
  | DTime t =>
      match marshalTime t with
      | Some encoded => Ok (part "time" encoded)
      | None => Err ErrBindingInvalidBusinessRef
      end
  end.
Definition orDecodeError {A} (o : option A) : res A :=
  match o with Some a => Ok a | None => Err (ErrHost "decode stored key column") end.
Definition decodeRecordKeyPart (part : storedRecordKeyPart) : res DriverValue :=
  let kind := storedRecordKeyPart_Kind part in
  let value := storedRecordKeyPart_Value part in
  if kind ==? "string" then Ok (DString value)
  else if kind ==? "int64" then n ← orDecodeError (parseInt64 value); Ok (DInt64 n)
  else if kind ==? "float64" then x ← orDecodeError (parseFloat value); Ok (DFloat64 x)
  else if kind ==? "bool" then b ← orDecodeError (parseBool value); Ok (DBool b)
  else if kind ==? "bytes" then b ← orDecodeError (decodeBase64 value); Ok (DBytes b)
  else if kind ==? "time" then t ← orDecodeError (unmarshalTime value); Ok (DTime t)
  else Err ErrBindingInvalidBusinessRef.

(** The loop of [validateRecordKey] over the key columns. *)
Fixpoint validateKeyColumns (key : gmap string KeyValue) (columns : list string)
    (validated : gmap string DriverValue) : res (gmap string DriverValue) :=
  match columns with
  | [] => Ok validated
  | column :: rest =>
      match key !! column with
      | Some (KeyValueOf v) => validateKeyColumns key rest (<[column := v]> validated)
      | _ => Err ErrBindingInvalidBusinessRef
      end
  end.
Definition validateRecordKey (config : BusinessBindingConfig) (key : gmap string KeyValue)
    : res (gmap string DriverValue) :=
  failIf (negb (size key =? length (BusinessBindingConfig_KeyColumns config))%nat)
    ErrBindingInvalidBusinessRef ≫= λ _,
  validateKeyColumns key (BusinessBindingConfig_KeyColumns config) ∅.
(** A part as it is stored. *)
Definition jsonPart (part : storedRecordKeyPart) : storedRecordKeyPart :=
  Build_storedRecordKeyPart (jsonString (storedRecordKeyPart_Column part))
    (jsonString (storedRecordKeyPart_Kind part)) (jsonString (storedRecordKeyPart_Value part)).
Fixpoint encodeParts (validated : gmap string DriverValue) (columns : list string)
    : res (list storedRecordKeyPart) :=
  match columns with
  | [] => Ok []
  | column :: rest =>
      match validated !! column with
      | Some v =>
          encodeRecordKeyPart column v ≫= λ part, encodeParts validated rest ≫= λ parts,
          Ok (jsonPart part :: parts)
      | None => Err ErrBindingInvalidBusinessRef
      end
  end.
Definition encodeRecordKey (config : BusinessBindingConfig) (key : gmap string KeyValue)
    : res (list storedRecordKeyPart) :=
  validateRecordKey config key ≫= λ validated,
  encodeParts validated (BusinessBindingConfig_KeyColumns config).
Fixpoint decodeParts (key : gmap string DriverValue) (parts : list storedRecordKeyPart)
    : res (gmap string DriverValue) :=
  match parts with
  | [] => Ok key
  | part :: rest =>
      let column := storedRecordKeyPart_Column part in
      failIf (column ==? "") ErrBindingInvalidBusinessRef ≫= λ _,
      failIf (is_Some_b (key !! column)) ErrBindingInvalidBusinessRef ≫= λ _,
      decodeRecordKeyPart part ≫= λ value,
      decodeParts (<[column := value]> key) rest
  end.
Definition decodeRecordKey (parts : list storedRecordKeyPart) : res (gmap string DriverValue) :=
  failIf (length parts =? 0)%nat ErrBindingInvalidBusinessRef ≫= λ _, decodeParts ∅ parts.
End keys.

(** ** Lemmas on text *)
Lemma list_length_ind {A} (P : list A → Prop) :
  (∀ l, (∀ k, length k < length l → P k) → P l) → ∀ l, P l.
Proof. intros Hs l. induction l as [l IH] using (well_founded_induction (well_founded_ltof _ length)). by apply Hs. Qed.
(** The ways a text begins. *)
Lemma scrubUTF8_cases bad a l :
  (byteOf a < 128 ∧ scrubUTF8 bad (a :: l) = a :: scrubUTF8 bad l) ∨
  (∃ k rest, l = k ++ rest ∧ ∀ bad', scrubUTF8 bad' (a :: l) = a :: k ++ scrubUTF8 bad' rest) ∨
  (∀ bad', scrubUTF8 bad' (a :: l) = bad' ++ scrubUTF8 bad' l).
Proof.
  cbn [scrubUTF8]. destruct (Nat.ltb_spec (byteOf a) 128); [by left|right].
  destruct l as [|b l]; [right; intros; by rewrite app_nil_r|].
  destruct (inRange 194 223 a && continuation b) eqn:?; [left; exists [b], l; done|].
  destruct l as [|c l]; [right; done|].
  destruct (inRange 224 239 a && secondByte a b && continuation c) eqn:?; [left; exists [b; c], l; done|].
  destruct l as [|d l]; [right; done|].
  destruct (inRange 240 244 a && secondByte a b && continuation c && continuation d) eqn:?;
    [left; exists [b; c; d], l; done|right; done].
Qed.
Lemma length_scrub l : length (scrubUTF8 [] l) ≤ length l.
Proof.
  induction l as [[|a l] IH] using list_length_ind; [done|].
  destruct (scrubUTF8_cases [] a l) as [[_ ->]|[(k & rest & -> & Hk)|Hk]].
  - cbn. specialize (IH l). cbn in IH. lia.
  - rewrite Hk. cbn. rewrite !length_app. specialize (IH rest). cbn in IH. rewrite length_app in IH. lia.
  - rewrite Hk. cbn. specialize (IH l). cbn in IH. lia.
Qed.
Lemma scrub_valid bad l : scrubUTF8 [] l = l → scrubUTF8 bad l = l.
Proof.
  induction l as [[|a l] IH] using list_length_ind; [done|]. intros Hl.
  destruct (scrubUTF8_cases bad a l) as [[Ha ->]|[(k & rest & -> & Hk)|Hk]].
  - f_equal. apply IH; [cbn; lia|]. cbn [scrubUTF8] in Hl. rewrite (proj2 (Nat.ltb_lt _ _) Ha) in Hl. by injection Hl.
  - rewrite Hk in Hl |- *. do 2 f_equal. injection Hl as Hl. apply app_inv_head in Hl.
    apply IH; [cbn; rewrite length_app; lia|done].
  - rewrite Hk in Hl. pose proof (length_scrub l) as Hle. apply (f_equal length) in Hl. cbn in Hl. lia.
Qed.
Lemma scrub_ascii bad l : Forall (λ a, byteOf a < 128) l → scrubUTF8 bad l = l.
Proof. induction 1 as [|a l Ha _ IH]; [done|]. cbn [scrubUTF8]. by rewrite (proj2 (Nat.ltb_lt _ _) Ha), IH. Qed.
Lemma jsonString_valid s : isUTF8 s = true → jsonString s = s.
Proof.
  unfold isUTF8, jsonString. intros Hs%bool_decide_eq_true. rewrite scrub_valid by done.
  apply String.string_of_list_ascii_of_string.
Qed.
Lemma jsonString_ascii s : Forall (λ a, byteOf a < 128) (bytes s) → jsonString s = s.
Proof. intros Hs. apply jsonString_valid, bool_decide_eq_true. by apply scrub_ascii. Qed.

(** Base64 *)
Lemma sextets n : n < 64 →
  charSextet (sextetChar n) = Some n ∧ isPadding (sextetChar n) = false ∧
  isLineBreak (sextetChar n) = false ∧ byteOf (sextetChar n) < 128.
Proof.
  intros Hn. assert (forallb (λ n, (charSextet (sextetChar n) ==? Some n) && negb (isPadding (sextetChar n))
    && negb (isLineBreak (sextetChar n)) && (byteOf (sextetChar n) <? 128)%nat) (seq 0 64) = true)
    as Hall by (vm_compute; reflexivity).
  rewrite forallb_forall in Hall. specialize (Hall n ltac:(apply in_seq; lia)).
  apply andb_true_iff in Hall as [[[H1%bool_decide_eq_true H2%negb_true_iff]%andb_true_iff
    H3%negb_true_iff]%andb_true_iff H4%Nat.ltb_lt]. done.
Qed.
Lemma byteOf_lt a : byteOf a < 256.
Proof. apply nat_ascii_bounded. Qed.
Lemma ascii_byteOf n a : n = byteOf a → ascii_of_nat n = a.
Proof. intros ->. apply ascii_nat_embedding. Qed.

(** The base64 text of bytes is made of digits and padding. *)
Definition plain64 (a : ascii) : Prop := isLineBreak a = false ∧ byteOf a < 128.
Lemma plain64_sextet n : n < 64 → plain64 (sextetChar n).
Proof. intros Hn. by apply sextets in Hn as (_ & _ & ? & ?). Qed.
Lemma charSextet_sextet n : n < 64 → charSextet (sextetChar n) = Some n.
Proof. apply sextets. Qed.
Lemma isPadding_sextet n : n < 64 → isPadding (sextetChar n) = false.
Proof. apply sextets. Qed.
Lemma isPadding_padding : isPadding padding = true.
Proof. done. Qed.
Lemma plain64_padding : plain64 padding.
Proof. split; [done|]. unfold padding, byteOf. rewrite nat_ascii_embedding; lia. Qed.
Ltac bits := repeat match goal with
  | a : ascii |- _ => lazymatch goal with _ : byteOf a < 256 |- _ => fail | _ => pose proof (byteOf_lt a) end
  end; zify; Z.to_euclidean_division_equations; lia.
Lemma encodeBytes_plain l : Forall plain64 (encodeBytes l).
Proof.
  induction l as [l IH] using list_length_ind. destruct l as [|a [|b [|c l]]]; cbn [encodeBytes];
    repeat apply List.Forall_cons; try apply List.Forall_nil; try apply plain64_padding;
    try (apply plain64_sextet; bits). apply IH. cbn. lia.
Qed.
Lemma decode_encodeBytes l : decodeQuads (encodeBytes l) = Some l.
Proof.
  induction l as [l IH] using list_length_ind. destruct l as [|a [|b [|c l]]]; cbn [encodeBytes decodeQuads]; [done|..].
  - rewrite !charSextet_sextet by bits. cbn [mbind option_bind]. rewrite isPadding_padding. cbn [andb length Nat.eqb].
    do 2 f_equal. apply ascii_byteOf. bits.
  - rewrite !charSextet_sextet, isPadding_sextet, isPadding_padding by bits. cbn [mbind option_bind length Nat.eqb].
    f_equal. f_equal; [|f_equal]; apply ascii_byteOf; bits.
  - rewrite !charSextet_sextet, !isPadding_sextet by bits. cbn [mbind option_bind].
    rewrite IH by (cbn; lia). cbn [mbind option_bind].
    f_equal. f_equal; [|f_equal; [|f_equal]]; apply ascii_byteOf; bits.
Qed.
Lemma decode_encodeBase64 s : decodeBase64 (encodeBase64 s) = Some s.
Proof.
  unfold decodeBase64, encodeBase64. rewrite bytes_of.
  assert (List.filter (λ a, negb (isLineBreak a)) (encodeBytes (bytes s)) = encodeBytes (bytes s)) as ->.
  { induction (encodeBytes_plain (bytes s)) as [|a l [Ha _] _ IH]; [done|]. cbn. by rewrite Ha, IH. }
  rewrite decode_encodeBytes. cbn. by rewrite String.string_of_list_ascii_of_string.
Qed.
Lemma encodeBase64_ascii s : Forall (λ a, byteOf a < 128) (bytes (encodeBase64 s)).
Proof.
  unfold encodeBase64. rewrite bytes_of. eapply Forall_impl; [apply encodeBytes_plain|]. by intros a [_ ?].
Qed.

(** Decimal numerals *)
Lemma pretty_N_char_digit x : (x < 10)%N →
  isDigit (pretty_N_char x) = true ∧ Z.of_nat (byteOf (pretty_N_char x) - 48) = Z.of_N x ∧
  byteOf (pretty_N_char x) < 128.
Proof.
  intros Hx. assert (forallb (λ n, isDigit (pretty_N_char n)
    && (Z.of_nat (byteOf (pretty_N_char n) - 48) =? Z.of_N n)%Z && (byteOf (pretty_N_char n) <? 128)%nat)
    (N.of_nat <$> seq 0 10) = true) as Hall by (vm_compute; reflexivity).
  rewrite forallb_forall in Hall. specialize (Hall x). rewrite !andb_true_iff, Z.eqb_eq, Nat.ltb_lt in Hall.
  apply and_assoc, Hall, list_elem_of_In, list_elem_of_fmap. exists (N.to_nat x). rewrite N2Nat.id, elem_of_seq. lia.
Qed.
Lemma digitsValue_pretty x s : ∃ k, ∀ acc,
  digitsValue acc (bytes (pretty_N_go x s)) = digitsValue (acc * 10 ^ Z.of_nat k + Z.of_N x) (bytes s).
Proof.
  revert s. induction (N.lt_wf_0 x) as [x _ IH]. intros s. assert (x = 0 ∨ 0 < x)%N as [->|Hx] by lia.
  { exists 0. intros acc. rewrite pretty_N_go_0. f_equal. lia. }
  rewrite pretty_N_go_step by done. destruct (IH (x `div` 10)%N) with (s := String (pretty_N_char (x `mod` 10)) s) as [k Hk];
    [by apply N.div_lt|].
  exists (S k). intros acc. rewrite Hk. cbn [String.list_ascii_of_string digitsValue].
  destruct (pretty_N_char_digit (x `mod` 10)) as (-> & -> & _); [by apply N.mod_lt|]. f_equal.
  rewrite Nat2Z.inj_succ, Z.pow_succ_r by lia. rewrite N2Z.inj_div, N2Z.inj_mod.
  pose proof (Z.div_mod (Z.of_N x) 10). lia.
Qed.
Lemma pretty_ascii x s : Forall (λ a, byteOf a < 128) (bytes s) → Forall (λ a, byteOf a < 128) (bytes (pretty_N_go x s)).
Proof.
  revert s. induction (N.lt_wf_0 x) as [x _ IH]. intros s Hs. assert (x = 0 ∨ 0 < x)%N as [->|Hx] by lia.
  { by rewrite pretty_N_go_0. }
  rewrite pretty_N_go_step by done. apply IH; [by apply N.div_lt|]. cbn. constructor; [|done].
  apply pretty_N_char_digit. by apply N.mod_lt.
Qed.
Lemma parseDigits_pretty p : ∃ a l, bytes (pretty (N.pos p)) = a :: l ∧ isDigit a = true ∧
  parseDigits (a :: l) = Some (Z.pos p).
Proof.
  unfold pretty, pretty_N. rewrite decide_False by done.
  destruct (digitsValue_pretty (N.pos p) "") as [k Hk]. specialize (Hk 0%Z). cbn [digitsValue String.list_ascii_of_string] in Hk.
  replace (0 * 10 ^ Z.of_nat k + Z.of_N (N.pos p))%Z with (Z.pos p) in Hk by lia.
  destruct (bytes _) as [|a l]; [by injection Hk|]. exists a, l. split; [done|]. split; [|done].
  cbn [digitsValue] in Hk. by destruct (isDigit a).
Qed.
Lemma signs_are_no_digits a : isDigit a = true → inRange 45 45 a = false ∧ inRange 43 43 a = false.
Proof. unfold isDigit, inRange. rewrite !andb_true_iff, !andb_false_iff, !Nat.leb_le, !Nat.leb_gt. lia. Qed.
Lemma parseInt64_pretty n : isInt64 n = true → parseInt64 (pretty n) = Some n.
Proof.
  intros Hn. unfold parseInt64. destruct n as [|p|p]; [done| |].
  - change (pretty (Z.pos p)) with (pretty (N.pos p)). destruct (parseDigits_pretty p) as (a & l & -> & Ha & Hp).
    destruct (signs_are_no_digits a Ha) as [-> ->]. rewrite Hp. cbn [mbind option_bind]. by rewrite Hn.
  - change (pretty (Z.neg p)) with (String "-" (pretty (N.pos p))). cbn [String.list_ascii_of_string].
    change (inRange 45 45 "-") with true. cbn iota.
    destruct (parseDigits_pretty p) as (a & l & -> & _ & ->). cbn [fmap option_fmap option_map mbind option_bind].
    change (- Z.pos p)%Z with (Z.neg p). by rewrite Hn.
Qed.
Lemma pretty_Z_ascii (n : Z) : Forall (λ a, byteOf a < 128) (bytes (pretty n)).
Proof.
  assert (∀ p, Forall (λ a, byteOf a < 128) (bytes (pretty (N.pos p)))) as Hp.
  { intros p. unfold pretty, pretty_N. rewrite decide_False by done. by apply pretty_ascii. }
  destruct n as [|p|p].
  - constructor; [by vm_compute; lia|constructor].
  - apply (Hp p).
  - change (pretty (Z.neg p)) with (String "-" (pretty (N.pos p))). cbn [String.list_ascii_of_string]. constructor; [by vm_compute; lia|apply Hp].
Qed.

(** ** Parts and keys *)
Section roundtrip.
Context `{!Host}.

(** The values whose text is read back: integers of 64 bits, strings JSON can hold,
    and floats and times their library formats and parses. *)
Definition storable (v : DriverValue) : Prop :=
  match v with
  | DString s => isUTF8 s = true
  | DInt64 n => isInt64 n = true
  | DFloat64 x => isUTF8 (formatFloat x) = true ∧ parseFloat (formatFloat x) = Some x
  | DTime t => ∀ e, marshalTime t = Some e → isUTF8 e = true ∧ unmarshalTime e = Some t
  | DBool _ | DBytes _ => True
  end.
(** A column name JSON can hold. *)
Definition plainColumn (c : string) : Prop := c ≠ "" ∧ isUTF8 c = true.

Ltac kind := cbn -[jsonString parseInt64 parseFloat parseBool decodeBase64 unmarshalTime encodeBase64 formatFloat pretty];
  repeat match goal with |- context [jsonString ?k] =>
    match k with String _ _ => replace (jsonString k) with k by reflexivity end end;
  cbn -[jsonString parseInt64 parseFloat parseBool decodeBase64 unmarshalTime encodeBase64 formatFloat pretty].
Lemma decode_encodePart c v part :
  plainColumn c → storable v → encodeRecordKeyPart c v = Ok part →
  storedRecordKeyPart_Column (jsonPart part) = c ∧ decodeRecordKeyPart (jsonPart part) = Ok v.
Proof.
  intros [_ Hc%jsonString_valid] Hv Hp. unfold jsonPart, decodeRecordKeyPart.
  destruct v as [x|n|x|b|b|t]; cbn [encodeRecordKeyPart storable] in Hp, Hv.
  - injection Hp as <-. kind. by rewrite Hc, jsonString_valid.
  - injection Hp as <-. kind. by rewrite Hc, jsonString_ascii, parseInt64_pretty by (apply pretty_Z_ascii || done).
  - injection Hp as <-. destruct Hv as [Hu Hx]. kind. by rewrite Hc, jsonString_valid, Hx.
  - injection Hp as <-. kind. rewrite Hc. by destruct b.
  - injection Hp as <-. kind. by rewrite Hc, jsonString_ascii, decode_encodeBase64 by apply encodeBase64_ascii.
  - destruct (marshalTime t) as [e|] eqn:He; [|done]. injection Hp as <-. destruct (Hv e eq_refl) as [Hu Ht].
    kind. by rewrite Hc, jsonString_valid, Ht.
Qed.

Definition valueOf (k : option KeyValue) : option DriverValue :=
  match k with Some (KeyValueOf v) => Some v | _ => None end.
Lemma validateKeyColumns_Ok key cols acc v :
  validateKeyColumns key cols acc = Ok v →
  (∀ c, c ∈ cols → is_Some (valueOf (key !! c))) ∧
  (∀ c, v !! c = if decide (c ∈ cols) then valueOf (key !! c) else acc !! c).
Proof.
  revert acc. induction cols as [|c cols IH]; intros acc Hv; cbn in Hv.
  { injection Hv as <-. split; [by intros c ?%elem_of_nil|]. intros c. by rewrite decide_False by apply not_elem_of_nil. }
  destruct (key !! c) as [[|d|]|] eqn:Hc; try done. destruct (IH _ Hv) as [Hall Hval]. split.
  - intros c' [->|Hin]%elem_of_cons; [rewrite Hc; by eexists|by apply Hall].
  - intros c'. rewrite Hval. destruct (decide (c' ∈ cols)) as [Hin|Hin].
    + by rewrite decide_True by (by right).
    + destruct (decide (c' = c)) as [->|Hne].
      * by rewrite decide_True, Hc, lookup_insert_eq by left.
      * rewrite decide_False, lookup_insert_ne; [done|done|]. by rewrite elem_of_cons; intros [?|?].
Qed.
(** A validated key is the key, and names exactly the key columns. *)
Lemma validateRecordKey_Ok config key v :
  NoDup (BusinessBindingConfig_KeyColumns config) → validateRecordKey config key = Ok v →
  key = KeyValueOf <$> v ∧ ∀ c, is_Some (v !! c) ↔ c ∈ BusinessBindingConfig_KeyColumns config.
Proof.
  intros Hnd. unfold validateRecordKey. rewrite result_seq_Ok, failIf_Ok, negb_false_iff, Nat.eqb_eq.
  set (cols := BusinessBindingConfig_KeyColumns config) in *.
  intros [Hsize [Hall Hval]%validateKeyColumns_Ok].
  assert (dom key = list_to_set cols) as Hdom.
  { symmetry. apply set_subseteq_size_eq.
    - intros c [d Hd]%elem_of_list_to_set%Hall. apply elem_of_dom. destruct (key !! c); [done|by destruct d].
    - rewrite size_list_to_set by done. rewrite <-Hsize. by rewrite size_dom. }
  split.
  - apply map_eq. intros c. rewrite lookup_fmap, Hval. destruct (decide (c ∈ cols)) as [Hin|Hin].
    + destruct (Hall c Hin) as [d Hd]. by destruct (key !! c) as [[]|].
    + rewrite lookup_empty. apply not_elem_of_dom. by rewrite Hdom, elem_of_list_to_set.
  - intros c. rewrite Hval. destruct (decide (c ∈ cols)) as [Hin|Hin]; [by split; [|auto]|].
    split; [by intros [? ?]|done].
Qed.
Lemma decode_encodeParts v cols parts :
  NoDup cols → (∀ c, c ∈ cols → plainColumn c) → (∀ c d, v !! c = Some d → storable d) →
  encodeParts v cols = Ok parts →
  ∀ acc, (∀ c, c ∈ cols → acc !! c = None) →
  ∃ m, decodeParts acc parts = Ok m ∧ ∀ c, m !! c = if decide (c ∈ cols) then v !! c else acc !! c.
Proof.
  intros Hnd Hpl Hst. revert parts. induction cols as [|c cols IH]; intros parts Hp acc Hacc; cbn in Hp.
  { injection Hp as <-. exists acc. split; [done|]. intros c. by rewrite decide_False by apply not_elem_of_nil. }
  apply NoDup_cons in Hnd as [Hc Hnd]. destruct (v !! c) as [d|] eqn:Hd; [|done].
  apply result_bind_Ok in Hp as (part & Hpart & Hp). apply result_bind_Ok in Hp as (rest & Hrest & Hp).
  injection Hp as <-. destruct (Hpl c ltac:(by left)) as [Hne _].
  destruct (decode_encodePart c d part (Hpl c ltac:(by left)) (Hst c d Hd) Hpart) as [Hcol Hdec].
  cbn [decodeParts]. rewrite Hcol, (Hacc c ltac:(by left)), bool_decide_eq_false_2 by done. cbn [failIf is_Some_b].
  cbn [mbind result_bind]. rewrite Hdec. cbn.
  destruct (IH Hnd (λ x Hx, Hpl x (list_elem_of_further _ _ _ Hx)) rest Hrest (<[c := d]> acc)) as (m & Hm & Hlk).
  { intros x Hx. rewrite lookup_insert_ne; [apply Hacc; by right|]. by intros ->. }
  exists m. split; [done|]. intros x. rewrite Hlk. destruct (decide (x = c)) as [->|Hxc].
  - by rewrite decide_False, decide_True, lookup_insert_eq by (done || left).
  - rewrite lookup_insert_ne by done. destruct (decide (x ∈ cols)) as [Hx|Hx].
    + by rewrite decide_True by (by right).
    + rewrite decide_False; [done|]. by rewrite elem_of_cons; intros [?|?].
Qed.
Lemma decode_encodeRecordKey config key parts :
  let cols := BusinessBindingConfig_KeyColumns config in
  NoDup cols → cols ≠ [] → (∀ c, c ∈ cols → plainColumn c) →
  (∀ c d, key !! c = Some (KeyValueOf d) → storable d) → encodeRecordKey config key = Ok parts →
  ∃ v, decodeRecordKey parts = Ok v ∧ validateRecordKey config (KeyValueOf <$> v) = Ok v ∧ key = KeyValueOf <$> v.
Proof.
  intros cols Hnd Hne Hpl Hst. unfold encodeRecordKey. intros (v & Hv & Hp)%result_bind_Ok.
  destruct (validateRecordKey_Ok config key v Hnd Hv) as [Hkey Hdom]. fold cols in Hdom, Hp.
  destruct (decode_encodeParts v cols parts Hnd Hpl) with (acc := ∅ : gmap string DriverValue) as (m & Hm & Hlk); [|done|done|].
  { intros c d Hd. apply (Hst c d). by rewrite Hkey, lookup_fmap, Hd. }
  assert (m = v) as ->.
  { apply map_eq. intros c. rewrite Hlk. destruct (decide (c ∈ cols)) as [|Hc]; [done|]. rewrite lookup_empty.
    destruct (v !! c) eqn:Hvc; [|done]. destruct Hc. apply Hdom. by eexists. }
  exists v. split_and!; [|by rewrite <-Hkey|done]. unfold decodeRecordKey.
  destruct parts as [|part rest]; [|done]. destruct cols as [|c cs]; [done|]. cbn in Hp.
  destruct (v !! c); [|done]. apply result_bind_Ok in Hp as (? & _ & Hp). by apply result_bind_Ok in Hp as (? & _ & ?).
Qed.
End roundtrip.
