(* ===== verification/Binding.v ===== *)
(** * Business bindings

    [internal/approval/binding]: the configuration that ties a flow to a table of
    the host ([config_validator.go]), the write to it ([writer.go]), the projection that says what
    should be written ([projector.go]), and the worker that catches up
    ([worker.go], [command/retry_business_projection.go]). *)
From Stdlib Require Import Ascii.
From S2P Require Import Prelude Enums StateMachine Models Demo Store Shared FormValidation FormStorage RecordKeys.

(** ** The configuration *)

Definition isProjectableStatus (status : string) : bool :=
  bool_decide (status ∈ InstanceStatus_String <$> [InstanceRunning; InstanceApproved; InstanceRejected;
    InstanceWithdrawn; InstanceReturned; InstanceTerminated]).
Definition normalizeOptionalColumn (column : option string) : option string :=
  match column with
  | None => None
  | Some c => if TrimSpace c ==? "" then None else Some (TrimSpace c)
  end.
Definition bindingWriteColumns (c : BusinessBindingConfig) : list string :=
  BusinessBindingConfig_StatusColumn c ::
  omap id [BusinessBindingConfig_InstanceIDColumn c; BusinessBindingConfig_StartedAtColumn c;
           BusinessBindingConfig_FinishedAtColumn c].
Fixpoint distinctColumns (seen : gset string) (columns : list string) : res unit :=
  match columns with
  | [] => Ok tt
  | c :: rest =>
      failIf (bool_decide (c ∈ seen)) ErrBindingColumnsConflict ≫= λ _, distinctColumns ({[c]} ∪ seen) rest
  end.
Definition trimmedConfig (c : BusinessBindingConfig) : BusinessBindingConfig :=
  Build_BusinessBindingConfig (TrimSpace (BusinessBindingConfig_TableName c))
    (orderByString id (TrimSpace <$> BusinessBindingConfig_KeyColumns c))
    (TrimSpace (BusinessBindingConfig_StatusColumn c))
    (normalizeOptionalColumn (BusinessBindingConfig_InstanceIDColumn c))
    (normalizeOptionalColumn (BusinessBindingConfig_StartedAtColumn c))
    (normalizeOptionalColumn (BusinessBindingConfig_FinishedAtColumn c))
    (BusinessBindingConfig_StatusMapping c).
Definition checkStatusMapping (mapping : option (gmap string string)) : res unit :=
  checkAll (λ kv : string * string,
    failIf (negb (isProjectableStatus kv.1) || (TrimSpace kv.2 ==? "")) ErrBindingStatusMappingInvalid)
    (map_to_list (default ∅ mapping)).
Definition trimmedMapping (mapping : option (gmap string string)) : option (gmap string string) :=
  match mapping with Some m => Some (TrimSpace <$> m) | None => None end.
Definition checkIdentifier (identifier : string) : res unit :=
  failIf (identifier ==? "") ErrBindingIncomplete ≫= λ _, ValidateBusinessIdentifier identifier.
Definition normalizeBusiness (c : BusinessBindingConfig) : res BusinessBindingConfig :=
  let n := trimmedConfig c in
  failIf ((BusinessBindingConfig_TableName n ==? "")
          || (length (BusinessBindingConfig_KeyColumns n) =? 0)%nat
          || (BusinessBindingConfig_StatusColumn n ==? "")
          || negb (is_Some_b (BusinessBindingConfig_InstanceIDColumn n))) ErrBindingIncomplete ≫= λ _,
  checkStatusMapping (BusinessBindingConfig_StatusMapping n) ≫= λ _,
  let n := set_BusinessBindingConfig_StatusMapping (trimmedMapping (BusinessBindingConfig_StatusMapping n)) n in
  let columns := BusinessBindingConfig_KeyColumns n ++ bindingWriteColumns n in
  checkAll checkIdentifier (BusinessBindingConfig_TableName n :: columns) ≫= λ _,
  distinctColumns ∅ columns ≫= λ _,
  Ok n.
Definition NormalizeConfig (mode : BindingMode) (config : option BusinessBindingConfig)
    : res (option BusinessBindingConfig) :=
  match config with
  | None => if mode ==? BindingBusiness then Err ErrBindingIncomplete else Ok None
  | Some c =>
      if mode ==? BindingBusiness then normalizeBusiness c ≫= λ n, Ok (Some n) else Err ErrBindingUnexpected
  end.
(** The column is JSON with [omitempty]: an empty mapping comes back nil. *)
Definition storedBinding (c : BusinessBindingConfig) : BusinessBindingConfig :=
  if BusinessBindingConfig_StatusMapping c ==? Some ∅ then set_BusinessBindingConfig_StatusMapping None c
  else c.

(** ** Against the schema *)
Definition sameColumns (left right : list string) : bool :=
  (length left =? length right)%nat && (orderByString id left ==? orderByString id right).
(** A later column of the same name replaces an earlier one. *)
Definition schemaColumns (t : TableSchema) : gmap string SchemaColumn :=
  foldl (λ m c, <[SchemaColumn_Name c := c]> m) ∅ (TableSchema_Columns t).
Definition isCompleteKey (key : list string) (u : SchemaUniqueKey) : bool :=
  (SchemaUniqueKey_Predicate u ==? "") && negb (SchemaUniqueKey_HasExpressions u)
  && sameColumns key (SchemaUniqueKey_Columns u).
Definition isNullable (columns : gmap string SchemaColumn) (name : string) : bool :=
  match columns !! name with Some c => SchemaColumn_Nullable c | None => false end.
Section schema.
Context `{!Host}.
Definition ValidateSchema (config : BusinessBindingConfig) : res unit :=
  match GetTableSchema (BusinessBindingConfig_TableName config) with
  | Err ErrTableMissing => Err ErrBindingTableMissing
  | Err e => Err e
  | Ok table =>
      let columns := schemaColumns table in
      let key := BusinessBindingConfig_KeyColumns config in
      checkAll (λ c, failIf (negb (is_Some_b (columns !! c))) ErrBindingColumnMissing)
        (key ++ bindingWriteColumns config) ≫= λ _,
      checkAll (λ c, failIf (isNullable columns c) ErrBindingKeyNotUnique) key ≫= λ _,
      if match TableSchema_PrimaryKey table with Some pk => sameColumns key pk | None => false end then Ok tt
      else failIf (negb (existsb (isCompleteKey key) (TableSchema_UniqueKeys table))) ErrBindingKeyNotUnique
  end.
End schema.

(** ** Writing the business row *)
Section writer.
Context `{!Host}.

Definition asMisconfigured (r : res (option BusinessBindingConfig)) : res BusinessBindingConfig :=
  match r with Ok (Some c) => Ok c | _ => Err ErrBindingMisconfigured end.
(** [recordKeyCondition] on the table: every key column equals its value; nothing
    equals null. *)
Definition cellEquals (row : BusinessRow) (column : string) (value : option DriverValue) : bool :=
  match BusinessRow_Cells row !! column, value with
  | Some cell, Some v => sqlEquals cell v
  | _, _ => false
  end.
Definition recordKeyCondition (config : BusinessBindingConfig) (key : gmap string DriverValue)
    (row : BusinessRow) : bool :=
  (BusinessRow_Table row ==? BusinessBindingConfig_TableName config)
  && forallb (λ c, cellEquals row c (key !! c)) (BusinessBindingConfig_KeyColumns config).
Definition instanceIDColumn (config : BusinessBindingConfig) : string :=
  default "" (BusinessBindingConfig_InstanceIDColumn config).
Definition ownedBy (config : BusinessBindingConfig) (owner : string) (row : BusinessRow) : bool :=
  cellEquals row (instanceIDColumn config) (Some (DString owner)).

Definition lockBindingTarget (config : BusinessBindingConfig) (key : gmap string DriverValue) : M nat :=
  liftR (queryBusiness (BusinessBindingConfig_TableName config));;
  gets (λ s, length (take 2 (tselect (recordKeyCondition config key) (db_business s)))).
Definition bindingTargetOwnerMatches (config : BusinessBindingConfig) (key : gmap string DriverValue)
    (expectedOwner : string) : M bool :=
  liftR (queryBusiness (BusinessBindingConfig_TableName config));;
  gets (λ s, texists (λ r, recordKeyCondition config key r && ownedBy config expectedOwner r) (db_business s)).
Definition projectedStatus (config : BusinessBindingConfig) (status : InstanceStatus) : res string :=
  match default ∅ (BusinessBindingConfig_StatusMapping config) !! InstanceStatus_String status with
  | Some mapped => if mapped ==? "" then Err ErrBindingMisconfigured else Ok mapped
  | None =>
      if negb (isProjectableStatus (InstanceStatus_String status)) then Err ErrProjectionStateInvalid
      else Ok (InstanceStatus_String status)
  end.
(** The columns an update sets; [None] is null. *)
Definition finishedAtCell (projection : BusinessProjection) : res (option DriverValue) :=
  if InstanceStatus_IsFinal (BusinessProjection_DesiredStatus projection)
  then match BusinessProjection_DesiredFinishedAt projection with
       | Some t => Ok (Some (DTime t))
       | None => Err ErrProjectionStateInvalid
       end
  else Ok None.
Definition liveCells (config : BusinessBindingConfig) (projection : BusinessProjection) (status : string)
    : list (string * option DriverValue) :=
  [(BusinessBindingConfig_StatusColumn config, Some (DString status));
   (instanceIDColumn config, Some (DString (BusinessProjection_OwnerInstanceID projection)))]
  ++ match BusinessBindingConfig_StartedAtColumn config with
     | Some c => [(c, Some (DTime (BusinessProjection_DesiredStartedAt projection)))]
     | None => []
     end.
Definition projectedCells (config : BusinessBindingConfig) (projection : BusinessProjection) (status : string)
    : res (list (string * option DriverValue)) :=
  match BusinessBindingConfig_FinishedAtColumn config with
  | None => Ok (liveCells config projection status)
  | Some c => finishedAtCell projection ≫= λ v, Ok (liveCells config projection status ++ [(c, v)])
  end.
Definition setCell (cells : gmap string DriverValue) (kv : string * option DriverValue) : gmap string DriverValue :=
  match kv.2 with Some v => <[kv.1 := v]> cells | None => delete kv.1 cells end.
Definition setCells (sets : list (string * option DriverValue)) (row : BusinessRow) : BusinessRow :=
  Build_BusinessRow (BusinessRow_Table row) (foldl setCell (BusinessRow_Cells row) sets).
(** [UPDATE table SET ... WHERE ...], counting the rows. *)
Definition updateBusiness (table : string) (sets : list (string * option DriverValue)) (p : BusinessRow → bool)
    : M nat :=
  liftR (acceptUpdate table sets);; λ s, Ok (tcount p (db_business s), upd_business (tupdate p (setCells sets)) s).

(** The fence: a row that was written before must still name its last owner. *)
Definition fenced (projection : BusinessProjection) : bool := (0 <? BusinessProjection_AppliedRevision projection)%Z.
Definition checkFence (config : BusinessBindingConfig) (key : gmap string DriverValue)
    (projection : BusinessProjection) : M unit :=
  if fenced projection then
    match BusinessProjection_AppliedOwnerInstanceID projection with
    | None => throw ErrProjectionStateInvalid
    | Some owner =>
        ownerMatches ← bindingTargetOwnerMatches config key owner;
        throwIf (negb ownerMatches) ErrBindingOwnershipConflict
    end
  else mret tt.
Definition updateCondition (config : BusinessBindingConfig) (key : gmap string DriverValue)
    (projection : BusinessProjection) (row : BusinessRow) : bool :=
  recordKeyCondition config key row
  && (negb (fenced projection)
      || ownedBy config (default "" (BusinessProjection_AppliedOwnerInstanceID projection)) row).
Definition Writer_Write (projection : BusinessProjection) : M unit :=
  match BusinessProjection_Binding projection with
  | None => throw ErrProjectionStateInvalid
  | Some binding =>
      config ← liftR (asMisconfigured (NormalizeConfig BindingBusiness (Some binding)));
      stored ← liftR (decodeRecordKey (BusinessProjection_RecordKey projection));
      recordKey ← liftR (validateRecordKey config (KeyValueOf <$> stored));
      matches ← lockBindingTarget config recordKey;
      throwIf (matches =? 0)%nat ErrBindingTargetMissing;;
      throwIf (1 <? matches)%nat ErrBindingTargetNotUnique;;
      checkFence config recordKey projection;;
      status ← liftR (projectedStatus config (BusinessProjection_DesiredStatus projection));
      sets ← liftR (projectedCells config projection status);
      affected ← updateBusiness (BusinessBindingConfig_TableName config) sets
        (updateCondition config recordKey projection);
      throwIf (1 <? affected)%nat ErrBindingTargetNotUnique
  end.
End writer.

(** ** Projections *)
Section projector.
Context `{!Host}.

Definition updateProjections (p : BusinessProjection → bool) (f : BusinessProjection → BusinessProjection)
    : M nat := λ s, Ok (tcount p (db_projections s), upd_projections (tupdate p f) s).
Definition findProjection (id : string) : M (option BusinessProjection) :=
  gets (λ s, tfirst (λ p, BusinessProjection_ID p ==? id) (db_projections s)).

(** [EffectiveConsistency], [EffectiveScanInterval] and [EffectiveBatchSize] *)
Definition EffectiveConsistency : BindingConsistency :=
  if bindingConsistency ==? BindingConsistencyOther "" then ApprovalBindingSynchronous else bindingConsistency.
Definition EffectiveScanInterval : Z := if (0 <? bindingScanInterval)%Z then bindingScanInterval else 10.
Definition EffectiveBatchSize : Z := if (0 <? bindingBatchSize)%Z then bindingBatchSize else 100.

(** The columns of the desired state. *)
Definition withDesired (status : InstanceStatus) (startedAt : DateTime) (finishedAt : option DateTime)
    (p : BusinessProjection) : BusinessProjection :=
  let 'Build_BusinessProjection id c u ten f fv ow ao th cy b rk _ _ _ dr ar st ac na lu le aa := p in
  Build_BusinessProjection id c u ten f fv ow ao th cy b rk status startedAt finishedAt dr ar st ac na lu le aa.
Definition withRevision (n : Z) (p : BusinessProjection) : BusinessProjection :=
  let 'Build_BusinessProjection id c u ten f fv ow ao th cy b rk ds dsa dfa _ ar st ac na lu le aa := p in
  Build_BusinessProjection id c u ten f fv ow ao th cy b rk ds dsa dfa n ar st ac na lu le aa.
Definition bumpRevision (p : BusinessProjection) : BusinessProjection :=
  withRevision (BusinessProjection_DesiredRevision p + 1) p.
(** The claim of a new owner. *)
Definition claimedBy (instance : Instance) (consistency : BindingConsistency) (binding : BusinessBindingConfig)
    (key : list storedRecordKeyPart) (p : BusinessProjection) : BusinessProjection :=
  let 'Build_BusinessProjection id c u _ _ _ _ ao th _ _ _ ds dsa dfa dr ar st ac na lu le aa := p in
  Build_BusinessProjection id c u (Instance_TenantID instance) (Instance_FlowID instance)
    (Instance_FlowVersionID instance) (Instance_ID instance) ao th consistency (Some binding) key
    ds dsa dfa dr ar st ac na lu le aa.
Definition withSchedule (status : BindingProjectionStatus) (attempts : Z) (next lease : option DateTime)
    (lastError : option string) (p : BusinessProjection) : BusinessProjection :=
  let 'Build_BusinessProjection id c u ten f fv ow ao th cy b rk ds dsa dfa dr ar _ _ _ _ _ aa := p in
  Build_BusinessProjection id c u ten f fv ow ao th cy b rk ds dsa dfa dr ar status attempts next lease lastError aa.

Definition setDesiredState (projection : BusinessProjection) (instance : Instance) : M BusinessProjection :=
  startedAt ← (if (Instance_CreatedAt instance =? 0)%Z then Now else mret (Instance_CreatedAt instance));
  if InstanceStatus_IsFinal (Instance_Status instance) then
    match Instance_FinishedAt instance with
    | None => throw ErrProjectionStateInvalid
    | Some t => mret (withDesired (Instance_Status instance) startedAt (Some t) projection)
    end
  else mret (withDesired (Instance_Status instance) startedAt None projection).
Definition resetPendingState (projection : BusinessProjection) : M BusinessProjection :=
  now ← Now; mret (withSchedule BindingProjectionPending 0 (Some now) None None projection).

(** The columns [persistDesiredState] and [markProjectionApplied] write. *)
Definition desiredColumns (p r : BusinessProjection) : BusinessProjection :=
  Build_BusinessProjection (BusinessProjection_ID r) (BusinessProjection_CreatedAt r) (BusinessProjection_UpdatedAt p)
    (BusinessProjection_TenantID p) (BusinessProjection_FlowID p) (BusinessProjection_FlowVersionID p)
    (BusinessProjection_OwnerInstanceID p) (BusinessProjection_AppliedOwnerInstanceID r)
    (BusinessProjection_TargetHash r) (BusinessProjection_Consistency p) (BusinessProjection_Binding p)
    (BusinessProjection_RecordKey p) (BusinessProjection_DesiredStatus p) (BusinessProjection_DesiredStartedAt p)
    (BusinessProjection_DesiredFinishedAt p) (BusinessProjection_DesiredRevision p)
    (BusinessProjection_AppliedRevision r) (BusinessProjection_Status p) (BusinessProjection_AttemptCount p)
    (BusinessProjection_NextAttemptAt p) (BusinessProjection_LeaseUntil p) (BusinessProjection_LastError p)
    (BusinessProjection_AppliedAt r).
Definition appliedColumns (p : BusinessProjection) (now : DateTime) (r : BusinessProjection) : BusinessProjection :=
  Build_BusinessProjection (BusinessProjection_ID r) (BusinessProjection_CreatedAt r) now
    (BusinessProjection_TenantID r) (BusinessProjection_FlowID r) (BusinessProjection_FlowVersionID r)
    (BusinessProjection_OwnerInstanceID r) (Some (BusinessProjection_OwnerInstanceID p))
    (BusinessProjection_TargetHash r) (BusinessProjection_Consistency r) (BusinessProjection_Binding r)
    (BusinessProjection_RecordKey r) (BusinessProjection_DesiredStatus r) (BusinessProjection_DesiredStartedAt r)
    (BusinessProjection_DesiredFinishedAt r) (BusinessProjection_DesiredRevision r)
    (BusinessProjection_DesiredRevision p) BindingProjectionApplied 0 None None None (Some now).
Definition persistDesiredState (projection : BusinessProjection) : M BusinessProjection :=
  now ← Now;
  let projection := set_BusinessProjection_UpdatedAt now projection in
  updateProjections (λ r, BusinessProjection_ID r ==? BusinessProjection_ID projection) (desiredColumns projection);;
  mret projection.
Definition markProjectionApplied (projection : BusinessProjection) : M unit :=
  now ← Now;
  updateProjections (λ r, BusinessProjection_ID r ==? BusinessProjection_ID projection) (appliedColumns projection now);;
  mret tt.

Definition applySynchronouslyIfConfigured (projection : BusinessProjection) : M unit :=
  match BusinessProjection_Consistency projection with
  | ApprovalBindingEventual => mret tt
  | ApprovalBindingSynchronous => Writer_Write projection;; markProjectionApplied projection
  | BindingConsistencyOther _ => throw ErrProjectionStateInvalid
  end.
Definition ensureOwnerCanBeSuperseded (ownerInstanceID : string) : M unit :=
  if ownerInstanceID ==? "" then mret tt
  else
    owner ← findInstance ownerInstanceID;
    match owner with
    | None => mret tt
    | Some i => throwIf (negb (InstanceStatus_IsFinal (Instance_Status i))) ErrBindingTargetBusy
    end.

(** [INSERT ... ON CONFLICT (target_hash) DO UPDATE SET target_hash]: an existing row
    stays as it is. *)
Definition insertProjection (projection : BusinessProjection) : M unit :=
  id ← freshID; now ← Now;
  let row := set_BusinessProjection_ID id (set_BusinessProjection_CreatedAt now
               (set_BusinessProjection_UpdatedAt now projection)) in
  modify (upd_projections (λ l,
    if texists (λ p, BusinessProjection_TargetHash p ==? BusinessProjection_TargetHash row) l then l
    else l ++ [row])).
Definition newProjection (instance : Instance) (targetHash : string) (consistency : BindingConsistency)
    (binding : BusinessBindingConfig) (key : list storedRecordKeyPart) : BusinessProjection :=
  Build_BusinessProjection "" 0 0 (Instance_TenantID instance) (Instance_FlowID instance)
    (Instance_FlowVersionID instance) (Instance_ID instance) None targetHash consistency (Some binding) key
    (Instance_Status instance) 0 None 1 0 BindingProjectionPending 0 None None None None.
Definition asInvalidRef {A} (r : res A) : res A :=
  match r with Err ErrBindingInvalidBusinessRef => Err ErrInvalidBusinessRef | _ => r end.
Definition tableOf (b : option BusinessBindingConfig) : option string := BusinessBindingConfig_TableName <$> b.

(** [Bind] up to the point where the claim is stored. *)
Definition claimTarget (flow : Flow) (configured : BusinessBindingConfig) (instance : Instance)
    : M BusinessProjection :=
  binding ← liftR (asMisconfigured (NormalizeConfig BindingBusiness (Some configured)));
  throwIf (match Instance_BusinessRef instance with
           | None => true
           | Some r => TrimSpace r ==? ""
           end) ErrBusinessRefRequired;;
  let resolvedFlow := set_Flow_BusinessBinding (Some binding) (set_Flow_BindingMode BindingBusiness flow) in
  recordKey ← liftR (asInvalidRef (ResolveRecordKey resolvedFlow instance));
  encodedKey ← liftR (asInvalidRef (encodeRecordKey binding recordKey));
  let targetHash := targetHashOf (BusinessBindingConfig_TableName binding) encodedKey in
  projection ← setDesiredState (newProjection instance targetHash EffectiveConsistency binding encodedKey) instance;
  insertProjection projection;;
  loaded ← orThrow ErrRecordNotFound
    (gets (λ s, tfirst (λ p, BusinessProjection_TargetHash p ==? targetHash) (db_projections s)));
  throwIf (negb (tableOf (BusinessProjection_Binding loaded) ==? Some (BusinessBindingConfig_TableName binding))
           || negb (recordKeysEqual (BusinessProjection_RecordKey loaded) encodedKey)) ErrProjectionStateInvalid;;
  loaded ← (if negb (BusinessProjection_OwnerInstanceID loaded ==? Instance_ID instance) then
              ensureOwnerCanBeSuperseded (BusinessProjection_OwnerInstanceID loaded);;
              setDesiredState (bumpRevision (claimedBy instance EffectiveConsistency binding encodedKey loaded)) instance
            else if (BusinessProjection_DesiredRevision loaded =? 0)%Z then mret (withRevision 1 loaded)
            else mret loaded);
  loaded ← resetPendingState loaded;
  persistDesiredState loaded.
Definition Projector_Bind (flow : Flow) (version : FlowVersion) (instance : Instance) : M Instance :=
  match FlowVersion_BusinessBinding version with
  | None => mret instance
  | Some configured =>
      loaded ← claimTarget flow configured instance;
      let projectionID := BusinessProjection_ID loaded in
      updateInstances (λ i, Instance_ID i ==? Instance_ID instance)
        (set_Instance_BusinessProjectionID (Some projectionID));;
      applySynchronouslyIfConfigured loaded;;
      mret (set_Instance_BusinessProjectionID (Some projectionID) instance)
  end.
Definition Projector_Project (instance : Instance) : M unit :=
  match Instance_BusinessProjectionID instance with
  | None => mret tt
  | Some id =>
      if id ==? "" then mret tt
      else
        projection ← orThrow ErrProjectionStateInvalid (findProjection id);
        if negb (BusinessProjection_OwnerInstanceID projection ==? Instance_ID instance) then mret tt
        else
          projection ← setDesiredState (bumpRevision projection) instance;
          projection ← resetPendingState projection;
          projection ← persistDesiredState projection;
          applySynchronouslyIfConfigured projection
  end.
End projector.

(** ** The worker *)

(** [strings.ToValidUTF8(s, "")] *)
Definition ToValidUTF8 (s : string) : string := String.string_of_list_ascii (scrubUTF8 [] (bytes s)).

(** Seconds until the next attempt. *)
Definition projectionBackoff (attempt : Z) : Z :=
  let shift := Z.min (Z.max attempt 0) 12 in
  Z.min (Z.shiftl 1 shift) 3600.
Definition maxErrorBytes : nat := 512.

Section worker.
Context `{!Host}.

Definition projectionError (err : Error) : string :=
  let message := TrimSpace (ToValidUTF8 (errorText err)) in
  if (maxErrorBytes <? String.length message)%nat then ToValidUTF8 (takeBytes maxErrorBytes message) else message.
Definition projectionTrigger (projection : BusinessProjection) : BindingTrigger :=
  match BusinessProjection_DesiredStatus projection with
  | InstanceReturned => BindingTriggerReturned
  | InstanceWithdrawn => BindingTriggerWithdrawn
  | InstanceApproved | InstanceRejected | InstanceTerminated => BindingTriggerCompleted
  | _ =>
      if BusinessProjection_AppliedOwnerInstanceID projection ==? Some (BusinessProjection_OwnerInstanceID projection)
      then BindingTriggerResubmitted else BindingTriggerStarted
  end.
Definition markProjectionFailed (projection : BusinessProjection) (cause : Error) : M unit :=
  now ← Now;
  let attempts := (BusinessProjection_AttemptCount projection + 1)%Z in
  let nextAttempt := (now + projectionBackoff attempts)%Z in
  updateProjections (λ r, BusinessProjection_ID r ==? BusinessProjection_ID projection)
    (λ r, set_BusinessProjection_UpdatedAt now
       (withSchedule BindingProjectionFailed attempts (Some nextAttempt) None (Some (projectionError cause)) r));;
  mret tt.

(** A job runs with no collectors installed: its events are published at once and
    there is no action log collector. *)
Definition outsidePipeline {A} (m : M A) : M A := λ s,
  match m (set_pipeline false s) with
  | Ok (a, s') => Ok (a, set_pipeline (db_pipeline s) s')
  | Err e => Err e
  end.
(** A savepoint: a failure is undone and reported. *)
Definition savepoint {A} (m : M A) : M (res A) := λ s,
  let '(r, s') := runInTx m s in Ok (r, s').

(** [claimBatch] *)
Definition due (t : option DateTime) (now : DateTime) : bool :=
  match t with None => true | Some t => (t <=? now)%Z end.
Definition claimable (now : DateTime) (p : BusinessProjection) : bool :=
  (BusinessProjection_Consistency p ==? ApprovalBindingEventual)
  && (BusinessProjection_AppliedRevision p <? BusinessProjection_DesiredRevision p)%Z
  && match BusinessProjection_Status p with
     | BindingProjectionPending | BindingProjectionFailed => due (BusinessProjection_NextAttemptAt p) now
     | BindingProjectionProcessing => due (BusinessProjection_LeaseUntil p) now
     | BindingProjectionApplied => false
     end.
(** [ORDER BY COALESCE(next_attempt_at, created_at), created_at, id] *)
Definition attemptAt (p : BusinessProjection) : DateTime :=
  default (BusinessProjection_CreatedAt p) (BusinessProjection_NextAttemptAt p).
Definition claim_le (p q : BusinessProjection) : Prop :=
  (attemptAt p < attemptAt q)%Z ∨ attemptAt p = attemptAt q ∧
    ((BusinessProjection_CreatedAt p < BusinessProjection_CreatedAt q)%Z ∨
     BusinessProjection_CreatedAt p = BusinessProjection_CreatedAt q ∧
       String.leb (BusinessProjection_ID p) (BusinessProjection_ID q) = true).
#[export] Instance claim_le_dec p q : Decision (claim_le p q).
Proof. unfold claim_le. apply _. Defined.
Definition leased (until now : DateTime) (p : BusinessProjection) : BusinessProjection :=
  set_BusinessProjection_Status BindingProjectionProcessing
    (set_BusinessProjection_LeaseUntil (Some until) (set_BusinessProjection_UpdatedAt now p)).
Definition claimBatch : M (list BusinessProjection) :=
  now ← Now;
  let leaseUntil := (now + Z.max 30 (3 * EffectiveScanInterval))%Z in
  claimed ← gets (λ s, take (Z.to_nat EffectiveBatchSize)
    (merge_sort claim_le (tselect (claimable now) (db_projections s))));
  let ids := BusinessProjection_ID <$> claimed in
  (if (length claimed =? 0)%nat then mret tt
   else updateProjections (λ p, bool_decide (BusinessProjection_ID p ∈ ids)) (leased leaseUntil now);; mret tt);;
  mret ((λ p, set_BusinessProjection_Status BindingProjectionProcessing
                (set_BusinessProjection_LeaseUntil (Some leaseUntil) p)) <$> claimed).

(** [applyClaim]: the transaction, then the notification of a failure. *)
Definition stillClaimed (claimed current : BusinessProjection) : bool :=
  (BusinessProjection_Status current ==? BindingProjectionProcessing)
  && (BusinessProjection_OwnerInstanceID current ==? BusinessProjection_OwnerInstanceID claimed)
  && (BusinessProjection_DesiredRevision current =? BusinessProjection_DesiredRevision claimed)%Z.
Definition failureEvent (instance : Instance) (failed : BusinessProjection) (cause : Error) : DomainEvent :=
  NewInstanceBindingFailedEvent instance (projectionTrigger failed) (BusinessProjection_DesiredStatus failed)
    (default "" (tableOf (BusinessProjection_Binding failed))) (projectionError cause).
Definition applyClaim (claimed : BusinessProjection) : M unit :=
  found ← findProjection (BusinessProjection_ID claimed);
  match found with
  | None => mret tt
  | Some current =>
      if negb (stillClaimed claimed current) then mret tt
      else
        written ← savepoint (Writer_Write current);
        match written with
        | Ok _ => markProjectionApplied current
        | Err cause =>
            markProjectionFailed current cause;;
            owner ← findInstance (BusinessProjection_OwnerInstanceID current);
            match owner with
            | None => mret tt
            | Some instance => EmitEvents [failureEvent instance current cause]
            end
        end
  end.
(** [ProcessPending]: each claim in a transaction of its own; the claims themselves
    never fail here, so the loop goes through. *)
Definition ProcessPending (s : St) : nat * St :=
  match runInTx claimBatch s with
  | (Ok claimed, s) => (length claimed, foldl (λ s p, (runInTx (outsidePipeline (applyClaim p)) s).2) s claimed)
  | (Err _, s) => (0, s)
  end.

(** [Worker.Retry] and the command that calls it *)
Definition Worker_Retry (projection : BusinessProjection) : M unit :=
  throwIf (negb (BusinessProjection_Consistency projection ==? ApprovalBindingEventual)) ErrProjectionStateInvalid;;
  written ← savepoint (Writer_Write projection);
  match written with
  | Ok _ => markProjectionApplied projection
  | Err cause => markProjectionFailed projection cause
  end.
End worker.

(** ** What bindings write

    The clock, projections and business rows; claiming also uses an id and links
    the instance. *)
Section frame.
Context `{!Host} (R : relation St) `{!PreOrder R}.
Context (keeps_Now : keeps R Now).
Context (keeps_projections : ∀ f, keeps R (modify (E := Error) (upd_projections f))).
Context (keeps_business : ∀ f, keeps R (modify (E := Error) (upd_business f))).

Lemma keeps_updateProjections p f : keeps R (updateProjections p f).
Proof. intros s a s' [= <- <-]. by apply (keeps_projections (tupdate p f) s tt). Qed.
Lemma keeps_updateBusiness t sets p : keeps R (updateBusiness t sets p).
Proof.
  intros s a s' Hrun. unfold updateBusiness in Hrun. step Hrun as u s1 H1. apply liftR_Ok in H1 as [_ ->].
  injection Hrun as <- <-. by apply (keeps_business (tupdate p (setCells sets)) s tt).
Qed.
#[local] Hint Resolve keeps_Now keeps_projections keeps_business keeps_updateProjections keeps_updateBusiness : keeps.
Lemma keeps_Writer_Write p : keeps R (Writer_Write p).
Proof. unfold Writer_Write, checkFence, bindingTargetOwnerMatches, lockBindingTarget. keeps_tac. Qed.
Lemma keeps_markProjectionApplied p : keeps R (markProjectionApplied p).
Proof. unfold markProjectionApplied. keeps_tac. Qed.
#[local] Hint Resolve keeps_Writer_Write keeps_markProjectionApplied : keeps.
Lemma keeps_setDesiredState p i : keeps R (setDesiredState p i).
Proof. unfold setDesiredState. keeps_tac. Qed.
Lemma keeps_resetPendingState p : keeps R (resetPendingState p).
Proof. unfold resetPendingState. keeps_tac. Qed.
Lemma keeps_persistDesiredState p : keeps R (persistDesiredState p).
Proof. unfold persistDesiredState. keeps_tac. Qed.
Lemma keeps_applySynchronously p : keeps R (applySynchronouslyIfConfigured p).
Proof. unfold applySynchronouslyIfConfigured. keeps_tac. Qed.
#[local] Hint Resolve keeps_setDesiredState keeps_resetPendingState keeps_persistDesiredState
  keeps_applySynchronously : keeps.
Lemma keeps_Project i : keeps R (Projector_Project i).
Proof. unfold Projector_Project, orThrow, findProjection. keeps_tac. Qed.
Lemma keeps_savepoint {A} (m : M A) : keeps R m → keeps R (savepoint m).
Proof.
  intros Hm s a s' Hrun. unfold savepoint, runInTx in Hrun. destruct (m s) as [[x s1]|e] eqn:E; injection Hrun as _ <-.
  - by eapply Hm.
  - reflexivity.
Qed.
Lemma keeps_markProjectionFailed p e : keeps R (markProjectionFailed p e).
Proof. unfold markProjectionFailed. keeps_tac. Qed.
#[local] Hint Resolve keeps_savepoint keeps_markProjectionFailed : keeps.
Lemma keeps_Retry p : keeps R (Worker_Retry p).
Proof. unfold Worker_Retry. keeps_tac. Qed.
Lemma keeps_claimBatch : keeps R claimBatch.
Proof. unfold claimBatch. keeps_tac. Qed.
Lemma keeps_applyClaim p : (∀ evs, keeps R (EmitEvents evs)) → keeps R (applyClaim p).
Proof. intros He. unfold applyClaim, findProjection, findInstance. keeps_tac. Qed.
Lemma keeps_claimTarget flow b i : keeps R freshID → keeps R (claimTarget flow b i).
Proof.
  intros Hid. unfold claimTarget, insertProjection, ensureOwnerCanBeSuperseded, orThrow, findInstance. keeps_tac.
Qed.
Lemma keeps_Bind flow version i :
  keeps R freshID →
  (∀ id, keeps R (updateInstances (λ r, Instance_ID r ==? Instance_ID i) (set_Instance_BusinessProjectionID id))) →
  keeps R (Projector_Bind flow version i).
Proof. intros Hid Hu. pose proof (λ f b, keeps_claimTarget f b i Hid). unfold Projector_Bind. keeps_tac. Qed.
End frame.
