(* ===== verification/BindingProps.v ===== *)
(** * What bindings promise

    The key of a bound record survives storage, a write reaches exactly the record
    that was bound and fills in every configured column, and the retry schedule and
    the recorded errors stay within bounds. *)
From Stdlib Require Import Ascii.
From S2P Require Import Prelude Enums StateMachine Models Demo Store Shared FormValidation FormStorage RecordKeys Binding.

(** ** Normalised configurations *)
Lemma distinctColumns_Ok seen cols :
  distinctColumns seen cols = Ok tt → NoDup cols ∧ ∀ c, c ∈ cols → c ∉ seen.
Proof.
  revert seen. induction cols as [|c cols IH]; intros seen; cbn [distinctColumns].
  { intros _. split; [constructor|]. by intros c ?%elem_of_nil. }
  rewrite result_seq_Ok, failIf_Ok, bool_decide_eq_false. intros [Hc [Hnd Hs]%IH]. split.
  - constructor; [|done]. intros Hin. by specialize (Hs c Hin) as []%not_elem_of_union; set_solver.
  - intros x [->|Hx]%elem_of_cons; [done|]. specialize (Hs x Hx). set_solver.
Qed.
Lemma identPart_ascii a : identPart a = true → byteOf a < 128.
Proof.
  unfold identPart, identStart, isLower, isUpper, isUnderscore, isDigit, inRange.
  rewrite !orb_true_iff, !andb_true_iff, !Nat.leb_le. lia.
Qed.
Lemma checkIdentifier_plain c : TrimSpace c = c → checkIdentifier c = Ok tt → plainColumn c.
Proof.
  intros Ht. unfold checkIdentifier. rewrite result_seq_Ok, failIf_Ok, bool_decide_eq_false. intros [Hne Hid].
  split; [done|]. unfold ValidateBusinessIdentifier in Hid. rewrite Ht, bool_decide_eq_false_2 in Hid by done.
  apply failIf_Ok, negb_false_iff in Hid. unfold isUTF8. apply bool_decide_eq_true, scrub_ascii.
  unfold businessIdentifierPattern in Hid. destruct (bytes c) as [|a l]; [done|].
  apply andb_true_iff in Hid as [[Ha Hl]%andb_true_iff _]. constructor.
  - apply identPart_ascii. unfold identPart. by rewrite Ha.
  - apply Forall_forall. intros b Hb. rewrite forallb_forall in Hl. by apply identPart_ascii, Hl, list_elem_of_In.
Qed.

(** What [NormalizeConfig] guarantees. *)
Record normal (c : BusinessBindingConfig) : Prop := {
  nrm_key : BusinessBindingConfig_KeyColumns c ≠ [];
  nrm_owner : is_Some (BusinessBindingConfig_InstanceIDColumn c);
  nrm_distinct : NoDup (BusinessBindingConfig_KeyColumns c ++ bindingWriteColumns c);
  nrm_plain : ∀ x, x ∈ BusinessBindingConfig_KeyColumns c ++ bindingWriteColumns c → plainColumn x;
}.
Lemma trimmed_columns c x :
  let n := trimmedConfig c in
  x ∈ BusinessBindingConfig_KeyColumns n ++ bindingWriteColumns n → TrimSpace x = x.
Proof.
  assert (∀ o x, normalizeOptionalColumn o = Some x → TrimSpace x = x) as Hopt.
  { intros [y|] z; cbn; [|done]. case_bool_decide; [done|]. intros [= <-]. apply TrimSpace_idemp. }
  intros n [Hx|Hx]%elem_of_app.
  - unfold n, trimmedConfig in Hx. cbn [BusinessBindingConfig_KeyColumns] in Hx. unfold orderByString in Hx. rewrite merge_sort_Permutation in Hx.
    apply list_elem_of_fmap in Hx as (y & -> & _). apply TrimSpace_idemp.
  - unfold bindingWriteColumns in Hx. apply elem_of_cons in Hx as [->|Hx]; [apply TrimSpace_idemp|].
    apply list_elem_of_omap in Hx as (o & Ho & Hx). unfold id in Hx. subst o. unfold n, trimmedConfig in Ho.
    cbn [BusinessBindingConfig_InstanceIDColumn BusinessBindingConfig_StartedAtColumn BusinessBindingConfig_FinishedAtColumn] in Ho.
    repeat (apply elem_of_cons in Ho as [Ho|Ho]; [symmetry in Ho; by eapply Hopt|]). by apply elem_of_nil in Ho.
Qed.
Lemma NormalizeConfig_normal b c : asMisconfigured (NormalizeConfig BindingBusiness (Some b)) = Ok c → normal c.
Proof.
  unfold NormalizeConfig. rewrite bool_decide_eq_true_2 by done.
  destruct (normalizeBusiness b) as [n|] eqn:Hn; [|done]. intros [= <-]. unfold normalizeBusiness in Hn.
  apply result_seq_Ok in Hn as [H1 Hn]. apply result_seq_Ok in Hn as [_ Hn]. apply result_seq_Ok in Hn as [H2 Hn].
  apply result_seq_Ok in Hn as [H3 [= <-]]. apply failIf_Ok in H1. apply distinctColumns_Ok in H3 as [H3 _].
  apply orb_false_iff in H1 as [[[_ Hk%Nat.eqb_neq]%orb_false_iff _]%orb_false_iff Ho%negb_false_iff].
  rewrite checkAll_Ok in H2. constructor; try done.
  - intros Hnil. apply Hk, (f_equal length Hnil).
  - change (is_Some_b (normalizeOptionalColumn (BusinessBindingConfig_InstanceIDColumn b)) = true) in Ho.
    change (is_Some (normalizeOptionalColumn (BusinessBindingConfig_InstanceIDColumn b))).
    by destruct (normalizeOptionalColumn _).
  - intros x Hx. apply checkIdentifier_plain; [exact (trimmed_columns b x Hx)|]. apply H2. by right.
Qed.

Definition demoBinding : BusinessBindingConfig :=
  Build_BusinessBindingConfig "orders" ["region"; "no"; "raw"] "status" (Some "apv_instance_id") (Some "started_at")
    (Some "finished_at") None.
Definition demoKey : gmap string KeyValue :=
  {["no" := KeyValueOf (DInt64 (-42)); "region" := KeyValueOf (DString "eu"); "raw" := KeyValueOf (DBytes "ab/?")]}.

(** ** The write *)
Lemma tselect_one {Row} (p : Row → bool) (l : list Row) :
  length (tselect p l) = 1 →
  ∃ i r, l !! i = Some r ∧ p r = true ∧ (∀ j r', l !! j = Some r' → p r' = true → j = i).
Proof.
  unfold tselect. induction l as [|x l IH]; cbn; [done|]. destruct (p x) eqn:Hx; cbn.
  - intros [= Hnil%nil_length_inv]. exists 0, x. split_and!; [done|done|]. intros [|j] r' Hj Hr'; [done|].
    exfalso. cbn in Hj. assert (r' ∈ List.filter p l) as Hin; [|by rewrite Hnil in Hin; apply elem_of_nil in Hin].
    apply list_elem_of_In, List.filter_In. split; [|done]. apply list_elem_of_In. by eapply list_elem_of_lookup_2.
  - intros (i & r & Hi & Hr & Hu)%IH. exists (S i), r. split_and!; [done|done|].
    intros [|j] r' Hj Hr'; [injection Hj as <-; congruence|]. f_equal. by eapply Hu.
Qed.
Lemma tupdate_one {Row} (p : Row → bool) f (l : list Row) i r :
  l !! i = Some r → p r = true → (∀ j r', l !! j = Some r' → p r' = true → j = i) →
  tupdate p f l = <[i := f r]> l.
Proof.
  intros Hi Hr Hu. apply list_eq. intros j. unfold tupdate. rewrite list_lookup_fmap.
  destruct (decide (j = i)) as [->|Hne].
  - rewrite Hi, list_lookup_insert_eq by (by eapply lookup_lt_Some). cbn. by rewrite Hr.
  - rewrite list_lookup_insert_ne by done. destruct (l !! j) as [x|] eqn:Hx; [|done]. cbn.
    destruct (p x) eqn:Hp; [|done]. by destruct Hne; eapply Hu.
Qed.
Lemma foldl_setCell sets : ∀ cells c, NoDup (sets.*1) →
  foldl setCell cells sets !! c = match list_to_map (M := gmap string (option DriverValue)) sets !! c with
                                  | Some v => v
                                  | None => cells !! c
                                  end.
Proof.
  induction sets as [|[k v] sets IH]; intros cells c Hnd; cbn [foldl]; [done|].
  cbn in Hnd. apply NoDup_cons in Hnd as [Hk Hnd]. rewrite IH by done. cbn [list_to_map foldr].
  change (list_to_map ((k, v) :: sets)) with (<[k := v]> (list_to_map (M := gmap string (option DriverValue)) sets)).
  unfold setCell; cbn. destruct (decide (c = k)) as [->|Hne].
  - rewrite lookup_insert_eq, not_elem_of_list_to_map_1 by done.
    destruct v; [apply lookup_insert_eq|apply lookup_delete_eq].
  - rewrite lookup_insert_ne by done. destruct (list_to_map sets !! c) eqn:Hc; rewrite ?Hc; [done|].
    destruct v; [by rewrite lookup_insert_ne|by rewrite lookup_delete_ne].
Qed.
(** The columns written are the configured ones, in order. *)
Lemma projectedCells_columns config p st sets :
  is_Some (BusinessBindingConfig_InstanceIDColumn config) → projectedCells config p st = Ok sets →
  sets.*1 = bindingWriteColumns config.
Proof.
  intros [o Ho]. unfold projectedCells, liveCells, bindingWriteColumns, instanceIDColumn. rewrite Ho. cbn [default from_option id].
  destruct (BusinessBindingConfig_StartedAtColumn config), (BusinessBindingConfig_FinishedAtColumn config);
    cbn; try (by intros [= <-]); by intros (v & _ & [= <-])%result_bind_Ok.
Qed.
Section write.
Context `{!Host}.

Lemma checkFence_Ok config key p s u s' :
  checkFence config key p s = Ok (u, s') → s' = s ∧
  (fenced p = true → ∃ owner r, BusinessProjection_AppliedOwnerInstanceID p = Some owner ∧
     r ∈ db_business s ∧ recordKeyCondition config key r = true ∧ ownedBy config owner r = true).
Proof.
  unfold checkFence. destruct (fenced p); [|by intros [= _ <-]].
  destruct (BusinessProjection_AppliedOwnerInstanceID p) as [owner|]; [|done]. intros Hrun.
  step Hrun as b s1 E1. unfold bindingTargetOwnerMatches in E1. step E1 as x s2 E2. apply liftR_Ok in E2 as [_ ->].
  injection E1 as Hb <-. apply throwIf_Ok in Hrun as [Hn ->]. split; [done|]. intros _.
  apply negb_false_iff in Hn. subst b. apply texists_true in Hn as (r & Hr & [? ?]%andb_true_iff).
  by exists owner, r.
Qed.
(** A successful write, step by step. *)
Lemma Writer_Write_run p s u s' :
  Writer_Write p s = Ok (u, s') →
  ∃ config key status sets i row,
    (∃ b, BusinessProjection_Binding p = Some b ∧
       asMisconfigured (NormalizeConfig BindingBusiness (Some b)) = Ok config) ∧
    (∃ stored, decodeRecordKey (BusinessProjection_RecordKey p) = Ok stored ∧
       validateRecordKey config (KeyValueOf <$> stored) = Ok key) ∧
    projectedStatus config (BusinessProjection_DesiredStatus p) = Ok status ∧
    projectedCells config p status = Ok sets ∧
    db_business s !! i = Some row ∧
    (∀ j r, db_business s !! j = Some r → recordKeyCondition config key r = true ↔ j = i) ∧
    (fenced p = true → ∃ owner, BusinessProjection_AppliedOwnerInstanceID p = Some owner ∧ ownedBy config owner row = true) ∧
    s' = upd_business (λ l, <[i := setCells sets row]> l) s.
Proof.
  unfold Writer_Write. destruct (BusinessProjection_Binding p) as [b|]; [|done]. intros Hrun.
  step Hrun as config s1 E1. apply liftR_Ok in E1 as [Hc ->]. step Hrun as stored s1 E1. apply liftR_Ok in E1 as [Hst ->].
  step Hrun as key s1 E1. apply liftR_Ok in E1 as [Hk ->]. step Hrun as n s1 E1. unfold lockBindingTarget in E1.
  step E1 as x s2 E2. apply liftR_Ok in E2 as [_ ->]. injection E1 as Hn <-.
  step Hrun as v s1 E1. apply throwIf_Ok in E1 as [H0 ->]. step Hrun as w s1 E1. apply throwIf_Ok in E1 as [H1 ->].
  apply Nat.eqb_neq in H0. apply Nat.ltb_ge in H1.
  step Hrun as y s1 E1. apply checkFence_Ok in E1 as [-> Hfence]. step Hrun as status s1 E1. apply liftR_Ok in E1 as [Hs ->].
  step Hrun as sets s1 E1. apply liftR_Ok in E1 as [Hsets ->]. step Hrun as aff s1 E1.
  apply throwIf_Ok in Hrun as [_ ->]. unfold updateBusiness in E1. step E1 as z s2 E2. apply liftR_Ok in E2 as [_ ->].
  injection E1 as _ <-.
  destruct (tselect_one (recordKeyCondition config key) (db_business s)) as (i & row & Hi & Hr & Hu).
  { rewrite length_take in Hn. subst n. lia. }
  assert (fenced p = true → ∃ owner, BusinessProjection_AppliedOwnerInstanceID p = Some owner ∧ ownedBy config owner row = true)
    as Hown.
  { intros Hf. destruct (Hfence Hf) as (owner & r & Ho & [j Hj]%list_elem_of_lookup & Hcond & Hown). exists owner.
    rewrite (Hu j r Hj Hcond), Hi in Hj. by injection Hj as ->. }
  exists config, key, status, sets, i, row. split_and!; try done; [by exists b|by exists stored| |].
  - intros j r Hj. split; [by apply Hu|]. intros ->. rewrite Hi in Hj. by injection Hj as <-.
  - destruct s as [? ? ? ? ? ? ? ? ? ? ? ? ? ? ? ? ? ? ? ? ? ? ? ? bus]. unfold upd_business. f_equal. cbn in *.
    apply tupdate_one; [done| |].
    + unfold updateCondition. rewrite Hr. cbn. destruct (fenced p); [|done]. destruct (Hown eq_refl) as (o & -> & Ho).
      cbn. done.
    + intros j r' Hj [Hc' _]%andb_true_iff. by eapply Hu.
Qed.

(** What a write leaves in the row. *)
Record written (config : BusinessBindingConfig) (p : BusinessProjection) (status : string) (row row' : BusinessRow)
    : Prop := {
  wrt_table : BusinessRow_Table row' = BusinessRow_Table row;
  wrt_status : BusinessRow_Cells row' !! BusinessBindingConfig_StatusColumn config = Some (DString status);
  wrt_owner : BusinessRow_Cells row' !! instanceIDColumn config = Some (DString (BusinessProjection_OwnerInstanceID p));
  wrt_started : ∀ c, BusinessBindingConfig_StartedAtColumn config = Some c →
    BusinessRow_Cells row' !! c = Some (DTime (BusinessProjection_DesiredStartedAt p));
  wrt_finished : ∀ c, BusinessBindingConfig_FinishedAtColumn config = Some c →
    BusinessRow_Cells row' !! c =
      if InstanceStatus_IsFinal (BusinessProjection_DesiredStatus p)
      then DTime <$> BusinessProjection_DesiredFinishedAt p else None;
  wrt_rest : ∀ c, c ∉ bindingWriteColumns config → BusinessRow_Cells row' !! c = BusinessRow_Cells row !! c;
}.
Lemma projectedCells_Ok config p status sets :
  projectedCells config p status = Ok sets →
  (∀ x, x ∈ liveCells config p status → x ∈ sets) ∧
  (∀ c, BusinessBindingConfig_FinishedAtColumn config = Some c →
     ∃ v, finishedAtCell p = Ok v ∧ (c, v) ∈ sets).
Proof.
  unfold projectedCells. destruct (BusinessBindingConfig_FinishedAtColumn config) as [f|].
  - intros (v & Hv & Hs)%result_bind_Ok.
    assert (sets = liveCells config p status ++ [(f, v)]) as -> by congruence. split.
    + intros x Hx. apply elem_of_app. by left.
    + intros c [= <-]. exists v. split; [done|]. apply elem_of_app. right. left.
  - intros Hs. assert (sets = liveCells config p status) as -> by congruence. done.
Qed.
Lemma setCells_written config p status sets row :
  normal config → projectedCells config p status = Ok sets → written config p status row (setCells sets row).
Proof.
  intros [_ Ho Hd _] Hs. pose proof (projectedCells_columns _ _ _ _ Ho Hs) as Hcols.
  apply NoDup_app in Hd as (_ & _ & Hd). rewrite <-Hcols in Hd.
  assert (∀ c v, (c, v) ∈ sets → BusinessRow_Cells (setCells sets row) !! c = v) as Hin.
  { intros c v Hv. cbn. rewrite foldl_setCell by done. by rewrite (elem_of_list_to_map_1 sets c v Hd Hv). }
  apply projectedCells_Ok in Hs as [Hbase Hfin].
  constructor.
  - done.
  - apply Hin, Hbase. apply elem_of_app. left. left.
  - apply Hin, Hbase. apply elem_of_app. left. right. left.
  - intros c Hc. apply Hin, Hbase. unfold liveCells. rewrite Hc. apply elem_of_app. right. left.
  - intros c Hc. destruct (Hfin c Hc) as (v & Hv & Hc'). rewrite (Hin c v Hc'). unfold finishedAtCell in Hv.
    destruct (InstanceStatus_IsFinal _); [|by injection Hv as <-].
    destruct (BusinessProjection_DesiredFinishedAt p); [by injection Hv as <-|done].
  - intros c Hc. rewrite <-Hcols in Hc. cbn. rewrite foldl_setCell by done. by rewrite not_elem_of_list_to_map_1.
Qed.
(** The key columns are not among the written ones. *)
Lemma written_key config key p status row row' :
  normal config → written config p status row row' →
  recordKeyCondition config key row' = recordKeyCondition config key row.
Proof.
  intros [_ _ Hd _] Hw. unfold recordKeyCondition. rewrite (wrt_table _ _ _ _ _ Hw). f_equal.
  assert (∀ c, c ∈ BusinessBindingConfig_KeyColumns config →
    cellEquals row' c (key !! c) = cellEquals row c (key !! c)) as Hc.
  { intros c Hc. unfold cellEquals. rewrite (wrt_rest _ _ _ _ _ Hw); [done|].
    apply NoDup_app in Hd as (_ & Hd & _). by apply Hd. }
  clear Hd. induction (BusinessBindingConfig_KeyColumns config) as [|c cs IH]; cbn; [done|].
  rewrite Hc by left. f_equal. apply IH. intros. apply Hc. by right.
Qed.
End write.

(** C20. A business write reaches exactly the bound record: it succeeds only if the
    key of the projection singles out one row of the table and, once the record has
    been written before, only if that row still names the owner of that write.  Then
    this row alone changes: it carries the mapped status, the owning instance and the
    configured times (no finish time while the instance is live), everything else
    in it is as it was, and it is still found under its key. *)
Theorem writes_reach_the_bound_record `{!Host} p s u s' :
  Writer_Write p s = Ok (u, s') →
  ∃ b config stored key status i row row',
    BusinessProjection_Binding p = Some b ∧
    asMisconfigured (NormalizeConfig BindingBusiness (Some b)) = Ok config ∧
    decodeRecordKey (BusinessProjection_RecordKey p) = Ok stored ∧
    validateRecordKey config (KeyValueOf <$> stored) = Ok key ∧
    projectedStatus config (BusinessProjection_DesiredStatus p) = Ok status ∧
    db_business s !! i = Some row ∧
    (∀ j r, db_business s !! j = Some r → recordKeyCondition config key r = true ↔ j = i) ∧
    ((0 < BusinessProjection_AppliedRevision p)%Z →
       ∃ owner, BusinessProjection_AppliedOwnerInstanceID p = Some owner ∧ ownedBy config owner row = true) ∧
    s' = upd_business (λ l, <[i := row']> l) s ∧
    written config p status row row' ∧ recordKeyCondition config key row' = true.
Proof.
  intros (config & key & status & sets & i & row & (b & Hb & Hc) & (stored & Hs1 & Hs2) & Hst & Hsets & Hi & Hu & Hf & ->)%Writer_Write_run.
  pose proof (NormalizeConfig_normal _ _ Hc) as Hn. pose proof (setCells_written config p status sets row Hn Hsets) as Hw.
  exists b, config, stored, key, status, i, row, (setCells sets row). repeat (split; [done|]).
  split; [intros Hp; by apply Hf, Z.ltb_lt|]. repeat (split; [done|]).
  rewrite (written_key _ _ _ _ _ _ Hn Hw). by apply (Hu i).
Qed.
(** Order 7 of two is owned by ["i1"] and is being approved. *)
Definition demoOrderBinding : BusinessBindingConfig :=
  Build_BusinessBindingConfig "orders" ["no"] "status" (Some "apv_instance_id") (Some "started_at") (Some "finished_at")
    (Some {["approved" := "done"]}).
Definition demoOrder (n : Z) (owner : string) : BusinessRow :=
  Build_BusinessRow "orders" {["no" := DInt64 n; "status" := DString "new"; "apv_instance_id" := DString owner;
                              "amount" := DInt64 100]}.
Definition demoProjection : BusinessProjection :=
  Build_BusinessProjection "p1" 0 0 "acme" "leave" "v1" "i1" (Some "i1") "h" ApprovalBindingEventual
    (Some demoOrderBinding) [Build_storedRecordKeyPart "no" "int64" "7"] InstanceApproved 5 (Some 9%Z) 2 1
    BindingProjectionPending 0 None None None None.
Definition demoOrders : St :=
  set_business [demoOrder 6 "i0"; demoOrder 7 "i1"] (demoStore ApprovalParallel PassAll []).
Definition demoCells (s : St) : list (option DriverValue * option DriverValue) :=
  (λ r, (BusinessRow_Cells r !! "status", BusinessRow_Cells r !! "finished_at")) <$> db_business s.
Lemma writes_reach_the_bound_record_witness :
  ∃ s', @Writer_Write demoHost demoProjection demoOrders = Ok (tt, s') ∧
    demoCells s' = [(Some (DString "new"), None); (Some (DString "done"), Some (DTime 9))] ∧
    ∃ config status i row row', db_business demoOrders !! i = Some row ∧
      s' = upd_business (λ l, <[i := row']> l) demoOrders ∧ written config demoProjection status row row'.
Proof.
  destruct (@Writer_Write demoHost demoProjection demoOrders) as [[u s']|e] eqn:Hrun;
    [|vm_compute in Hrun; discriminate Hrun].
  exists s'. destruct u. split; [reflexivity|]. split.
  - vm_compute in Hrun. injection Hrun as <-. vm_compute. reflexivity.
  - destruct (@writes_reach_the_bound_record demoHost demoProjection demoOrders tt s' Hrun)
      as (b & config & stored & key & status & i & row & row' & _ & _ & _ & _ & _ & Hi & _ & _ & Hs & Hw & _).
    exists config, status, i, row, row'. split; [exact Hi|]. split; [exact Hs|exact Hw].
Defined.

(** ** The worker *)

(** Between a second and an hour, and never less than before. *)
Lemma backoff_bounds n :
  (1 ≤ projectionBackoff n ≤ 3600)%Z ∧ (projectionBackoff n ≤ projectionBackoff (n + 1))%Z.
Proof.
  unfold projectionBackoff. rewrite !Z.shiftl_1_l.
  pose proof (Z.pow_pos_nonneg 2 (Z.min (Z.max n 0) 12) ltac:(lia) ltac:(lia)).
  pose proof (Z.pow_le_mono_r 2 (Z.min (Z.max n 0) 12) (Z.min (Z.max (n + 1) 0) 12) ltac:(lia) ltac:(lia)). lia.
Qed.
Lemma projectionError_bound `{!Host} e : String.length (projectionError e) ≤ maxErrorBytes.
Proof.
  unfold projectionError. cbv zeta. set (message := TrimSpace _). destruct (Nat.ltb_spec maxErrorBytes (String.length message)); [|lia].
  unfold ToValidUTF8, takeBytes. rewrite <-length_bytes, !bytes_of, length_scrub, length_take. lia.
Qed.

(** The schedule after a failure at [now]. *)
Record rescheduled `{!Host} (now : DateTime) (e : Error) (p p' : BusinessProjection) : Prop := {
  rsc_status : BusinessProjection_Status p' = BindingProjectionFailed;
  rsc_attempts : BusinessProjection_AttemptCount p' = (BusinessProjection_AttemptCount p + 1)%Z;
  rsc_next : ∃ t, BusinessProjection_NextAttemptAt p' = Some t ∧ (now + 1 ≤ t ≤ now + 3600)%Z;
  rsc_lease : BusinessProjection_LeaseUntil p' = None;
  rsc_error : ∃ m, BusinessProjection_LastError p' = Some m ∧ String.length m ≤ maxErrorBytes;
  rsc_pending : BusinessProjection_AppliedRevision p' = BusinessProjection_AppliedRevision p ∧
    BusinessProjection_DesiredRevision p' = BusinessProjection_DesiredRevision p;
}.
Lemma markProjectionFailed_run `{!Host} p e s :
  ∃ now f s', markProjectionFailed p e s = Ok (tt, s') ∧
    db_projections s' = tupdate (λ r, BusinessProjection_ID r ==? BusinessProjection_ID p) f (db_projections s) ∧
    db_business s' = db_business s ∧ db_instances s' = db_instances s ∧ db_events s' = db_events s ∧
    db_pipeline s' = db_pipeline s ∧
    ∀ r, BusinessProjection_AttemptCount r = BusinessProjection_AttemptCount p → rescheduled now e r (f r).
Proof.
  exists (clock_reading (db_clock s)). destruct s.
  eexists _, _. split; [unfold markProjectionFailed, Now, updateProjections, andThen, mbind, SE_bind; cbn; reflexivity|].
  cbn.
  split_and!; try reflexivity. intros r Hr. pose proof (backoff_bounds (BusinessProjection_AttemptCount p + 1)).
  destruct r. cbn in *. constructor; cbn; try done; [lia|eexists; split; [done|lia]|].
  eexists. split; [done|]. apply projectionError_bound.
Qed.
Lemma markProjectionApplied_run `{!Host} p s :
  ∃ now s', markProjectionApplied p s = Ok (tt, s') ∧
    db_projections s' = tupdate (λ r, BusinessProjection_ID r ==? BusinessProjection_ID p) (appliedColumns p now)
      (db_projections s) ∧
    db_business s' = db_business s ∧ db_events s' = db_events s.
Proof. exists (clock_reading (db_clock s)). destruct s. eexists.
  split; [unfold markProjectionApplied, Now, updateProjections, andThen, mbind, SE_bind; cbn; reflexivity|done].
Qed.

Lemma stillClaimed_decide claimed current :
  stillClaimed claimed current = bool_decide (
    BusinessProjection_Status current = BindingProjectionProcessing ∧
    BusinessProjection_OwnerInstanceID current = BusinessProjection_OwnerInstanceID claimed ∧
    BusinessProjection_DesiredRevision current = BusinessProjection_DesiredRevision claimed).
Proof.
  unfold stillClaimed. apply eq_true_iff_eq. rewrite !andb_true_iff, !bool_decide_eq_true, Z.eqb_eq. tauto.
Qed.
(** C21. A claim is worked off at most once and never over newer intent: when the
    projection has meanwhile a new owner, a new revision or another status, nothing
    happens at all.  Otherwise either the record was written and the projection says
    so, for the owner and revision of the claim; or the write failed, no business row
    changed, the next attempt is due within an hour, the failure is on record in at
    most 512 bytes, and the owner, if it is still there, is told. *)
Theorem claims_are_worked_off_once `{!Host} claimed s :
  ∃ s', applyClaim claimed s = Ok (tt, s') ∧
  match tfirst (λ p, BusinessProjection_ID p ==? BusinessProjection_ID claimed) (db_projections s) with
  | None => s' = s
  | Some current =>
      let mine r := BusinessProjection_ID r ==? BusinessProjection_ID current in
      if decide (BusinessProjection_Status current = BindingProjectionProcessing ∧
                 BusinessProjection_OwnerInstanceID current = BusinessProjection_OwnerInstanceID claimed ∧
                 BusinessProjection_DesiredRevision current = BusinessProjection_DesiredRevision claimed) then
        match Writer_Write current s with
        | Ok (_, s1) => ∃ now, db_business s' = db_business s1 ∧ db_events s' = db_events s ∧
            db_projections s' = tupdate mine (appliedColumns current now) (db_projections s)
        | Err e => ∃ now f, db_business s' = db_business s ∧
            db_projections s' = tupdate mine f (db_projections s) ∧ rescheduled now e current (f current) ∧
            db_events s' = db_events s ++
              match tfirst (λ i, Instance_ID i ==? BusinessProjection_OwnerInstanceID current) (db_instances s) with
              | None => []
              | Some owner => [failureEvent owner current e]
              end
        end
      else s' = s
  end.
Proof.
  unfold applyClaim, findProjection. unfold mbind at 1, SE_bind at 1. cbn [gets].
  destruct (tfirst _ (db_projections s)) as [cur|]; [|by exists s].
  rewrite stillClaimed_decide. destruct (decide (BusinessProjection_Status cur = _ ∧ _)) as [Hcl|Hcl];
    [rewrite bool_decide_eq_true_2 by done|rewrite bool_decide_eq_false_2 by done]; cbn [negb]; [|by exists s].
  unfold mbind at 1, SE_bind at 1, savepoint, runInTx. destruct (Writer_Write cur s) as [[w s1]|e] eqn:Hw.
  - destruct (markProjectionApplied_run cur s1) as (now & s' & Hrun & Hp & Hb & He). exists s'. split; [done|].
    exists now. rewrite Hp, Hb, He.
    apply Writer_Write_run in Hw as (? & ? & ? & ? & ? & ? & _ & _ & _ & _ & _ & _ & _ & ->). by destruct s.
  - destruct (markProjectionFailed_run cur e s) as (now & f & s1 & Hrun & Hp & Hb & Hi & He & Hpl & Hr).
    unfold andThen, mbind, SE_bind, findInstance. rewrite Hrun. cbn [gets]. rewrite Hi.
    destruct (tfirst _ (db_instances s)) as [owner|].
    + eexists. split; [reflexivity|]. exists now, f. rewrite <-He.
      destruct s1. cbn in *. split_and!; [done|done|by apply Hr|done].
    + exists s1. split; [done|]. exists now, f. rewrite app_nil_r. split_and!; try done. by apply Hr.
Qed.
