(* ===== verification/FlowDefinition.v ===== *)
(** * Validation of a flow graph

    [FlowDefinitionService.ValidateFlowDefinition] of
    [internal/approval/service/flow_definition.go] with its four phases: nodes,
    edges, degrees, topology.  The theorem says exactly which definitions are
    accepted: those whose graph is a well-formed workflow ([workflow]) and whose
    node payloads are valid. *)
From S2P Require Import Prelude Graph Enums StateMachine Models Demo Store Shared Conditions PassRule NodeConfig.

(** ** The scan states *)

Record nodeScan := {
  scan_nodeIDs : gset string;
  scan_taskNodeIDs : gset string;
  scan_parsed : gmap string NodeData;
  scan_condBranches : gmap string (list ConditionBranch);
  scan_rollbackRefs : gmap string (list string);
  scan_startID : string;
  scan_endIDs : list string;
  scan_startCount : nat;
  scan_endCount : nat;
}.
Definition emptyNodeScan : nodeScan := {|
  scan_nodeIDs := ∅; scan_taskNodeIDs := ∅; scan_parsed := ∅; scan_condBranches := ∅;
  scan_rollbackRefs := ∅; scan_startID := ""; scan_endIDs := []; scan_startCount := 0; scan_endCount := 0;
|}.

Record edgeScan := {
  scan_outEdges : gmap string (list EdgeDefinition);
  scan_inDegree : gmap string nat;
  scan_adjacency : Adjacency;
  scan_reversedAdj : Adjacency;
}.
Definition emptyEdgeScan : edgeScan := {|
  scan_outEdges := ∅; scan_inDegree := ∅; scan_adjacency := ∅; scan_reversedAdj := ∅;
|}.

(** [m[k] = append(m[k], v)] *)
Definition appendAt {V} (m : gmap string (list V)) (k : string) (v : V) : gmap string (list V) :=
  <[k := default [] (m !! k) ++ [v]]> m.

(** ** Phase 1: nodes *)

Section validation.
Context `{!Host}.

Definition isTaskKind (k : NodeKind) : bool :=
  match k with NodeApproval | NodeHandle => true | _ => false end.
(** The bookkeeping for a node that passed its own checks; the type assertion on
    the payload of a condition node is the caller's. *)
Definition recordNode (scan : nodeScan) (node : NodeDefinition) (data : NodeData) : nodeScan :=
  let id := NodeDefinition_ID node in
  let kind := NodeDefinition_Kind node in {|
    scan_nodeIDs := {[id]} ∪ scan_nodeIDs scan;
    scan_taskNodeIDs := if isTaskKind kind then {[id]} ∪ scan_taskNodeIDs scan else scan_taskNodeIDs scan;
    scan_parsed := <[id := data]> (scan_parsed scan);
    scan_condBranches :=
      match kind, data with
      | NodeCondition, NodeDataCondition d => <[id := ConditionNodeData_Branches d]> (scan_condBranches scan)
      | _, _ => scan_condBranches scan
      end;
    scan_rollbackRefs :=
      match data with
      | NodeDataApproval d =>
          if isTaskKind kind && (0 <? length (ApprovalNodeData_RollbackTargetKeys d))%nat
          then <[id := ApprovalNodeData_RollbackTargetKeys d]> (scan_rollbackRefs scan)
          else scan_rollbackRefs scan
      | _ => scan_rollbackRefs scan
      end;
    scan_startID := if kind ==? NodeStart then id else scan_startID scan;
    scan_endIDs := if kind ==? NodeEnd then scan_endIDs scan ++ [id] else scan_endIDs scan;
    scan_startCount := if kind ==? NodeStart then S (scan_startCount scan) else scan_startCount scan;
    scan_endCount := if kind ==? NodeEnd then S (scan_endCount scan) else scan_endCount scan;
  |}.
Definition validNodeKind (k : NodeKind) : bool :=
  match k with NodeKindOther _ => false | _ => true end.
Definition validateNode (scan : nodeScan) (node : NodeDefinition) : des nodeScan :=
  failIf (NodeDefinition_ID node ==? "") errEmptyNodeID ≫= λ _,
  failIf (bool_decide (NodeDefinition_ID node ∈ scan_nodeIDs scan)) errDuplicateNodeID ≫= λ _,
  failIf (negb (validNodeKind (NodeDefinition_Kind node))) errInvalidNodeKind ≫= λ _,
  ParseData node ≫= λ data,
  validateNodeConfig data ≫= λ _,
  match NodeDefinition_Kind node, data with
  | NodeCondition, NodeDataCondition _ => Ok (recordNode scan node data)
  | NodeCondition, _ => Err errUnexpectedCondData
  | _, _ => Ok (recordNode scan node data)
  end.
Fixpoint scanNodes (scan : nodeScan) (nodes : list NodeDefinition) : des nodeScan :=
  match nodes with
  | [] => Ok scan
  | node :: rest => validateNode scan node ≫= λ scan, scanNodes scan rest
  end.
Definition validateRollbackRefs (refs : gmap string (list string)) (taskNodeIDs : gset string) : des unit :=
  checkAll (λ ref : string * list string,
    checkAll (λ key,
      failIf (key ==? ref.1) errRollbackTargetSelf ≫= λ _,
      failIf (negb (bool_decide (key ∈ taskNodeIDs))) errRollbackTargetUnknown) ref.2)
    (map_to_list refs).
Definition validateNodes (def : FlowDefinition) : des nodeScan :=
  scanNodes emptyNodeScan (FlowDefinition_Nodes def) ≫= λ scan,
  failIf (negb (scan_startCount scan =? 1)%nat) errStartNodeCount ≫= λ _,
  failIf (scan_endCount scan <? 1)%nat errEndNodeCount ≫= λ _,
  validateRollbackRefs (scan_rollbackRefs scan) (scan_taskNodeIDs scan) ≫= λ _,
  Ok scan.

(** ** Phase 2: edges *)

Definition recordEdge (scan : edgeScan) (edge : EdgeDefinition) : edgeScan :=
  let src := EdgeDefinition_Source edge in
  let dst := EdgeDefinition_Target edge in {|
    scan_outEdges := appendAt (scan_outEdges scan) src edge;
    scan_inDegree := <[dst := S (default 0 (scan_inDegree scan !! dst))]> (scan_inDegree scan);
    scan_adjacency := appendAt (scan_adjacency scan) src dst;
    scan_reversedAdj := appendAt (scan_reversedAdj scan) dst src;
  |}.
Fixpoint scanEdges (nodeIDs edgeIDs : gset string) (scan : edgeScan) (edges : list EdgeDefinition)
    : des edgeScan :=
  match edges with
  | [] => Ok scan
  | edge :: rest =>
      failIf (EdgeDefinition_ID edge ==? "") errEmptyEdgeID ≫= λ _,
      failIf (bool_decide (EdgeDefinition_ID edge ∈ edgeIDs)) errDuplicateEdgeID ≫= λ _,
      failIf (negb (bool_decide (EdgeDefinition_Source edge ∈ nodeIDs))) errUnknownSourceNode ≫= λ _,
      failIf (negb (bool_decide (EdgeDefinition_Target edge ∈ nodeIDs))) errUnknownTargetNode ≫= λ _,
      scanEdges nodeIDs ({[EdgeDefinition_ID edge]} ∪ edgeIDs) (recordEdge scan edge) rest
  end.
Definition validateEdges (def : FlowDefinition) (nodeIDs : gset string) : des edgeScan :=
  scanEdges nodeIDs ∅ emptyEdgeScan (FlowDefinition_Edges def).

(** ** Phase 3: degrees *)

Fixpoint scanBranches (ids : gset string) (defaults : nat) (branches : list ConditionBranch)
    : des (gset string * nat) :=
  match branches with
  | [] => Ok (ids, defaults)
  | branch :: rest =>
      failIf (ConditionBranch_ID branch ==? "") errCondEmptyBranchID ≫= λ _,
      failIf (bool_decide (ConditionBranch_ID branch ∈ ids)) errCondDupBranchID ≫= λ _,
      scanBranches ({[ConditionBranch_ID branch]} ∪ ids)
        (if ConditionBranch_IsDefault branch then S defaults else defaults) rest
  end.
Fixpoint scanHandles (branchIDs handles : gset string) (outs : list EdgeDefinition) : des (gset string) :=
  match outs with
  | [] => Ok handles
  | edge :: rest =>
      match EdgeDefinition_SourceHandle edge with
      | None => Err errCondMissingHandle
      | Some handle =>
          failIf (negb (bool_decide (handle ∈ branchIDs))) errCondUnknownHandle ≫= λ _,
          failIf (bool_decide (handle ∈ handles)) errCondDupHandle ≫= λ _,
          scanHandles branchIDs ({[handle]} ∪ handles) rest
      end
  end.
Definition validateConditionEdges (branches : list ConditionBranch) (outs : list EdgeDefinition)
    : des unit :=
  failIf (length branches <? 2)%nat errCondMinBranches ≫= λ _,
  scanBranches ∅ 0 branches ≫= λ '(branchIDs, defaults),
  failIf (negb (defaults =? 1)%nat) errCondDefaultCount ≫= λ _,
  scanHandles branchIDs ∅ outs ≫= λ handles,
  if (size handles =? size branchIDs)%nat then Ok tt
  else checkAll (λ branch, failIf (negb (bool_decide (ConditionBranch_ID branch ∈ handles)))
                             errCondBranchNoEdge) branches.

Definition outEdgesOf (edges : edgeScan) (id : string) : list EdgeDefinition :=
  default [] (scan_outEdges edges !! id).
Definition inDegreeOf (edges : edgeScan) (id : string) : nat := default 0 (scan_inDegree edges !! id).
Definition validateEnd (edges : edgeScan) (endID : string) : des unit :=
  failIf (0 <? length (outEdgesOf edges endID))%nat errEndOutgoing ≫= λ _,
  failIf (inDegreeOf edges endID =? 0)%nat errEndIncoming.
Definition validateOutgoing (nodes : nodeScan) (edges : edgeScan) (node : NodeDefinition) : des unit :=
  let outs := outEdgesOf edges (NodeDefinition_ID node) in
  match NodeDefinition_Kind node with
  | NodeStart | NodeEnd => Ok tt
  | NodeCondition =>
      validateConditionEdges (default [] (scan_condBranches nodes !! NodeDefinition_ID node)) outs
  | _ =>
      failIf (negb (length outs =? 1)%nat) errNodeOutgoingCount ≫= λ _,
      failIf (match outs with
              | edge :: _ => is_Some_b (EdgeDefinition_SourceHandle edge)
              | [] => false
              end) errNodeSourceHandle
  end.
Definition validateDegreeConstraints (def : FlowDefinition) (nodes : nodeScan) (edges : edgeScan)
    : des unit :=
  failIf (0 <? inDegreeOf edges (scan_startID nodes))%nat errStartIncoming ≫= λ _,
  failIf (negb (length (outEdgesOf edges (scan_startID nodes)) =? 1)%nat) errStartOutgoing ≫= λ _,
  checkAll (validateEnd edges) (scan_endIDs nodes) ≫= λ _,
  checkAll (validateOutgoing nodes edges) (FlowDefinition_Nodes def).

(** ** Phase 4: topology *)

Definition validateTopology (def : FlowDefinition) (nodes : nodeScan) (edges : edgeScan) : des unit :=
  let ids := NodeDefinition_ID <$> FlowDefinition_Nodes def in
  failIf (detectCycle ids (scan_adjacency edges)) errGraphCycle ≫= λ _,
  (let reachable := collectReachable (scan_adjacency edges) [scan_startID nodes] in
   if (size reachable =? size (scan_nodeIDs nodes))%nat then Ok tt
   else checkAll (λ id, failIf (negb (bool_decide (id ∈ reachable))) errNodeUnreachable) ids) ≫= λ _,
  (let canReachEnd := collectReachable (scan_reversedAdj edges) (scan_endIDs nodes) in
   if (size canReachEnd =? size (scan_nodeIDs nodes))%nat then Ok tt
   else checkAll (λ id, failIf (negb (bool_decide (id ∈ canReachEnd))) errNodeCannotReachEnd) ids).

Definition ValidateFlowDefinition (def : FlowDefinition) : des (gmap string NodeData) :=
  failIf (length (FlowDefinition_Nodes def) =? 0)%nat errNoNodes ≫= λ _,
  validateNodes def ≫= λ nodes,
  validateEdges def (scan_nodeIDs nodes) ≫= λ edges,
  validateDegreeConstraints def nodes edges ≫= λ _,
  validateTopology def nodes edges ≫= λ _,
  Ok (scan_parsed nodes).
End validation.

(** ** The specification *)

Definition nodeIDs (def : FlowDefinition) : list string := NodeDefinition_ID <$> FlowDefinition_Nodes def.
Definition outgoing (def : FlowDefinition) (id : string) : list EdgeDefinition :=
  List.filter (λ e, EdgeDefinition_Source e ==? id) (FlowDefinition_Edges def).
Definition incoming (def : FlowDefinition) (id : string) : list EdgeDefinition :=
  List.filter (λ e, EdgeDefinition_Target e ==? id) (FlowDefinition_Edges def).
Definition leads (def : FlowDefinition) (x y : string) : Prop :=
  ∃ e, e ∈ FlowDefinition_Edges def ∧ EdgeDefinition_Source e = x ∧ EdgeDefinition_Target e = y.

(** The edges of a condition node and its branches correspond one to one, and one
    branch is the default. *)
Record branchesMatch (branches : list ConditionBranch) (outs : list EdgeDefinition) : Prop := {
  bm_two : 2 ≤ length branches;
  bm_named : ∀ b, b ∈ branches → ConditionBranch_ID b ≠ "";
  bm_distinct : NoDup (ConditionBranch_ID <$> branches);
  bm_default : length (List.filter ConditionBranch_IsDefault branches) = 1;
  bm_handled : ∀ e, e ∈ outs → ∃ b, b ∈ branches ∧ EdgeDefinition_SourceHandle e = Some (ConditionBranch_ID b);
  bm_once : NoDup (EdgeDefinition_SourceHandle <$> outs);
  bm_covered : ∀ b, b ∈ branches → ∃ e, e ∈ outs ∧ EdgeDefinition_SourceHandle e = Some (ConditionBranch_ID b);
}.
(** How a node of each kind is connected. *)
Definition connected (def : FlowDefinition) (node : NodeDefinition) (data : NodeData) : Prop :=
  let outs := outgoing def (NodeDefinition_ID node) in
  match NodeDefinition_Kind node with
  | NodeStart => incoming def (NodeDefinition_ID node) = [] ∧ length outs = 1
  | NodeEnd => outs = [] ∧ incoming def (NodeDefinition_ID node) ≠ []
  | NodeCondition => ∃ d, data = NodeDataCondition d ∧ branchesMatch (ConditionNodeData_Branches d) outs
  | _ => ∃ e, outs = [e] ∧ EdgeDefinition_SourceHandle e = None
  end.
(** The rollback targets a payload names are other task nodes of the flow. *)
Definition rollbackTargetsExist (def : FlowDefinition) (id : string) (data : NodeData) : Prop :=
  match data with
  | NodeDataApproval d => ∀ key, key ∈ ApprovalNodeData_RollbackTargetKeys d →
      key ≠ id ∧ ∃ n, n ∈ FlowDefinition_Nodes def ∧ NodeDefinition_ID n = key ∧
        isTaskKind (NodeDefinition_Kind n) = true
  | _ => True
  end.
Record workflow `{!Host} (def : FlowDefinition) (parsed : gmap string NodeData) : Prop := {
  wfl_ids : NoDup (nodeIDs def);
  wfl_nodes : ∀ node, node ∈ FlowDefinition_Nodes def → NodeDefinition_ID node ≠ "" ∧
    validNodeKind (NodeDefinition_Kind node) = true ∧
    ∃ data, ParseData node = Ok data ∧ validateNodeConfig data = Ok tt ∧
      parsed !! NodeDefinition_ID node = Some data ∧
      connected def node data ∧ rollbackTargetsExist def (NodeDefinition_ID node) data;
  wfl_parsed : ∀ id data, parsed !! id = Some data → id ∈ nodeIDs def;
  wfl_start : ∃ start, start ∈ FlowDefinition_Nodes def ∧ NodeDefinition_Kind start = NodeStart ∧
    (∀ node, node ∈ FlowDefinition_Nodes def → NodeDefinition_Kind node = NodeStart → node = start) ∧
    (∀ id, id ∈ nodeIDs def → rtc (leads def) (NodeDefinition_ID start) id);
  wfl_ends : ∀ id, id ∈ nodeIDs def → ∃ node, node ∈ FlowDefinition_Nodes def ∧
    NodeDefinition_Kind node = NodeEnd ∧ rtc (leads def) id (NodeDefinition_ID node);
  wfl_edge_ids : NoDup (EdgeDefinition_ID <$> FlowDefinition_Edges def);
  wfl_edges : ∀ e, e ∈ FlowDefinition_Edges def → EdgeDefinition_ID e ≠ "" ∧
    EdgeDefinition_Source e ∈ nodeIDs def ∧ EdgeDefinition_Target e ∈ nodeIDs def;
  wfl_acyclic : ∀ id, ¬ tc (leads def) id id;
}.

(** ** Phase 1 *)

Section phase1.
Context `{!Host}.

Lemma ParseData_Kind node data : ParseData node = Ok data → NodeData_Kind data = NodeDefinition_Kind node.
Proof.
  unfold ParseData. destruct (NodeDefinition_Kind node); try done;
    destruct (decodeInto _ _ _); cbn; intros [= <-]; done.
Qed.
(** A node that passes its own checks, with the payload it carries. *)
Definition nodeValid (node : NodeDefinition) : Prop :=
  NodeDefinition_ID node ≠ "" ∧ validNodeKind (NodeDefinition_Kind node) = true ∧
  ∃ data, ParseData node = Ok data ∧ validateNodeConfig data = Ok tt.
Definition dataOf (node : NodeDefinition) : NodeData :=
  match ParseData node with Ok d => d | Err _ => StartNodeData zeroBase end.
Definition recordNodes : nodeScan → list NodeDefinition → nodeScan :=
  foldl (λ scan node, recordNode scan node (dataOf node)).

Lemma validateNode_Ok scan node scan' :
  validateNode scan node = Ok scan' ↔
  nodeValid node ∧ (NodeDefinition_ID node ∉ scan_nodeIDs scan) ∧ scan' = recordNode scan node (dataOf node).
Proof.
  unfold validateNode, nodeValid, dataOf. rewrite !result_seq_Ok, !failIf_Ok, negb_false_iff.
  rewrite bool_decide_eq_false, bool_decide_eq_false.
  destruct (ParseData node) as [data|e] eqn:Hp; cbn; [|naive_solver].
  rewrite result_seq_Ok. pose proof (ParseData_Kind _ _ Hp) as Hk.
  assert ((match NodeDefinition_Kind node with
           | NodeCondition => match data with NodeDataCondition _ => Ok (recordNode scan node data) | _ => Err errUnexpectedCondData end
           | _ => Ok (recordNode scan node data)
           end) = Ok (recordNode scan node data)) as ->.
  { destruct (NodeDefinition_Kind node), data; done. }
  naive_solver.
Qed.
Lemma scan_nodeIDs_record scan node data :
  scan_nodeIDs (recordNode scan node data) = {[NodeDefinition_ID node]} ∪ scan_nodeIDs scan.
Proof. done. Qed.
Lemma scanNodes_Ok scan nodes scan' :
  scanNodes scan nodes = Ok scan' ↔
  (∀ node, node ∈ nodes → nodeValid node ∧ NodeDefinition_ID node ∉ scan_nodeIDs scan) ∧
  NoDup (NodeDefinition_ID <$> nodes) ∧ scan' = recordNodes scan nodes.
Proof.
  revert scan. induction nodes as [|node nodes IH]; intros scan; cbn.
  { split; [intros [= ->]; split_and!; [|constructor|done]; by intros n Hn%elem_of_nil|naive_solver]. }
  rewrite result_bind_Ok. split.
  - intros (scan1 & (Hv & Hnew & ->)%validateNode_Ok & (Hall & Hnd & ->)%IH).
    rewrite scan_nodeIDs_record in Hall. split_and!; [|constructor; [|done]|done].
    + intros n [->|Hn]%elem_of_cons; [done|]. destruct (Hall n Hn). set_solver.
    + intros (n & Heq & Hn)%list_elem_of_fmap. destruct (Hall n Hn). set_solver.
  - intros (Hall & [Hni Hnd]%NoDup_cons & ->). exists (recordNode scan node (dataOf node)). split.
    + apply validateNode_Ok. destruct (Hall node); [apply list_elem_of_here|done].
    + apply IH. split_and!; [|done|done]. intros n Hn. rewrite scan_nodeIDs_record.
      destruct (Hall n) as [Hv Hno]; [by apply list_elem_of_further|]. split; [done|].
      apply not_elem_of_union. split; [|done]. intros Heq%elem_of_singleton. apply Hni. rewrite <- Heq.
      by apply list_elem_of_fmap_2.
Qed.

(** *** What the scan holds afterwards *)
Definition ofKind (k : NodeKind) (nodes : list NodeDefinition) : list NodeDefinition :=
  List.filter (λ n, NodeDefinition_Kind n ==? k) nodes.
Lemma recordNodes_sets scan nodes :
  scan_nodeIDs (recordNodes scan nodes) = list_to_set (NodeDefinition_ID <$> nodes) ∪ scan_nodeIDs scan ∧
  (∀ x, x ∈ scan_taskNodeIDs (recordNodes scan nodes) ↔
     (∃ n, n ∈ nodes ∧ NodeDefinition_ID n = x ∧ isTaskKind (NodeDefinition_Kind n) = true) ∨
     x ∈ scan_taskNodeIDs scan).
Proof.
  revert scan. induction nodes as [|node nodes IH]; intros scan; cbn; [set_solver|].
  destruct (IH (recordNode scan node (dataOf node))) as [-> Ht]. cbn. split; [set_solver|].
  intros x. rewrite Ht. cbn. setoid_rewrite elem_of_cons. clear IH Ht.
  destruct (isTaskKind (NodeDefinition_Kind node)) eqn:Hk; rewrite ?elem_of_union, ?elem_of_singleton.
  - split; [intros [(n & ? & ? & ?)|[->|?]]|intros [(n & [->|?] & <- & ?)|?]]; eauto 10.
  - split; [intros [(n & ? & ? & ?)|?]|intros [(n & [->|?] & <- & ?)|?]]; [eauto 10|eauto 10|congruence|eauto 10|eauto 10].
Qed.
Lemma recordNodes_ends scan nodes :
  scan_endIDs (recordNodes scan nodes) = scan_endIDs scan ++ (NodeDefinition_ID <$> ofKind NodeEnd nodes) ∧
  scan_endCount (recordNodes scan nodes) = length (ofKind NodeEnd nodes) + scan_endCount scan ∧
  scan_startCount (recordNodes scan nodes) = length (ofKind NodeStart nodes) + scan_startCount scan ∧
  scan_startID (recordNodes scan nodes) =
    default (scan_startID scan) (NodeDefinition_ID <$> last (ofKind NodeStart nodes)).
Proof.
  revert scan. induction nodes as [|node nodes IH]; intros scan; cbn.
  { by rewrite app_nil_r. }
  destruct (IH (recordNode scan node (dataOf node))) as (-> & -> & -> & ->). cbn.
  unfold ofKind. cbn. repeat case_bool_decide; cbn; rewrite <- ?app_assoc; split_and!; try done; try lia; try congruence.
  all: rewrite last_cons; by destruct (last _).
Qed.

(** Inserting what [f] yields for each node, under its id. *)
Definition collect {V} (f : NodeDefinition → option V) : gmap string V → list NodeDefinition → gmap string V :=
  foldl (λ m n, match f n with Some v => <[NodeDefinition_ID n := v]> m | None => m end).
Lemma collect_lookup {V} (f : NodeDefinition → option V) m nodes x v :
  NoDup (NodeDefinition_ID <$> nodes) → (∀ n, n ∈ nodes → m !! NodeDefinition_ID n = None) →
  collect f m nodes !! x = Some v ↔
  (∃ n, n ∈ nodes ∧ NodeDefinition_ID n = x ∧ f n = Some v) ∨ m !! x = Some v.
Proof.
  revert m. induction nodes as [|n nodes IH]; intros m; cbn.
  { intros _ _. split; [by right|]. by intros [(n & ?%elem_of_nil & _)|]. }
  intros [Hni Hnd]%NoDup_cons Hm. setoid_rewrite elem_of_cons. rewrite IH; [|done|].
  - assert (m !! NodeDefinition_ID n = None) by (apply Hm, list_elem_of_here). clear IH Hm.
    destruct (f n) as [w|] eqn:Hf; [rewrite lookup_insert_Some|]; naive_solver.
  - intros n' Hn'. destruct (f n); [|apply Hm; by apply list_elem_of_further].
    rewrite lookup_insert_ne; [apply Hm; by apply list_elem_of_further|].
    intros Heq. apply Hni. rewrite Heq. by apply list_elem_of_fmap_2.
Qed.

Definition branchesIn (node : NodeDefinition) : option (list ConditionBranch) :=
  match NodeDefinition_Kind node, dataOf node with
  | NodeCondition, NodeDataCondition d => Some (ConditionNodeData_Branches d)
  | _, _ => None
  end.
Definition targetsIn (node : NodeDefinition) : option (list string) :=
  match dataOf node with
  | NodeDataApproval d =>
      if isTaskKind (NodeDefinition_Kind node) && (0 <? length (ApprovalNodeData_RollbackTargetKeys d))%nat
      then Some (ApprovalNodeData_RollbackTargetKeys d) else None
  | _ => None
  end.
Lemma recordNodes_maps scan nodes :
  scan_parsed (recordNodes scan nodes) = collect (λ n, Some (dataOf n)) (scan_parsed scan) nodes ∧
  scan_condBranches (recordNodes scan nodes) = collect branchesIn (scan_condBranches scan) nodes ∧
  scan_rollbackRefs (recordNodes scan nodes) = collect targetsIn (scan_rollbackRefs scan) nodes.
Proof.
  revert scan. induction nodes as [|node nodes IH]; intros scan; [done|]. cbn.
  destruct (IH (recordNode scan node (dataOf node))) as (-> & -> & ->). cbn. unfold branchesIn, targetsIn.
  split_and!; [done| |].
  - by destruct (NodeDefinition_Kind node), (dataOf node).
  - destruct (dataOf node); try done. by destruct (_ && _).
Qed.
End phase1.

Section phases.
Context `{!Host}.

Lemma validateRollbackRefs_Ok refs tasks :
  validateRollbackRefs refs tasks = Ok tt ↔
  ∀ id keys, refs !! id = Some keys → ∀ key, key ∈ keys → key ≠ id ∧ key ∈ tasks.
Proof.
  unfold validateRollbackRefs. rewrite checkAll_Ok. split.
  - intros Hall id keys Hin. specialize (Hall (id, keys)). rewrite checkAll_Ok in Hall. intros key Hk.
    specialize (Hall (proj2 (elem_of_map_to_list _ _ _) Hin) key Hk). rewrite result_seq_Ok, !failIf_Ok in Hall.
    cbn in Hall. by rewrite bool_decide_eq_false, negb_false_iff, bool_decide_eq_true in Hall.
  - intros Hall [id keys] Hin%elem_of_map_to_list. apply checkAll_Ok. intros key Hk.
    rewrite result_seq_Ok, !failIf_Ok. cbn. rewrite bool_decide_eq_false, negb_false_iff, bool_decide_eq_true.
    by apply (Hall id keys).
Qed.
Definition nodesScanned (def : FlowDefinition) : nodeScan :=
  recordNodes emptyNodeScan (FlowDefinition_Nodes def).
Lemma dataOf_Kind node : nodeValid node → NodeData_Kind (dataOf node) = NodeDefinition_Kind node.
Proof. intros (_ & _ & d & Hp & _). unfold dataOf. rewrite Hp. by apply ParseData_Kind. Qed.
Lemma targetsIn_spec node (Q : string → Prop) :
  nodeValid node →
  (∀ keys, targetsIn node = Some keys → ∀ key, key ∈ keys → Q key) ↔
  match dataOf node with
  | NodeDataApproval d => ∀ key, key ∈ ApprovalNodeData_RollbackTargetKeys d → Q key
  | _ => True
  end.
Proof.
  intros Hk%dataOf_Kind. unfold targetsIn. destruct (dataOf node) as [| |d| | |]; cbn in *; try naive_solver.
  rewrite <- Hk. cbn. destruct (ApprovalNodeData_RollbackTargetKeys d) as [|k ks]; cbn; [|naive_solver].
  split; [|done]. by intros _ key ?%elem_of_nil.
Qed.
Lemma rollbackRefs_Ok def :
  NoDup (nodeIDs def) → (∀ node, node ∈ FlowDefinition_Nodes def → nodeValid node) →
  validateRollbackRefs (scan_rollbackRefs (nodesScanned def)) (scan_taskNodeIDs (nodesScanned def)) = Ok tt ↔
  ∀ node, node ∈ FlowDefinition_Nodes def → rollbackTargetsExist def (NodeDefinition_ID node) (dataOf node).
Proof.
  intros Hnd Hv. rewrite validateRollbackRefs_Ok. unfold nodesScanned.
  destruct (recordNodes_sets emptyNodeScan (FlowDefinition_Nodes def)) as [_ Htask].
  destruct (recordNodes_maps emptyNodeScan (FlowDefinition_Nodes def)) as (_ & _ & ->).
  assert (∀ x, x ∈ scan_taskNodeIDs (recordNodes emptyNodeScan (FlowDefinition_Nodes def)) ↔
    ∃ n, n ∈ FlowDefinition_Nodes def ∧ NodeDefinition_ID n = x ∧ isTaskKind (NodeDefinition_Kind n) = true) as Ht.
  { intros x. rewrite Htask. cbn. set_solver. }
  setoid_rewrite collect_lookup; [|done|done]. setoid_rewrite Ht. clear Ht Htask. split.
  - intros Hall node Hin. refine (proj1 (targetsIn_spec node _ (Hv _ Hin)) _).
    intros keys Hk. apply Hall. left. by exists node.
  - intros Hall id keys [(node & Hin & <- & Hk)|Hk]; [|done]. revert keys Hk.
    exact (proj2 (targetsIn_spec node _ (Hv _ Hin)) (Hall node Hin)).
Qed.
Lemma validateNodes_Ok def scan :
  validateNodes def = Ok scan ↔
  (∀ node, node ∈ FlowDefinition_Nodes def →
     nodeValid node ∧ rollbackTargetsExist def (NodeDefinition_ID node) (dataOf node)) ∧
  NoDup (nodeIDs def) ∧ length (ofKind NodeStart (FlowDefinition_Nodes def)) = 1 ∧
  1 ≤ length (ofKind NodeEnd (FlowDefinition_Nodes def)) ∧ scan = nodesScanned def.
Proof.
  unfold validateNodes. rewrite result_bind_Ok.
  destruct (recordNodes_ends emptyNodeScan (FlowDefinition_Nodes def)) as (_ & Hec & Hsc & _).
  fold (nodesScanned def) in Hec, Hsc. rewrite Nat.add_0_r in Hec, Hsc. split.
  - intros (scan1 & (Hv & Hnd & ->)%scanNodes_Ok & Hrest). fold (nodesScanned def) in Hrest.
    rewrite !result_seq_Ok, !failIf_Ok, Hsc, Hec, negb_false_iff, Nat.eqb_eq, Nat.ltb_ge in Hrest.
    destruct Hrest as (Hs & He & Hr & [= <-]).
    rewrite rollbackRefs_Ok in Hr; [|done|intros n Hn; by apply Hv]. split_and!; [|done..].
    intros n Hn. split; [by apply Hv|by apply Hr].
  - intros (Hv & Hnd & Hs & He & ->). exists (nodesScanned def). split.
    + apply scanNodes_Ok. split_and!; [|done|done]. intros n Hn. split; [by apply Hv|cbn; set_solver].
    + rewrite !result_seq_Ok, !failIf_Ok, Hsc, Hec, negb_false_iff, Nat.eqb_eq, Nat.ltb_ge.
      split_and!; [done|done| |done]. apply rollbackRefs_Ok; [done|intros n Hn; by apply Hv..].
Qed.

(** *** Phase 2 *)
Definition recordEdges : edgeScan → list EdgeDefinition → edgeScan := foldl recordEdge.
Lemma scanEdges_Ok (ids eids : gset string) scan edges scan' :
  scanEdges ids eids scan edges = Ok scan' ↔
  (∀ e, e ∈ edges → EdgeDefinition_ID e ≠ "" ∧ (EdgeDefinition_ID e ∉ eids) ∧
     EdgeDefinition_Source e ∈ ids ∧ EdgeDefinition_Target e ∈ ids) ∧
  NoDup (EdgeDefinition_ID <$> edges) ∧ scan' = recordEdges scan edges.
Proof.
  revert eids scan. induction edges as [|e edges IH]; intros eids scan; cbn.
  { split; [intros [= ->]; split_and!; [|constructor|done]; by intros e He%elem_of_nil|naive_solver]. }
  rewrite !result_seq_Ok, !failIf_Ok, !negb_false_iff, !bool_decide_eq_false, !bool_decide_eq_true, IH. split.
  - intros (Hne & Hni & Hs & Ht & Hall & Hnd & ->). split_and!; [|constructor; [|done]|done].
    + intros e' [->|He]%elem_of_cons; [done|]. destruct (Hall e' He) as (? & ? & ? & ?). set_solver.
    + intros (e' & Heq & He)%list_elem_of_fmap. destruct (Hall e' He) as (_ & Hno & _). set_solver.
  - intros (Hall & [Hni Hnd]%NoDup_cons & ->).
    destruct (Hall e) as (? & ? & ? & ?); [apply list_elem_of_here|]. split_and!; try done.
    intros e' He. destruct (Hall e') as (? & ? & ? & ?); [by apply list_elem_of_further|]. split_and!; try done.
    apply not_elem_of_union. split; [|done]. intros Heq%elem_of_singleton. apply Hni. rewrite <- Heq.
    by apply list_elem_of_fmap_2.
Qed.
Lemma appendAt_lookup {V} (m : gmap string (list V)) k v x :
  default [] (appendAt m k v !! x) = default [] (m !! x) ++ (if k ==? x then [v] else []).
Proof.
  unfold appendAt. case_bool_decide; [subst; by rewrite lookup_insert_eq|].
  rewrite lookup_insert_ne by done. by rewrite app_nil_r.
Qed.
Lemma recordEdges_lookup scan edges x :
  outEdgesOf (recordEdges scan edges) x =
    outEdgesOf scan x ++ List.filter (λ e, EdgeDefinition_Source e ==? x) edges ∧
  inDegreeOf (recordEdges scan edges) x =
    inDegreeOf scan x + length (List.filter (λ e, EdgeDefinition_Target e ==? x) edges) ∧
  successors (scan_adjacency (recordEdges scan edges)) x =
    successors (scan_adjacency scan) x ++
      (EdgeDefinition_Target <$> List.filter (λ e, EdgeDefinition_Source e ==? x) edges) ∧
  successors (scan_reversedAdj (recordEdges scan edges)) x =
    successors (scan_reversedAdj scan) x ++
      (EdgeDefinition_Source <$> List.filter (λ e, EdgeDefinition_Target e ==? x) edges).
Proof.
  revert scan. induction edges as [|e edges IH]; intros scan; cbn.
  { rewrite !app_nil_r. split_and!; done || lia. }
  destruct (IH (recordEdge scan e)) as (-> & -> & -> & ->).
  unfold outEdgesOf, inDegreeOf, successors. cbn. rewrite !appendAt_lookup, <- !app_assoc.
  split_and!; [by case_bool_decide| |by case_bool_decide|by case_bool_decide].
  case_bool_decide; [subst; rewrite lookup_insert_eq; cbn; lia|by rewrite lookup_insert_ne].
Qed.
Definition edgesScanned (def : FlowDefinition) : edgeScan :=
  recordEdges emptyEdgeScan (FlowDefinition_Edges def).
Lemma edgesScanned_lookup def x :
  outEdgesOf (edgesScanned def) x = outgoing def x ∧
  inDegreeOf (edgesScanned def) x = length (incoming def x).
Proof.
  destruct (recordEdges_lookup emptyEdgeScan (FlowDefinition_Edges def) x) as (Ho & Hi & _ & _).
  unfold edgesScanned. by rewrite Ho, Hi.
Qed.
Lemma elem_of_filter_list {A} (f : A → bool) l x : x ∈ List.filter f l ↔ x ∈ l ∧ f x = true.
Proof. by rewrite !list_elem_of_In, filter_In. Qed.
Lemma adjacency_leads def x y : edge (scan_adjacency (edgesScanned def)) x y ↔ leads def x y.
Proof.
  destruct (recordEdges_lookup emptyEdgeScan (FlowDefinition_Edges def) x) as (_ & _ & Ha & _).
  unfold edge, leads, edgesScanned. rewrite Ha, elem_of_app, list_elem_of_fmap.
  setoid_rewrite elem_of_filter_list. setoid_rewrite bool_decide_eq_true. split; [intros [?%elem_of_nil|?]; naive_solver|naive_solver].
Qed.
Lemma reversed_leads def x y : edge (scan_reversedAdj (edgesScanned def)) x y ↔ leads def y x.
Proof.
  destruct (recordEdges_lookup emptyEdgeScan (FlowDefinition_Edges def) x) as (_ & _ & _ & Ha).
  unfold edge, leads, edgesScanned. rewrite Ha, elem_of_app, list_elem_of_fmap.
  setoid_rewrite elem_of_filter_list. setoid_rewrite bool_decide_eq_true. split; [intros [?%elem_of_nil|?]; naive_solver|naive_solver].
Qed.

(** *** Phase 3 *)

(** Comparing sizes first is only an optimisation of the element-wise check. *)
Lemma covers_Ok {A} (key : A → string) (l : list A) (S T : gset string) (e : DesignError) :
  S ⊆ T → T = list_to_set (key <$> l) →
  (if (size S =? size T)%nat then Ok tt
   else checkAll (λ x, failIf (negb (bool_decide (key x ∈ S))) e) l) = Ok tt ↔
  ∀ x, x ∈ l → key x ∈ S.
Proof.
  intros Hsub HT. destruct (Nat.eqb_spec (size S) (size T)) as [Heq|Hne].
  - split; [|done]. intros _ x Hx. assert (S ≡ T) as -> by (apply set_subseteq_size_equiv; [done|lia]).
    rewrite HT. apply elem_of_list_to_set. by apply list_elem_of_fmap_2.
  - rewrite checkAll_Ok. setoid_rewrite failIf_Ok. setoid_rewrite negb_false_iff.
    by setoid_rewrite bool_decide_eq_true.
Qed.
Lemma scanBranches_Ok (ids : gset string) defaults branches ids' defaults' :
  scanBranches ids defaults branches = Ok (ids', defaults') ↔
  (∀ b, b ∈ branches → ConditionBranch_ID b ≠ "" ∧ (ConditionBranch_ID b ∉ ids)) ∧
  NoDup (ConditionBranch_ID <$> branches) ∧
  ids' = list_to_set (ConditionBranch_ID <$> branches) ∪ ids ∧
  defaults' = length (List.filter ConditionBranch_IsDefault branches) + defaults.
Proof.
  revert ids defaults. induction branches as [|b branches IH]; intros ids defaults; cbn.
  { split; [intros [= -> ->]; split_and!; [|constructor|set_solver|done]; by intros e He%elem_of_nil|].
    intros (_ & _ & -> & ->). do 2 f_equal. set_solver. }
  rewrite !result_seq_Ok, !failIf_Ok, !bool_decide_eq_false, IH. split.
  - intros (Hne & Hni & Hall & Hnd & -> & ->). split_and!; [|constructor; [|done]|set_solver|].
    + intros b' [->|Hb]%elem_of_cons; [done|]. destruct (Hall b' Hb). set_solver.
    + intros (b' & Heq & Hb)%list_elem_of_fmap. destruct (Hall b' Hb) as (_ & Hno). set_solver.
    + destruct (ConditionBranch_IsDefault b); cbn; lia.
  - intros (Hall & [Hni Hnd]%NoDup_cons & -> & ->).
    destruct (Hall b) as (? & ?); [apply list_elem_of_here|]. split_and!; try done; [|set_solver|].
    + intros b' Hb. destruct (Hall b') as (? & ?); [by apply list_elem_of_further|]. split; [done|].
      apply not_elem_of_union. split; [|done]. intros Heq%elem_of_singleton. apply Hni. rewrite <- Heq.
      by apply list_elem_of_fmap_2.
    + destruct (ConditionBranch_IsDefault b); cbn; lia.
Qed.
Lemma scanHandles_Ok (branchIDs handles : gset string) outs handles' :
  scanHandles branchIDs handles outs = Ok handles' ↔
  (∀ e, e ∈ outs → ∃ h, EdgeDefinition_SourceHandle e = Some h ∧ h ∈ branchIDs ∧ (h ∉ handles)) ∧
  NoDup (EdgeDefinition_SourceHandle <$> outs) ∧
  handles' = list_to_set (omap EdgeDefinition_SourceHandle outs) ∪ handles.
Proof.
  revert handles. induction outs as [|e outs IH]; intros handles; cbn.
  { split; [intros [= ->]; split_and!; [|constructor|set_solver]; by intros e He%elem_of_nil|].
    intros (_ & _ & ->). f_equal. set_solver. }
  destruct (EdgeDefinition_SourceHandle e) as [h|] eqn:Hh.
  2: { split; [done|]. intros [Hall _]. destruct (Hall e) as (h & ? & _); [apply list_elem_of_here|congruence]. }
  rewrite !result_seq_Ok, !failIf_Ok, negb_false_iff, bool_decide_eq_true, bool_decide_eq_false, IH. cbn. split.
  - intros (Hb & Hni & Hall & Hnd & ->). split_and!; [|constructor; [|done]|set_solver].
    + intros e' [->|He]%elem_of_cons; [eauto|]. destruct (Hall e' He) as (h' & ? & ? & ?). exists h'. set_solver.
    + intros (e' & Heq & He)%list_elem_of_fmap. destruct (Hall e' He) as (h' & Hh' & _ & Hno).
      rewrite Hh' in Heq. injection Heq as ->. set_solver.
  - intros (Hall & [Hni Hnd]%NoDup_cons & ->).
    destruct (Hall e) as (h' & [= <-]%(eq_trans (eq_sym Hh)) & ? & ?); [apply list_elem_of_here|].
    split_and!; try done; [|set_solver].
    intros e' He. destruct (Hall e') as (h' & Hh' & ? & ?); [by apply list_elem_of_further|]. exists h'.
    split_and!; [done|done|]. apply not_elem_of_union. split; [|done]. intros ->%elem_of_singleton. apply Hni.
    rewrite <- Hh'. by apply list_elem_of_fmap_2.
Qed.
Lemma validateConditionEdges_Ok branches outs :
  validateConditionEdges branches outs = Ok tt ↔ branchesMatch branches outs.
Proof.
  unfold validateConditionEdges. rewrite result_seq_Ok, failIf_Ok, Nat.ltb_ge, result_bind_Ok.
  set (ids := list_to_set (C := gset string) (ConditionBranch_ID <$> branches)).
  set (hs := list_to_set (C := gset string) (omap EdgeDefinition_SourceHandle outs)).
  assert (∀ b, ConditionBranch_ID b ∈ hs ↔
    ∃ e, e ∈ outs ∧ EdgeDefinition_SourceHandle e = Some (ConditionBranch_ID b)) as Hhs.
  { intros b. unfold hs. rewrite elem_of_list_to_set, list_elem_of_omap. done. }
  assert (∀ h, h ∈ ids ↔ ∃ b, b ∈ branches ∧ h = ConditionBranch_ID b) as Hids.
  { intros h. unfold ids. rewrite elem_of_list_to_set, list_elem_of_fmap. naive_solver. }
  split.
  - intros (Htwo & [bids defaults] & (Hnames & Hnd & -> & ->)%scanBranches_Ok & Hrest).
    rewrite result_seq_Ok, failIf_Ok, negb_false_iff, Nat.eqb_eq, result_bind_Ok in Hrest.
    destruct Hrest as (Hdef & handles & (Hall & Hnd2 & ->)%scanHandles_Ok & Hcov).
    rewrite !union_empty_r_L in *. fold ids hs in Hall, Hcov.
    rewrite covers_Ok in Hcov; [| |done].
    + split; [done|intros b Hb; by apply Hnames|done|lia| |done|].
      * intros e He. destruct (Hall e He) as (h & Hh & Hin & _). apply Hids in Hin as (b & Hb & ->). eauto.
      * intros b Hb. by apply Hhs, Hcov.
    + intros h (e & He & Hh)%elem_of_list_to_set%list_elem_of_omap. destruct (Hall e He) as (h' & ? & ? & _). congruence.
  - intros [Htwo Hnames Hnd Hdef Hall Hnd2 Hcov]. split; [done|].
    exists (ids, 1). split.
    { apply scanBranches_Ok. rewrite union_empty_r_L. split_and!; [|done|done|lia].
      intros b Hb. split; [by apply Hnames|set_solver]. }
    rewrite result_seq_Ok, result_bind_Ok. split; [done|]. exists hs. split.
    + apply scanHandles_Ok. rewrite union_empty_r_L. split_and!; [|done|done]. intros e He.
      destruct (Hall e He) as (b & Hb & Hh). exists (ConditionBranch_ID b). split_and!; [done| |set_solver].
      apply Hids. eauto.
    + apply covers_Ok; [|done|intros b Hb; by apply Hhs, Hcov].
      intros h (e & He & Hh)%elem_of_list_to_set%list_elem_of_omap. destruct (Hall e He) as (b & Hb & Hh').
      apply Hids. exists b. split; [done|congruence].
Qed.

(** What phase 1 establishes, and what the later phases read from its scan. *)
Record nodesValid (def : FlowDefinition) (start : NodeDefinition) : Prop := {
  nv_ids : NoDup (nodeIDs def);
  nv_nodes : ∀ node, node ∈ FlowDefinition_Nodes def → nodeValid node;
  nv_start : ofKind NodeStart (FlowDefinition_Nodes def) = [start];
}.
Lemma elem_of_ofKind k nodes n : n ∈ ofKind k nodes ↔ n ∈ nodes ∧ NodeDefinition_Kind n = k.
Proof. unfold ofKind. by rewrite elem_of_filter_list, bool_decide_eq_true. Qed.
Lemma scanned_start def start : nodesValid def start → scan_startID (nodesScanned def) = NodeDefinition_ID start.
Proof.
  intros [_ _ Hst]. destruct (recordNodes_ends emptyNodeScan (FlowDefinition_Nodes def)) as (_ & _ & _ & Hs).
  unfold nodesScanned. by rewrite Hs, Hst.
Qed.
Lemma scanned_ends def : scan_endIDs (nodesScanned def) = NodeDefinition_ID <$> ofKind NodeEnd (FlowDefinition_Nodes def).
Proof. by destruct (recordNodes_ends emptyNodeScan (FlowDefinition_Nodes def)) as (? & _). Qed.
Lemma scanned_ids def : scan_nodeIDs (nodesScanned def) = list_to_set (nodeIDs def).
Proof.
  destruct (recordNodes_sets emptyNodeScan (FlowDefinition_Nodes def)) as [Hids _].
  unfold nodesScanned. rewrite Hids. cbn. by rewrite union_empty_r_L.
Qed.
Lemma scanned_branches def start node :
  nodesValid def start → node ∈ FlowDefinition_Nodes def → NodeDefinition_Kind node = NodeCondition →
  ∃ d, dataOf node = NodeDataCondition d ∧
    scan_condBranches (nodesScanned def) !! NodeDefinition_ID node = Some (ConditionNodeData_Branches d).
Proof.
  intros [Hnd Hv _] Hin Hk. pose proof (dataOf_Kind _ (Hv _ Hin)) as Hd. rewrite Hk in Hd.
  destruct (dataOf node) as [| | | | |d] eqn:He; try done. exists d. split; [done|].
  destruct (recordNodes_maps emptyNodeScan (FlowDefinition_Nodes def)) as (_ & Hb & _).
  unfold nodesScanned. rewrite Hb. apply collect_lookup; [done|done|]. left. exists node.
  split_and!; [done|done|]. unfold branchesIn. by rewrite Hk, He.
Qed.
Lemma scanned_parsed def start id data :
  nodesValid def start →
  scan_parsed (nodesScanned def) !! id = Some data ↔
  ∃ node, node ∈ FlowDefinition_Nodes def ∧ NodeDefinition_ID node = id ∧ dataOf node = data.
Proof.
  intros [Hnd _ _]. destruct (recordNodes_maps emptyNodeScan (FlowDefinition_Nodes def)) as (Hp & _ & _).
  unfold nodesScanned. rewrite Hp, collect_lookup; [|done|done]. cbn. split; [|naive_solver].
  intros [(n & ? & ? & [= ?])|?]; [eauto|done].
Qed.

Lemma validateOutgoing_Ok def start node :
  nodesValid def start → node ∈ FlowDefinition_Nodes def →
  validateOutgoing (nodesScanned def) (edgesScanned def) node = Ok tt ↔
  match NodeDefinition_Kind node with
  | NodeStart | NodeEnd => True
  | _ => connected def node (dataOf node)
  end.
Proof.
  intros Hnv Hin. unfold validateOutgoing, connected.
  destruct (edgesScanned_lookup def (NodeDefinition_ID node)) as [-> _].
  assert (∀ outs : list EdgeDefinition,
    (failIf (negb (length outs =? 1)%nat) errNodeOutgoingCount ≫= λ _,
      failIf (match outs with e :: _ => is_Some_b (EdgeDefinition_SourceHandle e) | [] => false end)
        errNodeSourceHandle) = Ok tt ↔ ∃ e, outs = [e] ∧ EdgeDefinition_SourceHandle e = None) as Hone.
  { intros outs. rewrite result_seq_Ok, !failIf_Ok, negb_false_iff, Nat.eqb_eq.
    destruct outs as [|e [|]]; cbn; [naive_solver| |naive_solver].
    destruct (EdgeDefinition_SourceHandle e) eqn:?; naive_solver. }
  destruct (NodeDefinition_Kind node) eqn:Hk; try done; try apply Hone.
  destruct (scanned_branches _ _ _ Hnv Hin Hk) as (d & Hd & ->). cbn.
  rewrite validateConditionEdges_Ok, Hd. naive_solver.
Qed.
Lemma validateDegree_Ok def start :
  nodesValid def start →
  validateDegreeConstraints def (nodesScanned def) (edgesScanned def) = Ok tt ↔
  ∀ node, node ∈ FlowDefinition_Nodes def → connected def node (dataOf node).
Proof.
  intros Hnv. unfold validateDegreeConstraints. rewrite !result_seq_Ok, !failIf_Ok, !checkAll_Ok.
  rewrite (scanned_start _ _ Hnv), scanned_ends.
  destruct (edgesScanned_lookup def (NodeDefinition_ID start)) as [-> ->].
  assert (start ∈ FlowDefinition_Nodes def ∧ NodeDefinition_Kind start = NodeStart) as [Hsin Hsk].
  { apply elem_of_ofKind. rewrite (nv_start _ _ Hnv). apply list_elem_of_here. }
  assert (∀ node, node ∈ FlowDefinition_Nodes def → NodeDefinition_Kind node = NodeStart → node = start) as Huniq.
  { intros n Hn Hk. apply list_elem_of_singleton. rewrite <- (nv_start _ _ Hnv). by apply elem_of_ofKind. }
  assert (∀ node, NodeDefinition_Kind node = NodeEnd →
    validateEnd (edgesScanned def) (NodeDefinition_ID node) = Ok tt ↔ connected def node (dataOf node)) as Hend.
  { intros n Hk. unfold validateEnd, connected. rewrite Hk, result_seq_Ok, !failIf_Ok, Nat.ltb_ge, Nat.eqb_neq.
    destruct (edgesScanned_lookup def (NodeDefinition_ID n)) as [-> ->].
    rewrite Nat.le_0_r, !length_zero_iff_nil. done. }
  assert (connected def start (dataOf start) ↔ (0 <? length (incoming def (NodeDefinition_ID start)))%nat = false ∧
    negb (length (outgoing def (NodeDefinition_ID start)) =? 1)%nat = false) as Hstart.
  { unfold connected. rewrite Hsk, Nat.ltb_ge, Nat.le_0_r, length_zero_iff_nil, negb_false_iff, Nat.eqb_eq. done. }
  split.
  - intros (H1 & H2 & H3 & H4) node Hin. specialize (H4 node Hin). rewrite validateOutgoing_Ok in H4; [|done|done].
    destruct (NodeDefinition_Kind node) eqn:Hk; try done.
    + rewrite (Huniq _ Hin Hk). by apply Hstart.
    + apply Hend, H3; [done|]. by apply list_elem_of_fmap_2, elem_of_ofKind.
  - intros Hall. destruct (proj1 Hstart (Hall _ Hsin)) as [H1 H2]. split_and!; [done|done| |].
    + intros id (n & -> & [Hn Hk]%elem_of_ofKind)%list_elem_of_fmap. by apply Hend, Hall.
    + intros n Hn. apply (validateOutgoing_Ok _ start); [done|done|]. specialize (Hall n Hn).
      by destruct (NodeDefinition_Kind n).
Qed.

(** *** Phase 4 *)
Lemma rtc_reversed def x y : rtc (edge (scan_reversedAdj (edgesScanned def))) x y ↔ rtc (leads def) y x.
Proof.
  split; intros Hr.
  - induction Hr as [|x z y Hxz _ IH]; [done|]. eapply rtc_r; [done|by apply reversed_leads].
  - induction Hr as [|x z y Hxz _ IH]; [done|]. eapply rtc_r; [done|by apply reversed_leads].
Qed.
Lemma rtc_adjacency def x y : rtc (edge (scan_adjacency (edgesScanned def))) x y ↔ rtc (leads def) x y.
Proof. split; apply rtc_subrel; intros ? ? ?; by apply adjacency_leads. Qed.
Lemma cyclic_leads def : cyclic (scan_adjacency (edgesScanned def)) ↔ ∃ x, tc (leads def) x x.
Proof.
  split; intros [x Hx]; exists x; change x with (id x); (eapply tc_congruence; [|exact Hx]);
    intros a b Hab; by apply adjacency_leads.
Qed.
Definition endpointsKnown (def : FlowDefinition) : Prop :=
  ∀ e, e ∈ FlowDefinition_Edges def → EdgeDefinition_Source e ∈ nodeIDs def ∧ EdgeDefinition_Target e ∈ nodeIDs def.
Lemma leads_known def x y : endpointsKnown def → leads def x y → x ∈ nodeIDs def ∧ y ∈ nodeIDs def.
Proof. intros Hk (e & He & <- & <-). by apply Hk. Qed.
Lemma validateTopology_Ok def start :
  nodesValid def start → endpointsKnown def →
  validateTopology def (nodesScanned def) (edgesScanned def) = Ok tt ↔
  (∀ id, ¬ tc (leads def) id id) ∧
  (∀ id, id ∈ nodeIDs def → rtc (leads def) (NodeDefinition_ID start) id) ∧
  (∀ id, id ∈ nodeIDs def → ∃ node, node ∈ FlowDefinition_Nodes def ∧ NodeDefinition_Kind node = NodeEnd ∧
     rtc (leads def) id (NodeDefinition_ID node)).
Proof.
  intros Hnv Hk. unfold validateTopology. fold (nodeIDs def).
  rewrite !result_seq_Ok, failIf_Ok, (scanned_start _ _ Hnv), scanned_ends, scanned_ids.
  assert (NodeDefinition_ID start ∈ nodeIDs def) as Hstart.
  { apply list_elem_of_fmap_2. eapply (proj1 (elem_of_ofKind NodeStart _ _)). rewrite (nv_start _ _ Hnv).
    apply list_elem_of_here. }
  assert (∀ x y, edge (scan_adjacency (edgesScanned def)) x y → y ∈ nodeIDs def) as Hcl.
  { intros x y Hxy%adjacency_leads. by eapply leads_known. }
  rewrite (covers_Ok (λ x, x) (nodeIDs def)), (covers_Ok (λ x, x) (nodeIDs def)); [|..|by rewrite list_fmap_id].
  - setoid_rewrite elem_of_collectReachable. setoid_rewrite rtc_adjacency. setoid_rewrite rtc_reversed.
    setoid_rewrite list_elem_of_singleton. setoid_rewrite list_elem_of_fmap. setoid_rewrite elem_of_ofKind.
    assert (detectCycle (nodeIDs def) (scan_adjacency (edgesScanned def)) = false ↔
            ∀ id, ¬ tc (leads def) id id) as ->.
    { split.
      - intros Hd id Hc. apply (Acc_not_cyclic _ (detectCycle_false _ _ Hcl Hd)), cyclic_leads. by exists id.
      - intros Hno. destruct (detectCycle _ _) eqn:Hd; [|done].
        apply (detectCycle_true _ _ Hcl), cyclic_leads in Hd as [x Hx]. by destruct (Hno x). }
    naive_solver.
  - intros x (s & Hs & Hr)%elem_of_collectReachable. apply elem_of_list_to_set.
    apply list_elem_of_fmap in Hs as (n & -> & [Hn _]%elem_of_ofKind). apply rtc_reversed in Hr.
    apply rtc_inv in Hr as [->|(z & Hxz & _)]; [by apply list_elem_of_fmap_2|by apply (leads_known def x z)].
  - by rewrite list_fmap_id.
  - intros x (s & ->%list_elem_of_singleton & Hr)%elem_of_collectReachable. apply elem_of_list_to_set.
    apply rtc_inv_r in Hr as [<-|(z & _ & Hz)]; [done|by eapply Hcl].
Qed.
End phases.

Lemma NoDup_singleton_inv {A} (l : list A) a : NoDup l → (∀ x, x ∈ l ↔ x = a) → l = [a].
Proof.
  intros Hnd Hl. destruct l as [|x [|y l]].
  - pose proof (proj2 (Hl a) eq_refl) as Ha. by apply elem_of_nil in Ha.
  - f_equal. apply Hl, list_elem_of_here.
  - apply NoDup_cons in Hnd as [Hni _]. destruct Hni.
    rewrite (proj1 (Hl x) (list_elem_of_here _ _)), (proj1 (Hl y)); [apply list_elem_of_here|].
    apply list_elem_of_further, list_elem_of_here.
Qed.
Lemma NoDup_filter_list {A} (f : A → bool) l : NoDup l → NoDup (List.filter f l).
Proof. rewrite !NoDup_ListNoDup. apply List.NoDup_filter. Qed.

Lemma validated_workflow `{!Host} def parsed : ValidateFlowDefinition def = Ok parsed → workflow def parsed.
Proof.
  unfold ValidateFlowDefinition. rewrite result_seq_Ok, result_bind_Ok.
  intros (_ & scan & (Hv & Hnd & Hs & He & ->)%validateNodes_Ok & Hrest).
  apply result_bind_Ok in Hrest as (edges & (Hes & Hend & ->)%scanEdges_Ok & Hrest).
  rewrite !result_seq_Ok in Hrest. destruct Hrest as (Hdeg & Htop & [= <-]).
  fold (edgesScanned def) in Hdeg, Htop. rewrite scanned_ids in Hes.
  destruct (ofKind NodeStart (FlowDefinition_Nodes def)) as [|start [|]] eqn:Hst; [done| |done].
  assert (nodesValid def start) as Hnv by (split; [done|intros n Hn; by apply Hv|done]).
  assert (endpointsKnown def) as Hk by (intros e Hin; destruct (Hes e Hin) as (_ & _ & ? & ?); set_solver).
  rewrite (validateDegree_Ok _ _ Hnv) in Hdeg. apply (validateTopology_Ok _ _ Hnv Hk) in Htop as (Hac & Hr & Hl).
  assert (∀ n, n ∈ FlowDefinition_Nodes def ∧ NodeDefinition_Kind n = NodeStart ↔ n = start) as Hu.
  { intros n. rewrite <- elem_of_ofKind, Hst. apply list_elem_of_singleton. }
  destruct (proj2 (Hu start) eq_refl) as [Hsin Hsk].
  split; [done| | | |done|done| |done].
  + intros n Hn. destruct (Hv n Hn) as [(Hne & Hkind & d & Hp & Hc) Hroll].
    assert (dataOf n = d) as Hd by (unfold dataOf; by rewrite Hp). split_and!; [done|done|].
    exists d. rewrite <- Hd at 3 4 5. split_and!; [done|done| |by apply Hdeg|done].
    apply (scanned_parsed _ start); [done|]. by exists n.
  + intros id d Hp. apply (scanned_parsed _ start) in Hp as (n & Hn & <- & _); [|done]. by apply list_elem_of_fmap_2.
  + exists start. split_and!; [done|done|intros n ? ?; by apply Hu|done].
  + intros e Hin. destruct (Hes e Hin) as (? & _ & ? & ?). by apply Hk in Hin.
Qed.
Lemma workflow_validated `{!Host} def parsed : workflow def parsed → ValidateFlowDefinition def = Ok parsed.
Proof.
  unfold ValidateFlowDefinition. rewrite result_seq_Ok, failIf_Ok, Nat.eqb_neq, result_bind_Ok.
  intros [Hnd Hnodes Hpar (start & Hsin & Hsk & Hu & Hr) Hl Hend Hes Hac].
  assert (∀ n, n ∈ FlowDefinition_Nodes def → nodeValid n ∧
    parsed !! NodeDefinition_ID n = Some (dataOf n) ∧ connected def n (dataOf n) ∧
    rollbackTargetsExist def (NodeDefinition_ID n) (dataOf n)) as Hv.
  { intros n Hn. destruct (Hnodes n Hn) as (? & ? & d & Hp & ? & ? & ? & ?).
    unfold nodeValid, dataOf. rewrite Hp. eauto 10. }
  assert (ofKind NodeStart (FlowDefinition_Nodes def) = [start]) as Hst.
  { apply NoDup_singleton_inv; [apply NoDup_filter_list; by eapply NoDup_fmap_1|].
    intros n. rewrite elem_of_ofKind. split; [intros []; auto|by intros ->]. }
  assert (nodesValid def start) as Hnv by (split; [done|intros n Hn; by apply Hv|done]).
  assert (endpointsKnown def) as Hk by (intros e Hin; by apply Hes).
  split; [intros Hz%length_zero_iff_nil; rewrite Hz in Hsin; by apply elem_of_nil in Hsin|].
  exists (nodesScanned def). split.
  { apply validateNodes_Ok. split_and!; [|done|by rewrite Hst| |done].
    - intros n Hn. destruct (Hv n Hn) as (? & _ & _ & ?). done.
    - destruct (Hl (NodeDefinition_ID start)) as (n & Hn & Hk' & _); [by apply list_elem_of_fmap_2|].
      assert (n ∈ ofKind NodeEnd (FlowDefinition_Nodes def)) as Hin by (by apply elem_of_ofKind).
      destruct (ofKind NodeEnd _); [by apply elem_of_nil in Hin|cbn; lia]. }
  apply result_bind_Ok. exists (edgesScanned def). split.
  { apply scanEdges_Ok. rewrite scanned_ids. split_and!; [|done|done]. intros e Hin.
    destruct (Hes e Hin) as (? & ? & ?). rewrite !elem_of_list_to_set. set_solver. }
  rewrite !result_seq_Ok. split_and!.
  + apply (validateDegree_Ok _ start); [done|]. intros n Hn. by apply Hv.
  + by apply (validateTopology_Ok _ start).
  + f_equal. apply map_eq. intros id. apply option_eq. intros d. rewrite (scanned_parsed _ start) by done. split.
    * intros (n & Hn & <- & <-). by apply Hv.
    * intros Hp. pose proof (Hpar _ _ Hp) as (n & -> & Hn)%list_elem_of_fmap. exists n. split_and!; [done|done|].
      destruct (Hv n Hn) as (_ & Hp' & _). congruence.
Qed.

(** C2. Deployment accepts exactly the well-formed workflows: validation of a flow
    definition succeeds if and only if node and edge ids are distinct and not
    blank, every payload parses and is valid, there is one start node (nothing
    leads to it, one edge leaves it) and at least one end node, every other node
    has the outgoing edges its kind needs (for a condition node one per branch,
    with one default branch), rollback targets are other task nodes, the graph
    has no cycle, every node is reachable from the start and from every node an
    end node can be reached; and then it returns the parsed payloads. *)
Theorem ValidateFlowDefinition_exact `{!Host} def parsed :
  ValidateFlowDefinition def = Ok parsed ↔ workflow def parsed.
Proof. split; [apply validated_workflow|apply workflow_validated]. Qed.
