(* ===== verification/Processors.v ===== *)
(** * Node visits, instance transitions and node processors

    The building blocks of the flow engine:
    [engine/visit.go] (the visit trail), [engine/instance_transition.go] and
    [engine/lifecycle.go] (the single write primitive for instance statuses),
    [engine/helpers.go] (task construction, automatic decisions) and the six
    processors ([start.go], [end.go], [condition.go], [cc.go], [handle.go],
    [approval.go]) behind the [NodeProcessor] interface of [processing.go]. *)
From S2P Require Import Prelude Enums StateMachine Models Demo Store Shared Conditions Delegation PassRule Binding.

(** ** The visit trail ([visit.go]) *)
Section visits.
Context `{!Host}.

Definition visitIsActiveAt (instanceID nodeID : string) (v : NodeVisit) : bool :=
  (NodeVisit_InstanceID v ==? instanceID) && (NodeVisit_NodeID v ==? nodeID)
  && (NodeVisit_Status v ==? NodeVisitActive).

Definition beginNodeVisit (instance : Instance) (node : FlowNode) : M NodeVisit :=
  count ← gets (λ s, tcount (λ v, NodeVisit_InstanceID v ==? Instance_ID instance) (db_visits s));
  insertVisit (Build_NodeVisit "" 0 (Instance_TenantID instance) (Instance_ID instance)
    (FlowNode_ID node) (Z.of_nat count + 1) NodeVisitActive None).

Definition concludeNodeVisit (visit : NodeVisit) (status : NodeVisitStatus) : M unit :=
  now ← Now;
  updateVisits (λ v, NodeVisit_ID v ==? NodeVisit_ID visit)
    (λ v, set_NodeVisit_FinishedAt (Some now) (set_NodeVisit_Status status v));;
  mret tt.

Definition FindActiveNodeVisit (instanceID nodeID : string) : M NodeVisit :=
  orThrow ErrActiveVisitNotFound
    (gets (λ s, tfirst (visitIsActiveAt instanceID nodeID) (db_visits s))).

Definition ConcludeActiveNodeVisit (instanceID nodeID : string) (status : NodeVisitStatus)
    : M unit :=
  now ← Now;
  affected ← updateVisits (visitIsActiveAt instanceID nodeID)
    (λ v, set_NodeVisit_FinishedAt (Some now) (set_NodeVisit_Status status v));
  throwIf (negb (affected =? 1)%nat) ErrActiveVisitNotFound.

Definition CancelActiveNodeVisits (instanceID : string) : M unit :=
  now ← Now;
  updateVisits (λ v, (NodeVisit_InstanceID v ==? instanceID)
                     && (NodeVisit_Status v ==? NodeVisitActive))
    (λ v, set_NodeVisit_FinishedAt (Some now) (set_NodeVisit_Status NodeVisitCanceled v));;
  mret tt.
End visits.

(** ** Instance transitions ([instance_transition.go], [lifecycle.go]) *)

(** The columns a caller may persist together with the status. *)
Inductive Col := ColCurrentNodeID | ColFinishedAt | ColFormData.

(** [UPDATE ... SET col = instance.col]. *)
Definition copyCol (src : Instance) (row : Instance) (c : Col) : Instance :=
  match c with
  | ColCurrentNodeID => set_Instance_CurrentNodeID (Instance_CurrentNodeID src) row
  | ColFinishedAt => set_Instance_FinishedAt (Instance_FinishedAt src) row
  | ColFormData => set_Instance_FormData (Instance_FormData src) row
  end.
Definition copyCols (src : Instance) (cols : list Col) (row : Instance) : Instance :=
  foldl (copyCol src) row cols.

Section transitions.
Context `{!Host}.

(** [UPDATE apv_instance SET cols WHERE pk]. *)
Definition updateInstanceCols (instance : Instance) (cols : list Col) : M nat :=
  updateInstances (λ i, Instance_ID i ==? Instance_ID instance) (copyCols instance cols).

(** [LifecycleHookRunner.OnInstanceTransition] and [.OnInstanceCreated]. *)
Definition runHooks (call : LifecycleHook → res unit) : M unit :=
  foldM (λ _ h, liftR (call h)) tt lifecycleHooks.
Definition LifecycleHookRunner_OnInstanceCreated (instance : Instance) : M unit :=
  runHooks (λ h, OnInstanceCreated h instance).
Definition LifecycleHookRunner_OnInstanceTransition (instance : Instance)
    (from to : InstanceStatus) : M unit :=
  Projector_Project instance;;
  runHooks (λ h, OnInstanceTransition h instance from to).

(** [ApplyInstanceTransitionWithHooks]; the updated in-memory instance comes back. *)
Definition ApplyInstanceTransitionWithHooks (instance : Instance) (to : InstanceStatus)
    (extraCols : list Col) : M Instance :=
  let from := Instance_Status instance in
  throwIf (negb (CanTransition InstanceStateMachine from to)) ErrInvalidTransition;;
  let instance := set_Instance_Status to instance in
  affected ← updateInstances
    (λ i, (Instance_ID i ==? Instance_ID instance) && (Instance_Status i ==? from))
    (λ i, set_Instance_Status to (copyCols instance extraCols i));
  throwIf (affected =? 0)%nat ErrInvalidTransition;;
  LifecycleHookRunner_OnInstanceTransition instance from to;;
  mret instance.
End transitions.

(** ** Processing ([processing.go]) *)

Inductive NodeAction := NodeActionWait | NodeActionContinue | NodeActionComplete.

(** [ProcessResult]: [FinalStatus] is dereferenced only for [NodeActionComplete]. *)
Record ProcessResult := {
  ProcessResult_Action : NodeAction;
  ProcessResult_FinalStatus : option InstanceStatus;
  ProcessResult_BranchID : option string;
  ProcessResult_Events : list DomainEvent;
}.
Definition waitResult (events : list DomainEvent) : ProcessResult :=
  Build_ProcessResult NodeActionWait None None events.
Definition continueResult (events : list DomainEvent) : ProcessResult :=
  Build_ProcessResult NodeActionContinue None None events.

Record ProcessContext := {
  pc_Instance : Instance;
  pc_Node : FlowNode;
  pc_Visit : NodeVisit;
}.
(** [NewFormData(instance.FormData)] *)
Definition pc_FormData (pc : ProcessContext) : gmap string Value :=
  default ∅ (Instance_FormData (pc_Instance pc)).
Definition pc_NodeResolveContext (pc : ProcessContext) : NodeResolveContext :=
  Build_NodeResolveContext (pc_Instance pc) (pc_Node pc) (pc_FormData pc).

(** ** Helpers ([helpers.go]) *)

Definition autoPassReasonExecutionType : string := "节点执行类型为自动通过".
Definition autoRejectReasonExecutionType : string := "节点执行类型为自动拒绝".
Definition autoPassReasonEmptyAssignee : string := "无审批人，按节点配置自动通过".
Definition autoPassReasonConsecutiveApprover : string := "审批人在上一节点已通过，自动通过".
Definition excludeReasonSameApplicant : string := "审批人与发起人相同，按节点配置回避".
Definition cancelReasonEntryNodePassed : string := "节点已通过，剩余任务无需处理".
Definition AutoPassReasonSameApplicant : string := "审批人与发起人相同，按节点配置自动通过".

Section helpers.
Context `{!Host}.
Implicit Types pc : ProcessContext.

Definition recordSystemActionLog pc (task : option Task) (reason : string) : M unit :=
  let entry := NewActionLog SystemOperator (Instance_ID (pc_Instance pc)) ActionExecute in
  let entry := set_ActionLog_NodeID (Some (FlowNode_ID (pc_Node pc))) entry in
  let entry := set_ActionLog_Opinion (Some reason) entry in
  addActionLog (match task with
                | Some t => set_ActionLog_TaskID (Some (Task_ID t)) entry
                | None => entry
                end).

(** [resolveAutoExecution]: [Some] when the execution type decides the node. *)
Definition resolveAutoExecution pc : M (option ProcessResult) :=
  match FlowNode_ExecutionType (pc_Node pc) with
  | ExecutionAutoPass =>
      recordSystemActionLog pc None autoPassReasonExecutionType;;
      mret (Some (continueResult
        [NewNodeAutoPassedEvent (pc_Instance pc) (pc_Node pc) autoPassReasonExecutionType]))
  | ExecutionAutoReject =>
      recordSystemActionLog pc None autoRejectReasonExecutionType;;
      mret (Some (Build_ProcessResult NodeActionComplete (Some InstanceRejected) None []))
  | _ => mret None
  end.

Definition nodeAutoPassResult pc (reason : string) : M ProcessResult :=
  recordSystemActionLog pc None reason;;
  mret (continueResult [NewNodeAutoPassedEvent (pc_Instance pc) (pc_Node pc) reason]).

Definition saveFormSnapshot pc : M unit :=
  insertSnapshot (Build_FormSnapshot "" 0 (Instance_ID (pc_Instance pc))
    (FlowNode_ID (pc_Node pc)) (Some (pc_FormData pc))).

Definition resolveAssignees pc : M (list ResolvedAssignee) :=
  assignees ← gets (λ s, orderBy FlowNodeAssignee_SortOrder
    (tselect (λ a, FlowNodeAssignee_NodeID a ==? FlowNode_ID (pc_Node pc)) (db_node_assignees s)));
  liftR (ResolveAll assignees (pc_NodeResolveContext pc)).

Definition resolveNodeAssignees pc : M (list ResolvedAssignee) :=
  assignees ← resolveAssignees pc;
  let assignees := deduplicateAssignees assignees in
  assignees ← applyDelegation (Instance_FlowID (pc_Instance pc)) assignees;
  mret (deduplicateAssignees assignees).

(** [findPreviousApprovalApprovers] *)
Definition findPreviousApprovalApprovers (instance : Instance) (currentNodeID : string)
    : M (gset string) :=
  gets (λ s,
    let approvalNodeIDs := FlowNode_ID <$> tselect (λ n,
      (FlowNode_FlowVersionID n ==? Instance_FlowVersionID instance)
      && (FlowNode_Kind n ==? NodeApproval) && negb (FlowNode_ID n ==? currentNodeID)) (db_nodes s) in
    if (length approvalNodeIDs =? 0)%nat then ∅
    else
      match head (orderBy (λ t, - Task_CreatedAt t)%Z (tselect (λ t,
              (Task_InstanceID t ==? Instance_ID instance)
              && bool_decide (Task_NodeID t ∈ approvalNodeIDs)) (db_tasks s))) with
      | None => ∅
      | Some prev =>
          list_to_set (Task_AssigneeID <$> tselect (λ t,
            (Task_InstanceID t ==? Instance_ID instance)
            && (Task_NodeID t ==? Task_NodeID prev)
            && (Task_Status t ==? TaskApproved)) (db_tasks s))
      end).

Definition computeDeadline (node : FlowNode) : M (option DateTime) :=
  ComputeTaskDeadline (FlowNode_TimeoutHours node).

Definition buildTask pc (assignee : ResolvedAssignee) (deadline : option DateTime) : Task :=
  let u := ResolvedAssignee_User assignee in
  set_Task_Delegator (ResolvedAssignee_Delegator assignee)
    (Build_Task "" 0 (Instance_TenantID (pc_Instance pc)) (Instance_ID (pc_Instance pc))
       (FlowNode_ID (pc_Node pc)) (NodeVisit_ID (pc_Visit pc))
       (UserInfo_ID u) (UserInfo_Name u) (UserInfo_DepartmentID u) (UserInfo_DepartmentName u)
       None None None None 0 TaskPending None None None deadline false false None).

Definition taskInsertedEvents pc (task : Task) : list DomainEvent :=
  NewTaskCreatedEvent (pc_Instance pc) task (pc_Node pc) ::
  (if Task_Status task ==? TaskPending
   then [NewTaskActivatedEvent (pc_Instance pc) task (pc_Node pc) TaskActivationAssigned]
   else []).
Definition taskCreatedEventsFor pc (tasks : list Task) : list DomainEvent :=
  flat_map (taskInsertedEvents pc) tasks.

(** [suppressActivationsForClearedTasks] *)
Definition suppressActivationsForClearedTasks (events : list DomainEvent) (tasks : list Task)
    : list DomainEvent :=
  let cleared := Task_ID <$> tselect (λ t, negb (Task_Status t ==? TaskPending)) tasks in
  List.filter (λ evt, match evt with
                      | TaskActivatedEvent b _ _ _ => negb (bool_decide (TaskEventBase_TaskID b ∈ cleared))
                      | _ => true
                      end) events.

Definition createTasksForUsers pc (userIDs : list string) : M ProcessResult :=
  let normalizedIDs := NormalizeUniqueIDs userIDs in
  throwIf (length normalizedIDs =? 0)%nat ErrNoAssignee;;
  infos ← liftR (ResolveUserInfoMap normalizedIDs);
  deadline ← computeDeadline (pc_Node pc);
  tasks ← insertTasks (map (λ uid,
    buildTask pc (Build_ResolvedAssignee (infoWithID infos uid) None) deadline) normalizedIDs);
  mret (waitResult (taskCreatedEventsFor pc tasks)).

Definition createTasksWithDelegation pc (assignees : list ResolvedAssignee)
    : M (list DomainEvent) :=
  deadline ← computeDeadline (pc_Node pc);
  tasks ← insertTasks (map (λ a, buildTask pc a deadline) assignees);
  mret (taskCreatedEventsFor pc tasks).

Definition getSuperior (userID : string) : M (option UserInfo) :=
  match assigneeService with
  | None => throw ErrAssigneeServiceNotConfigured
  | Some svc => liftR (GetSuperior svc userID)
  end.

Definition handleEmptyAssignee pc : M ProcessResult :=
  match FlowNode_EmptyAssigneeAction (pc_Node pc) with
  | EmptyAssigneeAutoPass => nodeAutoPassResult pc autoPassReasonEmptyAssignee
  | EmptyAssigneeTransferAdmin => createTasksForUsers pc (FlowNode_AdminUserIDs (pc_Node pc))
  | EmptyAssigneeTransferApplicant =>
      createTasksForUsers pc [Instance_ApplicantID (pc_Instance pc)]
  | EmptyAssigneeTransferSpecified => createTasksForUsers pc (FlowNode_FallbackUserIDs (pc_Node pc))
  | EmptyAssigneeTransferSuperior =>
      superiorInfo ← getSuperior (Instance_ApplicantID (pc_Instance pc));
      match superiorInfo with
      | None => throw ErrNoAssignee
      | Some info =>
          if UserInfo_ID info ==? "" then throw ErrNoAssignee
          else createTasksForUsers pc [UserInfo_ID info]
      end
  | EmptyAssigneeActionOther _ => throw ErrNoAssignee
  end.
End helpers.

(** ** The processors *)
Section processors.
Context `{!Host}.
Implicit Types pc : ProcessContext.

(** [start.go], [end.go] *)
Definition StartProcessor_Process pc : M ProcessResult := mret (continueResult []).
Definition EndProcessor_Process pc : M ProcessResult :=
  mret (Build_ProcessResult NodeActionComplete (Some InstanceApproved) None []).

(** [condition.go] *)
Fixpoint evaluateGroupConditions (evalCtx : EvaluationContext) (conditions : list Condition)
    : res bool :=
  match conditions with
  | [] => Ok true
  | condition :: rest =>
      match conditionEvaluators (Condition_Kind condition) with
      | None => Err ErrConditionEvaluatorNotFound
      | Some evaluate =>
          m ← evaluate condition evalCtx;
          if m : bool then evaluateGroupConditions evalCtx rest else Ok false
      end
  end.
Fixpoint anyGroupMatches (evalCtx : EvaluationContext) (groups : list ConditionGroup) : res bool :=
  match groups with
  | [] => Ok false
  | group :: rest =>
      m ← evaluateGroupConditions evalCtx (ConditionGroup_Conditions group);
      if m : bool then Ok true else anyGroupMatches evalCtx rest
  end.
Definition evaluateConditionGroups (evalCtx : EvaluationContext) (groups : list ConditionGroup)
    : res bool :=
  if (length groups =? 0)%nat then Ok true else anyGroupMatches evalCtx groups.

(** [cmp.Or(cmp.Compare(a.Priority, b.Priority), cmp.Compare(a.ID, b.ID)) <= 0] *)
Definition branchLe (a b : ConditionBranch) : bool :=
  (ConditionBranch_Priority a <? ConditionBranch_Priority b)%Z
  || ((ConditionBranch_Priority a =? ConditionBranch_Priority b)%Z
      && String.leb (ConditionBranch_ID a) (ConditionBranch_ID b)).
Fixpoint insertBranch (x : ConditionBranch) (l : list ConditionBranch) : list ConditionBranch :=
  match l with
  | [] => [x]
  | y :: l' => if branchLe x y then x :: l else y :: insertBranch x l'
  end.
Definition sortBranches (l : list ConditionBranch) : list ConditionBranch :=
  foldr insertBranch [] l.

(** The selection loop: the first matching branch, else the last default seen. *)
Fixpoint selectBranch (evalCtx : EvaluationContext) (branches : list ConditionBranch)
    (defaultBranch : option ConditionBranch) : res (option ConditionBranch) :=
  match branches with
  | [] => Ok defaultBranch
  | branch :: rest =>
      if ConditionBranch_IsDefault branch then selectBranch evalCtx rest (Some branch)
      else
        m ← evaluateConditionGroups evalCtx (ConditionBranch_ConditionGroups branch);
        if m : bool then Ok (Some branch) else selectBranch evalCtx rest defaultBranch
  end.

Definition ConditionProcessor_Process pc : M ProcessResult :=
  let branches := FlowNode_Branches (pc_Node pc) in
  throwIf (length branches =? 0)%nat ErrNoBranches;;
  let evalCtx := Build_EvaluationContext (pc_FormData pc) (Instance_ApplicantID (pc_Instance pc))
    (Instance_ApplicantDepartmentID (pc_Instance pc)) (Instance_Globals (pc_Instance pc)) in
  branch ← liftR (selectBranch evalCtx (sortBranches branches) None);
  match branch with
  | Some b => mret (Build_ProcessResult NodeActionContinue None (Some (ConditionBranch_ID b)) [])
  | None => throw ErrNoMatchingBranch
  end.

(** [cc.go] *)
Definition createCCRecords pc : M (list UserInfo) :=
  ccConfigs ← gets (λ s,
    tselect (λ c, FlowNodeCC_NodeID c ==? FlowNode_ID (pc_Node pc)) (db_node_ccs s));
  let resolved := CollectUserIDs ccConfigs (pc_NodeResolveContext pc) (λ _, true) in
  if (length resolved =? 0)%nat then mret []
  else
    let ccUserInfos := ResolveUserInfoMapSilent resolved in
    insertedUserIDs ← InsertAutoCCRecords (Instance_ID (pc_Instance pc))
      (FlowNode_ID (pc_Node pc)) (NodeVisit_ID (pc_Visit pc)) resolved ccUserInfos;
    mret (UserInfos insertedUserIDs ccUserInfos).

Definition CCProcessor_Process pc : M ProcessResult :=
  recipients ← createCCRecords pc;
  let events := match recipients with
                | [] => []
                | _ => [NewCCNotifiedEvent (pc_Instance pc) (pc_Node pc) recipients false]
                end in
  if negb (FlowNode_IsReadConfirmRequired (pc_Node pc)) then mret (continueResult events)
  else
    hasUnread ← HasUnreadCCRecords (Instance_ID (pc_Instance pc)) (FlowNode_ID (pc_Node pc))
      (NodeVisit_ID (pc_Visit pc));
    if hasUnread : bool then mret (waitResult events) else mret (continueResult events).

(** [handle.go] *)
Definition HandleProcessor_Process pc : M ProcessResult :=
  auto ← resolveAutoExecution pc;
  match auto with
  | Some result => mret result
  | None =>
      saveFormSnapshot pc;;
      assignees ← resolveNodeAssignees pc;
      if (length assignees =? 0)%nat then handleEmptyAssignee pc
      else
        events ← createTasksWithDelegation pc assignees;
        mret (waitResult events)
  end.

(** [approval.go] *)
Definition containsApplicant (assignees : list ResolvedAssignee) (applicantID : string) : bool :=
  existsb (λ a, seatID a ==? applicantID) assignees.

(** The [i]-th task of [createApprovalTasks], before insertion. *)
Definition approvalTaskAt pc (i : nat) (assignee : ResolvedAssignee) (deadline : option DateTime)
    : Task :=
  let task := buildTask pc assignee deadline in
  if FlowNode_ApprovalMethod (pc_Node pc) ==? ApprovalSequential then
    let task := set_Task_SortOrder (Z.of_nat i + 1) task in
    if (0 <? i)%nat then set_Task_Deadline None (set_Task_Status TaskWaiting task) else task
  else task.
Fixpoint createApprovalTasksFrom pc (i : nat) (assignees : list ResolvedAssignee)
    : M (list DomainEvent) :=
  match assignees with
  | [] => mret []
  | assignee :: rest =>
      deadline ← computeDeadline (pc_Node pc);
      task ← insertTask (approvalTaskAt pc i assignee deadline);
      events ← createApprovalTasksFrom pc (S i) rest;
      mret (taskInsertedEvents pc task ++ events)
  end.
Definition createApprovalTasks pc (assignees : list ResolvedAssignee) : M (list DomainEvent) :=
  createApprovalTasksFrom pc 0 assignees.

Definition resolveSuperiorSeat pc : M ResolvedAssignee :=
  superiorInfo ← getSuperior (Instance_ApplicantID (pc_Instance pc));
  match superiorInfo with
  | None => throw ErrNoAssignee
  | Some info =>
      if UserInfo_ID info ==? "" then throw ErrNoAssignee
      else
        infos ← liftR (ResolveUserInfoMap [UserInfo_ID info]);
        mret (Build_ResolvedAssignee (infoWithID infos (UserInfo_ID info)) None)
  end.

(** [applySameApplicantPolicy]: the seats to go on with, or the decided result. *)
Definition applySameApplicantPolicy pc (assignees : list ResolvedAssignee)
    : M (list ResolvedAssignee + ProcessResult) :=
  let applicantID := Instance_ApplicantID (pc_Instance pc) in
  if negb (containsApplicant assignees applicantID) then mret (inl assignees)
  else
    match FlowNode_SameApplicantAction (pc_Node pc) with
    | SameApplicantAutoPass =>
        if (length assignees =? 1)%nat then
          result ← nodeAutoPassResult pc AutoPassReasonSameApplicant; mret (inr result)
        else mret (inl assignees)
    | SameApplicantExclude =>
        recordSystemActionLog pc None excludeReasonSameApplicant;;
        let remaining := List.filter (λ a, negb (seatID a ==? applicantID)) assignees in
        if (length remaining =? 0)%nat then
          result ← handleEmptyAssignee pc; mret (inr result)
        else mret (inl remaining)
    | SameApplicantTransferSuperior =>
        superior ← resolveSuperiorSeat pc;
        mret (inl (deduplicateAssignees
          (map (λ a, if seatID a ==? applicantID then superior else a) assignees)))
    | _ => mret (inl assignees)
    end.

(** [entryAutoPassRule]: the reason an assignee's task is cleared for, if any. *)
Definition autoPassRule := string → option string.
Definition entryAutoPassRule pc (assignees : list ResolvedAssignee) : M (option autoPassRule) :=
  let applicantID := Instance_ApplicantID (pc_Instance pc) in
  let rules1 : list autoPassRule :=
    if (FlowNode_SameApplicantAction (pc_Node pc) ==? SameApplicantAutoPass)
       && containsApplicant assignees applicantID
    then [λ assigneeID, if assigneeID ==? applicantID then Some AutoPassReasonSameApplicant
                        else None]
    else [] in
  rules2 ← (if FlowNode_ConsecutiveApproverAction (pc_Node pc) ==? ConsecutiveApproverAutoPass then
              prevApprovers ← findPreviousApprovalApprovers (pc_Instance pc) (FlowNode_ID (pc_Node pc));
              mret (if bool_decide (prevApprovers = ∅) then []
                    else [(λ assigneeID, if bool_decide (assigneeID ∈ prevApprovers)
                                         then Some autoPassReasonConsecutiveApprover else None)
                          : autoPassRule])
            else mret []);
  match rules1 ++ rules2 with
  | [] => mret None
  | rules => mret (Some (λ assigneeID,
      foldr (λ rule acc, match rule assigneeID with Some r => Some r | None => acc end) None rules))
  end.

(** The index of the first waiting task after [i]. *)
Fixpoint firstWaitingFrom (j : nat) (tasks : list Task) : option nat :=
  match tasks with
  | [] => None
  | t :: ts => if Task_Status t ==? TaskWaiting then Some j else firstWaitingFrom (S j) ts
  end.
Definition nextWaiting (i : nat) (tasks : list Task) : option nat :=
  firstWaitingFrom (S i) (drop (S i) tasks).

(** Promote the next waiting task of a sequential node (the inner loop). *)
Definition promoteNext pc (i : nat) (tasks : list Task) : M (list Task * list DomainEvent) :=
  match nextWaiting i tasks with
  | None => mret (tasks, [])
  | Some j =>
      match tasks !! j with
      | None => mret (tasks, [])
      | Some tj =>
          deadline ← computeDeadline (pc_Node pc);
          let tj' := set_Task_Deadline deadline (set_Task_Status TaskPending tj) in
          affected ← updateTasks
            (λ t, (Task_ID t ==? Task_ID tj) && (Task_Status t ==? TaskWaiting))
            (λ t, set_Task_Deadline deadline (set_Task_Status TaskPending t));
          if (affected =? 0)%nat then mret (<[j := set_Task_Deadline None tj]> tasks, [])
          else mret (<[j := tj']> tasks,
                     [NewTaskActivatedEvent (pc_Instance pc) tj' (pc_Node pc)
                        TaskActivationQueueAdvanced])
      end
  end.

(** One iteration of the entry auto-pass sweep: the in-memory tasks, the events
    and whether anything was cleared so far. *)
Definition autoPassOne pc (rule : autoPassRule) (now : DateTime)
    (acc : list Task * list DomainEvent * bool) (i : nat) : M (list Task * list DomainEvent * bool) :=
  let '(tasks, events, autoPassedAny) := acc in
  match tasks !! i with
  | None => mret acc
  | Some task =>
      match rule (Task_AssigneeID task) with
      | None => mret acc
      | Some reason =>
          if negb (Task_Status task ==? TaskPending) then mret acc
          else
            let task' := set_Task_FinishedAt (Some now) (set_Task_Status TaskApproved task) in
            updateTasks (λ t, (Task_ID t ==? Task_ID task) && (Task_Status t ==? TaskPending))
              (λ t, set_Task_FinishedAt (Some now) (set_Task_Status TaskApproved t));;
            recordSystemActionLog pc (Some task') reason;;
            let tasks := <[i := task']> tasks in
            let events := events ++
              [NewTaskApprovedEvent (pc_Instance pc) task' (pc_Node pc) SystemOperator reason] in
            (if FlowNode_ApprovalMethod (pc_Node pc) ==? ApprovalSequential then
               r ← promoteNext pc i tasks; mret (r.1, events ++ r.2, true)
             else mret (tasks, events, true))
      end
  end.

(** [cancelRemainingEntryTasks]: the updated in-memory tasks and the events. *)
Definition cancelRemainingEntryTasks pc (tasks : list Task) (now : DateTime)
    : M (list Task * list DomainEvent) :=
  let remaining := tselect isOpen tasks in
  if (length remaining =? 0)%nat then mret (tasks, [])
  else
    let ids := Task_ID <$> remaining in
    let cancel t := set_Task_FinishedAt (Some now) (set_Task_Status TaskCanceled t) in
    updateTasks (λ t, bool_decide (Task_ID t ∈ ids)) cancel;;
    mret (tupdate isOpen cancel tasks,
          map (λ t, NewTaskCanceledEvent (pc_Instance pc) (cancel t) (pc_Node pc)
                      cancelReasonEntryNodePassed) remaining).

(** The rows the sweep works on: every task of the instance on this node. *)
Definition entrySweepTasks pc (s : St) : list Task :=
  orderBy Task_SortOrder (tselect (λ t,
    (Task_InstanceID t ==? Instance_ID (pc_Instance pc))
    && (Task_NodeID t ==? FlowNode_ID (pc_Node pc))) (db_tasks s)).

Definition autoPassEligibleTasks pc (creationEvents : list DomainEvent) (rule : autoPassRule)
    : M ProcessResult :=
  tasks ← gets (entrySweepTasks pc);
  now ← Now;
  swept ← foldM (autoPassOne pc rule now) (tasks, [], false) (seq 0 (length tasks));
  let '(tasks, events, autoPassedAny) := swept in
  let events := creationEvents ++ events in
  if negb autoPassedAny then mret (waitResult events)
  else
    completion ← liftR (evaluatePassRule (pc_Node pc) tasks);
    if completion ==? PassRulePassed then
      r ← cancelRemainingEntryTasks pc tasks now;
      mret (continueResult (suppressActivationsForClearedTasks (events ++ r.2) r.1))
    else mret (waitResult (suppressActivationsForClearedTasks events tasks)).

Definition ApprovalProcessor_Process pc : M ProcessResult :=
  auto ← resolveAutoExecution pc;
  match auto with
  | Some result => mret result
  | None =>
      saveFormSnapshot pc;;
      assignees ← resolveNodeAssignees pc;
      if (length assignees =? 0)%nat then handleEmptyAssignee pc
      else
        decided ← applySameApplicantPolicy pc assignees;
        match decided with
        | inr result => mret result
        | inl assignees =>
            events ← createApprovalTasks pc assignees;
            rule ← entryAutoPassRule pc assignees;
            match rule with
            | None => mret (waitResult events)
            | Some rule => autoPassEligibleTasks pc events rule
            end
        end
  end.

(** The processors map of [NewFlowEngine]. *)
Definition processorFor (kind : NodeKind) : option (ProcessContext → M ProcessResult) :=
  match kind with
  | NodeStart => Some StartProcessor_Process
  | NodeEnd => Some EndProcessor_Process
  | NodeCondition => Some ConditionProcessor_Process
  | NodeApproval => Some ApprovalProcessor_Process
  | NodeHandle => Some HandleProcessor_Process
  | NodeCC => Some CCProcessor_Process
  | NodeKindOther _ => None
  end.
End processors.

(** ** Choosing a branch *)
Section branches.
Context `{!Host}.

Lemma ascii_compare_N (a b : Ascii.ascii) :
  Ascii.compare a b = N.compare (Ascii.N_of_ascii a) (Ascii.N_of_ascii b).
Proof. done. Qed.
Lemma string_leb_trans : Transitive (λ a b, String.leb a b = true).
Proof.
  intros x y z. unfold String.leb. revert y z.
  induction x as [|a x IH]; intros [|b y] [|c z]; cbn; try done.
  rewrite !ascii_compare_N.
  destruct (N.compare_spec (Ascii.N_of_ascii a) (Ascii.N_of_ascii b)) as [Hab|Hab|Hab]; [| |done];
    destruct (N.compare_spec (Ascii.N_of_ascii b) (Ascii.N_of_ascii c)) as [Hbc|Hbc|Hbc]; try done;
    destruct (N.compare_spec (Ascii.N_of_ascii a) (Ascii.N_of_ascii c)) as [Hac|Hac|Hac]; try done;
    try (exfalso; lia). apply IH.
Qed.

Definition branch_le (a b : ConditionBranch) : Prop := branchLe a b = true.
#[export] Instance branch_le_trans : Transitive branch_le.
Proof.
  intros x y z. unfold branch_le, branchLe. rewrite !orb_true_iff, !andb_true_iff, !Z.ltb_lt, !Z.eqb_eq.
  intros [?|[? Hxy]] [?|[? Hyz]]; [left; lia|left; lia|left; lia|]. right. split; [lia|].
  by eapply string_leb_trans.
Qed.
#[export] Instance branch_le_total : Total branch_le.
Proof.
  intros x y. unfold branch_le, branchLe. rewrite !orb_true_iff, !andb_true_iff, !Z.ltb_lt, !Z.eqb_eq.
  destruct (Z.lt_total (ConditionBranch_Priority x) (ConditionBranch_Priority y)) as [?|[?|?]]; [auto| |auto].
  destruct (String.leb_total (ConditionBranch_ID x) (ConditionBranch_ID y)); auto.
Qed.

Lemma insertBranch_Permutation x l : insertBranch x l ≡ₚ x :: l.
Proof.
  induction l as [|y l IH]; cbn; [done|]. destruct (branchLe x y); [done|]. rewrite IH. constructor.
Qed.
Lemma sortBranches_Permutation l : sortBranches l ≡ₚ l.
Proof. induction l as [|x l IH]; cbn; [done|]. by rewrite insertBranch_Permutation, IH. Qed.
Lemma insertBranch_Sorted x l : StronglySorted branch_le l → StronglySorted branch_le (insertBranch x l).
Proof.
  induction 1 as [|y l Hs IH Hall]; cbn; [repeat constructor|].
  destruct (branchLe x y) eqn:Hxy.
  - constructor; [by constructor|]. constructor; [done|].
    eapply Forall_impl; [exact Hall|]. intros z Hz. by etrans.
  - constructor; [done|]. rewrite insertBranch_Permutation. constructor; [|done].
    destruct (total branch_le x y) as [Hle|Hle]; [|done]. unfold branch_le in Hle. congruence.
Qed.
Lemma sortBranches_Sorted l : StronglySorted branch_le (sortBranches l).
Proof. induction l as [|x l IH]; cbn; [constructor|]. by apply insertBranch_Sorted. Qed.

(** A group holds when all its conditions do; a branch without groups holds, and
    otherwise one group suffices. *)
Definition conditionHolds (ctx : EvaluationContext) (c : Condition) : Prop :=
  ∃ evaluate, conditionEvaluators (Condition_Kind c) = Some evaluate ∧ evaluate c ctx = Ok true.
Definition branchHolds (ctx : EvaluationContext) (b : ConditionBranch) : Prop :=
  ConditionBranch_ConditionGroups b = [] ∨
  ∃ g, g ∈ ConditionBranch_ConditionGroups b ∧
    ∀ c, c ∈ ConditionGroup_Conditions g → conditionHolds ctx c.

Lemma evaluateGroupConditions_true ctx cs :
  evaluateGroupConditions ctx cs = Ok true → ∀ c, c ∈ cs → conditionHolds ctx c.
Proof.
  induction cs as [|c cs IH]; cbn; [set_solver|].
  destruct (conditionEvaluators _) as [evaluate|] eqn:Hev; [|done].
  destruct (evaluate c ctx) as [[]|] eqn:He; cbn; try done.
  intros Ha c' [->|Hc]%elem_of_cons; [by exists evaluate|]. by apply IH.
Qed.
Lemma anyGroupMatches_true ctx gs :
  anyGroupMatches ctx gs = Ok true →
  ∃ g, g ∈ gs ∧ ∀ c, c ∈ ConditionGroup_Conditions g → conditionHolds ctx c.
Proof.
  induction gs as [|g gs IH]; cbn; [done|].
  destruct (evaluateGroupConditions _ _) as [[]|] eqn:Hg; cbn; try done.
  - intros _. exists g. split; [set_solver|]. by apply evaluateGroupConditions_true.
  - intros (g' & ? & ?)%IH. exists g'. split; [set_solver|done].
Qed.
Lemma evaluateConditionGroups_true ctx b :
  evaluateConditionGroups ctx (ConditionBranch_ConditionGroups b) = Ok true → branchHolds ctx b.
Proof.
  unfold evaluateConditionGroups, branchHolds. destruct (ConditionBranch_ConditionGroups b) as [|g gs]; [by left|].
  intros Ha. right. by apply anyGroupMatches_true.
Qed.

Definition branchVerdict (ctx : EvaluationContext) (b : ConditionBranch) : res bool :=
  evaluateConditionGroups ctx (ConditionBranch_ConditionGroups b).
Lemma selectBranch_spec ctx bs d b :
  StronglySorted branch_le bs → selectBranch ctx bs d = Ok (Some b) →
  (b ∈ bs ∧ ConditionBranch_IsDefault b = false ∧ branchVerdict ctx b = Ok true ∧
   ∀ b', b' ∈ bs → ConditionBranch_IsDefault b' = false → branchVerdict ctx b' = Ok true →
     b' = b ∨ branch_le b b') ∨
  ((b ∈ bs ∧ ConditionBranch_IsDefault b = true ∨ d = Some b) ∧
   ∀ b', b' ∈ bs → ConditionBranch_IsDefault b' = false → branchVerdict ctx b' = Ok false).
Proof.
  intros Hs. revert d. induction Hs as [|x bs Hs IH Hall]; intros d; cbn [selectBranch].
  { intros [= ->]. right. split; [by right|set_solver]. }
  rewrite Forall_forall in Hall.
  destruct (ConditionBranch_IsDefault x) eqn:Hx.
  - intros [(Hb & Hd & Hm & Hmin)|[Hb Hno]]%IH.
    + left. split; [set_solver|]. split; [done|]. split; [done|].
      intros b' [->|?]%elem_of_cons; [congruence|auto].
    + right. split; [destruct Hb as [[? ?]|[= ->]]; set_solver|].
      intros b' [->|?]%elem_of_cons; [congruence|auto].
  - change (evaluateConditionGroups ctx (ConditionBranch_ConditionGroups x)) with (branchVerdict ctx x).
    destruct (branchVerdict ctx x) as [[]|] eqn:Hm; cbn; [| |done].
    + intros [= ->]. left. split; [set_solver|]. split; [done|]. split; [done|].
      intros b' [->|?]%elem_of_cons; [by left|]. right. by apply Hall.
    + intros [(Hb & Hd & Hmb & Hmin)|[Hb Hno]]%IH.
      * left. split; [set_solver|]. split; [done|]. split; [done|].
        intros b' [->|?]%elem_of_cons; [congruence|auto].
      * right. split; [destruct Hb as [[? ?]|?]; set_solver|].
        intros b' [->|?]%elem_of_cons; [congruence|auto].
Qed.
End branches.

(** A condition node follows the first branch that holds: on success it takes
    either a branch whose conditions hold and that precedes, by priority and then
    id, every other branch that holds, or a default branch, and then no other
    branch holds; the store is not touched. *)
Theorem condition_takes_first_match `{!Host} pc s r s' :
  let ctx := Build_EvaluationContext (pc_FormData pc) (Instance_ApplicantID (pc_Instance pc))
    (Instance_ApplicantDepartmentID (pc_Instance pc)) (Instance_Globals (pc_Instance pc)) in
  let branches := FlowNode_Branches (pc_Node pc) in
  ConditionProcessor_Process pc s = Ok (r, s') →
  s' = s ∧ ∃ b, b ∈ branches ∧
    r = Build_ProcessResult NodeActionContinue None (Some (ConditionBranch_ID b)) [] ∧
    (ConditionBranch_IsDefault b = false ∧ branchHolds ctx b ∧
       (∀ b', b' ∈ branches → ConditionBranch_IsDefault b' = false → branchVerdict ctx b' = Ok true →
          b' = b ∨ branch_le b b') ∨
     ConditionBranch_IsDefault b = true ∧
       (∀ b', b' ∈ branches → ConditionBranch_IsDefault b' = false → branchVerdict ctx b' = Ok false)).
Proof.
  intros ctx branches Hrun. unfold ConditionProcessor_Process in Hrun.
  step Hrun as u s1 E1. apply throwIf_Ok in E1 as [_ ->].
  step Hrun as br s2 E2. apply liftR_Ok in E2 as [Hsel ->].
  destruct br as [b|]; [|done]. injection Hrun as <- <-. split; [done|].
  assert (∀ x, x ∈ sortBranches branches ↔ x ∈ branches) as Hin.
  { intros x. by rewrite sortBranches_Permutation. }
  setoid_rewrite <-Hin. exists b.
  apply selectBranch_spec in Hsel as [(Hb & Hd & Hm & Hmin)|[[[Hb Hd]|?] Hno]]; [| |done|apply sortBranches_Sorted].
  - split; [done|]. split; [done|]. left. split; [done|]. split; [by apply evaluateConditionGroups_true|done].
  - split; [done|]. split; [done|]. by right.
Qed.

(** Two conditions on the amount and a default, given out of order. *)
Definition demoBranch (id : string) (priority bound : Z) : ConditionBranch :=
  Build_ConditionBranch id id [Build_ConditionGroup [Build_Condition ConditionField "amount" AggregateNone ""
    OperatorGreater (VNumber (float64_of_Z bound)) ""]] false priority.
Definition demoFork : FlowNode :=
  set_FlowNode_Branches [demoBranch "small" 2 10; Build_ConditionBranch "other" "other" [] true 0;
                         demoBranch "large" 1 100]
    (demoNode "fork" NodeCondition ApprovalParallel PassAll 0 0).
Definition demoInstance (amount : Z) : Instance :=
  Build_Instance "i" 0 "acme" "leave" "leave" "v1" "" "" "alice" "alice" None None InstanceRunning None None
    None (Some {["amount" := VNumber (float64_of_Z amount)]}) None None.
Definition demoVisit : NodeVisit := Build_NodeVisit "w" 0 "acme" "i" "fork" 1 NodeVisitActive None.
Lemma condition_takes_first_match_witness :
  ∃ b, b ∈ FlowNode_Branches demoFork ∧ ConditionBranch_ID b = "large" ∧
    ConditionBranch_IsDefault b = false.
Proof.
  destruct (@condition_takes_first_match demoHost
    (Build_ProcessContext (demoInstance 200) demoFork demoVisit)
    (demoStore ApprovalParallel PassAll []) _ _ eq_refl) as (_ & b & Hb & Hr & Hcase).
  exists b. split; [exact Hb|]. injection Hr as Hid. split; [by rewrite <-Hid|].
  destruct Hcase as [[Hd _]|[Hd Hno]]; [exact Hd|].
  specialize (Hno (demoBranch "large" 1 100) ltac:(cbn; set_solver) eq_refl).
  vm_compute in Hno. discriminate Hno.
Defined.

(** ** Seats and their tasks *)
Section seats.
Context `{!Host}.

(** The rows [createApprovalTasksFrom] appends. *)
Definition seatTask pc (i : nat) (a : ResolvedAssignee) (t : Task) : Prop :=
  let sequential := FlowNode_ApprovalMethod (pc_Node pc) = ApprovalSequential in
  Task_AssigneeID t = seatID a ∧
  Task_InstanceID t = Instance_ID (pc_Instance pc) ∧ Task_NodeID t = FlowNode_ID (pc_Node pc) ∧
  Task_VisitID t = NodeVisit_ID (pc_Visit pc) ∧
  (sequential → Task_SortOrder t = (Z.of_nat i + 1)%Z) ∧
  (sequential ∧ 0 < i → Task_Status t = TaskWaiting ∧ Task_Deadline t = None) ∧
  ((¬ sequential) ∨ i = 0 → Task_Status t = TaskPending ∧
     (is_Some (Task_Deadline t) ↔ (0 < FlowNode_TimeoutHours (pc_Node pc))%Z)).

Lemma ComputeTaskDeadline_total h s :
  ∃ d s1, ComputeTaskDeadline h s = Ok (d, s1) ∧ db_tasks s1 = db_tasks s ∧
    db_next_id s1 = db_next_id s ∧ (is_Some d ↔ (0 < h)%Z).
Proof.
  unfold ComputeTaskDeadline. destruct (Z.leb_spec h 0) as [Hh|Hh].
  - exists None, s. repeat split; [|lia]. by intros [].
  - destruct s. do 2 eexists. split; [reflexivity|].
    split; [done|]. split; [done|]. split; [done|]. by eexists.
Qed.
Lemma insertTask_total t s :
  ∃ id now s2, let row := set_Task_CreatedAt now (set_Task_ID id t) in
    insertTask t s = Ok (row, s2) ∧ db_tasks s2 = db_tasks s ++ [row].
Proof.
  destruct s. eexists _, _, _. split.
  - unfold insertTask, freshID, Now, andThen, modify, mbind, SE_bind. cbn. reflexivity.
  - reflexivity.
Qed.
Lemma approvalTaskAt_seat pc i a d id now :
  (is_Some d ↔ (0 < FlowNode_TimeoutHours (pc_Node pc))%Z) →
  seatTask pc i a (set_Task_CreatedAt now (set_Task_ID id (approvalTaskAt pc i a d))).
Proof.
  intros Hd. unfold approvalTaskAt, buildTask, seatTask.
  destruct (ResolvedAssignee_Delegator a); case_bool_decide as Hseq;
    try (destruct i as [|i]); cbn; split_and!; try done;
    first [by intros [? ?%Nat.lt_irrefl]|by intros [?|?]|by intros [? _]|idtac].
Qed.
Lemma createApprovalTasksFrom_total pc i l s :
  ∃ evs s' rows, createApprovalTasksFrom pc i l s = Ok (evs, s') ∧
    db_tasks s' = db_tasks s ++ rows ∧ length rows = length l ∧
    ∀ k a t, l !! k = Some a → rows !! k = Some t → seatTask pc (i + k) a t.
Proof.
  revert i s. induction l as [|a l IH]; intros i s; cbn [createApprovalTasksFrom].
  { exists [], s, []. rewrite app_nil_r. split_and!; [done..|]. intros k a t Hk. by rewrite lookup_nil in Hk. }
  destruct (ComputeTaskDeadline_total (FlowNode_TimeoutHours (pc_Node pc)) s) as (d & s1 & Hrun & Ht1 & _ & Hd).
  destruct (insertTask_total (approvalTaskAt pc i a d) s1) as (id & now & s2 & Hins & Ht2).
  set (row := set_Task_CreatedAt now (set_Task_ID id (approvalTaskAt pc i a d))) in *.
  destruct (IH (S i) s2) as (evs & s' & rows & Hrest & Ht' & Hlen & Hseat).
  exists (taskInsertedEvents pc row ++ evs), s', (row :: rows).
  split; [|split; [|split]].
  - unfold computeDeadline, mbind, SE_bind. rewrite Hrun, Hins, Hrest. done.
  - by rewrite Ht', Ht2, Ht1, <-app_assoc.
  - cbn. by rewrite Hlen.
  - intros [|k] b t; cbn.
    + intros [= <-] [= <-]. rewrite Nat.add_0_r. by apply approvalTaskAt_seat.
    + intros Hb Hr. replace (i + S k) with (S i + k) by lia. by apply Hseat.
Qed.
End seats.

(** Nobody gets two seats: whatever the resolvers and delegations yield, the
    seats of a node are pairwise different, named people. *)
Theorem node_seats_are_distinct `{!Host} pc s l s' :
  resolveNodeAssignees pc s = Ok (l, s') → NoDup (seatID <$> l) ∧ "" ∉ seatID <$> l.
Proof.
  intros Hrun. unfold resolveNodeAssignees in Hrun. step Hrun as a1 s1 E1. step Hrun as a2 s2 E2.
  injection Hrun as <- _. split; [apply deduplicateAssignees_NoDup|].
  rewrite elem_of_deduplicateAssignees. naive_solver.
Qed.

(** Opening an approval node always succeeds and creates exactly one task per
    seat on the visit being opened.  On a sequential node they are numbered from
    one in seat order, the first is pending and every other one waits without a
    deadline; on a parallel node all are pending.  A pending task carries a
    deadline exactly when the node has a timeout. *)
Theorem approval_tasks_match_seats `{!Host} pc seats s :
  ∃ events s' rows, createApprovalTasks pc seats s = Ok (events, s') ∧
    db_tasks s' = db_tasks s ++ rows ∧ length rows = length seats ∧
    ∀ i a t, seats !! i = Some a → rows !! i = Some t → seatTask pc i a t.
Proof. exact (createApprovalTasksFrom_total pc 0 seats s). Qed.

Definition demoReview : ProcessContext :=
  Build_ProcessContext (demoInstance 1) (demoNode "review" NodeApproval ApprovalParallel PassAll 0 0) demoVisit.
Lemma node_seats_are_distinct_witness :
  match @resolveNodeAssignees demoHost demoReview
          (demoStore ApprovalParallel PassAll ["bob"; "carol"; "bob"]) with
  | Ok (l, _) => (seatID <$> l) = ["bob"; "carol"] ∧ NoDup (seatID <$> l)
  | Err _ => False
  end.
Proof.
  destruct (@resolveNodeAssignees demoHost demoReview _) as [[l s']|e] eqn:Hrun.
  - split; [vm_compute in Hrun; injection Hrun as <- _; reflexivity|].
    by apply (@node_seats_are_distinct demoHost _ _ _ _ Hrun).
  - vm_compute in Hrun. discriminate Hrun.
Defined.
