(* ===== verification/Engine.v ===== *)
(** * The flow engine

    [internal/approval/engine/engine.go] and [compiled_flow.go]: compiling a
    version into lookup maps, entering a node ([ProcessNode]), acting on its
    result ([handleProcessResult]), advancing along the matching edge
    ([AdvanceToNextNode]), starting an instance and evaluating completion.

    The mutual recursion [ProcessNode] / [handleProcessResult] /
    [AdvanceToNextNode] is bounded in the source by [maxNodeDepth] through the
    context; [fuel] is [maxNodeDepth] minus the depth, and running out of it is
    the source's [ErrMaxNodeDepth]. *)
From S2P Require Import Prelude Enums StateMachine Models Demo Store Shared Delegation PassRule Processors Binding.

(** ** [compiled_flow.go] *)

Record CompiledFlow := {
  cf_FlowVersionID : string;
  cf_Nodes : gmap string FlowNode;
  cf_StartNode : option FlowNode;
  cf_EdgesBySource : gmap string (list FlowEdge);
}.

Definition addCompiledNode (acc : gmap string FlowNode * option FlowNode) (node : FlowNode)
    : gmap string FlowNode * option FlowNode :=
  (<[FlowNode_ID node := node]> acc.1,
   if FlowNode_Kind node ==? NodeStart then Some node else acc.2).
Definition addCompiledEdge (m : gmap string (list FlowEdge)) (edge : FlowEdge)
    : gmap string (list FlowEdge) :=
  <[FlowEdge_SourceNodeID edge := default [] (m !! FlowEdge_SourceNodeID edge) ++ [edge]]> m.

(** [FlowCache.compile]; [FlowCache.Get] returns the compilation of the rows,
    which never change once a version is published. *)
Definition compileRows (versionID : string) (nodes : list FlowNode) (edges : list FlowEdge)
    : CompiledFlow :=
  let '(ns, start) := foldl addCompiledNode (∅, None) nodes in
  Build_CompiledFlow versionID ns start (foldl addCompiledEdge ∅ edges).
Definition FlowCache_Get (versionID : string) : M CompiledFlow :=
  nodes ← gets (λ s, tselect (λ n, FlowNode_FlowVersionID n ==? versionID) (db_nodes s));
  throwIf (length nodes =? 0)%nat ErrFlowNoNodes;;
  edges ← gets (λ s, tselect (λ e, FlowEdge_FlowVersionID e ==? versionID) (db_edges s));
  mret (compileRows versionID nodes edges).

(** [CompiledFlow.FindOutgoing] *)
Definition FindOutgoing (c : CompiledFlow) (sourceNodeID : string) (branchID : option string)
    : res FlowEdge :=
  let candidates := default [] (cf_EdgesBySource c !! sourceNodeID) in
  if (length candidates =? 0)%nat then Err ErrNoMatchingEdge
  else
    let matched := List.filter (λ e, match branchID with
                                     | None => true
                                     | Some b => FlowEdge_SourceHandle e ==? Some b
                                     end) candidates in
    match matched with
    | [] => Err ErrNoMatchingEdge
    | [e] => Ok e
    | _ => Err errAmbiguousEdges
    end.

(** ** [engine.go] *)

Definition maxNodeDepth : nat := 100.

Section engine.
Context `{!Host}.

(** [NewInstanceCompletedEvent] reads the clock when the instance carries no
    finish time. *)
Definition NewInstanceCompletedEvent (i : Instance) (finalStatus : InstanceStatus)
    : M DomainEvent :=
  finishedAt ← match Instance_FinishedAt i with Some t => mret t | None => Now end;
  mret (InstanceCompletedEvent (NewInstanceEventBase i) finalStatus finishedAt None).

(** [AdvanceToNextNode] with the continuation [ProcessNode] as a parameter. *)
Definition advanceWith (processNode : Instance → FlowNode → M Instance)
    (instance : Instance) (fromNode : FlowNode) (branchID : option string) : M Instance :=
  compiled ← FlowCache_Get (Instance_FlowVersionID instance);
  edge ← liftR (FindOutgoing compiled (FlowNode_ID fromNode) branchID);
  match cf_Nodes compiled !! FlowEdge_TargetNodeID edge with
  | None => throw ErrFlowMissingTargetNode
  | Some nextNode => processNode instance nextNode
  end.

(** [handleProcessResult] *)
Definition handleResultWith (processNode : Instance → FlowNode → M Instance)
    (instance : Instance) (node : FlowNode) (visit : NodeVisit) (result : ProcessResult)
    : M Instance :=
  EmitEvents (ProcessResult_Events result);;
  match ProcessResult_Action result with
  | NodeActionWait =>
      let instance := set_Instance_CurrentNodeID (Some (FlowNode_ID node)) instance in
      updateInstanceCols instance [ColCurrentNodeID];;
      mret instance
  | NodeActionContinue =>
      concludeNodeVisit visit NodeVisitPassed;;
      advanceWith processNode instance node (ProcessResult_BranchID result)
  | NodeActionComplete =>
      let finalStatus := default InstanceApproved (ProcessResult_FinalStatus result) in
      let visitStatus := if finalStatus ==? InstanceRejected
                         then NodeVisitRejected else NodeVisitPassed in
      concludeNodeVisit visit visitStatus;;
      now ← Now;
      let instance := set_Instance_FinishedAt (Some now)
        (set_Instance_CurrentNodeID (Some (FlowNode_ID node)) instance) in
      instance ← ApplyInstanceTransitionWithHooks instance finalStatus
        [ColCurrentNodeID; ColFinishedAt];
      evt ← NewInstanceCompletedEvent instance finalStatus;
      EmitEvents [evt];;
      mret instance
  end.

(** [ProcessNode] *)
Fixpoint ProcessNodeFuel (fuel : nat) (instance : Instance) (node : FlowNode) : M Instance :=
  match fuel with
  | 0 => throw ErrMaxNodeDepth
  | S fuel' =>
      match processorFor (FlowNode_Kind node) with
      | None => throw ErrProcessorNotFound
      | Some process =>
          visit ← beginNodeVisit instance node;
          result ← process (Build_ProcessContext instance node visit);
          handleResultWith (ProcessNodeFuel fuel') instance node visit result
      end
  end.
Definition ProcessNode : Instance → FlowNode → M Instance := ProcessNodeFuel maxNodeDepth.

(** [AdvanceToNextNode], called from outside a traversal (depth 0). *)
Definition AdvanceToNextNode (instance : Instance) (fromNode : FlowNode)
    (branchID : option string) : M Instance :=
  advanceWith ProcessNode instance fromNode branchID.

(** [StartProcess] *)
Definition StartProcess (instance : Instance) : M Instance :=
  compiled ← FlowCache_Get (Instance_FlowVersionID instance);
  match cf_StartNode compiled with
  | None => throw ErrFlowMissingStartNode
  | Some start => ProcessNode instance start
  end.

(** [EvaluateNodeCompletion] *)
Definition EvaluateNodeCompletion (instance : Instance) (node : FlowNode) : M PassRuleResult :=
  visit ← FindActiveNodeVisit (Instance_ID instance) (FlowNode_ID node);
  tasks ← gets (λ s, tselect (λ t, Task_VisitID t ==? NodeVisit_ID visit) (db_tasks s));
  liftR (evaluatePassRule node tasks).
End engine.

(** ** The compiled index *)
Section compiled.
Definition leaving (src : string) (branchID : option string) (e : FlowEdge) : bool :=
  (FlowEdge_SourceNodeID e ==? src) &&
  match branchID with None => true | Some b => FlowEdge_SourceHandle e ==? Some b end.

Lemma foldl_addCompiledEdge edges m src :
  default [] (foldl addCompiledEdge m edges !! src) =
  default [] (m !! src) ++ List.filter (λ e, FlowEdge_SourceNodeID e ==? src) edges.
Proof.
  revert m. induction edges as [|e edges IH]; intros m; cbn [foldl List.filter]; [by rewrite app_nil_r|].
  rewrite IH. unfold addCompiledEdge. case_bool_decide as He.
  - rewrite He, lookup_insert_eq. cbn. by rewrite <-app_assoc.
  - by rewrite lookup_insert_ne.
Qed.
Lemma compileRows_edges v nodes edges src :
  default [] (cf_EdgesBySource (compileRows v nodes edges) !! src) =
  List.filter (λ e, FlowEdge_SourceNodeID e ==? src) edges.
Proof.
  unfold compileRows. destruct (foldl addCompiledNode _ _). cbn.
  by rewrite foldl_addCompiledEdge, lookup_empty.
Qed.
Lemma filter_filter {A} (p q : A → bool) l :
  List.filter p (List.filter q l) = List.filter (λ x, q x && p x) l.
Proof.
  induction l as [|x l IH]; cbn; [done|]. destruct (q x); cbn; [destruct (p x)|]; by rewrite IH.
Qed.
Lemma FindOutgoing_filter v nodes edges src branchID :
  FindOutgoing (compileRows v nodes edges) src branchID =
  match List.filter (leaving src branchID) edges with
  | [] => Err ErrNoMatchingEdge
  | [e] => Ok e
  | _ => Err errAmbiguousEdges
  end.
Proof.
  unfold FindOutgoing. rewrite compileRows_edges, filter_filter. unfold leaving.
  destruct (Nat.eqb_spec (length (List.filter (λ e, FlowEdge_SourceNodeID e ==? src) edges)) 0) as [Hn|]; [|done].
  apply length_zero_iff_nil in Hn. rewrite <-filter_filter, Hn. done.
Qed.
End compiled.

(** The compiled index answers like a scan of the edge rows: following an edge
    out of a node succeeds exactly when one single row of the version leaves the
    node (with the chosen branch as its handle, if a branch was chosen), and
    fails with "no matching edge" or "ambiguous edges" when there is none or
    more than one. *)
Theorem FindOutgoing_scans_rows v nodes edges src branchID :
  FindOutgoing (compileRows v nodes edges) src branchID =
  match List.filter (leaving src branchID) edges with
  | [] => Err ErrNoMatchingEdge
  | [e] => Ok e
  | _ => Err errAmbiguousEdges
  end.
Proof. apply FindOutgoing_filter. Qed.
