(* ===== verification/Tenancy.v ===== *)
(** * Tenant authority

    [approval/tenancy.go]: the tenant authority a call carries
    ([CallerContext]) and what it admits: acting on an entity of a tenant,
    acting as a person the work was routed to, scoping a list query, and choosing
    the tenant a new instance is written into.  Every rule fails closed: the zero
    context is denied everywhere. *)
From S2P Require Import Prelude Enums StateMachine Models.

Definition DefaultTenantID : string := "default".
Definition SuperAdminRole : string := "approval:super_admin".

(** [IsSuperAdmin] on the roles of a principal; [None] is the nil principal. *)
Definition IsSuperAdmin (roles : option (list string)) : bool :=
  match roles with None => false | Some rs => bool_decide (SuperAdminRole ∈ rs) end.

Record CallerContext := {
  CallerContext_TenantID : string;
  CallerContext_IsSuperAdmin : bool;
  CallerContext_IsSystemInternal : bool;
}.
Definition SystemCaller : CallerContext := Build_CallerContext "" false true.

Definition privileged (c : CallerContext) : bool :=
  CallerContext_IsSuperAdmin c || CallerContext_IsSystemInternal c.

(** [memberTenant] *)
Definition memberTenant (c : CallerContext) : string * bool :=
  (CallerContext_TenantID c, negb (CallerContext_TenantID c ==? "")).

Definition Authorize (c : CallerContext) (entityTenantID : string) : res unit :=
  if privileged c then Ok tt
  else
    let '(tenantID, ok) := memberTenant c in
    if negb ok || negb (tenantID ==? entityTenantID) then Err ErrCrossTenantAccess else Ok tt.

Definition Allows (c : CallerContext) (entityTenantID : string) : bool :=
  isOk (Authorize c entityTenantID).

Definition AllowsParticipant (c : CallerContext) (entityTenantID : string) (participant : bool) : bool :=
  if Allows c entityTenantID then true
  else let '(_, member) := memberTenant c in participant && member.

(** [TenantScopeFilter]: [None] means unfiltered access. *)
Definition TenantScopeFilter (c : CallerContext) (override : string) : res (option string) :=
  if privileged c then
    if override ==? "" then Ok None else Ok (Some override)
  else
    let '(tenantID, ok) := memberTenant c in
    if negb ok then Err ErrCrossTenantAccess else Ok (Some tenantID).

Definition ResolveWriteTenant (c : CallerContext) (requested : string) : res string :=
  if privileged c then
    if negb (requested ==? "") then Ok requested
    else
      let '(tenantID, ok) := memberTenant c in
      if ok : bool then Ok tenantID else Ok DefaultTenantID
  else
    let '(tenantID, ok) := memberTenant c in
    if negb ok then Err ErrCrossTenantAccess else Ok tenantID.

(** ** What the rules admit *)

(** The abstract policy: which tenants a caller reaches. *)
Definition reaches (c : CallerContext) (tenant : string) : Prop :=
  privileged c = true ∨ CallerContext_TenantID c = tenant ∧ tenant ≠ "".

Lemma Allows_reaches c t : Allows c t = true ↔ reaches c t.
Proof.
  unfold Allows, Authorize, memberTenant, reaches. destruct (privileged c); [naive_solver|].
  do 2 case_bool_decide; cbn; naive_solver.
Qed.

(** An ordinary caller is pinned to its own tenant: whatever it asks for, the
    tenant it reads in, the tenant it writes into and the tenants whose entities
    it may act on are the one tenant it carries; with no tenant, every one of
    these operations is refused. *)
Theorem ordinary_caller_pinned c :
  privileged c = false →
  (∀ entity, Allows c entity = true ↔
     CallerContext_TenantID c = entity ∧ CallerContext_TenantID c ≠ "") ∧
  (∀ override, TenantScopeFilter c override =
     if CallerContext_TenantID c ==? "" then Err ErrCrossTenantAccess
     else Ok (Some (CallerContext_TenantID c))) ∧
  (∀ requested, ResolveWriteTenant c requested =
     if CallerContext_TenantID c ==? "" then Err ErrCrossTenantAccess
     else Ok (CallerContext_TenantID c)) ∧
  (∀ entity participant, AllowsParticipant c entity participant = true →
     CallerContext_TenantID c ≠ "" ∧ (CallerContext_TenantID c = entity ∨ participant = true)).
Proof.
  intros Hp. split; [|split; [|split]].
  - intros e. rewrite Allows_reaches. unfold reaches. rewrite Hp. naive_solver.
  - intros o. unfold TenantScopeFilter. rewrite Hp. cbn. by case_bool_decide.
  - intros r. unfold ResolveWriteTenant. rewrite Hp. cbn. by case_bool_decide.
  - intros e p. unfold AllowsParticipant. destruct (Allows c e) eqn:Ha.
    + apply Allows_reaches in Ha as [|[? ?]]; [congruence|]. naive_solver.
    + cbn. intros [-> Hm]%andb_true_iff. apply negb_true_iff, bool_decide_eq_false in Hm. auto.
Qed.
Lemma ordinary_caller_pinned_witness :
  Allows (Build_CallerContext "acme" false false) "globex" = false ∧
  TenantScopeFilter (Build_CallerContext "acme" false false) "globex" = Ok (Some "acme").
Proof.
  destruct (ordinary_caller_pinned (Build_CallerContext "acme" false false) eq_refl) as (Ha & Hs & _).
  split; [|rewrite Hs; reflexivity].
  apply not_true_is_false. intros Ht. apply Ha in Ht as [Ht _]. discriminate Ht.
Defined.
