(* ===== verification/TaskService.v ===== *)
(** * The task service

    [internal/approval/service/task.go]: finishing a task, advancing a sequential
    queue and the add-assignee dependencies of a parallel node, cancelling tasks,
    the authorization predicates, and loading and preparing the context of a task
    operation.  Also [instance.go] (loading an instance for update, the rollback
    form data, [Transition]). *)
From S2P Require Import Prelude Enums StateMachine Models Demo Store Shared FormValidation Delegation Binding.
From S2P Require Import PassRule Processors Engine Tenancy.

Definition isCancelable (t : Task) : bool :=
  (Task_Status t ==? TaskPending) || (Task_Status t ==? TaskWaiting).

(** The zero [FlowNode] with an id: the fallback of [cancelActiveTasks]. *)
Definition bareFlowNode (id : string) : FlowNode :=
  Build_FlowNode id "" "" (NodeKindOther "") "" None (ExecutionTypeOther "")
    (ApprovalMethodOther "") (PassRuleOther "") (Build_Decimal 0 0) 0 (EmptyAssigneeActionOther "")
    [] [] (SameApplicantActionOther "") false (RollbackTypeOther "")
    (RollbackDataStrategyOther "") [] false [] false ∅ false false false 0 (TimeoutActionOther "")
    0 0 (ConsecutiveApproverActionOther "") false [].

Section task_service.
Context `{!Host}.

(** ** Finishing a task *)

Definition FinishTask (task : Task) (status : TaskStatus) : M Task :=
  let originalStatus := Task_Status task in
  throwIf (negb (CanTransition TaskStateMachine originalStatus status)) ErrInvalidTaskTransition;;
  finishedAt ← Now;
  affected ← updateTasks
    (λ t, (Task_ID t ==? Task_ID task) && (Task_Status t ==? originalStatus))
    (λ t, set_Task_FinishedAt (Some finishedAt) (set_Task_Status status t));
  throwIf (affected =? 0)%nat
    (if originalStatus ==? TaskPending then ErrTaskNotPending else ErrInvalidTaskTransition);;
  mret (set_Task_FinishedAt (Some finishedAt) (set_Task_Status status task)).

Definition PersistInstanceFormData (instance : Instance) : M unit :=
  updateInstanceCols instance [ColFormData];; mret tt.

Definition computeTaskDeadline (node : FlowNode) : M (option DateTime) :=
  ComputeTaskDeadline (FlowNode_TimeoutHours node).

(** ** The sequential queue *)

Definition shouldAutoPassSameApplicant (instance : Instance) (node : FlowNode) (task : Task)
    : bool :=
  (FlowNode_Kind node ==? NodeApproval)
  && (FlowNode_SameApplicantAction node ==? SameApplicantAutoPass)
  && (Task_AssigneeID task ==? Instance_ApplicantID instance)
  && (Task_AddAssigneeType task ==? None).

Definition appendSystemTaskActionLog (task : Task) (reason : string) : M unit :=
  let entry := NewActionLog SystemOperator (Task_InstanceID task) ActionExecute in
  addActionLog (set_ActionLog_Opinion (Some reason)
    (set_ActionLog_TaskID (Some (Task_ID task))
      (set_ActionLog_NodeID (Some (Task_NodeID task)) entry))).

(** The rows of the node with a status. *)
Definition onNode (instanceID nodeID : string) (t : Task) : bool :=
  (Task_InstanceID t ==? instanceID) && (Task_NodeID t ==? nodeID).
Definition queuedOn (instance : Instance) (node : FlowNode) (t : Task) : bool :=
  onNode (Instance_ID instance) (FlowNode_ID node) t && (Task_Status t ==? TaskWaiting).

(** [WHERE pk AND status = waiting]: promote one row; the rows affected come back. *)
Definition promoteTask (taskID : string) (deadline : option DateTime) : M nat :=
  updateTasks (λ t, (Task_ID t ==? taskID) && (Task_Status t ==? TaskWaiting))
    (λ t, set_Task_Deadline deadline (set_Task_Status TaskPending t)).

(** The loop of [ActivateNextSequentialTask]; each turn takes one task out of the
    queue, so the length of the queue bounds the turns. *)
Fixpoint activateLoop (fuel : nat) (instance : Instance) (node : FlowNode)
    (events : list DomainEvent) : M (list DomainEvent) :=
  match fuel with
  | 0 => mret events
  | S fuel' =>
      next ← gets (λ s, head (orderBy Task_SortOrder
        (tselect (queuedOn instance node) (db_tasks s))));
      match next with
      | None => mret events
      | Some nextTask =>
          if negb (CanTransition TaskStateMachine (Task_Status nextTask) TaskPending)
          then mret events
          else
            deadline ← computeTaskDeadline node;
            affected ← promoteTask (Task_ID nextTask) deadline;
            if (affected =? 0)%nat then mret events
            else
              let nextTask := set_Task_Status TaskPending (set_Task_Deadline deadline nextTask) in
              if shouldAutoPassSameApplicant instance node nextTask then
                nextTask ← FinishTask nextTask TaskApproved;
                appendSystemTaskActionLog nextTask AutoPassReasonSameApplicant;;
                activateLoop fuel' instance node
                  (events ++ [NewTaskApprovedEvent instance nextTask node SystemOperator
                                AutoPassReasonSameApplicant])
              else
                mret (events ++ [NewTaskActivatedEvent instance nextTask node
                                   TaskActivationQueueAdvanced])
      end
  end.
Definition queueLength (instance : Instance) (node : FlowNode) (s : St) : nat :=
  tcount (queuedOn instance node) (db_tasks s).
Definition ActivateNextSequentialTask (instance : Instance) (node : FlowNode)
    : M (list DomainEvent) :=
  pendingExists ← gets (λ s, texists (λ t,
    onNode (Instance_ID instance) (FlowNode_ID node) t && (Task_Status t ==? TaskPending))
    (db_tasks s));
  if pendingExists : bool then mret []
  else
    fuel ← gets (queueLength instance node);
    activateLoop (S fuel) instance node [].

Definition isTaskActivated (evt : DomainEvent) : bool :=
  match evt with TaskActivatedEvent _ _ _ _ => true | _ => false end.
(** [SplitQueueAdvanceDecisions]: the decisions and the activations. *)
Definition SplitQueueAdvanceDecisions (events : list DomainEvent)
    : list DomainEvent * list DomainEvent :=
  (List.filter (λ e, negb (isTaskActivated e)) events, List.filter isTaskActivated events).

Definition canceledTaskIDs (events : list DomainEvent) : list string :=
  flat_map (λ e, match e with
                 | TaskCanceledEvent b _ _ => [TaskEventBase_TaskID b]
                 | _ => []
                 end) events.
Definition SuppressSupersededActivations (activations completions : list DomainEvent)
    : list DomainEvent :=
  if (length activations =? 0)%nat || (length completions =? 0)%nat then activations
  else
    let canceled := canceledTaskIDs completions in
    if (length canceled =? 0)%nat then activations
    else List.filter (λ e, match e with
                           | TaskActivatedEvent b _ _ _ =>
                               negb (bool_decide (TaskEventBase_TaskID b ∈ canceled))
                           | _ => true
                           end) activations.

(** ** Add-assignee dependencies of a parallel node *)

Definition isChildOf (parentTaskID : string) (kind : AddAssigneeType) (t : Task) : bool :=
  (Task_ParentTaskID t ==? Some parentTaskID) && (Task_AddAssigneeType t ==? Some kind).

Definition reactivateBeforeParent (instance : Instance) (node : FlowNode) (parentTaskID : string)
    : M (list DomainEvent) :=
  activeBeforeChildren ← gets (λ s, tcount (λ t,
    isChildOf parentTaskID AddAssigneeBefore t && isCancelable t) (db_tasks s));
  if (0 <? activeBeforeChildren)%nat then mret []
  else
    deadline ← computeTaskDeadline node;
    affected ← promoteTask parentTaskID deadline;
    if (affected =? 0)%nat then mret []
    else
      parent ← orThrow ErrRecordNotFound (findTask parentTaskID);
      mret [NewTaskActivatedEvent instance parent node TaskActivationQueueAdvanced].

Definition activateAfterChildren (instance : Instance) (node : FlowNode) (parentTaskID : string)
    : M (list DomainEvent) :=
  children ← gets (λ s, tselect (λ t,
    isChildOf parentTaskID AddAssigneeAfter t && (Task_Status t ==? TaskWaiting)) (db_tasks s));
  if (length children =? 0)%nat then mret []
  else
    deadline ← computeTaskDeadline node;
    foldM (λ events child,
      affected ← promoteTask (Task_ID child) deadline;
      if (affected =? 0)%nat then mret events
      else
        let child := set_Task_Deadline deadline (set_Task_Status TaskPending child) in
        mret (events ++ [NewTaskActivatedEvent instance child node TaskActivationQueueAdvanced]))
      [] children.

Definition activateParallelDependents (instance : Instance) (node : FlowNode) (finishedTask : Task)
    : M (list DomainEvent) :=
  parentEvents ← match Task_ParentTaskID finishedTask with
    | Some parentTaskID =>
        if Task_AddAssigneeType finishedTask ==? Some AddAssigneeBefore
        then reactivateBeforeParent instance node parentTaskID
        else mret []
    | None => mret []
    end;
  childEvents ← activateAfterChildren instance node (Task_ID finishedTask);
  mret (parentEvents ++ childEvents).

Definition ActivateDependentTasks (instance : Instance) (node : FlowNode) (finishedTask : Task)
    : M (list DomainEvent) :=
  if FlowNode_ApprovalMethod node ==? ApprovalSequential
  then ActivateNextSequentialTask instance node
  else activateParallelDependents instance node finishedTask.

Definition RepointAddAssigneeChildren (fromParentID toParentID instanceID : string) : M unit :=
  updateTasks (λ t, (Task_InstanceID t ==? instanceID)
                    && (Task_ParentTaskID t ==? Some fromParentID) && isCancelable t)
    (set_Task_ParentTaskID (Some toParentID));;
  mret tt.

(** ** Cancelling tasks *)

(** [loadNodesByID], looked up at one id. *)
Definition nodeForEvent (s : St) (nodeID : string) : FlowNode :=
  default (bareFlowNode nodeID) (tfirst (λ n, FlowNode_ID n ==? nodeID) (db_nodes s)).

Definition cancelActiveTasks (instance : Instance) (reason : string) (filter : Task → bool)
    : M (list DomainEvent) :=
  tasks ← gets (λ s, tselect filter (db_tasks s));
  if (length tasks =? 0)%nat then mret []
  else
    let taskIDs := Task_ID <$> tasks in
    now ← Now;
    updateTasks (λ t, bool_decide (Task_ID t ∈ taskIDs) && isCancelable t)
      (λ t, set_Task_FinishedAt (Some now) (set_Task_Status TaskCanceled t));;
    gets (λ s, map (λ t, NewTaskCanceledEvent instance t (nodeForEvent s (Task_NodeID t)) reason)
                   tasks).
Definition CancelRemainingTasks (instance : Instance) (node : FlowNode) (reason : string)
    : M (list DomainEvent) :=
  cancelActiveTasks instance reason
    (λ t, onNode (Instance_ID instance) (FlowNode_ID node) t && isCancelable t).
Definition CancelInstanceTasks (instance : Instance) (reason : string) : M (list DomainEvent) :=
  cancelActiveTasks instance reason
    (λ t, (Task_InstanceID t ==? Instance_ID instance) && isCancelable t).

(** ** Who may do what *)

Definition IsAuthorizedForNodeOperation (instanceID nodeID operatorID : string) : M bool :=
  peerCount ← gets (λ s, tcount (λ t,
    onNode instanceID nodeID t && (Task_AssigneeID t ==? operatorID) && isCancelable t)
    (db_tasks s));
  if (0 <? peerCount)%nat then mret true
  else
    instance ← findInstance instanceID;
    match instance with
    | None => mret false
    | Some instance =>
        flow ← findFlow (Instance_FlowID instance);
        mret (match flow with
              | None => false
              | Some flow => bool_decide (operatorID ∈ Flow_AdminUserIDs flow)
              end)
    end.

Definition isDecisionParticipant (instanceID userID : string) : M bool :=
  instance ← orThrow ErrInstanceNotFound (findInstance instanceID);
  if Instance_ApplicantID instance ==? userID then mret true
  else
    gets (λ s, texists (λ t, (Task_InstanceID t ==? instanceID)
      && ((Task_AssigneeID t ==? userID) || (Task_DelegatorID t ==? Some userID))) (db_tasks s)).

Definition hasCCFor (instanceID userID : string) (s : St) : bool :=
  texists (λ r, (CCRecord_InstanceID r ==? instanceID) && (CCRecord_CCUserID r ==? userID))
    (db_cc_records s).
Definition isRoutedTo (instanceID userID : string) : M bool :=
  hasTask ← gets (λ s, texists (λ t, (Task_InstanceID t ==? instanceID)
    && (Task_AssigneeID t ==? userID)) (db_tasks s));
  if hasTask : bool then mret true else gets (hasCCFor instanceID userID).

Definition AllowsInstanceAccess (caller : CallerContext) (instanceID instanceTenantID userID : string)
    : M bool :=
  if Allows caller instanceTenantID then mret true
  else if userID ==? "" then mret false
  else
    routed ← isRoutedTo instanceID userID;
    mret (AllowsParticipant caller instanceTenantID routed).

Definition IsUrgeAuthorized (instanceID userID : string) : M bool :=
  isDecisionParticipant instanceID userID.
Definition IsInstanceParticipant (instanceID userID : string) : M bool :=
  ok ← isDecisionParticipant instanceID userID;
  if ok : bool then mret true else gets (hasCCFor instanceID userID).

(** The tasks of the visit with the candidate marked removed. *)
Definition simulateRemoval (task : Task) (tasks : list Task) : list Task :=
  map (λ t, if Task_ID t ==? Task_ID task then set_Task_Status TaskRemoved t else t) tasks.
Definition CanRemoveAssigneeTask (node : FlowNode) (task : Task) : M bool :=
  tasks ← gets (λ s, tselect (λ t, Task_VisitID t ==? Task_VisitID task) (db_tasks s));
  let hasOtherActionable :=
    existsb (λ t, negb (Task_ID t ==? Task_ID task) && isCancelable t) tasks in
  if hasOtherActionable then mret true
  else
    evalResult ← liftR (evaluatePassRule node (simulateRemoval task tasks));
    mret (negb (evalResult ==? PassRulePending)).
End task_service.

(** ** Loading and preparing an operation *)

Record TaskContext := {
  tc_Instance : Instance;
  tc_Task : Task;
  tc_Node : FlowNode;
  tc_FormFields : list FormFieldDefinition;
}.
Record TaskContextLoadOptions := {
  opt_OperatorID : string;
  opt_RequireOperatorAssignee : bool;
  opt_RequireTaskPending : bool;
  opt_RequireCurrentNode : bool;
  opt_Caller : CallerContext;
}.

Section operations.
Context `{!Host}.

(** [loadContext] *)
Definition LoadTaskContextForNodeOperation (taskID : string) (options : TaskContextLoadOptions)
    : M TaskContext :=
  task ← orThrow ErrTaskNotFound (findTask taskID);
  instance ← orThrow ErrInstanceNotFound (findInstance (Task_InstanceID task));
  allowed ← AllowsInstanceAccess (opt_Caller options) (Instance_ID instance)
    (Instance_TenantID instance) (opt_OperatorID options);
  throwIf (negb allowed) ErrTaskNotFound;;
  task ← orThrow ErrTaskNotFound (findTask taskID);
  throwIf (negb (Instance_Status instance ==? InstanceRunning)) ErrInstanceCompleted;;
  throwIf (opt_RequireOperatorAssignee options
           && negb (Task_AssigneeID task ==? opt_OperatorID options)) ErrNotAssignee;;
  throwIf (opt_RequireTaskPending options && negb (Task_Status task ==? TaskPending))
    ErrTaskNotPending;;
  throwIf (opt_RequireCurrentNode options
           && negb (Instance_CurrentNodeID instance ==? Some (Task_NodeID task)))
    ErrTaskNotPending;;
  node ← orThrow ErrRecordNotFound (findNode (Task_NodeID task));
  mret (Build_TaskContext instance task node []).

Definition PrepareOperation (taskID : string) (operator : UserInfo) (caller : CallerContext)
    (formData : option (gmap string Value)) : M TaskContext :=
  tc ← LoadTaskContextForNodeOperation taskID
    (Build_TaskContextLoadOptions (UserInfo_ID operator) true true true caller);
  let permissions := FlowNode_FieldPermissions (tc_Node tc) in
  fields ← (if (0 <? size permissions)%nat then
              version ← orThrow ErrRecordNotFound
                (findVersion (Instance_FlowVersionID (tc_Instance tc)));
              mret (FlowVersion_FormFields version)
            else mret []);
  liftR (validateEditableFormData fields formData permissions);;
  liftR (validateCodeSetValues fields (FilterEditableFormData formData permissions));;
  beforeSize ← liftR (encodedFormDataSize (Instance_FormData (tc_Instance tc)));
  let instance := MergeFormData (tc_Instance tc) formData permissions in
  afterSize ← liftR (encodedFormDataSize (Instance_FormData instance));
  throwIf ((formDataMaxBytes <? afterSize)%Z && (beforeSize <? afterSize)%Z) ErrFormDataTooLarge;;
  mret (Build_TaskContext instance (tc_Task tc) (tc_Node tc) fields).

(** [ActionLogParams] and [BuildActionLog] *)
Definition BuildActionLog (instanceID : string) (task : Task) (operator : UserInfo)
    (action : ActionType) (opinion : string) (transferTo : option UserInfo)
    (rollbackToNodeID : string) (attachments : list string) : ActionLog :=
  let l := NewActionLog operator instanceID action in
  let l := set_ActionLog_TaskID (Some (Task_ID task))
             (set_ActionLog_NodeID (Some (Task_NodeID task)) l) in
  let l := if opinion ==? "" then l else set_ActionLog_Opinion (Some opinion) l in
  let l := match transferTo with Some u => set_ActionLog_TransferTo u l | None => l end in
  let l := if rollbackToNodeID ==? "" then l
           else set_ActionLog_RollbackToNodeID (Some rollbackToNodeID) l in
  match attachments with [] => l | _ => set_ActionLog_Attachments attachments l end.

(** ** [service/instance.go] *)

Definition LoadForUpdateAs (instanceID : string) (caller : CallerContext) (userID : string)
    : M Instance :=
  instance ← orThrow ErrInstanceNotFound (findInstance instanceID);
  allowed ← AllowsInstanceAccess caller (Instance_ID instance) (Instance_TenantID instance) userID;
  throwIf (negb allowed) ErrInstanceNotFound;;
  mret instance.
Definition LoadForUpdate (instanceID : string) (caller : CallerContext) : M Instance :=
  LoadForUpdateAs instanceID caller "".

(** [ApplyRollbackFormData]: the instance with its form data resolved. *)
Definition ApplyRollbackFormData (instance : Instance) (targetNodeID : string)
    (strategy : RollbackDataStrategy) : M Instance :=
  match strategy with
  | RollbackDataKeep =>
      snapshot ← gets (λ s, head (orderBy (λ f, - FormSnapshot_CreatedAt f)%Z (tselect (λ f,
        (FormSnapshot_InstanceID f ==? Instance_ID instance)
        && (FormSnapshot_NodeID f ==? targetNodeID)) (db_snapshots s))));
      match snapshot with
      | Some f =>
          match FormSnapshot_FormData f with
          | Some data => mret (set_Instance_FormData (Some data) instance)
          | None => mret instance
          end
      | None => mret instance
      end
  | RollbackDataClear => mret (set_Instance_FormData None instance)
  | RollbackDataStrategyOther _ => mret instance
  end.

(** [Transition] *)
Definition Transition (instance : Instance) (to : InstanceStatus) (extraCols : list Col)
    : M Instance :=
  mapErr (λ e, if e ==? ErrInvalidTransition then ErrInvalidInstanceTransition else e)
    (ApplyInstanceTransitionWithHooks instance to extraCols).

End operations.
