(* ===== verification/Queue.v ===== *)
(** * The sequential queue and the dependencies of added assignees

    What [ActivateNextSequentialTask], [reactivateBeforeParent] and the
    cancellations of [service/task.go] guarantee: the queue never stalls, never
    has two tasks pending and is served in order; the loop ends on its own. *)
From S2P Require Import Prelude Enums StateMachine Models Demo Store Shared FormValidation Conditions Binding.
From S2P Require Import Delegation PassRule Processors Engine Tenancy TaskService.

(** ** One row of a table *)
Section one_row.
Context {Row : Type}.
Implicit Types (p q : Row → bool) (f : Row → Row) (t : list Row).

Lemma elem_of_tupdate_one p f t r0 r :
  r0 ∈ t → (∀ x, x ∈ t → p x = true ↔ x = r0) →
  r ∈ tupdate p f t ↔ r = f r0 ∨ r ∈ t ∧ r ≠ r0.
Proof.
  intros Hin Hp. rewrite elem_of_tupdate. split.
  - intros (x & Hx & ->). destruct (p x) eqn:He; [left; by rewrite (proj1 (Hp x Hx) He)|].
    right. split; [done|]. intros ->. apply not_true_iff_false in He. apply He. by apply Hp.
  - intros [->|[Hr Hne]]; [exists r0; by rewrite (proj2 (Hp r0 Hin) eq_refl)|].
    exists r. split; [done|]. destruct (p r) eqn:He; [|done]. by apply Hp in He.
Qed.
Lemma tcount_tupdate_le p q f t :
  (∀ r, p r = true → q (f r) = false) → tcount q (tupdate p f t) ≤ tcount q t.
Proof.
  intros Hq. unfold tcount, tselect, tupdate. induction t as [|x t IH]; cbn; [done|].
  destruct (p x) eqn:Hp; [rewrite (Hq x Hp)|]; destruct (q x); cbn; lia.
Qed.
Lemma tcount_tupdate_lt p q f t r :
  (∀ r, p r = true → q (f r) = false) → r ∈ t → p r = true → q r = true →
  tcount q (tupdate p f t) < tcount q t.
Proof.
  intros Hq Hr Hp Hqr. pose proof (tcount_tupdate_le p q f) as Hle.
  unfold tcount, tselect, tupdate in *. induction Hr as [x t|x y t Hr IH]; cbn.
  - rewrite Hp, (Hq _ Hp), Hqr. cbn. specialize (Hle t Hq). lia.
  - specialize (IH Hp Hqr). destruct (p y) eqn:Hy; [rewrite (Hq y Hy)|]; destruct (q y); cbn; lia.
Qed.
Lemma tcount_pos p t r : r ∈ t → p r = true → tcount p t ≠ 0.
Proof. intros Hr Hp Hz. rewrite tcount_0 in Hz. by rewrite (Hz r Hr) in Hp. Qed.
Lemma tcount_witness p t : tcount p t ≠ 0 → ∃ r, r ∈ t ∧ p r = true.
Proof.
  unfold tcount. destruct (tselect p t) as [|r l] eqn:Hs; [done|]. intros _. exists r.
  assert (r ∈ tselect p t) as Hr by (rewrite Hs; apply list_elem_of_here).
  apply elem_of_tselect in Hr. tauto.
Qed.
End one_row.

Section queue.
Context `{!Host} (instance : Instance) (node : FlowNode).

Definition pendingOn (t : Task) : bool :=
  onNode (Instance_ID instance) (FlowNode_ID node) t && (Task_Status t ==? TaskPending).
Notation waitingOn := (queuedOn instance node).

Lemma pendingOn_true t :
  pendingOn t = true ↔ onNode (Instance_ID instance) (FlowNode_ID node) t = true ∧ Task_Status t = TaskPending.
Proof. unfold pendingOn. by rewrite andb_true_iff, bool_decide_eq_true. Qed.
Lemma queuedOn_true t :
  waitingOn t = true ↔ onNode (Instance_ID instance) (FlowNode_ID node) t = true ∧ Task_Status t = TaskWaiting.
Proof. unfold queuedOn. by rewrite andb_true_iff, bool_decide_eq_true. Qed.

(** The rows keep their ids, so a row is known by its id. *)
Definition uniqueTasks (s : St) : Prop := NoDup (Task_ID <$> db_tasks s).
Lemma uniqueTasks_id s a b :
  uniqueTasks s → a ∈ db_tasks s → b ∈ db_tasks s → Task_ID a = Task_ID b → a = b.
Proof.
  intros Hu Ha Hb Heq. apply list_elem_of_lookup in Ha as [i Hi], Hb as [j Hj].
  assert (i = j) as ->; [|congruence].
  apply (NoDup_lookup (Task_ID <$> db_tasks s) i j (Task_ID a)); [done|..]; rewrite list_lookup_fmap.
  - by rewrite Hi.
  - rewrite Hj. cbn. by rewrite Heq.
Qed.
Lemma uniqueTasks_update s p f :
  uniqueTasks s → (∀ t, Task_ID (f t) = Task_ID t) → NoDup (Task_ID <$> tupdate p f (db_tasks s)).
Proof. intros Hu Hf. rewrite fmap_ids_tupdate; [done|]. by intros. Qed.

(** The compare-and-set on one row touches exactly that row. *)
Lemma casRow s t st f r :
  uniqueTasks s → t ∈ db_tasks s → Task_Status t = st →
  r ∈ tupdate (λ x, (Task_ID x ==? Task_ID t) && (Task_Status x ==? st)) f (db_tasks s) ↔
  r = f t ∨ r ∈ db_tasks s ∧ r ≠ t.
Proof.
  intros Hu Ht Hst. apply elem_of_tupdate_one; [done|]. intros x Hx.
  rewrite andb_true_iff, !bool_decide_eq_true. split; [|by intros ->].
  intros [Hid _]. by eapply uniqueTasks_id.
Qed.

Lemma promote_run s t d :
  uniqueTasks s → t ∈ db_tasks s → Task_Status t = TaskWaiting →
  ∃ k s1, promoteTask (Task_ID t) d s = Ok (k, s1) ∧ k ≠ 0 ∧ uniqueTasks s1 ∧
    (∀ r, r ∈ db_tasks s1 ↔ r = set_Task_Deadline d (set_Task_Status TaskPending t) ∨ r ∈ db_tasks s ∧ r ≠ t) ∧
    (waitingOn t = true → queueLength instance node s1 < queueLength instance node s).
Proof.
  intros Hu Ht Hst. unfold promoteTask, updateTasks. do 2 eexists. split; [reflexivity|].
  assert (((Task_ID t ==? Task_ID t) && (Task_Status t ==? TaskWaiting)) = true) as Hp.
  { by rewrite andb_true_iff, !bool_decide_eq_true. }
  split; [by eapply tcount_pos|].
  assert (∀ T, db_tasks (upd_tasks T s) = T (db_tasks s)) as Hdb by (by destruct s).
  unfold uniqueTasks, queueLength. rewrite Hdb. split; [|split].
  - apply uniqueTasks_update; [done|]. by intros [].
  - intros r. by rewrite casRow.
  - intros Hq. eapply tcount_tupdate_lt; [|done..]. intros r _. apply not_true_iff_false.
    rewrite queuedOn_true. destruct r. cbn. naive_solver.
Qed.

Lemma finish_run s t :
  uniqueTasks s → t ∈ db_tasks s → Task_Status t = TaskPending →
  ∃ now s1, let t' := set_Task_FinishedAt (Some now) (set_Task_Status TaskApproved t) in
    FinishTask t TaskApproved s = Ok (t', s1) ∧ uniqueTasks s1 ∧
    queueLength instance node s1 ≤ queueLength instance node s ∧
    ∀ r, r ∈ db_tasks s1 ↔ r = t' ∨ r ∈ db_tasks s ∧ r ≠ t.
Proof.
  intros Hu Ht Hst. exists (clock_reading (db_clock s)).
  set (f := λ x : Task, set_Task_FinishedAt (Some (clock_reading (db_clock s))) (set_Task_Status TaskApproved x)).
  set (p := λ x : Task, (Task_ID x ==? Task_ID t) && (Task_Status x ==? TaskPending)).
  assert (p t = true) as Hp by (unfold p; by rewrite andb_true_iff, !bool_decide_eq_true).
  exists (upd_tasks (tupdate p f) (set_clock (S (db_clock s)) s)).
  assert (tcount p (db_tasks s) ≠ 0) as Hk by (by eapply tcount_pos).
  assert (db_tasks (upd_tasks (tupdate p f) (set_clock (S (db_clock s)) s)) = tupdate p f (db_tasks s)) as Hdb
    by (by destruct s).
  split; [|split; [|split]].
  - unfold FinishTask. rewrite Hst.
    change (negb (CanTransition TaskStateMachine TaskPending TaskApproved)) with false.
    cbv beta iota zeta delta [throwIf mbind SE_bind andThen Now updateTasks mret SE_ret].
    assert (db_tasks (set_clock (S (db_clock s)) s) = db_tasks s) as -> by (by destruct s).
    fold p. by rewrite (proj2 (Nat.eqb_neq _ _) Hk).
  - unfold uniqueTasks. rewrite Hdb. apply uniqueTasks_update; [done|]. by intros [].
  - unfold queueLength. rewrite Hdb. apply tcount_tupdate_le. intros r _. apply not_true_iff_false.
    rewrite queuedOn_true. unfold f. destruct r. cbn. naive_solver.
  - intros r. rewrite Hdb. unfold p. by rewrite casRow.
Qed.

(** Nobody is being asked. *)
Definition idle (s : St) : Prop := ∀ t, t ∈ db_tasks s → pendingOn t = false.
(** Exactly one person is being asked, and nobody waiting comes before them. *)
Definition asking (s : St) : Prop := ∃ t, t ∈ db_tasks s ∧ pendingOn t = true ∧
  (∀ t', t' ∈ db_tasks s → pendingOn t' = true → t' = t) ∧
  (∀ t', t' ∈ db_tasks s → waitingOn t' = true → (Task_SortOrder t ≤ Task_SortOrder t')%Z).
Definition queueEmpty (s : St) : Prop := ∀ t, t ∈ db_tasks s → waitingOn t = false.

Lemma addActionLog_run l s : ∃ s1, addActionLog l s = Ok (tt, s1) ∧ db_tasks s1 = db_tasks s.
Proof. destruct s. eexists. split; [reflexivity|]. cbn. by case_match. Qed.
Lemma pendingOn_promote d t : waitingOn t = true → pendingOn (set_Task_Deadline d (set_Task_Status TaskPending t)) = true.
Proof. rewrite queuedOn_true, pendingOn_true. destruct t. cbn. naive_solver. Qed.
Lemma pendingOn_approved now t : pendingOn (set_Task_FinishedAt now (set_Task_Status TaskApproved t)) = false.
Proof. apply not_true_iff_false. rewrite pendingOn_true. destruct t. cbn. naive_solver. Qed.

Lemma activateLoop_run fuel evs s :
  uniqueTasks s → idle s → queueLength instance node s < fuel →
  ∃ evs' s', activateLoop fuel instance node evs s = Ok (evs', s') ∧
    (idle s' ∧ queueEmpty s' ∨ asking s').
Proof.
  revert evs s. induction fuel as [|fuel IH]; intros evs s Hu Hidle Hfuel; [lia|]. cbn [activateLoop].
  unfold mbind, SE_bind, gets.
  destruct (head (orderBy Task_SortOrder (tselect waitingOn (db_tasks s)))) as [t|] eqn:Hhead.
  2:{ apply orderBy_head_None in Hhead. rewrite tselect_nil in Hhead. do 2 eexists. split; [done|]. left. by split. }
  apply orderBy_head in Hhead as [Ht Hmin]. apply elem_of_tselect in Ht as [Hq Ht].
  pose proof (proj1 (queuedOn_true t) Hq) as [Hon Hst]. rewrite Hst.
  change (negb (CanTransition TaskStateMachine TaskWaiting TaskPending)) with false. cbv beta iota.
  destruct (ComputeTaskDeadline_total (FlowNode_TimeoutHours node) s) as (d & s1 & Hd & Ht1 & _).
  unfold computeTaskDeadline. rewrite Hd.
  destruct (promote_run s1 t d) as (k & s2 & Hp & Hk & Hu2 & Hrows & Hlen); [unfold uniqueTasks; by rewrite Ht1|by rewrite Ht1|done|].
  unfold queueLength in Hlen, Hfuel. rewrite Ht1 in Hrows, Hlen. rewrite Hp, (proj2 (Nat.eqb_neq _ _) Hk).
  replace (set_Task_Status TaskPending (set_Task_Deadline d t))
    with (set_Task_Deadline d (set_Task_Status TaskPending t)) by (by destruct t).
  set (t1 := set_Task_Deadline d (set_Task_Status TaskPending t)) in *.
  assert (t1 ∈ db_tasks s2) as Hin1 by (apply Hrows; by left).
  destruct (shouldAutoPassSameApplicant instance node t1).
  - destruct (finish_run s2 t1 Hu2 Hin1) as (now & s3 & Hf & Hu3 & Hlen3 & Hrows3); [by destruct t|].
    cbv zeta in Hf, Hrows3. rewrite Hf. unfold appendSystemTaskActionLog, andThen, mbind, SE_bind.
    edestruct (addActionLog_run) as (s4 & Hlog & Ht4). rewrite Hlog.
    apply IH.
    + unfold uniqueTasks. by rewrite Ht4.
    + intros r. rewrite Ht4, Hrows3, Hrows. intros [->|[[->|[Hr _]] Hne]]; [apply pendingOn_approved|done|by apply Hidle].
    + unfold queueLength in *. rewrite Ht4. specialize (Hlen Hq). lia.
  - do 2 eexists. split; [done|]. right. exists t1. split; [done|].
    split; [by apply pendingOn_promote|]. split.
    + intros r. rewrite Hrows. intros [->|[Hr _]] Hpd; [done|]. by rewrite (Hidle r Hr) in Hpd.
    + intros r. rewrite Hrows. intros [->|[Hr _]] Hw.
      * done.
      * replace (Task_SortOrder t1) with (Task_SortOrder t) by (by destruct t).
        apply Hmin. by apply elem_of_tselect.
Qed.
End queue.

(** C8. A sequential node never stalls and never asks two people: from any store
    with distinct task ids, [ActivateNextSequentialTask] returns (the auto-pass
    loop ends by itself); if somebody was being asked already nothing changes,
    and otherwise either exactly one task is pending afterwards and no waiting
    task precedes it, or none is pending and the queue is empty. *)
Theorem sequential_queue_advances `{!Host} instance node s :
  uniqueTasks s →
  ∃ events s', ActivateNextSequentialTask instance node s = Ok (events, s') ∧
    (idle instance node s ∧
       (idle instance node s' ∧ queueEmpty instance node s' ∨ asking instance node s') ∨
     (∃ t, t ∈ db_tasks s ∧ pendingOn instance node t = true) ∧ s' = s ∧ events = []).
Proof.
  intros Hu. unfold ActivateNextSequentialTask, mbind, SE_bind, gets.
  destruct (texists _ (db_tasks s)) eqn:Hex.
  - do 2 eexists. split; [reflexivity|]. right. split; [|done]. by apply texists_true in Hex.
  - assert (idle instance node s) as Hidle by (rewrite texists_false in Hex; exact Hex).
    destruct (activateLoop_run instance node (S (queueLength instance node s)) [] s Hu Hidle)
      as (evs & s' & Hrun & Hcase); [lia|].
    exists evs, s'. split; [done|]. by left.
Qed.
Definition demoQueue : St :=
  set_tasks [demoTask "t1" "bob" TaskApproved; demoTask "t2" "alice" TaskWaiting; demoTask "t3" "carol" TaskWaiting]
    (demoStore ApprovalSequential PassAll []).
Definition demoStep : FlowNode :=
  set_FlowNode_SameApplicantAction SameApplicantAutoPass (demoNode "n" NodeApproval ApprovalSequential PassAll 0 0).
(** alice, the applicant, is passed over and carol is asked. *)
Lemma sequential_queue_advances_witness :
  ∃ events s', @ActivateNextSequentialTask demoHost (demoInstance 1) demoStep demoQueue = Ok (events, s') ∧
    map Task_Status (db_tasks s') = [TaskApproved; TaskApproved; TaskPending] ∧
    asking (demoInstance 1) demoStep s'.
Proof.
  destruct (@sequential_queue_advances demoHost (demoInstance 1) demoStep demoQueue) as (events & s' & Hrun & Hcase).
  { apply (bool_decide_unpack _). vm_compute. exact I. }
  assert (map Task_Status (db_tasks s') = [TaskApproved; TaskApproved; TaskPending]) as Hst.
  { vm_compute in Hrun. injection Hrun as _ <-. reflexivity. }
  exists events, s'. split; [exact Hrun|]. split; [exact Hst|].
  destruct Hcase as [[_ [[Hidle _]|Hask]]|[(t & Ht & Hp) _]]; [|exact Hask|].
  - exfalso. vm_compute in Hrun. injection Hrun as _ <-.
    specialize (Hidle _ (list_elem_of_further _ _ _ (list_elem_of_further _ _ _ (list_elem_of_here _ _)))).
    vm_compute in Hidle. discriminate Hidle.
  - exfalso. cbn in Ht. rewrite !elem_of_cons in Ht.
    destruct Ht as [->|[->|[->|Ht%elem_of_nil]]]; [vm_compute in Hp; discriminate Hp..|done].
Defined.

(** ** Added in front of somebody *)
Section before.
Context `{!Host}.

Definition openBeforeChild (parentID : string) (t : Task) : bool :=
  isChildOf parentID AddAssigneeBefore t && isCancelable t.

Lemma promote_idle s parent d :
  uniqueTasks s → parent ∈ db_tasks s → Task_Status parent ≠ TaskWaiting →
  ∃ s1, promoteTask (Task_ID parent) d s = Ok (0, s1) ∧ db_tasks s1 = db_tasks s.
Proof.
  intros Hu Hp Hst.
  assert (∀ t, t ∈ db_tasks s → (Task_ID t ==? Task_ID parent) && (Task_Status t ==? TaskWaiting) = false) as Hno.
  { intros t Ht. apply not_true_iff_false. rewrite andb_true_iff, !bool_decide_eq_true.
    intros [Hid ?]. by rewrite (uniqueTasks_id s t parent) in *. }
  unfold promoteTask, updateTasks. rewrite (proj2 (tcount_0 _ _) Hno). eexists. split; [done|].
  destruct s. cbn in *. by apply tupdate_none.
Qed.
End before.

(** A task that stepped aside for colleagues added before it resumes exactly
    when the last of them is done: [reactivateBeforeParent] returns; if none of
    them is still open and the task waits, it becomes pending with a fresh
    deadline, its activation is announced and no other task changes; otherwise no
    task changes and nothing is announced. *)
Theorem before_parent_resumes `{!Host} instance node parent s :
  uniqueTasks s → parent ∈ db_tasks s →
  ∃ events s', reactivateBeforeParent instance node (Task_ID parent) s = Ok (events, s') ∧
    if negb (texists (openBeforeChild (Task_ID parent)) (db_tasks s)) && (Task_Status parent ==? TaskWaiting)
    then ∃ d, let resumed := set_Task_Deadline d (set_Task_Status TaskPending parent) in
           (∀ t, t ∈ db_tasks s' ↔ t = resumed ∨ t ∈ db_tasks s ∧ t ≠ parent) ∧
           events = [NewTaskActivatedEvent instance resumed node TaskActivationQueueAdvanced]
    else db_tasks s' = db_tasks s ∧ events = [].
Proof.
  intros Hu Hp. unfold reactivateBeforeParent. unfold mbind at 1, SE_bind at 1, gets.
  change (λ t, isChildOf (Task_ID parent) AddAssigneeBefore t && isCancelable t)
    with (openBeforeChild (Task_ID parent)).
  destruct (texists _ _) eqn:Hex; cbn [negb andb].
  { apply texists_true in Hex as (t & Ht & Ho). do 2 eexists.
    rewrite (proj2 (Nat.ltb_lt _ _)); [by split|]. pose proof (tcount_pos _ _ _ Ht Ho). lia. }
  rewrite texists_false in Hex. rewrite (proj2 (tcount_0 _ _) Hex). cbn [Nat.ltb Nat.leb].
  destruct (ComputeTaskDeadline_total (FlowNode_TimeoutHours node) s) as (d & s1 & Hd & Ht1 & _).
  assert (uniqueTasks s1) as Hu1 by (unfold uniqueTasks; by rewrite Ht1).
  assert (parent ∈ db_tasks s1) as Hp1 by (by rewrite Ht1).
  unfold computeTaskDeadline, mbind, SE_bind. rewrite Hd. case_bool_decide as Hst.
  - destruct (promote_run instance node s1 parent d Hu1 Hp1 Hst) as (k & s2 & Hrun & Hk & Hu2 & Hrows & _).
    rewrite Ht1 in Hrows. rewrite Hrun, (proj2 (Nat.eqb_neq _ _) Hk).
    set (resumed := set_Task_Deadline d (set_Task_Status TaskPending parent)) in *.
    assert (resumed ∈ db_tasks s2) as Hin by (apply Hrows; by left).
    assert (Task_ID resumed = Task_ID parent) as Hid by (by destruct parent).
    assert (tfirst (λ t, Task_ID t ==? Task_ID parent) (db_tasks s2) = Some resumed) as Hfind.
    { destruct (tfirst _ _) as [r|] eqn:Hf.
      - apply tfirst_Some in Hf as [Hr Hrid%bool_decide_eq_true]. f_equal.
        eapply uniqueTasks_id; [exact Hu2|done..|congruence].
      - rewrite tfirst_None in Hf. specialize (Hf resumed Hin). by rewrite bool_decide_eq_false in Hf. }
    unfold orThrow, findTask, gets, mbind, SE_bind. rewrite Hfind.
    do 2 eexists. split; [reflexivity|]. by exists d.
  - destruct (promote_idle s1 parent d Hu1 Hp1 Hst) as (s2 & Hrun & Ht2). rewrite Hrun.
    do 2 eexists. split; [reflexivity|]. by rewrite Ht2, Ht1.
Qed.
Definition demoBefore : St :=
  set_tasks [demoTask "t1" "bob" TaskWaiting;
             set_Task_AddAssigneeType (Some AddAssigneeBefore)
               (set_Task_ParentTaskID (Some "t1") (demoTask "t2" "carol" TaskApproved))]
    (demoStore ApprovalParallel PassAll []).
Lemma before_parent_resumes_witness :
  ∃ events s', @reactivateBeforeParent demoHost (demoInstance 1) demoStep "t1" demoBefore = Ok (events, s') ∧
    ∀ t, t ∈ db_tasks s' → Task_ID t = "t1" → Task_Status t = TaskPending.
Proof.
  destruct (@before_parent_resumes demoHost (demoInstance 1) demoStep (demoTask "t1" "bob" TaskWaiting) demoBefore)
    as (events & s' & Hrun & d & Hrows & _).
  - apply (bool_decide_unpack _). vm_compute. exact I.
  - apply list_elem_of_here.
  - exists events, s'. split; [exact Hrun|]. intros t Ht Hid. apply Hrows in Ht as [->|[Ht Hne]]; [reflexivity|].
    cbn in Ht. rewrite !elem_of_cons in Ht. destruct Ht as [->|[->|Ht%elem_of_nil]]; [done|discriminate Hid|done].
Defined.
