(* ===== verification/NodeService.v ===== *)
(** * The node service

    [internal/approval/service/node.go]: settling a node whose pass rule has been
    decided ([HandleNodeCompletion]), completion-timing CC ([TriggerNodeCC]) and
    the read-confirm gate of a CC node ([AdvanceCCNodeIfAllRead]). *)
From S2P Require Import Prelude Enums StateMachine Models Demo Store Shared FormValidation Delegation Binding.
From S2P Require Import PassRule Processors Engine Tenancy TaskService.

Definition cancelReasonNodePassed : string := "节点已通过，剩余任务无需处理".
Definition cancelReasonNodeRejected : string := "节点已拒绝，剩余任务无需处理".

Section node_service.
Context `{!Host}.

(** The timing filter of [TriggerNodeCC]. *)
Definition ccTimingMatches (completionResult : PassRuleResult) (cfg : FlowNodeCC) : bool :=
  match FlowNodeCC_Timing cfg with
  | CCTimingAlways => true
  | CCTimingOnApprove => completionResult ==? PassRulePassed
  | CCTimingOnReject => completionResult ==? PassRuleRejected
  | CCTimingOther _ => false
  end.

Definition TriggerNodeCC (instance : Instance) (node : FlowNode) (completionResult : PassRuleResult)
    : M unit :=
  ccConfigs ← gets (λ s, tselect (λ c, FlowNodeCC_NodeID c ==? FlowNode_ID node) (db_node_ccs s));
  if (length ccConfigs =? 0)%nat then mret tt
  else
    let resolved := CollectUserIDs ccConfigs
      (Build_NodeResolveContext instance node (default ∅ (Instance_FormData instance)))
      (ccTimingMatches completionResult) in
    if (length resolved =? 0)%nat then mret tt
    else
      let ccUserInfos := ResolveUserInfoMapSilent resolved in
      visit ← FindActiveNodeVisit (Instance_ID instance) (FlowNode_ID node);
      insertedUserIDs ← InsertAutoCCRecords (Instance_ID instance) (FlowNode_ID node)
        (NodeVisit_ID visit) resolved ccUserInfos;
      if (length insertedUserIDs =? 0)%nat then mret tt
      else EmitEvents [NewCCNotifiedEvent instance node (UserInfos insertedUserIDs ccUserInfos) false].

(** [HandleNodeCompletion]: the instance kept in sync, and the emitted events. *)
Definition HandleNodeCompletion (instance : Instance) (node : FlowNode)
    : M (Instance * list DomainEvent) :=
  completionResult ← EvaluateNodeCompletion instance node;
  match completionResult with
  | PassRulePassed =>
      TriggerNodeCC instance node PassRulePassed;;
      canceledEvents ← CancelRemainingTasks instance node cancelReasonNodePassed;
      EmitEvents canceledEvents;;
      ConcludeActiveNodeVisit (Instance_ID instance) (FlowNode_ID node) NodeVisitPassed;;
      instance ← AdvanceToNextNode instance node None;
      mret (instance, canceledEvents)
  | PassRuleRejected =>
      TriggerNodeCC instance node PassRuleRejected;;
      canceledEvents ← CancelRemainingTasks instance node cancelReasonNodeRejected;
      EmitEvents canceledEvents;;
      ConcludeActiveNodeVisit (Instance_ID instance) (FlowNode_ID node) NodeVisitRejected;;
      now ← Now;
      let instance := set_Instance_FinishedAt (Some now) instance in
      instance ← ApplyInstanceTransitionWithHooks instance InstanceRejected [ColFinishedAt];
      completed ← NewInstanceCompletedEvent instance InstanceRejected;
      EmitEvents [completed];;
      mret (instance, canceledEvents ++ [completed])
  | PassRulePending => mret (instance, [])
  end.

(** [AdvanceCCNodeIfAllRead]; [records] are given by their node ids. *)
Definition AdvanceCCNodeIfAllRead (instanceID : string) (records : list CCRecord) : M unit :=
  let nodeIDs := foldl (λ u r, match CCRecord_NodeID r with
                               | None => u
                               | Some n => (OrderedUnique_Add u n).1
                               end) NewOrderedUnique records in
  if (OrderedUnique_Len nodeIDs =? 0)%nat then mret tt
  else
    instance ← orThrow ErrRecordNotFound (findInstance instanceID);
    if negb (Instance_Status instance ==? InstanceRunning) then mret tt
    else
      match Instance_CurrentNodeID instance with
      | None => mret tt
      | Some currentNodeID =>
          if negb (OrderedUnique_Contains nodeIDs currentNodeID) then mret tt
          else
            node ← orThrow ErrRecordNotFound (findNode currentNodeID);
            if negb (FlowNode_Kind node ==? NodeCC) || negb (FlowNode_IsReadConfirmRequired node)
            then mret tt
            else
              visit ← FindActiveNodeVisit instanceID currentNodeID;
              hasUnread ← HasUnreadCCRecords instanceID currentNodeID (NodeVisit_ID visit);
              if hasUnread : bool then mret tt
              else
                ConcludeActiveNodeVisit instanceID currentNodeID NodeVisitPassed;;
                AdvanceToNextNode instance node None;;
                mret tt
      end.
End node_service.
