(* ===== verification/Commands.v ===== *)
(** * The command handlers on running instances

    [internal/approval/command]: one definition per [Handle] method, with every
    guard and write in the source's order.  A handler runs inside the transaction
    its pipeline opens: [Prelude.runInTx] of it.  [ValidateRollbackTarget] of
    [service/validation.go] is here with the rollback it guards. *)
From S2P Require Import Prelude Enums StateMachine Models Demo Store Shared FormValidation FormStorage Delegation Binding.
From S2P Require Import PassRule Processors Engine Tenancy TaskService NodeService.

(** ** Commands *)

(** [ApproveTaskInput] and [RejectTaskInput]. *)
Record DecideTaskCmd := {
  dec_TaskID : string;
  dec_Operator : UserInfo;
  dec_Opinion : string;
  dec_FormData : option (gmap string Value);
  dec_Attachments : list string;
  dec_Caller : CallerContext;
}.
Record TransferTaskCmd := {
  tra_TaskID : string;
  tra_Operator : UserInfo;
  tra_Opinion : string;
  tra_FormData : option (gmap string Value);
  tra_TransferToID : string;
  tra_Attachments : list string;
  tra_Caller : CallerContext;
}.
Record RollbackTaskCmd := {
  rol_TaskID : string;
  rol_Operator : UserInfo;
  rol_Opinion : string;
  rol_FormData : option (gmap string Value);
  rol_TargetNodeID : string;
  rol_Attachments : list string;
  rol_Caller : CallerContext;
}.
Record ReassignTaskCmd := {
  rea_TaskID : string;
  rea_NewAssigneeID : string;
  rea_Operator : UserInfo;
  rea_Reason : string;
  rea_Caller : CallerContext;
}.
Record AddAssigneeCmd := {
  add_TaskID : string;
  add_UserIDs : list string;
  add_AddType : AddAssigneeType;
  add_Operator : UserInfo;
  add_Caller : CallerContext;
}.
Record RemoveAssigneeCmd := {
  rem_TaskID : string;
  rem_Operator : UserInfo;
  rem_Caller : CallerContext;
}.
Record AddCCCmd := {
  acc_InstanceID : string;
  acc_CCUserIDs : list string;
  acc_Operator : UserInfo;
  acc_Caller : CallerContext;
}.
Record MarkCCReadCmd := {
  mcr_InstanceID : string;
  mcr_UserID : string;
  mcr_Caller : CallerContext;
}.
Record UrgeTaskCmd := {
  urg_TaskID : string;
  urg_UrgerID : string;
  urg_Message : string;
  urg_Caller : CallerContext;
}.
(** [WithdrawInstanceInput] and [TerminateInstanceInput]. *)
Record CloseInstanceCmd := {
  clo_InstanceID : string;
  clo_Operator : UserInfo;
  clo_Reason : string;
  clo_Caller : CallerContext;
}.
Record ResubmitInstanceCmd := {
  rsb_InstanceID : string;
  rsb_Operator : UserInfo;
  rsb_FormData : option (gmap string Value);
  rsb_Caller : CallerContext;
}.

Definition reasonTaskRolledBack : string := "节点被回退，剩余任务取消".
Definition reasonInstanceWithdrawn : string := "申请已撤回，任务取消".
Definition reasonInstanceTerminated : string := "申请已被终止，任务取消".
Definition DefaultUrgeCooldownMinutes : Z := 30.

Section task_commands.
Context `{!Host}.

(** The tail shared by the handlers that finish a task: unblock what its
    completion enables, announce the decisions, settle the node, announce the
    activations that still stand. *)
Definition settleNode (instance : Instance) (node : FlowNode) (activationEvents : list DomainEvent)
    : M Instance :=
  let '(decisions, activations) := SplitQueueAdvanceDecisions activationEvents in
  EmitEvents decisions;;
  completion ← HandleNodeCompletion instance node;
  EmitEvents (SuppressSupersededActivations activations completion.2);;
  mret completion.1.

(** [approve_task.go] *)
Definition ApproveTaskHandler_Handle (cmd : DecideTaskCmd) : M unit :=
  tc ← PrepareOperation (dec_TaskID cmd) (dec_Operator cmd) (dec_Caller cmd) (dec_FormData cmd);
  liftR (ValidateOpinion (tc_Node tc) (dec_Opinion cmd));;
  liftR (ValidateRequiredPermissionFields (tc_FormFields tc)
    (FlowNode_FieldPermissions (tc_Node tc)) (Instance_FormData (tc_Instance tc)));;
  let instance := tc_Instance tc in
  let node := tc_Node tc in
  let isHandle := FlowNode_Kind node ==? NodeHandle in
  task ← FinishTask (tc_Task tc) (if isHandle then TaskHandled else TaskApproved);
  EmitEvents [if isHandle
              then NewTaskHandledEvent instance task node (dec_Operator cmd) (dec_Opinion cmd)
              else NewTaskApprovedEvent instance task node (dec_Operator cmd) (dec_Opinion cmd)];;
  activationEvents ← ActivateDependentTasks instance node task;
  instance ← settleNode instance node activationEvents;
  addActionLog (BuildActionLog (Instance_ID instance) task (dec_Operator cmd)
    (if isHandle then ActionHandle else ActionApprove) (dec_Opinion cmd) None ""
    (dec_Attachments cmd));;
  PersistInstanceFormData instance;;
  SyncInstanceProjection instance.

(** [reject_task.go] *)
Definition RejectTaskHandler_Handle (cmd : DecideTaskCmd) : M unit :=
  tc ← PrepareOperation (dec_TaskID cmd) (dec_Operator cmd) (dec_Caller cmd) (dec_FormData cmd);
  liftR (ValidateOpinion (tc_Node tc) (dec_Opinion cmd));;
  let instance := tc_Instance tc in
  let node := tc_Node tc in
  task ← FinishTask (tc_Task tc) TaskRejected;
  EmitEvents [NewTaskRejectedEvent instance task node (dec_Operator cmd) (dec_Opinion cmd)];;
  activationEvents ← ActivateDependentTasks instance node task;
  instance ← settleNode instance node activationEvents;
  addActionLog (BuildActionLog (Instance_ID instance) task (dec_Operator cmd) ActionReject
    (dec_Opinion cmd) None "" (dec_Attachments cmd));;
  PersistInstanceFormData instance;;
  SyncInstanceProjection instance.

(** [hasActiveTaskForAssignee] *)
Definition hasActiveTaskForAssignee (instanceID nodeID assigneeID : string) : M bool :=
  gets (λ s, (0 <? tcount (λ t, onNode instanceID nodeID t && (Task_AssigneeID t ==? assigneeID)
                                && isCancelable t) (db_tasks s))%nat).

(** [transfer_task.go] *)
Definition TransferTaskHandler_Handle (cmd : TransferTaskCmd) : M unit :=
  tc ← PrepareOperation (tra_TaskID cmd) (tra_Operator cmd) (tra_Caller cmd) (tra_FormData cmd);
  liftR (ValidateOpinion (tc_Node tc) (tra_Opinion cmd));;
  let instance := tc_Instance tc in
  let node := tc_Node tc in
  throwIf (negb (FlowNode_IsTransferAllowed node)) ErrTransferNotAllowed;;
  let transferToID := TrimSpace (tra_TransferToID cmd) in
  throwIf ((transferToID ==? "") || (transferToID ==? Task_AssigneeID (tc_Task tc)))
    ErrInvalidTransferTarget;;
  duplicate ← hasActiveTaskForAssignee (Instance_ID instance) (Task_NodeID (tc_Task tc)) transferToID;
  throwIf duplicate ErrInvalidTransferTarget;;
  task ← FinishTask (tc_Task tc) TaskTransferred;
  let transferTo := ResolveUserInfo transferToID in
  newTask ← insertTask (Build_Task "" 0 (Instance_TenantID instance) (Instance_ID instance)
    (Task_NodeID task) (Task_VisitID task) (UserInfo_ID transferTo) (UserInfo_Name transferTo)
    (UserInfo_DepartmentID transferTo) (UserInfo_DepartmentName transferTo) None None None None
    (Task_SortOrder task) TaskPending None (Task_ParentTaskID task) (Task_AddAssigneeType task)
    (Task_Deadline task) false false None);
  RepointAddAssigneeChildren (Task_ID task) (Task_ID newTask) (Instance_ID instance);;
  addActionLog (BuildActionLog (Instance_ID instance) task (tra_Operator cmd) ActionTransfer
    (tra_Opinion cmd) (Some transferTo) "" (tra_Attachments cmd));;
  PersistInstanceFormData instance;;
  SyncInstanceProjection instance;;
  EmitEvents [NewTaskTransferredEvent instance task node (tra_Operator cmd) transferTo
                (tra_Opinion cmd);
              NewTaskCreatedEvent instance newTask node;
              NewTaskActivatedEvent instance newTask node TaskActivationTransferred].

(** [reassign_task.go] *)
Definition ReassignTaskHandler_Handle (cmd : ReassignTaskCmd) : M unit :=
  tc ← LoadTaskContextForNodeOperation (rea_TaskID cmd)
    (Build_TaskContextLoadOptions "" false true false (rea_Caller cmd));
  let instance := tc_Instance tc in
  let task := tc_Task tc in
  let node := tc_Node tc in
  let newAssigneeID := TrimSpace (rea_NewAssigneeID cmd) in
  throwIf ((newAssigneeID ==? "") || (newAssigneeID ==? Task_AssigneeID task))
    ErrInvalidTransferTarget;;
  duplicate ← hasActiveTaskForAssignee (Task_InstanceID task) (Task_NodeID task) newAssigneeID;
  throwIf duplicate ErrInvalidTransferTarget;;
  let oldAssignee := Assignee task in
  let newAssignee := ResolveUserInfo newAssigneeID in
  updateTasks (λ t, Task_ID t ==? Task_ID task) (set_Task_Assignee newAssignee);;
  let log := set_ActionLog_TransferTo newAssignee
    (set_ActionLog_NodeID (Some (Task_NodeID task)) (set_ActionLog_TaskID (Some (Task_ID task))
      (NewActionLog (rea_Operator cmd) (Task_InstanceID task) ActionReassign))) in
  addActionLog (if rea_Reason cmd ==? "" then log
                else set_ActionLog_Opinion (Some (rea_Reason cmd)) log);;
  let task := set_Task_Assignee newAssignee task in
  EmitEvents [NewTaskReassignedEvent instance task node oldAssignee newAssignee (rea_Reason cmd);
              NewTaskActivatedEvent instance task node TaskActivationReassigned].

(** [add_assignee.go] *)
Definition occupiesRound (task nodeTask : Task) : bool :=
  isCancelable nodeTask
  || ((Task_VisitID nodeTask ==? Task_VisitID task)
      && ((Task_Status nodeTask ==? TaskApproved) || (Task_Status nodeTask ==? TaskRejected)
          || (Task_Status nodeTask ==? TaskHandled))).
(** The users to insert: those not in the round yet, each once. *)
Definition usersToInsert (task : Task) (nodeTasks : list Task) (userIDs : list string)
    : list string :=
  let existing := foldl (λ o t, if occupiesRound task t
                                then (OrderedUnique_Add o (Task_AssigneeID t)).1 else o)
                    NewOrderedUnique nodeTasks in
  (foldl (λ acc userID,
     let '(o, ins) := acc in
     let '(o', added) := OrderedUnique_Add o userID in
     (o', if added : bool then ins ++ [userID] else ins)) (existing, []) userIDs).2.
Definition maxSortOrder (task : Task) (nodeTasks : list Task) : Z :=
  foldl (λ m t, if (m <? Task_SortOrder t)%Z then Task_SortOrder t else m)
    (Task_SortOrder task) nodeTasks.

Definition addedTask (cmd : AddAssigneeCmd) (instance : Instance) (task : Task) (sequential : bool)
    (insertBase : Z) (deadline : option DateTime) (infos : gmap string UserInfo) (i : nat)
    (userID : string) : Task :=
  let info := default UserInfo_zero (infos !! userID) in
  let queued := (add_AddType cmd ==? AddAssigneeAfter) || (sequential && (0 <? i)%nat) in
  Build_Task "" 0 (Instance_TenantID instance) (Instance_ID instance) (Task_NodeID task)
    (Task_VisitID task) userID (UserInfo_Name info) (UserInfo_DepartmentID info)
    (UserInfo_DepartmentName info) None None None None (insertBase + Z.of_nat i)
    (if queued then TaskWaiting else TaskPending) None (Some (Task_ID task))
    (Some (add_AddType cmd)) (if queued then None else deadline) false false None.

Definition AddAssigneeHandler_Handle (cmd : AddAssigneeCmd) : M unit :=
  tc ← LoadTaskContextForNodeOperation (add_TaskID cmd)
    (Build_TaskContextLoadOptions (UserInfo_ID (add_Operator cmd)) true true true (add_Caller cmd));
  let instance := tc_Instance tc in
  let task := tc_Task tc in
  let node := tc_Node tc in
  throwIf (negb (FlowNode_IsAddAssigneeAllowed node)) ErrAddAssigneeNotAllowed;;
  throwIf (negb (AddAssigneeType_IsValid (add_AddType cmd))) ErrInvalidAddAssigneeType;;
  throwIf ((0 <? length (FlowNode_AddAssigneeTypes node))%nat
           && negb (bool_decide (add_AddType cmd ∈ FlowNode_AddAssigneeTypes node)))
    ErrInvalidAddAssigneeType;;
  let sequential := FlowNode_ApprovalMethod node ==? ApprovalSequential in
  throwIf (sequential && (add_AddType cmd ==? AddAssigneeParallel)) ErrInvalidAddAssigneeType;;
  let userIDs := NormalizeUniqueIDs (add_UserIDs cmd) in
  throwIf (length userIDs =? 0)%nat ErrNoUsersSpecified;;
  nodeTasks ← gets (λ s, tselect (onNode (Instance_ID instance) (Task_NodeID task)) (db_tasks s));
  let insertUsers := usersToInsert task nodeTasks userIDs in
  if (length insertUsers =? 0)%nat then mret tt
  else
    pendingDeadline ← ComputeTaskDeadline (FlowNode_TimeoutHours node);
    let userInfos := ResolveUserInfoMapSilent insertUsers in
    let shiftFrom := if add_AddType cmd ==? AddAssigneeAfter then (Task_SortOrder task + 1)%Z
                     else Task_SortOrder task in
    let insertBase := if sequential then shiftFrom else (maxSortOrder task nodeTasks + 1)%Z in
    (if sequential then
       updateTasks (λ t, (Task_VisitID t ==? Task_VisitID task) && (shiftFrom <=? Task_SortOrder t)%Z)
         (λ t, set_Task_SortOrder (Task_SortOrder t + Z.of_nat (length insertUsers))%Z t);; mret tt
     else mret tt);;
    task ← (if add_AddType cmd ==? AddAssigneeBefore then
              let task := set_Task_Deadline None (set_Task_Status TaskWaiting task) in
              updateTasks (λ t, Task_ID t ==? Task_ID task)
                (λ t, set_Task_Deadline None (set_Task_Status TaskWaiting t));;
              mret task
            else mret task);
    foldM (λ _ (p : nat * string),
      newTask ← insertTask (addedTask cmd instance task sequential insertBase pendingDeadline
        userInfos p.1 p.2);
      EmitEvents (NewTaskCreatedEvent instance newTask node ::
        (if Task_Status newTask ==? TaskPending
         then [NewTaskActivatedEvent instance newTask node TaskActivationAssigned] else [])))
      tt (zip (seq 0 (length insertUsers)) insertUsers);;
    let log := NewActionLog (add_Operator cmd) (Instance_ID instance) ActionAddAssignee in
    addActionLog (set_ActionLog_AddedAssignees (UserInfos insertUsers userInfos)
      (set_ActionLog_AddAssigneeType (Some (add_AddType cmd))
        (set_ActionLog_TaskID (Some (Task_ID task))
          (set_ActionLog_NodeID (Some (Task_NodeID task)) log))));;
    EmitEvents [NewAssigneesAddedEvent instance task node (add_AddType cmd)
                  (UserInfos insertUsers userInfos)].

(** [remove_assignee.go] *)
Definition RemoveAssigneeHandler_Handle (cmd : RemoveAssigneeCmd) : M unit :=
  tc ← LoadTaskContextForNodeOperation (rem_TaskID cmd)
    (Build_TaskContextLoadOptions (UserInfo_ID (rem_Operator cmd)) false false true (rem_Caller cmd));
  let instance := tc_Instance tc in
  let node := tc_Node tc in
  throwIf (negb (FlowNode_IsRemoveAssigneeAllowed node)) ErrRemoveAssigneeNotAllowed;;
  authorized ← IsAuthorizedForNodeOperation (Task_InstanceID (tc_Task tc)) (Task_NodeID (tc_Task tc))
    (UserInfo_ID (rem_Operator cmd));
  throwIf (negb authorized) ErrNotAssignee;;
  canRemove ← CanRemoveAssigneeTask node (tc_Task tc);
  throwIf (negb canRemove) ErrLastAssigneeRemoval;;
  task ← FinishTask (tc_Task tc) TaskRemoved;
  activationEvents ← ActivateDependentTasks instance node task;
  let log := NewActionLog (rem_Operator cmd) (Task_InstanceID task) ActionRemoveAssignee in
  addActionLog (set_ActionLog_RemovedAssignees [Assignee task]
    (set_ActionLog_TaskID (Some (Task_ID task)) (set_ActionLog_NodeID (Some (Task_NodeID task)) log)));;
  EmitEvents [NewAssigneesRemovedEvent instance task node [Assignee task]];;
  settleNode instance node activationEvents;;
  mret tt.
End task_commands.

(** ** Rollback *)
Section rollback.
Context `{!Host}.

(** [requireConcludedVisit] *)
Definition visitConcluded (v : NodeVisit) : bool :=
  (NodeVisit_Status v ==? NodeVisitPassed) || (NodeVisit_Status v ==? NodeVisitRejected)
  || (NodeVisit_Status v ==? NodeVisitReturned).
Definition requireConcludedVisit (instanceID nodeID : string) : M unit :=
  visited ← gets (λ s, texists (λ v, (NodeVisit_InstanceID v ==? instanceID)
    && (NodeVisit_NodeID v ==? nodeID) && visitConcluded v) (db_visits s));
  throwIf (negb visited) ErrInvalidRollbackTarget.

(** The node of the version with an id. *)
Definition findVersionNode (versionID nodeID : string) : M (option FlowNode) :=
  gets (λ s, tfirst (λ n, (FlowNode_ID n ==? nodeID) && (FlowNode_FlowVersionID n ==? versionID))
    (db_nodes s)).

(** [ValidateRollbackTarget] *)
Definition ValidateRollbackTarget (instance : Instance) (currentNode : FlowNode)
    (targetNodeID : string) : M unit :=
  throwIf (targetNodeID ==? FlowNode_ID currentNode) ErrInvalidRollbackTarget;;
  throwIf ((FlowNode_RollbackType currentNode ==? RollbackNone)
           || negb (RollbackType_IsValid (FlowNode_RollbackType currentNode))) ErrRollbackNotAllowed;;
  match FlowNode_RollbackType currentNode with
  | RollbackPrevious =>
      count ← gets (λ s, tcount (λ e, (FlowEdge_SourceNodeID e ==? targetNodeID)
        && (FlowEdge_TargetNodeID e ==? FlowNode_ID currentNode)
        && (FlowEdge_FlowVersionID e ==? Instance_FlowVersionID instance)) (db_edges s));
      throwIf (count =? 0)%nat ErrInvalidRollbackTarget
  | RollbackStart =>
      startNode ← orThrow ErrInvalidRollbackTarget (gets (λ s, tfirst (λ n,
        (FlowNode_FlowVersionID n ==? Instance_FlowVersionID instance)
        && (FlowNode_Kind n ==? NodeStart)) (db_nodes s)));
      throwIf (negb (FlowNode_ID startNode ==? targetNodeID)) ErrInvalidRollbackTarget
  | RollbackAny =>
      targetNode ← orThrow ErrInvalidRollbackTarget
        (findVersionNode (Instance_FlowVersionID instance) targetNodeID);
      throwIf (match FlowNode_Kind targetNode with
               | NodeApproval | NodeHandle | NodeStart => false
               | _ => true
               end) ErrInvalidRollbackTarget;;
      requireConcludedVisit (Instance_ID instance) targetNodeID
  | RollbackSpecified =>
      targetNode ← orThrow ErrInvalidRollbackTarget
        (findVersionNode (Instance_FlowVersionID instance) targetNodeID);
      throwIf (negb (bool_decide (FlowNode_Key targetNode ∈ FlowNode_RollbackTargetKeys currentNode)))
        ErrInvalidRollbackTarget;;
      requireConcludedVisit (Instance_ID instance) targetNodeID
  | _ => mret tt
  end.

(** [rollback_task.go] *)
Definition RollbackTaskHandler_Handle (cmd : RollbackTaskCmd) : M unit :=
  tc ← PrepareOperation (rol_TaskID cmd) (rol_Operator cmd) (rol_Caller cmd) (rol_FormData cmd);
  liftR (ValidateOpinion (tc_Node tc) (rol_Opinion cmd));;
  let instance := tc_Instance tc in
  let node := tc_Node tc in
  throwIf (negb (FlowNode_IsRollbackAllowed node)) ErrRollbackNotAllowed;;
  let targetNodeID := TrimSpace (rol_TargetNodeID cmd) in
  throwIf (targetNodeID ==? "") ErrInvalidRollbackTarget;;
  ValidateRollbackTarget instance node targetNodeID;;
  task ← FinishTask (tc_Task tc) TaskRolledBack;
  canceledEvents ← CancelRemainingTasks instance node reasonTaskRolledBack;
  ConcludeActiveNodeVisit (Instance_ID instance) (FlowNode_ID node) NodeVisitReturned;;
  instance ← ApplyRollbackFormData instance targetNodeID (FlowNode_RollbackDataStrategy node);
  let instance := set_Instance_CurrentNodeID (Some targetNodeID) instance in
  targetNode ← orThrow ErrRecordNotFound (findNode targetNodeID);
  let opinion := stringPtrOrNil (rol_Opinion cmd) in
  moved ← (if FlowNode_Kind targetNode ==? NodeStart then
             now ← Now;
             let instance := set_Instance_FinishedAt (Some now) instance in
             instance ← Transition instance InstanceReturned
               [ColFormData; ColCurrentNodeID; ColFinishedAt];
             mret (instance, NewInstanceReturnedEvent instance node targetNode (rol_Operator cmd)
                               opinion)
           else
             updateInstanceCols instance [ColFormData; ColCurrentNodeID];;
             instance ← ProcessNode instance targetNode;
             mret (instance, NewInstanceRolledBackEvent instance node targetNode
                               (rol_Operator cmd) opinion));
  let '(instance, evt) := moved : Instance * DomainEvent in
  SyncInstanceProjection instance;;
  addActionLog (BuildActionLog (Instance_ID instance) task (rol_Operator cmd) ActionRollback
    (rol_Opinion cmd) None targetNodeID (rol_Attachments cmd));;
  EmitEvents (canceledEvents ++ [evt]).
End rollback.

(** ** Closing and reopening an instance *)
Section instance_commands.
Context `{!Host}.

(** The part withdrawing and terminating share: the transition (with its error
    renamed), then the open work is cancelled. *)
Definition closeInstance (instance : Instance) (instanceID : string) (to : InstanceStatus)
    (notAllowed : Error) (reason : string) : M (Instance * list DomainEvent) :=
  throwIf (negb (CanTransition InstanceStateMachine (Instance_Status instance) to)) notAllowed;;
  now ← Now;
  let instance := set_Instance_FinishedAt (Some now) instance in
  instance ← mapErr (λ e, if e ==? ErrInvalidInstanceTransition then notAllowed else e)
    (Transition instance to [ColFinishedAt]);
  canceledEvents ← CancelInstanceTasks instance reason;
  CancelActiveNodeVisits instanceID;;
  mret (instance, canceledEvents).

(** [withdraw_instance.go] *)
Definition WithdrawInstanceHandler_Handle (cmd : CloseInstanceCmd) : M unit :=
  instance ← LoadForUpdate (clo_InstanceID cmd) (clo_Caller cmd);
  throwIf (negb (Instance_ApplicantID instance ==? UserInfo_ID (clo_Operator cmd))) ErrNotApplicant;;
  closed ← closeInstance instance (clo_InstanceID cmd) InstanceWithdrawn ErrWithdrawNotAllowed
    reasonInstanceWithdrawn;
  let reason := stringPtrOrNil (clo_Reason cmd) in
  addActionLog (set_ActionLog_Opinion reason
    (NewActionLog (clo_Operator cmd) (clo_InstanceID cmd) ActionWithdraw));;
  EmitEvents (closed.2 ++ [NewInstanceWithdrawnEvent closed.1 (clo_Operator cmd) reason]).

(** The [Reason] of a completed event. *)
Definition set_CompletedReason (reason : option string) (e : DomainEvent) : DomainEvent :=
  match e with
  | InstanceCompletedEvent b st fin _ => InstanceCompletedEvent b st fin reason
  | _ => e
  end.

(** [terminate_instance.go] *)
Definition TerminateInstanceHandler_Handle (cmd : CloseInstanceCmd) : M unit :=
  instance ← LoadForUpdate (clo_InstanceID cmd) (clo_Caller cmd);
  closed ← closeInstance instance (clo_InstanceID cmd) InstanceTerminated ErrTerminateNotAllowed
    reasonInstanceTerminated;
  let reason := stringPtrOrNil (clo_Reason cmd) in
  addActionLog (set_ActionLog_Opinion reason
    (NewActionLog (clo_Operator cmd) (clo_InstanceID cmd) ActionTerminate));;
  completed ← NewInstanceCompletedEvent closed.1 InstanceTerminated;
  EmitEvents (closed.2 ++ [set_CompletedReason reason completed]).

(** [resubmit_instance.go] *)
Definition ResubmitInstanceHandler_Handle (cmd : ResubmitInstanceCmd) : M unit :=
  instance ← LoadForUpdate (rsb_InstanceID cmd) (rsb_Caller cmd);
  throwIf (negb (Instance_ApplicantID instance ==? UserInfo_ID (rsb_Operator cmd))) ErrNotApplicant;;
  throwIf (negb (CanTransition InstanceStateMachine (Instance_Status instance) InstanceRunning))
    ErrResubmitNotAllowed;;
  version ← orThrow ErrRecordNotFound (findVersion (Instance_FlowVersionID instance));
  (* maps.Copy onto the existing map: the submitted values win *)
  let formData := default ∅ (rsb_FormData cmd) ∪ default ∅ (Instance_FormData instance) in
  let instance := set_Instance_FormData (Some formData) instance in
  liftR (ValidateFormData (FlowVersion_FormFields version) (Instance_FormData instance));;
  let instance := set_Instance_FinishedAt None instance in
  instance ← mapErr (λ e, if e ==? ErrInvalidInstanceTransition then ErrResubmitNotAllowed else e)
    (Transition instance InstanceRunning [ColFormData; ColFinishedAt]);
  SyncInstanceProjection instance;;
  instance ← StartProcess instance;
  addActionLog (NewActionLog (rsb_Operator cmd) (rsb_InstanceID cmd) ActionResubmit);;
  EmitEvents [NewInstanceResubmittedEvent instance (rsb_Operator cmd)].
End instance_commands.

(** ** Copies and urges *)
Section notice_commands.
Context `{!Host}.

(** [mark_cc_read.go] *)
Definition MarkCCReadHandler_Handle (cmd : MarkCCReadCmd) : M unit :=
  instance ← findInstance (mcr_InstanceID cmd);
  match instance with
  | None => mret tt
  | Some instance =>
      allowed ← AllowsInstanceAccess (mcr_Caller cmd) (mcr_InstanceID cmd)
        (Instance_TenantID instance) (mcr_UserID cmd);
      if negb allowed then mret tt
      else
        records ← gets (λ s, tselect (λ r, (CCRecord_InstanceID r ==? mcr_InstanceID cmd)
          && (CCRecord_CCUserID r ==? mcr_UserID cmd) && (CCRecord_ReadAt r ==? None))
          (db_cc_records s));
        if (length records =? 0)%nat then mret tt
        else
          now ← Now;
          updateCCRecords (λ r, bool_decide (CCRecord_ID r ∈ CCRecord_ID <$> records))
            (set_CCRecord_ReadAt (Some now));;
          AdvanceCCNodeIfAllRead (mcr_InstanceID cmd) records
  end.

(** [add_cc.go] *)
Definition AddCCHandler_Handle (cmd : AddCCCmd) : M unit :=
  instance ← LoadForUpdateAs (acc_InstanceID cmd) (acc_Caller cmd) (UserInfo_ID (acc_Operator cmd));
  match Instance_CurrentNodeID instance with
  | None => throw ErrInstanceCompleted
  | Some currentNodeID =>
      throwIf (negb (Instance_Status instance ==? InstanceRunning)) ErrInstanceCompleted;;
      node ← orThrow ErrRecordNotFound (findNode currentNodeID);
      throwIf (negb (FlowNode_IsManualCCAllowed node)) ErrManualCcNotAllowed;;
      let operatorID := TrimSpace (UserInfo_ID (acc_Operator cmd)) in
      throwIf (operatorID ==? "") ErrNotAssignee;;
      authorized ← IsAuthorizedForNodeOperation (Instance_ID instance) currentNodeID operatorID;
      throwIf (negb authorized) ErrNotAssignee;;
      let userIDs := NormalizeUniqueIDs (acc_CCUserIDs cmd) in
      if (length userIDs =? 0)%nat then mret tt
      else
        let ccUserInfos := ResolveUserInfoMapSilent userIDs in
        visit ← FindActiveNodeVisit (acc_InstanceID cmd) currentNodeID;
        insertedUserIDs ← InsertManualCCRecords (acc_InstanceID cmd) currentNodeID
          (NodeVisit_ID visit) userIDs ccUserInfos;
        if (length insertedUserIDs =? 0)%nat then mret tt
        else
          let ccUsers := UserInfos insertedUserIDs ccUserInfos in
          addActionLog (set_ActionLog_CCUsers ccUsers (set_ActionLog_NodeID (Some currentNodeID)
            (NewActionLog (acc_Operator cmd) (acc_InstanceID cmd) ActionAddCC)));;
          EmitEvents [NewCCNotifiedEvent instance node ccUsers true]
  end.

(** [urge_task.go] *)
Definition UrgeTaskHandler_Handle (cmd : UrgeTaskCmd) : M unit :=
  task ← orThrow ErrTaskNotFound (findTask (urg_TaskID cmd));
  allowed ← AllowsInstanceAccess (urg_Caller cmd) (Task_InstanceID task) (Task_TenantID task)
    (urg_UrgerID cmd);
  throwIf (negb allowed) ErrTaskNotFound;;
  throwIf (negb (Task_Status task ==? TaskPending)) ErrTaskNotPending;;
  authorized ← IsUrgeAuthorized (Task_InstanceID task) (urg_UrgerID cmd);
  throwIf (negb authorized) ErrAccessDenied;;
  node ← orThrow ErrRecordNotFound (findNode (Task_NodeID task));
  let cooldownMinutes := if (FlowNode_UrgeCooldownMinutes node <=? 0)%Z
                         then DefaultUrgeCooldownMinutes else FlowNode_UrgeCooldownMinutes node in
  now ← Now;
  let cooldownSince := (now - 60 * cooldownMinutes)%Z in
  existingCount ← gets (λ s, tcount (λ r, (UrgeRecord_TaskID r ==? Some (urg_TaskID cmd))
    && (UrgeRecord_UrgerID r ==? urg_UrgerID cmd) && (cooldownSince <? UrgeRecord_CreatedAt r)%Z)
    (db_urges s));
  throwIf (0 <? existingCount)%nat ErrUrgeCooldown;;
  let urger := ResolveUserInfo (urg_UrgerID cmd) in
  insertUrge (Build_UrgeRecord "" 0 (Task_InstanceID task) (Task_NodeID task)
    (Some (urg_TaskID cmd)) (UserInfo_ID urger) (UserInfo_Name urger) (UserInfo_DepartmentID urger)
    (UserInfo_DepartmentName urger) (Task_AssigneeID task) (Task_AssigneeName task)
    (Task_AssigneeDepartmentID task) (Task_AssigneeDepartmentName task) (urg_Message cmd));;
  instance ← orThrow ErrRecordNotFound (findInstance (Task_InstanceID task));
  EmitEvents [NewTaskUrgedEvent instance task node urger (urg_Message cmd)].
End notice_commands.
