(* ===== verification/Timeout.v ===== *)
(** * Deadlines

    [internal/approval/timeout/scanner.go]: what happens to tasks past their
    deadline, the warnings before it, and the clean-up of old records.  The scanner
    runs outside the command pipeline: its events are published at once and there
    is no action log collector. *)
From S2P Require Import Prelude Enums StateMachine Models Demo Store Shared FormValidation FormStorage Delegation Binding.
From S2P Require Import PassRule Processors Engine Tenancy TaskService NodeService Commands.

(** ** Timed-out tasks *)
Definition opinionAutoReject : string := "任务处理超时，系统自动驳回".
Definition opinionAutoHandle : string := "任务处理超时，系统自动办结".
Definition opinionAutoPass : string := "任务处理超时，系统自动通过".
Definition opinionTransferAdmin : string := "任务处理超时，系统自动转交管理员".

(** [timeoutResolution] *)
Record timeoutResolution := {
  res_status : TaskStatus;
  res_action : ActionType;
  res_opinion : string;
  res_newEvent : Instance → Task → FlowNode → string → DomainEvent;
}.
Definition resolveTimeoutCompletion (node : FlowNode) (autoApprove : bool) : timeoutResolution :=
  if negb autoApprove then
    Build_timeoutResolution TaskRejected ActionReject opinionAutoReject
      (λ i t n o, NewTaskRejectedEvent i t n SystemOperator o)
  else if FlowNode_Kind node ==? NodeHandle then
    Build_timeoutResolution TaskHandled ActionHandle opinionAutoHandle
      (λ i t n o, NewTaskHandledEvent i t n SystemOperator o)
  else
    Build_timeoutResolution TaskApproved ActionApprove opinionAutoPass
      (λ i t n o, NewTaskApprovedEvent i t n SystemOperator o).

Section timeout.
Context `{!Host}.

(** A direct insert into the action log. *)
Definition insertActionLog (log : ActionLog) : M unit := modify (λ s, set_logs (db_logs s ++ [log]) s).
Definition timeoutLog (task : Task) (action : ActionType) (opinion : string) : ActionLog :=
  set_ActionLog_Opinion (Some opinion) (set_ActionLog_TaskID (Some (Task_ID task))
    (set_ActionLog_NodeID (Some (Task_NodeID task)) (NewActionLog SystemOperator (Task_InstanceID task) action))).

Definition recordTimeoutNotify (task : Task) (instance : Instance) (node : FlowNode) : M (list DomainEvent) :=
  throwIf (negb (is_Some_b (Task_Deadline task))) (ErrHost "task has nil deadline in timeout notify");;
  mret [NewTaskTimedOutEvent instance task node].

Definition autoFinishTask (task : Task) (instance : Instance) (node : FlowNode) (autoApprove : bool)
    : M (list DomainEvent) :=
  let resolution := resolveTimeoutCompletion node autoApprove in
  task ← FinishTask task (res_status resolution);
  EmitEvents [res_newEvent resolution instance task node (res_opinion resolution)];;
  activationEvents ← ActivateDependentTasks instance node task;
  let '(decisionEvents, activationEvents) := SplitQueueAdvanceDecisions activationEvents in
  EmitEvents decisionEvents;;
  completion ← HandleNodeCompletion instance node;
  let events := SuppressSupersededActivations activationEvents completion.2 in
  insertActionLog (timeoutLog task (res_action resolution) (res_opinion resolution));;
  mret events.

(** The administrators who hold no active task at the node. *)
Definition eligibleAdmins (s : St) (task : Task) (targetAdminIDs : list string) : list string :=
  let existing := Task_AssigneeID <$> tselect (λ t,
    (Task_InstanceID t ==? Task_InstanceID task) && (Task_NodeID t ==? Task_NodeID task)
    && isCancelable t && bool_decide (Task_AssigneeID t ∈ targetAdminIDs)) (db_tasks s) in
  List.filter (λ id, negb (bool_decide (id ∈ existing))) targetAdminIDs.
Definition adminTask (task : Task) (admin : UserInfo) (deadline : option DateTime) : Task :=
  Build_Task "" 0 (Task_TenantID task) (Task_InstanceID task) (Task_NodeID task) (Task_VisitID task)
    (UserInfo_ID admin) (UserInfo_Name admin) (UserInfo_DepartmentID admin) (UserInfo_DepartmentName admin)
    None None None None (Task_SortOrder task) TaskPending None (Task_ParentTaskID task)
    (Task_AddAssigneeType task) deadline false false None.
Definition transferLog (task : Task) (admin : UserInfo) : ActionLog :=
  set_ActionLog_TransferTo admin (timeoutLog task ActionTransfer opinionTransferAdmin).
(** One round of the loop over the eligible administrators: the stand-in is the first
    new task. *)
Definition transferTo (task : Task) (instance : Instance) (node : FlowNode) (infos : gmap string UserInfo)
    (deadline : option DateTime) (acc : string * list DomainEvent) (adminID : string)
    : M (string * list DomainEvent) :=
  let admin := infoWithID infos adminID in
  newTask ← insertTask (adminTask task admin deadline);
  insertActionLog (transferLog task admin);;
  mret (if acc.1 ==? "" then Task_ID newTask else acc.1,
        acc.2 ++ [NewTaskTransferredEvent instance task node (Assignee task) admin opinionTransferAdmin;
                  NewTaskCreatedEvent instance newTask node;
                  NewTaskActivatedEvent instance newTask node TaskActivationTransferred]).
Definition transferToAdmin (task : Task) (instance : Instance) (node : FlowNode) : M (list DomainEvent) :=
  let targetAdminIDs := NormalizeUniqueIDs (FlowNode_AdminUserIDs node) in
  if (length targetAdminIDs =? 0)%nat then recordTimeoutNotify task instance node
  else
    eligibleAdminIDs ← gets (λ s, eligibleAdmins s task targetAdminIDs);
    if (length eligibleAdminIDs =? 0)%nat then recordTimeoutNotify task instance node
    else
      task ← FinishTask task TaskTransferred;
      pendingDeadline ← ComputeTaskDeadline (FlowNode_TimeoutHours node);
      let adminInfos := ResolveUserInfoMapSilent eligibleAdminIDs in
      moved ← foldM (transferTo task instance node adminInfos pendingDeadline) ("", []) eligibleAdminIDs;
      RepointAddAssigneeChildren (Task_ID task) moved.1 (Task_InstanceID task);;
      mret moved.2.

Definition executeTimeoutAction (task : Task) (instance : Instance) (node : FlowNode) : M (list DomainEvent) :=
  match FlowNode_TimeoutAction node with
  | TimeoutActionNotify => recordTimeoutNotify task instance node
  | TimeoutActionAutoPass => autoFinishTask task instance node true
  | TimeoutActionAutoReject => autoFinishTask task instance node false
  | TimeoutActionTransferAdmin => transferToAdmin task instance node
  | TimeoutActionNone | TimeoutActionOther _ => mret []
  end.
Definition processTimeout (task : Task) : M unit :=
  instance ← orThrow ErrRecordNotFound (findInstance (Task_InstanceID task));
  freshTask ← orThrow ErrRecordNotFound (findTask (Task_ID task));
  if Task_IsTimeout freshTask then mret tt
  else if negb (Task_Status freshTask ==? TaskPending) then mret tt
  else
    node ← orThrow ErrRecordNotFound (findNode (Task_NodeID freshTask));
    let freshTask := set_Task_IsTimeout true freshTask in
    updateTasks (λ t, Task_ID t ==? Task_ID freshTask) (set_Task_IsTimeout true);;
    events ← executeTimeoutAction freshTask instance node;
    EmitEvents events.

Definition scanBatchSize : nat := 500.
Definition overdue (now : DateTime) (t : Task) : bool :=
  (Task_Status t ==? TaskPending)
  && match Task_Deadline t with Some d => (d <? now)%Z | None => false end
  && negb (Task_IsTimeout t).
(** Each task of a batch in its own transaction; the number of successes. *)
Definition processBatch (job : Task → M unit) (tasks : list Task) (s : St) : nat * St :=
  foldl (λ '(n, s) t, match runInTx (outsidePipeline (job t)) s with
                      | (Ok _, s') => (S n, s')
                      | (Err _, s') => (n, s')
                      end) (0, s) tasks.
Definition readClock (s : St) : DateTime * St :=
  (clock_reading (db_clock s), set_clock (S (db_clock s)) s).
(** [ScanTimeouts]: whether the loop ended within the given number of rounds. *)
Fixpoint ScanTimeouts (rounds : nat) (s : St) : bool * St :=
  match rounds with
  | O => (false, s)
  | S rounds =>
      let '(now, s) := readClock s in
      let tasks := take scanBatchSize (tselect (overdue now) (db_tasks s)) in
      if (length tasks =? 0)%nat then (true, s)
      else
        let '(succeeded, s) := processBatch processTimeout tasks s in
        if (succeeded =? 0)%nat || (length tasks <? scanBatchSize)%nat then (true, s)
        else ScanTimeouts rounds s
  end.

(** ** Warnings *)
Definition warnable (s : St) (now : DateTime) (t : Task) : bool :=
  (Task_Status t ==? TaskPending) && negb (Task_IsTimeout t) && negb (Task_IsPreWarningSent t)
  && match Task_Deadline t with
     | None => false
     | Some d =>
         match tfirst (λ n, FlowNode_ID n ==? Task_NodeID t) (db_nodes s) with
         | None => false
         | Some n =>
             (0 <? FlowNode_TimeoutNotifyBeforeHours n)%Z
             && (d <=? now + 3600 * FlowNode_TimeoutNotifyBeforeHours n)%Z
         end
     end.
Definition hoursUntil (deadline now : DateTime) : Z := Z.max (Z.quot (deadline - now) 3600) 0.
Definition sendPreWarning (task : Task) (hoursLeft : Z) : M unit :=
  affected ← updateTasks (λ t, (Task_ID t ==? Task_ID task) && negb (Task_IsPreWarningSent t))
    (set_Task_IsPreWarningSent true);
  if (affected =? 0)%nat then mret tt
  else
    let task := set_Task_IsPreWarningSent true task in
    instance ← orThrow ErrRecordNotFound (findInstance (Task_InstanceID task));
    node ← orThrow ErrRecordNotFound (findNode (Task_NodeID task));
    EmitEvents [NewTaskDeadlineWarningEvent instance task node hoursLeft].
(** One task of a batch; one without deadline is skipped and not counted. *)
Definition preWarnOne (acc : nat * St) (task : Task) : nat * St :=
  let '(n, s) := acc in
  match Task_Deadline task with
  | None => (n, s)
  | Some deadline =>
      let '(now, s) := readClock s in
      match runInTx (outsidePipeline (sendPreWarning task (hoursUntil deadline now))) s with
      | (Ok _, s') => (S n, s')
      | (Err _, s') => (n, s')
      end
  end.
Fixpoint ScanPreWarnings (rounds : nat) (s : St) : bool * St :=
  match rounds with
  | O => (false, s)
  | S rounds =>
      let '(now, s) := readClock s in
      let tasks := take scanBatchSize (tselect (warnable s now) (db_tasks s)) in
      if (length tasks =? 0)%nat then (true, s)
      else
        let '(succeeded, s) := foldl preWarnOne (0, s) tasks in
        if (succeeded =? 0)%nat || (length tasks <? scanBatchSize)%nat then (true, s)
        else ScanPreWarnings rounds s
  end.

(** ** Retention *)
Definition CleanupExpiredRecords : M unit :=
  now ← Now;
  modify (λ s, set_snapshots (List.filter (λ f,
    negb (FormSnapshot_CreatedAt f <? now - formSnapshotRetention)%Z) (db_snapshots s)) s);;
  modify (λ s, set_urges (List.filter (λ u,
    negb (UrgeRecord_CreatedAt u <? now - urgeRecordRetention)%Z) (db_urges s)) s);;
  modify (upd_cc_records (List.filter (λ r,
    negb ((CCRecord_CreatedAt r <? now - ccRecordRetention)%Z && is_Some_b (CCRecord_ReadAt r))))).
End timeout.
