(* ===== verification/FlowCommands.v ===== *)
(** * Starting instances and managing flow versions

    [command/start_instance.go] with [service/start_flow.go], the initiation
    check of [service/validation.go] and [strategy/initiator.go];
    [command/publish_version.go]; [command/toggle_flow_active.go]. *)
From S2P Require Import Prelude Enums StateMachine Models Demo Store Shared FormValidation FormStorage Delegation Binding.
From S2P Require Import PassRule Processors Engine Tenancy TaskService NodeService Commands.

(** ** Who may start a flow ([strategy/initiator.go]) *)
Section initiators.
Context `{!Host}.

(** [shared.UserHasRole]; the per-call memo only saves repeated questions. *)
Definition UserHasRole (userID roleID : string) : res bool :=
  match assigneeService with
  | None => Ok false
  | Some svc =>
      match roleMembershipChecker with
      | Some check => check userID roleID
      | None =>
          users ← GetRoleUsers svc roleID;
          Ok (existsb (λ u, UserInfo_ID u ==? userID) users)
      end
  end.

Definition UserInitiatorResolver_Permits (rc : InitiatorResolveContext) : res bool :=
  Ok (bool_decide (UserInfo_ID (InitiatorResolveContext_Applicant rc)
                   ∈ InitiatorResolveContext_IDs rc)).
Definition DepartmentInitiatorResolver_Permits (rc : InitiatorResolveContext) : res bool :=
  Ok (match UserInfo_DepartmentID (InitiatorResolveContext_Applicant rc) with
      | None => false
      | Some d => bool_decide (d ∈ InitiatorResolveContext_IDs rc)
      end).
Fixpoint anyRole (userID : string) (roleIDs : list string) : res bool :=
  match roleIDs with
  | [] => Ok false
  | roleID :: rest =>
      member ← UserHasRole userID roleID;
      if member : bool then Ok true else anyRole userID rest
  end.
Definition RoleInitiatorResolver_Permits (rc : InitiatorResolveContext) : res bool :=
  anyRole (UserInfo_ID (InitiatorResolveContext_Applicant rc)) (InitiatorResolveContext_IDs rc).

(** [NewCompositeInitiatorResolver]: host resolvers overlaid on the built-ins. *)
Definition initiatorResolver (kind : string) : option (InitiatorResolveContext → res bool) :=
  match hostInitiatorResolvers !! kind with
  | Some r => Some r
  | None =>
      if kind ==? "user" then Some UserInitiatorResolver_Permits
      else if kind ==? "role" then Some RoleInitiatorResolver_Permits
      else if kind ==? "department" then Some DepartmentInitiatorResolver_Permits
      else None
  end.

(** [CompositeInitiatorResolver.PermitsAny] *)
Fixpoint PermitsAny (initiators : list FlowInitiator) (flowID tenantID : string)
    (applicant : UserInfo) : res bool :=
  match initiators with
  | [] => Ok false
  | initiator :: rest =>
      match initiatorResolver (FlowInitiator_Kind initiator) with
      | None => Err ErrInitiatorResolverNotFound
      | Some permits =>
          permitted ← permits (Build_InitiatorResolveContext flowID tenantID applicant
            (FlowInitiator_Kind initiator) (FlowInitiator_IDs initiator));
          if permitted : bool then Ok true else PermitsAny rest flowID tenantID applicant
      end
  end.

(** [InitiableFlowIDs] *)
Fixpoint initiableLoop (rulesOf : string → list FlowInitiator) (flows : list Flow)
    (tenantID : string) (applicant : UserInfo) : res (list string) :=
  match flows with
  | [] => Ok []
  | flow :: rest =>
      admitted ← (if Flow_IsAllInitiationAllowed flow then Ok true
                  else if (length (rulesOf (Flow_ID flow)) =? 0)%nat then Ok false
                  else PermitsAny (rulesOf (Flow_ID flow)) (Flow_ID flow) tenantID applicant);
      permitted ← initiableLoop rulesOf rest tenantID applicant;
      Ok (if admitted : bool then Flow_ID flow :: permitted else permitted)
  end.
Definition rulesByFlow (s : St) (flows : list Flow) (flowID : string) : list FlowInitiator :=
  let restrictedIDs :=
    Flow_ID <$> List.filter (λ f, negb (Flow_IsAllInitiationAllowed f)) flows in
  tselect (λ i, FlowInitiator_FlowID i ==? flowID)
    (tselect (λ i, bool_decide (FlowInitiator_FlowID i ∈ restrictedIDs)) (db_initiators s)).
Definition InitiableFlowIDs (flows : list Flow) (tenantID : string) (applicant : UserInfo)
    : M (list string) :=
  rules ← gets (λ s, rulesByFlow s flows);
  liftR (initiableLoop rules flows tenantID applicant).
Definition CheckInitiationPermission (flow : Flow) (tenantID : string) (applicant : UserInfo)
    : M bool :=
  ids ← InitiableFlowIDs [flow] tenantID applicant;
  mret (0 <? length ids)%nat.
End initiators.

(** ** [FindStartFlow] *)

(** The loop: the tenant's own flow if there is one, else the last shared one. *)
Fixpoint pickStartFlow (tenantID : string) (flows : list Flow) (sharedFlow : option Flow)
    : option Flow :=
  match flows with
  | [] => sharedFlow
  | f :: rest => if Flow_TenantID f ==? tenantID then Some f else pickStartFlow tenantID rest (Some f)
  end.
Definition FindStartFlow (tenantID code : string) : M Flow :=
  flows ← gets (λ s, tselect (λ f, (Flow_Code f ==? code)
    && ((Flow_TenantID f ==? tenantID) || Flow_IsShared f)) (db_flows s));
  match pickStartFlow tenantID flows None with
  | None => throw ErrFlowNotFound
  | Some f => mret f
  end.

(** ** The title *)
Definition instanceTitleMaxRunes : nat := 256.

Definition isContinuation (a : Ascii.ascii) : bool :=
  (128 <=? Ascii.nat_of_ascii a)%nat && (Ascii.nat_of_ascii a <? 192)%nat.
(** [string([]rune(s)[:n])] of valid UTF-8. *)
Fixpoint takeRunes (n : nat) (s : string) : string :=
  match s with
  | EmptyString => EmptyString
  | String a s' =>
      if isContinuation a then String a (takeRunes n s')
      else match n with
           | 0 => EmptyString
           | S n' => String a (takeRunes n' s')
           end
  end.
Definition truncateRunes (s : string) (maxRunes : nat) : string :=
  if (RuneCountInString s <=? Z.of_nat maxRunes)%Z then s else takeRunes maxRunes s.

Record StartInstanceCmd := {
  sta_TenantID : string;
  sta_FlowCode : string;
  sta_Applicant : UserInfo;
  sta_BusinessRef : option string;
  sta_FormData : option (gmap string Value);
  sta_Globals : option (gmap string Value);
  sta_Caller : CallerContext;
}.

Section start.
Context `{!Host}.

Definition renderInstanceTitle (flow : Flow) (instanceNo : string)
    (formData : option (gmap string Value)) (applicant : UserInfo) : res string :=
  let template := Flow_InstanceTitleTemplate flow in
  if template ==? "" then
    Ok (truncateRunes (Flow_Name flow +:+ "-" +:+ instanceNo) instanceTitleMaxRunes)
  else
    text ← executeTitleTemplate template flow instanceNo formData applicant;
    Ok (truncateRunes text instanceTitleMaxRunes).

(** The version-pinned business binding of a new instance. *)
Definition bindBusiness (flow : Flow) (version : FlowVersion) (instance : Instance) : M Instance :=
  match FlowVersion_BusinessBinding version with
  | None => mret instance
  | Some binding =>
      let bindingFlow := set_Flow_BusinessBinding (Some binding)
        (set_Flow_BindingMode BindingBusiness flow) in
      businessRef ← liftR (refProvider bindingFlow instance);
      let trimmed := TrimSpace businessRef in
      instance ← (if negb (trimmed ==? "")
                     && match Instance_BusinessRef instance with
                        | None => true
                        | Some r => TrimSpace r ==? ""
                        end then
                    let instance := set_Instance_BusinessRef (Some trimmed) instance in
                    updateInstances (λ i, Instance_ID i ==? Instance_ID instance)
                      (set_Instance_BusinessRef (Some trimmed));;
                    mret instance
                  else mret instance);
      Projector_Bind bindingFlow version instance
  end.

(** [retry_business_projection.go] *)
Record RetryBusinessProjectionCmd := { ret_ProjectionID : string; ret_Caller : CallerContext }.
Definition RetryBusinessProjectionHandler_Handle (cmd : RetryBusinessProjectionCmd) : M unit :=
  projection ← orThrow ErrBindingProjectionNotFound (findProjection (ret_ProjectionID cmd));
  throwIf (negb (Allows (ret_Caller cmd) (BusinessProjection_TenantID projection))) ErrBindingProjectionNotFound;;
  Worker_Retry projection.

(** [start_instance.go] *)
Definition StartInstanceHandler_Handle (cmd : StartInstanceCmd) : M Instance :=
  tenantID ← liftR (match ResolveWriteTenant (sta_Caller cmd) (sta_TenantID cmd) with
                    | Ok t => Ok t
                    | Err _ => Err ErrFlowNotFound
                    end);
  flow ← FindStartFlow tenantID (sta_FlowCode cmd);
  throwIf (negb (Flow_IsActive flow)) ErrFlowNotActive;;
  allowed ← CheckInitiationPermission flow tenantID (sta_Applicant cmd);
  throwIf (negb allowed) ErrNotAllowedInitiate;;
  version ← orThrow ErrNoPublishedVersion (gets (λ s, tfirst (λ v,
    (FlowVersion_FlowID v ==? Flow_ID flow) && (FlowVersion_Status v ==? VersionPublished))
    (db_versions s)));
  liftR (ValidateFormData (FlowVersion_FormFields version) (sta_FormData cmd));;
  instanceNo ← liftR (generateInstanceNo tenantID (Flow_Code flow));
  title ← liftR (renderInstanceTitle flow instanceNo (sta_FormData cmd) (sta_Applicant cmd));
  let a := sta_Applicant cmd in
  instance ← insertInstance (Build_Instance "" 0 tenantID (Flow_ID flow) (Flow_Code flow)
    (FlowVersion_ID version) title instanceNo (UserInfo_ID a) (UserInfo_Name a)
    (UserInfo_DepartmentID a) (UserInfo_DepartmentName a) InstanceRunning None None
    (sta_BusinessRef cmd) (sta_FormData cmd) (sta_Globals cmd) None);
  instance ← bindBusiness flow version instance;
  SyncInstanceProjection instance;;
  addActionLog (NewActionLog a (Instance_ID instance) ActionSubmit);;
  LifecycleHookRunner_OnInstanceCreated instance;;
  EmitEvents [NewInstanceCreatedEvent instance];;
  StartProcess instance.
End start.

(** ** Versions and flows *)
Record PublishVersionCmd := { pub_VersionID : string; pub_OperatorID : string }.
Record ToggleFlowActiveCmd := { tog_FlowID : string; tog_IsActive : bool }.

Section versions.
Context `{!Host}.

Definition updateVersions (p : FlowVersion → bool) (f : FlowVersion → FlowVersion) : M nat := λ s,
  Ok (tcount p (db_versions s), upd_versions (tupdate p f) s).
Definition updateFlows (p : Flow → bool) (f : Flow → Flow) : M nat := λ s,
  Ok (tcount p (db_flows s), upd_flows (tupdate p f) s).

(** [publish_version.go]; invalidating the compiled-flow cache changes no row. *)
Definition PublishVersionHandler_Handle (cmd : PublishVersionCmd) : M unit :=
  version ← orThrow ErrVersionNotFound (findVersion (pub_VersionID cmd));
  throwIf (negb (FlowVersion_Status version ==? VersionDraft)) ErrVersionNotDraft;;
  flow ← orThrow ErrRecordNotFound (findFlow (FlowVersion_FlowID version));
  updateVersions (λ v, (FlowVersion_FlowID v ==? FlowVersion_FlowID version)
                       && (FlowVersion_Status v ==? VersionPublished))
    (set_FlowVersion_Status VersionArchived);;
  now ← Now;
  let publish v := set_FlowVersion_PublishedBy (Some (pub_OperatorID cmd))
    (set_FlowVersion_PublishedAt (Some now) (set_FlowVersion_Status VersionPublished v)) in
  updateVersions (λ v, FlowVersion_ID v ==? FlowVersion_ID version) publish;;
  updateFlows (λ f, Flow_ID f ==? FlowVersion_FlowID version)
    (set_Flow_CurrentVersion (FlowVersion_Version version));;
  ProvisionTable flow (publish version);;
  RecordMetadata flow (publish version);;
  EmitEvents [FlowPublishedEvent (NewFlowEventBase flow) (pub_VersionID cmd)].

(** [toggle_flow_active.go] *)
Definition ToggleFlowActiveHandler_Handle (cmd : ToggleFlowActiveCmd) : M unit :=
  flow ← orThrow ErrFlowNotFound (findFlow (tog_FlowID cmd));
  affected ← updateFlows (λ f, Flow_ID f ==? tog_FlowID cmd) (set_Flow_IsActive (tog_IsActive cmd));
  throwIf (affected =? 0)%nat ErrFlowNotFound;;
  EmitEvents [FlowToggledEvent (NewFlowEventBase flow) (tog_IsActive cmd)].
End versions.
