(* ===== verification/FlowManagement.v ===== *)
(** * Creating, changing and deploying flows

    [command/create_flow.go], [command/update_flow.go], [command/deploy_flow.go]
    with their checks: [command/flow_validation.go] and [ValidateLabels] of
    [orm/labels.go]. *)
From Stdlib Require Import Ascii.
From S2P Require Import Prelude Enums StateMachine Models Demo Store Shared FormValidation NodeConfig FormStorage Binding.
From S2P Require Import FlowDefinition Delegation PassRule Processors Engine Tenancy TaskService NodeService Commands FlowCommands.

(** ** Save-time checks *)

(** [^[A-Za-z0-9]([A-Za-z0-9_-]*[A-Za-z0-9])?$] *)
Definition labelEdge (a : ascii) : bool := isLower a || isUpper a || isDigit a.
Definition labelInner (a : ascii) : bool := labelEdge a || isUnderscore a || inRange 45 45 a.
Definition labelKeyPattern (key : string) : bool :=
  match bytes key with
  | [] => false
  | a :: rest => labelEdge a && forallb labelInner rest && labelEdge (default a (last rest))
  end.
Definition maxLabelKeyLength : nat := 63.
Definition maxLabelValueLength : Z := 256.
Definition ValidateLabels (labels : gmap string string) : bool :=
  forallb (λ kv : string * string,
    negb ((maxLabelKeyLength <? String.length kv.1)%nat || negb (labelKeyPattern kv.1))
    && negb (maxLabelValueLength <? RuneCountInString kv.2)%Z) (map_to_list labels).

Definition validateBindingMode (mode : BindingMode) : res unit :=
  failIf (negb (BindingMode_IsValid mode)) ErrInvalidBindingMode.
Definition validateFlowLabels (labels : gmap string string) : res unit :=
  failIf (negb (ValidateLabels labels)) ErrInvalidFlowLabel.

(** [CreateFlowInitiatorCmd] *)
Record InitiatorRule := { ini_Kind : string; ini_IDs : list string }.

Section checks.
Context `{!Host}.

Definition initiatorKinds : gmap string SelectionMode :=
  hostInitiatorSelections ∪
  {["user" := SelectionUser; "department" := SelectionDepartment; "role" := SelectionRole]}.
Definition validateInitiatorRule (rule : InitiatorRule) : res unit :=
  match CheckKindRule (ini_Kind rule) (ini_IDs rule) None initiatorKinds with
  | KindRuleUnknownKind | KindRuleFormFieldRequired => Err ErrInvalidInitiatorKind
  | KindRuleIDsRequired => Err ErrInitiatorsRequired
  | KindRuleOK => Ok tt
  end.
Definition validateInitiatorRules (isAllInitiationAllowed : bool) (initiators : list InitiatorRule) : res unit :=
  if isAllInitiationAllowed then failIf (0 <? length initiators)%nat ErrInitiatorsNotAllowed
  else
    failIf (length initiators =? 0)%nat ErrInitiatorsRequired ≫= λ _,
    checkAll validateInitiatorRule initiators.
Definition validateInstanceTitleTemplate (titleTemplate : string) : res unit :=
  if titleTemplate ==? "" then Ok tt
  else failIf (negb (titleTemplateParses titleTemplate)) ErrInvalidTitleTemplate.
Definition validateBoundSchema (binding : option BusinessBindingConfig) : res unit :=
  match binding with Some b => ValidateSchema b | None => Ok tt end.

(** ** Inserts *)
Definition insertFlow (f : Flow) : M Flow :=
  id ← freshID; let f := set_Flow_ID id f in modify (upd_flows (λ l, l ++ [f]));; mret f.
Definition insertVersion (v : FlowVersion) : M FlowVersion :=
  id ← freshID; let v := set_FlowVersion_ID id v in modify (upd_versions (λ l, l ++ [v]));; mret v.
Definition insertNode (n : FlowNode) : M FlowNode :=
  id ← freshID; let n := set_FlowNode_ID id n in modify (upd_nodes (λ l, l ++ [n]));; mret n.
Definition insertEdge (e : FlowEdge) : M unit :=
  id ← freshID; modify (upd_edges (λ l, l ++ [set_FlowEdge_ID id e])).
Definition insertNodeAssignee (a : FlowNodeAssignee) : M unit :=
  id ← freshID; modify (upd_node_assignees (λ l, l ++ [set_FlowNodeAssignee_ID id a])).
Definition insertNodeCC (c : FlowNodeCC) : M unit :=
  id ← freshID; modify (upd_node_ccs (λ l, l ++ [set_FlowNodeCC_ID id c])).
Definition insertInitiator (i : FlowInitiator) : M unit :=
  id ← freshID; modify (upd_initiators (λ l, l ++ [set_FlowInitiator_ID id i])).
Definition insertInitiators (flowID : string) (rules : list InitiatorRule) : M unit :=
  foldM (λ _ r, insertInitiator (Build_FlowInitiator "" flowID (ini_Kind r) (ini_IDs r))) tt rules.

(** ** Creating a flow *)
Record CreateFlowCmd := {
  crf_TenantID : string; crf_IsShared : bool; crf_Code : string; crf_Name : string; crf_CategoryID : string;
  crf_Icon : option string; crf_Description : option string; crf_Labels : gmap string string;
  crf_BindingMode : BindingMode; crf_BusinessBinding : option BusinessBindingConfig;
  crf_AdminUserIDs : list string; crf_IsAllInitiationAllowed : bool; crf_InstanceTitleTemplate : string;
  crf_Initiators : list InitiatorRule;
}.
Definition requireFreeSharedCode (flowCode : string) : M unit :=
  taken ← gets (λ s, texists (λ f, (Flow_Code f ==? flowCode) && Flow_IsShared f) (db_flows s));
  throwIf taken ErrSharedFlowCodeExists.
Definition requireTenantCategory (categoryID tenantID : string) : M unit :=
  category ← orThrow ErrCategoryNotFound
    (gets (λ s, tfirst (λ c, FlowCategory_ID c ==? categoryID) (db_categories s)));
  throwIf (negb (FlowCategory_TenantID category ==? tenantID)) ErrCategoryNotFound.
Definition CreateFlowHandler_Handle (cmd : CreateFlowCmd) : M Flow :=
  liftR (validateBindingMode (crf_BindingMode cmd));;
  liftR (validateInitiatorRules (crf_IsAllInitiationAllowed cmd) (crf_Initiators cmd));;
  liftR (validateFlowLabels (crf_Labels cmd));;
  businessBinding ← liftR (NormalizeConfig (crf_BindingMode cmd) (crf_BusinessBinding cmd));
  liftR (validateBoundSchema businessBinding);;
  liftR (validateInstanceTitleTemplate (crf_InstanceTitleTemplate cmd));;
  exists_ ← gets (λ s, texists (λ f, (Flow_TenantID f ==? crf_TenantID cmd) && (Flow_Code f ==? crf_Code cmd))
    (db_flows s));
  throwIf exists_ ErrFlowCodeExists;;
  (if crf_IsShared cmd then requireFreeSharedCode (crf_Code cmd) else mret tt);;
  requireTenantCategory (crf_CategoryID cmd) (crf_TenantID cmd);;
  flow ← insertFlow (Build_Flow "" (crf_TenantID cmd) (crf_IsShared cmd) (crf_CategoryID cmd) (crf_Code cmd)
    (crf_Name cmd) (crf_Icon cmd) (crf_Description cmd) (crf_Labels cmd) (crf_BindingMode cmd)
    (storedBinding <$> businessBinding) (crf_AdminUserIDs cmd) (crf_IsAllInitiationAllowed cmd)
    (crf_InstanceTitleTemplate cmd) true 0);
  insertInitiators (Flow_ID flow) (crf_Initiators cmd);;
  EmitEvents [FlowCreatedEvent (NewFlowEventBase flow) (Flow_CategoryID flow)];;
  mret flow.

(** ** Changing a flow *)
Record UpdateFlowCmd := {
  upf_FlowID : string; upf_Name : string; upf_Icon : option string; upf_Description : option string;
  upf_Labels : gmap string string; upf_BindingMode : BindingMode;
  upf_BusinessBinding : option BusinessBindingConfig; upf_AdminUserIDs : list string;
  upf_IsAllInitiationAllowed : bool; upf_InstanceTitleTemplate : string; upf_Initiators : list InitiatorRule;
}.
Definition applyUpdate (cmd : UpdateFlowCmd) (businessBinding : option BusinessBindingConfig) (f : Flow) : Flow :=
  Build_Flow (Flow_ID f) (Flow_TenantID f) (Flow_IsShared f) (Flow_CategoryID f) (Flow_Code f) (upf_Name cmd)
    (upf_Icon cmd) (upf_Description cmd) (upf_Labels cmd) (upf_BindingMode cmd) businessBinding
    (upf_AdminUserIDs cmd) (upf_IsAllInitiationAllowed cmd) (upf_InstanceTitleTemplate cmd) (Flow_IsActive f)
    (Flow_CurrentVersion f).
Definition UpdateFlowHandler_Handle (cmd : UpdateFlowCmd) : M Flow :=
  flow ← orThrow ErrFlowNotFound (findFlow (upf_FlowID cmd));
  liftR (validateInstanceTitleTemplate (upf_InstanceTitleTemplate cmd));;
  liftR (validateBindingMode (upf_BindingMode cmd));;
  liftR (validateInitiatorRules (upf_IsAllInitiationAllowed cmd) (upf_Initiators cmd));;
  liftR (validateFlowLabels (upf_Labels cmd));;
  businessBinding ← liftR (NormalizeConfig (upf_BindingMode cmd) (upf_BusinessBinding cmd));
  let bindingChanged := negb (Flow_BindingMode flow ==? upf_BindingMode cmd)
                        || negb (Flow_BusinessBinding flow ==? businessBinding) in
  (if bindingChanged then liftR (validateBoundSchema businessBinding) else mret tt);;
  let update := applyUpdate cmd (storedBinding <$> businessBinding) in
  updateFlows (λ f, Flow_ID f ==? upf_FlowID cmd) update;;
  modify (upd_initiators (List.filter (λ i, negb (FlowInitiator_FlowID i ==? upf_FlowID cmd))));;
  insertInitiators (upf_FlowID cmd) (upf_Initiators cmd);;
  EmitEvents [FlowUpdatedEvent (NewFlowEventBase (update flow))];;
  mret (update flow).

(** ** Deploying a version *)
Record DeployFlowCmd := {
  dep_FlowID : string; dep_Description : option string; dep_StorageMode : StorageMode;
  dep_FlowDefinition : FlowDefinition; dep_FormSchema : option string;
}.
(** [deployment] *)
Record deployment := {
  pln_nodeData : gmap string NodeData; pln_fields : list FormFieldDefinition; pln_storageMode : StorageMode;
}.
Definition asFlowDesign {A} (r : des A) : res A :=
  match r with Ok a => Ok a | Err _ => Err ErrInvalidFlowDesign end.
Definition asFormDesign {E A} (r : result E A) : res A :=
  match r with Ok a => Ok a | Err _ => Err ErrInvalidFormDesign end.
Definition validate (cmd : DeployFlowCmd) : res deployment :=
  asFlowDesign (ValidateFlowDefinition (dep_FlowDefinition cmd)) ≫= λ parsedNodeData,
  parseFormFields (dep_FormSchema cmd) ≫= λ fields,
  asFormDesign (ValidateFormFields fields) ≫= λ _,
  asFlowDesign (ValidateConditionAggregates parsedNodeData fields) ≫= λ _,
  asFlowDesign (ValidateFieldPermissions parsedNodeData fields) ≫= λ _,
  let storageMode := cmpOr (StorageModeOther "") (dep_StorageMode cmd) StorageJSON in
  failIf (negb (StorageMode_IsValid storageMode)) ErrInvalidStorageMode ≫= λ _,
  (if storageMode ==? StorageTable then asFormDesign (ValidateTableFormSchema fields) else Ok tt) ≫= λ _,
  Ok (Build_deployment parsedNodeData fields storageMode).

(** The columns [loadDeployFlow] selects; the others keep their zero value. *)
Definition deployColumns (f : Flow) : Flow :=
  Build_Flow (Flow_ID f) "" false "" (Flow_Code f) (Flow_Name f) None None ∅ (Flow_BindingMode f)
    (Flow_BusinessBinding f) [] false "" false 0.
Definition loadDeployFlow (flowID : string) : M (Flow * option BusinessBindingConfig) :=
  flow ← orThrow ErrFlowNotFound (findFlow flowID);
  businessBinding ← liftR (NormalizeConfig (Flow_BindingMode flow) (Flow_BusinessBinding flow));
  mret (deployColumns flow, businessBinding).
(** [MAX(version)] is null, read as zero, when there is no version. *)
Definition latestVersion (versions : list FlowVersion) (flowID : string) : Z :=
  match FlowVersion_Version <$> tselect (λ v, FlowVersion_FlowID v ==? flowID) versions with
  | [] => 0
  | n :: rest => foldl Z.max n rest
  end.
Definition nextVersionNumber (flowID : string) : M Z := gets (λ s, (latestVersion (db_versions s) flowID + 1)%Z).

Definition plannedNode (versionID : string) (nodeData : gmap string NodeData) (nodeDef : NodeDefinition)
    : res (FlowNode * NodeData) :=
  match nodeData !! NodeDefinition_ID nodeDef with
  | Some data =>
      Ok (ApplyTo data versionID (NodeDefinition_ID nodeDef) (NodeDefinition_Kind nodeDef), data)
  | None => Err (ErrHost "nil node data")
  end.
Fixpoint plannedNodes (versionID : string) (nodeData : gmap string NodeData) (defs : list NodeDefinition)
    : res (list (FlowNode * NodeData)) :=
  match defs with
  | [] => Ok []
  | d :: rest =>
      plannedNode versionID nodeData d ≫= λ n, plannedNodes versionID nodeData rest ≫= λ ns, Ok (n :: ns)
  end.
Definition insertNodes (ns : list FlowNode) : M (list FlowNode) :=
  foldM (λ acc n, n' ← insertNode n; mret (acc ++ [n'])) [] ns.
Definition nodeKeyToID (nodes : list FlowNode) : gmap string string :=
  foldl (λ m n, <[FlowNode_Key n := FlowNode_ID n]> m) ∅ nodes.
Definition assigneeRows (p : FlowNode * NodeData) : list FlowNodeAssignee :=
  (λ a, Build_FlowNodeAssignee "" (FlowNode_ID p.1) (AssigneeDefinition_Kind a) (AssigneeDefinition_IDs a)
          (AssigneeDefinition_FormField a) (AssigneeDefinition_SortOrder a)) <$> GetAssignees p.2.
Definition ccRows (p : FlowNode * NodeData) : list FlowNodeCC :=
  (λ c, Build_FlowNodeCC "" (FlowNode_ID p.1) (CCDefinition_Kind c) (CCDefinition_IDs c)
          (CCDefinition_FormField c) (cmpOr (CCTimingOther "") (CCDefinition_Timing c) CCTimingAlways))
  <$> GetCCs p.2.
Definition edgeRow (versionID : string) (ids : gmap string string) (e : EdgeDefinition) : res FlowEdge :=
  match ids !! EdgeDefinition_Source e, ids !! EdgeDefinition_Target e with
  | Some src, Some dst =>
      Ok (Build_FlowEdge "" versionID (EdgeDefinition_ID e) src (EdgeDefinition_Source e) dst
            (EdgeDefinition_Target e) (EdgeDefinition_SourceHandle e))
  | _, _ => Err ErrInvalidFlowDesign
  end.
Fixpoint edgeRows (versionID : string) (ids : gmap string string) (es : list EdgeDefinition)
    : res (list FlowEdge) :=
  match es with
  | [] => Ok []
  | e :: rest => edgeRow versionID ids e ≫= λ r, edgeRows versionID ids rest ≫= λ rs, Ok (r :: rs)
  end.

Definition DeployFlowHandler_Handle (cmd : DeployFlowCmd) : M FlowVersion :=
  planned ← liftR (validate cmd);
  loaded ← loadDeployFlow (dep_FlowID cmd);
  versionNumber ← nextVersionNumber (Flow_ID loaded.1);
  version ← insertVersion (Build_FlowVersion "" (Flow_ID loaded.1) versionNumber VersionDraft
    (dep_Description cmd) (pln_storageMode planned) (Some (dep_FlowDefinition cmd)) (dep_FormSchema cmd)
    (pln_fields planned) None None loaded.2);
  parsedNodes ← liftR (plannedNodes (FlowVersion_ID version) (pln_nodeData planned)
    (FlowDefinition_Nodes (dep_FlowDefinition cmd)));
  nodes ← insertNodes parsedNodes.*1;
  let stored := zip nodes parsedNodes.*2 in
  foldM (λ _ a, insertNodeAssignee a) tt (stored ≫= assigneeRows);;
  foldM (λ _ c, insertNodeCC c) tt (stored ≫= ccRows);;
  edges ← liftR (edgeRows (FlowVersion_ID version) (nodeKeyToID nodes)
    (FlowDefinition_Edges (dep_FlowDefinition cmd)));
  foldM (λ _ e, insertEdge e) tt edges;;
  EmitEvents [FlowDeployedEvent (NewFlowEventBase loaded.1) (FlowVersion_ID version) (FlowVersion_Version version)];;
  mret version.
End checks.

(** ** What the management commands write

    The definition tables, row ids, statements for generated tables and events; the
    clock is read. *)
Class OffDefinitions `{!Host} (R : relation St) := {
  off_preorder :: PreOrder R;
  off_Now : keeps R Now;
  off_freshID : keeps R freshID;
  off_EmitEvents evs : keeps R (EmitEvents evs);
  off_updateVersions p f : keeps R (updateVersions p f);
  off_updateFlows p f : keeps R (updateFlows p f);
  off_flows f : keeps R (modify (E := Error) (upd_flows f));
  off_versions f : keeps R (modify (E := Error) (upd_versions f));
  off_node_assignees f : keeps R (modify (E := Error) (upd_node_assignees f));
  off_node_ccs f : keeps R (modify (E := Error) (upd_node_ccs f));
  off_initiators f : keeps R (modify (E := Error) (upd_initiators f));
  off_statements f : keeps R (modify (E := Error) (upd_statements f));
  off_form_tables f : keeps R (modify (E := Error) (upd_form_tables f));
  off_form_columns f : keeps R (modify (E := Error) (upd_form_columns f));
}.
Section frame.
Context `{!Host} (R : relation St) `{!OffDefinitions R}.
#[local] Hint Resolve off_Now off_freshID off_EmitEvents off_updateVersions off_updateFlows off_flows off_versions
  off_node_assignees off_node_ccs off_initiators off_statements off_form_tables off_form_columns : keeps.
Lemma off_SyncInstanceProjection i : keeps R (SyncInstanceProjection i).
Proof. apply keeps_SyncInstanceProjection; eauto with keeps typeclass_instances. Qed.
Lemma off_PublishVersion cmd : keeps R (PublishVersionHandler_Handle cmd).
Proof.
  unfold PublishVersionHandler_Handle, orThrow, findVersion, findFlow. keeps_tac.
  - apply keeps_ProvisionTable; eauto with keeps typeclass_instances.
  - apply keeps_RecordMetadata; eauto with keeps typeclass_instances.
Qed.
Lemma off_ToggleFlowActive cmd : keeps R (ToggleFlowActiveHandler_Handle cmd).
Proof. unfold ToggleFlowActiveHandler_Handle, orThrow, findFlow. keeps_tac. Qed.
Lemma off_CreateFlow cmd : keeps R (CreateFlowHandler_Handle cmd).
Proof.
  unfold CreateFlowHandler_Handle, requireFreeSharedCode, requireTenantCategory, insertInitiators,
    insertInitiator, insertFlow, orThrow. keeps_tac.
Qed.
Lemma off_UpdateFlow cmd : keeps R (UpdateFlowHandler_Handle cmd).
Proof. unfold UpdateFlowHandler_Handle, insertInitiators, insertInitiator, orThrow, findFlow. keeps_tac. Qed.
Lemma off_DeployFlow cmd :
  (∀ n, keeps R (insertNode n)) → (∀ e, keeps R (insertEdge e)) → keeps R (DeployFlowHandler_Handle cmd).
Proof.
  intros Hn He. unfold DeployFlowHandler_Handle, loadDeployFlow, nextVersionNumber, insertVersion,
    insertNodes, insertNodeAssignee, insertNodeCC, orThrow, findFlow. keeps_tac.
Qed.
End frame.
