(* ===== verification/Views.v ===== *)
(** * What people see of an instance

    The read side of [internal/approval/query]: what is loaded of an instance
    ([helpers.go]), what a viewer may see and edit ([field_permissions.go]), which
    actions, rollback targets and removable colleagues are offered
    ([get_my_instance_detail.go]), the account of what happened ([visit_index.go],
    [timeline.go]) and the progress diagram ([flow_graph.go]).

    Where a query orders by a time or position and then by id, ties stay in
    insertion order: ids are issued in time order.  An enum a view shows as its
    string is shown as the enum; the positions of the designer are not modelled. *)
From S2P Require Import Prelude Enums StateMachine Models Demo Store Shared FormValidation FormStorage Delegation Binding.
From S2P Require Import FlowDefinition PassRule Processors Engine Tenancy TaskService NodeService Commands.

(** ** People named in records *)
Definition Operator (l : ActionLog) : UserInfo :=
  Build_UserInfo (ActionLog_OperatorID l) (ActionLog_OperatorName l)
    (ActionLog_OperatorDepartmentID l) (ActionLog_OperatorDepartmentName l).
Definition TransferTo (l : ActionLog) : option UserInfo :=
  match ActionLog_TransferToID l with
  | None => None
  | Some id => Some (Build_UserInfo id (default "" (ActionLog_TransferToName l))
                       (ActionLog_TransferToDepartmentID l) (ActionLog_TransferToDepartmentName l))
  end.
Definition Urger (r : UrgeRecord) : UserInfo :=
  Build_UserInfo (UrgeRecord_UrgerID r) (UrgeRecord_UrgerName r)
    (UrgeRecord_UrgerDepartmentID r) (UrgeRecord_UrgerDepartmentName r).
Definition Target (r : UrgeRecord) : UserInfo :=
  Build_UserInfo (UrgeRecord_TargetUserID r) (UrgeRecord_TargetUserName r)
    (UrgeRecord_TargetUserDepartmentID r) (UrgeRecord_TargetUserDepartmentName r).

(** ** The views ([approval/node_view.go], [timeline_view.go], [flow_graph_view.go],
    [my/instance_detail.go]) *)
Record CCRecipient := { CCRecipient_User : UserInfo; CCRecipient_ReadAt : option DateTime }.
Definition Recipient (r : CCRecord) : CCRecipient :=
  Build_CCRecipient (Build_UserInfo (CCRecord_CCUserID r) (CCRecord_CCUserName r)
    (CCRecord_CCUserDepartmentID r) (CCRecord_CCUserDepartmentName r)) (CCRecord_ReadAt r).
Record NodeParticipant := {
  NodeParticipant_TaskID : string;
  NodeParticipant_User : UserInfo;
  NodeParticipant_Delegator : option UserInfo;
  NodeParticipant_Status : TaskStatus;
  NodeParticipant_Deadline : option DateTime;
  NodeParticipant_IsTimeout : bool;
  NodeParticipant_Opinion : option string;
  NodeParticipant_Attachments : list string;
  NodeParticipant_ActionTime : option DateTime;
  NodeParticipant_TransferTo : option UserInfo;
}.
(** [Activity.Action]: an action, or an urge. *)
Inductive ActivityAction := ActivityOf (a : ActionType) | ActivityUrge.
Record Activity := {
  Activity_Action : ActivityAction;
  Activity_Operator : UserInfo;
  Activity_Opinion : option string;
  Activity_Attachments : list string;
  Activity_TransferTo : option UserInfo;
  Activity_Target : option UserInfo;
  Activity_RollbackToNodeID : option string;
  Activity_RollbackToNodeName : option string;
  Activity_AddedAssignees : list UserInfo;
  Activity_RemovedAssignees : list UserInfo;
  Activity_CCUsers : list UserInfo;
  Activity_CreatedAt : DateTime;
}.
(** [TimelineEntryKind]: a node's kind, or the action of a milestone. *)
Inductive TimelineEntryKind := EntryNode (k : NodeKind) | EntryMilestone (a : ActionType).
Record TimelineEntry := {
  TimelineEntry_Kind : TimelineEntryKind;
  TimelineEntry_NodeID : option string;
  TimelineEntry_Name : string;
  TimelineEntry_Status : option NodeVisitStatus;
  TimelineEntry_ExecutionType : option ExecutionType;
  TimelineEntry_ApprovalMethod : option ApprovalMethod;
  TimelineEntry_PassRule : option PassRule;
  TimelineEntry_PassRatio : option Decimal;
  TimelineEntry_PassCount : option Z;
  TimelineEntry_Participants : list NodeParticipant;
  TimelineEntry_CCRecipients : list CCRecipient;
  TimelineEntry_Activities : list Activity;
  TimelineEntry_StartedAt : DateTime;
  TimelineEntry_FinishedAt : option DateTime;
}.
(** [NodeProgressStatus]: pending, or the status of a visit. *)
Inductive NodeProgressStatus := NodeProgressPending | NodeProgressOf (v : NodeVisitStatus).
#[export] Instance NodeProgressStatus_eq_dec : EqDecision NodeProgressStatus.
Proof. solve_decision. Defined.
Record FlowGraphNodeData := {
  FlowGraphNodeData_Name : string;
  FlowGraphNodeData_Status : NodeProgressStatus;
  FlowGraphNodeData_ExecutionType : option ExecutionType;
  FlowGraphNodeData_ApprovalMethod : option ApprovalMethod;
  FlowGraphNodeData_PassRule : option PassRule;
  FlowGraphNodeData_PassRatio : option Decimal;
  FlowGraphNodeData_PassCount : option Z;
  FlowGraphNodeData_Participants : list NodeParticipant;
  FlowGraphNodeData_CCRecipients : list CCRecipient;
  FlowGraphNodeData_Activities : list Activity;
  FlowGraphNodeData_StartedAt : option DateTime;
  FlowGraphNodeData_FinishedAt : option DateTime;
}.
Record FlowGraphNode := {
  FlowGraphNode_ID : string;
  FlowGraphNode_NodeID : string;
  FlowGraphNode_Kind : NodeKind;
  FlowGraphNode_Data : FlowGraphNodeData;
}.
Record InstanceFlowGraph := {
  InstanceFlowGraph_Nodes : list FlowGraphNode;
  InstanceFlowGraph_Edges : list EdgeDefinition;
}.
Record RollbackTarget := { RollbackTarget_NodeID : string; RollbackTarget_Name : string }.
Record RemovableAssignee := {
  RemovableAssignee_TaskID : string;
  RemovableAssignee_Assignee : UserInfo;
  RemovableAssignee_Status : TaskStatus;
}.
Record ViewerTask := {
  ViewerTask_TaskID : string;
  ViewerTask_NodeID : string;
  ViewerTask_IsOpinionRequired : bool;
  ViewerTask_AddAssigneeTypes : list AddAssigneeType;
  ViewerTask_RollbackTargets : list RollbackTarget;
  ViewerTask_RemovableAssignees : list RemovableAssignee;
}.
(** [my.InstanceInfo] *)
Record InstanceInfo := {
  InstanceInfo_InstanceID : string;
  InstanceInfo_InstanceNo : string;
  InstanceInfo_Title : string;
  InstanceInfo_FlowID : string;
  InstanceInfo_FlowCode : string;
  InstanceInfo_FlowName : string;
  InstanceInfo_FlowIcon : option string;
  InstanceInfo_Labels : gmap string string;
  InstanceInfo_Applicant : UserInfo;
  InstanceInfo_Status : InstanceStatus;
  InstanceInfo_CurrentNodeID : option string;
  InstanceInfo_CurrentNodeName : option string;
  InstanceInfo_BusinessRef : option string;
  InstanceInfo_FormData : option (gmap string Value);
  InstanceInfo_Globals : option (gmap string Value);
  InstanceInfo_CreatedAt : DateTime;
  InstanceInfo_FinishedAt : option DateTime;
}.
(** [my.InstanceDetail] *)
Record InstanceDetail := {
  InstanceDetail_Instance : InstanceInfo;
  InstanceDetail_FormSchema : option string;
  InstanceDetail_Timeline : list TimelineEntry;
  InstanceDetail_FlowGraph : InstanceFlowGraph;
  InstanceDetail_AvailableActions : list string;
  InstanceDetail_FieldPermissions : option (gmap string Permission);
  InstanceDetail_MyTask : option ViewerTask;
}.
(** [admin.InstanceDetail]; its [InstanceDetailInfo] is an [InstanceInfo] without icon
    and with the tenant and version. *)
Record AdminInstanceDetail := {
  AdminInstanceDetail_TenantID : string;
  AdminInstanceDetail_FlowVersionID : string;
  AdminInstanceDetail_Instance : InstanceInfo;
  AdminInstanceDetail_FormSchema : option string;
  AdminInstanceDetail_Timeline : list TimelineEntry;
  AdminInstanceDetail_FlowGraph : InstanceFlowGraph;
}.

(** ** What is loaded ([instanceDetailBundle]) *)
Record instanceDetailBundle := {
  bundle_Instance : Instance;
  bundle_Flow : option Flow;
  bundle_Tasks : list Task;
  bundle_ActionLogs : list ActionLog;
  bundle_FlowNodes : list FlowNode;
  bundle_Visits : list NodeVisit;
  bundle_CCRecords : list CCRecord;
  bundle_UrgeRecords : list UrgeRecord;
  bundle_FormSchema : option string;
  bundle_FormFields : list FormFieldDefinition;
  bundle_FlowSchema : option FlowDefinition;
}.
(** [NodeNameMap] *)
Definition nodeNameMap (nodes : list FlowNode) : gmap string string :=
  foldl (λ m n, <[FlowNode_ID n := FlowNode_Name n]> m) ∅ nodes.
Definition bundleOf (s : St) (instance : Instance) : instanceDetailBundle :=
  let I := Instance_ID instance in
  let version := tfirst (λ v, FlowVersion_ID v ==? Instance_FlowVersionID instance) (db_versions s) in {|
    bundle_Instance := instance;
    bundle_Flow := tfirst (λ f, Flow_ID f ==? Instance_FlowID instance) (db_flows s);
    bundle_Tasks := orderBy Task_SortOrder (tselect (λ t, Task_InstanceID t ==? I) (db_tasks s));
    bundle_ActionLogs := orderBy ActionLog_CreatedAt (tselect (λ l, ActionLog_InstanceID l ==? I) (db_logs s));
    bundle_FlowNodes := tselect (λ n, FlowNode_FlowVersionID n ==? Instance_FlowVersionID instance) (db_nodes s);
    bundle_Visits := orderBy NodeVisit_Sequence (tselect (λ v, NodeVisit_InstanceID v ==? I) (db_visits s));
    bundle_CCRecords := orderBy CCRecord_CreatedAt (tselect (λ r, CCRecord_InstanceID r ==? I) (db_cc_records s));
    bundle_UrgeRecords := orderBy UrgeRecord_CreatedAt (tselect (λ r, UrgeRecord_InstanceID r ==? I) (db_urges s));
    bundle_FormSchema := version ≫= FlowVersion_FormSchema;
    bundle_FormFields := default [] (FlowVersion_FormFields <$> version);
    bundle_FlowSchema := version ≫= FlowVersion_FlowSchema;
  |}.
Definition loadInstanceDetailBundle (instanceID : string) : M instanceDetailBundle :=
  instance ← orThrow ErrInstanceNotFound (findInstance instanceID);
  gets (λ s, bundleOf s instance).

(** ** What a viewer may see and edit ([field_permissions.go]) *)
Definition permissionRank (p : Permission) : nat :=
  match p with
  | PermissionHidden => 0
  | PermissionVisible => 1
  | PermissionEditable => 2
  | PermissionRequired => 3
  | PermissionOther _ => 0
  end.
Definition strongerPermission (a b : Permission) : Permission :=
  if (permissionRank a <? permissionRank b)%nat then b else a.
(** [result[k] = strongerPermission(result[k], p)] *)
Definition strengthen (result : gmap string Permission) (k : string) (p : Permission) : gmap string Permission :=
  <[k := strongerPermission (default (PermissionOther "") (result !! k)) p]> result.
(** What a node's permissions say of a field; read-only contexts cannot grant writing. *)
Definition nodePermission (perms : gmap string Permission) (downgrade : bool) (k : string) : Permission :=
  let p := default PermissionVisible (perms !! k) in
  if downgrade && (permissionRank PermissionVisible <? permissionRank p)%nat then PermissionVisible else p.
Definition contributeNodeMap (keys : list string) (nodePerms : gmap string (gmap string Permission))
    (nodeID : string) (downgrade : bool) (result : gmap string Permission) : gmap string Permission :=
  foldl (λ result k, strengthen result k (nodePermission (default ∅ (nodePerms !! nodeID)) downgrade k)) result keys.
Definition contributeUniform (keys : list string) (p : Permission) (result : gmap string Permission)
    : gmap string Permission :=
  foldl (λ result k, strengthen result k p) result keys.
Definition contributeTask (keys : list string) (nodePerms : gmap string (gmap string Permission)) (userID : string)
    (result : gmap string Permission) (task : Task) : gmap string Permission :=
  if Task_AssigneeID task ==? userID then
    contributeNodeMap keys nodePerms (Task_NodeID task) (negb (Task_Status task ==? TaskPending)) result
  else if Task_DelegatorID task ==? Some userID then
    contributeNodeMap keys nodePerms (Task_NodeID task) true result
  else result.
Definition contributeCC (keys : list string) (nodePerms : gmap string (gmap string Permission)) (userID : string)
    (result : gmap string Permission) (cc : CCRecord) : gmap string Permission :=
  if negb (CCRecord_CCUserID cc ==? userID) then result
  else match CCRecord_NodeID cc with
       | None => contributeUniform keys PermissionVisible result
       | Some nodeID => contributeNodeMap keys nodePerms nodeID true result
       end.
Definition contributeApplicant (keys : list string) (instance : Instance) (userID : string)
    (result : gmap string Permission) : gmap string Permission :=
  if Instance_ApplicantID instance ==? userID then
    contributeUniform keys
      (if CanTransition InstanceStateMachine (Instance_Status instance) InstanceRunning
       then PermissionEditable else PermissionVisible) result
  else result.
Definition nodePermissions (nodes : list FlowNode) : gmap string (gmap string Permission) :=
  foldl (λ m n, <[FlowNode_ID n := FlowNode_FieldPermissions n]> m) ∅ nodes.
Definition resolveViewerFieldPermissions (bundle : instanceDetailBundle) (userID : string)
    : option (gmap string Permission) :=
  if (length (bundle_FormFields bundle) =? 0)%nat then None
  else
    let keys := FormField_Key <$> bundle_FormFields bundle in
    let nodePerms := nodePermissions (bundle_FlowNodes bundle) in
    let result := foldl (λ m k, <[k := PermissionHidden]> m) ∅ keys in
    let result := foldl (contributeTask keys nodePerms userID) result (bundle_Tasks bundle) in
    let result := foldl (contributeCC keys nodePerms userID) result (bundle_CCRecords bundle) in
    Some (contributeApplicant keys (bundle_Instance bundle) userID result).
Definition stripHiddenFormData (formData : option (gmap string Value)) (perms : option (gmap string Permission))
    : option (gmap string Value) :=
  match formData with
  | None => None
  | Some data => Some (filter (λ kv, default ∅ perms !! kv.1 ≠ Some PermissionHidden) data)
  end.

(** ** What is offered ([get_my_instance_detail.go]) *)
Definition add (o : OrderedUnique string) (action : string) : OrderedUnique string := (OrderedUnique_Add o action).1.
Definition addWhen (b : bool) (action : string) (o : OrderedUnique string) : OrderedUnique string :=
  if b then add o action else o.
Definition nodesByID (nodes : list FlowNode) : gmap string FlowNode :=
  foldl (λ m n, <[FlowNode_ID n := n]> m) ∅ nodes.
(** What the viewer may do with a pending task of their own. *)
Definition addTaskActions (node : option FlowNode) (actions : OrderedUnique string) : OrderedUnique string :=
  let actions := add actions (if match node with Some n => FlowNode_Kind n ==? NodeHandle | None => false end
                              then "handle" else "approve") in
  let actions := add actions "reject" in
  match node with
  | None => actions
  | Some n =>
      let actions := addWhen (FlowNode_IsTransferAllowed n) "transfer" actions in
      let actions := addWhen (FlowNode_IsRollbackAllowed n) "rollback" actions in
      let actions := addWhen (FlowNode_IsAddAssigneeAllowed n) "add_assignee" actions in
      let actions := addWhen (FlowNode_IsRemoveAssigneeAllowed n) "remove_assignee" actions in
      addWhen (FlowNode_IsManualCCAllowed n) "add_cc" actions
  end.
(** One round of the loop over the tasks: the actions so far, whether some task is
    pending, whether one was ever the viewer's. *)
Definition scanTask (nodeByID : gmap string FlowNode) (userID : string)
    (acc : OrderedUnique string * bool * bool) (t : Task) : OrderedUnique string * bool * bool :=
  let '(actions, hasPendingTask, hasOwnOrDelegatedTask) := acc in
  let hasOwnOrDelegatedTask :=
    hasOwnOrDelegatedTask || (Task_AssigneeID t ==? userID) || (Task_DelegatorID t ==? Some userID) in
  if negb (Task_Status t ==? TaskPending) then (actions, hasPendingTask, hasOwnOrDelegatedTask)
  else if negb (Task_AssigneeID t ==? userID) then (actions, true, hasOwnOrDelegatedTask)
  else (addTaskActions (nodeByID !! Task_NodeID t) actions, true, hasOwnOrDelegatedTask).
Definition computeActions (instance : Instance) (tasks : list Task) (flowNodes : list FlowNode) (userID : string)
    : list string :=
  let isApplicant := Instance_ApplicantID instance ==? userID in
  let actions := addWhen (isApplicant
    && CanTransition InstanceStateMachine (Instance_Status instance) InstanceWithdrawn) "withdraw" NewOrderedUnique in
  let actions := addWhen (isApplicant
    && CanTransition InstanceStateMachine (Instance_Status instance) InstanceRunning) "resubmit" actions in
  let '(actions, hasPendingTask, hasOwnOrDelegatedTask) :=
    foldl (scanTask (nodesByID flowNodes) userID) (actions, false, false) tasks in
  OrderedUnique_ToSlice (addWhen (hasPendingTask && (isApplicant || hasOwnOrDelegatedTask)) "urge" actions).

Definition isRemovable (own task : Task) : bool :=
  negb (Task_ID task ==? Task_ID own) && (Task_VisitID task ==? Task_VisitID own)
  && ((Task_Status task ==? TaskPending) || (Task_Status task ==? TaskWaiting)).
Definition resolveRemovableAssignees (tasks : list Task) (own : Task) : list RemovableAssignee :=
  (λ t, Build_RemovableAssignee (Task_ID t) (Assignee t) (Task_Status t)) <$> List.filter (isRemovable own) tasks.

Definition nodesByKey (nodes : list FlowNode) : gmap string FlowNode :=
  foldl (λ m n, <[FlowNode_Key n := n]> m) ∅ nodes.
(** The nodes the instance has been through. *)
Definition concludedNodes (visits : list NodeVisit) : gset string :=
  list_to_set (NodeVisit_NodeID <$> List.filter visitConcluded visits).
Definition rollbackCandidates (bundle : instanceDetailBundle) (current : FlowNode) : list FlowNode :=
  let nodeByKey := nodesByKey (bundle_FlowNodes bundle) in
  let concluded := concludedNodes (bundle_Visits bundle) in
  match FlowNode_RollbackType current with
  | RollbackPrevious =>
      omap (λ edge,
        match nodeByKey !! EdgeDefinition_Target edge with
        | Some target => if FlowNode_ID target ==? FlowNode_ID current
                         then nodeByKey !! EdgeDefinition_Source edge else None
        | None => None
        end) (default [] (FlowDefinition_Edges <$> bundle_FlowSchema bundle))
  | RollbackStart =>
      take 1 (List.filter (λ n, FlowNode_Kind n ==? NodeStart) (map_to_list (nodesByID (bundle_FlowNodes bundle))).*2)
  | RollbackAny =>
      List.filter (λ n, match FlowNode_Kind n with
                        | NodeApproval | NodeHandle | NodeStart => bool_decide (FlowNode_ID n ∈ concluded)
                        | _ => false
                        end) (bundle_FlowNodes bundle)
  | RollbackSpecified =>
      omap (λ key, match nodeByKey !! key with
                   | Some n => if bool_decide (FlowNode_ID n ∈ concluded) then Some n else None
                   | None => None
                   end) (FlowNode_RollbackTargetKeys current)
  | RollbackNone | RollbackTypeOther _ => []
  end.
Definition offerTarget (current : FlowNode) (acc : gset string * list RollbackTarget) (node : FlowNode)
    : gset string * list RollbackTarget :=
  let '(seen, targets) := acc in
  if (FlowNode_ID node ==? FlowNode_ID current) || bool_decide (FlowNode_ID node ∈ seen) then acc
  else ({[FlowNode_ID node]} ∪ seen, targets ++ [Build_RollbackTarget (FlowNode_ID node) (FlowNode_Name node)]).
Definition resolveRollbackTargets (bundle : instanceDetailBundle) (current : FlowNode) : list RollbackTarget :=
  (foldl (offerTarget current) (∅, []) (rollbackCandidates bundle current)).2.

Definition ownPending (userID : string) (t : Task) : bool :=
  (Task_AssigneeID t ==? userID) && (Task_Status t ==? TaskPending).
Definition buildViewerTask (bundle : instanceDetailBundle) (userID : string) : option ViewerTask :=
  match tfirst (ownPending userID) (bundle_Tasks bundle) with
  | None => None
  | Some task =>
      Some (match tfirst (λ n, FlowNode_ID n ==? Task_NodeID task) (bundle_FlowNodes bundle) with
            | None => Build_ViewerTask (Task_ID task) (Task_NodeID task) false [] [] []
            | Some node =>
                Build_ViewerTask (Task_ID task) (Task_NodeID task) (FlowNode_IsOpinionRequired node)
                  (if FlowNode_IsAddAssigneeAllowed node then FlowNode_AddAssigneeTypes node else [])
                  (if FlowNode_IsRollbackAllowed node then resolveRollbackTargets bundle node else [])
                  (if FlowNode_IsRemoveAssigneeAllowed node
                   then resolveRemovableAssignees (bundle_Tasks bundle) task else [])
            end)
  end.

(** ** What happened where ([visit_index.go]) *)
Definition participantFinishers : list ActionType :=
  [ActionApprove; ActionHandle; ActionReject; ActionTransfer; ActionRollback; ActionRemoveAssignee; ActionExecute].
Definition participantLogIndex (logs : list ActionLog) : gmap string ActionLog :=
  foldl (λ index l, match ActionLog_TaskID l with
                    | Some taskID => if bool_decide (ActionLog_Action l ∈ participantFinishers)
                                     then <[taskID := l]> index else index
                    | None => index
                    end) ∅ logs.
Definition buildParticipant (finisherLogs : gmap string ActionLog) (task : Task) : NodeParticipant :=
  let participant := Build_NodeParticipant (Task_ID task) (Assignee task) (Delegator task) (Task_Status task)
                       (Task_Deadline task) (Task_IsTimeout task) in
  match finisherLogs !! Task_ID task with
  | Some l => participant (ActionLog_Opinion l) (ActionLog_Attachments l) (Some (ActionLog_CreatedAt l)) (TransferTo l)
  | None => participant None [] (Task_FinishedAt task) None
  end.
Definition buildParticipants (tasks : list Task) (finisherLogs : gmap string ActionLog) : list NodeParticipant :=
  buildParticipant finisherLogs <$> tasks.
Definition activityFromLog (l : ActionLog) (nodeNames : gmap string string) : Activity :=
  Build_Activity (ActivityOf (ActionLog_Action l)) (Operator l) (ActionLog_Opinion l) (ActionLog_Attachments l)
    (TransferTo l) None (ActionLog_RollbackToNodeID l)
    (match ActionLog_RollbackToNodeID l with Some id => nodeNames !! id | None => None end)
    (ActionLog_AddedAssignees l) (ActionLog_RemovedAssignees l) (ActionLog_CCUsers l) (ActionLog_CreatedAt l).
Definition activityFromUrge (record : UrgeRecord) : Activity :=
  Build_Activity ActivityUrge (Urger record)
    (if UrgeRecord_Message record ==? "" then None else Some (UrgeRecord_Message record)) [] None
    (Some (Target record)) None None [] [] [] (UrgeRecord_CreatedAt record).
Definition milestoneEntry (l : ActionLog) : TimelineEntry :=
  Build_TimelineEntry (EntryMilestone (ActionLog_Action l)) None "" None None None None None None [] []
    [activityFromLog l ∅] (ActionLog_CreatedAt l) None.
(** The visit of the node that was open at a time. *)
Definition visitAt (visitsByNode : gmap string (list NodeVisit)) (nodeID : string) (at_ : DateTime) : option NodeVisit :=
  let visits := default [] (visitsByNode !! nodeID) in
  match tfirst (λ v, NodeVisit_CreatedAt v <=? at_)%Z (reverse visits) with
  | Some v => Some v
  | None => head visits
  end.

Record visitIndex := {
  idx_nodeByID : gmap string FlowNode;
  idx_visitsByNode : gmap string (list NodeVisit);
  idx_tasksByVisit : gmap string (list Task);
  idx_finisherLogs : gmap string ActionLog;
  idx_activitiesByVisit : gmap string (list Activity);
  idx_ccByVisit : gmap string (list CCRecipient);
  idx_milestones : list TimelineEntry;
}.
Definition groupBy {A B} (key : A → option string) (f : A → B) (l : list A) : gmap string (list B) :=
  foldl (λ m x, match key x with Some k => appendAt m k (f x) | None => m end) ∅ l.
(** [bindActivity] *)
Definition bindActivity (taskByID : gmap string Task) (visitsByNode : gmap string (list NodeVisit))
    (taskID nodeID : option string) (at_ : DateTime) (activity : Activity) (m : gmap string (list Activity))
    : gmap string (list Activity) :=
  match taskID ≫= (taskByID !!.) with
  | Some task => appendAt m (Task_VisitID task) activity
  | None =>
      match nodeID ≫= (λ n, visitAt visitsByNode n at_) with
      | Some visit => appendAt m (NodeVisit_ID visit) activity
      | None => m
      end
  end.
(** Whether a log is an activity at a node. *)
Definition isSideAction (l : ActionLog) : bool :=
  match ActionLog_Action l with
  | ActionSubmit | ActionResubmit | ActionWithdraw | ActionTerminate
  | ActionApprove | ActionHandle | ActionReject => false
  | ActionExecute => negb (is_Some_b (ActionLog_TaskID l))
  | _ => true
  end.
Definition isStartLog (l : ActionLog) : bool :=
  (ActionLog_Action l ==? ActionSubmit) || (ActionLog_Action l ==? ActionResubmit).
Definition isMilestone (l : ActionLog) : bool :=
  (ActionLog_Action l ==? ActionWithdraw) || (ActionLog_Action l ==? ActionTerminate).
(** The n-th start visit was caused by the n-th submission. *)
Definition zipStart (nodeByID : gmap string FlowNode) (nodeNames : gmap string string)
    (acc : list ActionLog * gmap string (list Activity)) (visit : NodeVisit)
    : list ActionLog * gmap string (list Activity) :=
  let '(startLogs, m) := acc in
  match nodeByID !! NodeVisit_NodeID visit with
  | Some n =>
      if FlowNode_Kind n ==? NodeStart then
        match startLogs with
        | l :: rest => (rest, appendAt m (NodeVisit_ID visit) (activityFromLog l nodeNames))
        | [] => ([], m)
        end
      else acc
  | None => acc
  end.
Definition newVisitIndex (bundle : instanceDetailBundle) : visitIndex :=
  let nodeByID := nodesByID (bundle_FlowNodes bundle) in
  let nodeNames := nodeNameMap (bundle_FlowNodes bundle) in
  let visitsByNode := groupBy (λ v, Some (NodeVisit_NodeID v)) id (bundle_Visits bundle) in
  let taskByID := foldl (λ m t, <[Task_ID t := t]> m) ∅ (bundle_Tasks bundle) : gmap string Task in
  let bind := bindActivity taskByID visitsByNode in
  let logged := foldl (λ m l, if isSideAction l
                              then bind (ActionLog_TaskID l) (ActionLog_NodeID l) (ActionLog_CreatedAt l)
                                     (activityFromLog l nodeNames) m else m) ∅ (bundle_ActionLogs bundle) in
  let started := (foldl (zipStart nodeByID nodeNames)
    (List.filter isStartLog (bundle_ActionLogs bundle), logged) (bundle_Visits bundle)).2 in
  let urged := foldl (λ m r, bind (UrgeRecord_TaskID r) (Some (UrgeRecord_NodeID r)) (UrgeRecord_CreatedAt r)
                               (activityFromUrge r) m) started (bundle_UrgeRecords bundle) in {|
    idx_nodeByID := nodeByID;
    idx_visitsByNode := visitsByNode;
    idx_tasksByVisit := groupBy (λ t, Some (Task_VisitID t)) id (bundle_Tasks bundle);
    idx_finisherLogs := participantLogIndex (bundle_ActionLogs bundle);
    idx_activitiesByVisit := orderBy Activity_CreatedAt <$> urged;
    idx_ccByVisit := groupBy CCRecord_VisitID Recipient (bundle_CCRecords bundle);
    idx_milestones := milestoneEntry <$> List.filter isMilestone (bundle_ActionLogs bundle);
  |}.
Definition participantsOf (idx : visitIndex) (visitID : string) : list NodeParticipant :=
  buildParticipants (default [] (idx_tasksByVisit idx !! visitID)) (idx_finisherLogs idx).
Definition copiesOf (idx : visitIndex) (visitID : string) : list CCRecipient :=
  default [] (idx_ccByVisit idx !! visitID).
Definition activitiesOf (idx : visitIndex) (visitID : string) : list Activity :=
  default [] (idx_activitiesByVisit idx !! visitID).

(** ** The timeline ([timeline.go]) *)
Definition whenRatio {A} (r : PassRule) (x : A) : option A := match r with PassRatio => Some x | _ => None end.
Definition whenCount {A} (r : PassRule) (x : A) : option A := match r with PassFixedCount => Some x | _ => None end.
Definition visitEntry (idx : visitIndex) (visit : NodeVisit) (node : FlowNode) : TimelineEntry :=
  let entry exec method rule ratio count participants :=
    Build_TimelineEntry (EntryNode (FlowNode_Kind node)) (Some (NodeVisit_NodeID visit)) (FlowNode_Name node)
      (Some (NodeVisit_Status visit)) exec method rule ratio count participants
      (copiesOf idx (NodeVisit_ID visit)) (activitiesOf idx (NodeVisit_ID visit))
      (NodeVisit_CreatedAt visit) (NodeVisit_FinishedAt visit) in
  match FlowNode_Kind node with
  | NodeApproval =>
      entry (Some (FlowNode_ExecutionType node)) (Some (FlowNode_ApprovalMethod node)) (Some (FlowNode_PassRule node))
        (whenRatio (FlowNode_PassRule node) (FlowNode_PassRatio node))
        (whenCount (FlowNode_PassRule node) (FlowNode_PassCount node)) (participantsOf idx (NodeVisit_ID visit))
  | NodeHandle =>
      entry (Some (FlowNode_ExecutionType node)) None None None None (participantsOf idx (NodeVisit_ID visit))
  | _ => entry None None None None None []
  end.
Definition visitEntries (idx : visitIndex) (visits : list NodeVisit) : list TimelineEntry :=
  omap (λ v, match idx_nodeByID idx !! NodeVisit_NodeID v with
             | Some node => if FlowNode_Kind node ==? NodeCondition then None else Some (visitEntry idx v node)
             | None => None
             end) visits.
(** Milestones up to a time, and the rest. *)
Fixpoint splitMilestones (until : DateTime) (milestones : list TimelineEntry)
    : list TimelineEntry * list TimelineEntry :=
  match milestones with
  | m :: rest =>
      if (TimelineEntry_StartedAt m <=? until)%Z then
        let '(due, later) := splitMilestones until rest in (m :: due, later)
      else ([], milestones)
  | [] => ([], [])
  end.
Fixpoint mergeMilestones (entries milestones : list TimelineEntry) : list TimelineEntry :=
  match entries with
  | [] => milestones
  | entry :: rest =>
      let '(due, later) := splitMilestones (TimelineEntry_StartedAt entry) milestones in
      due ++ entry :: mergeMilestones rest later
  end.
Definition buildInstanceTimeline (bundle : instanceDetailBundle) : list TimelineEntry :=
  let idx := newVisitIndex bundle in
  mergeMilestones (visitEntries idx (bundle_Visits bundle)) (idx_milestones idx).

(** ** The diagram ([flow_graph.go]) *)
Definition nodeKeys (nodes : list FlowNode) : gmap string string :=
  foldl (λ m n, <[FlowNode_ID n := FlowNode_Key n]> m) ∅ nodes.
Definition deriveNodeProgress (bundle : instanceDetailBundle) (idToKey : gmap string string)
    : gmap string NodeProgressStatus :=
  let keyOf id := default "" (idToKey !! id) in
  let status := foldl (λ m v, if keyOf (NodeVisit_NodeID v) ==? "" then m
                              else <[keyOf (NodeVisit_NodeID v) := NodeProgressOf (NodeVisit_Status v)]> m)
                  ∅ (bundle_Visits bundle) in
  let instance := bundle_Instance bundle in
  let paused := (Instance_Status instance ==? InstanceReturned) || (Instance_Status instance ==? InstanceWithdrawn) in
  match Instance_CurrentNodeID instance with
  | Some current =>
      if paused && negb (keyOf current ==? "")
         && negb (status !! keyOf current ==? Some (NodeProgressOf NodeVisitCanceled))
      then <[keyOf current := NodeProgressOf NodeVisitActive]> status else status
  | None => status
  end.
(** [fillNodeExecution] *)
Definition nodeExecution {A} (f : string → list A) (visits : list NodeVisit) : list A :=
  flat_map (λ v, f (NodeVisit_ID v)) visits.
Definition graphNode (idx : visitIndex) (statusByKey : gmap string NodeProgressStatus) (fn : FlowNode) : FlowGraphNode :=
  let visits := default [] (idx_visitsByNode idx !! FlowNode_ID fn) in
  let data exec method rule ratio count :=
    Build_FlowGraphNodeData (FlowNode_Name fn) (default NodeProgressPending (statusByKey !! FlowNode_Key fn))
      exec method rule ratio count
      (nodeExecution (participantsOf idx) visits) (nodeExecution (copiesOf idx) visits)
      (nodeExecution (activitiesOf idx) visits)
      (NodeVisit_CreatedAt <$> head visits) (last visits ≫= NodeVisit_FinishedAt) in
  Build_FlowGraphNode (FlowNode_Key fn) (FlowNode_ID fn) (FlowNode_Kind fn)
    match FlowNode_Kind fn with
    | NodeApproval =>
        data (Some (FlowNode_ExecutionType fn)) (Some (FlowNode_ApprovalMethod fn)) (Some (FlowNode_PassRule fn))
          (whenRatio (FlowNode_PassRule fn) (FlowNode_PassRatio fn))
          (whenCount (FlowNode_PassRule fn) (FlowNode_PassCount fn))
    | NodeHandle => data (Some (FlowNode_ExecutionType fn)) None None None None
    | _ => data None None None None None
    end.
Definition graphLayout (def : option FlowDefinition) : list EdgeDefinition :=
  default [] (FlowDefinition_Edges <$> def).
Definition buildInstanceFlowGraph (bundle : instanceDetailBundle) : InstanceFlowGraph :=
  let idx := newVisitIndex bundle in
  let statusByKey := deriveNodeProgress bundle (nodeKeys (bundle_FlowNodes bundle)) in
  Build_InstanceFlowGraph (graphNode idx statusByKey <$> bundle_FlowNodes bundle) (graphLayout (bundle_FlowSchema bundle)).

(** ** The two detail queries *)
Section details.
Context `{!Host}.

(** [FormGlobalsService.Visible] *)
Definition Visible (flowCode : string) (globals : option (gmap string Value)) : option (gmap string Value) :=
  let keys := formGlobalKeys flowCode in
  let visible := filter (λ kv, kv.1 ∈ keys) (default ∅ globals) in
  if (size visible =? 0)%nat then None else Some visible.
Definition instanceInfo (bundle : instanceDetailBundle) (icon : option string) (formData : option (gmap string Value))
    : InstanceInfo :=
  let instance := bundle_Instance bundle in {|
    InstanceInfo_InstanceID := Instance_ID instance;
    InstanceInfo_InstanceNo := Instance_InstanceNo instance;
    InstanceInfo_Title := Instance_Title instance;
    InstanceInfo_FlowID := Instance_FlowID instance;
    InstanceInfo_FlowCode := Instance_FlowCode instance;
    InstanceInfo_FlowName := default "" (Flow_Name <$> bundle_Flow bundle);
    InstanceInfo_FlowIcon := icon;
    InstanceInfo_Labels := default ∅ (Flow_Labels <$> bundle_Flow bundle);
    InstanceInfo_Applicant := Applicant instance;
    InstanceInfo_Status := Instance_Status instance;
    InstanceInfo_CurrentNodeID := Instance_CurrentNodeID instance;
    InstanceInfo_CurrentNodeName :=
      Instance_CurrentNodeID instance ≫= λ n, nodeNameMap (bundle_FlowNodes bundle) !! n;
    InstanceInfo_BusinessRef := Instance_BusinessRef instance;
    InstanceInfo_FormData := formData;
    InstanceInfo_Globals := Visible (Instance_FlowCode instance) (Instance_Globals instance);
    InstanceInfo_CreatedAt := Instance_CreatedAt instance;
    InstanceInfo_FinishedAt := Instance_FinishedAt instance;
  |}.
Definition GetMyInstanceDetailHandler_Handle (instanceID userID : string) : M InstanceDetail :=
  bundle ← loadInstanceDetailBundle instanceID;
  isParticipant ← IsInstanceParticipant instanceID userID;
  throwIf (negb isParticipant) ErrAccessDenied;;
  let instance := bundle_Instance bundle in
  let fieldPermissions := resolveViewerFieldPermissions bundle userID in
  mret {|
    InstanceDetail_Instance := instanceInfo bundle (bundle_Flow bundle ≫= Flow_Icon)
      (stripHiddenFormData (Instance_FormData instance) fieldPermissions);
    InstanceDetail_FormSchema := bundle_FormSchema bundle;
    InstanceDetail_Timeline := buildInstanceTimeline bundle;
    InstanceDetail_FlowGraph := buildInstanceFlowGraph bundle;
    InstanceDetail_AvailableActions :=
      computeActions instance (bundle_Tasks bundle) (bundle_FlowNodes bundle) userID;
    InstanceDetail_FieldPermissions := fieldPermissions;
    InstanceDetail_MyTask := buildViewerTask bundle userID;
  |}.
Definition GetAdminInstanceDetailHandler_Handle (instanceID : string) (caller : CallerContext) : M AdminInstanceDetail :=
  bundle ← loadInstanceDetailBundle instanceID;
  let instance := bundle_Instance bundle in
  throwIf (negb (Allows caller (Instance_TenantID instance))) ErrInstanceNotFound;;
  mret {|
    AdminInstanceDetail_TenantID := Instance_TenantID instance;
    AdminInstanceDetail_FlowVersionID := Instance_FlowVersionID instance;
    AdminInstanceDetail_Instance := instanceInfo bundle None (Instance_FormData instance);
    AdminInstanceDetail_FormSchema := bundle_FormSchema bundle;
    AdminInstanceDetail_Timeline := buildInstanceTimeline bundle;
    AdminInstanceDetail_FlowGraph := buildInstanceFlowGraph bundle;
  |}.
End details.
