(* ===== verification/Lists.v ===== *)
(** * Lists and counts

    The list queries of [internal/approval/query] with their paging
    ([page/page.go], [helpers.go]): the work of a person ([find_my_*.go],
    [get_my_pending_counts.go]), the tables of an administrator ([find_admin_*.go],
    [get_metrics.go]), the flows one may start ([find_available_flows.go],
    [get_start_form.go]) and manage ([find_flows.go], [find_flow_versions.go],
    [find_flow_initiators.go], [get_flow_graph.go]).

    Ties of an ordering stay in insertion order, or in its reverse where the query
    orders by id descending.  Substring search and the comparison of texts in
    [ORDER BY name] are the database's. *)
From Stdlib Require Import QArith.
From S2P Require Import Prelude Enums StateMachine Models Demo Store Shared FormValidation FormStorage Delegation Binding.
From S2P Require Import FlowDefinition PassRule Processors Engine Tenancy TaskService NodeService Commands FlowCommands Views.
#[local] Close Scope Q_scope.

(** ** Paging ([page/page.go]) *)
Definition DefaultPageNumber : Z := 1.
Definition DefaultPageSize : Z := 15.
Definition MaxPageSize : Z := 1000.
Record Pageable := { Pageable_Page : Z; Pageable_Size : Z }.
Definition Normalize (p : Pageable) (size : list Z) : Pageable :=
  let number := if (Pageable_Page p <? 1)%Z then DefaultPageNumber else Pageable_Page p in
  let size := if (Pageable_Size p <? 1)%Z then default DefaultPageSize (head size) else Pageable_Size p in
  Build_Pageable number (if (MaxPageSize <? size)%Z then MaxPageSize else size).
(** Go's [int] has 64 bits. *)
Definition Offset (p : Pageable) : Z := wrapInt64 ((Pageable_Page p - 1) * Pageable_Size p).
Record Page (T : Type) := { Page_Page : Z; Page_Size : Z; Page_Total : Z; Page_Items : list T }.
Arguments Build_Page {T}.
Arguments Page_Page {T}.
Arguments Page_Size {T}.
Arguments Page_Total {T}.
Arguments Page_Items {T}.
Definition TotalPages {T} (page : Page T) : Z :=
  if (Page_Size page =? 0)%Z then 0 else wrapInt64 (Page_Total page + Page_Size page - 1) `quot` Page_Size page.
Definition HasNext {T} (page : Page T) : bool := (Page_Page page <? TotalPages page)%Z.
Definition HasPrevious {T} (page : Page T) : bool := (1 <? Page_Page page)%Z.
Definition Page_Map {T R} (convert : T → R) (page : Page T) : Page R :=
  Build_Page (Page_Page page) (Page_Size page) (Page_Total page) (convert <$> Page_Items page).
(** [page.New] *)
Definition Page_New {T} (pageable : Pageable) (total : Z) (items : list T) : Page T :=
  Build_Page (Pageable_Page pageable) (Pageable_Size pageable) total items.

Definition defaultListPageSize : Z := 20.
(** [applyPageable] and [ScanAndCount]: one page of the matching rows, and how many
    there are. *)
Definition applyPageable {Row} (pageable : Pageable) (rows : list Row) : list Row :=
  let p := Normalize pageable [defaultListPageSize] in
  take (Z.to_nat (Pageable_Size p)) (drop (Z.to_nat (Offset p)) rows).
Definition newPage {Row T} (pageable : Pageable) (rows : list Row) (item : Row → T) : Page T :=
  Page_New (Normalize pageable [defaultListPageSize]) (Z.of_nat (length rows)) (item <$> applyPageable pageable rows).

(** [ORDER BY key DESC, id DESC] *)
Definition orderByDesc {Row} (key : Row → Z) (rows : list Row) : list Row := reverse (orderBy key rows).
(** [ApplyIf] on an optional filter *)
Definition applyIf {A} (filter : option A) (p : A → bool) : bool :=
  match filter with Some x => p x | None => true end.

(** ** Looking up related rows ([helpers.go]) *)
Definition loadByIDs {Row} (keyOf : Row → string) (ids : list string) (rows : list Row) : gmap string Row :=
  foldl (λ m r, <[keyOf r := r]> m) ∅ (tselect (λ r, bool_decide (keyOf r ∈ ids)) rows).
Record enrichment := {
  enr_instances : gmap string Instance;
  enr_flows : gmap string Flow;
  enr_nodes : gmap string string;
}.
Definition loadNodeNameMap (s : St) (nodeIDs : list string) : gmap string string :=
  FlowNode_Name <$> loadByIDs FlowNode_ID nodeIDs (db_nodes s).
Definition loadEnrichmentMaps (s : St) (instanceIDs nodeIDs : list string) : enrichment :=
  let instanceMap := loadByIDs Instance_ID instanceIDs (db_instances s) in
  let flowIDs := Instance_FlowID <$> (map_to_list instanceMap).*2 in
  Build_enrichment instanceMap (loadByIDs Flow_ID flowIDs (db_flows s)) (loadNodeNameMap s nodeIDs).
Definition enrichedInstance (e : enrichment) (instanceID : string) : option Instance := enr_instances e !! instanceID.
Definition enrichedFlow (e : enrichment) (instanceID : string) : option Flow :=
  enr_instances e !! instanceID ≫= λ i, enr_flows e !! Instance_FlowID i.

(** ** A person's own work *)
Record MyTaskFilter := {
  mtf_Keyword : option string;
  mtf_ApplicantID : option string;
  mtf_ApplicantName : option string;
  mtf_FlowID : option string;
}.
Record FindMyPendingTasksQuery := {
  fmp_Pageable : Pageable;
  fmp_Filter : MyTaskFilter;
  fmp_UserID : string;
  fmp_IsTimeout : option bool;
  fmp_CreatedAtFrom : option DateTime;
  fmp_CreatedAtTo : option DateTime;
}.
Record PendingTask := {
  PendingTask_TaskID : string;
  PendingTask_InstanceID : string;
  PendingTask_InstanceTitle : string;
  PendingTask_InstanceNo : string;
  PendingTask_FlowName : string;
  PendingTask_FlowIcon : option string;
  PendingTask_Applicant : UserInfo;
  PendingTask_NodeName : string;
  PendingTask_CreatedAt : DateTime;
  PendingTask_Deadline : option DateTime;
  PendingTask_IsTimeout : bool;
}.
Record FindMyCompletedTasksQuery := {
  fmc_Pageable : Pageable;
  fmc_Filter : MyTaskFilter;
  fmc_UserID : string;
  fmc_Status : option TaskStatus;
  fmc_InstanceStatus : option InstanceStatus;
  fmc_FinishedAtFrom : option DateTime;
  fmc_FinishedAtTo : option DateTime;
}.
Record CompletedTask := {
  CompletedTask_TaskID : string;
  CompletedTask_InstanceID : string;
  CompletedTask_InstanceTitle : string;
  CompletedTask_InstanceNo : string;
  CompletedTask_InstanceStatus : option InstanceStatus;
  CompletedTask_FlowName : string;
  CompletedTask_FlowIcon : option string;
  CompletedTask_Labels : gmap string string;
  CompletedTask_Applicant : UserInfo;
  CompletedTask_NodeName : string;
  CompletedTask_Status : TaskStatus;
  CompletedTask_FinishedAt : option DateTime;
}.
Definition completedStatuses : list TaskStatus :=
  [TaskApproved; TaskRejected; TaskHandled; TaskTransferred; TaskRolledBack].
Record FindMyInitiatedQuery := {
  fmi_Pageable : Pageable;
  fmi_UserID : string;
  fmi_Status : option InstanceStatus;
  fmi_Keyword : option string;
}.
Record InitiatedInstance := {
  InitiatedInstance_InstanceID : string;
  InitiatedInstance_InstanceNo : string;
  InitiatedInstance_Title : string;
  InitiatedInstance_FlowName : string;
  InitiatedInstance_FlowIcon : option string;
  InitiatedInstance_Labels : gmap string string;
  InitiatedInstance_Status : InstanceStatus;
  InitiatedInstance_CurrentNodeName : option string;
  InitiatedInstance_CreatedAt : DateTime;
  InitiatedInstance_FinishedAt : option DateTime;
}.
Record FindMyCCRecordsQuery := { fcc_Pageable : Pageable; fcc_UserID : string; fcc_IsRead : option bool }.
Record MyCCRecord := {
  MyCCRecord_CCRecordID : string;
  MyCCRecord_InstanceID : string;
  MyCCRecord_InstanceTitle : string;
  MyCCRecord_InstanceNo : string;
  MyCCRecord_FlowName : string;
  MyCCRecord_FlowIcon : option string;
  MyCCRecord_Applicant : UserInfo;
  MyCCRecord_NodeName : option string;
  MyCCRecord_IsRead : bool;
  MyCCRecord_CreatedAt : DateTime;
}.
Record PendingCounts := { PendingCounts_PendingTaskCount : Z; PendingCounts_UnreadCCCount : Z }.

(** ** Queries and items of the administrator's and the flow lists
    ([approval/admin], [approval/my], [shared]) *)
Record FindAdminTasksQuery := {
  fat_Pageable : Pageable;
  fat_TenantID : option string;
  fat_AssigneeID : option string;
  fat_InstanceID : option string;
  fat_Status : option TaskStatus;
}.
Record AdminTask := {
  AdminTask_TaskID : string;
  AdminTask_InstanceID : string;
  AdminTask_InstanceTitle : string;
  AdminTask_FlowName : string;
  AdminTask_NodeName : string;
  AdminTask_Assignee : UserInfo;
  AdminTask_Status : TaskStatus;
  AdminTask_CreatedAt : DateTime;
  AdminTask_Deadline : option DateTime;
  AdminTask_FinishedAt : option DateTime;
}.
Record FindAdminInstancesQuery := {
  fai_Pageable : Pageable;
  fai_TenantID : option string;
  fai_ApplicantID : option string;
  fai_Status : option InstanceStatus;
  fai_FlowID : option string;
  fai_Keyword : option string;
}.
Record AdminInstance := {
  AdminInstance_InstanceID : string;
  AdminInstance_InstanceNo : string;
  AdminInstance_Title : string;
  AdminInstance_TenantID : string;
  AdminInstance_FlowID : string;
  AdminInstance_FlowName : string;
  AdminInstance_Applicant : UserInfo;
  AdminInstance_Status : InstanceStatus;
  AdminInstance_CurrentNodeName : option string;
  AdminInstance_CreatedAt : DateTime;
  AdminInstance_FinishedAt : option DateTime;
}.
Record AdminActionLog := {
  AdminActionLog_LogID : string;
  AdminActionLog_Action : ActionType;
  AdminActionLog_NodeID : option string;
  AdminActionLog_TaskID : option string;
  AdminActionLog_Operator : UserInfo;
  AdminActionLog_TransferTo : option UserInfo;
  AdminActionLog_RollbackToNodeID : option string;
  AdminActionLog_AddedAssignees : list UserInfo;
  AdminActionLog_RemovedAssignees : list UserInfo;
  AdminActionLog_CCUsers : list UserInfo;
  AdminActionLog_Opinion : option string;
  AdminActionLog_Attachments : list string;
  AdminActionLog_CreatedAt : DateTime;
}.
Record AdminBusinessProjection := {
  AdminBusinessProjection_ProjectionID : string;
  AdminBusinessProjection_TenantID : string;
  AdminBusinessProjection_FlowID : string;
  AdminBusinessProjection_FlowVersionID : string;
  AdminBusinessProjection_OwnerInstanceID : string;
  AdminBusinessProjection_AppliedOwnerInstanceID : option string;
  AdminBusinessProjection_BusinessTable : string;
  AdminBusinessProjection_RecordKey : list storedRecordKeyPart;
  AdminBusinessProjection_Consistency : BindingConsistency;
  AdminBusinessProjection_DesiredStatus : InstanceStatus;
  AdminBusinessProjection_DesiredStartedAt : DateTime;
  AdminBusinessProjection_DesiredFinishedAt : option DateTime;
  AdminBusinessProjection_DesiredRevision : Z;
  AdminBusinessProjection_AppliedRevision : Z;
  AdminBusinessProjection_Status : BindingProjectionStatus;
  AdminBusinessProjection_AttemptCount : Z;
  AdminBusinessProjection_NextAttemptAt : option DateTime;
  AdminBusinessProjection_LeaseUntil : option DateTime;
  AdminBusinessProjection_LastError : option string;
  AdminBusinessProjection_AppliedAt : option DateTime;
  AdminBusinessProjection_UpdatedAt : DateTime;
}.
(** [Metrics]; averages are exact. *)
Record Metrics := {
  Metrics_TenantID : string;
  Metrics_CapturedAt : DateTime;
  Metrics_InstanceCounts : gmap string Z;
  Metrics_TaskCounts : gmap string Z;
  Metrics_TimeoutTaskCount : Z;
  Metrics_AvgCompletionSeconds : Q;
  Metrics_BusinessProjectionCounts : gmap string Z;
  Metrics_PendingBusinessProjections : Z;
  Metrics_PendingBindingFailures : Z;
}.
Definition BindingProjectionStatus_String (s : BindingProjectionStatus) : string :=
  match s with
  | BindingProjectionPending => "pending"
  | BindingProjectionProcessing => "processing"
  | BindingProjectionApplied => "applied"
  | BindingProjectionFailed => "failed"
  end.
Record FindAvailableFlowsQuery := {
  faf_Pageable : Pageable;
  faf_UserID : string;
  faf_ApplicantDepartmentID : option string;
  faf_Keyword : option string;
  faf_Labels : gmap string string;
  faf_Caller : CallerContext;
}.
Record AvailableFlow := {
  AvailableFlow_FlowID : string;
  AvailableFlow_FlowCode : string;
  AvailableFlow_FlowName : string;
  AvailableFlow_FlowIcon : option string;
  AvailableFlow_Description : option string;
  AvailableFlow_Labels : gmap string string;
  AvailableFlow_CategoryID : string;
  AvailableFlow_CategoryName : string;
}.
(** [my.StartForm]; its globals are filled in by the resource. *)
Record StartForm := {
  StartForm_FlowID : string;
  StartForm_FlowCode : string;
  StartForm_FlowName : string;
  StartForm_FlowIcon : option string;
  StartForm_Description : option string;
  StartForm_VersionID : string;
  StartForm_Version : Z;
  StartForm_FormSchema : option string;
  StartForm_Applicant : UserInfo;
}.
Record FindFlowsQuery := {
  ffl_Pageable : Pageable;
  ffl_TenantID : option string;
  ffl_IncludeShared : bool;
  ffl_CategoryID : option string;
  ffl_Keyword : option string;
  ffl_IsActive : option bool;
  ffl_Labels : gmap string string;
  ffl_BindingMode : option BindingMode;
}.
Record FlowVersionSummary := {
  FlowVersionSummary_ID : string;
  FlowVersionSummary_FlowID : string;
  FlowVersionSummary_Version : Z;
  FlowVersionSummary_Status : VersionStatus;
  FlowVersionSummary_Description : option string;
  FlowVersionSummary_StorageMode : StorageMode;
  FlowVersionSummary_PublishedAt : option DateTime;
  FlowVersionSummary_PublishedBy : option string;
}.
Record FlowGraph := {
  FlowGraph_Flow : Flow;
  FlowGraph_Version : FlowVersion;
  FlowGraph_Nodes : list FlowNode;
  FlowGraph_Edges : list FlowEdge;
}.

(** [joinTaskInstance] *)
Definition joinTaskInstance (s : St) : list (Task * Instance) :=
  flat_map (λ t, pair t <$> tselect (λ i, Task_InstanceID t ==? Instance_ID i) (db_instances s)) (db_tasks s).

Section lists.
Context `{!Host}.

Definition MyTaskFilter_apply (f : MyTaskFilter) (i : Instance) : bool :=
  applyIf (mtf_Keyword f) (sqlContains (Instance_Title i))
  && applyIf (mtf_ApplicantID f) (λ x, Instance_ApplicantID i ==? x)
  && applyIf (mtf_ApplicantName f) (sqlContains (Instance_ApplicantName i))
  && applyIf (mtf_FlowID f) (λ x, Instance_FlowID i ==? x).

Definition pendingTaskMatches (q : FindMyPendingTasksQuery) (r : Task * Instance) : bool :=
  (Task_AssigneeID r.1 ==? fmp_UserID q) && (Task_Status r.1 ==? TaskPending)
  && applyIf (fmp_IsTimeout q) (λ b, Bool.eqb (Task_IsTimeout r.1) b)
  && applyIf (fmp_CreatedAtFrom q) (λ d, d <=? Task_CreatedAt r.1)%Z
  && applyIf (fmp_CreatedAtTo q) (λ d, Task_CreatedAt r.1 <=? d)%Z
  && MyTaskFilter_apply (fmp_Filter q) r.2.
Definition pendingTask (e : enrichment) (t : Task) : PendingTask :=
  let inst := enrichedInstance e (Task_InstanceID t) in
  let flow := enrichedFlow e (Task_InstanceID t) in {|
    PendingTask_TaskID := Task_ID t;
    PendingTask_InstanceID := default "" (Instance_ID <$> inst);
    PendingTask_InstanceTitle := default "" (Instance_Title <$> inst);
    PendingTask_InstanceNo := default "" (Instance_InstanceNo <$> inst);
    PendingTask_FlowName := default "" (Flow_Name <$> flow);
    PendingTask_FlowIcon := flow ≫= Flow_Icon;
    PendingTask_Applicant := default UserInfo_zero (Applicant <$> inst);
    PendingTask_NodeName := default "" (enr_nodes e !! Task_NodeID t);
    PendingTask_CreatedAt := Task_CreatedAt t;
    PendingTask_Deadline := Task_Deadline t;
    PendingTask_IsTimeout := Task_IsTimeout t;
  |}.
Definition tasksEnrichment (s : St) (tasks : list Task) : enrichment :=
  loadEnrichmentMaps s (Task_InstanceID <$> tasks) (Task_NodeID <$> tasks).
Definition FindMyPendingTasksHandler_Handle (q : FindMyPendingTasksQuery) : M (Page PendingTask) :=
  gets (λ s,
    let rows := orderByDesc Task_CreatedAt (tselect (pendingTaskMatches q) (joinTaskInstance s)).*1 in
    let tasks := applyPageable (fmp_Pageable q) rows in
    newPage (fmp_Pageable q) rows (pendingTask (tasksEnrichment s tasks))).

Definition completedTaskMatches (q : FindMyCompletedTasksQuery) (r : Task * Instance) : bool :=
  (Task_AssigneeID r.1 ==? fmc_UserID q) && bool_decide (Task_Status r.1 ∈ completedStatuses)
  && applyIf (fmc_Status q) (λ x, Task_Status r.1 ==? x)
  && applyIf (fmc_InstanceStatus q) (λ x, Instance_Status r.2 ==? x)
  && applyIf (fmc_FinishedAtFrom q) (λ d, match Task_FinishedAt r.1 with Some f => (d <=? f)%Z | None => false end)
  && applyIf (fmc_FinishedAtTo q) (λ d, match Task_FinishedAt r.1 with Some f => (f <=? d)%Z | None => false end)
  && MyTaskFilter_apply (fmc_Filter q) r.2.
Definition completedTask (e : enrichment) (t : Task) : CompletedTask :=
  let inst := enrichedInstance e (Task_InstanceID t) in
  let flow := enrichedFlow e (Task_InstanceID t) in {|
    CompletedTask_TaskID := Task_ID t;
    CompletedTask_InstanceID := default "" (Instance_ID <$> inst);
    CompletedTask_InstanceTitle := default "" (Instance_Title <$> inst);
    CompletedTask_InstanceNo := default "" (Instance_InstanceNo <$> inst);
    CompletedTask_InstanceStatus := Instance_Status <$> inst;
    CompletedTask_FlowName := default "" (Flow_Name <$> flow);
    CompletedTask_FlowIcon := flow ≫= Flow_Icon;
    CompletedTask_Labels := default ∅ (Flow_Labels <$> flow);
    CompletedTask_Applicant := default UserInfo_zero (Applicant <$> inst);
    CompletedTask_NodeName := default "" (enr_nodes e !! Task_NodeID t);
    CompletedTask_Status := Task_Status t;
    CompletedTask_FinishedAt := Task_FinishedAt t;
  |}.
Definition FindMyCompletedTasksHandler_Handle (q : FindMyCompletedTasksQuery) : M (Page CompletedTask) :=
  gets (λ s,
    let rows := orderByDesc (λ t, default 0%Z (Task_FinishedAt t))
                  (tselect (completedTaskMatches q) (joinTaskInstance s)).*1 in
    let tasks := applyPageable (fmc_Pageable q) rows in
    newPage (fmc_Pageable q) rows (completedTask (tasksEnrichment s tasks))).

(** [loadInstanceEnrichment] *)
Definition loadInstanceEnrichment (s : St) (instances : list Instance) : gmap string Flow * gmap string string :=
  (loadByIDs Flow_ID (Instance_FlowID <$> instances) (db_flows s),
   loadNodeNameMap s (omap Instance_CurrentNodeID instances)).
Definition initiatedInstance (maps : gmap string Flow * gmap string string) (i : Instance) : InitiatedInstance :=
  let flow := maps.1 !! Instance_FlowID i in {|
    InitiatedInstance_InstanceID := Instance_ID i;
    InitiatedInstance_InstanceNo := Instance_InstanceNo i;
    InitiatedInstance_Title := Instance_Title i;
    InitiatedInstance_FlowName := default "" (Flow_Name <$> flow);
    InitiatedInstance_FlowIcon := flow ≫= Flow_Icon;
    InitiatedInstance_Labels := default ∅ (Flow_Labels <$> flow);
    InitiatedInstance_Status := Instance_Status i;
    InitiatedInstance_CurrentNodeName := Instance_CurrentNodeID i ≫= λ n, maps.2 !! n;
    InitiatedInstance_CreatedAt := Instance_CreatedAt i;
    InitiatedInstance_FinishedAt := Instance_FinishedAt i;
  |}.
Definition FindMyInitiatedHandler_Handle (q : FindMyInitiatedQuery) : M (Page InitiatedInstance) :=
  gets (λ s,
    let rows := orderByDesc Instance_CreatedAt (tselect (λ i,
      (Instance_ApplicantID i ==? fmi_UserID q) && applyIf (fmi_Status q) (λ x, Instance_Status i ==? x)
      && applyIf (fmi_Keyword q) (sqlContains (Instance_Title i))) (db_instances s)) in
    newPage (fmi_Pageable q) rows
      (initiatedInstance (loadInstanceEnrichment s (applyPageable (fmi_Pageable q) rows)))).

Definition myCCRecord (e : enrichment) (r : CCRecord) : MyCCRecord :=
  let inst := enrichedInstance e (CCRecord_InstanceID r) in
  let flow := enrichedFlow e (CCRecord_InstanceID r) in {|
    MyCCRecord_CCRecordID := CCRecord_ID r;
    MyCCRecord_InstanceID := CCRecord_InstanceID r;
    MyCCRecord_InstanceTitle := default "" (Instance_Title <$> inst);
    MyCCRecord_InstanceNo := default "" (Instance_InstanceNo <$> inst);
    MyCCRecord_FlowName := default "" (Flow_Name <$> flow);
    MyCCRecord_FlowIcon := flow ≫= Flow_Icon;
    MyCCRecord_Applicant := default UserInfo_zero (Applicant <$> inst);
    MyCCRecord_NodeName := CCRecord_NodeID r ≫= λ n, enr_nodes e !! n;
    MyCCRecord_IsRead := is_Some_b (CCRecord_ReadAt r);
    MyCCRecord_CreatedAt := CCRecord_CreatedAt r;
  |}.
Definition FindMyCCRecordsHandler_Handle (q : FindMyCCRecordsQuery) : M (Page MyCCRecord) :=
  gets (λ s,
    let rows := orderByDesc CCRecord_CreatedAt (tselect (λ r, (CCRecord_CCUserID r ==? fcc_UserID q)
      && applyIf (fcc_IsRead q) (λ b, Bool.eqb (is_Some_b (CCRecord_ReadAt r)) b)) (db_cc_records s)) in
    let records := applyPageable (fcc_Pageable q) rows in
    newPage (fcc_Pageable q) rows (myCCRecord (loadEnrichmentMaps s (CCRecord_InstanceID <$> records)
      (omap CCRecord_NodeID records)))).

Definition GetMyPendingCountsHandler_Handle (userID : string) : M PendingCounts :=
  gets (λ s, Build_PendingCounts
    (Z.of_nat (tcount (λ t, (Task_AssigneeID t ==? userID) && (Task_Status t ==? TaskPending)) (db_tasks s)))
    (Z.of_nat (tcount (λ r, (CCRecord_CCUserID r ==? userID) && negb (is_Some_b (CCRecord_ReadAt r)))
       (db_cc_records s)))).
(** ** An administrator's tables *)
Definition adminTaskMatches (q : FindAdminTasksQuery) (t : Task) : bool :=
  applyIf (fat_TenantID q) (λ x, Task_TenantID t ==? x) && applyIf (fat_AssigneeID q) (λ x, Task_AssigneeID t ==? x)
  && applyIf (fat_InstanceID q) (λ x, Task_InstanceID t ==? x) && applyIf (fat_Status q) (λ x, Task_Status t ==? x).
Definition adminTaskItem (e : enrichment) (t : Task) : AdminTask := {|
  AdminTask_TaskID := Task_ID t;
  AdminTask_InstanceID := Task_InstanceID t;
  AdminTask_InstanceTitle := default "" (Instance_Title <$> enrichedInstance e (Task_InstanceID t));
  AdminTask_FlowName := default "" (Flow_Name <$> enrichedFlow e (Task_InstanceID t));
  AdminTask_NodeName := default "" (enr_nodes e !! Task_NodeID t);
  AdminTask_Assignee := Assignee t;
  AdminTask_Status := Task_Status t;
  AdminTask_CreatedAt := Task_CreatedAt t;
  AdminTask_Deadline := Task_Deadline t;
  AdminTask_FinishedAt := Task_FinishedAt t;
|}.
Definition FindAdminTasksHandler_Handle (q : FindAdminTasksQuery) : M (Page AdminTask) :=
  gets (λ s,
    let rows := orderByDesc Task_CreatedAt (tselect (adminTaskMatches q) (db_tasks s)) in
    newPage (fat_Pageable q) rows (adminTaskItem (tasksEnrichment s (applyPageable (fat_Pageable q) rows)))).

Definition adminInstanceMatches (q : FindAdminInstancesQuery) (i : Instance) : bool :=
  applyIf (fai_TenantID q) (λ x, Instance_TenantID i ==? x)
  && applyIf (fai_ApplicantID q) (λ x, Instance_ApplicantID i ==? x)
  && applyIf (fai_Status q) (λ x, Instance_Status i ==? x) && applyIf (fai_FlowID q) (λ x, Instance_FlowID i ==? x)
  && applyIf (fai_Keyword q) (sqlContains (Instance_Title i)).
Definition adminInstance (maps : gmap string Flow * gmap string string) (i : Instance) : AdminInstance := {|
  AdminInstance_InstanceID := Instance_ID i;
  AdminInstance_InstanceNo := Instance_InstanceNo i;
  AdminInstance_Title := Instance_Title i;
  AdminInstance_TenantID := Instance_TenantID i;
  AdminInstance_FlowID := Instance_FlowID i;
  AdminInstance_FlowName := default "" (Flow_Name <$> maps.1 !! Instance_FlowID i);
  AdminInstance_Applicant := Applicant i;
  AdminInstance_Status := Instance_Status i;
  AdminInstance_CurrentNodeName := Instance_CurrentNodeID i ≫= λ n, maps.2 !! n;
  AdminInstance_CreatedAt := Instance_CreatedAt i;
  AdminInstance_FinishedAt := Instance_FinishedAt i;
|}.
Definition FindAdminInstancesHandler_Handle (q : FindAdminInstancesQuery) : M (Page AdminInstance) :=
  gets (λ s,
    let rows := orderByDesc Instance_CreatedAt (tselect (adminInstanceMatches q) (db_instances s)) in
    newPage (fai_Pageable q) rows (adminInstance (loadInstanceEnrichment s (applyPageable (fai_Pageable q) rows)))).

(** [toAdminActionLog] *)
Definition toAdminActionLog (l : ActionLog) : AdminActionLog := {|
  AdminActionLog_LogID := ActionLog_ID l;
  AdminActionLog_Action := ActionLog_Action l;
  AdminActionLog_NodeID := ActionLog_NodeID l;
  AdminActionLog_TaskID := ActionLog_TaskID l;
  AdminActionLog_Operator := Operator l;
  AdminActionLog_TransferTo := TransferTo l;
  AdminActionLog_RollbackToNodeID := ActionLog_RollbackToNodeID l;
  AdminActionLog_AddedAssignees := ActionLog_AddedAssignees l;
  AdminActionLog_RemovedAssignees := ActionLog_RemovedAssignees l;
  AdminActionLog_CCUsers := ActionLog_CCUsers l;
  AdminActionLog_Opinion := ActionLog_Opinion l;
  AdminActionLog_Attachments := ActionLog_Attachments l;
  AdminActionLog_CreatedAt := ActionLog_CreatedAt l;
|}.
Definition FindAdminActionLogsHandler_Handle (pageable : Pageable) (instanceID : string) (tenantID : option string)
    : M (Page AdminActionLog) :=
  visible ← gets (λ s, match tenantID with
    | None => true
    | Some tenant => texists (λ i, (Instance_ID i ==? instanceID) && (Instance_TenantID i ==? tenant)) (db_instances s)
    end);
  throwIf (negb visible) ErrInstanceNotFound;;
  gets (λ s, newPage pageable
    (orderBy ActionLog_CreatedAt (tselect (λ l, ActionLog_InstanceID l ==? instanceID) (db_logs s))) toAdminActionLog).

Definition adminProjection (p : BusinessProjection) : AdminBusinessProjection :=
  Build_AdminBusinessProjection (BusinessProjection_ID p) (BusinessProjection_TenantID p) (BusinessProjection_FlowID p)
    (BusinessProjection_FlowVersionID p) (BusinessProjection_OwnerInstanceID p)
    (BusinessProjection_AppliedOwnerInstanceID p) (default "" (tableOf (BusinessProjection_Binding p)))
    (BusinessProjection_RecordKey p) (BusinessProjection_Consistency p) (BusinessProjection_DesiredStatus p)
    (BusinessProjection_DesiredStartedAt p) (BusinessProjection_DesiredFinishedAt p)
    (BusinessProjection_DesiredRevision p) (BusinessProjection_AppliedRevision p) (BusinessProjection_Status p)
    (BusinessProjection_AttemptCount p) (BusinessProjection_NextAttemptAt p) (BusinessProjection_LeaseUntil p)
    (BusinessProjection_LastError p) (BusinessProjection_AppliedAt p) (BusinessProjection_UpdatedAt p).
Definition FindAdminBusinessProjectionsHandler_Handle (pageable : Pageable) (tenantID : option string)
    (status : option BindingProjectionStatus) : M (Page AdminBusinessProjection) :=
  gets (λ s, newPage pageable (orderByDesc BusinessProjection_UpdatedAt (tselect (λ p,
    applyIf tenantID (λ x, BusinessProjection_TenantID p ==? x)
    && applyIf status (λ x, BusinessProjection_Status p ==? x)) (db_projections s))) adminProjection).

(** [get_metrics.go]: an empty tenant counts every tenant's rows. *)
Definition inTenant (tenantID rowTenantID : string) : bool := (tenantID ==? "") || (rowTenantID ==? tenantID).
(** [SELECT status, COUNT(...) GROUP BY status] *)
Definition countByStatus {Row} (status : Row → string) (rows : list Row) : gmap string Z :=
  foldl (λ m r, <[status r := (default 0 (m !! status r) + 1)%Z]> m) ∅ rows.
(** [AVG] of the seconds between creation and end, -1 over no instance. *)
Definition avgCompletionSeconds (instances : list Instance) : Q :=
  let spans := omap (λ i, if InstanceStatus_IsFinal (Instance_Status i)
                          then (λ f, (f - Instance_CreatedAt i)%Z) <$> Instance_FinishedAt i else None) instances in
  match spans with
  | [] => (-1) # 1
  | _ => (foldr Z.add 0%Z spans) # Pos.of_nat (length spans)
  end.
Definition GetMetricsHandler_Handle (tenantID : string) : M Metrics :=
  now ← Now;
  gets (λ s,
    let instances := tselect (λ i, inTenant tenantID (Instance_TenantID i)) (db_instances s) in
    let tasks := tselect (λ t, inTenant tenantID (Task_TenantID t)) (db_tasks s) in
    let projections := tselect (λ p, inTenant tenantID (BusinessProjection_TenantID p)) (db_projections s) in
    let projectionCounts := countByStatus (λ p, BindingProjectionStatus_String (BusinessProjection_Status p)) projections in {|
      Metrics_TenantID := tenantID;
      Metrics_CapturedAt := now;
      Metrics_InstanceCounts := countByStatus (λ i, InstanceStatus_String (Instance_Status i)) instances;
      Metrics_TaskCounts := countByStatus (λ t, TaskStatus_String (Task_Status t)) tasks;
      Metrics_TimeoutTaskCount := Z.of_nat (tcount (λ t, (Task_Status t ==? TaskPending) && Task_IsTimeout t) tasks);
      Metrics_AvgCompletionSeconds := avgCompletionSeconds instances;
      Metrics_BusinessProjectionCounts := projectionCounts;
      Metrics_PendingBusinessProjections := Z.of_nat (tcount (λ p,
        (BusinessProjection_Consistency p ==? ApprovalBindingEventual)
        && (BusinessProjection_AppliedRevision p <? BusinessProjection_DesiredRevision p)%Z) projections);
      Metrics_PendingBindingFailures :=
        default 0%Z (projectionCounts !! BindingProjectionStatus_String BindingProjectionFailed);
    |}).

(** ** Flows *)

(** [orm.LabelsEqual] on a flow *)
Definition labelsEqual (labels : gmap string string) (f : Flow) : bool :=
  forallb (λ kv, Flow_Labels f !! kv.1 ==? Some kv.2) (map_to_list labels).
(** [loadPublishedFlowIDs] *)
Definition loadPublishedFlowIDs (s : St) (flowIDs : list string) : gset string :=
  list_to_set (FlowVersion_FlowID <$> tselect (λ v, bool_decide (FlowVersion_FlowID v ∈ flowIDs)
    && (FlowVersion_Status v ==? VersionPublished)) (db_versions s)).
Definition loadStartableFlows (s : St) (tenantID : string) (keyword : option string) (labels : gmap string string)
    : list Flow :=
  let flows := tselect (λ f, ((Flow_TenantID f ==? tenantID) || Flow_IsShared f) && Flow_IsActive f
    && applyIf keyword (sqlContains (Flow_Name f)) && labelsEqual labels f) (db_flows s) in
  let sharedCodes := Flow_Code <$> List.filter (λ f, negb (Flow_TenantID f ==? tenantID)) flows in
  let taken := list_to_set (Flow_Code <$> tselect (λ f, (Flow_TenantID f ==? tenantID)
    && bool_decide (Flow_Code f ∈ sharedCodes)) (db_flows s)) : gset string in
  let flows := List.filter (λ f, negb (negb (Flow_TenantID f ==? tenantID) && bool_decide (Flow_Code f ∈ taken))) flows in
  let published := loadPublishedFlowIDs s (Flow_ID <$> flows) in
  List.filter (λ f, bool_decide (Flow_ID f ∈ published)) flows.
Definition availableFlow (categories : gmap string FlowCategory) (f : Flow) : AvailableFlow := {|
  AvailableFlow_FlowID := Flow_ID f;
  AvailableFlow_FlowCode := Flow_Code f;
  AvailableFlow_FlowName := Flow_Name f;
  AvailableFlow_FlowIcon := Flow_Icon f;
  AvailableFlow_Description := Flow_Description f;
  AvailableFlow_Labels := Flow_Labels f;
  AvailableFlow_CategoryID := Flow_CategoryID f;
  AvailableFlow_CategoryName := default "" (FlowCategory_Name <$> categories !! Flow_CategoryID f);
|}.
Definition FindAvailableFlowsHandler_Handle (q : FindAvailableFlowsQuery) : M (Page AvailableFlow) :=
  tenantID ← liftR (ResolveWriteTenant (faf_Caller q) "");
  candidates ← gets (λ s, loadStartableFlows s tenantID (faf_Keyword q) (faf_Labels q));
  flowIDs ← InitiableFlowIDs candidates tenantID
    (Build_UserInfo (faf_UserID q) "" (faf_ApplicantDepartmentID q) None);
  if (length flowIDs =? 0)%nat then
    mret (Page_New (faf_Pageable q) 0 [])
  else
    gets (λ s,
      let rows := orderByString Flow_Name (tselect (λ f, bool_decide (Flow_ID f ∈ flowIDs)) (db_flows s)) in
      let categoryIDs := Flow_CategoryID <$> applyPageable (faf_Pageable q) rows in
      newPage (faf_Pageable q) rows (availableFlow (loadByIDs FlowCategory_ID categoryIDs (db_categories s)))).

Definition GetStartFormHandler_Handle (flowCode : string) (applicant : UserInfo) (caller : CallerContext)
    : M StartForm :=
  tenantID ← liftR (match ResolveWriteTenant caller "" with
                    | Ok t => Ok t
                    | Err _ => Err ErrFlowNotFound
                    end);
  flow ← FindStartFlow tenantID flowCode;
  throwIf (negb (Flow_IsActive flow)) ErrFlowNotActive;;
  allowed ← CheckInitiationPermission flow tenantID applicant;
  throwIf (negb allowed) ErrNotAllowedInitiate;;
  version ← orThrow ErrNoPublishedVersion (gets (λ s, tfirst (λ v,
    (FlowVersion_FlowID v ==? Flow_ID flow) && (FlowVersion_Status v ==? VersionPublished))
    (db_versions s)));
  mret {|
    StartForm_FlowID := Flow_ID flow;
    StartForm_FlowCode := Flow_Code flow;
    StartForm_FlowName := Flow_Name flow;
    StartForm_FlowIcon := Flow_Icon flow;
    StartForm_Description := Flow_Description flow;
    StartForm_VersionID := FlowVersion_ID version;
    StartForm_Version := FlowVersion_Version version;
    StartForm_FormSchema := FlowVersion_FormSchema version;
    StartForm_Applicant := applicant;
  |}.

(** [applyFlowTenant] *)
Definition applyFlowTenant (s : St) (tenantID : string) (includeShared : bool) (f : Flow) : bool :=
  (Flow_TenantID f ==? tenantID)
  || includeShared && Flow_IsShared f
     && negb (bool_decide (Flow_Code f ∈ Flow_Code <$> tselect (λ g, Flow_TenantID g ==? tenantID) (db_flows s))).
Definition flowMatches (s : St) (q : FindFlowsQuery) (f : Flow) : bool :=
  applyIf (ffl_TenantID q) (λ x, applyFlowTenant s x (ffl_IncludeShared q) f)
  && applyIf (ffl_CategoryID q) (λ x, Flow_CategoryID f ==? x)
  && applyIf (ffl_IsActive q) (λ b, Bool.eqb (Flow_IsActive f) b)
  && applyIf (ffl_Keyword q) (sqlContains (Flow_Name f))
  && applyIf (ffl_BindingMode q) (λ x, Flow_BindingMode f ==? x) && labelsEqual (ffl_Labels q) f.
Definition FindFlowsHandler_Handle (q : FindFlowsQuery) : M (Page Flow) :=
  gets (λ s, newPage (ffl_Pageable q) (orderByString Flow_Name (tselect (flowMatches s q) (db_flows s))) id).

Definition FindFlowVersionsHandler_Handle (flowID : string) : M (list FlowVersionSummary) :=
  gets (λ s, (λ v, {|
      FlowVersionSummary_ID := FlowVersion_ID v;
      FlowVersionSummary_FlowID := FlowVersion_FlowID v;
      FlowVersionSummary_Version := FlowVersion_Version v;
      FlowVersionSummary_Status := FlowVersion_Status v;
      FlowVersionSummary_Description := FlowVersion_Description v;
      FlowVersionSummary_StorageMode := FlowVersion_StorageMode v;
      FlowVersionSummary_PublishedAt := FlowVersion_PublishedAt v;
      FlowVersionSummary_PublishedBy := FlowVersion_PublishedBy v;
    |}) <$> orderBy (λ v, - FlowVersion_Version v)%Z (tselect (λ v, FlowVersion_FlowID v ==? flowID) (db_versions s))).
Definition FindFlowInitiatorsHandler_Handle (flowID : string) : M (list FlowInitiator) :=
  gets (λ s, tselect (λ i, FlowInitiator_FlowID i ==? flowID) (db_initiators s)).
Definition GetFlowGraphHandler_Handle (flowID versionID : string) : M FlowGraph :=
  flow ← orThrow ErrFlowNotFound (findFlow flowID);
  version ← (if negb (versionID ==? "") then
               version ← orThrow ErrVersionNotFound (findVersion versionID);
               throwIf (negb (FlowVersion_FlowID version ==? Flow_ID flow)) ErrVersionNotFound;;
               mret version
             else
               orThrow ErrNoPublishedVersion (gets (λ s, head (orderBy (λ v, - FlowVersion_Version v)%Z
                 (tselect (λ v, (FlowVersion_FlowID v ==? flowID) && (FlowVersion_Status v ==? VersionPublished))
                   (db_versions s))))));
  gets (λ s, Build_FlowGraph flow version
    (tselect (λ n, FlowNode_FlowVersionID n ==? FlowVersion_ID version) (db_nodes s))
    (tselect (λ e, FlowEdge_FlowVersionID e ==? FlowVersion_ID version) (db_edges s))).
End lists.
