(* ===== verification/Discipline.v ===== *)
(** * The visit discipline

    The invariant that ties the tables together, and the relations used to prove
    that the handlers keep it:

    - a running instance has exactly one active visit, at its current node, and
      every open (pending or waiting) task of the instance belongs to that visit;
    - an instance that is not running has no active visit and no open task.

    [touches I] says that a transaction is safe and changes only rows of instance
    [I]; [inFrame pc] is what the node processors keep while a node is being
    entered. *)
From S2P Require Import Prelude Enums StateMachine Models Demo Store Shared Delegation PassRule Processors Binding.

(** ** Rows of one instance *)

Definition tasksOf (s : St) (I : string) : list Task :=
  tselect (λ t, Task_InstanceID t ==? I) (db_tasks s).
Definition visitsOf (s : St) (I : string) : list NodeVisit :=
  tselect (λ v, NodeVisit_InstanceID v ==? I) (db_visits s).
Definition instancesOf (s : St) (I : string) : list Instance :=
  tselect (λ i, Instance_ID i ==? I) (db_instances s).

Definition isActive (v : NodeVisit) : bool := NodeVisit_Status v ==? NodeVisitActive.

(** No traversal is under way and nobody is asked to act. *)
Definition quiet (s : St) (I : string) : Prop :=
  (∀ v, v ∈ visitsOf s I → isActive v = false) ∧
  (∀ t, t ∈ tasksOf s I → isOpen t = false).

(** The open tasks all belong to visit [vid] of node [n]. *)
Definition openAt (s : St) (I vid n : string) : Prop :=
  ∀ t, t ∈ tasksOf s I → isOpen t = true → Task_VisitID t = vid ∧ Task_NodeID t = n.

(** Exactly one active visit, at node [n], to which the open tasks belong. *)
Definition seated (s : St) (I n : string) : Prop :=
  ∃ v, v ∈ visitsOf s I ∧ isActive v = true ∧ NodeVisit_NodeID v = n ∧
    (∀ v', v' ∈ visitsOf s I → isActive v' = true → v' = v) ∧
    openAt s I (NodeVisit_ID v) n.

Definition inst_ok (s : St) (i : Instance) : Prop :=
  match Instance_Status i with
  | InstanceRunning => ∃ n, Instance_CurrentNodeID i = Some n ∧ seated s (Instance_ID i) n
  | _ => quiet s (Instance_ID i)
  end.

(** The visit a task was opened in, and the task it was attached to. *)
Definition visit_ref (s : St) (t : Task) : Prop :=
  ∃ v, v ∈ db_visits s ∧ NodeVisit_ID v = Task_VisitID t ∧
       NodeVisit_InstanceID v = Task_InstanceID t ∧ NodeVisit_NodeID v = Task_NodeID t.
Definition parent_ref (s : St) (t : Task) : Prop :=
  ∀ p, Task_ParentTaskID t = Some p →
    ∃ t', t' ∈ db_tasks s ∧ Task_ID t' = p ∧ Task_InstanceID t' = Task_InstanceID t ∧
          Task_VisitID t' = Task_VisitID t.

(** Nodes at which people are asked to act. *)
Definition isWorkKind (k : NodeKind) : bool := (k ==? NodeApproval) || (k ==? NodeHandle).
Definition workNode (s : St) (nodeID : string) : Prop :=
  ∃ n, n ∈ db_nodes s ∧ FlowNode_ID n = nodeID ∧ isWorkKind (FlowNode_Kind n) = true.

(** Nodes of a version. *)
Definition homeNode (s : St) (versionID nodeID : string) : Prop :=
  ∃ n, n ∈ db_nodes s ∧ FlowNode_ID n = nodeID ∧ FlowNode_FlowVersionID n = versionID.
(** Edges leave nodes of their own version. *)
Definition edgesHome (s : St) : Prop :=
  ∀ e, e ∈ db_edges s → homeNode s (FlowEdge_FlowVersionID e) (FlowEdge_SourceNodeID e).

(** Tasks and visits belong to instances that exist; a task belongs to a visit of
    its instance and node, and an added task to the visit of its anchor; node ids
    are unique and tasks are only at approval and handle nodes; an instance visits
    nodes of the version it runs on. *)
Record refs_ok (s : St) : Prop := {
  refs_tasks : ∀ t, t ∈ db_tasks s → instancesOf s (Task_InstanceID t) ≠ [];
  refs_visits : ∀ v, v ∈ db_visits s → instancesOf s (NodeVisit_InstanceID v) ≠ [];
  refs_visit : ∀ t, t ∈ db_tasks s → visit_ref s t;
  refs_parent : ∀ t, t ∈ db_tasks s → parent_ref s t;
  refs_nodes : NoDup (FlowNode_ID <$> db_nodes s);
  refs_work : ∀ t, t ∈ db_tasks s → workNode s (Task_NodeID t);
  refs_home : ∀ v i, v ∈ db_visits s → i ∈ db_instances s → Instance_ID i = NodeVisit_InstanceID v →
    homeNode s (Instance_FlowVersionID i) (NodeVisit_NodeID v);
  refs_edges : edgesHome s;
}.

Record disciplined `{!Host} (s : St) : Prop := {
  disc_wf : wf s;
  disc_refs : refs_ok s;
  disc_inst : ∀ i, i ∈ db_instances s → inst_ok s i;
}.

(** ** Evolution of tables, row by row *)

Lemma tupdate_evolves_in {Row} (R : relation Row) `{!Reflexive R} p f t :
  (∀ r, r ∈ t → p r = true → R r (f r)) → table_evolves R t (tupdate p f t).
Proof.
  intros Hf. exists (tupdate p f t), []. rewrite app_nil_r. split; [done|].
  unfold tupdate. induction t as [|r t IH]; cbn; constructor.
  - destruct (p r) eqn:?; [apply Hf; [set_solver|done]|reflexivity].
  - apply IH. intros r' ?. apply Hf. set_solver.
Qed.
Lemma fmap_ids_tupdate_in {Row} (key : Row → string) p f (t : list Row) :
  (∀ r, r ∈ t → p r = true → key (f r) = key r) → key <$> tupdate p f t = key <$> t.
Proof.
  intros Hk. unfold tupdate. induction t as [|r t IH]; cbn; [done|].
  rewrite IH by (intros r' ?; apply Hk; set_solver). f_equal.
  destruct (p r) eqn:?; [apply Hk; [set_solver|done]|done].
Qed.
(** An update that stays inside the rows selected by [q] leaves the others alone. *)
Lemma tselect_tupdate_other {Row} (q p : Row → bool) f t :
  (∀ r, r ∈ t → p r = true → q r = false ∧ q (f r) = false) →
  tselect q (tupdate p f t) = tselect q t.
Proof.
  intros Hf. unfold tselect, tupdate. induction t as [|r t IH]; cbn; [done|].
  rewrite IH by (intros r' ?; apply Hf; set_solver).
  destruct (p r) eqn:Hp; [|done].
  by destruct (Hf r) as [-> ->]; [set_solver|done|].
Qed.
Lemma tselect_snoc_other {Row} (q : Row → bool) t r :
  q r = false → tselect q (t ++ [r]) = tselect q t.
Proof. intros Hq. rewrite tselect_app. unfold tselect at 2; cbn. by rewrite Hq, app_nil_r. Qed.

(** Rows with distinct keys are determined by their key. *)
Lemma NoDup_key_inj {Row} (key : Row → string) (t : list Row) r r' :
  NoDup (key <$> t) → r ∈ t → r' ∈ t → key r = key r' → r = r'.
Proof.
  intros Hd Hr Hr' Hk.
  apply list_elem_of_lookup in Hr as [i Hi]. apply list_elem_of_lookup in Hr' as [j Hj].
  assert (i = j) as ->.
  { eapply NoDup_lookup; [exact Hd| |]; rewrite list_lookup_fmap.
    - by rewrite Hi.
    - rewrite Hj. cbn. by rewrite Hk. }
  congruence.
Qed.

Lemma NoDup_key_tselect {Row K} (key : Row → K) p (t : list Row) :
  NoDup (key <$> t) → NoDup (key <$> tselect p t).
Proof.
  unfold tselect. induction t as [|r t IH]; cbn; [done|].
  intros [Hr Hd]%NoDup_cons. destruct (p r); cbn; [|by apply IH].
  apply NoDup_cons. split; [|by apply IH]. intros (r' & Hk & Hin)%list_elem_of_fmap. apply Hr.
  rewrite Hk. apply list_elem_of_fmap_2. rewrite list_elem_of_In in Hin |- *.
  by apply List.filter_In in Hin as [? _].
Qed.

(** ** Transactions of one instance *)
Section touches.
Context `{!Host}.

(** Rows of instances other than [I] are the same lists. *)
Definition othersSame (I : string) (s s' : St) : Prop :=
  ∀ J, J ≠ I → tasksOf s' J = tasksOf s J ∧ visitsOf s' J = visitsOf s J ∧
               instancesOf s' J = instancesOf s J.

Record touched (I : string) (s s' : St) : Prop := {
  tch_wf : wf s';
  tch_evolves : evolves s s';
  tch_others : othersSame I s s';
  tch_refs : refs_ok s';
}.
(** From a well-formed store that knows instance [I], only [I] is touched. *)
Definition touches (I : string) (s s' : St) : Prop :=
  wf s → refs_ok s → instancesOf s I ≠ [] → touched I s s' ∧ instancesOf s' I ≠ [].

#[export] Instance touches_preorder I : PreOrder (touches I).
Proof.
  split.
  - intros s ? ? ?. split; [|done]. constructor; [done|reflexivity|by intros J ?|done].
  - intros x y z Hxy Hyz Hw Hr Hi.
    destruct (Hxy Hw Hr Hi) as [[Hw1 He1 Ho1 Hr1] Hi1].
    destruct (Hyz Hw1 Hr1 Hi1) as [[Hw2 He2 Ho2 Hr2] Hi2].
    split; [|done]. constructor; [done|by etrans| |done].
    intros J HJ. destruct (Ho1 J HJ) as (<- & <- & <-). by apply Ho2.
Qed.

(** The parts of the store [touches] speaks about. *)
Lemma touches_same I s s' :
  db_tasks s' = db_tasks s → db_visits s' = db_visits s → db_instances s' = db_instances s →
  db_nodes s' = db_nodes s → db_edges s' = db_edges s →
  db_events s `prefix_of` db_events s' → db_logs s `prefix_of` db_logs s' →
  db_next_id s ≤ db_next_id s' → touches I s s'.
Proof.
  intros Ht Hv Hi Hn He Hev Hl Hid [Hw1 Hw2 Hw3] Hr Hne.
  unfold instancesOf in *. rewrite Hi. split; [|done]. constructor.
  - constructor; rewrite ?Ht, ?Hv, ?Hi; eapply ids_ok_mono; eauto.
  - constructor; rewrite ?Ht, ?Hv, ?Hi; try done; reflexivity.
  - intros J _. unfold tasksOf, visitsOf, instancesOf. by rewrite Ht, Hv, Hi.
  - destruct Hr as [R1 R2 R3 R4 R5 R6 R7 R8]. unfold visit_ref, parent_ref, workNode, edgesHome, homeNode, instancesOf in *.
    constructor; unfold visit_ref, parent_ref, workNode, edgesHome, homeNode, instancesOf; rewrite ?Ht, ?Hv, ?Hi, ?Hn, ?He; auto.
Qed.

Ltac same := intros []; intros; match goal with H : _ = Ok _ |- _ => injection H as ?; subst end;
  apply touches_same; cbn; try done; try lia; try (by eexists); reflexivity.

Lemma touches_Now I : keeps (touches I) Now.
Proof. same. Qed.
Lemma touches_freshID I : keeps (touches I) freshID.
Proof. same. Qed.
Lemma touches_statements I f : keeps (touches I) (modify (E := Error) (upd_statements f)).
Proof. same. Qed.
Lemma touches_projections I f : keeps (touches I) (modify (E := Error) (upd_projections f)).
Proof. same. Qed.
Lemma touches_business I f : keeps (touches I) (modify (E := Error) (upd_business f)).
Proof. same. Qed.
Lemma touches_EmitEvents I evs : keeps (touches I) (EmitEvents evs).
Proof. same. Qed.
Lemma touches_addActionLog I l : keeps (touches I) (addActionLog l).
Proof. intros [? ? ? ? ? ? ? ? ? ? ? ? ? ? ? ? ? [] ? ? ? ? ? ? ?] a s' [=]; subst; apply touches_same; cbn; try done; by eexists. Qed.
Lemma touches_insertSnapshot I f : keeps (touches I) (insertSnapshot f).
Proof. same. Qed.
Lemma touches_insertCCRecord I r : keeps (touches I) (insertCCRecord r).
Proof. same. Qed.
Lemma touches_insertUrge I r : keeps (touches I) (insertUrge r).
Proof. same. Qed.
Lemma touches_updateCCRecords I p f : keeps (touches I) (updateCCRecords p f).
Proof. same. Qed.

(** What an insert leaves behind. *)
Lemma insertTask_Ok t s a s' :
  insertTask t s = Ok (a, s') →
  a = set_Task_CreatedAt (clock_reading (db_clock s)) (set_Task_ID (gen_id (db_next_id s)) t) ∧
  db_tasks s' = db_tasks s ++ [a] ∧ db_visits s' = db_visits s ∧
  db_instances s' = db_instances s.
Proof. destruct s. intros [=]; subst. done. Qed.
Lemma insertVisit_Ok v s a s' :
  insertVisit v s = Ok (a, s') →
  a = set_NodeVisit_CreatedAt (clock_reading (db_clock s))
        (set_NodeVisit_ID (gen_id (db_next_id s)) v) ∧
  db_visits s' = db_visits s ++ [a] ∧ db_tasks s' = db_tasks s ∧
  db_instances s' = db_instances s.
Proof. destruct s. intros [=]; subst. done. Qed.

Lemma touches_insertTask I t s a s' :
  Task_InstanceID t = I → visit_ref s t → parent_ref s t → workNode s (Task_NodeID t) →
  insertTask t s = Ok (a, s') → touches I s s'.
Proof.
  intros <- (v & Hv1 & Hv2 & Hv3 & Hv4) Hpar Hwork Hrun Hw Hr Hi.
  pose proof (safe_insertTask t s a s' Hrun Hw) as [He Hw'].
  pose proof (ev_nodes _ _ He) as Hnodes. pose proof (ev_edges _ _ He) as Hedges.
  apply insertTask_Ok in Hrun as (Ha & Ht & Hv & Hn).
  assert (Task_InstanceID a = Task_InstanceID t ∧ Task_VisitID a = Task_VisitID t ∧
          Task_NodeID a = Task_NodeID t ∧ Task_ParentTaskID a = Task_ParentTaskID t)
    as (Hai & Hav & Han & Hap) by (subst a; by destruct t).
  unfold instancesOf in *. rewrite Hn. split; [|done]. constructor; auto.
  - intros J HJ. unfold tasksOf, visitsOf, instancesOf. rewrite Ht, Hv, Hn.
    rewrite tselect_snoc_other; [done|]. apply bool_decide_eq_false_2. congruence.
  - destruct Hr as [R1 R2 R3 R4 R5 R6 R7 R8]. unfold visit_ref, parent_ref, workNode, edgesHome, homeNode, instancesOf in *.
    constructor; unfold visit_ref, parent_ref, workNode, edgesHome, homeNode, instancesOf;
      rewrite ?Ht, ?Hv, ?Hn, ?Hnodes, ?Hedges; auto;
      intros t' [Hin| ->%list_elem_of_singleton]%elem_of_app; auto.
    + by rewrite Hai.
    + exists v. by rewrite Hai, Hav, Han.
    + intros p Hp. destruct (R4 t' Hin p Hp) as (t0 & ? & ?). exists t0. set_solver.
    + intros p Hp. rewrite Hap in Hp. destruct (Hpar p Hp) as (t0 & ? & ?). exists t0.
      rewrite Hai, Hav. set_solver.
    + by rewrite Han.
Qed.
Lemma touches_insertVisit I v s a s' :
  NodeVisit_InstanceID v = I →
  (∀ i, i ∈ db_instances s → Instance_ID i = I → homeNode s (Instance_FlowVersionID i) (NodeVisit_NodeID v)) →
  insertVisit v s = Ok (a, s') → touches I s s'.
Proof.
  intros <- Hhome Hrun Hw Hr Hi. pose proof (safe_insertVisit v s a s' Hrun Hw) as [He Hw'].
  pose proof (ev_nodes _ _ He) as Hnodes. pose proof (ev_edges _ _ He) as Hedges.
  apply insertVisit_Ok in Hrun as (Ha & Hv & Ht & Hn).
  assert (NodeVisit_InstanceID a = NodeVisit_InstanceID v ∧ NodeVisit_NodeID a = NodeVisit_NodeID v) as [Hai Han]
    by (subst a; by destruct v).
  unfold instancesOf in *. rewrite Hn. split; [|done]. constructor; auto.
  - intros J HJ. unfold tasksOf, visitsOf, instancesOf. rewrite Ht, Hv, Hn.
    rewrite tselect_snoc_other; [done|]. apply bool_decide_eq_false_2. congruence.
  - destruct Hr as [R1 R2 R3 R4 R5 R6 R7 R8]. unfold visit_ref, parent_ref, workNode, edgesHome, homeNode, instancesOf in *.
    constructor; unfold visit_ref, parent_ref, workNode, edgesHome, homeNode, instancesOf;
      rewrite ?Ht, ?Hv, ?Hn, ?Hnodes, ?Hedges; auto.
    + intros t' [Hin| ->%list_elem_of_singleton]%elem_of_app; [by apply R2|]. by rewrite Hai.
    + intros t Hin. destruct (R3 t Hin) as (v0 & ? & ?). exists v0. set_solver.
    + intros v0 i [Hin| ->%list_elem_of_singleton]%elem_of_app Hin' Hid; [by apply R7|].
      rewrite Han. apply Hhome; [done|congruence].
Qed.

(** State-dependent rules for updates. *)
Lemma tupdate_keeps_parent (p : Task → bool) f (tasks : list Task) q i v :
  (∀ t, t ∈ tasks → p t = true → task_evolves t (f t)) →
  (∃ t', t' ∈ tasks ∧ Task_ID t' = q ∧ Task_InstanceID t' = i ∧ Task_VisitID t' = v) →
  ∃ t', t' ∈ tupdate p f tasks ∧ Task_ID t' = q ∧ Task_InstanceID t' = i ∧ Task_VisitID t' = v.
Proof.
  intros Hf (t' & Hin & <- & <- & <-). exists (if p t' then f t' else t'). split.
  - apply elem_of_tupdate. by exists t'.
  - destruct (p t') eqn:Hp; [|done]. by destruct (Hf t' Hin Hp) as (-> & -> & _ & -> & _).
Qed.
Lemma touches_tasks_in I s p f :
  (∀ t, t ∈ db_tasks s → p t = true → Task_InstanceID t = I ∧ task_evolves t (f t) ∧
     (Task_ParentTaskID (f t) = Task_ParentTaskID t ∨ parent_ref s (f t))) →
  touches I s (upd_tasks (tupdate p f) s).
Proof.
  intros Hf [Hw1 Hw2 Hw3] Hr Hi. destruct s; cbn in *. split; [|done].
  constructor; [constructor|constructor| |]; cbn -[tupdate]; auto; try reflexivity.
  - rewrite fmap_ids_tupdate_in; [done|]. intros r Hin Hp. apply (Hf r Hin Hp).
  - apply tupdate_evolves_in; [apply _|]. intros r Hin Hp. apply (Hf r Hin Hp).
  - intros J HJ. unfold tasksOf; cbn -[tupdate]. split; [|done]. apply tselect_tupdate_other.
    intros r Hin Hp. destruct (Hf r Hin Hp) as (HI & (_ & Hi' & _) & _).
    split; apply bool_decide_eq_false_2; congruence.
  - destruct Hr as [R1 R2 R3 R4 R5 R6 R7 R8].
    constructor; unfold visit_ref, parent_ref, workNode, edgesHome, homeNode, instancesOf in *; cbn -[tupdate] in *; auto;
      intros t (r & Hin & ->)%elem_of_tupdate; destruct (p r) eqn:Hp; auto.
    + destruct (Hf r Hin Hp) as (_ & (_ & -> & _) & _). auto.
    + destruct (Hf r Hin Hp) as (_ & (_ & -> & -> & -> & _) & _). auto.
    + intros q Hq. apply tupdate_keeps_parent; [intros; by apply Hf|].
      destruct (Hf r Hin Hp) as (_ & He & [Hsame|Hpar]); [|by apply Hpar].
      destruct He as (_ & -> & _ & -> & _). apply R4; [done|congruence].
    + intros q Hq. apply tupdate_keeps_parent; [intros; by apply Hf|]. by apply R4.
    + destruct (Hf r Hin Hp) as (_ & (_ & _ & -> & _) & _). by apply R6.
Qed.
(** The columns a status update leaves alone. *)
Definition keepsIdentity (f : Task → Task) : Prop := ∀ r,
  Task_ID (f r) = Task_ID r ∧ Task_InstanceID (f r) = Task_InstanceID r ∧
  Task_NodeID (f r) = Task_NodeID r ∧ Task_VisitID (f r) = Task_VisitID r ∧
  Task_TenantID (f r) = Task_TenantID r ∧ Task_ParentTaskID (f r) = Task_ParentTaskID r.

(** A status update of rows of the instance along the task machine. *)
Lemma touches_task_step I s p f :
  keepsIdentity f →
  (∀ t, t ∈ db_tasks s → p t = true → Task_InstanceID t = I ∧
     rtc task_step (Task_Status t) (Task_Status (f t))) →
  touches I s (upd_tasks (tupdate p f) s).
Proof.
  intros Hk Hf. apply touches_tasks_in. intros t Hin Hp. destruct (Hf t Hin Hp) as [HI Hst].
  destruct (Hk t) as (? & ? & ? & ? & ? & ?). split; [done|]. split; [|by left]. by repeat split.
Qed.
Lemma touches_visits_in I s p f :
  (∀ v, v ∈ db_visits s → p v = true → NodeVisit_InstanceID v = I ∧ visit_evolves v (f v)) →
  touches I s (upd_visits (tupdate p f) s).
Proof.
  intros Hf [Hw1 Hw2 Hw3] Hr Hi. destruct s; cbn in *. split; [|done].
  constructor; [constructor|constructor| |]; cbn -[tupdate]; auto; try reflexivity.
  - rewrite fmap_ids_tupdate_in; [done|]. intros r Hin Hp. apply (Hf r Hin Hp).
  - apply tupdate_evolves_in; [apply _|]. intros r Hin Hp. apply (Hf r Hin Hp).
  - intros J HJ. unfold visitsOf; cbn -[tupdate]. split; [done|]. split; [|done].
    apply tselect_tupdate_other.
    intros r Hin Hp. destruct (Hf r Hin Hp) as [HI (_ & Hi' & _)].
    split; apply bool_decide_eq_false_2; congruence.
  - destruct Hr as [R1 R2 R3 R4 R5 R6 R7 R8].
    constructor; unfold visit_ref, parent_ref, workNode, edgesHome, homeNode, instancesOf in *; cbn -[tupdate] in *; auto.
    + intros v (r & Hin & ->)%elem_of_tupdate. destruct (p r) eqn:Hp; [|by apply R2].
      destruct (Hf r Hin Hp) as [_ (_ & -> & _)]. by apply R2.
    + intros t Hin. destruct (R3 t Hin) as (v & Hv & <- & <- & <-).
      exists (if p v then f v else v). split; [apply elem_of_tupdate; by exists v|].
      destruct (p v) eqn:Hp; [|done]. by destruct (Hf v Hv Hp) as [_ (-> & -> & -> & _)].
    + intros v i (r & Hin & ->)%elem_of_tupdate. destruct (p r) eqn:Hp; [|by apply R7].
      destruct (Hf r Hin Hp) as [_ (_ & -> & -> & _)]. by apply R7.
Qed.
Lemma tselect_tupdate_key {Row} (key : Row → string) k p f t :
  (∀ r, r ∈ t → p r = true → key (f r) = key r) →
  tselect (λ r, key r ==? k) (tupdate p f t) = tupdate p f (tselect (λ r, key r ==? k) t).
Proof.
  intros Hk. unfold tselect, tupdate. induction t as [|r t IH]; cbn; [done|].
  rewrite IH by (intros r' ?; apply Hk; set_solver).
  destruct (p r) eqn:Hp; [|by destruct (key r ==? k); cbn; rewrite ?Hp].
  rewrite Hk by (set_solver || done). destruct (key r ==? k); cbn; by rewrite ?Hp.
Qed.
Lemma touches_instances_in I s p f :
  (∀ i, i ∈ db_instances s → p i = true → Instance_ID i = I ∧ instance_evolves i (f i)) →
  touches I s (upd_instances (tupdate p f) s).
Proof.
  intros Hf [Hw1 Hw2 Hw3] Hr Hi.
  assert (∀ J, instancesOf (upd_instances (tupdate p f) s) J = tupdate p f (instancesOf s J)) as Hsel.
  { intros J. destruct s; unfold instancesOf; cbn -[tupdate]. apply tselect_tupdate_key.
    intros r Hin Hp. apply (Hf r Hin Hp). }
  assert (∀ J, instancesOf s J ≠ [] → instancesOf (upd_instances (tupdate p f) s) J ≠ []) as Hne.
  { intros J HJ. rewrite Hsel. by destruct (instancesOf s J). }
  split; [|by apply Hne]. constructor.
  - destruct s; constructor; cbn -[tupdate] in *; auto.
    rewrite fmap_ids_tupdate_in; [done|]. intros r Hin Hp. apply (Hf r Hin Hp).
  - destruct s; constructor; cbn -[tupdate] in *; auto; try reflexivity.
    apply tupdate_evolves_in; [apply _|]. intros r Hin Hp. apply (Hf r Hin Hp).
  - intros J HJ. destruct s; unfold tasksOf, visitsOf, instancesOf; cbn -[tupdate] in *.
    split; [done|]. split; [done|]. apply tselect_tupdate_other.
    intros r Hin Hp. destruct (Hf r Hin Hp) as [HI (Hi' & _)].
    split; apply bool_decide_eq_false_2; congruence.
  - destruct Hr as [R1 R2 R3 R4 R5 R6 R7 R8]. constructor.
    + intros x Hx. apply Hne, R1. by destruct s.
    + intros x Hx. apply Hne, R2. by destruct s.
    + intros x Hx. assert (visit_ref s x) as Hv by (apply R3; by destruct s). by destruct s.
    + intros x Hx. assert (parent_ref s x) as Hp by (apply R4; by destruct s). by destruct s.
    + by destruct s.
    + by destruct s.
    + destruct s; cbn -[tupdate] in *. intros v i Hv (r & Hin & ->)%elem_of_tupdate Hid.
      destruct (p r) eqn:Hp; [|by eapply R7]. destruct (Hf r Hin Hp) as [_ (Ei & _ & _ & Ev & _)].
      rewrite Ev. eapply (R7 v r); [done|done|congruence].
    + by destruct s.
Qed.
End touches.
#[export] Hint Resolve touches_Now touches_freshID touches_EmitEvents touches_addActionLog
  touches_insertSnapshot touches_insertCCRecord touches_insertUrge touches_updateCCRecords : keeps.

Section side.
Context `{!Host}.

(** Reads and writes outside the instance tables. *)
Definition sideOnly (I : string) (s s' : St) : Prop :=
  touches I s s' ∧ db_tasks s' = db_tasks s ∧ db_visits s' = db_visits s ∧
  db_instances s' = db_instances s.
#[export] Instance sideOnly_preorder I : PreOrder (sideOnly I).
Proof.
  split.
  - intros s. split; [reflexivity|done].
  - intros x y z (Ha & ? & ? & ?) (Hb & ? & ? & ?). split; [by etrans|]. repeat split; congruence.
Qed.
Ltac side := intros s a s' Hrun;
  split; [|destruct s as [? ? ? ? ? ? ? ? ? ? ? ? ? ? ? ? ? [] ? ? ? ? ? ? ?]; injection Hrun as ? ?; by subst].
Lemma sideOnly_EmitEvents I evs : keeps (sideOnly I) (EmitEvents evs).
Proof. side. by eapply touches_EmitEvents. Qed.
Lemma sideOnly_addActionLog I l : keeps (sideOnly I) (addActionLog l).
Proof. side. by eapply touches_addActionLog. Qed.
Lemma sideOnly_Now I : keeps (sideOnly I) Now.
Proof. side. by eapply touches_Now. Qed.
Lemma sideOnly_insertUrge I r : keeps (sideOnly I) (insertUrge r).
Proof. side. by eapply touches_insertUrge. Qed.
Lemma sideOnly_insertCCRecord I r : keeps (sideOnly I) (insertCCRecord r).
Proof. side. by eapply touches_insertCCRecord. Qed.
Lemma sideOnly_updateCCRecords I p f : keeps (sideOnly I) (updateCCRecords p f).
Proof. side. by eapply touches_updateCCRecords. Qed.
Lemma sideOnly_freshID I : keeps (sideOnly I) freshID.
Proof. side. by eapply touches_freshID. Qed.
Lemma sideOnly_statements I f : keeps (sideOnly I) (modify (E := Error) (upd_statements f)).
Proof. side. by eapply touches_statements. Qed.
Lemma sideOnly_projections I f : keeps (sideOnly I) (modify (E := Error) (upd_projections f)).
Proof. side. by eapply touches_projections. Qed.
Lemma sideOnly_business I f : keeps (sideOnly I) (modify (E := Error) (upd_business f)).
Proof. side. by eapply touches_business. Qed.
#[local] Hint Resolve sideOnly_Now sideOnly_projections sideOnly_business : keeps.
Lemma sideOnly_Project I i : keeps (sideOnly I) (Projector_Project i).
Proof. apply keeps_Project; eauto with keeps typeclass_instances. Qed.
Lemma sideOnly_applySynchronously I p : keeps (sideOnly I) (applySynchronouslyIfConfigured p).
Proof. apply keeps_applySynchronously; eauto with keeps typeclass_instances. Qed.
Lemma sideOnly_claimTarget I f b i : keeps (sideOnly I) (claimTarget f b i).
Proof. apply keeps_claimTarget; eauto with keeps typeclass_instances; apply sideOnly_freshID. Qed.
Lemma sideOnly_Retry I p : keeps (sideOnly I) (Worker_Retry p).
Proof. apply keeps_Retry; eauto with keeps typeclass_instances. Qed.
End side.
#[export] Hint Resolve sideOnly_EmitEvents sideOnly_addActionLog sideOnly_Now sideOnly_insertUrge
  sideOnly_insertCCRecord sideOnly_updateCCRecords sideOnly_freshID sideOnly_statements
  sideOnly_projections sideOnly_business sideOnly_Project sideOnly_applySynchronously sideOnly_claimTarget
  sideOnly_Retry : keeps.
