(* ===== verification/EngineInv.v ===== *)
(** * The engine keeps the visit discipline

    Entering a node, acting on its result and advancing, up to the point where
    the traversal waits or the instance is completed: from a running instance
    with no active visit and no open task, a successful traversal reaches a store
    in which the instance is again in order.  Other instances are not touched. *)
From S2P Require Import Prelude Enums StateMachine Models Demo Store Shared Delegation PassRule Binding.
From S2P Require Import Processors Engine Discipline.

(** ** What a processor may do *)
Section frame.
Context `{!Host} (pc : ProcessContext).
Notation I := (Instance_ID (pc_Instance pc)).
Notation V := (NodeVisit_ID (pc_Visit pc)).
Notation N := (FlowNode_ID (pc_Node pc)).

(** The instance, the open visit and the node are in the store. *)
Definition framed (s : St) : Prop :=
  instancesOf s I ≠ [] ∧
  (∃ v, v ∈ db_visits s ∧ NodeVisit_ID v = V ∧ NodeVisit_InstanceID v = I ∧ NodeVisit_NodeID v = N) ∧
  pc_Node pc ∈ db_nodes s.

Definition inFrame (s s' : St) : Prop :=
  wf s → refs_ok s → framed s →
  (touched I s s' ∧ framed s') ∧
  db_visits s' = db_visits s ∧ db_instances s' = db_instances s ∧
  (openAt s I V N → openAt s' I V N).

#[export] Instance inFrame_preorder : PreOrder inFrame.
Proof.
  split.
  - intros s Hw Hr Hi. split; [|done]. split; [|done]. by apply (touches_preorder I), Hi.
  - intros x y z Hxy Hyz Hw Hr Hi.
    destruct (Hxy Hw Hr Hi) as ((Ht1 & Hi1) & Hv1 & Hn1 & Ho1).
    destruct (Hyz (tch_wf _ _ _ Ht1) (tch_refs _ _ _ Ht1) Hi1) as ((Ht2 & Hi2) & Hv2 & Hn2 & Ho2).
    split; [|split; [congruence|split; [congruence|auto]]]. split; [|done].
    assert (touches I x z) as Hxz; [|by apply Hxz, Hi].
    transitivity y; intros ? ? ?; [exact (conj Ht1 (proj1 Hi1))|exact (conj Ht2 (proj1 Hi2))].
Qed.

Lemma inFrame_same s s' :
  db_tasks s' = db_tasks s → db_visits s' = db_visits s → db_instances s' = db_instances s →
  touches I s s' → inFrame s s'.
Proof.
  intros Ht Hv Hi Htch Hw Hr (Hne & Hvis). destruct (Htch Hw Hr Hne) as [Htc _].
  split; [split; [done|]|].
  - unfold framed, instancesOf in *. by rewrite Hi, Hv, (ev_nodes _ _ (tch_evolves _ _ _ Htc)).
  - split; [done|]. split; [done|]. unfold openAt, tasksOf. by rewrite Ht.
Qed.
(** An update of task rows that moves no row and opens nothing. *)
Lemma inFrame_tasks s p f :
  touches I s (upd_tasks (tupdate p f) s) →
  (∀ t, Task_InstanceID (f t) = Task_InstanceID t ∧ Task_VisitID (f t) = Task_VisitID t ∧
        Task_NodeID (f t) = Task_NodeID t) →
  (∀ t, t ∈ db_tasks s → p t = true → isOpen (f t) = true → isOpen t = true) →
  inFrame s (upd_tasks (tupdate p f) s).
Proof.
  intros Htch Hk Hf Hw Hr (Hne & Hvis). split; [split; [by apply Htch|]|].
  - unfold framed, instancesOf in *. by destruct s.
  - split; [by destruct s|]. split; [by destruct s|]. intros Hop u Hu Huo.
    apply elem_of_tselect in Hu as [HuI Hu]. apply bool_decide_eq_true in HuI.
    assert (∃ row, row ∈ db_tasks s ∧ u = if p row then f row else row) as (row & Hrow & ->).
    { destruct s; cbn in *. by apply elem_of_tupdate in Hu. }
    destruct (Hk row) as (HI & HV & HN). destruct (p row) eqn:Hp.
    + rewrite HV, HN. rewrite HI in HuI.
      apply Hop; [|by apply Hf]. apply elem_of_tselect. by rewrite bool_decide_eq_true.
    + apply Hop; [|done]. apply elem_of_tselect. by rewrite bool_decide_eq_true.
Qed.
(** A status update of task rows of the instance that opens nothing. *)
Lemma inFrame_task_step s p f :
  keepsIdentity f →
  (∀ t, t ∈ db_tasks s → p t = true → Task_InstanceID t = I ∧
     rtc task_step (Task_Status t) (Task_Status (f t)) ∧ (isOpen (f t) = true → isOpen t = true)) →
  inFrame s (upd_tasks (tupdate p f) s).
Proof.
  intros Hk Hf. apply inFrame_tasks.
  - apply touches_task_step; [done|]. intros t Hin Hp. by destruct (Hf t Hin Hp) as (? & ? & _).
  - intros t. by destruct (Hk t) as (_ & ? & ? & ? & _).
  - intros t Hin Hp. apply (Hf t Hin Hp).
Qed.

Ltac same := intros []; intros; match goal with H : _ = Ok _ |- _ => injection H as ?; subst end;
  apply inFrame_same; [done..|apply touches_same; cbn; try done; try lia; try (by eexists); reflexivity].

Lemma inFrame_Now : keeps inFrame Now.
Proof. same. Qed.
Lemma inFrame_addActionLog l : keeps inFrame (addActionLog l).
Proof.
  intros s a s' Hrun. apply inFrame_same; try (by destruct s as [? ? ? ? ? ? ? ? ? ? ? ? ? ? ? ? ? [] ? ? ? ? ? ? ?]; injection Hrun as ?; subst).
  by eapply touches_addActionLog.
Qed.
Lemma inFrame_insertSnapshot f : keeps inFrame (insertSnapshot f).
Proof. same. Qed.
Lemma inFrame_insertCCRecord r : keeps inFrame (insertCCRecord r).
Proof. same. Qed.

(** A new task of the open visit, attached (if at all) to one of its tasks. *)
Lemma inFrame_insertTask_ref t s a s' :
  Task_InstanceID t = I → Task_VisitID t = V → Task_NodeID t = N → parent_ref s t → workNode s N →
  insertTask t s = Ok (a, s') → inFrame s s'.
Proof.
  intros HI HV HN HP Hwork Hrun Hw Hr (Hne & Hvis & Hnode).
  assert (touched I s s') as Htch.
  { eapply (touches_insertTask I t s a s'); try done; [|by rewrite HN].
    unfold visit_ref. by rewrite HI, HV, HN. }
  apply insertTask_Ok in Hrun as (Ha & Ht & Hv & Hn).
  split; [split; [done|]; unfold framed, instancesOf in *;
    by rewrite Hn, Hv, (ev_nodes _ _ (tch_evolves _ _ _ Htch))|].
  split; [done|]. split; [done|]. intros Ho t' Hin Hopen.
  unfold tasksOf in Hin. rewrite Ht in Hin. apply elem_of_tselect in Hin as [HI' Hin].
  apply elem_of_app in Hin as [Hin|Hin].
  - apply Ho; [|done]. by apply elem_of_tselect.
  - apply list_elem_of_singleton in Hin as ->. subst a. by destruct t.
Qed.
Lemma framed_workNode s :
  isWorkKind (FlowNode_Kind (pc_Node pc)) = true → refs_ok s → framed s → workNode s N.
Proof.
  intros Hk Hr (_ & _ & Hn). by exists (pc_Node pc).
Qed.
Lemma inFrame_insertTask t :
  isWorkKind (FlowNode_Kind (pc_Node pc)) = true →
  Task_InstanceID t = I → Task_VisitID t = V → Task_NodeID t = N →
  Task_ParentTaskID t = None → keeps inFrame (insertTask t).
Proof.
  intros Hk HI HV HN HP s a s' Hrun Hw Hr Hf.
  eapply inFrame_insertTask_ref; eauto using framed_workNode. intros p. by rewrite HP.
Qed.
End frame.
#[export] Hint Resolve inFrame_Now inFrame_addActionLog inFrame_insertSnapshot
  inFrame_insertCCRecord : keeps.

Section frame_helpers.
Context `{!Host} (pc : ProcessContext).
Notation atWork := (isWorkKind (FlowNode_Kind (pc_Node pc)) = true).

Lemma buildTask_ids a d :
  Task_InstanceID (buildTask pc a d) = Instance_ID (pc_Instance pc) ∧
  Task_VisitID (buildTask pc a d) = NodeVisit_ID (pc_Visit pc) ∧
  Task_NodeID (buildTask pc a d) = FlowNode_ID (pc_Node pc) ∧
  Task_ParentTaskID (buildTask pc a d) = None.
Proof. done. Qed.
Lemma approvalTaskAt_ids i a d :
  Task_InstanceID (approvalTaskAt pc i a d) = Instance_ID (pc_Instance pc) ∧
  Task_VisitID (approvalTaskAt pc i a d) = NodeVisit_ID (pc_Visit pc) ∧
  Task_NodeID (approvalTaskAt pc i a d) = FlowNode_ID (pc_Node pc) ∧
  Task_ParentTaskID (approvalTaskAt pc i a d) = None.
Proof. unfold approvalTaskAt. by case_bool_decide; [destruct (0 <? i)%nat|]. Qed.

Lemma inFrame_insertTasks ts :
  (∀ t, t ∈ ts → Task_InstanceID t = Instance_ID (pc_Instance pc) ∧
     Task_VisitID t = NodeVisit_ID (pc_Visit pc) ∧ Task_NodeID t = FlowNode_ID (pc_Node pc) ∧
     Task_ParentTaskID t = None) →
  atWork → keeps (inFrame pc) (insertTasks ts).
Proof.
  intros Hts Hk. apply keeps_foldM_in; [apply _|]. intros b t (?&?&?&?)%Hts.
  apply keeps_bind; [apply _|by apply inFrame_insertTask|]. intros. keeps_tac.
Qed.
Lemma inFrame_ComputeTaskDeadline h : keeps (inFrame pc) (ComputeTaskDeadline h).
Proof. unfold ComputeTaskDeadline. keeps_tac. Qed.
Hint Resolve inFrame_ComputeTaskDeadline : keeps.
Lemma inFrame_recordSystemActionLog t r : keeps (inFrame pc) (recordSystemActionLog pc t r).
Proof. unfold recordSystemActionLog. keeps_tac. Qed.
Hint Resolve inFrame_recordSystemActionLog : keeps.
Lemma inFrame_InsertCCRecords i n v us infos m :
  keeps (inFrame pc) (InsertCCRecords i n v us infos m).
Proof. unfold InsertCCRecords. keeps_tac. Qed.
Hint Resolve inFrame_InsertCCRecords : keeps.

Lemma inFrame_createTasksForUsers us : atWork → keeps (inFrame pc) (createTasksForUsers pc us).
Proof.
  intros Hk. unfold createTasksForUsers. keeps_tac.
  apply inFrame_insertTasks; [|done]. by intros t (u & -> & _)%list_elem_of_fmap.
Qed.
Lemma inFrame_createTasksWithDelegation l : atWork → keeps (inFrame pc) (createTasksWithDelegation pc l).
Proof.
  intros Hk. unfold createTasksWithDelegation. keeps_tac.
  apply inFrame_insertTasks; [|done]. by intros t (u & -> & _)%list_elem_of_fmap.
Qed.
Lemma inFrame_getSuperior u : keeps (inFrame pc) (getSuperior u).
Proof. unfold getSuperior. keeps_tac. Qed.
Hint Resolve inFrame_createTasksForUsers inFrame_createTasksWithDelegation inFrame_getSuperior : keeps.
Lemma inFrame_nodeAutoPassResult r : keeps (inFrame pc) (nodeAutoPassResult pc r).
Proof. unfold nodeAutoPassResult. keeps_tac. Qed.
Hint Resolve inFrame_nodeAutoPassResult : keeps.
Lemma inFrame_handleEmptyAssignee : atWork → keeps (inFrame pc) (handleEmptyAssignee pc).
Proof. intros Hk. unfold handleEmptyAssignee. keeps_tac. Qed.
Lemma inFrame_resolveAutoExecution : keeps (inFrame pc) (resolveAutoExecution pc).
Proof. unfold resolveAutoExecution. keeps_tac. Qed.
Lemma inFrame_resolveDelegationChain u f c : keeps (inFrame pc) (resolveDelegationChain u f c).
Proof. unfold resolveDelegationChain. keeps_tac. Qed.
Hint Resolve inFrame_handleEmptyAssignee inFrame_resolveAutoExecution inFrame_resolveDelegationChain : keeps.
Lemma inFrame_applyDelegation f l : keeps (inFrame pc) (applyDelegation f l).
Proof. unfold applyDelegation, loadFlowCategoryID, orThrow, findFlow. keeps_tac. Qed.
Hint Resolve inFrame_applyDelegation : keeps.
Lemma inFrame_resolveNodeAssignees : keeps (inFrame pc) (resolveNodeAssignees pc).
Proof. unfold resolveNodeAssignees, resolveAssignees. keeps_tac. Qed.
Lemma inFrame_createApprovalTasks l : atWork → keeps (inFrame pc) (createApprovalTasks pc l).
Proof.
  intros Hk. unfold createApprovalTasks. generalize 0.
  induction l as [|a l IH]; intros i; cbn; keeps_tac.
  apply inFrame_insertTask; [done|apply approvalTaskAt_ids..].
Qed.
Lemma inFrame_applySameApplicantPolicy l : atWork → keeps (inFrame pc) (applySameApplicantPolicy pc l).
Proof. intros Hk. unfold applySameApplicantPolicy, resolveSuperiorSeat. keeps_tac. Qed.
Lemma inFrame_entryAutoPassRule l : keeps (inFrame pc) (entryAutoPassRule pc l).
Proof. unfold entryAutoPassRule, findPreviousApprovalApprovers. keeps_tac. Qed.
End frame_helpers.
#[export] Hint Resolve inFrame_ComputeTaskDeadline inFrame_recordSystemActionLog
  inFrame_InsertCCRecords inFrame_createTasksForUsers inFrame_createTasksWithDelegation
  inFrame_getSuperior inFrame_nodeAutoPassResult inFrame_handleEmptyAssignee
  inFrame_resolveAutoExecution inFrame_resolveDelegationChain inFrame_applyDelegation
  inFrame_resolveNodeAssignees inFrame_createApprovalTasks inFrame_applySameApplicantPolicy
  inFrame_entryAutoPassRule : keeps.

(** ** The entry auto-pass sweep *)
Section sweep.
Context `{!Host} (pc : ProcessContext).
Notation I := (Instance_ID (pc_Instance pc)).
Notation V := (NodeVisit_ID (pc_Visit pc)).
Notation N := (FlowNode_ID (pc_Node pc)).

(** The in-memory tasks agree with their rows, and no row of the node is missing. *)
Definition inSync (s : St) (ts : list Task) : Prop :=
  NoDup (Task_ID <$> ts) ∧
  (∀ t row, t ∈ ts → row ∈ db_tasks s → Task_ID row = Task_ID t →
    Task_Status row = Task_Status t ∧ Task_InstanceID row = I) ∧
  (∀ row, row ∈ db_tasks s → Task_InstanceID row = I → Task_NodeID row = N →
    Task_ID row ∈ Task_ID <$> ts).

(** A compare-and-set on the row behind the [i]-th task keeps memory and table
    in step and stays in the frame. *)
Lemma sweep_update s ts i t t' f :
  inSync s ts → ts !! i = Some t →
  Task_ID t' = Task_ID t → keepsIdentity f → (∀ r, Task_Status (f r) = Task_Status t') →
  isOpen t = true → task_step (Task_Status t) (Task_Status t') →
  let p r := (Task_ID r ==? Task_ID t) && (Task_Status r ==? Task_Status t) in
  inSync (upd_tasks (tupdate p f) s) (<[i := t']> ts) ∧
  inFrame pc s (upd_tasks (tupdate p f) s).
Proof.
  intros (Hd & Hs & Hc) Hi Hid Hk Hst Hopen Hstep p.
  assert (t ∈ ts) as Hin by (by eapply list_elem_of_lookup_2).
  assert (∀ r, p r = true ↔ Task_ID r = Task_ID t ∧ Task_Status r = Task_Status t) as Hp.
  { intros r. unfold p. rewrite andb_true_iff, !bool_decide_eq_true. done. }
  assert (Task_ID <$> <[i := t']> ts = Task_ID <$> ts) as Hids.
  { rewrite list_fmap_insert, Hid. apply list_insert_id. by rewrite list_lookup_fmap, Hi. }
  split.
  - split; [by rewrite Hids|]. split.
    2: { intros row Hrow HI HN. rewrite Hids.
      assert (∃ row0, row0 ∈ db_tasks s ∧ row = if p row0 then f row0 else row0) as (row0 & Hrow0 & ->).
      { destruct s; cbn in *. by apply elem_of_tupdate in Hrow. }
      destruct (Hk row0) as (Kid & Kinst & Knode & _).
      destruct (p row0); [rewrite Kid; apply Hc; congruence|by apply Hc]. }
    + intros u row Hu Hrow Heq.
      assert (∃ row0, row0 ∈ db_tasks s ∧ row = if p row0 then f row0 else row0) as (row0 & Hrow0 & ->).
      { destruct s; cbn in *. by apply elem_of_tupdate in Hrow. }
      destruct (Hk row0) as (Kid & Kinst & _).
      assert (Task_ID row0 = Task_ID u) as Heq0 by (destruct (p row0); congruence).
      apply list_elem_of_lookup in Hu as [j Hj].
      destruct (decide (i = j)) as [<-|Hne].
      * rewrite list_lookup_insert_eq in Hj by (by eapply lookup_lt_Some). injection Hj as <-.
        rewrite Hid in Heq0. destruct (Hs t row0 Hin Hrow0 Heq0) as [Hst0 HI0].
        rewrite (proj2 (Hp row0)) by done. by rewrite Hst, Kinst.
      * rewrite list_lookup_insert_ne in Hj by done.
        destruct (Hs u row0) as [Hst0 HI0]; [by eapply list_elem_of_lookup_2|done|done|].
        destruct (p row0) eqn:Hpr; [|done]. apply Hp in Hpr as [Hid' _]. exfalso. apply Hne.
        eapply NoDup_lookup; [exact Hd| |]; rewrite list_lookup_fmap.
        -- by rewrite Hi.
        -- rewrite Hj. cbn. congruence.
  - apply inFrame_task_step; [done|]. intros r Hrin [Hrid Hrst]%Hp.
    destruct (Hs t r Hin Hrin Hrid) as [_ HrI]. split; [done|]. rewrite Hst, Hrst.
    split; [by apply rtc_once|]. unfold isOpen in *. by rewrite Hrst.
Qed.

Lemma inSync_same_tasks s s' ts : db_tasks s' = db_tasks s → inSync s ts → inSync s' ts.
Proof. intros Ht (Hd & Hs & Hc). split; [done|]. by rewrite Ht. Qed.
Lemma inSync_insert_same s ts i t t' :
  inSync s ts → ts !! i = Some t → Task_ID t' = Task_ID t → Task_Status t' = Task_Status t →
  inSync s (<[i := t']> ts).
Proof.
  intros (Hd & Hs & Hc) Hi Hid Hst.
  assert (Task_ID <$> <[i := t']> ts = Task_ID <$> ts) as Hids.
  { rewrite list_fmap_insert, Hid. apply list_insert_id. by rewrite list_lookup_fmap, Hi. }
  split; [by rewrite Hids|]. split.
  2: { by rewrite Hids. }
  - intros u row [j Hj]%list_elem_of_lookup Hrow Heq. destruct (decide (i = j)) as [<-|Hne].
    + rewrite list_lookup_insert_eq in Hj by (by eapply lookup_lt_Some). injection Hj as <-.
      rewrite Hst. rewrite Hid in Heq. apply Hs; [by eapply list_elem_of_lookup_2|done|done].
    + rewrite list_lookup_insert_ne in Hj by done.
      apply Hs; [by eapply list_elem_of_lookup_2|done|done].
Qed.

Lemma firstWaitingFrom_Some j0 ts j :
  firstWaitingFrom j0 ts = Some j →
  ∃ k t, j = j0 + k ∧ ts !! k = Some t ∧ Task_Status t = TaskWaiting.
Proof.
  revert j0. induction ts as [|t ts IH]; intros j0; cbn; [done|].
  case_bool_decide as Ht.
  - intros [=<-]. exists 0, t. split; [lia|done].
  - intros (k & u & -> & Hk & Hu)%IH. exists (S k), u. split; [lia|done].
Qed.
Lemma nextWaiting_Some i ts j :
  nextWaiting i ts = Some j → ∃ t, ts !! j = Some t ∧ Task_Status t = TaskWaiting.
Proof.
  intros (k & t & -> & Hk & Ht)%firstWaitingFrom_Some. exists t.
  by rewrite lookup_drop in Hk.
Qed.

Lemma frame_of_clock s : inFrame pc s (set_clock (S (db_clock s)) s).
Proof. by eapply (inFrame_Now pc s). Qed.
Lemma computeDeadline_Ok n s d s' :
  computeDeadline n s = Ok (d, s') → inFrame pc s s' ∧ db_tasks s' = db_tasks s.
Proof.
  intros Hrun. split; [by eapply (inFrame_ComputeTaskDeadline pc)|]. revert Hrun.
  unfold computeDeadline, ComputeTaskDeadline. case_match; destruct s; intros [=]; by subst.
Qed.

Lemma promoteNext_frame i ts s r s' :
  inSync s ts → promoteNext pc i ts s = Ok (r, s') → inFrame pc s s' ∧ inSync s' r.1.
Proof.
  intros Hs. unfold promoteNext. destruct (nextWaiting i ts) as [j|] eqn:Hj.
  2: { intros [=]; subst. split; [reflexivity|done]. }
  apply nextWaiting_Some in Hj as (tj & Hj & Hst). rewrite Hj.
  intros Hrun. step Hrun as d s0 Hd. step Hrun as n s1 Hu.
  apply computeDeadline_Ok in Hd as [Hf1 Ht1].
  apply (inSync_same_tasks _ _ _ Ht1) in Hs. injection Hu as Hn <-.
  destruct (sweep_update s0 ts j tj (set_Task_Deadline d (set_Task_Status TaskPending tj))
    (λ t, set_Task_Deadline d (set_Task_Status TaskPending t))) as [Hs2 Hf2]; auto.
  { by destruct tj. }
  { intros []; cbn. done. }
  { by intros []; destruct tj. }
  { unfold isOpen. by rewrite Hst. }
  { rewrite Hst. by destruct tj. }
  rewrite Hst in Hs2, Hf2. destruct (n =? 0)%nat eqn:Hc; injection Hrun as <- <-; cbn.
  - split; [by etrans|]. apply Nat.eqb_eq in Hc. rewrite Hc in Hn.
    eapply inSync_same_tasks; [|eapply inSync_insert_same; [exact Hs|exact Hj|by destruct tj|by destruct tj]].
    destruct s0; cbn in *. apply tupdate_none. by apply tcount_0.
  - split; [by etrans|done].
Qed.

Lemma autoPassOne_frame rule now acc i s acc' s' :
  inSync s acc.1.1 → autoPassOne pc rule now acc i s = Ok (acc', s') →
  inFrame pc s s' ∧ inSync s' acc'.1.1.
Proof.
  destruct acc as [[ts evs] any]; cbn. intros Hs Hrun.
  destruct (ts !! i) as [t|] eqn:Hi; [|injection Hrun as <- <-; split; [reflexivity|done]].
  destruct (rule _) as [reason|]; [|injection Hrun as <- <-; split; [reflexivity|done]].
  case_bool_decide as Hst; cbn in Hrun; [|injection Hrun as <- <-; split; [reflexivity|done]].
  destruct (sweep_update s ts i t (set_Task_FinishedAt (Some now) (set_Task_Status TaskApproved t))
    (λ t, set_Task_FinishedAt (Some now) (set_Task_Status TaskApproved t))) as [Hs1 Hf1]; auto.
  { by destruct t. }
  { by intros []. }
  { by intros []; destruct t. }
  { unfold isOpen. by rewrite Hst. }
  { rewrite Hst. by destruct t. }
  rewrite Hst in Hs1, Hf1. step Hrun as n s0 Hu. injection Hu as _ <-. step Hrun as u s1 Hl.
  pose proof (inFrame_recordSystemActionLog pc _ _ _ _ _ Hl) as Hf2.
  assert (db_tasks s1 = db_tasks (upd_tasks (tupdate (λ t0, (Task_ID t0 ==? Task_ID t)
    && (Task_Status t0 ==? TaskPending)) (λ t, set_Task_FinishedAt (Some now)
    (set_Task_Status TaskApproved t))) s)) as Ht2.
  { revert Hl. unfold recordSystemActionLog, addActionLog. intros [=]; subst.
    destruct s as [? ? ? ? ? ? ? ? ? ? ? ? ? ? ? ? ? [] ? ? ? ? ? ? ?]; done. }
  apply (inSync_same_tasks _ _ _ Ht2) in Hs1.
  case_bool_decide.
  - step Hrun as r s2 Hp. injection Hrun as <- <-.
    destruct (promoteNext_frame i _ _ _ _ Hs1 Hp) as [Hf3 Hs3]. split; [|done].
    etrans; [exact Hf1|]. by etrans.
  - injection Hrun as <- <-. split; [by etrans|done].
Qed.

Lemma sweep_loop rule now l acc s acc' s' :
  inSync s acc.1.1 → foldM (autoPassOne pc rule now) acc l s = Ok (acc', s') →
  inFrame pc s s' ∧ inSync s' acc'.1.1.
Proof.
  revert acc s. induction l as [|i l IH]; intros acc s Hs Hrun; cbn in Hrun.
  { injection Hrun as <- <-. split; [reflexivity|done]. }
  step Hrun as acc1 s1 H1. destruct (autoPassOne_frame _ _ _ _ _ _ _ Hs H1) as [Hf1 Hs1].
  destruct (IH _ _ Hs1 Hrun) as [Hf2 Hs2]. split; [by etrans|done].
Qed.

Lemma entrySweep_inSync s : wf s → inSync s (entrySweepTasks pc s).
Proof.
  intros [_ [Hd _] _]. unfold entrySweepTasks. split; [|split].
  - rewrite orderBy_Permutation. by apply NoDup_key_tselect.
  - intros t row Ht Hrow Heq. rewrite elem_of_orderBy in Ht. apply elem_of_tselect in Ht as [Hp Ht].
    apply andb_true_iff in Hp as [HI _]. apply bool_decide_eq_true in HI.
    assert (row = t) as -> by (by eapply NoDup_key_inj). done.
  - intros row Hrow HI HN. apply list_elem_of_fmap_2, elem_of_orderBy, elem_of_tselect.
    split; [|done]. by apply andb_true_iff; split; apply bool_decide_eq_true.
Qed.

(** Canceling by id touches only rows that are still open. *)
Lemma cancelRemaining_frame ts now s r s' :
  inSync s ts → cancelRemainingEntryTasks pc ts now s = Ok (r, s') → inFrame pc s s'.
Proof.
  intros (Hd & Hs & Hc). unfold cancelRemainingEntryTasks. case_match.
  { intros [=]; subst. reflexivity. }
  intros Hrun. step Hrun as n s1 Hu. injection Hu as _ <-. injection Hrun as _ <-.
  set (ids := Task_ID <$> tselect isOpen ts).
  set (f := λ t, set_Task_FinishedAt (Some now) (set_Task_Status TaskCanceled t)).
  assert (∀ row, row ∈ db_tasks s → bool_decide (Task_ID row ∈ ids) = true →
    Task_InstanceID row = I ∧ isOpen row = true) as Hrows.
  { intros row Hrow (t & Hid & Ht)%bool_decide_eq_true%list_elem_of_fmap.
    apply elem_of_tselect in Ht as [Ho Ht]. destruct (Hs t row Ht Hrow Hid) as [Hst HI].
    split; [done|]. unfold isOpen in *. by rewrite Hst. }
  apply inFrame_task_step; [by intros []|]. intros row Hrow Hp.
  destruct (Hrows row Hrow Hp) as [HI Ho]. split; [done|]. split; [|by destruct row].
  unfold isOpen in Ho. destruct row; cbn in *. apply rtc_once. by destruct Task_Status.
Qed.

Lemma inFrame_autoPassEligibleTasks evs rule : keeps (inFrame pc) (autoPassEligibleTasks pc evs rule).
Proof.
  intros s r s' Hrun Hw Hr Hi. pose proof (entrySweep_inSync s Hw) as Hs.
  revert Hw Hr Hi. change (inFrame pc s s').
  unfold autoPassEligibleTasks in Hrun.
  step Hrun as ts0 s0 Hg. injection Hg as <- <-. step Hrun as now s1 Hnow.
  pose proof (inFrame_Now pc _ _ _ Hnow) as Hf1.
  assert (db_tasks s1 = db_tasks s) as Ht1 by (destruct s; injection Hnow as ? ?; by subst).
  apply (inSync_same_tasks _ _ _ Ht1) in Hs.
  step Hrun as acc s2 Hloop. destruct acc as [[ts evs'] any].
  destruct (sweep_loop _ _ _ (entrySweepTasks pc s, [], false) _ _ _ Hs Hloop) as [Hf2 Hs2].
  etrans; [exact Hf1|]. etrans; [exact Hf2|].
  destruct (negb any); [injection Hrun as <- <-; reflexivity|].
  step Hrun as completion s3 Hev. unfold liftR in Hev.
  destruct (evaluatePassRule _ _); [|done]. injection Hev as <- <-.
  case_bool_decide; [|injection Hrun as <- <-; reflexivity].
  step Hrun as c s4 Hc. injection Hrun as <- <-. by eapply cancelRemaining_frame.
Qed.
End sweep.
#[export] Hint Resolve inFrame_autoPassEligibleTasks : keeps.

(** Every processor stays in its frame. *)
Lemma processor_inFrame `{!Host} process pc :
  processorFor (FlowNode_Kind (pc_Node pc)) = Some process → keeps (inFrame pc) (process pc).
Proof.
  destruct (FlowNode_Kind (pc_Node pc)) eqn:Hkind; cbn; intros [=]; subst;
    try assert (isWorkKind (FlowNode_Kind (pc_Node pc)) = true) as Hwork by (by rewrite Hkind).
  - unfold StartProcessor_Process. keeps_tac.
  - unfold ApprovalProcessor_Process, saveFormSnapshot. keeps_tac.
  - unfold HandleProcessor_Process, saveFormSnapshot. keeps_tac.
  - unfold ConditionProcessor_Process. keeps_tac.
  - unfold EndProcessor_Process. keeps_tac.
  - unfold CCProcessor_Process, createCCRecords, InsertAutoCCRecords, HasUnreadCCRecords. keeps_tac.
Qed.

(** ** A node left behind has no open task *)
Section leaves_nothing_open.
Context `{!Host} (pc : ProcessContext).
Notation I := (Instance_ID (pc_Instance pc)).
Notation V := (NodeVisit_ID (pc_Visit pc)).
Notation N := (FlowNode_ID (pc_Node pc)).

Definition noneOpen (s : St) : Prop := ∀ t, t ∈ tasksOf s I → isOpen t = false.

(** The task table is not written. *)
Definition sameTasks (s s' : St) : Prop := db_tasks s' = db_tasks s.
#[local] Instance sameTasks_preorder : PreOrder sameTasks.
Proof. split; unfold sameTasks; [done|]. intros x y z. congruence. Qed.

Lemma sameTasks_Now : keeps sameTasks Now.
Proof. by intros [] a s' [=]; subst. Qed.
Lemma sameTasks_addActionLog l : keeps sameTasks (addActionLog l).
Proof. by intros [? ? ? ? ? ? ? ? ? ? ? ? ? ? ? ? ? [] ? ? ? ? ? ? ?] a s' [=]; subst. Qed.
Lemma sameTasks_insertSnapshot f : keeps sameTasks (insertSnapshot f).
Proof. by intros [] a s' [=]; subst. Qed.
Lemma sameTasks_insertCCRecord r : keeps sameTasks (insertCCRecord r).
Proof. by intros [] a s' [=]; subst. Qed.
Hint Resolve sameTasks_Now sameTasks_addActionLog sameTasks_insertSnapshot
  sameTasks_insertCCRecord : keeps.

Lemma sameTasks_noneOpen s s' : sameTasks s s' → noneOpen s → noneOpen s'.
Proof. unfold sameTasks, noneOpen, tasksOf. by intros ->. Qed.

Lemma sameTasks_resolveAutoExecution : keeps sameTasks (resolveAutoExecution pc).
Proof. unfold resolveAutoExecution, recordSystemActionLog. keeps_tac. Qed.
Lemma sameTasks_saveFormSnapshot : keeps sameTasks (saveFormSnapshot pc).
Proof. unfold saveFormSnapshot. keeps_tac. Qed.
Lemma sameTasks_resolveNodeAssignees : keeps sameTasks (resolveNodeAssignees pc).
Proof.
  unfold resolveNodeAssignees, resolveAssignees, applyDelegation, loadFlowCategoryID, orThrow,
    findFlow, resolveDelegationChain. keeps_tac.
Qed.
Lemma sameTasks_nodeAutoPassResult r : keeps sameTasks (nodeAutoPassResult pc r).
Proof. unfold nodeAutoPassResult, recordSystemActionLog. keeps_tac. Qed.
Lemma sameTasks_getSuperior u : keeps sameTasks (getSuperior u).
Proof. unfold getSuperior. keeps_tac. Qed.

(** [leaves m]: a run of [m] that does not wait leaves no task open. *)
Definition leaves (m : M ProcessResult) : Prop := ∀ s r s',
  wf s → refs_ok s → framed pc s → noneOpen s → m s = Ok (r, s') →
  ProcessResult_Action r = NodeActionWait ∨ noneOpen s'.

Lemma leaves_sameTasks m : keeps sameTasks m → leaves m.
Proof. intros Hm s r s' _ _ _ Hn Hrun. right. by eapply sameTasks_noneOpen; [eapply Hm|]. Qed.
(** A prefix that stays in the frame and writes no task. *)
Lemma leaves_bind {A} (m : M A) (k : A → M ProcessResult) :
  keeps (inFrame pc) m → keeps sameTasks m → (∀ a, leaves (k a)) → leaves (mbind k m).
Proof.
  intros Hf Hs Hk s r s' Hw Hr Hi Hn Hrun. step Hrun as a s1 H1.
  destruct (Hf _ _ _ H1 Hw Hr Hi) as ((Ht & Hi1) & _).
  eapply (Hk a s1); eauto using tch_wf, tch_refs.
  by eapply sameTasks_noneOpen; [eapply Hs|].
Qed.
Lemma leaves_wait m :
  (∀ s r s', m s = Ok (r, s') → ProcessResult_Action r = NodeActionWait) → leaves m.
Proof. intros Hm s r s' _ _ _ _ Hrun. left. by eapply Hm. Qed.

Lemma leaves_createTasksForUsers us : leaves (createTasksForUsers pc us).
Proof.
  apply leaves_wait. intros s r s' Hrun. unfold createTasksForUsers in Hrun.
  step Hrun as u s0 H0. step Hrun as infos s1 H1. step Hrun as d s2 H2. step Hrun as ts s3 H3.
  by injection Hrun as <- <-.
Qed.
Lemma leaves_handleEmptyAssignee : leaves (handleEmptyAssignee pc).
Proof.
  unfold handleEmptyAssignee. destruct (FlowNode_EmptyAssigneeAction _);
    try apply leaves_createTasksForUsers.
  - apply leaves_sameTasks, sameTasks_nodeAutoPassResult.
  - apply leaves_bind; [auto with keeps|apply sameTasks_getSuperior|].
    intros [info|]; [case_bool_decide|]; try apply leaves_createTasksForUsers;
      by apply leaves_sameTasks, keeps_throw.
  - by apply leaves_sameTasks, keeps_throw.
Qed.

(** The sweep that decides the node cancels whatever is still open. *)
Lemma leaves_autoPassEligibleTasks evs rule s r s' :
  wf s → refs_ok s → framed pc s → openAt s I V N →
  autoPassEligibleTasks pc evs rule s = Ok (r, s') →
  ProcessResult_Action r = NodeActionWait ∨ noneOpen s'.
Proof.
  intros Hw Hr Hi Ho Hrun. pose proof (entrySweep_inSync pc s Hw) as Hs.
  unfold autoPassEligibleTasks in Hrun.
  step Hrun as ts0 s0 Hg. injection Hg as <- <-. step Hrun as now s1 Hnow.
  pose proof (inFrame_Now pc _ _ _ Hnow) as Hf1.
  assert (db_tasks s1 = db_tasks s) as Ht1 by (destruct s; injection Hnow as ? ?; by subst).
  apply (inSync_same_tasks pc _ _ _ Ht1) in Hs.
  step Hrun as acc s2 Hloop. destruct acc as [[ts evs'] any].
  destruct (sweep_loop pc _ _ _ (entrySweepTasks pc s, [], false) _ _ _ Hs Hloop) as [Hf2 Hs2].
  assert (inFrame pc s s2) as Hf by (by etrans).
  destruct (Hf Hw Hr Hi) as (_ & _ & _ & Ho2). specialize (Ho2 Ho). clear - Hs2 Ho2 Hrun.
  destruct (negb any); [injection Hrun as <- <-; by left|].
  step Hrun as completion s3 Hev. unfold liftR in Hev.
  destruct (evaluatePassRule _ _); [|done]. injection Hev as <- <-.
  case_bool_decide; [|injection Hrun as <- <-; by left].
  step Hrun as c s4 Hcn. injection Hrun as <- <-. right.
  destruct Hs2 as (_ & Hst & Hcov). cbn in Hst, Hcov.
  assert (∀ row, row ∈ tasksOf s2 I → isOpen row = true →
    Task_ID row ∈ Task_ID <$> tselect isOpen ts) as Hopen.
  { intros row Hrow Hopen. destruct (Ho2 row Hrow Hopen) as [_ HN].
    apply elem_of_tselect in Hrow as [HI Hrow]. apply bool_decide_eq_true in HI.
    specialize (Hcov row Hrow HI HN). apply list_elem_of_fmap in Hcov as (t & Hid & Ht).
    rewrite Hid. apply list_elem_of_fmap_2, elem_of_tselect. split; [|done].
    destruct (Hst t row Ht Hrow Hid) as [Hstat _]. unfold isOpen in *. by rewrite <-Hstat. }
  unfold cancelRemainingEntryTasks in Hcn. destruct (Nat.eqb_spec (length (tselect isOpen ts)) 0) as [Hz|Hz].
  - injection Hcn as _ <-. intros row Hrow. destruct (isOpen row) eqn:Hor; [|done].
    specialize (Hopen row Hrow Hor). apply length_zero_iff_nil in Hz. rewrite Hz in Hopen. set_solver.
  - step Hcn as n s5 Hu. injection Hu as _ <-. injection Hcn as _ <-.
    intros row Hrow. apply elem_of_tselect in Hrow as [HI Hrow].
    assert (∃ row0, row0 ∈ db_tasks s2 ∧ row =
      if bool_decide (Task_ID row0 ∈ Task_ID <$> tselect isOpen ts)
      then set_Task_FinishedAt (Some now) (set_Task_Status TaskCanceled row0) else row0)
      as (row0 & Hrow0 & ->).
    { destruct s2; cbn in Hrow. by apply elem_of_tupdate in Hrow. }
    destruct (decide (Task_ID row0 ∈ Task_ID <$> tselect isOpen ts)) as [Hin|Hin].
    { rewrite (bool_decide_eq_true_2 _ Hin). by destruct row0. }
    rewrite (bool_decide_eq_false_2 _ Hin) in HI |- *.
    destruct (isOpen row0) eqn:Hor; [|done].
    exfalso. apply Hin, Hopen; [|done]. by apply elem_of_tselect.
Qed.

Lemma noneOpen_openAt s : noneOpen s → openAt s I V N.
Proof. intros Hn t Ht Ho. by rewrite (Hn t Ht) in Ho. Qed.

Lemma leaves_ApprovalProcessor :
  isWorkKind (FlowNode_Kind (pc_Node pc)) = true → leaves (ApprovalProcessor_Process pc).
Proof.
  intros Hk. unfold ApprovalProcessor_Process.
  apply leaves_bind; [auto with keeps|apply sameTasks_resolveAutoExecution|].
  intros [r|]; [by apply leaves_sameTasks, keeps_ret, _|].
  apply leaves_bind; [unfold saveFormSnapshot; keeps_tac|apply sameTasks_saveFormSnapshot|intros _].
  apply leaves_bind; [auto with keeps|apply sameTasks_resolveNodeAssignees|intros l].
  destruct (length l =? 0)%nat; [apply leaves_handleEmptyAssignee|].
  intros s r s' Hw Hr Hi Hn Hrun. step Hrun as d s1 Hd.
  destruct (inFrame_applySameApplicantPolicy pc _ Hk _ _ _ Hd Hw Hr Hi)
    as ((Ht1 & Hi1) & _ & _ & Ho1).
  specialize (Ho1 (noneOpen_openAt _ Hn)). destruct d as [l'|r'].
  - step Hrun as evs s2 Hc.
    destruct (inFrame_createApprovalTasks pc _ Hk _ _ _ Hc (tch_wf _ _ _ Ht1) (tch_refs _ _ _ Ht1) Hi1)
      as ((Ht2 & Hi2) & _ & _ & Ho2).
    step Hrun as rule s3 Hrule.
    destruct (inFrame_entryAutoPassRule pc _ _ _ _ Hrule (tch_wf _ _ _ Ht2) (tch_refs _ _ _ Ht2) Hi2)
      as ((Ht3 & Hi3) & _ & _ & Ho3).
    destruct rule as [rule|]; [|injection Hrun as <- <-; by left].
    eapply leaves_autoPassEligibleTasks;
      [exact (tch_wf _ _ _ Ht3)|exact (tch_refs _ _ _ Ht3)|exact Hi3|exact (Ho3 (Ho2 Ho1))|exact Hrun].
  - injection Hrun as <- <-. clear Ht1 Hi1 Ho1. unfold applySameApplicantPolicy in Hd.
    destruct (negb _); [done|].
    destruct (FlowNode_SameApplicantAction _); try done.
    + destruct (length l =? 1)%nat; [|done]. step Hd as x s2 Hx. injection Hd as <- <-.
      right. by eapply sameTasks_noneOpen; [eapply sameTasks_nodeAutoPassResult|].
    + by step Hd as x s2 Hx.
    + step Hd as x s2 Hx.
      destruct (length _ =? 0)%nat; [|done]. step Hd as y s3 Hy. injection Hd as <- <-.
      destruct (inFrame_recordSystemActionLog pc _ _ _ _ _ Hx Hw Hr Hi) as ((Ht2 & Hi2) & _).
      eapply leaves_handleEmptyAssignee;
        [exact (tch_wf _ _ _ Ht2)|exact (tch_refs _ _ _ Ht2)|exact Hi2| |exact Hy].
      by eapply sameTasks_noneOpen; [eapply sameTasks_addActionLog|].
Qed.

Lemma processor_leaves process :
  processorFor (FlowNode_Kind (pc_Node pc)) = Some process → leaves (process pc).
Proof.
  destruct (FlowNode_Kind (pc_Node pc)) eqn:Hkind; cbn; intros [=]; subst.
  - apply leaves_sameTasks. unfold StartProcessor_Process. keeps_tac.
  - apply leaves_ApprovalProcessor. by rewrite Hkind.
  - unfold HandleProcessor_Process.
    apply leaves_bind; [auto with keeps|apply sameTasks_resolveAutoExecution|].
    intros [r|]; [by apply leaves_sameTasks, keeps_ret, _|].
    apply leaves_bind; [unfold saveFormSnapshot; keeps_tac|apply sameTasks_saveFormSnapshot|intros _].
    apply leaves_bind; [auto with keeps|apply sameTasks_resolveNodeAssignees|intros l].
    destruct (length l =? 0)%nat; [apply leaves_handleEmptyAssignee|].
    apply leaves_wait. intros s r s' Hrun. step Hrun as evs s1 H1. by injection Hrun as <- <-.
  - apply leaves_sameTasks. unfold ConditionProcessor_Process. keeps_tac.
  - apply leaves_sameTasks. unfold EndProcessor_Process. keeps_tac.
  - apply leaves_sameTasks.
    unfold CCProcessor_Process, createCCRecords, InsertAutoCCRecords, InsertCCRecords,
      HasUnreadCCRecords. keeps_tac.
Qed.
End leaves_nothing_open.
