(* ===== verification/Traversal.v ===== *)
(** * Traversals settle

    The engine's recursion put together: from [ready] (the instance runs, nothing
    is active, nobody is asked) a successful [ProcessNode], [AdvanceToNextNode]
    or [StartProcess] ends [settled] (the instance is in order again), whatever
    path through the flow it took. *)
From S2P Require Import Prelude Enums StateMachine Models Demo Store Shared Delegation PassRule Binding.
From S2P Require Import Processors Engine Discipline EngineInv.

Section traversal.
Context `{!Host}.

(** The instance runs, in memory and in the table, and is between two nodes. *)
Record ready (s : St) (instance : Instance) : Prop := {
  rdy_wf : wf s;
  rdy_refs : refs_ok s;
  rdy_row : ∃ row, row ∈ db_instances s ∧ Instance_ID row = Instance_ID instance ∧
                   Instance_Status row = InstanceRunning ∧
                   Instance_FlowVersionID row = Instance_FlowVersionID instance;
  rdy_status : Instance_Status instance = InstanceRunning;
  rdy_quiet : quiet s (Instance_ID instance);
}.

(** Afterwards: only this instance was touched and it is in order. *)
Record settled (s : St) (I : string) (instance' : Instance) (s' : St) : Prop := {
  stl_touched : touched I s s';
  stl_id : Instance_ID instance' = I;
  stl_row : ∃ row, row ∈ db_instances s' ∧ Instance_ID row = I ∧
                   Instance_Status row = Instance_Status instance' ∧ inst_ok s' row;
}.

Lemma ready_known s i : ready s i → instancesOf s (Instance_ID i) ≠ [].
Proof.
  intros [_ _ (row & Hin & Hid & _) _ _] Hnil. unfold instancesOf in Hnil.
  rewrite tselect_nil in Hnil. specialize (Hnil row Hin). by apply bool_decide_eq_false in Hnil.
Qed.
Lemma touched_trans I s1 s2 s3 : touched I s1 s2 → touched I s2 s3 → touched I s1 s3.
Proof.
  intros [Hw1 He1 Ho1 Hr1] [Hw2 He2 Ho2 Hr2]. constructor; [done|by etrans| |done].
  intros J HJ. destruct (Ho1 J HJ) as (<- & <- & <-). by apply Ho2.
Qed.
(** In a well-formed store a row is determined by its id. *)
Lemma instance_row_unique s r r' :
  wf s → r ∈ db_instances s → r' ∈ db_instances s → Instance_ID r = Instance_ID r' → r = r'.
Proof. intros [[Hd _] _ _]. by apply NoDup_key_inj. Qed.
Lemma visit_row_unique s r r' :
  wf s → r ∈ db_visits s → r' ∈ db_visits s → NodeVisit_ID r = NodeVisit_ID r' → r = r'.
Proof. intros [_ _ [Hd _]]. by apply NoDup_key_inj. Qed.
Lemma task_row_unique s r r' :
  wf s → r ∈ db_tasks s → r' ∈ db_tasks s → Task_ID r = Task_ID r' → r = r'.
Proof. intros [_ [Hd _] _]. by apply NoDup_key_inj. Qed.

Lemma copyCols_keeps src cols row :
  Instance_ID (copyCols src cols row) = Instance_ID row ∧
  Instance_Status (copyCols src cols row) = Instance_Status row ∧
  instance_evolves row (copyCols src cols row).
Proof.
  revert row. induction cols as [|c cols IH]; intros row; [split; [done|split; [done|reflexivity]]|].
  change (copyCols src (c :: cols) row) with (copyCols src cols (copyCol src row c)).
  destruct (IH (copyCol src row c)) as (-> & -> & He).
  assert (Instance_ID (copyCol src row c) = Instance_ID row ∧
          Instance_Status (copyCol src row c) = Instance_Status row ∧
          instance_evolves row (copyCol src row c)) as (Hi & Hs & He')
    by (destruct row, c; cbn; repeat split; reflexivity).
  split; [done|]. split; [done|]. by etrans.
Qed.

(** *** Concluding the visit that was just begun *)
Lemma concludeNodeVisit_Ok v st s u s' I :
  wf s → (∀ r, r ∈ db_visits s → NodeVisit_ID r = NodeVisit_ID v →
            NodeVisit_InstanceID r = I ∧ isActive r = true) →
  concludeNodeVisit v st s = Ok (u, s') →
  touches I s s' ∧ db_tasks s' = db_tasks s ∧ db_instances s' = db_instances s ∧
  ∃ now, db_visits s' = tupdate (λ r, NodeVisit_ID r ==? NodeVisit_ID v)
    (λ r, set_NodeVisit_FinishedAt (Some now) (set_NodeVisit_Status st r)) (db_visits s).
Proof.
  intros Hw Hrows Hrun. unfold concludeNodeVisit in Hrun.
  step Hrun as now s1 Hnow. step Hrun as n s2 Hu. injection Hrun as _ <-. injection Hu as _ <-.
  pose proof (touches_Now I _ _ _ Hnow) as Ht1.
  assert (db_visits s1 = db_visits s ∧ db_tasks s1 = db_tasks s ∧ db_instances s1 = db_instances s)
    as (Hv1 & Hk1 & Hi1) by (destruct s; injection Hnow as ? ?; by subst).
  split.
  - etrans; [exact Ht1|]. apply touches_visits_in. intros r Hr Hid%bool_decide_eq_true.
    rewrite Hv1 in Hr. destruct (Hrows r Hr Hid) as [HI Ha]. split; [done|].
    unfold isActive in Ha. apply bool_decide_eq_true in Ha. destruct r; cbn in *.
    repeat split. by left.
  - split; [by destruct s1|]. split; [by destruct s1|]. exists now. rewrite <-Hv1. by destruct s1.
Qed.

(** *** The transition primitive *)
Lemma sideOnly_OnInstanceTransition I i from to : keeps (sideOnly I) (LifecycleHookRunner_OnInstanceTransition i from to).
Proof. unfold LifecycleHookRunner_OnInstanceTransition, runHooks. keeps_tac. Qed.
Lemma ApplyInstanceTransition_Ok i to cols s i' s' :
  ApplyInstanceTransitionWithHooks i to cols s = Ok (i', s') →
  CanTransition InstanceStateMachine (Instance_Status i) to = true ∧
  i' = set_Instance_Status to i ∧
  sideOnly (Instance_ID i) (upd_instances (tupdate
    (λ r, (Instance_ID r ==? Instance_ID i) && (Instance_Status r ==? Instance_Status i))
    (λ r, set_Instance_Status to (copyCols (set_Instance_Status to i) cols r))) s) s' ∧
  (∃ row, row ∈ db_instances s ∧ Instance_ID row = Instance_ID i ∧
          Instance_Status row = Instance_Status i) ∧
  touches (Instance_ID i) s s'.
Proof.
  unfold ApplyInstanceTransitionWithHooks. intros Hrun.
  step Hrun as u0 s0 H0. apply throwIf_Ok in H0 as [Hcan ->]. apply negb_false_iff in Hcan.
  step Hrun as n s1 Hu. injection Hu as Hn <-. step Hrun as u1 s2 H1.
  apply throwIf_Ok in H1 as [Hz ->]. step Hrun as u2 s3 Hh. injection Hrun as <- <-.
  assert (Instance_ID (set_Instance_Status to i) = Instance_ID i) as Hid by (by destruct i).
  rewrite Hid in *.
  apply (sideOnly_OnInstanceTransition (Instance_ID i)) in Hh. rename Hh into Hside.
  split; [done|]. split; [done|]. split; [done|]. split.
  - apply Nat.eqb_neq in Hz. rewrite <-Hn in Hz. unfold tcount in Hz.
    destruct (tselect _ (db_instances s)) as [|row l] eqn:Hsel; [done|].
    assert (row ∈ row :: l) as Hin by set_solver. rewrite <-Hsel in Hin.
    apply elem_of_tselect in Hin as [[Hi Hs]%andb_true_iff Hin].
    exists row. apply bool_decide_eq_true in Hi, Hs. done.
  - etrans; [|exact (proj1 Hside)]. apply touches_instances_in. intros r Hr [Hi Hs]%andb_true_iff.
    apply bool_decide_eq_true in Hi, Hs. split; [done|].
    destruct (copyCols_keeps (set_Instance_Status to i) cols r) as (_ & Hst & He).
    destruct (copyCols (set_Instance_Status to i) cols r), r; cbn in *.
    destruct He as (?&?&?&?&?&_). repeat split; cbn; auto.
    apply rtc_once. unfold instance_step. congruence.
Qed.

(** The row of the instance after a transition. *)
Lemma ApplyInstanceTransition_row i to cols s i' s' :
  ApplyInstanceTransitionWithHooks i to cols s = Ok (i', s') →
  ∃ row', row' ∈ db_instances s' ∧ Instance_ID row' = Instance_ID i ∧ Instance_Status row' = to.
Proof.
  intros (_ & _ & (_ & _ & _ & His) & (row & Hin & Hid & Hst) & _)%ApplyInstanceTransition_Ok. rewrite His.
  exists (set_Instance_Status to (copyCols (set_Instance_Status to i) cols row)).
  destruct (copyCols_keeps (set_Instance_Status to i) cols row) as (Hid' & _).
  split; [|by destruct (copyCols _ _ row); cbn in *; rewrite Hid'].
  destruct s; cbn in *. apply elem_of_tupdate. exists row. split; [done|].
  by rewrite !bool_decide_eq_true_2.
Qed.

(** *** Entering a node *)

(** The store while node [n] is being processed under visit [v]. *)
Record entered (s : St) (instance : Instance) (n : FlowNode) (v : NodeVisit) (s1 : St) : Prop := {
  ent_touched : touched (Instance_ID instance) s s1;
  ent_row : ∃ row, row ∈ db_instances s1 ∧ Instance_ID row = Instance_ID instance ∧
                   Instance_Status row = InstanceRunning ∧
                   Instance_FlowVersionID row = Instance_FlowVersionID instance;
  ent_visit : v ∈ db_visits s1 ∧ NodeVisit_InstanceID v = Instance_ID instance ∧
              NodeVisit_NodeID v = FlowNode_ID n ∧ isActive v = true;
  ent_only : ∀ r, r ∈ db_visits s1 → NodeVisit_InstanceID r = Instance_ID instance →
               isActive r = true → r = v;
  ent_open : openAt s1 (Instance_ID instance) (NodeVisit_ID v) (FlowNode_ID n);
  ent_node : n ∈ db_nodes s1;
}.
Lemma entered_known s i n v s1 : entered s i n v s1 → instancesOf s1 (Instance_ID i) ≠ [].
Proof.
  intros [_ (row & Hin & Hid & _) _ _ _ _] Hnil. unfold instancesOf in Hnil.
  rewrite tselect_nil in Hnil. specialize (Hnil row Hin). by apply bool_decide_eq_false in Hnil.
Qed.
Lemma entered_framed s i n v s1 : entered s i n v s1 → framed (Build_ProcessContext i n v) s1.
Proof.
  intros He. split; [by eapply entered_known|]. split; [|exact (ent_node _ _ _ _ _ He)].
  exists v. by destruct (ent_visit _ _ _ _ _ He) as (? & ? & ? & _).
Qed.
Lemma entered_visit_row s i n v s1 r :
  entered s i n v s1 → r ∈ db_visits s1 → NodeVisit_ID r = NodeVisit_ID v → r = v.
Proof.
  intros He Hr Hid. eapply visit_row_unique; [exact (tch_wf _ _ _ (ent_touched _ _ _ _ _ He))|done| |done].
  apply (ent_visit _ _ _ _ _ He).
Qed.

Lemma beginNodeVisit_entered s i n v s1 :
  ready s i → n ∈ db_nodes s → FlowNode_FlowVersionID n = Instance_FlowVersionID i →
  beginNodeVisit i n s = Ok (v, s1) →
  entered s i n v s1 ∧ noneOpen (Build_ProcessContext i n v) s1.
Proof.
  intros Hrdy Hnode Hver Hrun. pose proof (ready_known _ _ Hrdy) as Hknown.
  destruct Hrdy as [Hw Hr (row & Hrow & Hid & Hst & Hrv) Hs [Hqv Hqt]].
  unfold beginNodeVisit in Hrun. step Hrun as count s0 Hc. injection Hc as _ <-.
  assert (touched (Instance_ID i) s s1) as Ht.
  { eapply (λ Hv Hh, touches_insertVisit (Instance_ID i) _ _ _ _ Hv Hh Hrun Hw Hr Hknown); [done|].
    intros r Hin Hrid. rewrite (instance_row_unique _ _ _ Hw Hin Hrow) by congruence. exists n. by rewrite Hver. }
  apply insertVisit_Ok in Hrun as (Hv & Hvs & Hts & His). cbn in Hv.
  assert (noneOpen (Build_ProcessContext i n v) s1) as Hno.
  { intros t. unfold tasksOf. rewrite Hts. apply Hqt. }
  split; [|done]. constructor; auto.
  - exists row. by rewrite His.
  - rewrite Hvs. split; [set_solver|]. by subst v.
  - intros r Hr1 HI Ha. rewrite Hvs in Hr1. apply elem_of_app in Hr1 as [Hr1|Hr1].
    + rewrite (Hqv r) in Ha; [done|]. apply elem_of_tselect. by rewrite bool_decide_eq_true.
    + by apply list_elem_of_singleton in Hr1.
  - by apply (noneOpen_openAt (Build_ProcessContext i n v)).
  - by rewrite (ev_nodes _ _ (tch_evolves _ _ _ Ht)).
Qed.

Lemma process_entered s i n v s1 process r s2 :
  entered s i n v s1 → noneOpen (Build_ProcessContext i n v) s1 →
  processorFor (FlowNode_Kind n) = Some process →
  process (Build_ProcessContext i n v) s1 = Ok (r, s2) →
  entered s i n v s2 ∧
  (ProcessResult_Action r = NodeActionWait ∨ noneOpen (Build_ProcessContext i n v) s2).
Proof.
  intros He Hno Hp Hrun. pose proof (entered_framed _ _ _ _ _ He) as Hk.
  pose proof (ent_touched _ _ _ _ _ He) as Ht.
  pose proof (processor_inFrame _ (Build_ProcessContext i n v) Hp _ _ _ Hrun (tch_wf _ _ _ Ht) (tch_refs _ _ _ Ht) Hk)
    as ((Ht2 & _) & Hv2 & Hi2 & Ho2).
  split.
  - destruct He as [_ Hrow Hvis Honly Hopen Hnode]. constructor.
    + by eapply touched_trans.
    + by rewrite Hi2.
    + by rewrite Hv2.
    + by rewrite Hv2.
    + by apply Ho2.
    + by rewrite (ev_nodes _ _ (tch_evolves _ _ _ Ht2)).
  - eapply (processor_leaves (Build_ProcessContext i n v) _ Hp);
      [exact (tch_wf _ _ _ Ht)|exact (tch_refs _ _ _ Ht)|exact Hk|exact Hno|exact Hrun].
Qed.
(** Publishing events changes nothing the discipline speaks about. *)
Lemma emit_entered s i n v s1 evs u s2 :
  entered s i n v s1 → EmitEvents evs s1 = Ok (u, s2) →
  entered s i n v s2 ∧ db_tasks s2 = db_tasks s1.
Proof.
  intros He Hrun. pose proof (entered_known _ _ _ _ _ He) as Hk.
  pose proof (ent_touched _ _ _ _ _ He) as Ht.
  pose proof (touches_EmitEvents (Instance_ID i) evs _ _ _ Hrun (tch_wf _ _ _ Ht) (tch_refs _ _ _ Ht) Hk)
    as [Ht2 _].
  assert (db_tasks s2 = db_tasks s1 ∧ db_visits s2 = db_visits s1 ∧ db_instances s2 = db_instances s1)
    as (Hts & Hvs & His) by (destruct s1; injection Hrun as ? ?; by subst).
  split; [|done]. destruct He as [_ Hrow Hvis Honly Hopen Hnode]. constructor.
  - by eapply touched_trans.
  - by rewrite His.
  - by rewrite Hvs.
  - by rewrite Hvs.
  - unfold openAt, tasksOf in *. by rewrite Hts.
  - by rewrite (ev_nodes _ _ (tch_evolves _ _ _ Ht2)).
Qed.

(** Leaving the node: its visit is concluded and nothing is open. *)
Lemma conclude_entered s i n v s1 st u s2 :
  entered s i n v s1 → noneOpen (Build_ProcessContext i n v) s1 → st ≠ NodeVisitActive →
  concludeNodeVisit v st s1 = Ok (u, s2) →
  touched (Instance_ID i) s s2 ∧ quiet s2 (Instance_ID i) ∧
  (∃ row, row ∈ db_instances s2 ∧ Instance_ID row = Instance_ID i ∧
          Instance_Status row = InstanceRunning ∧ Instance_FlowVersionID row = Instance_FlowVersionID i).
Proof.
  intros He Hno Hst Hrun. pose proof (entered_known _ _ _ _ _ He) as Hk.
  pose proof (ent_touched _ _ _ _ _ He) as Ht.
  destruct (concludeNodeVisit_Ok v st s1 u s2 (Instance_ID i) (tch_wf _ _ _ Ht)) as (Hc & Hts & His & now & Hvs).
  { intros r Hr Hid. rewrite (entered_visit_row _ _ _ _ _ r He Hr Hid).
    by destruct (ent_visit _ _ _ _ _ He) as (_ & ? & _ & ?). }
  { done. }
  destruct (Hc (tch_wf _ _ _ Ht) (tch_refs _ _ _ Ht) Hk) as [Ht2 _].
  split; [by eapply touched_trans|]. split.
  - split.
    + intros r Hr. unfold visitsOf in Hr. rewrite Hvs in Hr.
      apply elem_of_tselect in Hr as [HI Hr]. apply elem_of_tupdate in Hr as (r0 & Hr0 & ->).
      destruct (decide (NodeVisit_ID r0 = NodeVisit_ID v)) as [Hid|Hid].
      * rewrite (bool_decide_eq_true_2 _ Hid). unfold isActive. destruct r0; cbn.
        by apply bool_decide_eq_false_2.
      * rewrite (bool_decide_eq_false_2 _ Hid) in HI |- *.
        destruct (isActive r0) eqn:Ha; [|done]. apply bool_decide_eq_true in HI.
        by rewrite (ent_only _ _ _ _ _ He r0 Hr0 HI Ha) in Hid.
    + intros t Htin. unfold tasksOf in Htin. rewrite Hts in Htin. by apply Hno.
  - rewrite His. apply (ent_row _ _ _ _ _ He).
Qed.

(** Waiting at the node: the instance's current node is where its visit is. *)
Lemma wait_settled s i n v s1 c s2 :
  entered s i n v s1 → Instance_Status i = InstanceRunning →
  updateInstanceCols (set_Instance_CurrentNodeID (Some (FlowNode_ID n)) i) [ColCurrentNodeID] s1
    = Ok (c, s2) →
  settled s (Instance_ID i) (set_Instance_CurrentNodeID (Some (FlowNode_ID n)) i) s2.
Proof.
  intros He Hst Hrun. pose proof (entered_known _ _ _ _ _ He) as Hk.
  pose proof (ent_touched _ _ _ _ _ He) as Ht. injection Hrun as _ <-.
  assert (Instance_ID (set_Instance_CurrentNodeID (Some (FlowNode_ID n)) i) = Instance_ID i) as Hid
    by (by destruct i).
  rewrite Hid. set (f := copyCols _ _). set (p := λ r, Instance_ID r ==? Instance_ID i).
  assert (touches (Instance_ID i) s1 (upd_instances (tupdate p f) s1)) as Htch.
  { apply touches_instances_in. intros r Hr Hp%bool_decide_eq_true. split; [done|].
    apply copyCols_keeps. }
  destruct (Htch (tch_wf _ _ _ Ht) (tch_refs _ _ _ Ht) Hk) as [Ht2 _].
  destruct (ent_row _ _ _ _ _ He) as (row & Hrow & Hrid & Hrst & _).
  constructor; [by eapply touched_trans|done|].
  exists (f row). destruct (copyCols_keeps (set_Instance_CurrentNodeID (Some (FlowNode_ID n)) i)
    [ColCurrentNodeID] row) as (Hfi & Hfs & _). fold f in Hfi, Hfs.
  split; [|split; [congruence|split]].
  - destruct s1; cbn in *. apply elem_of_tupdate. exists row. split; [done|].
    unfold p. by rewrite bool_decide_eq_true_2.
  - destruct i; cbn in *. congruence.
  - unfold inst_ok. rewrite Hfs, Hrst, Hfi, Hrid. exists (FlowNode_ID n).
    split; [by destruct row, i|].
    destruct He as [_ _ (Hv & HvI & Hvn & Hva) Honly Hopen _].
    exists v. split; [apply elem_of_tselect; destruct s1; by rewrite bool_decide_eq_true_2|].
    split; [done|]. split; [done|]. split.
    + intros r Hr Ha. apply elem_of_tselect in Hr as [HI Hr]. apply bool_decide_eq_true in HI.
      apply Honly; [by destruct s1|done|done].
    + by destruct s1.
Qed.

(** Completing the instance. *)
Lemma transition_settled s s1 i to cols i' s2 :
  touched (Instance_ID i) s s1 → quiet s1 (Instance_ID i) → instancesOf s1 (Instance_ID i) ≠ [] →
  to ≠ InstanceRunning → ApplyInstanceTransitionWithHooks i to cols s1 = Ok (i', s2) →
  settled s (Instance_ID i) i' s2.
Proof.
  intros Ht Hq Hk Hto Hrun.
  pose proof (ApplyInstanceTransition_row _ _ _ _ _ _ Hrun) as (row & Hrow & Hid & Hst).
  apply ApplyInstanceTransition_Ok in Hrun as (_ & -> & (_ & Hts2 & Hvs2 & _) & _ & Htch).
  destruct (Htch (tch_wf _ _ _ Ht) (tch_refs _ _ _ Ht) Hk) as [Ht2 _].
  constructor; [by eapply touched_trans|by destruct i|].
  exists row. split; [done|]. split; [done|]. split; [by destruct i|].
  assert (quiet s2 (Instance_ID row)) as Hq2.
  { rewrite Hid. unfold quiet, visitsOf, tasksOf in *. rewrite Hts2, Hvs2. by destruct s1. }
  unfold inst_ok. rewrite Hst. by destruct to.
Qed.

Lemma settled_extend s I i' s1 s2 :
  settled s I i' s1 → touches I s1 s2 → db_tasks s2 = db_tasks s1 → db_visits s2 = db_visits s1 →
  db_instances s2 = db_instances s1 → settled s I i' s2.
Proof.
  intros [Ht Hid (row & Hrow & Hrid & Hst & Hok)] Htch Hts Hvs His.
  assert (instancesOf s1 I ≠ []) as Hk.
  { intros Hnil. unfold instancesOf in Hnil. rewrite tselect_nil in Hnil.
    specialize (Hnil row Hrow). by apply bool_decide_eq_false in Hnil. }
  destruct (Htch (tch_wf _ _ _ Ht) (tch_refs _ _ _ Ht) Hk) as [Ht2 _].
  constructor; [by eapply touched_trans|done|]. exists row. rewrite His. repeat split; auto.
  unfold inst_ok, seated, quiet, openAt, visitsOf, tasksOf in *. by rewrite Hts, Hvs.
Qed.

Lemma FlowCache_Get_same v s c s' : FlowCache_Get v s = Ok (c, s') → s' = s.
Proof.
  unfold FlowCache_Get. intros Hrun. step Hrun as ns s0 H0. injection H0 as _ <-.
  step Hrun as u s1 H1. apply throwIf_Ok in H1 as [_ ->]. step Hrun as es s2 H2.
  injection H2 as _ <-. by injection Hrun as _ ->.
Qed.

(** A compiled flow holds rows of the version. *)
Lemma FlowCache_Get_nodes v s c s' :
  FlowCache_Get v s = Ok (c, s') →
  (∀ k n, cf_Nodes c !! k = Some n → n ∈ db_nodes s ∧ FlowNode_FlowVersionID n = v) ∧
  (∀ n, cf_StartNode c = Some n → n ∈ db_nodes s ∧ FlowNode_FlowVersionID n = v).
Proof.
  unfold FlowCache_Get. intros Hrun. step Hrun as ns s0 H0. injection H0 as Hns <-.
  step Hrun as u s1 H1. apply throwIf_Ok in H1 as [_ ->]. step Hrun as es s2 H2.
  injection H2 as _ <-. injection Hrun as <- _. unfold compileRows.
  set (ours := λ n, n ∈ db_nodes s ∧ FlowNode_FlowVersionID n = v).
  assert (∀ n, n ∈ ns → ours n) as Hin.
  { intros n Hn. rewrite <-Hns in Hn. by apply elem_of_tselect in Hn as [?%bool_decide_eq_true ?]. }
  clear Hns u. set (good := λ acc : gmap string FlowNode * option FlowNode,
    (∀ k n, acc.1 !! k = Some n → ours n) ∧ (∀ n, acc.2 = Some n → ours n)).
  assert (∀ l acc, (∀ n, n ∈ l → ours n) → good acc → good (foldl addCompiledNode acc l)) as Hfold.
  { induction l as [|x l IH]; intros acc Hl [Hg1 Hg2]; cbn; [done|].
    apply IH; [set_solver|]. assert (ours x) as Hx by (apply Hl; set_solver).
    split; cbn.
    - intros k n. destruct (decide (k = FlowNode_ID x)) as [->|].
      + rewrite lookup_insert_eq. by intros [= <-].
      + rewrite lookup_insert_ne by done. apply Hg1.
    - intros n. case_bool_decide; [by intros [= <-]|apply Hg2]. }
  specialize (Hfold ns (∅, None) Hin). destruct (foldl addCompiledNode (∅, None) ns) as [m st].
  apply Hfold. split; cbn; [|done]. intros k n. by rewrite lookup_empty.
Qed.

Lemma advanceWith_settled (processNode : Instance → FlowNode → M Instance) i n b s i' s' :
  (∀ s n i' s', ready s i → n ∈ db_nodes s → FlowNode_FlowVersionID n = Instance_FlowVersionID i →
     processNode i n s = Ok (i', s') → settled s (Instance_ID i) i' s') →
  ready s i → advanceWith processNode i n b s = Ok (i', s') → settled s (Instance_ID i) i' s'.
Proof.
  intros Hp Hrdy Hrun. unfold advanceWith in Hrun. step Hrun as c s1 H1.
  pose proof (FlowCache_Get_nodes _ _ _ _ H1) as [Hnodes _].
  apply FlowCache_Get_same in H1 as ->. step Hrun as e s2 H2. unfold liftR in H2.
  destruct (FindOutgoing _ _ _); [|done]. injection H2 as _ <-.
  destruct (cf_Nodes c !! _) as [n'|] eqn:Hn'; [|done]. apply Hnodes in Hn' as [? ?]. by eapply Hp.
Qed.

(** The node that completes the instance. *)
Lemma complete_settled s s1 i n fs i' s2 :
  touched (Instance_ID i) s s1 → ready s1 i →
  (now ← Now;
   let instance := set_Instance_FinishedAt (Some now)
     (set_Instance_CurrentNodeID (Some (FlowNode_ID n)) i) in
   instance ← ApplyInstanceTransitionWithHooks instance fs [ColCurrentNodeID; ColFinishedAt];
   evt ← NewInstanceCompletedEvent instance fs;
   EmitEvents [evt];; mret instance) s1 = Ok (i', s2) →
  settled s (Instance_ID i) i' s2.
Proof.
  intros Ht1 Hrdy Hrun. step Hrun as now s3 Hnow. cbv zeta in Hrun. step Hrun as i4 s4 Hap.
  pose proof (touches_Now (Instance_ID i) _ _ _ Hnow (rdy_wf _ _ Hrdy) (rdy_refs _ _ Hrdy)
    (ready_known _ _ Hrdy)) as [Ht3 Hk3].
  set (i2 := set_Instance_FinishedAt _ _) in *.
  assert (Instance_ID i2 = Instance_ID i ∧ Instance_Status i2 = InstanceRunning) as [Hid2 Hst2].
  { pose proof (rdy_status _ _ Hrdy). by destruct i. }
  assert (fs ≠ InstanceRunning) as Hfs.
  { apply ApplyInstanceTransition_Ok in Hap as (Hcan & _). rewrite Hst2 in Hcan. by destruct fs. }
  assert (settled s (Instance_ID i) i4 s4) as Hset.
  { rewrite <-Hid2. eapply transition_settled; [| | |exact Hfs|exact Hap]; rewrite ?Hid2.
    - by eapply touched_trans.
    - pose proof (rdy_quiet _ _ Hrdy) as Hq. destruct s1; injection Hnow as ? ?; subst. exact Hq.
    - done. }
  step Hrun as evt s5 Hevt. step Hrun as u6 s6 Hem. injection Hrun as <- <-.
  assert (settled s (Instance_ID i) i4 s5) as Hset5.
  { unfold NewInstanceCompletedEvent in Hevt. step Hevt as fa s9 Hfa. injection Hevt as _ <-.
    destruct (Instance_FinishedAt i4); [by injection Hfa as _ <-|].
    eapply settled_extend; [exact Hset|by eapply touches_Now|..];
      destruct s4; injection Hfa as ? ?; by subst. }
  eapply settled_extend; [exact Hset5|by eapply touches_EmitEvents|..];
    destruct s5; injection Hem as ? ?; by subst.
Qed.

Lemma ProcessNodeFuel_settled fuel i n s i' s' :
  ready s i → n ∈ db_nodes s → FlowNode_FlowVersionID n = Instance_FlowVersionID i →
  ProcessNodeFuel fuel i n s = Ok (i', s') → settled s (Instance_ID i) i' s'.
Proof.
  revert n s i' s'. induction fuel as [|fuel IH]; intros n s i' s' Hrdy Hnode Hver Hrun; [done|].
  cbn in Hrun. destruct (processorFor (FlowNode_Kind n)) as [process|] eqn:Hproc; [|done].
  step Hrun as v s1 Hb. destruct (beginNodeVisit_entered _ _ _ _ _ Hrdy Hnode Hver Hb) as [He1 Hno1].
  step Hrun as r s2 Hp. destruct (process_entered _ _ _ _ _ _ _ _ He1 Hno1 Hproc Hp) as [He2 Hno2].
  unfold handleResultWith in Hrun. step Hrun as u s3 Hem.
  destruct (emit_entered _ _ _ _ _ _ _ _ He2 Hem) as [He3 Hts3].
  destruct (ProcessResult_Action r) eqn:Hact.
  - step Hrun as c s4 Hu. injection Hrun as <- <-. eapply wait_settled; eauto. apply Hrdy.
  - destruct Hno2 as [?|Hno2]; [congruence|].
    assert (noneOpen (Build_ProcessContext i n v) s3) as Hno3 by (by eapply sameTasks_noneOpen).
    step Hrun as u4 s4 Hc. assert (NodeVisitPassed ≠ NodeVisitActive) as Hne by done.
    destruct (conclude_entered _ _ _ _ _ _ _ _ He3 Hno3 Hne Hc) as (Ht4 & Hq4 & Hrow4).
    assert (ready s4 i) as Hrdy4.
    { constructor; [exact (tch_wf _ _ _ Ht4)|exact (tch_refs _ _ _ Ht4)|done|apply Hrdy|done]. }
    eapply advanceWith_settled in Hrun; [|intros; by eapply IH|done].
    destruct Hrun as [Ht5 Hid5 Hrow5]. constructor; [by eapply touched_trans|done|done].
  - destruct Hno2 as [?|Hno2]; [congruence|].
    assert (noneOpen (Build_ProcessContext i n v) s3) as Hno3 by (by eapply sameTasks_noneOpen).
    step Hrun as u4 s4 Hc. set (fs := default InstanceApproved (ProcessResult_FinalStatus r)) in *.
    assert ((if fs ==? InstanceRejected then NodeVisitRejected else NodeVisitPassed)
            ≠ NodeVisitActive) as Hne by (by case_bool_decide).
    destruct (conclude_entered _ _ _ _ _ _ _ _ He3 Hno3 Hne Hc) as (Ht4 & Hq4 & Hrow4).
    assert (ready s4 i) as Hrdy4.
    { constructor; [exact (tch_wf _ _ _ Ht4)|exact (tch_refs _ _ _ Ht4)|done|apply Hrdy|done]. }
    by eapply complete_settled.
Qed.
End traversal.
