(* ===== verification/ServiceInv.v ===== *)
(** * The services keep the visit discipline

    Every operation of the task service stays inside the frame of the node it
    works on, cancelling leaves nothing open, and settling a node
    ([HandleNodeCompletion]) puts the instance back in order. *)
From S2P Require Import Prelude Enums StateMachine Models Demo Store Shared FormValidation FormStorage Delegation Binding.
From S2P Require Import PassRule Processors Engine Tenancy TaskService NodeService Discipline EngineInv Traversal.

Section frame_services.
Context `{!Host} (pc : ProcessContext).
Notation I := (Instance_ID (pc_Instance pc)).
Notation V := (NodeVisit_ID (pc_Visit pc)).
Notation N := (FlowNode_ID (pc_Node pc)).

(** The frame may assume the store well-formed. *)
Lemma inFrame_intro s s' :
  (wf s → refs_ok s → framed pc s → inFrame pc s s') → inFrame pc s s'.
Proof. intros Hf Hw Hr Hi. by apply Hf. Qed.
Lemma inFrame_wf s s' : inFrame pc s s' → wf s → refs_ok s → framed pc s → wf s' ∧ refs_ok s' ∧ framed pc s'.
Proof.
  intros Hf Hw Hr Hi. destruct (Hf Hw Hr Hi) as ((Ht & Hi') & _).
  split; [exact (tch_wf _ _ _ Ht)|]. split; [exact (tch_refs _ _ _ Ht)|done].
Qed.

Lemma inFrame_EmitEvents evs : keeps (inFrame pc) (EmitEvents evs).
Proof.
  intros s a s' Hrun. apply inFrame_same; try (by destruct s; injection Hrun as ? ?; subst).
  by eapply touches_EmitEvents.
Qed.
Lemma inFrame_insertUrge r : keeps (inFrame pc) (insertUrge r).
Proof.
  intros s a s' Hrun. apply inFrame_same; try (by destruct s; injection Hrun as ? ?; subst).
  by eapply touches_insertUrge.
Qed.

(** The rows with an id belong to the instance. *)
Definition owns (s : St) (id : string) : Prop :=
  ∀ row, row ∈ db_tasks s → Task_ID row = id → Task_InstanceID row = I.
Lemma owns_row s t : wf s → t ∈ db_tasks s → Task_InstanceID t = I → owns s (Task_ID t).
Proof. intros Hw Ht HI row Hrow Hid. by rewrite (task_row_unique _ _ _ Hw Hrow Ht Hid). Qed.

(** *** Finishing and promoting *)
Lemma FinishTask_Ok task st s t' s' :
  FinishTask task st s = Ok (t', s') →
  task_step (Task_Status task) st ∧
  ∃ now, t' = set_Task_FinishedAt (Some now) (set_Task_Status st task) ∧
    (∃ row, row ∈ db_tasks s ∧ Task_ID row = Task_ID task ∧ Task_Status row = Task_Status task) ∧
    db_tasks s' = tupdate
      (λ t, (Task_ID t ==? Task_ID task) && (Task_Status t ==? Task_Status task))
      (λ t, set_Task_FinishedAt (Some now) (set_Task_Status st t)) (db_tasks s) ∧
    (owns s (Task_ID task) → isOpen t' = false → inFrame pc s s').
Proof.
  unfold FinishTask. intros Hrun. step Hrun as u s0 H0.
  apply throwIf_Ok in H0 as [Hcan ->]. apply negb_false_iff in Hcan.
  step Hrun as now s1 Hnow. step Hrun as n s2 Hu. injection Hu as Hn <-.
  step Hrun as u2 s3 H3. apply throwIf_Ok in H3 as [Hz ->]. injection Hrun as <- <-.
  split; [done|]. exists now. split; [done|].
  assert (db_tasks s1 = db_tasks s) as Ht1 by (destruct s; injection Hnow as ? ?; by subst).
  split; [|split].
  - apply Nat.eqb_neq in Hz. rewrite <-Hn in Hz. unfold tcount in Hz. rewrite Ht1 in Hz.
    destruct (tselect _ (db_tasks s)) as [|row l] eqn:Hsel; [done|].
    assert (row ∈ row :: l) as Hin by set_solver. rewrite <-Hsel in Hin.
    apply elem_of_tselect in Hin as [[Hi Hs]%andb_true_iff Hin].
    exists row. apply bool_decide_eq_true in Hi, Hs. done.
  - rewrite <-Ht1. by destruct s1.
  - intros Hown Hclosed. etrans; [by eapply inFrame_Now|].
    apply inFrame_task_step; [by intros []|]. rewrite Ht1. intros t Ht [Hid Hst]%andb_true_iff.
    apply bool_decide_eq_true in Hid, Hst. split; [by apply Hown|].
    split; [apply rtc_once; unfold task_step; destruct t; cbn in *; congruence|].
    destruct task, t; cbn in *. unfold isOpen in *. cbn in *. congruence.
Qed.

Lemma promoteTask_inFrame id dl s n s' :
  owns s id → promoteTask id dl s = Ok (n, s') → inFrame pc s s'.
Proof.
  intros Hown [=]; subst. apply inFrame_task_step; [by intros []|].
  intros t Ht [Hid Hst]%andb_true_iff. apply bool_decide_eq_true in Hid, Hst.
  split; [by apply Hown|]. destruct t; unfold isOpen in *; cbn in *. subst. split; [by apply rtc_once|done].
Qed.
(** Ownership survives: ids and instances of rows never change. *)
Lemma owns_inFrame s s' id :
  wf s → refs_ok s → framed pc s → inFrame pc s s' → (∃ t, t ∈ db_tasks s ∧ Task_ID t = id) →
  owns s id → owns s' id.
Proof.
  intros Hw Hr Hi Hf (t & Ht & Hid) Hown. destruct (Hf Hw Hr Hi) as ((Htch & _) & _).
  destruct (table_evolves_elem _ _ _ _ (ev_tasks _ _ (tch_evolves _ _ _ Htch)) Ht)
    as (t' & Ht' & Hid' & HI' & _).
  rewrite <-Hid, <-Hid'. apply owns_row; [exact (tch_wf _ _ _ Htch)|done|]. rewrite HI'. by apply Hown.
Qed.
End frame_services.
#[export] Hint Resolve inFrame_EmitEvents inFrame_insertUrge : keeps.

Section frame_queue.
Context `{!Host} (pc : ProcessContext).
Notation I := (Instance_ID (pc_Instance pc)).
Notation N := (FlowNode_ID (pc_Node pc)).
Notation inst := (pc_Instance pc).
Notation node := (pc_Node pc).

Lemma isCancelable_isOpen t : isCancelable t = isOpen t.
Proof. unfold isCancelable, isOpen. by destruct (Task_Status t). Qed.

Lemma inFrame_computeTaskDeadline n : keeps (inFrame pc) (computeTaskDeadline n).
Proof. apply inFrame_ComputeTaskDeadline. Qed.
Lemma computeTaskDeadline_same n s d s' :
  computeTaskDeadline n s = Ok (d, s') → db_tasks s' = db_tasks s.
Proof.
  unfold computeTaskDeadline, ComputeTaskDeadline. case_match; [by intros [= _ <-]|].
  destruct s. by intros [= _ <-].
Qed.
Lemma inFrame_appendSystemTaskActionLog t r : keeps (inFrame pc) (appendSystemTaskActionLog t r).
Proof. unfold appendSystemTaskActionLog. keeps_tac. Qed.

(** The head of the queue is one of its rows. *)
Lemma queue_head s t :
  head (orderBy Task_SortOrder (tselect (queuedOn inst node) (db_tasks s))) = Some t →
  t ∈ db_tasks s ∧ Task_InstanceID t = I ∧ Task_NodeID t = N ∧ Task_Status t = TaskWaiting.
Proof.
  intros [Ht _]%orderBy_head. apply elem_of_tselect in Ht as [Hq Ht].
  apply andb_true_iff in Hq as [[HI HN]%andb_true_iff Hst].
  apply bool_decide_eq_true in HI, HN, Hst. done.
Qed.

Lemma inFrame_activateLoop fuel evs : keeps (inFrame pc) (activateLoop fuel inst node evs).
Proof.
  revert evs. induction fuel as [|fuel IH]; intros evs s r s' Hrun; cbn in Hrun.
  { injection Hrun as _ <-. reflexivity. }
  apply inFrame_intro. intros Hw Hr Hi.
  step Hrun as next s0 Hg. injection Hg as Hnext <-.
  destruct next as [t|]; [|injection Hrun as _ <-; reflexivity].
  destruct (queue_head _ _ Hnext) as (Ht & HI & HN & Hst).
  destruct (negb _); [injection Hrun as _ <-; reflexivity|].
  step Hrun as d s1 Hd. pose proof (inFrame_computeTaskDeadline _ _ _ _ Hd) as Hf1.
  pose proof (computeTaskDeadline_same _ _ _ _ Hd) as Ht1.
  assert (owns pc s1 (Task_ID t)) as Hown1 by (unfold owns; rewrite Ht1; by apply owns_row).
  step Hrun as n s2 Hp. pose proof (promoteTask_inFrame pc _ _ _ _ _ Hown1 Hp) as Hf2.
  assert (inFrame pc s s2) as Hf by (by etrans).
  destruct (n =? 0)%nat; [by injection Hrun as _ <-|].
  destruct (shouldAutoPassSameApplicant _ _ _); [|by injection Hrun as _ <-].
  step Hrun as t' s3 Hfin. step Hrun as u s4 Hlog.
  pose proof (owns_inFrame pc s s2 _ Hw Hr Hi Hf (ex_intro _ t (conj Ht eq_refl))
    (owns_row pc _ _ Hw Ht HI)) as Hown2.
  etrans; [exact Hf|].
  destruct (FinishTask_Ok pc _ _ _ _ _ Hfin) as (_ & now & -> & _ & _ & Hf3).
  etrans; [apply Hf3|].
  - by destruct t.
  - by destruct t.
  - etrans; [by eapply inFrame_appendSystemTaskActionLog|]. by eapply IH.
Qed.
Lemma inFrame_ActivateNextSequentialTask : keeps (inFrame pc) (ActivateNextSequentialTask inst node).
Proof.
  unfold ActivateNextSequentialTask. keeps_step; [keeps_tac|]. destruct a; [keeps_tac|].
  keeps_step; [keeps_tac|]. apply inFrame_activateLoop.
Qed.
End frame_queue.

Section frame_dependents.
Context `{!Host} (pc : ProcessContext).
Notation I := (Instance_ID (pc_Instance pc)).
Notation N := (FlowNode_ID (pc_Node pc)).

(** A row of the instance has the id. *)
Definition ownRow (s : St) (id : string) : Prop :=
  owns pc s id ∧ ∃ t, t ∈ db_tasks s ∧ Task_ID t = id.
Lemma ownRow_intro s t : wf s → t ∈ db_tasks s → Task_InstanceID t = I → ownRow s (Task_ID t).
Proof. intros Hw Ht HI. split; [by apply owns_row|by exists t]. Qed.
Lemma ownRow_inFrame s s' id :
  wf s → refs_ok s → framed pc s → inFrame pc s s' → ownRow s id → ownRow s' id.
Proof.
  intros Hw Hr Hi Hf [Hown Hrow]. split; [by eapply owns_inFrame|].
  destruct Hrow as (t & Ht & Hid). destruct (Hf Hw Hr Hi) as ((Htch & _) & _).
  destruct (table_evolves_elem _ _ _ _ (ev_tasks _ _ (tch_evolves _ _ _ Htch)) Ht)
    as (t' & Ht' & Hid' & _). exists t'. split; [done|congruence].
Qed.
(** The task another one is attached to is in the same instance. *)
Lemma ownRow_parent s t p :
  wf s → refs_ok s → t ∈ db_tasks s → Task_InstanceID t = I → Task_ParentTaskID t = Some p → ownRow s p.
Proof.
  intros Hw Hr Ht HI Hp. destruct (refs_parent _ Hr t Ht p Hp) as (t' & Ht' & <- & HI' & _).
  apply ownRow_intro; [done|done|congruence].
Qed.
Lemma child_of_own s p t :
  wf s → refs_ok s → ownRow s p → t ∈ db_tasks s → Task_ParentTaskID t = Some p →
  Task_InstanceID t = I.
Proof.
  intros Hw Hr [Hown _] Ht Hp. destruct (refs_parent _ Hr t Ht p Hp) as (t' & Ht' & Hid & <- & _).
  by apply Hown.
Qed.

Lemma reactivateBeforeParent_inFrame i n p s r s' :
  ownRow s p → reactivateBeforeParent i n p s = Ok (r, s') → inFrame pc s s'.
Proof.
  intros Hown Hrun. unfold reactivateBeforeParent in Hrun. step Hrun as c s0 Hg.
  injection Hg as _ <-. destruct (0 <? c)%nat; [injection Hrun as _ <-; reflexivity|].
  step Hrun as d s1 Hd. etrans; [by eapply inFrame_computeTaskDeadline|].
  pose proof (computeTaskDeadline_same _ _ _ _ Hd) as Ht1.
  step Hrun as k s2 Hp. etrans; [eapply promoteTask_inFrame; [|exact Hp]; unfold owns; rewrite Ht1; apply Hown|].
  destruct (k =? 0)%nat; [injection Hrun as _ <-; reflexivity|].
  step Hrun as t s3 Ht. injection Hrun as _ <-. unfold orThrow, findTask in Ht.
  step Ht as o s4 Ho. injection Ho as _ <-. destruct o; [injection Ht as _ <-; reflexivity|done].
Qed.

Lemma promoteAll_inFrame i n d children evs s r s' :
  (∀ c, c ∈ children → ownRow s (Task_ID c)) →
  foldM (λ events child,
      affected ← promoteTask (Task_ID child) d;
      if (affected =? 0)%nat then mret events
      else
        let child := set_Task_Deadline d (set_Task_Status TaskPending child) in
        mret (events ++ [NewTaskActivatedEvent i child n TaskActivationQueueAdvanced]))
      evs children s = Ok (r, s') → inFrame pc s s'.
Proof.
  revert evs s. induction children as [|c cs IH]; intros evs s Hown Hrun; cbn in Hrun.
  { injection Hrun as _ <-. reflexivity. }
  apply inFrame_intro. intros Hw Hr Hi. step Hrun as evs' s1 H1. step H1 as k s2 Hp.
  assert (s2 = s1) as -> by (by destruct (k =? 0)%nat; injection H1 as _ <-).
  assert (inFrame pc s s1) as Hf.
  { eapply promoteTask_inFrame; [|exact Hp]. apply Hown. set_solver. }
  etrans; [exact Hf|]. eapply IH; [|exact Hrun]. intros c' Hc'.
  eapply ownRow_inFrame; eauto. apply Hown. set_solver.
Qed.
Lemma activateAfterChildren_inFrame i n p s r s' :
  ownRow s p → activateAfterChildren i n p s = Ok (r, s') → inFrame pc s s'.
Proof.
  intros Hown Hrun. apply inFrame_intro. intros Hw Hr Hi. unfold activateAfterChildren in Hrun.
  step Hrun as cs s0 Hg. injection Hg as <- <-.
  destruct (length _ =? 0)%nat; [injection Hrun as _ <-; reflexivity|].
  step Hrun as d s1 Hd. etrans; [by eapply inFrame_computeTaskDeadline|].
  eapply promoteAll_inFrame; [|exact Hrun]. intros c Hc.
  apply elem_of_tselect in Hc as [[Hch _]%andb_true_iff Hc]. unfold isChildOf in Hch.
  apply andb_true_iff in Hch as [Hpar _]. apply bool_decide_eq_true in Hpar.
  unfold ownRow, owns. rewrite (computeTaskDeadline_same _ _ _ _ Hd).
  apply ownRow_intro; [done|done|]. by eapply child_of_own.
Qed.

(** What a finished task must still say of its row. *)
Record ownTask (s : St) (t : Task) : Prop := {
  own_row : ownRow s (Task_ID t);
  own_parent : ∀ p, Task_ParentTaskID t = Some p → ownRow s p;
}.
Lemma ownTask_intro s t :
  wf s → refs_ok s → t ∈ db_tasks s → Task_InstanceID t = I → ownTask s t.
Proof.
  intros Hw Hr Ht HI. split; [by apply ownRow_intro|]. intros p Hp. by eapply ownRow_parent.
Qed.
Lemma ownTask_inFrame s s' t :
  wf s → refs_ok s → framed pc s → inFrame pc s s' → ownTask s t → ownTask s' t.
Proof. intros Hw Hr Hi Hf [H1 H2]. split; [by eapply ownRow_inFrame|]. intros p ?. eapply ownRow_inFrame; eauto. Qed.

Lemma ActivateDependentTasks_inFrame t s r s' :
  ownTask s t → ActivateDependentTasks (pc_Instance pc) (pc_Node pc) t s = Ok (r, s') → inFrame pc s s'.
Proof.
  intros [Hrow Hpar] Hrun. apply inFrame_intro. intros Hw Hr Hi.
  unfold ActivateDependentTasks in Hrun. case_bool_decide.
  { by eapply inFrame_ActivateNextSequentialTask. }
  unfold activateParallelDependents in Hrun. step Hrun as pe s1 H1. step Hrun as ce s2 H2.
  injection Hrun as _ <-.
  assert (inFrame pc s s1) as Hf.
  { destruct (Task_ParentTaskID t) as [p|]; [|injection H1 as _ <-; reflexivity].
    case_bool_decide; [|injection H1 as _ <-; reflexivity].
    eapply reactivateBeforeParent_inFrame; [|exact H1]. by apply Hpar. }
  etrans; [exact Hf|]. eapply activateAfterChildren_inFrame; [|exact H2].
  by eapply ownRow_inFrame.
Qed.

(** *** Cancelling *)
Lemma cancelActiveTasks_inFrame i reason filter s r s' :
  (∀ t, t ∈ db_tasks s → filter t = true → Task_InstanceID t = I) →
  cancelActiveTasks i reason filter s = Ok (r, s') → inFrame pc s s'.
Proof.
  intros Hfil Hrun. apply inFrame_intro. intros Hw Hr Hi. unfold cancelActiveTasks in Hrun.
  step Hrun as ts s0 Hg. injection Hg as <- <-.
  destruct (length _ =? 0)%nat; [injection Hrun as _ <-; reflexivity|].
  step Hrun as now s1 Hnow. etrans; [by eapply inFrame_Now|].
  step Hrun as n s2 Hu. injection Hu as _ <-. injection Hrun as _ <-.
  assert (db_tasks s1 = db_tasks s) as Ht1 by (destruct s; injection Hnow as ? ?; by subst).
  apply inFrame_task_step; [by intros []|]. rewrite Ht1. intros t Ht [Hin Ho]%andb_true_iff.
  apply bool_decide_eq_true, list_elem_of_fmap in Hin as (t0 & Hid & Ht0).
  apply elem_of_tselect in Ht0 as [Hf0 Ht0].
  rewrite (task_row_unique _ _ _ Hw Ht Ht0 Hid). split; [by apply Hfil|].
  rewrite <-(task_row_unique _ _ _ Hw Ht Ht0 Hid). rewrite isCancelable_isOpen in Ho.
  split; [|by destruct t]. unfold isOpen in Ho. destruct t; cbn in *. apply rtc_once.
  by destruct Task_Status.
Qed.
(** Whatever matched the filter and was open is cancelled. *)
Lemma cancelActiveTasks_closes i reason filter s r s' :
  (∀ t, filter t = true → isOpen t = true) →
  cancelActiveTasks i reason filter s = Ok (r, s') →
  (∀ t, t ∈ tasksOf s I → isOpen t = true → filter t = true) → noneOpen pc s'.
Proof.
  intros Hfo Hrun Hall. unfold cancelActiveTasks in Hrun. step Hrun as ts s0 Hg. injection Hg as <- <-.
  destruct (Nat.eqb_spec (length (tselect filter (db_tasks s))) 0) as [Hz|_].
  - injection Hrun as _ <-. apply length_zero_iff_nil in Hz. rewrite tselect_nil in Hz.
    intros t Ht. destruct (isOpen t) eqn:Ho; [|done]. specialize (Hall t Ht Ho).
    apply elem_of_tselect in Ht as [_ Ht]. rewrite (Hz t Ht) in Hall. done.
  - step Hrun as now s1 Hnow. step Hrun as n s2 Hu. injection Hu as _ <-. injection Hrun as _ <-.
    assert (db_tasks s1 = db_tasks s) as Ht1 by (destruct s; injection Hnow as ? ?; by subst).
    intros t Ht. apply elem_of_tselect in Ht as [HI Ht].
    assert (∃ row, row ∈ db_tasks s ∧ t =
      if bool_decide (Task_ID row ∈ Task_ID <$> tselect filter (db_tasks s)) && isCancelable row
      then set_Task_FinishedAt (Some now) (set_Task_Status TaskCanceled row) else row)
      as (row & Hrow & ->).
    { destruct s1; cbn in *. rewrite Ht1 in Ht. by apply elem_of_tupdate in Ht. }
    destruct (isOpen row) eqn:Ho; rewrite isCancelable_isOpen, Ho in *.
    + assert (filter row = true) as Hfil.
      { apply Hall; [|done]. apply elem_of_tselect. split; [|done].
        destruct (bool_decide _); [by destruct row|done]. }
      rewrite bool_decide_eq_true_2; [by destruct row|].
      apply list_elem_of_fmap_2. by apply elem_of_tselect.
    + by rewrite andb_false_r.
Qed.

Lemma CancelRemainingTasks_closes reason s r s' :
  CancelRemainingTasks (pc_Instance pc) (pc_Node pc) reason s = Ok (r, s') →
  inFrame pc s s' ∧ (openAt s I (NodeVisit_ID (pc_Visit pc)) N → noneOpen pc s').
Proof.
  intros Hrun. split.
  - eapply cancelActiveTasks_inFrame; [|exact Hrun].
    intros t _ [[HI _]%andb_true_iff _]%andb_true_iff. by apply bool_decide_eq_true in HI.
  - intros Ho. eapply cancelActiveTasks_closes; [|exact Hrun|].
    + intros t [_ Hc]%andb_true_iff. by rewrite <-isCancelable_isOpen.
    + intros t Ht Hopen. destruct (Ho t Ht Hopen) as [_ HN].
      apply elem_of_tselect in Ht as [HI _].
      unfold onNode. rewrite HI, isCancelable_isOpen, Hopen. by rewrite bool_decide_eq_true_2.
Qed.
End frame_dependents.

(** ** Closing visits *)
Section close_visits.
Context `{!Host}.

Definition stampVisit (now : DateTime) (st : NodeVisitStatus) (v : NodeVisit) : NodeVisit :=
  set_NodeVisit_FinishedAt (Some now) (set_NodeVisit_Status st v).

(** Stamping every active visit of the instance leaves none active. *)
Lemma stampVisits_closes I p now st s s' :
  db_visits s' = tupdate p (stampVisit now st) (db_visits s) → st ≠ NodeVisitActive →
  (∀ r, r ∈ db_visits s → NodeVisit_InstanceID r = I → isActive r = true → p r = true) →
  ∀ r, r ∈ visitsOf s' I → isActive r = false.
Proof.
  intros Hv Hst Hp r Hr. apply elem_of_tselect in Hr as [HI Hr]. rewrite Hv in Hr.
  apply elem_of_tupdate in Hr as (r0 & Hr0 & ->). apply bool_decide_eq_true in HI.
  destruct (p r0) eqn:Hpr.
  - destruct r0; unfold isActive; cbn. by apply bool_decide_eq_false_2.
  - destruct (isActive r0) eqn:Ha; [|done]. by rewrite (Hp r0 Hr0 HI Ha) in Hpr.
Qed.
Lemma stampVisits_touches I p now st s :
  (∀ r, r ∈ db_visits s → p r = true → NodeVisit_InstanceID r = I ∧ isActive r = true) →
  touches I s (upd_visits (tupdate p (stampVisit now st)) s).
Proof.
  intros Hp. apply touches_visits_in. intros r Hr Hpr. destruct (Hp r Hr Hpr) as [HI Ha].
  split; [done|]. unfold isActive in Ha. apply bool_decide_eq_true in Ha. destruct r; cbn in *.
  repeat split. by left.
Qed.

Lemma ConcludeActiveNodeVisit_Ok I n st s u s' :
  ConcludeActiveNodeVisit I n st s = Ok (u, s') →
  touches I s s' ∧ db_tasks s' = db_tasks s ∧ db_instances s' = db_instances s ∧
  ∃ now, db_visits s' = tupdate (visitIsActiveAt I n) (stampVisit now st) (db_visits s).
Proof.
  unfold ConcludeActiveNodeVisit. intros Hrun. step Hrun as now s1 Hnow.
  step Hrun as k s2 Hu. injection Hu as _ <-. apply throwIf_Ok in Hrun as [_ ->].
  pose proof (touches_Now I _ _ _ Hnow) as Ht.
  assert (db_visits s1 = db_visits s ∧ db_tasks s1 = db_tasks s ∧ db_instances s1 = db_instances s)
    as (Hv1 & Hk1 & Hi1) by (destruct s; injection Hnow as ? ?; by subst).
  split; [|split; [by destruct s1|split; [by destruct s1|]]].
  - etrans; [exact Ht|]. apply (stampVisits_touches I). intros r _ [[HI _]%andb_true_iff Ha]%andb_true_iff.
    by apply bool_decide_eq_true in HI.
  - exists now. rewrite <-Hv1. by destruct s1.
Qed.
Lemma CancelActiveNodeVisits_Ok I s u s' :
  CancelActiveNodeVisits I s = Ok (u, s') →
  touches I s s' ∧ db_tasks s' = db_tasks s ∧ db_instances s' = db_instances s ∧
  ∀ r, r ∈ visitsOf s' I → isActive r = false.
Proof.
  unfold CancelActiveNodeVisits. intros Hrun. step Hrun as now s1 Hnow.
  step Hrun as k s2 Hu. injection Hu as _ <-. injection Hrun as _ <-.
  pose proof (touches_Now I _ _ _ Hnow) as Ht.
  assert (db_tasks s1 = db_tasks s ∧ db_instances s1 = db_instances s)
    as (Hk1 & Hi1) by (destruct s; injection Hnow as ? ?; by subst).
  split; [|split; [by destruct s1|split; [by destruct s1|]]].
  - etrans; [exact Ht|]. apply (stampVisits_touches I). intros r _ [HI Ha]%andb_true_iff.
    by apply bool_decide_eq_true in HI.
  - eapply (stampVisits_closes I _ now NodeVisitCanceled s1); [by destruct s1|done|].
    intros r _ HI Ha. apply andb_true_iff. by rewrite bool_decide_eq_true.
Qed.

(** Leaving the node by its instance and node ids. *)
Lemma conclude_working s i n v s1 st u s2 :
  entered s i n v s1 → noneOpen (Build_ProcessContext i n v) s1 → st ≠ NodeVisitActive →
  ConcludeActiveNodeVisit (Instance_ID i) (FlowNode_ID n) st s1 = Ok (u, s2) →
  touched (Instance_ID i) s s2 ∧ quiet s2 (Instance_ID i) ∧ instancesOf s2 (Instance_ID i) ≠ [] ∧
  db_instances s2 = db_instances s1.
Proof.
  intros He Hno Hst Hrun. pose proof (entered_known _ _ _ _ _ He) as Hk.
  pose proof (ent_touched _ _ _ _ _ He) as Ht.
  destruct (ConcludeActiveNodeVisit_Ok _ _ _ _ _ _ Hrun) as (Htch & Hts & His & now & Hvs).
  destruct (Htch (tch_wf _ _ _ Ht) (tch_refs _ _ _ Ht) Hk) as [Ht2 Hk2].
  split; [by eapply touched_trans|]. split; [|done]. split.
  - eapply stampVisits_closes; [exact Hvs|done|]. intros r Hr HI Ha.
    rewrite (ent_only _ _ _ _ _ He r Hr HI Ha).
    destruct (ent_visit _ _ _ _ _ He) as (_ & HvI & Hvn & Hva).
    unfold visitIsActiveAt. rewrite HvI, Hvn, !bool_decide_eq_true_2 by done. exact Hva.
  - intros t Htin. unfold tasksOf in Htin. rewrite Hts in Htin. by apply Hno.
Qed.
End close_visits.

(** ** Working at the current node *)
Section working.
Context `{!Host}.

(** The instance waits at node [n] under visit [v]; [s0] is where the
    transaction began. *)
Record working (s0 : St) (i : Instance) (n : FlowNode) (v : NodeVisit) (s : St) : Prop := {
  wk_entered : entered s0 i n v s;
  wk_row : ∃ row, row ∈ db_instances s ∧ Instance_ID row = Instance_ID i ∧
                  Instance_Status row = InstanceRunning ∧
                  Instance_CurrentNodeID row = Some (FlowNode_ID n);
  wk_status : Instance_Status i = InstanceRunning;
}.
Lemma working_touched s0 i n v s : working s0 i n v s → touched (Instance_ID i) s0 s.
Proof. intros Hw. exact (ent_touched _ _ _ _ _ (wk_entered _ _ _ _ _ Hw)). Qed.
Lemma working_framed s0 i n v s :
  working s0 i n v s → wf s ∧ refs_ok s ∧ framed (Build_ProcessContext i n v) s.
Proof.
  intros Hw. pose proof (working_touched _ _ _ _ _ Hw) as Ht.
  split; [exact (tch_wf _ _ _ Ht)|]. split; [exact (tch_refs _ _ _ Ht)|].
  apply (entered_framed s0). exact (wk_entered _ _ _ _ _ Hw).
Qed.
Lemma working_inFrame s0 i n v s s' :
  working s0 i n v s → inFrame (Build_ProcessContext i n v) s s' → working s0 i n v s'.
Proof.
  intros Hw Hf. destruct (working_framed _ _ _ _ _ Hw) as (Hwf & Hr & Hfr).
  destruct (Hf Hwf Hr Hfr) as ((Ht & _) & Hv & Hi & Ho).
  destruct Hw as [[Ht0 Hrow Hvis Honly Hopen Hnode] Hcur Hst]. constructor; [constructor| |done].
  - by eapply touched_trans.
  - by rewrite Hi.
  - by rewrite Hv.
  - by rewrite Hv.
  - by apply Ho.
  - by rewrite (ev_nodes _ _ (tch_evolves _ _ _ Ht)).
  - by rewrite Hi.
Qed.
(** Waiting is being in order. *)
Lemma working_settled s0 i n v s : working s0 i n v s → settled s0 (Instance_ID i) i s.
Proof.
  intros [[Ht _ (Hv & HvI & Hvn & Hva) Honly Hopen _] (row & Hrow & Hid & Hst & Hcur) Hi].
  constructor; [done|done|]. exists row. split; [done|]. split; [done|]. split; [congruence|].
  unfold inst_ok. rewrite Hst, Hid. exists (FlowNode_ID n). split; [done|].
  exists v. split; [apply elem_of_tselect; by rewrite bool_decide_eq_true|].
  split; [done|]. split; [done|]. split; [|done].
  intros r [HI Hr]%elem_of_tselect Ha. apply bool_decide_eq_true in HI. by apply Honly.
Qed.
(** A concluded node leaves the instance ready to advance. *)
Lemma working_ready s0 i n v s st u s' :
  working s0 i n v s → noneOpen (Build_ProcessContext i n v) s → st ≠ NodeVisitActive →
  ConcludeActiveNodeVisit (Instance_ID i) (FlowNode_ID n) st s = Ok (u, s') →
  touched (Instance_ID i) s0 s' ∧ ready s' i.
Proof.
  intros [He _ Hi] Hno Hne Hrun.
  destruct (conclude_working _ _ _ _ _ _ _ _ He Hno Hne Hrun) as (Ht & Hq & Hk & His).
  split; [done|]. constructor; [exact (tch_wf _ _ _ Ht)|exact (tch_refs _ _ _ Ht)| |done|done].
  rewrite His. apply (ent_row _ _ _ _ _ He).
Qed.
End working.

(** ** Settling *)
Section settling.
Context `{!Host}.

Lemma settled_weaken s0 s1 I i s2 : touched I s0 s1 → settled s1 I i s2 → settled s0 I i s2.
Proof. intros Ht [Ht2 Hid Hrow]. constructor; [by eapply touched_trans|done|done]. Qed.
Lemma AdvanceToNextNode_settled i n b s i' s' :
  ready s i → AdvanceToNextNode i n b s = Ok (i', s') → settled s (Instance_ID i) i' s'.
Proof. eapply advanceWith_settled. intros. by eapply ProcessNodeFuel_settled. Qed.
Lemma StartProcess_settled i s i' s' :
  ready s i → StartProcess i s = Ok (i', s') → settled s (Instance_ID i) i' s'.
Proof.
  intros Hrdy Hrun. unfold StartProcess in Hrun. step Hrun as c s1 Hc.
  pose proof (FlowCache_Get_nodes _ _ _ _ Hc) as [_ Hst].
  apply FlowCache_Get_same in Hc as ->. destruct (cf_StartNode c) as [n|]; [|done].
  destruct (Hst n) as [? ?]; [done|]. by eapply ProcessNodeFuel_settled.
Qed.

Lemma settled_sideOnly s I i s1 s2 : settled s I i s1 → sideOnly I s1 s2 → settled s I i s2.
Proof. intros Hs (Ht & Hk & Hv & Hi). by eapply settled_extend. Qed.
End settling.

Section completion.
Context `{!Host}.

Lemma sideOnly_NewInstanceCompletedEvent I i st : keeps (sideOnly I) (NewInstanceCompletedEvent i st).
Proof. unfold NewInstanceCompletedEvent. keeps_tac. Qed.
Lemma sideOnly_SyncInstanceProjection I i : keeps (sideOnly I) (SyncInstanceProjection i).
Proof. apply keeps_SyncInstanceProjection; eauto with keeps typeclass_instances. Qed.
Hint Resolve sideOnly_NewInstanceCompletedEvent sideOnly_SyncInstanceProjection : keeps.

Lemma inFrame_TriggerNodeCC pc i n r : keeps (inFrame pc) (TriggerNodeCC i n r).
Proof.
  unfold TriggerNodeCC, FindActiveNodeVisit, orThrow, InsertAutoCCRecords. keeps_tac.
Qed.
Lemma EvaluateNodeCompletion_same i n s r s' : EvaluateNodeCompletion i n s = Ok (r, s') → s' = s.
Proof.
  unfold EvaluateNodeCompletion, FindActiveNodeVisit, orThrow. intros Hrun.
  step Hrun as v s1 Hv. step Hv as o s2 Ho. injection Ho as _ <-. destruct o; [|done].
  injection Hv as _ <-. step Hrun as ts s3 Hg. injection Hg as _ <-. unfold liftR in Hrun.
  destruct (evaluatePassRule _ _); [by injection Hrun as _ ->|done].
Qed.

(** The node is left: copies are sent, open work is cancelled, the visit ends. *)
Lemma leaveNode s0 i n v s r reason st (k : list DomainEvent → M (Instance * list DomainEvent)) out s' :
  working s0 i n v s → st ≠ NodeVisitActive →
  (TriggerNodeCC i n r;;
   canceledEvents ← CancelRemainingTasks i n reason;
   EmitEvents canceledEvents;;
   ConcludeActiveNodeVisit (Instance_ID i) (FlowNode_ID n) st;;
   k canceledEvents) s = Ok (out, s') →
  ∃ evs s1, touched (Instance_ID i) s0 s1 ∧ ready s1 i ∧ k evs s1 = Ok (out, s') ∧
    ∃ v', v' ∈ db_visits s1 ∧ NodeVisit_ID v' = NodeVisit_ID v ∧ NodeVisit_Status v' = st.
Proof.
  intros Hwk Hst Hrun. step Hrun as u1 s1 H1.
  pose proof (working_inFrame _ _ _ _ _ _ Hwk (inFrame_TriggerNodeCC _ _ _ _ _ _ _ H1)) as Hwk1.
  step Hrun as evs s2 H2. set (pc := Build_ProcessContext i n v).
  destruct (CancelRemainingTasks_closes pc _ _ _ _ H2) as [Hf2 Hno2].
  specialize (Hno2 (ent_open _ _ _ _ _ (wk_entered _ _ _ _ _ Hwk1))).
  pose proof (working_inFrame _ _ _ _ _ _ Hwk1 Hf2) as Hwk2.
  step Hrun as u3 s3 H3.
  pose proof (working_inFrame _ _ _ _ _ _ Hwk2 (inFrame_EmitEvents _ _ _ _ _ H3)) as Hwk3.
  assert (noneOpen pc s3) as Hno3.
  { intros t. unfold tasksOf. destruct s2; injection H3 as ? ?; subst. apply Hno2. }
  step Hrun as u4 s4 H4.
  destruct (working_ready _ _ _ _ _ _ _ _ Hwk3 Hno3 Hst H4) as [Ht4 Hrdy].
  exists evs, s4. split; [done|]. split; [done|]. split; [done|].
  destruct (ConcludeActiveNodeVisit_Ok _ _ _ _ _ _ H4) as (_ & _ & _ & now & Hvs).
  destruct (ent_visit _ _ _ _ _ (wk_entered _ _ _ _ _ Hwk3)) as (Hv & HvI & Hvn & Hva).
  exists (stampVisit now st v). rewrite Hvs. split; [|by destruct v]. apply elem_of_tupdate. exists v.
  split; [done|]. unfold visitIsActiveAt. rewrite HvI, Hvn, !bool_decide_eq_true_2 by done.
  unfold isActive in Hva. by rewrite Hva.
Qed.

(** A running instance between two nodes that is closed for good. *)
Lemma closeReady_settled s0 s1 i to cols s2 s3 now i' :
  touched (Instance_ID i) s0 s1 → ready s1 i → to ≠ InstanceRunning → Now s1 = Ok (now, s2) →
  ApplyInstanceTransitionWithHooks (set_Instance_FinishedAt (Some now) i) to cols s2 = Ok (i', s3) →
  settled s0 (Instance_ID i) i' s3.
Proof.
  intros Ht Hrdy Hto Hnow Hrun.
  assert (Instance_ID (set_Instance_FinishedAt (Some now) i) = Instance_ID i) as Hid by (by destruct i).
  destruct (sideOnly_Now (Instance_ID i) _ _ _ Hnow) as (Htch & Hk & Hv & Hi).
  destruct (Htch (rdy_wf _ _ Hrdy) (rdy_refs _ _ Hrdy) (ready_known _ _ Hrdy)) as [Ht2 Hk2].
  rewrite <-Hid. eapply transition_settled; [| | |exact Hto|exact Hrun]; rewrite ?Hid.
  - by eapply touched_trans.
  - destruct (rdy_quiet _ _ Hrdy). unfold quiet, visitsOf, tasksOf in *. by rewrite Hk, Hv.
  - done.
Qed.

Lemma HandleNodeCompletion_settled s0 i n v s out s' :
  working s0 i n v s → HandleNodeCompletion i n s = Ok (out, s') →
  settled s0 (Instance_ID i) out.1 s'.
Proof.
  intros Hwk Hrun. unfold HandleNodeCompletion in Hrun. step Hrun as r s1 H1.
  apply EvaluateNodeCompletion_same in H1 as ->. destruct r.
  - injection Hrun as <- <-. by eapply working_settled.
  - eapply leaveNode in Hrun as (evs & s1 & Ht & Hrdy & Hrun & _); [|done|done].
    step Hrun as i' s2 H2. injection Hrun as <- <-. eapply settled_weaken; [exact Ht|].
    by eapply AdvanceToNextNode_settled.
  - eapply leaveNode in Hrun as (evs & s1 & Ht & Hrdy & Hrun & _); [|done|done].
    step Hrun as now s2 H2. step Hrun as i' s3 H3.
    eapply closeReady_settled in H3; [|exact Ht|exact Hrdy|done|exact H2].
    step Hrun as c s4 H4. step Hrun as u s5 H5. injection Hrun as <- <-.
    eapply settled_sideOnly; [exact H3|].
    etrans; [by eapply sideOnly_NewInstanceCompletedEvent|by eapply sideOnly_EmitEvents].
Qed.

(** Writing the form data back. *)
Lemma PersistInstanceFormData_settled s I i s1 u s2 :
  settled s I i s1 → PersistInstanceFormData i s1 = Ok (u, s2) → settled s I i s2.
Proof.
  intros [Ht Hid (row & Hrow & Hrid & Hst & Hok)] Hrun. unfold PersistInstanceFormData in Hrun.
  step Hrun as c s3 H3. injection Hrun as _ <-. injection H3 as _ <-. rewrite Hid.
  set (f := copyCols _ _). set (p := λ r, Instance_ID r ==? I).
  assert (touches I s1 (upd_instances (tupdate p f) s1)) as Htch.
  { apply touches_instances_in. intros r _ Hp%bool_decide_eq_true. split; [done|]. apply copyCols_keeps. }
  assert (instancesOf s1 I ≠ []) as Hk.
  { intros Hnil. unfold instancesOf in Hnil. rewrite tselect_nil in Hnil.
    specialize (Hnil row Hrow). by apply bool_decide_eq_false in Hnil. }
  destruct (Htch (tch_wf _ _ _ Ht) (tch_refs _ _ _ Ht) Hk) as [Ht2 _].
  constructor; [by eapply touched_trans|done|]. exists (f row).
  destruct (copyCols_keeps i [ColFormData] row) as (Hfi & Hfs & _). fold f in Hfi, Hfs.
  split; [|split; [congruence|split; [congruence|]]].
  - destruct s1; cbn in *. apply elem_of_tupdate. exists row. split; [done|].
    unfold p. by rewrite bool_decide_eq_true_2.
  - unfold inst_ok in *. rewrite Hfs, Hfi.
    assert (Instance_CurrentNodeID (f row) = Instance_CurrentNodeID row) as -> by (by destruct row).
    unfold seated, quiet, openAt, visitsOf, tasksOf in *. by destruct s1.
Qed.
End completion.
#[export] Hint Resolve sideOnly_NewInstanceCompletedEvent sideOnly_SyncInstanceProjection : keeps.
