(* ===== verification/CommandInv.v ===== *)
(** * The commands keep the visit discipline

    Each command handler, run from a disciplined store, either fails (and the
    transaction leaves no trace) or reaches a disciplined store to which the
    former evolved, having touched the rows of one instance only. *)
From S2P Require Import Prelude Enums StateMachine Models Demo Store Shared FormValidation FormStorage Delegation Binding.
From S2P Require Import PassRule Processors Engine Tenancy TaskService NodeService Commands Discipline EngineInv Traversal.
From S2P Require Import ServiceInv.

(** ** Loading *)
Section loading.
Context `{!Host}.

(** What a loaded task context guarantees. *)
Record loaded (s : St) (taskID : string) (o : TaskContextLoadOptions) (tc : TaskContext) : Prop := {
  ld_task : tc_Task tc ∈ db_tasks s ∧ Task_ID (tc_Task tc) = taskID;
  ld_instance : tc_Instance tc ∈ db_instances s ∧
                Instance_ID (tc_Instance tc) = Task_InstanceID (tc_Task tc);
  ld_running : Instance_Status (tc_Instance tc) = InstanceRunning;
  ld_assignee : opt_RequireOperatorAssignee o = true → Task_AssigneeID (tc_Task tc) = opt_OperatorID o;
  ld_pending : opt_RequireTaskPending o = true → Task_Status (tc_Task tc) = TaskPending;
  ld_current : opt_RequireCurrentNode o = true →
               Instance_CurrentNodeID (tc_Instance tc) = Some (Task_NodeID (tc_Task tc));
  ld_node : tc_Node tc ∈ db_nodes s ∧ FlowNode_ID (tc_Node tc) = Task_NodeID (tc_Task tc);
  ld_access : AllowsInstanceAccess (opt_Caller o) (Instance_ID (tc_Instance tc))
                (Instance_TenantID (tc_Instance tc)) (opt_OperatorID o) s = Ok (true, s);
}.

Lemma reads_AllowsInstanceAccess c i t u : keeps eq (AllowsInstanceAccess c i t u).
Proof. unfold AllowsInstanceAccess, isRoutedTo. keeps_tac. Qed.
Lemma orThrow_gets_Ok {A} e (f : St → option A) s a s' :
  orThrow e (gets f) s = Ok (a, s') → f s = Some a ∧ s' = s.
Proof.
  unfold orThrow. intros Hrun. step Hrun as o s1 Ho. injection Ho as <- <-.
  destruct (f s); [|done]. by injection Hrun as -> ->.
Qed.

Lemma findBy_Ok {Row} (key : Row → string) id (t : list Row) r :
  tfirst (λ x, key x ==? id) t = Some r → r ∈ t ∧ key r = id.
Proof. intros [Hin Hp]%tfirst_Some. by apply bool_decide_eq_true in Hp. Qed.

Lemma LoadTaskContext_loaded taskID o s tc s' :
  LoadTaskContextForNodeOperation taskID o s = Ok (tc, s') → s' = s ∧ loaded s taskID o tc.
Proof.
  unfold LoadTaskContextForNodeOperation, findTask, findInstance, findNode. intros Hrun.
  step Hrun as t0 s1 Ht0. apply orThrow_gets_Ok in Ht0 as [Ht0 ->].
  step Hrun as i s2 Hi. apply orThrow_gets_Ok in Hi as [Hi ->].
  step Hrun as allowed s3 Ha. pose proof (reads_AllowsInstanceAccess _ _ _ _ _ _ _ Ha) as <-.
  step Hrun as u1 s4 H1. apply throwIf_Ok in H1 as [Hal ->]. apply negb_false_iff in Hal. subst allowed.
  step Hrun as t s5 Ht. apply orThrow_gets_Ok in Ht as [Ht ->].
  assert (t0 = t) as -> by congruence.
  step Hrun as u2 s6 H2. apply throwIf_Ok in H2 as [Hrun1 ->].
  step Hrun as u3 s7 H3. apply throwIf_Ok in H3 as [Hasg ->].
  step Hrun as u4 s8 H4. apply throwIf_Ok in H4 as [Hpen ->].
  step Hrun as u5 s9 H5. apply throwIf_Ok in H5 as [Hcur ->].
  step Hrun as n s10 Hn. apply orThrow_gets_Ok in Hn as [Hn ->]. injection Hrun as <- <-.
  split; [done|]. apply findBy_Ok in Ht as [Ht Htid]. apply findBy_Ok in Hi as [Hi Hiid].
  apply findBy_Ok in Hn as [Hn Hnid]. constructor; cbn; auto.
  - by apply negb_false_iff, bool_decide_eq_true in Hrun1.
  - intros Ho. rewrite Ho in Hasg. by apply negb_false_iff, bool_decide_eq_true in Hasg.
  - intros Ho. rewrite Ho in Hpen. by apply negb_false_iff, bool_decide_eq_true in Hpen.
  - intros Ho. rewrite Ho in Hcur. by apply negb_false_iff, bool_decide_eq_true in Hcur.
Qed.

(** The open work of a running instance is at its current node. *)
Lemma loaded_working s taskID o tc :
  disciplined s → loaded s taskID o tc →
  opt_RequireCurrentNode o = true ∨ opt_RequireTaskPending o = true →
  ∃ v, working s (tc_Instance tc) (tc_Node tc) v s.
Proof.
  intros [Hw Hr Hinst] Hld Hopt. destruct (ld_instance _ _ _ _ Hld) as [Hi Hid].
  pose proof (Hinst _ Hi) as Hok. unfold inst_ok in Hok. rewrite (ld_running _ _ _ _ Hld) in Hok.
  destruct Hok as (n & Hcur & v & Hv & Hact & Hvn & Honly & Hopen).
  destruct (ld_task _ _ _ _ Hld) as [Ht _]. destruct (ld_node _ _ _ _ Hld) as [Hnd Hnode].
  assert (FlowNode_ID (tc_Node tc) = n) as Hn.
  { destruct Hopt as [Ho|Ho].
    - pose proof (ld_current _ _ _ _ Hld Ho). congruence.
    - pose proof (ld_pending _ _ _ _ Hld Ho) as Hp. rewrite Hnode.
      apply (Hopen (tc_Task tc)); [|by unfold isOpen; rewrite Hp].
      apply elem_of_tselect. by rewrite bool_decide_eq_true. }
  apply elem_of_tselect in Hv as [HvI Hv]. apply bool_decide_eq_true in HvI.
  exists v. constructor; [constructor| |exact (ld_running _ _ _ _ Hld)].
  - apply (touches_preorder (Instance_ID (tc_Instance tc))); auto.
    rewrite Hid. by apply (refs_tasks _ Hr).
  - exists (tc_Instance tc). split_and!; [done|done|exact (ld_running _ _ _ _ Hld)|done].
  - split; [done|]. split; [done|]. split; [congruence|done].
  - intros r Hrin HI Ha. apply Honly; [|done]. apply elem_of_tselect. by rewrite bool_decide_eq_true.
  - by rewrite Hn.
  - done.
  - exists (tc_Instance tc). split; [done|]. split; [done|].
    split; [exact (ld_running _ _ _ _ Hld)|congruence].
Qed.

Lemma working_instance s0 i i' n v s :
  Instance_ID i' = Instance_ID i → Instance_Status i' = Instance_Status i →
  Instance_FlowVersionID i' = Instance_FlowVersionID i → working s0 i n v s → working s0 i' n v s.
Proof.
  intros Hid Hst Hver [[H1 H2 H3 H4 H5 H5'] H6 H7].
  constructor; [constructor|..]; rewrite ?Hid, ?Hver; auto. congruence.
Qed.

Lemma MergeFormData_id i fd perms :
  Instance_ID (MergeFormData i fd perms) = Instance_ID i ∧
  Instance_Status (MergeFormData i fd perms) = Instance_Status i ∧
  Instance_FlowVersionID (MergeFormData i fd perms) = Instance_FlowVersionID i.
Proof. unfold MergeFormData. by case_bool_decide; [|destruct i]. Qed.

(** A prepared operation is a loaded one with the edits merged in memory. *)
Lemma PrepareOperation_loaded taskID op caller fd s tc s' :
  PrepareOperation taskID op caller fd s = Ok (tc, s') →
  s' = s ∧ ∃ tc0, loaded s taskID
    (Build_TaskContextLoadOptions (UserInfo_ID op) true true true caller) tc0 ∧
    tc_Instance tc = MergeFormData (tc_Instance tc0) fd (FlowNode_FieldPermissions (tc_Node tc0)) ∧
    tc_Task tc = tc_Task tc0 ∧ tc_Node tc = tc_Node tc0.
Proof.
  unfold PrepareOperation. intros Hrun. step Hrun as tc0 s1 H1.
  apply LoadTaskContext_loaded in H1 as [-> Hld].
  step Hrun as fields s2 H2. assert (s2 = s) as ->.
  { destruct (0 <? _)%nat; [|by injection H2 as _ <-]. step H2 as v s3 H3.
    apply orThrow_gets_Ok in H3 as [_ ->]. by injection H2 as _ <-. }
  assert (∀ (r : res unit) a s3, liftR r s = Ok (a, s3) → s3 = s) as Hlift.
  { intros r a s3. unfold liftR. destruct r; [by intros [= _ <-]|done]. }
  step Hrun as u3 s3 H3. apply Hlift in H3 as ->. step Hrun as u4 s4 H4. apply Hlift in H4 as ->.
  step Hrun as b s5 H5. step Hrun as a s6 H6. step Hrun as u s7 H7.
  apply throwIf_Ok in H7 as [_ ->]. injection Hrun as <- <-.
  assert (s6 = s5 ∧ s5 = s) as [-> ->].
  { unfold liftR in H5, H6. destruct (encodedFormDataSize _); [|done]. injection H5 as _ <-.
    destruct (encodedFormDataSize (Instance_FormData (MergeFormData _ _ _))); [|done].
    by injection H6 as _ <-. }
  split; [done|]. exists tc0. done.
Qed.
End loading.

(** ** Orderly transactions *)
Section orderly.
Context `{!Host}.

(** A successful run keeps the discipline, only moves the store forward, and
    leaves the rows of all instances but one alone. *)
Definition orderly {A} (m : M A) : Prop := ∀ s a s',
  disciplined s → m s = Ok (a, s') →
  disciplined s' ∧ evolves s s' ∧ ∃ I, othersSame I s s'.

Lemma inst_ok_others I s s' i :
  othersSame I s s' → Instance_ID i ≠ I → inst_ok s i → inst_ok s' i.
Proof.
  intros Ho Hne. destruct (Ho _ Hne) as (Ht & Hv & _). unfold inst_ok, seated, quiet, openAt.
  by rewrite Ht, Hv.
Qed.
Lemma settled_others s I i s' :
  (∀ j, j ∈ db_instances s → Instance_ID j ≠ I → inst_ok s j) → settled s I i s' → disciplined s'.
Proof.
  intros Hin [Ht _ (row & Hrow & Hid & _ & Hok)].
  constructor; [exact (tch_wf _ _ _ Ht)|exact (tch_refs _ _ _ Ht)|].
  intros j Hj. destruct (decide (Instance_ID j = I)) as [Hj'|Hj'].
  - rewrite (instance_row_unique _ _ _ (tch_wf _ _ _ Ht) Hj Hrow); [done|congruence].
  - pose proof (tch_others _ _ _ Ht) as Ho. eapply inst_ok_others; [exact Ho|done|].
    apply Hin; [|done]. destruct (Ho _ Hj') as (_ & _ & Hinst).
    assert (j ∈ instancesOf s (Instance_ID j)) as Hjs.
    { rewrite <-Hinst. apply elem_of_tselect. by rewrite bool_decide_eq_true. }
    by apply elem_of_tselect in Hjs as [_ ?].
Qed.
Lemma settled_orderly s I i s' :
  disciplined s → settled s I i s' → disciplined s' ∧ evolves s s' ∧ ∃ J, othersSame J s s'.
Proof.
  intros Hd Hs. split; [|split].
  - eapply settled_others; [|exact Hs]. intros j Hj _. by apply (disc_inst _ Hd).
  - exact (tch_evolves _ _ _ (stl_touched _ _ _ _ Hs)).
  - exists I. exact (tch_others _ _ _ (stl_touched _ _ _ _ Hs)).
Qed.
Lemma orderly_reads {A} (m : M A) : keeps eq m → orderly m.
Proof.
  intros Hm s a s' Hd Hrun. rewrite <-(Hm _ _ _ Hrun). split; [done|]. split; [reflexivity|].
  by exists "".
Qed.
Lemma orderly_runInTx {A} (m : M A) s r s' :
  orderly m → disciplined s → runInTx m s = (r, s') → disciplined s' ∧ evolves s s'.
Proof.
  unfold runInTx. intros Hm Hd. destruct (m s) as [[a s1]|e] eqn:Hrun; intros [=]; subst.
  - by destruct (Hm _ _ _ Hd Hrun) as (? & ? & _).
  - by split.
Qed.
End orderly.

(** ** Handlers that finish a task *)
Section decisions.
Context `{!Host}.

(** Statuses that ask nobody to act. *)
Definition closing (st : TaskStatus) : bool :=
  match st with TaskPending | TaskWaiting => false | _ => true end.

(** The prefix they share: a task of the open visit is closed. *)
Lemma finish_working s0 i n v s task st t' s' :
  working s0 i n v s → task ∈ db_tasks s → Task_InstanceID task = Instance_ID i →
  FinishTask task st s = Ok (t', s') → closing st = true →
  working s0 i n v s' ∧ ownTask (Build_ProcessContext i n v) s' t' ∧ t' ∈ db_tasks s'.
Proof.
  intros Hwk Ht HI Hrun Hcl. destruct (working_framed _ _ _ _ _ Hwk) as (Hw & Hr & Hfr).
  set (pc := Build_ProcessContext i n v) in *.
  assert (ownTask pc s task) as Hown by (by apply ownTask_intro).
  destruct (FinishTask_Ok pc _ _ _ _ _ Hrun) as (_ & now & Heq & _ & Hrows & Hf).
  assert (inFrame pc s s') as Hfr'.
  { apply Hf; [apply Hown|]. subst t'. destruct task, st; done. }
  split; [by eapply working_inFrame|]. split.
  - destruct (ownTask_inFrame pc _ _ _ Hw Hr Hfr Hfr' Hown) as [H1 H2].
    subst t'. destruct task; by constructor.
  - rewrite Hrows, Heq. apply elem_of_tupdate. exists task. by rewrite !bool_decide_eq_true_2.
Qed.
Lemma settleNode_settled s0 i n v s evs i' s' :
  working s0 i n v s → settleNode i n evs s = Ok (i', s') → settled s0 (Instance_ID i) i' s'.
Proof.
  intros Hwk Hrun. unfold settleNode in Hrun. destruct (SplitQueueAdvanceDecisions evs) as [ds acts].
  step Hrun as u1 s1 H1.
  pose proof (working_inFrame _ _ _ _ _ _ Hwk (inFrame_EmitEvents _ _ _ _ _ H1)) as Hwk1.
  step Hrun as c s2 H2. pose proof (HandleNodeCompletion_settled _ _ _ _ _ _ _ Hwk1 H2) as Hs2.
  step Hrun as u3 s3 H3. injection Hrun as <- <-.
  eapply settled_sideOnly; [exact Hs2|by eapply sideOnly_EmitEvents].
Qed.
Lemma prepared_working s taskID op caller fd tc s' :
  disciplined s → PrepareOperation taskID op caller fd s = Ok (tc, s') →
  s' = s ∧ (∃ v, working s (tc_Instance tc) (tc_Node tc) v s) ∧
  tc_Task tc ∈ db_tasks s ∧ Task_InstanceID (tc_Task tc) = Instance_ID (tc_Instance tc) ∧
  Task_Status (tc_Task tc) = TaskPending ∧ FlowNode_ID (tc_Node tc) = Task_NodeID (tc_Task tc).
Proof.
  intros Hd (-> & tc0 & Hld & Hi & Ht & Hn)%PrepareOperation_loaded. split; [done|].
  destruct (loaded_working _ _ _ _ Hd Hld) as (v & Hwk); [by left|].
  destruct (MergeFormData_id (tc_Instance tc0) fd (FlowNode_FieldPermissions (tc_Node tc0))) as (Hid & Hst & Hver).
  rewrite Ht, Hn, Hi. split; [exists v; by eapply working_instance|].
  destruct (ld_task _ _ _ _ Hld) as [? _]. destruct (ld_instance _ _ _ _ Hld) as [_ ?].
  destruct (ld_node _ _ _ _ Hld) as [_ ?].
  split; [done|]. split; [congruence|]. split; [by apply (ld_pending _ _ _ _ Hld)|done].
Qed.

(** The suffix of an approval or rejection. *)
Lemma decide_settled s0 i n v s t u s' (log : Instance → ActionLog) evs :
  working s0 i n v s → ownTask (Build_ProcessContext i n v) s t →
  (EmitEvents evs;;
   activationEvents ← ActivateDependentTasks i n t;
   instance ← settleNode i n activationEvents;
   addActionLog (log instance);;
   PersistInstanceFormData instance;;
   SyncInstanceProjection instance) s = Ok (u, s') →
  ∃ i', settled s0 (Instance_ID i) i' s'.
Proof.
  intros Hwk Hown Hrun. set (pc := Build_ProcessContext i n v) in *. step Hrun as u1 s1 H1.
  pose proof (inFrame_EmitEvents pc _ _ _ _ H1) as Hf1.
  destruct (working_framed _ _ _ _ _ Hwk) as (Hw & Hr & Hfr).
  pose proof (working_inFrame _ _ _ _ _ _ Hwk Hf1) as Hwk1.
  pose proof (ownTask_inFrame pc _ _ _ Hw Hr Hfr Hf1 Hown) as Hown1.
  step Hrun as acts s2 H2.
  pose proof (working_inFrame _ _ _ _ _ _ Hwk1 (ActivateDependentTasks_inFrame pc _ _ _ _ Hown1 H2)) as Hwk2.
  step Hrun as i' s3 H3. pose proof (settleNode_settled _ _ _ _ _ _ _ _ Hwk2 H3) as Hs3.
  exists i'. step Hrun as u4 s4 H4.
  pose proof (settled_sideOnly _ _ _ _ _ Hs3 (sideOnly_addActionLog _ _ _ _ _ H4)) as Hs4.
  step Hrun as u5 s5 H5. pose proof (PersistInstanceFormData_settled _ _ _ _ _ _ Hs4 H5) as Hs5.
  eapply settled_sideOnly; [exact Hs5|by eapply sideOnly_SyncInstanceProjection].
Qed.

Lemma orderly_ApproveTask cmd : orderly (ApproveTaskHandler_Handle cmd).
Proof.
  intros s a s' Hd Hrun. unfold ApproveTaskHandler_Handle in Hrun. step Hrun as tc s1 H1.
  destruct (prepared_working _ _ _ _ _ _ _ Hd H1) as (-> & (v & Hwk) & Ht & HI & Hst & _).
  step Hrun as u2 s2 H2. apply liftR_Ok in H2 as [_ ->].
  step Hrun as u3 s3 H3. apply liftR_Ok in H3 as [_ ->].
  step Hrun as t s4 H4.
  eapply finish_working in H4 as (Hwk4 & Hown4 & _); [|done..|by case_bool_decide].
  eapply decide_settled in Hrun as (i' & Hs); [|done|done]. by eapply settled_orderly.
Qed.
Lemma orderly_RejectTask cmd : orderly (RejectTaskHandler_Handle cmd).
Proof.
  intros s a s' Hd Hrun. unfold RejectTaskHandler_Handle in Hrun. step Hrun as tc s1 H1.
  destruct (prepared_working _ _ _ _ _ _ _ Hd H1) as (-> & (v & Hwk) & Ht & HI & Hst & _).
  step Hrun as u2 s2 H2. apply liftR_Ok in H2 as [_ ->].
  step Hrun as t s4 H4. eapply finish_working in H4 as (Hwk4 & Hown4 & _); [|done..].
  eapply decide_settled in Hrun as (i' & Hs); [|done|done]. by eapply settled_orderly.
Qed.
End decisions.

(** ** Handlers that replace or add assignees *)
Section seats.
Context `{!Host}.

(** A pending task of the current node belongs to the open visit. *)
Lemma working_open s0 i n v s t :
  working s0 i n v s → t ∈ db_tasks s → Task_InstanceID t = Instance_ID i → isOpen t = true →
  Task_VisitID t = NodeVisit_ID v ∧ Task_NodeID t = FlowNode_ID n.
Proof.
  intros Hwk Ht HI Ho. apply (ent_open _ _ _ _ _ (wk_entered _ _ _ _ _ Hwk)); [|done].
  apply elem_of_tselect. by rewrite bool_decide_eq_true.
Qed.

Lemma RepointAddAssigneeChildren_inFrame pc from to old new s u s' :
  wf s → refs_ok s → old ∈ db_tasks s → Task_ID old = from → new ∈ db_tasks s → Task_ID new = to →
  Task_InstanceID new = Instance_ID (pc_Instance pc) → Task_VisitID new = Task_VisitID old →
  RepointAddAssigneeChildren from to (Instance_ID (pc_Instance pc)) s = Ok (u, s') →
  inFrame pc s s'.
Proof.
  intros Hw Hr Hold Hfrom Hnew Hto HI HV Hrun. unfold RepointAddAssigneeChildren in Hrun.
  step Hrun as k s1 Hu. injection Hu as _ <-. injection Hrun as _ <-.
  apply inFrame_tasks; [|by intros []|by intros []].
  apply touches_tasks_in. intros t Ht [[HtI Hpar]%andb_true_iff _]%andb_true_iff.
  apply bool_decide_eq_true in HtI, Hpar. split; [done|].
  split; [destruct t; repeat split; reflexivity|]. right. intros p Hp.
  assert (p = to) as -> by (destruct t; cbn in Hp; congruence).
  destruct (refs_parent _ Hr t Ht _ Hpar) as (old' & Hold' & Hid' & _ & HV').
  assert (old' = old) as -> by (eapply task_row_unique; eauto; congruence).
  exists new. split; [done|]. split; [done|]. destruct t; cbn in *. split; congruence.
Qed.

(** A finished task is replaced by a pending one, which adopts its children. *)
Lemma replace_working s0 i n v s t nt new s1 u s2 :
  working s0 i n v s → t ∈ db_tasks s → Task_InstanceID t = Instance_ID i →
  Task_VisitID t = NodeVisit_ID v → Task_NodeID t = FlowNode_ID n →
  Task_InstanceID nt = Instance_ID i → Task_VisitID nt = Task_VisitID t →
  Task_NodeID nt = Task_NodeID t → Task_ParentTaskID nt = Task_ParentTaskID t →
  insertTask nt s = Ok (new, s1) →
  RepointAddAssigneeChildren (Task_ID t) (Task_ID new) (Instance_ID i) s1 = Ok (u, s2) →
  working s0 i n v s2.
Proof.
  intros Hwk Ht HI HV HN HnI HnV HnN HnP Hins Hrep.
  set (pc := Build_ProcessContext i n v).
  destruct (working_framed _ _ _ _ _ Hwk) as (Hw & Hr & Hf).
  assert (inFrame pc s s1) as Hf1.
  { eapply inFrame_insertTask_ref; [..|exact Hins];
      [done|cbn; congruence|cbn; congruence| |cbn; rewrite <-HN; by apply (refs_work _ Hr)].
    intros p Hp. rewrite HnP in Hp. destruct (refs_parent _ Hr t Ht p Hp) as (p' & ? & ? & ? & ?).
    exists p'. split; [done|]. split; [done|]. split; congruence. }
  pose proof (working_inFrame _ _ _ _ _ _ Hwk Hf1) as Hwk1.
  destruct (working_framed _ _ _ _ _ Hwk1) as (Hw1 & Hr1 & _).
  apply insertTask_Ok in Hins as (Hnew & Hts & _).
  eapply working_inFrame; [exact Hwk1|].
  eapply (RepointAddAssigneeChildren_inFrame pc _ _ t new); [..|exact Hrep]; try done.
  - rewrite Hts. set_solver.
  - rewrite Hts. set_solver.
  - subst new. by destruct nt.
  - subst new. by destruct nt.
Qed.

Lemma orderly_TransferTask cmd : orderly (TransferTaskHandler_Handle cmd).
Proof.
  intros s a s' Hd Hrun. unfold TransferTaskHandler_Handle in Hrun. step Hrun as tc s1 H1.
  destruct (prepared_working _ _ _ _ _ _ _ Hd H1) as (-> & (v & Hwk) & Ht & HI & Hst & _).
  assert (isOpen (tc_Task tc) = true) as Hopen by (unfold isOpen; by rewrite Hst).
  destruct (working_open _ _ _ _ _ _ Hwk Ht HI Hopen) as [HV HN].
  step Hrun as u2 s2 H2. apply liftR_Ok in H2 as [_ ->].
  step Hrun as u3 s3 H3. apply throwIf_Ok in H3 as [_ ->].
  step Hrun as u4 s4 H4. apply throwIf_Ok in H4 as [_ ->].
  step Hrun as dup s5 H5. injection H5 as _ <-.
  step Hrun as u6 s6 H6. apply throwIf_Ok in H6 as [_ ->].
  step Hrun as t s7 H7.
  destruct (FinishTask_Ok (Build_ProcessContext (tc_Instance tc) (tc_Node tc) v) _ _ _ _ _ H7)
    as (_ & now & Heq & _).
  eapply finish_working in H7 as (Hwk7 & _ & Ht7); [|done..].
  step Hrun as new s8 H8. step Hrun as u9 s9 H9.
  assert (working s (tc_Instance tc) (tc_Node tc) v s9) as Hwk9.
  { eapply (replace_working _ _ _ _ s7 t); [..|exact H8|exact H9];
      try done; subst t; destruct (tc_Task tc); cbn in *; congruence. }
  pose proof (working_settled _ _ _ _ _ Hwk9) as Hs9. step Hrun as u10 s10 H10.
  pose proof (settled_sideOnly _ _ _ _ _ Hs9 (sideOnly_addActionLog _ _ _ _ _ H10)) as Hs10.
  step Hrun as u11 s11 H11.
  pose proof (PersistInstanceFormData_settled _ _ _ _ _ _ Hs10 H11) as Hs11.
  step Hrun as u12 s12 H12. eapply settled_orderly; [done|]. eapply settled_sideOnly; [exact Hs11|].
  etrans; [by eapply sideOnly_SyncInstanceProjection|by eapply sideOnly_EmitEvents].
Qed.

Lemma orderly_ReassignTask cmd : orderly (ReassignTaskHandler_Handle cmd).
Proof.
  intros s a s' Hd Hrun. unfold ReassignTaskHandler_Handle in Hrun. step Hrun as tc s1 H1.
  apply LoadTaskContext_loaded in H1 as [-> Hld].
  destruct (loaded_working _ _ _ _ Hd Hld) as (v & Hwk); [by right|].
  destruct (ld_task _ _ _ _ Hld) as [Ht _]. destruct (ld_instance _ _ _ _ Hld) as [_ HI].
  step Hrun as u2 s2 H2. apply throwIf_Ok in H2 as [_ ->].
  step Hrun as dup s3 H3. injection H3 as _ <-.
  step Hrun as u4 s4 H4. apply throwIf_Ok in H4 as [_ ->].
  step Hrun as k s5 H5. injection H5 as _ <-.
  set (pc := Build_ProcessContext (tc_Instance tc) (tc_Node tc) v).
  match type of Hrun with _ (upd_tasks ?g s) = _ => assert (inFrame pc s (upd_tasks g s)) as Hf end.
  { apply inFrame_task_step; [by intros []|]. intros t Htin Hid%bool_decide_eq_true.
    rewrite (task_row_unique _ _ _ (disc_wf _ Hd) Htin Ht Hid).
    split; [done|]. destruct (tc_Task tc). split; [reflexivity|done]. }
  pose proof (working_settled _ _ _ _ _ (working_inFrame _ _ _ _ _ _ Hwk Hf)) as Hs.
  step Hrun as u6 s6 H6. eapply settled_orderly; [done|]. eapply settled_sideOnly; [exact Hs|].
  etrans; [by eapply sideOnly_addActionLog|by eapply sideOnly_EmitEvents].
Qed.

(** *** Adding assignees *)

(** The task the new ones are attached to. *)
Definition anchored (i : Instance) (v : NodeVisit) (n id : string) (s : St) : Prop :=
  ∃ t, t ∈ db_tasks s ∧ Task_ID t = id ∧ Task_InstanceID t = Instance_ID i ∧
       Task_VisitID t = NodeVisit_ID v ∧ Task_NodeID t = n.
Lemma anchored_inFrame s0 i n v m id s s' :
  working s0 i n v s → inFrame (Build_ProcessContext i n v) s s' → anchored i v m id s →
  anchored i v m id s'.
Proof.
  intros Hwk Hf (t & Ht & Hid & HI & HV & HN). destruct (working_framed _ _ _ _ _ Hwk) as (Hw & Hr & Hfr).
  destruct (Hf Hw Hr Hfr) as ((Htch & _) & _).
  destruct (table_evolves_elem _ _ _ _ (ev_tasks _ _ (tch_evolves _ _ _ Htch)) Ht)
    as (t' & Ht' & E1 & E2 & E3 & E4 & _).
  exists t'. split; [done|]. split; [congruence|]. split; [congruence|]. split; congruence.
Qed.

(** Making room in the queue moves rows of the open visit only. *)
Lemma shiftQueue_inFrame s0 i n v s vid from k :
  working s0 i n v s → vid = NodeVisit_ID v →
  inFrame (Build_ProcessContext i n v) s (upd_tasks (tupdate
    (λ t, (Task_VisitID t ==? vid) && (from <=? Task_SortOrder t)%Z)
    (λ t, set_Task_SortOrder (Task_SortOrder t + k)%Z t)) s).
Proof.
  intros Hwk ->. destruct (working_framed _ _ _ _ _ Hwk) as (Hw & Hr & Hfr).
  apply inFrame_task_step; [by intros []|]. intros t Ht [HV _]%andb_true_iff.
  apply bool_decide_eq_true in HV. split; [|destruct t; split; [reflexivity|done]].
  destruct (refs_visit _ Hr t Ht) as (v' & Hv' & Hid' & <- & _).
  pose proof (wk_entered _ _ _ _ _ Hwk) as He.
  assert (v' = v) as -> by (eapply entered_visit_row; [exact He|done|congruence]).
  by destruct (ent_visit _ _ _ _ _ He) as (_ & ? & _).
Qed.

Lemma addTasks_working s0 i n v s (mk : nat → string → Task) (evs : Task → list DomainEvent) id l u u' s' :
  working s0 i n v s → anchored i v (FlowNode_ID n) id s →
  (∀ k us, Task_InstanceID (mk k us) = Instance_ID i ∧ Task_VisitID (mk k us) = NodeVisit_ID v ∧
           Task_NodeID (mk k us) = FlowNode_ID n ∧ Task_ParentTaskID (mk k us) = Some id) →
  foldM (λ _ (p : nat * string), newTask ← insertTask (mk p.1 p.2); EmitEvents (evs newTask)) u l s
    = Ok (u', s') →
  working s0 i n v s'.
Proof.
  intros Hwk Han Hmk. revert u s Hwk Han. induction l as [|[k us] l IH]; intros u s Hwk Han Hrun; cbn in Hrun.
  { by injection Hrun as _ <-. }
  step Hrun as u1 s1 H1. step H1 as new s2 H2. destruct (Hmk k us) as (E1 & E2 & E3 & E4).
  assert (inFrame (Build_ProcessContext i n v) s s1) as Hf.
  { etrans; [|by eapply inFrame_EmitEvents]. eapply inFrame_insertTask_ref; [..|exact H2]; try done.
    - intros p Hp. destruct Han as (t & ? & ? & ? & ? & _). exists t. cbn in *. split; [done|].
      split; [congruence|]. split; congruence.
    - destruct Han as (t & Ht & _ & _ & _ & HN). cbn. rewrite <-HN.
      destruct (working_framed _ _ _ _ _ Hwk) as (_ & Hr & _). by apply (refs_work _ Hr). }
  eapply IH; [by eapply working_inFrame|by eapply anchored_inFrame|exact Hrun].
Qed.

Definition statusOf (id : string) (st : TaskStatus) (s : St) : Prop :=
  ∀ row, row ∈ db_tasks s → Task_ID row = id → Task_Status row = st.
Lemma ComputeTaskDeadline_tasks h s d s' :
  ComputeTaskDeadline h s = Ok (d, s') → db_tasks s' = db_tasks s.
Proof.
  unfold ComputeTaskDeadline. case_match; [by intros [= _ <-]|]. destruct s. by intros [= _ <-].
Qed.
Lemma shiftQueue_status id st s p k :
  statusOf id st s →
  statusOf id st (upd_tasks (tupdate p (λ t, set_Task_SortOrder (Task_SortOrder t + k)%Z t)) s).
Proof.
  intros Hst row Hrow Hid.
  assert (∃ r, r ∈ db_tasks s ∧
    row = if p r then set_Task_SortOrder (Task_SortOrder r + k)%Z r else r) as (r & Hr & ->).
  { destruct s; cbn in *. by apply elem_of_tupdate in Hrow. }
  specialize (Hst r Hr). destruct (p r); [destruct r|]; cbn in *; auto.
Qed.

(** A "before" addition suspends its pending anchor. *)
Lemma suspendAnchor_inFrame s0 i n v s task (before : bool) t s' :
  working s0 i n v s → anchored i v (FlowNode_ID n) (Task_ID task) s → Task_NodeID task = FlowNode_ID n →
  Task_VisitID task = NodeVisit_ID v →
  statusOf (Task_ID task) TaskPending s →
  (if before then
     let task := set_Task_Deadline None (set_Task_Status TaskWaiting task) in
     updateTasks (λ t, Task_ID t ==? Task_ID task)
       (λ t, set_Task_Deadline None (set_Task_Status TaskWaiting t));;
     mret task
   else mret task) s = Ok (t, s') →
  inFrame (Build_ProcessContext i n v) s s' ∧ Task_ID t = Task_ID task ∧
  Task_NodeID t = FlowNode_ID n ∧ Task_VisitID t = NodeVisit_ID v.
Proof.
  intros Hwk (t0 & Ht0 & Hid0 & HI0 & _ & _) HN HV Hpen Hrun.
  destruct before; [|injection Hrun as <- <-; split; [reflexivity|done]].
  cbv zeta in Hrun. step Hrun as k s1 H1. injection H1 as _ <-. injection Hrun as <- <-.
  destruct (working_framed _ _ _ _ _ Hwk) as (Hw & _ & _).
  split; [|by destruct task]. apply inFrame_task_step; [by intros []|].
  intros r Hr Hid%bool_decide_eq_true.
  assert (Task_ID r = Task_ID task) as Hid' by (by destruct task).
  pose proof (Hpen r Hr Hid') as Hp. split.
  - rewrite (task_row_unique _ _ _ Hw Hr Ht0); [done|congruence].
  - destruct r; cbn in Hp |- *. subst. split; [by apply rtc_once|done].
Qed.

Lemma orderly_AddAssignee cmd : orderly (AddAssigneeHandler_Handle cmd).
Proof.
  intros s a s' Hd Hrun. unfold AddAssigneeHandler_Handle in Hrun. step Hrun as tc s1 H1.
  apply LoadTaskContext_loaded in H1 as [-> Hld].
  destruct (loaded_working _ _ _ _ Hd Hld) as (v & Hwk); [by left|].
  destruct (ld_task _ _ _ _ Hld) as [Ht _]. destruct (ld_instance _ _ _ _ Hld) as [_ HI].
  pose proof (ld_pending _ _ _ _ Hld eq_refl) as Hpen.
  assert (isOpen (tc_Task tc) = true) as Hopen by (unfold isOpen; by rewrite Hpen).
  destruct (working_open _ _ _ _ _ _ Hwk Ht (eq_sym HI) Hopen) as [HV HN].
  do 5 (let u := fresh "u" in let s2 := fresh "s" in let H2 := fresh "G" in
        step Hrun as u s2 H2; apply throwIf_Ok in H2 as [_ ->]).
  step Hrun as nts s2 H2. injection H2 as _ <-.
  destruct (length _ =? 0)%nat; [injection Hrun as _ <-; by apply orderly_reads with (m := mret tt) (a := tt); [apply keeps_ret, _|..]|].
  set (pc := Build_ProcessContext (tc_Instance tc) (tc_Node tc) v).
  step Hrun as d s3 H3. pose proof (inFrame_ComputeTaskDeadline pc _ _ _ _ H3) as Hf3.
  pose proof (working_inFrame _ _ _ _ _ _ Hwk Hf3) as Hwk3.
  assert (anchored (tc_Instance tc) v (FlowNode_ID (tc_Node tc)) (Task_ID (tc_Task tc)) s) as Han by (by exists (tc_Task tc)).
  pose proof (anchored_inFrame _ _ _ _ _ _ _ _ Hwk Hf3 Han) as Han3.
  assert (statusOf (Task_ID (tc_Task tc)) TaskPending s3) as Hst3.
  { unfold statusOf. rewrite (ComputeTaskDeadline_tasks _ _ _ _ H3). intros r Hr Hid.
    by rewrite (task_row_unique _ _ _ (disc_wf _ Hd) Hr Ht Hid). }
  step Hrun as u4 s4 H4.
  assert (inFrame pc s3 s4 ∧ statusOf (Task_ID (tc_Task tc)) TaskPending s4) as [Hf4 Hst4].
  { case_bool_decide; [|injection H4 as _ <-; split; [reflexivity|done]]. step H4 as k s5 H5.
    injection H5 as _ <-. injection H4 as _ <-.
    split; [by eapply shiftQueue_inFrame|by apply shiftQueue_status]. }
  pose proof (working_inFrame _ _ _ _ _ _ Hwk3 Hf4) as Hwk4.
  pose proof (anchored_inFrame _ _ _ _ _ _ _ _ Hwk3 Hf4 Han3) as Han4.
  step Hrun as t s5 H5.
  assert (inFrame pc s4 s5 ∧ Task_ID t = Task_ID (tc_Task tc) ∧ Task_NodeID t = FlowNode_ID (tc_Node tc) ∧
    Task_VisitID t = NodeVisit_ID v) as (Hf5 & Et1 & Et2 & Et3) by (by eapply suspendAnchor_inFrame).
  pose proof (working_inFrame _ _ _ _ _ _ Hwk4 Hf5) as Hwk5.
  pose proof (anchored_inFrame _ _ _ _ _ _ _ _ Hwk4 Hf5 Han4) as Han5.
  step Hrun as u6 s6 H6.
  eapply (addTasks_working _ _ _ _ _ (addedTask cmd (tc_Instance tc) t _ _ _ _)) in H6;
    [|exact Hwk5|exact Han5|intros; cbn; by rewrite Et1, Et2, Et3].
  pose proof (working_settled _ _ _ _ _ H6) as Hs6. step Hrun as u7 s7 H7.
  eapply settled_orderly; [done|]. eapply settled_sideOnly; [exact Hs6|].
  etrans; [by eapply sideOnly_addActionLog|by eapply sideOnly_EmitEvents].
Qed.

Lemma orderly_RemoveAssignee cmd : orderly (RemoveAssigneeHandler_Handle cmd).
Proof.
  intros s a s' Hd Hrun. unfold RemoveAssigneeHandler_Handle in Hrun. step Hrun as tc s1 H1.
  apply LoadTaskContext_loaded in H1 as [-> Hld].
  destruct (loaded_working _ _ _ _ Hd Hld) as (v & Hwk); [by left|].
  destruct (ld_task _ _ _ _ Hld) as [Ht _]. destruct (ld_instance _ _ _ _ Hld) as [_ HI].
  step Hrun as u2 s2 H2. apply throwIf_Ok in H2 as [_ ->].
  step Hrun as au s3 H3. assert (keeps eq (IsAuthorizedForNodeOperation (Task_InstanceID (tc_Task tc))
    (Task_NodeID (tc_Task tc)) (UserInfo_ID (rem_Operator cmd)))) as Hk.
  { unfold IsAuthorizedForNodeOperation, findInstance, findFlow. keeps_tac. }
  apply Hk in H3 as <-. step Hrun as u4 s4 H4. apply throwIf_Ok in H4 as [_ ->].
  step Hrun as cr s5 H5. assert (keeps eq (CanRemoveAssigneeTask (tc_Node tc) (tc_Task tc))) as Hk2.
  { unfold CanRemoveAssigneeTask. keeps_tac. }
  apply Hk2 in H5 as <-. step Hrun as u6 s6 H6. apply throwIf_Ok in H6 as [_ ->].
  step Hrun as t s7 H7. eapply finish_working in H7 as (Hwk7 & Hown7 & _); [|done..].
  set (pc := Build_ProcessContext (tc_Instance tc) (tc_Node tc) v) in *. step Hrun as acts s8 H8.
  pose proof (working_inFrame _ _ _ _ _ _ Hwk7 (ActivateDependentTasks_inFrame pc _ _ _ _ Hown7 H8)) as Hwk8.
  step Hrun as u9 s9 H9.
  pose proof (working_inFrame _ _ _ _ _ _ Hwk8 (inFrame_addActionLog _ _ _ _ _ H9)) as Hwk9.
  step Hrun as u10 s10 H10.
  pose proof (working_inFrame _ _ _ _ _ _ Hwk9 (inFrame_EmitEvents _ _ _ _ _ H10)) as Hwk10.
  step Hrun as i' s11 H11. injection Hrun as _ <-.
  eapply settled_orderly; [done|]. by eapply settleNode_settled.
Qed.
End seats.
