(* ===== verification/LifecycleInv.v ===== *)
(** * Rolling back, closing, reopening and starting instances

    The handlers that move an instance as a whole keep the visit discipline, as do
    the notices (copies, urges); with [CommandInv] this covers every command, so
    the discipline holds in every reachable store. *)
From S2P Require Import Prelude Enums StateMachine Models Demo Store Shared FormValidation FormStorage Delegation Binding.
From S2P Require Import PassRule Processors Engine Tenancy TaskService NodeService Commands FlowCommands Discipline EngineInv.
From S2P Require Import Traversal ServiceInv CommandInv.

Section ready_moves.
Context `{!Host}.

Lemma ready_instance s i i' :
  Instance_ID i' = Instance_ID i → Instance_Status i' = Instance_Status i →
  Instance_FlowVersionID i' = Instance_FlowVersionID i → ready s i → ready s i'.
Proof. intros Hid Hst Hver [H1 H2 H3 H4 H5]. constructor; rewrite ?Hid, ?Hver; auto. congruence. Qed.
Lemma ready_sideOnly s0 s s' i :
  touched (Instance_ID i) s0 s → ready s i → sideOnly (Instance_ID i) s s' →
  touched (Instance_ID i) s0 s' ∧ ready s' i.
Proof.
  intros Ht Hrdy (Htch & Hk & Hv & Hi).
  destruct (Htch (rdy_wf _ _ Hrdy) (rdy_refs _ _ Hrdy) (ready_known _ _ Hrdy)) as [Ht2 _].
  split; [by eapply touched_trans|]. destruct Hrdy as [_ _ Hrow Hst Hq].
  constructor; [exact (tch_wf _ _ _ Ht2)|exact (tch_refs _ _ _ Ht2)|by rewrite Hi|done|].
  unfold quiet, visitsOf, tasksOf in *. by rewrite Hk, Hv.
Qed.
(** Writing columns other than the status. *)
Lemma ready_updateCols s0 s i i' cols k s' :
  touched (Instance_ID i) s0 s → ready s i → Instance_ID i' = Instance_ID i →
  updateInstanceCols i' cols s = Ok (k, s') →
  touched (Instance_ID i) s0 s' ∧ ready s' i.
Proof.
  intros Ht Hrdy Hid [=]; subst. rewrite Hid. set (p := λ r, Instance_ID r ==? Instance_ID i).
  assert (touches (Instance_ID i) s (upd_instances (tupdate p (copyCols i' cols)) s)) as Htch.
  { apply touches_instances_in. intros r _ Hp%bool_decide_eq_true. split; [done|]. apply copyCols_keeps. }
  destruct (Htch (rdy_wf _ _ Hrdy) (rdy_refs _ _ Hrdy) (ready_known _ _ Hrdy)) as [Ht2 _].
  split; [by eapply touched_trans|]. destruct Hrdy as [_ _ (row & Hrow & Hrid & Hst & Hver) Hi Hq].
  constructor; [exact (tch_wf _ _ _ Ht2)|exact (tch_refs _ _ _ Ht2)| |done|].
  - destruct (copyCols_keeps i' cols row) as (E1 & E2 & (_ & _ & _ & E3 & _)). exists (copyCols i' cols row).
    split; [|split_and!; congruence]. destruct s; cbn in *. apply elem_of_tupdate. exists row.
    split; [done|]. unfold p. by rewrite bool_decide_eq_true_2.
  - unfold quiet, visitsOf, tasksOf in *. by destruct s.
Qed.

Lemma known_instance s i : i ∈ db_instances s → instancesOf s (Instance_ID i) ≠ [].
Proof.
  intros Hi Hnil. unfold instancesOf in Hnil. rewrite tselect_nil in Hnil.
  specialize (Hnil i Hi). by apply bool_decide_eq_false in Hnil.
Qed.
(** The row of an instance later on. *)
Lemma evolved_instance s s' i :
  evolves s s' → i ∈ db_instances s →
  ∃ i', i' ∈ db_instances s' ∧ Instance_ID i' = Instance_ID i ∧
        Instance_FlowVersionID i' = Instance_FlowVersionID i.
Proof.
  intros He Hi. destruct (ev_instances _ _ He) as (l & new & Hl & Hall).
  destruct (Forall2_elem_l _ _ _ _ Hall Hi) as (i' & Hin & Hid & _ & _ & Hv & _).
  exists i'. split_and!; [|done|done]. rewrite Hl. set_solver.
Qed.

(** A quiet instance set running again. *)
Lemma reopen_ready s i cols i' s' :
  wf s → refs_ok s → quiet s (Instance_ID i) →
  (∃ row, row ∈ db_instances s ∧ Instance_ID row = Instance_ID i ∧
          Instance_FlowVersionID row = Instance_FlowVersionID i) →
  ApplyInstanceTransitionWithHooks i InstanceRunning cols s = Ok (i', s') →
  touched (Instance_ID i) s s' ∧ ready s' i' ∧ Instance_ID i' = Instance_ID i.
Proof.
  intros Hw Hr Hq (old & Hold & Hoid & Hover) Hrun.
  pose proof (ApplyInstanceTransition_row _ _ _ _ _ _ Hrun) as (row & Hrow & Hrid & Hrst).
  apply ApplyInstanceTransition_Ok in Hrun as (_ & -> & (_ & Hts & Hvs & _) & _ & Htch).
  assert (instancesOf s (Instance_ID i) ≠ []) as Hk by (rewrite <-Hoid; by apply known_instance).
  destruct (Htch Hw Hr Hk) as [Ht _]. split; [done|].
  destruct (evolved_instance _ _ _ (tch_evolves _ _ _ Ht) Hold) as (row' & Hrow' & Hid' & Hver').
  assert (row' = row) as -> by (eapply instance_row_unique; [exact (tch_wf _ _ _ Ht)|done|done|congruence]).
  assert (Instance_ID (set_Instance_Status InstanceRunning i) = Instance_ID i) as Hid by (by destruct i).
  split; [|done]. constructor; rewrite ?Hid; auto.
  - exact (tch_wf _ _ _ Ht).
  - exact (tch_refs _ _ _ Ht).
  - exists row. split_and!; try congruence. rewrite Hver', Hover. by destruct i.
  - by destruct i.
  - unfold quiet, visitsOf, tasksOf in *. rewrite Hts, Hvs. by destruct s.
Qed.
End ready_moves.

Section rollback.
Context `{!Host}.

Lemma reads_ValidateRollbackTarget i n t : keeps eq (ValidateRollbackTarget i n t).
Proof.
  unfold ValidateRollbackTarget, requireConcludedVisit, findVersionNode, orThrow. keeps_tac.
Qed.
Lemma ApplyRollbackFormData_Ok i t st s i' s' :
  ApplyRollbackFormData i t st s = Ok (i', s') →
  s' = s ∧ Instance_ID i' = Instance_ID i ∧ Instance_Status i' = Instance_Status i ∧
  Instance_FlowVersionID i' = Instance_FlowVersionID i.
Proof.
  unfold ApplyRollbackFormData. intros Hrun. destruct st.
  - injection Hrun as <- <-. destruct i. done.
  - step Hrun as f s1 H1. injection H1 as _ <-.
    destruct f as [f|]; [destruct (FormSnapshot_FormData f)|]; injection Hrun as <- <-; destruct i; done.
  - injection Hrun as <- <-. done.
Qed.

(** An accepted target is a node of the instance's version. *)
Lemma ValidateRollbackTarget_home i n target s u s' :
  refs_ok s → ValidateRollbackTarget i n target s = Ok (u, s') → homeNode s (Instance_FlowVersionID i) target.
Proof.
  intros Hr Hrun. unfold ValidateRollbackTarget, findVersionNode in Hrun.
  step Hrun as u1 s1 H1. apply throwIf_Ok in H1 as [_ ->].
  step Hrun as u2 s2 H2. apply throwIf_Ok in H2 as [Hty ->].
  destruct (FlowNode_RollbackType n); try done.
  - step Hrun as count s3 H3. injection H3 as Hcount <-. apply throwIf_Ok in Hrun as [Hc _].
    apply Nat.eqb_neq in Hc. unfold tcount in Hcount.
    destruct (tselect _ (db_edges s)) as [|e l] eqn:Hsel; [cbn in Hcount; congruence|].
    assert (e ∈ e :: l) as He by set_solver. rewrite <-Hsel in He. apply elem_of_tselect in He as [Hp He].
    rewrite !andb_true_iff, !bool_decide_eq_true in Hp. destruct Hp as [[<- _] <-]. by apply (refs_edges _ Hr).
  - step Hrun as st s3 H3. apply orThrow_gets_Ok in H3 as [Hst ->]. apply throwIf_Ok in Hrun as [Heq _].
    apply negb_false_iff, bool_decide_eq_true in Heq. apply tfirst_Some in Hst as [Hin Hp].
    apply andb_true_iff in Hp as [Hv%bool_decide_eq_true _]. by exists st.
  - step Hrun as st s3 H3. apply orThrow_gets_Ok in H3 as [Hst ->]. apply tfirst_Some in Hst as [Hin Hp].
    apply andb_true_iff in Hp as [Hid%bool_decide_eq_true Hv%bool_decide_eq_true]. by exists st.
  - step Hrun as st s3 H3. apply orThrow_gets_Ok in H3 as [Hst ->]. apply tfirst_Some in Hst as [Hin Hp].
    apply andb_true_iff in Hp as [Hid%bool_decide_eq_true Hv%bool_decide_eq_true]. by exists st.
Qed.

(** The two destinations of a rollback. *)
Lemma moveTo_settled s0 s i target (mkR mkB : Instance → DomainEvent) out s' :
  touched (Instance_ID i) s0 s → ready s i → target ∈ db_nodes s →
  FlowNode_FlowVersionID target = Instance_FlowVersionID i →
  (if FlowNode_Kind target ==? NodeStart then
     now ← Now;
     let instance := set_Instance_FinishedAt (Some now) i in
     instance ← Transition instance InstanceReturned [ColFormData; ColCurrentNodeID; ColFinishedAt];
     mret (instance, mkR instance)
   else
     updateInstanceCols i [ColFormData; ColCurrentNodeID];;
     instance ← ProcessNode i target;
     mret (instance, mkB instance)) s = Ok (out, s') →
  settled s0 (Instance_ID i) out.1 s'.
Proof.
  intros Ht Hrdy Hnode Hver Hrun. case_bool_decide.
  - step Hrun as now s1 H1. cbv zeta in Hrun. step Hrun as i' s2 H2. injection Hrun as <- <-.
    apply mapErr_Ok in H2. by eapply closeReady_settled; [exact Ht|exact Hrdy| |exact H1|exact H2].
  - step Hrun as k s1 H1.
    destruct (ready_updateCols _ _ _ _ _ _ _ Ht Hrdy eq_refl H1) as [Ht1 Hrdy1].
    step Hrun as i' s2 H2. injection Hrun as <- <-. eapply settled_weaken; [exact Ht1|].
    eapply ProcessNodeFuel_settled; [done| |done|exact H2].
    injection H1 as _ <-. by destruct s.
Qed.

Lemma orderly_RollbackTask cmd : orderly (RollbackTaskHandler_Handle cmd).
Proof.
  intros s a s' Hd Hrun. unfold RollbackTaskHandler_Handle in Hrun. step Hrun as tc s1 H1.
  destruct (prepared_working _ _ _ _ _ _ _ Hd H1) as (-> & (v & Hwk) & Ht & HI & Hst & _).
  step Hrun as u2 s2 H2. apply liftR_Ok in H2 as [_ ->].
  step Hrun as u3 s3 H3. apply throwIf_Ok in H3 as [_ ->].
  step Hrun as u4 s4 H4. apply throwIf_Ok in H4 as [_ ->].
  step Hrun as u5 s5 H5. pose proof (ValidateRollbackTarget_home _ _ _ _ _ _ (disc_refs _ Hd) H5) as Hhome.
  apply reads_ValidateRollbackTarget in H5 as <-.
  step Hrun as t s6 H6. eapply finish_working in H6 as (Hwk6 & _); [|done..].
  step Hrun as evs s7 H7. set (pc := Build_ProcessContext (tc_Instance tc) (tc_Node tc) v).
  destruct (CancelRemainingTasks_closes pc _ _ _ _ H7) as [Hf7 Hno7].
  specialize (Hno7 (ent_open _ _ _ _ _ (wk_entered _ _ _ _ _ Hwk6))).
  pose proof (working_inFrame _ _ _ _ _ _ Hwk6 Hf7) as Hwk7.
  step Hrun as u8 s8 H8. assert (NodeVisitReturned ≠ NodeVisitActive) as Hne by done.
  destruct (working_ready _ _ _ _ _ _ _ _ Hwk7 Hno7 Hne H8) as [Ht8 Hrdy8].
  step Hrun as i9 s9 H9. apply ApplyRollbackFormData_Ok in H9 as (-> & Hid9 & Hst9 & Hver9).
  step Hrun as target s10 H10. apply orThrow_gets_Ok in H10 as [Htg ->].
  apply findBy_Ok in Htg as [Htg Htid].
  assert (FlowNode_FlowVersionID target = Instance_FlowVersionID (tc_Instance tc)) as Hver.
  { destruct Hhome as (n & Hn & Hnid & <-). f_equal. rewrite (ev_nodes _ _ (tch_evolves _ _ _ Ht8)) in Htg.
    apply (NoDup_key_inj FlowNode_ID _ _ _ (refs_nodes _ (disc_refs _ Hd)) Htg Hn). congruence. }
  set (i10 := set_Instance_CurrentNodeID _ i9) in *.
  assert (Instance_ID i10 = Instance_ID (tc_Instance tc) ∧
          Instance_Status i10 = Instance_Status (tc_Instance tc) ∧
          Instance_FlowVersionID i10 = Instance_FlowVersionID (tc_Instance tc)) as (Hid10 & Hst10 & Hver10)
    by (by destruct i9).
  step Hrun as out s11 H11. pose proof H11 as Hs11. eapply moveTo_settled in Hs11;
    [|by rewrite Hid10|eapply ready_instance; [exact Hid10|exact Hst10|exact Hver10|done]|done|congruence].
  destruct out as [i' evt]. cbn in Hs11. step Hrun as u12 s12 H12. step Hrun as u13 s13 H13.
  eapply settled_orderly; [done|]. eapply settled_sideOnly; [exact Hs11|].
  etrans; [by eapply sideOnly_SyncInstanceProjection|].
  etrans; [by eapply sideOnly_addActionLog|by eapply sideOnly_EmitEvents].
Qed.
End rollback.

Section lifecycle.
Context `{!Host}.

Lemma LoadForUpdateAs_Ok id c u s i s' :
  LoadForUpdateAs id c u s = Ok (i, s') →
  s' = s ∧ i ∈ db_instances s ∧ Instance_ID i = id ∧
  AllowsInstanceAccess c (Instance_ID i) (Instance_TenantID i) u s = Ok (true, s).
Proof.
  unfold LoadForUpdateAs, findInstance. intros Hrun. step Hrun as i0 s1 H1.
  apply orThrow_gets_Ok in H1 as [Hi ->]. apply findBy_Ok in Hi as [Hi Hid].
  step Hrun as al s2 H2. pose proof (reads_AllowsInstanceAccess _ _ _ _ _ _ _ H2) as <-.
  step Hrun as u3 s3 H3. apply throwIf_Ok in H3 as [Hal ->]. apply negb_false_iff in Hal.
  injection Hrun as <- <-. by subst al.
Qed.
(** Cancelling the tasks of a whole instance. *)
Lemma CancelInstanceTasks_Ok i reason s r s' :
  wf s → CancelInstanceTasks i reason s = Ok (r, s') →
  touches (Instance_ID i) s s' ∧ db_visits s' = db_visits s ∧ db_instances s' = db_instances s ∧
  ∀ t, t ∈ tasksOf s' (Instance_ID i) → isOpen t = false.
Proof.
  intros Hw Hrun.
  set (pc := Build_ProcessContext i (bareFlowNode "") (Build_NodeVisit "" 0 "" "" "" 0 NodeVisitActive None)).
  split; [|split; [|split]].
  4: { eapply (cancelActiveTasks_closes pc); [|exact Hrun|].
       - intros t [_ Hc]%andb_true_iff. by rewrite <-isCancelable_isOpen.
       - intros t [HI _]%elem_of_tselect Ho. by rewrite isCancelable_isOpen, Ho, andb_true_r. }
  all: unfold CancelInstanceTasks, cancelActiveTasks in Hrun; step Hrun as ts s0 Hg;
    injection Hg as <- <-;
    destruct (length _ =? 0)%nat; [injection Hrun as _ <-; reflexivity|];
    step Hrun as now s1 Hnow; step Hrun as n s2 Hu; injection Hu as _ <-; injection Hrun as _ <-.
  2,3: destruct s; injection Hnow as ? ?; subst; done.
  assert (db_tasks s1 = db_tasks s) as Ht1 by (destruct s; injection Hnow as ? ?; by subst).
  etrans; [by eapply touches_Now|]. apply touches_task_step; [by intros []|].
  rewrite Ht1. intros t Ht [Hin Ho]%andb_true_iff.
  apply bool_decide_eq_true, list_elem_of_fmap in Hin as (t0 & Hid & Ht0).
  apply elem_of_tselect in Ht0 as [[HI _]%andb_true_iff Ht0]. apply bool_decide_eq_true in HI.
  rewrite <-(task_row_unique _ _ _ Hw Ht Ht0 Hid) in HI. split; [done|].
  rewrite isCancelable_isOpen in Ho. unfold isOpen in Ho. destruct t; cbn in *. apply rtc_once.
  by destruct Task_Status.
Qed.

Lemma closeInstance_settled i to notAllowed reason s out s' :
  wf s → refs_ok s → i ∈ db_instances s → to ≠ InstanceRunning →
  closeInstance i (Instance_ID i) to notAllowed reason s = Ok (out, s') →
  settled s (Instance_ID i) out.1 s'.
Proof.
  intros Hw Hr Hi Hto Hrun. unfold closeInstance in Hrun.
  step Hrun as u1 s1 H1. apply throwIf_Ok in H1 as [_ ->].
  step Hrun as now s2 H2. cbv zeta in Hrun. step Hrun as i3 s3 H3. apply mapErr_Ok, mapErr_Ok in H3.
  destruct (touches_Now (Instance_ID i) _ _ _ H2 Hw Hr (known_instance _ _ Hi)) as [Ht2 Hk2].
  assert (Instance_ID (set_Instance_FinishedAt (Some now) i) = Instance_ID i) as Hid by (by destruct i).
  pose proof (ApplyInstanceTransition_row _ _ _ _ _ _ H3) as (row & Hrow & Hrid & Hrst).
  apply ApplyInstanceTransition_Ok in H3 as (_ & Hi3 & _ & _ & Htch3). rewrite Hid in Htch3, Hrid.
  destruct (Htch3 (tch_wf _ _ _ Ht2) (tch_refs _ _ _ Ht2) Hk2) as [Ht3 Hk3].
  assert (Instance_ID i3 = Instance_ID i ∧ Instance_Status i3 = to) as [Hid3 Hst3] by (subst i3; by destruct i).
  step Hrun as evs s4 H4.
  apply CancelInstanceTasks_Ok in H4 as (Htch4 & Hv4 & Hi4 & Hno4); [|exact (tch_wf _ _ _ Ht3)].
  rewrite Hid3 in Htch4, Hno4.
  destruct (Htch4 (tch_wf _ _ _ Ht3) (tch_refs _ _ _ Ht3) Hk3) as [Ht4 Hk4].
  step Hrun as u5 s5 H5. injection Hrun as <- <-.
  apply CancelActiveNodeVisits_Ok in H5 as (Htch5 & Hk5 & Hi5 & Hno5).
  destruct (Htch5 (tch_wf _ _ _ Ht4) (tch_refs _ _ _ Ht4) Hk4) as [Ht5 _].
  cbn [fst]. constructor; [|done|].
  - eapply touched_trans; [exact Ht2|]. eapply touched_trans; [exact Ht3|]. by eapply touched_trans.
  - exists row. rewrite Hi5, Hi4. split; [done|]. split; [done|]. split; [congruence|].
    assert (quiet s5 (Instance_ID row)) as Hq.
    { rewrite Hrid. split; [done|]. unfold tasksOf in *. by rewrite Hk5. }
    unfold inst_ok. rewrite Hrst. by destruct to.
Qed.

Lemma orderly_WithdrawInstance cmd : orderly (WithdrawInstanceHandler_Handle cmd).
Proof.
  intros s a s' Hd Hrun. unfold WithdrawInstanceHandler_Handle in Hrun. step Hrun as i s1 H1.
  apply LoadForUpdateAs_Ok in H1 as (-> & Hi & Hid & _).
  step Hrun as u2 s2 H2. apply throwIf_Ok in H2 as [_ ->]. rewrite <-Hid in Hrun.
  step Hrun as out s3 H3. apply closeInstance_settled in H3; [|apply Hd|apply Hd|done|done].
  step Hrun as u4 s4 H4. eapply settled_orderly; [done|]. eapply settled_sideOnly; [exact H3|].
  etrans; [by eapply sideOnly_addActionLog|by eapply sideOnly_EmitEvents].
Qed.
Lemma orderly_TerminateInstance cmd : orderly (TerminateInstanceHandler_Handle cmd).
Proof.
  intros s a s' Hd Hrun. unfold TerminateInstanceHandler_Handle in Hrun. step Hrun as i s1 H1.
  apply LoadForUpdateAs_Ok in H1 as (-> & Hi & Hid & _). rewrite <-Hid in Hrun.
  step Hrun as out s3 H3. apply closeInstance_settled in H3; [|apply Hd|apply Hd|done|done].
  step Hrun as u4 s4 H4. step Hrun as e s5 H5. eapply settled_orderly; [done|].
  eapply settled_sideOnly; [exact H3|]. etrans; [by eapply sideOnly_addActionLog|].
  etrans; [by eapply sideOnly_NewInstanceCompletedEvent|by eapply sideOnly_EmitEvents].
Qed.

Lemma orderly_ResubmitInstance cmd : orderly (ResubmitInstanceHandler_Handle cmd).
Proof.
  intros s a s' Hd Hrun. unfold ResubmitInstanceHandler_Handle in Hrun. step Hrun as i s1 H1.
  apply LoadForUpdateAs_Ok in H1 as (-> & Hi & Hid & _).
  step Hrun as u2 s2 H2. apply throwIf_Ok in H2 as [_ ->].
  step Hrun as u3 s3 H3. apply throwIf_Ok in H3 as [Hcan ->]. apply negb_false_iff in Hcan.
  step Hrun as ver s4 H4. apply orThrow_gets_Ok in H4 as [_ ->].
  step Hrun as u5 s5 H5. apply liftR_Ok in H5 as [_ ->].
  step Hrun as i6 s6 H6. apply mapErr_Ok, mapErr_Ok in H6. set (i5 := set_Instance_FinishedAt None _) in H6.
  assert (Instance_ID i5 = Instance_ID i) as Hid5 by (by destruct i).
  assert (quiet s (Instance_ID i5)) as Hq.
  { rewrite Hid5. pose proof (disc_inst _ Hd _ Hi) as Hok. unfold inst_ok in Hok.
    by destruct (Instance_Status i). }
  apply reopen_ready in H6 as (Ht6 & Hrdy6 & Hid6);
    [|apply Hd|apply Hd|done|exists i; by destruct i].
  step Hrun as u7 s7 H7. rewrite <-Hid6 in Ht6.
  destruct (ready_sideOnly _ _ _ _ Ht6 Hrdy6 (sideOnly_SyncInstanceProjection _ _ _ _ _ H7)) as [Ht7 Hrdy7].
  step Hrun as i8 s8 H8. eapply StartProcess_settled in H8; [|done].
  apply (settled_weaken _ _ _ _ _ Ht7) in H8. step Hrun as u9 s9 H9.
  eapply settled_orderly; [done|]. eapply settled_sideOnly; [exact H8|].
  etrans; [by eapply sideOnly_addActionLog|by eapply sideOnly_EmitEvents].
Qed.
End lifecycle.
