(* ===== verification/TimeoutInv.v ===== *)
(** * The scanner keeps the visit discipline

    Handling a task past its deadline, warning about one and cleaning up keep what
    the commands keep. *)
From S2P Require Import Prelude Enums StateMachine Models Demo Store Shared FormValidation FormStorage Delegation Binding.
From S2P Require Import PassRule Processors Engine Tenancy TaskService NodeService Commands Timeout Discipline EngineInv.
From S2P Require Import Traversal ServiceInv CommandInv LifecycleInv.

Section waiting.
Context `{!Host}.

(** A running instance waits at its current node. *)
Lemma disciplined_working s i n nd :
  disciplined s → i ∈ db_instances s → Instance_Status i = InstanceRunning →
  Instance_CurrentNodeID i = Some n → nd ∈ db_nodes s → FlowNode_ID nd = n →
  ∃ v, working s i nd v s.
Proof.
  intros [Hw Hr Hinst] Hi Hst Hcur Hnd <-. pose proof (Hinst _ Hi) as Hok. unfold inst_ok in Hok.
  rewrite Hst in Hok. destruct Hok as (n' & Hcur' & v & Hv & Hact & Hvn & Honly & Hopen).
  assert (n' = FlowNode_ID nd) as -> by congruence.
  apply elem_of_tselect in Hv as [HvI Hv]. apply bool_decide_eq_true in HvI.
  exists v. constructor; [constructor| |done].
  - apply (touches_preorder (Instance_ID i)); auto. by apply known_instance.
  - by exists i.
  - done.
  - intros r Hrin HI Ha. apply Honly; [|done]. apply elem_of_tselect. by rewrite bool_decide_eq_true.
  - done.
  - done.
  - by exists i.
Qed.
(** Somebody is asked to act: at the current node of a running instance. *)
Lemma open_working s t i nd :
  disciplined s → t ∈ db_tasks s → isOpen t = true → i ∈ db_instances s →
  Instance_ID i = Task_InstanceID t → nd ∈ db_nodes s → FlowNode_ID nd = Task_NodeID t →
  ∃ v, working s i nd v s.
Proof.
  intros Hd Ht Ho Hi HI Hnd HN. pose proof (disc_inst _ Hd _ Hi) as Hok. unfold inst_ok in Hok.
  assert (t ∈ tasksOf s (Instance_ID i)) as Hin by (apply elem_of_tselect; by rewrite bool_decide_eq_true).
  assert (Instance_Status i = InstanceRunning) as Hst.
  { destruct (Instance_Status i); try done; destruct Hok as [_ Hq]; by rewrite (Hq t Hin) in Ho. }
  rewrite Hst in Hok. destruct Hok as (n & Hcur & v & _ & _ & _ & _ & Hopen).
  destruct (Hopen t Hin Ho) as [_ Hn]. eapply (disciplined_working s i n nd); try done. congruence.
Qed.
End waiting.

(** ** Past the deadline *)
Section timeout.
Context `{!Host}.

Lemma sideOnly_insertActionLog I l : keeps (sideOnly I) (insertActionLog l).
Proof.
  intros s a s' Hrun. split; [|destruct s; injection Hrun as _ <-; done].
  destruct s; injection Hrun as _ <-. apply touches_same; cbn; try done; by eexists.
Qed.
Lemma inFrame_insertActionLog pc l : keeps (inFrame pc) (insertActionLog l).
Proof.
  intros s a s' Hrun. apply inFrame_same; try (by destruct s; injection Hrun as _ <-).
  by eapply sideOnly_insertActionLog.
Qed.

Lemma autoFinish_settled s0 i n v s t (b : bool) evs s' :
  working s0 i n v s → t ∈ db_tasks s → Task_InstanceID t = Instance_ID i →
  autoFinishTask t i n b s = Ok (evs, s') → ∃ i', settled s0 (Instance_ID i) i' s'.
Proof.
  intros Hwk Ht HI Hrun. unfold autoFinishTask in Hrun. set (pc := Build_ProcessContext i n v).
  step Hrun as t1 s1 E1. eapply finish_working in E1 as (Hwk1 & Hown1 & _); [|done..|];
    [|unfold resolveTimeoutCompletion; by destruct b; [case_bool_decide|]].
  step Hrun as u2 s2 E2. pose proof (inFrame_EmitEvents pc _ _ _ _ E2) as Hf2.
  destruct (working_framed _ _ _ _ _ Hwk1) as (Hw & Hr & Hfr).
  pose proof (working_inFrame _ _ _ _ _ _ Hwk1 Hf2) as Hwk2.
  pose proof (ownTask_inFrame pc _ _ _ Hw Hr Hfr Hf2 Hown1) as Hown2.
  step Hrun as acts s3 E3.
  pose proof (working_inFrame _ _ _ _ _ _ Hwk2 (ActivateDependentTasks_inFrame pc _ _ _ _ Hown2 E3)) as Hwk3.
  destruct (SplitQueueAdvanceDecisions acts) as [ds as']. step Hrun as u4 s4 E4.
  pose proof (working_inFrame _ _ _ _ _ _ Hwk3 (inFrame_EmitEvents _ _ _ _ _ E4)) as Hwk4.
  step Hrun as c s5 E5. pose proof (HandleNodeCompletion_settled _ _ _ _ _ _ _ Hwk4 E5) as Hs5.
  step Hrun as u6 s6 E6. injection Hrun as _ <-. exists c.1.
  eapply settled_sideOnly; [exact Hs5|by eapply sideOnly_insertActionLog].
Qed.

(** A row of the open visit. *)
Definition held (i : Instance) (v : NodeVisit) (id : string) (s : St) : Prop :=
  ∃ t, t ∈ db_tasks s ∧ Task_ID t = id ∧ Task_InstanceID t = Instance_ID i ∧ Task_VisitID t = NodeVisit_ID v.
Lemma held_evolves i v id s s' : evolves s s' → held i v id s → held i v id s'.
Proof.
  intros He (t & Ht & Hid & HI & HV).
  destruct (table_evolves_elem _ _ _ _ (ev_tasks _ _ He) Ht) as (t' & Ht' & E1 & E2 & _ & E4 & _).
  exists t'. split; [done|]. split_and!; congruence.
Qed.
Lemma working_evolves s0 i n v s s' :
  working s0 i n v s → inFrame (Build_ProcessContext i n v) s s' → evolves s s'.
Proof.
  intros Hwk Hf. destruct (working_framed _ _ _ _ _ Hwk) as (Hw & Hr & Hfr).
  destruct (Hf Hw Hr Hfr) as ((Ht & _) & _). exact (tch_evolves _ _ _ Ht).
Qed.
(** What the replacements of a task need. *)
Record replaceable (i : Instance) (n : FlowNode) (v : NodeVisit) (t : Task) (s : St) : Prop := {
  rpl_instance : Task_InstanceID t = Instance_ID i;
  rpl_visit : Task_VisitID t = NodeVisit_ID v;
  rpl_node : Task_NodeID t = FlowNode_ID n;
  rpl_self : held i v (Task_ID t) s;
  rpl_parent : ∀ p, Task_ParentTaskID t = Some p → held i v p s;
  rpl_work : workNode s (FlowNode_ID n);
}.
Lemma replaceable_evolves i n v t s s' : evolves s s' → replaceable i n v t s → replaceable i n v t s'.
Proof.
  intros He [H1 H2 H3 H4 H5 H6]. constructor; try done.
  - by eapply held_evolves.
  - intros p Hp. by eapply held_evolves; [|apply H5].
  - unfold workNode. by rewrite (ev_nodes _ _ He).
Qed.
Lemma replaceable_intro s0 i n v s t :
  working s0 i n v s → t ∈ db_tasks s → Task_InstanceID t = Instance_ID i → Task_VisitID t = NodeVisit_ID v →
  Task_NodeID t = FlowNode_ID n → replaceable i n v t s.
Proof.
  intros Hwk Ht HI HV HN. destruct (working_framed _ _ _ _ _ Hwk) as (_ & Hr & _). constructor; try done.
  - by exists t.
  - intros p Hp. destruct (refs_parent _ Hr t Ht p Hp) as (t' & ? & ? & ? & ?). exists t'. split_and!; congruence.
  - rewrite <-HN. by apply (refs_work _ Hr).
Qed.
Lemma transferTo_working s0 i n v t infos d acc id r s s' :
  working s0 i n v s → replaceable i n v t s → transferTo t i n infos d acc id s = Ok (r, s') →
  working s0 i n v s' ∧ evolves s s' ∧ (r.1 = acc.1 ∨ held i v r.1 s') ∧ (acc.1 = "" → held i v r.1 s').
Proof.
  intros Hwk Hrp Hrun. unfold transferTo in Hrun. set (pc := Build_ProcessContext i n v).
  step Hrun as new s1 E1.
  assert (inFrame pc s s1) as Hf1.
  { eapply inFrame_insertTask_ref; [..|exact E1]; cbn; [apply Hrp|apply Hrp|apply Hrp| |apply Hrp].
    intros p Hp. destruct (rpl_parent _ _ _ _ _ Hrp p Hp) as (t' & ? & ? & ? & ?). exists t'. cbn.
    rewrite (rpl_instance _ _ _ _ _ Hrp), (rpl_visit _ _ _ _ _ Hrp). done. }
  apply insertTask_Ok in E1 as (Hnew & Hts & _). step Hrun as u s2 E2.
  pose proof (inFrame_insertActionLog pc _ _ _ _ E2) as Hf2. injection Hrun as <- <-.
  assert (inFrame pc s s2) as Hf by (by etrans). pose proof (working_evolves _ _ _ _ _ _ Hwk Hf) as He.
  assert (held i v (Task_ID new) s2) as Hheld.
  { pose proof (working_inFrame _ _ _ _ _ _ Hwk Hf1) as Hwk1.
    eapply held_evolves; [exact (working_evolves _ _ _ _ _ _ Hwk1 Hf2)|].
    exists new. rewrite Hts. split; [set_solver|]. split; [done|]. subst new. cbn.
    split; [apply Hrp|apply Hrp]. }
  split; [by eapply working_inFrame|]. split; [done|]. cbn. case_bool_decide; [|split; [by left|done]].
  split; [by right|done].
Qed.
Lemma transferAll_working s0 i n v t infos d ids acc r s s' :
  working s0 i n v s → replaceable i n v t s → ids ≠ [] ∧ acc.1 = "" ∨ held i v acc.1 s →
  foldM (transferTo t i n infos d) acc ids s = Ok (r, s') →
  working s0 i n v s' ∧ replaceable i n v t s' ∧ held i v r.1 s'.
Proof.
  revert acc s. induction ids as [|id ids IH]; intros acc s Hwk Hrp Hacc Hrun; cbn in Hrun.
  { injection Hrun as <- <-. destruct Hacc as [[? _]|?]; done. }
  step Hrun as acc' s1 E1. apply (transferTo_working _ _ _ _ _ _ _ _ _ _ _ _ Hwk Hrp) in E1 as (Hwk1 & He & Hor & Hfirst).
  eapply IH; [exact Hwk1|by eapply replaceable_evolves| |exact Hrun]. right.
  destruct Hacc as [[_ Hacc]|Hacc]; [by apply Hfirst|]. destruct Hor as [->|?]; [by eapply held_evolves|done].
Qed.
Lemma transferToAdmin_settled s0 i n v s t evs s' :
  working s0 i n v s → t ∈ db_tasks s → Task_InstanceID t = Instance_ID i → isOpen t = true →
  transferToAdmin t i n s = Ok (evs, s') → settled s0 (Instance_ID i) i s'.
Proof.
  intros Hwk Ht HI Ho Hrun. unfold transferToAdmin in Hrun. set (pc := Build_ProcessContext i n v).
  assert (∀ evs s1, recordTimeoutNotify t i n s = Ok (evs, s1) → settled s0 (Instance_ID i) i s1) as Hnote.
  { intros evs' s1 E. unfold recordTimeoutNotify in E. step E as u s2 E2. apply throwIf_Ok in E2 as [_ ->].
    injection E as _ <-. by eapply working_settled. }
  destruct (_ =? 0)%nat; [by eapply Hnote|]. step Hrun as ids s1 E1. injection E1 as <- <-.
  destruct (_ =? 0)%nat eqn:Hids; [by eapply Hnote|].
  destruct (working_open _ _ _ _ _ _ Hwk Ht HI Ho) as [HV HN].
  step Hrun as t1 s1 E1. destruct (FinishTask_Ok pc _ _ _ _ _ E1) as (_ & now & Heq & _).
  eapply finish_working in E1 as (Hwk1 & _ & Ht1); [|done..].
  assert (replaceable i n v t1 s1) as Hrp1.
  { eapply replaceable_intro; [done|done|..]; subst t1; destruct t; cbn in *; congruence. }
  step Hrun as d s2 E2. pose proof (inFrame_ComputeTaskDeadline pc _ _ _ _ E2) as Hf2.
  pose proof (working_evolves _ _ _ _ _ _ Hwk1 Hf2) as He2.
  pose proof (working_inFrame _ _ _ _ _ _ Hwk1 Hf2) as Hwk2.
  step Hrun as moved s3 E3. eapply transferAll_working in E3 as (Hwk3 & Hrp3 & Hstand); [|done|by eapply replaceable_evolves|].
  2:{ left. split; [|done]. intros Hnil. rewrite Hnil in Hids. done. }
  step Hrun as u4 s4 E4. injection Hrun as _ <-. eapply (working_settled _ _ n v).
  eapply working_inFrame; [exact Hwk3|]. destruct (working_framed _ _ _ _ _ Hwk3) as (Hw3 & Hr3 & _).
  destruct (rpl_self _ _ _ _ _ Hrp3) as (old & Hold & Hoid & _ & HoV).
  destruct Hstand as (new & Hnew & Hnid & HnI & HnV). rewrite (rpl_instance _ _ _ _ _ Hrp3) in E4.
  eapply (RepointAddAssigneeChildren_inFrame pc _ _ old new); [..|exact E4]; try done. congruence.
Qed.

(** A task read by the scanner: a row of that id and instance exists. *)
Definition scanned (s : St) (task : Task) : Prop :=
  ∃ t, t ∈ db_tasks s ∧ Task_ID t = Task_ID task ∧ Task_InstanceID t = Task_InstanceID task.
Lemma processTimeout_orderly task s a s' :
  disciplined s → scanned s task → processTimeout task s = Ok (a, s') →
  disciplined s' ∧ evolves s s' ∧ ∃ I, othersSame I s s'.
Proof.
  intros Hd (t0 & Ht0 & Hid0 & HI0) Hrun. unfold processTimeout, findInstance, findTask, findNode in Hrun.
  step Hrun as i ? E. apply orThrow_gets_Ok in E as [Hi ->]. apply findBy_Ok in Hi as [Hi Hii].
  step Hrun as t ? E. apply orThrow_gets_Ok in E as [Ht ->]. apply findBy_Ok in Ht as [Ht Hti].
  assert (t0 = t) as -> by (eapply task_row_unique; [apply Hd|done|done|congruence]).
  assert (∀ v s1, mret (M := M) tt s = Ok (v, s1) → disciplined s1 ∧ evolves s s1 ∧ ∃ I, othersSame I s s1) as Hsame.
  { intros v s1. by apply (orderly_reads (mret tt)), Hd; apply keeps_ret, _. }
  destruct (Task_IsTimeout t); [by eapply Hsame|]. destruct (Task_Status t ==? TaskPending) eqn:Hst; [|by eapply Hsame].
  apply bool_decide_eq_true in Hst. cbn [negb] in Hrun.
  step Hrun as nd ? E. apply orThrow_gets_Ok in E as [Hnd ->]. apply findBy_Ok in Hnd as [Hnd Hndi].
  assert (isOpen t = true) as Ho by (unfold isOpen; by rewrite Hst).
  destruct (open_working s t i nd) as (v & Hwk); [done..|congruence|done|done|]. set (pc := Build_ProcessContext i nd v).
  step Hrun as k s1 E1. injection E1 as _ <-. set (flagged := set_Task_IsTimeout true t) in *.
  assert (Task_ID flagged = Task_ID t ∧ Task_InstanceID flagged = Instance_ID i ∧ isOpen flagged = true)
    as (F1 & F2 & F3) by (unfold flagged; destruct t; cbn in *; split_and!; [done|congruence|done]).
  match type of Hrun with _ (upd_tasks ?g s) = _ => assert (inFrame pc s (upd_tasks g s)) as Hf;
    [|assert (flagged ∈ db_tasks (upd_tasks g s)) as Hin; [|set (s1 := upd_tasks g s) in *]] end.
  { apply inFrame_task_step; [by intros []|]. intros r Hr Hid%bool_decide_eq_true. rewrite F1 in Hid.
    rewrite (task_row_unique _ _ _ (disc_wf _ Hd) Hr Ht Hid). destruct t; cbn in *. split_and!; [congruence|reflexivity|done]. }
  { destruct s; cbn in *. apply elem_of_tupdate. exists t. split; [done|]. by rewrite F1, bool_decide_eq_true_2. }
  pose proof (working_inFrame _ _ _ _ _ _ Hwk Hf) as Hwk1. step Hrun as evs s2 E2.
  assert (∃ i', settled s (Instance_ID i) i' s2) as (i' & Hs2).
  { unfold executeTimeoutAction in E2. destruct (FlowNode_TimeoutAction nd).
    - injection E2 as _ <-. eexists. by eapply working_settled.
    - by eapply autoFinish_settled.
    - by eapply autoFinish_settled.
    - unfold recordTimeoutNotify in E2. step E2 as u s3 E3. apply throwIf_Ok in E3 as [_ ->]. injection E2 as _ <-.
      eexists. by eapply working_settled.
    - eexists. by eapply transferToAdmin_settled.
    - injection E2 as _ <-. eexists. by eapply working_settled. }
  eapply settled_orderly; [done|]. eapply settled_sideOnly; [exact Hs2|by eapply sideOnly_EmitEvents].
Qed.
End timeout.

(** ** Warnings, clean-up, and the pipeline *)
Section jobs.
Context `{!Host}.

(** Marking rows of one instance without moving them. *)
Lemma mark_disciplined s I p f :
  keepsIdentity f → (∀ t, Task_Status (f t) = Task_Status t) →
  (∀ t, t ∈ db_tasks s → p t = true → Task_InstanceID t = I) → instancesOf s I ≠ [] → disciplined s →
  disciplined (upd_tasks (tupdate p f) s) ∧ evolves s (upd_tasks (tupdate p f) s) ∧
  othersSame I s (upd_tasks (tupdate p f) s).
Proof.
  intros Hk Hst HI Hne [Hw Hr Hi].
  assert (touches I s (upd_tasks (tupdate p f) s)) as Htch.
  { apply touches_task_step; [done|]. intros t Ht Hp. split; [by apply HI|]. by rewrite Hst. }
  destruct (Htch Hw Hr Hne) as [[Hw' He Ho Hr'] _]. split; [|done]. constructor; [done|done|].
  assert (∀ J t', t' ∈ tasksOf (upd_tasks (tupdate p f) s) J → ∃ t, t ∈ tasksOf s J ∧ isOpen t = isOpen t' ∧
    Task_VisitID t = Task_VisitID t' ∧ Task_NodeID t = Task_NodeID t') as Hback.
  { intros J t'. unfold tasksOf. rewrite !elem_of_tselect. intros [HJ Ht'].
    assert (t' ∈ tupdate p f (db_tasks s)) as (t & Ht & ->)%elem_of_tupdate by (by destruct s).
    exists t. destruct (Hk t) as (_ & Ek & En & Ev & _). rewrite elem_of_tselect.
    destruct (p t); [|done]. unfold isOpen. rewrite Hst, Ev, En, <-Ek. done. }
  intros i Hin. assert (i ∈ db_instances s) as Hin' by (by destruct s). specialize (Hi i Hin').
  assert (∀ J, visitsOf (upd_tasks (tupdate p f) s) J = visitsOf s J) as Hvs by (by destruct s).
  unfold inst_ok, seated, quiet, openAt in *. rewrite Hvs.
  assert ((∀ t, t ∈ tasksOf s (Instance_ID i) → isOpen t = false) →
    ∀ t, t ∈ tasksOf (upd_tasks (tupdate p f) s) (Instance_ID i) → isOpen t = false) as Hclosed.
  { intros Hq t (t0 & Ht0 & <- & _)%Hback. by apply Hq. }
  destruct (Instance_Status i); try (destruct Hi; by auto).
  destruct Hi as (n & Hn & v & ? & ? & ? & ? & Hopen). exists n. split; [done|]. exists v. do 4 (split; [done|]).
  intros t (t0 & Ht0 & Ho0 & <- & <-)%Hback Hop. apply Hopen; congruence.
Qed.
Lemma sendPreWarning_orderly task h s a s' :
  disciplined s → scanned s task → sendPreWarning task h s = Ok (a, s') →
  disciplined s' ∧ evolves s s' ∧ ∃ I, othersSame I s s'.
Proof.
  intros Hd (t0 & Ht0 & Hid0 & HI0) Hrun. unfold sendPreWarning, findInstance, findNode in Hrun.
  step Hrun as k s1 E1. injection E1 as _ <-. set (I := Task_InstanceID t0).
  match type of Hrun with _ (upd_tasks (tupdate ?p ?f) s) = _ => destruct (mark_disciplined s I p f)
    as (Hd1 & He1 & Ho1); [by intros []|by intros []| | |done|set (s1 := upd_tasks (tupdate p f) s) in *] end.
  { intros t Ht [Hid%bool_decide_eq_true _]%andb_true_iff. unfold I.
    assert (t = t0) as -> by (eapply task_row_unique; [apply Hd|done|done|congruence]). done. }
  { by apply (refs_tasks _ (disc_refs _ Hd)). }
  assert (s' = s1 ∨ sideOnly I s1 s') as [->|Hside]; [|by split_and!; [..|exists I]|].
  { destruct (_ =? 0)%nat; [left; by injection Hrun as _ <-|right].
    step Hrun as i ? E. apply orThrow_gets_Ok in E as [_ ->]. step Hrun as n ? E. apply orThrow_gets_Ok in E as [_ ->].
    by eapply sideOnly_EmitEvents. }
  destruct Hside as (Htch & Hts & Hvs & His).
  assert (instancesOf s1 I ≠ []) as Hne.
  { unfold instancesOf. assert (db_instances s1 = db_instances s) as -> by (unfold s1; by destruct s).
    by apply (refs_tasks _ (disc_refs _ Hd)). }
  destruct (Htch (disc_wf _ Hd1) (disc_refs _ Hd1) Hne) as [[Hw He Ho Hr] _].
  split; [|split; [by etrans|exists I; intros J HJ; destruct (Ho J HJ) as (-> & -> & ->); by apply Ho1]].
  constructor; [done|done|]. intros i. rewrite His. intros Hi. apply (disc_inst _ Hd1) in Hi.
  unfold inst_ok, seated, quiet, openAt, visitsOf, tasksOf in *. by rewrite Hts, Hvs.
Qed.
End jobs.
