(* ===== verification/Rows.v ===== *)
(** * What a deployment writes

    The rows [DeployFlowHandler.Handle] of [command/deploy_flow.go] adds for an
    accepted definition: a version, its nodes with the configuration of the
    definition and fresh ids, and its edges between these nodes. *)
From S2P Require Import Prelude Enums StateMachine Models Demo Store Shared FormValidation NodeConfig FormStorage Binding.
From S2P Require Import FlowDefinition Delegation PassRule Processors Engine Tenancy TaskService NodeService Commands Timeout.
From S2P Require Import FlowCommands FlowManagement Discipline EngineInv Traversal ServiceInv CommandInv.

(** ** Lists that correspond element by element *)
Lemma Forall2_filter {A B} (R : A → B → Prop) (p : A → bool) (q : B → bool) l k :
  (∀ x y, x ∈ l → R x y → p x = q y) → Forall2 R l k → Forall2 R (List.filter p l) (List.filter q k).
Proof.
  intros Hpq Hr. induction Hr as [|a b l k Hab Hr IH]; cbn; [constructor|].
  rewrite (Hpq a b) by (done || set_solver). assert (Forall2 R (List.filter p l) (List.filter q k)).
  { apply IH. intros x y Hx. apply Hpq. set_solver. }
  destruct (q b); [by constructor|done].
Qed.
Lemma foldl_insert_lookup {V} (key : V → string) {W} (val : V → W) (l : list V) : ∀ (m : gmap string W) x,
  NoDup (key <$> l) → x ∈ l → foldl (λ m x, <[key x := val x]> m) m l !! key x = Some (val x).
Proof.
  induction l as [|y l IH]; intros m x Hnd Hx; [by apply elem_of_nil in Hx|]. cbn in Hnd |- *.
  apply NoDup_cons in Hnd as [Hy Hnd]. apply elem_of_cons in Hx as [->|Hx]; [|by apply IH].
  clear IH Hnd. assert (∀ m' : gmap string W, m' !! key y = Some (val y) → foldl (λ m x, <[key x := val x]> m) m' l !! key y = Some (val y))
    as Hkeep; [|apply Hkeep, lookup_insert_eq].
  induction l as [|z l IH]; intros m' Hm'; [done|]. cbn in Hy |- *. apply IH; [set_solver|].
  rewrite lookup_insert_ne; [done|]. set_solver.
Qed.
Lemma foldl_insert_lookup_inv {V} (key : V → string) {W} (val : V → W) (l : list V) : ∀ (m : gmap string W) k w,
  foldl (λ m x, <[key x := val x]> m) m l !! k = Some w → m !! k = Some w ∨ ∃ x, x ∈ l ∧ key x = k ∧ val x = w.
Proof.
  induction l as [|y l IH]; intros m k w Hl; cbn in Hl; [by left|].
  apply IH in Hl as [Hl|(x & ? & ? & ?)]; [|right; exists x; set_solver].
  destruct (decide (key y = k)) as [<-|Hne].
  - rewrite lookup_insert_eq in Hl. injection Hl as <-. right. exists y. set_solver.
  - rewrite lookup_insert_ne in Hl by done. by left.
Qed.

Section rows.
Context `{!Host}.

(** Nodes with ids issued between two readings of the counter. *)
Definition issued (lo hi : nat) (ns : list FlowNode) : Prop :=
  NoDup (FlowNode_ID <$> ns) ∧ Forall (λ n, ∃ k, lo ≤ k ∧ k < hi ∧ FlowNode_ID n = gen_id k) ns.
Lemma issued_app lo mid hi ns ms :
  lo ≤ mid → mid ≤ hi → issued lo mid ns → issued mid hi ms → issued lo hi (ns ++ ms).
Proof.
  intros Hlo Hhi [Hd1 Hf1] [Hd2 Hf2]. split.
  - rewrite fmap_app. apply NoDup_app. split; [done|]. split; [|done].
    intros x (n & -> & Hn)%list_elem_of_fmap (m & Hid & Hm)%list_elem_of_fmap.
    rewrite Forall_forall in Hf1, Hf2. destruct (Hf1 _ Hn) as (k & _ & Hk & Ek).
    destruct (Hf2 _ Hm) as (k' & Hk' & _ & Ek'). rewrite Ek, Ek' in Hid. apply gen_id_inj in Hid. lia.
  - apply Forall_app. split; (eapply Forall_impl; [eassumption|]); intros n (k & ? & ? & ?);
      exists k; (split; [lia|]; split; [lia|done]).
Qed.
Lemma issued_nil lo hi : issued lo hi [].
Proof. split; constructor. Qed.

(** The row as it was inserted. *)
Definition stamped (n n' : FlowNode) : Prop := ∃ id, n' = set_FlowNode_ID id n.
Definition stampedEdge (e e' : FlowEdge) : Prop := ∃ id, e' = set_FlowEdge_ID id e.

(** The tables of nodes, edges and versions stay; ids move on. *)
Definition graphSame (s s' : St) : Prop :=
  db_nodes s' = db_nodes s ∧ db_edges s' = db_edges s ∧ db_next_id s ≤ db_next_id s'.
#[export] Instance graphSame_preorder : PreOrder graphSame.
Proof.
  split; [by repeat split|]. intros x y z (? & ? & ?) (? & ? & ?). split_and!; [congruence|congruence|lia].
Qed.

Lemma insertNode_run n s n' s' :
  insertNode n s = Ok (n', s') →
  n' = set_FlowNode_ID (gen_id (db_next_id s)) n ∧ db_nodes s' = db_nodes s ++ [n'] ∧
  db_edges s' = db_edges s ∧ db_next_id s' = S (db_next_id s).
Proof. destruct s. intros [= <- <-]. by repeat split. Qed.
Lemma insertNodes_from ns : ∀ acc s nodes s',
  foldM (λ acc n, n' ← insertNode n; mret (acc ++ [n'])) acc ns s = Ok (nodes, s') →
  ∃ new, nodes = acc ++ new ∧ db_nodes s' = db_nodes s ++ new ∧ db_edges s' = db_edges s ∧
    db_next_id s ≤ db_next_id s' ∧ issued (db_next_id s) (db_next_id s') new ∧ Forall2 stamped ns new.
Proof.
  induction ns as [|n ns IH]; intros acc s nodes s' Hrun; cbn [foldM] in Hrun.
  { injection Hrun as <- <-. exists []. rewrite !app_nil_r. split_and!; auto using issued_nil. }
  step Hrun as acc1 s1 E1. step E1 as n' s2 E2. injection E1 as <- <-.
  apply insertNode_run in E2 as (-> & Hn & He & Hid).
  destruct (IH _ _ _ _ Hrun) as (new & -> & Hn' & He' & Hle & Hiss & Hst).
  exists (set_FlowNode_ID (gen_id (db_next_id s)) n :: new). rewrite <-app_assoc. split_and!; try done.
  - by rewrite Hn', Hn, <-app_assoc.
  - congruence.
  - lia.
  - apply (issued_app _ (db_next_id s2) _ [_]); [lia|done| |done]. split; [apply NoDup_singleton|].
    constructor; [|constructor]. eexists. split; [done|]. split; [lia|]. by destruct n.
  - constructor; [by eexists|done].
Qed.
Lemma insertEdges_from es : ∀ u s u' s',
  foldM (λ _ e, insertEdge e) u es s = Ok (u', s') →
  ∃ new, db_edges s' = db_edges s ++ new ∧ db_nodes s' = db_nodes s ∧ db_next_id s ≤ db_next_id s' ∧
    Forall2 stampedEdge es new.
Proof.
  induction es as [|e es IH]; intros u s u' s' Hrun; cbn [foldM] in Hrun.
  { injection Hrun as _ <-. exists []. rewrite app_nil_r. split_and!; auto. }
  step Hrun as u1 s1 E1.
  assert (∃ e', stampedEdge e e' ∧ db_edges s1 = db_edges s ++ [e'] ∧ db_nodes s1 = db_nodes s ∧
    db_next_id s ≤ db_next_id s1) as (e' & Hst & He & Hn & Hle).
  { destruct s. injection E1 as _ <-. eexists. split; [by eexists|]. cbn. split_and!; try done. lia. }
  destruct (IH _ _ _ _ Hrun) as (new & He' & Hn' & Hle' & Hall).
  exists (e' :: new). split_and!; [by rewrite He', He, <-app_assoc|congruence|lia|by constructor].
Qed.

(** The planned rows follow the definition. *)
Definition plannedFor (versionID : string) (nodeData : gmap string NodeData) (d : NodeDefinition)
    (p : FlowNode * NodeData) : Prop :=
  nodeData !! NodeDefinition_ID d = Some p.2 ∧
  p.1 = ApplyTo p.2 versionID (NodeDefinition_ID d) (NodeDefinition_Kind d).
Lemma plannedNodes_Ok versionID nodeData defs ps :
  plannedNodes versionID nodeData defs = Ok ps → Forall2 (plannedFor versionID nodeData) defs ps.
Proof.
  revert ps. induction defs as [|d defs IH]; intros ps; cbn [plannedNodes]; [intros [= <-]; constructor|].
  rewrite result_bind_Ok. intros (p & Hp & Hrest). apply result_bind_Ok in Hrest as (qs & Hqs & [= <-]).
  constructor; [|by apply IH]. unfold plannedNode in Hp.
  destruct (nodeData !! NodeDefinition_ID d) eqn:Hd; [|done]. injection Hp as <-. done.
Qed.
Lemma edgeRows_Ok versionID ids es rs :
  edgeRows versionID ids es = Ok rs → Forall2 (λ e r, edgeRow versionID ids e = Ok r) es rs.
Proof.
  revert rs. induction es as [|e es IH]; intros rs; cbn [edgeRows]; [intros [= <-]; constructor|].
  rewrite result_bind_Ok. intros (r & Hr & Hrest). apply result_bind_Ok in Hrest as (qs & Hqs & [= <-]).
  constructor; [done|by apply IH].
Qed.
Lemma ApplyTo_columns data versionID key kind :
  let n := ApplyTo data versionID key kind in
  FlowNode_FlowVersionID n = versionID ∧ FlowNode_Key n = key ∧ FlowNode_Kind n = kind ∧
  FlowNode_Branches n = match data with NodeDataCondition d => ConditionNodeData_Branches d | _ => [] end.
Proof. by destruct data. Qed.

(** ** What a deployment writes *)
Definition nodeFor (versionID : string) (parsed : gmap string NodeData) (d : NodeDefinition) (n : FlowNode) : Prop :=
  ∃ data, parsed !! NodeDefinition_ID d = Some data ∧
    stamped (ApplyTo data versionID (NodeDefinition_ID d) (NodeDefinition_Kind d)) n.
Definition edgeFor (versionID : string) (ids : gmap string string) (d : EdgeDefinition) (e : FlowEdge) : Prop :=
  FlowEdge_FlowVersionID e = versionID ∧ FlowEdge_SourceHandle e = EdgeDefinition_SourceHandle d ∧
  ids !! EdgeDefinition_Source d = Some (FlowEdge_SourceNodeID e) ∧
  ids !! EdgeDefinition_Target d = Some (FlowEdge_TargetNodeID e).
Record deployed (def : FlowDefinition) (versionID : string) (parsed : gmap string NodeData)
    (nodes : list FlowNode) (edges : list FlowEdge) : Prop := {
  dpl_workflow : workflow def parsed;
  dpl_nodes : Forall2 (nodeFor versionID parsed) (FlowDefinition_Nodes def) nodes;
  dpl_ids : NoDup (FlowNode_ID <$> nodes);
  dpl_edges : Forall2 (edgeFor versionID (nodeKeyToID nodes)) (FlowDefinition_Edges def) edges;
}.

Lemma nodesFor_planned versionID parsed defs ps nodes :
  Forall2 (plannedFor versionID parsed) defs ps → Forall2 stamped ps.*1 nodes →
  Forall2 (nodeFor versionID parsed) defs nodes.
Proof.
  intros Hps. revert nodes. induction Hps as [|d p defs ps [Hd Hp] _ IH]; intros nodes Hst.
  - apply Forall2_nil_inv_l in Hst as ->. constructor.
  - apply Forall2_cons_inv_l in Hst as (n & nodes' & Hn & Hrest & ->). constructor; [|by apply IH].
    exists p.2. split; [done|]. by rewrite <-Hp.
Qed.
Lemma edgesFor_rows versionID ids defs rows edges :
  Forall2 (λ e r, edgeRow versionID ids e = Ok r) defs rows → Forall2 stampedEdge rows edges →
  Forall2 (edgeFor versionID ids) defs edges.
Proof.
  intros Hr. revert edges. induction Hr as [|d r defs rows Hrow _ IH]; intros edges Hst.
  - apply Forall2_nil_inv_l in Hst as ->. constructor.
  - apply Forall2_cons_inv_l in Hst as (e & edges' & [id ->] & Hrest & ->). constructor; [|by apply IH].
    unfold edgeRow in Hrow. destruct (ids !! EdgeDefinition_Source d) eqn:Hs; [|done].
    destruct (ids !! EdgeDefinition_Target d) eqn:Ht; [|done]. injection Hrow as <-. by split_and!.
Qed.
Lemma graphSame_freshID : keeps graphSame freshID.
Proof. intros [] a s' [=]; subst. split_and!; cbn; try done. lia. Qed.
Lemma graphSame_node_assignees f : keeps graphSame (modify (E := Error) (upd_node_assignees f)).
Proof. intros [] a s' [=]; subst. by split_and!. Qed.
Lemma graphSame_node_ccs f : keeps graphSame (modify (E := Error) (upd_node_ccs f)).
Proof. intros [] a s' [=]; subst. by split_and!. Qed.
#[local] Hint Resolve graphSame_freshID graphSame_node_assignees graphSame_node_ccs : keeps.

Lemma DeployFlow_run cmd s v s' :
  DeployFlowHandler_Handle cmd s = Ok (v, s') →
  ∃ parsed nodes edges, deployed (dep_FlowDefinition cmd) (FlowVersion_ID v) parsed nodes edges ∧
    FlowVersion_ID v = gen_id (db_next_id s) ∧ db_next_id s < db_next_id s' ∧
    db_nodes s' = db_nodes s ++ nodes ∧ db_edges s' = db_edges s ++ edges.
Proof.
  intros Hrun. unfold DeployFlowHandler_Handle, loadDeployFlow, findFlow, nextVersionNumber in Hrun.
  step Hrun as planned ? Ep. apply liftR_Ok in Ep as [Hplan ->].
  step Hrun as loaded ? E. step E as f ? E'. apply orThrow_gets_Ok in E' as [_ ->].
  step E as b ? E'. apply liftR_Ok in E' as [_ ->]. injection E as <- <-.
  step Hrun as num ? E. injection E as <- <-. step Hrun as ver s1 Ever.
  step Hrun as ps ? E. apply liftR_Ok in E as [Hps%plannedNodes_Ok ->].
  step Hrun as nodes s2 En. step Hrun as ? s3 Ea. step Hrun as ? s4 Ec.
  step Hrun as rows ? E. apply liftR_Ok in E as [Hrows%edgeRows_Ok ->].
  step Hrun as ? s5 Ee. step Hrun as ? s6 Ev. injection Hrun as <- <-.
  assert (FlowVersion_ID ver = gen_id (db_next_id s) ∧ db_nodes s1 = db_nodes s ∧ db_edges s1 = db_edges s ∧
    db_next_id s1 = S (db_next_id s)) as (Hver & Hn1 & He1 & Hi1).
  { destruct s. injection Ever as <- <-. done. }
  apply insertNodes_from in En as (new & Hnew & Hn2 & He2 & Hi2 & [Hnd _] & Hst). cbn in Hnew. subst new.
  assert (graphSame s2 s4) as (Hn4 & He4 & Hi4).
  { transitivity s3.
    - refine ((_ : keeps graphSame _) _ _ _ Ea). unfold insertNodeAssignee. keeps_tac.
    - refine ((_ : keeps graphSame _) _ _ _ Ec). unfold insertNodeCC. keeps_tac. }
  apply insertEdges_from in Ee as (edges & He5 & Hn5 & Hi5 & Hste).
  assert (db_nodes s6 = db_nodes s5 ∧ db_edges s6 = db_edges s5 ∧ db_next_id s6 = db_next_id s5) as (Hn6 & He6 & Hi6).
  { destruct s5. by injection Ev as _ <-. }
  unfold validate in Hplan. apply result_bind_Ok in Hplan as (parsed & Hparsed & Hplan).
  exists parsed, nodes, edges. split_and!; [|done|lia|congruence|congruence].
  assert (pln_nodeData planned = parsed) as Hpd.
  { repeat match goal with
    | H : (_ ≫= _) = Ok _ |- _ => apply result_bind_Ok in H as (? & _ & H)
    end. by injection Hplan as <-. }
  rewrite Hpd in Hps. constructor; [|by eapply nodesFor_planned|done|by eapply edgesFor_rows].
  apply validated_workflow. by destruct (ValidateFlowDefinition _); [injection Hparsed as ->|].
Qed.
Lemma nodeFor_columns vid parsed d n :
  nodeFor vid parsed d n → FlowNode_FlowVersionID n = vid ∧ FlowNode_Key n = NodeDefinition_ID d ∧
    FlowNode_Kind n = NodeDefinition_Kind d.
Proof.
  intros (data & _ & id & ->). destruct (ApplyTo_columns data vid (NodeDefinition_ID d) (NodeDefinition_Kind d))
    as (H1 & H2 & H3 & _). by destruct (ApplyTo _ _ _ _).
Qed.
End rows.
