(* ===== verification/System.v ===== *)
(** * The system of all commands and jobs

    The remaining handlers (copies, urges, starting an instance, publishing and
    toggling) keep the visit discipline too.  [Command] and [exec] put the
    handlers together, [Job] and [runJob] the scheduled jobs, [execTx] and [jobTx]
    run one in its own transaction, and the invariants hold in every store reachable
    from one without instances. *)
From S2P Require Import Prelude Enums StateMachine Models Demo Store Shared FormValidation FormStorage Delegation Binding.
From S2P Require Import PassRule Processors Engine Tenancy TaskService NodeService Commands FlowCommands Discipline EngineInv.
From S2P Require Import Timeout FlowManagement Traversal ServiceInv CommandInv LifecycleInv TimeoutInv Rows.

(** ** Writes outside the instance tables *)
Section side.
Context `{!Host}.

Lemma sideOnly_orderly s I s' :
  disciplined s → instancesOf s I ≠ [] → sideOnly I s s' →
  disciplined s' ∧ evolves s s' ∧ ∃ J, othersSame J s s'.
Proof.
  intros [Hw Hr Hi] Hk (Htch & Hts & Hvs & His). destruct (Htch Hw Hr Hk) as [Ht _].
  split; [|split; [exact (tch_evolves _ _ _ Ht)|exists I; exact (tch_others _ _ _ Ht)]].
  constructor; [exact (tch_wf _ _ _ Ht)|exact (tch_refs _ _ _ Ht)|].
  intros i. rewrite His. intros Hin. specialize (Hi i Hin).
  unfold inst_ok, seated, quiet, openAt, visitsOf, tasksOf in *. by rewrite Hts, Hvs.
Qed.

Lemma sideOnly_AllowsInstanceAccess I c i t u : keeps (sideOnly I) (AllowsInstanceAccess c i t u).
Proof. unfold AllowsInstanceAccess, isRoutedTo. keeps_tac. Qed.
Lemma sideOnly_InsertCCRecords I i n v us infos m : keeps (sideOnly I) (InsertCCRecords i n v us infos m).
Proof. unfold InsertCCRecords. keeps_tac. Qed.
Hint Resolve sideOnly_AllowsInstanceAccess sideOnly_InsertCCRecords : keeps.

Lemma sideOnly_UrgeTask I cmd : keeps (sideOnly I) (UrgeTaskHandler_Handle cmd).
Proof.
  unfold UrgeTaskHandler_Handle, IsUrgeAuthorized, isDecisionParticipant, orThrow, findTask,
    findInstance, findNode. keeps_tac.
Qed.
Lemma sideOnly_AddCC I cmd : keeps (sideOnly I) (AddCCHandler_Handle cmd).
Proof.
  unfold AddCCHandler_Handle, LoadForUpdateAs, IsAuthorizedForNodeOperation, InsertManualCCRecords,
    FindActiveNodeVisit, orThrow, findInstance, findNode, findFlow. keeps_tac.
Qed.

Lemma orderly_UrgeTask cmd : orderly (UrgeTaskHandler_Handle cmd).
Proof.
  intros s a s' Hd Hrun. pose proof Hrun as Hstep. unfold UrgeTaskHandler_Handle in Hstep.
  step Hstep as t s1 H1. apply orThrow_gets_Ok in H1 as [Ht _]. apply findBy_Ok in Ht as [Ht _].
  eapply (sideOnly_orderly s (Task_InstanceID t)); [done| |by eapply sideOnly_UrgeTask].
  by apply (refs_tasks _ (disc_refs _ Hd)).
Qed.
Lemma orderly_AddCC cmd : orderly (AddCCHandler_Handle cmd).
Proof.
  intros s a s' Hd Hrun. pose proof Hrun as Hstep. unfold AddCCHandler_Handle in Hstep.
  step Hstep as i s1 H1. apply LoadForUpdateAs_Ok in H1 as (_ & Hi & _ & _).
  eapply (sideOnly_orderly s (Instance_ID i)); [done| |by eapply sideOnly_AddCC].
  by apply known_instance.
Qed.
End side.
#[export] Hint Resolve sideOnly_AllowsInstanceAccess sideOnly_InsertCCRecords : keeps.

(** ** The read-confirm gate *)
Section read_confirm.
Context `{!Host}.

(** Nobody is asked to act at a node of another kind. *)
Lemma working_idle s0 i n v s :
  working s0 i n v s → isWorkKind (FlowNode_Kind n) = false → noneOpen (Build_ProcessContext i n v) s.
Proof.
  intros Hwk Hk t Ht. destruct (isOpen t) eqn:Ho; [|done].
  destruct (ent_open _ _ _ _ _ (wk_entered _ _ _ _ _ Hwk) t Ht Ho) as [_ HN].
  destruct (working_framed _ _ _ _ _ Hwk) as (_ & Hr & (_ & _ & Hn)).
  apply elem_of_tselect in Ht as [_ Ht]. destruct (refs_work _ Hr t Ht) as (n' & Hn' & Hid & Hwork).
  rewrite HN in Hid. pose proof (NoDup_key_inj FlowNode_ID _ _ _ (refs_nodes _ Hr) Hn' Hn Hid) as Heq.
  cbn in Heq. subst n'. congruence.
Qed.

Lemma AdvanceCC_orderly I records s u s' :
  disciplined s → instancesOf s I ≠ [] → AdvanceCCNodeIfAllRead I records s = Ok (u, s') →
  disciplined s' ∧ evolves s s' ∧ othersSame I s s'.
Proof.
  intros Hd Hk Hrun. unfold AdvanceCCNodeIfAllRead in Hrun.
  assert (∀ v s1, mret (M := M) tt s = Ok (v, s1) → disciplined s1 ∧ evolves s s1 ∧ othersSame I s s1) as Hid.
  { intros v s1 [= _ <-]. split; [done|]. split; [reflexivity|by intros J ?]. }
  destruct (_ =? 0)%nat; [by eapply Hid|].
  step Hrun as i s1 H1. apply orThrow_gets_Ok in H1 as [Hi ->]. apply findBy_Ok in Hi as [Hi HI].
  case_bool_decide as Hst; cbn in Hrun; [|by eapply Hid].
  destruct (Instance_CurrentNodeID i) as [n|] eqn:Hcur; [|by eapply Hid].
  destruct (negb _); [by eapply Hid|].
  step Hrun as nd s2 H2. apply orThrow_gets_Ok in H2 as [Hnd ->]. apply findBy_Ok in Hnd as [Hnd Hndid].
  destruct (negb _ || negb _) eqn:Hkind; [by eapply Hid|].
  apply orb_false_iff in Hkind as [Hkind _]. apply negb_false_iff, bool_decide_eq_true in Hkind.
  destruct (disciplined_working _ _ _ _ Hd Hi Hst Hcur Hnd Hndid) as (v & Hwk).
  assert (noneOpen (Build_ProcessContext i nd v) s) as Hno by (eapply working_idle; [done|by rewrite Hkind]).
  step Hrun as vis s3 H3. unfold FindActiveNodeVisit in H3. apply orThrow_gets_Ok in H3 as [_ ->].
  step Hrun as un s4 H4. injection H4 as _ <-. destruct un; [by eapply Hid|].
  step Hrun as u5 s5 H5. rewrite <-HI, <-Hndid in H5. assert (NodeVisitPassed ≠ NodeVisitActive) as Hne by done.
  destruct (working_ready _ _ _ _ _ _ _ _ Hwk Hno Hne H5) as [Ht5 Hrdy5].
  step Hrun as i' s6 H6. injection Hrun as _ <-. eapply AdvanceToNextNode_settled in H6; [|done].
  apply (settled_weaken _ _ _ _ _ Ht5) in H6. rewrite <-HI.
  split; [eapply settled_others; [|exact H6]; intros j Hj _; by apply (disc_inst _ Hd)|].
  split; [exact (tch_evolves _ _ _ (stl_touched _ _ _ _ H6))|exact (tch_others _ _ _ (stl_touched _ _ _ _ H6))].
Qed.

Lemma orderly_MarkCCRead cmd : orderly (MarkCCReadHandler_Handle cmd).
Proof.
  intros s a s' Hd Hrun. unfold MarkCCReadHandler_Handle, findInstance in Hrun.
  assert (∀ v s1, mret (M := M) tt s = Ok (v, s1) → disciplined s1 ∧ evolves s s1 ∧ ∃ I, othersSame I s s1) as Hid.
  { intros v s1. by apply (orderly_reads (mret tt)), Hd; apply keeps_ret, _. }
  step Hrun as o s1 H1. injection H1 as Ho <-. destruct o as [i|]; [|by eapply Hid].
  apply findBy_Ok in Ho as [Hi HI]. step Hrun as al s2 H2.
  apply reads_AllowsInstanceAccess in H2 as <-. destruct (negb al); [by eapply Hid|].
  step Hrun as recs s3 H3. injection H3 as <- <-. destruct (length _ =? 0)%nat; [by eapply Hid|].
  step Hrun as now s4 H4. step Hrun as k s5 H5.
  assert (sideOnly (Instance_ID i) s s5) as Hside.
  { etrans; [by eapply sideOnly_Now|by eapply sideOnly_updateCCRecords]. }
  assert (instancesOf s (Instance_ID i) ≠ []) as Hk by (by apply known_instance).
  pose proof Hside as (_ & _ & _ & His5).
  destruct Hside as (Htch & Hts & Hvs & _). destruct (Htch (disc_wf _ Hd) (disc_refs _ Hd) Hk) as [Ht5 Hk5].
  destruct (sideOnly_orderly _ _ _ Hd Hk (conj Htch (conj Hts (conj Hvs His5)))) as (Hd5 & He5 & _).
  rewrite <-HI in Hrun. destruct (AdvanceCC_orderly _ _ _ _ _ Hd5 Hk5 Hrun) as (Hd6 & He6 & Ho6).
  split; [done|]. split; [by etrans|]. exists (Instance_ID i).
  intros J HJ. destruct (Ho6 J HJ) as (-> & -> & ->). by apply (tch_others _ _ _ Ht5).
Qed.
End read_confirm.

(** ** Starting an instance *)
Section starting.
Context `{!Host}.

Lemma insertInstance_ready i s i' s' :
  wf s → refs_ok s → Instance_Status i = InstanceRunning → insertInstance i s = Ok (i', s') →
  touched (Instance_ID i') s s' ∧ ready s' i'.
Proof.
  intros Hw Hr Hst Hrun. pose proof (safe_insertInstance i s i' s' Hrun Hw) as [He Hw'].
  assert (i' = set_Instance_CreatedAt (clock_reading (db_clock s))
                 (set_Instance_ID (gen_id (db_next_id s)) i) ∧
          db_instances s' = db_instances s ++ [i'] ∧ db_tasks s' = db_tasks s ∧
          db_visits s' = db_visits s ∧ db_nodes s' = db_nodes s ∧ db_edges s' = db_edges s)
    as (Hi & His & Hts & Hvs & Hns & Hes).
  { destruct s; injection Hrun as ? ?; by subst. }
  assert (Instance_ID i' = gen_id (db_next_id s) ∧ Instance_Status i' = InstanceRunning) as [Hid Hst'].
  { subst i'. by destruct i. }
  assert (instancesOf s (Instance_ID i') = []) as Hfresh.
  { apply tselect_nil. intros r Hin. apply bool_decide_eq_false_2. intros Heq.
    apply (ids_ok_fresh _ _ (wf_instances _ Hw)). rewrite <-Hid, <-Heq. by apply list_elem_of_fmap_2. }
  assert (∀ J, instancesOf s J ≠ [] → instancesOf s' J ≠ []) as Hmono.
  { intros J HJ. unfold instancesOf. rewrite His, tselect_app. by destruct (tselect _ (db_instances s)) eqn:E. }
  assert (refs_ok s') as Hr'.
  { destruct Hr as [R1 R2 R3 R4 R5 R6 R7 R8]. constructor; unfold visit_ref, parent_ref, workNode, edgesHome, homeNode in *;
      rewrite ?Hts, ?Hvs, ?Hns, ?Hes; auto.
    rewrite His. intros v j Hv [Hj| ->%list_elem_of_singleton]%elem_of_app HI; [by apply R7|].
    destruct (R2 v Hv). by rewrite <-HI. }
  split; [constructor; auto|].
  - intros J HJ. unfold tasksOf, visitsOf, instancesOf. rewrite Hts, Hvs, His.
    rewrite tselect_snoc_other; [done|]. by apply bool_decide_eq_false_2.
  - constructor; [done|done| |done|].
    + exists i'. rewrite His. split_and!; [set_solver|done|done|done].
    + split; unfold visitsOf, tasksOf; rewrite ?Hvs, ?Hts; intros x [HI Hx]%elem_of_tselect;
        apply bool_decide_eq_true in HI; exfalso;
        [apply (refs_visits _ Hr x Hx)|apply (refs_tasks _ Hr x Hx)]; by rewrite HI.
Qed.

(** Columns of the row that the transition machinery does not look at. *)
Lemma ready_updateInstances s0 s i f k s' :
  touched (Instance_ID i) s0 s → ready s i →
  (∀ r, Instance_ID (f r) = Instance_ID r ∧ Instance_Status (f r) = Instance_Status r ∧
        instance_evolves r (f r)) →
  updateInstances (λ r, Instance_ID r ==? Instance_ID i) f s = Ok (k, s') →
  touched (Instance_ID i) s0 s' ∧ ready s' i.
Proof.
  intros Ht Hrdy Hf [=]; subst. set (p := λ r, Instance_ID r ==? Instance_ID i).
  assert (touches (Instance_ID i) s (upd_instances (tupdate p f) s)) as Htch.
  { apply touches_instances_in. intros r _ Hp%bool_decide_eq_true. split; [done|]. apply Hf. }
  destruct (Htch (rdy_wf _ _ Hrdy) (rdy_refs _ _ Hrdy) (ready_known _ _ Hrdy)) as [Ht2 _].
  split; [by eapply touched_trans|]. destruct Hrdy as [_ _ (row & Hrow & Hrid & Hst & Hver) Hi Hq].
  constructor; [exact (tch_wf _ _ _ Ht2)|exact (tch_refs _ _ _ Ht2)| |done|].
  - destruct (Hf row) as (E1 & E2 & (_ & _ & _ & E3 & _)). exists (f row). split; [|split_and!; congruence].
    destruct s; cbn in *. apply elem_of_tupdate. exists row.
    split; [done|]. unfold p. by rewrite bool_decide_eq_true_2.
  - unfold quiet, visitsOf, tasksOf in *. by destruct s.
Qed.

Lemma Bind_ready s0 s flow version i i' s' :
  touched (Instance_ID i) s0 s → ready s i → Projector_Bind flow version i s = Ok (i', s') →
  Instance_ID i' = Instance_ID i ∧ touched (Instance_ID i) s0 s' ∧ ready s' i'.
Proof.
  intros Ht Hrdy Hrun. unfold Projector_Bind in Hrun.
  destruct (FlowVersion_BusinessBinding version) as [b|]; [|by injection Hrun as <- <-].
  step Hrun as p s1 E1. apply (sideOnly_claimTarget (Instance_ID i)) in E1.
  destruct (ready_sideOnly _ _ _ _ Ht Hrdy E1) as [Ht1 Hrdy1].
  step Hrun as k s2 E2. eapply ready_updateInstances in E2 as [Ht2 Hrdy2]; [|done|done|];
    [|intros []; cbn; repeat split; reflexivity].
  step Hrun as u s3 E3. injection Hrun as <- <-. apply (sideOnly_applySynchronously (Instance_ID i)) in E3.
  destruct (ready_sideOnly _ _ _ _ Ht2 Hrdy2 E3) as [Ht3 Hrdy3].
  split; [by destruct i|]. split; [done|]. refine (ready_instance _ _ _ _ _ _ Hrdy3); by destruct i.
Qed.
Lemma bindBusiness_ready s0 s flow version i i' s' :
  touched (Instance_ID i) s0 s → ready s i → bindBusiness flow version i s = Ok (i', s') →
  Instance_ID i' = Instance_ID i ∧ touched (Instance_ID i) s0 s' ∧ ready s' i'.
Proof.
  intros Ht Hrdy Hrun. unfold bindBusiness in Hrun.
  destruct (FlowVersion_BusinessBinding version) as [b|]; [|by injection Hrun as <- <-].
  step Hrun as ref s1 H1. apply liftR_Ok in H1 as [_ ->]. step Hrun as i2 s2 H2.
  assert (Instance_ID i2 = Instance_ID i ∧ touched (Instance_ID i) s0 s2 ∧ ready s2 i2) as (Hid2 & Ht2 & Hrdy2).
  { destruct (negb _ && _); [|by injection H2 as <- <-]. step H2 as k s3 H3. injection H2 as <- <-.
    assert (Instance_ID (set_Instance_BusinessRef (Some (TrimSpace ref)) i) = Instance_ID i) as Hid by (by destruct i).
    split; [done|]. rewrite Hid in H3. eapply ready_updateInstances in H3 as [? ?]; [|done|done|].
    - split; [done|]. eapply ready_instance; [done| | |done]; by destruct i.
    - intros []; cbn. repeat split; reflexivity. }
  rewrite <-Hid2. rewrite <-Hid2 in Ht2. by eapply Bind_ready.
Qed.

Lemma sideOnly_OnInstanceCreated I i : keeps (sideOnly I) (LifecycleHookRunner_OnInstanceCreated i).
Proof. unfold LifecycleHookRunner_OnInstanceCreated, runHooks. keeps_tac. Qed.

(** A start: the instance is created, bound, announced and sent on its way. *)
Lemma StartInstance_run cmd s a s' :
  StartInstanceHandler_Handle cmd s = Ok (a, s') →
  ∃ row i s1 flow version i2 s2 log,
    Instance_Status row = InstanceRunning ∧ Instance_BusinessProjectionID row = None ∧
    insertInstance row s = Ok (i, s1) ∧ bindBusiness flow version i s1 = Ok (i2, s2) ∧
    (SyncInstanceProjection i2;; addActionLog log;; LifecycleHookRunner_OnInstanceCreated i2;;
     EmitEvents [NewInstanceCreatedEvent i2];; StartProcess i2) s2 = Ok (a, s').
Proof.
  intros Hrun. unfold StartInstanceHandler_Handle in Hrun.
  step Hrun as tenant s1 H1. apply liftR_Ok in H1 as [_ ->].
  step Hrun as flow s2 H2. assert (s2 = s) as ->.
  { unfold FindStartFlow in H2. step H2 as fl s3 H3. injection H3 as _ <-.
    destruct (pickStartFlow _ _ _); [by injection H2 as _ <-|done]. }
  step Hrun as u3 s3 H3. apply throwIf_Ok in H3 as [_ ->]. step Hrun as al s4 H4.
  assert (s4 = s) as ->.
  { unfold CheckInitiationPermission, InitiableFlowIDs in H4. step H4 as ids s5 H5.
    step H5 as rules s6 H6. injection H6 as _ <-. apply liftR_Ok in H5 as [_ ->]. by injection H4 as _ <-. }
  step Hrun as u5 s5 H5. apply throwIf_Ok in H5 as [_ ->].
  step Hrun as ver s6 H6. apply orThrow_gets_Ok in H6 as [_ ->].
  step Hrun as u7 s7 H7. apply liftR_Ok in H7 as [_ ->].
  step Hrun as no s8 H8. apply liftR_Ok in H8 as [_ ->].
  step Hrun as title s9 H9. apply liftR_Ok in H9 as [_ ->].
  step Hrun as i s10 H10. step Hrun as i11 s11 H11.
  eexists _, i, s10, flow, ver, i11, s11, _. split; [|split; [|split; [exact H10|split; [exact H11|exact Hrun]]]]; done.
Qed.
Lemma orderly_StartInstance cmd : orderly (StartInstanceHandler_Handle cmd).
Proof.
  intros s a s' Hd (row & i & s10 & flow & ver & i11 & s11 & log & Hst & _ & H10 & H11 & Hrun)%StartInstance_run.
  apply insertInstance_ready in H10 as [Ht10 Hrdy10]; [|apply Hd|apply Hd|done].
  destruct (bindBusiness_ready _ _ _ _ _ _ _ Ht10 Hrdy10 H11) as (Hid11 & Ht11 & Hrdy11).
  rewrite <-Hid11 in Ht11. step Hrun as u12 s12 H12. step Hrun as u13 s13 H13.
  step Hrun as u14 s14 H14. step Hrun as u15 s15 H15.
  assert (sideOnly (Instance_ID i11) s11 s15) as Hside.
  { etrans; [by eapply sideOnly_SyncInstanceProjection|]. etrans; [by eapply sideOnly_addActionLog|].
    etrans; [by eapply sideOnly_OnInstanceCreated|by eapply sideOnly_EmitEvents]. }
  destruct (ready_sideOnly _ _ _ _ Ht11 Hrdy11 Hside) as [Ht15 Hrdy15].
  eapply StartProcess_settled in Hrun; [|done]. eapply settled_orderly; [done|].
  by eapply settled_weaken.
Qed.
End starting.

(** ** Definitions: publishing and toggling *)
Section definitions.
Context `{!Host}.

(** The store moves on: rows evolve, nothing is lost; definitions are only added. *)
Record advances (s s' : St) : Prop := {
  adv_tasks : table_evolves task_evolves (db_tasks s) (db_tasks s');
  adv_instances : table_evolves instance_evolves (db_instances s) (db_instances s');
  adv_visits : table_evolves visit_evolves (db_visits s) (db_visits s');
  adv_events : db_events s `prefix_of` db_events s';
  adv_logs : db_logs s `prefix_of` db_logs s';
  adv_nodes : db_nodes s `prefix_of` db_nodes s';
  adv_edges : db_edges s `prefix_of` db_edges s';
  adv_next_id : db_next_id s ≤ db_next_id s';
}.
#[export] Instance advances_preorder : PreOrder advances.
Proof.
  split.
  - intros s. constructor; reflexivity.
  - intros x y z [] []. constructor; try (by etrans); lia.
Qed.
Lemma evolves_advances s s' : evolves s s' → advances s s'.
Proof. intros [? ? ? ? ? Hn He ?]. constructor; rewrite ?Hn, ?He; done. Qed.

(** Node ids are not reissued. *)
Definition freshNodes (s : St) : Prop := ∀ k, db_next_id s ≤ k → gen_id k ∉ FlowNode_ID <$> db_nodes s.
Definition lawful {A} (m : M A) : Prop := ∀ s a s',
  disciplined s → freshNodes s → m s = Ok (a, s') →
  disciplined s' ∧ freshNodes s' ∧ advances s s' ∧ ∃ I, othersSame I s s'.
Lemma orderly_lawful {A} (m : M A) : orderly m → lawful m.
Proof.
  intros Hm s a s' Hd Hf Hrun. destruct (Hm _ _ _ Hd Hrun) as (Hd' & He & Ho).
  split; [done|]. split; [|split; [by apply evolves_advances|done]].
  intros k Hk. rewrite (ev_nodes _ _ He). apply Hf. pose proof (ev_next_id _ _ He). lia.
Qed.

(** Definitions are added; the tables of running work are not written. *)
Record addsRows (s s' : St) : Prop := {
  dfs_tasks : db_tasks s' = db_tasks s;
  dfs_visits : db_visits s' = db_visits s;
  dfs_instances : db_instances s' = db_instances s;
  dfs_logs : db_logs s' = db_logs s;
  dfs_events : db_events s `prefix_of` db_events s';
  dfs_edges : db_edges s `prefix_of` db_edges s';
  dfs_next_id : db_next_id s ≤ db_next_id s';
  dfs_nodes : ∃ ns, db_nodes s' = db_nodes s ++ ns ∧ issued (db_next_id s) (db_next_id s') ns;
}.
#[export] Instance addsRows_preorder : PreOrder addsRows.
Proof.
  split.
  - intros s. constructor; try reflexivity. exists []. rewrite app_nil_r. split; [done|apply issued_nil].
  - intros x y z [? ? ? ? ? ? ? (ns & Hns & Hi1)] [? ? ? ? ? ? ? (ms & Hms & Hi2)].
    constructor; try congruence; try (by etrans). exists (ns ++ ms).
    rewrite Hms, Hns, app_assoc. split; [done|]. by eapply issued_app.
Qed.
(** Moreover edges keep leaving nodes of their own version. *)
Definition defines (s s' : St) : Prop := addsRows s s' ∧ (edgesHome s → edgesHome s').
#[export] Instance defines_preorder : PreOrder defines.
Proof. split; [intros s; split; [reflexivity|done]|]. intros x y z [? ?] [? ?]. split; [by etrans|auto]. Qed.
(** The definition tables are free to change. *)
Ltac adding := intros [] ? ? [=]; subst; constructor; cbn; try done; try lia;
  try (by eexists); exists []; rewrite app_nil_r; split; [done|apply issued_nil].
Ltac defining := let s := fresh in let a := fresh in let s' := fresh in let Hrun := fresh in
  intros s a s' Hrun; split; [revert s a s' Hrun; adding|destruct s; injection Hrun as; subst; exact id].
Instance defines_off : OffDefinitions defines.
Proof. split; try exact _; intros; defining. Qed.
Instance addsRows_off : OffDefinitions addsRows.
Proof. split; try exact _; intros; adding. Qed.
Lemma defines_Now : keeps defines Now.
Proof. defining. Qed.
Lemma defines_EmitEvents evs : keeps defines (EmitEvents evs).
Proof. defining. Qed.
Lemma defines_projections f : keeps defines (modify (E := Error) (upd_projections f)).
Proof. defining. Qed.
Lemma defines_business f : keeps defines (modify (E := Error) (upd_business f)).
Proof. defining. Qed.
Lemma addsRows_insertEdge e : keeps addsRows (insertEdge e).
Proof. adding. Qed.
Lemma addsRows_insertNode n : keeps addsRows (insertNode n).
Proof.
  intros [] a s' [=]; subst. constructor; cbn; try done; try lia.
  eexists. split; [done|]. split; cbn; [apply NoDup_singleton|]. constructor; [|constructor].
  eexists. split; [done|]. split; [lia|]. by destruct n.
Qed.
Hint Resolve defines_Now defines_EmitEvents defines_projections defines_business : keeps.
(** The edges of a deployment join its own nodes. *)
Lemma defines_DeployFlow cmd : keeps defines (DeployFlowHandler_Handle cmd).
Proof.
  intros s v s' Hrun. split.
  - revert s v s' Hrun. apply off_DeployFlow; [apply _|apply addsRows_insertNode|apply addsRows_insertEdge].
  - apply DeployFlow_run in Hrun as (parsed & nodes & edges & Hdep & _ & _ & Hn & He). intros Hhome e.
    unfold homeNode. rewrite Hn, He. intros [Hin|Hin]%elem_of_app.
    + destruct (Hhome e Hin) as (n & ? & ?). exists n. set_solver.
    + destruct (Forall2_elem_r _ _ _ _ (dpl_edges _ _ _ _ _ Hdep) Hin) as (d & _ & -> & _ & Hsrc & _).
      apply (foldl_insert_lookup_inv FlowNode_Key FlowNode_ID) in Hsrc as [Hl|(n & Hnin & _ & Hid)];
        [by rewrite lookup_empty in Hl|]. exists n. rewrite elem_of_app.
      destruct (Forall2_elem_r _ _ _ _ (dpl_nodes _ _ _ _ _ Hdep) Hnin) as (nd & _ & (? & _)%nodeFor_columns). auto.
Qed.

Lemma defines_lawful s s' :
  disciplined s → freshNodes s → defines s s' →
  disciplined s' ∧ freshNodes s' ∧ advances s s' ∧ ∀ I, othersSame I s s'.
Proof.
  intros [[W1 W2 W3] [R1 R2 R3 R4 R5 R6 R7 R8] Hi] Hf [[Ht Hv His Hl Hev He Hid (ns & Hn & Hnd & Hns)] Hhome].
  rewrite Forall_forall in Hns.
  split; [|split; [|split; [|intros I J _; unfold tasksOf, visitsOf, instancesOf; by rewrite Ht, Hv, His]]].
  - constructor.
    + constructor; rewrite ?Ht, ?Hv, ?His; by eapply ids_ok_mono.
    + constructor; unfold visit_ref, parent_ref, instancesOf in *; rewrite ?Ht, ?Hv, ?His; auto.
      * rewrite Hn, fmap_app. apply NoDup_app. split; [done|]. split; [|done].
        intros x Hx (n & -> & Hin)%list_elem_of_fmap. destruct (Hns n Hin) as (k & Hk & _ & Ek).
        rewrite Ek in Hx. by eapply Hf.
      * intros t Hin. destruct (R6 t Hin) as (n & Hnin & ?). exists n. rewrite Hn, elem_of_app. auto.
      * intros v i Hvin Hiin Hvi. destruct (R7 v i Hvin Hiin Hvi) as (n & Hnin & ?). exists n. rewrite Hn, elem_of_app. auto.
    + intros i. rewrite His. intros Hin. specialize (Hi i Hin).
      unfold inst_ok, seated, quiet, openAt, visitsOf, tasksOf in *. by rewrite Ht, Hv.
  - intros k Hk. rewrite Hn, fmap_app, not_elem_of_app. split; [apply Hf; lia|].
    intros (n & Heq & Hin)%list_elem_of_fmap. destruct (Hns n Hin) as (k' & _ & Hk' & Ek).
    rewrite Ek in Heq. apply gen_id_inj in Heq. lia.
  - constructor; rewrite ?Ht, ?Hv, ?His, ?Hl; try done; try reflexivity. rewrite Hn. by eexists.
Qed.
Lemma lawful_defines {A} (m : M A) : keeps defines m → lawful m.
Proof.
  intros Hm s a s' Hd Hf Hrun. destruct (defines_lawful _ _ Hd Hf (Hm _ _ _ Hrun)) as (? & ? & ? & Ho).
  split_and!; try done. by exists "".
Qed.
(** The collectors do not matter. *)
Lemma defines_pipeline s b : defines s (set_pipeline b s).
Proof.
  destruct s. split; [constructor; cbn; try done|exact id]. exists []. rewrite app_nil_r. split; [done|apply issued_nil].
Qed.
Lemma outside_lawful {A} (m : M A) s a s' :
  disciplined s → freshNodes s →
  (∀ s1 s2, s1 = set_pipeline false s → disciplined s1 → m s1 = Ok (a, s2) →
     disciplined s2 ∧ evolves s1 s2 ∧ ∃ I, othersSame I s1 s2) →
  outsidePipeline m s = Ok (a, s') →
  disciplined s' ∧ freshNodes s' ∧ advances s s' ∧ ∃ I, othersSame I s s'.
Proof.
  intros Hd Hf Hm Hrun. unfold outsidePipeline in Hrun.
  destruct (m (set_pipeline false s)) as [[x s2]|e] eqn:E; [|done]. injection Hrun as -> <-.
  destruct (defines_lawful _ _ Hd Hf (defines_pipeline s false)) as (Hd1 & Hf1 & Ha1 & Ho1).
  destruct (Hm _ _ eq_refl Hd1 E) as (Hd2 & He2 & I & Ho2).
  assert (freshNodes s2) as Hf2.
  { intros k Hk. rewrite (ev_nodes _ _ He2). apply Hf1. pose proof (ev_next_id _ _ He2). lia. }
  destruct (defines_lawful _ _ Hd2 Hf2 (defines_pipeline s2 (db_pipeline s))) as (Hd3 & Hf3 & Ha3 & Ho3).
  split_and!; try done; [etrans; [exact Ha1|]; etrans; [by apply evolves_advances|exact Ha3]|].
  exists I. intros J HJ. destruct (Ho3 I J HJ) as (-> & -> & ->). destruct (Ho2 J HJ) as (-> & -> & ->). by apply (Ho1 I J).
Qed.
Lemma lawful_claimBatch : lawful (claimBatch;; mret tt).
Proof. apply lawful_defines. keeps_tac. apply keeps_claimBatch; eauto with keeps typeclass_instances. Qed.
Lemma lawful_applyClaim p : lawful (outsidePipeline (applyClaim p)).
Proof.
  apply lawful_defines. intros s a s' Hrun. unfold outsidePipeline in Hrun.
  destruct (applyClaim p (set_pipeline false s)) as [[x s2]|e] eqn:E; [|done]. injection Hrun as <- <-.
  etrans; [apply (defines_pipeline s false)|]. etrans; [|apply defines_pipeline].
  eapply (keeps_applyClaim defines); [..|exact E]; eauto with keeps typeclass_instances.
Qed.
Lemma lawful_readClock : lawful (Now;; mret tt).
Proof. apply lawful_defines. keeps_tac. Qed.
Lemma lawful_Cleanup : lawful CleanupExpiredRecords.
Proof.
  apply lawful_defines. unfold CleanupExpiredRecords. keeps_tac; defining.
Qed.
Lemma lawful_RetryBusinessProjection cmd : lawful (RetryBusinessProjectionHandler_Handle cmd).
Proof.
  apply lawful_defines. unfold RetryBusinessProjectionHandler_Handle, orThrow, findProjection. keeps_tac.
  apply keeps_Retry; eauto with keeps typeclass_instances.
Qed.
Lemma lawful_PublishVersion cmd : lawful (PublishVersionHandler_Handle cmd).
Proof. apply lawful_defines, off_PublishVersion, _. Qed.
Lemma lawful_ToggleFlowActive cmd : lawful (ToggleFlowActiveHandler_Handle cmd).
Proof. apply lawful_defines, off_ToggleFlowActive, _. Qed.
Lemma lawful_CreateFlow cmd : lawful (CreateFlowHandler_Handle cmd).
Proof. apply lawful_defines, off_CreateFlow, _. Qed.
Lemma lawful_UpdateFlow cmd : lawful (UpdateFlowHandler_Handle cmd).
Proof. apply lawful_defines, off_UpdateFlow, _. Qed.
Lemma lawful_DeployFlow cmd : lawful (DeployFlowHandler_Handle cmd).
Proof. apply lawful_defines, defines_DeployFlow. Qed.
End definitions.

(** ** Commands *)
Inductive Command :=
  | CmdStartInstance (c : StartInstanceCmd)
  | CmdApproveTask (c : DecideTaskCmd)
  | CmdRejectTask (c : DecideTaskCmd)
  | CmdTransferTask (c : TransferTaskCmd)
  | CmdReassignTask (c : ReassignTaskCmd)
  | CmdRollbackTask (c : RollbackTaskCmd)
  | CmdAddAssignee (c : AddAssigneeCmd)
  | CmdRemoveAssignee (c : RemoveAssigneeCmd)
  | CmdWithdrawInstance (c : CloseInstanceCmd)
  | CmdTerminateInstance (c : CloseInstanceCmd)
  | CmdResubmitInstance (c : ResubmitInstanceCmd)
  | CmdAddCC (c : AddCCCmd)
  | CmdMarkCCRead (c : MarkCCReadCmd)
  | CmdUrgeTask (c : UrgeTaskCmd)
  | CmdPublishVersion (c : PublishVersionCmd)
  | CmdToggleFlowActive (c : ToggleFlowActiveCmd)
  | CmdCreateFlow (c : CreateFlowCmd)
  | CmdUpdateFlow (c : UpdateFlowCmd)
  | CmdDeployFlow (c : DeployFlowCmd)
  | CmdRetryBusinessProjection (c : RetryBusinessProjectionCmd).

(** What the scheduled jobs do between two looks at the store: they read the clock,
    deal with one overdue task, warn about one, clean up, claim a batch of
    projections and apply one claim, each in a transaction. *)
Inductive Job :=
  | JobReadClock
  | JobTimeout (task : Task)
  | JobPreWarning (task : Task) (hoursLeft : Z)
  | JobCleanup
  | JobClaim
  | JobApplyClaim (claimed : BusinessProjection).

Section system.
Context `{!Host}.

Definition exec (c : Command) : M unit :=
  match c with
  | CmdStartInstance c => StartInstanceHandler_Handle c;; mret tt
  | CmdApproveTask c => ApproveTaskHandler_Handle c
  | CmdRejectTask c => RejectTaskHandler_Handle c
  | CmdTransferTask c => TransferTaskHandler_Handle c
  | CmdReassignTask c => ReassignTaskHandler_Handle c
  | CmdRollbackTask c => RollbackTaskHandler_Handle c
  | CmdAddAssignee c => AddAssigneeHandler_Handle c
  | CmdRemoveAssignee c => RemoveAssigneeHandler_Handle c
  | CmdWithdrawInstance c => WithdrawInstanceHandler_Handle c
  | CmdTerminateInstance c => TerminateInstanceHandler_Handle c
  | CmdResubmitInstance c => ResubmitInstanceHandler_Handle c
  | CmdAddCC c => AddCCHandler_Handle c
  | CmdMarkCCRead c => MarkCCReadHandler_Handle c
  | CmdUrgeTask c => UrgeTaskHandler_Handle c
  | CmdPublishVersion c => PublishVersionHandler_Handle c
  | CmdToggleFlowActive c => ToggleFlowActiveHandler_Handle c
  | CmdCreateFlow c => CreateFlowHandler_Handle c;; mret tt
  | CmdUpdateFlow c => UpdateFlowHandler_Handle c;; mret tt
  | CmdDeployFlow c => DeployFlowHandler_Handle c;; mret tt
  | CmdRetryBusinessProjection c => RetryBusinessProjectionHandler_Handle c
  end.
(** The store after a command in its own transaction. *)
Definition execTx (c : Command) (s : St) : St := (runInTx (exec c) s).2.


Definition runJob (j : Job) : M unit :=
  match j with
  | JobReadClock => Now;; mret tt
  | JobTimeout task => outsidePipeline (processTimeout task)
  | JobPreWarning task hoursLeft => outsidePipeline (sendPreWarning task hoursLeft)
  | JobCleanup => CleanupExpiredRecords
  | JobClaim => claimBatch;; mret tt
  | JobApplyClaim claimed => outsidePipeline (applyClaim claimed)
  end.
Definition jobTx (j : Job) (s : St) : St := (runInTx (runJob j) s).2.
(** The scanner works on rows it has read, possibly a while ago. *)
Definition enabled (s : St) (j : Job) : Prop :=
  match j with
  | JobTimeout task | JobPreWarning task _ => scanned s task
  | _ => True
  end.

(** What commands and jobs can lead to, in any order. *)
Inductive reachable (s0 : St) : St → Prop :=
  | reach_here : reachable s0 s0
  | reach_step c s : reachable s0 s → reachable s0 (execTx c s)
  | reach_job j s : reachable s0 s → enabled s j → reachable s0 (jobTx j s).

(** A system nobody has used yet: there may be definitions, but no work. *)
Record genesis (s : St) : Prop := {
  gen_instances : db_instances s = [];
  gen_tasks : db_tasks s = [];
  gen_visits : db_visits s = [];
  gen_nodes : NoDup (FlowNode_ID <$> db_nodes s);
  gen_fresh : freshNodes s;
  gen_edges : edgesHome s;
}.

Lemma lawful_unit {A} (m : M A) : lawful m → lawful (m;; mret tt).
Proof. intros Hm s a s' Hd Hf Hrun. step Hrun as x s1 H1. injection Hrun as _ <-. by eapply Hm. Qed.
Lemma exec_lawful c : lawful (exec c).
Proof.
  destruct c; cbn [exec]; auto using orderly_lawful, orderly_ApproveTask, orderly_RejectTask,
    orderly_TransferTask, orderly_ReassignTask, orderly_RollbackTask, orderly_AddAssignee,
    orderly_RemoveAssignee, orderly_WithdrawInstance, orderly_TerminateInstance, orderly_ResubmitInstance,
    orderly_AddCC, orderly_MarkCCRead, orderly_UrgeTask, lawful_PublishVersion, lawful_ToggleFlowActive,
    lawful_unit, orderly_StartInstance, lawful_CreateFlow, lawful_UpdateFlow, lawful_DeployFlow,
    lawful_RetryBusinessProjection.
Qed.
Lemma job_lawful j s a s' :
  disciplined s → freshNodes s → enabled s j → runJob j s = Ok (a, s') →
  disciplined s' ∧ freshNodes s' ∧ advances s s' ∧ ∃ I, othersSame I s s'.
Proof.
  intros Hd Hf Hen Hrun. destruct j; cbn [runJob enabled] in *.
  - by eapply lawful_readClock.
  - eapply (outside_lawful (processTimeout task)); [done|done| |exact Hrun]. intros s1 s2 -> Hd1.
    apply processTimeout_orderly; [done|]. by destruct s.
  - eapply (outside_lawful (sendPreWarning task hoursLeft)); [done|done| |exact Hrun]. intros s1 s2 -> Hd1.
    apply sendPreWarning_orderly; [done|]. by destruct s.
  - by eapply lawful_Cleanup.
  - by eapply lawful_claimBatch.
  - unfold outsidePipeline in Hrun. by eapply lawful_applyClaim.
Qed.

(** What every reachable store satisfies. *)
Definition sound (s : St) : Prop := disciplined s ∧ freshNodes s.
Lemma execTx_sound c s : sound s → sound (execTx c s) ∧ advances s (execTx c s).
Proof.
  intros [Hd Hf]. unfold execTx, runInTx. destruct (exec c s) as [[u s']|e] eqn:Hrun; cbn.
  - destruct (exec_lawful c s u s' Hd Hf Hrun) as (? & ? & ? & _). by split.
  - split; [done|reflexivity].
Qed.
Lemma jobTx_sound j s : sound s → enabled s j → sound (jobTx j s) ∧ advances s (jobTx j s).
Proof.
  intros [Hd Hf] Hen. unfold jobTx, runInTx. destruct (runJob j s) as [[u s']|e] eqn:Hrun; cbn.
  - destruct (job_lawful j s u s' Hd Hf Hen Hrun) as (? & ? & ? & _). by split.
  - split; [done|reflexivity].
Qed.
Lemma genesis_sound s : genesis s → sound s.
Proof.
  intros [Hi Ht Hv Hn Hf He]. split; [|done]. constructor.
  - constructor; rewrite ?Hi, ?Ht, ?Hv; split; constructor.
  - constructor; rewrite ?Ht, ?Hv; try done; try (intros ? Hin; by apply elem_of_nil in Hin).
    intros v i Hin. by apply elem_of_nil in Hin.
  - intros i. rewrite Hi. intros Hin. by apply elem_of_nil in Hin.
Qed.
Lemma reachable_sound s0 s : sound s0 → reachable s0 s → sound s ∧ advances s0 s.
Proof.
  intros Hd. induction 1 as [|c s _ [Hds Hes]|j s _ [Hds Hes] Hen]; [by split|..].
  - destruct (execTx_sound c s Hds). split; [done|by etrans].
  - destruct (jobTx_sound j s Hds Hen). split; [done|by etrans].
Qed.
Lemma reachable_orderly s0 s : genesis s0 → reachable s0 s → disciplined s.
Proof. intros Hg Hr. by apply (reachable_sound s0 s (genesis_sound _ Hg) Hr). Qed.

(** C1. Whatever commands are issued and whatever jobs run, in whatever order: a
    running instance has exactly one active visit, at its current node, and
    every pending or waiting task of the instance belongs to that visit; an
    instance that is not running has no active visit and no open task. *)
Theorem reachable_disciplined s0 s i :
  genesis s0 → reachable s0 s → i ∈ db_instances s →
  match Instance_Status i with
  | InstanceRunning =>
      ∃ n v, Instance_CurrentNodeID i = Some n ∧
        v ∈ visitsOf s (Instance_ID i) ∧ NodeVisit_Status v = NodeVisitActive ∧
        NodeVisit_NodeID v = n ∧
        (∀ v', v' ∈ visitsOf s (Instance_ID i) → NodeVisit_Status v' = NodeVisitActive → v' = v) ∧
        (∀ t, t ∈ tasksOf s (Instance_ID i) → isOpen t = true →
           Task_VisitID t = NodeVisit_ID v ∧ Task_NodeID t = n)
  | _ =>
      (∀ v, v ∈ visitsOf s (Instance_ID i) → NodeVisit_Status v ≠ NodeVisitActive) ∧
      (∀ t, t ∈ tasksOf s (Instance_ID i) → isOpen t = false)
  end.
Proof.
  intros Hg Hr Hi. pose proof (reachable_orderly _ _ Hg Hr) as Hd.
  pose proof (disc_inst _ Hd _ Hi) as Hok. unfold inst_ok, quiet, isActive in Hok.
  destruct (Instance_Status i); try (destruct Hok as [Hv Ht]; split; [|done];
    intros v Hin; by apply (bool_decide_eq_false (NodeVisit_Status v = NodeVisitActive)), Hv).
  destruct Hok as (n & Hcur & v & Hv & Hact & Hvn & Honly & Hopen).
  exists n, v. apply bool_decide_eq_true in Hact. repeat (split; [done|]). split; [|done].
  intros v' Hv' Ha. apply Honly; [done|]. by apply bool_decide_eq_true.
Qed.

(** C6. Decisions are final: once a task has a terminal status, or an instance
    is approved, rejected or terminated, no later command or job changes that status;
    rows are never lost, and identity columns never change. *)
Theorem final_statuses_are_kept s0 s1 s2 :
  genesis s0 → reachable s0 s1 → reachable s1 s2 →
  (∀ t, t ∈ db_tasks s1 → ∃ t', t' ∈ db_tasks s2 ∧ Task_ID t' = Task_ID t ∧
     Task_InstanceID t' = Task_InstanceID t ∧ Task_NodeID t' = Task_NodeID t ∧
     Task_VisitID t' = Task_VisitID t ∧
     (TaskStatus_IsFinal (Task_Status t) = true → Task_Status t' = Task_Status t)) ∧
  (∀ i, i ∈ db_instances s1 → ∃ i', i' ∈ db_instances s2 ∧ Instance_ID i' = Instance_ID i ∧
     Instance_TenantID i' = Instance_TenantID i ∧ Instance_ApplicantID i' = Instance_ApplicantID i ∧
     Instance_FlowVersionID i' = Instance_FlowVersionID i ∧
     (InstanceStatus_IsFinal (Instance_Status i) = true → Instance_Status i' = Instance_Status i)).
Proof.
  intros Hg H1 H2. destruct (reachable_sound _ _ (genesis_sound _ Hg) H1) as [Hd1 _].
  destruct (reachable_sound _ _ Hd1 H2) as [_ He]. split.
  - intros t Ht. destruct (table_evolves_elem _ _ _ _ (adv_tasks _ _ He) Ht)
      as (t' & Ht' & ? & ? & ? & ? & _ & Hst).
    exists t'. repeat (split; [done|]). intros Hf. by apply task_final_rtc.
  - intros i Hi. destruct (table_evolves_elem _ _ _ _ (adv_instances _ _ He) Hi)
      as (i' & Hi' & ? & ? & ? & ? & ? & Hst).
    exists i'. repeat (split; [done|]). intros Hf. by apply instance_final_rtc.
Qed.

(** C24. Instances do not interfere: a command reads and writes what it likes,
    but the tasks, visits and instance rows of all instances except one are
    left exactly as they were. *)
Theorem commands_are_isolated s0 s c :
  genesis s0 → reachable s0 s →
  ∃ I, ∀ J, J ≠ I →
    tasksOf (execTx c s) J = tasksOf s J ∧ visitsOf (execTx c s) J = visitsOf s J ∧
    instancesOf (execTx c s) J = instancesOf s J.
Proof.
  intros Hg Hr. destruct (reachable_sound _ _ (genesis_sound _ Hg) Hr) as [[Hd Hf] _].
  unfold execTx, runInTx. destruct (exec c s) as [[u s']|e] eqn:Hrun; [|by exists ""].
  by destruct (exec_lawful c s u s' Hd Hf Hrun) as (_ & _ & _ & Ho).
Qed.
End system.

(** ** A run of the demo flow *)
Definition demoCaller : CallerContext := Build_CallerContext "acme" false false.
Definition demoStart : Command :=
  CmdStartInstance (Build_StartInstanceCmd "acme" "leave" (demoUser "alice") None None None demoCaller).
Definition demoApprove (task user : string) : Command :=
  CmdApproveTask (Build_DecideTaskCmd task (demoUser user) "ok" None [] demoCaller).
Definition demoS0 : St := demoStore ApprovalSequential PassAll ["bob"; "carol"].
Definition demoS1 : St := @execTx demoHost demoStart demoS0.
Definition demoS2 : St := @execTx demoHost (demoApprove "4" "bob") demoS1.
Definition demoS3 : St := @execTx demoHost (demoApprove "5" "carol") demoS2.

Lemma demo_fresh (ids : list string) (k : nat) :
  forallb headLetter ids = true → @gen_id demoHost k ∉ ids.
Proof.
  intros Hids Hin. rewrite forallb_forall in Hids. specialize (Hids _ (proj1 (list_elem_of_In _ _) Hin)).
  cbn in Hids. by rewrite headLetter_pretty in Hids.
Qed.
Lemma demoAt_genesis (review : FlowNode) (us : list string) :
  FlowNode_ID review = "review" → FlowNode_FlowVersionID review = "v1" → @genesis demoHost (demoStoreAt review us).
Proof.
  intros Hid Hver. constructor; [done..| | |].
  - cbn. rewrite Hid. repeat constructor; set_solver.
  - intros k _. cbn. rewrite Hid. by apply demo_fresh.
  - intros e He. cbn in He. unfold homeNode. cbn. enum_in.
    + eexists. split; [by left|done].
    + exists review. split; [by right; left|done].
Qed.
Lemma demoS0_genesis (m : ApprovalMethod) (r : PassRule) (us : list string) :
  @genesis demoHost (demoStore m r us).
Proof. by apply demoAt_genesis. Qed.
Lemma demoS1_reachable : @reachable demoHost demoS0 demoS1.
Proof. apply reach_step, reach_here. Qed.
Lemma demoS3_reachable : @reachable demoHost demoS1 demoS3.
Proof. apply reach_step, reach_step, reach_here. Qed.

(** After the start the instance runs and its review is open; after bob's and
    carol's approvals it is approved and nothing is open. *)
Lemma reachable_disciplined_witness :
  (∃ i, db_instances demoS1 = [i] ∧ Instance_Status i = InstanceRunning ∧
     ∃ n v, Instance_CurrentNodeID i = Some n ∧ n = "review" ∧ v ∈ visitsOf demoS1 (Instance_ID i) ∧
       (∀ t, t ∈ tasksOf demoS1 (Instance_ID i) → isOpen t = true → Task_VisitID t = NodeVisit_ID v)) ∧
  (∃ i, db_instances demoS3 = [i] ∧ Instance_Status i = InstanceApproved ∧
     ∀ t, t ∈ tasksOf demoS3 (Instance_ID i) → isOpen t = false).
Proof.
  assert (Hreach : @reachable demoHost demoS0 demoS3).
  { apply reach_step, reach_step, reach_step, reach_here. }
  split.
  - destruct (db_instances demoS1) as [|i l] eqn:Hdb; [by vm_compute in Hdb|].
    assert (l = [] ∧ Instance_Status i = InstanceRunning ∧ Instance_CurrentNodeID i = Some "review")
      as (-> & Hst & Hcur) by (vm_compute in Hdb; injection Hdb as <- <-; done).
    assert (i ∈ db_instances demoS1) as Hin by (rewrite Hdb; by apply list_elem_of_singleton).
    pose proof (@reachable_disciplined demoHost demoS0 demoS1 i (demoS0_genesis _ _ _) demoS1_reachable Hin)
      as Hdisc.
    rewrite Hst in Hdisc. destruct Hdisc as (n & v & Hn & Hv & _ & _ & _ & Hopen).
    exists i. split; [done|]. split; [done|]. exists n, v. split; [done|].
    split; [congruence|]. split; [done|]. intros t Ht Ho. by apply Hopen.
  - destruct (db_instances demoS3) as [|i l] eqn:Hdb; [by vm_compute in Hdb|].
    assert (l = [] ∧ Instance_Status i = InstanceApproved) as (-> & Hst)
      by (vm_compute in Hdb; injection Hdb as <- <-; done).
    assert (i ∈ db_instances demoS3) as Hin by (rewrite Hdb; by apply list_elem_of_singleton).
    pose proof (@reachable_disciplined demoHost demoS0 demoS3 i (demoS0_genesis _ _ _) Hreach Hin) as Hdisc.
    rewrite Hst in Hdisc. exists i. split; [done|]. split; [done|]. apply Hdisc.
Defined.

Lemma final_statuses_are_kept_witness :
  map Task_Status (db_tasks demoS2) = [TaskApproved; TaskPending] ∧
  ∀ t, t ∈ db_tasks demoS2 → ∃ t', t' ∈ db_tasks demoS3 ∧ Task_ID t' = Task_ID t ∧
    (TaskStatus_IsFinal (Task_Status t) = true → Task_Status t' = Task_Status t).
Proof.
  split; [vm_compute; reflexivity|].
  destruct (@final_statuses_are_kept demoHost demoS0 demoS2 demoS3) as [Htask _].
  - apply demoS0_genesis.
  - apply reach_step, demoS1_reachable.
  - apply reach_step, reach_here.
  - intros t Ht. destruct (Htask t Ht) as (t' & ? & ? & _ & _ & _ & ?). by exists t'.
Defined.

Lemma commands_are_isolated_witness :
  ∃ I, ∀ J, J ≠ I → tasksOf (@execTx demoHost demoStart demoS1) J = tasksOf demoS1 J.
Proof.
  destruct (@commands_are_isolated demoHost demoS0 demoS1 demoStart) as [I HI].
  - apply demoS0_genesis.
  - apply demoS1_reachable.
  - exists I. intros J HJ. by apply HI.
Defined.
