(* ===== verification/Walk.v ===== *)
(** * Walking commands and jobs

    Most invariants concern a table or two, and most of what a command does leaves
    them alone.  [Framed R] lists the writes a command or job is made of, each
    keeping the relation [R] between the store before and after; whole commands and
    jobs then keep it too.  Starting an instance, which also creates and binds it,
    is left to the invariant. *)
From S2P Require Import Prelude Enums StateMachine Models Demo Store Shared FormValidation FormStorage Delegation Binding.
From S2P Require Import PassRule Processors Engine Tenancy TaskService NodeService Commands Timeout FlowCommands.
From S2P Require Import FlowManagement Discipline EngineInv Traversal ServiceInv CommandInv LifecycleInv System.

Create HintDb handlers.

(** Updates of an instance spare its id and the link to its business projection. *)
Definition sameLink (i j : Instance) : Prop :=
  Instance_ID j = Instance_ID i ∧ Instance_BusinessProjectionID j = Instance_BusinessProjectionID i.

(** Updates of a task never take back that it was flagged or warned about. *)
Definition keepsMarks (t u : Task) : Prop :=
  Task_ID u = Task_ID t ∧ (Task_IsTimeout t = true → Task_IsTimeout u = true) ∧
  (Task_IsPreWarningSent t = true → Task_IsPreWarningSent u = true).

Class Framed `{!Host} (R : relation St) := {
  fr_preorder :: PreOrder R;
  fr_Now : keeps R Now;
  fr_insertTask t : keeps R (insertTask t);
  fr_insertVisit v : keeps R (insertVisit v);
  fr_insertSnapshot f : keeps R (insertSnapshot f);
  fr_insertUrge u : keeps R (insertUrge u);
  fr_updateTasks p f : (∀ t, keepsMarks t (f t)) → keeps R (updateTasks p f);
  fr_updateVisits p f : keeps R (updateVisits p f);
  fr_updateInstances p f : (∀ i, sameLink i (f i)) → keeps R (updateInstances p f);
  fr_EmitEvents evs : keeps R (EmitEvents evs);
  fr_addActionLog l : keeps R (addActionLog l);
  fr_logs f : keeps R (modify (E := Error) (λ s, set_logs (f s) s));
  fr_copies I n v us infos m : keeps R (InsertCCRecords I (Some n) (Some v) us infos m);
  fr_markRead p now : keeps R (updateCCRecords p (set_CCRecord_ReadAt now));
  fr_expireSnapshots f : keeps R (modify (E := Error) (λ s, set_snapshots (f s) s));
  fr_expireUrges f : keeps R (modify (E := Error) (λ s, set_urges (f s) s));
  fr_expireCopies p : keeps R (modify (E := Error) (upd_cc_records (List.filter p)));
  fr_SyncInstanceProjection i : keeps R (SyncInstanceProjection i);
  fr_Project i : keeps R (Projector_Project i);
  fr_RetryProjection cmd : keeps R (RetryBusinessProjectionHandler_Handle cmd);
  fr_claimBatch : keeps R claimBatch;
  fr_applyClaim p : keeps R (applyClaim p);
  fr_pipeline b s : R s (set_pipeline b s);
  fr_PublishVersion cmd : keeps R (PublishVersionHandler_Handle cmd);
  fr_ToggleFlowActive cmd : keeps R (ToggleFlowActiveHandler_Handle cmd);
  fr_CreateFlow cmd : keeps R (CreateFlowHandler_Handle cmd);
  fr_UpdateFlow cmd : keeps R (UpdateFlowHandler_Handle cmd);
  fr_DeployFlow cmd : keeps R (DeployFlowHandler_Handle cmd);
}.
#[export] Hint Resolve fr_Now fr_insertTask fr_insertVisit fr_insertSnapshot fr_insertUrge
  fr_updateVisits fr_EmitEvents fr_addActionLog fr_logs fr_copies fr_markRead fr_expireSnapshots fr_expireUrges
  fr_expireCopies fr_SyncInstanceProjection fr_Project fr_RetryProjection fr_claimBatch fr_applyClaim fr_PublishVersion
  fr_ToggleFlowActive fr_CreateFlow fr_UpdateFlow fr_DeployFlow : keeps.

Lemma sameLink_copyCols src cols i : sameLink i (copyCols src cols i).
Proof.
  unfold copyCols. revert i. induction cols as [|c cols IH]; intros i; cbn [foldl]; [done|].
  destruct (IH (copyCol src i c)) as [H1 H2]. split; [rewrite H1|rewrite H2]; by destruct c, i.
Qed.
Lemma sameLink_status st i j : sameLink i j → sameLink i (set_Instance_Status st j).
Proof. by destruct j. Qed.
#[export] Hint Resolve sameLink_copyCols sameLink_status : keeps.
#[export] Hint Extern 1 (keeps _ (updateTasks _ _)) =>
  apply fr_updateTasks; let t := fresh in intros t; by destruct t : keeps.
#[export] Hint Extern 1 (keeps _ (updateInstances _ _)) =>
  apply fr_updateInstances; let j := fresh in intros j; first [solve [auto with keeps]|by destruct j] : keeps.

#[export] Hint Unfold orThrow findTask findInstance findNode findFlow findVersion ComputeTaskDeadline
  InsertAutoCCRecords InsertManualCCRecords HasUnreadCCRecords insertTasks
  loadFlowCategoryID resolveDelegationChain applyDelegation
  beginNodeVisit concludeNodeVisit FindActiveNodeVisit ConcludeActiveNodeVisit CancelActiveNodeVisits
  updateInstanceCols runHooks LifecycleHookRunner_OnInstanceCreated LifecycleHookRunner_OnInstanceTransition
  ApplyInstanceTransitionWithHooks recordSystemActionLog resolveAutoExecution nodeAutoPassResult
  saveFormSnapshot resolveAssignees resolveNodeAssignees findPreviousApprovalApprovers computeDeadline
  createTasksForUsers createTasksWithDelegation getSuperior handleEmptyAssignee
  StartProcessor_Process EndProcessor_Process ConditionProcessor_Process createCCRecords CCProcessor_Process
  HandleProcessor_Process createApprovalTasks resolveSuperiorSeat applySameApplicantPolicy
  entryAutoPassRule promoteNext autoPassOne cancelRemainingEntryTasks autoPassEligibleTasks
  ApprovalProcessor_Process FlowCache_Get NewInstanceCompletedEvent advanceWith handleResultWith
  AdvanceToNextNode StartProcess EvaluateNodeCompletion : handlers.
#[export] Hint Unfold FinishTask PersistInstanceFormData computeTaskDeadline appendSystemTaskActionLog
  promoteTask ActivateNextSequentialTask reactivateBeforeParent activateAfterChildren
  activateParallelDependents ActivateDependentTasks RepointAddAssigneeChildren cancelActiveTasks
  CancelRemainingTasks CancelInstanceTasks IsAuthorizedForNodeOperation isDecisionParticipant isRoutedTo
  AllowsInstanceAccess IsUrgeAuthorized CanRemoveAssigneeTask LoadTaskContextForNodeOperation
  PrepareOperation LoadForUpdateAs LoadForUpdate ApplyRollbackFormData Transition
  TriggerNodeCC HandleNodeCompletion AdvanceCCNodeIfAllRead settleNode hasActiveTaskForAssignee
  requireConcludedVisit findVersionNode ValidateRollbackTarget closeInstance InitiableFlowIDs
  CheckInitiationPermission FindStartFlow bindBusiness insertActionLog recordTimeoutNotify autoFinishTask transferTo
  transferToAdmin executeTimeoutAction processTimeout sendPreWarning CleanupExpiredRecords : handlers.
Ltac walk := repeat first [progress keeps_step | progress autounfold with handlers].


Section walking.
Context `{!Host} (R : relation St) `{!Framed R}.

Lemma framed_createApprovalTasksFrom pc i l : keeps R (createApprovalTasksFrom pc i l).
Proof. revert i. induction l as [|a l IH]; intros i; cbn [createApprovalTasksFrom]; walk; apply IH. Qed.
Lemma framed_activateLoop fuel i n evs : keeps R (activateLoop fuel i n evs).
Proof. revert evs. induction fuel as [|fuel IH]; intros evs; cbn [activateLoop]; walk; apply IH. Qed.
Hint Resolve framed_createApprovalTasksFrom framed_activateLoop : keeps.
Lemma framed_processor k process pc : processorFor k = Some process → keeps R (process pc).
Proof. destruct k; intros [= <-]; walk. Qed.
Lemma framed_ProcessNodeFuel fuel i n : keeps R (ProcessNodeFuel fuel i n).
Proof.
  revert i n. induction fuel as [|fuel IH]; intros i n; cbn [ProcessNodeFuel]; [walk|].
  destruct (processorFor _) as [process|] eqn:Hp; [|walk].
  apply keeps_bind; [apply _|walk|]. intros v. apply keeps_bind; [apply _|by eapply framed_processor|].
  intros r. walk; apply IH.
Qed.
Lemma framed_ProcessNode i n : keeps R (ProcessNode i n).
Proof. apply framed_ProcessNodeFuel. Qed.
Hint Resolve framed_ProcessNode : keeps.
Lemma framed_HandleNodeCompletion i n : keeps R (HandleNodeCompletion i n).
Proof. walk. Qed.
Lemma framed_PrepareOperation t o c f : keeps R (PrepareOperation t o c f).
Proof. walk. Qed.
Lemma framed_ActivateDependentTasks i n t : keeps R (ActivateDependentTasks i n t).
Proof. walk. Qed.
Lemma framed_StartProcess i : keeps R (StartProcess i).
Proof. walk. Qed.
Hint Resolve framed_HandleNodeCompletion framed_PrepareOperation framed_ActivateDependentTasks
  framed_StartProcess : keeps.

Lemma exec_framed c : (∀ cmd, c = CmdStartInstance cmd → keeps R (exec c)) → keeps R (exec c).
Proof.
  intros Hstart. destruct c; cbn [exec] in *.
  - by eapply Hstart.
  - unfold ApproveTaskHandler_Handle. walk.
  - unfold RejectTaskHandler_Handle. walk.
  - unfold TransferTaskHandler_Handle. walk.
  - unfold ReassignTaskHandler_Handle. walk.
  - unfold RollbackTaskHandler_Handle. walk.
  - unfold AddAssigneeHandler_Handle. walk.
  - unfold RemoveAssigneeHandler_Handle. walk.
  - unfold WithdrawInstanceHandler_Handle. walk.
  - unfold TerminateInstanceHandler_Handle. walk.
  - unfold ResubmitInstanceHandler_Handle. walk.
  - unfold AddCCHandler_Handle. walk.
  - unfold MarkCCReadHandler_Handle. walk.
  - unfold UrgeTaskHandler_Handle. walk.
  - walk.
  - walk.
  - walk.
  - walk.
  - walk.
  - walk.
Qed.
Lemma framed_outsidePipeline {A} (m : M A) : keeps R m → keeps R (outsidePipeline m).
Proof.
  intros Hm s a s' Hrun. unfold outsidePipeline in Hrun.
  destruct (m (set_pipeline false s)) as [[x s2]|e] eqn:E; [|done]. injection Hrun as -> <-.
  etrans; [apply (fr_pipeline false s)|]. etrans; [by eapply Hm|apply fr_pipeline].
Qed.
Lemma framed_timeoutAction t i n : keeps R (executeTimeoutAction t i n ≫= EmitEvents).
Proof. walk. Qed.
Lemma job_framed j : keeps R (runJob j).
Proof.
  destruct j; cbn [runJob].
  - walk.
  - apply framed_outsidePipeline. walk.
  - apply framed_outsidePipeline. walk.
  - walk.
  - walk.
  - apply framed_outsidePipeline. walk.
Qed.
(** The part of [StartInstance] after the instance is created and bound. *)
Lemma startTail_framed i log :
  keeps R (SyncInstanceProjection i;; addActionLog log;; LifecycleHookRunner_OnInstanceCreated i;;
           EmitEvents [NewInstanceCreatedEvent i];; StartProcess i).
Proof. walk. Qed.
End walking.
