(* ===== verification/Projections.v ===== *)
(** * Business projections over time

    What commands and jobs do to the projections: no intended state is lost, a
    synchronous record is never behind, and a business record has at most one live
    owner.  [Walk] carries the relation between the projections before and after
    through everything but the start of an instance. *)
From S2P Require Import Prelude Enums StateMachine Models Demo Store Shared FormValidation FormStorage RecordKeys Binding.
From S2P Require Import BindingProps PassRule Processors Engine Tenancy TaskService NodeService Commands Timeout FlowCommands.
From S2P Require Import FlowManagement Discipline EngineInv Traversal ServiceInv CommandInv LifecycleInv System Walk.

(** ** A projection *)

(** What is wanted has been written. *)
Definition upToDate (p : BusinessProjection) : Prop :=
  BusinessProjection_AppliedRevision p = BusinessProjection_DesiredRevision p ∧
  BusinessProjection_AppliedOwnerInstanceID p = Some (BusinessProjection_OwnerInstanceID p).
Record coherent (p : BusinessProjection) : Prop := {
  coh_applied : (0 ≤ BusinessProjection_AppliedRevision p ≤ BusinessProjection_DesiredRevision p)%Z;
  coh_desired : (1 ≤ BusinessProjection_DesiredRevision p)%Z;
  coh_fence : (0 < BusinessProjection_AppliedRevision p)%Z → is_Some (BusinessProjection_AppliedOwnerInstanceID p);
  coh_done : BusinessProjection_Status p = BindingProjectionApplied → upToDate p;
  coh_mode : BusinessProjection_Consistency p = ApprovalBindingEventual ∨
    BusinessProjection_Consistency p = ApprovalBindingSynchronous ∧
    BusinessProjection_Status p = BindingProjectionApplied;
}.
(** A projection moves on: it stays the projection of the same record for the same
    owner, and stays coherent. *)
Definition movesOn (p p' : BusinessProjection) : Prop :=
  BusinessProjection_ID p' = BusinessProjection_ID p ∧
  BusinessProjection_TargetHash p' = BusinessProjection_TargetHash p ∧
  BusinessProjection_OwnerInstanceID p' = BusinessProjection_OwnerInstanceID p ∧
  (BusinessProjection_DesiredRevision p ≤ BusinessProjection_DesiredRevision p')%Z ∧
  (coherent p → coherent p').
#[export] Instance movesOn_preorder : PreOrder movesOn.
Proof.
  split; [intros p; split_and!; [done..|lia|done]|].
  intros p q r (H1 & H2 & H3 & H4 & H5) (K1 & K2 & K3 & K4 & K5).
  split_and!; [congruence..|lia|]. intros Hp. by apply K5, H5.
Qed.

Definition projectionIDs (s : St) : list string := BusinessProjection_ID <$> db_projections s.
(** Ids are distinct and every projection is coherent. *)
Definition wellKept (s : St) : Prop :=
  NoDup (projectionIDs s) ∧ ∀ p, p ∈ db_projections s → coherent p.
Record carriesOn (s s' : St) : Prop := {
  cry_projections : wellKept s → Forall2 movesOn (db_projections s) (db_projections s');
  cry_instances : ∀ i', i' ∈ db_instances s' → ∃ i, i ∈ db_instances s ∧ sameLink i i';
  cry_next_id : db_next_id s ≤ db_next_id s';
}.
Lemma movesOn_ids l l' : Forall2 movesOn l l' → BusinessProjection_ID <$> l' = BusinessProjection_ID <$> l.
Proof. induction 1 as [|p p' l l' (Hid & _) _ IH]; [done|]. cbn. by rewrite Hid, IH. Qed.
Lemma movesOn_hashes l l' :
  Forall2 movesOn l l' → BusinessProjection_TargetHash <$> l' = BusinessProjection_TargetHash <$> l.
Proof. induction 1 as [|p p' l l' (_ & Hh & _) _ IH]; [done|]. cbn. by rewrite Hh, IH. Qed.
Lemma movesOn_wellKept s s' : Forall2 movesOn (db_projections s) (db_projections s') → wellKept s → wellKept s'.
Proof.
  intros Hm [Hnd Hc]. split; [unfold projectionIDs; by rewrite (movesOn_ids _ _ Hm)|].
  intros p' [i Hi]%list_elem_of_lookup. destruct (Forall2_lookup_r _ _ _ _ _ Hm Hi) as (p & Hp & (_ & _ & _ & _ & Hco)).
  apply Hco, Hc. by eapply list_elem_of_lookup_2.
Qed.
#[export] Instance carriesOn_preorder : PreOrder carriesOn.
Proof.
  split.
  - intros s. constructor; [intros _; reflexivity| |done]. intros i Hi. by exists i.
  - intros x y z [P1 I1 N1] [P2 I2 N2]. constructor; [| |lia].
    + intros Hw. specialize (P1 Hw). etrans; [exact P1|]. by apply P2, (movesOn_wellKept x).
    + intros i Hi. destruct (I2 i Hi) as (j & Hj & H1 & H2). destruct (I1 j Hj) as (k & Hk & K1 & K2).
      exists k. split; [done|]. split; congruence.
Qed.

(** ** The writes *)
Section writes.
Context `{!Host}.

(** Stores that agree on what matters here. *)
Lemma carriesOn_same s s' :
  db_projections s' = db_projections s → db_instances s' = db_instances s → db_next_id s ≤ db_next_id s' →
  carriesOn s s'.
Proof.
  intros Hp Hi Hn. constructor; [|rewrite Hi|done].
  - intros _. by rewrite Hp.
  - intros i Hin. by exists i.
Qed.
Ltac elsewhere := intros [] ? ? [=]; subst; apply carriesOn_same; cbn; try done; lia.

Lemma tupdate_Forall2 {Row} (R : relation Row) `{!Reflexive R} p f (l : list Row) :
  (∀ r, r ∈ l → p r = true → R r (f r)) → Forall2 R l (tupdate p f l).
Proof.
  intros Hf. unfold tupdate. induction l as [|r l IH]; cbn; constructor.
  - destruct (p r) eqn:Hr; [apply Hf; [left|done]|reflexivity].
  - apply IH. intros x Hx. apply Hf. by right.
Qed.
(** One projection, known by its id, is rewritten. *)
Lemma tupdate_movesOn q f (l : list BusinessProjection) :
  NoDup (BusinessProjection_ID <$> l) → q ∈ l → movesOn q (f q) →
  Forall2 movesOn l (tupdate (λ r, BusinessProjection_ID r ==? BusinessProjection_ID q) f l).
Proof.
  intros Hnd Hq Hf. assert (∀ r, r ∈ l → BusinessProjection_ID r = BusinessProjection_ID q → r = q) as Hu.
  { intros r Hr Hid. by eapply (NoDup_key_inj BusinessProjection_ID). }
  apply tupdate_Forall2; [apply _|]. intros r Hr Hid%bool_decide_eq_true. by rewrite (Hu r Hr Hid).
Qed.
Lemma carriesOn_rewrite s s' q f :
  (wellKept s → q ∈ db_projections s ∧ movesOn q (f q)) →
  db_projections s' = tupdate (λ r, BusinessProjection_ID r ==? BusinessProjection_ID q) f (db_projections s) →
  db_instances s' = db_instances s → db_next_id s ≤ db_next_id s' → carriesOn s s'.
Proof.
  intros Hq Hp Hi Hn. constructor; [|rewrite Hi|done].
  - intros Hw. rewrite Hp. destruct (Hq Hw). apply tupdate_movesOn; [apply Hw|done..].
  - intros i Hin. by exists i.
Qed.
Lemma tupdate_twice {Row} (p : Row → bool) f g (l : list Row) :
  (∀ r, p r = true → p (f r) = true) → tupdate p g (tupdate p f l) = tupdate p (g ∘ f) l.
Proof.
  intros Hpf. unfold tupdate. rewrite map_map. apply map_ext. intros r.
  destruct (p r) eqn:Hr; [by rewrite Hpf|by rewrite Hr].
Qed.
Lemma Writer_Write_tables p s u s' :
  Writer_Write p s = Ok (u, s') →
  db_projections s' = db_projections s ∧ db_instances s' = db_instances s ∧ db_next_id s' = db_next_id s.
Proof. intros (? & ? & ? & ? & ? & ? & _ & _ & _ & _ & _ & _ & _ & ->)%Writer_Write_run. by destruct s. Qed.

(** *** Desired states *)

(** [p'] is to be stored for [p]: with the same identity and revision, pending. *)
Record pendingFor (p p' : BusinessProjection) : Prop := {
  pfr_id : BusinessProjection_ID p' = BusinessProjection_ID p;
  pfr_owner : BusinessProjection_OwnerInstanceID p' = BusinessProjection_OwnerInstanceID p;
  pfr_mode : BusinessProjection_Consistency p' = BusinessProjection_Consistency p;
  pfr_revision : BusinessProjection_DesiredRevision p' = BusinessProjection_DesiredRevision p;
  pfr_status : BusinessProjection_Status p' = BindingProjectionPending;
}.
(** Clocks and business rows apart, nothing happened. *)
Definition idle (s s' : St) : Prop :=
  db_projections s' = db_projections s ∧ db_instances s' = db_instances s ∧ db_next_id s' = db_next_id s.
#[local] Instance idle_preorder : PreOrder idle.
Proof. split; [done|]. intros x y z (H1 & H2 & H3) (K1 & K2 & K3). split_and!; congruence. Qed.
Lemma idle_Now : keeps idle Now.
Proof. by intros [] a s' [= <- <-]. Qed.
Hint Resolve idle_Now : keeps.

Lemma setDesiredState_run p i s p' s' :
  setDesiredState p i s = Ok (p', s') → idle s s' ∧ ∃ st t f, p' = withDesired st t f p.
Proof.
  intros Hrun. split; [refine ((_ : keeps idle _) _ _ _ Hrun); unfold setDesiredState; keeps_tac|].
  unfold setDesiredState in Hrun. step Hrun as t s1 E1. destruct (InstanceStatus_IsFinal _).
  - destruct (Instance_FinishedAt i); [|done]. injection Hrun as <- _. eauto.
  - injection Hrun as <- _. eauto.
Qed.
Lemma resetPendingState_run p s p' s' :
  resetPendingState p s = Ok (p', s') → idle s s' ∧ pendingFor p p' ∧
    BusinessProjection_TargetHash p' = BusinessProjection_TargetHash p.
Proof. intros Hrun. destruct s, p. by injection Hrun as <- <-. Qed.
Lemma persistDesiredState_run p s p' s' :
  persistDesiredState p s = Ok (p', s') → ∃ now, p' = set_BusinessProjection_UpdatedAt now p ∧
    db_projections s' = tupdate (λ r, BusinessProjection_ID r ==? BusinessProjection_ID p) (desiredColumns p')
      (db_projections s) ∧ db_instances s' = db_instances s ∧ db_next_id s' = db_next_id s.
Proof. intros Hrun. destruct s, p. injection Hrun as <- <-. by eexists. Qed.
(** The projection as stored, and as marked when it is synchronous. *)
Definition stored (p : BusinessProjection) (applied : option DateTime) (r : BusinessProjection) : BusinessProjection :=
  match applied with
  | None => desiredColumns p r
  | Some now => appliedColumns p now (desiredColumns p r)
  end.
Definition storedAs (p : BusinessProjection) (applied : option DateTime) : Prop :=
  match applied with
  | None => BusinessProjection_Consistency p = ApprovalBindingEventual
  | Some _ => BusinessProjection_Consistency p = ApprovalBindingSynchronous
  end.
Lemma applySynchronously_run p s u s' :
  applySynchronouslyIfConfigured p s = Ok (u, s') → ∃ applied, storedAs p applied ∧
    db_projections s' = (match applied with
      | None => db_projections s
      | Some now => tupdate (λ r, BusinessProjection_ID r ==? BusinessProjection_ID p) (appliedColumns p now) (db_projections s)
      end) ∧ db_instances s' = db_instances s ∧ db_next_id s' = db_next_id s.
Proof.
  unfold applySynchronouslyIfConfigured. destruct (BusinessProjection_Consistency p) eqn:Hc; intros Hrun; [| |done].
  all: try (exists None; unfold storedAs; by injection Hrun as _ <-).
  step Hrun as w s1 E1. apply Writer_Write_tables in E1 as (Hp & Hi & Hn).
  exists (Some (clock_reading (db_clock s1))). unfold storedAs. split; [done|].
  rewrite <-Hp, <-Hi, <-Hn. destruct s1. by injection Hrun as _ <-.
Qed.
(** A row stored for [p] is coherent if what was applied is not ahead of it. *)
Lemma stored_coherent p applied r :
  storedAs p applied → BusinessProjection_Status p = BindingProjectionPending →
  (1 ≤ BusinessProjection_DesiredRevision p)%Z →
  (0 ≤ BusinessProjection_AppliedRevision r ≤ BusinessProjection_DesiredRevision p)%Z →
  ((0 < BusinessProjection_AppliedRevision r)%Z → is_Some (BusinessProjection_AppliedOwnerInstanceID r)) →
  coherent (stored p applied r).
Proof.
  intros Hm Hst H1 Ha Hf. destruct applied as [now|]; cbn in *; constructor; cbn; try done; try lia;
    first [by left|by right|by rewrite Hst|by eexists].
Qed.
Lemma stored_identity p applied r :
  BusinessProjection_ID (stored p applied r) = BusinessProjection_ID r ∧
  BusinessProjection_TargetHash (stored p applied r) = BusinessProjection_TargetHash r ∧
  BusinessProjection_OwnerInstanceID (stored p applied r) = BusinessProjection_OwnerInstanceID p ∧
  BusinessProjection_DesiredRevision (stored p applied r) = BusinessProjection_DesiredRevision p.
Proof. by destruct applied. Qed.

(** *** Projecting *)
Lemma store_run p0 s (p1 : BusinessProjection) s1 s2 u s3 :
  persistDesiredState p0 s = Ok (p1, s1) → db_projections s2 = db_projections s1 →
  applySynchronouslyIfConfigured p1 s2 = Ok (u, s3) →
  ∃ now applied, p1 = set_BusinessProjection_UpdatedAt now p0 ∧ storedAs p1 applied ∧
    db_projections s3 = tupdate (λ r, BusinessProjection_ID r ==? BusinessProjection_ID p0) (stored p1 applied)
      (db_projections s) ∧
    db_instances s3 = db_instances s2 ∧ db_next_id s3 = db_next_id s2.
Proof.
  intros (now & -> & Hp & _ & _)%persistDesiredState_run Hs2 (applied & Hm & Ha & Hi & Hn)%applySynchronously_run.
  exists now, applied. split_and!; try done. rewrite Ha, Hs2, Hp. destruct applied as [t|]; [|done].
  assert (BusinessProjection_ID (set_BusinessProjection_UpdatedAt now p0) = BusinessProjection_ID p0) as ->
    by (by destruct p0).
  by rewrite tupdate_twice.
Qed.
Lemma carriesOn_Project i : keeps carriesOn (Projector_Project i).
Proof.
  intros s u s' Hrun. unfold Projector_Project in Hrun.
  destruct (Instance_BusinessProjectionID i) as [id|]; [|by injection Hrun as _ <-].
  destruct (id ==? ""); [by injection Hrun as _ <-|]. step Hrun as q s1 E1. unfold findProjection in E1.
  apply orThrow_gets_Ok in E1 as [Hq ->]. apply findBy_Ok in Hq as [Hq Hid].
  destruct (negb _); [by injection Hrun as _ <-|]. step Hrun as p1 s1 E1.
  apply setDesiredState_run in E1 as [(Hp1 & Hi1 & Hn1) (st & t & f & ->)].
  step Hrun as p2 s2 E2. apply resetPendingState_run in E2 as [(Hp2 & Hi2 & Hn2) [[Pid Po Pc Pr Ps] _]].
  step Hrun as p3 s3 E3. pose proof (persistDesiredState_run _ _ _ _ E3) as (now' & _ & _ & Hi3 & Hn3).
  destruct (store_run _ _ _ _ s3 _ _ E3 eq_refl Hrun) as (now & applied & -> & Hm & Hp & Hi & Hn).
  assert (BusinessProjection_ID p2 = BusinessProjection_ID q ∧
          BusinessProjection_OwnerInstanceID p2 = BusinessProjection_OwnerInstanceID q ∧
          BusinessProjection_DesiredRevision p2 = (BusinessProjection_DesiredRevision q + 1)%Z) as (Q1 & Q2 & Q3)
    by (rewrite Pid, Po, Pr; by destruct q).
  eapply (carriesOn_rewrite s s' q (stored (set_BusinessProjection_UpdatedAt now p2) applied)); [intros _; split; [done|]| |congruence|lia].
  - destruct (stored_identity (set_BusinessProjection_UpdatedAt now p2) applied q) as (S1 & S2 & S3 & S4).
    assert (BusinessProjection_OwnerInstanceID (set_BusinessProjection_UpdatedAt now p2) = BusinessProjection_OwnerInstanceID p2 ∧
      BusinessProjection_DesiredRevision (set_BusinessProjection_UpdatedAt now p2) = BusinessProjection_DesiredRevision p2 ∧
      BusinessProjection_Status (set_BusinessProjection_UpdatedAt now p2) = BusinessProjection_Status p2) as (U1 & U2 & U3)
      by (by destruct p2).
    split_and!; [done|done|congruence|rewrite S4, U2, Q3; lia|]. intros [Ha Hd Hf _ _].
    apply stored_coherent; [done|congruence|rewrite U2, Q3; lia|rewrite U2, Q3; lia|done].
  - by rewrite Hp, Q1, Hp2, Hp1.
Qed.
(** *** The worker *)
Lemma applied_movesOn q now : movesOn q (appliedColumns q now q).
Proof.
  split_and!; try done. intros [Ha Hd Hf _ Hm]. constructor; cbn; try done; try lia.
  destruct Hm as [?|[? _]]; auto.
Qed.
Lemma failed_movesOn q now n next e :
  BusinessProjection_Consistency q = ApprovalBindingEventual →
  movesOn q (set_BusinessProjection_UpdatedAt now (withSchedule BindingProjectionFailed n next None e q)).
Proof.
  intros Hc. destruct q. split_and!; try done. intros [Ha Hd Hf _ Hm]. constructor; cbn in *; try done. by left.
Qed.
Lemma carriesOn_applied s q u s' :
  (wellKept s → q ∈ db_projections s) → markProjectionApplied q s = Ok (u, s') → carriesOn s s'.
Proof.
  intros Hq Hrun. eapply (carriesOn_rewrite s s' q (appliedColumns q (clock_reading (db_clock s)))); [split; [auto|apply applied_movesOn]|..];
    destruct s; by injection Hrun as _ <-.
Qed.
Lemma carriesOn_failed s q e u s' :
  (wellKept s → q ∈ db_projections s ∧ BusinessProjection_Consistency q = ApprovalBindingEventual) →
  markProjectionFailed q e s = Ok (u, s') → carriesOn s s'.
Proof.
  intros Hq Hrun. eapply (carriesOn_rewrite s s' q (λ r, set_BusinessProjection_UpdatedAt (clock_reading (db_clock s))
    (withSchedule BindingProjectionFailed (BusinessProjection_AttemptCount q + 1)
       (Some (clock_reading (db_clock s) + projectionBackoff (BusinessProjection_AttemptCount q + 1))%Z) None
       (Some (projectionError e)) r))); [intros Hw; destruct (Hq Hw); split; [done|by apply failed_movesOn]|..];
    destruct s; by injection Hrun as _ <-.
Qed.
Lemma carriesOn_RetryProjection cmd : keeps carriesOn (RetryBusinessProjectionHandler_Handle cmd).
Proof.
  intros s u s' Hrun. unfold RetryBusinessProjectionHandler_Handle, findProjection in Hrun.
  step Hrun as q s1 E1. apply orThrow_gets_Ok in E1 as [Hq ->]. apply findBy_Ok in Hq as [Hq _].
  step Hrun as v s1 E1. apply throwIf_Ok in E1 as [_ ->]. unfold Worker_Retry in Hrun.
  step Hrun as v' s1 E1. apply throwIf_Ok in E1 as [Hc ->]. apply negb_false_iff, bool_decide_eq_true in Hc.
  step Hrun as r s1 E1. unfold savepoint, runInTx in E1. destruct (Writer_Write q s) as [[w s2]|e] eqn:Hw.
  - injection E1 as <- <-. apply Writer_Write_tables in Hw as (Hp & Hi & Hn). etrans.
    + by apply carriesOn_same; [exact Hp|exact Hi|rewrite Hn].
    + eapply carriesOn_applied; [|exact Hrun]. by rewrite Hp.
  - injection E1 as <- <-. by eapply carriesOn_failed.
Qed.
Lemma carriesOn_EmitEvents evs : keeps carriesOn (EmitEvents evs).
Proof. elsewhere. Qed.
(** Only eventual projections are ever being processed. *)
Lemma carriesOn_applyClaim claimed : keeps carriesOn (applyClaim claimed).
Proof.
  intros s u s' Hrun. unfold applyClaim, findProjection in Hrun. step Hrun as o s1 E1. injection E1 as Ho <-.
  destruct o as [q|]; [|by injection Hrun as _ <-]. apply findBy_Ok in Ho as [Hq _].
  destruct (negb (stillClaimed claimed q)) eqn:Hst; [by injection Hrun as _ <-|].
  assert (wellKept s → q ∈ db_projections s ∧ BusinessProjection_Consistency q = ApprovalBindingEventual) as Hc.
  { intros [_ Hcoh]. split; [done|]. apply negb_false_iff, andb_true_iff in Hst as [[Hst%bool_decide_eq_true _]%andb_true_iff _].
    destruct (coh_mode _ (Hcoh q Hq)) as [?|[_ Ha]]; [done|congruence]. }
  step Hrun as r s1 E1. unfold savepoint, runInTx in E1. destruct (Writer_Write q s) as [[w s2]|e] eqn:Hw.
  - injection E1 as <- <-. apply Writer_Write_tables in Hw as (Hp & Hi & Hn). etrans.
    + by apply carriesOn_same; [exact Hp|exact Hi|rewrite Hn].
    + eapply carriesOn_applied; [|exact Hrun]. by rewrite Hp.
  - injection E1 as <- <-. step Hrun as v s2 E2. etrans; [by eapply carriesOn_failed|].
    step Hrun as o s3 E3. injection E3 as <- <-. destruct (tfirst _ _); [by eapply carriesOn_EmitEvents|].
    by injection Hrun as _ <-.
Qed.
Lemma carriesOn_claimBatch : keeps carriesOn claimBatch.
Proof.
  intros s u s' Hrun. unfold claimBatch in Hrun. step Hrun as now s1 E1.
  assert (carriesOn s s1) as H1 by (destruct s; injection E1 as _ <-; by apply carriesOn_same).
  etrans; [exact H1|]. clear H1 E1 s. rename s1 into s. step Hrun as cl s1 E1. injection E1 as Hcl <-.
  step Hrun as v s1 E1. injection Hrun as _ <-. destruct (_ =? 0)%nat; [by injection E1 as _ <-|].
  step E1 as n s2 E2. injection E1 as _ <-. clear v.
  assert (∀ p, p ∈ cl → p ∈ db_projections s ∧ BusinessProjection_Consistency p = ApprovalBindingEventual) as Hin.
  { intros p Hp. rewrite <-Hcl in Hp. apply (subseteq_take _ _) in Hp. rewrite merge_sort_Permutation in Hp.
    apply elem_of_tselect in Hp as [[[Hc%bool_decide_eq_true _]%andb_true_iff _]%andb_true_iff Hp]. done. }
  constructor.
  - intros [Hnd _]. injection E2 as _ <-.
    assert (db_projections (upd_projections (tupdate (λ p, bool_decide (BusinessProjection_ID p ∈ BusinessProjection_ID <$> cl))
      (leased (now + Z.max 30 (3 * EffectiveScanInterval)) now)) s) = tupdate (λ p, bool_decide (BusinessProjection_ID p ∈ BusinessProjection_ID <$> cl))
      (leased (now + Z.max 30 (3 * EffectiveScanInterval)) now) (db_projections s)) as -> by (by destruct s).
    apply tupdate_Forall2; [apply _|]. intros p Hp (q & Heq & Hq)%bool_decide_eq_true%list_elem_of_fmap.
    destruct (Hin q Hq) as [Hq' Hc]. rewrite (NoDup_key_inj BusinessProjection_ID _ p q Hnd Hp Hq' Heq).
    destruct q. split_and!; try done. intros [Ha Hd Hf _ Hm]. constructor; cbn in *; try done. by left.
  - destruct s. injection E2 as _ <-. intros i Hi. by exists i.
  - destruct s. by injection E2 as _ <-.
Qed.

(** *** Everything else *)
Hint Extern 1 (keeps carriesOn (modify _)) => elsewhere : keeps.
Hint Extern 1 (keeps carriesOn Now) => elsewhere : keeps.
Hint Extern 1 (keeps carriesOn freshID) => elsewhere : keeps.
Hint Resolve carriesOn_EmitEvents : keeps.
#[local] Instance carriesOn_off : OffDefinitions carriesOn.
Proof. split; try exact _; intros; elsewhere. Qed.
Lemma carriesOn_updateInstances p f : (∀ i, sameLink i (f i)) → keeps carriesOn (updateInstances p f).
Proof.
  intros Hf [] n s' [= _ <-]. constructor; cbn; [intros _; reflexivity| |done].
  intros i' (i & Hi & ->)%elem_of_tupdate. exists i. split; [done|]. by destruct (p i).
Qed.
#[export] Instance carriesOn_framed : Framed carriesOn.
Proof.
  split; try exact _; try (intros; elsewhere); auto using carriesOn_updateInstances, carriesOn_Project,
    carriesOn_RetryProjection, carriesOn_claimBatch, carriesOn_applyClaim.
  - intros l [] a s' [=]; subst. cbn. case_match; by apply carriesOn_same.
  - intros. unfold InsertCCRecords, insertCCRecord. keeps_tac.
  - apply off_SyncInstanceProjection, _.
  - intros b []. by apply carriesOn_same.
  - apply off_PublishVersion, _.
  - apply off_ToggleFlowActive, _.
  - apply off_CreateFlow, _.
  - apply off_UpdateFlow, _.
  - intros cmd. by apply off_DeployFlow; [apply _|..]; intros; elsewhere.
Qed.

(** ** Binding a new instance *)
Definition hashes (s : St) : list string := BusinessProjection_TargetHash <$> db_projections s.
Definition freshProjections (s : St) : Prop := ∀ k, db_next_id s ≤ k → gen_id k ∉ projectionIDs s.

(** The candidate rows after the claim's insert: the table as it was, or with a new
    row for a record nobody bound before. *)
Definition candidates (s : St) (q : BusinessProjection) (owner : string) (l : list BusinessProjection) : Prop :=
  (l = db_projections s ∧ q ∈ l) ∨
  (l = db_projections s ++ [q] ∧ BusinessProjection_ID q = gen_id (db_next_id s) ∧
   (BusinessProjection_TargetHash q ∉ hashes s) ∧ BusinessProjection_OwnerInstanceID q = owner ∧
   BusinessProjection_AppliedRevision q = 0%Z ∧ BusinessProjection_DesiredRevision q = 1%Z ∧
   BusinessProjection_AppliedOwnerInstanceID q = None).
Lemma tfirst_app {Row} (p : Row → bool) (l k : list Row) :
  tfirst p (l ++ k) = match tfirst p l with Some r => Some r | None => tfirst p k end.
Proof. unfold tfirst. induction l as [|r l IH]; cbn; [done|]. by destruct (p r). Qed.
Lemma insertProjection_run p h s u s' q :
  BusinessProjection_TargetHash p = h → insertProjection p s = Ok (u, s') →
  tfirst (λ r, BusinessProjection_TargetHash r ==? h) (db_projections s') = Some q →
  BusinessProjection_AppliedRevision p = 0%Z → BusinessProjection_DesiredRevision p = 1%Z →
  BusinessProjection_AppliedOwnerInstanceID p = None →
  candidates s q (BusinessProjection_OwnerInstanceID p) (db_projections s') ∧
  db_instances s' = db_instances s ∧ db_next_id s' = S (db_next_id s).
Proof.
  intros Hh Hrun Hq H1 H2 H3.
  assert (∃ row, BusinessProjection_ID row = gen_id (db_next_id s) ∧ BusinessProjection_TargetHash row = h ∧
    BusinessProjection_OwnerInstanceID row = BusinessProjection_OwnerInstanceID p ∧
    BusinessProjection_AppliedRevision row = 0%Z ∧ BusinessProjection_DesiredRevision row = 1%Z ∧
    BusinessProjection_AppliedOwnerInstanceID row = None ∧
    db_projections s' = (if texists (λ r, BusinessProjection_TargetHash r ==? h) (db_projections s)
      then db_projections s else db_projections s ++ [row])%list ∧
    db_instances s' = db_instances s ∧ db_next_id s' = S (db_next_id s))
    as (row & R1 & R2 & R3 & R4 & R5 & R6 & Hp & Hi & Hn).
  { exists (set_BusinessProjection_ID (gen_id (db_next_id s)) (set_BusinessProjection_CreatedAt (clock_reading (db_clock s))
      (set_BusinessProjection_UpdatedAt (clock_reading (db_clock s)) p))).
    destruct s, p. cbn in *. subst. injection Hrun as _ <-. split_and!; reflexivity. }
  split; [|done]. rewrite Hp in Hq |- *. destruct (texists _ _) eqn:Hex.
  - left. split; [done|]. by apply findBy_Ok in Hq as [? _].
  - right. assert (q = row) as ->.
    { rewrite tfirst_app in Hq. destruct (tfirst _ (db_projections s)) as [r|] eqn:Hf.
      - exfalso. apply not_true_iff_false in Hex. apply Hex, texists_true.
        apply List.find_some in Hf as [Hr Hf]. exists r. by rewrite list_elem_of_In.
      - unfold tfirst in Hq. cbn [List.find] in Hq. rewrite R2, bool_decide_eq_true_2 in Hq by done. by injection Hq. }
    split_and!; try done. rewrite R2. intros (r & Hr & Hin)%list_elem_of_fmap. apply not_true_iff_false in Hex.
    apply Hex, texists_true. exists r. split; [done|]. by apply bool_decide_eq_true.
Qed.
Lemma ensureOwner_Ok owner s u s' :
  ensureOwnerCanBeSuperseded owner s = Ok (u, s') → s' = s ∧
  (owner = "" ∨ ∀ j, tfirst (λ i, Instance_ID i ==? owner) (db_instances s) = Some j →
     InstanceStatus_IsFinal (Instance_Status j) = true).
Proof.
  unfold ensureOwnerCanBeSuperseded, findInstance. case_bool_decide; [intros [= _ <-]; auto|]. intros Hrun.
  step Hrun as o s1 E1. injection E1 as Ho <-. rewrite Ho. destruct o as [j|].
  - apply throwIf_Ok in Hrun as [Hf ->]. apply negb_false_iff in Hf. split; [done|]. right. by intros ? [= <-].
  - injection Hrun as _ <-. split; [done|]. right. by intros ? [=].
Qed.
(** The claim up to the point where it is stored. *)
Lemma claimTarget_run flow b i s loaded s' :
  wellKept s → claimTarget flow b i s = Ok (loaded, s') →
  ∃ q l p s1, candidates s q (Instance_ID i) l ∧
    persistDesiredState p s1 = Ok (loaded, s') ∧ db_projections s1 = l ∧ db_instances s1 = db_instances s ∧
    db_next_id s1 = S (db_next_id s) ∧
    BusinessProjection_ID p = BusinessProjection_ID q ∧ BusinessProjection_OwnerInstanceID p = Instance_ID i ∧
    BusinessProjection_Status p = BindingProjectionPending ∧
    (1 ≤ BusinessProjection_DesiredRevision p)%Z ∧
    (BusinessProjection_AppliedRevision q ≤ BusinessProjection_DesiredRevision p)%Z ∧
    (BusinessProjection_OwnerInstanceID q = Instance_ID i ∨ BusinessProjection_OwnerInstanceID q = "" ∨
     ∀ j, tfirst (λ i, Instance_ID i ==? BusinessProjection_OwnerInstanceID q) (db_instances s) = Some j →
       InstanceStatus_IsFinal (Instance_Status j) = true).
Proof.
  intros Hw Hrun. unfold claimTarget in Hrun. step Hrun as cfg s1 E. apply liftR_Ok in E as [_ ->].
  step Hrun as u1 s1 E. apply throwIf_Ok in E as [_ ->]. step Hrun as key s1 E. apply liftR_Ok in E as [_ ->].
  step Hrun as ek s1 E. apply liftR_Ok in E as [_ ->]. step Hrun as p1 s1 E1.
  apply setDesiredState_run in E1 as [(Hp1 & Hi1 & Hn1) (st & t & f & ->)]. step Hrun as u2 s2 E2.
  step Hrun as q s3 E3. apply orThrow_gets_Ok in E3 as [Hq ->]. step Hrun as u3 s3 E3. apply throwIf_Ok in E3 as [_ ->].
  eapply insertProjection_run in E2 as (Hcand & Hi2 & Hn2); [|done|exact Hq|done|done|done].
  cbn [withDesired newProjection BusinessProjection_OwnerInstanceID] in Hcand.
  unfold candidates, hashes in Hcand. rewrite Hp1, Hn1 in Hcand. fold (hashes s) in Hcand.
  assert (coherent q ∨ BusinessProjection_AppliedRevision q = 0%Z ∧ BusinessProjection_DesiredRevision q = 1%Z) as Hq1.
  { destruct Hcand as [[Hl Hin]|(_ & _ & _ & _ & ? & ? & _)]; [left|by right]. apply Hw. by rewrite <-Hl. }
  assert (0 ≤ BusinessProjection_AppliedRevision q ≤ BusinessProjection_DesiredRevision q ∧
          1 ≤ BusinessProjection_DesiredRevision q)%Z as [Hqa Hqd] by (destruct Hq1 as [[]|[-> ->]]; lia).
  step Hrun as p3 s3 E3.
  assert (idle s2 s3 ∧ BusinessProjection_ID p3 = BusinessProjection_ID q ∧
    BusinessProjection_OwnerInstanceID p3 = Instance_ID i ∧
    (BusinessProjection_DesiredRevision q ≤ BusinessProjection_DesiredRevision p3)%Z ∧
    (BusinessProjection_OwnerInstanceID q = Instance_ID i ∨ BusinessProjection_OwnerInstanceID q = "" ∨
     ∀ j, tfirst (λ i, Instance_ID i ==? BusinessProjection_OwnerInstanceID q) (db_instances s) = Some j →
       InstanceStatus_IsFinal (Instance_Status j) = true)) as (Hid3 & I3 & O3 & D3 & Hsup).
  { destruct (negb _) eqn:Hown.
    - step E3 as u4 s4 E4. apply ensureOwner_Ok in E4 as [-> Hsup].
      apply setDesiredState_run in E3 as [Hid (st' & t' & f' & ->)]. split; [done|]. rewrite Hi2, Hi1 in Hsup.
      destruct q. cbn. split_and!; try done; [lia|]. by right.
    - apply negb_false_iff, bool_decide_eq_true in Hown.
      destruct (_ =? 0)%Z eqn:Hz; [apply Z.eqb_eq in Hz; lia|]. injection E3 as <- <-. split_and!; try done. by left. }
  destruct Hid3 as (Hp3 & Hi3 & Hn3). step Hrun as p4 s4 E4.
  apply resetPendingState_run in E4 as [(Hp4 & Hi4 & Hn4) [[P1 P2 P3 P4 P5] _]].
  exists q, (db_projections s2), p4, s4. split_and!; try congruence; try lia; try done.
Qed.

(** ** Every reachable store *)
Definition live (i : Instance) : Prop := InstanceStatus_IsFinal (Instance_Status i) = false.
Record bound (s : St) : Prop := {
  bnd_kept : wellKept s;
  bnd_hashes : NoDup (hashes s);
  bnd_fresh : freshProjections s;
  bnd_links : ∀ i k, i ∈ db_instances s → Instance_BusinessProjectionID i = Some k →
    ∃ p, p ∈ db_projections s ∧ BusinessProjection_ID p = k ∧
      (live i → BusinessProjection_OwnerInstanceID p = Instance_ID i);
}.
(** A live instance was live before. *)
Lemma live_before s s' i i' :
  disciplined s' → advances s s' → i ∈ db_instances s → i' ∈ db_instances s' →
  Instance_ID i' = Instance_ID i → live i' → live i.
Proof.
  intros Hd Ha Hi Hi' Hid Hl.
  destruct (table_evolves_elem _ _ _ _ (adv_instances _ _ Ha) Hi) as (i1 & Hi1 & He & _ & _ & _ & _ & Hst).
  assert (i1 = i') as ->.
  { eapply (NoDup_key_inj Instance_ID); [apply (wf_instances _ (disc_wf _ Hd))|done|done|congruence]. }
  unfold live in *. destruct (InstanceStatus_IsFinal (Instance_Status i)) eqn:Hf; [|done].
  rewrite (instance_final_rtc _ _ Hf Hst) in Hl. congruence.
Qed.
Lemma bound_carriesOn s s' :
  (∀ i i', i ∈ db_instances s → i' ∈ db_instances s' → Instance_ID i' = Instance_ID i → live i' → live i) →
  carriesOn s s' → bound s → bound s'.
Proof.
  intros Hlive [Hp Hi Hn] [Hk Hh Hf Hl]. specialize (Hp Hk). constructor.
  - by eapply movesOn_wellKept.
  - unfold hashes. by rewrite (movesOn_hashes _ _ Hp).
  - intros k Hle. unfold projectionIDs. rewrite (movesOn_ids _ _ Hp). apply Hf. lia.
  - intros i' k Hi' Hlk. destruct (Hi i' Hi') as (i & Hin & Hid & Hlink).
    destruct (Hl i k Hin) as (p & Hpin & Hpk & Hown); [congruence|].
    apply list_elem_of_lookup in Hpin as [n Hlook].
    destruct (Forall2_lookup_l _ _ _ _ _ Hp Hlook) as (p' & Hp' & M1 & _ & M3 & _).
    exists p'. split; [by eapply list_elem_of_lookup_2|]. split; [congruence|]. intros Hl'.
    rewrite M3, Hown, Hid; [done|]. by eapply Hlive.
Qed.

(** *** Starting *)

(** New instances are not linked, and links are kept with the statuses. *)
Lemma bound_instances s s' :
  db_projections s' = db_projections s → db_next_id s ≤ db_next_id s' →
  (∀ i', i' ∈ db_instances s' → Instance_BusinessProjectionID i' = None ∨
     ∃ i, i ∈ db_instances s ∧ sameLink i i' ∧ Instance_Status i' = Instance_Status i) →
  bound s → bound s'.
Proof.
  intros Hp Hn Hi [Hk Hh Hf Hl]. constructor; unfold wellKept, hashes, freshProjections, projectionIDs in *;
    rewrite ?Hp; [done|done|intros k Hle; apply Hf; lia|].
  intros i' k Hin Hlk. destruct (Hi i' Hin) as [?|(i & Hii & [Hid Hlink] & Hst)]; [congruence|].
  unfold live. rewrite Hid, Hst. apply (Hl i k); [done|congruence].
Qed.
(** Rewriting one of the candidate rows. *)
Lemma candidates_kept s q owner l f :
  bound s → candidates s q owner l → coherent (f q) →
  BusinessProjection_ID (f q) = BusinessProjection_ID q →
  BusinessProjection_TargetHash (f q) = BusinessProjection_TargetHash q →
  ∀ s', db_projections s' = tupdate (λ r, BusinessProjection_ID r ==? BusinessProjection_ID q) f l →
  S (db_next_id s) ≤ db_next_id s' →
  wellKept s' ∧ NoDup (hashes s') ∧ freshProjections s' ∧ f q ∈ db_projections s' ∧
  ∀ p, p ∈ db_projections s → p = q ∨ p ∈ db_projections s'.
Proof.
  intros [[Hnd Hco] Hh Hf _] Hc Hfq Hid Hhash s' Hp Hn. set (mine := λ r, BusinessProjection_ID r ==? BusinessProjection_ID q) in Hp.
  assert (NoDup (BusinessProjection_ID <$> l) ∧ NoDup (BusinessProjection_TargetHash <$> l) ∧ q ∈ l ∧
    (∀ p, p ∈ l → p = q ∨ coherent p) ∧ (∀ p, p ∈ db_projections s → p ∈ l) ∧
    ∀ k, S (db_next_id s) ≤ k → gen_id k ∉ BusinessProjection_ID <$> l) as (L1 & L2 & L3 & L4 & L5 & L6).
  { destruct Hc as [[-> Hq]|(-> & Q1 & Q2 & _)].
    - split_and!; try done; [by right; apply Hco|]. intros k Hk. apply Hf. lia.
    - split_and!.
      + rewrite fmap_app. apply NoDup_app. split; [done|]. split; [|apply NoDup_singleton].
        intros x Hx ->%list_elem_of_singleton. rewrite Q1 in Hx. by eapply Hf.
      + rewrite fmap_app. apply NoDup_app. split; [done|]. split; [|apply NoDup_singleton].
        intros x Hx ->%list_elem_of_singleton. done.
      + apply elem_of_app. right. by left.
      + intros p [Hin|Hin%list_elem_of_singleton]%elem_of_app; [right; by apply Hco|by left].
      + intros p Hin. apply elem_of_app. by left.
      + intros k Hk. rewrite fmap_app, not_elem_of_app. split; [apply Hf; lia|].
        cbn. rewrite list_elem_of_singleton, Q1. intros Heq%gen_id_inj. lia. }
  assert (∀ r, r ∈ l → mine r = true → r = q) as Hu.
  { intros r Hr Hm%bool_decide_eq_true. by eapply (NoDup_key_inj BusinessProjection_ID). }
  assert (BusinessProjection_ID <$> tupdate mine f l = BusinessProjection_ID <$> l) as Hids.
  { apply fmap_ids_tupdate_in. intros r Hr Hm. by rewrite (Hu r Hr Hm). }
  assert (BusinessProjection_TargetHash <$> tupdate mine f l = BusinessProjection_TargetHash <$> l) as Hhs.
  { apply fmap_ids_tupdate_in. intros r Hr Hm. by rewrite (Hu r Hr Hm). }
  unfold wellKept, hashes, freshProjections, projectionIDs. rewrite Hp, Hids, Hhs. split_and!; try done.
  - intros p (r & Hr & ->)%elem_of_tupdate. destruct (mine r) eqn:Hm; [by rewrite (Hu r Hr Hm)|].
    destruct (L4 r Hr) as [->|?]; [|done]. exfalso. unfold mine in Hm. by apply bool_decide_eq_false in Hm.
  - intros k Hk. apply L6. lia.
  - apply elem_of_tupdate. exists q. split; [done|]. unfold mine. by rewrite bool_decide_eq_true_2.
  - intros p Hin. specialize (L5 p Hin). destruct (mine p) eqn:Hm; [left; by apply Hu|right].
    apply elem_of_tupdate. exists p. by rewrite Hm.
Qed.
Lemma tfirst_key {Row} (key : Row → string) (l : list Row) r :
  NoDup (key <$> l) → r ∈ l → tfirst (λ x, key x ==? key r) l = Some r.
Proof.
  intros Hnd Hr. destruct (tfirst _ l) as [x|] eqn:Hx.
  - apply tfirst_Some in Hx as [Hx Hk%bool_decide_eq_true]. f_equal. by eapply (NoDup_key_inj key).
  - apply (proj1 (tfirst_None _ _)) with (r := r) in Hx; [|done]. by rewrite bool_decide_eq_true_2 in Hx.
Qed.
Lemma bound_Bind flow version i s i' s' :
  NoDup (Instance_ID <$> db_instances s) → (∀ j, j ∈ db_instances s → Instance_ID j ≠ "") →
  Projector_Bind flow version i s = Ok (i', s') → bound s → bound s'.
Proof.
  intros Hnd Hne Hrun Hb. unfold Projector_Bind in Hrun.
  destruct (FlowVersion_BusinessBinding version) as [b|]; [|by injection Hrun as _ <-].
  step Hrun as loaded s1 E1. apply (claimTarget_run _ _ _ _ _ _ (bnd_kept _ Hb)) in E1
    as (q & l & p & s0 & Hc & Hper & Hl & Hi0 & Hn0 & P1 & P2 & P3 & P4 & P5 & Hsup).
  pose proof (persistDesiredState_run _ _ _ _ Hper) as (now' & Hld & Hp1 & Hi1 & Hn1).
  step Hrun as n s2 E2. step Hrun as u s3 E3. injection Hrun as _ <-.
  assert (db_projections s2 = db_projections s1 ∧ db_next_id s2 = db_next_id s1 ∧
    db_instances s2 = tupdate (λ r, Instance_ID r ==? Instance_ID i)
      (set_Instance_BusinessProjectionID (Some (BusinessProjection_ID loaded))) (db_instances s1)) as (Hp2 & Hn2 & Hi2)
    by (destruct s1; by injection E2 as _ <-).
  destruct (store_run _ _ _ _ s2 _ _ Hper Hp2 E3) as (now & applied & Hload & Hm & Hp3 & Hi3 & Hn3).
  assert (BusinessProjection_ID loaded = BusinessProjection_ID q ∧
    BusinessProjection_OwnerInstanceID loaded = Instance_ID i ∧
    BusinessProjection_Status loaded = BindingProjectionPending ∧
    BusinessProjection_DesiredRevision loaded = BusinessProjection_DesiredRevision p) as (L1 & L2 & L3 & L4)
    by (rewrite Hload, <-P1, <-P2, <-P3; by destruct p).
  destruct (stored_identity loaded applied q) as (S1 & S2 & S3 & S4).
  assert (coherent (stored loaded applied q)) as Hcoh.
  { apply stored_coherent; [done|done|lia| |].
    - destruct Hc as [[-> Hq]|(_ & _ & _ & _ & Ha & _)]; [|lia]. destruct (proj2 (bnd_kept _ Hb) q Hq). lia.
    - destruct Hc as [[-> Hq]|(_ & _ & _ & _ & Ha & _)]; [|lia]. by destruct (proj2 (bnd_kept _ Hb) q Hq). }
  rewrite Hl, P1 in Hp3.
  destruct (candidates_kept s q _ l (stored loaded applied) Hb Hc Hcoh S1 S2 s3 Hp3) as (K1 & K2 & K3 & K4 & K5); [lia|].
  constructor; try done. intros j' k Hj' Hlk. rewrite Hi3, Hi2, Hi1, Hi0 in Hj'.
  apply elem_of_tupdate in Hj' as (j & Hj & ->). case_bool_decide as Hid.
  - exists (stored loaded applied q). split; [done|]. destruct j. cbn in *. injection Hlk as <-.
    split; [congruence|]. intros _. congruence.
  - destruct (bnd_links _ Hb j k Hj Hlk) as (r & Hr & Hrk & Hrl). destruct (K5 r Hr) as [->|Hr3].
    + exists (stored loaded applied q). split; [done|]. split; [congruence|]. intros Hlive.
      specialize (Hrl Hlive). exfalso. destruct Hsup as [Ho|[Ho|Ho]].
      * congruence.
      * by apply (Hne j Hj); congruence.
      * specialize (Ho j). unfold live in Hlive. rewrite Ho in Hlive; [done|]. rewrite Hrl.
        by apply tfirst_key.
    + by exists r.
Qed.

(** Statuses and ids of the instances, as binding leaves them. *)
Definition sameStatuses (s s' : St) : Prop :=
  ∀ i', i' ∈ db_instances s' → ∃ i, i ∈ db_instances s ∧ Instance_ID i' = Instance_ID i ∧
    Instance_Status i' = Instance_Status i.
#[local] Instance sameStatuses_preorder : PreOrder sameStatuses.
Proof.
  split; [by intros s i Hi; exists i|]. intros x y z Hxy Hyz i Hi.
  destruct (Hyz i Hi) as (j & Hj & H1 & H2). destruct (Hxy j Hj) as (k & Hk & K1 & K2).
  exists k. split_and!; congruence.
Qed.
Lemma sameStatuses_updateInstances p f :
  (∀ i, Instance_ID (f i) = Instance_ID i ∧ Instance_Status (f i) = Instance_Status i) →
  keeps sameStatuses (updateInstances p f).
Proof.
  intros Hf [] n s' [= _ <-] i' (i & Hi & ->)%elem_of_tupdate. exists i. split; [done|].
  destruct (p i); [apply Hf|done].
Qed.
Lemma sameStatuses_Bind flow version i : keeps sameStatuses (Projector_Bind flow version i).
Proof.
  apply keeps_Bind; try apply _.
  - by intros [] n s' [= _ <-] i' Hi; exists i'.
  - by intros f [] n s' [= _ <-] i' Hi; exists i'.
  - by intros f [] n s' [= _ <-] i' Hi; exists i'.
  - by intros [] n s' [= _ <-] i' Hi; exists i'.
  - intros id. apply sameStatuses_updateInstances. by intros [].
Qed.
Lemma bound_bindBusiness flow version i s i' s' :
  NoDup (Instance_ID <$> db_instances s) → (∀ j, j ∈ db_instances s → Instance_ID j ≠ "") →
  bindBusiness flow version i s = Ok (i', s') → bound s → bound s' ∧ sameStatuses s s'.
Proof.
  intros Hnd Hne Hrun Hb. unfold bindBusiness in Hrun.
  destruct (FlowVersion_BusinessBinding version) as [b|]; [|by injection Hrun as _ <-].
  step Hrun as ref s1 E1. apply liftR_Ok in E1 as [_ ->]. step Hrun as i2 s2 E2.
  assert (bound s2 ∧ sameStatuses s s2 ∧ Instance_ID <$> db_instances s2 = Instance_ID <$> db_instances s) as (Hb2 & Hs2 & Hids).
  { destruct (negb _ && _); [|by injection E2 as _ <-]. step E2 as n s3 E3. injection E2 as _ <-. split_and!.
    - eapply (bound_instances s); [destruct s; by injection E3 as _ <-| |..|done]; [destruct s; by injection E3 as _ <-|].
      intros j Hj. right. destruct s; injection E3 as _ <-. apply elem_of_tupdate in Hj as (r & Hr & ->). exists r.
      split; [done|]. by case_bool_decide; destruct r.
    - refine (sameStatuses_updateInstances _ _ _ _ _ _ E3). by intros [].
    - destruct s; injection E3 as _ <-. cbn. apply fmap_ids_tupdate. by intros []. }
  split; [|etrans; [exact Hs2|by eapply sameStatuses_Bind]]. eapply bound_Bind; [| |exact Hrun|done].
  - by rewrite Hids.
  - intros j Hj. destruct (Hs2 j Hj) as (r & Hr & -> & _). by apply Hne.
Qed.
Lemma instance_ids s : wf s → NoDup (Instance_ID <$> db_instances s) ∧ ∀ j, j ∈ db_instances s → Instance_ID j ≠ "".
Proof.
  intros [[Hnd Hf] _ _]. split; [done|]. intros j Hj. rewrite Forall_forall in Hf.
  destruct (Hf (Instance_ID j)) as (k & _ & ->); [by apply list_elem_of_fmap_2|]. apply gen_id_nonempty.
Qed.
Lemma bound_StartInstance cmd s a s' :
  disciplined s → disciplined s' → advances s s' →
  StartInstanceHandler_Handle cmd s = Ok (a, s') → bound s → bound s'.
Proof.
  intros Hd Hd' Hadv (row & i & s1 & flow & ver & i2 & s2 & log & Hst & Hrow & Hins & Hbind & Htail)%StartInstance_run Hb.
  assert (db_instances s1 = db_instances s ++ [i] ∧ Instance_ID i = gen_id (db_next_id s) ∧
    Instance_BusinessProjectionID i = None ∧ Instance_Status i = InstanceRunning ∧
    db_projections s1 = db_projections s ∧ db_next_id s1 = S (db_next_id s)) as (Hi1 & Hid & Hl & Hst' & Hp1 & Hn1).
  { destruct s, row. cbn in *. subst. by injection Hins as <- <-. }
  assert (wf s1) as Hw1 by (eapply (safe_insertInstance row s i s1 Hins), Hd).
  destruct (instance_ids s1 Hw1) as [Hnd Hne].
  assert (bound s1) as Hb1.
  { eapply (bound_instances s); [done|lia| |done]. rewrite Hi1.
    intros j [Hj| ->%list_elem_of_singleton]%elem_of_app; [right|by left]. by exists j. }
  destruct (bound_bindBusiness _ _ _ _ _ _ Hnd Hne Hbind Hb1) as [Hb2 Hs2].
  eapply (bound_carriesOn s2); [|by eapply (startTail_framed carriesOn)|done].
  intros j j' Hj Hj' Heq Hlive. destruct (Hs2 j Hj) as (r & Hr & Hrid & Hrst). unfold live. rewrite Hrst.
  rewrite Hi1 in Hr. apply elem_of_app in Hr as [Hr| ->%list_elem_of_singleton].
  - eapply (live_before s s' r j'); [done|done|done|done|congruence|done].
  - by rewrite Hst'.
Qed.
Lemma reachable_bound s0 s : sound s0 → bound s0 → reachable s0 s → bound s.
Proof.
  intros Hs0 Hb0. induction 1 as [|c s Hr IH|j s Hr IH Hen]; [done|..];
    destruct (reachable_sound _ _ Hs0 Hr) as [[Hd Hf] _].
  - unfold execTx, runInTx. destruct (exec c s) as [[u s']|e] eqn:Hrun; [|done]. cbn.
    destruct (exec_lawful c s u s' Hd Hf Hrun) as (Hd' & _ & Ha & _).
    assert ((∃ cmd, c = CmdStartInstance cmd) ∨ ∀ cmd, c ≠ CmdStartInstance cmd) as [[cmd ->]|Hc] by (destruct c; eauto).
    + cbn [exec] in Hrun. step Hrun as x s1 E1. injection Hrun as _ <-. exact (bound_StartInstance cmd s x s1 Hd Hd' Ha E1 IH).
    + eapply (bound_carriesOn s); [|eapply (exec_framed carriesOn); [|exact Hrun]|done].
      * intros. by eapply live_before.
      * intros cmd ->. by destruct (Hc cmd).
  - unfold jobTx, runInTx. destruct (runJob j s) as [[u s']|e] eqn:Hrun; [|done]. cbn.
    destruct (job_lawful j s u s' Hd Hf Hen Hrun) as (Hd' & _ & Ha & _).
    eapply (bound_carriesOn s); [|by eapply (job_framed carriesOn)|done]. intros. by eapply live_before.
Qed.
Lemma genesis_bound s : genesis s → db_projections s = [] → bound s.
Proof.
  intros Hg Hp. constructor; unfold wellKept, hashes, freshProjections, projectionIDs; rewrite ?Hp.
  - split; [constructor|]. intros p Hin. by apply elem_of_nil in Hin.
  - constructor.
  - intros k _. apply not_elem_of_nil.
  - rewrite (gen_instances _ Hg). intros i k Hin. by apply elem_of_nil in Hin.
Qed.
End writes.

(** C13. A business record has at most one live approval: in every reachable store
    two instances that are not concluded never share a projection, a live instance
    is the owner its projection names, whoever tried to take the record over
    meanwhile, no link dangles, and a record has one projection. *)
Theorem records_have_one_live_owner `{!Host} s0 s :
  genesis s0 → db_projections s0 = [] → reachable s0 s →
  (∀ i k, i ∈ db_instances s → Instance_BusinessProjectionID i = Some k →
     ∃ p, p ∈ db_projections s ∧ BusinessProjection_ID p = k ∧
       (live i → BusinessProjection_OwnerInstanceID p = Instance_ID i)) ∧
  (∀ i j k, i ∈ db_instances s → j ∈ db_instances s → live i → live j →
     Instance_BusinessProjectionID i = Some k → Instance_BusinessProjectionID j = Some k → i = j) ∧
  (∀ p q, p ∈ db_projections s → q ∈ db_projections s →
     BusinessProjection_TargetHash p = BusinessProjection_TargetHash q → p = q).
Proof.
  intros Hg Hp Hr. pose proof (reachable_bound _ _ (genesis_sound _ Hg) (genesis_bound _ Hg Hp) Hr) as [[Hnd _] Hh _ Hl].
  split; [exact Hl|]. split.
  - intros i j k Hi Hj Li Lj Ki Kj. destruct (Hl i k Hi Ki) as (p & Hpi & Pi & Oi), (Hl j k Hj Kj) as (q & Hq & Qi & Oj).
    assert (p = q) as -> by (eapply (NoDup_key_inj BusinessProjection_ID); [exact Hnd|done|done|congruence]).
    eapply (NoDup_key_inj Instance_ID); [|done|done|rewrite <-Oi, <-Oj by done; done].
    apply instance_ids, (disc_wf s), (reachable_orderly s0 s Hg Hr).
  - intros p q Hpi Hq Heq. by eapply (NoDup_key_inj BusinessProjection_TargetHash).
Qed.

(** C18. No intended state is lost: in every reachable store what was written of a
    record never runs ahead of what is wanted; a record bound synchronously is up to
    date, with the wanted owner; and one bound eventually is either up to date or
    from some time on, until it is, up for the worker to claim. *)
Theorem no_intended_state_is_lost `{!Host} s0 s p :
  genesis s0 → db_projections s0 = [] → reachable s0 s → p ∈ db_projections s →
  (0 ≤ BusinessProjection_AppliedRevision p ≤ BusinessProjection_DesiredRevision p)%Z ∧
  ((BusinessProjection_Consistency p = ApprovalBindingSynchronous ∧ upToDate p) ∨
   (BusinessProjection_Consistency p = ApprovalBindingEventual ∧
    (BusinessProjection_AppliedRevision p = BusinessProjection_DesiredRevision p ∨
     ∃ t, ∀ now, (t ≤ now)%Z → claimable now p = true))).
Proof.
  intros Hg H0 Hr Hp. pose proof (reachable_bound _ _ (genesis_sound _ Hg) (genesis_bound _ Hg H0) Hr) as [[_ Hc] _ _ _].
  destruct (Hc p Hp) as [Ha Hd Hf Hdone Hm]. split; [done|]. destruct Hm as [He|[Hs Hst]]; [right|left; auto].
  split; [done|]. destruct (Z.eq_dec (BusinessProjection_AppliedRevision p) (BusinessProjection_DesiredRevision p)) as [|Hne];
    [by left|right]. unfold claimable. rewrite He, bool_decide_eq_true_2 by done.
  assert ((BusinessProjection_AppliedRevision p <? BusinessProjection_DesiredRevision p)%Z = true) as -> by (apply Z.ltb_lt; lia).
  destruct (BusinessProjection_Status p) eqn:Hst; cbn [andb].
  - exists (default 0%Z (BusinessProjection_NextAttemptAt p)). intros now Hnow. unfold due.
    destruct (BusinessProjection_NextAttemptAt p); [by apply Z.leb_le|done].
  - exists (default 0%Z (BusinessProjection_LeaseUntil p)). intros now Hnow. unfold due.
    destruct (BusinessProjection_LeaseUntil p); [by apply Z.leb_le|done].
  - by destruct (Hdone eq_refl).
  - exists (default 0%Z (BusinessProjection_NextAttemptAt p)). intros now Hnow. unfold due.
    destruct (BusinessProjection_NextAttemptAt p); [by apply Z.leb_le|done].
Qed.

(** Order 7 is bound by alice; bob's attempt on the same order is refused, order 8
    is free. *)
Definition demoBoundBinding : BusinessBindingConfig :=
  Build_BusinessBindingConfig "orders" ["no"] "status" (Some "apv_instance_id") None None None.
Definition demoBoundOrder (no : string) : BusinessRow :=
  Build_BusinessRow "orders" {["no" := DString no; "status" := DString "new"]}.
Definition demoBound0 : St :=
  set_business [demoBoundOrder "7"; demoBoundOrder "8"]
    (set_versions [Build_FlowVersion "v1" "leave" 1 VersionPublished None StorageJSON None None [] None None
                     (Some demoBoundBinding)] demoS0).
Definition demoBind (user order : string) : Command :=
  CmdStartInstance (Build_StartInstanceCmd "acme" "leave" (demoUser user) (Some order) None None demoCaller).
Definition demoBound1 : St :=
  @execTx demoHost (demoBind "dave" "8") (@execTx demoHost (demoBind "bob" "7")
    (@execTx demoHost (demoBind "alice" "7") demoBound0)).
Lemma demoBound0_genesis : @genesis demoHost demoBound0.
Proof. destruct (demoS0_genesis ApprovalSequential PassAll ["bob"; "carol"]). by constructor. Qed.
Lemma demoBound1_reachable : @reachable demoHost demoBound0 demoBound1.
Proof. do 3 apply reach_step. apply reach_here. Qed.
Lemma records_have_one_live_owner_witness :
  map Instance_ApplicantID (db_instances demoBound1) = ["alice"; "dave"] ∧
  map BusinessProjection_OwnerInstanceID (db_projections demoBound1) = map Instance_ID (db_instances demoBound1) ∧
  ∀ i j k, i ∈ db_instances demoBound1 → j ∈ db_instances demoBound1 → live i → live j →
    Instance_BusinessProjectionID i = Some k → Instance_BusinessProjectionID j = Some k → i = j.
Proof.
  split; [vm_compute; reflexivity|]. split; [vm_compute; reflexivity|].
  destruct (@records_have_one_live_owner demoHost demoBound0 demoBound1) as (_ & Hone & _).
  - exact demoBound0_genesis.
  - reflexivity.
  - exact demoBound1_reachable.
  - exact Hone.
Defined.
Lemma no_intended_state_is_lost_witness :
  map (λ p, (BusinessProjection_AppliedRevision p, BusinessProjection_DesiredRevision p)) (db_projections demoBound1)
    = [(1%Z, 1%Z); (1%Z, 1%Z)] ∧
  ∀ p, p ∈ db_projections demoBound1 → BusinessProjection_Consistency p = ApprovalBindingSynchronous → upToDate p.
Proof.
  split; [vm_compute; reflexivity|]. intros p Hp Hs.
  destruct (@no_intended_state_is_lost demoHost demoBound0 demoBound1 p demoBound0_genesis eq_refl demoBound1_reachable Hp)
    as [_ [[_ Hu]|[He _]]]; [exact Hu|]. congruence.
Defined.
