(* ===== verification/TimeoutProps.v ===== *)
(** * What the scanner does

    A task past its deadline is dealt with once, the way its node says; a warning is
    sent at most once; and a whole scan is a sequence of the jobs [reachable] takes
    into account. *)
From S2P Require Import Prelude Enums StateMachine Models Demo Store Shared FormValidation FormStorage Delegation RecordKeys.
From S2P Require Import Binding BindingProps PassRule Processors Engine Tenancy TaskService NodeService Commands Timeout FlowCommands.
From S2P Require Import FlowManagement Discipline EngineInv Traversal ServiceInv CommandInv LifecycleInv TimeoutInv System Walk.

(** ** Marks stay *)
Definition marksKept (s s' : St) : Prop :=
  ∀ t, t ∈ db_tasks s → ∃ t', t' ∈ db_tasks s' ∧ keepsMarks t t'.
#[export] Instance marksKept_preorder : PreOrder marksKept.
Proof.
  split; [by intros s t Ht; exists t|]. intros x y z Hxy Hyz t Ht.
  destruct (Hxy t Ht) as (t1 & Ht1 & I1 & A1 & B1). destruct (Hyz t1 Ht1) as (t2 & Ht2 & I2 & A2 & B2).
  exists t2. split; [done|]. split; [congruence|]. auto.
Qed.
Section marks.
Context `{!Host}.

Lemma marksKept_same s s' : db_tasks s' = db_tasks s → marksKept s s'.
Proof. intros He t Ht. exists t. by rewrite He. Qed.
Ltac unmarked := intros [] ? ? [=]; subst; by apply marksKept_same.
Lemma marksKept_EmitEvents evs : keeps marksKept (EmitEvents evs).
Proof. unmarked. Qed.
Hint Extern 1 (keeps marksKept (modify _)) => unmarked : keeps.
Hint Extern 1 (keeps marksKept Now) => unmarked : keeps.
Hint Extern 1 (keeps marksKept freshID) => unmarked : keeps.
Hint Resolve marksKept_EmitEvents : keeps.
#[local] Instance marksKept_off : OffDefinitions marksKept.
Proof. split; try exact _; intros; unmarked. Qed.
Lemma marksKept_insertTask t : keeps marksKept (insertTask t).
Proof. intros [] t' s' [= _ <-] u Hu. exists u. split; [|done]. cbn. set_solver. Qed.
Lemma marksKept_updateTasks p f : (∀ t, keepsMarks t (f t)) → keeps marksKept (updateTasks p f).
Proof.
  intros Hf [] n s' [= _ <-] t Ht. cbn in *. exists (if p t then f t else t). split; [apply elem_of_tupdate; by exists t|].
  by destruct (p t).
Qed.
#[export] Instance marksKept_framed : Framed marksKept.
Proof.
  split; try exact _; try (intros; unmarked); auto using marksKept_insertTask, marksKept_updateTasks.
  - intros l [] a s' [=]; subst. cbn. case_match; by apply marksKept_same.
  - intros. unfold InsertCCRecords, insertCCRecord. keeps_tac.
  - apply off_SyncInstanceProjection, _.
  - intros. apply keeps_Project; eauto with keeps typeclass_instances.
  - intros cmd. unfold RetryBusinessProjectionHandler_Handle, orThrow, findProjection. keeps_tac.
    apply keeps_Retry; eauto with keeps typeclass_instances.
  - apply keeps_claimBatch; eauto with keeps typeclass_instances.
  - intros. apply keeps_applyClaim; eauto with keeps typeclass_instances.
  - intros b []. by apply marksKept_same.
  - apply off_PublishVersion, _.
  - apply off_ToggleFlowActive, _.
  - apply off_CreateFlow, _.
  - apply off_UpdateFlow, _.
  - intros cmd. by apply off_DeployFlow; [apply _|..]; intros; unmarked.
Qed.

(** ** The policy *)
Lemma working_rebase s0 i n v s : working s0 i n v s → working s i n v s.
Proof.
  intros Hwk. destruct (working_framed _ _ _ _ _ Hwk) as (Hw & Hr & _).
  destruct Hwk as [[_ E1 E2 E3 E4 E5] Hrow Hst]. constructor; [|done|done]. by constructor.
Qed.
(** The finished task keeps its status through what follows. *)
Lemma autoFinish_status s i n v t (b : bool) evs s' :
  working s i n v s → t ∈ db_tasks s → Task_InstanceID t = Instance_ID i →
  autoFinishTask t i n b s = Ok (evs, s') →
  ∃ t', t' ∈ db_tasks s' ∧ Task_ID t' = Task_ID t ∧ Task_Status t' = res_status (resolveTimeoutCompletion n b).
Proof.
  intros Hwk Ht HI Hrun. unfold autoFinishTask in Hrun. set (pc := Build_ProcessContext i n v).
  assert (closing (res_status (resolveTimeoutCompletion n b)) = true ∧
          TaskStatus_IsFinal (res_status (resolveTimeoutCompletion n b)) = true) as [Hcl Hfin]
    by (unfold resolveTimeoutCompletion; destruct b; cbn; [case_bool_decide|]; done).
  step Hrun as t1 s1 E1. destruct (FinishTask_Ok pc _ _ _ _ _ E1) as (_ & now & Heq & _).
  eapply finish_working in E1 as (Hwk1 & Hown1 & Ht1); [|done..]. apply working_rebase in Hwk1.
  step Hrun as u2 s2 E2. pose proof (inFrame_EmitEvents pc _ _ _ _ E2) as Hf2.
  destruct (working_framed _ _ _ _ _ Hwk1) as (Hw & Hr & Hfr).
  pose proof (working_inFrame _ _ _ _ _ _ Hwk1 Hf2) as Hwk2.
  pose proof (ownTask_inFrame pc _ _ _ Hw Hr Hfr Hf2 Hown1) as Hown2.
  step Hrun as acts s3 E3.
  pose proof (working_inFrame _ _ _ _ _ _ Hwk2 (ActivateDependentTasks_inFrame pc _ _ _ _ Hown2 E3)) as Hwk3.
  destruct (SplitQueueAdvanceDecisions acts) as [ds as']. step Hrun as u4 s4 E4.
  pose proof (working_inFrame _ _ _ _ _ _ Hwk3 (inFrame_EmitEvents _ _ _ _ _ E4)) as Hwk4.
  step Hrun as c s5 E5. pose proof (HandleNodeCompletion_settled _ _ _ _ _ _ _ Hwk4 E5) as Hs5.
  step Hrun as u6 s6 E6. injection Hrun as _ <-.
  pose proof (settled_sideOnly _ _ _ _ _ Hs5 (sideOnly_insertActionLog _ _ _ _ _ E6)) as Hs6.
  destruct (table_evolves_elem _ _ _ _ (ev_tasks _ _ (tch_evolves _ _ _ (stl_touched _ _ _ _ Hs6))) Ht1)
    as (t' & Ht' & Hid & _ & _ & _ & _ & Hst).
  exists t'. split; [done|]. subst t1. destruct t. cbn in *. split; [done|]. by eapply task_final_rtc.
Qed.

(** Rows stay as they are but for their parents. *)
Definition standing (s s' : St) : Prop :=
  ∀ t, t ∈ db_tasks s → ∃ t', t' ∈ db_tasks s' ∧ Task_ID t' = Task_ID t ∧ Task_Status t' = Task_Status t ∧
    Task_AssigneeID t' = Task_AssigneeID t ∧ Task_InstanceID t' = Task_InstanceID t ∧
    Task_NodeID t' = Task_NodeID t ∧ Task_VisitID t' = Task_VisitID t.
#[local] Instance standing_preorder : PreOrder standing.
Proof.
  split; [by intros s t Ht; exists t|]. intros x y z Hxy Hyz t Ht.
  destruct (Hxy t Ht) as (u & Hu & ? & ? & ? & ? & ? & ?), (Hyz u Hu) as (w & Hw & ? & ? & ? & ? & ? & ?).
  exists w. split_and!; congruence.
Qed.
Lemma standing_same s s' : db_tasks s' = db_tasks s → standing s s'.
Proof. intros He t Ht. exists t. by rewrite He. Qed.
Lemma standing_insertTask t : keeps standing (insertTask t).
Proof. intros [] t' s' [= _ <-] u Hu. exists u. split; [|done]. cbn. set_solver. Qed.
Lemma standing_insertActionLog l : keeps standing (insertActionLog l).
Proof. intros [] ? ? [=]; subst. by apply standing_same. Qed.
Lemma standing_Repoint a b i : keeps standing (RepointAddAssigneeChildren a b i).
Proof.
  intros s u s' Hrun. unfold RepointAddAssigneeChildren in Hrun. step Hrun as n s1 E1. injection Hrun as _ <-.
  destruct s. injection E1 as _ <-. intros t Ht. cbn in *. eexists. split; [apply elem_of_tupdate; by exists t|].
  by case_match; destruct t.
Qed.
Lemma standing_ComputeTaskDeadline h : keeps standing (ComputeTaskDeadline h).
Proof. intros s d s' Hrun. apply ComputeTaskDeadline_tasks in Hrun. by apply standing_same. Qed.
Hint Resolve standing_insertTask standing_insertActionLog standing_Repoint standing_ComputeTaskDeadline : keeps.

(** The pending task of [admin] in place of [t]. *)
Definition standsIn (t : Task) (admin : string) (s : St) : Prop :=
  ∃ n, n ∈ db_tasks s ∧ Task_AssigneeID n = admin ∧ Task_Status n = TaskPending ∧
    Task_InstanceID n = Task_InstanceID t ∧ Task_NodeID n = Task_NodeID t ∧ Task_VisitID n = Task_VisitID t.
Lemma standsIn_standing t a s s' : standing s s' → standsIn t a s → standsIn t a s'.
Proof.
  intros Hs (n & Hn & ? & ? & ? & ? & ?). destruct (Hs n Hn) as (n' & Hn' & ? & ? & ? & ? & ? & ?).
  exists n'. split_and!; congruence.
Qed.
Lemma transferAll_rows t i n infos d ids acc r s s' :
  foldM (transferTo t i n infos d) acc ids s = Ok (r, s') →
  standing s s' ∧ ∀ a, a ∈ ids → standsIn t a s'.
Proof.
  revert acc s. induction ids as [|id ids IH]; intros acc s Hrun; cbn in Hrun.
  { injection Hrun as _ <-. split; [reflexivity|]. by intros a ?%elem_of_nil. }
  step Hrun as acc' s1 E1. apply IH in Hrun as [Hst Hall].
  assert (standing s s1 ∧ standsIn t id s1) as [Hst1 Hin].
  { split; [refine ((_ : keeps standing _) _ _ _ E1); unfold transferTo; keeps_tac|].
    unfold transferTo in E1. step E1 as new s2 E2. step E1 as u s3 E3. injection E1 as _ <-.
    apply standing_insertActionLog in E3. eapply standsIn_standing; [exact E3|].
    apply insertTask_Ok in E2 as (Hnew & Hts & _). exists new. rewrite Hts. split; [set_solver|].
    subst new. cbn. unfold infoWithID. by destruct (default _ _). }
  split; [by etrans|]. intros a [->|Ha]%elem_of_cons; [by eapply standsIn_standing|by apply Hall].
Qed.
Lemma recordTimeoutNotify_run t i n s evs s' :
  recordTimeoutNotify t i n s = Ok (evs, s') → s' = s ∧ evs = [NewTaskTimedOutEvent i t n].
Proof. intros Hrun. step Hrun as u s1 E1. apply throwIf_Ok in E1 as [_ ->]. by injection Hrun as <- <-. Qed.
Definition adminsFor (s : St) (t : Task) (n : FlowNode) : list string :=
  eligibleAdmins s t (NormalizeUniqueIDs (FlowNode_AdminUserIDs n)).
Lemma transferToAdmin_run t i n s evs s' :
  t ∈ db_tasks s → transferToAdmin t i n s = Ok (evs, s') →
  match adminsFor s t n with
  | [] => s' = s ∧ evs = [NewTaskTimedOutEvent i t n]
  | admins => (∃ t', t' ∈ db_tasks s' ∧ Task_ID t' = Task_ID t ∧ Task_Status t' = TaskTransferred) ∧
      ∀ a, a ∈ admins → standsIn t a s'
  end.
Proof.
  intros Ht Hrun. unfold transferToAdmin in Hrun. unfold adminsFor.
  destruct (length (NormalizeUniqueIDs (FlowNode_AdminUserIDs n)) =? 0)%nat eqn:Hnone.
  { apply Nat.eqb_eq, nil_length_inv in Hnone. rewrite Hnone. by apply recordTimeoutNotify_run in Hrun. }
  step Hrun as ids s1 E1. injection E1 as Hids <-. rewrite Hids.
  destruct ids as [|a ids]; [by apply recordTimeoutNotify_run in Hrun|]. cbn [length Nat.eqb] in Hrun.
  step Hrun as t1 s1 E1.
  destruct (FinishTask_Ok (Build_ProcessContext i n (Build_NodeVisit "" 0 "" "" "" 0 NodeVisitActive None)) _ _ _ _ _ E1)
    as (_ & now & Heq & _ & Hrows & _).
  step Hrun as d s2 E2. apply standing_ComputeTaskDeadline in E2. step Hrun as moved s3 E3.
  apply transferAll_rows in E3 as [Hs3 Hall]. step Hrun as u s4 E4. apply standing_Repoint in E4. injection Hrun as _ <-.
  assert (standing s1 s4) as Hst by (etrans; [exact E2|by etrans]).
  assert (set_Task_FinishedAt (Some now) (set_Task_Status TaskTransferred t) ∈ db_tasks s1) as Hin.
  { rewrite Hrows. apply elem_of_tupdate. exists t. split; [done|]. by rewrite !bool_decide_eq_true_2. }
  split.
  - destruct (Hst _ Hin) as (t' & Ht' & Hid & Hstat & _). exists t'. split; [done|]. by destruct t.
  - intros x Hx. eapply standsIn_standing; [exact E4|]. specialize (Hall x Hx). subst t1.
    destruct Hall as (r & ? & ? & ? & ? & ? & ?). exists r. by destruct t.
Qed.
(** Whom a task can go to does not depend on its flag. *)
Lemma adminsFor_flagged s t n p :
  adminsFor (upd_tasks (tupdate p (set_Task_IsTimeout true)) s) (set_Task_IsTimeout true t) n = adminsFor s t n.
Proof.
  unfold adminsFor, eligibleAdmins.
  assert (db_tasks (upd_tasks (tupdate p (set_Task_IsTimeout true)) s)
          = tupdate p (set_Task_IsTimeout true) (db_tasks s)) as -> by (by destruct s).
  assert (Task_InstanceID (set_Task_IsTimeout true t) = Task_InstanceID t ∧
          Task_NodeID (set_Task_IsTimeout true t) = Task_NodeID t) as [-> ->] by (by destruct t).
  set (q := λ u, _ && bool_decide (Task_AssigneeID u ∈ _)).
  assert (∀ l, Task_AssigneeID <$> tselect q (tupdate p (set_Task_IsTimeout true) l) = Task_AssigneeID <$> tselect q l) as ->;
    [|done].
  intros l. unfold tselect, tupdate. induction l as [|u l IH]; [done|]. cbn [map List.filter].
  assert (q (if p u then set_Task_IsTimeout true u else u) = q u) as -> by (by destruct (p u), u).
  destruct (q u); [|done]. cbn. f_equal; [by destruct (p u), u|done].
Qed.

(** What became of a task that was overdue. *)
Definition dealtWith (s : St) (t : Task) (n : FlowNode) (s' : St) (t' : Task) : Prop :=
  let noticed := Task_Status t' = TaskPending ∧
    ∃ i, db_events s' = db_events s ++ [NewTaskTimedOutEvent i (set_Task_IsTimeout true t) n] in
  match FlowNode_TimeoutAction n with
  | TimeoutActionNotify => noticed
  | TimeoutActionAutoPass =>
      Task_Status t' = if FlowNode_Kind n ==? NodeHandle then TaskHandled else TaskApproved
  | TimeoutActionAutoReject => Task_Status t' = TaskRejected
  | TimeoutActionTransferAdmin =>
      match adminsFor s t n with
      | [] => noticed
      | admins => Task_Status t' = TaskTransferred ∧ ∀ a, a ∈ admins → standsIn t a s'
      end
  | TimeoutActionNone | TimeoutActionOther _ => Task_Status t' = TaskPending ∧ db_events s' = db_events s
  end.
Lemma executeTimeoutAction_run s t i n v evs s' p :
  let s1 := upd_tasks (tupdate p (set_Task_IsTimeout true)) s in
  let t1 := set_Task_IsTimeout true t in
  working s1 i n v s1 → t1 ∈ db_tasks s1 → Task_InstanceID t = Instance_ID i → Task_Status t = TaskPending →
  (executeTimeoutAction t1 i n ≫= EmitEvents) s1 = Ok (evs, s') →
  ∃ t', t' ∈ db_tasks s' ∧ Task_ID t' = Task_ID t ∧ dealtWith s t n s' t'.
Proof.
  intros s1 t1 Hwk Ht HI Hst Hrun. step Hrun as out s2 E2.
  assert (Task_ID t1 = Task_ID t ∧ Task_InstanceID t1 = Instance_ID i ∧ Task_Status t1 = TaskPending) as (T1 & T2 & T3)
    by (unfold t1; destruct t; done).
  assert (db_tasks s' = db_tasks s2 ∧ db_events s' = db_events s2 ++ out) as [Hts Hev] by (destruct s2; by injection Hrun as _ <-).
  assert (db_events s1 = db_events s) as He1 by (unfold s1; by destruct s).
  assert (s2 = s1 → out = [] → ∃ t', t' ∈ db_tasks s' ∧ Task_ID t' = Task_ID t ∧
    Task_Status t' = TaskPending ∧ db_events s' = db_events s) as Hquiet.
  { intros -> ->. exists t1. rewrite Hts, Hev, He1, app_nil_r. done. }
  assert (s2 = s1 → out = [NewTaskTimedOutEvent i t1 n] → ∃ t', t' ∈ db_tasks s' ∧ Task_ID t' = Task_ID t ∧
    Task_Status t' = TaskPending ∧ ∃ i, db_events s' = db_events s ++ [NewTaskTimedOutEvent i t1 n]) as Hnoticed.
  { intros -> ->. exists t1. rewrite Hts, Hev, He1. split_and!; try done. by exists i. }
  unfold dealtWith, executeTimeoutAction in *. destruct (FlowNode_TimeoutAction n).
  - injection E2 as <- <-. by apply Hquiet.
  - apply (autoFinish_status _ _ _ _ _ _ _ _ Hwk Ht T2) in E2 as (t' & Ht' & Hid & Hs).
    exists t'. rewrite Hts, Hs, Hid, T1. split_and!; try done. unfold resolveTimeoutCompletion. by case_bool_decide.
  - apply (autoFinish_status _ _ _ _ _ _ _ _ Hwk Ht T2) in E2 as (t' & Ht' & Hid & Hs).
    exists t'. rewrite Hts, Hs, Hid, T1. done.
  - apply recordTimeoutNotify_run in E2 as [-> ->]. by apply Hnoticed.
  - apply transferToAdmin_run in E2; [|done]. unfold s1, t1 in E2. rewrite adminsFor_flagged in E2.
    destruct (adminsFor s t n) as [|a admins]; [destruct E2; by apply Hnoticed|].
    destruct E2 as [(t' & Ht' & Hid & Hs) Hall]. exists t'. rewrite Hts. split; [done|].
    split; [by rewrite Hid|]. split; [done|]. intros x Hx. destruct (Hall x Hx) as (r & Hr & ? & ? & ? & ? & ?).
    exists r. rewrite Hts. by destruct t.
  - injection E2 as <- <-. by apply Hquiet.
Qed.
Lemma processTimeout_run task s u s' :
  disciplined s → scanned s task → processTimeout task s = Ok (u, s') →
  ∃ t, t ∈ db_tasks s ∧ Task_ID t = Task_ID task ∧
    if Task_IsTimeout t || negb (Task_Status t ==? TaskPending) then s' = s
    else ∃ n t', n ∈ db_nodes s ∧ FlowNode_ID n = Task_NodeID t ∧ t' ∈ db_tasks s' ∧ Task_ID t' = Task_ID t ∧
      Task_IsTimeout t' = true ∧ dealtWith s t n s' t'.
Proof.
  intros Hd Hsc Hrun. destruct (processTimeout_orderly task s u s' Hd Hsc Hrun) as (Hd' & _ & _).
  destruct Hsc as (t0 & Ht0 & Hid0 & HI0). unfold processTimeout, findInstance, findTask, findNode in Hrun.
  step Hrun as i ? E. apply orThrow_gets_Ok in E as [Hi ->]. apply findBy_Ok in Hi as [Hi Hii].
  step Hrun as t ? E. apply orThrow_gets_Ok in E as [Ht ->]. apply findBy_Ok in Ht as [Ht Hti].
  assert (t0 = t) as -> by (eapply task_row_unique; [apply Hd|done|done|congruence]).
  exists t. split; [done|]. split; [done|].
  destruct (Task_IsTimeout t); [by injection Hrun as _ <-|]. destruct (Task_Status t ==? TaskPending) eqn:Hst;
    [|by injection Hrun as _ <-]. apply bool_decide_eq_true in Hst. cbn [negb orb] in Hrun |- *.
  step Hrun as nd ? E. apply orThrow_gets_Ok in E as [Hnd ->]. apply findBy_Ok in Hnd as [Hnd Hndi].
  assert (isOpen t = true) as Ho by (unfold isOpen; by rewrite Hst).
  destruct (open_working s t i nd) as (v & Hwk); [done..|congruence|done|done|]. set (pc := Build_ProcessContext i nd v).
  step Hrun as k s1 E1. injection E1 as _ <-. set (flagged := set_Task_IsTimeout true t) in *.
  assert (Task_ID flagged = Task_ID t) as F1 by (unfold flagged; by destruct t).
  match type of Hrun with _ (upd_tasks ?g s) = _ => assert (inFrame pc s (upd_tasks g s)) as Hf;
    [|assert (flagged ∈ db_tasks (upd_tasks g s)) as Hin] end.
  { apply inFrame_task_step; [by intros []|]. intros r Hr Hid%bool_decide_eq_true. rewrite F1 in Hid.
    rewrite (task_row_unique _ _ _ (disc_wf _ Hd) Hr Ht Hid). destruct t; cbn in *. split_and!; [congruence|reflexivity|done]. }
  { destruct s; cbn in *. apply elem_of_tupdate. exists t. split; [done|]. by rewrite F1, bool_decide_eq_true_2. }
  pose proof (working_rebase _ _ _ _ _ (working_inFrame _ _ _ _ _ _ Hwk Hf)) as Hwk1.
  pose proof Hrun as Hmarks. eapply (executeTimeoutAction_run s t i nd v) in Hrun as (t' & Ht' & Hid' & Hdealt);
    [|exact Hwk1|exact Hin|congruence|done].
  exists nd, t'. split_and!; try done.
  assert (marksKept (upd_tasks (tupdate (λ r, Task_ID r ==? Task_ID flagged) (set_Task_IsTimeout true)) s) s') as Hkept.
  { refine ((_ : keeps marksKept _) _ _ _ Hmarks). apply (framed_timeoutAction marksKept). }
  destruct (Hkept flagged Hin) as (t2 & Ht2 & Hid2 & Hfl & _).
  rewrite (task_row_unique s' t' t2 (disc_wf _ Hd') Ht' Ht2) by congruence.
  apply Hfl. unfold flagged. by destruct t.
Qed.
Lemma dealtWith_ext s1 s2 t n s1' s2' t' :
  db_tasks s1 = db_tasks s2 → db_events s1 = db_events s2 → db_tasks s1' = db_tasks s2' → db_events s1' = db_events s2' →
  dealtWith s1 t n s1' t' → dealtWith s2 t n s2' t'.
Proof.
  intros H1 H2 H3 H4. unfold dealtWith, adminsFor, eligibleAdmins, standsIn. by rewrite H1, H2, H3, H4.
Qed.
End marks.

(** The review of the demo flow passes by itself after an hour. *)
Definition demoLate (action : TimeoutAction) (admins : list string) : St :=
  demoStoreAt (set_FlowNode_TimeoutHours 1 (set_FlowNode_TimeoutAction action (set_FlowNode_AdminUserIDs admins
    (demoNode "review" NodeApproval ApprovalParallel PassAll 50 2)))) ["bob"; "carol"].
Lemma demoLate_genesis a l : @genesis demoHost (demoLate a l).
Proof. by apply demoAt_genesis. Qed.
Definition demoLate1 : St := @execTx demoHost demoStart (demoLate TimeoutActionTransferAdmin ["carol"; "dave"]).
Definition demoLateTask : Task := default (demoTask "" "" TaskPending) (head (db_tasks demoLate1)).

(** ** Warnings *)
Section warnings.
Context `{!Host}.

Lemma marksKept_Bind f v i : keeps marksKept (Projector_Bind f v i).
Proof.
  apply keeps_Bind; try apply _; try (by intros [] ? ? [= _ <-]; apply marksKept_same);
    intros; by intros [] ? ? [= _ <-]; apply marksKept_same.
Qed.
Lemma marksKept_insertInstance i : keeps marksKept (insertInstance i).
Proof. intros [] ? ? [= _ <-]. by apply marksKept_same. Qed.
Hint Resolve marksKept_Bind marksKept_insertInstance framed_StartProcess : keeps.
Lemma reachable_marks s s' : reachable s s' → marksKept s s'.
Proof.
  induction 1 as [|c s' _ IH|j s' _ IH _]; [reflexivity|..]; (etrans; [exact IH|]).
  - unfold execTx, runInTx. destruct (exec c s') as [[u s2]|e] eqn:Hrun; [|reflexivity]. cbn.
    refine ((_ : keeps marksKept _) _ _ _ Hrun). apply exec_framed; [apply _|]. intros cmd ->. cbn [exec].
    unfold StartInstanceHandler_Handle. walk.
  - unfold jobTx, runInTx. destruct (runJob j s') as [[u s2]|e] eqn:Hrun; [|reflexivity]. cbn.
    by eapply (job_framed marksKept).
Qed.
Lemma set_pipeline_back b s : set_pipeline (db_pipeline s) (set_pipeline b s) = s.
Proof. by destruct s. Qed.
(** No row left to mark. *)
Lemma sendPreWarning_again task h s :
  (∀ t, t ∈ db_tasks s → Task_ID t = Task_ID task → Task_IsPreWarningSent t = true) →
  sendPreWarning task h s = Ok (tt, s).
Proof.
  intros Hall. unfold sendPreWarning, mbind, SE_bind, updateTasks.
  assert (∀ t, t ∈ db_tasks s → (Task_ID t ==? Task_ID task) && negb (Task_IsPreWarningSent t) = false) as Hno.
  { intros t Ht. destruct (bool_decide_reflect (Task_ID t = Task_ID task)); [|done]. by rewrite Hall. }
  unfold tcount. rewrite (proj2 (tselect_nil _ _) Hno). cbn [length Nat.eqb].
  set (p := λ t, (Task_ID t ==? Task_ID task) && negb (Task_IsPreWarningSent t)) in *.
  assert (upd_tasks (tupdate p (set_Task_IsPreWarningSent true)) s = s) as ->; [|done].
  destruct s. unfold upd_tasks. cbn in *. by rewrite tupdate_none.
Qed.
(** A warning is the first for its task, or nothing happens. *)
Lemma sendPreWarning_run task h s u s' :
  sendPreWarning task h s = Ok (u, s') →
  s' = s ∨ (∃ e, db_events s' = db_events s ++ [e]) ∧
    ∀ t, t ∈ db_tasks s' → Task_ID t = Task_ID task → Task_IsPreWarningSent t = true.
Proof.
  intros Hrun. set (p := λ t, (Task_ID t ==? Task_ID task) && negb (Task_IsPreWarningSent t)).
  destruct (texists p (db_tasks s)) eqn:Hex.
  - right. unfold sendPreWarning, findInstance, findNode in Hrun. step Hrun as k s1 E1. fold p in E1. injection E1 as <- <-.
    assert (tcount p (db_tasks s) ≠ 0) as Hc.
    { apply texists_true in Hex as (t & Ht & Hp). unfold tcount. intros Hz%nil_length_inv.
      by rewrite (proj1 (tselect_nil _ _) Hz t Ht) in Hp. }
    apply Nat.eqb_neq in Hc. rewrite Hc in Hrun.
    step Hrun as i ? E. apply orThrow_gets_Ok in E as [_ ->]. step Hrun as n ? E. apply orThrow_gets_Ok in E as [_ ->].
    split; [eexists; destruct s; by injection Hrun as _ <-|].
    assert (db_tasks s' = tupdate p (set_Task_IsPreWarningSent true) (db_tasks s)) as -> by (destruct s; by injection Hrun as _ <-).
    intros t (r & Hr & ->)%elem_of_tupdate Hid. destruct (p r) eqn:Hp; [by destruct r|].
    unfold p in Hp. rewrite Hid, bool_decide_eq_true_2 in Hp by done. by apply negb_false_iff.
  - left. rewrite sendPreWarning_again in Hrun; [by injection Hrun|]. intros t Ht Hid.
    apply not_true_iff_false in Hex. destruct (Task_IsPreWarningSent t) eqn:Hw; [done|]. destruct Hex.
    apply texists_true. exists t. split; [done|]. unfold p. by rewrite Hid, Hw, bool_decide_eq_true_2.
Qed.
Lemma preWarning_again task h s :
  (∀ t, t ∈ db_tasks s → Task_ID t = Task_ID task → Task_IsPreWarningSent t = true) →
  jobTx (JobPreWarning task h) s = s.
Proof.
  intros Hall. unfold jobTx, runInTx. cbn [runJob]. unfold outsidePipeline. rewrite sendPreWarning_again; [apply set_pipeline_back|].
  intros t Ht. apply Hall. by destruct s.
Qed.
Lemma reachable_trans s0 s1 s2 : reachable s0 s1 → reachable s1 s2 → reachable s0 s2.
Proof. intros H1. induction 1; [done|by apply reach_step|by apply reach_job]. Qed.
End warnings.

(** A task is warned about at most once: when a warning has any effect at all, it
    publishes one event, and whatever commands and jobs follow, every later warning
    for the same task changes nothing and publishes nothing. *)
Theorem warned_at_most_once `{!Host} s0 s1 s2 task h h' :
  genesis s0 → reachable s0 s1 → scanned s1 task → jobTx (JobPreWarning task h) s1 ≠ s1 →
  reachable (jobTx (JobPreWarning task h) s1) s2 →
  (∃ e, db_events (jobTx (JobPreWarning task h) s1) = db_events s1 ++ [e]) ∧
  jobTx (JobPreWarning task h') s2 = s2.
Proof.
  intros Hg H1 Hsc Hne H2. pose proof (reach_job s0 (JobPreWarning task h) s1 H1 Hsc) as Hr1.
  pose proof (reachable_trans _ _ _ Hr1 H2) as Hr2.
  destruct (reachable_sound _ _ (genesis_sound _ Hg) H1) as [[Hd1 _] _].
  destruct (reachable_sound _ _ (genesis_sound _ Hg) Hr1) as [_ Ha1].
  destruct (reachable_sound _ _ (genesis_sound _ Hg) Hr2) as [[Hd2 _] _].
  assert ((∃ e, db_events (jobTx (JobPreWarning task h) s1) = db_events s1 ++ [e]) ∧
    ∀ t, t ∈ db_tasks (jobTx (JobPreWarning task h) s1) → Task_ID t = Task_ID task → Task_IsPreWarningSent t = true)
    as [Hev Hall].
  { unfold jobTx, runInTx in *. cbn [runJob] in *. unfold outsidePipeline in *.
    destruct (sendPreWarning task h (set_pipeline false s1)) as [[u s']|e] eqn:Hrun; [|done]. cbn in *.
    apply sendPreWarning_run in Hrun as [->|[[e He] Hall]]; [by rewrite set_pipeline_back in Hne|].
    split; [exists e; destruct s1, s'; cbn in *; done|]. intros t Ht. apply Hall. by destruct s'. }
  split; [done|]. apply preWarning_again.
  pose proof (reachable_marks _ _ (reach_job s1 (JobPreWarning task h) s1 (reach_here s1) Hsc)) as Hm.
  destruct Hsc as (t0 & Ht0 & Hid0 & _).
  assert (∃ t1, t1 ∈ db_tasks (jobTx (JobPreWarning task h) s1) ∧ Task_ID t1 = Task_ID task) as (t1 & Ht1 & Hid1).
  { destruct (Hm t0 Ht0) as (t1 & Ht1 & Hid1 & _). exists t1. split; [done|congruence]. }
  destruct (reachable_marks _ _ H2 t1 Ht1) as (t2 & Ht2 & Hid2 & _ & Hw2).
  intros t Ht Hid. rewrite (task_row_unique s2 t t2 (disc_wf _ Hd2) Ht Ht2) by congruence. by apply Hw2, Hall.
Qed.
Definition demoWarned : St := @jobTx demoHost (JobPreWarning demoLateTask 1) demoLate1.
Lemma warned_at_most_once_witness :
  length (db_events demoWarned) = S (length (db_events demoLate1)) ∧
  @jobTx demoHost (JobPreWarning demoLateTask 0) demoWarned = demoWarned.
Proof.
  split; [vm_compute; reflexivity|].
  destruct (@warned_at_most_once demoHost (demoLate TimeoutActionTransferAdmin ["carol"; "dave"]) demoLate1 demoWarned
    demoLateTask 1 0) as [_ Hagain].
  - apply demoLate_genesis.
  - apply reach_step, reach_here.
  - exists demoLateTask. split; [|split; reflexivity]. unfold demoLateTask.
    destruct (db_tasks demoLate1) as [|t l] eqn:Hl; [vm_compute in Hl; discriminate Hl|left].
  - intros Heq. apply (f_equal (λ s, length (db_events s))) in Heq. vm_compute in Heq. discriminate Heq.
  - apply reach_here.
  - exact Hagain.
Defined.

(** ** Whole scans *)
Section scans.
Context `{!Host} (s0 : St) (Hg : genesis s0).

Lemma scanned_advances s s' t : advances s s' → scanned s t → scanned s' t.
Proof.
  intros Ha (r & Hr & Hid & HI). destruct (table_evolves_elem _ _ _ _ (adv_tasks _ _ Ha) Hr) as (r' & Hr' & E1 & E2 & _).
  exists r'. split; [done|]. split; congruence.
Qed.
Lemma jobTx_reachable s j :
  reachable s0 s → enabled s j → reachable s0 (jobTx j s) ∧ advances s (jobTx j s).
Proof.
  intros Hr Hen. split; [by apply reach_job|].
  destruct (reachable_sound _ _ (genesis_sound _ Hg) Hr) as [Hs _]. by apply jobTx_sound.
Qed.
Lemma readClock_job s : (readClock s).2 = jobTx JobReadClock s.
Proof. by destruct s. Qed.
Lemma runInTx_job {A} (m : M A) j s : runJob j = (m;; mret tt) → (runInTx m s).2 = jobTx j s.
Proof.
  intros Hj. unfold jobTx. rewrite Hj. unfold runInTx, andThen, mbind, SE_bind. by destruct (m s) as [[]|].
Qed.
Lemma fold_reachable {A B} (st : B → St) (g : B → A → B) (ok : A → St → Prop) (l : list A) b :
  (∀ b a, reachable s0 (st b) → ok a (st b) → reachable s0 (st (g b a)) ∧ advances (st b) (st (g b a))) →
  (∀ a s s', advances s s' → ok a s → ok a s') → (∀ a, a ∈ l → ok a (st b)) →
  reachable s0 (st b) → reachable s0 (st (foldl g b l)).
Proof.
  intros Hg' Hok. revert b. induction l as [|a l IH]; intros b Hl Hr; [done|]. cbn.
  destruct (Hg' b a Hr (Hl a ltac:(left))) as [Hr' Ha]. apply IH; [|done].
  intros x Hx. eapply Hok; [exact Ha|]. apply Hl. by right.
Qed.
Lemma selected_scanned s p n t : t ∈ take n (tselect p (db_tasks s)) → scanned s t.
Proof. intros Ht%subseteq_take. apply elem_of_tselect in Ht as [_ Ht]. by exists t. Qed.
Lemma processBatch_reachable s tasks :
  reachable s0 s → (∀ t, t ∈ tasks → scanned s t) → reachable s0 (processBatch processTimeout tasks s).2.
Proof.
  intros Hr Hs. unfold processBatch. apply (fold_reachable snd _ (λ t s, scanned s t)); [|eauto using scanned_advances|done|done].
  intros [n s1] t Hr1 Ht. cbn in *. pose proof (jobTx_reachable s1 (JobTimeout t) Hr1 Ht) as Hj.
  unfold jobTx in Hj. cbn [runJob] in Hj. by destruct (runInTx _ s1) as [[]].
Qed.
Lemma preWarn_reachable s tasks :
  reachable s0 s → (∀ t, t ∈ tasks → scanned s t) → reachable s0 (foldl preWarnOne (0, s) tasks).2.
Proof.
  intros Hr Hs. apply (fold_reachable snd _ (λ t s, scanned s t)); [|eauto using scanned_advances|done|done].
  intros [n s1] t Hr1 Ht. unfold preWarnOne. cbn [snd] in *. destruct (Task_Deadline t) as [d|]; [|by split].
  destruct (jobTx_reachable s1 JobReadClock Hr1 I) as [Hr2 Ha2]. rewrite <-readClock_job in Hr2, Ha2.
  destruct (readClock s1) as [now s2]. cbn [snd] in *. pose proof (scanned_advances _ _ _ Ha2 Ht) as Ht2.
  destruct (jobTx_reachable s2 (JobPreWarning t (hoursUntil d now)) Hr2 Ht2) as [Hr3 Ha3].
  unfold jobTx in Hr3, Ha3. cbn [runJob] in Hr3, Ha3.
  destruct (runInTx _ s2) as [[] s3]; cbn [snd] in *; (split; [done|by etrans]).
Qed.
Lemma ScanTimeouts_reachable n s : reachable s0 s → reachable s0 (ScanTimeouts n s).2.
Proof.
  revert s. induction n as [|n IH]; intros s Hr; cbn [ScanTimeouts]; [done|].
  destruct (jobTx_reachable s JobReadClock Hr I) as [Hr1 _]. rewrite <-readClock_job in Hr1.
  destruct (readClock s) as [now s1]. cbn in Hr1. destruct (_ =? 0)%nat; [done|].
  pose proof (processBatch_reachable s1 _ Hr1 (selected_scanned s1 (overdue now) scanBatchSize)) as Hr2.
  destruct (processBatch _ _ _) as [k s2]. cbn in Hr2. destruct (_ || _); [done|by apply IH].
Qed.
Lemma ScanPreWarnings_reachable n s : reachable s0 s → reachable s0 (ScanPreWarnings n s).2.
Proof.
  revert s. induction n as [|n IH]; intros s Hr; cbn [ScanPreWarnings]; [done|].
  destruct (jobTx_reachable s JobReadClock Hr I) as [Hr1 _]. rewrite <-readClock_job in Hr1.
  destruct (readClock s) as [now s1]. cbn in Hr1. destruct (_ =? 0)%nat; [done|].
  pose proof (preWarn_reachable s1 _ Hr1 (selected_scanned s1 (warnable s1 now) scanBatchSize)) as Hr2.
  destruct (foldl _ _ _) as [k s2]. cbn in Hr2. destruct (_ || _); [done|by apply IH].
Qed.
Lemma ProcessPending_reachable s : reachable s0 s → reachable s0 (ProcessPending s).2.
Proof.
  intros Hr. destruct (jobTx_reachable s JobClaim Hr I) as [Hr1 _].
  rewrite <-(runInTx_job claimBatch JobClaim s eq_refl) in Hr1. unfold ProcessPending.
  destruct (runInTx claimBatch s) as [[claimed|e] s1]; [|done]. cbn in *.
  apply (fold_reachable id _ (λ _ _, True)); [|done|done|done].
  intros s2 p Hr2 _. by apply (jobTx_reachable s2 (JobApplyClaim p)).
Qed.
End scans.

(** The scheduled jobs are made of the steps every other theorem takes into
    account: a whole scan for overdue tasks, a whole round of warnings, whatever the
    number of batches, and a whole pass over the pending projections lead from a
    reachable store to a reachable store, although the tasks were read before the
    first of them was dealt with. *)
Theorem scheduled_jobs_refine_steps `{!Host} s0 s rounds :
  genesis s0 → reachable s0 s →
  reachable s0 (ScanTimeouts rounds s).2 ∧ reachable s0 (ScanPreWarnings rounds s).2 ∧
  reachable s0 (jobTx JobCleanup s) ∧ reachable s0 (ProcessPending s).2.
Proof.
  intros Hg Hr. split_and!.
  - by apply ScanTimeouts_reachable.
  - by apply ScanPreWarnings_reachable.
  - by apply reach_job.
  - by apply ProcessPending_reachable.
Qed.
(** An hour later the scan finds both reviewers' tasks: bob's goes to dave, and with
    both administrators busy nobody is left for carol's. *)
Definition demoScanned : St := (@ScanTimeouts demoHost 1 (set_clock 5000 demoLate1)).2.
Lemma scheduled_jobs_refine_steps_witness :
  map (λ t, (Task_AssigneeID t, Task_Status t)) (db_tasks demoScanned)
    = [("bob", TaskTransferred); ("carol", TaskPending); ("dave", TaskPending)] ∧
  @reachable demoHost (demoLate TimeoutActionTransferAdmin ["carol"; "dave"]) (@ScanTimeouts demoHost 1 demoLate1).2.
Proof.
  split; [vm_compute; reflexivity|].
  destruct (@scheduled_jobs_refine_steps demoHost (demoLate TimeoutActionTransferAdmin ["carol"; "dave"]) demoLate1 1)
    as (Hscan & _).
  - apply demoLate_genesis.
  - apply reach_step, reach_here.
  - exact Hscan.
Defined.
