(* ===== verification/Access.v ===== *)
(** * Who may act

    Access control of the commands, read off whole handlers: a decision on a task
    is taken only by its assignee, and no command works on an instance of a
    tenant the caller does not reach, unless the instance was routed to the
    person acting. *)
From S2P Require Import Prelude Enums StateMachine Models Demo Store Shared FormValidation Delegation Binding.
From S2P Require Import PassRule Processors Engine Tenancy TaskService NodeService Commands FlowCommands Discipline EngineInv.
From S2P Require Import Traversal ServiceInv CommandInv LifecycleInv System.

Section access.
Context `{!Host}.

(** A task of the instance is assigned, or a copy of it addressed, to the user. *)
Definition routedTo (s : St) (I user : string) : Prop :=
  (∃ t, t ∈ db_tasks s ∧ Task_InstanceID t = I ∧ Task_AssigneeID t = user) ∨
  (∃ r, r ∈ db_cc_records s ∧ CCRecord_InstanceID r = I ∧ CCRecord_CCUserID r = user).
(** The policy: the caller reaches the tenant, or is a member of some tenant and
    the instance was routed to the user it acts for. *)
Definition mayTouch (s : St) (c : CallerContext) (user I tenant : string) : Prop :=
  reaches c tenant ∨ CallerContext_TenantID c ≠ "" ∧ user ≠ "" ∧ routedTo s I user.

Lemma isRoutedTo_true s I user s' : isRoutedTo I user s = Ok (true, s') → routedTo s I user.
Proof.
  unfold isRoutedTo. intros Hrun. step Hrun as b s1 E1. injection E1 as Hb <-.
  destruct b.
  - left. apply texists_true in Hb as (t & Ht & [HI HA]%andb_true_iff).
    apply bool_decide_eq_true in HI, HA. by exists t.
  - right. injection Hrun as Hcc _. apply texists_true in Hcc as (r & Hr & [HI HU]%andb_true_iff).
    apply bool_decide_eq_true in HI, HU. by exists r.
Qed.
Lemma AllowsInstanceAccess_true s c I tenant user s' :
  AllowsInstanceAccess c I tenant user s = Ok (true, s') → mayTouch s c user I tenant.
Proof.
  unfold AllowsInstanceAccess. destruct (Allows c tenant) eqn:Ha; [left; by apply Allows_reaches|].
  case_bool_decide as Hu; [done|]. intros Hrun. step Hrun as b s1 E1. injection Hrun as Hp _.
  unfold AllowsParticipant in Hp. rewrite Ha in Hp. apply andb_true_iff in Hp as [-> Hm].
  apply negb_true_iff, bool_decide_eq_false in Hm. right. split; [done|]. split; [done|].
  by eapply isRoutedTo_true.
Qed.
Lemma mayTouch_unnamed s c I tenant : mayTouch s c "" I tenant → reaches c tenant.
Proof. intros [?|(_ & ? & _)]; [done|naive_solver]. Qed.

(** ** Decisions on a task *)

(** The commands by which an assignee disposes of their own task. *)
Definition decides (c : Command) : option (string * UserInfo * CallerContext) :=
  match c with
  | CmdApproveTask c | CmdRejectTask c => Some (dec_TaskID c, dec_Operator c, dec_Caller c)
  | CmdTransferTask c => Some (tra_TaskID c, tra_Operator c, tra_Caller c)
  | CmdRollbackTask c => Some (rol_TaskID c, rol_Operator c, rol_Caller c)
  | CmdAddAssignee c => Some (add_TaskID c, add_Operator c, add_Caller c)
  | _ => None
  end.

(** The decision is the assignee's, on a pending task of the current node. *)
Definition entitled (s : St) (taskID : string) (user : UserInfo) (caller : CallerContext) : Prop :=
  ∃ t i, t ∈ db_tasks s ∧ Task_ID t = taskID ∧ Task_Status t = TaskPending ∧
    Task_AssigneeID t = UserInfo_ID user ∧
    i ∈ db_instances s ∧ Instance_ID i = Task_InstanceID t ∧ Instance_Status i = InstanceRunning ∧
    Instance_CurrentNodeID i = Some (Task_NodeID t) ∧
    mayTouch s caller (UserInfo_ID user) (Instance_ID i) (Instance_TenantID i).

Lemma loaded_entitled s taskID user caller tc :
  loaded s taskID (Build_TaskContextLoadOptions (UserInfo_ID user) true true true caller) tc →
  entitled s taskID user caller.
Proof.
  intros [[Ht Hid] [Hi Hii] Hrun Ha Hp Hc _ Hacc]. exists (tc_Task tc), (tc_Instance tc).
  cbn in *. split_and!; auto. by eapply AllowsInstanceAccess_true.
Qed.
Lemma PrepareOperation_entitled s taskID user caller fd tc s' :
  PrepareOperation taskID user caller fd s = Ok (tc, s') → entitled s taskID user caller.
Proof. intros (_ & tc0 & Hld & _)%PrepareOperation_loaded. by eapply loaded_entitled. Qed.

(** ** Reaching an instance *)

(** The instance a command names, the tenant it is judged by, and who acts. *)
Definition taskOf (s : St) (taskID I tenant : string) : Prop :=
  ∃ t i, t ∈ db_tasks s ∧ Task_ID t = taskID ∧ i ∈ db_instances s ∧
    Instance_ID i = Task_InstanceID t ∧ I = Instance_ID i ∧ tenant = Instance_TenantID i.
Definition instanceAt (s : St) (instanceID I tenant : string) : Prop :=
  I = instanceID ∧ ∃ i, i ∈ db_instances s ∧ Instance_ID i = I ∧ tenant = Instance_TenantID i.
Definition projectionOf (s : St) (projectionID I tenant : string) : Prop :=
  ∃ p, p ∈ db_projections s ∧ BusinessProjection_ID p = projectionID ∧
    I = BusinessProjection_OwnerInstanceID p ∧ tenant = BusinessProjection_TenantID p.
Definition addresses (c : Command) (s : St) (I tenant : string) : Prop :=
  match c with
  | CmdApproveTask c | CmdRejectTask c => taskOf s (dec_TaskID c) I tenant
  | CmdTransferTask c => taskOf s (tra_TaskID c) I tenant
  | CmdReassignTask c => taskOf s (rea_TaskID c) I tenant
  | CmdRollbackTask c => taskOf s (rol_TaskID c) I tenant
  | CmdAddAssignee c => taskOf s (add_TaskID c) I tenant
  | CmdRemoveAssignee c => taskOf s (rem_TaskID c) I tenant
  | CmdUrgeTask c => ∃ t, t ∈ db_tasks s ∧ Task_ID t = urg_TaskID c ∧
                       I = Task_InstanceID t ∧ tenant = Task_TenantID t
  | CmdWithdrawInstance c | CmdTerminateInstance c => instanceAt s (clo_InstanceID c) I tenant
  | CmdResubmitInstance c => instanceAt s (rsb_InstanceID c) I tenant
  | CmdAddCC c => instanceAt s (acc_InstanceID c) I tenant
  | CmdMarkCCRead c => instanceAt s (mcr_InstanceID c) I tenant
  | CmdRetryBusinessProjection c => projectionOf s (ret_ProjectionID c) I tenant
  | CmdStartInstance _ | CmdPublishVersion _ | CmdToggleFlowActive _ | CmdCreateFlow _ | CmdUpdateFlow _
  | CmdDeployFlow _ => False
  end.
(** The caller, and the user whose participation may open another tenant's
    instance; the instance-level lifecycle commands give it no such user. *)
Definition actingAs (c : Command) : option (CallerContext * string) :=
  match c with
  | CmdApproveTask c | CmdRejectTask c => Some (dec_Caller c, UserInfo_ID (dec_Operator c))
  | CmdTransferTask c => Some (tra_Caller c, UserInfo_ID (tra_Operator c))
  | CmdReassignTask c => Some (rea_Caller c, "")
  | CmdRollbackTask c => Some (rol_Caller c, UserInfo_ID (rol_Operator c))
  | CmdAddAssignee c => Some (add_Caller c, UserInfo_ID (add_Operator c))
  | CmdRemoveAssignee c => Some (rem_Caller c, UserInfo_ID (rem_Operator c))
  | CmdUrgeTask c => Some (urg_Caller c, urg_UrgerID c)
  | CmdWithdrawInstance c | CmdTerminateInstance c => Some (clo_Caller c, "")
  | CmdResubmitInstance c => Some (rsb_Caller c, "")
  | CmdAddCC c => Some (acc_Caller c, UserInfo_ID (acc_Operator c))
  | CmdMarkCCRead c => Some (mcr_Caller c, mcr_UserID c)
  | CmdRetryBusinessProjection c => Some (ret_Caller c, "")
  | CmdStartInstance _ | CmdPublishVersion _ | CmdToggleFlowActive _ | CmdCreateFlow _ | CmdUpdateFlow _
  | CmdDeployFlow _ => None
  end.
Definition admitted (s : St) (c : CallerContext) (user : string) (at_ : string → string → Prop) : Prop :=
  ∃ I tenant, at_ I tenant ∧ mayTouch s c user I tenant.

Lemma loaded_admitted s taskID o tc :
  loaded s taskID o tc → admitted s (opt_Caller o) (opt_OperatorID o) (taskOf s taskID).
Proof.
  intros Hld. exists (Instance_ID (tc_Instance tc)), (Instance_TenantID (tc_Instance tc)). split.
  - exists (tc_Task tc), (tc_Instance tc). split_and!; try done; apply Hld.
  - eapply AllowsInstanceAccess_true, Hld.
Qed.
Lemma PrepareOperation_admitted s taskID user caller fd tc s' :
  PrepareOperation taskID user caller fd s = Ok (tc, s') → admitted s caller (UserInfo_ID user) (taskOf s taskID).
Proof. intros (_ & tc0 & Hld & _)%PrepareOperation_loaded. by apply loaded_admitted in Hld. Qed.
Lemma LoadForUpdateAs_admitted s id c user i s' :
  LoadForUpdateAs id c user s = Ok (i, s') → admitted s c user (instanceAt s id).
Proof.
  intros (_ & Hi & Hid & Hacc)%LoadForUpdateAs_Ok. exists (Instance_ID i), (Instance_TenantID i). split.
  - split; [done|]. by exists i.
  - by eapply AllowsInstanceAccess_true.
Qed.
End access.

(** C7. Only the assignee decides: whenever an approval, rejection, transfer,
    rollback or add-assignee command succeeds, it named a pending task assigned
    to the person acting, at the current node of a running instance, and the
    caller had access to that instance. *)
Theorem only_the_assignee_decides `{!Host} c taskID user caller s u s' :
  decides c = Some (taskID, user, caller) → exec c s = Ok (u, s') → entitled s taskID user caller.
Proof.
  intros Hc Hrun. destruct c; cbn in Hc; try done; injection Hc as <- <- <-; cbn [exec] in Hrun.
  - unfold ApproveTaskHandler_Handle in Hrun. step Hrun as tc s1 E1. by eapply PrepareOperation_entitled.
  - unfold RejectTaskHandler_Handle in Hrun. step Hrun as tc s1 E1. by eapply PrepareOperation_entitled.
  - unfold TransferTaskHandler_Handle in Hrun. step Hrun as tc s1 E1. by eapply PrepareOperation_entitled.
  - unfold RollbackTaskHandler_Handle in Hrun. step Hrun as tc s1 E1. by eapply PrepareOperation_entitled.
  - unfold AddAssigneeHandler_Handle in Hrun. step Hrun as tc s1 E1.
    apply LoadTaskContext_loaded in E1 as [_ Hld]. by eapply loaded_entitled.
Qed.
Lemma only_the_assignee_decides_witness :
  @entitled demoS1 "4" (demoUser "bob") demoCaller.
Proof.
  destruct (@exec demoHost (demoApprove "4" "bob") demoS1) as [[u s']|e] eqn:Hrun.
  - exact (@only_the_assignee_decides demoHost (demoApprove "4" "bob") "4" (demoUser "bob") demoCaller
             demoS1 u s' eq_refl Hrun).
  - vm_compute in Hrun. discriminate Hrun.
Defined.

