(* ===== verification/NodeProps.v ===== *)
(** * Settling a node

    What [HandleNodeCompletion] of [service/node.go] does to a disciplined store,
    for every verdict of the pass rule. *)
From S2P Require Import Prelude Enums StateMachine Models Demo Store Shared FormValidation Delegation Binding.
From S2P Require Import PassRule Processors Engine Tenancy TaskService NodeService Commands FlowCommands Discipline EngineInv.
From S2P Require Import Traversal ServiceInv CommandInv LifecycleInv System.

Section node_props.
Context `{!Host}.

(** A running instance of a disciplined store is at work at its current node. *)
Lemma current_working s i n :
  disciplined s → i ∈ db_instances s → Instance_Status i = InstanceRunning →
  n ∈ db_nodes s → Instance_CurrentNodeID i = Some (FlowNode_ID n) → ∃ v, working s i n v s.
Proof.
  intros [Hw Hr Hinst] Hi Hst Hn Hcur. pose proof (Hinst i Hi) as Hok. unfold inst_ok in Hok.
  rewrite Hst in Hok. destruct Hok as (m & Hm & v & Hv & Hact & Hvn & Honly & Hopen).
  assert (m = FlowNode_ID n) as -> by congruence.
  apply elem_of_tselect in Hv as [HvI Hv]. apply bool_decide_eq_true in HvI.
  exists v. constructor; [constructor| |done].
  - apply (touches_preorder (Instance_ID i)); auto. by apply known_instance.
  - by exists i.
  - done.
  - intros r Hrin HI Ha. apply Honly; [|done]. apply elem_of_tselect. by rewrite bool_decide_eq_true.
  - done.
  - done.
  - by exists i.
Qed.

(** The verdict is taken on the tasks of the open visit. *)
Lemma EvaluateNodeCompletion_visit s0 i n v s r s' :
  working s0 i n v s → EvaluateNodeCompletion i n s = Ok (r, s') →
  evaluatePassRule n (tselect (λ t, Task_VisitID t ==? NodeVisit_ID v) (db_tasks s)) = Ok r.
Proof.
  intros Hwk Hrun. unfold EvaluateNodeCompletion, FindActiveNodeVisit in Hrun.
  step Hrun as w s1 E1. apply orThrow_gets_Ok in E1 as [Hw ->].
  apply tfirst_Some in Hw as [Hw [[HI HN]%andb_true_iff Ha]%andb_true_iff].
  apply bool_decide_eq_true in HI. rewrite (ent_only _ _ _ _ _ (wk_entered _ _ _ _ _ Hwk) w Hw HI Ha) in Hrun.
  step Hrun as ts s2 E2. injection E2 as <- <-. by apply liftR_Ok in Hrun as [? _].
Qed.

(** A visit once concluded stays as it is, and nothing open belongs to it. *)
Lemma concluded_forever s I i' s' v st :
  settled s I i' s' → v ∈ db_visits s → NodeVisit_Status v = st → st ≠ NodeVisitActive →
  (∃ v', v' ∈ db_visits s' ∧ NodeVisit_ID v' = NodeVisit_ID v ∧ NodeVisit_Status v' = st) ∧
  ∀ t, t ∈ tasksOf s' I → Task_VisitID t = NodeVisit_ID v → isOpen t = false.
Proof.
  intros [Ht _ (row & _ & Hrid & _ & Hok)] Hv Hst Hne.
  destruct (table_evolves_elem _ _ _ _ (ev_visits _ _ (tch_evolves _ _ _ Ht)) Hv)
    as (v' & Hv' & Hid & _ & _ & _ & Hkeep).
  assert (NodeVisit_Status v' = st) as Hst'.
  { destruct Hkeep as [Ha|[-> _]]; congruence. }
  split; [by exists v'|]. intros t Htin Htv. unfold inst_ok in Hok. rewrite Hrid in Hok.
  destruct (isOpen t) eqn:Ho; [|done].
  assert (∃ n, seated s' I n) as (n & w & Hw & Ha & _ & _ & Hopen).
  { destruct (Instance_Status row); [destruct Hok as (n & _ & ?); by exists n|..];
      destruct Hok as [_ Hq]; by rewrite (Hq t Htin) in Ho. }
  destruct (Hopen t Htin Ho) as [Hw' _]. apply elem_of_tselect in Hw as [_ Hw].
  assert (w = v') as ->.
  { eapply visit_row_unique; [exact (tch_wf _ _ _ Ht)|done|done|congruence]. }
  unfold isActive in Ha. apply bool_decide_eq_true in Ha. congruence.
Qed.

(** Between the decision on a task and the settling of its node. *)
Lemma finished_disciplined s i n task st t' s' :
  disciplined s → i ∈ db_instances s → Instance_Status i = InstanceRunning →
  n ∈ db_nodes s → Instance_CurrentNodeID i = Some (FlowNode_ID n) →
  task ∈ db_tasks s → Task_InstanceID task = Instance_ID i → closing st = true →
  FinishTask task st s = Ok (t', s') → disciplined s' ∧ i ∈ db_instances s' ∧ n ∈ db_nodes s'.
Proof.
  intros Hd Hi Hst Hn Hcur Ht HI Hcl Hrun. destruct (current_working s i n Hd Hi Hst Hn Hcur) as [v Hwk].
  destruct (finish_working _ _ _ _ _ _ _ _ _ Hwk Ht HI Hrun Hcl) as (Hwk' & _).
  destruct (settled_orderly _ _ _ _ Hd (working_settled _ _ _ _ _ Hwk')) as (Hd' & He & _).
  split; [done|]. split; [|by rewrite (ev_nodes _ _ He)].
  unfold FinishTask in Hrun. step Hrun as u s1 E1. apply throwIf_Ok in E1 as [_ ->].
  step Hrun as now s2 E2. step Hrun as k s3 E3. step Hrun as u4 s4 E4. apply throwIf_Ok in E4 as [_ ->].
  injection Hrun as _ <-. destruct s. injection E2 as _ <-. by injection E3 as _ <-.
Qed.
End node_props.

(** C3. A node is settled by the verdict of its pass rule on the tasks of its open
    visit, and only by them: while the rule is pending nothing changes; when it
    passes the visit is recorded as passed and none of its tasks stays open; when
    it rejects the visit is recorded as rejected, the instance is rejected and
    nobody of the whole instance is asked anything any more. *)
Theorem node_settles_by_verdict `{!Host} s i n out s' :
  disciplined s → i ∈ db_instances s → Instance_Status i = InstanceRunning →
  n ∈ db_nodes s → Instance_CurrentNodeID i = Some (FlowNode_ID n) →
  HandleNodeCompletion i n s = Ok (out, s') →
  ∃ v r, v ∈ db_visits s ∧ NodeVisit_InstanceID v = Instance_ID i ∧ NodeVisit_NodeID v = FlowNode_ID n ∧
    NodeVisit_Status v = NodeVisitActive ∧
    evaluatePassRule n (tselect (λ t, Task_VisitID t ==? NodeVisit_ID v) (db_tasks s)) = Ok r ∧
    match r with
    | PassRulePending => s' = s
    | PassRulePassed =>
        (∃ v', v' ∈ db_visits s' ∧ NodeVisit_ID v' = NodeVisit_ID v ∧ NodeVisit_Status v' = NodeVisitPassed) ∧
        ∀ t, t ∈ tasksOf s' (Instance_ID i) → Task_VisitID t = NodeVisit_ID v → isOpen t = false
    | PassRuleRejected =>
        (∃ v', v' ∈ db_visits s' ∧ NodeVisit_ID v' = NodeVisit_ID v ∧ NodeVisit_Status v' = NodeVisitRejected) ∧
        (∃ i', i' ∈ db_instances s' ∧ Instance_ID i' = Instance_ID i ∧ Instance_Status i' = InstanceRejected) ∧
        quiet s' (Instance_ID i)
    end.
Proof.
  intros Hd Hi Hst Hn Hcur Hrun. destruct (current_working s i n Hd Hi Hst Hn Hcur) as [v Hwk].
  pose proof (HandleNodeCompletion_settled _ _ _ _ _ _ _ Hwk Hrun) as Hset.
  unfold HandleNodeCompletion in Hrun. step Hrun as r s1 E1.
  pose proof (EvaluateNodeCompletion_visit _ _ _ _ _ _ _ Hwk E1) as Hev.
  apply EvaluateNodeCompletion_same in E1 as ->.
  destruct (ent_visit _ _ _ _ _ (wk_entered _ _ _ _ _ Hwk)) as (Hv & HvI & Hvn & Hva).
  unfold isActive in Hva. apply bool_decide_eq_true in Hva.
  exists v, r. do 5 (split; [done|]). destruct r.
  - by injection Hrun as _ <-.
  - eapply leaveNode in Hrun as (evs & s1 & Ht & Hrdy & Hrun & v' & Hv' & Hid' & Hst'); [|done|done].
    step Hrun as i' s2 E2. injection Hrun as <- <-. apply AdvanceToNextNode_settled in E2; [|done].
    destruct (concluded_forever _ _ _ _ _ _ E2 Hv' Hst') as [(w & ? & ? & ?) Hno]; [done|].
    rewrite Hid' in *. split; [by exists w|]. exact Hno.
  - eapply leaveNode in Hrun as (evs & s1 & Ht & Hrdy & Hrun & v' & Hv' & Hid' & Hst'); [|done|done].
    step Hrun as now s2 E2. step Hrun as i' s3 E3.
    destruct (ApplyInstanceTransition_Ok _ _ _ _ _ _ E3) as (_ & -> & _).
    step Hrun as c s4 E4. step Hrun as u s5 E5. injection Hrun as <- <-.
    assert (settled s1 (Instance_ID i) (set_Instance_Status InstanceRejected
              (set_Instance_FinishedAt (Some now) i)) s5) as Hs5.
    { eapply settled_sideOnly.
      - eapply closeReady_settled; [|exact Hrdy| |exact E2|exact E3]; [|done].
        apply (touches_preorder (Instance_ID i)); [apply Hrdy|apply Hrdy|]. by apply ready_known.
      - etrans; [by eapply sideOnly_NewInstanceCompletedEvent|by eapply sideOnly_EmitEvents]. }
    destruct (concluded_forever _ _ _ _ _ _ Hs5 Hv' Hst') as [(w & ? & ? & ?) _]; [done|].
    rewrite Hid' in *. split; [by exists w|].
    destruct (stl_row _ _ _ _ Hs5) as (row & Hrow & Hrid & Hrst & Hok).
    assert (Instance_Status row = InstanceRejected) as Hrej by (rewrite Hrst; by destruct i).
    split; [by exists row|]. unfold inst_ok in Hok. by rewrite Hrej, Hrid in Hok.
Qed.

(** Carol has rejected in the demo flow, which asks for everybody's approval; the
    node is about to be settled. *)
Definition demoPanel : FlowNode := demoNode "review" NodeApproval ApprovalParallel PassAll 50 2.
Definition demoRun : Instance :=
  Build_Instance "0" 0 "acme" "leave" "leave" "v1" "Leave" "1" "alice" "alice" None None InstanceRunning
    (Some "review") None None None None None.
Definition demoOpenVisit : NodeVisit := Build_NodeVisit "1" 0 "acme" "0" "review" 1 NodeVisitActive None.
Definition demoSeat (id user : string) (st : TaskStatus) : Task :=
  Build_Task id 0 "acme" "0" "review" "1" user user None None None None None None 0 st None None
    None None false false None.
Definition demoRejected : St :=
  set_next_id 4 (set_instances [demoRun] (set_visits [demoOpenVisit]
    (set_tasks [demoSeat "2" "bob" TaskPending; demoSeat "3" "carol" TaskRejected]
      (demoStore ApprovalParallel PassAll ["bob"; "carol"])))).
Lemma demoRejected_disciplined : @disciplined demoHost demoRejected.
Proof.
  assert (∀ k, (k < 4)%nat → ∃ j, (j < 4)%nat ∧ pretty k = @gen_id demoHost j) as Hid by (intros k Hk; by exists k).
  constructor.
  - constructor; (split; [repeat constructor; set_solver|]); repeat constructor.
    + by apply (Hid 0); lia.
    + by apply (Hid 2); lia.
    + by apply (Hid 3); lia.
    + by apply (Hid 1); lia.
  - constructor; cbn; intros; enum_in; try done.
    + eexists. split; [apply list_elem_of_here|done].
    + eexists. split; [apply list_elem_of_here|done].
    + repeat constructor; set_solver.
    + eexists. split; [apply list_elem_of_further, list_elem_of_here|done].
    + eexists. split; [apply list_elem_of_further, list_elem_of_here|done].
    + eexists. split; [apply list_elem_of_further, list_elem_of_here|done].
    + exact (@gen_edges demoHost _ (demoS0_genesis ApprovalParallel PassAll ["bob"; "carol"])).
  - intros i Hi. cbn in Hi. enum_in. exists "review". split; [done|].
    exists demoOpenVisit. split; [apply list_elem_of_here|]. split; [done|]. split; [done|]. split.
    + intros v [_ Hv]%elem_of_tselect _. cbn in Hv. by enum_in.
    + intros t [_ Ht]%elem_of_tselect _. cbn in Ht. by enum_in.
Qed.
Lemma node_settles_by_verdict_witness :
  match @HandleNodeCompletion demoHost demoRun demoPanel demoRejected with
  | Ok (_, s') => ∃ i', i' ∈ db_instances s' ∧ Instance_Status i' = InstanceRejected
  | Err _ => False
  end.
Proof.
  destruct (@HandleNodeCompletion demoHost demoRun demoPanel demoRejected) as [[out s']|e] eqn:Hrun.
  - destruct (@node_settles_by_verdict demoHost demoRejected demoRun demoPanel out s') as
      (v & r & Hv & _ & _ & _ & Hev & Hcase); [apply demoRejected_disciplined|apply list_elem_of_here|done| |done|done|].
    { cbn. apply list_elem_of_further, list_elem_of_here. }
    apply list_elem_of_singleton in Hv as ->. vm_compute in Hev. injection Hev as <-.
    destruct Hcase as (_ & (i' & ? & _ & ?) & _). by exists i'.
  - vm_compute in Hrun. discriminate Hrun.
Defined.
