(* ===== verification/Findings.v ===== *)
(** * A request approved by its applicant alone

    The entry sweep of the approval processor ([autoPassEligibleTasks] in
    [engine/approval.go]) reads all tasks of the instance at the node, while
    [EvaluateNodeCompletion] in [engine/engine.go] counts only those of the open
    visit, so that, in the words of its comment, tasks left behind by an earlier
    traversal cannot contaminate the redo round's decision.  In the sweep they
    do.  The run below ends with a request that needs two approvals approved
    although nobody but the applicant ever approved it. *)
From S2P Require Import Prelude Enums StateMachine Models Demo Store Shared FormValidation Delegation Binding.
From S2P Require Import PassRule Processors Engine Tenancy TaskService NodeService Commands FlowCommands Discipline System.

(** Two of alice, bob and carol must approve; the applicant's own seat passes by
    itself. *)
Definition twoOfThree : FlowNode :=
  set_FlowNode_SameApplicantAction SameApplicantAutoPass
    (demoNode "review" NodeApproval ApprovalParallel PassFixedCount 0 2).
Definition redo0 : St := demoStoreAt twoOfThree ["alice"; "bob"; "carol"].
(** alice starts; bob sends the request back for revision; alice resubmits. *)
Definition redo1 : St := @execTx demoHost demoStart redo0.
Definition redo2 : St := @execTx demoHost (CmdRollbackTask
  (Build_RollbackTaskCmd "5" (demoUser "bob") "please revise" None "start" [] demoCaller)) redo1.
Definition redo3 : St := @execTx demoHost (CmdResubmitInstance
  (Build_ResubmitInstanceCmd "0" (demoUser "alice") None demoCaller)) redo2.

Definition approvalsOf (s : St) (visitID : string) : list string :=
  Task_AssigneeID <$> tselect (λ t, (Task_VisitID t ==? visitID) && (Task_Status t ==? TaskApproved)) (db_tasks s).

(** C35. The redo round inherits approvals: from a deployed system three ordinary
    commands (alice starts, bob returns the request, alice resubmits) end with the
    instance approved at a node that requires two approvals, although in each of
    the two visits to the node the applicant's automatic approval is the only
    one and bob and carol never approved anything; the visit's own tasks, as the
    sweep left them, do not satisfy the rule. *)
Theorem redo_round_inherits_approvals :
  @reachable demoHost redo0 redo3 ∧
  map Instance_Status (db_instances redo2) = [InstanceReturned] ∧
  map (λ i, (Instance_Status i, Instance_ApplicantID i)) (db_instances redo3) = [(InstanceApproved, "alice")] ∧
  map (λ v, approvalsOf redo3 (NodeVisit_ID v))
    (tselect (λ v, NodeVisit_NodeID v ==? "review") (db_visits redo3)) = [["alice"]; ["alice"]] ∧
  @evaluatePassRule demoHost twoOfThree
    [demoTask "10" "alice" TaskApproved; demoTask "11" "bob" TaskPending; demoTask "12" "carol" TaskPending]
    = Ok PassRulePending.
Proof.
  split; [apply reach_step, reach_step, reach_step, reach_here|].
  split; [vm_compute; reflexivity|]. split; [vm_compute; reflexivity|]. split; vm_compute; reflexivity.
Qed.
