(* ===== verification/Invariants.v ===== *)
(** * Invariants of the other tables

    Two invariants beside the visit discipline, kept by every command: a person
    is copied at most once per visit, and a flow has at most one published
    version.  Only the operations that write the tables in question need an
    argument; [Walk] does the rest. *)
From S2P Require Import Prelude Enums StateMachine Models Demo Store Shared FormValidation FormStorage Delegation Binding.
From S2P Require Import PassRule Processors Engine Tenancy TaskService NodeService Commands Timeout FlowCommands Discipline EngineInv.
From S2P Require Import FlowManagement Traversal ServiceInv CommandInv LifecycleInv System Walk.

(** The copy of [user] at a visit. *)
Definition ccKey (r : CCRecord) : string * option string * option string * string :=
  (CCRecord_InstanceID r, CCRecord_NodeID r, CCRecord_VisitID r, CCRecord_CCUserID r).
Definition copiedOnce (s : St) : Prop := NoDup (ccKey <$> db_cc_records s).

Definition published (v : FlowVersion) : bool := FlowVersion_Status v ==? VersionPublished.
(** Version ids are distinct and no two published versions belong to one flow. *)
Definition onePublished (s : St) : Prop :=
  NoDup (FlowVersion_ID <$> db_versions s) ∧
  ∀ v w, v ∈ db_versions s → w ∈ db_versions s → published v = true → published w = true →
    FlowVersion_FlowID v = FlowVersion_FlowID w → v = w.

(** What names a flow: its code within its tenant and, when it is shared, its code
    alone; what names a version: its number within its flow. *)
Definition flowKey (f : Flow) : string * string := (Flow_TenantID f, Flow_Code f).
Definition sharedCode (f : Flow) : option string := if Flow_IsShared f then Some (Flow_Code f) else None.
Definition versionKey (v : FlowVersion) : string * Z := (FlowVersion_FlowID v, FlowVersion_Version v).

Record tidy `{!Host} (s : St) : Prop := {
  ti_copies : copiedOnce s;
  ti_published : onePublished s;
  ti_codes : NoDup (flowKey <$> db_flows s);
  ti_shared : NoDup (omap sharedCode (db_flows s));
  ti_numbers : NoDup (versionKey <$> db_versions s);
  ti_fresh : ∀ k, db_next_id s ≤ k → gen_id k ∉ FlowVersion_ID <$> db_versions s;
}.
Definition tidies `{!Host} (s s' : St) : Prop := tidy s → tidy s'.
#[export] Instance tidies_preorder `{!Host} : PreOrder tidies.
Proof. split; [intros s Hs; exact Hs|]. intros x y z Hxy Hyz Hx. by apply Hyz, Hxy. Qed.

Section primitives.
Context `{!Host}.

(** Writes to other tables. *)
Lemma tidies_same s s' :
  db_cc_records s' = db_cc_records s → db_versions s' = db_versions s → db_flows s' = db_flows s →
  db_next_id s ≤ db_next_id s' → tidies s s'.
Proof.
  intros Hc Hv Hf Hid [H1 H2 H3 H4 H5 H6]. constructor; unfold copiedOnce, onePublished in *;
    rewrite ?Hc, ?Hv, ?Hf; try done. intros k Hk. apply H6. lia.
Qed.
Ltac other := intros [] a s' [=]; subst; apply tidies_same; cbn; try done; lia.

(** A write to the flows that keeps their names. *)
Lemma NoDup_omap_lookup {A B} (k : A → option B) (l : list A) i j a b x :
  NoDup (omap k l) → l !! i = Some a → l !! j = Some b → k a = Some x → k b = Some x → i = j.
Proof.
  revert i j. induction l as [|y l IH]; intros i j Hd Hi Hj Ka Kb; [done|].
  assert (∀ n c, l !! n = Some c → k c = Some x → k y = Some x → False) as Hhead.
  { intros n c Hc Kc Ky. cbn in Hd. rewrite Ky in Hd. apply NoDup_cons in Hd as [Hn _]. apply Hn.
    apply list_elem_of_omap. exists c. split; [by eapply list_elem_of_lookup_2|done]. }
  destruct i as [|i], j as [|j]; cbn in Hi, Hj; [done| | |].
  - injection Hi as ->. exfalso. by eapply Hhead.
  - injection Hj as ->. exfalso. by eapply Hhead.
  - f_equal. eapply IH; try done. cbn in Hd. destruct (k y); [by apply NoDup_cons in Hd as [_ ?]|done].
Qed.
Lemma fmap_tupdate {Row K} (key : Row → K) p f (l : list Row) :
  (∀ r, key (f r) = key r) → key <$> tupdate p f l = key <$> l.
Proof.
  intros Hk. unfold tupdate. induction l as [|r l IH]; cbn; [done|]. rewrite IH. by destruct (p r); rewrite ?Hk.
Qed.
Lemma omap_tupdate {Row K} (key : Row → option K) p f (l : list Row) :
  (∀ r, key (f r) = key r) → omap key (tupdate p f l) = omap key l.
Proof.
  intros Hk. unfold tupdate. induction l as [|r l IH]; cbn; [done|]. rewrite IH. by destruct (p r); rewrite ?Hk.
Qed.
Lemma tidies_updateFlows p f :
  (∀ r, flowKey (f r) = flowKey r) → (∀ r, sharedCode (f r) = sharedCode r) → keeps tidies (updateFlows p f).
Proof.
  intros Hk Hs [] a s' [=]; subst. intros [H1 H2 H3 H4 H5 H6]. constructor; cbn in *; try done.
  - by rewrite fmap_tupdate.
  - by rewrite omap_tupdate.
Qed.
Lemma tidies_updateFlows_IsActive p b : keeps tidies (updateFlows p (set_Flow_IsActive b)).
Proof. by apply tidies_updateFlows; intros []. Qed.
Lemma tidies_freshID : keeps tidies freshID.
Proof. other. Qed.
Lemma tidies_nodes f : keeps tidies (modify (E := Error) (upd_nodes f)).
Proof. other. Qed.
Lemma tidies_edges f : keeps tidies (modify (E := Error) (upd_edges f)).
Proof. other. Qed.
Lemma tidies_node_assignees f : keeps tidies (modify (E := Error) (upd_node_assignees f)).
Proof. other. Qed.
Lemma tidies_node_ccs f : keeps tidies (modify (E := Error) (upd_node_ccs f)).
Proof. other. Qed.
Lemma tidies_initiators f : keeps tidies (modify (E := Error) (upd_initiators f)).
Proof. other. Qed.
Lemma tidies_statements f : keeps tidies (modify (E := Error) (upd_statements f)).
Proof. other. Qed.
Lemma tidies_projections f : keeps tidies (modify (E := Error) (upd_projections f)).
Proof. other. Qed.
Lemma tidies_business f : keeps tidies (modify (E := Error) (upd_business f)).
Proof. other. Qed.
Lemma tidies_form_tables f : keeps tidies (modify (E := Error) (upd_form_tables f)).
Proof. other. Qed.
Lemma tidies_form_columns f : keeps tidies (modify (E := Error) (upd_form_columns f)).
Proof. other. Qed.

Lemma tidies_Now : keeps tidies Now.
Proof. other. Qed.
Lemma tidies_insertTask t : keeps tidies (insertTask t).
Proof. other. Qed.
Lemma tidies_insertVisit t : keeps tidies (insertVisit t).
Proof. other. Qed.
Lemma tidies_insertInstance t : keeps tidies (insertInstance t).
Proof. other. Qed.
Lemma tidies_insertSnapshot t : keeps tidies (insertSnapshot t).
Proof. other. Qed.
Lemma tidies_insertUrge t : keeps tidies (insertUrge t).
Proof. other. Qed.
Lemma tidies_updateTasks p f : keeps tidies (updateTasks p f).
Proof. other. Qed.
Lemma tidies_updateVisits p f : keeps tidies (updateVisits p f).
Proof. other. Qed.
Lemma tidies_updateInstances p f : keeps tidies (updateInstances p f).
Proof. other. Qed.
Lemma tidies_EmitEvents evs : keeps tidies (EmitEvents evs).
Proof. other. Qed.
Lemma tidies_addActionLog l : keeps tidies (addActionLog l).
Proof. intros [] a s' [=]; subst. cbn. case_match; apply tidies_same; cbn; try done; lia. Qed.

(** Marking copies as read keeps their keys. *)
Lemma tidies_markRead p now : keeps tidies (updateCCRecords p (set_CCRecord_ReadAt now)).
Proof.
  intros s a s' [=]; subst. intros [Hc ? ? ? ? ?]. destruct s; constructor; try done.
  unfold copiedOnce in *. cbn in *.
  enough (∀ l, ccKey <$> tupdate p (set_CCRecord_ReadAt now) l = ccKey <$> l) as -> by done.
  intros l. unfold tupdate. induction l as [|r l IH]; [done|]. cbn. rewrite IH. f_equal.
  by destruct (p r); destruct r.
Qed.

(** ** Copying *)
Lemma insertCopies_run (mk : string → CCRecord) us u s :
  ∃ u' s', foldM (λ _ user, insertCCRecord (mk user)) u us s = Ok (u', s') ∧
    (db_versions s' = db_versions s ∧ db_flows s' = db_flows s ∧ db_next_id s ≤ db_next_id s') ∧
    ∃ rows, db_cc_records s' = db_cc_records s ++ rows ∧ (ccKey <$> rows) = (ccKey ∘ mk <$> us).
Proof.
  revert u s. induction us as [|x us IH]; intros u s; cbn [foldM].
  { exists u, s. split; [done|]. split; [by repeat split|]. exists []. by rewrite app_nil_r. }
  unfold mbind, SE_bind.
  assert (∃ id now s1, insertCCRecord (mk x) s = Ok (tt, s1) ∧
    (db_versions s1 = db_versions s ∧ db_flows s1 = db_flows s ∧ db_next_id s ≤ db_next_id s1) ∧
    db_cc_records s1 = db_cc_records s ++ [set_CCRecord_CreatedAt now (set_CCRecord_ID id (mk x))])
    as (id & now & s1 & Hrun & (Hv & Hf & Hn) & Hrow).
  { destruct s. eexists _, _, _. split; [unfold insertCCRecord, freshID, Now, modify, mbind, SE_bind; cbn; reflexivity|].
    cbn. repeat split; lia. }
  rewrite Hrun. destruct (IH tt s1) as (u' & s' & Hrest & (Hv' & Hf' & Hn') & rows & Hrows & Hkeys).
  exists u', s'. split; [done|]. split; [split_and!; [congruence|congruence|lia]|].
  eexists (_ :: rows). rewrite Hrows, Hrow, <-app_assoc. split; [done|]. cbn. rewrite Hkeys.
  f_equal. by destruct (mk x).
Qed.
Lemma tidies_InsertCCRecords I n v us infos m :
  keeps tidies (InsertCCRecords I (Some n) (Some v) us infos m).
Proof.
  intros s a s' Hrun Htidy. unfold InsertCCRecords in Hrun.
  destruct (_ =? 0)%nat; [by injection Hrun as _ <-|]. step Hrun as ex s1 E1. injection E1 as <- <-.
  destruct (_ =? 0)%nat; [by injection Hrun as _ <-|].
  set (fresh := List.filter _ _) in Hrun. step Hrun as u s2 E2. injection Hrun as _ <-.
  match type of E2 with foldM (λ _ x, insertCCRecord (@?mk x)) _ _ _ = _ =>
    destruct (insertCopies_run mk fresh tt s) as (u' & s3 & Hrun & (Hv & Hf & Hid) & rows & Hrows & Hkeys) end.
  rewrite E2 in Hrun. injection Hrun as <- <-. destruct Htidy as [Hc Hp ? ? ? Hfr].
  constructor; unfold onePublished; rewrite ?Hv, ?Hf; try done; [|intros k Hk; apply Hfr; lia].
  unfold copiedOnce. rewrite Hrows, fmap_app, Hkeys. apply NoDup_app. split; [done|].
  assert (∀ u, u ∈ fresh ↔ u ∈ NormalizeUniqueIDs us ∧ u ∉ CCRecord_CCUserID <$> tselect (λ r,
    (CCRecord_InstanceID r ==? I) && bool_decide (CCRecord_CCUserID r ∈ NormalizeUniqueIDs us)
    && ((CCRecord_NodeID r ==? Some n) && (CCRecord_VisitID r ==? Some v))) (db_cc_records s)) as Hfresh.
  { intros x. unfold fresh. by rewrite list_elem_of_In, List.filter_In, <-list_elem_of_In, bool_decide_eq_true. }
  split.
  - intros k (r & -> & Hr)%list_elem_of_fmap (x & Hk & [Hx Hnew]%Hfresh)%list_elem_of_fmap.
    apply Hnew. unfold ccKey in Hk. cbn in Hk. injection Hk as HI HN HV HU.
    rewrite <-HU. apply list_elem_of_fmap_2, elem_of_tselect. split; [|done].
    by rewrite HI, HN, HV, HU, !bool_decide_eq_true_2.
  - apply NoDup_fmap_2_strong.
    + intros x y _ _ Hk. unfold ccKey in Hk. cbn in Hk. by injection Hk.
    + rewrite <-(list_fmap_id fresh). apply (NoDup_key_tselect id).
      rewrite list_fmap_id. apply NoDup_NormalizeUniqueIDs.
Qed.

(** ** Publishing *)
Lemma publish_rows F vid now by_ (T : list FlowVersion) :
  let archive := tupdate (λ v, (FlowVersion_FlowID v ==? F) && published v)
                   (set_FlowVersion_Status VersionArchived) in
  let publish v := set_FlowVersion_PublishedBy by_
    (set_FlowVersion_PublishedAt now (set_FlowVersion_Status VersionPublished v)) in
  NoDup (FlowVersion_ID <$> T) →
  (∀ v w, v ∈ T → w ∈ T → published v = true → published w = true →
     FlowVersion_FlowID v = FlowVersion_FlowID w → v = w) →
  (∀ v, v ∈ T → FlowVersion_ID v = vid → FlowVersion_FlowID v = F) →
  let T' := tupdate (λ v, FlowVersion_ID v ==? vid) publish (archive T) in
  NoDup (FlowVersion_ID <$> T') ∧
  ∀ v w, v ∈ T' → w ∈ T' → published v = true → published w = true →
    FlowVersion_FlowID v = FlowVersion_FlowID w → v = w.
Proof.
  intros archive publish Hnd Hone HF T'.
  assert (NoDup (FlowVersion_ID <$> T')) as Hnd'.
  { unfold T', archive. rewrite !fmap_ids_tupdate; [done|by intros []..]. }
  split; [done|].
  (* a published row is the new one, of flow [F], or an old one of another flow *)
  assert (∀ v, v ∈ T' → published v = true →
    FlowVersion_ID v = vid ∧ FlowVersion_FlowID v = F ∨
    v ∈ T ∧ FlowVersion_FlowID v ≠ F) as Hcase.
  { intros v (v1 & (v0 & Hv0 & ->)%elem_of_tupdate & ->)%elem_of_tupdate Hpub.
    case_bool_decide as Hid.
    - left. assert (FlowVersion_ID v0 = vid) as Hid0 by (by destruct (_ && _); destruct v0).
      pose proof (HF v0 Hv0 Hid0) as HF0. destruct v0; cbn in *. by destruct (_ && _).
    - right. destruct ((FlowVersion_FlowID v0 ==? F) && published v0) eqn:Hp; [by destruct v0|].
      split; [done|]. intros HF0. rewrite HF0, Hpub in Hp. by rewrite bool_decide_eq_true_2 in Hp. }
  intros v w Hv Hw Pv Pw Heq.
  destruct (Hcase v Hv Pv) as [[Iv Fv]|[Tv Nv]], (Hcase w Hw Pw) as [[Iw Fw]|[Tw Nw]].
  - eapply NoDup_key_inj; [exact Hnd'|done|done|congruence].
  - congruence.
  - congruence.
  - by apply Hone.
Qed.
Lemma versionKey_publish p now by_ T :
  let publish v := set_FlowVersion_PublishedBy by_
    (set_FlowVersion_PublishedAt now (set_FlowVersion_Status VersionPublished v)) in
  versionKey <$> tupdate p publish T = versionKey <$> T.
Proof. apply fmap_tupdate. by intros []. Qed.
Lemma tidies_PublishVersion cmd : keeps tidies (PublishVersionHandler_Handle cmd).
Proof.
  intros s a s' Hrun [Hc [Hnd Hone] Hcd Hsh Hnum Hfr].
  unfold PublishVersionHandler_Handle, findVersion, findFlow in Hrun.
  step Hrun as ver s1 E1. apply orThrow_gets_Ok in E1 as [Hver ->]. apply findBy_Ok in Hver as [Hver Hid].
  step Hrun as u2 s2 E2. apply throwIf_Ok in E2 as [_ ->].
  step Hrun as fl s3 E3. apply orThrow_gets_Ok in E3 as [_ ->].
  step Hrun as k4 s4 E4. step Hrun as now s5 E5. step Hrun as k6 s6 E6. step Hrun as k7 s7 E7.
  assert (tidy s7) as H7.
  { destruct s. injection E4 as _ <-. injection E5 as _ <-. injection E6 as _ <-. injection E7 as _ <-.
    constructor; cbn in *; try done.
    - apply publish_rows; [done..|]. intros v Hv Hvid.
      by rewrite (NoDup_key_inj FlowVersion_ID _ v ver Hnd Hv Hver Hvid).
    - rewrite fmap_tupdate; [done|by intros []].
    - rewrite omap_tupdate; [done|by intros []].
    - rewrite versionKey_publish, fmap_tupdate; [done|by intros []].
    - intros k Hk. rewrite !fmap_ids_tupdate; [by apply Hfr|by intros []..]. }
  step Hrun as u8 s8 E8. step Hrun as u9 s9 E9.
  assert (tidy s9) as H9.
  { eapply (keeps_RecordMetadata tidies); [auto using tidies_freshID, tidies_form_tables, tidies_form_columns..|
      exact E9|].
    eapply (keeps_ProvisionTable tidies); [auto using tidies_statements..|exact E8|exact H7]. }
  by eapply tidies_EmitEvents.
Qed.

(** ** Naming flows and numbering versions *)
Lemma tidies_insertInitiators id rules : keeps tidies (insertInitiators id rules).
Proof. unfold insertInitiators, insertInitiator. keeps_tac; auto using tidies_freshID, tidies_initiators. Qed.
Lemma tidies_CreateFlow cmd : keeps tidies (CreateFlowHandler_Handle cmd).
Proof.
  intros s a s' Hrun Ht. unfold CreateFlowHandler_Handle in Hrun.
  do 3 (step Hrun as ? ? E; apply liftR_Ok in E as [_ ->]). step Hrun as b ? E. apply liftR_Ok in E as [_ ->].
  do 2 (step Hrun as ? ? E; apply liftR_Ok in E as [_ ->]). step Hrun as ex ? E. injection E as Hex <-.
  step Hrun as ? ? E. apply throwIf_Ok in E as [-> ->].
  step Hrun as ? s1 Esh. assert (s1 = s ∧ (crf_IsShared cmd = true → crf_Code cmd ∉ omap sharedCode (db_flows s)))
    as [-> Hshared].
  { destruct (crf_IsShared cmd); [|by injection Esh as _ <-]. unfold requireFreeSharedCode in Esh.
    step Esh as taken ? E. injection E as Htk <-. apply throwIf_Ok in Esh as [-> ->]. split; [done|].
    intros _ (f & Hf & Hc)%list_elem_of_omap. apply not_true_iff_false in Htk. apply Htk, texists_true.
    exists f. split; [done|]. unfold sharedCode in Hc. destruct (Flow_IsShared f); [|done].
    injection Hc as ->. by rewrite bool_decide_eq_true_2. }
  step Hrun as ? s2 Ecat. assert (s2 = s) as ->.
  { unfold requireTenantCategory in Ecat. step Ecat as c ? E. apply orThrow_gets_Ok in E as [_ ->].
    by apply throwIf_Ok in Ecat as [_ ->]. }
  step Hrun as fl s3 Eins. step Hrun as ? s4 Eini. step Hrun as ? s5 Eev. injection Hrun as _ <-.
  eapply tidies_EmitEvents; [exact Eev|]. eapply tidies_insertInitiators; [exact Eini|].
  destruct Ht as [H1 H2 H3 H4 H5 H6]. destruct s. injection Eins as _ <-. constructor; cbn in *; try done.
  - rewrite fmap_app. apply NoDup_app. split; [done|]. split; [|apply NoDup_singleton].
    intros k (f & -> & Hf)%list_elem_of_fmap Hk%list_elem_of_singleton. apply not_true_iff_false in Hex.
    apply Hex, texists_true. exists f. split; [done|]. unfold flowKey in Hk. cbn in Hk. injection Hk as -> ->.
    by rewrite !bool_decide_eq_true_2.
  - rewrite omap_app. cbn. unfold sharedCode at 2. cbn. destruct (crf_IsShared cmd); [|by rewrite app_nil_r].
    apply NoDup_app. split; [done|]. split; [|apply NoDup_singleton].
    intros c Hc ->%list_elem_of_singleton. by apply Hshared.
  - intros k Hk. apply H6. lia.
Qed.
Lemma tidies_UpdateFlow cmd : keeps tidies (UpdateFlowHandler_Handle cmd).
Proof.
  unfold UpdateFlowHandler_Handle, orThrow, findFlow.
  keeps_tac; auto using tidies_initiators, tidies_insertInitiators, tidies_EmitEvents.
  by apply tidies_updateFlows.
Qed.

Lemma latestVersion_bound versions v :
  v ∈ versions → (FlowVersion_Version v ≤ latestVersion versions (FlowVersion_FlowID v))%Z.
Proof.
  intros Hv. unfold latestVersion. assert (FlowVersion_Version v ∈
    FlowVersion_Version <$> tselect (λ w, FlowVersion_FlowID w ==? FlowVersion_FlowID v) versions) as Hin.
  { apply list_elem_of_fmap_2, elem_of_tselect. by rewrite bool_decide_eq_true_2. }
  assert (∀ l n x, (x ≤ n)%Z ∨ x ∈ l → (x ≤ foldl Z.max n l)%Z) as Hmax.
  { induction l as [|y l IH]; intros n x; cbn; [intros [?|[]%elem_of_nil]; done|].
    rewrite elem_of_cons. intros [?|[->|?]]; apply IH; [left; lia|left; lia|by right]. }
  destruct (FlowVersion_Version <$> _) as [|n rest]; [by apply elem_of_nil in Hin|].
  apply Hmax. apply elem_of_cons in Hin as [->|?]; [by left|by right].
Qed.
Lemma tidies_insertVersion F d m sch fs fields b s a s' :
  insertVersion (Build_FlowVersion "" F (latestVersion (db_versions s) F + 1) VersionDraft d m sch fs fields
    None None b) s = Ok (a, s') → tidy s → tidy s'.
Proof.
  intros Hrun [H1 [H2 H2'] H3 H4 H5 H6]. destruct s. injection Hrun as _ <-. constructor; cbn in *; try done.
  - split; cbn.
    + rewrite fmap_app. apply NoDup_app. split; [done|]. split; [|apply NoDup_singleton].
      intros x Hx ->%list_elem_of_singleton. by eapply H6.
    + intros v w [Hv| ->%list_elem_of_singleton]%elem_of_app [Hw| ->%list_elem_of_singleton]%elem_of_app; try done.
      by apply H2'.
  - rewrite fmap_app. apply NoDup_app. split; [done|]. split; [|apply NoDup_singleton].
    intros k (v & -> & Hv)%list_elem_of_fmap Hk%list_elem_of_singleton. unfold versionKey in Hk. cbn in Hk.
    injection Hk as HF Hn. apply latestVersion_bound in Hv. rewrite HF in Hv. lia.
  - intros k Hk. rewrite fmap_app, not_elem_of_app. split; [apply H6; lia|].
    intros Heq%list_elem_of_singleton. apply gen_id_inj in Heq. lia.
Qed.
Lemma tidies_DeployFlow cmd : keeps tidies (DeployFlowHandler_Handle cmd).
Proof.
  intros s a s' Hrun Ht. unfold DeployFlowHandler_Handle, loadDeployFlow, findFlow, nextVersionNumber in Hrun.
  step Hrun as planned ? E. apply liftR_Ok in E as [_ ->].
  step Hrun as loaded ? E. step E as f ? E'. apply orThrow_gets_Ok in E' as [_ ->].
  step E as b ? E'. apply liftR_Ok in E' as [_ ->]. injection E as <- <-.
  step Hrun as num ? E. injection E as <- <-. step Hrun as ver s1 Ever.
  apply tidies_insertVersion in Ever; [|done].
  match type of Hrun with ?m s1 = _ => assert (keeps tidies m) as Hkeep; [|by eapply Hkeep] end.
  clear Hrun Ever. unfold insertNodes, insertNode, insertNodeAssignee, insertNodeCC, insertEdge.
  keeps_tac; auto using tidies_freshID, tidies_nodes, tidies_edges, tidies_node_assignees, tidies_node_ccs,
    tidies_EmitEvents.
Qed.
(** ** Whole commands and jobs *)
Lemma tidies_logs f : keeps tidies (modify (E := Error) (λ s, set_logs (f s) s)).
Proof. other. Qed.
Lemma tidies_expireSnapshots f : keeps tidies (modify (E := Error) (λ s, set_snapshots (f s) s)).
Proof. other. Qed.
Lemma tidies_expireUrges f : keeps tidies (modify (E := Error) (λ s, set_urges (f s) s)).
Proof. other. Qed.
Lemma tidies_expireCopies p : keeps tidies (modify (E := Error) (upd_cc_records (List.filter p))).
Proof.
  intros [] a s' [=]; subst. intros [Hc ? ? ? ? ?]. constructor; try done.
  unfold copiedOnce in *. cbn in *. by apply (NoDup_key_tselect ccKey p).
Qed.
Lemma tidies_ToggleFlowActive cmd : keeps tidies (ToggleFlowActiveHandler_Handle cmd).
Proof.
  unfold ToggleFlowActiveHandler_Handle, orThrow, findFlow.
  keeps_tac; auto using tidies_updateFlows_IsActive, tidies_EmitEvents.
Qed.
#[export] Instance tidies_framed : Framed tidies.
Proof.
  split; try exact _; auto using tidies_Now, tidies_insertTask, tidies_insertVisit, tidies_insertSnapshot,
    tidies_insertUrge, tidies_updateTasks, tidies_updateVisits, tidies_updateInstances, tidies_EmitEvents,
    tidies_addActionLog, tidies_logs, tidies_InsertCCRecords, tidies_markRead, tidies_expireSnapshots,
    tidies_expireUrges, tidies_expireCopies, tidies_PublishVersion, tidies_ToggleFlowActive, tidies_CreateFlow,
    tidies_UpdateFlow, tidies_DeployFlow.
  - intros i. apply keeps_SyncInstanceProjection; auto using tidies_statements, tidies_freshID with typeclass_instances.
  - intros i. apply keeps_Project; auto using tidies_Now, tidies_projections, tidies_business with typeclass_instances.
  - intros cmd. unfold RetryBusinessProjectionHandler_Handle, orThrow, findProjection. keeps_tac.
    apply keeps_Retry; auto using tidies_Now, tidies_projections, tidies_business with typeclass_instances.
  - apply keeps_claimBatch; auto using tidies_Now, tidies_projections with typeclass_instances.
  - intros i. apply keeps_applyClaim;
      auto using tidies_Now, tidies_projections, tidies_business, tidies_EmitEvents with typeclass_instances.
  - intros b []. by apply tidies_same.
Qed.
Lemma tidies_Bind f v i : keeps tidies (Projector_Bind f v i).
Proof.
  apply keeps_Bind; auto using tidies_Now, tidies_projections, tidies_business, tidies_freshID,
    tidies_updateInstances with typeclass_instances.
Qed.
Hint Resolve tidies_insertInstance tidies_Bind framed_StartProcess : keeps.
Lemma exec_tidies c : keeps tidies (exec c).
Proof. apply exec_framed; [apply _|]. intros cmd ->. cbn [exec]. unfold StartInstanceHandler_Handle. walk. Qed.
Lemma reachable_tidy s0 s : tidy s0 → reachable s0 s → tidy s.
Proof.
  intros H0. induction 1 as [|c s _ IH|j s _ IH _]; [done|..].
  - unfold execTx. destruct (runInTx (exec c) s) as [r s'] eqn:Hrun.
    by eapply (runInTx_keeps tidies); [apply exec_tidies|exact Hrun|].
  - unfold jobTx. destruct (runInTx (runJob j) s) as [r s'] eqn:Hrun.
    by eapply (runInTx_keeps tidies); [by apply job_framed, tidies_framed|exact Hrun|].
Qed.
End primitives.

(** Nobody is copied twice: whatever commands and jobs run, automatic and manual copies
    together never give one person two copies of the same instance at the same
    visit. *)
Theorem copied_once_per_visit `{!Host} s0 s r r' :
  tidy s0 → reachable s0 s →
  ∀ i j, db_cc_records s !! i = Some r → db_cc_records s !! j = Some r' →
  CCRecord_InstanceID r = CCRecord_InstanceID r' → CCRecord_VisitID r = CCRecord_VisitID r' →
  CCRecord_NodeID r = CCRecord_NodeID r' → CCRecord_CCUserID r = CCRecord_CCUserID r' → i = j.
Proof.
  intros Ht0 Hreach i j Hi Hj HI HV HN HU. destruct (reachable_tidy s0 s Ht0 Hreach) as [Hc _ _ _ _ _].
  eapply (NoDup_lookup (ccKey <$> db_cc_records s) i j (ccKey r) Hc).
  - by rewrite list_lookup_fmap, Hi.
  - rewrite list_lookup_fmap, Hj. cbn. unfold ccKey. by rewrite HI, HV, HN, HU.
Qed.

(** A flow has at most one published version at any time: publishing archives
    the version it replaces, and no other command publishes. *)
Theorem one_published_version `{!Host} s0 s v w :
  tidy s0 → reachable s0 s →
  v ∈ db_versions s → w ∈ db_versions s →
  FlowVersion_Status v = VersionPublished → FlowVersion_Status w = VersionPublished →
  FlowVersion_FlowID v = FlowVersion_FlowID w → v = w.
Proof.
  intros Ht0 Hreach Hv Hw Pv Pw. destruct (reachable_tidy s0 s Ht0 Hreach) as [_ [_ Huniq] _ _ _ _].
  apply Huniq; [done|done| |]; unfold published; by rewrite bool_decide_eq_true.
Qed.

(** C38. The catalogue stays unambiguous: no sequence of commands gives a tenant two
    flows with one code, offers two shared flows with one code, or numbers two
    versions of a flow alike; so a code names at most one flow a tenant sees of its
    own, and a version number one deployment. *)
Theorem catalogue_is_unambiguous `{!Host} s0 s :
  tidy s0 → reachable s0 s →
  (∀ i j f g, db_flows s !! i = Some f → db_flows s !! j = Some g → Flow_Code f = Flow_Code g →
     Flow_TenantID f = Flow_TenantID g ∨ Flow_IsShared f = true ∧ Flow_IsShared g = true → i = j) ∧
  (∀ i j v w, db_versions s !! i = Some v → db_versions s !! j = Some w →
     FlowVersion_FlowID v = FlowVersion_FlowID w → FlowVersion_Version v = FlowVersion_Version w → i = j).
Proof.
  intros Ht0 Hreach. destruct (reachable_tidy s0 s Ht0 Hreach) as [_ _ Hc Hs Hn _]. split.
  - intros i j f g Hf Hg Hcode [Ht|[Sf Sg]].
    + eapply (NoDup_lookup _ i j (flowKey f) Hc); rewrite list_lookup_fmap.
      * by rewrite Hf.
      * rewrite Hg. cbn. unfold flowKey. by rewrite Ht, Hcode.
    + eapply (NoDup_omap_lookup sharedCode _ i j f g (Flow_Code f) Hs Hf Hg); unfold sharedCode.
      * by rewrite Sf.
      * by rewrite Sg, Hcode.
  - intros i j v w Hv Hw HF Hnum. eapply (NoDup_lookup _ i j (versionKey v) Hn); rewrite list_lookup_fmap.
    + by rewrite Hv.
    + rewrite Hw. cbn. unfold versionKey. by rewrite HF, Hnum.
Qed.

(** A second version of the demo flow is published over the first. *)
Definition demoTwoVersions : St :=
  set_versions [demoVersion; set_FlowVersion_Status VersionDraft
    (Build_FlowVersion "v2" "leave" 2 VersionPublished None StorageJSON None None [] None None None)]
    (demoStore ApprovalParallel PassAll []).
Definition demoPublished : St :=
  @execTx demoHost (CmdPublishVersion (Build_PublishVersionCmd "v2" "admin")) demoTwoVersions.
Ltac demo_tidy := constructor; [constructor|split| | | |];
  try (apply (bool_decide_unpack _); vm_compute; exact I);
  [intros v w Hv Hw; cbn in Hv, Hw; enum_in; try done|intros k _; by apply demo_fresh].
Lemma demoTwoVersions_tidy : @tidy demoHost demoTwoVersions.
Proof. demo_tidy. Qed.
Lemma one_published_version_witness :
  map (λ v, (FlowVersion_ID v, FlowVersion_Status v)) (db_versions demoPublished)
    = [("v1", VersionArchived); ("v2", VersionPublished)] ∧
  ∀ v w, v ∈ db_versions demoPublished → w ∈ db_versions demoPublished →
    FlowVersion_Status v = VersionPublished → FlowVersion_Status w = VersionPublished →
    FlowVersion_FlowID v = FlowVersion_FlowID w → v = w.
Proof.
  split; [vm_compute; reflexivity|]. intros v w Hv Hw Pv Pw Heq.
  apply (@one_published_version demoHost demoTwoVersions demoPublished v w).
  - exact demoTwoVersions_tidy.
  - apply reach_step, reach_here.
  - exact Hv.
  - exact Hw.
  - exact Pv.
  - exact Pw.
  - exact Heq.
Defined.
(** bob copies carol twice, the second time together with dave. *)
Definition demoCopy (users : list string) : Command :=
  CmdAddCC (Build_AddCCCmd "0" users (demoUser "bob") demoCaller).
Definition demoCopied : St :=
  @execTx demoHost (demoCopy ["carol"; "dave"]) (@execTx demoHost (demoCopy ["carol"]) demoS1).
Lemma demoS0_tidy : @tidy demoHost demoS0.
Proof. demo_tidy. Qed.
Lemma copied_once_per_visit_witness :
  map CCRecord_CCUserID (db_cc_records demoCopied) = ["carol"; "dave"] ∧
  ∀ i j r, db_cc_records demoCopied !! i = Some r → db_cc_records demoCopied !! j = Some r → i = j.
Proof.
  split; [vm_compute; reflexivity|]. intros i j r Hi Hj.
  apply (@copied_once_per_visit demoHost demoS0 demoCopied r r).
  - exact demoS0_tidy.
  - apply reach_step, reach_step, demoS1_reachable.
  - exact Hi.
  - exact Hj.
  - reflexivity.
  - reflexivity.
  - reflexivity.
  - reflexivity.
Defined.

(** A flow created beside the first, then deployed twice. *)
Definition demoCreate (flowCode : string) (shared : bool) : Command :=
  CmdCreateFlow (Build_CreateFlowCmd "acme" shared flowCode "Trip" "hr" None None ∅ BindingStandalone None
    ["admin"] true "" []).
Definition demoDefinition : FlowDefinition :=
  Build_FlowDefinition
    [Build_NodeDefinition "s" NodeStart "begin"; Build_NodeDefinition "a" NodeApproval "bob";
     Build_NodeDefinition "e" NodeEnd "done"]
    [Build_EdgeDefinition "1" "s" "a" None; Build_EdgeDefinition "2" "a" "e" None].
Definition demoDeploy (flowID : string) : Command :=
  CmdDeployFlow (Build_DeployFlowCmd flowID None (StorageModeOther "") demoDefinition None).
Definition demoCatalogue : St :=
  @execTx demoHost (demoCreate "leave" false) (@execTx demoHost (demoDeploy "leave")
    (@execTx demoHost (demoDeploy "leave") (@execTx demoHost (demoCreate "trip" true) demoS0))).
Lemma catalogue_is_unambiguous_witness :
  map Flow_Code (db_flows demoCatalogue) = ["leave"; "trip"] ∧
  map FlowVersion_Version (db_versions demoCatalogue) = [1%Z; 2%Z; 3%Z] ∧
  ∀ i j v w, db_versions demoCatalogue !! i = Some v → db_versions demoCatalogue !! j = Some w →
    FlowVersion_FlowID v = FlowVersion_FlowID w → FlowVersion_Version v = FlowVersion_Version w → i = j.
Proof.
  split; [vm_compute; reflexivity|]. split; [vm_compute; reflexivity|].
  refine (proj2 (@catalogue_is_unambiguous demoHost demoS0 demoCatalogue demoS0_tidy _)).
  apply reach_step, reach_step, reach_step, reach_step, reach_here.
Defined.
