(* ===== verification/CommandProps.v ===== *)
(** * What single commands do

    The functional behaviour of individual handlers: transferring a task, adding
    assignees, urging, rolling back, starting an instance and naming it. *)
From S2P Require Import Prelude Enums StateMachine Models Demo Store Shared FormValidation Delegation Binding.
From S2P Require Import PassRule Processors Engine Tenancy TaskService Queue NodeService Commands FlowCommands Discipline EngineInv.
From S2P Require Import Traversal ServiceInv CommandInv LifecycleInv System.

(** ** Titles *)
Section titles.
Lemma RuneCountInString_nonneg s : (0 ≤ RuneCountInString s)%Z.
Proof. induction s as [|a s IH]; cbn [RuneCountInString]; [done|]. destruct (_ && _); lia. Qed.
Lemma takeRunes_count n s : (RuneCountInString (takeRunes n s) ≤ Z.of_nat n)%Z.
Proof.
  revert n. induction s as [|a s IH]; intros n; cbn [takeRunes RuneCountInString]; [lia|].
  unfold isContinuation.
  destruct ((128 <=? Ascii.nat_of_ascii a)%nat && (Ascii.nat_of_ascii a <? 192)%nat) eqn:Ha.
  - cbn [RuneCountInString]. rewrite Ha. apply IH.
  - destruct n as [|n]; cbn [RuneCountInString]; [lia|]. rewrite Ha. specialize (IH n). lia.
Qed.
Lemma takeRunes_prefix n s : String.prefix (takeRunes n s) s = true.
Proof.
  revert n. induction s as [|a s IH]; intros n; cbn [takeRunes]; [done|].
  destruct (isContinuation a).
  - cbn. destruct (Ascii.ascii_dec a a); [apply IH|done].
  - destruct n as [|n]; [done|]. cbn. destruct (Ascii.ascii_dec a a); [apply IH|done].
Qed.
Lemma prefix_refl s : String.prefix s s = true.
Proof. induction s as [|a s IH]; [done|]. cbn. by destruct (Ascii.ascii_dec a a). Qed.
Lemma truncateRunes_spec s n :
  (RuneCountInString (truncateRunes s n) ≤ Z.of_nat n)%Z ∧ String.prefix (truncateRunes s n) s = true ∧
  ((RuneCountInString s ≤ Z.of_nat n)%Z → truncateRunes s n = s).
Proof.
  unfold truncateRunes. destruct (Z.leb_spec (RuneCountInString s) (Z.of_nat n)) as [Hle|Hgt].
  - split; [done|]. split; [apply prefix_refl|done].
  - split; [apply takeRunes_count|]. split; [apply takeRunes_prefix|lia].
Qed.
End titles.

(** Titles fit their column: a rendered instance title never has more than 256
    characters, it is a prefix of the text the template (or the flow name and
    the instance number) gave, and a text that fits is kept whole. *)
Theorem title_fits `{!Host} flow instanceNo formData applicant title :
  renderInstanceTitle flow instanceNo formData applicant = Ok title →
  ∃ text,
    (if Flow_InstanceTitleTemplate flow ==? "" then text = Flow_Name flow +:+ "-" +:+ instanceNo
     else executeTitleTemplate (Flow_InstanceTitleTemplate flow) flow instanceNo formData applicant = Ok text) ∧
    (RuneCountInString title ≤ 256)%Z ∧ String.prefix title text = true ∧
    ((RuneCountInString text ≤ 256)%Z → title = text).
Proof.
  unfold renderInstanceTitle. case_bool_decide as Ht.
  - intros [= <-]. eexists. split; [done|]. apply (truncateRunes_spec _ instanceTitleMaxRunes).
  - destruct (executeTitleTemplate _ _ _ _ _) as [text|]; [|done]. intros [= <-]. exists text.
    split; [done|]. apply (truncateRunes_spec _ instanceTitleMaxRunes).
Qed.
Lemma title_fits_witness :
  ∃ text, text = "Leave-7" ∧ String.prefix "Leave-7" text = true.
Proof.
  destruct (@title_fits demoHost demoFlow "7" None (demoUser "alice") "Leave-7") as (text & Ht & _ & Hp & _).
  - vm_compute. reflexivity.
  - exists text. cbn in Ht. split; [exact Ht|exact Hp].
Defined.

(** ** Urging *)

(** Urging is rate limited per task and person: an urge that goes through
    found no earlier urge of the same task by the same person younger than the
    node's cooldown (thirty minutes when the node sets none), and leaves a record
    that will hold back the next one. *)
Theorem urges_are_rate_limited `{!Host} cmd s u s' :
  UrgeTaskHandler_Handle cmd s = Ok (u, s') →
  ∃ t n, t ∈ db_tasks s ∧ Task_ID t = urg_TaskID cmd ∧ Task_Status t = TaskPending ∧
    n ∈ db_nodes s ∧ FlowNode_ID n = Task_NodeID t ∧
    let minutes := if (FlowNode_UrgeCooldownMinutes n <=? 0)%Z then 30%Z else FlowNode_UrgeCooldownMinutes n in
    let now := clock_reading (db_clock s) in
    (∀ r, r ∈ db_urges s → UrgeRecord_TaskID r = Some (urg_TaskID cmd) →
       UrgeRecord_UrgerID r = urg_UrgerID cmd → (UrgeRecord_CreatedAt r ≤ now - 60 * minutes)%Z) ∧
    ∃ r, db_urges s' = db_urges s ++ [r] ∧ UrgeRecord_TaskID r = Some (urg_TaskID cmd) ∧
      UrgeRecord_UrgerID r = urg_UrgerID cmd ∧ UrgeRecord_CreatedAt r = clock_reading (S (db_clock s)).
Proof.
  unfold UrgeTaskHandler_Handle, findTask, findNode, findInstance, IsUrgeAuthorized. intros Hrun.
  step Hrun as t s1 E1. apply orThrow_gets_Ok in E1 as [Ht ->]. apply findBy_Ok in Ht as [Ht Hid].
  step Hrun as al s2 E2. pose proof (reads_AllowsInstanceAccess _ _ _ _ _ _ _ E2) as <-. clear E2.
  step Hrun as u3 s3 E3. apply throwIf_Ok in E3 as [_ ->].
  step Hrun as u4 s4 E4. apply throwIf_Ok in E4 as [Hp ->]. apply negb_false_iff, bool_decide_eq_true in Hp.
  step Hrun as au s5 E5. assert (s5 = s) as ->.
  { assert (keeps eq (isDecisionParticipant (Task_InstanceID t) (urg_UrgerID cmd))) as Hk
      by (unfold isDecisionParticipant, orThrow, findInstance; keeps_tac).
    symmetry. by eapply Hk. }
  step Hrun as u6 s6 E6. apply throwIf_Ok in E6 as [_ ->].
  step Hrun as n s7 E7. apply orThrow_gets_Ok in E7 as [Hn ->]. apply findBy_Ok in Hn as [Hn Hnid].
  step Hrun as now s8 E8. step Hrun as k s9 E9. injection E9 as <- <-.
  step Hrun as u10 s10 E10. apply throwIf_Ok in E10 as [Hk ->]. apply Nat.ltb_ge in Hk.
  step Hrun as u11 s11 E11. step Hrun as i s12 E12. apply orThrow_gets_Ok in E12 as [_ ->].
  exists t, n. split_and!; try done; cbv zeta.
  - intros r Hr HT HU. assert (now = clock_reading (db_clock s) ∧ db_urges s8 = db_urges s) as [-> Hu8].
    { destruct s. by injection E8 as <- <-. }
    rewrite Hu8 in Hk. apply Z.nlt_ge. intros Hlt.
    assert (tcount (λ r, (UrgeRecord_TaskID r ==? Some (urg_TaskID cmd))
      && (UrgeRecord_UrgerID r ==? urg_UrgerID cmd)
      && (clock_reading (db_clock s) - 60 * (if (FlowNode_UrgeCooldownMinutes n <=? 0)%Z
          then DefaultUrgeCooldownMinutes else FlowNode_UrgeCooldownMinutes n) <? UrgeRecord_CreatedAt r)%Z)
      (db_urges s) ≠ 0) as Hpos; [|lia].
    eapply tcount_pos; [exact Hr|]. by rewrite !andb_true_iff, !bool_decide_eq_true, Z.ltb_lt.
  - destruct s. injection E8 as <- <-. injection E11 as _ <-. injection Hrun as _ <-. cbn.
    eexists. split; [done|]. split; [done|]. split; [|done]. unfold ResolveUserInfo, infoWithID.
    case_bool_decide as He; [by rewrite He|]. by destruct (default _ _).
Qed.
Definition demoUrge (user : string) : UrgeTaskCmd := Build_UrgeTaskCmd "4" user "please" demoCaller.
Lemma urges_are_rate_limited_witness :
  match @UrgeTaskHandler_Handle demoHost (demoUrge "alice") demoS1 with
  | Ok (_, s') => ∃ r, db_urges s' = [r] ∧ UrgeRecord_UrgerID r = "alice"
  | Err _ => False
  end.
Proof.
  destruct (@UrgeTaskHandler_Handle demoHost (demoUrge "alice") demoS1) as [[u s']|e] eqn:Hrun.
  - destruct (@urges_are_rate_limited demoHost (demoUrge "alice") demoS1 u s' Hrun)
      as (t & n & _ & _ & _ & _ & _ & _ & r & Hr & _ & Hu & _).
    exists r. split; [exact Hr|exact Hu].
  - vm_compute in Hrun. discriminate Hrun.
Defined.

(** ** Adding assignees *)
Section adding.
Implicit Types (task : Task) (o : OrderedUnique string).

Lemma roundMembers_spec task nodeTasks o :
  ou_wf o →
  let o' := foldl (λ o t, if occupiesRound task t
                          then (OrderedUnique_Add o (Task_AssigneeID t)).1 else o) o nodeTasks in
  ou_wf o' ∧ ∀ x, x ∈ ou_items o' ↔ x ∈ ou_items o ∨
    ∃ t, t ∈ nodeTasks ∧ occupiesRound task t = true ∧ Task_AssigneeID t = x.
Proof.
  revert o. induction nodeTasks as [|t ts IH]; intros o Ho; cbn [foldl]; [split; [done|set_solver]|].
  destruct (occupiesRound task t) eqn:Ht.
  - destruct (OrderedUnique_Add_wf o (Task_AssigneeID t) Ho) as [Hw Hin].
    destruct (IH _ Hw) as [Hw' Hin']. split; [done|]. intros x. rewrite Hin', Hin.
    setoid_rewrite elem_of_cons. naive_solver.
  - destruct (IH _ Ho) as [Hw' Hin']. split; [done|]. intros x. rewrite Hin'.
    setoid_rewrite elem_of_cons. naive_solver congruence.
Qed.
Lemma addUsers_spec userIDs o ins :
  ou_wf o → NoDup ins → (∀ x, x ∈ ins → x ∈ ou_items o) →
  let r := foldl (λ acc userID, let '(o, ins) := acc in
             let '(o', added) := OrderedUnique_Add o userID in
             (o', if added : bool then ins ++ [userID] else ins)) (o, ins) userIDs in
  NoDup r.2 ∧ ∀ x, x ∈ r.2 ↔ x ∈ ins ∨ x ∈ userIDs ∧ x ∉ ou_items o.
Proof.
  revert o ins. induction userIDs as [|u us IH]; intros o ins Ho Hd Hsub; cbn [foldl]; [split; [done|set_solver]|].
  destruct (OrderedUnique_Add_wf o u Ho) as [Hw Hin].
  destruct (OrderedUnique_Add o u) as [o' added] eqn:Hadd. cbn [fst] in *.
  assert (added = negb (bool_decide (u ∈ ou_items o))) as ->.
  { unfold OrderedUnique_Add in Hadd. destruct Ho as [_ Hs]. rewrite (bool_decide_ext _ _ (Hs u)) in Hadd.
    by case_bool_decide; injection Hadd as _ <-. }
  case_bool_decide as Hu; cbn [negb].
  - destruct (IH o' ins Hw Hd) as [Hd' Hx]; [intros x Hx; apply Hin; auto|].
    split; [done|]. intros x. rewrite Hx, Hin, elem_of_cons. naive_solver.
  - destruct (IH o' (ins ++ [u]) Hw) as [Hd' Hx].
    + apply NoDup_app. split; [done|]. split; [|apply NoDup_singleton].
      intros x Hxin ->%list_elem_of_singleton. auto.
    + intros x [Hxin| ->%list_elem_of_singleton]%elem_of_app; apply Hin; auto.
    + split; [done|]. intros x. rewrite Hx, Hin, elem_of_app, list_elem_of_singleton, elem_of_cons.
      destruct (decide (x = u)); naive_solver.
Qed.
End adding.

(** Adding assignees seats nobody twice in a round: of the requested people
    exactly those are given a task who hold none that is open at the node and
    have not already decided in the same visit, and each of them one. *)
Theorem added_assignees_are_new task nodeTasks userIDs :
  NoDup (usersToInsert task nodeTasks userIDs) ∧
  ∀ user, user ∈ usersToInsert task nodeTasks userIDs ↔
    user ∈ userIDs ∧ ∀ t, t ∈ nodeTasks → Task_AssigneeID t = user → occupiesRound task t = false.
Proof.
  unfold usersToInsert. destruct (roundMembers_spec task nodeTasks _ NewOrderedUnique_wf) as [Hw Hin].
  destruct (addUsers_spec userIDs _ [] Hw) as [Hd Hx]; [constructor|set_solver|].
  split; [done|]. intros x. rewrite Hx, Hin. cbn. split.
  - intros [?|[? Hno]]; [set_solver|]. split; [done|]. intros t Ht HA.
    apply not_true_iff_false. intros Ho. apply Hno. right. by exists t.
  - intros [? Hno]. right. split; [done|]. intros [?|(t & Ht & Ho & HA)]; [set_solver|].
    by rewrite (Hno t Ht HA) in Ho.
Qed.

(** ** Rolling back *)

(** What a rollback type permits as a target. *)
Definition visitedAndLeft (s : St) (I nodeID : string) : Prop :=
  ∃ v, v ∈ db_visits s ∧ NodeVisit_InstanceID v = I ∧ NodeVisit_NodeID v = nodeID ∧ visitConcluded v = true.
Definition versionNode (s : St) (versionID nodeID : string) (n : FlowNode) : Prop :=
  n ∈ db_nodes s ∧ FlowNode_ID n = nodeID ∧ FlowNode_FlowVersionID n = versionID.
Definition rollbackPermitted (s : St) (i : Instance) (current : FlowNode) (target : string) : Prop :=
  let V := Instance_FlowVersionID i in
  match FlowNode_RollbackType current with
  | RollbackPrevious => ∃ e, e ∈ db_edges s ∧ FlowEdge_FlowVersionID e = V ∧
      FlowEdge_SourceNodeID e = target ∧ FlowEdge_TargetNodeID e = FlowNode_ID current
  | RollbackStart => ∃ n, versionNode s V target n ∧ FlowNode_Kind n = NodeStart
  | RollbackAny => (∃ n, versionNode s V target n ∧
      FlowNode_Kind n ∈ [NodeApproval; NodeHandle; NodeStart]) ∧ visitedAndLeft s (Instance_ID i) target
  | RollbackSpecified => (∃ n, versionNode s V target n ∧
      FlowNode_Key n ∈ FlowNode_RollbackTargetKeys current) ∧ visitedAndLeft s (Instance_ID i) target
  | _ => False
  end.
Section rollback_targets.
Context `{!Host}.
Lemma requireConcludedVisit_Ok I n s u s' :
  requireConcludedVisit I n s = Ok (u, s') → visitedAndLeft s I n.
Proof.
  unfold requireConcludedVisit. intros Hrun. step Hrun as b s1 E1. injection E1 as <- <-.
  apply throwIf_Ok in Hrun as [Hb _]. apply negb_false_iff, texists_true in Hb as (v & Hv & Hp).
  apply andb_true_iff in Hp as [[HI HN]%andb_true_iff Hc]. apply bool_decide_eq_true in HI, HN. by exists v.
Qed.
Lemma findVersionNode_Ok V n e s r s' :
  orThrow e (findVersionNode V n) s = Ok (r, s') → s' = s ∧ versionNode s V n r.
Proof.
  unfold findVersionNode. intros [Hf ->]%orThrow_gets_Ok.
  apply tfirst_Some in Hf as [Hr [Hi Hv]%andb_true_iff]. by apply bool_decide_eq_true in Hi, Hv.
Qed.
Lemma ValidateRollbackTarget_Ok i current target s u s' :
  ValidateRollbackTarget i current target s = Ok (u, s') →
  target ≠ FlowNode_ID current ∧ rollbackPermitted s i current target.
Proof.
  unfold ValidateRollbackTarget, rollbackPermitted. intros Hrun.
  step Hrun as u1 s1 E1. apply throwIf_Ok in E1 as [Hne ->]. apply bool_decide_eq_false in Hne. split; [done|].
  step Hrun as u2 s2 E2. apply throwIf_Ok in E2 as [Hval ->]. apply orb_false_iff in Hval as [Hnone Hval].
  destruct (FlowNode_RollbackType current); try done.
  - step Hrun as k s3 E3. injection E3 as <- <-. apply throwIf_Ok in Hrun as [Hk _]. apply Nat.eqb_neq in Hk.
    apply tcount_witness in Hk as (e & He & [[Ha Hb]%andb_true_iff Hc]%andb_true_iff).
    apply bool_decide_eq_true in Ha, Hb, Hc. by exists e.
  - step Hrun as n s3 E3. apply orThrow_gets_Ok in E3 as [Hf ->]. apply throwIf_Ok in Hrun as [Ht _].
    apply negb_false_iff, bool_decide_eq_true in Ht.
    apply tfirst_Some in Hf as [Hn [Hv Hk]%andb_true_iff]. apply bool_decide_eq_true in Hv, Hk. by exists n.
  - step Hrun as n s3 E3. apply findVersionNode_Ok in E3 as [-> Hn].
    step Hrun as u4 s4 E4. apply throwIf_Ok in E4 as [Hk ->]. split; [|by eapply requireConcludedVisit_Ok].
    exists n. split; [done|]. destruct (FlowNode_Kind n); try done; set_solver.
  - step Hrun as n s3 E3. apply findVersionNode_Ok in E3 as [-> Hn].
    step Hrun as u4 s4 E4. apply throwIf_Ok in E4 as [Hk ->]. split; [|by eapply requireConcludedVisit_Ok].
    exists n. split; [done|]. by apply negb_false_iff, bool_decide_eq_true in Hk.
Qed.
End rollback_targets.

(** A rollback goes only where the node allows: when it succeeds the node
    permits rollbacks, the target is another node and fits the node's rollback
    type: a direct predecessor, the start node, an approval, handle or start node
    of the version that the instance has already passed through, or one of the
    configured nodes it has passed through. *)
Theorem rollback_goes_where_allowed `{!Host} cmd s u s' :
  RollbackTaskHandler_Handle cmd s = Ok (u, s') →
  ∃ t i n, t ∈ db_tasks s ∧ Task_ID t = rol_TaskID cmd ∧
    i ∈ db_instances s ∧ Instance_ID i = Task_InstanceID t ∧
    n ∈ db_nodes s ∧ FlowNode_ID n = Task_NodeID t ∧ FlowNode_IsRollbackAllowed n = true ∧
    let target := TrimSpace (rol_TargetNodeID cmd) in
    target ≠ "" ∧ target ≠ FlowNode_ID n ∧ rollbackPermitted s i n target.
Proof.
  unfold RollbackTaskHandler_Handle. intros Hrun. step Hrun as tc s1 E1.
  apply PrepareOperation_loaded in E1 as (-> & tc0 & Hld & Hi & Ht & Hn).
  step Hrun as u2 s2 E2. apply liftR_Ok in E2 as [_ ->].
  step Hrun as u3 s3 E3. apply throwIf_Ok in E3 as [Hal ->]. apply negb_false_iff in Hal.
  step Hrun as u4 s4 E4. apply throwIf_Ok in E4 as [He ->]. apply bool_decide_eq_false in He.
  step Hrun as u5 s5 E5. apply ValidateRollbackTarget_Ok in E5 as [Hne Hp]. rewrite Hn in *.
  exists (tc_Task tc0), (tc_Instance tc0), (tc_Node tc0). split_and!; try apply Hld; try done.
  rewrite Hi in Hp. unfold MergeFormData in Hp. case_bool_decide; [done|].
  unfold rollbackPermitted in *. by destruct (tc_Instance tc0).
Qed.
Definition demoBack (target : string) : RollbackTaskCmd :=
  Build_RollbackTaskCmd "4" (demoUser "bob") "" None target [] demoCaller.
Lemma rollback_goes_where_allowed_witness :
  ∃ i n, rollbackPermitted demoS1 i n "start" ∧ FlowNode_RollbackType n = RollbackAny.
Proof.
  destruct (@RollbackTaskHandler_Handle demoHost (demoBack " start ") demoS1) as [[u s']|e] eqn:Hrun.
  - destruct (@rollback_goes_where_allowed demoHost (demoBack " start ") demoS1 u s' Hrun)
      as (t & i & n & Ht & Hid & _ & _ & Hn & _ & _ & _ & _ & Hp).
    exists i, n. split; [exact Hp|].
    assert (n ∈ db_nodes demoS0) as Hn0 by (vm_cast_no_check Hn).
    clear -Hn0. cbn in Hn0. enum_in; reflexivity.
  - vm_compute in Hrun. discriminate Hrun.
Defined.
