(* ===== verification/Deployment.v ===== *)
(** * Deployed flows run

    What [DeployFlowHandler.Handle] of [command/deploy_flow.go] writes, and what the
    engine finds when it compiles it ([engine/compiled_flow.go]): the version has a
    start node, its nodes carry the accepted configuration, and from every node but
    an end there is exactly one way on, for every branch of a condition, to a node
    of the version.  No instance of a deployed flow gets lost for want of an edge. *)
From S2P Require Import Prelude Enums StateMachine Models Demo Store Shared FormValidation NodeConfig FormStorage Binding.
From S2P Require Import FlowDefinition Delegation PassRule Processors Engine Tenancy TaskService NodeService Commands Timeout.
From S2P Require Import FlowCommands FlowManagement Discipline EngineInv Traversal ServiceInv CommandInv LifecycleInv Rows System Walk Invariants.

Section links.
Context `{!Host}.

(** ** Rows of versions to come *)

(** No row refers to a version that is not there yet. *)
Definition linked (s : St) : Prop := ∀ k, db_next_id s ≤ k →
  (∀ n, n ∈ db_nodes s → FlowNode_FlowVersionID n ≠ gen_id k) ∧
  (∀ e, e ∈ db_edges s → FlowEdge_FlowVersionID e ≠ gen_id k).
Lemma graphSame_linked s s' : graphSame s s' → linked s → linked s'.
Proof. intros (Hn & He & Hle) Hl k Hk. rewrite Hn, He. apply Hl. lia. Qed.
Lemma evolves_graphSame s s' : evolves s s' → graphSame s s'.
Proof. intros He. split_and!; apply He. Qed.
Lemma DeployFlow_linked cmd s v s' : DeployFlowHandler_Handle cmd s = Ok (v, s') → linked s → linked s'.
Proof.
  intros (parsed & nodes & edges & Hdep & Hv & Hid & Hn & He)%DeployFlow_run Hl k Hk.
  destruct (Hl k) as [Hln Hle]; [lia|]. rewrite Hn, He. split.
  - intros n [Hin|Hin]%elem_of_app; [by apply Hln|].
    destruct (Forall2_elem_r _ _ _ _ (dpl_nodes _ _ _ _ _ Hdep) Hin) as (d & _ & Hd).
    apply nodeFor_columns in Hd as (-> & _). rewrite Hv. intros Heq%gen_id_inj. lia.
  - intros e [Hin|Hin]%elem_of_app; [by apply Hle|].
    destruct (Forall2_elem_r _ _ _ _ (dpl_edges _ _ _ _ _ Hdep) Hin) as (d & _ & -> & _).
    rewrite Hv. intros Heq%gen_id_inj. lia.
Qed.

Ltac untouched := intros [] ? ? [=]; subst; split_and!; cbn; try done; lia.
#[local] Instance graphSame_off : OffDefinitions graphSame.
Proof. split; try exact _; intros; untouched. Qed.
Lemma graphSame_Now : keeps graphSame Now.
Proof. untouched. Qed.
Lemma graphSame_EmitEvents evs : keeps graphSame (EmitEvents evs).
Proof. untouched. Qed.
Lemma graphSame_projections f : keeps graphSame (modify (E := Error) (upd_projections f)).
Proof. untouched. Qed.
Lemma graphSame_business f : keeps graphSame (modify (E := Error) (upd_business f)).
Proof. untouched. Qed.
Hint Resolve graphSame_Now graphSame_EmitEvents graphSame_projections graphSame_business : keeps.

Definition links (s s' : St) : Prop := linked s → linked s'.
#[local] Instance links_preorder : PreOrder links.
Proof. split; [intros s Hs; exact Hs|]. intros x y z Hxy Hyz Hx. by apply Hyz, Hxy. Qed.
Lemma links_graphSame {A} (m : M A) : keeps graphSame m → keeps links m.
Proof. intros Hm s a s' Hrun. exact (graphSame_linked _ _ (Hm _ _ _ Hrun)). Qed.
#[local] Instance links_framed : Framed links.
Proof.
  split; try exact _; try (intros; apply links_graphSame; untouched).
  - intros l. apply links_graphSame. intros [] a s' [=]; subst. cbn. case_match; split_and!; cbn; try done; lia.
  - intros. apply links_graphSame. unfold InsertCCRecords, insertCCRecord. keeps_tac; untouched.
  - intros. apply links_graphSame, off_SyncInstanceProjection, _.
  - intros. apply links_graphSame, keeps_Project; eauto with keeps typeclass_instances.
  - intros. apply links_graphSame. unfold RetryBusinessProjectionHandler_Handle, orThrow, findProjection. keeps_tac.
    apply keeps_Retry; eauto with keeps typeclass_instances.
  - apply links_graphSame, keeps_claimBatch; eauto with keeps typeclass_instances.
  - intros. apply links_graphSame, keeps_applyClaim; eauto with keeps typeclass_instances.
  - intros b s. refine (graphSame_linked s _ _). by destruct s.
  - intros. apply links_graphSame, off_PublishVersion, _.
  - intros. apply links_graphSame, off_ToggleFlowActive, _.
  - intros. apply links_graphSame, off_CreateFlow, _.
  - intros. apply links_graphSame, off_UpdateFlow, _.
  - intros cmd s v s' Hrun. exact (DeployFlow_linked _ _ _ _ Hrun).
Qed.
Lemma exec_linked c s u s' : disciplined s → exec c s = Ok (u, s') → linked s → linked s'.
Proof.
  intros Hd Hrun. destruct c; try (by eapply (exec_framed links) in Hrun).
  cbn [exec] in Hrun. step Hrun as x s1 E1. injection Hrun as _ <-.
  refine (graphSame_linked _ _ _). by apply evolves_graphSame, (orderly_StartInstance c s x s1 Hd E1).
Qed.
Lemma reachable_linked s0 s : sound s0 → linked s0 → reachable s0 s → linked s.
Proof.
  intros Hs Hl. induction 1 as [|c s Hr IH|j s Hr IH _]; [done|..];
    destruct (reachable_sound _ _ Hs Hr) as [[Hd _] _].
  - unfold execTx, runInTx. destruct (exec c s) as [[u s']|e] eqn:Hrun; [|done]. by eapply exec_linked.
  - unfold jobTx, runInTx. destruct (runJob j s) as [[u s']|e] eqn:Hrun; [|done].
    exact (job_framed links j _ _ _ Hrun IH).
Qed.
End links.

(** ** Compiling the rows *)
Lemma tselect_new {A} (p : A → bool) (old new : list A) :
  (∀ x, x ∈ old → p x = false) → (∀ x, x ∈ new → p x = true) → tselect p (old ++ new) = new.
Proof.
  intros Ho Hn. rewrite tselect_app. unfold tselect.
  assert (List.filter p old = []) as ->.
  { induction old as [|x old IH]; [done|]. cbn. rewrite Ho by set_solver. apply IH. intros y Hy. apply Ho. set_solver. }
  cbn. induction new as [|x new IH]; [done|]. cbn. rewrite Hn by set_solver. f_equal. apply IH.
  intros y Hy. apply Hn. set_solver.
Qed.
Section compiled.
Context `{!Host}.

Lemma compiled_nodes v nodes edges :
  cf_Nodes (compileRows v nodes edges) = foldl (λ m n, <[FlowNode_ID n := n]> m) ∅ nodes.
Proof.
  unfold compileRows. destruct (foldl addCompiledNode (∅, None) nodes) as [ns st] eqn:Hf. cbn.
  change ns with (ns, st).1. rewrite <-Hf. clear. generalize (∅ : gmap string FlowNode) (@None FlowNode).
  induction nodes as [|n nodes IH]; intros m o; [done|]. cbn. apply IH.
Qed.
Lemma compiled_lookup v nodes edges n :
  NoDup (FlowNode_ID <$> nodes) → n ∈ nodes → cf_Nodes (compileRows v nodes edges) !! FlowNode_ID n = Some n.
Proof. intros Hd Hn. rewrite compiled_nodes. by apply (foldl_insert_lookup FlowNode_ID id). Qed.
Lemma compiled_lookup_inv v nodes edges id n :
  cf_Nodes (compileRows v nodes edges) !! id = Some n → n ∈ nodes ∧ FlowNode_ID n = id.
Proof.
  rewrite compiled_nodes. intros [Hl|(x & Hx & Hid & <-)]%(foldl_insert_lookup_inv FlowNode_ID (λ n, n)).
  - by rewrite lookup_empty in Hl.
  - done.
Qed.
Lemma compiled_start v nodes edges start :
  start ∈ nodes → FlowNode_Kind start = NodeStart →
  (∀ n, n ∈ nodes → FlowNode_Kind n = NodeStart → n = start) →
  cf_StartNode (compileRows v nodes edges) = Some start.
Proof.
  intros Hin Hk Hu. unfold compileRows.
  assert (∀ acc, start ∈ nodes ∨ acc.2 = Some start → (foldl addCompiledNode acc nodes).2 = Some start) as Hfold.
  { clear Hin. induction nodes as [|n nodes IH]; intros acc [Hin|Hacc]; cbn; [by apply elem_of_nil in Hin|done| |].
    - apply IH; [intros; apply Hu; set_solver|]. apply elem_of_cons in Hin as [->|Hin]; [|by left].
      right. cbn. by rewrite bool_decide_eq_true_2.
    - apply IH; [intros; apply Hu; set_solver|]. right. cbn. case_bool_decide as Hs; [|done].
      by rewrite (Hu n (list_elem_of_here _ _) Hs). }
  specialize (Hfold (∅, None) (or_introl Hin)).
  by destruct (foldl addCompiledNode (∅, None) nodes).
Qed.

Implicit Types (def : FlowDefinition) (nodes : list FlowNode) (edges : list FlowEdge).
Lemma deployed_keys def vid parsed nodes edges :
  deployed def vid parsed nodes edges → FlowNode_Key <$> nodes = nodeIDs def.
Proof.
  intros [_ Hn _ _]. unfold nodeIDs. induction Hn as [|d n ds ns Hdn _ IH]; [done|].
  apply nodeFor_columns in Hdn as (_ & Hk & _). cbn. by rewrite IH, Hk.
Qed.
Lemma deployed_id def vid parsed nodes edges n :
  deployed def vid parsed nodes edges → n ∈ nodes → nodeKeyToID nodes !! FlowNode_Key n = Some (FlowNode_ID n).
Proof.
  intros Hd Hn. apply (foldl_insert_lookup FlowNode_Key FlowNode_ID); [|done].
  rewrite (deployed_keys _ _ _ _ _ Hd). apply (dpl_workflow _ _ _ _ _ Hd).
Qed.
(** The edges that leave a row are those that leave its node in the definition. *)
Lemma deployed_leaving def vid parsed nodes edges n b :
  deployed def vid parsed nodes edges → n ∈ nodes →
  Forall2 (edgeFor vid (nodeKeyToID nodes))
    (List.filter (λ d, match b with None => true | Some x => EdgeDefinition_SourceHandle d ==? Some x end)
       (outgoing def (FlowNode_Key n)))
    (List.filter (leaving (FlowNode_ID n) b) edges).
Proof.
  intros Hdep Hn. unfold outgoing. rewrite filter_filter. apply Forall2_filter; [|apply Hdep].
  intros d e Hd (_ & Hh & Hsrc & _). unfold leaving. rewrite Hh. f_equal. apply bool_decide_ext.
  destruct (foldl_insert_lookup_inv FlowNode_Key FlowNode_ID nodes ∅ _ _ Hsrc) as [Hx|(m & Hm & Hk & Hid)];
    [by rewrite lookup_empty in Hx|].
  rewrite <-Hk, <-Hid. split; intros Heq.
  - pose proof (deployed_id _ _ _ _ _ _ Hdep Hm) as H1. rewrite Heq in H1.
    rewrite (deployed_id _ _ _ _ _ _ Hdep Hn) in H1. by injection H1.
  - by rewrite (NoDup_key_inj FlowNode_ID _ _ _ (dpl_ids _ _ _ _ _ Hdep) Hm Hn Heq).
Qed.
(** A single matching edge is followed to a node of the version. *)
Definition goesOn (c : CompiledFlow) (n : FlowNode) (b : option string) : Prop :=
  ∃ e n', FindOutgoing c (FlowNode_ID n) b = Ok e ∧ cf_Nodes c !! FlowEdge_TargetNodeID e = Some n'.
Lemma deployed_goesOn def vid parsed nodes edges n b d :
  deployed def vid parsed nodes edges → n ∈ nodes →
  List.filter (λ d, match b with None => true | Some x => EdgeDefinition_SourceHandle d ==? Some x end)
    (outgoing def (FlowNode_Key n)) = [d] →
  goesOn (compileRows vid nodes edges) n b.
Proof.
  intros Hdep Hn Hone. pose proof (deployed_leaving _ _ _ _ _ n b Hdep Hn) as Hout. rewrite Hone in Hout.
  apply Forall2_cons_inv_l in Hout as (e & rest & (_ & _ & _ & Htgt) & Hrest & Hedges).
  apply Forall2_nil_inv_l in Hrest as ->.
  destruct (foldl_insert_lookup_inv FlowNode_Key FlowNode_ID nodes ∅ _ _ Htgt) as [Hx|(m & Hm & _ & Hid)];
    [by rewrite lookup_empty in Hx|].
  exists e, m. rewrite FindOutgoing_filter, Hedges. split; [done|]. rewrite <-Hid.
  by apply compiled_lookup; [apply Hdep|].
Qed.

(** What the engine needs of a node to get past it. *)
Definition runnable (c : CompiledFlow) (n : FlowNode) : Prop :=
  match FlowNode_Kind n with
  | NodeEnd => True
  | NodeCondition =>
      (∃ b, b ∈ FlowNode_Branches n ∧ ConditionBranch_IsDefault b = true) ∧
      ∀ b, b ∈ FlowNode_Branches n → goesOn c n (Some (ConditionBranch_ID b))
  | NodeApproval | NodeHandle => executable n ∧ goesOn c n None
  | _ => goesOn c n None
  end.
Lemma stamped_columns n n' :
  stamped n n' → (executable n → executable n') ∧ FlowNode_Kind n' = FlowNode_Kind n ∧
    FlowNode_Branches n' = FlowNode_Branches n.
Proof. intros [id ->]. split_and!; [|by destruct n..]. intros []. by destruct n; constructor. Qed.
Lemma single_filter {A} (f : A → option string) (l : list A) (x : A) :
  NoDup (f <$> l) → x ∈ l → List.filter (λ y, f y ==? f x) l = [x].
Proof.
  intros Hd Hx. apply NoDup_singleton_inv; [apply NoDup_filter_list; by eapply NoDup_fmap_1|].
  intros y. rewrite list_elem_of_In, filter_In, <-list_elem_of_In, bool_decide_eq_true. split; [|by intros ->].
  intros [Hy Heq]. apply list_elem_of_lookup in Hy as [i Hi]. apply list_elem_of_lookup in Hx as [j Hj].
  assert (i = j) as ->; [|congruence]. eapply (NoDup_lookup _ i j (f x) Hd); rewrite list_lookup_fmap.
  - by rewrite Hi, <-Heq.
  - by rewrite Hj.
Qed.
Lemma deployed_runnable def vid parsed nodes edges n :
  deployed def vid parsed nodes edges → n ∈ nodes → runnable (compileRows vid nodes edges) n.
Proof.
  intros Hdep Hn. destruct (Forall2_elem_r _ _ _ _ (dpl_nodes _ _ _ _ _ Hdep) Hn) as (d & Hd & Hdn).
  pose proof (nodeFor_columns _ _ _ _ Hdn) as (_ & Hkey & Hkind). destruct Hdn as (data & Hdata & Hst).
  destruct (wfl_nodes _ _ (dpl_workflow _ _ _ _ _ Hdep) d Hd) as (_ & Hvk & data' & Hp & Hc & Hdata' & Hcon & _).
  rewrite Hdata in Hdata'. injection Hdata' as <-. pose proof (ParseData_Kind _ _ Hp) as Hdk.
  pose proof (stamped_columns _ _ Hst) as (Hex & _ & Hbr).
  assert (∀ e, outgoing def (FlowNode_Key n) = [e] → goesOn (compileRows vid nodes edges) n None) as Hgo.
  { intros e He. eapply deployed_goesOn; [done|done|]. by rewrite He. }
  unfold connected in Hcon. rewrite <-Hkey in Hcon. unfold runnable. rewrite Hkind.
  destruct (NodeDefinition_Kind d) eqn:Hk; destruct data; try done; cbn in Hdk.
  - destruct Hcon as [_ Hone]. destruct (outgoing def _) as [|e []] eqn:Ho; try done. by eapply Hgo.
  - destruct Hcon as (e & He & _). split; [|by eapply Hgo]. by apply Hex, validateApprovalNodeData_Ok.
  - destruct Hcon as (e & He & _). split; [|by eapply Hgo]. by apply Hex, validateHandleNodeData_Ok.
  - destruct Hcon as (cd & [= <-] & Hbm). cbn in Hbr. rewrite Hbr. split.
    + pose proof (bm_default _ _ Hbm) as Hdef. destruct (List.filter _ _) as [|b []] eqn:Hf; try done.
      exists b. rewrite list_elem_of_In. apply filter_In. rewrite Hf. by left.
    + intros b Hb. destruct (bm_covered _ _ Hbm b Hb) as (e & He & Hh). eapply (deployed_goesOn _ _ _ _ _ _ _ e); [done|done|].
      rewrite <-Hh. apply single_filter; [apply Hbm|done].
  - destruct Hcon as (e & He & _). by eapply Hgo.
Qed.
End compiled.

(** C4. Deployed flows run: compiling a freshly deployed version succeeds and gives a
    start node; every node of the definition is there under its key and kind, the
    configuration of approval and handle nodes is executable, a condition node has
    a default branch, and from every node but an end node (for a condition node:
    under every branch) exactly one edge leads on, to a node of the version. *)
Theorem deployed_flows_run `{!Host} s0 s cmd v s' :
  genesis s0 → linked s0 → reachable s0 s → DeployFlowHandler_Handle cmd s = Ok (v, s') →
  ∃ c start, FlowCache_Get (FlowVersion_ID v) s' = Ok (c, s') ∧
    cf_StartNode c = Some start ∧ FlowNode_Kind start = NodeStart ∧
    (∀ d, d ∈ FlowDefinition_Nodes (dep_FlowDefinition cmd) → ∃ n, cf_Nodes c !! FlowNode_ID n = Some n ∧
       FlowNode_Key n = NodeDefinition_ID d ∧ FlowNode_Kind n = NodeDefinition_Kind d) ∧
    (∀ id n, cf_Nodes c !! id = Some n → runnable c n).
Proof.
  intros Hg Hl Hr Hrun. pose proof (reachable_linked _ _ (genesis_sound _ Hg) Hl Hr) as Hlk.
  apply DeployFlow_run in Hrun as (parsed & nodes & edges & Hdep & Hv & _ & Hn & He).
  destruct (Hlk (db_next_id s)) as [Hln Hle]; [done|]. rewrite <-Hv in Hln, Hle.
  assert (tselect (λ n, FlowNode_FlowVersionID n ==? FlowVersion_ID v) (db_nodes s') = nodes) as Hsel.
  { rewrite Hn. apply tselect_new; [intros n Hin; by apply bool_decide_eq_false, Hln|]. intros n Hin.
    destruct (Forall2_elem_r _ _ _ _ (dpl_nodes _ _ _ _ _ Hdep) Hin) as (d & _ & (? & _)%nodeFor_columns).
    by apply bool_decide_eq_true. }
  assert (tselect (λ e, FlowEdge_FlowVersionID e ==? FlowVersion_ID v) (db_edges s') = edges) as Hsele.
  { rewrite He. apply tselect_new; [intros e Hin; by apply bool_decide_eq_false, Hle|]. intros e Hin.
    destruct (Forall2_elem_r _ _ _ _ (dpl_edges _ _ _ _ _ Hdep) Hin) as (d & _ & ? & _).
    by apply bool_decide_eq_true. }
  destruct (wfl_start _ _ (dpl_workflow _ _ _ _ _ Hdep)) as (ds & Hds & Hdk & Hdu & _).
  destruct (Forall2_elem_l _ _ _ _ (dpl_nodes _ _ _ _ _ Hdep) Hds) as (start & Hstart & Hsk).
  pose proof (nodeFor_columns _ _ _ _ Hsk) as (_ & Hkey & Hkind).
  exists (compileRows (FlowVersion_ID v) nodes edges), start. split_and!.
  - unfold FlowCache_Get, andThen, mbind, SE_bind, gets. rewrite Hsel.
    destruct nodes; [by apply elem_of_nil in Hstart|]. cbn. by rewrite Hsele.
  - apply compiled_start; [done|congruence|]. intros n Hin Hnk.
    destruct (Forall2_elem_r _ _ _ _ (dpl_nodes _ _ _ _ _ Hdep) Hin) as (d & Hd & (_ & Hk & Hkd)%nodeFor_columns).
    assert (d = ds) as -> by (apply Hdu; [done|congruence]).
    apply (NoDup_key_inj FlowNode_Key nodes); [|done|done|congruence].
    rewrite (deployed_keys _ _ _ _ _ Hdep). apply (dpl_workflow _ _ _ _ _ Hdep).
  - congruence.
  - intros d Hd. destruct (Forall2_elem_l _ _ _ _ (dpl_nodes _ _ _ _ _ Hdep) Hd) as (n & Hin & Hdn).
    exists n. split; [by apply compiled_lookup; [apply Hdep|]|]. by apply nodeFor_columns in Hdn as (_ & ? & ?).
  - intros id n [Hin _]%compiled_lookup_inv. by eapply deployed_runnable.
Qed.

(** The demo definition deployed on the demo flow. *)
Definition demoDeployment : DeployFlowCmd :=
  Build_DeployFlowCmd "leave" None (StorageModeOther "")
    (Build_FlowDefinition
      [Build_NodeDefinition "s" NodeStart "begin"; Build_NodeDefinition "a" NodeApproval "bob";
       Build_NodeDefinition "e" NodeEnd "done"]
      [Build_EdgeDefinition "1" "s" "a" None; Build_EdgeDefinition "2" "a" "e" None]) None.
Lemma demoS0_linked : @linked demoHost demoS0.
Proof.
  intros k _. assert (@gen_id demoHost k ∉ ["v1"]) as Hf by (by apply demo_fresh).
  split; intros x Hx Heq; cbn in Hx; enum_in; apply Hf, list_elem_of_singleton; by symmetry.
Qed.
Lemma deployed_flows_run_witness :
  match @DeployFlowHandler_Handle demoHost demoDeployment demoS0 with
  | Ok (v, s') => FlowVersion_Version v = 2%Z ∧
      ∃ c start, FlowCache_Get (FlowVersion_ID v) s' = Ok (c, s') ∧ cf_StartNode c = Some start
  | Err _ => False
  end.
Proof.
  destruct (@DeployFlowHandler_Handle demoHost demoDeployment demoS0) as [[v s']|e] eqn:Hrun.
  - split; [vm_compute in Hrun; by injection Hrun as <- _|].
    destruct (@deployed_flows_run demoHost demoS0 demoS0 demoDeployment v s') as (c & start & Hc & Hst & _);
      [apply demoS0_genesis|apply demoS0_linked|apply reach_here|exact Hrun|]. by exists c, start.
  - vm_compute in Hrun. discriminate Hrun.
Defined.

(** ** The announcement of a deployment *)
Definition silent (s s' : St) : Prop := db_versions s' = db_versions s ∧ db_events s' = db_events s.
#[export] Instance silent_preorder : PreOrder silent.
Proof. split; [done|]. intros x y z [? ?] [? ?]. split; congruence. Qed.
Lemma silent_insertNodes `{!Host} ns : keeps silent (insertNodes ns).
Proof.
  apply keeps_foldM; [apply _|]. intros acc n. apply keeps_bind; [apply _| |intros; apply keeps_ret, _].
  by intros [] a s' [=]; subst.
Qed.
Lemma silent_insertNodeAssignee `{!Host} a : keeps silent (insertNodeAssignee a).
Proof. by intros [] u s' [=]; subst. Qed.
Lemma silent_insertNodeCC `{!Host} c : keeps silent (insertNodeCC c).
Proof. by intros [] u s' [=]; subst. Qed.
Lemma silent_insertEdge `{!Host} e : keeps silent (insertEdge e).
Proof. by intros [] u s' [=]; subst. Qed.
#[export] Hint Resolve silent_insertNodes silent_insertNodeAssignee silent_insertNodeCC silent_insertEdge : keeps.

(** C40. A deployment writes a draft numbered after every version its flow has, and
    announces it in one event that names the flow, the version and its number, but
    carries an empty tenant whatever the tenant of the flow is: the row the event is
    made of was loaded without that column. *)
Theorem deployment_announced_without_tenant `{!Host} cmd s v s' :
  DeployFlowHandler_Handle cmd s = Ok (v, s') →
  ∃ f, f ∈ db_flows s ∧ Flow_ID f = dep_FlowID cmd ∧
    FlowVersion_FlowID v = Flow_ID f ∧ FlowVersion_Status v = VersionDraft ∧ v ∈ db_versions s' ∧
    (∀ w, w ∈ db_versions s → FlowVersion_FlowID w = Flow_ID f → (FlowVersion_Version w < FlowVersion_Version v)%Z) ∧
    db_events s' = db_events s ++
      [FlowDeployedEvent (Build_FlowEventBase (Flow_ID f) "" (Flow_Code f) (Flow_Name f))
         (FlowVersion_ID v) (FlowVersion_Version v)].
Proof.
  intros Hrun. unfold DeployFlowHandler_Handle, loadDeployFlow, findFlow, nextVersionNumber in Hrun.
  step Hrun as planned ? Ep. apply liftR_Ok in Ep as [_ ->].
  step Hrun as loaded ? E. step E as f ? E'. apply orThrow_gets_Ok in E' as [Hf ->].
  apply findBy_Ok in Hf as [Hf Hid]. step E as b ? E'. apply liftR_Ok in E' as [_ ->]. injection E as <- <-.
  step Hrun as num ? E. injection E as <- <-. step Hrun as ver s1 Ever.
  step Hrun as ps ? E. apply liftR_Ok in E as [_ ->].
  step Hrun as nodes s2 En. step Hrun as ? s3 Ea. step Hrun as ? s4 Ec.
  step Hrun as rows ? E. apply liftR_Ok in E as [_ ->].
  step Hrun as ? s5 Ee. step Hrun as ? s6 Ev. injection Hrun as <- <-.
  assert (silent s1 s5) as [Hvs Hevs].
  { transitivity s4; [transitivity s3; [transitivity s2|]|].
    - by eapply silent_insertNodes.
    - refine ((_ : keeps silent _) _ _ _ Ea). keeps_tac.
    - refine ((_ : keeps silent _) _ _ _ Ec). keeps_tac.
    - refine ((_ : keeps silent _) _ _ _ Ee). keeps_tac. }
  exists f. cbn in Hid. destruct s, s5. injection Ever as <- <-. injection Ev as _ <-. cbn in *.
  split_and!; try done.
  - rewrite Hvs. apply elem_of_app. right. by apply list_elem_of_singleton.
  - intros w Hw HF. apply latestVersion_bound in Hw. rewrite HF in Hw. lia.
  - by rewrite Hevs.
Qed.
Lemma deployment_announced_without_tenant_witness :
  match @DeployFlowHandler_Handle demoHost demoDeployment demoS0 with
  | Ok (v, s') => map Flow_TenantID (db_flows demoS0) = ["acme"] ∧
      ∃ code name, db_events s' = db_events demoS0 ++
        [FlowDeployedEvent (Build_FlowEventBase "leave" "" code name) (FlowVersion_ID v) (FlowVersion_Version v)]
  | Err _ => False
  end.
Proof.
  destruct (@DeployFlowHandler_Handle demoHost demoDeployment demoS0) as [[v s']|e] eqn:Hrun.
  - split; [reflexivity|].
    destruct (@deployment_announced_without_tenant demoHost demoDeployment demoS0 v s' Hrun)
      as (f & _ & Hid & _ & _ & _ & _ & Hev).
    exists (Flow_Code f), (Flow_Name f). rewrite Hev. by rewrite Hid.
  - vm_compute in Hrun. discriminate Hrun.
Defined.
