(* ===== verification/Charts.v ===== *)
(** * Every version keeps its drawing

    A version row holds the definition it was deployed from, and its nodes and edges
    are rows of their own.  Once deployed, the two say the same forever: no command
    or job touches the rows of a version again.  The read side relies on it, as it
    takes edges from the definition where the engine takes them from the rows. *)
From S2P Require Import Prelude Enums StateMachine Models Demo Store Shared FormValidation NodeConfig FormStorage Binding.
From S2P Require Import FlowDefinition Delegation PassRule Processors Engine Tenancy TaskService NodeService Commands Timeout.
From S2P Require Import FlowCommands FlowManagement Discipline EngineInv Traversal ServiceInv CommandInv LifecycleInv System Walk.
From S2P Require Import Rows NodeProps Invariants Deployment.

Definition nodesOf (s : St) (versionID : string) : list FlowNode :=
  tselect (λ n, FlowNode_FlowVersionID n ==? versionID) (db_nodes s).
Definition edgesOf (s : St) (versionID : string) : list FlowEdge :=
  tselect (λ e, FlowEdge_FlowVersionID e ==? versionID) (db_edges s).

Section charts.
Context `{!Host}.

(** Every node and edge belongs to a version, and the rows of a version are those its
    definition was deployed as. *)
Record charted (s : St) : Prop := {
  ch_ids : NoDup (FlowVersion_ID <$> db_versions s);
  ch_fresh : ∀ k, db_next_id s ≤ k → gen_id k ∉ FlowVersion_ID <$> db_versions s;
  ch_nodes : ∀ n, n ∈ db_nodes s → FlowNode_FlowVersionID n ∈ FlowVersion_ID <$> db_versions s;
  ch_edges : ∀ e, e ∈ db_edges s → FlowEdge_FlowVersionID e ∈ FlowVersion_ID <$> db_versions s;
  ch_rows : ∀ v, v ∈ db_versions s → ∃ def parsed, FlowVersion_FlowSchema v = Some def ∧
    deployed def (FlowVersion_ID v) parsed (nodesOf s (FlowVersion_ID v)) (edgesOf s (FlowVersion_ID v));
}.

(** ** What leaves the drawings alone *)
Definition drawing (v : FlowVersion) : string * option FlowDefinition := (FlowVersion_ID v, FlowVersion_FlowSchema v).
Definition chartKept (s s' : St) : Prop :=
  db_nodes s' = db_nodes s ∧ db_edges s' = db_edges s ∧ drawing <$> db_versions s' = drawing <$> db_versions s ∧
  db_next_id s ≤ db_next_id s'.
#[export] Instance chartKept_preorder : PreOrder chartKept.
Proof.
  split; [by repeat split|]. intros x y z (? & ? & ? & ?) (? & ? & ? & ?). split_and!; [congruence..|lia].
Qed.
Lemma drawing_ids (l : list FlowVersion) : FlowVersion_ID <$> l = (drawing <$> l).*1.
Proof. by rewrite <-list_fmap_compose. Qed.
Lemma chartKept_charted s s' : chartKept s s' → charted s → charted s'.
Proof.
  intros (Hn & He & Hv & Hid) [H1 H2 H3 H4 H5].
  assert (FlowVersion_ID <$> db_versions s' = FlowVersion_ID <$> db_versions s) as Hids by (by rewrite !drawing_ids, Hv).
  constructor; unfold nodesOf, edgesOf; rewrite ?Hids, ?Hn, ?He; auto with lia.
  intros v Hin. assert (drawing v ∈ drawing <$> db_versions s) as (w & Hw & Hin')%list_elem_of_fmap.
  { rewrite <-Hv. by apply list_elem_of_fmap_2. }
  unfold drawing in Hw. injection Hw as -> ->. by apply H5.
Qed.
Definition charts (s s' : St) : Prop := charted s → charted s'.
#[export] Instance charts_preorder : PreOrder charts.
Proof. split; [intros s Hs; exact Hs|]. intros x y z Hxy Hyz Hx. by apply Hyz, Hxy. Qed.
Lemma charts_kept {A} (m : M A) : keeps chartKept m → keeps charts m.
Proof. intros Hm s a s' Hrun. exact (chartKept_charted _ _ (Hm _ _ _ Hrun)). Qed.

Ltac untouched := intros [] ? ? [=]; subst; split_and!; cbn; try done; lia.
Lemma chartKept_Now : keeps chartKept Now.
Proof. untouched. Qed.
Lemma chartKept_freshID : keeps chartKept freshID.
Proof. untouched. Qed.
Lemma chartKept_EmitEvents evs : keeps chartKept (EmitEvents evs).
Proof. untouched. Qed.
Lemma chartKept_projections f : keeps chartKept (modify (E := Error) (upd_projections f)).
Proof. untouched. Qed.
Lemma chartKept_business f : keeps chartKept (modify (E := Error) (upd_business f)).
Proof. untouched. Qed.
Lemma chartKept_statements f : keeps chartKept (modify (E := Error) (upd_statements f)).
Proof. untouched. Qed.
Lemma chartKept_form_tables f : keeps chartKept (modify (E := Error) (upd_form_tables f)).
Proof. untouched. Qed.
Lemma chartKept_form_columns f : keeps chartKept (modify (E := Error) (upd_form_columns f)).
Proof. untouched. Qed.
Lemma chartKept_flows f : keeps chartKept (modify (E := Error) (upd_flows f)).
Proof. untouched. Qed.
Lemma chartKept_updateFlows p f : keeps chartKept (updateFlows p f).
Proof. untouched. Qed.
Lemma chartKept_initiators f : keeps chartKept (modify (E := Error) (upd_initiators f)).
Proof. untouched. Qed.
Lemma chartKept_insertInstance i : keeps chartKept (insertInstance i).
Proof. untouched. Qed.
Lemma chartKept_updateInstances p f : keeps chartKept (updateInstances p f).
Proof. untouched. Qed.
Lemma chartKept_updateVersions p f : (∀ v, drawing (f v) = drawing v) → keeps chartKept (updateVersions p f).
Proof. intros Hf [] a s' [=]; subst. split_and!; cbn; try done. by apply fmap_tupdate. Qed.
Hint Resolve chartKept_Now chartKept_freshID chartKept_EmitEvents chartKept_projections chartKept_business
  chartKept_statements chartKept_form_tables chartKept_form_columns chartKept_flows chartKept_updateFlows
  chartKept_initiators chartKept_insertInstance chartKept_updateInstances : keeps.
Hint Extern 1 (keeps chartKept (updateVersions _ _)) => apply chartKept_updateVersions; by intros [] : keeps.

Lemma chartKept_PublishVersion cmd : keeps chartKept (PublishVersionHandler_Handle cmd).
Proof.
  unfold PublishVersionHandler_Handle, orThrow, findVersion, findFlow. keeps_tac.
  - apply keeps_ProvisionTable; eauto with keeps typeclass_instances.
  - apply keeps_RecordMetadata; eauto with keeps typeclass_instances.
Qed.
Lemma chartKept_CreateFlow cmd : keeps chartKept (CreateFlowHandler_Handle cmd).
Proof.
  unfold CreateFlowHandler_Handle, requireFreeSharedCode, requireTenantCategory, insertInitiators,
    insertInitiator, insertFlow, orThrow. keeps_tac.
Qed.
Lemma chartKept_UpdateFlow cmd : keeps chartKept (UpdateFlowHandler_Handle cmd).
Proof. unfold UpdateFlowHandler_Handle, insertInitiators, insertInitiator, orThrow, findFlow. keeps_tac. Qed.
Lemma chartKept_ToggleFlowActive cmd : keeps chartKept (ToggleFlowActiveHandler_Handle cmd).
Proof. unfold ToggleFlowActiveHandler_Handle, orThrow, findFlow. keeps_tac. Qed.

(** ** What a deployment adds *)
Lemma DeployFlow_version cmd s v s' :
  DeployFlowHandler_Handle cmd s = Ok (v, s') →
  db_versions s' = db_versions s ++ [v] ∧ FlowVersion_FlowSchema v = Some (dep_FlowDefinition cmd).
Proof.
  intros Hrun. unfold DeployFlowHandler_Handle, loadDeployFlow, findFlow, nextVersionNumber in Hrun.
  step Hrun as planned ? Ep. apply liftR_Ok in Ep as [_ ->].
  step Hrun as loaded ? E. step E as f ? E'. apply orThrow_gets_Ok in E' as [_ ->].
  step E as b ? E'. apply liftR_Ok in E' as [_ ->]. injection E as <- <-.
  step Hrun as num ? E. injection E as <- <-. step Hrun as ver s1 Ever.
  match type of Hrun with ?m s1 = _ => assert (∀ a t, m s1 = Ok (a, t) → a = ver ∧ db_versions t = db_versions s1) as Hrest end.
  { clear Hrun. intros a t Hrun. step Hrun as ps ? E. apply liftR_Ok in E as [_ ->].
    step Hrun as nodes s2 En. step Hrun as ? s3 Ea. step Hrun as ? s4 Ec.
    step Hrun as rows ? E. apply liftR_Ok in E as [_ ->].
    step Hrun as ? s5 Ee. step Hrun as ? s6 Ev. injection Hrun as <- <-. split; [done|].
    transitivity (db_versions s5); [destruct s5; by injection Ev as _ <-|].
    apply silent_insertNodes in En as [<- _].
    assert (silent s2 s3) as [<- _] by (refine ((_ : keeps silent _) _ _ _ Ea); keeps_tac).
    assert (silent s3 s4) as [<- _] by (refine ((_ : keeps silent _) _ _ _ Ec); keeps_tac).
    by assert (silent s4 s5) as [<- _] by (refine ((_ : keeps silent _) _ _ _ Ee); keeps_tac). }
  apply Hrest in Hrun as [-> ->]. destruct s. injection Ever as <- <-. done.
Qed.
Lemma tselect_old {A} (p : A → bool) (old new : list A) :
  (∀ x, x ∈ new → p x = false) → tselect p (old ++ new) = tselect p old.
Proof.
  intros Hn. rewrite tselect_app. enough (tselect p new = []) as -> by apply app_nil_r.
  unfold tselect. induction new as [|x new IH]; [done|]. cbn. rewrite Hn by set_solver. apply IH.
  intros y Hy. apply Hn. set_solver.
Qed.
Lemma DeployFlow_charted cmd s v s' : DeployFlowHandler_Handle cmd s = Ok (v, s') → charted s → charted s'.
Proof.
  intros Hrun [H1 H2 H3 H4 H5]. destruct (DeployFlow_version _ _ _ _ Hrun) as [Hvs Hdef].
  apply DeployFlow_run in Hrun as (parsed & nodes & edges & Hdep & Hv & Hid & Hn & He).
  assert (FlowVersion_ID v ∉ FlowVersion_ID <$> db_versions s) as Hnew by (rewrite Hv; by apply H2).
  assert (∀ n, n ∈ nodes → FlowNode_FlowVersionID n = FlowVersion_ID v) as Hnv.
  { intros n Hin. by destruct (Forall2_elem_r _ _ _ _ (dpl_nodes _ _ _ _ _ Hdep) Hin) as (d & _ & (-> & _)%nodeFor_columns). }
  assert (∀ e, e ∈ edges → FlowEdge_FlowVersionID e = FlowVersion_ID v) as Hev.
  { intros e Hin. by destruct (Forall2_elem_r _ _ _ _ (dpl_edges _ _ _ _ _ Hdep) Hin) as (d & _ & -> & _). }
  constructor; rewrite ?Hvs, ?fmap_app, ?Hn, ?He.
  - apply NoDup_app. split; [done|]. split; [|apply NoDup_singleton]. intros x Hx ->%list_elem_of_singleton. done.
  - intros k Hk. rewrite not_elem_of_app. split; [apply H2; lia|].
    cbn. rewrite Hv. intros Heq%list_elem_of_singleton%gen_id_inj. lia.
  - intros n [Hin|Hin]%elem_of_app; [apply elem_of_app; left; by apply H3|]. rewrite (Hnv n Hin). set_solver.
  - intros e [Hin|Hin]%elem_of_app; [apply elem_of_app; left; by apply H4|]. rewrite (Hev e Hin). set_solver.
  - unfold nodesOf, edgesOf. rewrite Hn, He. intros w [Hw| ->%list_elem_of_singleton]%elem_of_app.
    + assert (FlowVersion_ID w ≠ FlowVersion_ID v) as Hne.
      { intros Heq. apply Hnew. rewrite <-Heq. by apply list_elem_of_fmap_2. }
      rewrite !tselect_old; [by apply H5| |].
      * intros e Hin. apply bool_decide_eq_false. by rewrite (Hev e Hin).
      * intros n Hin. apply bool_decide_eq_false. by rewrite (Hnv n Hin).
    + exists (dep_FlowDefinition cmd), parsed. split; [done|]. rewrite !tselect_new; [done| | | |].
      * intros e Hin. apply bool_decide_eq_false. intros Heq. apply Hnew. rewrite <-Heq. by apply H4.
      * intros e Hin. by apply bool_decide_eq_true, Hev.
      * intros n Hin. apply bool_decide_eq_false. intros Heq. apply Hnew. rewrite <-Heq. by apply H3.
      * intros n Hin. by apply bool_decide_eq_true, Hnv.
Qed.

#[export] Instance charts_framed : Framed charts.
Proof.
  split; try exact _; try (intros; apply charts_kept; untouched).
  - intros l. apply charts_kept. intros [] a s' [=]; subst. cbn. case_match; split_and!; cbn; try done; lia.
  - intros. apply charts_kept. unfold InsertCCRecords, insertCCRecord. keeps_tac; untouched.
  - intros. apply charts_kept, keeps_SyncInstanceProjection; eauto with keeps typeclass_instances.
  - intros. apply charts_kept, keeps_Project; eauto with keeps typeclass_instances.
  - intros. apply charts_kept. unfold RetryBusinessProjectionHandler_Handle, orThrow, findProjection. keeps_tac.
    apply keeps_Retry; eauto with keeps typeclass_instances.
  - apply charts_kept, keeps_claimBatch; eauto with keeps typeclass_instances.
  - intros. apply charts_kept, keeps_applyClaim; eauto with keeps typeclass_instances.
  - intros b s. refine (chartKept_charted s _ _). by destruct s.
  - intros. apply charts_kept, chartKept_PublishVersion.
  - intros. apply charts_kept, chartKept_ToggleFlowActive.
  - intros. apply charts_kept, chartKept_CreateFlow.
  - intros. apply charts_kept, chartKept_UpdateFlow.
  - intros cmd s v s' Hrun. exact (DeployFlow_charted _ _ _ _ Hrun).
Qed.
Lemma charts_insertInstance i : keeps charts (insertInstance i).
Proof. apply charts_kept, chartKept_insertInstance. Qed.
Lemma charts_Bind f v i : keeps charts (Projector_Bind f v i).
Proof. apply charts_kept, keeps_Bind; eauto with keeps typeclass_instances. Qed.
Hint Resolve charts_insertInstance charts_Bind framed_StartProcess : keeps.
Lemma exec_charts c : keeps charts (exec c).
Proof. apply exec_framed; [apply _|]. intros cmd ->. cbn [exec]. unfold StartInstanceHandler_Handle. walk. Qed.
Lemma reachable_charted s0 s : charted s0 → reachable s0 s → charted s.
Proof.
  intros H0. induction 1 as [|c s _ IH|j s _ IH _]; [done|..].
  - unfold execTx. destruct (runInTx (exec c) s) as [r s'] eqn:Hrun.
    by eapply (runInTx_keeps charts); [apply exec_charts|exact Hrun|].
  - unfold jobTx. destruct (runInTx (runJob j) s) as [r s'] eqn:Hrun.
    by eapply (runInTx_keeps charts); [by apply job_framed, charts_framed|exact Hrun|].
Qed.
End charts.

(** ** A flow drawn from scratch

    On an empty system the demo definition is deployed and published, and alice
    applies: bob, asked to review, may send it back to the start. *)
Definition demoBlank : St := set_nodes [] (set_edges [] (set_versions [] demoS0)).
Definition demoAsked : St :=
  @execTx demoHost demoStart (@execTx demoHost (CmdPublishVersion (Build_PublishVersionCmd "0" "admin"))
    (@execTx demoHost (CmdDeployFlow demoDeployment) demoBlank)).
Definition demoApplication : Instance := default demoRun (head (db_instances demoAsked)).
Definition demoReview : FlowNode := default (demoNode "" NodeStart ApprovalParallel PassAll 0 0) (db_nodes demoAsked !! 1).
Lemma demoBlank_genesis : @genesis demoHost demoBlank.
Proof.
  constructor; try done.
  - constructor.
  - intros k _. apply not_elem_of_nil.
  - intros e []%elem_of_nil.
Qed.
Lemma demoBlank_charted : @charted demoHost demoBlank.
Proof.
  constructor; cbn.
  - constructor.
  - intros k _. apply not_elem_of_nil.
  - intros n []%elem_of_nil.
  - intros e []%elem_of_nil.
  - intros v []%elem_of_nil.
Qed.
Lemma demoAsked_reachable : @reachable demoHost demoBlank demoAsked.
Proof. apply reach_step, reach_step, reach_step, reach_here. Qed.
Lemma head_elem {A} (l : list A) x : head l = Some x → x ∈ l.
Proof. destruct l; [done|]. intros [= ->]. apply list_elem_of_here. Qed.

(** C14. Instances walk the drawing they were started on: in every state that commands
    and jobs lead to, each visit and each task of an instance is at a node of the
    version the instance runs on, and that node has the key and kind of a node of the
    definition stored with the version, whatever was deployed or published since. *)
Theorem instances_walk_their_drawing `{!Host} s0 s i nodeID :
  genesis s0 → charted s0 → reachable s0 s → i ∈ db_instances s →
  nodeID ∈ (NodeVisit_NodeID <$> visitsOf s (Instance_ID i)) ++ (Task_NodeID <$> tasksOf s (Instance_ID i)) →
  ∃ v def n d, v ∈ db_versions s ∧ FlowVersion_ID v = Instance_FlowVersionID i ∧ FlowVersion_FlowSchema v = Some def ∧
    n ∈ nodesOf s (Instance_FlowVersionID i) ∧ FlowNode_ID n = nodeID ∧
    d ∈ FlowDefinition_Nodes def ∧ NodeDefinition_ID d = FlowNode_Key n ∧ NodeDefinition_Kind d = FlowNode_Kind n.
Proof.
  intros Hg H0 Hr Hi Hat. destruct (reachable_orderly _ _ Hg Hr) as [_ Hrefs _].
  destruct (reachable_charted _ _ H0 Hr) as [_ _ Hn _ Hrows].
  assert (homeNode s (Instance_FlowVersionID i) nodeID) as (n & Hin & Hid & Hv).
  { apply elem_of_app in Hat as [(v & -> & [HI Hv]%elem_of_tselect)%list_elem_of_fmap
      |(t & -> & [HI Ht]%elem_of_tselect)%list_elem_of_fmap]; apply bool_decide_eq_true in HI.
    - by apply (refs_home _ Hrefs).
    - destruct (refs_visit _ Hrefs t Ht) as (v & Hv & _ & HvI & <-). apply (refs_home _ Hrefs); [done|done|congruence]. }
  destruct (list_elem_of_fmap_1 _ _ _ (Hn n Hin)) as (v & Hvid & Hvin). rewrite Hv in Hvid.
  destruct (Hrows v Hvin) as (def & parsed & Hdef & Hdep). rewrite <-Hvid in Hdep.
  assert (n ∈ nodesOf s (Instance_FlowVersionID i)) as Hnn by (apply elem_of_tselect; by rewrite bool_decide_eq_true).
  destruct (Forall2_elem_r _ _ _ _ (dpl_nodes _ _ _ _ _ Hdep) Hnn) as (d & Hd & (_ & Hk & Hkd)%nodeFor_columns).
  by exists v, def, n, d.
Qed.
Lemma instances_walk_their_drawing_witness :
  ∃ def n d, FlowNode_ID n = "2" ∧ d ∈ FlowDefinition_Nodes def ∧ NodeDefinition_ID d = FlowNode_Key n.
Proof.
  destruct (@instances_walk_their_drawing demoHost demoBlank demoAsked demoApplication "2")
    as (v & def & n & d & _ & _ & _ & _ & Hid & Hd & Hk & _).
  - exact demoBlank_genesis.
  - exact demoBlank_charted.
  - exact demoAsked_reachable.
  - apply head_elem. vm_compute. reflexivity.
  - apply (bool_decide_unpack _). vm_compute. exact I.
  - exists def, n, d. exact (conj Hid (conj Hd Hk)).
Defined.
