(* ===== verification/ViewProps.v ===== *)
(** * What the views promise

    A viewer sees and edits what some task, copy or the application itself allows,
    and nothing else. *)
From S2P Require Import Prelude Enums StateMachine Models Demo Store Shared FormValidation FormStorage Delegation Binding.
From S2P Require Import FlowDefinition PassRule Processors Engine Tenancy TaskService NodeService Commands Timeout.
From S2P Require Import FlowCommands FlowManagement Views Discipline EngineInv Traversal ServiceInv CommandInv LifecycleInv.
From S2P Require Import FormTables System.

(** ** Fields *)

(** The merge keeps the strongest permission of each field; the ranks start at
    hidden and unknown permissions never win. *)
Definition rankAt (m : gmap string Permission) (k : string) : nat :=
  permissionRank (default (PermissionOther "") (m !! k)).
Definition materialized (keys : list string) (m : gmap string Permission) : Prop :=
  ∀ k, (k ∈ keys → ∃ p, m !! k = Some p ∧ ∀ x, p ≠ PermissionOther x) ∧ (k ∉ keys → m !! k = None).

Lemma rank_inj p q :
  permissionRank p = permissionRank q → (∀ x, p ≠ PermissionOther x) → (∀ x, q ≠ PermissionOther x) → p = q.
Proof. destruct p, q; cbn; try done; intros _ Hp Hq; first [by destruct (Hp _ eq_refl)|by destruct (Hq _ eq_refl)]. Qed.
Lemma rank_stronger a b : permissionRank (strongerPermission a b) = permissionRank a `max` permissionRank b.
Proof. unfold strongerPermission. destruct (Nat.ltb_spec (permissionRank a) (permissionRank b)); lia. Qed.
Lemma stronger_known a b x : strongerPermission a b = PermissionOther x → a = PermissionOther x.
Proof.
  unfold strongerPermission. destruct (Nat.ltb_spec (permissionRank a) (permissionRank b)); [|done].
  intros ->. cbn in *. lia.
Qed.
Lemma strengthen_materialized keys m k p : k ∈ keys → materialized keys m → materialized keys (strengthen m k p).
Proof.
  intros Hk Hm j. unfold strengthen. destruct (decide (j = k)) as [->|Hne].
  - rewrite lookup_insert_eq. split; [|done]. intros _. eexists. split; [done|].
    destruct (Hm k) as [(q & -> & Hq) _]; [done|]. cbn. intros x Hx%stronger_known. by apply (Hq x).
  - rewrite lookup_insert_ne by done. apply Hm.
Qed.
Lemma rankAt_strengthen m k p j :
  rankAt (strengthen m k p) j = if decide (j = k) then rankAt m j `max` permissionRank p else rankAt m j.
Proof.
  unfold rankAt, strengthen. destruct (decide (j = k)) as [->|Hne].
  - by rewrite lookup_insert_eq; cbn; rewrite rank_stronger.
  - by rewrite lookup_insert_ne.
Qed.

(** A contribution of [p k] to every field [k]. *)
Lemma contribute_rank keys (p : string → Permission) m k :
  k ∈ keys → materialized keys m →
  rankAt (foldl (λ r k, strengthen r k (p k)) m keys) k = rankAt m k `max` permissionRank (p k) ∧
  materialized keys (foldl (λ r k, strengthen r k (p k)) m keys).
Proof.
  intros Hk Hm.
  assert (∀ ks m, (∀ j, j ∈ ks → j ∈ keys) → materialized keys m →
    rankAt (foldl (λ r k, strengthen r k (p k)) m ks) k
      = (if decide (k ∈ ks) then rankAt m k `max` permissionRank (p k) else rankAt m k) ∧
    materialized keys (foldl (λ r k, strengthen r k (p k)) m ks)) as Hall.
  { clear m Hm. intros ks. induction ks as [|j ks IH]; intros m Hsub Hm; cbn [foldl].
    { split; [|done]. by rewrite decide_False by set_solver. }
    destruct (IH (strengthen m j (p j))) as [-> Hmat]; [set_solver|apply strengthen_materialized; set_solver|].
    split; [|done]. rewrite rankAt_strengthen. destruct (decide (k = j)) as [->|Hne].
    - rewrite (decide_True (P := j ∈ j :: ks)) by set_solver. case_decide; lia.
    - destruct (decide (k ∈ ks)); [rewrite decide_True by set_solver|rewrite decide_False by set_solver]; done. }
  destruct (Hall keys m) as [-> Hmat]; [done|done|]. by rewrite decide_True.
Qed.

(** Contexts one after the other: the rank reached is that of some context. *)
Lemma contexts_rank {A} keys k (f : gmap string Permission → A → gmap string Permission) (grants : A → nat → Prop) l :
  (∀ m x, materialized keys m → materialized keys (f m x) ∧
     ∀ n, 0 < n → (n ≤ rankAt (f m x) k ↔ n ≤ rankAt m k ∨ grants x n)) →
  ∀ m, materialized keys m → materialized keys (foldl f m l) ∧
    ∀ n, 0 < n → (n ≤ rankAt (foldl f m l) k ↔ n ≤ rankAt m k ∨ ∃ x, x ∈ l ∧ grants x n).
Proof.
  intros Hf. induction l as [|x l IH]; intros m Hm; cbn [foldl].
  { split; [done|]. intros n _. split; [by left|]. intros [?|(x & Hx & _)]; [done|by apply elem_of_nil in Hx]. }
  destruct (Hf m x Hm) as [Hm1 Hx]. destruct (IH _ Hm1) as [Hm2 Hl]. split; [done|].
  intros n Hn. rewrite Hl, Hx by done. split.
  - intros [[?|?]|(y & ? & ?)]; [by left|right; exists x; set_solver|right; exists y; set_solver].
  - intros [?|(y & [->|?]%elem_of_cons & ?)]; [by left; left|by left; right|right; by exists y].
Qed.

Section fields.
Context (keys : list string) (nodePerms : gmap string (gmap string Permission)) (userID k : string).
Context (Hk : k ∈ keys).

Lemma nodeMap_rank nodeID downgrade m :
  materialized keys m →
  materialized keys (contributeNodeMap keys nodePerms nodeID downgrade m) ∧
  ∀ n, 0 < n → (n ≤ rankAt (contributeNodeMap keys nodePerms nodeID downgrade m) k ↔
    n ≤ rankAt m k ∨ n ≤ permissionRank (nodePermission (default ∅ (nodePerms !! nodeID)) downgrade k)).
Proof.
  intros Hm. unfold contributeNodeMap.
  destruct (contribute_rank keys (nodePermission (default ∅ (nodePerms !! nodeID)) downgrade) m k Hk Hm) as [-> ?].
  split; [done|]. lia.
Qed.
Lemma uniform_rank p m :
  materialized keys m →
  materialized keys (contributeUniform keys p m) ∧
  ∀ n, 0 < n → (n ≤ rankAt (contributeUniform keys p m) k ↔ n ≤ rankAt m k ∨ n ≤ permissionRank p).
Proof.
  intros Hm. unfold contributeUniform. destruct (contribute_rank keys (λ _, p) m k Hk Hm) as [-> ?].
  split; [done|]. lia.
Qed.

(** What one task, one copy and the application itself give the viewer. *)
Definition taskGrants (t : Task) (n : nat) : Prop :=
  let perms := default ∅ (nodePerms !! Task_NodeID t) in
  (Task_AssigneeID t = userID ∧ n ≤ permissionRank (nodePermission perms (negb (Task_Status t ==? TaskPending)) k)) ∨
  (Task_AssigneeID t ≠ userID ∧ Task_DelegatorID t = Some userID ∧ n ≤ permissionRank (nodePermission perms true k)).
Definition copyGrants (r : CCRecord) (n : nat) : Prop :=
  CCRecord_CCUserID r = userID ∧
  match CCRecord_NodeID r with
  | None => n ≤ 1
  | Some node => n ≤ permissionRank (nodePermission (default ∅ (nodePerms !! node)) true k)
  end.
Definition applicantGrants (i : Instance) (n : nat) : Prop :=
  Instance_ApplicantID i = userID ∧
  n ≤ (if CanTransition InstanceStateMachine (Instance_Status i) InstanceRunning then 2 else 1).

Lemma task_rank m t :
  materialized keys m →
  materialized keys (contributeTask keys nodePerms userID m t) ∧
  ∀ n, 0 < n → (n ≤ rankAt (contributeTask keys nodePerms userID m t) k ↔ n ≤ rankAt m k ∨ taskGrants t n).
Proof.
  intros Hm. unfold contributeTask, taskGrants.
  case_bool_decide as Ha; [|case_bool_decide as Hdel].
  - destruct (nodeMap_rank (Task_NodeID t) (negb (Task_Status t ==? TaskPending)) m Hm) as [? Hr]. split; [done|].
    intros n Hn. rewrite Hr by done. naive_solver.
  - destruct (nodeMap_rank (Task_NodeID t) true m Hm) as [? Hr]. split; [done|].
    intros n Hn. rewrite Hr by done. naive_solver.
  - split; [done|]. naive_solver.
Qed.
Lemma copy_rank m r :
  materialized keys m →
  materialized keys (contributeCC keys nodePerms userID m r) ∧
  ∀ n, 0 < n → (n ≤ rankAt (contributeCC keys nodePerms userID m r) k ↔ n ≤ rankAt m k ∨ copyGrants r n).
Proof.
  intros Hm. unfold contributeCC, copyGrants. case_bool_decide as Hu; cbn [negb]; [|split; [done|naive_solver]].
  destruct (CCRecord_NodeID r) as [node|].
  - destruct (nodeMap_rank node true m Hm) as [? Hr]. split; [done|]. intros n Hn. rewrite Hr by done. naive_solver.
  - destruct (uniform_rank PermissionVisible m Hm) as [? Hr]. split; [done|].
    intros n Hn. rewrite Hr by done. cbn. naive_solver.
Qed.
Lemma applicant_rank i m :
  materialized keys m →
  materialized keys (contributeApplicant keys i userID m) ∧
  ∀ n, 0 < n → (n ≤ rankAt (contributeApplicant keys i userID m) k ↔ n ≤ rankAt m k ∨ applicantGrants i n).
Proof.
  intros Hm. unfold contributeApplicant, applicantGrants. case_bool_decide as Hu; [|split; [done|naive_solver]].
  destruct (CanTransition _ _ _); edestruct uniform_rank as [? Hr]; [exact Hm|split; [done|]; intros n Hn;
    rewrite Hr by done; cbn; naive_solver| exact Hm | split; [done|]; intros n Hn; rewrite Hr by done; cbn; naive_solver].
Qed.
Lemma hidden_seed m :
  (∀ j, j ∉ keys → m !! j = None) →
  let r := foldl (λ m k, <[k := PermissionHidden]> m) m keys in
  materialized keys r ∧ rankAt r k = 0.
Proof.
  intros Hm. cbn.
  assert (∀ ks m j, foldl (λ m k, <[k := PermissionHidden]> m) m ks !! j
    = if decide (j ∈ ks) then Some PermissionHidden else (m : gmap string Permission) !! j) as Hl.
  { clear. intros ks. induction ks as [|x ks IH]; intros m j; cbn [foldl]; [by rewrite decide_False by set_solver|].
    rewrite IH. destruct (decide (j ∈ ks)); [by rewrite decide_True by set_solver|].
    destruct (decide (j = x)) as [->|Hne].
    - by rewrite lookup_insert_eq, decide_True by set_solver.
    - by rewrite lookup_insert_ne, decide_False by set_solver. }
  split.
  - intros j. rewrite Hl. split; intros Hj; [rewrite decide_True by done; by eexists|rewrite decide_False by done; auto].
  - unfold rankAt. by rewrite Hl, decide_True.
Qed.
End fields.

(** What the node a person was asked at says of a field; silence means visible. *)
Definition shown (perms : gmap string Permission) (k : string) : Prop :=
  match perms !! k with Some PermissionHidden | Some (PermissionOther _) => False | _ => True end.
Definition editable (perms : gmap string Permission) (k : string) : Prop :=
  perms !! k = Some PermissionEditable ∨ perms !! k = Some PermissionRequired.
Lemma nodePermission_shown perms d k : 1 ≤ permissionRank (nodePermission perms d k) ↔ shown perms k.
Proof. unfold nodePermission, shown. destruct (perms !! k) as [[]|], d; cbn; split; try done; lia. Qed.
Lemma nodePermission_editable perms d k :
  2 ≤ permissionRank (nodePermission perms d k) ↔ d = false ∧ editable perms k.
Proof.
  unfold nodePermission, editable. destruct (perms !! k) as [[]|], d; cbn; split; try lia; naive_solver.
Qed.
Lemma CanTransition_running st :
  CanTransition InstanceStateMachine st InstanceRunning = true ↔ st = InstanceReturned ∨ st = InstanceWithdrawn.
Proof. destruct st; vm_compute; naive_solver. Qed.

Definition permsAt (s : St) (i : Instance) (nodeID : string) : gmap string Permission :=
  default ∅ (nodePermissions (bundle_FlowNodes (bundleOf s i)) !! nodeID).
Definition maySee (s : St) (i : Instance) (user k : string) : Prop :=
  (∃ t, t ∈ tasksOf s (Instance_ID i) ∧ (Task_AssigneeID t = user ∨ Task_DelegatorID t = Some user) ∧
     shown (permsAt s i (Task_NodeID t)) k) ∨
  (∃ r, r ∈ db_cc_records s ∧ CCRecord_InstanceID r = Instance_ID i ∧ CCRecord_CCUserID r = user ∧
     match CCRecord_NodeID r with Some node => shown (permsAt s i node) k | None => True end) ∨
  Instance_ApplicantID i = user.
Definition mayEdit (s : St) (i : Instance) (user k : string) : Prop :=
  (∃ t, t ∈ tasksOf s (Instance_ID i) ∧ Task_AssigneeID t = user ∧ Task_Status t = TaskPending ∧
     editable (permsAt s i (Task_NodeID t)) k) ∨
  (Instance_ApplicantID i = user ∧ (Instance_Status i = InstanceReturned ∨ Instance_Status i = InstanceWithdrawn)).
Definition takesPart (s : St) (i : Instance) (user : string) : Prop :=
  Instance_ApplicantID i = user ∨
  (∃ t, t ∈ tasksOf s (Instance_ID i) ∧ (Task_AssigneeID t = user ∨ Task_DelegatorID t = Some user)) ∨
  (∃ r, r ∈ db_cc_records s ∧ CCRecord_InstanceID r = Instance_ID i ∧ CCRecord_CCUserID r = user).

Lemma bundle_tasks s i t : t ∈ bundle_Tasks (bundleOf s i) ↔ t ∈ tasksOf s (Instance_ID i).
Proof. apply elem_of_orderBy. Qed.
Lemma bundle_copies s i r :
  r ∈ bundle_CCRecords (bundleOf s i) ↔ r ∈ db_cc_records s ∧ CCRecord_InstanceID r = Instance_ID i.
Proof. cbn. rewrite elem_of_orderBy, elem_of_tselect, bool_decide_eq_true. naive_solver. Qed.

(** The permission of a declared field is the strongest the viewer was given. *)
Lemma viewer_permission s i user k :
  k ∈ FormField_Key <$> bundle_FormFields (bundleOf s i) →
  ∃ p, resolveViewerFieldPermissions (bundleOf s i) user ≫= (.!! k) = Some p ∧
    (p ≠ PermissionHidden ↔ maySee s i user k) ∧
    (p = PermissionEditable ∨ p = PermissionRequired ↔ mayEdit s i user k).
Proof.
  intros Hk. unfold resolveViewerFieldPermissions.
  destruct (Nat.eqb_spec (length (bundle_FormFields (bundleOf s i))) 0) as [Hl%length_zero_iff_nil|_].
  { rewrite Hl in Hk. by apply elem_of_nil in Hk. }
  cbn [mbind option_bind].
  set (keys := FormField_Key <$> _) in *. set (perms := nodePermissions _).
  destruct (hidden_seed keys k Hk ∅) as [H0 R0]; [by intros; apply lookup_empty|].
  destruct (contexts_rank keys k (contributeTask keys perms user) (taskGrants perms user k) (bundle_Tasks (bundleOf s i))
    (λ m x, task_rank keys perms user k Hk m x) _ H0) as [H1 R1].
  destruct (contexts_rank keys k (contributeCC keys perms user) (copyGrants perms user k) (bundle_CCRecords (bundleOf s i))
    (λ m x, copy_rank keys perms user k Hk m x) _ H1) as [H2 R2].
  destruct (applicant_rank keys user k Hk i _ H2) as [H3 R3]. cbn [bundle_Instance bundleOf] in *.
  destruct (proj1 (H3 k) Hk) as (p & Hp & Hknown). exists p. split; [done|].
  unfold rankAt in R3 at 1. rewrite Hp in R3. cbn [default] in R3. rewrite R0 in R1.
  split.
  - transitivity (1 ≤ permissionRank p).
    { destruct p as [| | | |x]; cbn; split; try lia; try done. by destruct (Hknown x). }
    rewrite R3, R2, R1 by lia. unfold maySee, taskGrants, copyGrants, applicantGrants.
    setoid_rewrite bundle_tasks. setoid_rewrite bundle_copies. setoid_rewrite nodePermission_shown.
    split.
    + intros [[[?|(t & Ht & [(? & ?)|(_ & ? & ?)])]|(r & [Hr ?] & ? & Hn)]|[? _]]; [lia|..].
      * left. exists t. auto.
      * left. exists t. auto.
      * right; left. exists r. split_and!; auto. destruct (CCRecord_NodeID r); [by eapply nodePermission_shown|done].
      * by right; right.
    + intros [(t & Ht & Ha & ?)|[(r & Hr & ? & ? & Hn)|?]].
      * left; left; right. exists t. split; [done|]. destruct (decide (Task_AssigneeID t = user)); [by left|right].
        destruct Ha; [done|auto].
      * left; right. exists r. split_and!; auto. destruct (CCRecord_NodeID r); [by apply nodePermission_shown|lia].
      * right. split; [done|]. case_match; lia.
  - transitivity (2 ≤ permissionRank p).
    { destruct p; cbn; split; try lia; naive_solver. }
    rewrite R3, R2, R1 by lia. unfold mayEdit, taskGrants, copyGrants, applicantGrants.
    setoid_rewrite bundle_tasks. setoid_rewrite bundle_copies. setoid_rewrite nodePermission_editable.
    rewrite <-CanTransition_running. split.
    + intros [[[?|(t & Ht & [(? & Hs & ?)|(_ & _ & ? & _)])]|(r & _ & _ & Hn)]|[? Hc]]; [lia| |done| |].
      * left. exists t. split_and!; auto. by apply negb_false_iff, bool_decide_eq_true in Hs.
      * destruct (CCRecord_NodeID r); [by apply nodePermission_editable in Hn as [? _]|lia].
      * right. split; [done|]. destruct (CanTransition _ _ _); [done|lia].
    + intros [(t & Ht & ? & Hs & ?)|[? Hc]].
      * left; left; right. exists t. split; [done|]. left. split_and!; auto.
        by apply negb_false_iff, bool_decide_eq_true.
      * right. rewrite Hc. auto.
Qed.

Lemma IsInstanceParticipant_Ok `{!Host} s i user s' :
  tfirst (λ j, Instance_ID j ==? Instance_ID i) (db_instances s) = Some i →
  IsInstanceParticipant (Instance_ID i) user s = Ok (true, s') → s' = s ∧ takesPart s i user.
Proof.
  intros Hi Hrun. unfold IsInstanceParticipant, isDecisionParticipant, hasCCFor in Hrun.
  step Hrun as ok s1 E1. step E1 as j s2 E2. apply orThrow_gets_Ok in E2 as [Hj ->].
  assert (j = i) as -> by congruence. unfold takesPart. destruct (Instance_ApplicantID i ==? user) eqn:Ha.
  { injection E1 as <- <-. injection Hrun as <-. split; [done|]. left. by apply bool_decide_eq_true in Ha. }
  injection E1 as <- <-. destruct (texists _ (db_tasks s)) eqn:Ht.
  - injection Hrun as <-. split; [done|]. right; left. apply texists_true in Ht as (t & Ht & Hp).
    rewrite andb_true_iff, orb_true_iff, !bool_decide_eq_true in Hp. destruct Hp as [HI Hp]. exists t.
    split; [|done]. unfold tasksOf. by rewrite elem_of_tselect, bool_decide_eq_true.
  - injection Hrun as Hc <-. split; [done|]. right; right. apply texists_true in Hc as (r & Hr & Hp).
    rewrite andb_true_iff, !bool_decide_eq_true in Hp. destruct Hp. by exists r.
Qed.

(** C10. Nobody sees or edits more of a form than some context allows: whoever gets the
    detail of an instance is its applicant, was asked (also if they delegated), or was
    copied.  A declared field is shown, with its value, exactly if one of these
    contexts shows it, and offered for editing exactly if the viewer's own pending
    task grants it or the applicant can submit again; reading changes nothing. *)
Theorem viewers_see_what_they_may `{!Host} instanceID user s d s' :
  GetMyInstanceDetailHandler_Handle instanceID user s = Ok (d, s') →
  s' = s ∧ ∃ i, i ∈ db_instances s ∧ Instance_ID i = instanceID ∧ takesPart s i user ∧
  ∀ k, k ∈ FormField_Key <$> bundle_FormFields (bundleOf s i) →
    (∃ p, InstanceDetail_FieldPermissions d ≫= (.!! k) = Some p ∧
       (p ≠ PermissionHidden ↔ maySee s i user k) ∧
       (p = PermissionEditable ∨ p = PermissionRequired ↔ mayEdit s i user k)) ∧
    (∀ v, InstanceInfo_FormData (InstanceDetail_Instance d) ≫= (.!! k) = Some v ↔
       Instance_FormData i ≫= (.!! k) = Some v ∧ maySee s i user k).
Proof.
  intros Hrun. unfold GetMyInstanceDetailHandler_Handle, loadInstanceDetailBundle in Hrun.
  step Hrun as b s1 E1. step E1 as i s2 E2. apply orThrow_gets_Ok in E2 as [Hi ->]. injection E1 as <- <-.
  pose proof Hi as Hfirst. apply findBy_Ok in Hi as [Hi <-].
  step Hrun as part s1 E. step Hrun as u s2 E3. apply throwIf_Ok in E3 as [Hpart ->]. injection Hrun as <- <-.
  assert (s1 = s ∧ takesPart s i user) as [-> Htake].
  { apply negb_false_iff in Hpart as ->. by apply IsInstanceParticipant_Ok in E. }
  split; [done|]. exists i. do 3 (split; [done|]). intros k Hk. cbn.
  destruct (viewer_permission s i user k Hk) as (p & Hp & Hsee & Hedit). split; [by exists p|].
  intros v. rewrite <-Hsee. unfold stripHiddenFormData. cbn [bundle_Instance bundleOf].
  destruct (Instance_FormData i) as [data|]; cbn [mbind option_bind]; [|naive_solver].
  rewrite map_lookup_filter_Some. cbn. destruct (resolveViewerFieldPermissions _ _) as [perms|]; [|done].
  cbn in Hp |- *. rewrite Hp. naive_solver.
Qed.

(** alice applies with a reason and a salary; the review by bob hides the salary and
    lets him edit the reason. *)
Definition demoFormAt : St :=
  set_versions [Build_FlowVersion "v1" "leave" 1 VersionPublished None StorageJSON None None
      [demoField "reason" FieldInput ColumnText []; demoField "salary" FieldInput ColumnText []] None None None]
    (demoStoreAt (set_FlowNode_FieldPermissions {["salary" := PermissionHidden; "reason" := PermissionEditable]}
      (demoNode "review" NodeApproval ApprovalParallel PassAll 50 2)) ["bob"]).
Definition demoFormFilled : St :=
  @execTx demoHost (CmdStartInstance (Build_StartInstanceCmd "acme" "leave" (demoUser "alice") None
    (Some {["salary" := VString "9"; "reason" := VString "rest"]}) None demoCaller)) demoFormAt.
Definition demoFormInstance : Instance :=
  default (Build_Instance "" 0 "" "" "" "" "" "" "" "" None None InstanceRunning None None None None None None)
    (head (db_instances demoFormFilled)).
Lemma demoForm_instances : db_instances demoFormFilled = [demoFormInstance].
Proof. vm_compute. reflexivity. Qed.
Lemma viewers_see_what_they_may_witness :
  match @GetMyInstanceDetailHandler_Handle demoHost "0" "bob" demoFormFilled with
  | Ok (d, s') => s' = demoFormFilled ∧
      ∃ i, i ∈ db_instances demoFormFilled ∧ Instance_FormData i ≫= (.!! "salary") = Some (VString "9") ∧
        (InstanceInfo_FormData (InstanceDetail_Instance d) ≫= (.!! "salary") = Some (VString "9") ↔
           maySee demoFormFilled i "bob" "salary") ∧
        InstanceDetail_FieldPermissions d ≫= (.!! "salary") = Some PermissionHidden
  | Err _ => False
  end.
Proof.
  destruct (@GetMyInstanceDetailHandler_Handle demoHost "0" "bob" demoFormFilled) as [[d s']|e] eqn:Hrun.
  - destruct (@viewers_see_what_they_may demoHost "0" "bob" demoFormFilled d s' Hrun) as (-> & i & Hi & Hid & _ & Hk).
    split; [reflexivity|]. exists i. split; [exact Hi|].
    assert (i = demoFormInstance) as -> by (apply list_elem_of_singleton; rewrite <-demoForm_instances; exact Hi).
    assert (Instance_FormData demoFormInstance ≫= (.!! "salary") = Some (VString "9")) as Hv by (vm_compute; reflexivity).
    split; [exact Hv|]. split.
    + destruct (Hk "salary") as [_ Hdata]; [vm_compute; right; left|]. rewrite Hdata. split; [intros [_ Hs]; exact Hs|intros Hs; exact (conj Hv Hs)].
    + vm_compute in Hrun. injection Hrun as <-. vm_compute. reflexivity.
  - vm_compute in Hrun. discriminate Hrun.
Defined.
