(* ===== verification/Offers.v ===== *)
(** * What is offered is what is accepted

    The detail of an instance tells its viewer which actions they may take, which
    nodes they may roll back to and whom they may remove.  The guards of the commands
    are elsewhere and read other tables; these theorems say the two agree. *)
From S2P Require Import Prelude Enums StateMachine Models Demo Store Shared FormValidation NodeConfig FormStorage Delegation Binding.
From S2P Require Import FlowDefinition PassRule Processors Engine Tenancy TaskService NodeService Commands Timeout.
From S2P Require Import FlowCommands FlowManagement Views Discipline EngineInv Traversal ServiceInv CommandInv LifecycleInv.
From S2P Require Import Rows System Walk Projections NodeProps Invariants Deployment Charts.

(** ** What is offered is what is accepted *)
Section runs.
Context `{!Host}.
Lemma throwIf_seq {B} b (e : Error) (m : M B) (s : St) r : (throwIf b e;; m) s = Ok r ↔ b = false ∧ m s = Ok r.
Proof. unfold throwIf, andThen, mbind, SE_bind, throw, mret, SE_ret. destruct b; naive_solver. Qed.
Lemma throwIf_end b (e : Error) (s : St) : throwIf b e s = Ok (tt, s) ↔ b = false.
Proof. unfold throwIf, throw, mret, SE_ret. destruct b; naive_solver. Qed.
Lemma gets_seq {A B} (f : St → A) (k : A → M B) s r : (x ← gets f; k x) s = Ok r ↔ k (f s) s = Ok r.
Proof. done. Qed.
Lemma orThrow_seq {A B} e (f : St → option A) (k : A → M B) s r :
  (x ← orThrow e (gets f); k x) s = Ok r ↔ ∃ x, f s = Some x ∧ k x s = Ok r.
Proof. unfold orThrow, mbind, SE_bind, gets, throw, mret, SE_ret. destruct (f s); naive_solver. Qed.
End runs.

Lemma tcount_exists {Row} (p : Row → bool) t : (tcount p t =? 0)%nat = false ↔ ∃ r, r ∈ t ∧ p r = true.
Proof.
  rewrite <-texists_true, Nat.eqb_neq, tcount_0, <-texists_false. destruct (texists p t); naive_solver.
Qed.
Lemma exists_filter {A} (p : A → bool) (l : list A) (P : A → Prop) :
  (∃ n, n ∈ List.filter p l ∧ P n) ↔ ∃ n, n ∈ l ∧ p n = true ∧ P n.
Proof. setoid_rewrite list_elem_of_In. setoid_rewrite List.filter_In. naive_solver. Qed.
(** A map of rows by a key that tells them apart. *)
Lemma byKey_lookup {V W} (key : V → string) (val : V → W) (l : list V) k w :
  NoDup (key <$> l) →
  foldl (λ m x, <[key x := val x]> m) (∅ : gmap string W) l !! k = Some w ↔ ∃ x, x ∈ l ∧ key x = k ∧ val x = w.
Proof.
  intros Hd. split.
  - intros [Hl|?]%(foldl_insert_lookup_inv key val); [by rewrite lookup_empty in Hl|done].
  - intros (x & Hx & <- & <-). by apply foldl_insert_lookup.
Qed.

Section rollback.
Context `{!Host}.
Implicit Types (s : St) (i : Instance) (current : FlowNode).

Lemma elem_of_offered bundle current target :
  target ∈ RollbackTarget_NodeID <$> resolveRollbackTargets bundle current ↔
  target ≠ FlowNode_ID current ∧ ∃ n, n ∈ rollbackCandidates bundle current ∧ FlowNode_ID n = target.
Proof.
  unfold resolveRollbackTargets.
  assert (∀ l seen targets, (∀ id, id ∈ seen ↔ id ∈ RollbackTarget_NodeID <$> targets) →
    (target ∈ RollbackTarget_NodeID <$> (foldl (offerTarget current) (seen, targets) l).2 ↔
     target ∈ RollbackTarget_NodeID <$> targets ∨ target ≠ FlowNode_ID current ∧ ∃ n, n ∈ l ∧ FlowNode_ID n = target))
    as Hall.
  { intros l. induction l as [|n l IH]; intros seen targets Hs; cbn [foldl].
    { split; [by left|]. intros [?|(_ & n & Hn & _)]; [done|by apply elem_of_nil in Hn]. }
    unfold offerTarget at 2. case_bool_decide as Hc; [|case_bool_decide as Hseen]; cbn [orb].
    - rewrite IH by done. set_solver.
    - rewrite IH by done. apply Hs in Hseen. split; [set_solver|].
      intros [?|(Hne & m & [->|Hm]%elem_of_cons & <-)]; [by left|by left|right; set_solver].
    - rewrite IH; [|intros id; rewrite fmap_app; set_solver]. rewrite fmap_app. set_solver. }
  rewrite Hall; set_solver.
Qed.

(** The rows of the version an instance runs on. *)
Lemma charted_instance s i current :
  charted s → current ∈ nodesOf s (Instance_FlowVersionID i) →
  ∃ def parsed, bundle_FlowSchema (bundleOf s i) = Some def ∧
    deployed def (Instance_FlowVersionID i) parsed (bundle_FlowNodes (bundleOf s i))
      (edgesOf s (Instance_FlowVersionID i)).
Proof.
  intros [H1 _ H3 _ H5] [Hv%bool_decide_eq_true Hc]%elem_of_tselect.
  specialize (H3 _ Hc). rewrite Hv in H3. apply list_elem_of_fmap in H3 as (v & Hid & Hin).
  destruct (H5 v Hin) as (def & parsed & Hdef & Hdep). exists def, parsed. cbn.
  rewrite Hid. rewrite (tfirst_key FlowVersion_ID) by done. done.
Qed.
Lemma concluded_spec s i nodeID :
  nodeID ∈ concludedNodes (bundle_Visits (bundleOf s i)) ↔
  requireConcludedVisit (Instance_ID i) nodeID s = Ok (tt, s).
Proof.
  unfold requireConcludedVisit. rewrite gets_seq, throwIf_end, negb_false_iff, texists_true.
  unfold concludedNodes. rewrite elem_of_list_to_set, list_elem_of_fmap. cbn [bundle_Visits bundleOf].
  setoid_rewrite list_elem_of_In. setoid_rewrite List.filter_In. setoid_rewrite <-list_elem_of_In.
  setoid_rewrite elem_of_orderBy. setoid_rewrite elem_of_tselect.
  setoid_rewrite andb_true_iff. setoid_rewrite andb_true_iff. setoid_rewrite bool_decide_eq_true. naive_solver.
Qed.

Section drawn.
Context (s : St) (i : Instance) (current : FlowNode) (target : string) (def : FlowDefinition)
  (parsed : gmap string NodeData).
Local Notation nodes := (bundle_FlowNodes (bundleOf s i)).
Local Notation edges := (edgesOf s (Instance_FlowVersionID i)).
Context (Hdef : bundle_FlowSchema (bundleOf s i) = Some def).
Context (Hdep : deployed def (Instance_FlowVersionID i) parsed nodes edges).
Context (Hcur : current ∈ nodes).

Lemma drawn_keys : NoDup (FlowNode_Key <$> nodes).
Proof. rewrite (deployed_keys _ _ _ _ _ Hdep). apply Hdep. Qed.
Lemma drawn_byKey k n : nodesByKey nodes !! k = Some n ↔ n ∈ nodes ∧ FlowNode_Key n = k.
Proof. unfold nodesByKey. rewrite (byKey_lookup FlowNode_Key id) by apply drawn_keys. naive_solver. Qed.
Lemma drawn_id k id : nodeKeyToID nodes !! k = Some id ↔ ∃ n, n ∈ nodes ∧ FlowNode_Key n = k ∧ FlowNode_ID n = id.
Proof. unfold nodeKeyToID. by rewrite (byKey_lookup FlowNode_Key FlowNode_ID) by apply drawn_keys. Qed.
Lemma drawn_same n m : n ∈ nodes → m ∈ nodes → FlowNode_ID n = FlowNode_ID m → n = m.
Proof. apply (NoDup_key_inj FlowNode_ID nodes), Hdep. Qed.
Lemma drawn_version n :
  n ∈ nodes ∧ FlowNode_ID n = target ↔
  tfirst (λ n, (FlowNode_ID n ==? target) && (FlowNode_FlowVersionID n ==? Instance_FlowVersionID i)) (db_nodes s) = Some n.
Proof.
  assert (∀ m, m ∈ nodes ↔ m ∈ db_nodes s ∧ FlowNode_FlowVersionID m = Instance_FlowVersionID i) as Hnodes.
  { intros m. cbn. rewrite elem_of_tselect, bool_decide_eq_true. naive_solver. }
  split.
  - intros [Hn Hid]. destruct (tfirst _ _) as [m|] eqn:Hm.
    + apply tfirst_Some in Hm as [Hin Hp]. rewrite andb_true_iff, !bool_decide_eq_true in Hp. destruct Hp.
      f_equal. apply drawn_same; [by apply Hnodes|done|congruence].
    + apply Hnodes in Hn as [Hin Hv]. pose proof (proj1 (tfirst_None _ _) Hm n Hin) as Hp. cbn in Hp.
      by rewrite Hid, Hv, !bool_decide_eq_true_2 in Hp.
  - intros [Hin Hp]%tfirst_Some. rewrite andb_true_iff, !bool_decide_eq_true in Hp. destruct Hp. by rewrite Hnodes.
Qed.

(** Predecessors in the definition and in the rows. *)
Lemma offered_previous :
  (∃ n, n ∈ omap (λ edge, match nodesByKey nodes !! EdgeDefinition_Target edge with
        | Some t => if FlowNode_ID t ==? FlowNode_ID current then nodesByKey nodes !! EdgeDefinition_Source edge else None
        | None => None end) (FlowDefinition_Edges def) ∧ FlowNode_ID n = target) ↔
  ∃ e, e ∈ edges ∧ FlowEdge_SourceNodeID e = target ∧ FlowEdge_TargetNodeID e = FlowNode_ID current.
Proof.
  pose proof (dpl_edges _ _ _ _ _ Hdep) as He. split.
  - intros (n & (d & Hd & Hn)%list_elem_of_omap & Hid).
    destruct (nodesByKey nodes !! EdgeDefinition_Target d) as [t|] eqn:Ht; [|done].
    case_bool_decide as Heq; [|done]. apply drawn_byKey in Ht as [Ht Hkt]. apply drawn_byKey in Hn as [Hn Hkn].
    destruct (Forall2_elem_l _ _ _ _ He Hd) as (e & Hin & _ & _ & Hs & Htgt). exists e. split; [done|].
    apply drawn_id in Hs as (n' & Hn' & Hk' & Hid'). apply drawn_id in Htgt as (t' & Ht' & Hkt' & Hidt').
    rewrite (NoDup_key_inj FlowNode_Key _ n' n drawn_keys Hn' Hn) in Hid' by congruence.
    rewrite (NoDup_key_inj FlowNode_Key _ t' t drawn_keys Ht' Ht) in Hidt' by congruence. split; congruence.
  - intros (e & Hin & Hs & Ht). destruct (Forall2_elem_r _ _ _ _ He Hin) as (d & Hd & _ & _ & Hsrc & Htgt).
    apply drawn_id in Hsrc as (n & Hn & Hkn & Hidn). apply drawn_id in Htgt as (t & Ht' & Hkt & Hidt).
    exists n. split; [|congruence]. apply list_elem_of_omap. exists d. split; [done|].
    rewrite (proj2 (drawn_byKey _ t) (conj Ht' Hkt)), bool_decide_eq_true_2 by congruence.
    by apply drawn_byKey.
Qed.
(** The only start node. *)
Lemma drawn_start : ∃ start, start ∈ nodes ∧ FlowNode_Kind start = NodeStart ∧
  ∀ n, n ∈ nodes → FlowNode_Kind n = NodeStart → n = start.
Proof.
  destruct (wfl_start _ _ (dpl_workflow _ _ _ _ _ Hdep)) as (ds & Hds & Hdk & Hdu & _).
  destruct (Forall2_elem_l _ _ _ _ (dpl_nodes _ _ _ _ _ Hdep) Hds) as (start & Hstart & (_ & Hkey & Hkind)%nodeFor_columns).
  exists start. split_and!; [done|congruence|]. intros n Hin Hnk.
  destruct (Forall2_elem_r _ _ _ _ (dpl_nodes _ _ _ _ _ Hdep) Hin) as (d & Hd & (_ & Hk & Hkd)%nodeFor_columns).
  assert (d = ds) as -> by (apply Hdu; [done|congruence]).
  apply (NoDup_key_inj FlowNode_Key nodes); [apply drawn_keys|done|done|congruence].
Qed.
Lemma offered_start :
  (∃ n, n ∈ take 1 (List.filter (λ n, FlowNode_Kind n ==? NodeStart) (map_to_list (nodesByID nodes)).*2) ∧
     FlowNode_ID n = target) ↔
  ∃ n, tfirst (λ n, (FlowNode_FlowVersionID n ==? Instance_FlowVersionID i) && (FlowNode_Kind n ==? NodeStart))
         (db_nodes s) = Some n ∧ FlowNode_ID n = target.
Proof.
  destruct drawn_start as (start & Hin & Hk & Hu).
  assert (∀ n, n ∈ List.filter (λ n, FlowNode_Kind n ==? NodeStart) (map_to_list (nodesByID nodes)).*2 ↔ n = start) as Hf.
  { intros n. rewrite list_elem_of_In, List.filter_In, <-list_elem_of_In, bool_decide_eq_true, list_elem_of_fmap.
    assert ((∃ x : string * FlowNode, n = x.2 ∧ x ∈ map_to_list (nodesByID nodes)) ↔ n ∈ nodes) as ->.
    { setoid_rewrite elem_of_map_to_list'. unfold nodesByID.
      setoid_rewrite (λ k w, byKey_lookup FlowNode_ID id nodes k w (dpl_ids _ _ _ _ _ Hdep)). split.
      - intros (x & -> & y & Hy & _ & <-). done.
      - intros Hn. exists (FlowNode_ID n, n). naive_solver. }
    split; [naive_solver|by intros ->]. }
  assert (tfirst (λ n, (FlowNode_FlowVersionID n ==? Instance_FlowVersionID i) && (FlowNode_Kind n ==? NodeStart))
         (db_nodes s) = Some start) as ->.
  { cbn in Hin. apply elem_of_tselect in Hin as [Hv Hin]. destruct (tfirst _ _) as [m|] eqn:Hm.
    - apply tfirst_Some in Hm as [Hm Hp]. apply andb_true_iff in Hp as [Hp Hkm%bool_decide_eq_true].
      f_equal. apply Hu; [|done]. cbn. by apply elem_of_tselect.
    - pose proof (proj1 (tfirst_None _ _) Hm start Hin) as Hp. cbn in Hp. by rewrite Hv, Hk, bool_decide_eq_true_2 in Hp. }
  assert (take 1 (List.filter (λ n, FlowNode_Kind n ==? NodeStart) (map_to_list (nodesByID nodes)).*2) = [start]) as ->.
  { destruct (List.filter _ _) as [|x l] eqn:Hl.
    - assert (start ∈ @nil FlowNode) as []%elem_of_nil by (by apply Hf).
    - cbn. f_equal. apply Hf. by left. }
  setoid_rewrite list_elem_of_singleton. naive_solver.
Qed.
End drawn.
End rollback.

Lemma rollback_target_exact `{!Host} s i current target :
  charted s → current ∈ nodesOf s (Instance_FlowVersionID i) →
  target ∈ RollbackTarget_NodeID <$> resolveRollbackTargets (bundleOf s i) current ↔
  ValidateRollbackTarget i current target s = Ok (tt, s).
Proof.
  intros Hch Hcur.
  destruct (charted_instance s i current Hch Hcur) as (def & parsed & Hdef & Hdep).
  rewrite elem_of_offered. unfold ValidateRollbackTarget. rewrite !throwIf_seq, bool_decide_eq_false.
  apply and_iff_compat_l. unfold rollbackCandidates. rewrite Hdef.
  destruct (FlowNode_RollbackType current) eqn:Hty; cbn [default fmap option_fmap option_map].
  - cbn. split; [|naive_solver]. by intros (n & []%elem_of_nil & _).
  - rewrite (offered_previous s i current target def parsed Hdep), gets_seq, throwIf_end, tcount_exists. cbn.
    unfold edgesOf. setoid_rewrite elem_of_tselect. setoid_rewrite andb_true_iff. setoid_rewrite andb_true_iff.
    setoid_rewrite bool_decide_eq_true. naive_solver.
  - rewrite (offered_start s i target def parsed Hdep), orThrow_seq. setoid_rewrite throwIf_end. cbn.
    setoid_rewrite negb_false_iff. setoid_rewrite bool_decide_eq_true. naive_solver.
  - unfold findVersionNode. rewrite orThrow_seq. setoid_rewrite throwIf_seq. setoid_rewrite <-concluded_spec.
    setoid_rewrite <-(drawn_version s i target def parsed Hdep). rewrite exists_filter. split.
    + intros (n & Hin & Hk & <-). split; [done|]. exists n. split; [done|].
      destruct (FlowNode_Kind n); try done; by apply bool_decide_eq_true in Hk.
    + intros (_ & n & [Hin <-] & Hk & Hc). exists n. split; [done|]. split; [|done].
      destruct (FlowNode_Kind n); try done; by apply bool_decide_eq_true.
  - unfold findVersionNode. rewrite orThrow_seq. setoid_rewrite throwIf_seq. setoid_rewrite <-concluded_spec.
    setoid_rewrite <-(drawn_version s i target def parsed Hdep). setoid_rewrite list_elem_of_omap.
    setoid_rewrite negb_false_iff. setoid_rewrite bool_decide_eq_true. cbn -[bundle_FlowNodes bundle_Visits].
    split.
    + intros (n & (k & Hk & Hn) & <-). split; [done|]. exists n.
      destruct (nodesByKey _ !! k) as [m|] eqn:Hm; [|done]. case_bool_decide; [|done]. injection Hn as ->.
      apply (drawn_byKey s i def parsed Hdep) in Hm as [Hm <-]. done.
    + intros (_ & n & [Hin <-] & Hk & Hc). exists n. split; [|done]. exists (FlowNode_Key n). split; [done|].
      rewrite (proj2 (drawn_byKey s i def parsed Hdep _ n) (conj Hin eq_refl)). by rewrite bool_decide_eq_true_2.
  - cbn. split; [|naive_solver]. by intros (n & []%elem_of_nil & _).
Qed.

(** C12. The rollback picker offers exactly what the rollback command accepts: in any state
    that commands and jobs lead to from a system whose versions match their drawings,
    for every node of the version an instance runs on and every target, the target is
    among those offered to the holder of a task there if and only if
    [ValidateRollbackTarget] lets it through.  The picker reads predecessors off the
    stored definition and the command off the rows of edges. *)
Theorem offered_rollback_targets_exact `{!Host} s0 s i current target :
  charted s0 → reachable s0 s → current ∈ nodesOf s (Instance_FlowVersionID i) →
  target ∈ RollbackTarget_NodeID <$> resolveRollbackTargets (bundleOf s i) current ↔
  ValidateRollbackTarget i current target s = Ok (tt, s).
Proof.
  intros H0 Hreach Hcur. by apply rollback_target_exact; [eapply reachable_charted|].
Qed.

(** ** Actions *)

(** What the holder of a pending task is offered at its node. *)
Definition taskActions (node : option FlowNode) : list string :=
  (if match node with Some n => FlowNode_Kind n ==? NodeHandle | None => false end then "handle" else "approve") ::
  "reject" ::
  match node with
  | None => []
  | Some n => (if FlowNode_IsTransferAllowed n then ["transfer"] else [])
      ++ (if FlowNode_IsRollbackAllowed n then ["rollback"] else [])
      ++ (if FlowNode_IsAddAssigneeAllowed n then ["add_assignee"] else [])
      ++ (if FlowNode_IsRemoveAssigneeAllowed n then ["remove_assignee"] else [])
      ++ (if FlowNode_IsManualCCAllowed n then ["add_cc"] else [])
  end.
Definition hadTask (user : string) (t : Task) : Prop := Task_AssigneeID t = user ∨ Task_DelegatorID t = Some user.

Lemma add_spec o a : ou_wf o → ou_wf (add o a) ∧ ∀ x, x ∈ ou_items (add o a) ↔ x = a ∨ x ∈ ou_items o.
Proof. apply OrderedUnique_Add_wf. Qed.
Lemma addWhen_spec b a o :
  ou_wf o → ou_wf (addWhen b a o) ∧ ∀ x, x ∈ ou_items (addWhen b a o) ↔ x ∈ (if b then [a] else []) ∨ x ∈ ou_items o.
Proof.
  intros Ho. destruct b; cbn [addWhen]; [|split; [done|set_solver]].
  destruct (add_spec o a Ho) as [? Hx]. split; [done|]. intros x. rewrite Hx. set_solver.
Qed.
Lemma addTaskActions_spec node o :
  ou_wf o → ou_wf (addTaskActions node o) ∧
  ∀ x, x ∈ ou_items (addTaskActions node o) ↔ x ∈ taskActions node ∨ x ∈ ou_items o.
Proof.
  intros Ho. unfold addTaskActions, taskActions.
  match goal with |- context [add o ?f] => set (first := f) end.
  destruct (add_spec o first Ho) as [H1 E1]. destruct (add_spec _ "reject" H1) as [H2 E2].
  destruct node as [n|]; [|split; [done|intros x; rewrite E2, E1; set_solver]].
  destruct (addWhen_spec (FlowNode_IsTransferAllowed n) "transfer" _ H2) as [H3 E3].
  destruct (addWhen_spec (FlowNode_IsRollbackAllowed n) "rollback" _ H3) as [H4 E4].
  destruct (addWhen_spec (FlowNode_IsAddAssigneeAllowed n) "add_assignee" _ H4) as [H5 E5].
  destruct (addWhen_spec (FlowNode_IsRemoveAssigneeAllowed n) "remove_assignee" _ H5) as [H6 E6].
  destruct (addWhen_spec (FlowNode_IsManualCCAllowed n) "add_cc" _ H6) as [H7 E7].
  split; [done|]. intros x. rewrite E7, E6, E5, E4, E3, E2, E1.
  rewrite !elem_of_cons, !elem_of_app. tauto.
Qed.
(** The loop over the tasks. *)
Lemma scanTask_spec nodes user o p h t :
  ou_wf o →
  let '(o', p', h') := scanTask nodes user (o, p, h) t in
  ou_wf o' ∧
  (∀ x, x ∈ ou_items o' ↔ x ∈ ou_items o ∨
     Task_Status t = TaskPending ∧ Task_AssigneeID t = user ∧ x ∈ taskActions (nodes !! Task_NodeID t)) ∧
  (p' = true ↔ p = true ∨ Task_Status t = TaskPending) ∧ (h' = true ↔ h = true ∨ hadTask user t).
Proof.
  intros Ho. assert (h || (Task_AssigneeID t ==? user) || (Task_DelegatorID t ==? Some user) = true ↔ h = true ∨ hadTask user t)
    as Hh by (unfold hadTask; rewrite !orb_true_iff, !bool_decide_eq_true; tauto).
  unfold scanTask. destruct (Task_Status t ==? TaskPending) eqn:Hp; cbn [negb].
  - apply bool_decide_eq_true in Hp. destruct (Task_AssigneeID t ==? user) eqn:Ha; cbn [negb].
    + apply bool_decide_eq_true in Ha. destruct (addTaskActions_spec (nodes !! Task_NodeID t) o Ho) as [Ho1 E1].
      split_and!; [done| |tauto|done]. intros x. rewrite E1. tauto.
    + apply bool_decide_eq_false in Ha. split_and!; [done|tauto|tauto|done].
  - apply bool_decide_eq_false in Hp. split_and!; [done|tauto|tauto|done].
Qed.
Lemma scanTasks_spec nodes user tasks : ∀ o p h,
  ou_wf o →
  let '(o', p', h') := foldl (scanTask nodes user) (o, p, h) tasks in
  ou_wf o' ∧
  (∀ x, x ∈ ou_items o' ↔ x ∈ ou_items o ∨
     ∃ t, t ∈ tasks ∧ Task_Status t = TaskPending ∧ Task_AssigneeID t = user ∧ x ∈ taskActions (nodes !! Task_NodeID t)) ∧
  (p' = true ↔ p = true ∨ ∃ t, t ∈ tasks ∧ Task_Status t = TaskPending) ∧
  (h' = true ↔ h = true ∨ ∃ t, t ∈ tasks ∧ hadTask user t).
Proof.
  induction tasks as [|t tasks IH]; intros o p h Ho; cbn [foldl].
  { split_and!; [done|..]; intros; split; try (by left); intros [?|(t & Ht & _)]; try done; by apply elem_of_nil in Ht. }
  pose proof (scanTask_spec nodes user o p h t Ho) as Hstep.
  destruct (scanTask nodes user (o, p, h) t) as [[o1 p1] h1]. destruct Hstep as (Ho1 & E1 & Ep1 & Eh1).
  specialize (IH o1 p1 h1 Ho1). destruct (foldl _ _ _) as [[o' p'] h']. destruct IH as (? & Ex & Ep & Eh).
  assert (∀ P : Task → Prop, (∃ u, u ∈ t :: tasks ∧ P u) ↔ P t ∨ ∃ u, u ∈ tasks ∧ P u) as Hcons.
  { intros P. split; [intros (u & [->|?]%elem_of_cons & ?); [by left|right; by exists u]|].
    intros [?|(u & ? & ?)]; [exists t|exists u]; set_solver. }
  split_and!; [done|..].
  - intros x. rewrite Ex, E1, Hcons. tauto.
  - rewrite Ep, Ep1, Hcons. tauto.
  - rewrite Eh, Eh1, Hcons. tauto.
Qed.
Lemma elem_of_computeActions i tasks nodes user a :
  a ∈ computeActions i tasks nodes user ↔
  a = "withdraw" ∧ Instance_ApplicantID i = user ∧
    CanTransition InstanceStateMachine (Instance_Status i) InstanceWithdrawn = true ∨
  a = "resubmit" ∧ Instance_ApplicantID i = user ∧
    CanTransition InstanceStateMachine (Instance_Status i) InstanceRunning = true ∨
  (∃ t, t ∈ tasks ∧ Task_Status t = TaskPending ∧ Task_AssigneeID t = user ∧
     a ∈ taskActions (nodesByID nodes !! Task_NodeID t)) ∨
  a = "urge" ∧ (∃ t, t ∈ tasks ∧ Task_Status t = TaskPending) ∧
    (Instance_ApplicantID i = user ∨ ∃ t, t ∈ tasks ∧ hadTask user t).
Proof.
  unfold computeActions, OrderedUnique_ToSlice.
  set (isW := (Instance_ApplicantID i ==? user) && CanTransition _ _ InstanceWithdrawn).
  set (isR := (Instance_ApplicantID i ==? user) && CanTransition _ _ InstanceRunning).
  destruct (addWhen_spec isW "withdraw" _ NewOrderedUnique_wf) as [H1 E1].
  destruct (addWhen_spec isR "resubmit" _ H1) as [H2 E2].
  pose proof (scanTasks_spec (nodesByID nodes) user tasks _ false false H2) as H3.
  destruct (foldl _ _ tasks) as [[o p] h]. destruct H3 as (H3 & E3 & Ep & Eh).
  set (isU := p && ((Instance_ApplicantID i ==? user) || h)).
  destruct (addWhen_spec isU "urge" _ H3) as [_ E4]. rewrite E4, E3, E2, E1.
  assert (∀ b (x : string), a ∈ (if b : bool then [x] else []) ↔ b = true ∧ a = x) as Hif.
  { intros [] x; [rewrite list_elem_of_singleton; tauto|]. split; [by intros ?%elem_of_nil|by intros [? _]]. }
  rewrite !Hif. unfold isW, isR, isU. rewrite !andb_true_iff, orb_true_iff, !bool_decide_eq_true, Ep, Eh.
  assert (false = true ↔ False) as -> by done. cbn [ou_items NewOrderedUnique]. rewrite elem_of_nil. tauto.
Qed.

Section actions.
Context `{!Host}.

(** The actions offered to a user. *)
Definition offeredActions (s : St) (i : Instance) (user : string) : list string :=
  computeActions i (bundle_Tasks (bundleOf s i)) (bundle_FlowNodes (bundleOf s i)) user.
Lemma elem_of_bundle_Tasks s i t :
  t ∈ bundle_Tasks (bundleOf s i) ↔ t ∈ db_tasks s ∧ Task_InstanceID t = Instance_ID i.
Proof. cbn. rewrite elem_of_orderBy, elem_of_tselect, bool_decide_eq_true. tauto. Qed.

(** The node of a task is among the nodes of the version its instance runs on. *)
Lemma task_node_home s i t n :
  disciplined s → i ∈ db_instances s → t ∈ db_tasks s → Task_InstanceID t = Instance_ID i →
  n ∈ db_nodes s → FlowNode_ID n = Task_NodeID t → n ∈ nodesOf s (Instance_FlowVersionID i).
Proof.
  intros [_ Hr _] Hi Ht HI Hn Hid. destruct (refs_visit _ Hr t Ht) as (v & Hv & _ & HvI & Hvn).
  destruct (refs_home _ Hr v i Hv Hi) as (m & Hm & Hmid & Hmv); [congruence|].
  rewrite (NoDup_key_inj FlowNode_ID _ n m (refs_nodes _ Hr) Hn Hm) by congruence.
  apply elem_of_tselect. by rewrite bool_decide_eq_true.
Qed.
Lemma task_node_known s i t n :
  disciplined s → i ∈ db_instances s → t ∈ db_tasks s → Task_InstanceID t = Instance_ID i →
  n ∈ db_nodes s → FlowNode_ID n = Task_NodeID t →
  nodesByID (bundle_FlowNodes (bundleOf s i)) !! Task_NodeID t = Some n.
Proof.
  intros Hd Hi Ht HI Hn Hid. unfold nodesByID. rewrite <-Hid. rewrite (byKey_lookup FlowNode_ID id).
  - exists n. split; [|done]. by eapply task_node_home.
  - cbn. by apply NoDup_key_tselect, Hd.
Qed.

Lemma loaded_offers s taskID user caller tc a :
  disciplined s → loaded s taskID (Build_TaskContextLoadOptions user true true true caller) tc →
  a ∈ taskActions (Some (tc_Node tc)) → a ∈ offeredActions s (tc_Instance tc) user.
Proof.
  intros Hd [[Ht Hid] [Hi HI] Hrun Ha Hp Hc [Hn Hnid] _] Hin. cbn in *.
  apply elem_of_computeActions. right; right; left. exists (tc_Task tc). split_and!; auto.
  - by apply elem_of_bundle_Tasks.
  - by rewrite (task_node_known s (tc_Instance tc) (tc_Task tc) (tc_Node tc)).
Qed.
(** The instance of a loaded task, by the task's id. *)
Definition onTask (s : St) (taskID : string) (i : Instance) : Prop :=
  ∃ t, t ∈ db_tasks s ∧ Task_ID t = taskID ∧ Task_InstanceID t = Instance_ID i.
Lemma loaded_onTask s taskID o tc i :
  disciplined s → loaded s taskID o tc → i ∈ db_instances s → onTask s taskID i → tc_Instance tc = i.
Proof.
  intros [Hw _ _] [[Ht Hid] [Hi HI] _ _ _ _ _ _] Hin (t & Ht' & Hid' & HI').
  eapply instance_row_unique; [done|done|done|].
  rewrite (task_row_unique s t (tc_Task tc)) in HI' by (done || congruence). congruence.
Qed.

(** The button behind a command: whose it is, on which instance, and its name (a
    task is approved or, at a handle node, handled). *)
Definition pressed (c : Command) (s : St) (i : Instance) (user : string) (names : list string) : Prop :=
  match c with
  | CmdApproveTask c => onTask s (dec_TaskID c) i ∧ user = UserInfo_ID (dec_Operator c) ∧ names = ["approve"; "handle"]
  | CmdRejectTask c => onTask s (dec_TaskID c) i ∧ user = UserInfo_ID (dec_Operator c) ∧ names = ["reject"]
  | CmdTransferTask c => onTask s (tra_TaskID c) i ∧ user = UserInfo_ID (tra_Operator c) ∧ names = ["transfer"]
  | CmdRollbackTask c => onTask s (rol_TaskID c) i ∧ user = UserInfo_ID (rol_Operator c) ∧ names = ["rollback"]
  | CmdAddAssignee c => onTask s (add_TaskID c) i ∧ user = UserInfo_ID (add_Operator c) ∧ names = ["add_assignee"]
  | CmdUrgeTask c => onTask s (urg_TaskID c) i ∧ user = urg_UrgerID c ∧ names = ["urge"]
  | CmdWithdrawInstance c =>
      clo_InstanceID c = Instance_ID i ∧ user = UserInfo_ID (clo_Operator c) ∧ names = ["withdraw"]
  | CmdResubmitInstance c =>
      rsb_InstanceID c = Instance_ID i ∧ user = UserInfo_ID (rsb_Operator c) ∧ names = ["resubmit"]
  | _ => False
  end.

Lemma prepared_offers s taskID op caller fd tc s1 i a :
  disciplined s → i ∈ db_instances s → onTask s taskID i →
  PrepareOperation taskID op caller fd s = Ok (tc, s1) →
  a ∈ taskActions (Some (tc_Node tc)) → s1 = s ∧ a ∈ offeredActions s i (UserInfo_ID op).
Proof.
  intros Hd Hi Hon (-> & tc0 & Hld & _ & _ & ->)%PrepareOperation_loaded Ha. split; [done|].
  rewrite <-(loaded_onTask _ _ _ _ _ Hd Hld Hi Hon). by eapply loaded_offers.
Qed.
Lemma taskActions_first n : ∃ a, a ∈ ["approve"; "handle"] ∧ a ∈ taskActions (Some n).
Proof. unfold taskActions. destruct (_ ==? _); [exists "handle"|exists "approve"]; set_solver. Qed.
Lemma taskActions_flag n :
  "reject" ∈ taskActions (Some n) ∧
  (FlowNode_IsTransferAllowed n = true → "transfer" ∈ taskActions (Some n)) ∧
  (FlowNode_IsRollbackAllowed n = true → "rollback" ∈ taskActions (Some n)) ∧
  (FlowNode_IsAddAssigneeAllowed n = true → "add_assignee" ∈ taskActions (Some n)).
Proof. unfold taskActions. split_and!; [set_solver|..]; intros ->; rewrite !elem_of_cons, !elem_of_app; set_solver. Qed.
End actions.

(** C11. Whatever succeeds was offered: if a user's command to approve, handle, reject,
    transfer, roll back, add colleagues, urge, withdraw or resubmit succeeds in a
    reachable state, then the detail of the instance listed that very action among
    the ones available to the user. *)
Theorem whatever_succeeds_was_offered `{!Host} s0 s c i user names u s' :
  genesis s0 → reachable s0 s → i ∈ db_instances s → pressed c s i user names →
  exec c s = Ok (u, s') → ∃ a, a ∈ names ∧ a ∈ offeredActions s i user.
Proof.
  intros Hg Hr Hi Hpr Hrun. pose proof (reachable_orderly _ _ Hg Hr) as Hd.
  destruct c; try done; cbn [pressed exec] in Hpr, Hrun; destruct Hpr as (Hon & -> & ->).
  - unfold ApproveTaskHandler_Handle in Hrun. step Hrun as tc s1 E1.
    destruct (taskActions_first (tc_Node tc)) as (a & Ha & Hin). exists a. split; [done|].
    by eapply prepared_offers in E1 as [_ ?].
  - unfold RejectTaskHandler_Handle in Hrun. step Hrun as tc s1 E1. exists "reject". split; [set_solver|].
    eapply prepared_offers in E1 as [_ ?]; [done..|apply taskActions_flag].
  - unfold TransferTaskHandler_Handle in Hrun. step Hrun as tc s1 E1. step Hrun as u2 s2 E2. step Hrun as u3 s3 E3.
    apply throwIf_Ok in E3 as [Hf%negb_false_iff _]. exists "transfer". split; [set_solver|].
    eapply prepared_offers in E1 as [_ ?]; [done..|by apply taskActions_flag].
  - unfold RollbackTaskHandler_Handle in Hrun. step Hrun as tc s1 E1. step Hrun as u2 s2 E2. step Hrun as u3 s3 E3.
    apply throwIf_Ok in E3 as [Hf%negb_false_iff _]. exists "rollback". split; [set_solver|].
    eapply prepared_offers in E1 as [_ ?]; [done..|by apply taskActions_flag].
  - unfold AddAssigneeHandler_Handle in Hrun. step Hrun as tc s1 E1. step Hrun as u3 s3 E3.
    apply throwIf_Ok in E3 as [Hf%negb_false_iff _]. exists "add_assignee". split; [set_solver|].
    apply LoadTaskContext_loaded in E1 as [_ Hld]. rewrite <-(loaded_onTask _ _ _ _ _ Hd Hld Hi Hon).
    eapply loaded_offers; [done|exact Hld|by apply taskActions_flag].
  - unfold WithdrawInstanceHandler_Handle in Hrun. step Hrun as j s1 E1.
    apply LoadForUpdateAs_Ok in E1 as (-> & Hj & Hid & _).
    rewrite (instance_row_unique s j i) in Hrun by (apply Hd || done || congruence).
    step Hrun as u2 s2 E2. apply throwIf_Ok in E2 as [Ha%negb_false_iff%bool_decide_eq_true ->].
    step Hrun as out s3 E3. unfold closeInstance in E3. step E3 as u4 s4 E4.
    apply throwIf_Ok in E4 as [Hc%negb_false_iff _]. exists "withdraw". split; [set_solver|].
    apply elem_of_computeActions. by left.
  - unfold ResubmitInstanceHandler_Handle in Hrun. step Hrun as j s1 E1.
    apply LoadForUpdateAs_Ok in E1 as (-> & Hj & Hid & _).
    rewrite (instance_row_unique s j i) in Hrun by (apply Hd || done || congruence).
    step Hrun as u2 s2 E2. apply throwIf_Ok in E2 as [Ha%negb_false_iff%bool_decide_eq_true ->].
    step Hrun as u4 s4 E4. apply throwIf_Ok in E4 as [Hc%negb_false_iff _]. exists "resubmit". split; [set_solver|].
    apply elem_of_computeActions. by right; left.
  - exists "urge". split; [set_solver|]. apply elem_of_computeActions. right; right; right. split; [done|].
    destruct Hon as (t & Ht & Hid & HI). unfold UrgeTaskHandler_Handle in Hrun. step Hrun as t' s1 E1.
    apply orThrow_gets_Ok in E1 as [Ht' ->]. apply findBy_Ok in Ht' as [Ht' Hid'].
    rewrite (task_row_unique s t' t) in Hrun by (apply Hd || done || congruence). clear t' Ht' Hid'.
    step Hrun as al s2 E2. apply reads_AllowsInstanceAccess in E2 as <-. step Hrun as u3 s3 E3.
    apply throwIf_Ok in E3 as [_ ->]. step Hrun as u4 s4 E4.
    apply throwIf_Ok in E4 as [Hp%negb_false_iff%bool_decide_eq_true ->]. step Hrun as au s5 E5.
    step Hrun as u6 s6 E6. apply throwIf_Ok in E6 as [Hau%negb_false_iff _]. subst au.
    split; [exists t; by rewrite elem_of_bundle_Tasks|].
    unfold IsUrgeAuthorized, isDecisionParticipant in E5. step E5 as j s7 E7.
    apply orThrow_gets_Ok in E7 as [Hj ->]. apply findBy_Ok in Hj as [Hj HjI].
    rewrite (instance_row_unique s j i) in E5 by (apply Hd || done || congruence).
    case_bool_decide as Hap; [by left|right]. injection E5 as Hex _.
    apply texists_true in Hex as (w & Hw & Hwp). rewrite andb_true_iff, orb_true_iff, !bool_decide_eq_true in Hwp.
    destruct Hwp as [HwI Hown]. exists w. rewrite elem_of_bundle_Tasks. split; [split; [done|congruence]|done].
Qed.

(** ** The viewer's own task *)
Section card.
Context `{!Host}.

Lemma read_seq {A B} (m : M A) (k : A → M B) s a r : m s = Ok (a, s) → (x ← m; k x) s = Ok r ↔ k a s = Ok r.
Proof. intros Hm. unfold mbind, SE_bind. by rewrite Hm. Qed.
(** An operation on an open task of the current node is let in. *)
Lemma open_task_loads s t i n user caller (own pending : bool) :
  disciplined s → t ∈ db_tasks s → i ∈ db_instances s → Task_InstanceID t = Instance_ID i →
  Instance_Status i = InstanceRunning → Instance_CurrentNodeID i = Some (Task_NodeID t) →
  n ∈ db_nodes s → FlowNode_ID n = Task_NodeID t →
  AllowsInstanceAccess caller (Instance_ID i) (Instance_TenantID i) user s = Ok (true, s) →
  (own = true → Task_AssigneeID t = user) → (pending = true → Task_Status t = TaskPending) →
  LoadTaskContextForNodeOperation (Task_ID t) (Build_TaskContextLoadOptions user own pending true caller) s
    = Ok (Build_TaskContext i t n [], s).
Proof.
  intros [[[Hwi _] [Hwt _] _] Hr _] Ht Hi HI Hrun Hcur Hn Hid Hacc Hown Hpend.
  assert (tfirst (λ x, Task_ID x ==? Task_ID t) (db_tasks s) = Some t) as Hft by (by apply (tfirst_key Task_ID)).
  unfold LoadTaskContextForNodeOperation, findTask, findInstance, findNode.
  rewrite orThrow_seq. exists t. split; [done|]. rewrite orThrow_seq. exists i. split.
  { rewrite HI. by apply (tfirst_key Instance_ID). }
  rewrite (read_seq _ _ _ true) by exact Hacc. rewrite throwIf_seq. split; [done|].
  rewrite orThrow_seq. exists t. split; [done|]. rewrite !throwIf_seq. cbn. split_and!.
  - by rewrite Hrun.
  - destruct own; [|done]. by rewrite bool_decide_eq_true_2 by auto.
  - destruct pending; [|done]. by rewrite Hpend.
  - by rewrite Hcur, bool_decide_eq_true_2.
  - rewrite orThrow_seq. exists n. split; [|done]. rewrite <-Hid. apply (tfirst_key FlowNode_ID); [apply Hr|done].
Qed.
(** Where the open work of an instance is. *)
Lemma open_task_current s t i :
  disciplined s → t ∈ db_tasks s → i ∈ db_instances s → Task_InstanceID t = Instance_ID i → isOpen t = true →
  Instance_Status i = InstanceRunning ∧ Instance_CurrentNodeID i = Some (Task_NodeID t).
Proof.
  intros [_ _ Hinst] Ht Hi HI Ho. pose proof (Hinst i Hi) as Hok. unfold inst_ok in Hok.
  assert (t ∈ tasksOf s (Instance_ID i)) as Hin by (apply elem_of_tselect; by rewrite bool_decide_eq_true).
  destruct (Instance_Status i); try (destruct Hok as [_ Hq]; by rewrite (Hq t Hin) in Ho).
  destruct Hok as (n & Hcur & v & _ & _ & _ & _ & Hopen). destruct (Hopen t Hin Ho) as [_ ->]. done.
Qed.
(** Somebody else's open task of the same visit can be taken away. *)
Lemma peer_removable s own task n :
  own ∈ db_tasks s → isRemovable own task = true → isOpen own = true →
  CanRemoveAssigneeTask n task s = Ok (true, s).
Proof.
  intros Ho Hrem Hopen. unfold isRemovable in Hrem. rewrite !andb_true_iff, negb_true_iff in Hrem.
  destruct Hrem as [[Hne%bool_decide_eq_false Hv%bool_decide_eq_true] _].
  unfold CanRemoveAssigneeTask. rewrite gets_seq.
  match goal with |- (if ?b then _ else _) _ = _ => assert (b = true) as -> end; [|done].
  apply existsb_exists. exists own. split.
  - apply list_elem_of_In, elem_of_tselect. by rewrite bool_decide_eq_true.
  - rewrite isCancelable_isOpen, Hopen, andb_true_r. apply negb_true_iff, bool_decide_eq_false. congruence.
Qed.
Lemma holder_authorized s t i user :
  t ∈ db_tasks s → Task_InstanceID t = Instance_ID i → Task_AssigneeID t = user → isOpen t = true →
  IsAuthorizedForNodeOperation (Instance_ID i) (Task_NodeID t) user s = Ok (true, s).
Proof.
  intros Ht HI Ha Ho. unfold IsAuthorizedForNodeOperation. rewrite gets_seq.
  match goal with |- (if ?b then _ else _) _ = _ => assert (b = true) as -> end; [|done].
  apply Nat.ltb_lt. enough (∃ r, r ∈ db_tasks s ∧ onNode (Instance_ID i) (Task_NodeID t) r
    && (Task_AssigneeID r ==? user) && isCancelable r = true) as Hex.
  { apply tcount_exists, Nat.eqb_neq in Hex. lia. }
  exists t. split; [done|]. unfold onNode. by rewrite HI, Ha, isCancelable_isOpen, Ho, !bool_decide_eq_true_2.
Qed.
End card.

(** C16. The card of the viewer's own task is accurate: when the detail of an instance shows
    a user a pending task, operating on it as that user is let in, at the node shown;
    every rollback target on the card is accepted; and every colleague listed as
    removable is one whose removal passes the guards of the command, the last-assignee
    check included. *)
Theorem viewer_card_is_accurate `{!Host} s0 s i user caller card :
  genesis s0 → charted s0 → reachable s0 s → i ∈ db_instances s →
  AllowsInstanceAccess caller (Instance_ID i) (Instance_TenantID i) user s = Ok (true, s) →
  buildViewerTask (bundleOf s i) user = Some card →
  ∃ tc, LoadTaskContextForNodeOperation (ViewerTask_TaskID card)
          (Build_TaskContextLoadOptions user true true true caller) s = Ok (tc, s) ∧
    tc_Instance tc = i ∧ FlowNode_ID (tc_Node tc) = ViewerTask_NodeID card ∧
    ViewerTask_IsOpinionRequired card = FlowNode_IsOpinionRequired (tc_Node tc) ∧
    (∀ t, t ∈ ViewerTask_RollbackTargets card → FlowNode_IsRollbackAllowed (tc_Node tc) = true ∧
       ValidateRollbackTarget i (tc_Node tc) (RollbackTarget_NodeID t) s = Ok (tt, s)) ∧
    (∀ r, r ∈ ViewerTask_RemovableAssignees card → FlowNode_IsRemoveAssigneeAllowed (tc_Node tc) = true ∧
       ∃ tc', LoadTaskContextForNodeOperation (RemovableAssignee_TaskID r)
                (Build_TaskContextLoadOptions user false false true caller) s = Ok (tc', s) ∧
         tc_Node tc' = tc_Node tc ∧ Assignee (tc_Task tc') = RemovableAssignee_Assignee r ∧
         IsAuthorizedForNodeOperation (Task_InstanceID (tc_Task tc')) (Task_NodeID (tc_Task tc')) user s = Ok (true, s) ∧
         CanRemoveAssigneeTask (tc_Node tc') (tc_Task tc') s = Ok (true, s)).
Proof.
  intros Hg Hch Hr Hi Hacc Hcard. pose proof (reachable_orderly _ _ Hg Hr) as Hd.
  unfold buildViewerTask in Hcard. destruct (tfirst (ownPending user) _) as [t|] eqn:Ht; [|done].
  apply tfirst_Some in Ht as [Ht Hown]. apply elem_of_bundle_Tasks in Ht as [Ht HI].
  apply andb_true_iff in Hown as [Ha%bool_decide_eq_true Hp%bool_decide_eq_true].
  assert (isOpen t = true) as Ho by (unfold isOpen; by rewrite Hp).
  destruct (open_task_current s t i Hd Ht Hi HI Ho) as [Hrun Hcur].
  destruct (refs_work _ (disc_refs _ Hd) t Ht) as (n & Hn & Hnid & _).
  pose proof (task_node_home s i t n Hd Hi Ht HI Hn Hnid) as Hhome.
  assert (tfirst (λ n, FlowNode_ID n ==? Task_NodeID t) (bundle_FlowNodes (bundleOf s i)) = Some n) as Hfind.
  { rewrite <-Hnid. apply (tfirst_key FlowNode_ID); [|done]. cbn. by apply NoDup_key_tselect, Hd. }
  rewrite Hfind in Hcard. injection Hcard as <-. exists (Build_TaskContext i t n []). cbn. split_and!; try done.
  - by eapply open_task_loads.
  - intros tgt Hin. destruct (FlowNode_IsRollbackAllowed n); [|by apply elem_of_nil in Hin]. split; [done|].
    pose proof (reachable_charted _ _ Hch Hr) as Hcs.
    apply (rollback_target_exact s i n (RollbackTarget_NodeID tgt) Hcs Hhome). by apply list_elem_of_fmap_2.
  - intros r Hin. destruct (FlowNode_IsRemoveAssigneeAllowed n); [|by apply elem_of_nil in Hin]. split; [done|].
    unfold resolveRemovableAssignees in Hin. apply list_elem_of_fmap in Hin as (w & -> & Hw).
    apply list_elem_of_In, List.filter_In in Hw as [Hw%list_elem_of_In Hrem].
    apply elem_of_bundle_Tasks in Hw as [Hw HwI]. assert (isOpen w = true) as Hwo.
    { unfold isRemovable in Hrem. apply andb_true_iff in Hrem as [_ Hst]. unfold isOpen.
      apply orb_true_iff in Hst as [Hst%bool_decide_eq_true|Hst%bool_decide_eq_true]; by rewrite Hst. }
    destruct (open_task_current s w i Hd Hw Hi HwI Hwo) as [_ Hwcur].
    assert (Task_NodeID w = Task_NodeID t) as Hwn by congruence.
    exists (Build_TaskContext i w n []). cbn. split_and!; try done.
    + eapply open_task_loads; try done. congruence.
    + rewrite HwI, Hwn. by eapply holder_authorized.
    + by apply (peer_removable s t).
Qed.

Lemma offered_rollback_targets_exact_witness :
  RollbackTarget_NodeID <$> resolveRollbackTargets (bundleOf demoAsked demoApplication) demoReview = ["1"] ∧
  ValidateRollbackTarget demoApplication demoReview "1" demoAsked = Ok (tt, demoAsked).
Proof.
  assert (RollbackTarget_NodeID <$> resolveRollbackTargets (bundleOf demoAsked demoApplication) demoReview = ["1"])
    as Ht by (vm_compute; reflexivity).
  split; [exact Ht|].
  refine (proj1 (@offered_rollback_targets_exact demoHost demoBlank demoAsked demoApplication demoReview "1" _ _ _) _).
  - exact demoBlank_charted.
  - exact demoAsked_reachable.
  - apply list_elem_of_lookup_2 with 1. vm_compute. reflexivity.
  - rewrite Ht. apply list_elem_of_here.
Defined.
Lemma whatever_succeeds_was_offered_witness :
  ∃ a, a ∈ ["approve"; "handle"] ∧ a ∈ offeredActions demoAsked demoApplication "bob".
Proof.
  destruct (@exec demoHost (demoApprove "11" "bob") demoAsked) as [[u s']|e] eqn:Hrun.
  - apply (@whatever_succeeds_was_offered demoHost demoBlank demoAsked (demoApprove "11" "bob") demoApplication "bob"
      ["approve"; "handle"] u s').
    + exact demoBlank_genesis.
    + exact demoAsked_reachable.
    + apply head_elem. vm_compute. reflexivity.
    + split; [|split; reflexivity]. exists (default (demoTask "" "" TaskPending) (head (db_tasks demoAsked))).
      split; [apply head_elem; vm_compute; reflexivity|]. split; vm_compute; reflexivity.
    + exact Hrun.
  - vm_compute in Hrun. discriminate Hrun.
Defined.
Lemma viewer_card_is_accurate_witness :
  match buildViewerTask (bundleOf demoAsked demoApplication) "bob" with
  | Some card => ViewerTask_TaskID card = "11" ∧
      ∃ tc, LoadTaskContextForNodeOperation (ViewerTask_TaskID card)
              (Build_TaskContextLoadOptions "bob" true true true demoCaller) demoAsked = Ok (tc, demoAsked)
  | None => False
  end.
Proof.
  destruct (buildViewerTask (bundleOf demoAsked demoApplication) "bob") as [card|] eqn:Hcard.
  - split; [vm_compute in Hcard; by injection Hcard as <-|].
    destruct (@viewer_card_is_accurate demoHost demoBlank demoAsked demoApplication "bob" demoCaller card) as (tc & Htc & _).
    + exact demoBlank_genesis.
    + exact demoBlank_charted.
    + exact demoAsked_reachable.
    + apply head_elem. vm_compute. reflexivity.
    + vm_compute. reflexivity.
    + exact Hcard.
    + exists tc. exact Htc.
  - vm_compute in Hcard. discriminate Hcard.
Defined.
