(* ===== verification/Story.v ===== *)
(** * Two views, one story

    The timeline tells visit by visit what happened to an instance, the diagram node
    by node.  Both are folded from the same rows by different routes
    ([timeline.go], [flow_graph.go]); here they are shown to agree. *)
From S2P Require Import Prelude Enums StateMachine Models Demo Store Shared FormValidation NodeConfig FormStorage Delegation Binding.
From S2P Require Import FlowDefinition PassRule Processors Engine Tenancy TaskService NodeService Commands Timeout.
From S2P Require Import FlowCommands FlowManagement Views Discipline EngineInv Traversal ServiceInv CommandInv LifecycleInv.
From S2P Require Import Rows System Walk Projections NodeProps Invariants Deployment Charts Offers.

(** ** Grouping *)
Lemma groupBy_lookup {A B} (key : A → option string) (f : A → B) l j :
  default [] (groupBy key f l !! j) = f <$> List.filter (λ x, bool_decide (key x = Some j)) l.
Proof.
  unfold groupBy. assert (∀ m : gmap string (list B),
    default [] (foldl (λ m x, match key x with Some k => appendAt m k (f x) | None => m end) m l !! j)
    = default [] (m !! j) ++ (f <$> List.filter (λ x, bool_decide (key x = Some j)) l)) as Hall.
  { induction l as [|x l IH]; intros m; cbn [foldl List.filter]; [by rewrite app_nil_r|].
    rewrite IH. destruct (key x) as [k|].
    - rewrite appendAt_lookup, <-app_assoc. f_equal. case_bool_decide as Hk.
      + by rewrite bool_decide_eq_true_2 by congruence.
      + by rewrite bool_decide_eq_false_2 by congruence.
    - done. }
  rewrite Hall. by rewrite lookup_empty.
Qed.

(** ** The entries of a node *)
Definition entriesAt (nodeID : string) (timeline : list TimelineEntry) : list TimelineEntry :=
  List.filter (λ e, TimelineEntry_NodeID e ==? Some nodeID) timeline.
Lemma filter_app_b {A} (p : A → bool) l k : List.filter p (l ++ k) = List.filter p l ++ List.filter p k.
Proof. apply List.filter_app. Qed.
Lemma filter_none {A} (p : A → bool) l : (∀ x, x ∈ l → p x = false) → List.filter p l = [].
Proof.
  induction l as [|x l IH]; intros Hl; [done|]. cbn. rewrite Hl by set_solver. apply IH. intros y Hy. apply Hl. set_solver.
Qed.
Lemma splitMilestones_app until ms : let '(due, later) := splitMilestones until ms in ms = due ++ later.
Proof.
  induction ms as [|m ms IH]; cbn; [done|]. destruct (_ <=? _)%Z; [|done].
  destruct (splitMilestones until ms) as [due later]. cbn. by rewrite IH.
Qed.
Lemma filter_mergeMilestones (p : TimelineEntry → bool) entries : ∀ ms,
  (∀ m, m ∈ ms → p m = false) → List.filter p (mergeMilestones entries ms) = List.filter p entries.
Proof.
  induction entries as [|e entries IH]; intros ms Hms; cbn [mergeMilestones]; [by apply filter_none|].
  pose proof (splitMilestones_app (TimelineEntry_StartedAt e) ms) as Hsp.
  destruct (splitMilestones _ ms) as [due later]. subst ms. rewrite filter_app_b, filter_none by set_solver.
  cbn. rewrite IH by set_solver. done.
Qed.
Lemma visitEntry_node idx v n : TimelineEntry_NodeID (visitEntry idx v n) = Some (NodeVisit_NodeID v).
Proof. unfold visitEntry. by destruct (FlowNode_Kind n). Qed.

Section node.
Context (b : instanceDetailBundle) (n : FlowNode).
Context (Hids : NoDup (FlowNode_ID <$> bundle_FlowNodes b)) (Hn : n ∈ bundle_FlowNodes b).
Context (Hkind : FlowNode_Kind n ≠ NodeCondition).
Local Notation idx := (newVisitIndex b).
Local Notation visits := (List.filter (λ v, NodeVisit_NodeID v ==? FlowNode_ID n) (bundle_Visits b)).

Lemma entriesAt_visits :
  entriesAt (FlowNode_ID n) (buildInstanceTimeline b) = (λ v, visitEntry idx v n) <$> visits.
Proof.
  unfold entriesAt, buildInstanceTimeline. rewrite filter_mergeMilestones.
  2:{ intros m. cbn. rewrite list_elem_of_fmap. intros (l & -> & _). done. }
  unfold visitEntries. induction (bundle_Visits b) as [|v vs IH]; [done|]. cbn [omap list_omap List.filter].
  assert (idx_nodeByID idx !! FlowNode_ID n = Some n) as Hlk.
  { cbn. unfold nodesByID. apply (byKey_lookup FlowNode_ID id); [done|]. by exists n. }
  destruct (decide (NodeVisit_NodeID v = FlowNode_ID n)) as [Heq|Hne].
  - rewrite (bool_decide_eq_true_2 _ Heq), Heq, Hlk, (bool_decide_eq_false_2 _ Hkind). cbn [List.filter].
    rewrite visitEntry_node, Heq, bool_decide_eq_true_2 by done. rewrite fmap_cons. f_equal. exact IH.
  - rewrite (bool_decide_eq_false_2 _ Hne). destruct (idx_nodeByID idx !! NodeVisit_NodeID v) as [m|]; [|exact IH].
    destruct (FlowNode_Kind m ==? NodeCondition); [exact IH|]. cbn [List.filter].
    rewrite visitEntry_node, bool_decide_eq_false_2 by congruence. exact IH.
Qed.
Lemma visitsByNode_spec : default [] (idx_visitsByNode idx !! FlowNode_ID n) = visits.
Proof.
  cbn. rewrite groupBy_lookup. rewrite list_fmap_id.
  induction (bundle_Visits b) as [|v vs IH]; [done|]. cbn. rewrite IH.
  destruct (decide (NodeVisit_NodeID v = FlowNode_ID n)); [rewrite !bool_decide_eq_true_2 by congruence
    |rewrite !bool_decide_eq_false_2 by congruence]; done.
Qed.
End node.

(** What the diagram shows of a node, and what the timeline shows of its visits. *)
Lemma flat_map_fmap {A B C} (f : A → B) (g : B → list C) l : flat_map g (f <$> l) = flat_map (λ x, g (f x)) l.
Proof. induction l as [|x l IH]; [done|]. cbn. by rewrite IH. Qed.
Lemma flat_map_same {A B} (f g : A → list B) l : (∀ x, x ∈ l → f x = g x) → flat_map f l = flat_map g l.
Proof.
  induction l as [|x l IH]; intros Hl; [done|]. cbn. rewrite Hl by set_solver. f_equal. apply IH.
  intros y Hy. apply Hl. set_solver.
Qed.
Lemma visitEntry_columns idx v n :
  let e := visitEntry idx v n in
  TimelineEntry_CCRecipients e = copiesOf idx (NodeVisit_ID v) ∧
  TimelineEntry_Activities e = activitiesOf idx (NodeVisit_ID v) ∧
  TimelineEntry_StartedAt e = NodeVisit_CreatedAt v ∧ TimelineEntry_FinishedAt e = NodeVisit_FinishedAt v ∧
  TimelineEntry_Status e = Some (NodeVisit_Status v) ∧
  (isWorkKind (FlowNode_Kind n) = true → TimelineEntry_Participants e = participantsOf idx (NodeVisit_ID v)) ∧
  (isWorkKind (FlowNode_Kind n) = false → TimelineEntry_Participants e = []).
Proof. unfold visitEntry. by destruct (FlowNode_Kind n). Qed.
Lemma graphNode_columns idx st n :
  let d := FlowGraphNode_Data (graphNode idx st n) in
  let visits := default [] (idx_visitsByNode idx !! FlowNode_ID n) in
  FlowGraphNodeData_Participants d = flat_map (λ v, participantsOf idx (NodeVisit_ID v)) visits ∧
  FlowGraphNodeData_CCRecipients d = flat_map (λ v, copiesOf idx (NodeVisit_ID v)) visits ∧
  FlowGraphNodeData_Activities d = flat_map (λ v, activitiesOf idx (NodeVisit_ID v)) visits ∧
  FlowGraphNodeData_StartedAt d = NodeVisit_CreatedAt <$> head visits ∧
  FlowGraphNodeData_FinishedAt d = last visits ≫= NodeVisit_FinishedAt ∧
  FlowGraphNodeData_Status d = default NodeProgressPending (st !! FlowNode_Key n).
Proof. unfold graphNode. by destruct (FlowNode_Kind n). Qed.

(** Nobody was asked at a visit of another kind of node. *)
Lemma no_participants `{!Host} s i n v :
  disciplined s → n ∈ db_nodes s → isWorkKind (FlowNode_Kind n) = false → v ∈ db_visits s →
  NodeVisit_NodeID v = FlowNode_ID n → participantsOf (newVisitIndex (bundleOf s i)) (NodeVisit_ID v) = [].
Proof.
  intros Hd Hn Hk Hv Hvn. unfold participantsOf. cbn [newVisitIndex idx_tasksByVisit].
  rewrite groupBy_lookup, list_fmap_id. rewrite filter_none; [done|]. intros t Ht.
  apply bool_decide_eq_false. intros [= HtV]. apply elem_of_bundle_Tasks in Ht as [Ht _].
  destruct (refs_visit _ (disc_refs _ Hd) t Ht) as (v' & Hv' & Hid & _ & HN).
  rewrite (visit_row_unique s v' v) in HN by (apply Hd || done || congruence).
  destruct (refs_work _ (disc_refs _ Hd) t Ht) as (m & Hm & Hmid & Hwork).
  rewrite (NoDup_key_inj FlowNode_ID _ m n (refs_nodes _ (disc_refs _ Hd)) Hm Hn) in Hwork by congruence. congruence.
Qed.

(** ** Progress *)
Section progress.
Context (nodes : list FlowNode) (n : FlowNode).
Context (Hids : NoDup (FlowNode_ID <$> nodes)) (Hkeys : NoDup (FlowNode_Key <$> nodes)) (Hn : n ∈ nodes).
Context (Hne : FlowNode_Key n ≠ "").
Local Notation keyOf id := (default "" (nodeKeys nodes !! id)).

Lemma keyOf_node id : keyOf id = FlowNode_Key n ↔ id = FlowNode_ID n.
Proof.
  unfold nodeKeys. split.
  - destruct (foldl _ ∅ nodes !! id) as [k|] eqn:Hk; cbn; [|intros Heq; by rewrite <-Heq in Hne].
    apply (byKey_lookup FlowNode_ID FlowNode_Key nodes id k Hids) in Hk as (m & Hm & <- & <-). intros Heq.
    by rewrite (NoDup_key_inj FlowNode_Key nodes m n Hkeys Hm Hn Heq).
  - intros ->. rewrite (foldl_insert_lookup FlowNode_ID FlowNode_Key nodes ∅ n Hids Hn). done.
Qed.
(** The status of a node is that of its last visit. *)
Lemma progress_last visits : ∀ m : gmap string NodeProgressStatus,
  foldl (λ m v, if keyOf (NodeVisit_NodeID v) ==? "" then m
                else <[keyOf (NodeVisit_NodeID v) := NodeProgressOf (NodeVisit_Status v)]> m) m visits !! FlowNode_Key n
  = match last (List.filter (λ v, NodeVisit_NodeID v ==? FlowNode_ID n) visits) with
    | Some v => Some (NodeProgressOf (NodeVisit_Status v))
    | None => m !! FlowNode_Key n
    end.
Proof.
  induction visits as [|v visits IH]; intros m; cbn [foldl List.filter]; [done|]. rewrite IH.
  destruct (decide (NodeVisit_NodeID v = FlowNode_ID n)) as [Heq|Hother].
  - rewrite (bool_decide_eq_true_2 _ Heq), last_cons. destruct (last _); [done|].
    rewrite (proj2 (keyOf_node _) Heq), (bool_decide_eq_false_2 _ Hne). by rewrite lookup_insert_eq.
  - rewrite (bool_decide_eq_false_2 _ Hother). destruct (last _); [done|].
    case_bool_decide; [done|]. rewrite lookup_insert_ne; [done|]. by rewrite keyOf_node.
Qed.
End progress.

