(* ===== verification/Catalogue.v ===== *)
(** * Lists that can be trusted

    Pages put together give every row once; the flows offered for starting are the
    flows a start would find and let through; the badge counts what the list shows. *)
From S2P Require Import Prelude Enums StateMachine Models Demo Store Shared FormValidation NodeConfig FormStorage FormTables.
From S2P Require Import Delegation Binding FlowDefinition PassRule Processors Engine Tenancy TaskService NodeService Commands Timeout.
From S2P Require Import FlowCommands FlowManagement Views Lists Discipline EngineInv Traversal ServiceInv CommandInv LifecycleInv.
From S2P Require Import Rows System Walk Projections NodeProps Invariants Deployment Charts Offers.

(** ** Pages *)
Lemma Normalize_size p : (1 ≤ Pageable_Size (Normalize p [defaultListPageSize]) ≤ 1000)%Z.
Proof.
  unfold Normalize, defaultListPageSize, MaxPageSize. cbn [Pageable_Size head default].
  destruct (Z.ltb_spec (Pageable_Size p) 1); cbn; [lia|]. destruct (Z.ltb_spec 1000 (Pageable_Size p)); lia.
Qed.
(** Slices of equal width, one after the other. *)
Lemma concat_slices {A} (k : nat) (l : list A) T :
  concat ((λ j, take k (drop (j * k) l)) <$> seq 0 T) = take (T * k) l.
Proof.
  induction T as [|T IH]; [done|]. rewrite seq_S, fmap_app, concat_app, IH. cbn [fmap list_fmap concat plus].
  rewrite app_nil_r. replace (S T * k) with (T * k + k) by lia. by rewrite take_take_drop.
Qed.
Section pages.
Context {Row T : Type} (rows : list Row) (item : Row → T) (size : Z).
Context (Hlen : (Z.of_nat (length rows) < 2 ^ 63 - 1000)%Z).
Local Notation k := (Pageable_Size (Normalize (Build_Pageable 1 size) [defaultListPageSize])).

Lemma Normalize_page n : (1 ≤ n)%Z → Normalize (Build_Pageable n size) [defaultListPageSize] = Build_Pageable n k.
Proof. intros Hn. unfold Normalize. cbn [Pageable_Page Pageable_Size]. destruct (Z.ltb_spec n 1); [lia|done]. Qed.
Lemma TotalPages_spec :
  let pages := TotalPages (newPage (Build_Pageable 1 size) rows item) in
  (0 ≤ pages ∧ (pages - 1) * k < Z.of_nat (length rows) ≤ pages * k ∨ pages = 0 ∧ rows = [])%Z.
Proof.
  cbn zeta. unfold TotalPages, newPage, Page_New. cbn [Page_Size Page_Total].
  pose proof (Normalize_size (Build_Pageable 1 size)) as Hk. destruct (Z.eqb_spec k 0) as [?|_]; [lia|].
  rewrite wrapInt64_small by lia. rewrite Z.quot_div_nonneg by lia.
  destruct rows as [|r l] eqn:Hr.
  - right. split; [|done]. apply Z.div_small. cbn [length]. change (Z.of_nat 0) with 0%Z. revert Hk. generalize k. lia.
  - left. assert (1 ≤ Z.of_nat (length (r :: l)))%Z as Hn by (cbn [length]; lia). clear Hr Hlen. revert Hk Hn.
    generalize (Z.of_nat (length (r :: l))) k. intros n m Hk Hn.
    pose proof (Z.div_mod (n + m - 1) m ltac:(lia)) as Hdm.
    pose proof (Z.mod_pos_bound (n + m - 1) m ltac:(lia)) as Hmb. split; [apply Z.div_pos; lia|]. nia.
Qed.
Lemma page_slice j :
  (Z.of_nat j * k < 2 ^ 63)%Z →
  Page_Items (newPage (Build_Pageable (Z.of_nat j + 1) size) rows item)
  = item <$> take (Z.to_nat k) (drop (j * Z.to_nat k) rows).
Proof.
  intros Hj. unfold newPage, Page_New, applyPageable. cbn [Page_Items]. rewrite Normalize_page by lia.
  unfold Offset. cbn [Pageable_Page Pageable_Size]. pose proof (Normalize_size (Build_Pageable 1 size)).
  rewrite wrapInt64_small by lia. do 3 f_equal. lia.
Qed.
Lemma pages_concat :
  concat ((λ n, Page_Items (newPage (Build_Pageable n size) rows item))
    <$> seqZ 1 (TotalPages (newPage (Build_Pageable 1 size) rows item))) = item <$> rows.
Proof.
  pose proof (Normalize_size (Build_Pageable 1 size)) as Hk.
  pose proof TotalPages_spec as Hpages. cbn zeta in Hpages. revert Hpages.
  generalize (TotalPages (newPage (Build_Pageable 1 size) rows item)). intros pages Hpages. unfold seqZ. rewrite <-list_fmap_compose.
  transitivity (concat ((λ j, item <$> take (Z.to_nat k) (drop (j * Z.to_nat k) rows)) <$> seq 0 (Z.to_nat pages))).
  - f_equal. apply list_fmap_ext. intros i j Hj. apply lookup_seq in Hj as [-> Hi]. apply page_slice. cbn in Hi.
    destruct Hpages as [(H0 & H1 & _)|[H0 _]]; [|lia]. nia.
  - assert (∀ l : list nat, concat ((λ j, item <$> take (Z.to_nat k) (drop (j * Z.to_nat k) rows)) <$> l)
      = item <$> concat ((λ j, take (Z.to_nat k) (drop (j * Z.to_nat k) rows)) <$> l)) as ->.
    { intros l. induction l as [|j l IH]; [done|]. rewrite !fmap_cons. cbn [concat]. by rewrite IH, fmap_app. }
    rewrite concat_slices, take_ge; [done|].
    destruct Hpages as [(H0 & _ & H1)|[_ ->]]; [|cbn; lia]. nia.
Qed.
End pages.
(** The same when what is shown of a row depends on the page it is on, told by a
    column that does not. *)
Lemma pages_items {Row T K} (rows : list Row) (itemAt : Z → Row → T) (proj : T → K) (key : Row → K) size :
  (Z.of_nat (length rows) < 2 ^ 63 - 1000)%Z → (∀ n r, proj (itemAt n r) = key r) →
  proj <$> concat (Page_Items <$> ((λ n, newPage (Build_Pageable n size) rows (itemAt n))
    <$> seqZ 1 (TotalPages (newPage (Build_Pageable 1 size) rows (itemAt 1%Z))))) = key <$> rows.
Proof.
  intros Hlen Hproj. rewrite <-(pages_concat rows key size Hlen). change (TotalPages (newPage _ rows key))
    with (TotalPages (newPage (Build_Pageable 1 size) rows (itemAt 1%Z))).
  generalize (seqZ 1 (TotalPages (newPage (Build_Pageable 1 size) rows (itemAt 1%Z)))). intros l.
  induction l as [|n l IH]; [done|]. rewrite !fmap_cons. cbn [concat]. rewrite fmap_app, IH. f_equal.
  cbn [newPage Page_New Page_Items]. rewrite <-list_fmap_compose. apply list_fmap_ext. intros _ r _. apply Hproj.
Qed.
Lemma elem_of_page {Row T} (rows : list Row) p (item : Row → T) x :
  x ∈ Page_Items (newPage p rows item) → ∃ r, r ∈ applyPageable p rows ∧ r ∈ rows ∧ x = item r.
Proof.
  intros (r & -> & Hr)%list_elem_of_fmap. exists r. split_and!; [done| |done]. unfold applyPageable in Hr.
  by apply subseteq_take, subseteq_drop in Hr.
Qed.

(** ** The work list *)
Section worklist.
Context `{!Host}.

(** The list without filters, [n]-th page. *)
Definition pendingQuery (user : string) (size n : Z) : FindMyPendingTasksQuery :=
  Build_FindMyPendingTasksQuery (Build_Pageable n size) (Build_MyTaskFilter None None None None) user None None None.
Definition isMine (user : string) (t : Task) : bool := (Task_AssigneeID t ==? user) && (Task_Status t ==? TaskPending).

(** A row is all there is under its key. *)
Lemma tselect_key {Row} (key : Row → string) k (l : list Row) r :
  NoDup (key <$> l) → r ∈ l → key r = k → tselect (λ x, k ==? key x) l = [r].
Proof.
  unfold tselect. induction l as [|x l IH]; [by intros _ ?%elem_of_nil|]. cbn. intros [Hx Hd]%NoDup_cons Hr Hk.
  apply elem_of_cons in Hr as [->|Hr].
  - rewrite bool_decide_eq_true_2 by done. f_equal. apply tselect_nil. intros y Hy. apply bool_decide_eq_false.
    intros ->. apply Hx. rewrite Hk. by apply list_elem_of_fmap_2.
  - rewrite bool_decide_eq_false_2; [by apply IH|]. intros ->. apply Hx. rewrite <-Hk. by apply list_elem_of_fmap_2.
Qed.
Lemma task_instance s t : disciplined s → t ∈ db_tasks s → ∃ i, i ∈ db_instances s ∧ Instance_ID i = Task_InstanceID t.
Proof.
  intros Hd Ht. pose proof (refs_tasks _ (disc_refs _ Hd) t Ht) as Hne. unfold instancesOf in Hne.
  destruct (tselect _ _) as [|i l] eqn:Hs; [done|]. exists i.
  assert (i ∈ tselect (λ i, Instance_ID i ==? Task_InstanceID t) (db_instances s)) as Hi by (rewrite Hs; apply list_elem_of_here).
  apply elem_of_tselect in Hi as [Hi%bool_decide_eq_true ?]. done.
Qed.
Lemma instances_distinct s : disciplined s → NoDup (Instance_ID <$> db_instances s).
Proof. intros Hd. apply (wf_instances _ (disc_wf _ Hd)). Qed.

(** Joining the instances keeps every task once. *)
Lemma pending_rows s user size n :
  disciplined s →
  (tselect (pendingTaskMatches (pendingQuery user size n)) (joinTaskInstance s)).*1 = tselect (isMine user) (db_tasks s).
Proof.
  intros Hd. unfold joinTaskInstance. assert (∀ t, t ∈ db_tasks s → t ∈ db_tasks s) as Hall by done. revert Hall.
  generalize (db_tasks s) at 1 3 4. intros l. induction l as [|t l IH]; intros Hall; [done|].
  destruct (task_instance s t Hd) as (i & Hi & HI); [apply Hall; set_solver|]. cbn [flat_map].
  rewrite (tselect_key Instance_ID _ _ i (instances_distinct s Hd) Hi HI). rewrite tselect_app, fmap_app, IH by set_solver.
  assert (pendingTaskMatches (pendingQuery user size n) (t, i) = isMine user t) as Hm.
  { unfold pendingTaskMatches, isMine, MyTaskFilter_apply. cbn [pendingQuery fmp_UserID fmp_IsTimeout fmp_CreatedAtFrom
      fmp_CreatedAtTo fmp_Filter mtf_Keyword mtf_ApplicantID mtf_ApplicantName mtf_FlowID applyIf fst snd].
    by rewrite !andb_true_r. }
  unfold tselect. cbn. rewrite Hm. by destruct (isMine user t).
Qed.
(** Every item names the instance its task belongs to. *)
Lemma pendingTask_instance s tasks t i :
  disciplined s → t ∈ tasks → i ∈ db_instances s → Task_InstanceID t = Instance_ID i →
  let item := pendingTask (tasksEnrichment s tasks) t in
  PendingTask_InstanceID item = Instance_ID i ∧ PendingTask_InstanceTitle item = Instance_Title i ∧
  PendingTask_InstanceNo item = Instance_InstanceNo i ∧ PendingTask_Applicant item = Applicant i.
Proof.
  intros Hd Ht Hi HI. unfold pendingTask, tasksEnrichment, loadEnrichmentMaps, enrichedInstance. cbn.
  assert (loadByIDs Instance_ID (Task_InstanceID <$> tasks) (db_instances s) !! Task_InstanceID t = Some i) as ->; [|done].
  unfold loadByIDs. apply (byKey_lookup Instance_ID (λ x, x)).
  - by apply NoDup_key_tselect, instances_distinct.
  - exists i. split; [|done]. apply elem_of_tselect. split; [|done]. apply bool_decide_eq_true. rewrite <-HI.
    by apply list_elem_of_fmap_2.
Qed.
End worklist.

(** C22. The work list is complete, and the badge agrees with it: after any commands
    and jobs, the pages of a person's pending tasks, read one after the other, hold
    every task pending with that person exactly once, at most a thousand to a page,
    each with the number, title and applicant of its own instance; and the total the
    list announces is the number the badge shows. *)
Theorem pending_list_is_complete `{!Host} s0 s user size :
  genesis s0 → reachable s0 s → (Z.of_nat (length (db_tasks s)) < 2 ^ 63 - 1000)%Z →
  ∃ first counts pages,
    FindMyPendingTasksHandler_Handle (pendingQuery user size 1) s = Ok (first, s) ∧
    GetMyPendingCountsHandler_Handle user s = Ok (counts, s) ∧
    Page_Total first = PendingCounts_PendingTaskCount counts ∧
    Forall2 (λ n page, FindMyPendingTasksHandler_Handle (pendingQuery user size n) s = Ok (page, s))
      (seqZ 1 (TotalPages first)) pages ∧
    Forall (λ page, length (Page_Items page) ≤ 1000) pages ∧
    PendingTask_TaskID <$> concat (Page_Items <$> pages)
      ≡ₚ Task_ID <$> tselect (λ t, (Task_AssigneeID t ==? user) && (Task_Status t ==? TaskPending)) (db_tasks s) ∧
    (∀ item, item ∈ concat (Page_Items <$> pages) → ∃ t i,
       t ∈ db_tasks s ∧ i ∈ db_instances s ∧ Task_InstanceID t = Instance_ID i ∧ PendingTask_TaskID item = Task_ID t ∧
       PendingTask_InstanceNo item = Instance_InstanceNo i ∧ PendingTask_InstanceTitle item = Instance_Title i ∧
       PendingTask_Applicant item = Applicant i).
Proof.
  intros Hg Hr Hlen. pose proof (reachable_orderly _ _ Hg Hr) as Hd.
  set (rows := orderByDesc Task_CreatedAt (tselect (isMine user) (db_tasks s))).
  set (pageAt := λ n, let p := Build_Pageable n size in
    newPage p rows (pendingTask (tasksEnrichment s (applyPageable p rows)))).
  assert (rows ≡ₚ tselect (isMine user) (db_tasks s)) as Hperm.
  { unfold rows, orderByDesc. by rewrite reverse_Permutation, orderBy_Permutation. }
  assert (∀ n, FindMyPendingTasksHandler_Handle (pendingQuery user size n) s = Ok (pageAt n, s)) as Hrun.
  { intros n. unfold FindMyPendingTasksHandler_Handle, gets. by rewrite pending_rows. }
  assert (Z.of_nat (length rows) < 2 ^ 63 - 1000)%Z as Hrows.
  { rewrite Hperm. unfold tselect. pose proof (List.filter_length_le (isMine user) (db_tasks s)). lia. }
  eexists (pageAt 1%Z), _, (pageAt <$> seqZ 1 (TotalPages (pageAt 1%Z))). split_and!.
  - apply Hrun.
  - reflexivity.
  - cbn. f_equal. by rewrite Hperm.
  - apply Forall2_fmap_r, Forall_Forall2_diag, Forall_forall. intros n _. apply Hrun.
  - apply Forall_fmap, Forall_forall. intros n _. cbn. unfold applyPageable. rewrite length_fmap, length_take.
    pose proof (Normalize_size (Build_Pageable n size)). lia.
  - transitivity (Task_ID <$> rows); [|by rewrite Hperm].
    by rewrite <-(pages_items rows (λ n, pendingTask (tasksEnrichment s (applyPageable (Build_Pageable n size) rows)))
      PendingTask_TaskID Task_ID size Hrows).
  - intros item (page & Hpage%list_elem_of_In & Hitem%list_elem_of_In)%list_elem_of_In%in_concat. apply list_elem_of_fmap in Hpage as (? & -> & Hpage).
    apply list_elem_of_fmap in Hpage as (n & -> & _). apply elem_of_page in Hitem as (t & Hon & Ht & ->).
    rewrite Hperm in Ht. apply elem_of_tselect in Ht as [_ Ht]. destruct (task_instance s t Hd Ht) as (i & Hi & HI).
    destruct (pendingTask_instance s _ t i Hd Hon Hi (eq_sym HI)) as (_ & ? & ? & ?). by exists t, i.
Qed.

(** ** The flows one may start *)
Section startable.
Context `{!Host}.

Lemma filter_twice {A} (p q : A → bool) (l : list A) :
  List.filter p (List.filter q l) = List.filter (λ x, q x && p x) l.
Proof. induction l as [|x l IH]; [done|]. cbn. destruct (q x); cbn; rewrite IH; done. Qed.
(** The gate of one flow, on all its rules. *)
Definition admission (s : St) (tenantID : string) (applicant : UserInfo) (f : Flow) : res bool :=
  let rules := tselect (λ i, FlowInitiator_FlowID i ==? Flow_ID f) (db_initiators s) in
  if Flow_IsAllInitiationAllowed f then Ok true
  else if (length rules =? 0)%nat then Ok false
  else PermitsAny rules (Flow_ID f) tenantID applicant.
Lemma rulesByFlow_all s flows f :
  f ∈ flows → Flow_IsAllInitiationAllowed f = false →
  rulesByFlow s flows (Flow_ID f) = tselect (λ i, FlowInitiator_FlowID i ==? Flow_ID f) (db_initiators s).
Proof.
  intros Hf Hall. unfold rulesByFlow, tselect. rewrite filter_twice. apply List.filter_ext. intros i.
  destruct (FlowInitiator_FlowID i ==? Flow_ID f) eqn:Hi; [|by rewrite andb_false_r].
  apply bool_decide_eq_true in Hi. rewrite andb_true_r. apply bool_decide_eq_true. rewrite Hi.
  apply list_elem_of_fmap_2, list_elem_of_In, List.filter_In. rewrite <-list_elem_of_In. by rewrite Hall.
Qed.
Lemma initiableLoop_spec s flows applicant tenantID l ids :
  (∀ f, f ∈ l → f ∈ flows) → initiableLoop (rulesByFlow s flows) l tenantID applicant = Ok ids →
  ∀ x, x ∈ ids ↔ ∃ f, f ∈ l ∧ Flow_ID f = x ∧ admission s tenantID applicant f = Ok true.
Proof.
  revert ids. induction l as [|f l IH]; intros ids Hsub Hids; cbn in Hids.
  { injection Hids as <-. intros x. split; [by intros ?%elem_of_nil|]. by intros (? & ?%elem_of_nil & _). }
  assert ((if Flow_IsAllInitiationAllowed f then Ok true
           else if (length (rulesByFlow s flows (Flow_ID f)) =? 0)%nat then Ok false
           else PermitsAny (rulesByFlow s flows (Flow_ID f)) (Flow_ID f) tenantID applicant)
          = admission s tenantID applicant f) as Hadm.
  { unfold admission. destruct (Flow_IsAllInitiationAllowed f) eqn:Hall; [done|].
    rewrite (rulesByFlow_all s flows f); [done|apply Hsub; set_solver|done]. }
  rewrite Hadm in Hids. destruct (admission s tenantID applicant f) as [b|e] eqn:Hb; [|done]. cbn in Hids.
  destruct (initiableLoop _ l tenantID applicant) as [rest|e]; [|done]. injection Hids as <-.
  intros x. transitivity (b = true ∧ x = Flow_ID f ∨ x ∈ rest).
  - destruct b; rewrite ?elem_of_cons; naive_solver.
  - rewrite (IH rest) by (done || set_solver). split.
    + intros [[-> ->]|(g & Hg & Hid & Ha)]; [exists f|exists g]; split_and!; try done; set_solver.
    + intros (g & [->|Hg]%elem_of_cons & Hid & Ha); [left|right; by exists g]. split; congruence.
Qed.
Lemma CheckInitiationPermission_spec s f tenantID applicant s' :
  CheckInitiationPermission f tenantID applicant s = Ok (true, s') ↔ s' = s ∧ admission s tenantID applicant f = Ok true.
Proof.
  unfold CheckInitiationPermission, InitiableFlowIDs, mbind, SE_bind, gets, mret, SE_ret, liftR.
  assert (initiableLoop (rulesByFlow s [f]) [f] tenantID applicant
    = admitted ← admission s tenantID applicant f; Ok (if admitted : bool then [Flow_ID f] else [])) as ->.
  { cbn. unfold admission. destruct (Flow_IsAllInitiationAllowed f) eqn:Hall; [done|].
    by rewrite (rulesByFlow_all s [f] f) by (done || set_solver). }
  destruct (admission s tenantID applicant f) as [[]|e]; cbn; naive_solver.
Qed.

(** The flow a code names in a tenant: its own, or the shared one it has not replaced. *)
Definition namedIn (s : St) (tenantID : string) (f : Flow) : Prop :=
  f ∈ db_flows s ∧
  (Flow_TenantID f = tenantID ∨
   Flow_IsShared f = true ∧ ∀ g, g ∈ db_flows s → Flow_Code g = Flow_Code f → Flow_TenantID g ≠ tenantID).
Lemma pickStartFlow_spec tenantID l acc :
  match pickStartFlow tenantID l acc with
  | None => l = [] ∧ acc = None
  | Some f => f ∈ l ∧ Flow_TenantID f = tenantID ∨
      (∀ g, g ∈ l → Flow_TenantID g ≠ tenantID) ∧ (f ∈ l ∨ l = [] ∧ acc = Some f)
  end.
Proof.
  revert acc. induction l as [|x l IH]; intros acc; cbn.
  { destruct acc; [right|done]. split; [by intros ? ?%elem_of_nil|by right]. }
  destruct (Flow_TenantID x ==? tenantID) eqn:Hx.
  - apply bool_decide_eq_true in Hx. left. split; [apply list_elem_of_here|done].
  - apply bool_decide_eq_false in Hx. specialize (IH (Some x)).
    destruct (pickStartFlow tenantID l (Some x)) as [f|]; [|by destruct IH].
    destruct IH as [[Hf Ht]|[Hno Hf]]; [left; split; [set_solver|done]|].
    right. split; [intros g [->|Hg]%elem_of_cons; auto|]. left. destruct Hf as [Hf|[-> [= ->]]]; set_solver.
Qed.
Lemma elem_of_startFlows s tenantID code f :
  f ∈ tselect (λ f, (Flow_Code f ==? code) && ((Flow_TenantID f ==? tenantID) || Flow_IsShared f)) (db_flows s) ↔
  f ∈ db_flows s ∧ Flow_Code f = code ∧ (Flow_TenantID f = tenantID ∨ Flow_IsShared f = true).
Proof. rewrite elem_of_tselect, andb_true_iff, orb_true_iff, !bool_decide_eq_true. tauto. Qed.
Lemma same_flow s f g :
  tidy s → f ∈ db_flows s → g ∈ db_flows s → Flow_Code f = Flow_Code g →
  Flow_TenantID f = Flow_TenantID g ∨ Flow_IsShared f = true ∧ Flow_IsShared g = true → f = g.
Proof.
  intros [_ _ Hc Hs _ _] [i Hi]%list_elem_of_lookup [j Hj]%list_elem_of_lookup Hcode [Ht|[Sf Sg]].
  - assert (i = j) as ->; [|congruence]. eapply (NoDup_lookup _ i j (flowKey f) Hc); rewrite list_lookup_fmap.
    + by rewrite Hi.
    + rewrite Hj. cbn. unfold flowKey. by rewrite Ht, Hcode.
  - assert (i = j) as ->; [|congruence].
    eapply (NoDup_omap_lookup sharedCode _ i j f g (Flow_Code f) Hs Hi Hj); unfold sharedCode.
    + by rewrite Sf.
    + by rewrite Sg, Hcode.
Qed.
Lemma FindStartFlow_spec s tenantID code f s' :
  tidy s →
  FindStartFlow tenantID code s = Ok (f, s') ↔ s' = s ∧ Flow_Code f = code ∧ namedIn s tenantID f.
Proof.
  intros Htidy. unfold FindStartFlow. rewrite gets_seq.
  pose proof (pickStartFlow_spec tenantID (tselect (λ f, (Flow_Code f ==? code)
    && ((Flow_TenantID f ==? tenantID) || Flow_IsShared f)) (db_flows s)) None) as Hpick.
  destruct (pickStartFlow tenantID _ None) as [g|].
  - assert (Flow_Code g = code ∧ namedIn s tenantID g) as [Hg Hn].
    { destruct Hpick as [[Hg Ht]|[Hno [Hg|[_ [=]]]]]; pose proof Hg as (Hin & Hcode & Hor)%elem_of_startFlows.
      - split; [done|]. split; [done|by left].
      - split; [done|]. split; [done|]. right. split; [destruct Hor; [by destruct (Hno g)|done]|].
        intros x Hx Hc Hxt. apply (Hno x); [|done]. apply elem_of_startFlows. split_and!; [done|congruence|by left]. }
    split; [intros [= <- <-]; done|]. intros (-> & Hc & Hf). assert (g = f) as ->; [|reflexivity].
    destruct Hn as [Hgin Hg'], Hf as [Hfin Hf']. apply (same_flow s); try done; [congruence|].
    destruct Hg' as [Hg'|[Sg Hg']], Hf' as [Hf'|[Sf Hf']]; [left; congruence| | |by right].
    + by destruct (Hf' g Hgin ltac:(congruence)).
    + by destruct (Hg' f Hfin ltac:(congruence)).
  - split; [done|]. intros (_ & Hc & Hin & Hor). destruct Hpick as [Hnil _]. exfalso.
    apply (elem_of_nil f). rewrite <-Hnil. apply elem_of_startFlows. split_and!; [done|done|tauto].
Qed.
(** What the list considers, flow by flow. *)
Lemma elem_of_loadStartableFlows s tenantID keyword labels f :
  f ∈ loadStartableFlows s tenantID keyword labels ↔
  namedIn s tenantID f ∧ Flow_IsActive f = true ∧ applyIf keyword (sqlContains (Flow_Name f)) = true ∧
  labelsEqual labels f = true ∧
  ∃ v, v ∈ db_versions s ∧ FlowVersion_FlowID v = Flow_ID f ∧ FlowVersion_Status v = VersionPublished.
Proof.
  unfold loadStartableFlows. cbn zeta. set (flows := tselect (λ f, (_ || _) && _ && _ && _) (db_flows s)).
  set (sharedCodes := Flow_Code <$> List.filter _ flows). set (taken := list_to_set (Flow_Code <$> tselect _ _)).
  set (kept := List.filter (λ f, negb (_ && _)) flows).
  assert (f ∈ flows ↔ f ∈ db_flows s ∧ (Flow_TenantID f = tenantID ∨ Flow_IsShared f = true) ∧ Flow_IsActive f = true
    ∧ applyIf keyword (sqlContains (Flow_Name f)) = true ∧ labelsEqual labels f = true) as Hflows.
  { unfold flows. rewrite elem_of_tselect, !andb_true_iff, orb_true_iff, bool_decide_eq_true. tauto. }
  assert (f ∈ kept ↔ f ∈ flows ∧ (Flow_TenantID f ≠ tenantID → Flow_Code f ∉ taken)) as Hkept.
  { unfold kept. rewrite list_elem_of_In, List.filter_In, <-list_elem_of_In, negb_true_iff, andb_false_iff.
    rewrite negb_false_iff, bool_decide_eq_true, bool_decide_eq_false.
    destruct (decide (Flow_TenantID f = tenantID)); tauto. }
  assert (f ∈ flows → Flow_TenantID f ≠ tenantID → Flow_Code f ∉ taken ↔
    ∀ g, g ∈ db_flows s → Flow_Code g = Flow_Code f → Flow_TenantID g ≠ tenantID) as Htaken.
  { intros Hf Hown. assert (Flow_Code f ∈ sharedCodes) as Hshared.
    { apply list_elem_of_fmap_2, list_elem_of_In, List.filter_In. rewrite <-list_elem_of_In. split; [done|].
      by apply negb_true_iff, bool_decide_eq_false. }
    unfold taken. rewrite elem_of_list_to_set, list_elem_of_fmap. setoid_rewrite elem_of_tselect.
    setoid_rewrite andb_true_iff. setoid_rewrite bool_decide_eq_true. split.
    - intros Hno g Hg Hc Ht. apply Hno. exists g. by rewrite Hc.
    - intros Hno (g & Hc & [Ht _] & Hg). by apply (Hno g). }
  rewrite list_elem_of_In, List.filter_In, <-list_elem_of_In, bool_decide_eq_true.
  unfold loadPublishedFlowIDs, namedIn. rewrite elem_of_list_to_set, list_elem_of_fmap. setoid_rewrite elem_of_tselect.
  setoid_rewrite andb_true_iff. setoid_rewrite bool_decide_eq_true. split.
  - intros [Hk (v & Hv & [_ Hp] & Hin)]. apply Hkept in Hk as [Hf Hno]. pose proof Hf as (? & Hor & ? & ? & ?)%Hflows.
    split_and!; try done; [|by exists v]. destruct (decide (Flow_TenantID f = tenantID)); [by left|right].
    split; [tauto|]. by apply Htaken, Hno.
  - intros ([Hin Hor] & ? & ? & ? & v & Hv & Hvf & Hp). assert (f ∈ kept) as Hk.
    { apply Hkept. assert (f ∈ flows) as Hf by (apply Hflows; tauto). split; [done|]. intros Hown.
      apply Htaken; [done|done|]. tauto. }
    split; [done|]. exists v. split_and!; [done| |done|done]. rewrite Hvf. by apply list_elem_of_fmap_2.
Qed.
Lemma GetStartForm_spec s code applicant caller tenantID x :
  tidy s → ResolveWriteTenant caller "" = Ok tenantID →
  (∃ form, GetStartFormHandler_Handle code applicant caller s = Ok (form, s) ∧ StartForm_FlowID form = x) ↔
  ∃ f, Flow_ID f = x ∧ Flow_Code f = code ∧ namedIn s tenantID f ∧ Flow_IsActive f = true ∧
    admission s tenantID applicant f = Ok true ∧
    ∃ v, v ∈ db_versions s ∧ FlowVersion_FlowID v = Flow_ID f ∧ FlowVersion_Status v = VersionPublished.
Proof.
  intros Htidy Ht. unfold GetStartFormHandler_Handle. rewrite Ht. split.
  - intros (form & Hrun & Hx). rewrite (read_seq _ _ s tenantID) in Hrun by done. step Hrun as f s1 Ef.
    apply FindStartFlow_spec in Ef as (-> & Hc & Hn); [|done]. apply throwIf_seq in Hrun as [Ha%negb_false_iff Hrun].
    step Hrun as ok s2 Eok. apply throwIf_seq in Hrun as [->%negb_false_iff Hrun].
    apply CheckInitiationPermission_spec in Eok as [-> Hadm]. apply orThrow_seq in Hrun as (v & Hv & Hrun).
    injection Hrun as <-. exists f. split_and!; try done. apply tfirst_Some in Hv as [Hv Hm].
    apply andb_true_iff in Hm as [?%bool_decide_eq_true ?%bool_decide_eq_true]. by exists v.
  - intros (f & Hx & Hc & Hn & Ha & Hadm & w & Hw & Hwf & Hwp).
    destruct (tfirst (λ v, (FlowVersion_FlowID v ==? Flow_ID f) && (FlowVersion_Status v ==? VersionPublished))
      (db_versions s)) as [v|] eqn:Hv.
    2:{ rewrite tfirst_None in Hv. specialize (Hv w Hw). by rewrite Hwf, Hwp, !bool_decide_eq_true_2 in Hv. }
    eexists. split.
    + rewrite (read_seq _ _ s tenantID) by done. rewrite (read_seq _ _ s f) by (by apply FindStartFlow_spec).
      apply throwIf_seq. split; [by apply negb_false_iff|].
      rewrite (read_seq _ _ s true) by (by apply CheckInitiationPermission_spec). apply throwIf_seq. split; [done|].
      apply orThrow_seq. exists v. split; [done|reflexivity].
    + done.
Qed.
Definition availableQuery (q : FindAvailableFlowsQuery) (n : Z) : FindAvailableFlowsQuery :=
  Build_FindAvailableFlowsQuery (Build_Pageable n (Pageable_Size (faf_Pageable q))) (faf_UserID q)
    (faf_ApplicantDepartmentID q) (faf_Keyword q) (faf_Labels q) (faf_Caller q).
(** Once the list loads, all its pages are slices of one list of rows. *)
Lemma FindAvailableFlows_pages s q page s1 :
  FindAvailableFlowsHandler_Handle q s = Ok (page, s1) →
  let applicant := Build_UserInfo (faf_UserID q) "" (faf_ApplicantDepartmentID q) None in
  ∃ tenantID (ids : list string),
    ResolveWriteTenant (faf_Caller q) "" = Ok tenantID ∧
    (∀ x, x ∈ ids ↔ ∃ f, f ∈ loadStartableFlows s tenantID (faf_Keyword q) (faf_Labels q) ∧ Flow_ID f = x ∧
       admission s tenantID applicant f = Ok true) ∧
    let rows := orderByString Flow_Name (tselect (λ f, bool_decide (Flow_ID f ∈ ids)) (db_flows s)) in
    ∀ n, ∃ item page, FindAvailableFlowsHandler_Handle (availableQuery q n) s = Ok (page, s) ∧
      (∀ f, AvailableFlow_FlowID (item f) = Flow_ID f) ∧
      Page_Items page = Page_Items (newPage (Build_Pageable n (Pageable_Size (faf_Pageable q))) rows item).
Proof.
  intros Hrun applicant. unfold FindAvailableFlowsHandler_Handle in Hrun.
  destruct (ResolveWriteTenant (faf_Caller q) "") as [tenantID|e] eqn:Ht; [|done].
  rewrite (read_seq _ _ s tenantID), gets_seq in Hrun by done. step Hrun as ids s2 Eids. clear Hrun.
  unfold InitiableFlowIDs in Eids. rewrite gets_seq in Eids. apply liftR_Ok in Eids as [Eids ->].
  exists tenantID, ids. split; [done|]. split; [by eapply initiableLoop_spec|].
  intros rows n. unfold FindAvailableFlowsHandler_Handle. cbn [availableQuery faf_Caller faf_UserID faf_Pageable
    faf_ApplicantDepartmentID faf_Keyword faf_Labels]. rewrite Ht.
  destruct (length ids =? 0)%nat eqn:Hlen.
  - apply Nat.eqb_eq, length_zero_iff_nil in Hlen as ->. exists (availableFlow ∅). eexists. split_and!; [|done|].
    + rewrite (read_seq _ _ s tenantID), gets_seq by done. rewrite (read_seq _ _ s []); [reflexivity|].
      unfold InitiableFlowIDs. rewrite gets_seq. unfold liftR. by rewrite Eids.
    + cbn [Page_New Page_Items newPage]. assert (rows = []) as ->; [|by unfold applyPageable; rewrite drop_nil, take_nil].
      unfold rows. rewrite (proj2 (tselect_nil _ _)); [done|]. intros r _. apply bool_decide_eq_false.
      by intros ?%elem_of_nil.
  - eexists. eexists. split_and!.
    + rewrite (read_seq _ _ s tenantID), gets_seq by done. rewrite (read_seq _ _ s ids).
      * rewrite Hlen. reflexivity.
      * unfold InitiableFlowIDs. rewrite gets_seq. unfold liftR. by rewrite Eids.
    + shelve.
    + reflexivity.
  Unshelve. done.
Qed.
End startable.


Lemma pending_list_is_complete_witness :
  ∃ first counts pages,
    @FindMyPendingTasksHandler_Handle demoHost (pendingQuery "bob" 10 1) demoAsked = Ok (first, demoAsked) ∧
    GetMyPendingCountsHandler_Handle "bob" demoAsked = Ok (counts, demoAsked) ∧
    Page_Total first = PendingCounts_PendingTaskCount counts ∧
    Forall2 (λ n page, @FindMyPendingTasksHandler_Handle demoHost (pendingQuery "bob" 10 n) demoAsked = Ok (page, demoAsked))
      (seqZ 1 (TotalPages first)) pages ∧
    PendingTask_TaskID <$> concat (Page_Items <$> pages) ≡ₚ ["11"].
Proof.
  destruct (@pending_list_is_complete demoHost demoBlank demoAsked "bob" 10) as (first & counts & pages & H1 & H2 & H3 & H4 & _ & H6 & _).
  - exact demoBlank_genesis.
  - exact demoAsked_reachable.
  - vm_compute. reflexivity.
  - exists first, counts, pages. split; [exact H1|]. split; [exact H2|]. split; [exact H3|]. split; [exact H4|].
    assert (Task_ID <$> tselect (λ t, (Task_AssigneeID t ==? "bob") && (Task_Status t ==? TaskPending)) (db_tasks demoAsked)
      = ["11"]) as <- by (vm_compute; reflexivity). exact H6.
Defined.
Definition demoBrowse : FindAvailableFlowsQuery :=
  Build_FindAvailableFlowsQuery (Build_Pageable 1 10) "alice" None None ∅ demoCaller.
