(* ===== verification/Cache.v ===== *)
(** * The in-memory cache

    [cache/eviction.go] and [cache/memory.go]: the three policies that choose what to
    evict, over the linked lists of [container/list], and the cache that keeps a map,
    a size counter and a policy in step; [GetOrLoad] of [singleflight_mixin.go], the
    read-through cache of [invalidating.go] and the keys of [key_builder.go].

    A section the source runs under [memoryCache.mu] is one step here; a read outside
    it is split where another step can come between, see [cacheStep].  The clock is
    read through the argument [now], in nanoseconds. *)
From S2P Require Import Prelude.

(** ** [container/list]: elements have an identity of their own *)
Abbreviation element := nat.
Record List (A : Type) := { list_next : element; list_items : list (element * A) }.
Arguments list_next {A}.
Arguments list_items {A}.
Arguments Build_List {A}.
Section linked.
Context {A : Type}.
Definition list_New : List A := Build_List 0 [].
Definition list_Len (l : List A) : nat := length (list_items l).
Definition list_Front (l : List A) : option A := snd <$> head (list_items l).
Definition list_Back (l : List A) : option A := snd <$> last (list_items l).
Definition list_PushFront (v : A) (l : List A) : element * List A :=
  (list_next l, Build_List (S (list_next l)) ((list_next l, v) :: list_items l)).
Definition list_PushBack (v : A) (l : List A) : element * List A :=
  (list_next l, Build_List (S (list_next l)) (list_items l ++ [(list_next l, v)])).
Definition list_Remove (e : element) (l : List A) : List A :=
  Build_List (list_next l) (List.filter (λ x, negb (x.1 =? e)%nat) (list_items l)).
Definition list_MoveToFront (e : element) (l : List A) : List A :=
  Build_List (list_next l)
    (List.filter (λ x, (x.1 =? e)%nat) (list_items l) ++ List.filter (λ x, negb (x.1 =? e)%nat) (list_items l)).
(** [InsertBefore(v, mark)] of the first element that satisfies [p], else [PushBack]. *)
Fixpoint insertBeforeItems (p : A → bool) (x : element * A) (items : list (element * A)) : list (element * A) :=
  match items with
  | [] => [x]
  | y :: rest => if p y.2 then x :: items else y :: insertBeforeItems p x rest
  end.
(** What a pointer stored in the list points to changes in place. *)
Definition list_Alter (e : element) (f : A → A) (l : List A) : List A :=
  Build_List (list_next l) ((λ x, if (x.1 =? e)%nat then (x.1, f x.2) else x) <$> list_items l).
Definition list_Value (e : element) (l : List A) : option A :=
  snd <$> List.find (λ x, (x.1 =? e)%nat) (list_items l).
End linked.

(** ** [evictionPolicyHandler] *)
Inductive EvictionPolicy := EvictionPolicyNone | EvictionPolicyLRU | EvictionPolicyLFU | EvictionPolicyFIFO.
Class evictionPolicyHandler (H : Type) := {
  OnAccess : string → H → H;
  OnInsert : string → H → H;
  OnEvict : string → H → H;
  SelectEvictionCandidate : H → string;
  Reset : H → H;
}.

(** *** Least recently used *)
Record lruHandler := { accessList : List string; accessMap : gmap string element }.
Definition newLruHandler : lruHandler := Build_lruHandler list_New ∅.
Definition lru_OnAccess (key : string) (h : lruHandler) : lruHandler :=
  match accessMap h !! key with
  | Some elem => Build_lruHandler (list_MoveToFront elem (accessList h)) (accessMap h)
  | None => h
  end.
Definition lru_OnInsert (key : string) (h : lruHandler) : lruHandler :=
  match accessMap h !! key with
  | Some elem => Build_lruHandler (list_MoveToFront elem (accessList h)) (accessMap h)
  | None => let '(elem, l) := list_PushFront key (accessList h) in Build_lruHandler l (<[key := elem]> (accessMap h))
  end.
Definition lru_OnEvict (key : string) (h : lruHandler) : lruHandler :=
  match accessMap h !! key with
  | Some elem => Build_lruHandler (list_Remove elem (accessList h)) (delete key (accessMap h))
  | None => h
  end.
Definition lru_SelectEvictionCandidate (h : lruHandler) : string := default "" (list_Back (accessList h)).
Definition lru_Reset (h : lruHandler) : lruHandler := Build_lruHandler list_New ∅.
#[export] Instance lru_handler : evictionPolicyHandler lruHandler :=
  {| OnAccess := lru_OnAccess; OnInsert := lru_OnInsert; OnEvict := lru_OnEvict;
     SelectEvictionCandidate := lru_SelectEvictionCandidate; Reset := lru_Reset |}.

(** *** First in, first out *)
Record fifoHandler := { insertList : List string; insertMap : gmap string element }.
Definition newFifoHandler : fifoHandler := Build_fifoHandler list_New ∅.
Definition fifo_OnAccess (key : string) (h : fifoHandler) : fifoHandler := h.
Definition fifo_OnInsert (key : string) (h : fifoHandler) : fifoHandler :=
  match insertMap h !! key with
  | Some _ => h
  | None => let '(elem, l) := list_PushBack key (insertList h) in Build_fifoHandler l (<[key := elem]> (insertMap h))
  end.
Definition fifo_OnEvict (key : string) (h : fifoHandler) : fifoHandler :=
  match insertMap h !! key with
  | Some elem => Build_fifoHandler (list_Remove elem (insertList h)) (delete key (insertMap h))
  | None => h
  end.
Definition fifo_SelectEvictionCandidate (h : fifoHandler) : string := default "" (list_Front (insertList h)).
Definition fifo_Reset (h : fifoHandler) : fifoHandler := Build_fifoHandler list_New ∅.
#[export] Instance fifo_handler : evictionPolicyHandler fifoHandler :=
  {| OnAccess := fifo_OnAccess; OnInsert := fifo_OnInsert; OnEvict := fifo_OnEvict;
     SelectEvictionCandidate := fifo_SelectEvictionCandidate; Reset := fifo_Reset |}.

(** *** Least frequently used *)
Record lfuNode := { node_frequency : Z; node_insertOrder : Z }.
(** The entries of a bucket point to nodes; a node is named by its key, under which
    [keyToNode] holds it. *)
Record lfuFreqBucket := { frequency : Z; entries : List string; nodeMap : gmap string element }.
Record lfuHandler := {
  freqBuckets : List lfuFreqBucket;
  bucketMap : gmap Z element;
  keyToBucket : gmap string element;
  keyToNode : gmap string lfuNode;
  minFreq : Z;
  insertCounter : Z;
}.
Definition newLfuHandler : lfuHandler := Build_lfuHandler list_New ∅ ∅ ∅ 0 0.
Definition insertBucketSorted (bucket : lfuFreqBucket) (l : List lfuFreqBucket) : element * List lfuFreqBucket :=
  (list_next l, Build_List (S (list_next l))
    (insertBeforeItems (λ b, frequency bucket <? frequency b)%Z (list_next l, bucket) (list_items l))).
Definition pushEntry (key : string) (bucket : lfuFreqBucket) : lfuFreqBucket :=
  let '(nodeElem, l) := list_PushBack key (entries bucket) in
  Build_lfuFreqBucket (frequency bucket) l (<[key := nodeElem]> (nodeMap bucket)).
Definition addToFreqBucket (key : string) (freq : Z) (h : lfuHandler) : lfuHandler :=
  let '(bucketElem, buckets, map) :=
    match bucketMap h !! freq with
    | None => let '(e, l) := insertBucketSorted (Build_lfuFreqBucket freq list_New ∅) (freqBuckets h) in
              (e, l, <[freq := e]> (bucketMap h))
    | Some e => (e, freqBuckets h, bucketMap h)
    end in
  Build_lfuHandler (list_Alter bucketElem (pushEntry key) buckets) map (<[key := bucketElem]> (keyToBucket h))
    (keyToNode h) (minFreq h) (insertCounter h).
Definition removeFromFreqBucket (key : string) (freq : Z) (h : lfuHandler) : lfuHandler :=
  match bucketMap h !! freq with
  | None => h
  | Some bucketElem =>
      match list_Value bucketElem (freqBuckets h) with
      | None => h
      | Some bucket =>
          match nodeMap bucket !! key with
          | None => h
          | Some nodeElem =>
              let bucket' := Build_lfuFreqBucket (frequency bucket) (list_Remove nodeElem (entries bucket))
                               (delete key (nodeMap bucket)) in
              if (list_Len (entries bucket') =? 0)%nat then
                Build_lfuHandler (list_Remove bucketElem (freqBuckets h)) (delete freq (bucketMap h))
                  (keyToBucket h) (keyToNode h) (minFreq h) (insertCounter h)
              else
                Build_lfuHandler (list_Alter bucketElem (λ _, bucket') (freqBuckets h)) (bucketMap h)
                  (keyToBucket h) (keyToNode h) (minFreq h) (insertCounter h)
          end
      end
  end.
Definition moveToFreqBucket (key : string) (oldFreq newFreq : Z) (h : lfuHandler) : lfuHandler :=
  addToFreqBucket key newFreq (removeFromFreqBucket key oldFreq h).
Definition set_minFreq (f : Z) (h : lfuHandler) : lfuHandler :=
  Build_lfuHandler (freqBuckets h) (bucketMap h) (keyToBucket h) (keyToNode h) f (insertCounter h).
Definition set_keyToNode (m : gmap string lfuNode) (h : lfuHandler) : lfuHandler :=
  Build_lfuHandler (freqBuckets h) (bucketMap h) (keyToBucket h) m (minFreq h) (insertCounter h).
Definition recalculateMinFreq (h : lfuHandler) : lfuHandler :=
  match list_Front (freqBuckets h) with
  | None => set_minFreq 0 h
  | Some bucket => set_minFreq (frequency bucket) h
  end.
Definition lfu_OnAccess (key : string) (h : lfuHandler) : lfuHandler :=
  match keyToNode h !! key with
  | None => h
  | Some node =>
      let oldFreq := node_frequency node in
      let newFreq := (oldFreq + 1)%Z in
      let h := set_keyToNode (<[key := Build_lfuNode newFreq (node_insertOrder node)]> (keyToNode h)) h in
      let h := moveToFreqBucket key oldFreq newFreq h in
      if (oldFreq =? minFreq h)%Z then recalculateMinFreq h else h
  end.
Definition lfu_OnInsert (key : string) (h : lfuHandler) : lfuHandler :=
  match keyToNode h !! key with
  | Some _ => h
  | None =>
      let insertOrder := (insertCounter h + 1)%Z in
      let h := Build_lfuHandler (freqBuckets h) (bucketMap h) (keyToBucket h)
                 (<[key := Build_lfuNode 1 insertOrder]> (keyToNode h)) (minFreq h) insertOrder in
      set_minFreq 1 (addToFreqBucket key 1 h)
  end.
Definition lfu_OnEvict (key : string) (h : lfuHandler) : lfuHandler :=
  match keyToNode h !! key with
  | None => h
  | Some node =>
      let h := removeFromFreqBucket key (node_frequency node) h in
      let h := Build_lfuHandler (freqBuckets h) (bucketMap h) (delete key (keyToBucket h)) (delete key (keyToNode h))
                 (minFreq h) (insertCounter h) in
      if (node_frequency node =? minFreq h)%Z then recalculateMinFreq h else h
  end.
Definition lfu_SelectEvictionCandidate (h : lfuHandler) : string :=
  if (size (keyToNode h) =? 0)%nat then ""
  else match bucketMap h !! minFreq h with
       | None => ""
       | Some bucketElem =>
           default "" (list_Value bucketElem (freqBuckets h) ≫= λ bucket, list_Front (entries bucket))
       end.
Definition lfu_Reset (h : lfuHandler) : lfuHandler := newLfuHandler.
#[export] Instance lfu_handler : evictionPolicyHandler lfuHandler :=
  {| OnAccess := lfu_OnAccess; OnInsert := lfu_OnInsert; OnEvict := lfu_OnEvict;
     SelectEvictionCandidate := lfu_SelectEvictionCandidate; Reset := lfu_Reset |}.

(** *** The handler of a policy *)
Inductive Handler :=
  | noOpEvictionHandler
  | HandlerLRU (h : lruHandler)
  | HandlerLFU (h : lfuHandler)
  | HandlerFIFO (h : fifoHandler).
Definition newEvictionHandler (policy : EvictionPolicy) : Handler :=
  match policy with
  | EvictionPolicyLRU => HandlerLRU newLruHandler
  | EvictionPolicyLFU => HandlerLFU newLfuHandler
  | EvictionPolicyFIFO => HandlerFIFO newFifoHandler
  | EvictionPolicyNone => noOpEvictionHandler
  end.
(** Calls of the interface go to the handler behind it. *)
Definition dispatch (f : ∀ H, evictionPolicyHandler H → H → H) (h : Handler) : Handler :=
  match h with
  | noOpEvictionHandler => noOpEvictionHandler
  | HandlerLRU h => HandlerLRU (f _ _ h)
  | HandlerLFU h => HandlerLFU (f _ _ h)
  | HandlerFIFO h => HandlerFIFO (f _ _ h)
  end.
#[export] Instance any_handler : evictionPolicyHandler Handler :=
  {| OnAccess k := dispatch (λ H _, OnAccess k); OnInsert k := dispatch (λ H _, OnInsert k);
     OnEvict k := dispatch (λ H _, OnEvict k); Reset := dispatch (λ H _, Reset);
     SelectEvictionCandidate h := match h with
       | noOpEvictionHandler => ""
       | HandlerLRU h => SelectEvictionCandidate h
       | HandlerLFU h => SelectEvictionCandidate h
       | HandlerFIFO h => SelectEvictionCandidate h
       end |}.

(** ** The cache ([memory.go]) *)
Inductive CacheError := ErrMemoryLimitExceeded | ErrCacheClosed | ErrLoaderRequired | ErrLoad (message : string).
Record memoryConfig := { cfg_maxSize : Z; cfg_defaultTTL : Z; cfg_evictionPolicy : EvictionPolicy; cfg_gcInterval : Z }.
Definition defaultMemoryConfig : memoryConfig := Build_memoryConfig 0 0 EvictionPolicyLRU (5 * 60 * 10 ^ 9).

Section cache.
Context {T : Type}.

(** An entry is known by its address. *)
Record cacheEntry := { entry_address : nat; entry_data : T; entry_expiresAt : Z }.
Definition isExpired (now : Z) (e : cacheEntry) : bool :=
  if (entry_expiresAt e =? 0)%Z then false else (entry_expiresAt e <? now)%Z.
Record memoryCache := {
  mc_data : gmap string cacheEntry;
  mc_maxSize : Z;
  mc_defaultTTL : Z;
  mc_evictionPolicy : EvictionPolicy;
  mc_evictionHandler : Handler;
  mc_size : Z;
  mc_closed : bool;
  mc_next : nat;  (* the next address *)
}.
(** A size without a usable policy falls back to LRU, no size needs none. *)
Definition effectivePolicy (cfg : memoryConfig) : EvictionPolicy :=
  if (cfg_maxSize cfg <=? 0)%Z then EvictionPolicyNone
  else match cfg_evictionPolicy cfg with
       | EvictionPolicyLRU => EvictionPolicyLRU
       | EvictionPolicyLFU => EvictionPolicyLFU
       | EvictionPolicyFIFO => EvictionPolicyFIFO
       | EvictionPolicyNone => EvictionPolicyLRU
       end.
Definition newMemoryCache (cfg : memoryConfig) : memoryCache :=
  Build_memoryCache ∅ (cfg_maxSize cfg) (cfg_defaultTTL cfg) (effectivePolicy cfg)
    (newEvictionHandler (effectivePolicy cfg)) 0 false 0.

Definition with_data (data : gmap string cacheEntry) (h : Handler) (size : Z) (m : memoryCache) : memoryCache :=
  Build_memoryCache data (mc_maxSize m) (mc_defaultTTL m) (mc_evictionPolicy m) h size (mc_closed m) (mc_next m).
Definition with_handler (h : Handler) (m : memoryCache) : memoryCache := with_data (mc_data m) h (mc_size m) m.
(** [LoadAndDelete] with its accounting. *)
Definition dropEntry (key : string) (m : memoryCache) : memoryCache :=
  match mc_data m !! key with
  | Some _ => with_data (delete key (mc_data m)) (OnEvict key (mc_evictionHandler m)) (mc_size m - 1) m
  | None => m
  end.
Definition removeExpiredEntry (key : string) (entry : cacheEntry) (m : memoryCache) : memoryCache :=
  match mc_data m !! key with
  | Some current => if (entry_address current =? entry_address entry)%nat then dropEntry key m else m
  | None => m
  end.
Definition checkExpired (now : Z) (key : string) (entry : cacheEntry) (m : memoryCache) : bool * memoryCache :=
  if isExpired now entry then (true, removeExpiredEntry key entry m) else (false, m).
Definition memoryCache_Get (now : Z) (key : string) (m : memoryCache) : option T * memoryCache :=
  if mc_closed m then (None, m)
  else match mc_data m !! key with
       | None => (None, m)
       | Some entry =>
           let '(expired, m) := checkExpired now key entry m in
           if expired : bool then (None, m)
           else (Some (entry_data entry), with_handler (OnAccess key (mc_evictionHandler m)) m)
       end.
(** The loop that makes room, with the error returned, if any; [None] when [fuel]
    rounds were not enough. *)
Fixpoint makeRoom (fuel : nat) (m : memoryCache) : option (option CacheError * memoryCache) :=
  match fuel with
  | 0 => None
  | S fuel =>
      if (mc_maxSize m <=? mc_size m)%Z then
        let candidate := SelectEvictionCandidate (mc_evictionHandler m) in
        if bool_decide (candidate = "") then Some (Some ErrMemoryLimitExceeded, m)
        else makeRoom fuel (dropEntry candidate m)
      else Some (None, m)
  end.
Definition expireTimeNs (now : Z) (ttl : list Z) (m : memoryCache) : Z :=
  match ttl with
  | t :: _ => if (0 <? t)%Z then now + t else if (0 <? mc_defaultTTL m)%Z then now + mc_defaultTTL m else 0
  | [] => if (0 <? mc_defaultTTL m)%Z then now + mc_defaultTTL m else 0
  end%Z.
Definition storeEntry (now : Z) (key : string) (value : T) (ttl : list Z) (m : memoryCache) : memoryCache :=
  let exists_ := bool_decide (is_Some (mc_data m !! key)) in
  let data := <[key := Build_cacheEntry (mc_next m) value (expireTimeNs now ttl m)]> (mc_data m) in
  Build_memoryCache data (mc_maxSize m) (mc_defaultTTL m) (mc_evictionPolicy m)
    (if exists_ then OnAccess key (mc_evictionHandler m) else OnInsert key (mc_evictionHandler m))
    (if exists_ then mc_size m else mc_size m + 1)%Z (mc_closed m) (S (mc_next m)).
Definition memoryCache_Set (fuel : nat) (now : Z) (key : string) (value : T) (ttl : list Z) (m : memoryCache)
    : option (option CacheError * memoryCache) :=
  if mc_closed m then Some (Some ErrCacheClosed, m)
  else
    let room := if negb (bool_decide (is_Some (mc_data m !! key))) && (0 <? mc_maxSize m)%Z
                then makeRoom fuel m else Some (None, m) in
    match room with
    | None => None
    | Some (Some e, m) => Some (Some e, m)
    | Some (None, m) => Some (None, storeEntry now key value ttl m)
    end.
Definition memoryCache_Contains (now : Z) (key : string) (m : memoryCache) : bool * memoryCache :=
  if mc_closed m then (false, m)
  else match mc_data m !! key with
       | None => (false, m)
       | Some entry => let '(expired, m) := checkExpired now key entry m in (negb expired, m)
       end.
Definition memoryCache_Delete (key : string) (m : memoryCache) : memoryCache :=
  if mc_closed m then m else dropEntry key m.
Definition memoryCache_Clear (m : memoryCache) : memoryCache :=
  if mc_closed m then m else with_data ∅ (Reset (mc_evictionHandler m)) 0 m.
(** The clock is read anew for every entry. *)
Definition liveEntries (now : string → Z) (prefix : string) (m : memoryCache) : list (string * cacheEntry) :=
  List.filter (λ kv, String.prefix prefix kv.1 && negb (isExpired (now kv.1) kv.2)) (map_to_list (mc_data m)).
Definition memoryCache_Keys (now : string → Z) (prefix : string) (m : memoryCache) : list string :=
  if mc_closed m then [] else (liveEntries now prefix m).*1.
Fixpoint forEachLoop {S} (callback : string → T → S → bool * S) (kvs : list (string * cacheEntry)) (s : S) : S :=
  match kvs with
  | [] => s
  | (k, e) :: rest => let '(go, s) := callback k (entry_data e) s in if go : bool then forEachLoop callback rest s else s
  end.
Definition memoryCache_ForEach {S} (now : string → Z) (callback : string → T → S → bool * S) (prefix : string)
    (m : memoryCache) (s : S) : S :=
  if mc_closed m then s else forEachLoop callback (liveEntries now prefix m) s.
Definition memoryCache_Size (m : memoryCache) : Z := if mc_closed m then 0 else mc_size m.
Definition memoryCache_Close (m : memoryCache) : memoryCache :=
  Build_memoryCache (mc_data m) (mc_maxSize m) (mc_defaultTTL m) (mc_evictionPolicy m) (mc_evictionHandler m) (mc_size m)
    true (mc_next m).
(** [cleanupExpired]: first a scan, then the removal of what it found. *)
Definition staleEntries (now : string → Z) (m : memoryCache) : list (string * cacheEntry) :=
  List.filter (λ kv, isExpired (now kv.1) kv.2) (map_to_list (mc_data m)).
Definition cleanupExpired (now : string → Z) (m : memoryCache) : memoryCache :=
  if mc_closed m then m else foldl (λ m kv, removeExpiredEntry kv.1 kv.2 m) m (staleEntries now m).

(** ** Loading what is missing *)

(** [SingleflightMixin.GetOrLoad], one caller at a time. *)
Definition GetOrLoad (fuel : nat) (now : Z) (key : string) (loader : option (result CacheError T)) (ttl : list Z)
    (m : memoryCache) : option (result CacheError T * memoryCache) :=
  match loader with
  | None => Some (Err ErrLoaderRequired, m)
  | Some load =>
      let '(found, m) := memoryCache_Get now key m in
      match found with
      | Some value => Some (Ok value, m)
      | None =>
          let '(found, m) := memoryCache_Get now key m in
          match found with
          | Some value => Some (Ok value, m)
          | None =>
              match load with
              | Err e => Some (Err e, m)
              | Ok value =>
                  match memoryCache_Set fuel now key value ttl m with
                  | None => None
                  | Some (Some e, m) => Some (Err e, m)
                  | Some (None, m) => Some (Ok value, m)
                  end
              end
          end
      end
  end.
(** [Invalidating] over a loader. *)
Definition Invalidating_Get (fuel : nat) (now : Z) (loader : string → result CacheError T) (key : string)
    (m : memoryCache) : option (result CacheError T * memoryCache) :=
  GetOrLoad fuel now key (Some (loader key)) [] m.
Definition Invalidate (keys : list string) (m : memoryCache) : memoryCache :=
  match keys with
  | [] => memoryCache_Clear m
  | _ => foldl (λ m k, memoryCache_Delete k m) m keys
  end.

(** ** What can happen, from any thread

    A [Get] or [Contains] reads the map outside the lock; the removal of an expired
    entry and the note to the policy come later, when the map may have changed.  So
    the late steps may concern any entry and any key. *)
Inductive cacheStep :=
  | StepSet (now : Z) (key : string) (value : T) (ttl : list Z)
  | StepDelete (key : string)
  | StepClear
  | StepExpire (key : string) (entry : cacheEntry)
  | StepAccess (key : string)
  | StepClose.
(** Every entry is in the map, so one round more than that always suffices. *)
Definition roomFuel (m : memoryCache) : nat := S (size (mc_data m)).
Definition runStep (m : memoryCache) (st : cacheStep) : memoryCache :=
  match st with
  | StepSet now key value ttl =>
      match memoryCache_Set (roomFuel m) now key value ttl m with Some (_, m') => m' | None => m end
  | StepDelete key => memoryCache_Delete key m
  | StepClear => memoryCache_Clear m
  | StepExpire key entry => removeExpiredEntry key entry m
  | StepAccess key => with_handler (OnAccess key (mc_evictionHandler m)) m
  | StepClose => memoryCache_Close m
  end.
End cache.
Arguments cacheEntry : clear implicits.
Arguments memoryCache : clear implicits.
Arguments cacheStep : clear implicits.

(** ** Keys ([key_builder.go]) *)
Record PrefixKeyBuilder := { kb_prefix : string; kb_separator : string }.
Definition NewPrefixKeyBuilder (prefix : string) : PrefixKeyBuilder := Build_PrefixKeyBuilder prefix ":".
Definition Build (k : PrefixKeyBuilder) (keyParts : list string) : string :=
  if bool_decide (kb_prefix k = "") then String.concat (kb_separator k) keyParts
  else match keyParts with
       | [] => kb_prefix k
       | _ => String.append (kb_prefix k) (String.append (kb_separator k) (String.concat (kb_separator k) keyParts))
       end.
