(* ===== verification/Eviction.v ===== *)
(** * What the eviction policies promise

    Every policy keeps the order its name says, stated against a ledger of what
    happened to each key ([EvictionLaws]). *)
From S2P Require Import Prelude Cache.

(** ** Lists and the maps that index them *)
Definition values {A} (l : List A) : list A := (list_items l).*2.
Lemma list_Front_values {A} (l : List A) : list_Front l = head (values l).
Proof. by destruct l as [n []]. Qed.
Lemma list_Back_values {A} (l : List A) : list_Back l = last (values l).
Proof. unfold list_Back, values. by rewrite <-fmap_last. Qed.
Section index.
Context {A K : Type} `{Countable K} (key : A → K).
Record indexed (l : List A) (m : gmap K element) : Prop := {
  ix_ids : NoDup (list_items l).*1;
  ix_next : ∀ x, x ∈ list_items l → x.1 < list_next l;
  ix_keys : NoDup (key <$> values l);
  ix_map : ∀ k (e : element), m !! k = Some e ↔ ∃ a : A, (e, a) ∈ list_items l ∧ key a = k;
}.
Lemma elem_of_values (l : List A) a : a ∈ values l ↔ ∃ e, (e, a) ∈ list_items l.
Proof.
  unfold values. rewrite list_elem_of_fmap. split; [intros ([e x] & -> & Hx); by exists e|].
  intros [e He]. by exists (e, a).
Qed.
Lemma indexed_new : indexed list_New ∅.
Proof.
  constructor; cbn; [constructor|set_solver|constructor|]. intros k e. rewrite lookup_empty. split; [done|].
  by intros (a & ?%elem_of_nil & _).
Qed.
(** The order of the items does not matter. *)
Lemma indexed_perm l m items :
  indexed l m → items ≡ₚ list_items l → indexed (Build_List (list_next l) items) m.
Proof.
  intros [H1 H2 H3 H4] Hp. constructor; cbn.
  - by rewrite Hp.
  - intros x. rewrite Hp. apply H2.
  - unfold values. cbn. rewrite Hp. exact H3.
  - intros k e. rewrite H4. by setoid_rewrite Hp.
Qed.
Lemma indexed_insert l m a items :
  indexed l m → m !! key a = None → items ≡ₚ (list_next l, a) :: list_items l →
  indexed (Build_List (S (list_next l)) items) (<[key a := list_next l]> m).
Proof.
  intros [H1 H2 H3 H4] Hn Hp. constructor; cbn.
  - rewrite Hp. cbn. constructor; [|done]. intros ([e x] & Heq & Hx)%list_elem_of_fmap. apply H2 in Hx. cbn in *. lia.
  - intros x. rewrite Hp. intros [->|Hx]%elem_of_cons; cbn; [lia|]. apply H2 in Hx. lia.
  - unfold values. cbn. rewrite Hp. cbn. constructor; [|done]. intros (b & Hk & Hb)%list_elem_of_fmap.
    apply elem_of_values in Hb as [e He]. assert (m !! key b = Some e) as Hm by (apply H4; by exists b).
    rewrite <-Hk in Hm. congruence.
  - intros k e. rewrite lookup_insert_Some, H4. setoid_rewrite Hp. setoid_rewrite elem_of_cons. split.
    + intros [[<- <-]|[Hk (b & Hb & <-)]]; [exists a|exists b]; naive_solver.
    + intros (b & [[= -> ->]|Hb] & <-); [by left|]. right. split; [|by exists b]. intros Heq.
      assert (m !! key b = Some e) as Hm by (apply H4; by exists b). rewrite <-Heq in Hm. congruence.
Qed.
Lemma items_unique (l : List A) e a b :
  NoDup (list_items l).*1 → (e, a) ∈ list_items l → (e, b) ∈ list_items l → a = b.
Proof.
  intros H1 [i Hi]%list_elem_of_lookup [j Hj]%list_elem_of_lookup.
  assert (i = j) as -> by (eapply (NoDup_lookup _ i j e H1); rewrite list_lookup_fmap;
      [exact (f_equal (fmap fst) Hi)|exact (f_equal (fmap fst) Hj)]).
  congruence.
Qed.
(** An element is known by its identity as well as by its key. *)
Lemma indexed_elem l m e a x :
  indexed l m → (e, a) ∈ list_items l → x ∈ list_items l → (x.1 =? e)%nat = bool_decide (key x.2 = key a).
Proof.
  intros [H1 H2 H3 H4] He Hx. destruct x as [e' b]. cbn. apply eq_bool_prop_intro. rewrite bool_decide_spec, Is_true_true, Nat.eqb_eq.
  split.
  - intros ->. by rewrite (items_unique l e b a).
  - intros Hk. assert (m !! key b = Some e') as Hb by (apply H4; by exists b).
    assert (m !! key b = Some e) as Ha by (apply H4; exists a; by rewrite Hk). congruence.
Qed.
Lemma filter_items l m e a (p : bool → bool) :
  indexed l m → (e, a) ∈ list_items l →
  (List.filter (λ x, p (x.1 =? e)%nat) (list_items l)).*2 = List.filter (λ b, p (bool_decide (key b = key a))) (values l).
Proof.
  intros Hi He. unfold values. assert (∀ x, x ∈ list_items l → (x.1 =? e)%nat = bool_decide (key x.2 = key a)) as Hx.
  { intros x. by apply (indexed_elem l m). }
  revert Hx. generalize (list_items l). intros items Hx. induction items as [|x items IH]; [done|].
  cbn [List.filter fmap list_fmap]. rewrite (Hx x) by set_solver.
  destruct (p (bool_decide (key x.2 = key a))); cbn [fmap list_fmap]; rewrite IH by set_solver; done.
Qed.
Lemma values_remove l m e a :
  indexed l m → (e, a) ∈ list_items l →
  values (list_Remove e l) = List.filter (λ b, negb (bool_decide (key b = key a))) (values l).
Proof. intros Hi He. exact (filter_items l m e a negb Hi He). Qed.
Lemma indexed_remove l m e a :
  indexed l m → (e, a) ∈ list_items l → indexed (list_Remove e l) (delete (key a) m).
Proof.
  intros Hi He. pose proof (values_remove l m e a Hi He) as Hv. destruct Hi as [H1 H2 H3 H4].
  constructor; cbn [list_Remove list_items list_next].
  - clear -H1. induction (list_items l) as [|x items IH]; [constructor|]. cbn in *. apply NoDup_cons in H1 as [Hx H1].
    destruct (negb _); cbn; [|by apply IH]. constructor; [|by apply IH]. intros Hin. apply Hx.
    apply list_elem_of_fmap in Hin as (y & -> & Hy). apply list_elem_of_In, List.filter_In in Hy as [Hy%list_elem_of_In _].
    by apply list_elem_of_fmap_2.
  - intros x Hx. apply list_elem_of_In, List.filter_In in Hx as [Hx%list_elem_of_In _]. by apply H2.
  - change (Build_List _ _) with (list_Remove e l). rewrite Hv. clear -H3. induction (values l) as [|x items IH]; [constructor|]. cbn in *.
    apply NoDup_cons in H3 as [Hx H3]. destruct (negb _); cbn; [|by apply IH]. constructor; [|by apply IH].
    intros (y & Hk & Hy)%list_elem_of_fmap. apply Hx. rewrite Hk.
    apply list_elem_of_In, List.filter_In in Hy as [Hy%list_elem_of_In _]. by apply list_elem_of_fmap_2.
  - assert (m !! key a = Some e) as Hm by (apply H4; by exists a). intros k e'. rewrite lookup_delete_Some, H4. split.
    + intros [Hk (b & Hb & <-)]. exists b. split; [|done]. apply list_elem_of_In, List.filter_In.
      rewrite <-list_elem_of_In. split; [done|]. cbn. apply negb_true_iff, Nat.eqb_neq. intros ->.
      apply Hk. by rewrite (items_unique l e a b).
    + intros (b & Hb & <-). apply list_elem_of_In, List.filter_In in Hb as [Hb%list_elem_of_In Hne]. cbn in Hne.
      apply negb_true_iff, Nat.eqb_neq in Hne. split; [|by exists b]. intros Hk. apply Hne.
      assert (m !! key b = Some e') as Hm' by (apply H4; by exists b). rewrite <-Hk in Hm'. congruence.
Qed.
Lemma filter_split {B} (p : B → bool) (l : list B) : List.filter p l ++ List.filter (λ x, negb (p x)) l ≡ₚ l.
Proof.
  induction l as [|x l IH]; [done|]. cbn. destruct (p x); cbn; [by rewrite IH|]. by rewrite <-Permutation_middle, IH.
Qed.
Lemma indexed_move l m e : indexed l m → indexed (list_MoveToFront e l) m.
Proof. intros Hi. apply (indexed_perm l); [done|]. apply filter_split. Qed.
Lemma filter_one (a : A) vs :
  NoDup (key <$> vs) → a ∈ vs → List.filter (λ b, bool_decide (key b = key a)) vs = [a].
Proof.
  induction vs as [|b vs IH]; cbn; [by intros _ ?%elem_of_nil|]. intros [Hb Hd]%NoDup_cons Ha.
  apply elem_of_cons in Ha as [->|Ha].
  - rewrite bool_decide_eq_true_2 by done. f_equal. apply tselect_nil. intros c Hc. apply bool_decide_eq_false.
    intros Hk. apply Hb. rewrite <-Hk. by apply list_elem_of_fmap_2.
  - rewrite bool_decide_eq_false_2; [by apply IH|]. intros Hk. apply Hb. rewrite Hk. by apply list_elem_of_fmap_2.
Qed.
Lemma values_move l m e a :
  indexed l m → (e, a) ∈ list_items l →
  values (list_MoveToFront e l) = a :: List.filter (λ b, negb (bool_decide (key b = key a))) (values l).
Proof.
  intros Hi He. unfold values at 1. cbn [list_MoveToFront list_items]. rewrite fmap_app.
  rewrite (filter_items l m e a (λ b, b) Hi He), (filter_items l m e a negb Hi He), filter_one; [done|apply Hi|].
  apply elem_of_values. by exists e.
Qed.
Lemma list_Value_Some (l : List A) e a : NoDup (list_items l).*1 → list_Value e l = Some a ↔ (e, a) ∈ list_items l.
Proof.
  intros Hd. unfold list_Value. rewrite fmap_Some. split.
  - intros ([e' b] & [Hin%list_elem_of_In He]%List.find_some & ->). cbn in He. apply Nat.eqb_eq in He as ->. done.
  - intros Hin. destruct (List.find _ _) as [[e' b]|] eqn:Hf.
    + exists (e', b). split; [done|]. apply List.find_some in Hf as [Hb%list_elem_of_In He]. cbn in He.
      apply Nat.eqb_eq in He as ->. by eapply items_unique.
    + apply list_elem_of_In in Hin. apply (List.find_none _ _ Hf) in Hin. cbn in Hin. by rewrite Nat.eqb_refl in Hin.
Qed.
(** Changing what an element points to, but not its key. *)
Lemma indexed_alter l m e f :
  indexed l m → (∀ a, (e, a) ∈ list_items l → key (f a) = key a) → indexed (list_Alter e f l) m.
Proof.
  intros [H1 H2 H3 H4] Hf.
  assert ((list_items (list_Alter e f l)).*1 = (list_items l).*1) as Hids.
  { cbn. rewrite <-list_fmap_compose. apply list_fmap_ext. intros _ x _. cbn. by destruct (x.1 =? e)%nat. }
  assert (key <$> values (list_Alter e f l) = key <$> values l) as Hkeys.
  { unfold values. cbn. rewrite <-!list_fmap_compose. apply list_fmap_ext. intros i [e' a] Hx. cbn.
    destruct (e' =? e)%nat eqn:He; [|done]. apply Nat.eqb_eq in He as ->. apply Hf. by eapply list_elem_of_lookup_2. }
  constructor; [by rewrite Hids| |by rewrite Hkeys|].
  - intros x (y & -> & Hy)%list_elem_of_fmap. cbn. apply H2 in Hy. by destruct (y.1 =? e)%nat.
  - intros k e'. rewrite H4. cbn. setoid_rewrite list_elem_of_fmap. split.
    + intros (a & Ha & <-). destruct (e' =? e)%nat eqn:He.
      * exists (f a). apply Nat.eqb_eq in He as ->. split; [|by apply Hf]. exists (e, a). cbn. by rewrite Nat.eqb_refl.
      * exists a. split; [|done]. exists (e', a). cbn. by rewrite He.
    + intros (b & ([e1 a] & Heq & Ha) & <-). cbn in Heq. destruct (e1 =? e)%nat eqn:He; injection Heq as -> ->.
      * apply Nat.eqb_eq in He as ->. exists a. split; [done|]. symmetry. by apply Hf.
      * by exists a.
Qed.
End index.

(** ** The ledger: when a key was put in, when it was last used, how often *)
Record stamp := { insertedAt : Z; lastUsedAt : Z; uses : Z }.
Record ledger := { clock : Z; stamps : gmap string stamp }.
Inductive event := Inserted (k : string) | Accessed (k : string) | Evicted (k : string) | Forgotten.
Definition noted (t : Z) (ev : event) (m : gmap string stamp) : gmap string stamp :=
  match ev with
  | Inserted k =>
      match m !! k with
      | None => <[k := Build_stamp t t 1]> m
      | Some i => <[k := Build_stamp (insertedAt i) t (uses i)]> m
      end
  | Accessed k =>
      match m !! k with
      | None => m
      | Some i => <[k := Build_stamp (insertedAt i) t (uses i + 1)]> m
      end
  | Evicted k => delete k m
  | Forgotten => ∅
  end.
Definition note (L : ledger) (ev : event) : ledger :=
  Build_ledger (clock L + 1) (noted (clock L + 1) ev (stamps L)).
Definition tell `{evictionPolicyHandler H} (h : H) (ev : event) : H :=
  match ev with
  | Inserted k => OnInsert k h
  | Accessed k => OnAccess k h
  | Evicted k => OnEvict k h
  | Forgotten => Reset h
  end.

(** What the cache relies on: a policy follows the ledger and chooses a key of least
    [rank]. *)
Definition least (rank : stamp → Z) (m : gmap string stamp) (k : string) : Prop :=
  ∃ i, m !! k = Some i ∧ ∀ k' i', m !! k' = Some i' → (rank i ≤ rank i')%Z.
Class EvictionLaws (H : Type) `{!evictionPolicyHandler H} (fresh : H) (rank : stamp → Z) := {
  follows : H → ledger → Prop;
  follows_fresh t : follows fresh (Build_ledger t ∅);
  follows_tell h L ev : follows h L → follows (tell h ev) (note L ev);
  follows_candidate h L : follows h L → stamps L ≠ ∅ → least rank (stamps L) (SelectEvictionCandidate h);
  follows_nobody h L : follows h L → stamps L = ∅ → SelectEvictionCandidate h = "";
}.

(** *** Keys in the order of their rank *)
Section ordered.
Context (rank : stamp → Z).
Definition rank_le (m : gmap string stamp) (a b : string) : Prop :=
  ∀ i j, m !! a = Some i → m !! b = Some j → (rank i ≤ rank j)%Z.
Record ordered (order : list string) (t : Z) (m : gmap string stamp) : Prop := {
  or_dom : ∀ k, k ∈ order ↔ is_Some (m !! k);
  or_sorted : StronglySorted (rank_le m) order;
  or_past : ∀ k i, m !! k = Some i → (rank i ≤ t)%Z;
}.
Lemma ordered_empty t : ordered [] t ∅.
Proof.
  constructor; [|constructor|by intros k i; rewrite lookup_empty].
  intros k. rewrite lookup_empty. split; [by intros ?%elem_of_nil|by intros []].
Qed.
Lemma ordered_later order t t' m : ordered order t m → (t ≤ t')%Z → ordered order t' m.
Proof. intros [H1 H2 H3] Ht. constructor; [done|done|]. intros k i Hk. specialize (H3 k i Hk). lia. Qed.
Lemma sorted_mono (m m' : gmap string stamp) order :
  (∀ a b, a ∈ order → b ∈ order → rank_le m a b → rank_le m' a b) →
  StronglySorted (rank_le m) order → StronglySorted (rank_le m') order.
Proof.
  induction order as [|a order IH]; intros Hm; [constructor|]. intros [Hs Ha]%StronglySorted_inv. constructor.
  - apply IH; [|done]. intros x y Hx Hy. apply Hm; set_solver.
  - rewrite Forall_forall in *. intros b Hb. apply Hm; set_solver.
Qed.
Lemma ordered_remove order t m k :
  ordered order t m → ordered (List.filter (λ b, negb (bool_decide (b = k))) order) t (delete k m).
Proof.
  intros [H1 H2 H3]. constructor.
  - intros x. rewrite list_elem_of_In, List.filter_In, <-list_elem_of_In, H1, negb_true_iff, bool_decide_eq_false.
    destruct (decide (x = k)) as [->|Hk].
    + rewrite lookup_delete_eq. split; [tauto|by intros []].
    + rewrite lookup_delete_ne by done. tauto.
  - apply (sorted_mono m).
    + intros a b _ _ Hab i j [_ Hi]%lookup_delete_Some [_ Hj]%lookup_delete_Some. by apply Hab.
    + clear H1 H3. induction H2 as [|a l Hs IH Ha]; [constructor|]. cbn. destruct (negb _); [|done].
      constructor; [done|]. rewrite Forall_forall in *. intros b Hb.
      apply list_elem_of_In, List.filter_In in Hb as [Hb%list_elem_of_In _]. by apply Ha.
  - intros x i [_ Hx]%lookup_delete_Some. by apply (H3 x).
Qed.
Lemma ordered_push order t m k i :
  ordered order t m → m !! k = None → (t < rank i)%Z → ordered (order ++ [k]) (rank i) (<[k := i]> m).
Proof.
  intros [H1 H2 H3] Hk Ht. assert (k ∉ order) as Hnk by (rewrite H1, Hk; by intros []). constructor.
  - intros x. rewrite elem_of_app, list_elem_of_singleton, H1. destruct (decide (x = k)) as [->|Hx].
    + rewrite lookup_insert_eq. split; intros _; [by eexists|by right].
    + rewrite lookup_insert_ne by done. naive_solver.
  - assert (StronglySorted (rank_le (<[k := i]> m)) order) as Hs.
    { apply (sorted_mono m); [|done]. intros a b Ha Hb Hab x y.
      rewrite !lookup_insert_ne by (intros ->; done). apply Hab. }
    apply StronglySorted_app. split; [|split; [done|constructor; constructor]].
    intros a ? Ha ->%list_elem_of_singleton x y. rewrite lookup_insert_ne by (intros ->; done). rewrite lookup_insert_eq.
    intros Hx%H3 [= <-]. lia.
  - intros x j. rewrite lookup_insert_Some. intros [[<- <-]|[_ Hx]]; [lia|]. specialize (H3 x j Hx). lia.
Qed.
Lemma ordered_touch order t m k i :
  ordered order t m → (t < rank i)%Z →
  ordered (List.filter (λ b, negb (bool_decide (b = k))) order ++ [k]) (rank i) (<[k := i]> m).
Proof.
  intros Ho Ht. rewrite <-insert_delete_eq. eapply ordered_push; [by apply ordered_remove|apply lookup_delete_eq|done].
Qed.
(** A change that leaves the rank alone. *)
Lemma ordered_same order t m k i j :
  ordered order t m → m !! k = Some i → rank j = rank i → ordered order t (<[k := j]> m).
Proof.
  intros [H1 H2 H3] Hk Hr. assert (∀ x y, <[k := j]> m !! x = Some y → ∃ z, m !! x = Some z ∧ rank y = rank z) as Hx.
  { intros x y [[<- <-]|[_ Hx]]%lookup_insert_Some; eauto. }
  constructor.
  - intros x. rewrite H1. destruct (decide (x = k)) as [->|]; [|by rewrite lookup_insert_ne].
    rewrite lookup_insert_eq, Hk. split; intros _; by eexists.
  - apply (sorted_mono m); [|done]. intros a b _ _ Hab x y (x' & Ha & ->)%Hx (y' & Hb & ->)%Hx. by apply Hab.
  - intros x y (z & Hz & ->)%Hx. by apply (H3 x).
Qed.
Lemma ordered_least order t m : ordered order t m → m ≠ ∅ → least rank m (default "" (head order)).
Proof.
  intros [H1 H2 H3] Hne. destruct order as [|k order].
  { exfalso. apply Hne, map_empty. intros k. apply eq_None_not_Some. rewrite <-H1. apply not_elem_of_nil. }
  cbn. destruct (proj1 (H1 k)) as [i Hi]; [set_solver|]. exists i. split; [done|]. intros k' i' Hk'.
  apply StronglySorted_inv in H2 as [_ Ha]. assert (k' ∈ k :: order) as Hin by (apply H1; eauto).
  apply elem_of_cons in Hin as [->|Hin]; [assert (i = i') as -> by congruence; lia|].
  rewrite Forall_forall in Ha. by apply (Ha k' Hin).
Qed.
Lemma ordered_nobody order t m : ordered order t m → m = ∅ → order = [].
Proof.
  intros [H1 _ _] ->. destruct order as [|k order]; [done|]. destruct (proj1 (H1 k)) as [i Hi]; [set_solver|].
  by rewrite lookup_empty in Hi.
Qed.
End ordered.

(** *** Lists of keys *)
Abbreviation keyed := (indexed (λ k : string, k)).
Definition without (k : string) (l : list string) : list string := List.filter (λ b, negb (bool_decide (b = k))) l.
Lemma keyed_Some l m k e : keyed l m → m !! k = Some e → (e, k) ∈ list_items l.
Proof. intros Hi Hk. apply (ix_map _ _ _ Hi) in Hk as (a & Ha & <-). done. Qed.
Lemma keyed_dom l m k : keyed l m → k ∈ values l ↔ is_Some (m !! k).
Proof.
  intros Hi. rewrite elem_of_values. split.
  - intros [e He]. exists e. apply (ix_map _ _ _ Hi). by exists k.
  - intros [e He]. exists e. by eapply keyed_Some.
Qed.
Lemma keyed_None l m k (o : option stamp) (order : list string) :
  keyed l m → (∀ x, x ∈ order ↔ x ∈ values l) → (k ∈ order ↔ is_Some o) → m !! k = None ↔ o = None.
Proof.
  intros Hi Hord Ho. rewrite Hord, (keyed_dom l m k Hi) in Ho. rewrite !eq_None_not_Some. by rewrite Ho.
Qed.
Lemma without_reverse k l : without k (reverse l) = reverse (without k l).
Proof.
  unfold without. induction l as [|x l IH]; [done|]. rewrite reverse_cons, List.filter_app, IH.
  cbn [List.filter]. destruct (negb _); [by rewrite reverse_cons|by rewrite app_nil_r].
Qed.

(** *** Least recently used *)
Definition lru_follows (h : lruHandler) (L : ledger) : Prop :=
  keyed (accessList h) (accessMap h) ∧ ordered lastUsedAt (reverse (values (accessList h))) (clock L) (stamps L).
Lemma lru_touch h t m k e i :
  keyed (accessList h) (accessMap h) → ordered lastUsedAt (reverse (values (accessList h))) t m →
  accessMap h !! k = Some e → lastUsedAt i = (t + 1)%Z →
  lru_follows (Build_lruHandler (list_MoveToFront e (accessList h)) (accessMap h)) (Build_ledger (t + 1) (<[k := i]> m)).
Proof.
  intros Hi Ho He Hl. split; cbn [accessList accessMap clock stamps]; [by apply indexed_move|].
  rewrite (values_move _ _ _ e k Hi) by (by eapply keyed_Some). rewrite reverse_cons.
  change (List.filter _ _) with (without k (values (accessList h))). rewrite <-without_reverse, <-Hl.
  apply ordered_touch with t; [done|lia].
Qed.
#[export] Instance lru_laws : EvictionLaws lruHandler newLruHandler lastUsedAt.
Proof.
  refine {| follows := lru_follows |}.
  - intros t. split; [apply indexed_new|apply ordered_empty].
  - intros h [t m] ev [Hi Ho]. cbn [clock stamps] in Ho. unfold note, tell, OnInsert, OnAccess, OnEvict, Reset, lru_handler.
    cbn [clock stamps].
    assert (∀ k, accessMap h !! k = None ↔ m !! k = None) as Hnone.
    { intros k. eapply keyed_None; [done| |apply (or_dom _ _ _ _ Ho)]. intros x. apply elem_of_reverse. }
    destruct ev as [k|k|k|]; cbn [noted].
    + unfold lru_OnInsert. destruct (accessMap h !! k) as [e|] eqn:He.
      * destruct (m !! k) as [i|] eqn:Hk; [|apply Hnone in Hk; congruence]. by apply lru_touch.
      * pose proof He as Hk. rewrite Hnone in Hk. rewrite Hk. cbn. split; cbn [accessList accessMap clock stamps].
        -- apply (indexed_insert (λ k, k)); [done|done|done].
        -- change (values _) with (k :: values (accessList h)). rewrite reverse_cons.
           apply (ordered_push lastUsedAt _ t m k (Build_stamp (t + 1) (t + 1) 1)); [done|done|cbn; lia].
    + unfold lru_OnAccess. destruct (accessMap h !! k) as [e|] eqn:He.
      * destruct (m !! k) as [i|] eqn:Hk; [|apply Hnone in Hk; congruence]. by apply lru_touch.
      * rewrite Hnone in He. rewrite He. split; [done|]. cbn. eapply ordered_later; [done|lia].
    + unfold lru_OnEvict. destruct (accessMap h !! k) as [e|] eqn:He.
      * split; cbn [accessList accessMap clock stamps].
        -- apply (indexed_remove (λ k, k) _ _ e k Hi). by eapply keyed_Some.
        -- rewrite (values_remove _ _ _ e k Hi) by (by eapply keyed_Some).
           change (List.filter _ _) with (without k (values (accessList h))). rewrite <-without_reverse.
           eapply ordered_later; [by apply ordered_remove|lia].
      * rewrite Hnone in He. rewrite delete_id by done. split; [done|]. cbn. eapply ordered_later; [done|lia].
    + split; [apply indexed_new|apply ordered_empty].
  - intros h [t m] [Hi Ho] Hne. cbn in *. unfold lru_SelectEvictionCandidate.
    rewrite list_Back_values, <-head_reverse. by eapply ordered_least.
  - intros h [t m] [Hi Ho] He. cbn in *. apply (ordered_nobody _ _ _ _ Ho) in He.
    unfold lru_SelectEvictionCandidate. by rewrite list_Back_values, <-head_reverse, He.
Qed.

(** *** First in, first out *)
Definition fifo_follows (h : fifoHandler) (L : ledger) : Prop :=
  keyed (insertList h) (insertMap h) ∧ ordered insertedAt (values (insertList h)) (clock L) (stamps L).
#[export] Instance fifo_laws : EvictionLaws fifoHandler newFifoHandler insertedAt.
Proof.
  refine {| follows := fifo_follows |}.
  - intros t. split; [apply indexed_new|apply ordered_empty].
  - intros h [t m] ev [Hi Ho]. cbn [clock stamps] in Ho. unfold note, tell, OnInsert, OnAccess, OnEvict, Reset, fifo_handler.
    cbn [clock stamps].
    assert (∀ k, insertMap h !! k = None ↔ m !! k = None) as Hnone.
    { intros k. eapply keyed_None; [done| |apply (or_dom _ _ _ _ Ho)]. done. }
    assert (fifo_follows h (Build_ledger (t + 1) m)) as Hsame by (split; [done|eapply ordered_later; [done|cbn; lia]]).
    destruct ev as [k|k|k|]; cbn [noted].
    + unfold fifo_OnInsert. destruct (insertMap h !! k) as [e|] eqn:He.
      * destruct (m !! k) as [i|] eqn:Hk; [|apply Hnone in Hk; congruence]. split; [done|]. by eapply ordered_same; [apply Hsame|..].
      * pose proof He as Hk. rewrite Hnone in Hk. rewrite Hk. cbn. split; cbn [insertList insertMap clock stamps].
        -- apply (indexed_insert (λ k, k)); [done|done|]. by rewrite <-Permutation_cons_append.
        -- unfold values. cbn [list_items]. rewrite fmap_app.
           apply (ordered_push insertedAt _ t m k (Build_stamp (t + 1) (t + 1) 1)); [done|done|cbn; lia].
    + unfold fifo_OnAccess. destruct (m !! k) as [i|] eqn:Hk; [|done]. split; [done|].
      by eapply ordered_same; [apply Hsame|..].
    + unfold fifo_OnEvict. destruct (insertMap h !! k) as [e|] eqn:He.
      * split; cbn [insertList insertMap clock stamps].
        -- apply (indexed_remove (λ k, k) _ _ e k Hi). by eapply keyed_Some.
        -- rewrite (values_remove _ _ _ e k Hi) by (by eapply keyed_Some).
           eapply ordered_later; [by apply ordered_remove|lia].
      * rewrite Hnone in He. by rewrite delete_id.
    + split; [apply indexed_new|apply ordered_empty].
  - intros h [t m] [Hi Ho] Hne. cbn in *. unfold fifo_SelectEvictionCandidate.
    rewrite list_Front_values. by eapply (ordered_least insertedAt).
  - intros h [t m] [Hi Ho] He. cbn in *. apply (ordered_nobody _ _ _ _ Ho) in He.
    unfold fifo_SelectEvictionCandidate. by rewrite list_Front_values, He.
Qed.

(** *** Least frequently used: the buckets *)
Lemma sorted_filter {A} (R : relation A) (p : A → bool) l : StronglySorted R l → StronglySorted R (List.filter p l).
Proof.
  induction 1 as [|a l Hs IH Ha]; [constructor|]. cbn. destruct (p a); [|done]. constructor; [done|].
  rewrite Forall_forall in *. intros b Hb. apply list_elem_of_In, List.filter_In in Hb as [Hb%list_elem_of_In _]. by apply Ha.
Qed.
Lemma sorted_fmap {A B} (R : relation B) (f : A → B) l :
  StronglySorted R (f <$> l) ↔ StronglySorted (λ x y, R (f x) (f y)) l.
Proof.
  induction l as [|a l IH]; [split; constructor|]. cbn. split.
  - intros [Hs Ha]%StronglySorted_inv. constructor; [by apply IH|]. rewrite Forall_fmap in Ha. exact Ha.
  - intros [Hs Ha]%StronglySorted_inv. constructor; [by apply IH|]. apply Forall_fmap. exact Ha.
Qed.
Lemma list_Value_Alter {A} (l : List A) e e' f :
  list_Value e' (list_Alter e f l) = if (e' =? e)%nat then f <$> list_Value e' l else list_Value e' l.
Proof.
  destruct l as [n items]. unfold list_Value. cbn. induction items as [|[e1 a] items IH]; cbn; [by destruct (e' =? e)%nat|].
  destruct (e1 =? e)%nat eqn:H1; cbn; destruct (e1 =? e')%nat eqn:H2; try apply IH; cbn.
  - apply Nat.eqb_eq in H1 as ->, H2 as ->. by rewrite Nat.eqb_refl.
  - apply Nat.eqb_eq in H2 as ->. by rewrite H1.
Qed.
Lemma elem_of_Alter {A} (l : List A) e f x :
  x ∈ list_items (list_Alter e f l) ↔ ∃ y, y ∈ list_items l ∧ x = if (y.1 =? e)%nat then (y.1, f y.2) else y.
Proof. cbn. rewrite list_elem_of_fmap. naive_solver. Qed.
Lemma insertBefore_perm {A} (p : A → bool) x (items : list (element * A)) : insertBeforeItems p x items ≡ₚ x :: items.
Proof. induction items as [|y items IH]; [done|]. cbn. destruct (p y.2); [done|]. rewrite IH. apply Permutation_swap. Qed.

Definition keysAt (B : List lfuFreqBucket) (m : gmap Z element) (f : Z) : list string :=
  default [] (m !! f ≫= λ e, (λ b, values (entries b)) <$> list_Value e B).
Record buckets_ok (B : List lfuFreqBucket) (m : gmap Z element) : Prop := {
  bk_index : indexed frequency B m;
  bk_sorted : StronglySorted Z.lt (frequency <$> values B);
  bk_keyed : ∀ b, b ∈ values B → keyed (entries b) (nodeMap b);
}.
Definition filled (B : List lfuFreqBucket) (P : Z → Prop) : Prop :=
  ∀ b, b ∈ values B → P (frequency b) → values (entries b) ≠ [].
Lemma keysAt_bucket B m e b :
  buckets_ok B m → (e, b) ∈ list_items B → m !! frequency b = Some e ∧ keysAt B m (frequency b) = values (entries b).
Proof.
  intros Hok Hb. assert (m !! frequency b = Some e) as Hm by (apply (ix_map _ _ _ (bk_index _ _ Hok)); by exists b).
  split; [done|]. unfold keysAt. rewrite Hm. cbn.
  by rewrite (proj2 (list_Value_Some B e b (ix_ids _ _ _ (bk_index _ _ Hok))) Hb).
Qed.
Lemma keysAt_Some B m f e :
  buckets_ok B m → m !! f = Some e → ∃ b, (e, b) ∈ list_items B ∧ frequency b = f ∧ keysAt B m f = values (entries b).
Proof.
  intros Hok Hm. pose proof Hm as (b & Hb & <-)%(ix_map _ _ _ (bk_index _ _ Hok)). exists b.
  by destruct (keysAt_bucket B m e b Hok Hb).
Qed.
Lemma keysAt_None (B : List lfuFreqBucket) m f : m !! f = None → keysAt B m f = [].
Proof. intros Hm. unfold keysAt. by rewrite Hm. Qed.
(** The lists of other frequencies do not change when one bucket does. *)
Lemma keysAt_alter B m e b f g :
  buckets_ok B m → (e, b) ∈ list_items B →
  keysAt (list_Alter e f B) m g = if bool_decide (g = frequency b) then values (entries (f b)) else keysAt B m g.
Proof.
  intros Hok Hb. destruct (keysAt_bucket B m e b Hok Hb) as [Hm _]. unfold keysAt. case_bool_decide as Hg.
  - subst g. rewrite Hm. cbn [mbind option_bind]. rewrite list_Value_Alter, Nat.eqb_refl.
    by rewrite (proj2 (list_Value_Some B e b (ix_ids _ _ _ (bk_index _ _ Hok))) Hb).
  - destruct (m !! g) as [e'|] eqn:He; [|done]. cbn [mbind option_bind]. rewrite list_Value_Alter.
    destruct (Nat.eqb_spec e' e) as [->|]; [|done]. exfalso. apply Hg.
    apply (ix_map _ _ _ (bk_index _ _ Hok)) in He as (b' & Hb' & <-).
    by rewrite (items_unique B e b' b (ix_ids _ _ _ (bk_index _ _ Hok)) Hb' Hb).
Qed.
Lemma buckets_alter B m e b f :
  buckets_ok B m → (e, b) ∈ list_items B → frequency (f b) = frequency b → keyed (entries (f b)) (nodeMap (f b)) →
  buckets_ok (list_Alter e f B) m ∧
  ∀ P, filled B (λ g, g ≠ frequency b ∧ P g) → values (entries (f b)) ≠ [] → filled (list_Alter e f B) P.
Proof.
  intros Hok Hb Hfreq Hkeyed. assert (∀ b', (e, b') ∈ list_items B → b' = b) as Hone.
  { intros b' Hb'. by eapply (items_unique B e b' b); [apply (bk_index _ _ Hok)|..]. }
  assert (∀ x, x ∈ values (list_Alter e f B) → x = f b ∨ x ∈ values B ∧ frequency x ≠ frequency b) as Hvals.
  { intros x (e' & (y & Hy & Heq)%elem_of_Alter)%elem_of_values. destruct y as [ey y]. cbn in Heq.
    destruct (Nat.eqb_spec ey e) as [->|Hne]; injection Heq as -> ->; [by left; rewrite (Hone y)|].
    right. split; [apply elem_of_values; by exists ey|]. intros Hf.
    assert (m !! frequency y = Some ey) as Hy' by (apply (ix_map _ _ _ (bk_index _ _ Hok)); by exists y).
    destruct (keysAt_bucket B m e b Hok Hb) as [Hm _]. congruence. }
  split.
  - constructor.
    + apply indexed_alter; [apply Hok|]. intros a Ha. by rewrite (Hone a Ha).
    + enough (frequency <$> values (list_Alter e f B) = frequency <$> values B) as -> by apply Hok.
      unfold values. cbn. rewrite <-!list_fmap_compose. apply list_fmap_ext. intros i [e' a] Hx. cbn.
      destruct (Nat.eqb_spec e' e) as [->|]; [|done]. rewrite (Hone a); [done|by eapply list_elem_of_lookup_2].
    + intros x [->|[Hx _]]%Hvals; [done|by apply (bk_keyed _ _ Hok)].
  - intros P Hfill Hne x Hx HP. apply Hvals in Hx as [->|[Hx Hf]]; [done|]. by apply Hfill.
Qed.
(** A new, empty bucket in its place. *)
Lemma buckets_insert B m freq :
  buckets_ok B m → m !! freq = None →
  let '(e, B1) := insertBucketSorted (Build_lfuFreqBucket freq list_New ∅) B in
  buckets_ok B1 (<[freq := e]> m) ∧ (e, Build_lfuFreqBucket freq list_New ∅) ∈ list_items B1 ∧
  (∀ g, keysAt B1 (<[freq := e]> m) g = keysAt B m g) ∧
  (∀ P, filled B P → filled B1 (λ g, g ≠ freq ∧ P g)).
Proof.
  intros Hok Hm. cbn. set (new := Build_lfuFreqBucket freq list_New ∅).
  set (items := insertBeforeItems _ _ _). assert (items ≡ₚ (list_next B, new) :: list_items B) as Hp by apply insertBefore_perm.
  assert (buckets_ok (Build_List (S (list_next B)) items) (<[freq := list_next B]> m)) as Hok1.
  { destruct Hok as [Hi Hs Hk]. constructor.
    - by apply (indexed_insert frequency B m new).
    - assert (freq ∉ frequency <$> values B) as Hfresh.
      { intros (b & -> & [e Hb]%elem_of_values)%list_elem_of_fmap.
        assert (m !! frequency b = Some e) as Hx by (apply (ix_map _ _ _ Hi); by exists b). congruence. }
      unfold values in *. rewrite <-list_fmap_compose in *. cbn [list_items]. clear -Hs Hfresh. revert Hs Hfresh. unfold items.
      generalize (list_next B). intros e. rewrite !sorted_fmap. induction (list_items B) as [|x l IH]; cbn.
      { intros _ _. constructor; constructor. }
      intros [Hs Hx]%StronglySorted_inv [Hne Hin]%not_elem_of_cons. destruct (Z.ltb_spec freq (frequency x.2)) as [Hlt|Hge].
      + constructor; [by constructor|]. constructor; [done|]. eapply Forall_impl; [exact Hx|]. cbn. lia.
      + constructor; [by apply IH|]. rewrite Forall_forall in *. intros y. rewrite insertBefore_perm.
        intros [->|Hy]%elem_of_cons; [cbn; lia|by apply Hx].
    - intros b [e Hb]%elem_of_values. cbn in Hb. rewrite Hp in Hb. apply elem_of_cons in Hb as [[= -> ->]|Hb].
      + apply indexed_new.
      + apply Hk, elem_of_values. by exists e. }
  assert ((list_next B, new) ∈ items) as Hin by (rewrite Hp; set_solver).
  split_and!; [done|done| |].
  - intros g. destruct (decide (g = freq)) as [->|Hg].
    + rewrite (keysAt_None B m freq Hm). by apply (keysAt_bucket _ _ (list_next B) new Hok1).
    + destruct (m !! g) as [e|] eqn:Hge.
      * destruct (keysAt_Some B m g e Hok Hge) as (b & Hb & <- & ->).
        apply (keysAt_bucket _ _ e b Hok1). cbn. rewrite Hp. set_solver.
      * rewrite (keysAt_None B m g Hge). apply keysAt_None. by rewrite lookup_insert_ne.
  - intros P Hf b [e Hb]%elem_of_values [Hne HP]. cbn in Hb. rewrite Hp in Hb. apply elem_of_cons in Hb as [[= -> ->]|Hb]; [done|].
    apply Hf; [|done]. apply elem_of_values. by exists e.
Qed.

(** *** The operations on the buckets of a handler *)
Definition lfu_ok (h : lfuHandler) : Prop := buckets_ok (freqBuckets h) (bucketMap h) ∧ filled (freqBuckets h) (λ _, True).
Definition lfuKeys (h : lfuHandler) : Z → list string := keysAt (freqBuckets h) (bucketMap h).
Lemma pushEntry_ok key b :
  keyed (entries b) (nodeMap b) → key ∉ values (entries b) →
  keyed (entries (pushEntry key b)) (nodeMap (pushEntry key b)) ∧ values (entries (pushEntry key b)) = values (entries b) ++ [key].
Proof.
  intros Hk Hn. unfold pushEntry. cbn. split.
  - apply (indexed_insert (λ k, k)); [done| |by rewrite <-Permutation_cons_append].
    apply eq_None_not_Some. by rewrite <-(keyed_dom _ _ key Hk).
  - unfold values. cbn. by rewrite fmap_app.
Qed.
Lemma addToFreqBucket_ok key freq h :
  lfu_ok h → key ∉ lfuKeys h freq →
  let h' := addToFreqBucket key freq h in
  lfu_ok h' ∧ (∀ g, lfuKeys h' g = if bool_decide (g = freq) then lfuKeys h g ++ [key] else lfuKeys h g) ∧
  keyToNode h' = keyToNode h ∧ minFreq h' = minFreq h.
Proof.
  intros [Hok Hfill] Hn. cbn zeta.
  assert (∃ e B1 m1 b, addToFreqBucket key freq h
      = Build_lfuHandler (list_Alter e (pushEntry key) B1) m1 (<[key := e]> (keyToBucket h)) (keyToNode h) (minFreq h) (insertCounter h) ∧
    buckets_ok B1 m1 ∧ (e, b) ∈ list_items B1 ∧ frequency b = freq ∧ (∀ g, keysAt B1 m1 g = lfuKeys h g) ∧
    filled B1 (λ g, g ≠ freq ∧ True)) as (e & B1 & m1 & b & -> & Hok1 & Hb & Hf & Hkeys & Hfill1).
  { unfold addToFreqBucket. destruct (bucketMap h !! freq) as [e|] eqn:He.
    - destruct (keysAt_Some _ _ _ _ Hok He) as (b & Hb & Hf & _). exists e, (freqBuckets h), (bucketMap h), b.
      split_and!; try done. intros x Hx _. by apply Hfill.
    - pose proof (buckets_insert _ _ freq Hok He) as Hins. destruct (insertBucketSorted _ _) as [e B1].
      destruct Hins as (? & ? & ? & Hf). eexists e, B1, _, _. split_and!; try done. by apply Hf. }
  destruct (keysAt_bucket _ _ e b Hok1 Hb) as [_ Hvals]. rewrite Hf, Hkeys in Hvals.
  assert (b ∈ values B1) as Hbv by (apply elem_of_values; by exists e).
  destruct (pushEntry_ok key b) as [Hpk Hpv]; [by apply (bk_keyed _ _ Hok1)|by rewrite <-Hvals|].
  destruct (buckets_alter B1 m1 e b (pushEntry key) Hok1 Hb) as [Hok2 Hfill2]; [done|done|]. split_and!; try done.
  - split; [done|]. cbn [freqBuckets]. apply Hfill2; [by rewrite Hf|]. rewrite Hpv. by destruct (values (entries b)).
  - intros g. unfold lfuKeys at 1. cbn [freqBuckets bucketMap]. rewrite (keysAt_alter B1 m1 e b _ g Hok1 Hb), Hf, Hkeys.
    case_bool_decide as Hg; [|done]. by rewrite Hpv, <-Hvals, Hg.
Qed.
Lemma removeFromFreqBucket_ok key freq h :
  lfu_ok h → key ∈ lfuKeys h freq →
  let h' := removeFromFreqBucket key freq h in
  lfu_ok h' ∧ (∀ g, lfuKeys h' g = if bool_decide (g = freq) then without key (lfuKeys h g) else lfuKeys h g) ∧
  keyToNode h' = keyToNode h ∧ minFreq h' = minFreq h.
Proof.
  intros [Hok Hfill] Hin. unfold removeFromFreqBucket. unfold lfuKeys in Hin.
  destruct (bucketMap h !! freq) as [e|] eqn:He; [|by rewrite keysAt_None in Hin by done; apply elem_of_nil in Hin].
  destruct (keysAt_Some _ _ _ _ Hok He) as (b & Hb & Hf & Hkeys). rewrite Hkeys in Hin.
  assert (b ∈ values (freqBuckets h)) as Hbv by (apply elem_of_values; by exists e).
  pose proof (bk_keyed _ _ Hok b Hbv) as Hkb. pose proof (bk_index _ _ Hok) as Hix.
  rewrite (proj2 (list_Value_Some _ e b (ix_ids _ _ _ Hix)) Hb).
  pose proof Hin as [ne Hne]%(keyed_dom _ _ key Hkb). rewrite Hne. cbn zeta.
  set (b' := Build_lfuFreqBucket _ _ _).
  assert (values (entries b') = without key (values (entries b))) as Hv'.
  { apply (values_remove _ _ _ ne key Hkb). by eapply keyed_Some. }
  assert (keyed (entries b') (nodeMap b')) as Hkb'.
  { apply (indexed_remove (λ k, k) _ _ ne key Hkb). by eapply keyed_Some. }
  destruct (Nat.eqb_spec (list_Len (entries b')) 0) as [Hlen|Hlen].
  - assert (values (entries b') = []) as Hnil.
    { unfold values. unfold list_Len in Hlen. apply length_zero_iff_nil in Hlen. by rewrite Hlen. }
    assert (buckets_ok (list_Remove e (freqBuckets h)) (delete freq (bucketMap h))) as Hok'.
    { constructor.
      - rewrite <-Hf. by apply (indexed_remove frequency).
      - rewrite (values_remove _ _ _ e b Hix Hb). rewrite sorted_fmap. apply sorted_filter. rewrite <-sorted_fmap. apply Hok.
      - intros x. rewrite (values_remove _ _ _ e b Hix Hb). intros Hx%list_elem_of_In%List.filter_In.
        apply (bk_keyed _ _ Hok), list_elem_of_In, Hx. }
    split_and!; try done.
    + split; [done|]. intros x. cbn [freqBuckets]. rewrite (values_remove _ _ _ e b Hix Hb).
      intros Hx%list_elem_of_In%List.filter_In. apply Hfill, list_elem_of_In, Hx.
    + intros g. unfold lfuKeys. cbn [freqBuckets bucketMap]. case_bool_decide as Hg.
      * rewrite Hg, Hkeys, <-Hv', Hnil. apply keysAt_None, lookup_delete_eq.
      * destruct (bucketMap h !! g) as [e'|] eqn:Hge.
        -- destruct (keysAt_Some _ _ _ _ Hok Hge) as (x & Hx & <- & ->).
           apply (keysAt_bucket _ _ e' x Hok'). cbn. apply list_elem_of_In, List.filter_In.
           rewrite <-list_elem_of_In. split; [done|]. cbn. apply negb_true_iff, Nat.eqb_neq. intros ->. apply Hg.
           by rewrite (items_unique _ e x b (ix_ids _ _ _ Hix) Hx Hb).
        -- rewrite (keysAt_None _ _ g Hge). apply keysAt_None. by rewrite lookup_delete_ne.
  - destruct (buckets_alter _ _ e b (λ _, b') Hok Hb) as [Hok' Hfill']; [done|done|]. split_and!; try done.
    + split; [done|]. cbn [freqBuckets]. apply Hfill'; [intros x Hx _; by apply Hfill|].
      intros Hnil. apply Hlen. unfold list_Len. unfold values in Hnil. by destruct (list_items (entries b')).
    + intros g. unfold lfuKeys. cbn [freqBuckets bucketMap]. rewrite (keysAt_alter _ _ e b _ g Hok Hb), Hf.
      case_bool_decide as Hg; [|done]. by rewrite Hg, Hkeys, Hv'.
Qed.

Definition minOk (h : lfuHandler) : Prop := ∀ f, lfuKeys h f ≠ [] → (minFreq h ≤ f)%Z ∧ lfuKeys h (minFreq h) ≠ [].
(** The first bucket is the one of least frequency. *)
Lemma front_bucket h f :
  lfu_ok h → lfuKeys h f ≠ [] →
  ∃ b, list_Front (freqBuckets h) = Some b ∧ (frequency b ≤ f)%Z ∧ lfuKeys h (frequency b) ≠ [].
Proof.
  intros [Hok Hfill] Hne. unfold lfuKeys in *. destruct (bucketMap h !! f) as [e|] eqn:He; [|by rewrite keysAt_None in Hne].
  destruct (keysAt_Some _ _ _ _ Hok He) as (b & Hb & <- & _). rewrite list_Front_values.
  assert (b ∈ values (freqBuckets h)) as Hbv by (apply elem_of_values; by exists e).
  pose proof (bk_sorted _ _ Hok) as Hs. destruct (values (freqBuckets h)) as [|x vs] eqn:Hv; [by apply elem_of_nil in Hbv|].
  exists x. assert (x ∈ values (freqBuckets h)) as Hx by (rewrite Hv; set_solver). split_and!; [done| |].
  - apply elem_of_cons in Hbv as [->|Hbv]; [lia|]. cbn in Hs. apply StronglySorted_inv in Hs as [_ Ha].
    rewrite Forall_fmap, Forall_forall in Ha. specialize (Ha b Hbv). cbn in Ha. lia.
  - pose proof Hx as [ex Hex]%elem_of_values. destruct (keysAt_bucket _ _ ex x Hok Hex) as [_ ->]. by apply Hfill.
Qed.
Lemma recalculate_ok h :
  lfu_ok h → let h' := recalculateMinFreq h in
  lfu_ok h' ∧ minOk h' ∧ (∀ g, lfuKeys h' g = lfuKeys h g) ∧ keyToNode h' = keyToNode h.
Proof.
  intros Hok. unfold recalculateMinFreq. destruct (list_Front (freqBuckets h)) as [b|] eqn:Hb; split_and!; try done.
  - intros f Hf. destruct (front_bucket h f Hok Hf) as (x & Hx & ? & ?). cbn. by simplify_eq.
  - intros f Hf. destruct (front_bucket h f Hok Hf) as (x & Hx & _). congruence.
Qed.

Definition usesOf (m : gmap string stamp) (k : string) : option Z := uses <$> m !! k.
Record lfu_follows (h : lfuHandler) (L : ledger) : Prop := {
  lf_ok : lfu_ok h;
  lf_nodes : ∀ k, node_frequency <$> keyToNode h !! k = usesOf (stamps L) k;
  lf_keys : ∀ k f, k ∈ lfuKeys h f ↔ usesOf (stamps L) k = Some f;
  lf_min : minOk h;
  lf_pos : ∀ k f, usesOf (stamps L) k = Some f → (1 ≤ f)%Z;
}.
Lemma usesOf_insert m k i x : usesOf (<[k := i]> m) x = if bool_decide (x = k) then Some (uses i) else usesOf m x.
Proof. unfold usesOf. case_bool_decide as Hx; [by rewrite Hx, lookup_insert_eq|by rewrite lookup_insert_ne]. Qed.
Lemma usesOf_delete m k x : usesOf (delete k m) x = if bool_decide (x = k) then None else usesOf m x.
Proof. unfold usesOf. case_bool_decide as Hx; [by rewrite Hx, lookup_delete_eq|by rewrite lookup_delete_ne]. Qed.
Lemma elem_of_without k l x : x ∈ without k l ↔ x ∈ l ∧ x ≠ k.
Proof.
  unfold without. by rewrite list_elem_of_In, List.filter_In, <-list_elem_of_In, negb_true_iff, bool_decide_eq_false.
Qed.
(** Same lists and nodes, another least frequency that is right. *)
Lemma follows_recalculated h t m t' :
  lfu_ok h → (∀ k, node_frequency <$> keyToNode h !! k = usesOf m k) → (∀ k f, k ∈ lfuKeys h f ↔ usesOf m k = Some f) →
  (∀ k f, usesOf m k = Some f → (1 ≤ f)%Z) → t = t' → lfu_follows (recalculateMinFreq h) (Build_ledger t' m).
Proof.
  intros Hok Hn Hk Hp ->. destruct (recalculate_ok h Hok) as (? & ? & Hg & He). constructor; cbn [stamps]; try done.
  - intros k. by rewrite He.
  - intros k f. by rewrite Hg.
Qed.
Lemma lfu_access h t m k i :
  lfu_follows h (Build_ledger t m) → m !! k = Some i →
  lfu_follows (lfu_OnAccess k h) (Build_ledger (t + 1) (<[k := Build_stamp (insertedAt i) (t + 1) (uses i + 1)]> m)).
Proof.
  intros [Hok Hn Hk Hmin Hpos] Hi. cbn [stamps] in *. unfold lfu_OnAccess.
  assert (usesOf m k = Some (uses i)) as Hu by (unfold usesOf; by rewrite Hi).
  destruct (keyToNode h !! k) as [n|] eqn:Hnode; [|specialize (Hn k); rewrite Hnode, Hu in Hn; done].
  assert (node_frequency n = uses i) as Hfreq by (specialize (Hn k); rewrite Hnode, Hu in Hn; by injection Hn). rewrite Hfreq.
  set (h1 := set_keyToNode _ h). assert (k ∈ lfuKeys h (uses i)) as Hold by (by apply Hk).
  destruct (removeFromFreqBucket_ok k (uses i) h1 Hok Hold) as (Hok2 & Hk2 & Hn2 & Hm2).
  set (h2 := removeFromFreqBucket k (uses i) h1) in *.
  destruct (addToFreqBucket_ok k (uses i + 1) h2 Hok2) as (Hok3 & Hk3 & Hn3 & Hm3).
  { rewrite Hk2, bool_decide_eq_false_2 by lia. change (lfuKeys h1) with (lfuKeys h). rewrite Hk, Hu. intros [=]. lia. }
  change (moveToFreqBucket k (uses i) (uses i + 1) h1) with (addToFreqBucket k (uses i + 1) h2).
  set (h3 := addToFreqBucket k (uses i + 1) h2) in *.
  assert (∀ x, node_frequency <$> keyToNode h3 !! x = usesOf (<[k := Build_stamp (insertedAt i) (t + 1) (uses i + 1)]> m) x) as HN.
  { intros x. rewrite Hn3, Hn2, usesOf_insert. cbn. case_bool_decide as Hx; [by rewrite Hx, lookup_insert_eq|].
    rewrite lookup_insert_ne by done. apply Hn. }
  assert (∀ x f, x ∈ lfuKeys h3 f ↔ usesOf (<[k := Build_stamp (insertedAt i) (t + 1) (uses i + 1)]> m) x = Some f) as HK.
  { intros x f. rewrite Hk3, Hk2, usesOf_insert. change (lfuKeys h1) with (lfuKeys h). cbn [uses].
    destruct (decide (f = uses i + 1)%Z) as [->|Hf1].
    - rewrite (bool_decide_eq_true_2 (uses i + 1 = uses i + 1)%Z) by done. rewrite bool_decide_eq_false_2 by lia.
      rewrite elem_of_app, list_elem_of_singleton, Hk. case_bool_decide as Hx; [naive_solver|]. naive_solver.
    - rewrite bool_decide_eq_false_2 by done. case_bool_decide as Hf2.
      + subst f. rewrite elem_of_without, Hk. case_bool_decide as Hx; [subst x; naive_solver lia|]. naive_solver.
      + rewrite Hk. case_bool_decide as Hx; [subst x; rewrite Hu; split; intros [=]; lia|done]. }
  assert (∀ x f, usesOf (<[k := Build_stamp (insertedAt i) (t + 1) (uses i + 1)]> m) x = Some f → (1 ≤ f)%Z) as HP.
  { intros x f. rewrite usesOf_insert. case_bool_decide; [|apply Hpos]. intros [= <-]. cbn. specialize (Hpos k _ Hu). lia. }
  destruct (Z.eqb_spec (uses i) (minFreq h3)) as [Hmf|Hmf]; [by apply (follows_recalculated h3 (t + 1))|].
  constructor; cbn [stamps]; try done. intros f Hf. rewrite Hm3, Hm2 in Hmf |- *. change (minFreq h1) with (minFreq h) in *.
  destruct (Hmin (uses i)) as [Hle Hne]; [by intros Hnil; rewrite Hnil in Hold; apply elem_of_nil in Hold|].
  assert (∀ g, lfuKeys h3 g = if bool_decide (g = uses i + 1)%Z then lfuKeys h g ++ [k]
    else if bool_decide (g = uses i) then without k (lfuKeys h g) else lfuKeys h g) as Hall.
  { intros g. rewrite Hk3, Hk2. case_bool_decide; [rewrite bool_decide_eq_false_2 by lia|]; done. }
  split.
  - rewrite Hall in Hf. case_bool_decide; [lia|]. case_bool_decide; [lia|]. by apply Hmin.
  - rewrite Hall, bool_decide_eq_false_2 by lia. by rewrite bool_decide_eq_false_2 by (intros Heq; by apply Hmf).
Qed.
Lemma lfu_insert h t m k :
  lfu_follows h (Build_ledger t m) → m !! k = None →
  lfu_follows (lfu_OnInsert k h) (Build_ledger (t + 1) (<[k := Build_stamp (t + 1) (t + 1) 1]> m)).
Proof.
  intros [Hok Hn Hk Hmin Hpos] Hi. cbn [stamps] in *. unfold lfu_OnInsert.
  assert (usesOf m k = None) as Hu by (unfold usesOf; by rewrite Hi).
  destruct (keyToNode h !! k) as [n|] eqn:Hnode; [specialize (Hn k); by rewrite Hnode, Hu in Hn|]. cbn zeta.
  set (h1 := Build_lfuHandler _ _ _ _ _ _). change (lfuKeys h) with (lfuKeys h1) in Hk.
  destruct (addToFreqBucket_ok k 1 h1 Hok) as (Hok2 & Hk2 & Hn2 & _); [by rewrite Hk, Hu|].
  constructor; cbn [stamps]; try done.
  - intros x. cbn. rewrite Hn2, usesOf_insert. cbn. case_bool_decide as Hx; [by rewrite Hx, lookup_insert_eq|].
    rewrite lookup_insert_ne by done. apply Hn.
  - intros x f. change (lfuKeys (set_minFreq _ _)) with (lfuKeys (addToFreqBucket k 1 h1)). rewrite Hk2, usesOf_insert. cbn [uses].
    case_bool_decide as Hf; [rewrite elem_of_app, list_elem_of_singleton|]; rewrite Hk; case_bool_decide as Hx; naive_solver.
  - intros f. change (lfuKeys (set_minFreq _ _)) with (lfuKeys (addToFreqBucket k 1 h1)). cbn [minFreq set_minFreq].
    intros Hne. split.
    + rewrite Hk2 in Hne. case_bool_decide; [lia|]. destruct (lfuKeys h1 f) as [|x l] eqn:Hx; [done|].
      apply (Hpos x). apply Hk. rewrite Hx. set_solver.
    + rewrite Hk2, bool_decide_eq_true_2 by done. by destruct (lfuKeys h1 1).
  - intros x f. rewrite usesOf_insert. case_bool_decide; [|apply Hpos]. by intros [= <-].
Qed.
Lemma lfu_evict h t m k i :
  lfu_follows h (Build_ledger t m) → m !! k = Some i → lfu_follows (lfu_OnEvict k h) (Build_ledger (t + 1) (delete k m)).
Proof.
  intros [Hok Hn Hk Hmin Hpos] Hi. cbn [stamps] in *. unfold lfu_OnEvict.
  assert (usesOf m k = Some (uses i)) as Hu by (unfold usesOf; by rewrite Hi).
  destruct (keyToNode h !! k) as [n|] eqn:Hnode; [|specialize (Hn k); rewrite Hnode, Hu in Hn; done].
  assert (node_frequency n = uses i) as Hfreq by (specialize (Hn k); rewrite Hnode, Hu in Hn; by injection Hn). rewrite Hfreq.
  assert (k ∈ lfuKeys h (uses i)) as Hold by (by apply Hk).
  destruct (removeFromFreqBucket_ok k (uses i) h Hok Hold) as (Hok2 & Hk2 & Hn2 & Hm2).
  set (h2 := removeFromFreqBucket k (uses i) h) in *. cbn zeta. set (h3 := Build_lfuHandler _ _ _ _ _ _).
  change (lfuKeys h2) with (lfuKeys h3) in Hk2. change (minFreq h2) with (minFreq h3) in Hm2.
  assert (∀ x, node_frequency <$> keyToNode h3 !! x = usesOf (delete k m) x) as HN.
  { intros x. cbn. rewrite Hn2, usesOf_delete. case_bool_decide as Hx; [by rewrite Hx, lookup_delete_eq|].
    rewrite lookup_delete_ne by done. apply Hn. }
  assert (∀ x f, x ∈ lfuKeys h3 f ↔ usesOf (delete k m) x = Some f) as HK.
  { intros x f. rewrite Hk2, usesOf_delete. case_bool_decide as Hf; [rewrite elem_of_without|]; rewrite Hk;
      case_bool_decide as Hx; naive_solver. }
  assert (∀ x f, usesOf (delete k m) x = Some f → (1 ≤ f)%Z) as HP.
  { intros x f. rewrite usesOf_delete. case_bool_decide; [done|apply Hpos]. }
  destruct (Z.eqb_spec (uses i) (minFreq h3)) as [Hmf|Hmf]; [by apply (follows_recalculated h3 (t + 1))|].
  constructor; cbn [stamps]; try done. intros f Hf. rewrite Hm2 in Hmf |- *.
  destruct (Hmin (uses i)) as [Hle Hne]; [by intros Hnil; rewrite Hnil in Hold; apply elem_of_nil in Hold|]. split.
  - rewrite Hk2 in Hf. case_bool_decide; [lia|]. by apply Hmin.
  - by rewrite Hk2, bool_decide_eq_false_2 by (intros Heq; by apply Hmf).
Qed.
Lemma lfu_candidate h : size (keyToNode h) ≠ 0 → lfu_ok h → lfu_SelectEvictionCandidate h = default "" (head (lfuKeys h (minFreq h))).
Proof.
  intros Hs [Hok _]. unfold lfu_SelectEvictionCandidate, lfuKeys. rewrite (proj2 (Nat.eqb_neq _ _) Hs).
  destruct (bucketMap h !! minFreq h) as [e|] eqn:He; [|by rewrite keysAt_None].
  destruct (keysAt_Some _ _ _ _ Hok He) as (b & Hb & _ & ->).
  rewrite (proj2 (list_Value_Some _ e b (ix_ids _ _ _ (bk_index _ _ Hok))) Hb). cbn. by rewrite list_Front_values.
Qed.
#[export] Instance lfu_laws : EvictionLaws lfuHandler newLfuHandler uses.
Proof.
  assert (∀ t, lfu_follows newLfuHandler (Build_ledger t ∅)) as Hnew.
  { intros t. constructor; try done.
    - split; [constructor; [apply indexed_new|constructor|]|]; intros b Hb; by apply elem_of_nil in Hb.
    - intros k f. split; [by intros ?%elem_of_nil|done]. }
  refine {| follows := lfu_follows |}; [exact Hnew|..].
  - intros h [t m] ev Hf. unfold note, tell, OnInsert, OnAccess, OnEvict, Reset, lfu_handler. cbn [clock stamps].
    assert (lfu_follows h (Build_ledger (t + 1) m)) as Hsame by (by destruct Hf).
    assert (∀ k, m !! k = None → keyToNode h !! k = None) as Hnone.
    { intros k Hk. pose proof (lf_nodes _ _ Hf k) as Hn. unfold usesOf in Hn. cbn [stamps] in Hn. rewrite Hk in Hn.
      by destruct (keyToNode h !! k). }
    destruct ev as [k|k|k|]; cbn [noted].
    + destruct (m !! k) as [i|] eqn:Hk; [|by apply lfu_insert]. assert (∀ x, usesOf (<[k := Build_stamp (insertedAt i) (t + 1) (uses i)]> m) x = usesOf m x) as Hu.
      { intros x. rewrite usesOf_insert. case_bool_decide as Hx; [|done]. subst x. unfold usesOf. by rewrite Hk. }
      unfold lfu_OnInsert. destruct (keyToNode h !! k) as [n|] eqn:Hn.
      2:{ pose proof (lf_nodes _ _ Hf k) as Hn'. unfold usesOf in Hn'. cbn [stamps] in Hn'. by rewrite Hk, Hn in Hn'. }
      destruct Hf as [H1 H2 H3 H4 H5]. constructor; cbn [stamps] in *; [done| | |done|]; intros x; rewrite Hu; [apply H2|apply H3|apply H5].
    + destruct (m !! k) as [i|] eqn:Hk; [by apply lfu_access|]. unfold lfu_OnAccess. by rewrite Hnone.
    + destruct (m !! k) as [i|] eqn:Hk; [by eapply lfu_evict|]. unfold lfu_OnEvict. rewrite Hnone by done. by rewrite delete_id.
    + apply Hnew.
  - intros h [t m] [Hok Hn Hk Hmin Hpos] Hne. cbn [stamps] in *. apply map_choose in Hne as (k & i & Hi).
    assert (usesOf m k = Some (uses i)) as Hu by (unfold usesOf; by rewrite Hi).
    assert (lfuKeys h (uses i) ≠ []) as Hl by (intros Hnil; apply Hk in Hu; rewrite Hnil in Hu; by apply elem_of_nil in Hu).
    destruct (Hmin _ Hl) as [_ Hm]. cbn. rewrite lfu_candidate; [|intros Hs%map_size_empty_inv|done].
    2:{ specialize (Hn k). by rewrite Hs, lookup_empty, Hu in Hn. }
    destruct (lfuKeys h (minFreq h)) as [|k0 l] eqn:Hkeys; [done|]. cbn.
    assert (usesOf m k0 = Some (minFreq h)) as Hu0 by (apply Hk; rewrite Hkeys; set_solver).
    unfold usesOf in Hu0. apply fmap_Some in Hu0 as (i0 & Hi0 & Heq). exists i0. split; [done|]. intros k' i' Hi'.
    assert (k' ∈ lfuKeys h (uses i')) as Hin by (apply Hk; unfold usesOf; by rewrite Hi').
    rewrite <-Heq. apply Hmin. intros Hnil. rewrite Hnil in Hin. by apply elem_of_nil in Hin.
  - intros h [t m] [Hok Hn Hk Hmin Hpos] He. cbn [stamps] in *. subst m. cbn. unfold lfu_SelectEvictionCandidate.
    assert (keyToNode h = ∅) as ->; [|done]. apply map_empty. intros k. specialize (Hn k). unfold usesOf in Hn.
    rewrite lookup_empty in Hn. by destruct (keyToNode h !! k).
Qed.

(** ** Whatever a handler is told *)
#[export] Instance stamp_eq_dec : EqDecision stamp.
Proof. solve_decision. Defined.
Definition happened (evs : list event) : gmap string stamp := stamps (foldl note (Build_ledger 0 ∅) evs).
Lemma foldl_follows {H} `{!evictionPolicyHandler H} {fresh : H} {rank} `{!EvictionLaws H fresh rank} evs :
  follows (foldl tell fresh evs) (foldl note (Build_ledger 0 ∅) evs).
Proof.
  rewrite <-(rev_involutive evs). induction (rev evs) as [|ev l IH]; cbn; [apply follows_fresh|].
  rewrite !foldl_snoc. by apply follows_tell.
Qed.
(** C28. The policies do what their names say: whatever a handler was told, as long as
    it tracks any key it chooses one of them, and the one chosen was used least
    recently (LRU), put in first (FIFO), or used least often since it was put in
    (LFU, with its buckets of keys by frequency); it chooses nothing when it tracks
    nothing. *)
Theorem candidates_follow_the_policy evs :
  let lru := SelectEvictionCandidate (foldl tell newLruHandler evs) in
  let fifo := SelectEvictionCandidate (foldl tell newFifoHandler evs) in
  let lfu := SelectEvictionCandidate (foldl tell newLfuHandler evs) in
  if decide (happened evs = ∅) then lru = "" ∧ fifo = "" ∧ lfu = ""
  else least lastUsedAt (happened evs) lru ∧ least insertedAt (happened evs) fifo ∧ least uses (happened evs) lfu.
Proof.
  cbn zeta. destruct (decide _) as [He|Hne].
  - split_and!; eapply follows_nobody; try apply foldl_follows; done.
  - split_and!; (eapply follows_candidate; [apply foldl_follows|done]).
Qed.
(** Within a frequency the key that reached it first goes first, not the one put in
    first: the insertion order a node remembers is not consulted. *)
Lemma lfu_ties_by_arrival :
  SelectEvictionCandidate (foldl tell newLfuHandler [Inserted "a"; Inserted "b"; Accessed "b"; Accessed "a"]) = "b".
Proof. vm_compute. reflexivity. Qed.
