(* ===== verification/CacheProps.v ===== *)
(** * What the cache promises

    Against what a policy promises ([Eviction.EvictionLaws]), the cache stays within
    its size and keeps its map, counter and policy in step whatever steps its threads
    take; storing, evicting and invalidating do what they should. *)
From S2P Require Import Prelude Cache Eviction.

(** ** The cache, against what the policies promise *)
Definition keysAfter (ev : event) (K : gset string) : gset string :=
  match ev with
  | Inserted k => {[k]} ∪ K
  | Accessed _ => K
  | Evicted k => K ∖ {[k]}
  | Forgotten => ∅
  end.
Lemma dom_noted t ev m : dom (noted t ev m) = keysAfter ev (dom m).
Proof.
  destruct ev as [k|k|k|]; cbn; [| |by rewrite dom_delete_L|by rewrite dom_empty_L].
  - by destruct (m !! k); rewrite dom_insert_L.
  - destruct (m !! k) as [i|] eqn:Hk; [|done]. rewrite dom_insert_L. apply elem_of_dom_2 in Hk. set_solver.
Qed.
Section tracked.
Context {H : Type} `{!evictionPolicyHandler H} {fresh : H} {rank : stamp → Z} `{!EvictionLaws H fresh rank}.
(** A policy keeps track of exactly the keys of [K]. *)
Definition tracked (h : H) (K : gset string) : Prop := ∃ L, follows h L ∧ dom (stamps L) = K.
Lemma tracked_fresh : tracked fresh ∅.
Proof. exists (Build_ledger 0 ∅). split; [apply follows_fresh|apply dom_empty_L]. Qed.
Lemma tracked_tell h K ev : tracked h K → tracked (tell h ev) (keysAfter ev K).
Proof. intros (L & HL & <-). exists (note L ev). split; [by apply follows_tell|apply dom_noted]. Qed.
Lemma tracked_candidate h K : tracked h K → K ≠ ∅ → SelectEvictionCandidate h ∈ K.
Proof.
  intros (L & HL & <-) Hne. destruct (follows_candidate h L HL) as (i & Hi & _); [|by apply elem_of_dom_2 in Hi].
  intros He. by rewrite He, dom_empty_L in Hne.
Qed.
End tracked.
Definition tracks (h : Handler) (K : gset string) : Prop :=
  match h with
  | noOpEvictionHandler => True
  | HandlerLRU h => tracked h K
  | HandlerLFU h => tracked h K
  | HandlerFIFO h => tracked h K
  end.
Lemma tracks_new p : tracks (newEvictionHandler p) ∅.
Proof. destruct p; cbn; [done|apply tracked_fresh..]. Qed.
Lemma tracks_tell h K ev : tracks h K → tracks (tell h ev) (keysAfter ev K).
Proof. destruct h as [|h|h|h]; [by destruct ev|intros Hh%(tracked_tell _ _ ev); by destruct ev..]. Qed.
Lemma tracks_candidate h K : h ≠ noOpEvictionHandler → tracks h K → K ≠ ∅ → SelectEvictionCandidate h ∈ K.
Proof. destruct h as [|h|h|h]; [done|intros _; exact (tracked_candidate h K)..]. Qed.
Lemma tell_noOp h ev : tell h ev = noOpEvictionHandler ↔ h = noOpEvictionHandler.
Proof. by destruct h, ev. Qed.

Section consistent.
Context {T : Type}.
Implicit Types m : memoryCache T.

Record consistent m : Prop := {
  co_tracks : tracks (mc_evictionHandler m) (dom (mc_data m));
  co_size : mc_size m = Z.of_nat (size (mc_data m));
  co_bound : (0 < mc_maxSize m)%Z → mc_evictionHandler m ≠ noOpEvictionHandler ∧ (mc_size m ≤ mc_maxSize m)%Z;
  co_address : ∀ k e, mc_data m !! k = Some e → entry_address e < mc_next m;
}.
Lemma newMemoryCache_consistent cfg : consistent (newMemoryCache cfg).
Proof.
  constructor; cbn; [rewrite dom_empty_L; apply tracks_new|done| |by intros k e; rewrite lookup_empty].
  intros Hpos. split; [|lia]. unfold effectivePolicy. destruct (Z.leb_spec (cfg_maxSize cfg) 0); [lia|].
  by destruct (cfg_evictionPolicy cfg).
Qed.
Lemma dropEntry_consistent key m : consistent m → consistent (dropEntry key m).
Proof.
  intros [H1 H2 H3 H4]. unfold dropEntry. destruct (mc_data m !! key) as [e|] eqn:He; [|done].
  constructor; cbn.
  - rewrite dom_delete_L. apply (tracks_tell _ _ (Evicted key) H1).
  - rewrite map_size_delete, He. assert (size (mc_data m) ≠ 0) by (intros Hs%map_size_empty_inv; by rewrite Hs, lookup_empty in He).
    lia.
  - intros Hpos. destruct (H3 Hpos) as [Hn Hb]. split; [|lia]. intros Hc.
    exact (Hn (proj1 (tell_noOp _ (Evicted key)) Hc)).
  - intros k x [_ Hx]%lookup_delete_Some. by apply (H4 k).
Qed.
Lemma removeExpiredEntry_consistent key e m : consistent m → consistent (removeExpiredEntry key e m).
Proof.
  intros Hm. unfold removeExpiredEntry. destruct (mc_data m !! key); [|done]. destruct (_ =? _)%nat; [|done].
  by apply dropEntry_consistent.
Qed.
Lemma access_consistent key m : consistent m → consistent (with_handler (OnAccess key (mc_evictionHandler m)) m).
Proof.
  intros [H1 H2 H3 H4]. constructor; cbn; [apply (tracks_tell _ _ (Accessed key) H1)|done| |done].
  intros Hpos. destruct (H3 Hpos) as [Hn Hb]. split; [|done]. intros Hc. exact (Hn (proj1 (tell_noOp _ (Accessed key)) Hc)).
Qed.

(** What [Set] finds when it needs room. *)
Definition isFull (key : string) m : bool :=
  negb (bool_decide (is_Some (mc_data m !! key))) && (0 <? mc_maxSize m)%Z && (mc_maxSize m <=? mc_size m)%Z.
Definition candidateOf m : string := SelectEvictionCandidate (mc_evictionHandler m).
Lemma full_candidate key m : consistent m → isFull key m = true → is_Some (mc_data m !! candidateOf m).
Proof.
  intros [H1 H2 H3 H4] [[_ Hpos%Z.ltb_lt]%andb_true_iff Hfull%Z.leb_le]%andb_true_iff. apply elem_of_dom.
  destruct (H3 Hpos) as [Hn _]. apply tracks_candidate; [done|done|]. intros He%dom_empty_inv_L.
  rewrite He, map_size_empty in H2. cbn in H2. lia.
Qed.
Lemma dropEntry_size key m : is_Some (mc_data m !! key) → mc_size (dropEntry key m) = (mc_size m - 1)%Z ∧ mc_maxSize (dropEntry key m) = mc_maxSize m.
Proof. intros [e He]. unfold dropEntry. by rewrite He. Qed.
Lemma makeRoom_spec key m fuel :
  consistent m → bool_decide (is_Some (mc_data m !! key)) = false → (0 < mc_maxSize m)%Z → roomFuel m ≤ fuel →
  makeRoom fuel m = Some (if isFull key m then
    if bool_decide (candidateOf m = "") then (Some ErrMemoryLimitExceeded, m) else (None, dropEntry (candidateOf m) m)
    else (None, m)).
Proof.
  intros Hm Hkey Hpos Hfuel. unfold roomFuel in Hfuel. destruct fuel as [|fuel]; [lia|]. cbn [makeRoom].
  unfold isFull. rewrite Hkey, (proj2 (Z.ltb_lt _ _) Hpos). cbn [negb andb].
  destruct (mc_maxSize m <=? mc_size m)%Z eqn:Hfull; [|done]. fold (candidateOf m).
  destruct (bool_decide (candidateOf m = "")) eqn:Hc; [done|]. assert (is_Some (mc_data m !! candidateOf m)) as Hin.
  { apply (full_candidate key); [done|]. unfold isFull. by rewrite Hkey, (proj2 (Z.ltb_lt _ _) Hpos), Hfull. }
  destruct (dropEntry_size _ _ Hin) as [Hs Hmax]. destruct (co_bound _ Hm Hpos) as [_ Hle]. apply Z.leb_le in Hfull.
  destruct fuel as [|fuel].
  { pose proof (co_size _ Hm). lia. }
  cbn [makeRoom]. rewrite Hs, Hmax. by rewrite (proj2 (Z.leb_gt _ _)) by lia.
Qed.
Lemma storeEntry_consistent now key value ttl m :
  consistent m → isFull key m = false → consistent (storeEntry now key value ttl m).
Proof.
  intros [H1 H2 H3 H4] Hfull. unfold storeEntry. destruct (bool_decide (is_Some (mc_data m !! key))) eqn:Hk; constructor; cbn.
  - apply bool_decide_eq_true, elem_of_dom in Hk. rewrite dom_insert_L. replace ({[key]} ∪ dom (mc_data m)) with (dom (mc_data m)) by set_solver.
    apply (tracks_tell _ _ (Accessed key) H1).
  - apply bool_decide_eq_true in Hk as [e He]. by rewrite map_size_insert, He.
  - intros Hpos. destruct (H3 Hpos) as [Hn Hb]. split; [|done]. intros Hc. exact (Hn (proj1 (tell_noOp _ (Accessed key)) Hc)).
  - intros k e [[<- <-]|[_ He]]%lookup_insert_Some; cbn; [lia|]. specialize (H4 k e He). lia.
  - rewrite dom_insert_L. apply (tracks_tell _ _ (Inserted key) H1).
  - apply bool_decide_eq_false, eq_None_not_Some in Hk. rewrite map_size_insert, Hk. lia.
  - intros Hpos. destruct (H3 Hpos) as [Hn Hb]. split.
    + intros Hc. exact (Hn (proj1 (tell_noOp _ (Inserted key)) Hc)).
    + unfold isFull in Hfull. rewrite Hk, (proj2 (Z.ltb_lt _ _) Hpos) in Hfull. cbn in Hfull. apply Z.leb_gt in Hfull. lia.
  - intros k e [[<- <-]|[_ He]]%lookup_insert_Some; cbn; [lia|]. specialize (H4 k e He). lia.
Qed.
(** [Set], case by case. *)
Lemma Set_spec fuel now key value ttl m :
  consistent m → roomFuel m ≤ fuel →
  memoryCache_Set fuel now key value ttl m = Some (
    if mc_closed m then (Some ErrCacheClosed, m)
    else if isFull key m then
      if bool_decide (candidateOf m = "") then (Some ErrMemoryLimitExceeded, m)
      else (None, storeEntry now key value ttl (dropEntry (candidateOf m) m))
    else (None, storeEntry now key value ttl m)).
Proof.
  intros Hm Hfuel. unfold memoryCache_Set. destruct (mc_closed m); [done|].
  destruct (bool_decide (is_Some (mc_data m !! key))) eqn:Hk; cbn [negb andb].
  { unfold isFull. by rewrite Hk. }
  destruct (0 <? mc_maxSize m)%Z eqn:Hpos; cbn [andb].
  - rewrite (makeRoom_spec key m fuel Hm Hk) by (done || by apply Z.ltb_lt). destruct (isFull key m); [|done].
    by destruct (bool_decide (candidateOf m = "")).
  - unfold isFull. by rewrite Hk, Hpos.
Qed.
Lemma dropped_not_full key m :
  consistent m → isFull key m = true → isFull key (dropEntry (candidateOf m) m) = false.
Proof.
  intros Hm Hfull. pose proof (full_candidate key m Hm Hfull) as Hc. destruct (dropEntry_size _ _ Hc) as [Hs Hx].
  apply andb_true_iff in Hfull as [[_ Hpos%Z.ltb_lt]%andb_true_iff _]. unfold isFull. rewrite Hs, Hx.
  destruct (co_bound _ Hm Hpos) as [_ Hle]. rewrite (proj2 (Z.leb_gt _ _)) by lia. apply andb_false_r.
Qed.
Lemma Set_consistent fuel now key value ttl m r m' :
  consistent m → roomFuel m ≤ fuel → memoryCache_Set fuel now key value ttl m = Some (r, m') → consistent m'.
Proof.
  intros Hm Hfuel. rewrite Set_spec by done. destruct (mc_closed m); [by intros [= <- <-]|].
  destruct (isFull key m) eqn:Hfull.
  - destruct (bool_decide _); intros [= <- <-]; [done|]. apply storeEntry_consistent; [by apply dropEntry_consistent|].
    by apply dropped_not_full.
  - intros [= <- <-]. by apply storeEntry_consistent.
Qed.
Lemma runStep_consistent m st : consistent m → consistent (runStep m st).
Proof.
  intros Hm. destruct st as [now key value ttl|key| |key e|key|]; cbn [runStep].
  - destruct (memoryCache_Set _ _ _ _ _ _) as [[r m']|] eqn:Hs; [|done]. by eapply Set_consistent.
  - unfold memoryCache_Delete. destruct (mc_closed m); [done|]. by apply dropEntry_consistent.
  - unfold memoryCache_Clear. destruct (mc_closed m); [done|]. destruct Hm as [H1 H2 H3 H4]. constructor; cbn.
    + rewrite dom_empty_L. apply (tracks_tell _ _ Forgotten H1).
    + done.
    + intros Hpos. destruct (H3 Hpos) as [Hn _]. split; [|lia]. intros Hc. exact (Hn (proj1 (tell_noOp _ Forgotten) Hc)).
    + by intros k e; rewrite lookup_empty.
  - by apply removeExpiredEntry_consistent.
  - by apply access_consistent.
  - by destruct Hm.
Qed.
Lemma reached_consistent cfg steps : consistent (foldl runStep (newMemoryCache cfg) steps).
Proof.
  rewrite <-(rev_involutive steps). induction (rev steps) as [|st l IH]; cbn; [apply newMemoryCache_consistent|].
  rewrite foldl_snoc. by apply runStep_consistent.
Qed.
End consistent.

Section promises.
Context {T : Type}.
Lemma runStep_maxSize (m : memoryCache T) st : mc_maxSize (runStep m st) = mc_maxSize m.
Proof.
  assert (∀ key (m : memoryCache T), mc_maxSize (dropEntry key m) = mc_maxSize m) as Hdrop.
  { intros key x. unfold dropEntry. by destruct (mc_data x !! key). }
  assert (∀ fuel (m : memoryCache T) r m', makeRoom fuel m = Some (r, m') → mc_maxSize m' = mc_maxSize m) as Hroom.
  { intros fuel. induction fuel as [|fuel IH]; intros x r x'; cbn; [done|]. destruct (_ <=? _)%Z; [|by intros [= <- <-]].
    destruct (bool_decide _); [by intros [= <- <-]|]. intros ->%IH. apply Hdrop. }
  destruct st as [now key value ttl|key| |key e|key|]; cbn [runStep].
  - unfold memoryCache_Set. destruct (mc_closed m); [done|]. destruct (_ && _).
    + destruct (makeRoom _ m) as [[[e|] m']|] eqn:Hr; [by apply Hroom in Hr| |done]. cbn. by apply Hroom in Hr.
    + done.
  - unfold memoryCache_Delete. by destruct (mc_closed m).
  - unfold memoryCache_Clear. by destruct (mc_closed m).
  - unfold removeExpiredEntry. destruct (mc_data m !! key); [|done]. by destruct (_ =? _)%nat.
  - done.
  - done.
Qed.
Lemma reached_maxSize cfg (steps : list (cacheStep T)) : mc_maxSize (foldl runStep (newMemoryCache cfg) steps) = cfg_maxSize cfg.
Proof.
  rewrite <-(rev_involutive steps). induction (rev steps) as [|st l IH]; cbn; [done|]. by rewrite foldl_snoc, runStep_maxSize.
Qed.
(** C29. The cache keeps in step with itself: whatever its threads do, in whatever
    order, late removals and late notes to the policy included, the size counter is
    the number of entries; a cache with a maximum size never holds more and its policy
    tracks exactly the keys stored; and the loop that makes room always comes to an
    end. *)
Theorem cache_stays_in_step cfg (steps : list (cacheStep T)) now key value ttl :
  let m := foldl runStep (newMemoryCache cfg) steps in
  mc_size m = Z.of_nat (size (mc_data m)) ∧
  (if (0 <? cfg_maxSize cfg)%Z
   then (mc_size m ≤ cfg_maxSize cfg)%Z ∧ mc_evictionHandler m ≠ noOpEvictionHandler ∧
        tracks (mc_evictionHandler m) (dom (mc_data m))
   else True) ∧
  memoryCache_Set (roomFuel m) now key value ttl m ≠ None.
Proof.
  cbn zeta. pose proof (reached_consistent cfg steps) as Hm. pose proof (reached_maxSize cfg steps) as Hmax.
  set (m := foldl runStep _ _) in *. split_and!; [apply Hm| |].
  - destruct (Z.ltb_spec 0 (cfg_maxSize cfg)) as [Hpos|]; [|done]. rewrite <-Hmax in *.
    destruct (co_bound _ Hm Hpos). split_and!; [done|done|apply Hm].
  - by rewrite Set_spec.
Qed.
(** An entry under the empty key blocks a full cache: the empty string is also how a
    policy says that it has nobody to evict, so with one entry allowed and that entry
    stored under the empty key, storing any other key fails under every policy. *)
Theorem empty_key_blocks_the_cache policy now key (v w : T) ttl :
  key ≠ "" →
  let m := runStep (newMemoryCache (Build_memoryConfig 1 0 policy 0)) (StepSet now "" v []) in
  memoryCache_Set (roomFuel m) now key w ttl m = Some (Some ErrMemoryLimitExceeded, m).
Proof.
  intros Hk. cbn zeta. pose proof (reached_consistent (Build_memoryConfig 1 0 policy 0) [StepSet now "" v []]) as Hm.
  cbn [foldl] in Hm. rewrite Set_spec by done. assert (∃ e, mc_data (runStep (newMemoryCache (Build_memoryConfig 1 0 policy 0)) (StepSet now "" v [])) = {["" := e]}) as [e He].
  { by destruct policy; eexists. }
  assert (isFull key (runStep (newMemoryCache (Build_memoryConfig 1 0 policy 0)) (StepSet now "" v [])) = true) as ->.
  { unfold isFull. rewrite He, lookup_singleton_ne by done. by destruct policy. }
  by destruct policy.
Qed.
Lemma Invalidate_spec keys key (m : memoryCache T) :
  consistent m → mc_closed m = false → keys = [] ∨ key ∈ keys →
  let m' := Invalidate keys m in consistent m' ∧ mc_closed m' = false ∧ mc_data m' !! key = None.
Proof.
  intros Hm Hopen Hkeys. cbn zeta. unfold Invalidate. destruct keys as [|k0 l].
  { pose proof (runStep_consistent m StepClear Hm) as Hc. cbn [runStep] in Hc. unfold memoryCache_Clear in *.
    rewrite Hopen in *. split_and!; [done|done|]. cbn. apply lookup_empty. }
  destruct Hkeys as [[=]|Hkey]. revert m Hm Hopen Hkey. generalize (k0 :: l). intros ks.
  assert (∀ k (m : memoryCache T), mc_closed m = false → memoryCache_Delete k m = dropEntry k m ∧ mc_closed (dropEntry k m) = false
    ∧ mc_data (dropEntry k m) = delete k (mc_data m)) as Hdel.
  { intros k m Ho. unfold memoryCache_Delete, dropEntry. rewrite Ho. destruct (mc_data m !! k) eqn:Hk; [done|].
    by rewrite delete_id. }
  assert (∀ ks (m : memoryCache T), mc_closed m = false → mc_data m !! key = None →
    mc_data (foldl (λ m k, memoryCache_Delete k m) m ks) !! key = None) as Hgone.
  { intros xs. induction xs as [|k xs IH]; intros m Ho Hn; [done|]. cbn. destruct (Hdel k m Ho) as (-> & Ho' & Hd).
    apply IH; [done|]. rewrite Hd. by apply lookup_delete_None; right. }
  induction ks as [|k ks IH]; intros m Hm Ho Hin; [by apply elem_of_nil in Hin|]. cbn.
  destruct (Hdel k m Ho) as (-> & Ho' & Hd). pose proof (dropEntry_consistent k m Hm) as Hm'.
  destruct (decide (key ∈ ks)) as [Hks|Hks]; [by apply IH|]. apply elem_of_cons in Hin as [->|]; [|done].
  assert (∀ xs (m : memoryCache T), consistent m → mc_closed m = false →
    consistent (foldl (λ m k, memoryCache_Delete k m) m xs) ∧ mc_closed (foldl (λ m k, memoryCache_Delete k m) m xs) = false) as Hkeep.
  { intros xs. induction xs as [|x xs IHx]; intros n Hn Hno; [done|]. cbn. destruct (Hdel x n Hno) as (-> & Hno' & _).
    apply IHx; [by apply dropEntry_consistent|done]. }
  destruct (Hkeep ks _ Hm' Ho'). split_and!; [done|done|]. apply Hgone; [done|]. rewrite Hd. apply lookup_delete_eq.
Qed.
(** Invalidated keys are loaded again: after the keys, or with no key named all of
    them, were invalidated in a read-through cache, reading such a key returns what
    the loader gives now, never what was cached before. *)
Theorem invalidated_keys_are_reloaded cfg (steps : list (cacheStep T)) keys loader now key :
  let m := foldl runStep (newMemoryCache cfg) steps in
  mc_closed m = false → keys = [] ∨ key ∈ keys →
  ∃ r m', Invalidating_Get (roomFuel (Invalidate keys m)) now loader key (Invalidate keys m) = Some (r, m') ∧
    match loader key with
    | Err e => r = Err e
    | Ok v => r = Ok v ∨ r = Err ErrMemoryLimitExceeded ∧ candidateOf (Invalidate keys m) = ""
    end.
Proof.
  cbn zeta. intros Hopen Hkeys. destruct (Invalidate_spec keys key _ (reached_consistent cfg steps) Hopen Hkeys) as (Hm & Ho & Hn).
  set (m := Invalidate keys _) in *. unfold Invalidating_Get, GetOrLoad, memoryCache_Get. rewrite Ho, Hn, Ho, Hn.
  destruct (loader key) as [v|e]; [|by eexists _, _]. rewrite Set_spec by done. rewrite Ho.
  destruct (isFull key m); [|by eexists _, _; split; [|left]].
  destruct (bool_decide (candidateOf m = "")) eqn:Hc; [|by eexists _, _; split; [|left]].
  apply bool_decide_eq_true in Hc. by eexists _, _; split; [|right].
Qed.
End promises.

(** Two entries allowed: the older of two untouched keys makes room for a third. *)
Definition demoCacheConfig : memoryConfig := Build_memoryConfig 2 0 EvictionPolicyLRU 0.
Definition demoCacheSteps : list (cacheStep nat) := [StepSet 0 "a" 1 []; StepSet 1 "b" 2 []; StepAccess "a"].
Lemma empty_key_blocks_the_cache_witness :
  let m := runStep (newMemoryCache (Build_memoryConfig 1 0 EvictionPolicyLFU 0)) (StepSet 0 "" 1 []) in
  memoryCache_Set (roomFuel m) 0 "a" 2 [] m = Some (Some ErrMemoryLimitExceeded, m).
Proof. apply (empty_key_blocks_the_cache EvictionPolicyLFU 0 "a" 1 2 []). discriminate. Defined.
Lemma invalidated_keys_are_reloaded_witness :
  let m := foldl runStep (newMemoryCache demoCacheConfig) demoCacheSteps in
  ∃ m', Invalidating_Get (roomFuel (Invalidate ["a"] m)) 5 (λ _, Ok 7) "a" (Invalidate ["a"] m) = Some (Ok 7, m').
Proof.
  cbn zeta. destruct (invalidated_keys_are_reloaded demoCacheConfig demoCacheSteps ["a"] (λ _, Ok 7) 5 "a")
    as (r & m' & Hr & [->|[_ Hc]]).
  - vm_compute. reflexivity.
  - right. apply list_elem_of_here.
  - exists m'. exact Hr.
  - vm_compute in Hc. discriminate Hc.
Defined.
