(* ===== verification/Sequence.v ===== *)
(** * Serial numbers

    [sequence] and [internal/sequence]: the rules, when a counter starts anew
    ([policy.go] with the calendar of [timex]), the three stores behind one interface
    and the numbers built from what they reserve.

    A time is the local wall clock in seconds; the calendar functions of Go's [time]
    are written out.  Go's [int] has 64 bits and wraps.  [time.Format], and the text
    of a time that Redis keeps, are parameters. *)
From stdpp Require Import pretty.
From S2P Require Import Prelude FormStorage RecordKeys.
Open Scope Z_scope.

(** ** The calendar ([timex/datetime.go], [common.go]) *)
Definition civilOf (days : Z) : Z * Z * Z :=
  let z := days + 719468 in
  let era := z / 146097 in
  let doe := z mod 146097 in
  let yoe := (doe - doe / 1460 + doe / 36524 - doe / 146096) / 365 in
  let doy := doe - (365 * yoe + yoe / 4 - yoe / 100) in
  let mp := (5 * doy + 2) / 153 in
  let month := if mp <? 10 then mp + 3 else mp - 9 in
  (yoe + era * 400 + (if month <=? 2 then 1 else 0), month, doy - (153 * mp + 2) / 5 + 1).
Definition daysOf (year month day : Z) : Z :=
  let y := if month <=? 2 then year - 1 else year in
  let yoe := y mod 400 in
  let doy := (153 * (if 2 <? month then month - 3 else month + 9) + 2) / 5 + day - 1 in
  y / 400 * 146097 + (yoe * 365 + yoe / 4 - yoe / 100 + doy) - 719468.
Definition dayOf (dt : Z) : Z := dt / 86400.
Definition Year (dt : Z) : Z := (civilOf (dayOf dt)).1.1.
Definition Month (dt : Z) : Z := (civilOf (dayOf dt)).1.2.
(** Sunday is 0; the epoch was a Thursday. *)
Definition Weekday (dt : Z) : Z := (dayOf dt + 4) mod 7.
(** [time.Date] at midnight *)
Definition midnight (year month day : Z) : Z := daysOf year month day * 86400.
Definition BeginOfDay (dt : Z) : Z := dayOf dt * 86400.
Definition weekdayDelta (dt weekday : Z) : Z := weekday - Weekday dt.
Definition BeginOfWeek (dt : Z) : Z := BeginOfDay dt + weekdayDelta dt 0 * 86400.
Definition BeginOfMonth (dt : Z) : Z := midnight (Year dt) (Month dt) 1.
Definition quarterStartMonth (month : Z) : Z := (month - 1) / 3 * 3 + 1.
Definition BeginOfQuarter (dt : Z) : Z := midnight (Year dt) (quarterStartMonth (Month dt)) 1.

(** ** Rules ([rule.go]) *)
Inductive ResetCycle :=
  ResetNone | ResetDaily | ResetWeekly | ResetMonthly | ResetQuarterly | ResetYearly | ResetCycleOther (s : string).
#[export] Instance ResetCycle_eq_dec : EqDecision ResetCycle.
Proof. solve_decision. Defined.
Inductive OverflowStrategy := OverflowError | OverflowReset | OverflowExtend | OverflowOther (s : string).
Record Rule := {
  Rule_Key : string;
  Rule_Name : string;
  Rule_Prefix : string;
  Rule_Suffix : string;
  Rule_DateFormat : string;
  Rule_SeqLength : Z;
  Rule_SeqStep : Z;
  Rule_StartValue : Z;
  Rule_MaxValue : Z;
  Rule_OverflowStrategy : OverflowStrategy;
  Rule_ResetCycle : ResetCycle;
  Rule_CurrentValue : Z;
  Rule_LastResetAt : option Z;
  Rule_IsActive : bool;
}.
Definition set_counter (value : Z) (resetAt : option Z) (r : Rule) : Rule :=
  Build_Rule (Rule_Key r) (Rule_Name r) (Rule_Prefix r) (Rule_Suffix r) (Rule_DateFormat r) (Rule_SeqLength r)
    (Rule_SeqStep r) (Rule_StartValue r) (Rule_MaxValue r) (Rule_OverflowStrategy r) (Rule_ResetCycle r) value resetAt
    (Rule_IsActive r).
Inductive SequenceError := ErrRuleNotFound | ErrSequenceOverflow | ErrInvalidCount | ErrInvalidStep | ErrMissingField | ErrInvalidField.

(** ** The policy ([policy.go]) *)
Definition needsResetByCycle (rule : Rule) (now : Z) : bool :=
  match Rule_ResetCycle rule with
  | ResetNone => false
  | cycle =>
      if bool_decide (cycle = ResetCycleOther "") then false
      else match Rule_LastResetAt rule with
      | None => true
      | Some last =>
          match cycle with
          | ResetDaily => negb (BeginOfDay last =? BeginOfDay now)
          | ResetWeekly => negb (BeginOfWeek last =? BeginOfWeek now)
          | ResetMonthly => negb (BeginOfMonth last =? BeginOfMonth now)
          | ResetQuarterly => negb (BeginOfQuarter last =? BeginOfQuarter now)
          | ResetYearly => negb (Year last =? Year now)
          | _ => false
          end
      end
  end.
(** [base + step*count] in 64 bits *)
Definition nextValue (base step count : Z) : Z := wrapInt64 (base + wrapInt64 (step * count)).
Definition baseValue (rule : Rule) (resetNeeded : bool) : Z :=
  if resetNeeded then Rule_StartValue rule else Rule_CurrentValue rule.
Definition evaluateReserve (rule : Rule) (count now : Z) : result SequenceError bool :=
  if count <? 1 then Err ErrInvalidCount
  else if Rule_SeqStep rule <? 1 then Err ErrInvalidStep
  else
    let resetNeeded := needsResetByCycle rule now in
    if (0 <? Rule_MaxValue rule) && (Rule_MaxValue rule <? nextValue (baseValue rule resetNeeded) (Rule_SeqStep rule) count) then
      match Rule_OverflowStrategy rule with
      | OverflowReset => if resetNeeded then Err ErrSequenceOverflow else Ok true
      | OverflowExtend => Ok resetNeeded
      | _ => Err ErrSequenceOverflow
      end
    else Ok resetNeeded.

(** ** The stores *)
Class Store (S : Type) := {
  Reserve : string → Z → Z → S → result SequenceError (Rule * Z) * S;
}.
(** The rule after a reservation, as all stores compute it. *)
Definition advanceRule (rule : Rule) (resetNeeded : bool) (count now : Z) : Rule :=
  set_counter (nextValue (baseValue rule resetNeeded) (Rule_SeqStep rule) count)
    (if resetNeeded then Some now else Rule_LastResetAt rule) rule.

(** *** In memory ([memory_store.go]) *)
Abbreviation MemoryStore := (gmap string Rule).
Definition MemoryStore_Register (rules : list Rule) (s : MemoryStore) : MemoryStore :=
  foldl (λ s r, <[Rule_Key r := r]> s) s rules.
Definition MemoryStore_Reserve (key : string) (count now : Z) (s : MemoryStore)
    : result SequenceError (Rule * Z) * MemoryStore :=
  match s !! key with
  | None => (Err ErrRuleNotFound, s)
  | Some rule =>
      if negb (Rule_IsActive rule) then (Err ErrRuleNotFound, s)
      else match evaluateReserve rule count now with
           | Err e => (Err e, s)
           | Ok resetNeeded =>
               let rule := advanceRule rule resetNeeded count now in
               (Ok (rule, Rule_CurrentValue rule), <[key := rule]> s)
           end
  end.
#[export] Instance memory_store : Store MemoryStore := {| Reserve := MemoryStore_Reserve |}.

(** *** In a table ([db_store.go]) *)
Record RuleModel := {
  RuleModel_ID : string;
  RuleModel_Key : string;
  RuleModel_Name : string;
  RuleModel_Prefix : option string;
  RuleModel_Suffix : option string;
  RuleModel_DateFormat : option string;
  RuleModel_SeqLength : Z;
  RuleModel_SeqStep : Z;
  RuleModel_StartValue : Z;
  RuleModel_MaxValue : Z;
  RuleModel_OverflowStrategy : OverflowStrategy;
  RuleModel_ResetCycle : ResetCycle;
  RuleModel_CurrentValue : Z;
  RuleModel_LastResetAt : option Z;
  RuleModel_IsActive : bool;
  RuleModel_Remark : option string;
}.
Definition toRule (m : RuleModel) : Rule :=
  Build_Rule (RuleModel_Key m) (RuleModel_Name m) (default "" (RuleModel_Prefix m)) (default "" (RuleModel_Suffix m))
    (default "" (RuleModel_DateFormat m)) (RuleModel_SeqLength m) (RuleModel_SeqStep m) (RuleModel_StartValue m)
    (RuleModel_MaxValue m) (RuleModel_OverflowStrategy m) (RuleModel_ResetCycle m) (RuleModel_CurrentValue m)
    (RuleModel_LastResetAt m) (RuleModel_IsActive m).
(** [SET current_value = ?], and [last_reset_at = ?] when the counter was reset *)
Definition persist (value : Z) (resetAt : option (option Z)) (m : RuleModel) : RuleModel :=
  Build_RuleModel (RuleModel_ID m) (RuleModel_Key m) (RuleModel_Name m) (RuleModel_Prefix m) (RuleModel_Suffix m)
    (RuleModel_DateFormat m) (RuleModel_SeqLength m) (RuleModel_SeqStep m) (RuleModel_StartValue m) (RuleModel_MaxValue m)
    (RuleModel_OverflowStrategy m) (RuleModel_ResetCycle m) value (default (RuleModel_LastResetAt m) resetAt)
    (RuleModel_IsActive m) (RuleModel_Remark m).
Abbreviation DBStore := (list RuleModel).
Definition DBStore_Reserve (key : string) (count now : Z) (s : DBStore) : result SequenceError (Rule * Z) * DBStore :=
  match tfirst (λ m, bool_decide (RuleModel_Key m = key) && RuleModel_IsActive m) s with
  | None => (Err ErrRuleNotFound, s)
  | Some model =>
      match evaluateReserve (toRule model) count now with
      | Err e => (Err e, s)
      | Ok resetNeeded =>
          let rule := advanceRule (toRule model) resetNeeded count now in
          let newValue := Rule_CurrentValue rule in
          (Ok (rule, newValue),
           tupdate (λ m, bool_decide (RuleModel_ID m = RuleModel_ID model))
             (persist newValue (if resetNeeded then Some (Rule_LastResetAt rule) else None)) s)
      end
  end.
#[export] Instance db_store : Store DBStore := {| Reserve := DBStore_Reserve |}.

(** *** In Redis ([redis_store.go]) *)
Definition redisSequencePrefix : string := "vef:sequence:".
Definition ResetCycle_String (c : ResetCycle) : string :=
  match c with
  | ResetNone => "N" | ResetDaily => "D" | ResetWeekly => "W" | ResetMonthly => "M" | ResetQuarterly => "Q"
  | ResetYearly => "Y" | ResetCycleOther s => s
  end.
(** [ResetCycle(s)] *)
Definition ResetCycle_Of (s : string) : ResetCycle :=
  if bool_decide (s = "N") then ResetNone else if bool_decide (s = "D") then ResetDaily
  else if bool_decide (s = "W") then ResetWeekly else if bool_decide (s = "M") then ResetMonthly
  else if bool_decide (s = "Q") then ResetQuarterly else if bool_decide (s = "Y") then ResetYearly
  else ResetCycleOther s.
Definition OverflowStrategy_String (o : OverflowStrategy) : string :=
  match o with
  | OverflowError => "error" | OverflowReset => "reset" | OverflowExtend => "extend" | OverflowOther s => s
  end.
Definition OverflowStrategy_Of (s : string) : OverflowStrategy :=
  if bool_decide (s = "error") then OverflowError else if bool_decide (s = "reset") then OverflowReset
  else if bool_decide (s = "extend") then OverflowExtend else OverflowOther s.
(** Hashes of text fields by key. *)
Abbreviation RedisStore := (gmap string (gmap string string)).
Definition parseRedisIntField (fields : gmap string string) (key : string) : result SequenceError Z :=
  match fields !! key with
  | None => Err ErrMissingField
  | Some value => match parseInt64 value with Some n => Ok n | None => Err ErrInvalidField end
  end.
Definition parseRedisBoolField (fields : gmap string string) (key : string) : result SequenceError bool :=
  match fields !! key with
  | None => Err ErrMissingField
  | Some value => match parseBool value with Some b => Ok b | None => Err ErrInvalidField end
  end.
Definition textField (fields : gmap string string) (key : string) : string := default "" (fields !! key).
Definition FormatBool (b : bool) : string := if b then "true" else "false".

Section redis.
(** [DateTime.String] and [timex.Parse] *)
Context (timeString : Z → string) (timeParse : string → option Z).
Definition parseRedisRule (fields : gmap string string) : result SequenceError Rule :=
  isActive ← parseRedisBoolField fields "is_active";
  seqLength ← parseRedisIntField fields "seq_length";
  seqStep ← parseRedisIntField fields "seq_step";
  startValue ← parseRedisIntField fields "start_value";
  maxValue ← parseRedisIntField fields "max_value";
  currentValue ← parseRedisIntField fields "current_value";
  lastReset ← (let lastReset := textField fields "last_reset_at" in
               if bool_decide (lastReset = "") then Ok None
               else match timeParse lastReset with Some dt => Ok (Some dt) | None => Err ErrInvalidField end);
  Ok (Build_Rule (textField fields "key") (textField fields "name") (textField fields "prefix") (textField fields "suffix")
        (textField fields "date_format") seqLength seqStep startValue maxValue
        (OverflowStrategy_Of (textField fields "overflow_strategy")) (ResetCycle_Of (textField fields "reset_cycle"))
        currentValue lastReset isActive).
Definition ruleFields (rule : Rule) : gmap string string :=
  let fields := list_to_map [
    ("key", Rule_Key rule); ("name", Rule_Name rule); ("prefix", Rule_Prefix rule); ("suffix", Rule_Suffix rule);
    ("date_format", Rule_DateFormat rule); ("seq_length", pretty (Rule_SeqLength rule));
    ("seq_step", pretty (Rule_SeqStep rule)); ("start_value", pretty (Rule_StartValue rule));
    ("max_value", pretty (Rule_MaxValue rule));
    ("overflow_strategy", OverflowStrategy_String (Rule_OverflowStrategy rule));
    ("reset_cycle", ResetCycle_String (Rule_ResetCycle rule)); ("current_value", pretty (Rule_CurrentValue rule));
    ("is_active", FormatBool (Rule_IsActive rule))] in
  match Rule_LastResetAt rule with
  | Some t => <["last_reset_at" := timeString t]> fields
  | None => fields
  end.
(** [HSET] overwrites the fields it names and keeps the others. *)
Definition HSet (key : string) (fields : gmap string string) (s : RedisStore) : RedisStore :=
  <[key := fields ∪ default ∅ (s !! key)]> s.
Definition RegisterRule (rule : Rule) (s : RedisStore) : RedisStore :=
  HSet (String.append redisSequencePrefix (Rule_Key rule)) (ruleFields rule) s.
(** One run of the watched function and what it would write. *)
Definition redisAttempt (key : string) (count now : Z) (s : RedisStore)
    : result SequenceError (Rule * Z * RedisStore) :=
  let rKey := String.append redisSequencePrefix key in
  let fields := default ∅ (s !! rKey) in
  if bool_decide (fields = ∅) then Err ErrRuleNotFound
  else
    rule ← parseRedisRule fields;
    if negb (Rule_IsActive rule) then Err ErrRuleNotFound
    else
      resetNeeded ← evaluateReserve rule count now;
      let rule := advanceRule rule resetNeeded count now in
      let newValue := Rule_CurrentValue rule in
      let updates := <["current_value" := pretty newValue]>
        (if resetNeeded : bool then {["last_reset_at" := timeString now]} else ∅) : gmap string string in
      Ok (rule, newValue, HSet rKey updates s).
(** A write of another client to the watched key fails the transaction, and the loop
    starts over on what that client left. *)
Fixpoint RedisStore_Reserve (clashes : list (RedisStore → RedisStore)) (key : string) (count now : Z) (s : RedisStore)
    : result SequenceError (Rule * Z) * RedisStore :=
  match redisAttempt key count now s with
  | Err e => (Err e, s)
  | Ok (rule, newValue, s') =>
      match clashes with
      | [] => (Ok (rule, newValue), s')
      | clash :: clashes => RedisStore_Reserve clashes key count now (clash s)
      end
  end.
Definition redis_store : Store RedisStore := {| Reserve := RedisStore_Reserve [] |}.
End redis.

(** ** The numbers ([format.go], [internal/sequence/engine.go]) *)

(** [strings.NewReplacer]: at every position the first pattern that matches. *)
Definition datePlaceholders : list (string * string) :=
  [("yyyy", "2006"); ("yy", "06"); ("MM", "01"); ("dd", "02"); ("HH", "15"); ("mm", "04"); ("ss", "05")].
Fixpoint replaceAll (fuel : nat) (s : string) : string :=
  match fuel with
  | 0%nat => ""
  | S fuel =>
      match List.find (λ p, String.prefix p.1 s) datePlaceholders with
      | Some (old, new) => String.append new (replaceAll fuel (String.substring (String.length old) (String.length s) s))
      | None => match s with EmptyString => EmptyString | String a rest => String a (replaceAll fuel rest) end
      end
  end.
Definition toGoLayout (format : string) : string := replaceAll (S (String.length format)) format.

Section engine.
(** [DateTime.Format] *)
Context (timeFormat : Z → string → string).
Definition FormatDate (dt : Z) (format : string) : string :=
  if bool_decide (format = "") then "" else timeFormat dt (toGoLayout format).
Fixpoint zeros (n : nat) : string := match n with 0%nat => "" | S n => String.append "0" (zeros n) end.
Definition buildSingleSerialNo (rule : Rule) (seqValue : Z) (datePart : string) : string :=
  let numStr := pretty seqValue in
  String.append (Rule_Prefix rule) (String.append datePart
    (String.append (zeros (Z.to_nat (Rule_SeqLength rule - Z.of_nat (String.length numStr))))
      (String.append numStr (Rule_Suffix rule)))).
(** The values of a batch, counted back from the last. *)
Definition batchValues (rule : Rule) (newValue count : Z) : list Z :=
  (λ i, wrapInt64 (newValue - wrapInt64 ((count - 1 - i) * Rule_SeqStep rule))) <$> seqZ 0 count.
Definition buildSerialNumbers (rule : Rule) (newValue count now : Z) : list string :=
  let datePart := FormatDate now (Rule_DateFormat rule) in
  (λ v, buildSingleSerialNo rule v datePart) <$> batchValues rule newValue count.
Definition GenerateN {S} `{!Store S} (key : string) (count now : Z) (s : S) : result SequenceError (list string) * S :=
  if count <? 1 then (Err ErrInvalidCount, s)
  else
    let '(r, s) := Reserve key count now s in
    match r with
    | Err e => (Err e, s)
    | Ok (rule, newValue) => (Ok (buildSerialNumbers rule newValue count now), s)
    end.
Definition Generate {S} `{!Store S} (key : string) (now : Z) (s : S) : result SequenceError string * S :=
  let '(r, s) := GenerateN key 1 now s in
  match r with
  | Err e => (Err e, s)
  | Ok results => (Ok (default "" (head results)), s)
  end.
End engine.
