(* ===== verification/SequenceProps.v ===== *)
(** * What the serial numbers promise

    A counter is reset when the calendar period changes.  The three stores keep one promise ([StoreLaws]): each reserves as the map of rules
    does, so the engine answers alike on all of them.  Between two resets the numbers
    of a key climb, stay under the ceiling the rule sets and give different serials. *)
From Stdlib Require Import Ascii.
From stdpp Require Import pretty.
From S2P Require Import Prelude FormStorage RecordKeys Sequence.
Open Scope Z_scope.

(** ** The calendar *)
Lemma civil_month days : 1 ≤ (civilOf days).1.2 ≤ 12.
Proof.
  unfold civilOf. cbn [fst snd]. set (doe := (days + 719468) mod 146097). assert (0 ≤ doe < 146097) by (apply Z.mod_pos_bound; lia).
  set (yoe := _ / 365).
  assert (0 ≤ doe - (365 * yoe + yoe / 4 - yoe / 100) ≤ 365) by (subst yoe; Z.div_mod_to_equations; lia).
  destruct (_ <? 10) eqn:E; Z.div_mod_to_equations; lia.
Qed.
(** Years and months counted from March. *)
Definition marchDays (y : Z) : Z := 365 * y + y / 4 - y / 100 + y / 400.
Definition marchMonth (m : Z) : Z := if 2 <? m then m - 3 else m + 9.
Lemma daysOf_march y m day : daysOf y m day =
  marchDays (if m <=? 2 then y - 1 else y) + ((153 * marchMonth m + 2) / 5 + day - 1) - 719468.
Proof. unfold daysOf, marchDays, marchMonth. Z.div_mod_to_equations; lia. Qed.
Lemma marchDays_mono y y' : y < y' → marchDays y + 365 ≤ marchDays y'.
Proof. unfold marchDays. intros. Z.div_mod_to_equations; lia. Qed.
Lemma daysOf_inj y y' m m' : 1 ≤ m ≤ 12 → 1 ≤ m' ≤ 12 → daysOf y m 1 = daysOf y' m' 1 → y = y' ∧ m = m'.
Proof.
  intros H H'. rewrite !daysOf_march.
  set (a := if m <=? 2 then _ else _). set (a' := if m' <=? 2 then _ else _). intros Heq.
  assert (a = a') as Ha.
  { destruct (Z.lt_trichotomy a a') as [Hlt|[?|Hlt]]; [|done|]; apply marchDays_mono in Hlt; unfold marchMonth in *;
    destruct (2 <? m) eqn:?, (2 <? m') eqn:?; Z.div_mod_to_equations; lia. }
  rewrite Ha in Heq. assert (marchMonth m = marchMonth m') as Hm by (Z.div_mod_to_equations; lia).
  unfold marchMonth in Hm. subst a a'. destruct (Z.ltb_spec 2 m), (Z.ltb_spec 2 m'), (Z.leb_spec m 2), (Z.leb_spec m' 2); lia.
Qed.

(** The calendar period a time falls in. *)
Definition periodOf (c : ResetCycle) (dt : Z) : list Z :=
  match c with
  | ResetDaily => [dayOf dt]
  | ResetWeekly => [(dayOf dt + 4) / 7]
  | ResetMonthly => [Year dt; Month dt]
  | ResetQuarterly => [Year dt; (Month dt - 1) / 3]
  | ResetYearly => [Year dt]
  | ResetNone | ResetCycleOther _ => []
  end.
Lemma beginnings_tell_periods last now :
  (BeginOfDay last = BeginOfDay now ↔ periodOf ResetDaily last = periodOf ResetDaily now) ∧
  (BeginOfWeek last = BeginOfWeek now ↔ periodOf ResetWeekly last = periodOf ResetWeekly now) ∧
  (BeginOfMonth last = BeginOfMonth now ↔ periodOf ResetMonthly last = periodOf ResetMonthly now) ∧
  (BeginOfQuarter last = BeginOfQuarter now ↔ periodOf ResetQuarterly last = periodOf ResetQuarterly now).
Proof.
  pose proof (civil_month (dayOf last) : 1 ≤ Month last ≤ 12) as Hl.
  pose proof (civil_month (dayOf now) : 1 ≤ Month now ≤ 12) as Hn.
  split_and!.
  - unfold BeginOfDay, periodOf. split; [intros; f_equal; lia|by intros [= ->]].
  - unfold BeginOfWeek, periodOf, weekdayDelta, BeginOfDay, Weekday. split; [intros; f_equal; Z.div_mod_to_equations; lia|].
    intros [= H]. Z.div_mod_to_equations; lia.
  - unfold BeginOfMonth, midnight, periodOf. split; [|by intros [= -> ->]].
    intros H. destruct (daysOf_inj (Year last) (Year now) (Month last) (Month now)) as [-> ->]; [lia..|done].
  - unfold BeginOfQuarter, midnight, periodOf, quarterStartMonth. split; [|by intros [= -> ->]].
    intros H. destruct (daysOf_inj (Year last) (Year now) ((Month last - 1) / 3 * 3 + 1) ((Month now - 1) / 3 * 3 + 1)) as [-> Hm];
      [Z.div_mod_to_equations; lia..|]. f_equal. f_equal. lia.
Qed.
(** The civil date of a day names that day. *)
Lemma daysOf_civilOf days : let '(y, m, d) := civilOf days in daysOf y m d = days.
Proof.
  unfold civilOf. set (z := days + 719468). set (doe := z mod 146097). assert (0 ≤ doe < 146097) by (apply Z.mod_pos_bound; lia).
  set (yoe := _ / 365).
  assert (0 ≤ yoe < 400 ∧ 0 ≤ doe - (365 * yoe + yoe / 4 - yoe / 100) ≤ 365) as [Hy Hd] by (subst yoe; Z.div_mod_to_equations; lia).
  set (doy := doe - _) in *. set (mp := _ / 153). assert (0 ≤ mp ≤ 11) by (subst mp; Z.div_mod_to_equations; lia).
  rewrite daysOf_march. unfold marchMonth, marchDays. clearbody yoe mp. 
  replace days with (z / 146097 * 146097 + doe - 719468) by (subst doe; pose proof (Z.div_mod z 146097); lia). 
  clearbody doe. generalize (z / 146097). intros era.
  destruct (Z.ltb_spec mp 10).
  - replace (mp + 3 <=? 2) with false by lia. replace (2 <? mp + 3) with true by lia. subst doy. Z.div_mod_to_equations. lia.
  - replace (mp - 9 <=? 2) with true by lia. replace (2 <? mp - 9) with false by lia. subst doy. Z.div_mod_to_equations. lia.
Qed.

(** C30. A counter is reset by its cycle exactly when the calendar says so: the day, the
    week from Sunday, the month, the quarter or the year of now is another one than
    that of the last reset; a counter with a cycle that was never reset is reset at
    once, and one without a cycle never. *)
Theorem resets_follow_the_calendar rule now :
  let c := Rule_ResetCycle rule in
  needsResetByCycle rule now =
  match Rule_LastResetAt rule with
  | Some last => negb (bool_decide (periodOf c last = periodOf c now))
  | None => negb (bool_decide (c = ResetNone ∨ c = ResetCycleOther ""))
  end.
Proof.
  cbn zeta. unfold needsResetByCycle. destruct (Rule_LastResetAt rule) as [last|].
  - destruct (beginnings_tell_periods last now) as (Hd & Hw & Hm & Hq).
    destruct (Rule_ResetCycle rule) eqn:Hc; [done| | | | | |by destruct (bool_decide _)]; cbn [bool_decide]; f_equal;
     apply eq_true_iff_eq; rewrite Z.eqb_eq, bool_decide_eq_true; [done..|]. split; [by cbn; intros ->|by intros [= ->]].
  - destruct (Rule_ResetCycle rule) as [| | | | | |s]; [done..|]. case_bool_decide as H; [by rewrite H|]. 
    rewrite bool_decide_false; [done|]. by intros [?|?].
Qed.

(** ** One contract for the stores *)
Class StoreLaws (S : Type) `{!Store S} := {
  holds : S → gmap string Rule → Prop;
  holds_reserve key count now s rules : holds s rules →
    (Reserve key count now s).1 = (MemoryStore_Reserve key count now rules).1 ∧
    holds (Reserve key count now s).2 (MemoryStore_Reserve key count now rules).2;
}.
#[export] Instance memory_laws : StoreLaws MemoryStore.
Proof. refine {| holds := λ s rules, s = rules |}. by intros key count now s rules ->. Defined.

(** *** The table *)
Definition keyed (key : string) (m : RuleModel) : bool := bool_decide (RuleModel_Key m = key).
Record tableHolds (s : DBStore) (rules : gmap string Rule) : Prop := {
  th_ids : NoDup (RuleModel_ID <$> s);
  th_keys : NoDup (RuleModel_Key <$> s);
  th_rules : ∀ key, rules !! key = toRule <$> tfirst (keyed key) s;
}.
Lemma tfirst_fmap {Row} (p : Row → bool) (g : Row → Row) s :
  (∀ r, p (g r) = p r) → tfirst p (map g s) = g <$> tfirst p s.
Proof.
  intros Hg. unfold tfirst. induction s as [|r s IH]; [done|]. cbn [map List.find]. rewrite Hg. by destruct (p r).
Qed.
(** A row that is alone in satisfying [p] is the one a query finds. *)
Lemma tfirst_unique {Row} (p : Row → bool) s r :
  r ∈ s → p r = true → (∀ r', r' ∈ s → p r' = true → r' = r) → tfirst p s = Some r.
Proof.
  intros Hr Hp Hu. destruct (tfirst p s) as [r'|] eqn:Hf.
  - apply tfirst_Some in Hf as [Hin Hp']. by rewrite (Hu r' Hin Hp').
  - rewrite tfirst_None in Hf. by rewrite (Hf r Hr) in Hp.
Qed.
Lemma fmap_unique {Row} (key : Row → string) (s : list Row) r r' :
  NoDup (key <$> s) → r ∈ s → r' ∈ s → key r = key r' → r = r'.
Proof.
  intros Hnd (i & Hi)%list_elem_of_lookup (j & Hj)%list_elem_of_lookup Hk.
  assert (i = j) as ->; [|congruence].
  eapply (NoDup_lookup _ i j (key r) Hnd); rewrite list_lookup_fmap; [by rewrite Hi|]. rewrite Hj. cbn. by rewrite Hk.
Qed.
Lemma tableHolds_active s rules key : tableHolds s rules →
  tfirst (λ m, bool_decide (RuleModel_Key m = key) && RuleModel_IsActive m) s =
  match tfirst (keyed key) s with
  | Some m => if RuleModel_IsActive m then Some m else None
  | None => None
  end.
Proof.
  intros [_ Hk _]. destruct (tfirst (keyed key) s) as [m|] eqn:Hm.
  - apply tfirst_Some in Hm as [Hm Hkey%bool_decide_eq_true].
    assert (∀ m', m' ∈ s → bool_decide (RuleModel_Key m' = key) && RuleModel_IsActive m' = true → m' = m) as Hu.
    { intros m' Hm' [Hk'%bool_decide_eq_true _]%andb_true_iff. eapply fmap_unique; [done..|congruence]. }
    destruct (RuleModel_IsActive m) eqn:Ha.
    + apply tfirst_unique; [done| |done]. by rewrite bool_decide_true, Ha.
    + apply tfirst_None. intros m' Hm'. destruct (_ && _) eqn:Hp; [|done]. rewrite (Hu m' Hm' Hp) in Hp.
      by rewrite Ha, andb_false_r in Hp.
  - rewrite tfirst_None in Hm |- *. intros m' Hm'. by rewrite (Hm m' Hm' : bool_decide _ = _).
Qed.
Lemma toRule_persist m (resetNeeded : bool) count now :
  let rule := advanceRule (toRule m) resetNeeded count now in
  toRule (persist (Rule_CurrentValue rule) (if resetNeeded then Some (Rule_LastResetAt rule) else None) m) = rule.
Proof. by destruct resetNeeded. Qed.
Lemma tableHolds_update s rules m f rule : tableHolds s rules → tfirst (keyed (RuleModel_Key m)) s = Some m →
  (∀ m', RuleModel_ID (f m') = RuleModel_ID m' ∧ RuleModel_Key (f m') = RuleModel_Key m') → toRule (f m) = rule →
  tableHolds (tupdate (λ m', bool_decide (RuleModel_ID m' = RuleModel_ID m)) f s) (<[RuleModel_Key m := rule]> rules).
Proof.
  intros [Hi Hk Hr] Hm Hf <-. set (g := λ m', if bool_decide (RuleModel_ID m' = RuleModel_ID m) then f m' else m').
  assert (∀ m', RuleModel_ID (g m') = RuleModel_ID m') as Hg1 by (intros m'; unfold g; case_bool_decide; [apply Hf|done]).
  assert (∀ m', RuleModel_Key (g m') = RuleModel_Key m') as Hg2 by (intros m'; unfold g; case_bool_decide; [apply Hf|done]).
  change (tupdate _ f s) with (map g s). split.
  - rewrite <-list_fmap_compose. by rewrite (list_fmap_ext _ RuleModel_ID) by (intros; apply Hg1).
  - rewrite <-list_fmap_compose. by rewrite (list_fmap_ext _ RuleModel_Key) by (intros; apply Hg2).
  - intros key. rewrite tfirst_fmap by (intros m'; unfold keyed; by rewrite Hg2).
    destruct (decide (key = RuleModel_Key m)) as [->|Hne].
    + rewrite lookup_insert_eq, Hm. cbn. unfold g. by rewrite bool_decide_true.
    + rewrite lookup_insert_ne by done. rewrite Hr. destruct (tfirst (keyed key) s) as [m'|] eqn:Hm'; [|done]. cbn. unfold g.
      apply tfirst_Some in Hm as [Hm _], Hm' as [Hin' Hkey%bool_decide_eq_true]. rewrite bool_decide_false; [done|].
      intros Hid. apply Hne. by rewrite <-Hkey, (fmap_unique _ _ _ _ Hi Hin' Hm Hid).
Qed.
#[export] Instance table_laws : StoreLaws DBStore.
Proof.
  refine {| holds := tableHolds |}. intros key count now s rules Hs. cbn [Reserve db_store].
  unfold DBStore_Reserve, MemoryStore_Reserve. rewrite (tableHolds_active _ _ _ Hs), (th_rules _ _ Hs).
  destruct (tfirst (keyed key) s) as [m|] eqn:Hm; [|done]. cbn [fmap option_fmap option_map].
  change (Rule_IsActive (toRule m)) with (RuleModel_IsActive m). destruct (RuleModel_IsActive m); [|done]. cbn [negb].
  destruct (evaluateReserve (toRule m) count now) as [reset|e]; [|done]. cbn [fst snd]. split; [done|].
  pose proof Hm as Hkey. apply tfirst_Some in Hkey as [_ <-%bool_decide_eq_true].
  apply tableHolds_update; [done|done|done|apply toRule_persist].
Defined.

(** *** Redis *)
Definition knownText (c : ResetCycle) (o : OverflowStrategy) : Prop :=
  ResetCycle_Of (ResetCycle_String c) = c ∧ OverflowStrategy_Of (OverflowStrategy_String o) = o.
(** A rule whose integers fit 64 bits, as every Go value does. *)
Record storable (r : Rule) : Prop := {
  sr_text : knownText (Rule_ResetCycle r) (Rule_OverflowStrategy r);
  sr_ints : Forall (λ n, isInt64 n = true)
    [Rule_SeqLength r; Rule_SeqStep r; Rule_StartValue r; Rule_MaxValue r; Rule_CurrentValue r];
}.
Lemma parseBool_FormatBool b : parseBool (FormatBool b) = Some b.
Proof. by destruct b. Qed.
Section redis_laws.
Context (timeString : Z → string) (timeParse : string → option Z).
(** The text of a time names it. *)
Hypothesis parse_text : ∀ t, timeParse (timeString t) = Some t.
Hypothesis text_nonempty : ∀ t, timeString t ≠ "".

Abbreviation parseRule := (parseRedisRule timeParse).
Abbreviation fieldsOf := (ruleFields timeString).
Ltac lookups :=
  repeat first [rewrite lookup_insert_eq | rewrite lookup_insert_ne by done | rewrite lookup_empty];
  cbn [from_option id].
(** Split on whether a number can be read from a field. *)
Ltac readField m name parse :=
  destruct (m !! name) as [?|]; [|done]; destruct (parse _); [|done]; cbn [mbind result_bind].
Lemma parse_ruleFields r : storable r → parseRule (fieldsOf r) = Ok r.
Proof.
  intros [[Hc Ho] Hi]. unfold parseRedisRule, parseRedisIntField, parseRedisBoolField, textField, ruleFields.
  rewrite !Forall_cons in Hi. destruct Hi as (H1 & H2 & H3 & H4 & H5 & _).
  cbn [list_to_map foldr uncurry fst snd].
  destruct (Rule_LastResetAt r) as [t|] eqn:Ht; lookups;
    rewrite parseBool_FormatBool, !parseInt64_pretty by done; cbn [mbind result_bind].
  - rewrite bool_decide_false by apply text_nonempty. rewrite parse_text. cbn [mbind result_bind]. rewrite Hc, Ho, <-Ht. by destruct r.
  - rewrite bool_decide_true by done. cbn [mbind result_bind]. rewrite Hc, Ho, <-Ht. by destruct r.
Qed.
Lemma parse_advance fields r (resetNeeded : bool) count now : parseRule fields = Ok r →
  parseRule (<["current_value" := pretty (nextValue (baseValue r resetNeeded) (Rule_SeqStep r) count)]>
    (if resetNeeded then {["last_reset_at" := timeString now]} else ∅) ∪ fields) = Ok (advanceRule r resetNeeded count now).
Proof.
  set (v := nextValue _ _ _). intros Hp.
  assert (isInt64 v = true) as Hv by apply wrapInt64_range.
  rewrite <-insert_union_l. revert Hp. unfold parseRedisRule, parseRedisIntField, parseRedisBoolField, textField, advanceRule. fold v.
  destruct resetNeeded; [rewrite <-insert_union_singleton_l|rewrite (left_id_L ∅ (∪))]; lookups;
    readField fields "is_active" parseBool.
  all: readField fields "seq_length" parseInt64; readField fields "seq_step" parseInt64.
  all: readField fields "start_value" parseInt64; readField fields "max_value" parseInt64.
  all: readField fields "current_value" parseInt64.
  all: rewrite parseInt64_pretty by done; cbn [mbind result_bind].
  - rewrite (bool_decide_false (timeString now = "")) by apply text_nonempty. rewrite parse_text. cbn [mbind result_bind].
    destruct (bool_decide _); [by intros [= <-]|]. destruct (timeParse _); [by intros [= <-]|done].
  - destruct (bool_decide _); [by intros [= <-]|]. destruct (timeParse _); [by intros [= <-]|done].
Qed.

Definition hashAt (s : RedisStore) (key : string) : gmap string string :=
  default ∅ (s !! String.append redisSequencePrefix key).
Definition hashHolds (s : RedisStore) (rules : gmap string Rule) : Prop :=
  ∀ key, match rules !! key with None => hashAt s key = ∅ | Some r => parseRule (hashAt s key) = Ok r end.
Lemma parse_nothing : parseRule ∅ = Err ErrMissingField.
Proof. done. Qed.
Lemma hashAt_HSet s key updates key' :
  hashAt (HSet (String.append redisSequencePrefix key) updates s) key' =
  if bool_decide (key' = key) then updates ∪ hashAt s key else hashAt s key'.
Proof.
  unfold hashAt, HSet. destruct (bool_decide (key' = key)) eqn:Hk.
  - apply bool_decide_eq_true in Hk as ->. by rewrite lookup_insert_eq.
  - apply bool_decide_eq_false in Hk. rewrite lookup_insert_ne; [done|]. intros He. apply Hk. symmetry.
    by apply (String.app_inj redisSequencePrefix).
Qed.
Lemma hashHolds_HSet s rules key updates r : hashHolds s rules → parseRule (updates ∪ hashAt s key) = Ok r →
  hashHolds (HSet (String.append redisSequencePrefix key) updates s) (<[key := r]> rules).
Proof.
  intros Hs Hr key'. rewrite hashAt_HSet. destruct (decide (key' = key)) as [->|Hne].
  - by rewrite lookup_insert_eq, bool_decide_true.
  - rewrite lookup_insert_ne, bool_decide_false by done. apply Hs.
Qed.
(** A rule registered for the first time is read back as it is. *)
Lemma RegisterRule_holds s rules r : hashHolds s rules → storable r → rules !! Rule_Key r = None →
  hashHolds (RegisterRule timeString r s) (<[Rule_Key r := r]> rules).
Proof.
  intros Hs Hr Hnew. apply hashHolds_HSet; [done|]. specialize (Hs (Rule_Key r)). rewrite Hnew in Hs.
  rewrite Hs, (right_id_L ∅ (∪)). by apply parse_ruleFields.
Qed.
(** Registered again without a reset time, a rule keeps the one it had. *)
Lemma RegisterRule_keeps_reset s r t : Rule_LastResetAt r = None → hashAt s (Rule_Key r) !! "last_reset_at" = Some t →
  hashAt (RegisterRule timeString r s) (Rule_Key r) !! "last_reset_at" = Some t.
Proof.
  intros Hr Ht. unfold RegisterRule. rewrite hashAt_HSet, bool_decide_true, lookup_union_r; [done| |done].
  unfold ruleFields. rewrite Hr. cbn [list_to_map foldr uncurry fst snd]. by lookups.
Qed.
Definition redis_laws : @StoreLaws RedisStore (redis_store timeString timeParse).
Proof.
  refine {| holds := hashHolds : RedisStore → gmap string Rule → Prop |}. intros key count now s rules Hs.
  unfold Reserve, redis_store, RedisStore_Reserve, redisAttempt, MemoryStore_Reserve. fold (hashAt s key).
  pose proof (Hs key) as Hk. destruct (rules !! key) as [r|]; [|by rewrite Hk, bool_decide_true].
  rewrite bool_decide_false by (intros He; by rewrite He, parse_nothing in Hk). rewrite Hk. cbn [mbind result_bind].
  destruct (Rule_IsActive r); [|done]. cbn [negb].
  destruct (evaluateReserve r count now) as [reset|e]; [|done]. cbn [mbind result_bind fst snd]. split; [done|].
  apply hashHolds_HSet; [done|]. by apply parse_advance.
Defined.
End redis_laws.

(** *** The engine cannot tell them apart *)
Definition requests : Type := list (string * Z * Z).
Section answers.
Context (timeFormat : Z → string → string).
Fixpoint answers {S} `{!Store S} (reqs : requests) (s : S) : list (result SequenceError (list string)) :=
  match reqs with
  | [] => []
  | (key, count, now) :: reqs => let '(r, s) := GenerateN timeFormat key count now s in r :: answers reqs s
  end.
Lemma GenerateN_memory {S} `{!Store S, !StoreLaws S} key count now (s : S) rules : holds s rules →
  (GenerateN timeFormat key count now s).1 = (GenerateN timeFormat key count now (rules : MemoryStore)).1 ∧
  holds (GenerateN timeFormat key count now s).2 (GenerateN timeFormat key count now (rules : MemoryStore)).2.
Proof.
  intros Hs. unfold GenerateN. destruct (count <? 1); [done|].
  destruct (holds_reserve key count now s rules Hs) as [H1 H2]. cbn [Reserve memory_store].
  destruct (Reserve key count now s) as [r s'], (MemoryStore_Reserve key count now rules) as [r' s'']. cbn in H1 |- *.
  subst r'. by destruct r as [[]|].
Qed.
Lemma answers_memory {S} `{!Store S, !StoreLaws S} reqs : ∀ (s : S) rules, holds s rules →
  answers reqs s = answers reqs (rules : MemoryStore).
Proof.
  induction reqs as [|[[key count] now] reqs IH]; intros s rules Hs; [done|]. cbn [answers].
  destruct (GenerateN_memory key count now s rules Hs) as [H1 H2].
  destruct (GenerateN _ key count now s) as [r s'], (GenerateN _ key count now rules) as [r' s'']. cbn in H1, H2.
  subst r'. f_equal. by apply IH.
Qed.
End answers.

Lemma Register_lookup rules : ∀ (s : MemoryStore) key, NoDup (Rule_Key <$> rules) →
  MemoryStore_Register rules s !! key =
  match tfirst (λ r, bool_decide (Rule_Key r = key)) rules with Some r => Some r | None => s !! key end.
Proof.
  unfold MemoryStore_Register, tfirst. induction rules as [|r rules IH]; intros s key; [done|].
  rewrite fmap_cons, NoDup_cons. intros [Hr Hnd]. cbn [foldl List.find]. rewrite IH by done.
  destruct (bool_decide (Rule_Key r = key)) eqn:Hk.
  - apply bool_decide_eq_true in Hk as <-. destruct (List.find _ rules) as [r'|] eqn:Hf; [|by rewrite lookup_insert_eq].
    apply List.find_some in Hf as [Hin%list_elem_of_In Heq%bool_decide_eq_true]. destruct Hr. rewrite <-Heq.
    by apply list_elem_of_fmap_2.
  - apply bool_decide_eq_false in Hk. by rewrite lookup_insert_ne.
Qed.
Lemma table_registered (models : DBStore) : NoDup (RuleModel_ID <$> models) → NoDup (RuleModel_Key <$> models) →
  tableHolds models (MemoryStore_Register (toRule <$> models) ∅).
Proof.
  intros Hi Hk. split; [done..|]. intros key. rewrite Register_lookup by (by rewrite <-list_fmap_compose).
  assert (∀ l, tfirst (λ r, bool_decide (Rule_Key r = key)) (toRule <$> l) = toRule <$> tfirst (keyed key) l) as ->.
  { intros l. unfold tfirst. induction l as [|m l IH]; [done|]. cbn. rewrite IH. unfold keyed. by destruct (bool_decide _). }
  by destruct (tfirst (keyed key) models).
Qed.
Lemma hash_registered timeString timeParse rules : (∀ t, timeParse (timeString t) = Some t) → (∀ t, timeString t ≠ "") →
  Forall storable rules → ∀ s m, NoDup (Rule_Key <$> rules) → Forall (λ r, m !! Rule_Key r = None) rules →
  hashHolds timeParse s m →
  hashHolds timeParse (foldl (λ s r, RegisterRule timeString r s) s rules) (MemoryStore_Register rules m).
Proof.
  intros Hp Hne. unfold MemoryStore_Register. induction 1 as [|r rules Hr _ IH]; intros s m Hnd Hnew Hs; [done|].
  cbn [foldl]. rewrite fmap_cons, NoDup_cons in Hnd. destruct Hnd as [Hin Hnd]. apply Forall_cons in Hnew as [Hnr Hnew].
  apply IH; [done| |by apply RegisterRule_holds]. apply Forall_forall. intros r' Hr'. rewrite Forall_forall in Hnew.
  rewrite lookup_insert_ne; [by apply Hnew|]. intros He. apply Hin. rewrite He. by apply list_elem_of_fmap_2.
Qed.


(** ** The numbers between two resets *)
Lemma wrapInt64_idemp a b : wrapInt64 (a + wrapInt64 b) = wrapInt64 (a + b).
Proof.
  unfold wrapInt64. f_equal. replace (a + ((b + 2 ^ 63) mod 2 ^ 64 - 2 ^ 63) + 2 ^ 63) with (a + (b + 2 ^ 63) mod 2 ^ 64) by lia.
  rewrite Zplus_mod_idemp_r. f_equal. lia.
Qed.
Lemma wrapInt64_idemp_sub a b : wrapInt64 (a - wrapInt64 b) = wrapInt64 (a - b).
Proof.
  unfold wrapInt64. f_equal.
  replace (a - ((b + 2 ^ 63) mod 2 ^ 64 - 2 ^ 63) + 2 ^ 63) with (a + 2 ^ 64 - (b + 2 ^ 63) mod 2 ^ 64) by lia.
  rewrite Zminus_mod_idemp_r. f_equal. lia.
Qed.
Lemma nextValue_exact base step count : - 2 ^ 63 ≤ base + step * count < 2 ^ 63 → nextValue base step count = base + step * count.
Proof. intros H. unfold nextValue. rewrite wrapInt64_idemp. by apply wrapInt64_small. Qed.
(** The values a batch hands out are the next ones after the base. *)
Lemma batchValues_exact rule base count : 1 ≤ Rule_SeqStep rule → 0 ≤ count →
  - 2 ^ 63 ≤ base → base + Rule_SeqStep rule * count < 2 ^ 63 →
  batchValues rule (base + Rule_SeqStep rule * count) count = (λ i, base + Rule_SeqStep rule * (i + 1)) <$> seqZ 0 count.
Proof.
  intros Hs Hc Hlo Hhi. apply list_fmap_ext. intros i x [Hi1 Hi2]%lookup_seqZ. rewrite wrapInt64_idemp_sub.
  rewrite wrapInt64_small; nia.
Qed.

(** How many numbers of [key] the requests ask for. *)
Fixpoint demand (key : string) (reqs : requests) : Z :=
  match reqs with
  | [] => 0
  | (k, count, _) :: reqs => (if bool_decide (k = key) then Z.max 0 count else 0) + demand key reqs
  end.
(** Whether a reservation starts the counter anew. *)
Definition startsAnew (s : MemoryStore) (key : string) (count now : Z) : bool :=
  match s !! key with
  | Some rule => match evaluateReserve rule count now with Ok resetNeeded => resetNeeded | Err _ => false end
  | None => false
  end.
(** The numbers of [key] handed out since its counter was last reset, with their times. *)
Fixpoint sinceReset (key : string) (reqs : requests) (s : MemoryStore) (acc : list (Z * Z)) : list (Z * Z) :=
  match reqs with
  | [] => acc
  | (k, count, now) :: reqs =>
      let '(r, s') := Reserve k count now s in
      sinceReset key reqs s'
        match r with
        | Ok (rule, newValue) =>
            if bool_decide (k = key) then
              (if startsAnew s key count now then [] else acc) ++ (pair now <$> batchValues rule newValue count)
            else acc
        | Err _ => acc
        end
  end.
Definition progression (base step n : Z) : list Z := (λ i, base + step * (i + 1)) <$> seqZ 0 n.
(** The counter does not leave 64 bits while [d] more numbers are taken. *)
Definition fits (rule : Rule) (d : Z) : Prop :=
  - 2 ^ 63 ≤ Rule_StartValue rule ∧ - 2 ^ 63 ≤ Rule_CurrentValue rule ∧
  Z.max (Rule_StartValue rule) (Rule_CurrentValue rule) + Z.max 0 (Rule_SeqStep rule) * d < 2 ^ 63.
(** Only a full counter that must stop keeps below its ceiling. *)
Definition stopsAtCeiling (rule : Rule) : Prop :=
  0 < Rule_MaxValue rule ∧ Rule_OverflowStrategy rule ≠ OverflowReset ∧ Rule_OverflowStrategy rule ≠ OverflowExtend.

Lemma demand_nonneg key reqs : 0 ≤ demand key reqs.
Proof. induction reqs as [|[[k count] now] reqs IH]; cbn; [lia|]. destruct (bool_decide _); lia. Qed.
Lemma progression_app base step n m : 0 ≤ n → 0 ≤ m →
  progression base step (n + m) = progression base step n ++ progression (base + step * n) step m.
Proof.
  intros Hn Hm. unfold progression. rewrite seqZ_app, fmap_app by done. f_equal.
  apply list_eq. intros i. rewrite !list_lookup_fmap. destruct (decide (Z.of_nat i < m)) as [Hi|Hi].
  - rewrite !lookup_seqZ_lt by done. cbn. f_equal. lia.
  - by rewrite !lookup_seqZ_ge by lia.
Qed.
Lemma progression_upto base step n : 0 ≤ step → Forall (λ x, x ≤ base + step * n) (progression base step n).
Proof.
  intros Hs. apply Forall_forall. intros x (i & -> & Hi%elem_of_seqZ)%list_elem_of_fmap. nia.
Qed.
(** What an accepted reservation says of the rule. *)
Lemma evaluateReserve_Ok rule count now b : evaluateReserve rule count now = Ok b →
  1 ≤ count ∧ 1 ≤ Rule_SeqStep rule ∧
  (stopsAtCeiling rule → nextValue (baseValue rule b) (Rule_SeqStep rule) count ≤ Rule_MaxValue rule).
Proof.
  unfold evaluateReserve. destruct (Z.ltb_spec count 1); [done|]. destruct (Z.ltb_spec (Rule_SeqStep rule) 1); [done|].
  intros He. split; [done|]. split; [done|]. intros (Hmax & Hnr & Hne). revert He.
  rewrite (proj2 (Z.ltb_lt _ _) Hmax). cbn [andb].
  destruct (Z.ltb_spec (Rule_MaxValue rule) (nextValue (baseValue rule (needsResetByCycle rule now)) (Rule_SeqStep rule) count));
    [by destruct (Rule_OverflowStrategy rule)|]. by intros [= <-].
Qed.
Lemma Reserve_inv key count now (s : MemoryStore) k rule : s !! k = Some rule →
  (Reserve key count now s).2 !! k = Some rule ∧ (key = k → ∃ e, (Reserve key count now s).1 = Err e) ∨
  ∃ b, key = k ∧ evaluateReserve rule count now = Ok b ∧
    let rule' := advanceRule rule b count now in
    Reserve key count now s = (Ok (rule', Rule_CurrentValue rule'), <[k := rule']> s).
Proof.
  intros Hk. cbn [Reserve memory_store]. unfold MemoryStore_Reserve. destruct (decide (key = k)) as [->|Hne].
  - rewrite Hk. destruct (Rule_IsActive rule); [|left; by eauto]. cbn [negb].
    destruct (evaluateReserve rule count now) as [b|e]; [|left; by eauto]. right. by exists b.
  - left. split; [|done]. destruct (s !! key) as [r|]; [|done]. destruct (Rule_IsActive r); [|done]. cbn [negb].
    destruct (evaluateReserve r count now) as [b|e]; [|done]. cbn. by rewrite lookup_insert_ne.
Qed.

(** The numbers taken so far run without gaps from [base] to the counter. *)
Record runsFrom (rule : Rule) (acc : list (Z * Z)) (base n : Z) : Prop := {
  rf_length : 0 ≤ n;
  rf_step : n = 0 ∨ 1 ≤ Rule_SeqStep rule;
  rf_numbers : acc.*2 = progression base (Rule_SeqStep rule) n;
  rf_counter : Rule_CurrentValue rule = base + Rule_SeqStep rule * n;
  rf_ceiling : stopsAtCeiling rule → Forall (λ x, x ≤ Rule_MaxValue rule) (acc.*2);
}.
Lemma runsFrom_advance rule acc base n count now b d : evaluateReserve rule count now = Ok b →
  fits rule (count + d) → 0 ≤ d → runsFrom rule acc base n →
  let rule' := advanceRule rule b count now in
  fits rule' d ∧
  runsFrom rule' ((if b then [] else acc) ++ (pair now <$> batchValues rule' (Rule_CurrentValue rule') count))
    (if b then Rule_StartValue rule else base) ((if b then 0 else n) + count).
Proof.
  intros (Hc & Hs & Hmax)%evaluateReserve_Ok (Hlo1 & Hlo2 & Hhi) Hd [Hn _ Hacc Hcur Hceil] rule'. rewrite (Z.max_r 0) in Hhi by lia.
  assert (- 2 ^ 63 ≤ baseValue rule b ∧ baseValue rule b + Rule_SeqStep rule * count < 2 ^ 63) as [Hb1 Hb2].
  { unfold baseValue. destruct b; nia. }
  assert (Rule_CurrentValue rule' = baseValue rule b + Rule_SeqStep rule * count) as Hcur'.
  { change (nextValue (baseValue rule b) (Rule_SeqStep rule) count = baseValue rule b + Rule_SeqStep rule * count).
    apply nextValue_exact. nia. }
  assert (batchValues rule' (Rule_CurrentValue rule') count = progression (baseValue rule b) (Rule_SeqStep rule) count) as Hbatch.
  { rewrite Hcur'. by apply (batchValues_exact rule'); [|lia|..]. }
  rewrite Hbatch. split.
  - unfold fits. rewrite Hcur'. cbn. rewrite (Z.max_r 0) by lia. unfold baseValue in *. destruct b; nia.
  - assert ((pair now <$> progression (baseValue rule b) (Rule_SeqStep rule) count).*2
      = progression (baseValue rule b) (Rule_SeqStep rule) count) as Hsnd by (by rewrite <-list_fmap_compose, list_fmap_id).
    split; [destruct b; lia|by right| | |].
    + rewrite fmap_app, Hsnd. cbn [advanceRule set_counter Rule_SeqStep]. unfold baseValue. destruct b; [done|].
      rewrite Hacc, Hcur. symmetry. apply progression_app; lia.
    + rewrite Hcur'. cbn. unfold baseValue. destruct b; nia.
    + intros Hstop. specialize (Hmax Hstop). rewrite nextValue_exact in Hmax by nia. rewrite fmap_app, Hsnd, Forall_app. split.
      * destruct b; [constructor|by apply Hceil].
      * eapply Forall_impl; [apply progression_upto; lia|]. intros x Hx. cbn in Hx |- *. lia.
Qed.
Lemma runsFrom_start rule : runsFrom rule [] (Rule_CurrentValue rule) 0.
Proof. split; [done|by left|done|lia|constructor]. Qed.
Lemma sinceReset_runs key reqs : ∀ s rule acc base n, s !! key = Some rule → fits rule (demand key reqs) →
  runsFrom rule acc base n →
  ∃ base' n', (base' = base ∨ base' = Rule_StartValue rule) ∧ 0 ≤ n' ∧ (n' = 0 ∨ 1 ≤ Rule_SeqStep rule) ∧
    (sinceReset key reqs s acc).*2 = progression base' (Rule_SeqStep rule) n' ∧
    (stopsAtCeiling rule → Forall (λ x, x ≤ Rule_MaxValue rule) (sinceReset key reqs s acc).*2).
Proof.
  induction reqs as [|[[k count] now] reqs IH]; intros s rule acc base n Hk Hf Hr; cbn [sinceReset demand] in *.
  { exists base, n. destruct Hr. by split_and!; [left|..]. }
  pose proof (demand_nonneg key reqs) as Hd.
  destruct (Reserve_inv k count now s key rule Hk) as [[Hsame Hfail]|(b & -> & Hb & ->)].
  - assert (fits rule (demand key reqs)) as Hf'.
    { destruct Hf as (? & ? & ?). split_and!; [done..|]. destruct (bool_decide _); nia. }
    destruct (Reserve k count now s) as [r s']. cbn in Hsame, Hfail.
    destruct r as [[rule' v]|e]; [|by eapply IH]. rewrite bool_decide_false; [by eapply IH|]. intros Heq.
    by destruct (Hfail Heq).
  - rewrite bool_decide_true in Hf |- * by done. pose proof (evaluateReserve_Ok _ _ _ _ Hb) as (Hc & _ & _).
    rewrite Z.max_r in Hf by lia. destruct (runsFrom_advance rule acc base n count now b _ Hb Hf Hd Hr) as [Hf' Hr'].
    unfold startsAnew. rewrite Hk, Hb. cbn zeta iota.
    destruct (IH _ _ _ _ _ (lookup_insert_eq s key _) Hf' Hr') as (base' & n' & Hbase & Hrest).
    exists base', n'. split; [|exact Hrest]. destruct b; cbn in Hbase; tauto.
Qed.

(** C27. Between two resets the numbers of a key follow each other without gaps or
    repetitions, whatever is asked for other keys and whatever requests fail in
    between: they run in steps of the rule from the start value, or from where the
    counter stood at the beginning.  A counter that must stop at its ceiling never
    hands out a number above it. *)
Theorem numbers_are_gapless key reqs s rule : s !! key = Some rule → fits rule (demand key reqs) →
  let numbers := (sinceReset key reqs s []).*2 in
  (∃ base n, (base = Rule_CurrentValue rule ∨ base = Rule_StartValue rule) ∧ 0 ≤ n ∧
     numbers = progression base (Rule_SeqStep rule) n) ∧
  (stopsAtCeiling rule → Forall (λ x, x ≤ Rule_MaxValue rule) numbers).
Proof.
  intros Hk Hf. destruct (sinceReset_runs key reqs s rule [] (Rule_CurrentValue rule) 0 Hk Hf)
    as (base & n & Hbase & Hn & _ & Hnum & Hceil); [by apply runsFrom_start|]. split; [by exists base, n|done].
Qed.

(** ** The serials *)
Section serials.
Context (timeFormat : Z → string → string).
(** The serials of [key] the engine returned since the last reset. *)
Fixpoint serialsSince (key : string) (reqs : requests) (s : MemoryStore) (acc : list string) : list string :=
  match reqs with
  | [] => acc
  | (k, count, now) :: reqs =>
      let '(r, s') := GenerateN timeFormat k count now s in
      serialsSince key reqs s'
        match r with
        | Ok results => if bool_decide (k = key) then (if startsAnew s key count now then [] else acc) ++ results else acc
        | Err _ => acc
        end
  end.
Definition serialOf (rule : Rule) (tv : Z * Z) : string :=
  buildSingleSerialNo rule tv.2 (FormatDate timeFormat tv.1 (Rule_DateFormat rule)).
Lemma serialsSince_numbers key reqs : ∀ s rule acc, s !! key = Some rule →
  serialsSince key reqs s (serialOf rule <$> acc) = serialOf rule <$> sinceReset key reqs s acc.
Proof.
  induction reqs as [|[[k count] now] reqs IH]; intros s rule acc Hk; [done|]. cbn [serialsSince sinceReset].
  unfold GenerateN. destruct (Reserve_inv k count now s key rule Hk) as [[Hsame Hfail]|(b & -> & Hb & ->)].
  - destruct (Z.ltb_spec count 1) as [Hc|Hc].
    + assert ((Reserve k count now s).2 = s ∧ ∃ e, (Reserve k count now s).1 = Err e) as [Hs [e He]].
      { cbn [Reserve memory_store]. unfold MemoryStore_Reserve, evaluateReserve. rewrite (proj2 (Z.ltb_lt _ _) Hc).
        destruct (s !! k) as [r|]; [destruct (negb (Rule_IsActive r))|]; by eauto. }
      destruct (Reserve k count now s) as [r s']. cbn in Hs, He. subst. by apply IH.
    + destruct (Reserve k count now s) as [r s']. cbn in Hsame, Hfail. destruct r as [[rule' v]|e]; [|by apply IH].
      rewrite bool_decide_false; [by apply IH|]. intros Heq. by destruct (Hfail Heq).
  - pose proof (evaluateReserve_Ok _ _ _ _ Hb) as (Hc & _ & _). rewrite (proj2 (Z.ltb_ge _ _) Hc), bool_decide_true by done.
    unfold startsAnew. rewrite Hk, Hb. cbn zeta iota.
    rewrite <-(list_fmap_ext (serialOf (advanceRule rule b count now)) (serialOf rule) (sinceReset _ _ _ _)) by done.
    etrans; [|apply IH, lookup_insert_eq]. f_equal. rewrite fmap_app. f_equal; [by destruct b|].
    by rewrite <-list_fmap_compose.
Qed.
End serials.

(** The number a zero-padded numeral stands for. *)
Fixpoint readPadded (l : list ascii) : option Z :=
  match l with
  | [] => Some 0
  | a :: rest =>
      if inRange 45 45 a then Z.opp <$> digitsValue 0 rest
      else if inRange 48 48 a then readPadded rest
      else digitsValue 0 l
  end.
Lemma readPadded_digits l z : digitsValue 0 l = Some z → readPadded l = Some z.
Proof.
  induction l as [|a l IH]; [done|]. cbn [digitsValue readPadded]. destruct (isDigit a) eqn:Ha; [|done].
  destruct (signs_are_no_digits a Ha) as [-> _]. destruct (inRange 48 48 a) eqn:H0; [|done].
  unfold inRange in H0. apply andb_true_iff in H0 as [?%Nat.leb_le ?%Nat.leb_le].
  replace (10 * 0 + Z.of_nat (byteOf a - 48)) with 0 by lia. apply IH.
Qed.
Lemma readPadded_pretty (v : Z) k : readPadded (bytes (String.append (zeros k) (pretty v))) = Some v.
Proof.
  rewrite (bytes_app (zeros k)). induction k as [|k IH]; [|exact IH]. cbn [zeros String.list_ascii_of_string app]. clear.
  destruct v as [|p|p]; [done| |].
  - change (pretty (Z.pos p)) with (pretty (N.pos p)). destruct (parseDigits_pretty p) as (a & l & -> & _ & Hp).
    by apply readPadded_digits.
  - change (pretty (Z.neg p)) with (String "-" (pretty (N.pos p))). cbn [String.list_ascii_of_string readPadded].
    change (inRange 45 45 "-") with true. cbn iota. destruct (parseDigits_pretty p) as (a & l & -> & _ & Hp).
    change (digitsValue 0 (a :: l)) with (parseDigits (a :: l)). by rewrite Hp.
Qed.
(** Serials with date parts of one width differ when their numbers do. *)
Lemma buildSingleSerialNo_inj rule v v' d d' : String.length d = String.length d' →
  buildSingleSerialNo rule v d = buildSingleSerialNo rule v' d' → v = v'.
Proof.
  unfold buildSingleSerialNo. intros Hlen Heq%(String.app_inj (Rule_Prefix rule))%(f_equal String.list_ascii_of_string).
  rewrite !bytes_app in Heq. apply app_inj_1 in Heq as [_ Heq]; [|by rewrite !length_bytes].
  rewrite !(app_assoc (bytes (zeros _))) in Heq. apply app_inv_tail in Heq. rewrite <-!bytes_app in Heq.
  apply (f_equal readPadded) in Heq. rewrite !readPadded_pretty in Heq. by injection Heq.
Qed.
Lemma progression_NoDup base step n : 1 ≤ step → NoDup (progression base step n).
Proof.
  intros Hs. apply NoDup_fmap_2_strong; [|apply NoDup_seqZ]. intros i j _ _ Hij. nia.
Qed.
(** C31. The serials of a key never repeat between two resets: where the date parts of
    its rule have one width, as those of the supported placeholders have, all the
    serials the engine returned for the key since its counter was last reset are
    different from each other. *)
Theorem serials_are_unique timeFormat key reqs s rule width : s !! key = Some rule → fits rule (demand key reqs) →
  (∀ t, String.length (FormatDate timeFormat t (Rule_DateFormat rule)) = width) →
  NoDup (serialsSince timeFormat key reqs s []).
Proof.
  intros Hk Hf Hw. pose proof (serialsSince_numbers timeFormat key reqs s rule [] Hk) as He. cbn in He. rewrite He. clear He.
  destruct (sinceReset_runs key reqs s rule [] (Rule_CurrentValue rule) 0 Hk Hf)
    as (base & n & _ & _ & Hstep & Hnum & _); [by apply runsFrom_start|]. set (l := sinceReset key reqs s []) in *.
  assert (NoDup l.*2) as Hnd.
  { rewrite Hnum. destruct Hstep as [->|]; [constructor|by apply progression_NoDup]. }
  apply NoDup_alt. intros i j x. rewrite !list_lookup_fmap.
  intros (tv & Hi & ->)%fmap_Some (tv' & Hj & Heq)%fmap_Some.
  apply buildSingleSerialNo_inj in Heq; [|by rewrite !Hw].
  apply (NoDup_lookup _ i j tv.2 Hnd); rewrite list_lookup_fmap; [by rewrite Hi|]. rewrite Hj. cbn. by rewrite Heq.
Qed.

(** ** The ceiling of a counter that starts over *)

(** C34. A counter with the overflow strategy [reset] passes its ceiling: a batch that
    does not fit is answered by a reset to the start value without asking whether it
    fits from there, so a batch wider than the whole range is handed out with numbers
    above [MaxValue]; only when the cycle resets the counter as well is it refused. *)
Theorem oversized_batch_passes_ceiling key count now (s : MemoryStore) rule :
  s !! key = Some rule → Rule_IsActive rule = true → 1 ≤ count → 1 ≤ Rule_SeqStep rule → 0 < Rule_MaxValue rule →
  Rule_OverflowStrategy rule = OverflowReset →
  Rule_MaxValue rule < nextValue (Rule_CurrentValue rule) (Rule_SeqStep rule) count →
  Rule_MaxValue rule < nextValue (Rule_StartValue rule) (Rule_SeqStep rule) count →
  if needsResetByCycle rule now then Reserve key count now s = (Err ErrSequenceOverflow, s)
  else ∃ rule' newValue s', Reserve key count now s = (Ok (rule', newValue), s') ∧ Rule_MaxValue rule < newValue.
Proof.
  intros Hk Ha Hc Hs Hmax Ho Hcur Hstart. cbn [Reserve memory_store]. unfold MemoryStore_Reserve, evaluateReserve.
  rewrite Hk, Ha, (proj2 (Z.ltb_ge _ _) Hc), (proj2 (Z.ltb_ge _ _) Hs), (proj2 (Z.ltb_lt _ _) Hmax), Ho. cbn [negb andb].
  destruct (needsResetByCycle rule now); cbn [baseValue].
  - by rewrite (proj2 (Z.ltb_lt _ _) Hstart).
  - rewrite (proj2 (Z.ltb_lt _ _) Hcur). eexists _, _, _. by split.
Qed.

(** ** Racing clients of Redis *)

(** The optimistic loop of the Redis store is atomic: however many writes of other
    clients make its transaction fail, it ends, and its outcome is that of one
    undisturbed reservation on what some of those writes, in their order, left. *)
Theorem retries_linearize timeString timeParse clashes key count now s :
  ∃ k, RedisStore_Reserve timeString timeParse clashes key count now s =
       @Reserve RedisStore (redis_store timeString timeParse) key count now (foldl (λ s clash, clash s) s (take k clashes)).
Proof.
  unfold Reserve, redis_store. revert s. induction clashes as [|clash clashes IH]; intros s; [by exists 0%nat|].
  cbn [RedisStore_Reserve]. destruct (redisAttempt timeString timeParse key count now s) as [[[rule v] s']|e] eqn:Hr.
  - destruct (IH (clash s)) as [k Hk]. exists (S k). by rewrite Hk.
  - exists 0%nat. cbn [take foldl]. by rewrite Hr.
Qed.

(** ** Witnesses *)
Definition invoiceRule : RuleModel :=
  Build_RuleModel "r1" "invoice" "Invoices" (Some "INV-") None (Some "yyyy") 4 1 0 9999 OverflowError ResetYearly 41 (Some 1735689600)
    true None.
Definition ticketRule : RuleModel :=
  Build_RuleModel "r2" "ticket" "Tickets" None (Some "T") None 3 5 0 100 OverflowReset ResetNone 90 None true None.
Definition someRequests : requests :=
  [("invoice", 2, 1735700000); ("ticket", 3, 1735700000); ("nowhere", 1, 1735700000); ("invoice", 0, 1735700000);
   ("invoice", 1, 1767300000)].
Definition decimalTime (t : Z) : string := pretty t.
Definition readDecimal (s : string) : option Z := readPadded (bytes s).
Lemma readDecimal_decimalTime t : readDecimal (decimalTime t) = Some t.
Proof. apply (readPadded_pretty t 0). Qed.
Lemma decimalTime_nonempty t : decimalTime t ≠ "".
Proof.
  intros He. pose proof (readDecimal_decimalTime t) as Ht. rewrite He in Ht. injection Ht as <-. by apply (f_equal String.length) in He.
Qed.
Lemma storable_rules : Forall storable (toRule <$> [invoiceRule; ticketRule]).
Proof. repeat constructor. Qed.
Definition registered : MemoryStore := MemoryStore_Register (toRule <$> [invoiceRule; ticketRule]) ∅.
Lemma numbers_are_gapless_witness :
  (sinceReset "invoice" (take 4 someRequests) registered []).*2 = [42; 43] ∧
  Forall (λ x, x ≤ 9999) (sinceReset "invoice" (take 4 someRequests) registered []).*2.
Proof.
  split; [vm_compute; reflexivity|].
  apply (numbers_are_gapless "invoice" (take 4 someRequests) registered (toRule invoiceRule)); [reflexivity|by repeat split|by repeat split].
Defined.
Lemma serials_are_unique_witness :
  serialsSince (λ _ layout, layout) "ticket" someRequests registered [] = ["005T"; "010T"; "015T"] ∧
  NoDup (serialsSince (λ _ layout, layout) "ticket" someRequests registered []).
Proof.
  split; [vm_compute; reflexivity|].
  apply (serials_are_unique _ "ticket" someRequests registered (toRule ticketRule) 0); [reflexivity|by repeat split|done].
Defined.
(** Thirty tickets in steps of five under a ceiling of 100: the last is number 150. *)
Lemma oversized_batch_passes_ceiling_witness :
  needsResetByCycle (toRule ticketRule) 0 = false ∧
  (∃ rule' newValue s', Reserve "ticket" 30 0 registered = (Ok (rule', newValue), s') ∧ 100 < newValue).
Proof.
  split; [reflexivity|].
  exact (oversized_batch_passes_ceiling "ticket" 30 0 registered (toRule ticketRule) eq_refl eq_refl ltac:(lia) ltac:(done) ltac:(done)
    eq_refl ltac:(done) ltac:(done)).
Defined.
